(* ===== verification/_CoqProject ===== *)
-Q . S2P
Prelude.v
Proc.v
Queues.v
AbsProc.v
Sched.v
SchedSpec.v
SchedProofs.v
TimerProofs.v
Lifecycle.v
DemoProc.v
ProcProps.v
Bytes.v
Disk.v
FileSys.v
FsRead.v
FsWrite.v
FsAlloc.v
FsGrow.v
FsWriteKr.v
FsOpen.v
DemoFs.v
FsProps.v
Pmap.v
PmapSpec.v
PmapProofs.v
PmapAlloc.v
PmapCopy.v
PmapBoot.v
PmapProps.v
CopyProps.v
Remap.v
Printk.v
Keyboard.v
Readline.v
Video.v
Descr.v
System.v
Spawn.v
Loader.v
Boot.v
Devices.v
Ls.v
Kernel.v
Safe.v
SpawnProofs.v
Awake.v
KernelProofs.v
BootInv.v
KernelTotal.v
Syscalls.v
KernelProps.v
Isolation.v
IsolationProps.v
EntryPgdir.v
Fork.v
Fmt.v
FmtProofs.v
FmtCopy.v
FmtImage.v
FmtFormat.v
FmtProps.v
UserMem.v
LoaderProofs.v
LoaderProps.v
Exec.v
Rnd.v
Stage.v
StageProofs.v
Game.v
GameProofs.v
GameProps.v
Shell.v
ShellProofs.v
ShellProps.v
ShellCat.v
ShellFs.v
ShellPorts.v
FsCreate.v
ShellRoundtrip.v
App.v
