(* ===== verification/Prelude.v ===== *)
(** * A small kernel: processes, memory, files, devices

    A verification development for the C code of a teaching operating
    system for the i386: a boot loader, a kernel with processes, threads,
    semaphores, virtual memory, a file system and drivers for the disk, the
    keyboard, the timer and the screen, and the stubs by which programs call
    it.  Paths below are relative to [src/].

    ** How the kernel is put together

    [boot/bootloader.c] reads the kernel's ELF file from the disk and enters
    it; [entry.S] maps the first 4 MB with [paging/entrypgdir.c];
    [kernel.c]'s [main] initialises each component, makes an idle process
    and a shell, and leaves through the scheduler.  From then on the kernel
    runs only in [irq_handle]: for the timer ([do_timer]), the keyboard
    ([press_key]) and system calls ([do_syscall]).  A handler returns to the
    process it interrupted, or calls [scheduler_switch], which loads another
    process's stack and page directory and never comes back.  Components
    share state: the scheduler, semaphores, [exit], [join] and [fork] move
    PCBs between queues that are linked through the PCBs themselves; loaders
    and [fork] fill address spaces page by page; files are reached through
    the descriptors in the PCB.

    ** How it is modelled

    A function is a computation of the state monad [M] of this file, with
    three outcomes: [Ret], [Jump] (the process switch) and [Fault] (null or
    stray pointer, index out of bounds, fuel).  [wp] says that a computation
    does not fault; theorems proved with it are total.  [kp] of Safe allows
    faults and is used only where the claim is about what the processes are
    like when a handler is left.  Integers are [Z] with the wrap-around of
    their width written out ([u8], [u16], [u32], [i32]).  Pointers are
    indexes or addresses; memory is a function from addresses to words.

    ** Components, files and code

    - Processes.  Proc: PCBs, the queues' heads and [ll_*] of
      [kernel/src/process.c]; Queues: the lists are well formed and what the
      operations do to them; AbsProc: states with links erased and queues as
      lists; Sched: [scheduler.c], [timer.c], [semaphore.c], [exit], [join];
      SchedSpec: the abstract scheduler and the invariants [AProc], [ASem],
      [KInv]; SchedProofs, TimerProofs, Lifecycle: the operations meet it;
      ProcProps: the properties.  Spawn: creation, [fork], threads; Loader:
      [loader.c]; UserMem: the bytes of an address space;
      LoaderProofs, LoaderProps: a program file becomes a process;
      Exec: [exec], which replaces the program that calls it;
      SpawnProofs: they keep the invariant; Fork: what [fork]
      makes, exactly.
    - Files.  Bytes: little-endian words; Disk: [inc/disk.h]; FileSys:
      [fs/file.c]; FsRead, FsWrite, FsAlloc, FsGrow, FsWriteKr, FsOpen:
      lemmas per operation; FsCreate: a
      file found by its name again after a write, and a new file; Ls: [fs_ls_kr] and [init_fs]; FsProps: the
      properties.
    - The disk image.  Fmt: [formatter], [copy2myfs] and [read_myfs] of
      [fmt/]; FmtProofs, FmtCopy, FmtImage, FmtFormat: what each
      leaves in the image; FmtProps: the build as a whole, and what the
      kernel and the boot loader find in its image.
    - Memory.  Pmap: [paging/pmap.c] and the macros of [inc/mmu.h];
      PmapSpec: address arithmetic, the free list; PmapProofs, PmapAlloc,
      PmapBoot, PmapCopy: lemmas; PmapProps, CopyProps: the properties;
      Remap: mapping over pages that are mapped;
      EntryPgdir: [paging/entrypgdir.c].
    - Output and input.  Printk: [lib/printk.c]; Keyboard, Readline,
      [keyboard.c]; Video: [video.c].
    - Processor tables and devices.  Descr: [memory/kvm.c],
      [irq/idt.c], [memory/util.c]; Devices: the initialisation sequences of
      [serial.h], [timer.h], [i8259.h].
    - The game.  Rnd: [rnd.c]; Stage: [stage.h]; Game: [game.c];
      StageProofs, GameProofs: what is drawn, and the invariant of the
      frames; GameProps: the properties.
    - The shell.  Shell: [cshell/src/main.c], as calls to a kernel that is a
      parameter; ShellProofs: what [parse_arg] makes of a line;
      ShellProps, ShellCat: the commands; ShellFs: the kernel's side of the
      file calls, computed by FileSys; ShellPorts: the dispatcher's file
      calls are the same; ShellRoundtrip: [echo], then [cat].  App: [app/src/main.c].
    - The whole.  System: the state of all components and the kernel's
      accesses to user memory; Kernel: [do_syscall.c], [irq_handle.c],
      [kernel.c]; Syscalls: [lib/syscall.h]; Safe, Awake, KernelProofs,
      BootInv, KernelTotal: every handler keeps the invariant; KernelProps:
      the properties.  Isolation: what each operation leaves of the
      processes that do not run; IsolationProps: the properties.  Boot: [boot/bootloader.c].
    - DemoProc, DemoFs and the demo states in the property files are the
      concrete inputs of the witnesses.

    ** What the theorems show

    - Kernel: after any sequence of interrupts the queues are lists, no
      process is queued twice or lost, semaphore counts agree with their
      waiters and a kernel process is runnable; boot establishes this; the
      process, screen, timer and keyboard paths always complete; a switch
      loads the right directory and stack; stubs and dispatcher agree.  No
      process touches another's registers, address space or descriptors, and
      one that is preempted goes on as if nothing had happened.
    - Processes: each scheduling, timer, semaphore, exit and join operation
      is the corresponding move on lists (refinement); round robin; the
      length of a sleep; what [fork] gives child and parent, the
      child's address space being one [exec] can replace; [exec] puts the new
      program in the place of the old one and loses no frame.
    - Files: making a file, writing and reading back, the frame of a write, the directory
      entry; other files are kept.  The image: the build of files that fit
      succeeds, and the running kernel reads each of them back; a program
      among them is loaded as its headers say.
    - Memory: boot mapping, allocation, insertion, removal and copying of
      address spaces, in terms of the processor's translation [translate];
      the TLB is kept true to the tables ([coherent]).  Over a space in use,
      [mm_alloc] loses no frame and uses none twice.
    - Devices and output: numerals of [printk]; the keys held; the edited
      line; the picture on the screen; descriptors and gates field by field.
    - The shell: a line is taken apart into its words; redirections write
      what they should; [cat] prints or copies a file.  From the build to the
      screen: a file put into the image is what [cat] of it prints, through
      the shell, the descriptors and the file system; so is what [echo]
      wrote.
    - The game: no run goes wrong, whatever the keys; what is eaten and what
      is seen; square roots and random numbers.
    - Where the code does not do what it should the theorem states what it
      does: unmapped [page_remove], the key 7, the ghost frame, [sleep(0)],
      the pool of PCBs that overlaps the free pages, [cat] of a file of 1024
      bytes or more, the empty command line.

    ** Bounds and fuel

    Queue loops take [ll_fuel], one more than the PCBs there are; theorems
    under [Repr] show it is enough.  Loops over pages, entries, sectors and
    bytes run for their trip count.  [frames_fuel] exceeds the words of a
    stack.  [OutOfFuel] is a fault, so a [wp] theorem excludes it.

    ** Not modelled

    Assembly ([mbr.S], [entry.S], [do_irq.S]); permission bits in the TLB; polling of device
    status; the library's [printf] in the shell and the test program, whose
    text is what [vfprintf] of Printk makes of the format.  The kernel stack of a process is its trap frame ([p_frame]) and otherwise
    plain memory.  A semaphore is known by its address: one in user memory
    is not copied by [fork].  PCBs are a table apart from [mm_mem], which is
    faithful as long as no page overlaps the pool (see [pool_overlaps_free]
    of Fork).  Theorems on allocation start from free pages in
    order ([fresh]), which is how they are until a page is freed; those of
    Remap and Exec do not, and ask for the page tables instead: a program
    [exec] loads is within the tables its caller had. *)

From stdpp Require Export base tactics numbers list gmap functions.
From stdpp Require Export list options.
#[export] Set Warnings "-clear-no-such-hyp".

#[global] Open Scope Z_scope.
#[global] Set Default Proof Using "Type".

(** ** C integers

    The code is compiled for i386 without optimisation: [int] and
    [unsigned int] are 32 bits wide and arithmetic wraps.  A C value is the
    [Z] it denotes; an operation that can leave the range is followed by
    [u32], [i32] or [u16]. *)

Definition u8 (x : Z) : Z := x mod 2 ^ 8.
Definition u16 (x : Z) : Z := x mod 2 ^ 16.
Definition u32 (x : Z) : Z := x mod 2 ^ 32.
Definition i32 (x : Z) : Z := (x + 2 ^ 31) mod 2 ^ 32 - 2 ^ 31.

Definition is_u32 (x : Z) : Prop := 0 <= x < 2 ^ 32.
Definition is_i32 (x : Z) : Prop := - 2 ^ 31 <= x < 2 ^ 31.

Create HintDb cint discriminated.

Lemma u32_id x : is_u32 x -> u32 x = x.
Proof. unfold is_u32, u32. intros. by apply Z.mod_small. Qed.

Lemma u16_id x : 0 <= x < 2 ^ 16 -> u16 x = x.
Proof. unfold u16. intros. by apply Z.mod_small. Qed.

Lemma i32_id x : is_i32 x -> i32 x = x.
Proof. unfold is_i32, i32. intros. rewrite Z.mod_small; lia. Qed.

Lemma u32_range x : is_u32 (u32 x).
Proof. unfold is_u32, u32. apply Z.mod_pos_bound; lia. Qed.

Lemma i32_range x : is_i32 (i32 x).
Proof.
  unfold is_i32, i32.
  pose proof (Z.mod_pos_bound (x + 2 ^ 31) (2 ^ 32) ltac:(lia)). lia.
Qed.

Lemma u32_i32 x : u32 (i32 x) = u32 x.
Proof.
  unfold u32, i32. rewrite Zminus_mod_idemp_l. f_equal. lia.
Qed.

#[export] Hint Resolve u32_range i32_range : cint.

(** ** Effects

    A C function of the kernel is a state transformer with three outcomes:
    it returns, it leaves through [scheduler_switch] (which loads another
    stack pointer and jumps, and never comes back), or it does something C
    gives no meaning to.  [OutOfFuel] is the outcome of a model loop that
    was given too little fuel; no theorem accepts it as a result. *)

Inductive fault : Type :=
  | NullPointer
  | OutOfBounds
  | OutOfFuel.

Inductive outcome (S A : Type) : Type :=
  | Ret (a : A) (s : S)
  | Jump (s : S)
  | Fault (e : fault).
Arguments Ret {S A} a s.
Arguments Jump {S A} s.
Arguments Fault {S A} e.

Definition M (S A : Type) : Type := S -> outcome S A.

#[global] Instance M_ret S : MRet (M S) := fun A a s => Ret a s.
#[global] Instance M_bind S : MBind (M S) := fun A B k c s =>
  match c s with
  | Ret a s' => k a s'
  | Jump s' => Jump s'
  | Fault e => Fault e
  end.

Definition fail {S A} (e : fault) : M S A := fun _ => Fault e.
Definition get {S} : M S S := fun s => Ret s s.
Definition gets {S A} (f : S -> A) : M S A := fun s => Ret (f s) s.
Definition modify {S} (f : S -> S) : M S unit := fun s => Ret tt (f s).
Definition jump {S A} : M S A := fun s => Jump s.

(** Dereferencing a pointer or indexing an array: [None] is the fault. *)
Definition from_option_or {S A} (e : fault) (o : option A) : M S A :=
  match o with Some a => mret a | None => fail e end.

(** A function of a component run on the part of the state it owns. *)
Definition zoom {S T A} (rd : T -> S) (wr : S -> T -> T) (c : M S A) : M T A :=
  fun t =>
    match c (rd t) with
    | Ret a s => Ret a (wr s t)
    | Jump s => Jump (wr s t)
    | Fault e => Fault e
    end.

Lemma bind_Ret {S A B} (c : M S A) (k : A -> M S B) s a s' :
  c s = Ret a s' -> (c ≫= k) s = k a s'.
Proof. intros H. unfold mbind, M_bind. by rewrite H. Qed.

Lemma bind_Jump {S A B} (c : M S A) (k : A -> M S B) s s' :
  c s = Jump s' -> (c ≫= k) s = Jump s'.
Proof. intros H. unfold mbind, M_bind. by rewrite H. Qed.

Lemma bind_Fault {S A B} (c : M S A) (k : A -> M S B) s e :
  c s = Fault e -> (c ≫= k) s = Fault e.
Proof. intros H. unfold mbind, M_bind. by rewrite H. Qed.

(** Weakest precondition: [c] from [s] does not fault, returns only in
    states [Q] allows and jumps only in states [J] allows. *)
Definition wp {S A} (c : M S A) (Q : A -> S -> Prop) (J : S -> Prop) (s : S) : Prop :=
  match c s with
  | Ret a s' => Q a s'
  | Jump s' => J s'
  | Fault _ => False
  end.

Section wp_rules.
Context {S : Type}.
Implicit Types (J : S -> Prop) (s : S).

Lemma wp_ret {A} (a : A) (Q : A -> S -> Prop) J s :
  Q a s -> wp (mret a) Q J s.
Proof. done. Qed.

Lemma wp_bind {A B} (c : M S A) (k : A -> M S B) Q J s :
  wp c (fun a s' => wp (k a) Q J s') J s -> wp (c ≫= k) Q J s.
Proof. unfold wp, mbind, M_bind. by destruct (c s). Qed.

Lemma wp_mono {A} (c : M S A) (Q Q' : A -> S -> Prop) J J' s :
  wp c Q J s -> (forall a s', Q a s' -> Q' a s') ->
  (forall s', J s' -> J' s') -> wp c Q' J' s.
Proof. unfold wp. destruct (c s); naive_solver. Qed.

Lemma wp_modify (f : S -> S) (Q : unit -> S -> Prop) J s :
  Q tt (f s) -> wp (modify f) Q J s.
Proof. done. Qed.

Lemma wp_get (Q : S -> S -> Prop) J s : Q s s -> wp get Q J s.
Proof. done. Qed.

Lemma wp_gets {A} (f : S -> A) (Q : A -> S -> Prop) J s :
  Q (f s) s -> wp (gets f) Q J s.
Proof. done. Qed.

Lemma wp_jump {A} (Q : A -> S -> Prop) J s : J s -> wp jump Q J s.
Proof. done. Qed.

Lemma wp_from_option {A} e (o : option A) a (Q : A -> S -> Prop) J s :
  o = Some a -> Q a s -> wp (from_option_or e o) Q J s.
Proof. by intros ->. Qed.

(** The outcome of what follows, faults included, is the outcome. *)
Lemma wp_then {A B} (c : M S A) (k : A -> M S B) o s :
  wp c (fun a s' => k a s' = o) (fun _ => False) s -> (c ≫= k) s = o.
Proof. unfold wp, mbind, M_bind. by destruct (c s). Qed.

Lemma wp_eq {A} (c : M S A) a s' (Q : A -> S -> Prop) J s :
  c s = Ret a s' -> Q a s' -> wp c Q J s.
Proof. intros H. unfold wp. by rewrite H. Qed.

(** The result of a computation is that of its run. *)
Lemma wp_runs {A} (m : M S A) (Q : A -> S -> Prop) J s : wp m (fun x s' => m s = Ret x s' -> Q x s') J s -> wp m Q J s.
Proof. unfold wp. destruct (m s); auto. Qed.
End wp_rules.

(** Step through a monadic program in a [wp] goal. *)
Ltac wp_step :=
  lazymatch goal with
  | |- wp (mbind _ _) _ _ _ => apply wp_bind
  | |- wp (mret _) _ _ _ => apply wp_ret
  | |- wp (modify _) _ _ _ => apply wp_modify
  | |- wp get _ _ _ => apply wp_get
  | |- wp (gets _) _ _ _ => apply wp_gets
  | |- wp jump _ _ _ => apply wp_jump
  | |- wp (from_option_or _ (Some _)) _ _ _ => eapply wp_from_option; [done|]
  | |- wp (from_option_or _ _) _ _ _ => eapply wp_from_option; [eassumption|]
  end; cbn beta iota.
Ltac wp_steps := repeat wp_step.

(** Run the head of an equational goal [(c ≫= k) s = _] with [H : c s = Ret a s']. *)
Tactic Notation "run" uconstr(H) := erewrite bind_Ret by (eapply H); cbn beta iota.
