(* ===== verification/Proc.v ===== *)
(** * Processes: the PCB pool, its queues and the [ll_*] list operations

    Models the data of [kernel/include/process.h] and [kernel/src/process.c]
    (lines 9-80): the PCB pool, the globals that point into it, and the
    singly linked queues threaded through [PCB.next].  A [PCB *] is the index
    of the PCB in [PCBPool], [None] being [NULL]; a [PCB **] argument, the
    address of a list head, is a [headref]. *)

From S2P Require Import Prelude.

(** ** Data *)

Inductive TASK_STATE : Type := READY | RUNNING | STOP | SLEEPING | HUNGUP.
Inductive TASK_TYPE : Type := KERNEL | USER | THREAD.

#[global] Instance TASK_STATE_eq_dec : EqDecision TASK_STATE.
Proof. solve_decision. Defined.
#[global] Instance TASK_TYPE_eq_dec : EqDecision TASK_TYPE.
Proof. solve_decision. Defined.

Definition PCBPOOLMAX : nat := 1000.
Definition FCBMAX : nat := 256.
Definition NR_SEMS : nat := 1000.

(** The registers a trap pushes ([struct TrapFrame] of [inc/x86.h]). *)
Record TrapFrame : Type := mkTrapFrame {
  edi : Z; esi : Z; ebp : Z; old_esp : Z; ebx : Z; edx : Z; ecx : Z; eax : Z;
  gs : Z; fs_sel : Z; es : Z; ds : Z;
  irq : Z; error_code : Z; eip : Z; cs : Z; eflags : Z; esp : Z; ss : Z }.

(** [PCB *] *)
Definition pcb_ptr : Type := option nat.

(** Where a [struct TrapFrame *] points: into [tfPool], or at the frame on
    the kernel stack of a PCB. *)
Inductive tf_ptr : Type :=
  | TFPool (i : nat)
  | TFStack (i : nat).

Record PCB : Type := mkPCB {
  p_used : Z;
  p_pid : Z;
  p_ppid : Z;
  p_ts : TASK_STATE;
  p_tt : TASK_TYPE;
  p_timeslice : Z;
  p_tf : tf_ptr;
  p_frame : TrapFrame;        (* the trap frame held by [kstack] *)
  p_pgdir : Z;
  p_fcb : list Z;             (* fcb[i].fd_kr *)
  p_next : pcb_ptr;
  p_tail : pcb_ptr;
  p_join_list : pcb_ptr }.

Record Semaphore : Type := mkSemaphore {
  sem_used : Z;
  sem_count : Z;
  sem_block_list : pcb_ptr }.

(** The globals of [process.c], [scheduler.c], [timer.c] and [semaphore.c].
    A [Semaphore *] is the address it holds: [k_sems] is the memory at that
    type, for the elements of [sems] and for semaphores in user memory. *)
Record kst : Type := mkKst {
  k_PCBPool : list PCB;
  k_tfPool : list TrapFrame;
  k_pid : Z;
  k_current : pcb_ptr;
  k_ready_list : pcb_ptr;
  k_sleep_list : pcb_ptr;
  k_tick : Z;
  k_count : Z;
  k_sems : gmap Z Semaphore }.

(** ** Field updates *)

Definition with_used v c := mkPCB v (p_pid c) (p_ppid c) (p_ts c) (p_tt c) (p_timeslice c) (p_tf c) (p_frame c) (p_pgdir c) (p_fcb c) (p_next c) (p_tail c) (p_join_list c).
Definition with_pid v c := mkPCB (p_used c) v (p_ppid c) (p_ts c) (p_tt c) (p_timeslice c) (p_tf c) (p_frame c) (p_pgdir c) (p_fcb c) (p_next c) (p_tail c) (p_join_list c).
Definition with_ppid v c := mkPCB (p_used c) (p_pid c) v (p_ts c) (p_tt c) (p_timeslice c) (p_tf c) (p_frame c) (p_pgdir c) (p_fcb c) (p_next c) (p_tail c) (p_join_list c).
Definition with_ts v c := mkPCB (p_used c) (p_pid c) (p_ppid c) v (p_tt c) (p_timeslice c) (p_tf c) (p_frame c) (p_pgdir c) (p_fcb c) (p_next c) (p_tail c) (p_join_list c).
Definition with_tt v c := mkPCB (p_used c) (p_pid c) (p_ppid c) (p_ts c) v (p_timeslice c) (p_tf c) (p_frame c) (p_pgdir c) (p_fcb c) (p_next c) (p_tail c) (p_join_list c).
Definition with_timeslice v c := mkPCB (p_used c) (p_pid c) (p_ppid c) (p_ts c) (p_tt c) v (p_tf c) (p_frame c) (p_pgdir c) (p_fcb c) (p_next c) (p_tail c) (p_join_list c).
Definition with_tf v c := mkPCB (p_used c) (p_pid c) (p_ppid c) (p_ts c) (p_tt c) (p_timeslice c) v (p_frame c) (p_pgdir c) (p_fcb c) (p_next c) (p_tail c) (p_join_list c).
Definition with_frame v c := mkPCB (p_used c) (p_pid c) (p_ppid c) (p_ts c) (p_tt c) (p_timeslice c) (p_tf c) v (p_pgdir c) (p_fcb c) (p_next c) (p_tail c) (p_join_list c).
Definition with_pgdir v c := mkPCB (p_used c) (p_pid c) (p_ppid c) (p_ts c) (p_tt c) (p_timeslice c) (p_tf c) (p_frame c) v (p_fcb c) (p_next c) (p_tail c) (p_join_list c).
Definition with_fcb v c := mkPCB (p_used c) (p_pid c) (p_ppid c) (p_ts c) (p_tt c) (p_timeslice c) (p_tf c) (p_frame c) (p_pgdir c) v (p_next c) (p_tail c) (p_join_list c).
Definition with_next v c := mkPCB (p_used c) (p_pid c) (p_ppid c) (p_ts c) (p_tt c) (p_timeslice c) (p_tf c) (p_frame c) (p_pgdir c) (p_fcb c) v (p_tail c) (p_join_list c).
Definition with_tail v c := mkPCB (p_used c) (p_pid c) (p_ppid c) (p_ts c) (p_tt c) (p_timeslice c) (p_tf c) (p_frame c) (p_pgdir c) (p_fcb c) (p_next c) v (p_join_list c).
Definition with_join v c := mkPCB (p_used c) (p_pid c) (p_ppid c) (p_ts c) (p_tt c) (p_timeslice c) (p_tf c) (p_frame c) (p_pgdir c) (p_fcb c) (p_next c) (p_tail c) v.

Definition with_PCBPool v s := mkKst v (k_tfPool s) (k_pid s) (k_current s) (k_ready_list s) (k_sleep_list s) (k_tick s) (k_count s) (k_sems s).
Definition with_tfPool v s := mkKst (k_PCBPool s) v (k_pid s) (k_current s) (k_ready_list s) (k_sleep_list s) (k_tick s) (k_count s) (k_sems s).
Definition with_pid_counter v s := mkKst (k_PCBPool s) (k_tfPool s) v (k_current s) (k_ready_list s) (k_sleep_list s) (k_tick s) (k_count s) (k_sems s).
Definition with_current v s := mkKst (k_PCBPool s) (k_tfPool s) (k_pid s) v (k_ready_list s) (k_sleep_list s) (k_tick s) (k_count s) (k_sems s).
Definition with_ready v s := mkKst (k_PCBPool s) (k_tfPool s) (k_pid s) (k_current s) v (k_sleep_list s) (k_tick s) (k_count s) (k_sems s).
Definition with_sleep v s := mkKst (k_PCBPool s) (k_tfPool s) (k_pid s) (k_current s) (k_ready_list s) v (k_tick s) (k_count s) (k_sems s).
Definition with_tick v s := mkKst (k_PCBPool s) (k_tfPool s) (k_pid s) (k_current s) (k_ready_list s) (k_sleep_list s) v (k_count s) (k_sems s).
Definition with_count v s := mkKst (k_PCBPool s) (k_tfPool s) (k_pid s) (k_current s) (k_ready_list s) (k_sleep_list s) (k_tick s) v (k_sems s).
Definition with_sems v s := mkKst (k_PCBPool s) (k_tfPool s) (k_pid s) (k_current s) (k_ready_list s) (k_sleep_list s) (k_tick s) (k_count s) v.

Definition with_sem_used v m := mkSemaphore v (sem_count m) (sem_block_list m).
Definition with_sem_count v m := mkSemaphore (sem_used m) v (sem_block_list m).
Definition with_block_list v m := mkSemaphore (sem_used m) (sem_count m) v.

(** ** Pointer accesses *)

(** [*p] for a [PCB *p] *)
Definition get_pcb (p : pcb_ptr) : M kst PCB :=
  i ← from_option_or NullPointer p;
  s ← get;
  from_option_or OutOfBounds (k_PCBPool s !! i).

Definition upd_pcb (p : pcb_ptr) (f : PCB -> PCB) : M kst unit :=
  c ← get_pcb p;
  i ← from_option_or NullPointer p;
  modify (fun s => with_PCBPool (<[i := f c]> (k_PCBPool s)) s).

(** [*m] for a [Semaphore *m] *)
Definition get_sem (m : Z) : M kst Semaphore :=
  s ← get; from_option_or OutOfBounds (k_sems s !! m).

Definition upd_sem (m : Z) (f : Semaphore -> Semaphore) : M kst unit :=
  c ← get_sem m;
  modify (fun s => with_sems (<[m := f c]> (k_sems s)) s).

(** The list heads whose address the code takes. *)
Inductive headref : Type :=
  | HReady                    (* &ready_list *)
  | HSleep                    (* &sleep_list *)
  | HBlock (m : Z)            (* &m->block_list *)
  | HJoin (p : nat).          (* &PCBPool[p].join_list *)

#[global] Instance headref_eq_dec : EqDecision headref.
Proof. solve_decision. Defined.

Definition get_head (h : headref) : M kst pcb_ptr :=
  match h with
  | HReady => gets k_ready_list
  | HSleep => gets k_sleep_list
  | HBlock m => c ← get_sem m; mret (sem_block_list c)
  | HJoin p => c ← get_pcb (Some p); mret (p_join_list c)
  end.

Definition set_head (h : headref) (v : pcb_ptr) : M kst unit :=
  match h with
  | HReady => modify (with_ready v)
  | HSleep => modify (with_sleep v)
  | HBlock m => upd_sem m (with_block_list v)
  | HJoin p => upd_pcb (Some p) (with_join v)
  end.

(** ** The list operations *)

(** Every queue is shorter than the pool, so a walk takes at most this
    many steps unless the list is cyclic. *)
Definition ll_fuel : nat := S PCBPOOLMAX.

Fixpoint ll_len_loop (fuel : nat) (p : pcb_ptr) (i : Z) : M kst Z :=
  match fuel with
  | O => fail OutOfFuel
  | S fuel =>
      match p with
      | None => mret i
      | Some _ => c ← get_pcb p; ll_len_loop fuel (p_next c) (u32 (i + 1))
      end
  end.

Definition ll_len (head : headref) : M kst Z :=
  p ← get_head head;
  ll_len_loop ll_fuel p 0.

Fixpoint ll_delete_loop (fuel : nat) (sleep pre p : pcb_ptr)
    : M kst (option (pcb_ptr * pcb_ptr)) :=
  match fuel with
  | O => fail OutOfFuel
  | S fuel =>
      match sleep with
      | None => mret None
      | Some _ =>
          if decide (sleep = p) then mret (Some (sleep, pre))
          else c ← get_pcb sleep; ll_delete_loop fuel (p_next c) sleep p
      end
  end.

Definition ll_delete (head : headref) (p : pcb_ptr) : M kst Z :=
  sleep ← get_head head;
  r ← ll_delete_loop ll_fuel sleep None p;
  match r with
  | None => mret 0
  | Some (sleep, pre) =>
      c ← get_pcb sleep;
      (match pre with
       | None => set_head head (p_next c)
       | Some _ => upd_pcb pre (with_next (p_next c))
       end);;
      upd_pcb sleep (with_next None);;
      mret 1
  end.

Definition ll_pop (head : headref) : M kst pcb_ptr :=
  p ← get_head head;
  _ ← ll_delete head p;
  mret p.

Definition ll_push (head : headref) (p : pcb_ptr) : M kst Z :=
  h ← get_head head;
  match h with
  | None => set_head head p;; mret 0
  | Some _ => set_head head p;; upd_pcb p (with_next h);; mret 1
  end.

Fixpoint ll_last_loop (fuel : nat) (h : pcb_ptr) : M kst pcb_ptr :=
  match fuel with
  | O => fail OutOfFuel
  | S fuel =>
      c ← get_pcb h;
      match p_next c with
      | None => mret h
      | Some _ => ll_last_loop fuel (p_next c)
      end
  end.

Definition ll_entail (head : headref) (p : pcb_ptr) : M kst Z :=
  h ← get_head head;
  upd_pcb p (with_next None);;
  match h with
  | None => set_head head p;; mret 0
  | Some _ =>
      last ← ll_last_loop ll_fuel h;
      upd_pcb last (with_next p);;
      mret 1
  end.

(** ** Linked lists in the pool

    [lseg nx hd l tl]: following [nx] from [hd] visits exactly the PCBs [l]
    and arrives at [tl]. *)

Section lseg.
Implicit Types (nx : nat -> option pcb_ptr) (hd tl : pcb_ptr) (l : list nat).

Fixpoint lseg nx hd l tl : Prop :=
  match l with
  | [] => hd = tl
  | p :: l' => hd = Some p /\ exists n, nx p = Some n /\ lseg nx n l' tl
  end.

Lemma lseg_app nx hd l1 l2 tl :
  lseg nx hd (l1 ++ l2) tl <-> exists m, lseg nx hd l1 m /\ lseg nx m l2 tl.
Proof.
  revert hd. induction l1 as [|p l1 IH]; intros hd; simpl.
  - split; [by eauto|]. by intros (? & -> & ?).
  - setoid_rewrite IH. naive_solver.
Qed.

Lemma lseg_ext nx nx' hd l tl :
  (forall q, q ∈ l -> nx' q = nx q) -> lseg nx hd l tl -> lseg nx' hd l tl.
Proof.
  revert hd. induction l as [|p l IH]; intros hd Hext; simpl; [done|].
  intros (-> & n & Hn & Hl). split; [done|]. exists n.
  rewrite Hext by set_solver. split; [done|]. apply IH; set_solver.
Qed.

Lemma lseg_fun nx hd l1 l2 :
  lseg nx hd l1 None -> lseg nx hd l2 None -> l1 = l2.
Proof.
  revert hd l2. induction l1 as [|p l1 IH]; intros hd [|q l2]; simpl.
  - done.
  - naive_solver.
  - naive_solver.
  - intros (-> & n & Hn & H1) ([= <-] & n' & Hn' & H2). simplify_eq.
    f_equal. eauto.
Qed.

(** A [NULL]-terminated list visits no PCB twice. *)
Lemma lseg_NoDup nx hd l : lseg nx hd l None -> NoDup l.
Proof.
  revert hd. induction l as [|p l IH]; intros hd; simpl; [by constructor|].
  intros (-> & n & Hn & Hl). constructor; [|by eauto].
  intros (l1 & l2 & ->)%list_elem_of_split.
  pose proof Hl as (m & _ & Hm)%lseg_app. simpl in Hm.
  destruct Hm as (-> & n' & Hn' & Hl2). simplify_eq.
  pose proof (lseg_fun _ _ _ _ Hl Hl2) as Heq.
  apply (f_equal length) in Heq. rewrite length_app in Heq. simpl in Heq. lia.
Qed.

Lemma lseg_is_Some nx hd l tl q :
  lseg nx hd l tl -> q ∈ l -> is_Some (nx q).
Proof.
  revert hd. induction l as [|p l IH]; intros hd; simpl; [by inversion 2|].
  intros (-> & n & Hn & Hl) [->|?]%elem_of_cons; eauto.
Qed.

Lemma lseg_head nx hd l : lseg nx hd l None -> hd = head l.
Proof. destruct l; simpl; naive_solver. Qed.

(** Redirecting the last link of a segment. *)
Lemma lseg_relink nx nx' hd l q tl v :
  q ∉ l -> (forall r, r ∈ l -> nx' r = nx r) -> nx' q = Some v ->
  lseg nx hd (l ++ [q]) tl -> lseg nx' hd (l ++ [q]) v.
Proof.
  intros Hq Hext Hv (m & Hl & Hm)%lseg_app. apply lseg_app. exists m.
  split; [by eapply lseg_ext|]. simpl in *. naive_solver.
Qed.
End lseg.

(** ** The heads and links of a state *)

Definition next_of (s : kst) (q : nat) : option pcb_ptr := p_next <$> k_PCBPool s !! q.

Definition head_of (s : kst) (h : headref) : option pcb_ptr :=
  match h with
  | HReady => Some (k_ready_list s)
  | HSleep => Some (k_sleep_list s)
  | HBlock m => sem_block_list <$> k_sems s !! m
  | HJoin p => p_join_list <$> k_PCBPool s !! p
  end.

Definition kset_pcb (q : nat) (f : PCB -> PCB) (s : kst) : kst :=
  with_PCBPool (alter f q (k_PCBPool s)) s.

Definition kset_sem (m : Z) (f : Semaphore -> Semaphore) (s : kst) : kst :=
  with_sems (alter f m (k_sems s)) s.

Definition kset_head (h : headref) (v : pcb_ptr) (s : kst) : kst :=
  match h with
  | HReady => with_ready v s
  | HSleep => with_sleep v s
  | HBlock m => kset_sem m (with_block_list v) s
  | HJoin p => kset_pcb p (with_join v) s
  end.

(** Everything but the links: two states with the same [strip] differ only
    in how the queues are threaded. *)
Definition strip_pcb (c : PCB) : PCB := with_join None (with_next None c).

Definition strip (s : kst) : kst :=
  mkKst (strip_pcb <$> k_PCBPool s) (k_tfPool s) (k_pid s) (k_current s) None None
    (k_tick s) (k_count s) (with_block_list None <$> k_sems s).

Definition same_data (s s' : kst) : Prop := strip s = strip s'.
Infix "≈ₖ" := same_data (at level 70).

#[export] Instance same_data_equiv : Equivalence same_data.
Proof. unfold same_data. split; repeat intro; congruence. Qed.

Lemma list_insert_alter {A} (l : list A) i (f : A -> A) x :
  l !! i = Some x -> <[i := f x]> l = alter f i l.
Proof.
  intros Hi. apply list_eq. intros j. destruct (decide (i = j)) as [->|Hne].
  - rewrite list_lookup_insert_eq by (by eapply lookup_lt_Some).
    by rewrite list_lookup_alter_eq, Hi.
  - by rewrite list_lookup_insert_ne, list_lookup_alter_ne.
Qed.

Lemma map_insert_alter {A} (m : gmap Z A) i (f : A -> A) x :
  m !! i = Some x -> <[i := f x]> m = alter f i m.
Proof.
  intros Hi. apply map_eq. intros j. rewrite lookup_insert, lookup_alter.
  case_decide; subst; [by rewrite Hi|done].
Qed.

Lemma list_fmap_alter_id {A B} (g : A -> B) (f : A -> A) (l : list A) i :
  (forall x, g (f x) = g x) -> g <$> alter f i l = g <$> l.
Proof.
  intros H. apply list_eq. intros j. rewrite !list_lookup_fmap.
  destruct (decide (i = j)) as [->|].
  - rewrite list_lookup_alter_eq. destruct (l !! j); simpl; [by rewrite H|done].
  - by rewrite list_lookup_alter_ne.
Qed.

Lemma map_fmap_alter_id {A B} (g : A -> B) (f : A -> A) (m : gmap Z A) i :
  (forall x, g (f x) = g x) -> g <$> alter f i m = g <$> m.
Proof.
  intros H. apply map_eq. intros j. rewrite !lookup_fmap, lookup_alter.
  case_decide; subst; [|done]. destruct (m !! j); simpl; [by rewrite H|done].
Qed.

Lemma lookup_alter_list {A} (l : list A) (f : A -> A) i j :
  alter f i l !! j = (if decide (i = j) then f <$> l !! j else l !! j).
Proof.
  case_decide as H; [by subst; rewrite list_lookup_alter_eq|by rewrite list_lookup_alter_ne].
Qed.

Section access.
Implicit Types (s : kst).

Lemma get_pcb_run s i c : k_PCBPool s !! i = Some c -> get_pcb (Some i) s = Ret c s.
Proof. intros H. unfold get_pcb, from_option_or, mbind, M_bind, get, mret, M_ret. by rewrite H. Qed.

Lemma get_pcb_next s i n :
  next_of s i = Some n -> exists c, get_pcb (Some i) s = Ret c s /\ p_next c = n.
Proof.
  intros (c & Hi & ->)%fmap_Some. eauto using get_pcb_run.
Qed.

Lemma upd_pcb_run s i c f :
  k_PCBPool s !! i = Some c -> upd_pcb (Some i) f s = Ret tt (kset_pcb i f s).
Proof.
  intros H. unfold upd_pcb. erewrite bind_Ret by (by apply get_pcb_run).
  unfold modify, kset_pcb, mbind, M_bind. simpl. by rewrite (list_insert_alter _ _ _ c).
Qed.

Lemma upd_pcb_next s i n f :
  next_of s i = Some n -> upd_pcb (Some i) f s = Ret tt (kset_pcb i f s).
Proof. intros (c & Hi & ->)%fmap_Some. eauto using upd_pcb_run. Qed.

Lemma get_sem_run s m c : k_sems s !! m = Some c -> get_sem m s = Ret c s.
Proof. intros H. unfold get_sem, from_option_or, mbind, M_bind, get, mret, M_ret. by rewrite H. Qed.

Lemma upd_sem_run s m c f :
  k_sems s !! m = Some c -> upd_sem m f s = Ret tt (kset_sem m f s).
Proof.
  intros H. unfold upd_sem. erewrite bind_Ret by (by apply get_sem_run).
  unfold modify, kset_sem. by rewrite (map_insert_alter _ _ _ c).
Qed.

Lemma get_head_run s h v : head_of s h = Some v -> get_head h s = Ret v s.
Proof.
  destruct h; simpl; try (by intros [= <-]).
  - intros (c & Hc & ->)%fmap_Some. by erewrite bind_Ret by (by apply get_sem_run).
  - intros (c & Hc & ->)%fmap_Some. by erewrite bind_Ret by (by apply get_pcb_run).
Qed.

Lemma set_head_run s h v :
  is_Some (head_of s h) -> set_head h v s = Ret tt (kset_head h v s).
Proof.
  destruct h; simpl; try done.
  - intros (? & (c & Hc & _)%fmap_Some). by eapply upd_sem_run.
  - intros (? & (c & Hc & _)%fmap_Some). by eapply upd_pcb_run.
Qed.

Lemma next_of_kset_pcb s q f r :
  next_of (kset_pcb q f s) r =
    if decide (q = r) then (p_next ∘ f) <$> k_PCBPool s !! r else next_of s r.
Proof.
  unfold next_of, kset_pcb. simpl. rewrite lookup_alter_list. case_decide; [|done].
  by destruct (k_PCBPool s !! r).
Qed.

Lemma next_of_kset_next_eq s q v n :
  next_of s q = Some n -> next_of (kset_pcb q (with_next v) s) q = Some v.
Proof.
  intros (c & Hc & _)%fmap_Some. rewrite next_of_kset_pcb, decide_True by done.
  by rewrite Hc.
Qed.

Lemma next_of_kset_next_ne s q v r :
  q <> r -> next_of (kset_pcb q (with_next v) s) r = next_of s r.
Proof. intros. by rewrite next_of_kset_pcb, decide_False. Qed.

Lemma next_of_kset_head s h v r : next_of (kset_head h v s) r = next_of s r.
Proof.
  destruct h; try done. simpl. rewrite next_of_kset_pcb. case_decide; [|done].
  unfold next_of. by destruct (k_PCBPool s !! r).
Qed.

Lemma head_of_kset_next s q v h :
  head_of (kset_pcb q (with_next v) s) h = head_of s h.
Proof.
  destruct h; try done. simpl. rewrite lookup_alter_list. case_decide; [|done].
  by destruct (k_PCBPool s !! p).
Qed.

Lemma head_of_kset_head_eq s h v :
  is_Some (head_of s h) -> head_of (kset_head h v s) h = Some v.
Proof.
  destruct h; simpl; try done.
  - intros (? & (c & Hc & _)%fmap_Some).
    by rewrite lookup_alter, decide_True, Hc by done.
  - intros (? & (c & Hc & _)%fmap_Some).
    by rewrite lookup_alter_list, decide_True, Hc by done.
Qed.

Lemma head_of_kset_head_ne s h h' v :
  h <> h' -> head_of (kset_head h v s) h' = head_of s h'.
Proof.
  intros Hne. destruct h, h'; simpl; try done.
  - rewrite lookup_alter, decide_False by congruence. done.
  - rewrite lookup_alter_list, decide_False by congruence. done.
Qed.

Lemma same_data_kset_next s q v : s ≈ₖ kset_pcb q (with_next v) s.
Proof.
  unfold same_data, strip, kset_pcb. simpl. f_equal.
  symmetry. by apply list_fmap_alter_id.
Qed.

Lemma same_data_kset_head s h v : s ≈ₖ kset_head h v s.
Proof.
  destruct h; try done; unfold same_data, strip; simpl; f_equal; symmetry.
  - by apply map_fmap_alter_id.
  - by apply list_fmap_alter_id.
Qed.
End access.
