(* ===== verification/Queues.v ===== *)
(** * The queues as lists: refinement of the [ll_*] operations

    [Repr s L] says that every list head [h] of the state [s] heads a
    well-formed list whose elements are [L h].  Each operation of
    [process.c] is shown to do to [L] what its name says and to leave the
    rest of the state alone. *)

From S2P Require Import Prelude Proc.

Abbreviation queues := (headref -> list nat).

Record Repr (s : kst) (L : queues) : Prop := {
  rep_list : forall h,
    match head_of s h with
    | Some hd => lseg (next_of s) hd (L h) None
    | None => L h = []
    end;
  rep_disj : forall h1 h2 p, p ∈ L h1 -> p ∈ L h2 -> h1 = h2;
  rep_free : forall p n, next_of s p = Some n -> (forall h, p ∉ L h) -> n = None;
  rep_pool : length (k_PCBPool s) = PCBPOOLMAX }.

Definition unlinked (L : queues) (p : nat) : Prop := forall h, p ∉ L h.

Lemma NoDup_bounded_length (l : list nat) n :
  NoDup l -> (forall p, p ∈ l -> (p < n)%nat) -> (length l <= n)%nat.
Proof.
  intros Hnd Hlt. rewrite <- (length_seq n 0).
  apply submseteq_length, NoDup_submseteq; [done|].
  intros p Hp. apply elem_of_seq. specialize (Hlt p Hp). lia.
Qed.

Lemma next_of_is_Some s q : is_Some (next_of s q) <-> (q < length (k_PCBPool s))%nat.
Proof. unfold next_of. by rewrite fmap_is_Some, lookup_lt_is_Some. Qed.

Section repr.
Context (s : kst) (L : queues) (HR : Repr s L).

Lemma rep_lseg h hd : head_of s h = Some hd -> lseg (next_of s) hd (L h) None.
Proof using HR. intros Hh. pose proof (rep_list _ _ HR h) as H. by rewrite Hh in H. Qed.

Lemma rep_valid h : L h <> [] -> is_Some (head_of s h).
Proof using HR.
  intros Hne. pose proof (rep_list _ _ HR h) as H. destruct (head_of s h); [by eauto|done].
Qed.

Lemma rep_head h hd : head_of s h = Some hd -> hd = head (L h).
Proof using HR. intros Hh. by apply lseg_head with (next_of s), rep_lseg. Qed.

Lemma rep_NoDup h : NoDup (L h).
Proof using HR.
  destruct (decide (L h = [])) as [->|Hne]; [constructor|].
  destruct (rep_valid h Hne) as [hd Hh]. eapply lseg_NoDup, rep_lseg, Hh.
Qed.

Lemma rep_in_pool h p : p ∈ L h -> is_Some (next_of s p).
Proof using HR.
  intros Hp. destruct (rep_valid h) as [hd Hh]; [by intros Hnil; rewrite Hnil in Hp; inversion Hp|].
  eapply lseg_is_Some; [by eapply rep_lseg|done].
Qed.

Lemma rep_length h : (length (L h) <= PCBPOOLMAX)%nat.
Proof using HR.
  apply NoDup_bounded_length; [apply rep_NoDup|]. intros p Hp.
  rewrite <- (rep_pool _ _ HR). apply next_of_is_Some. by eapply rep_in_pool.
Qed.

(** Changing one queue: what a new state has to satisfy. *)
Lemma Repr_update s' h hd' l' :
  head_of s' h = Some hd' ->
  lseg (next_of s') hd' l' None ->
  (forall h', h' <> h -> head_of s' h' = head_of s h') ->
  (forall h' q, h' <> h -> q ∈ L h' -> next_of s' q = next_of s q) ->
  (forall q h', q ∈ l' -> h' <> h -> q ∉ L h') ->
  (forall q n, q ∉ l' -> (forall h', h' <> h -> q ∉ L h') ->
     next_of s' q = Some n -> n = None) ->
  length (k_PCBPool s') = PCBPOOLMAX ->
  Repr s' (<[h := l']> L).
Proof using HR.
  intros Hh Hl Hheads Hnext Hdisj Hfree Hlen. split.
  - intros h'. destruct (decide (h' = h)) as [->|Hne].
    + by rewrite Hh, fn_lookup_insert.
    + rewrite fn_lookup_insert_ne, Hheads by done.
      pose proof (rep_list _ _ HR h') as Hl'. destruct (head_of s h'); [|done].
      eapply lseg_ext; [|done]. intros. by eapply Hnext.
  - intros h1 h2 p. destruct (decide (h1 = h)) as [->|H1], (decide (h2 = h)) as [->|H2];
      rewrite ?fn_lookup_insert, ?fn_lookup_insert_ne by done; try done.
    + intros Hp ?. exfalso. by eapply Hdisj.
    + intros ? Hp. exfalso. by eapply Hdisj.
    + apply (rep_disj _ _ HR).
  - intros p n Hn Hun. eapply Hfree; [..|done].
    + specialize (Hun h). by rewrite fn_lookup_insert in Hun.
    + intros h' Hne. specialize (Hun h'). by rewrite fn_lookup_insert_ne in Hun.
  - done.
Qed.
End repr.

Section repr_change.
Context (s : kst) (L : queues) (HR : Repr s L).
Context (s' : kst) (h : headref) (hd' : pcb_ptr) (l' : list nat) (p : nat).
Context (Hhd : head_of s' h = Some hd') (Hl' : lseg (next_of s') hd' l' None).
Context (Hheads : forall h', h' <> h -> head_of s' h' = head_of s h').
Context (Hpool : length (k_PCBPool s') = length (k_PCBPool s)).

(** [p] leaves the queue [h]. *)
Lemma Repr_remove :
  L h ≡ₚ p :: l' -> next_of s' p = Some None ->
  (forall r, r ∉ L h -> next_of s' r = next_of s r) ->
  Repr s' (<[h := l']> L).
Proof using All.
  intros Hperm Hp Hnx. eapply Repr_update; [done..| | | |].
  - intros h' q Hne Hq. apply Hnx. intros Hq'. apply Hne. by eapply (rep_disj _ _ HR).
  - intros q h' Hq Hne Hq'. apply Hne. eapply (rep_disj _ _ HR); [done|].
    rewrite Hperm. by right.
  - intros q n Hq Hq' Hn. destruct (decide (q = p)) as [->|Hqp]; [congruence|].
    assert (HqL : q ∉ L h) by (rewrite Hperm, elem_of_cons; tauto).
    rewrite Hnx in Hn by done. eapply (rep_free _ _ HR); [done|].
    intros h'. destruct (decide (h' = h)) as [->|]; [done|by apply Hq'].
  - rewrite Hpool. apply (rep_pool _ _ HR).
Qed.

(** [p], until now in no queue, joins the queue [h]. *)
Lemma Repr_add :
  unlinked L p -> l' ≡ₚ p :: L h ->
  (forall r, r <> p -> r ∉ L h -> next_of s' r = next_of s r) ->
  Repr s' (<[h := l']> L).
Proof using All.
  intros Hun Hperm Hnx. eapply Repr_update; [done..| | | |].
  - intros h' q Hne Hq. apply Hnx; [by intros ->; apply (Hun h')|].
    intros Hq'. apply Hne. by eapply (rep_disj _ _ HR).
  - intros q h'. rewrite Hperm, elem_of_cons. intros [->|Hq] Hne Hq'; [by apply (Hun h')|].
    apply Hne. by eapply (rep_disj _ _ HR).
  - intros q n. rewrite Hperm, elem_of_cons. intros Hq Hq' Hn.
    rewrite Hnx in Hn by tauto. eapply (rep_free _ _ HR); [done|].
    intros h'. destruct (decide (h' = h)) as [->|]; [tauto|by apply Hq'].
  - rewrite Hpool. apply (rep_pool _ _ HR).
Qed.
End repr_change.

Create Rewrite HintDb queues.
#[export] Hint Rewrite next_of_kset_head head_of_kset_next : queues.

Lemma pool_kset_head s h v : length (k_PCBPool (kset_head h v s)) = length (k_PCBPool s).
Proof. destruct h; simpl; try done. by rewrite length_alter. Qed.
Lemma pool_kset_pcb s q f : length (k_PCBPool (kset_pcb q f s)) = length (k_PCBPool s).
Proof. simpl. by rewrite length_alter. Qed.
#[export] Hint Rewrite pool_kset_head pool_kset_pcb : queues.

(** ** Walking a list *)

Lemma ll_len_loop_run s fuel p l i :
  lseg (next_of s) p l None -> (length l < fuel)%nat ->
  ll_len_loop fuel p i s = Ret (match l with [] => i | _ => u32 (i + Z.of_nat (length l)) end) s.
Proof.
  revert p l i. induction fuel as [|fuel IH]; intros p l i Hl Hf; [lia|].
  destruct l as [|q l]; simpl in Hl; [by subst|]. destruct Hl as (-> & n & Hn & Hl).
  destruct (get_pcb_next _ _ _ Hn) as (c & Hc & <-). simpl. erewrite bind_Ret by exact Hc.
  simpl in Hf. rewrite (IH _ l) by (done || lia). destruct l as [|q' l]; simpl; [done|].
  f_equal. unfold u32. rewrite Zplus_mod_idemp_l. f_equal. lia.
Qed.

Definition last_or (pre : pcb_ptr) (l : list nat) : pcb_ptr :=
  match last l with Some q => Some q | None => pre end.

Lemma ll_delete_loop_found s fuel sleep pre p l1 l2 :
  lseg (next_of s) sleep (l1 ++ p :: l2) None -> p ∉ l1 -> (length l1 < fuel)%nat ->
  ll_delete_loop fuel sleep pre (Some p) s = Ret (Some (Some p, last_or pre l1)) s.
Proof.
  revert sleep pre l1. induction fuel as [|fuel IH]; intros sleep pre l1 Hl Hp Hf; [lia|].
  destruct l1 as [|q l1]; simpl in Hl; destruct Hl as (-> & n & Hn & Hl); simpl.
  - by rewrite decide_True.
  - rewrite decide_False by set_solver.
    destruct (get_pcb_next _ _ _ Hn) as (c & Hc & <-). erewrite bind_Ret by exact Hc.
    rewrite (IH _ _ l1) by (done || set_solver || simpl in *; lia).
    unfold last_or. rewrite last_cons. by destruct (last l1).
Qed.

Lemma ll_delete_loop_absent s fuel sleep pre p l :
  lseg (next_of s) sleep l None -> p ∉ l -> (length l < fuel)%nat ->
  ll_delete_loop fuel sleep pre (Some p) s = Ret None s.
Proof.
  revert sleep pre l. induction fuel as [|fuel IH]; intros sleep pre l Hl Hp Hf; [lia|].
  destruct l as [|q l]; simpl in Hl; [by subst|]. destruct Hl as (-> & n & Hn & Hl). simpl.
  rewrite decide_False by set_solver.
  destruct (get_pcb_next _ _ _ Hn) as (c & Hc & <-). erewrite bind_Ret by exact Hc.
  rewrite (IH _ _ l) by (done || set_solver || simpl in *; lia). done.
Qed.

Lemma ll_last_loop_run s fuel h l q :
  lseg (next_of s) h (l ++ [q]) None -> (length l < fuel)%nat ->
  ll_last_loop fuel h s = Ret (Some q) s.
Proof.
  revert h l. induction fuel as [|fuel IH]; intros h l Hl Hf; [lia|].
  destruct l as [|r l]; simpl in Hl; destruct Hl as (-> & n & Hn & Hl);
    destruct (get_pcb_next _ _ _ Hn) as (c & Hc & <-); simpl; erewrite bind_Ret by exact Hc.
  - by rewrite Hl.
  - simpl in Hf. rewrite <- (IH (p_next c) l) by (done || lia).
    destruct l; simpl in Hl; destruct Hl as (-> & _); done.
Qed.

(** ** The operations *)

Section ops.
Context (s : kst) (L : queues) (HR : Repr s L).

Lemma ll_len_run h :
  is_Some (head_of s h) -> ll_len h s = Ret (Z.of_nat (length (L h))) s.
Proof using HR.
  intros [hd Hh]. unfold ll_len. erewrite bind_Ret by (by apply get_head_run).
  pose proof (rep_length _ _ HR h). unfold ll_fuel.
  rewrite (ll_len_loop_run s _ hd (L h)) by (eapply rep_lseg; done) || lia.
  destruct (L h) eqn:E; [done|]. f_equal. apply u32_id.
  unfold is_u32. unfold PCBPOOLMAX in *. lia.
Qed.

Lemma ll_push_run h p :
  is_Some (head_of s h) -> is_Some (next_of s p) -> unlinked L p ->
  exists r s', ll_push h (Some p) s = Ret r s' /\
    Repr s' (<[h := p :: L h]> L) /\ s ≈ₖ s'.
Proof using HR.
  intros [hd Hh] [n Hn] Hun. pose proof (rep_free _ _ HR _ _ Hn Hun) as ->.
  unfold ll_push. erewrite bind_Ret by (by apply get_head_run).
  pose proof (rep_lseg _ _ HR _ _ Hh) as Hl.
  pose proof (rep_head _ _ HR _ _ Hh) as Hhd.
  destruct hd as [q|].
  - erewrite bind_Ret by (apply set_head_run; eauto).
    erewrite bind_Ret by (eapply upd_pcb_next; by rewrite next_of_kset_head).
    eexists _, _; split_and!; [done| |by rewrite <- same_data_kset_next, <- same_data_kset_head].
    assert (Hnx : forall r, r <> p ->
      next_of (kset_pcb p (with_next (Some q)) (kset_head h (Some p) s)) r = next_of s r).
    { intros. by rewrite next_of_kset_next_ne, next_of_kset_head. }
    eapply (Repr_add _ _ HR); [..|done|done|by intros; apply Hnx].
    + rewrite head_of_kset_next. apply head_of_kset_head_eq; eauto.
    + simpl. split; [done|]. eexists. split.
      { eapply next_of_kset_next_eq. by rewrite next_of_kset_head. }
      eapply lseg_ext; [|exact Hl]. intros r Hr. apply Hnx. intros ->. by apply (Hun h).
    + intros h' Hne. by rewrite head_of_kset_next, head_of_kset_head_ne.
    + by rewrite pool_kset_pcb, pool_kset_head.
  - erewrite bind_Ret by (apply set_head_run; eauto).
    destruct (L h) as [|? ?] eqn:E; [|done].
    eexists _, _; split_and!; [done| |apply same_data_kset_head].
    eapply (Repr_add _ _ HR _ _ _ [p] p); [..|done|by rewrite E|by intros; apply next_of_kset_head].
    + apply head_of_kset_head_eq; eauto.
    + simpl. split; [done|]. exists None. by rewrite next_of_kset_head.
    + intros h' Hne. by rewrite head_of_kset_head_ne.
    + by rewrite pool_kset_head.
Qed.

(** Unlinking [p], in the middle or at the head of its queue. *)
Lemma ll_delete_run h p l1 l2 :
  L h = l1 ++ p :: l2 ->
  exists s', ll_delete h (Some p) s = Ret 1 s' /\
    Repr s' (<[h := l1 ++ l2]> L) /\ s ≈ₖ s'.
Proof using HR.
  intros HL. destruct (rep_valid _ _ HR h) as [hd Hh]; [rewrite HL; by destruct l1|].
  pose proof (rep_lseg _ _ HR _ _ Hh) as Hl. pose proof (rep_NoDup _ _ HR h) as Hnd.
  pose proof (rep_length _ _ HR h) as Hlen.
  rewrite HL in Hl, Hnd, Hlen. rewrite length_app in Hlen. simpl in Hlen.
  apply NoDup_app in Hnd as (Hnd1 & H12 & [Hp2 _]%NoDup_cons).
  assert (Hp1 : p ∉ l1) by (intros Hp; apply (H12 _ Hp); left).
  assert (Hperm : L h ≡ₚ p :: (l1 ++ l2)) by (rewrite HL; symmetry; apply Permutation_middle).
  unfold ll_delete. erewrite bind_Ret by (by apply get_head_run).
  erewrite bind_Ret by (eapply ll_delete_loop_found; [done..|unfold ll_fuel; lia]).
  pose proof Hl as (m & Hl1 & -> & n & Hn & Hl2)%lseg_app. simpl.
  destruct (get_pcb_next _ _ _ Hn) as (c & Hc & <-). erewrite bind_Ret by exact Hc.
  destruct (last l1) as [q|] eqn:Hlast; unfold last_or; rewrite Hlast.
  - apply last_Some in Hlast as [l1' ->].
    assert (is_Some (next_of s q)) as [nq Hnq] by (eapply lseg_is_Some; [exact Hl1|set_solver+]).
    apply NoDup_app in Hnd1 as (_ & Hq & _).
    assert (Hqp : q <> p) by (intros ->; apply Hp1; set_solver+).
    erewrite bind_Ret by (by eapply upd_pcb_next).
    erewrite bind_Ret by (eapply upd_pcb_next; by rewrite next_of_kset_next_ne).
    eexists; split_and!; [done| |by rewrite <- !same_data_kset_next].
    assert (Hnx : forall r, r <> q -> r <> p ->
      next_of (kset_pcb p (with_next None) (kset_pcb q (with_next (p_next c)) s)) r = next_of s r)
      by (intros; by rewrite !next_of_kset_next_ne).
    eapply (Repr_remove _ _ HR); [by rewrite !head_of_kset_next| | | |exact Hperm| |].
    + apply lseg_app. exists (p_next c). split.
      * eapply lseg_relink; [by intros Hr; apply (Hq _ Hr); left| | |exact Hl1].
        -- intros r Hr. apply Hnx; [by intros ->; apply (Hq _ Hr); left|].
           intros ->. apply Hp1. apply elem_of_app. by left.
        -- rewrite next_of_kset_next_ne by done. by eapply next_of_kset_next_eq.
      * eapply lseg_ext; [|exact Hl2]. intros r Hr. apply Hnx; [|by intros ->].
        intros ->. apply (H12 q); [set_solver+|by right].
    + intros. by rewrite !head_of_kset_next.
    + by rewrite !pool_kset_pcb.
    + eapply next_of_kset_next_eq. by rewrite next_of_kset_next_ne.
    + intros r. rewrite HL. intros Hr. apply Hnx; intros ->; apply Hr; set_solver+.
  - apply last_None in Hlast as ->.
    erewrite bind_Ret by (apply set_head_run; eauto).
    erewrite bind_Ret by (eapply upd_pcb_next; by rewrite next_of_kset_head).
    eexists; split_and!; [done| |by rewrite <- same_data_kset_next, <- same_data_kset_head].
    assert (Hnx : forall r, r <> p ->
      next_of (kset_pcb p (with_next None) (kset_head h (p_next c) s)) r = next_of s r)
      by (intros; by rewrite next_of_kset_next_ne, next_of_kset_head).
    eapply (Repr_remove _ _ HR); [| | | |exact Hperm| |].
    + rewrite head_of_kset_next. apply head_of_kset_head_eq; eauto.
    + eapply lseg_ext; [|exact Hl2]. intros r Hr. apply Hnx. by intros ->.
    + intros h' Hne. by rewrite head_of_kset_next, head_of_kset_head_ne.
    + by rewrite pool_kset_pcb, pool_kset_head.
    + eapply next_of_kset_next_eq. by rewrite next_of_kset_head.
    + intros r Hr. apply Hnx. intros ->. apply Hr. rewrite HL. left.
Qed.

Lemma ll_delete_absent_run h p :
  is_Some (head_of s h) -> p ∉ L h -> ll_delete h (Some p) s = Ret 0 s.
Proof using HR.
  intros [hd Hh] Hp. unfold ll_delete. erewrite bind_Ret by (by apply get_head_run).
  pose proof (rep_length _ _ HR h).
  erewrite bind_Ret; [|eapply ll_delete_loop_absent; [by eapply rep_lseg|done|unfold ll_fuel; lia]].
  done.
Qed.

Lemma ll_pop_cons_run h p l :
  L h = p :: l ->
  exists s', ll_pop h s = Ret (Some p) s' /\ Repr s' (<[h := l]> L) /\ s ≈ₖ s'.
Proof using HR.
  intros HL. destruct (ll_delete_run h p [] l HL) as (s' & Hd & HR' & Hs').
  destruct (rep_valid _ _ HR h) as [hd Hh]; [by rewrite HL|].
  exists s'. split_and!; [|done..]. unfold ll_pop.
  erewrite bind_Ret by (by apply get_head_run).
  pose proof (rep_head _ _ HR _ _ Hh) as ->. rewrite HL. simpl.
  by erewrite bind_Ret by exact Hd.
Qed.

Lemma ll_pop_nil_run h :
  is_Some (head_of s h) -> L h = [] -> ll_pop h s = Ret None s.
Proof using HR.
  intros [hd Hh] HL. unfold ll_pop. erewrite bind_Ret by (by apply get_head_run).
  pose proof (rep_head _ _ HR _ _ Hh) as ->. rewrite HL in Hh |- *. simpl in *.
  unfold ll_delete. erewrite bind_Ret; [|erewrite bind_Ret by (by apply get_head_run); done].
  done.
Qed.

(** Appending an unlinked PCB. *)
Lemma ll_entail_run h p :
  is_Some (head_of s h) -> is_Some (next_of s p) -> unlinked L p ->
  exists r s', ll_entail h (Some p) s = Ret r s' /\
    Repr s' (<[h := L h ++ [p]]> L) /\ s ≈ₖ s'.
Proof using HR.
  intros [hd Hh] [np Hp] Hun. unfold ll_entail.
  erewrite bind_Ret by (by apply get_head_run).
  erewrite bind_Ret by (by eapply upd_pcb_next).
  pose proof (rep_lseg _ _ HR _ _ Hh) as Hl. pose proof (rep_head _ _ HR _ _ Hh) as Hhd.
  pose proof (rep_length _ _ HR h) as Hlen.
  set (s1 := kset_pcb p (with_next None) s).
  assert (Hs1 : forall r, r <> p -> next_of s1 r = next_of s r)
    by (intros; by apply next_of_kset_next_ne).
  assert (Hs1p : next_of s1 p = Some None) by (by eapply next_of_kset_next_eq).
  assert (Hl1 : lseg (next_of s1) hd (L h) None).
  { eapply lseg_ext; [|done]. intros r Hr. apply Hs1. intros ->. by apply (Hun h). }
  assert (Hperm : L h ++ [p] ≡ₚ p :: L h) by (symmetry; apply Permutation_cons_append).
  destruct (last (L h)) as [q|] eqn:Hlast.
  - apply last_Some in Hlast as [l Hlq]. rewrite Hlq in Hl1, Hlen.
    rewrite length_app in Hlen. simpl in Hlen.
    assert (HqL : q ∈ L h) by (rewrite Hlq; set_solver+).
    assert (is_Some (next_of s1 q)) as [nq Hnq] by (eapply lseg_is_Some; [done|set_solver+]).
    assert (q <> p) by (intros ->; by apply (Hun h)).
    pose proof (lseg_NoDup _ _ _ Hl1) as (_ & Hql & _)%NoDup_app.
    destruct hd as [hp|]; [|by rewrite Hlq in Hhd; destruct l].
    erewrite bind_Ret; [|eapply ll_last_loop_run; [exact Hl1|unfold ll_fuel; lia]].
    erewrite bind_Ret by (by eapply upd_pcb_next).
    eexists _, _; split_and!; [done| |by unfold s1; rewrite <- !same_data_kset_next].
    eapply (Repr_add _ _ HR); [| | | |exact Hun|exact Hperm|].
    + unfold s1. by rewrite !head_of_kset_next.
    + rewrite Hlq. apply lseg_app. exists (Some p). split.
      * eapply lseg_relink; [by intros Hr; apply (Hql _ Hr); left| | |exact Hl1].
        -- intros r Hr. apply next_of_kset_next_ne. intros ->. apply (Hql _ Hr); left.
        -- by eapply next_of_kset_next_eq.
      * simpl. split; [done|]. exists None. by rewrite next_of_kset_next_ne.
    + intros h' Hne. unfold s1. by rewrite !head_of_kset_next.
    + unfold s1. by rewrite !pool_kset_pcb.
    + intros r Hrp Hr. rewrite next_of_kset_next_ne by (by intros ->). by apply Hs1.
  - apply last_None in Hlast as HL. rewrite HL in Hhd. simpl in Hhd. subst hd.
    erewrite bind_Ret by (apply set_head_run; unfold s1; rewrite head_of_kset_next; eauto).
    eexists _, _; split_and!; [done| |by rewrite <- same_data_kset_head; apply same_data_kset_next].
    eapply (Repr_add _ _ HR); [| | | |exact Hun|exact Hperm|].
    + apply head_of_kset_head_eq. unfold s1. rewrite head_of_kset_next. eauto.
    + rewrite HL. simpl. split; [done|]. exists None. by rewrite next_of_kset_head.
    + intros h' Hne. rewrite head_of_kset_head_ne by done. apply head_of_kset_next.
    + rewrite pool_kset_head. unfold s1. by rewrite pool_kset_pcb.
    + intros r Hrp Hr. rewrite next_of_kset_head. by apply Hs1.
Qed.
End ops.
