(* ===== verification/AbsProc.v ===== *)
(** * The abstract process state

    An abstract state is the process data with every link erased together
    with the queues as plain lists.  [abs s a] relates a pool to it, and each
    primitive access of the C code has a [wp] rule that moves the relation
    along.  Specifications and invariants of the scheduler are stated on
    abstract states. *)

From S2P Require Import Prelude Proc Queues.

Record astate : Type := mkAState { a_k : kst; a_q : queues }.

Definition abs (s : kst) (a : astate) : Prop := Repr s (a_q a) /\ strip s = a_k a.

Definition a_pcb (a : astate) (p : nat) : option PCB := k_PCBPool (a_k a) !! p.
Definition a_sem (a : astate) (m : Z) : option Semaphore := k_sems (a_k a) !! m.
Definition a_cur (a : astate) : pcb_ptr := k_current (a_k a).

Definition a_upd (p : nat) (f : PCB -> PCB) (a : astate) : astate :=
  mkAState (kset_pcb p f (a_k a)) (a_q a).
Definition a_upd_sem (m : Z) (f : Semaphore -> Semaphore) (a : astate) : astate :=
  mkAState (kset_sem m f (a_k a)) (a_q a).
Definition a_glob (f : kst -> kst) (a : astate) : astate := mkAState (f (a_k a)) (a_q a).
Definition a_setq (h : headref) (l : list nat) (a : astate) : astate :=
  mkAState (a_k a) (<[h := l]> (a_q a)).

(** A list head that exists: the object it is a field of does. *)
Definition a_head_ok (a : astate) (h : headref) : Prop :=
  match h with
  | HReady | HSleep => True
  | HBlock m => is_Some (a_sem a m)
  | HJoin p => is_Some (a_pcb a p)
  end.

(** An update that does not touch links. *)
Class LinkFree (f : PCB -> PCB) : Prop := {
  lf_next : forall c, p_next (f c) = p_next c;
  lf_join : forall c, p_join_list (f c) = p_join_list c;
  lf_strip : forall c, strip_pcb (f c) = f (strip_pcb c) }.

#[export] Hint Extern 1 (LinkFree _) => (split; done) : typeclass_instances.

Class SemLinkFree (f : Semaphore -> Semaphore) : Prop := {
  slf_list : forall m, sem_block_list (f m) = sem_block_list m;
  slf_strip : forall m, with_block_list None (f m) = f (with_block_list None m) }.

#[export] Hint Extern 1 (SemLinkFree _) => (split; done) : typeclass_instances.

(** An update of the globals that are neither pool nor list heads. *)
Class GlobOnly (f : kst -> kst) : Prop := {
  go_pool : forall s, k_PCBPool (f s) = k_PCBPool s;
  go_ready : forall s, k_ready_list (f s) = k_ready_list s;
  go_sleep : forall s, k_sleep_list (f s) = k_sleep_list s;
  go_sems : forall s, k_sems (f s) = k_sems s;
  go_strip : forall s, strip (f s) = f (strip s) }.

#[export] Hint Extern 1 (GlobOnly _) => (split; done) : typeclass_instances.

(** ** Looking up through the relation *)

Section abs.
Context (s : kst) (a : astate) (Habs : abs s a).

Lemma abs_pcb p c :
  a_pcb a p = Some c -> exists c', k_PCBPool s !! p = Some c' /\ strip_pcb c' = c.
Proof using Habs.
  destruct Habs as [_ Hs]. unfold a_pcb. rewrite <- Hs. simpl.
  rewrite list_lookup_fmap. intros (c' & -> & ->)%fmap_Some. eauto.
Qed.

Lemma abs_pcb_rev p c :
  k_PCBPool s !! p = Some c -> a_pcb a p = Some (strip_pcb c).
Proof using Habs.
  destruct Habs as [_ Hs]. unfold a_pcb. rewrite <- Hs. simpl.
  rewrite list_lookup_fmap. by intros ->.
Qed.

Lemma abs_sem m c :
  a_sem a m = Some c -> exists c', k_sems s !! m = Some c' /\ with_block_list None c' = c.
Proof using Habs.
  destruct Habs as [_ Hs]. unfold a_sem. rewrite <- Hs. simpl.
  rewrite lookup_fmap. intros (c' & -> & ->)%fmap_Some. eauto.
Qed.

Lemma abs_cur : k_current s = a_cur a.
Proof using Habs. destruct Habs as [_ Hs]. unfold a_cur. by rewrite <- Hs. Qed.

Lemma abs_next_is_Some p : is_Some (a_pcb a p) -> is_Some (next_of s p).
Proof using Habs.
  intros [c (c' & Hc' & _)%abs_pcb]. unfold next_of. rewrite Hc'. eauto.
Qed.

Lemma abs_head_is_Some h : a_head_ok a h -> is_Some (head_of s h).
Proof using Habs.
  destruct h; simpl; try (by eauto).
  - intros [c (c' & -> & _)%abs_sem]. eauto.
  - intros [c (c' & -> & _)%abs_pcb]. eauto.
Qed.

Lemma abs_linked_pcb h p : p ∈ a_q a h -> is_Some (a_pcb a p).
Proof using Habs.
  intros Hp. destruct Habs as [HR _]. pose proof (rep_in_pool _ _ HR _ _ Hp) as [n Hn].
  unfold next_of in Hn. apply fmap_Some in Hn as (c & Hc & _).
  eapply abs_pcb_rev in Hc. eauto.
Qed.

Lemma abs_nonempty_ok h : a_q a h <> [] -> a_head_ok a h.
Proof using Habs.
  intros Hne. destruct Habs as [HR Hs]. pose proof (rep_valid _ _ HR _ Hne) as Hv.
  unfold a_head_ok, a_sem, a_pcb. rewrite <- Hs. destruct h; try done; simpl in *.
  - rewrite lookup_fmap. rewrite fmap_is_Some in Hv. by rewrite fmap_is_Some.
  - rewrite list_lookup_fmap. rewrite fmap_is_Some in Hv. by rewrite fmap_is_Some.
Qed.

(** Updates of the data. *)
Lemma abs_upd p f `{!LinkFree f} : abs (kset_pcb p f s) (a_upd p f a).
Proof using Habs.
  destruct Habs as [HR Hs]. split.
  - simpl. assert (Hnx : forall q, next_of (kset_pcb p f s) q = next_of s q).
    { intros q. rewrite next_of_kset_pcb. case_decide; [|done]. unfold next_of.
      destruct (k_PCBPool s !! q); simpl; [by rewrite lf_next|done]. }
    assert (Hhd : forall h, head_of (kset_pcb p f s) h = head_of s h).
    { intros [| |m|q]; try done. simpl. rewrite lookup_alter_list. case_decide; [|done].
      destruct (k_PCBPool s !! q); simpl; [by rewrite lf_join|done]. }
    destruct HR as [H1 H2 H3 H4]. split; [|done| |by rewrite pool_kset_pcb].
    + intros h. rewrite Hhd. specialize (H1 h). destruct (head_of s h); [|done].
      eapply lseg_ext; [|done]. intros; by rewrite Hnx.
    + intros q n. rewrite Hnx. apply H3.
  - simpl. rewrite <- Hs. unfold kset_pcb, strip. simpl. unfold with_PCBPool. simpl. f_equal.
    apply list_eq. intros q. rewrite list_lookup_fmap, !lookup_alter_list, list_lookup_fmap.
    case_decide; [|done]. destruct (k_PCBPool s !! q); simpl; [by rewrite lf_strip|done].
Qed.

Lemma abs_upd_sem m f `{!SemLinkFree f} : abs (kset_sem m f s) (a_upd_sem m f a).
Proof using Habs.
  destruct Habs as [HR Hs]. split.
  - simpl. assert (Hhd : forall h, head_of (kset_sem m f s) h = head_of s h).
    { intros [| |n|q]; try done. simpl. rewrite lookup_alter. case_decide; [|done]. subst.
      destruct (k_sems s !! n); simpl; [by rewrite slf_list|done]. }
    destruct HR as [H1 H2 H3 H4]. split; [|done..].
    intros h. rewrite Hhd. exact (H1 h).
  - simpl. rewrite <- Hs. unfold kset_sem, strip, with_sems. simpl. f_equal.
    apply map_eq. intros q. rewrite lookup_fmap, !lookup_alter.
    case_decide; subst; rewrite lookup_fmap; [|done].
    destruct (k_sems s !! q); simpl; [by rewrite slf_strip|done].
Qed.

Lemma abs_glob f `{!GlobOnly f} : abs (f s) (a_glob f a).
Proof using Habs.
  destruct Habs as [HR Hs]. split.
  - simpl. assert (Hnx : forall q, next_of (f s) q = next_of s q)
      by (intros; unfold next_of; by rewrite go_pool).
    assert (Hhd : forall h, head_of (f s) h = head_of s h).
    { intros []; simpl; by rewrite ?go_pool, ?go_ready, ?go_sleep, ?go_sems. }
    destruct HR as [H1 H2 H3 H4]. split; [|done| |by rewrite go_pool].
    + intros h. rewrite Hhd. specialize (H1 h). destruct (head_of s h); [|done].
      eapply lseg_ext; [|done]. intros; by rewrite Hnx.
    + intros q n. rewrite Hnx. apply H3.
  - simpl. by rewrite go_strip, Hs.
Qed.

Lemma abs_setq s' h l : Repr s' (<[h := l]> (a_q a)) -> s ≈ₖ s' -> abs s' (a_setq h l a).
Proof using Habs. intros HR Hs. split; [done|]. simpl. destruct Habs as [_ <-]. by symmetry. Qed.
End abs.

(** ** Rules for the primitives *)

Section rules.
Context (s : kst) (a : astate) (Habs : abs s a).
Implicit Types (J : kst -> Prop).

Lemma wp_get_pcb p c (Q : PCB -> kst -> Prop) J :
  a_pcb a p = Some c ->
  (forall c', k_PCBPool s !! p = Some c' -> strip_pcb c' = c -> Q c' s) ->
  wp (get_pcb (Some p)) Q J s.
Proof using Habs.
  intros Hp HQ. destruct (abs_pcb _ _ Habs _ _ Hp) as (c' & Hc' & Hs).
  eapply wp_eq; [by apply get_pcb_run|by apply HQ].
Qed.

Lemma wp_upd_pcb p c f `{!LinkFree f} (Q : unit -> kst -> Prop) J :
  a_pcb a p = Some c ->
  (forall s', abs s' (a_upd p f a) -> Q tt s') ->
  wp (upd_pcb (Some p) f) Q J s.
Proof using Habs.
  intros Hp HQ. destruct (abs_pcb _ _ Habs _ _ Hp) as (c' & Hc' & Hs).
  eapply wp_eq; [by eapply upd_pcb_run|]. by apply HQ, abs_upd.
Qed.

Lemma wp_get_sem m c (Q : Semaphore -> kst -> Prop) J :
  a_sem a m = Some c ->
  (forall c', with_block_list None c' = c -> Q c' s) ->
  wp (get_sem m) Q J s.
Proof using Habs.
  intros Hm HQ. destruct (abs_sem _ _ Habs _ _ Hm) as (c' & Hc' & Hs).
  eapply wp_eq; [by apply get_sem_run|by apply HQ].
Qed.

Lemma wp_upd_sem m c f `{!SemLinkFree f} (Q : unit -> kst -> Prop) J :
  a_sem a m = Some c ->
  (forall s', abs s' (a_upd_sem m f a) -> Q tt s') ->
  wp (upd_sem m f) Q J s.
Proof using Habs.
  intros Hm HQ. destruct (abs_sem _ _ Habs _ _ Hm) as (c' & Hc' & Hs).
  eapply wp_eq; [by eapply upd_sem_run|]. by apply HQ, abs_upd_sem.
Qed.

Lemma wp_current (Q : pcb_ptr -> kst -> Prop) J :
  Q (a_cur a) s -> wp (gets k_current) Q J s.
Proof using Habs. intros HQ. apply wp_gets. by rewrite (abs_cur _ _ Habs). Qed.

Lemma wp_glob f `{!GlobOnly f} (Q : unit -> kst -> Prop) J :
  (forall s', abs s' (a_glob f a) -> Q tt s') -> wp (modify f) Q J s.
Proof using Habs. intros HQ. apply wp_modify. by apply HQ, abs_glob. Qed.

Lemma wp_ll_entail h p (Q : Z -> kst -> Prop) J :
  a_head_ok a h -> is_Some (a_pcb a p) -> unlinked (a_q a) p ->
  (forall r s', abs s' (a_setq h (a_q a h ++ [p]) a) -> Q r s') ->
  wp (ll_entail h (Some p)) Q J s.
Proof using Habs.
  intros Hh Hp Hun HQ.
  destruct (ll_entail_run s (a_q a) (proj1 Habs) h p) as (r & s' & Hr & HR & Hs);
    [by eapply abs_head_is_Some|by eapply abs_next_is_Some|done|].
  eapply wp_eq; [exact Hr|]. apply HQ. by eapply abs_setq.
Qed.

Lemma wp_ll_pop h (Q : pcb_ptr -> kst -> Prop) J :
  a_head_ok a h ->
  match a_q a h with
  | [] => Q None s
  | p :: l => forall s', abs s' (a_setq h l a) -> Q (Some p) s'
  end ->
  wp (ll_pop h) Q J s.
Proof using Habs.
  intros Hh. destruct (a_q a h) as [|p l] eqn:Hq; intros HQ.
  - eapply wp_eq; [|exact HQ]. eapply ll_pop_nil_run; [apply Habs|by eapply abs_head_is_Some|done].
  - destruct (ll_pop_cons_run s (a_q a) (proj1 Habs) h p l Hq) as (s' & Hr & HR & Hs).
    eapply wp_eq; [exact Hr|]. apply HQ. by eapply abs_setq.
Qed.

Lemma wp_ll_delete h p l1 l2 (Q : Z -> kst -> Prop) J :
  a_q a h = l1 ++ p :: l2 ->
  (forall s', abs s' (a_setq h (l1 ++ l2) a) -> Q 1 s') ->
  wp (ll_delete h (Some p)) Q J s.
Proof using Habs.
  intros Hq HQ.
  destruct (ll_delete_run s (a_q a) (proj1 Habs) h p l1 l2 Hq) as (s' & Hr & HR & Hs).
  eapply wp_eq; [exact Hr|]. apply HQ. by eapply abs_setq.
Qed.
End rules.
