(* ===== verification/Sched.v ===== *)
(** * Scheduling: scheduler, timer, semaphores, exit and join

    Models [kernel/src/scheduler.c], [kernel/src/timer.c],
    [kernel/src/semaphore.c] and the parts of [kernel/src/process.c] that
    move processes between queues.  [scheduler_switch] does not return: it
    is the [Jump] outcome, so whatever the C code has after a call that
    switched does not run, as on the machine. *)

From S2P Require Import Prelude Proc.

(** ** [kernel/src/memory/kvm.c]: leaving the kernel into a process *)

Definition scheduler_switch (pcb : pcb_ptr) : M kst unit :=
  modify (with_current pcb);;
  _ ← get_pcb pcb;             (* pcb->pgdir, pcb->kstacktop, pcb->tf *)
  jump.

(** ** [kernel/src/scheduler.c] *)

Fixpoint do_scheduler_rec (fuel : nat) : M kst unit :=
  match fuel with
  | O => fail OutOfFuel
  | S fuel =>
      modify (fun s => with_count (u32 (k_count s + 1)) s);;
      current ← gets k_current;
      match current with
      | None =>
          p ← ll_pop HReady;
          modify (with_current p);;
          upd_pcb p (with_ts RUNNING);;
          upd_pcb p (with_timeslice 0);;
          scheduler_switch p
      | Some _ =>
          c ← get_pcb current;
          if decide (p_ts c = SLEEPING) then
            _ ← ll_entail HSleep current;
            modify (with_current None);;
            do_scheduler_rec fuel
          else if (2 <? p_timeslice c) || bool_decide (p_ts c = STOP) then
            upd_pcb current (with_ts READY);;
            _ ← ll_entail HReady current;
            modify (with_current None);;
            do_scheduler_rec fuel
          else mret tt
      end
  end.

(** The recursive call is made with [current == NULL], which does not
    recurse again. *)
Definition do_scheduler : M kst unit := do_scheduler_rec 2.

(** ** [kernel/src/timer.c] *)

Fixpoint do_timer_loop (fuel : nat) (sleep : pcb_ptr) : M kst unit :=
  match fuel with
  | O => fail OutOfFuel
  | S fuel =>
      match sleep with
      | None => mret tt
      | Some _ =>
          upd_pcb sleep (fun c => with_timeslice (u32 (p_timeslice c - 1)) c);;
          cur ← get_pcb sleep;
          if 0 <? p_timeslice cur then do_timer_loop fuel (p_next cur)
          else
            upd_pcb sleep (with_ts READY);;
            _ ← ll_delete HSleep sleep;
            _ ← ll_entail HReady sleep;
            do_timer_loop fuel (p_next cur)
      end
  end.

Definition do_timer : M kst unit :=
  modify (fun s => with_tick (u32 (k_tick s + 1)) s);;
  current ← gets k_current;
  upd_pcb current (fun c => with_timeslice (u32 (p_timeslice c + 1)) c);;
  sleep ← gets k_sleep_list;
  do_timer_loop ll_fuel sleep.

Definition tick : M kst Z := gets k_tick.

(** ** [kernel/src/semaphore.c] *)

Definition sem_init_kr (sem count : Z) : M kst unit :=
  c ← get_sem sem;
  if decide (sem_used c = 0) then
    upd_sem sem (with_sem_count count);;
    upd_sem sem (with_sem_used 1)
  else mret tt.

Fixpoint sem_close_loop (fuel : nat) (sem : Z) : M kst unit :=
  match fuel with
  | O => fail OutOfFuel
  | S fuel =>
      pcb ← ll_pop (HBlock sem);
      match pcb with
      | None => mret tt
      | Some _ => _ ← ll_entail HReady pcb; sem_close_loop fuel sem
      end
  end.

Definition sem_close_kr (sem : Z) : M kst unit :=
  c ← get_sem sem;
  if decide (sem_used c = 0) then mret tt
  else
    upd_sem sem (with_sem_used 0);;
    sem_close_loop ll_fuel sem.

Definition sem_post_kr (sem : Z) : M kst unit :=
  c ← get_sem sem;
  if decide (sem_used c = 0) then mret tt
  else
    upd_sem sem (fun c => with_sem_count (i32 (sem_count c + 1)) c);;
    c ← get_sem sem;
    if sem_count c <=? 0 then
      pcb ← ll_pop (HBlock sem);
      _ ← ll_entail HReady pcb;
      mret tt
    else mret tt.

Definition sem_wait_kr (sem : Z) : M kst unit :=
  c ← get_sem sem;
  if decide (sem_used c = 0) then mret tt
  else
    upd_sem sem (fun c => with_sem_count (i32 (sem_count c - 1)) c);;
    c ← get_sem sem;
    if sem_count c <? 0 then
      cur ← gets k_current;
      _ ← ll_entail (HBlock sem) cur;
      modify (with_current None);;
      do_scheduler
    else mret tt.

Definition sem_trywait_kr (sem : Z) : M kst Z :=
  c ← get_sem sem;
  if decide (sem_used c = 0) then mret (-1)
  else if sem_count c <=? 0 then mret 0
  else
    upd_sem sem (fun c => with_sem_count (i32 (sem_count c - 1)) c);;
    mret 1.

Definition sem_get_kr (sem : Z) : M kst Z :=
  c ← get_sem sem;
  if decide (sem_used c = 0) then mret 0 else mret (sem_count c).

(** [&sems[index]], [sems] being at [sems_addr]: the index is not checked. *)
Definition sem_addr (sems_addr index : Z) : Z := u32 (sems_addr + 12 * index).

Definition sem_open_kr (sems_addr index count : Z) : M kst Z :=
  let sem := sem_addr sems_addr index in
  sem_init_kr sem count;;
  mret sem.

(** ** [kernel/src/process.c]: leaving the running state *)

Definition free_pcb (p : pcb_ptr) : M kst unit := upd_pcb p (with_used 0).

Fixpoint exit_loop (fuel : nat) : M kst unit :=
  match fuel with
  | O => fail OutOfFuel
  | S fuel =>
      current ← gets k_current;
      cur ← from_option_or NullPointer current;
      p ← ll_pop (HJoin cur);
      match p with
      | None => mret tt
      | Some _ =>
          c ← get_pcb p;
          if decide (p_used c = 0) then exit_loop fuel
          else _ ← ll_entail HReady p; exit_loop fuel
      end
  end.

Definition exit_current : M kst unit :=
  exit_loop ll_fuel;;
  current ← gets k_current;
  free_pcb current;;
  modify (with_current None);;
  do_scheduler.

(** The first pool slot, from [i] on, whose pid is [pid]. *)
Fixpoint find_pid (pool : list PCB) (i : nat) (pid : Z) : nat :=
  match pool with
  | [] => i
  | c :: pool => if decide (p_pid c = pid) then i else find_pid pool (S i) pid
  end.

Definition join_current (pid : Z) : M kst unit :=
  if decide (pid = 0) then mret tt
  else
    s ← get;
    let i := find_pid (k_PCBPool s) 0 (u32 pid) in
    if decide (i = PCBPOOLMAX) then mret tt
    else
      p ← get_pcb (Some i);
      if decide (p_used p = 0) then mret tt
      else
        cur ← gets k_current;
        _ ← ll_entail (HJoin i) cur;
        modify (with_current None);;
        do_scheduler.

(** [kernel/src/do_syscall.c]: the cases handled without a callee. *)
Definition sys_handout : M kst unit :=
  current ← gets k_current; upd_pcb current (with_ts STOP).

Definition sys_sleep (seconds : Z) : M kst unit :=
  current ← gets k_current;
  upd_pcb current (with_ts SLEEPING);;
  upd_pcb current (with_timeslice (u32 (seconds * 200))).

Definition sys_pid : M kst Z :=
  current ← gets k_current; c ← get_pcb current; mret (p_pid c).

Definition sys_ppid : M kst Z :=
  current ← gets k_current; c ← get_pcb current; mret (p_ppid c).

(** [enready_pcb], used by [main] for the first two processes. *)
Definition enready_pcb (pcb : pcb_ptr) : M kst unit :=
  ready ← gets k_ready_list;
  match ready with
  | None =>
      modify (with_ready pcb);;
      upd_pcb pcb (with_tail pcb)
  | Some _ =>
      modify (with_ready pcb);;
      upd_pcb pcb (with_next ready);;
      t ← get_pcb ready;
      upd_pcb pcb (with_tail (p_tail t))
  end.
