(* ===== verification/SchedSpec.v ===== *)
(** * What the scheduler promises

    [a_dispatch], [a_park] and [a_wake] are the three moves of a process on
    abstract states; [AProc] is the invariant on processes and queues and
    [ASem] the one on semaphores. *)

From S2P Require Import Prelude Proc Queues AbsProc Sched.

Definition a_count (a : astate) : astate :=
  a_glob (fun k => with_count (u32 (k_count k + 1)) k) a.

(** The process at the head of the ready queue runs next. *)
Definition a_dispatch (a : astate) : astate :=
  match a_q a HReady with
  | [] => a
  | p :: l =>
      a_upd p (with_timeslice 0) (a_upd p (with_ts RUNNING)
        (a_glob (with_current (Some p)) (a_setq HReady l a)))
  end.

(** [p] stops running and waits at the end of the queue [h]. *)
Definition a_park (h : headref) (p : nat) (a : astate) : astate :=
  a_glob (with_current None) (a_setq h (a_q a h ++ [p]) a).

(** [p] leaves the queue [h], of which [l] remains, and becomes ready. *)
Definition a_move (h : headref) (l : list nat) (p : nat) (a : astate) : astate :=
  let a' := a_setq h l a in a_setq HReady (a_q a' HReady ++ [p]) a'.

(** The first process of [h], if any, becomes ready. *)
Definition a_wake (h : headref) (a : astate) : astate :=
  match a_q a h with
  | [] => a
  | p :: l => a_move h l p a
  end.

(** ** Invariants *)

Definition alive (a : astate) (p : nat) : Prop :=
  exists c, a_pcb a p = Some c /\ p_used c <> 0.

(** No PCB is queued twice. *)
Record QOk (L : queues) : Prop := {
  q_nodup : forall h, NoDup (L h);
  q_disj : forall h1 h2 p, p ∈ L h1 -> p ∈ L h2 -> h1 = h2 }.

Record AProc (a : astate) : Prop := {
  ap_q : QOk (a_q a);
  (* the running process is a used PCB in no queue *)
  ap_cur : forall p, a_cur a = Some p -> unlinked (a_q a) p /\ alive a p;
  (* queues hold used PCBs *)
  ap_used : forall h p, p ∈ a_q a h -> alive a p;
  (* no process is lost *)
  ap_all : forall p, alive a p -> a_cur a = Some p \/ exists h, p ∈ a_q a h;
  (* nobody waits for a PCB that is free *)
  ap_join : forall p, ~ alive a p -> a_q a (HJoin p) = [];
  (* a kernel process is runnable *)
  ap_idle : exists p c, a_pcb a p = Some c /\ p_tt c = KERNEL /\
    (a_cur a = Some p \/ p ∈ a_q a HReady) }.

(** A semaphore with count [n < 0] has exactly [-n] processes blocked on it;
    a closed one has none. *)
Definition sem_ok (c : Semaphore) (blocked : nat) : Prop :=
  is_i32 (sem_count c) /\
  if decide (sem_used c = 0) then blocked = 0%nat
  else Z.of_nat blocked = Z.max 0 (- sem_count c).

Definition ASem (a : astate) : Prop :=
  forall m c, a_sem a m = Some c -> sem_ok c (length (a_q a (HBlock m))).

(** The state of the kernel between interrupts. *)
Definition KInv (s : kst) : Prop :=
  exists a, abs s a /\ AProc a /\ ASem a /\ a_cur a <> None.

(** ** Reading abstract states after an update *)

Lemma q_setq a h l h' :
  a_q (a_setq h l a) h' = if decide (h = h') then l else a_q a h'.
Proof. simpl. case_decide; subst; [by rewrite fn_lookup_insert|by rewrite fn_lookup_insert_ne]. Qed.

Lemma a_pcb_upd a p f q :
  a_pcb (a_upd p f a) q = if decide (p = q) then f <$> a_pcb a q else a_pcb a q.
Proof. unfold a_pcb. simpl. apply lookup_alter_list. Qed.

Lemma a_sem_upd a m f n :
  a_sem (a_upd_sem m f a) n = if decide (m = n) then f <$> a_sem a n else a_sem a n.
Proof. unfold a_sem. simpl. rewrite lookup_alter. case_decide; by subst. Qed.

(** An update that keeps [used] and [tt]. *)
Class KeepsLife (f : PCB -> PCB) : Prop := {
  keeps_used : forall c, p_used (f c) = p_used c;
  keeps_tt : forall c, p_tt (f c) = p_tt c }.
#[export] Hint Extern 1 (KeepsLife _) => (split; done) : typeclass_instances.

Lemma alive_upd a p f q `{!KeepsLife f} : alive (a_upd p f a) q <-> alive a q.
Proof.
  unfold alive. rewrite a_pcb_upd. case_decide; [|done]. destruct (a_pcb a q) as [c|]; simpl;
    [|naive_solver]. pose proof (keeps_used (f := f) c).
  split.
  - intros (? & [= <-] & ?). exists c. split; [done|congruence].
  - intros (? & [= <-] & ?). exists (f c). split; [done|congruence].
Qed.

Lemma AProc_upd a p f `{!KeepsLife f} : AProc a -> AProc (a_upd p f a).
Proof.
  intros [H0 H1 H2 H3 H4 (i & c & Hi & Hc & Hrun)]. split; [exact H0|..].
  - intros q Hq. rewrite (alive_upd a p f q). by apply H1.
  - intros h q Hq. rewrite (alive_upd a p f q). by eapply H2.
  - intros q. rewrite (alive_upd a p f q). apply H3.
  - intros q. rewrite (alive_upd a p f q). apply H4.
  - destruct (decide (p = i)) as [->|].
    + exists i, (f c). rewrite a_pcb_upd, decide_True, Hi by done.
      by rewrite keeps_tt.
    + exists i, c. by rewrite a_pcb_upd, decide_False.
Qed.

Lemma ASem_upd a p f : ASem a -> ASem (a_upd p f a).
Proof. done. Qed.

(** Updates of globals other than [current] are invisible to the invariants. *)
Lemma AProc_glob a f `{!GlobOnly f} :
  (forall k, k_current (f k) = k_current k) -> AProc a -> AProc (a_glob f a).
Proof.
  intros Hcur [H0 H1 H2 H3 H4 H5].
  assert (Hp : forall q, a_pcb (a_glob f a) q = a_pcb a q)
    by (intros; unfold a_pcb; simpl; by rewrite go_pool).
  assert (Hc : a_cur (a_glob f a) = a_cur a) by apply Hcur.
  split; [exact H0|..]; unfold alive in *; setoid_rewrite Hp; rewrite ?Hc; try done.
Qed.

Lemma ASem_glob a f `{!GlobOnly f} : ASem a -> ASem (a_glob f a).
Proof. intros H m c. unfold a_sem. simpl. rewrite go_sems. apply H. Qed.

Lemma ASem_setq a h l :
  (forall m, h = HBlock m -> length l = length (a_q a h)) -> ASem a -> ASem (a_setq h l a).
Proof.
  intros Hl H m c Hm. rewrite q_setq. case_decide as E; [|by apply H].
  rewrite (Hl _ E). subst. by apply H.
Qed.

(** ** The moves keep the invariants *)

Lemma QOk_snoc L h p : QOk L -> unlinked L p -> QOk (<[h := L h ++ [p]]> L).
Proof.
  intros [H1 H2] Hun.
  assert (Hin : forall h' q, q ∈ <[h := L h ++ [p]]> L h' -> q ∈ L h' \/ (q = p /\ h' = h)).
  { intros h' q. destruct (decide (h' = h)) as [->|Hne].
    - rewrite fn_lookup_insert. set_solver+.
    - rewrite fn_lookup_insert_ne by done. tauto. }
  split.
  - intros h'. destruct (decide (h' = h)) as [->|Hne].
    + rewrite fn_lookup_insert. apply NoDup_app. split_and!; [done| |by apply NoDup_singleton].
      intros q Hq ->%list_elem_of_singleton. by apply (Hun h).
    + by rewrite fn_lookup_insert_ne.
  - intros h1 h2 q [Ha|[-> ->]]%Hin [Hb|[Hb ->]]%Hin; try done.
    + by eapply H2.
    + subst. by destruct (Hun h1).
    + by destruct (Hun h2).
Qed.

Lemma QOk_remove L h l1 p l2 :
  QOk L -> L h = l1 ++ p :: l2 ->
  QOk (<[h := l1 ++ l2]> L) /\ unlinked (<[h := l1 ++ l2]> L) p.
Proof.
  intros [H1 H2] HL. pose proof (H1 h) as Hnd. rewrite HL, <- Permutation_middle in Hnd.
  apply NoDup_cons in Hnd as [Hp Hl].
  assert (Hin : forall h' q, q ∈ <[h := l1 ++ l2]> L h' -> q ∈ L h').
  { intros h' q. destruct (decide (h' = h)) as [->|Hne].
    - rewrite fn_lookup_insert, HL. set_solver+.
    - by rewrite fn_lookup_insert_ne. }
  split; [split|].
  - intros h'. destruct (decide (h' = h)) as [->|Hne];
      [by rewrite fn_lookup_insert|by rewrite fn_lookup_insert_ne].
  - intros h1 h2 q Ha%Hin Hb%Hin. by eapply H2.
  - intros h' Hh'. destruct (decide (h' = h)) as [->|Hne].
    + by rewrite fn_lookup_insert in Hh'.
    + apply Hin in Hh'. apply Hne. eapply H2; [done|]. rewrite HL. set_solver+.
Qed.

Lemma QOk_tail L h p l :
  QOk L -> L h = p :: l -> QOk (<[h := l]> L) /\ unlinked (<[h := l]> L) p.
Proof. apply (QOk_remove L h []). Qed.

Lemma AProc_park a h p :
  AProc a -> a_cur a = Some p ->
  (forall q, h = HJoin q -> alive a q) ->
  (h = HReady \/ exists q c, q ∈ a_q a HReady /\ a_pcb a q = Some c /\ p_tt c = KERNEL) ->
  AProc (a_park h p a).
Proof.
  intros [H0 H1 H2 H3 H4 H5] Hp Hj Hidle. destruct (H1 _ Hp) as [Hun Hal]. split.
  - by apply QOk_snoc.
  - done.
  - intros h' q. change (a_q (a_park h p a) h') with (a_q (a_setq h (a_q a h ++ [p]) a) h').
    rewrite q_setq. case_decide; [|apply H2].
    intros [Hq|Hq%list_elem_of_singleton]%elem_of_app; [by eapply H2|by subst].
  - intros q Hq. right. destruct (H3 _ Hq) as [Hc|[h' Hh']].
    + exists h. change (q ∈ a_q (a_setq h (a_q a h ++ [p]) a) h).
      rewrite q_setq, decide_True by done. assert (q = p) as -> by congruence. set_solver+.
    + exists h'. change (q ∈ a_q (a_setq h (a_q a h ++ [p]) a) h').
      rewrite q_setq. case_decide; [subst; set_solver|done].
  - intros q Hq. change (a_q (a_setq h (a_q a h ++ [p]) a) (HJoin q) = []).
    rewrite q_setq. case_decide as E; [|by apply H4]. exfalso. apply Hq. by apply Hj.
  - destruct Hidle as [->|(q & c & Hq & Hc & Htt)].
    + destruct H5 as (i & c & Hi & Hc & Hrun). exists i, c. split; [done|]. split; [done|]. right.
      change (i ∈ a_q (a_setq HReady (a_q a HReady ++ [p]) a) HReady).
      rewrite q_setq, decide_True by done.
      destruct Hrun as [Hrun|Hrun]; [assert (i = p) as -> by congruence|]; set_solver.
    + exists q, c. split; [done|]. split; [done|]. right.
      change (q ∈ a_q (a_setq h (a_q a h ++ [p]) a) HReady).
      rewrite q_setq. case_decide; [subst; set_solver|done].
Qed.

Lemma AProc_dispatch a : AProc a -> a_cur a = None -> AProc (a_dispatch a).
Proof.
  intros HA Hcur. unfold a_dispatch. destruct (a_q a HReady) as [|p l] eqn:Hq; [done|].
  do 2 (apply AProc_upd; [apply _|]).
  destruct (QOk_tail _ _ _ _ (ap_q _ HA) Hq) as [HQ Hun].
  destruct HA as [H0 H1 H2 H3 H4 H5]. set (a' := a_setq HReady l a).
  assert (Hsub : forall h q, q ∈ a_q a' h -> q ∈ a_q a h).
  { intros h q. unfold a'. rewrite q_setq. case_decide; [subst|done]. rewrite Hq. by right. }
  assert (Hsup : forall h q, q ∈ a_q a h -> q = p \/ q ∈ a_q a' h).
  { intros h q Hin. unfold a'. rewrite q_setq. case_decide; [subst|by right].
    rewrite Hq in Hin. by apply elem_of_cons in Hin. }
  split; [exact HQ|..].
  - intros q [= <-]. split; [exact Hun|]. apply (H2 HReady). rewrite Hq. left.
  - intros h q Hin. eapply H2, Hsub, Hin.
  - intros q Hal. destruct (H3 q Hal) as [Hc|[h Hh]]; [congruence|].
    destruct (Hsup _ _ Hh) as [->|?]; [by left|right; by exists h].
  - intros q Hal. change (a_q a' (HJoin q) = []). unfold a'. rewrite q_setq, decide_False by done.
    by apply H4.
  - destruct H5 as (i & c & Hi & Htt & [Hc|Hr]); [congruence|]. exists i, c.
    split; [done|]. split; [done|]. destruct (Hsup _ _ Hr) as [->|?]; [by left|by right].
Qed.

Lemma AProc_move a h l1 p l2 :
  AProc a -> a_q a h = l1 ++ p :: l2 -> AProc (a_move h (l1 ++ l2) p a).
Proof.
  intros HA Hq. unfold a_move. set (a1 := a_setq h _ a). set (a' := a_setq HReady _ a1).
  destruct (QOk_remove _ _ _ _ _ (ap_q _ HA) Hq) as [HQ HQun]. destruct HA as [H0 H1 H2 H3 H4 H5].
  assert (Hin1 : forall h' q, q ∈ a_q a1 h' -> q ∈ a_q a h').
  { intros h' q. unfold a1. rewrite q_setq. case_decide; [subst|done]. rewrite Hq. set_solver+. }
  assert (Hin : forall h' q, q ∈ a_q a' h' -> exists h'', q ∈ a_q a h'').
  { intros h' q. unfold a'. rewrite q_setq. case_decide; [|by eauto].
    intros [?|Hqp%list_elem_of_singleton]%elem_of_app; [by eauto|].
    subst q. exists h. rewrite Hq. set_solver+. }
  assert (Hback : forall h' q, q ∈ a_q a h' ->
    q ∈ a_q a' HReady \/ (h' <> HReady /\ q ∈ a_q a' h')).
  { intros h' q Hh'. unfold a'. rewrite !q_setq, decide_True by done.
    assert (q ∈ a_q a1 h' \/ q = p) as [Hq1|Hq1].
    { unfold a1. rewrite q_setq. case_decide; [subst|by left]. rewrite Hq in Hh'. set_solver. }
    - case_decide as E; [subst; left; set_solver|by right].
    - subst q. left. set_solver+. }
  split.
  - by apply QOk_snoc.
  - intros q Hc. destruct (H1 _ Hc) as [Hun Hal]. split; [|done].
    intros h' Hh'. destruct (Hin _ _ Hh') as [h'' ?]. by apply (Hun h'').
  - intros h' q Hh'. destruct (Hin _ _ Hh') as [h'' ?]. by eapply H2.
  - intros q Hal. destruct (H3 _ Hal) as [?|[h' Hh']]; [by left|right].
    destruct (Hback _ _ Hh') as [?|[_ ?]]; eauto.
  - intros q Hal. unfold a', a1. rewrite !q_setq. rewrite decide_False by done.
    case_decide; subst; [|by apply H4]. specialize (H4 _ Hal). rewrite Hq in H4. by destruct l1.
  - destruct H5 as (i & c & Hi & Htt & Hrun). exists i, c. split; [done|]. split; [done|].
    destruct Hrun as [?|Hr]; [by left|right]. by destruct (Hback _ _ Hr) as [?|[? _]].
Qed.

Lemma AProc_wake a h : AProc a -> AProc (a_wake h a).
Proof.
  intros HA. unfold a_wake. destruct (a_q a h) as [|p l] eqn:Hq; [done|].
  by apply (AProc_move a h [] p l).
Qed.
