(* ===== verification/SchedProofs.v ===== *)
(** * The scheduler, the timer and the semaphores meet their specification *)

From S2P Require Import Prelude Proc Queues AbsProc Sched SchedSpec.

(** Symbolic execution of the monadic code against an abstract state. *)
Ltac wbind := apply wp_bind.
Ltac wcur H := wbind; apply (wp_current _ _ H).
Ltac wupd H e := wbind; eapply (wp_upd_pcb _ _ H); [e|].
Ltac wglob H s' H' := wbind; apply (wp_glob _ _ H); [apply _|]; clear H; intros s' H'; cbn beta.

Lemma a_pcb_setq a h l p : a_pcb (a_setq h l a) p = a_pcb a p.
Proof. done. Qed.
Lemma a_pcb_count a p : a_pcb (a_count a) p = a_pcb a p.
Proof. done. Qed.

Lemma alive_is_Some a p : alive a p -> is_Some (a_pcb a p).
Proof. intros (c & -> & _). eauto. Qed.

Lemma ready_nonempty a : AProc a -> a_cur a = None -> exists p l, a_q a HReady = p :: l.
Proof.
  intros HA Hc. destruct (ap_idle _ HA) as (i & c & _ & _ & [?|Hi]); [congruence|].
  destruct (a_q a HReady) as [|p l]; [by inversion Hi|eauto].
Qed.

Lemma AProc_count a : AProc a -> AProc (a_count a).
Proof. by apply AProc_glob. Qed.
Lemma ASem_count a : ASem a -> ASem (a_count a).
Proof. apply ASem_glob. apply _. Qed.

Lemma wp_dispatch n s a Q :
  abs s a -> AProc a -> a_cur a = None ->
  wp (do_scheduler_rec (S n)) Q (fun s' => abs s' (a_dispatch (a_count a))) s.
Proof.
  intros Habs HA Hcur. destruct (ready_nonempty _ HA Hcur) as (p & l & Hq).
  destruct (ap_used _ HA HReady p) as (c & Hp & _); [rewrite Hq; left|].
  simpl. wglob Habs s1 H1. wcur H1. change (a_cur (a_glob _ a)) with (a_cur a). rewrite Hcur.
  wbind. apply (wp_ll_pop _ _ H1); [done|]. simpl. rewrite Hq. clear H1. intros s2 H2. cbn beta.
  wglob H2 s3 H3. wbind. eapply (wp_upd_pcb _ _ H3); [apply _|exact Hp|]. clear H3. intros s4 H4.
  wbind. eapply (wp_upd_pcb _ _ H4); [apply _| |].
  { rewrite a_pcb_upd, decide_True by done. change (a_pcb _ p) with (a_pcb a p). by rewrite Hp. }
  clear H4. intros s5 H5. cbn beta.
  unfold scheduler_switch. wglob H5 s6 H6. wbind. eapply (wp_get_pcb _ _ H6).
  { unfold a_pcb. simpl. rewrite !lookup_alter_list, !decide_True by done.
    unfold a_pcb in Hp. by rewrite Hp. }
  intros c' _ _. apply wp_jump. unfold a_dispatch. simpl. by rewrite Hq.
Qed.

Definition preempted (c : PCB) : bool :=
  (2 <? p_timeslice c) || bool_decide (p_ts c = STOP).

(** What one call of [do_scheduler] does to the process [i], whose PCB is
    [c], that is running: nothing, or it is queued and the head of the ready
    queue runs. *)
Definition sched_spec (i : nat) (c : PCB) (a : astate) : option astate :=
  if decide (p_ts c = SLEEPING) then
    Some (a_dispatch (a_count (a_park HSleep i (a_count a))))
  else if preempted c then
    Some (a_dispatch (a_count (a_park HReady i (a_upd i (with_ts READY) (a_count a)))))
  else None.

(** Some kernel process is in the ready queue. *)
Definition kernel_ready (a : astate) : Prop :=
  exists q c, q ∈ a_q a HReady /\ a_pcb a q = Some c /\ p_tt c = KERNEL.

(** The running process is not a kernel process (so, [ap_idle], one is
    ready). *)
Definition user_running (s : kst) : Prop :=
  exists i c, k_current s = Some i /\ k_PCBPool s !! i = Some c /\ p_tt c <> KERNEL.

Lemma user_kernel_ready s a : abs s a -> AProc a -> user_running s -> kernel_ready a.
Proof.
  intros Habs HA (i & c & Hi & Hc & Hu). pose proof (abs_pcb_rev _ _ Habs _ _ Hc) as Hc'.
  assert (Hcur : a_cur a = Some i) by (unfold a_cur; by rewrite <- (proj2 Habs)).
  destruct (ap_idle _ HA) as (q & e & Hq & Htt & [Hrun|Hrdy]); [|by exists q, e].
  rewrite Hcur in Hrun. injection Hrun as ->. rewrite Hc' in Hq. injection Hq as <-. done.
Qed.

Lemma wp_do_scheduler s a i c (Q : unit -> kst -> Prop) J :
  abs s a -> AProc a -> a_cur a = Some i -> a_pcb a i = Some c ->
  (p_ts c = SLEEPING -> kernel_ready a) ->
  (forall s', match sched_spec i c a with
    | Some a' => abs s' a' -> J s'
    | None => abs s' (a_count a) -> Q tt s'
    end) ->
  wp do_scheduler Q J s.
Proof.
  intros Habs HA Hcur Hc Hidle HQJ. unfold do_scheduler. simpl do_scheduler_rec.
  pose proof (AProc_count _ HA) as HA1.
  wglob Habs s1 H1. wcur H1. change (a_cur (a_glob _ a)) with (a_cur a). rewrite Hcur.
  destruct (ap_cur _ HA _ Hcur) as [Hun Hal].
  wbind. eapply (wp_get_pcb _ _ H1); [exact Hc|]. intros c' _ <-.
  unfold sched_spec in HQJ. change (preempted (strip_pcb c')) with (preempted c') in HQJ.
  change (p_ts (strip_pcb c')) with (p_ts c') in *.
  case_decide as Hs; [|fold (preempted c'); destruct (preempted c')].
  - wbind. eapply (wp_ll_entail _ _ H1); [done|eexists; exact Hc|done|]. clear H1. intros r s2 H2.
    wglob H2 s3 H3. eapply wp_mono; [|intros ? ? HQ; exact HQ|exact HQJ].
    apply (wp_dispatch 0 _ (a_park HSleep i (a_count a))); [exact H3| |done].
    apply (AProc_park (a_count a) HSleep i); [done..|by right; apply Hidle].
  - wbind. eapply (wp_upd_pcb _ _ H1); [apply _|exact Hc|]. clear H1. intros s2 H2.
    wbind. eapply (wp_ll_entail _ _ H2); [done| |done|].
    { rewrite a_pcb_upd, decide_True by done. rewrite a_pcb_count, Hc. by eexists. }
    clear H2. intros r s3 H3. wglob H3 s4 H4.
    eapply wp_mono; [|intros ? ? HQ; exact HQ|exact HQJ].
    apply (wp_dispatch 0 _ (a_park HReady i (a_upd i (with_ts READY) (a_count a))));
      [exact H4| |done].
    apply (AProc_park (a_upd i (with_ts READY) (a_count a)) HReady i);
      [by apply AProc_upd; [apply _|]|done..|by left].
  - apply wp_ret. by apply HQJ.
Qed.

(** ** The invariant between interrupts *)

Lemma ASem_dispatch a : ASem a -> ASem (a_dispatch a).
Proof.
  intros HA. unfold a_dispatch. destruct (a_q a HReady); [done|].
  do 2 apply ASem_upd. apply ASem_glob; [apply _|]. by apply ASem_setq.
Qed.

Lemma a_cur_dispatch a : AProc a -> a_cur a = None -> a_cur (a_dispatch a) <> None.
Proof.
  intros HA Hc. destruct (ready_nonempty _ HA Hc) as (p & l & Hq).
  unfold a_dispatch. by rewrite Hq.
Qed.

(** Parking and dispatching together: the running process [i] waits in [h]
    and another process runs. *)
Definition a_block (h : headref) (i : nat) (a : astate) : astate :=
  a_dispatch (a_count (a_park h i a)).

Lemma KInv_block s a h i :
  abs s (a_block h i a) -> AProc a -> a_cur a = Some i ->
  (forall q, h = HJoin q -> alive a q) -> (h = HReady \/ kernel_ready a) ->
  ASem (a_park h i a) -> KInv s.
Proof.
  intros Habs HA Hi Hj Hh HS. pose proof (AProc_park _ _ _ HA Hi Hj Hh) as HP.
  apply AProc_count in HP. exists (a_block h i a). split_and!; [done|..].
  - by apply AProc_dispatch.
  - apply ASem_dispatch, ASem_glob; [apply _|done].
  - by apply a_cur_dispatch.
Qed.

Lemma ASem_park a h i : (forall m, h <> HBlock m) -> ASem a -> ASem (a_park h i a).
Proof.
  intros Hh HS. apply ASem_glob; [apply _|]. apply ASem_setq; [|done].
  intros m ->. by destruct (Hh m).
Qed.

Lemma KInv_do_scheduler s a i c :
  abs s a -> AProc a -> ASem a -> a_cur a = Some i -> a_pcb a i = Some c ->
  (p_ts c = SLEEPING -> kernel_ready a) ->
  wp do_scheduler (fun _ => KInv) KInv s.
Proof.
  intros Habs HA HS Hi Hc Hidle. eapply wp_do_scheduler; [done..|].
  intros s'. unfold sched_spec. case_decide; [|destruct (preempted c)]; intros Habs'.
  - eapply (KInv_block _ (a_count a) HSleep); [exact Habs'|by apply AProc_count|done..| |].
    + right. by apply Hidle.
    + by apply ASem_park, ASem_count.
  - eapply (KInv_block _ (a_upd i (with_ts READY) (a_count a)) HReady); [exact Habs'| |done..|by left|].
    + by apply AProc_upd; [apply _|apply AProc_count].
    + by apply ASem_park, ASem_upd, ASem_count.
  - exists (a_count a). split_and!; [done|by apply AProc_count|by apply ASem_count|].
    change (a_cur a <> None). congruence.
Qed.

(** ** Semaphores *)

Definition sem_inc (c : Semaphore) : Semaphore := with_sem_count (i32 (sem_count c + 1)) c.
Definition sem_dec (c : Semaphore) : Semaphore := with_sem_count (i32 (sem_count c - 1)) c.

(** [V]: the count goes up, and if someone was waiting the first waiter
    becomes ready. *)
Definition sem_post_spec (m : Z) (c : Semaphore) (a : astate) : astate :=
  if decide (sem_used c = 0) then a
  else
    let a' := a_upd_sem m sem_inc a in
    if sem_count c + 1 <=? 0 then a_wake (HBlock m) a' else a'.

Lemma sem_ok_inc c n :
  sem_ok c n -> sem_used c <> 0 -> sem_count c < 2 ^ 31 - 1 ->
  i32 (sem_count c + 1) = sem_count c + 1 /\
  (sem_count c + 1 <= 0 -> n <> 0%nat) /\
  sem_ok (sem_inc c) (if sem_count c + 1 <=? 0 then pred n else n).
Proof.
  intros [Hr Hn] Hu Hlt. rewrite decide_False in Hn by done. unfold is_i32 in Hr.
  assert (E : i32 (sem_count c + 1) = sem_count c + 1) by (apply i32_id; unfold is_i32; lia).
  split; [done|]. split; [lia|].
  unfold sem_ok, sem_inc. simpl. rewrite decide_False by done. rewrite E.
  split; [unfold is_i32; lia|]. destruct (Z.leb_spec (sem_count c + 1) 0); lia.
Qed.

Lemma length_wake a h p l m :
  a_q a h = p :: l ->
  length (a_q (a_wake h a) (HBlock m)) =
    if decide (h = HBlock m) then pred (length (a_q a (HBlock m))) else length (a_q a (HBlock m)).
Proof.
  intros Hq. unfold a_wake. rewrite Hq. unfold a_move. cbn zeta. rewrite q_setq, decide_False by done.
  rewrite q_setq. case_decide as E; [|done]. by rewrite <- E, Hq.
Qed.

Lemma ASem_post a m c :
  ASem a -> a_sem a m = Some c -> (sem_used c <> 0 -> sem_count c < 2 ^ 31 - 1) ->
  ASem (sem_post_spec m c a).
Proof.
  intros HS Hm Hlt. unfold sem_post_spec. case_decide as Hu; [done|]. cbn zeta.
  destruct (sem_ok_inc _ _ (HS _ _ Hm) Hu (Hlt Hu)) as (_ & Hne & Hok).
  intros n d Hd. assert (Hd' : a_sem (a_upd_sem m sem_inc a) n = Some d).
  { destruct (_ <=? 0); [|done]. unfold a_wake in Hd. by destruct (a_q _ _). }
  rewrite a_sem_upd in Hd'. destruct (Z.leb_spec (sem_count c + 1) 0) as [Hle|Hle].
  - destruct (a_q (a_upd_sem m sem_inc a) (HBlock m)) as [|p l] eqn:Hq.
    { change (a_q a (HBlock m) = []) in Hq. specialize (Hne Hle). by rewrite Hq in Hne. }
    rewrite (length_wake _ _ _ _ _ Hq). case_decide as E.
    + subst n. rewrite Hm in Hd'. injection Hd' as <-. by rewrite decide_True.
    + rewrite decide_False by congruence. by apply HS.
  - case_decide as E; [subst n|by apply HS]. rewrite Hm in Hd'. by injection Hd' as <-.
Qed.

Lemma wp_sem_post s a m c (Q : unit -> kst -> Prop) J :
  abs s a -> AProc a -> ASem a -> a_sem a m = Some c ->
  (sem_used c <> 0 -> sem_count c < 2 ^ 31 - 1) ->
  (forall s', abs s' (sem_post_spec m c a) -> Q tt s') ->
  wp (sem_post_kr m) Q J s.
Proof.
  intros Habs HA HS Hm Hlt HQ. unfold sem_post_spec in HQ. unfold sem_post_kr.
  wbind. eapply (wp_get_sem _ _ Habs); [exact Hm|]. intros c' <-.
  change (sem_used (with_block_list None c')) with (sem_used c') in *.
  case_decide as Hu; [apply wp_ret; by apply HQ|].
  destruct (sem_ok_inc _ _ (HS _ _ Hm) Hu (Hlt Hu)) as (E & Hne & _). simpl in E, Hne.
  wbind. eapply (wp_upd_sem _ _ Habs); [apply (_ : SemLinkFree sem_inc)|exact Hm|].
  clear Habs s. intros s Habs. set (a1 := a_upd_sem m sem_inc a) in *. change (abs s a1) in Habs.
  assert (Hm1 : a_sem a1 m = Some (sem_inc (with_block_list None c'))).
  { unfold a1. by rewrite a_sem_upd, decide_True, Hm. }
  wbind. eapply (wp_get_sem _ _ Habs); [exact Hm1|]. intros c2 Hc2.
  assert (sem_count c2 = sem_count c' + 1) as ->.
  { apply (f_equal sem_count) in Hc2. simpl in Hc2. congruence. }
  simpl in HQ. destruct (Z.leb_spec (sem_count c' + 1) 0) as [Hle|Hle]; [|apply wp_ret; by apply HQ].
  destruct (a_q a1 (HBlock m)) as [|p l] eqn:Hq.
  { specialize (Hne Hle). change (a_q a (HBlock m) = []) in Hq. by rewrite Hq in Hne. }
  wbind. apply (wp_ll_pop _ _ Habs); [by eexists|]. rewrite Hq. clear Habs s. intros s Habs.
  destruct (QOk_tail _ _ _ _ (ap_q _ HA) Hq) as [_ Hun].
  wbind. eapply (wp_ll_entail _ _ Habs); [done| |done|].
  { apply alive_is_Some. apply (ap_used _ HA (HBlock m)). change (p ∈ a_q a1 (HBlock m)).
    rewrite Hq. left. }
  clear Habs s. intros r s Habs. apply wp_ret. apply HQ. unfold a_wake. by rewrite Hq.
Qed.

Lemma AProc_upd_sem a m f `{!SemLinkFree f} : AProc a -> AProc (a_upd_sem m f a).
Proof. intros [H0 H1 H2 H3 H4 H5]. by split. Qed.

Lemma a_cur_wake a h : a_cur (a_wake h a) = a_cur a.
Proof. unfold a_wake. by destruct (a_q a h). Qed.

Lemma KInv_sem_post s m :
  KInv s ->
  (exists c, k_sems s !! m = Some c /\ (sem_used c <> 0 -> sem_count c < 2 ^ 31 - 1)) ->
  wp (sem_post_kr m) (fun _ => KInv) KInv s.
Proof.
  intros (a & Habs & HA & HS & Hcur) (c & Hc & Hlt).
  assert (Hm : a_sem a m = Some (with_block_list None c)).
  { unfold a_sem. rewrite <- (proj2 Habs). simpl. by rewrite lookup_fmap, Hc. }
  eapply wp_sem_post; [done..|]. intros s' Habs'. eexists. split_and!; [exact Habs'|..].
  - unfold sem_post_spec. case_decide; [done|]. cbn zeta.
    destruct (_ <=? 0); [apply AProc_wake|]; by apply AProc_upd_sem; [apply _|].
  - by apply ASem_post.
  - unfold sem_post_spec. case_decide; [done|]. cbn zeta.
    destruct (_ <=? 0); by rewrite ?a_cur_wake.
Qed.

(** [P]: the count goes down; if nothing was left the caller blocks behind
    those already waiting and another process runs. *)
Definition sem_wait_spec (m : Z) (c : Semaphore) (i : nat) (a : astate) : astate + astate :=
  if decide (sem_used c = 0) then inl a
  else
    let a' := a_upd_sem m sem_dec a in
    if sem_count c - 1 <? 0 then inr (a_block (HBlock m) i a') else inl a'.

Lemma abs_sem_of s a m c :
  abs s a -> k_sems s !! m = Some c -> a_sem a m = Some (with_block_list None c).
Proof. intros [_ Hs] Hc. unfold a_sem. rewrite <- Hs. simpl. by rewrite lookup_fmap, Hc. Qed.

Lemma blocked_bound s a h : abs s a -> Z.of_nat (length (a_q a h)) <= 1000.
Proof.
  intros [HR _]. pose proof (rep_length _ _ HR h). unfold PCBPOOLMAX in *. lia.
Qed.

Lemma sem_ok_dec c n :
  sem_ok c n -> sem_used c <> 0 -> Z.of_nat n <= 1000 ->
  i32 (sem_count c - 1) = sem_count c - 1 /\
  sem_ok (sem_dec c) (if sem_count c - 1 <? 0 then S n else n).
Proof.
  intros [Hr Hn] Hu Hb. rewrite decide_False in Hn by done. unfold is_i32 in Hr.
  assert (E : i32 (sem_count c - 1) = sem_count c - 1) by (apply i32_id; unfold is_i32; lia).
  split; [done|]. unfold sem_ok, sem_dec. simpl. rewrite decide_False by done. rewrite E.
  split; [unfold is_i32; lia|]. destruct (Z.ltb_spec (sem_count c - 1) 0); lia.
Qed.

Lemma wp_sem_wait s a m c i (Q : unit -> kst -> Prop) J :
  abs s a -> AProc a -> ASem a -> a_sem a m = Some c -> a_cur a = Some i -> kernel_ready a ->
  (forall s', match sem_wait_spec m c i a with
    | inl a' => abs s' a' -> Q tt s'
    | inr a' => abs s' a' -> J s'
    end) ->
  wp (sem_wait_kr m) Q J s.
Proof.
  intros Habs HA HS Hm Hcur Hidle HQ. unfold sem_wait_spec in HQ. unfold sem_wait_kr.
  pose proof (blocked_bound _ _ (HBlock m) Habs) as Hb.
  wbind. eapply (wp_get_sem _ _ Habs); [exact Hm|]. intros c' <-.
  change (sem_used (with_block_list None c')) with (sem_used c') in *.
  case_decide as Hu; [apply wp_ret; by apply HQ|].
  destruct (sem_ok_dec _ _ (HS _ _ Hm) Hu Hb) as (E & _). simpl in E.
  wbind. eapply (wp_upd_sem _ _ Habs); [apply (_ : SemLinkFree sem_dec)|exact Hm|].
  clear Habs s. intros s Habs. set (a1 := a_upd_sem m sem_dec a) in *. change (abs s a1) in Habs.
  assert (Hm1 : a_sem a1 m = Some (sem_dec (with_block_list None c'))).
  { unfold a1. by rewrite a_sem_upd, decide_True, Hm. }
  wbind. eapply (wp_get_sem _ _ Habs); [exact Hm1|]. intros c2 Hc2.
  assert (sem_count c2 = sem_count c' - 1) as ->.
  { apply (f_equal sem_count) in Hc2. simpl in Hc2. congruence. }
  simpl in HQ. destruct (Z.ltb_spec (sem_count c' - 1) 0) as [Hle|Hle]; [|apply wp_ret; by apply HQ].
  wcur Habs. change (a_cur a1) with (a_cur a). rewrite Hcur.
  destruct (ap_cur _ HA _ Hcur) as [Hun Hal].
  wbind. eapply (wp_ll_entail _ _ Habs); [by eexists|by apply (alive_is_Some a)|done|].
  clear Habs s. intros r s Habs. wglob Habs s2 H2.
  eapply wp_mono; [|intros ? ? HQ'; exact HQ'|exact HQ].
  apply (wp_dispatch 1 _ (a_park (HBlock m) i a1)); [exact H2| |done].
  apply AProc_park; [by apply AProc_upd_sem; [apply _|]|done..|by right].
Qed.

Lemma ASem_wait a m c i :
  ASem a -> a_sem a m = Some c -> sem_used c <> 0 -> Z.of_nat (length (a_q a (HBlock m))) <= 1000 ->
  ASem (if sem_count c - 1 <? 0 then a_park (HBlock m) i (a_upd_sem m sem_dec a)
        else a_upd_sem m sem_dec a).
Proof.
  intros HS Hm Hu Hb. destruct (sem_ok_dec _ _ (HS _ _ Hm) Hu Hb) as (_ & Hok).
  intros n d Hd. assert (Hd' : a_sem (a_upd_sem m sem_dec a) n = Some d) by (by destruct (_ <? 0)).
  rewrite a_sem_upd in Hd'. destruct (Z.ltb_spec (sem_count c - 1) 0) as [Hle|Hle].
  - change (a_q _ (HBlock n)) with (a_q (a_setq (HBlock m) (a_q a (HBlock m) ++ [i]) a) (HBlock n)).
    rewrite q_setq. case_decide as E.
    + subst n. rewrite decide_True in * by congruence. rewrite Hm in Hd'. injection Hd' as <-.
      rewrite length_app, Nat.add_comm. exact Hok.
    + rewrite decide_False in * by congruence. by apply HS.
  - case_decide as E; [subst n|by apply HS]. rewrite Hm in Hd'. by injection Hd' as <-.
Qed.

Lemma KInv_sem_wait s m :
  KInv s -> is_Some (k_sems s !! m) ->
  user_running s ->
  wp (sem_wait_kr m) (fun _ => KInv) KInv s.
Proof.
  intros (a & Habs & HA & HS & Hcur) [c Hc] Hidle.
  pose proof (abs_sem_of _ _ _ _ Habs Hc) as Hm.
  pose proof (blocked_bound _ _ (HBlock m) Habs) as Hb.
  destruct (a_cur a) as [i|] eqn:Hi; [|done].
  pose proof (user_kernel_ready _ _ Habs HA Hidle) as Hk.
  eapply wp_sem_wait; [done..|]. intros s'. unfold sem_wait_spec. case_decide as Hu.
  { intros Habs'. exists a. split_and!; [done..|congruence]. }
  pose proof (ASem_wait _ _ _ i HS Hm Hu Hb) as HS'.
  assert (HA' : AProc (a_upd_sem m sem_dec a)) by (by apply AProc_upd_sem; [apply _|]).
  cbn zeta. destruct (_ <? 0); intros Habs'.
  - by eapply KInv_block; [exact Habs'|..|right|].
  - eexists. split_and!; [exact Habs'|done..|]. change (a_cur a <> None). congruence.
Qed.

(** Closing a semaphore makes every waiter ready, in order. *)
Fixpoint a_drain (n : nat) (h : headref) (a : astate) : astate :=
  match n with O => a | S n => a_drain n h (a_wake h a) end.

Lemma q_wake a h p l h' :
  a_q a h = p :: l -> h <> HReady ->
  a_q (a_wake h a) h' =
    if decide (h' = HReady) then a_q a HReady ++ [p]
    else if decide (h' = h) then l else a_q a h'.
Proof.
  intros Hq Hne. unfold a_wake. rewrite Hq. unfold a_move. cbn zeta. rewrite !q_setq.
  repeat case_decide; congruence.
Qed.

Lemma q_drain a h l h' :
  a_q a h = l -> h <> HReady ->
  a_q (a_drain (length l) h a) h' =
    if decide (h' = HReady) then a_q a HReady ++ l
    else if decide (h' = h) then [] else a_q a h'.
Proof.
  intros Hq Hne. revert a Hq. induction l as [|p l IH]; intros a Hq; simpl.
  - repeat case_decide; subst; by rewrite ?app_nil_r.
  - rewrite IH by (rewrite (q_wake _ _ _ _ _ Hq) by done; by rewrite decide_False, decide_True).
    rewrite !(q_wake _ _ _ _ _ Hq) by done. repeat case_decide; try done.
    by rewrite <- app_assoc.
Qed.

Lemma a_k_drain n h a : a_k (a_drain n h a) = a_k a.
Proof.
  revert a. induction n as [|n IH]; intros a; simpl; [done|]. rewrite IH.
  unfold a_wake. by destruct (a_q a h).
Qed.

Lemma AProc_drain n h a : AProc a -> AProc (a_drain n h a).
Proof. revert a. induction n as [|n IH]; intros a HA; simpl; [done|]. by apply IH, AProc_wake. Qed.

Lemma wp_sem_close_loop fuel s a m (Q : unit -> kst -> Prop) J :
  abs s a -> AProc a -> is_Some (a_sem a m) -> (length (a_q a (HBlock m)) < fuel)%nat ->
  (forall s', abs s' (a_drain (length (a_q a (HBlock m))) (HBlock m) a) -> Q tt s') ->
  wp (sem_close_loop fuel m) Q J s.
Proof.
  revert s a. induction fuel as [|fuel IH]; intros s a Habs HA Hm Hf HQ; [lia|]. simpl.
  wbind. apply (wp_ll_pop _ _ Habs); [done|].
  destruct (a_q a (HBlock m)) as [|p l] eqn:Hq; [apply wp_ret; by apply HQ|].
  clear Habs s. intros s Habs. destruct (QOk_tail _ _ _ _ (ap_q _ HA) Hq) as [_ Hun].
  wbind. eapply (wp_ll_entail _ _ Habs); [done| |done|].
  { apply (alive_is_Some a). apply (ap_used _ HA (HBlock m)). rewrite Hq. left. }
  clear Habs s. intros r s Habs.
  assert (Habs' : abs s (a_wake (HBlock m) a)) by (unfold a_wake; by rewrite Hq).
  assert (Hql : a_q (a_wake (HBlock m) a) (HBlock m) = l).
  { rewrite (q_wake _ _ _ _ _ Hq) by done. by rewrite decide_False, decide_True. }
  eapply IH; [exact Habs'|by apply AProc_wake| |rewrite Hql; simpl in Hf; lia|by rewrite Hql].
  unfold a_wake. by rewrite Hq.
Qed.

Definition sem_close_spec (m : Z) (c : Semaphore) (a : astate) : astate :=
  if decide (sem_used c = 0) then a
  else a_drain (length (a_q a (HBlock m))) (HBlock m) (a_upd_sem m (with_sem_used 0) a).

Lemma wp_sem_close s a m c (Q : unit -> kst -> Prop) J :
  abs s a -> AProc a -> a_sem a m = Some c ->
  (forall s', abs s' (sem_close_spec m c a) -> Q tt s') ->
  wp (sem_close_kr m) Q J s.
Proof.
  intros Habs HA Hm HQ. unfold sem_close_spec in HQ. unfold sem_close_kr.
  wbind. eapply (wp_get_sem _ _ Habs); [exact Hm|]. intros c' <-.
  change (sem_used (with_block_list None c')) with (sem_used c') in *.
  case_decide as Hu; [apply wp_ret; by apply HQ|].
  wbind. eapply (wp_upd_sem _ _ Habs); [apply _|exact Hm|].
  pose proof (blocked_bound _ _ (HBlock m) Habs) as Hb.
  clear Habs s. intros s Habs. eapply wp_sem_close_loop; [exact Habs| | | |done].
  - by apply AProc_upd_sem; [apply _|].
  - rewrite a_sem_upd, decide_True, Hm by done. by eexists.
  - change (a_q (a_upd_sem _ _ a)) with (a_q a). unfold ll_fuel, PCBPOOLMAX. lia.
Qed.

Lemma ASem_close a m c : ASem a -> a_sem a m = Some c -> ASem (sem_close_spec m c a).
Proof.
  intros HS Hm. unfold sem_close_spec. case_decide as Hu; [done|].
  intros n d. unfold a_sem. rewrite a_k_drain.
  change (a_sem (a_upd_sem m (with_sem_used 0) a) n = Some d ->
    sem_ok d (length (a_q (a_drain (length (a_q a (HBlock m))) (HBlock m)
      (a_upd_sem m (with_sem_used 0) a)) (HBlock n)))).
  rewrite q_drain, a_sem_upd by done. rewrite (decide_False (P := HBlock n = HReady)) by done.
  case_decide as E.
  - subst n. rewrite Hm, decide_True by done. intros Hd. injection Hd as <-.
    destruct (HS _ _ Hm) as [Hr _]. by split.
  - rewrite decide_False by congruence. apply HS.
Qed.

Lemma KInv_sem_close s m :
  KInv s -> is_Some (k_sems s !! m) -> wp (sem_close_kr m) (fun _ => KInv) KInv s.
Proof.
  intros (a & Habs & HA & HS & Hcur) [c Hc]. pose proof (abs_sem_of _ _ _ _ Habs Hc) as Hm.
  eapply wp_sem_close; [done..|]. intros s' Habs'. eexists. split_and!; [exact Habs'|..].
  - unfold sem_close_spec. case_decide; [done|]. apply AProc_drain. by apply AProc_upd_sem; [apply _|].
  - by apply ASem_close.
  - unfold sem_close_spec, a_cur. case_decide; [done|]. by rewrite a_k_drain.
Qed.
