(* ===== verification/TimerProofs.v ===== *)
(** * The timer interrupt wakes the sleepers whose time is over *)

From S2P Require Import Prelude Proc Queues AbsProc Sched SchedSpec SchedProofs.

Definition slice_dec (c : PCB) : PCB := with_timeslice (u32 (p_timeslice c - 1)) c.
Definition slice_inc (c : PCB) : PCB := with_timeslice (u32 (p_timeslice c + 1)) c.

(** Its time slice is over after this tick. *)
Definition expires (a : astate) (p : nat) : bool :=
  match a_pcb a p with Some c => p_timeslice (slice_dec c) <=? 0 | None => false end.

(** One sleeper [p], the ones before it being [l1] and the ones after [l2]. *)
Definition a_visit (l1 : list nat) (p : nat) (l2 : list nat) (a : astate) : astate :=
  if expires a p
  then a_move HSleep (l1 ++ l2) p (a_upd p (with_ts READY) (a_upd p slice_dec a))
  else a_upd p slice_dec a.

Fixpoint a_walk (l1 l2 : list nat) (a : astate) : astate :=
  match l2 with
  | [] => a
  | p :: l2 => a_walk (if expires a p then l1 else l1 ++ [p]) l2 (a_visit l1 p l2 a)
  end.

Definition a_tick (a : astate) : astate :=
  a_glob (fun k => with_tick (u32 (k_tick k + 1)) k) a.

(** A timer interrupt while [i] runs. *)
Definition timer_spec (i : nat) (a : astate) : astate :=
  a_walk [] (a_q a HSleep) (a_upd i slice_inc (a_tick a)).

Lemma abs_next_head s a h l1 p l2 c :
  abs s a -> a_q a h = l1 ++ p :: l2 -> k_PCBPool s !! p = Some c -> p_next c = head l2.
Proof.
  intros [HR _] Hq Hc. destruct (rep_valid _ _ HR h) as [hd Hh]; [rewrite Hq; by destruct l1|].
  pose proof (rep_lseg _ _ HR _ _ Hh) as Hl. rewrite Hq in Hl.
  apply lseg_app in Hl as (m & _ & _ & n & Hn & Hl2).
  unfold next_of in Hn. rewrite Hc in Hn. injection Hn as <-. by eapply lseg_head.
Qed.

Lemma abs_QOk s a : abs s a -> QOk (a_q a).
Proof. intros [HR _]. split; [apply (rep_NoDup _ _ HR)|apply (rep_disj _ _ HR)]. Qed.

Lemma wp_do_timer_loop fuel s a l1 l2 (Q : unit -> kst -> Prop) J :
  abs s a -> a_q a HSleep = l1 ++ l2 -> (length l2 < fuel)%nat ->
  (forall s', abs s' (a_walk l1 l2 a) -> Q tt s') ->
  wp (do_timer_loop fuel (head l2)) Q J s.
Proof.
  revert s a l1 l2. induction fuel as [|fuel IH]; intros s a l1 l2 Habs Hq Hf HQ; [lia|].
  destruct l2 as [|p l2]; simpl; [apply wp_ret; by apply HQ|].
  destruct (abs_linked_pcb _ _ Habs HSleep p) as [c Hc]; [rewrite Hq; set_solver+|].
  destruct (QOk_remove _ _ _ _ _ (abs_QOk _ _ Habs) Hq) as [_ Hun].
  wbind. eapply (wp_upd_pcb _ _ Habs); [apply (_ : LinkFree slice_dec)|exact Hc|].
  clear Habs s. intros s Habs. set (a1 := a_upd p slice_dec a) in *. change (abs s a1) in Habs.
  assert (Hc1 : a_pcb a1 p = Some (slice_dec c)) by (unfold a1; by rewrite a_pcb_upd, decide_True, Hc).
  assert (Hex : expires a p = (p_timeslice (slice_dec c) <=? 0)) by (unfold expires; by rewrite Hc).
  wbind. eapply (wp_get_pcb _ _ Habs); [exact Hc1|]. intros cur Hcur Hstrip.
  pose proof (abs_next_head _ _ HSleep _ _ _ _ Habs Hq Hcur) as ->.
  assert (p_timeslice cur = p_timeslice (slice_dec c)) as -> by (by rewrite <- Hstrip).
  simpl in Hf, HQ. unfold a_visit in HQ. rewrite Hex in HQ. fold a1 in HQ.
  rewrite (Z.ltb_antisym _ 0). destruct (_ <=? 0); cbn [negb].
  - wbind. eapply (wp_upd_pcb _ _ Habs); [apply _|exact Hc1|]. clear Habs s Hcur. intros s Habs.
    wbind. eapply (wp_ll_delete _ _ Habs HSleep p l1 l2); [exact Hq|]. clear Habs s. intros s Habs.
    wbind. eapply (wp_ll_entail _ _ Habs); [done| |exact Hun|].
    { rewrite a_pcb_setq, a_pcb_upd, decide_True, Hc1 by done. by eexists. }
    clear Habs s. intros r s Habs.
    eapply (IH _ (a_move HSleep (l1 ++ l2) p (a_upd p (with_ts READY) a1)) l1);
      [exact Habs| |lia|exact HQ].
    unfold a_move. by rewrite !q_setq, decide_False, decide_True by done.
  - eapply (IH _ a1 (l1 ++ [p])); [exact Habs| |lia|exact HQ].
    rewrite <- app_assoc. exact Hq.
Qed.

Lemma wp_do_timer s a i c (Q : unit -> kst -> Prop) J :
  abs s a -> a_cur a = Some i -> a_pcb a i = Some c ->
  (forall s', abs s' (timer_spec i a) -> Q tt s') ->
  wp do_timer Q J s.
Proof.
  intros Habs Hi Hc HQ. unfold do_timer. wglob Habs s1 H1. wcur H1.
  change (a_cur (a_glob _ a)) with (a_cur a). rewrite Hi.
  wbind. eapply (wp_upd_pcb _ _ H1); [apply (_ : LinkFree slice_inc)|exact Hc|].
  clear H1 s1. intros s1 H1. wbind. apply wp_gets.
  pose proof (rep_head _ _ (proj1 H1) HSleep _ eq_refl) as ->.
  pose proof (rep_length _ _ (proj1 H1) HSleep) as Hlen.
  eapply (wp_do_timer_loop _ _ _ []); [exact H1|done|unfold ll_fuel; lia|exact HQ].
Qed.

(** ** Closed form *)

Lemma expires_ne a p q f : p <> q -> expires (a_upd p f a) q = expires a q.
Proof. intros. unfold expires. by rewrite a_pcb_upd, decide_False. Qed.

Lemma expires_move h l p a q : expires (a_move h l p a) q = expires a q.
Proof. done. Qed.

Lemma expires_visit l1 p l2 a q : p <> q -> expires (a_visit l1 p l2 a) q = expires a q.
Proof.
  intros. unfold a_visit. destruct (expires a p); rewrite ?expires_move, ?expires_ne; done.
Qed.

Definition bfilter (f : nat -> bool) (l : list nat) : list nat := filter (fun p => f p = true) l.

Lemma bfilter_ext f g l : (forall p, p ∈ l -> f p = g p) -> bfilter f l = bfilter g l.
Proof.
  unfold bfilter. induction l as [|p l IH]; intros H; [done|].
  rewrite !filter_cons, IH by (intros; apply H; by right). by rewrite (H p) by left.
Qed.

Lemma walk_queues l1 l2 a h :
  NoDup l2 -> a_q a HSleep = l1 ++ l2 ->
  a_q (a_walk l1 l2 a) h =
    match h with
    | HSleep => l1 ++ bfilter (fun p => negb (expires a p)) l2
    | HReady => a_q a HReady ++ bfilter (expires a) l2
    | _ => a_q a h
    end.
Proof.
  revert l1 a. induction l2 as [|p l2 IH]; intros l1 a Hnd Hq; simpl.
  - destruct h; by rewrite ?app_nil_r in *.
  - apply NoDup_cons in Hnd as [Hp Hnd].
    assert (Hext : forall q, q ∈ l2 -> expires (a_visit l1 p l2 a) q = expires a q).
    { intros q Hq'. apply expires_visit. by intros ->. }
    assert (Hext' : forall q, q ∈ l2 ->
      negb (expires (a_visit l1 p l2 a) q) = negb (expires a q)) by (intros; by rewrite Hext).
    unfold bfilter. rewrite !filter_cons. rewrite IH; [|done|].
    + rewrite (bfilter_ext _ _ _ Hext), (bfilter_ext _ _ _ Hext').
      unfold a_visit. destruct (expires a p); cbn [negb]; unfold a_move;
        destruct h; rewrite ?q_setq; repeat case_decide; simplify_eq;
        rewrite <- ?app_assoc; done.
    + unfold a_visit. destruct (expires a p).
      * unfold a_move. by rewrite !q_setq, decide_False, decide_True by done.
      * rewrite <- app_assoc. exact Hq.
Qed.

(** The PCB of a sleeper after the tick. *)
Definition ticked (c : PCB) : PCB :=
  if p_timeslice (slice_dec c) <=? 0 then with_ts READY (slice_dec c) else slice_dec c.

Lemma walk_pcb l1 l2 a p :
  NoDup l2 ->
  a_pcb (a_walk l1 l2 a) p =
    if decide (p ∈ l2) then ticked <$> a_pcb a p else a_pcb a p.
Proof.
  revert l1 a. induction l2 as [|q l2 IH]; intros l1 a Hnd; simpl; [done|].
  apply NoDup_cons in Hnd as [Hq Hnd]. rewrite IH by done.
  assert (Hv : a_pcb (a_visit l1 q l2 a) p = if decide (q = p) then ticked <$> a_pcb a p else a_pcb a p).
  { unfold a_visit, expires, ticked. destruct (decide (q = p)) as [->|Hqp].
    - destruct (a_pcb a p) as [c|] eqn:Hc; [|by rewrite a_pcb_upd, decide_True, Hc].
      cbn [fmap option_fmap option_map]. destruct (_ <=? 0); unfold a_move; cbn zeta;
        rewrite ?a_pcb_setq, ?a_pcb_upd, ?decide_True, Hc by done; done.
    - destruct (a_pcb a q) as [c|]; [destruct (_ <=? 0)|]; unfold a_move; cbn zeta;
        rewrite ?a_pcb_setq, ?a_pcb_upd, !decide_False; done. }
  rewrite Hv. destruct (decide (q = p)) as [->|Hqp].
  - rewrite decide_False by done. by rewrite decide_True by left.
  - destruct (decide (p ∈ l2)).
    + by rewrite decide_True by (by right).
    + rewrite decide_False; [done|]. by intros [->|?]%elem_of_cons.
Qed.

Lemma walk_cur l1 l2 a : a_cur (a_walk l1 l2 a) = a_cur a.
Proof.
  revert l1 a. induction l2 as [|q l2 IH]; intros l1 a; simpl; [done|]. rewrite IH.
  unfold a_visit. by destruct (expires a q).
Qed.

Lemma AProc_walk l1 l2 a :
  AProc a -> a_q a HSleep = l1 ++ l2 -> AProc (a_walk l1 l2 a).
Proof.
  revert l1 a. induction l2 as [|q l2 IH]; intros l1 a HA Hq; simpl; [done|].
  unfold a_visit. destruct (expires a q).
  - apply IH.
    + apply (AProc_move _ HSleep l1 q l2); [|done]. by do 2 (apply AProc_upd; [apply _|]).
    + unfold a_move. by rewrite !q_setq, decide_False, decide_True by done.
  - apply IH; [by apply AProc_upd; [apply _|]|]. rewrite <- app_assoc. exact Hq.
Qed.

Lemma ASem_walk l1 l2 a :
  NoDup l2 -> a_q a HSleep = l1 ++ l2 -> ASem a -> ASem (a_walk l1 l2 a).
Proof.
  intros Hnd Hq HS m c Hm. rewrite walk_queues by done. apply HS.
  assert (E : forall l1 a, k_sems (a_k (a_walk l1 l2 a)) = k_sems (a_k a)).
  { clear. induction l2 as [|q l2 IH]; intros l1 a; simpl; [done|]. rewrite IH.
    unfold a_visit. by destruct (expires a q). }
  unfold a_sem in *. by rewrite <- (E l1 a).
Qed.

Lemma timer_inv s a i :
  abs s a -> AProc a -> ASem a -> AProc (timer_spec i a) /\ ASem (timer_spec i a).
Proof.
  intros Habs HA HS. unfold timer_spec. split.
  - apply AProc_walk; [|done]. apply AProc_upd; [apply _|]. by apply AProc_glob.
  - apply ASem_walk; [apply (q_nodup _ (abs_QOk _ _ Habs))|done|]. apply ASem_upd.
    by apply ASem_glob; [apply _|].
Qed.

Lemma KInv_do_timer s : KInv s -> wp do_timer (fun _ => KInv) KInv s.
Proof.
  intros (a & Habs & HA & HS & Hcur). destruct (a_cur a) as [i|] eqn:Hi; [|done].
  destruct (ap_cur _ HA _ Hi) as [_ (c & Hc & _)].
  eapply wp_do_timer; [done..|]. intros s' Habs'. exists (timer_spec i a).
  destruct (timer_inv _ _ i Habs HA HS). split_and!; [done..|].
  unfold timer_spec. rewrite walk_cur. change (a_cur a <> None). congruence.
Qed.
