(* ===== verification/Lifecycle.v ===== *)
(** * Exit, join, sleep and yield *)

From S2P Require Import Prelude Proc Queues AbsProc Sched SchedSpec SchedProofs.

Lemma wp_exit_loop fuel s a i (Q : unit -> kst -> Prop) J :
  abs s a -> AProc a -> a_cur a = Some i -> (length (a_q a (HJoin i)) < fuel)%nat ->
  (forall s', abs s' (a_drain (length (a_q a (HJoin i))) (HJoin i) a) -> Q tt s') ->
  wp (exit_loop fuel) Q J s.
Proof.
  revert s a. induction fuel as [|fuel IH]; intros s a Habs HA Hi Hf HQ; [lia|]. simpl.
  wcur Habs. rewrite Hi. wbind. apply wp_ret.
  destruct (ap_cur _ HA _ Hi) as [_ Hal].
  wbind. apply (wp_ll_pop _ _ Habs); [by apply (alive_is_Some a)|].
  destruct (a_q a (HJoin i)) as [|p l] eqn:Hq; [apply wp_ret; by apply HQ|].
  clear Habs s. intros s Habs. destruct (QOk_tail _ _ _ _ (ap_q _ HA) Hq) as [_ Hun].
  destruct (ap_used _ HA (HJoin i) p) as (c & Hc & Hu); [rewrite Hq; left|].
  wbind. eapply (wp_get_pcb _ _ Habs); [exact Hc|]. intros c' _ <-.
  change (p_used (strip_pcb c')) with (p_used c') in Hu. rewrite decide_False by done.
  wbind. eapply (wp_ll_entail _ _ Habs); [done|by eexists|done|].
  clear Habs s. intros r s Habs.
  assert (Habs' : abs s (a_wake (HJoin i) a)) by (unfold a_wake; by rewrite Hq).
  assert (Hql : a_q (a_wake (HJoin i) a) (HJoin i) = l).
  { rewrite (q_wake _ _ _ _ _ Hq) by done. by rewrite decide_False, decide_True. }
  eapply IH; [exact Habs'|by apply AProc_wake|by rewrite a_cur_wake|rewrite Hql; simpl in Hf; lia|].
  by rewrite Hql.
Qed.

(** The exit of the running process [i]: everyone joined on it becomes
    ready, its PCB is free, and another process runs. *)
Definition a_free (i : nat) (a : astate) : astate :=
  a_glob (with_current None)
    (a_upd i (with_used 0) (a_drain (length (a_q a (HJoin i))) (HJoin i) a)).

Definition exit_spec (i : nat) (a : astate) : astate := a_dispatch (a_count (a_free i a)).

Lemma drain_all a h : h <> HReady -> a_q (a_drain (length (a_q a h)) h a) h = [].
Proof. intros. rewrite (q_drain a h _ h eq_refl) by done. by rewrite decide_False, decide_True. Qed.

Lemma q_drain_ready a h : h <> HReady ->
  a_q (a_drain (length (a_q a h)) h a) HReady = a_q a HReady ++ a_q a h.
Proof. intros. rewrite (q_drain a h _ HReady eq_refl) by done. by rewrite decide_True. Qed.

Lemma AProc_free a i :
  AProc a -> a_cur a = Some i -> kernel_ready a -> AProc (a_free i a).
Proof.
  intros HA Hi Hk. unfold a_free. set (a1 := a_drain _ _ a).
  assert (HA1 : AProc a1) by (by apply AProc_drain).
  assert (Hi1 : a_cur a1 = Some i) by (unfold a1, a_cur; by rewrite a_k_drain).
  assert (Hk1 : kernel_ready a1).
  { destruct Hk as (q & c & Hq & Hc & Htt). exists q, c. split_and!; [|by unfold a_pcb, a1; rewrite a_k_drain|done].
    unfold a1. rewrite q_drain_ready by done. set_solver. }
  assert (Hj : a_q a1 (HJoin i) = []) by (by apply drain_all).
  clearbody a1. clear HA Hi Hk a. destruct HA1 as [H0 H1 H2 H3 H4 H5]. destruct (H1 _ Hi1) as [Hun Hal].
  assert (Halive : forall q, alive (a_upd i (with_used 0) a1) q <-> alive a1 q /\ q <> i).
  { intros q. unfold alive. rewrite a_pcb_upd. destruct (decide (i = q)) as [->|Hne].
    - split; [|tauto]. intros (c & Hc & Hu). destruct (a_pcb a1 q); simpl in Hc; [|done].
      injection Hc as <-. by destruct Hu.
    - split; [intros Hq; split; [done|congruence]|tauto]. }
  split.
  - exact H0.
  - done.
  - intros h q Hq. apply Halive. split; [by eapply H2|]. intros ->. by apply (Hun h).
  - intros q [Hq Hne]%Halive. right. destruct (H3 _ Hq) as [?|?]; [congruence|done].
  - intros q Hq. destruct (decide (q = i)) as [->|Hne]; [done|]. apply H4.
    intros Hq'. apply Hq, Halive. done.
  - destruct Hk1 as (q & c & Hq & Hc & Htt). exists q, c. split_and!; [|done|by right].
    change (a_pcb (a_upd i (with_used 0) a1) q = Some c). rewrite a_pcb_upd, decide_False; [done|].
    intros ->. by apply (Hun HReady).
Qed.

Lemma wp_exit_current s a i (Q : unit -> kst -> Prop) J :
  abs s a -> AProc a -> a_cur a = Some i -> kernel_ready a ->
  (forall s', abs s' (exit_spec i a) -> J s') ->
  wp exit_current Q J s.
Proof.
  intros Habs HA Hi Hk HJ. unfold exit_current. wbind.
  pose proof (blocked_bound _ _ (HJoin i) Habs).
  eapply wp_exit_loop; [done..|unfold ll_fuel, PCBPOOLMAX; lia|]. clear Habs s. intros s Habs.
  wcur Habs. unfold a_cur. rewrite a_k_drain. change (k_current (a_k a)) with (a_cur a). rewrite Hi.
  destruct (ap_cur _ HA _ Hi) as [_ (c & Hc & _)].
  wbind. unfold free_pcb. eapply (wp_upd_pcb _ _ Habs); [apply _| |].
  { unfold a_pcb. rewrite a_k_drain. exact Hc. }
  clear Habs s. intros s Habs. wglob Habs s2 H2.
  eapply wp_mono; [|intros ? ? HQ; exact HQ|exact HJ].
  apply (wp_dispatch 1 _ (a_free i a)); [exact H2|by apply AProc_free|done].
Qed.

Lemma ASem_drain_join n i a : ASem a -> ASem (a_drain n (HJoin i) a).
Proof.
  revert a. induction n as [|n IH]; intros a HS; simpl; [done|]. apply IH.
  unfold a_wake. destruct (a_q a (HJoin i)); [done|]. unfold a_move. cbn zeta.
  by do 2 (apply ASem_setq; [done|]).
Qed.

Lemma KInv_exit s :
  KInv s -> user_running s -> wp exit_current (fun _ => KInv) KInv s.
Proof.
  intros (a & Habs & HA & HS & Hcur) Hk. destruct (a_cur a) as [i|] eqn:Hi; [|done].
  apply (user_kernel_ready _ _ Habs HA) in Hk. eapply wp_exit_current; [done..|]. intros s' Habs'.
  pose proof (AProc_free _ _ HA Hi Hk) as HF.
  exists (exit_spec i a). split_and!; [done|..].
  - apply AProc_dispatch; [by apply AProc_count|done].
  - apply ASem_dispatch, ASem_count. apply ASem_glob; [apply _|]. apply ASem_upd.
    by apply ASem_drain_join.
  - apply a_cur_dispatch; [by apply AProc_count|done].
Qed.

(** ** Join *)

Lemma find_pid_spec pool k pid :
  let i := find_pid pool k pid in
  (i = (k + length pool)%nat /\ forall c, c ∈ pool -> p_pid c <> pid) \/
  (exists j c, i = (k + j)%nat /\ pool !! j = Some c /\ p_pid c = pid /\
     forall j' c', (j' < j)%nat -> pool !! j' = Some c' -> p_pid c' <> pid).
Proof.
  revert k. induction pool as [|c pool IH]; intros k; simpl.
  - left. split; [lia|]. intros c Hc. inversion Hc.
  - case_decide as E.
    + right. exists 0%nat, c. split_and!; [lia|done..|lia].
    + destruct (IH (S k)) as [[H1 H2]|(j & d & H1 & H2 & H3 & H4)].
      * left. split; [simpl in *; lia|]. intros d [->|Hd]%elem_of_cons; [done|by apply H2].
      * right. exists (S j), d. split_and!; [simpl in *; lia|done..|].
        intros [|j'] d' Hlt Hd'; simpl in Hd'; [by simplify_eq|]. eapply H4; [|done]. lia.
Qed.

(** Joining the process in slot [j]: block behind those already joined. *)
Lemma wp_join s a i j c pid (Q : unit -> kst -> Prop) J :
  abs s a -> AProc a -> a_cur a = Some i -> kernel_ready a ->
  pid <> 0 -> find_pid (k_PCBPool s) 0 (u32 pid) = j -> a_pcb a j = Some c -> p_used c <> 0 ->
  (forall s', abs s' (a_block (HJoin j) i a) -> J s') ->
  wp (join_current pid) Q J s.
Proof.
  intros Habs HA Hi Hk Hpid Hj Hc Hu HJ. unfold join_current. rewrite decide_False by done.
  wbind. apply wp_get. rewrite Hj. cbn zeta. rewrite decide_False.
  2:{ destruct (abs_pcb _ _ Habs _ _ Hc) as (c' & Hc' & _).
      pose proof (rep_pool _ _ (proj1 Habs)). apply lookup_lt_Some in Hc'. lia. }
  wbind. eapply (wp_get_pcb _ _ Habs); [exact Hc|]. intros c' _ <-.
  change (p_used (strip_pcb c')) with (p_used c') in Hu. rewrite decide_False by done.
  wcur Habs. rewrite Hi. destruct (ap_cur _ HA _ Hi) as [Hun Hal].
  wbind. eapply (wp_ll_entail _ _ Habs); [by eexists|by apply (alive_is_Some a)|done|].
  clear Habs s Hj. intros r s Habs. wglob Habs s2 H2.
  eapply wp_mono; [|intros ? ? HQ; exact HQ|exact HJ].
  apply (wp_dispatch 1 _ (a_park (HJoin j) i a)); [exact H2| |done].
  apply AProc_park; [done..| |by right]. intros q [= <-]. by eexists.
Qed.

Lemma KInv_join s pid :
  KInv s -> user_running s -> wp (join_current pid) (fun _ => KInv) KInv s.
Proof.
  intros HK Hk. pose proof HK as (a & Habs & HA & HS & Hcur).
  destruct (a_cur a) as [i|] eqn:Hi; [|done]. apply (user_kernel_ready _ _ Habs HA) in Hk.
  destruct (decide (pid = 0)) as [->|Hpid]; [unfold join_current; rewrite decide_True by done; by apply wp_ret|].
  destruct (find_pid_spec (k_PCBPool s) 0 (u32 pid)) as [[Hj _]|(j & c & Hj & Hc & _)].
  { unfold join_current. rewrite decide_False by done. wbind. apply wp_get. cbn zeta.
    rewrite Hj, decide_True by (rewrite (rep_pool _ _ (proj1 Habs)); done). by apply wp_ret. }
  pose proof (abs_pcb_rev _ _ Habs _ _ Hc) as Hc'. simpl in Hj.
  destruct (decide (p_used c = 0)) as [Hu|Hu].
  - unfold join_current. rewrite decide_False by done. wbind. apply wp_get. cbn zeta. rewrite Hj.
    rewrite decide_False; [|pose proof (rep_pool _ _ (proj1 Habs)); apply lookup_lt_Some in Hc; lia].
    wbind. eapply wp_eq; [by apply get_pcb_run|]. rewrite decide_True by done. by apply wp_ret.
  - eapply wp_join; [done..|]. intros s' Habs'.
    eapply KInv_block; [exact Habs'|done..| |by right|by apply ASem_park].
    intros q [= <-]. by eexists.
Qed.
