(* ===== verification/DemoProc.v ===== *)
(** * A kernel state to instantiate the theorems at

    Four processes: the idle process ready, one running, one asleep with its
    last tick to go, one blocked on a semaphore. *)

From S2P Require Import Prelude Proc Queues AbsProc Sched SchedSpec SchedProofs.

Definition frame0 : TrapFrame := mkTrapFrame 0 0 0 0 0 0 0 0 0 0 0 0 0 0 0 0 0 0 0.

Definition demo_pcb (used pid : Z) (ts : TASK_STATE) (tt : TASK_TYPE) (slice : Z) : PCB :=
  mkPCB used pid 1 ts tt slice (TFPool 0) frame0 0 [] None None None.

Definition demo_pool : list PCB :=
  [ demo_pcb 1 1 READY KERNEL 0; demo_pcb 1 2 RUNNING USER 3;
    demo_pcb 1 3 SLEEPING USER 1; demo_pcb 1 4 RUNNING USER 0 ]
  ++ replicate 996 (demo_pcb 0 0 READY USER 0).

Definition demo_sem : Z := 100.

Definition demo : kst :=
  mkKst demo_pool [] 5 (Some 1%nat) (Some 0%nat) (Some 2%nat) 7 0
    {[demo_sem := mkSemaphore 1 (-1) (Some 3%nat)]}.

Definition demo_q (h : headref) : list nat :=
  match h with
  | HReady => [0%nat]
  | HSleep => [2%nat]
  | HBlock m => if decide (m = demo_sem) then [3%nat] else []
  | HJoin _ => []
  end.

Definition demo_a : astate := mkAState (strip demo) demo_q.

Lemma demo_pool_links : Forall (fun c => p_next c = None /\ p_join_list c = None) demo_pool.
Proof. unfold demo_pool. apply Forall_app. split; [by repeat constructor|]. by apply Forall_replicate. Qed.

Lemma demo_pool_unlinked p c : demo_pool !! p = Some c -> p_next c = None /\ p_join_list c = None.
Proof. intros H. by apply (Forall_lookup_1 _ _ _ _ demo_pool_links H). Qed.

Lemma demo_used p c : demo_pool !! p = Some c -> p_used c <> 0 -> (p < 4)%nat.
Proof.
  unfold demo_pool. intros H Hu. destruct (decide (p < 4)%nat); [done|].
  rewrite lookup_app_r in H by (simpl; lia). apply lookup_replicate in H as [-> _]. by destruct Hu.
Qed.

Lemma demo_Repr : Repr demo demo_q.
Proof.
  split.
  - intros [| |m|p]; simpl.
    + split; [done|]. exists None. done.
    + split; [done|]. exists None. done.
    + unfold head_of. simpl. destruct (decide (m = demo_sem)) as [->|Hne].
      * rewrite lookup_singleton_eq. simpl. split; [done|]. exists None. done.
      * by rewrite lookup_singleton_ne.
    + unfold head_of. simpl. destruct (demo_pool !! p) as [c|] eqn:E; simpl; [|done].
      by apply demo_pool_unlinked in E as [_ ->].
  - intros h1 h2 p H1 H2.
    destruct h1, h2; simpl in *; repeat case_decide; set_unfold; subst; try done; naive_solver.
  - intros p n Hn _. unfold next_of in Hn. simpl in Hn. destruct (demo_pool !! p) as [c|] eqn:E; [|done].
    injection Hn as <-. by apply demo_pool_unlinked in E as [-> _].
  - done.
Qed.

Lemma demo_abs : abs demo demo_a.
Proof. split; [apply demo_Repr|done]. Qed.

Lemma demo_pcb_a p : a_pcb demo_a p = strip_pcb <$> demo_pool !! p.
Proof. unfold a_pcb. change (k_PCBPool (a_k demo_a)) with (strip_pcb <$> demo_pool). apply list_lookup_fmap. Qed.

Lemma demo_alive p : alive demo_a p <-> (p < 4)%nat.
Proof.
  unfold alive. split.
  - intros (c & Hc & Hu). rewrite demo_pcb_a in Hc. apply fmap_Some in Hc as (c' & Hc' & ->).
    by apply (demo_used _ _ Hc').
  - intros H. rewrite demo_pcb_a. do 4 (destruct p as [|p]; [by eexists|]). lia.
Qed.

Lemma demo_q_elem h p :
  p ∈ demo_q h <-> (h = HReady /\ p = 0%nat) \/ (h = HSleep /\ p = 2%nat) \/ (h = HBlock demo_sem /\ p = 3%nat).
Proof.
  destruct h; simpl; [set_solver|set_solver| |set_solver].
  case_decide; subst; set_unfold; naive_solver.
Qed.

Lemma demo_AProc : AProc demo_a.
Proof.
  split.
  - split.
    + intros h. destruct h; simpl; repeat case_decide; auto using NoDup_nil_2, NoDup_singleton.
    + apply (rep_disj _ _ demo_Repr).
  - intros p [= <-]. split; [|apply demo_alive; lia].
    intros h Hp. apply demo_q_elem in Hp. naive_solver.
  - intros h p Hp. apply demo_q_elem in Hp. apply demo_alive. naive_solver lia.
  - intros p Hp%demo_alive. destruct p as [|[|[|[|p]]]]; [right|left|right|right|lia].
    + by exists HReady; left.
    + done.
    + by exists HSleep; left.
    + exists (HBlock demo_sem). apply demo_q_elem. tauto.
  - done.
  - exists 0%nat. eexists. split_and!; [done|done|]. right. by left.
Qed.

Lemma demo_ASem : ASem demo_a.
Proof.
  intros m c Hm. unfold a_sem in Hm. simpl in Hm. rewrite lookup_fmap in Hm.
  apply fmap_Some in Hm as (c' & Hc & ->). apply lookup_singleton_Some in Hc as [<- <-].
  simpl. split; [unfold is_i32; simpl; lia|]. done.
Qed.

Lemma demo_KInv : KInv demo.
Proof. exists demo_a. split_and!; [apply demo_abs|apply demo_AProc|apply demo_ASem|done]. Qed.

Lemma demo_user_running : user_running demo.
Proof. exists 1%nat. eexists. by split_and!. Qed.
