(* ===== verification/ProcProps.v ===== *)
(** * Properties of the scheduler, the timer, semaphores, exit and join

    Each theorem says what a routine does to the queues as lists ([abs]) and
    that the invariants [AProc] and [ASem] hold again; a routine that
    switches to another process ends in the [Jump] postcondition. *)

From S2P Require Import Prelude Proc Queues AbsProc Sched SchedSpec SchedProofs TimerProofs Lifecycle DemoProc.

(** The abstract state [a'] is reached, with the invariants, and a process
    runs. *)
Definition lands (s' : kst) (a' : astate) : Prop :=
  abs s' a' /\ AProc a' /\ ASem a' /\ a_cur a' <> None.

Lemma lands_block s' a h i :
  abs s' (a_block h i a) -> AProc a -> a_cur a = Some i ->
  (forall q, h = HJoin q -> alive a q) -> (h = HReady \/ kernel_ready a) ->
  ASem (a_park h i a) -> lands s' (a_block h i a).
Proof.
  intros Habs HA Hi Hj Hh HS. pose proof (AProc_park _ _ _ HA Hi Hj Hh) as HP.
  apply AProc_count in HP. split_and!; [done|..].
  - by apply AProc_dispatch.
  - apply ASem_dispatch, ASem_glob; [apply _|done].
  - by apply a_cur_dispatch.
Qed.

(** C4: [do_scheduler]: a sleeping process goes to the end of the sleep list,
    a yielding or preempted one (time slice above 2) to the end of the ready
    queue, and the head of the ready queue runs with a fresh time slice;
    otherwise the current process goes on. *)
Theorem do_scheduler_correct s a i c :
  abs s a -> AProc a -> ASem a -> a_cur a = Some i -> a_pcb a i = Some c ->
  (p_ts c = SLEEPING -> kernel_ready a) ->
  wp do_scheduler
    (fun _ s' => sched_spec i c a = None /\ lands s' (a_count a))
    (fun s' => exists a', sched_spec i c a = Some a' /\ lands s' a') s.
Proof.
  intros Habs HA HS Hi Hc Hidle. eapply wp_do_scheduler; [done..|].
  intros s'. unfold sched_spec. case_decide; [|destruct (preempted c)]; intros Habs'.
  - eexists. split; [done|]. apply (lands_block _ (a_count a));
      [done|by apply AProc_count|done|done|right; by apply Hidle|by apply ASem_park, ASem_count].
  - eexists. split; [done|]. apply (lands_block _ (a_upd i (with_ts READY) (a_count a)));
      [done|by apply AProc_upd; [apply _|apply AProc_count]|done|done|by left
      |by apply ASem_park, ASem_upd, ASem_count].
  - split; [done|]. split_and!; [done|by apply AProc_count|by apply ASem_count|].
    change (a_cur a <> None). congruence.
Qed.

Lemma do_scheduler_correct_witness :
  wp do_scheduler
    (fun _ s' => sched_spec 1 (strip_pcb (demo_pcb 1 2 RUNNING USER 3)) demo_a = None /\ lands s' (a_count demo_a))
    (fun s' => exists a', sched_spec 1 (strip_pcb (demo_pcb 1 2 RUNNING USER 3)) demo_a = Some a' /\ lands s' a') demo.
Proof.
  apply (do_scheduler_correct demo demo_a 1 (strip_pcb (demo_pcb 1 2 RUNNING USER 3)));
    [apply demo_abs|apply demo_AProc|apply demo_ASem|reflexivity|reflexivity|discriminate].
Defined.

(** ** The timer *)

Lemma expires_current a i p :
  unlinked (a_q a) i -> p ∈ a_q a HSleep -> expires (a_upd i slice_inc (a_tick a)) p = expires a p.
Proof. intros Hun Hp. rewrite expires_ne; [done|]. intros ->. by apply (Hun HSleep). Qed.

Lemma timer_queues s a i h :
  abs s a -> unlinked (a_q a) i ->
  a_q (timer_spec i a) h =
    match h with
    | HSleep => bfilter (fun p => negb (expires a p)) (a_q a HSleep)
    | HReady => a_q a HReady ++ bfilter (expires a) (a_q a HSleep)
    | _ => a_q a h
    end.
Proof.
  intros Habs Hun. unfold timer_spec.
  rewrite walk_queues; [|apply (q_nodup _ (abs_QOk _ _ Habs))|done].
  assert (H : forall p, p ∈ a_q a HSleep -> expires (a_upd i slice_inc (a_tick a)) p = expires a p)
    by (intros; by apply expires_current).
  rewrite (bfilter_ext (expires (a_upd i slice_inc (a_tick a))) (expires a)) by exact H.
  rewrite (bfilter_ext (fun p => negb (expires (a_upd i slice_inc (a_tick a)) p))
    (fun p => negb (expires a p))) by (intros p Hp; by rewrite H).
  by destruct h.
Qed.

Lemma timer_pcb s a i p :
  abs s a -> unlinked (a_q a) i -> p ∈ a_q a HSleep ->
  a_pcb (timer_spec i a) p = ticked <$> a_pcb a p.
Proof.
  intros Habs Hun Hp. unfold timer_spec.
  rewrite walk_pcb by apply (q_nodup _ (abs_QOk _ _ Habs)). rewrite decide_True by done.
  rewrite a_pcb_upd, decide_False; [done|]. intros ->. by apply (Hun HSleep).
Qed.

Lemma timer_lands s a i c :
  abs s a -> AProc a -> ASem a -> a_cur a = Some i -> a_pcb a i = Some c ->
  wp do_timer (fun _ s' => lands s' (timer_spec i a) /\ a_cur (timer_spec i a) = Some i) (fun _ => False) s.
Proof.
  intros Habs HA HS Hi Hc. eapply wp_do_timer; [done..|]. intros s' Habs'.
  destruct (timer_inv _ _ i Habs HA HS).
  assert (Hcur : a_cur (timer_spec i a) = Some i) by (unfold timer_spec; by rewrite walk_cur).
  split; [|done]. split_and!; [done..|congruence].
Qed.

(** C5: a timer interrupt moves exactly the sleepers whose count reaches zero
    to the end of the ready queue, in their order, and touches no other
    queue. *)
Theorem do_timer_correct s a i c :
  abs s a -> AProc a -> ASem a -> a_cur a = Some i -> a_pcb a i = Some c ->
  wp do_timer
    (fun _ s' => exists a', lands s' a' /\ a_cur a' = Some i /\
       a_q a' HSleep = bfilter (fun p => negb (expires a p)) (a_q a HSleep) /\
       a_q a' HReady = a_q a HReady ++ bfilter (expires a) (a_q a HSleep) /\
       (forall h, h <> HSleep -> h <> HReady -> a_q a' h = a_q a h) /\
       (forall p, p ∈ a_q a HSleep -> a_pcb a' p = ticked <$> a_pcb a p))
    (fun _ => False) s.
Proof.
  intros Habs HA HS Hi Hc. destruct (ap_cur _ HA _ Hi) as [Hun _].
  eapply wp_mono; [by eapply timer_lands| |done]. intros _ s' [Hl Hcur].
  exists (timer_spec i a). split_and!; [done|done|..].
  - by rewrite (timer_queues s) by done.
  - by rewrite (timer_queues s) by done.
  - intros h H1 H2. rewrite (timer_queues s) by done. by destruct h.
  - intros p Hp. by apply (timer_pcb s).
Qed.

Lemma do_timer_correct_witness :
  wp do_timer
    (fun _ s' => exists a', lands s' a' /\ a_cur a' = Some 1%nat /\
       a_q a' HSleep = bfilter (fun p => negb (expires demo_a p)) (a_q demo_a HSleep) /\
       a_q a' HReady = a_q demo_a HReady ++ bfilter (expires demo_a) (a_q demo_a HSleep) /\
       (forall h, h <> HSleep -> h <> HReady -> a_q a' h = a_q demo_a h) /\
       (forall p, p ∈ a_q demo_a HSleep -> a_pcb a' p = ticked <$> a_pcb demo_a p))
    (fun _ => False) demo.
Proof.
  apply (do_timer_correct demo demo_a 1 (strip_pcb (demo_pcb 1 2 RUNNING USER 3)));
    [apply demo_abs|apply demo_AProc|apply demo_ASem|reflexivity|reflexivity].
Defined.

(** ** How long a process sleeps *)

Fixpoint iterM {S} (n : nat) (c : M S unit) : M S unit :=
  match n with O => mret tt | S n => iterM n c;; c end.

(** The number of ticks after which a process put to sleep with this PCB is
    ready: its time slice, or 2^32 if that is zero. *)
Definition wakeup (c : PCB) : Z := if decide (p_timeslice c = 0) then 2 ^ 32 else p_timeslice c.

Lemma wp_iter_timer n s a i p c :
  abs s a -> AProc a -> ASem a -> a_cur a = Some i ->
  p ∈ a_q a HSleep -> a_pcb a p = Some c -> is_u32 (p_timeslice c) -> Z.of_nat n < wakeup c ->
  wp (iterM n do_timer) (fun _ s' => exists a', lands s' a' /\ a_cur a' = Some i /\
      p ∈ a_q a' HSleep /\ exists c', a_pcb a' p = Some c' /\
      p_timeslice c' = u32 (p_timeslice c - Z.of_nat n)) (fun _ => False) s.
Proof.
  intros Habs HA HS Hi Hp Hc Hr. induction n as [|n IH]; intros Hn.
  - apply wp_ret. exists a. split; [by split_and!; [..|congruence]|]. split_and!; [done|done|].
    exists c. split; [done|].
    by rewrite Z.sub_0_r, u32_id.
  - apply wp_bind. eapply wp_mono; [apply IH; lia| |done].
    intros _ s1 (a1 & (Habs1 & HA1 & HS1 & _) & Hi1 & Hp1 & c1 & Hc1 & Ht1).
    destruct (ap_cur _ HA1 _ Hi1) as [Hun1 (ci & Hci & _)].
    eapply wp_mono; [by eapply timer_lands| |done]. intros _ s2 [Hl2 Hi2].
    assert (Hts : p_timeslice (slice_dec c1) = u32 (p_timeslice c - Z.of_nat (S n))).
    { simpl. rewrite Ht1. unfold u32. rewrite Zminus_mod_idemp_l. f_equal. lia. }
    assert (Hpos : 0 < p_timeslice (slice_dec c1)).
    { rewrite Hts. unfold wakeup in Hn. unfold is_u32, u32 in *. case_decide as H0.
      - rewrite H0, <- (Z.mod_add _ 1), Z.mod_small by lia. lia.
      - rewrite Z.mod_small by lia. lia. }
    exists (timer_spec i a1). split_and!; [done|done|..].
    + rewrite (timer_queues s1) by done. unfold bfilter. apply list_elem_of_filter. split; [|done].
      unfold expires. rewrite Hc1. apply negb_true_iff, Z.leb_gt. done.
    + exists (slice_dec c1). split; [|done]. rewrite (timer_pcb s1) by done. rewrite Hc1. simpl.
      unfold ticked. by rewrite (proj2 (Z.leb_gt _ _)) by done.
Qed.

(** C6: a sleeper stays asleep for exactly [wakeup c] timer interrupts: after
    fewer it is in the sleep list, after that many it is in the ready queue.
    For a time slice of 0, which [SYS_SLEEP] of 0 seconds sets, this is 2^32
    ticks. *)
Theorem sleep_duration n s a i p c :
  abs s a -> AProc a -> ASem a -> a_cur a = Some i ->
  p ∈ a_q a HSleep -> a_pcb a p = Some c -> is_u32 (p_timeslice c) -> Z.of_nat n <= wakeup c ->
  wp (iterM n do_timer) (fun _ s' => exists a', lands s' a' /\
      p ∈ a_q a' (if decide (Z.of_nat n < wakeup c) then HSleep else HReady)) (fun _ => False) s.
Proof.
  intros Habs HA HS Hi Hp Hc Hr Hn. case_decide as Hlt.
  - eapply wp_mono; [by eapply wp_iter_timer| |done]. intros _ s' (a' & ? & _ & ? & _). by exists a'.
  - assert (1 <= wakeup c) by (unfold wakeup, is_u32 in *; case_decide; lia).
    destruct n as [|n]; [lia|]. simpl. apply wp_bind.
    eapply wp_mono; [eapply (wp_iter_timer n); try done; lia| |done].
    intros _ s1 (a1 & (Habs1 & HA1 & HS1 & _) & Hi1 & Hp1 & c1 & Hc1 & Ht1).
    destruct (ap_cur _ HA1 _ Hi1) as [Hun1 (ci & Hci & _)].
    eapply wp_mono; [by eapply timer_lands| |done]. intros _ s2 [Hl2 Hi2].
    exists (timer_spec i a1). split; [done|]. rewrite (timer_queues s1) by done.
    apply elem_of_app. right. unfold bfilter. apply list_elem_of_filter. split; [|done].
    unfold expires. rewrite Hc1. apply Z.leb_le. simpl. rewrite Ht1. unfold u32.
    rewrite Zminus_mod_idemp_l. replace (p_timeslice c - Z.of_nat n - 1) with (p_timeslice c - wakeup c) by lia.
    unfold wakeup. case_decide as H0; [rewrite H0; done|]. by rewrite Z.sub_diag.
Qed.

Lemma sleep_duration_witness :
  wp (iterM 1 do_timer) (fun _ s' => exists a', lands s' a' /\
      2%nat ∈ a_q a' (if decide (Z.of_nat 1 < wakeup (strip_pcb (demo_pcb 1 3 SLEEPING USER 1)))
                      then HSleep else HReady)) (fun _ => False) demo.
Proof.
  apply (sleep_duration 1 demo demo_a 1 2 (strip_pcb (demo_pcb 1 3 SLEEPING USER 1)));
    [apply demo_abs|apply demo_AProc|apply demo_ASem|reflexivity|left|reflexivity
    |unfold is_u32; simpl; lia|unfold wakeup; simpl; lia].
Defined.

(** ** Semaphores *)

(** C7: [P]: the count goes down by one; if it was not positive the caller
    waits at the end of the semaphore's queue and the head of the ready queue
    runs, else the caller goes on.  A closed semaphore does nothing. *)
Theorem sem_wait_correct s a m c i :
  abs s a -> AProc a -> ASem a -> a_sem a m = Some c -> a_cur a = Some i -> user_running s ->
  wp (sem_wait_kr m)
    (fun _ s' => exists a', sem_wait_spec m c i a = inl a' /\ lands s' a')
    (fun s' => exists a', sem_wait_spec m c i a = inr a' /\ lands s' a') s.
Proof.
  intros Habs HA HS Hm Hi Hu. pose proof (user_kernel_ready _ _ Habs HA Hu) as Hk.
  pose proof (blocked_bound _ _ (HBlock m) Habs) as Hb.
  eapply wp_sem_wait; [done..|]. intros s'. unfold sem_wait_spec. case_decide as Hu'.
  { intros Habs'. exists a. split; [done|]. split_and!; [done..|congruence]. }
  pose proof (ASem_wait _ _ _ i HS Hm Hu' Hb) as HS'.
  assert (HA' : AProc (a_upd_sem m sem_dec a)) by (by apply AProc_upd_sem; [apply _|]).
  cbn zeta. destruct (_ <? 0); intros Habs'; eexists; (split; [done|]).
  - by apply lands_block; [..|right|].
  - split_and!; [done..|]. change (a_cur a <> None). congruence.
Qed.

Lemma sem_wait_correct_witness :
  wp (sem_wait_kr demo_sem)
    (fun _ s' => exists a', sem_wait_spec demo_sem (mkSemaphore 1 (-1) None) 1 demo_a = inl a' /\ lands s' a')
    (fun s' => exists a', sem_wait_spec demo_sem (mkSemaphore 1 (-1) None) 1 demo_a = inr a' /\ lands s' a') demo.
Proof.
  apply sem_wait_correct; [apply demo_abs|apply demo_AProc|apply demo_ASem|reflexivity|reflexivity
    |apply demo_user_running].
Defined.

Lemma post_lands s' m c a :
  abs s' (sem_post_spec m c a) -> AProc a -> ASem a -> a_cur a <> None -> a_sem a m = Some c ->
  (sem_used c <> 0 -> sem_count c < 2 ^ 31 - 1) -> lands s' (sem_post_spec m c a).
Proof.
  intros Habs' HA HS Hcur Hm Hlt. split_and!; [done| |by apply ASem_post|].
  - unfold sem_post_spec. case_decide; [done|]. cbn zeta.
    destruct (_ <=? 0); [apply AProc_wake|]; by apply AProc_upd_sem; [apply _|].
  - unfold sem_post_spec. case_decide; [done|]. cbn zeta.
    destruct (_ <=? 0); by rewrite ?a_cur_wake.
Qed.

(** C8: [V]: the count goes up by one and, if processes were waiting, the
    first of them moves to the end of the ready queue: nobody is skipped,
    nobody else moves, the caller goes on. *)
Theorem sem_post_correct s a m c :
  abs s a -> AProc a -> ASem a -> a_cur a <> None -> a_sem a m = Some c ->
  (sem_used c <> 0 -> sem_count c < 2 ^ 31 - 1) ->
  wp (sem_post_kr m) (fun _ s' => lands s' (sem_post_spec m c a) /\
      a_q (sem_post_spec m c a) (HBlock m) =
        (if decide (sem_used c = 0) then [] else tail (a_q a (HBlock m))) /\
      a_q (sem_post_spec m c a) HReady =
        a_q a HReady ++ (if decide (sem_used c = 0) then [] else take 1 (a_q a (HBlock m))))
    (fun _ => False) s.
Proof.
  intros Habs HA HS Hcur Hm Hlt. eapply wp_sem_post; [done..|]. intros s' Habs'.
  split; [by apply post_lands|]. destruct (HS _ _ Hm) as [Hr Hn]. unfold sem_post_spec.
  case_decide as Hu.
  { rewrite app_nil_r. split; [|done]. by apply nil_length_inv. }
  cbn zeta. unfold is_i32 in Hr. destruct (Z.leb_spec (sem_count c + 1) 0) as [Hle|Hgt].
  - destruct (a_q a (HBlock m)) as [|p l] eqn:Hq; [simpl in Hn; lia|].
    rewrite !(q_wake _ _ p l) by done. by rewrite !decide_False, !decide_True by done.
  - assert (Hq : a_q a (HBlock m) = []) by (apply nil_length_inv; lia).
    change (a_q (a_upd_sem m sem_inc a)) with (a_q a). rewrite Hq. by rewrite app_nil_r.
Qed.

Lemma sem_post_correct_witness :
  wp (sem_post_kr demo_sem) (fun _ s' => lands s' (sem_post_spec demo_sem (mkSemaphore 1 (-1) None) demo_a) /\
      a_q (sem_post_spec demo_sem (mkSemaphore 1 (-1) None) demo_a) (HBlock demo_sem) =
        (if decide (sem_used (mkSemaphore 1 (-1) None) = 0) then [] else tail (a_q demo_a (HBlock demo_sem))) /\
      a_q (sem_post_spec demo_sem (mkSemaphore 1 (-1) None) demo_a) HReady =
        a_q demo_a HReady ++ (if decide (sem_used (mkSemaphore 1 (-1) None) = 0) then []
          else take 1 (a_q demo_a (HBlock demo_sem))))
    (fun _ => False) demo.
Proof.
  apply sem_post_correct; [apply demo_abs|apply demo_AProc|apply demo_ASem|discriminate|reflexivity|].
  intros _. simpl. lia.
Defined.

(** Closing a semaphore wakes everyone waiting on it, in order. *)
Theorem sem_close_correct s a m c :
  abs s a -> AProc a -> ASem a -> a_cur a <> None -> a_sem a m = Some c ->
  wp (sem_close_kr m) (fun _ s' => exists a', lands s' a' /\ a_cur a' = a_cur a /\
      a_sem a' m = Some (with_sem_used 0 c) /\ a_q a' (HBlock m) = [] /\
      a_q a' HReady = a_q a HReady ++ a_q a (HBlock m) /\
      (forall h, h <> HReady -> h <> HBlock m -> a_q a' h = a_q a h))
    (fun _ => False) s.
Proof.
  intros Habs HA HS Hcur Hm. eapply wp_sem_close; [done..|]. intros s' Habs'.
  pose proof (ASem_close _ _ _ HS Hm) as HS'. exists (sem_close_spec m c a).
  unfold sem_close_spec in *. case_decide as Hu.
  - destruct (HS _ _ Hm) as [_ Hn]. rewrite decide_True in Hn by done. apply nil_length_inv in Hn.
    rewrite Hn, app_nil_r. split_and!; [by split_and!|done| |done..].
    rewrite Hm. f_equal. destruct c. simpl in *. by subst.
  - set (a1 := a_upd_sem m (with_sem_used 0) a) in *.
    pose proof (fun h => q_drain a1 (HBlock m) (a_q a (HBlock m)) h eq_refl) as Hq.
    split_and!; [split_and!; [done| |done|]|..].
    + apply AProc_drain. by apply AProc_upd_sem; [apply _|].
    + unfold a_cur. by rewrite a_k_drain.
    + unfold a_cur. by rewrite a_k_drain.
    + unfold a_sem. rewrite a_k_drain. change (a_sem a1 m = Some (with_sem_used 0 c)). unfold a1.
      by rewrite a_sem_upd, decide_True, Hm.
    + rewrite Hq by done. by rewrite decide_False, decide_True.
    + rewrite Hq by done. by rewrite decide_True.
    + intros h H1 H2. rewrite Hq by done. by rewrite !decide_False.
Qed.

Lemma sem_close_correct_witness :
  wp (sem_close_kr demo_sem) (fun _ s' => exists a', lands s' a' /\ a_cur a' = a_cur demo_a /\
      a_sem a' demo_sem = Some (with_sem_used 0 (mkSemaphore 1 (-1) None)) /\ a_q a' (HBlock demo_sem) = [] /\
      a_q a' HReady = a_q demo_a HReady ++ a_q demo_a (HBlock demo_sem) /\
      (forall h, h <> HReady -> h <> HBlock demo_sem -> a_q a' h = a_q demo_a h))
    (fun _ => False) demo.
Proof.
  apply sem_close_correct; [apply demo_abs|apply demo_AProc|apply demo_ASem|discriminate|reflexivity].
Defined.

(** ** Exit and join *)

(** C9: [exit_current]: the PCB of the caller is free, everyone joined on it
    is at the end of the ready queue in order, and the head of that queue
    runs; the call does not return. *)
Theorem exit_correct s a i :
  abs s a -> AProc a -> ASem a -> a_cur a = Some i -> user_running s ->
  wp exit_current (fun _ _ => False)
    (fun s' => exists a' p l, lands s' a' /\ ~ alive a' i /\
       a_q a HReady ++ a_q a (HJoin i) = p :: l /\
       a_cur a' = Some p /\ a_q a' HReady = l /\ a_q a' (HJoin i) = []) s.
Proof.
  intros Habs HA HS Hi Hu. pose proof (user_kernel_ready _ _ Habs HA Hu) as Hk.
  eapply wp_exit_current; [done..|]. intros s' Habs'.
  pose proof (AProc_count _ (AProc_free _ _ HA Hi Hk)) as HF.
  assert (Hq : a_q (a_count (a_free i a)) HReady = a_q a HReady ++ a_q a (HJoin i))
    by (apply q_drain_ready; done).
  destruct (ready_nonempty _ HF eq_refl) as (p & l & Hpl).
  pose proof Hpl as Hpl'. rewrite Hq in Hpl'.
  exists (exit_spec i a), p, l. unfold exit_spec. split_and!; [split_and!|..].
  - done.
  - by apply AProc_dispatch.
  - apply ASem_dispatch, ASem_count. apply ASem_glob; [apply _|]. apply ASem_upd. by apply ASem_drain_join.
  - by apply a_cur_dispatch.
  - intros (c & Hc & Hne). unfold a_dispatch in Hc. rewrite Hpl in Hc.
    assert (Hpi : p <> i).
    { intros ->. destruct (ap_cur _ HA _ Hi) as [Hun _].
      assert (i ∈ a_q a HReady ++ a_q a (HJoin i)) as [Hr|Hr]%elem_of_app by (rewrite Hpl'; left);
        by apply Hun in Hr. }
    rewrite !a_pcb_upd, !decide_False in Hc by done.
    change (a_pcb (a_upd i (with_used 0) (a_drain (length (a_q a (HJoin i))) (HJoin i) a)) i = Some c) in Hc.
    rewrite a_pcb_upd, decide_True in Hc by done. destruct (a_pcb _ i); [|done]. injection Hc as <-. by destruct Hne.
  - done.
  - unfold a_dispatch. by rewrite Hpl.
  - unfold a_dispatch. rewrite Hpl. cbn -[a_count]. by rewrite fn_lookup_insert.
  - unfold a_dispatch. rewrite Hpl. cbn -[a_count]. rewrite fn_lookup_insert_ne by done.
    by apply drain_all.
Qed.

Lemma exit_correct_witness :
  wp exit_current (fun _ _ => False)
    (fun s' => exists a' p l, lands s' a' /\ ~ alive a' 1%nat /\
       a_q demo_a HReady ++ a_q demo_a (HJoin 1%nat) = p :: l /\
       a_cur a' = Some p /\ a_q a' HReady = l /\ a_q a' (HJoin 1%nat) = []) demo.
Proof.
  apply exit_correct; [apply demo_abs|apply demo_AProc|apply demo_ASem|reflexivity|apply demo_user_running].
Defined.

(** The slot [join_current] waits on, if any. *)
Definition join_target (s : kst) (pid : Z) : option nat :=
  let j := find_pid (k_PCBPool s) 0 (u32 pid) in
  match k_PCBPool s !! j with
  | Some c => if decide (pid = 0 \/ p_used c = 0) then None else Some j
  | None => None
  end.

(** [join_current] of a live process puts the caller at the end of its
    join list and runs the head of the ready queue; for pid 0, an unknown pid
    or a dead process it returns at once and nothing changes. *)
Theorem join_correct s a i pid :
  abs s a -> AProc a -> ASem a -> a_cur a = Some i -> user_running s ->
  wp (join_current pid)
    (fun _ s' => join_target s pid = None /\ s' = s)
    (fun s' => exists j, join_target s pid = Some j /\ lands s' (a_block (HJoin j) i a)) s.
Proof.
  intros Habs HA HS Hi Hu. pose proof (user_kernel_ready _ _ Habs HA Hu) as Hk.
  unfold join_target. destruct (decide (pid = 0)) as [->|Hpid].
  { unfold join_current. rewrite decide_True by done. apply wp_ret. split; [|done].
    cbn zeta. destruct (k_PCBPool s !! _); [|done]. by rewrite decide_True by (by left). }
  pose proof (rep_pool _ _ (proj1 Habs)) as Hpool.
  destruct (find_pid_spec (k_PCBPool s) 0 (u32 pid)) as [[Hj _]|(j & c & Hj & Hc & _)].
  { unfold join_current. rewrite decide_False by done. wbind. apply wp_get. cbn zeta.
    rewrite Hj, decide_True by (rewrite Hpool; done). apply wp_ret. split; [|done].
    by rewrite lookup_ge_None_2 by lia. }
  pose proof (abs_pcb_rev _ _ Habs _ _ Hc) as Hc'. simpl in Hj. cbn zeta. rewrite Hj, Hc.
  destruct (decide (p_used c = 0)) as [Hd|Hd].
  - rewrite decide_True by (by right). unfold join_current. rewrite decide_False by done.
    wbind. apply wp_get. cbn zeta. rewrite Hj.
    rewrite decide_False; [|apply lookup_lt_Some in Hc; lia].
    wbind. eapply wp_eq; [by apply get_pcb_run|]. rewrite decide_True by done. by apply wp_ret.
  - rewrite decide_False by (intros [?|?]; done).
    eapply wp_join; [done..|]. intros s' Habs'. exists j. split; [done|].
    apply lands_block; [done|done|done| |by right|by apply ASem_park]. intros q [= <-]. by eexists.
Qed.

Lemma join_correct_witness :
  wp (join_current 3)
    (fun _ s' => join_target demo 3 = None /\ s' = demo)
    (fun s' => exists j, join_target demo 3 = Some j /\ lands s' (a_block (HJoin j) 1 demo_a)) demo.
Proof.
  apply join_correct; [apply demo_abs|apply demo_AProc|apply demo_ASem|reflexivity|apply demo_user_running].
Defined.

(** ** Round robin *)

(** The running process yields: [SYS_HANDOUT], then [do_scheduler]. *)
Definition yield_step (s s' : kst) : Prop := (sys_handout;; do_scheduler) s = Jump s'.

(** The processes in the order they will run. *)
Definition turn (a : astate) : list nat :=
  match a_cur a with Some i => i :: a_q a HReady | None => a_q a HReady end.

Lemma yield_once s a :
  abs s a -> AProc a -> ASem a -> a_cur a <> None ->
  exists s' a', yield_step s s' /\ lands s' a' /\ turn a' = drop 1 (turn a) ++ take 1 (turn a).
Proof.
  intros Habs HA HS Hcur. destruct (a_cur a) as [i|] eqn:Hi; [|done].
  destruct (ap_cur _ HA _ Hi) as [Hun (c & Hc & _)].
  set (a1 := a_upd i (with_ts STOP) a).
  assert (HA1 : AProc a1) by (by apply AProc_upd; [apply _|]).
  assert (Hc1 : a_pcb a1 i = Some (with_ts STOP c)) by (unfold a1; by rewrite a_pcb_upd, decide_True, Hc).
  assert (H : wp (sys_handout;; do_scheduler) (fun _ _ => False)
    (fun s' => exists a', lands s' a' /\ turn a' = drop 1 (turn a) ++ take 1 (turn a)) s).
  { wbind. unfold sys_handout. wcur Habs. rewrite Hi.
    eapply (wp_upd_pcb _ _ Habs); [apply _|exact Hc|]. intros s1 Habs1. fold a1 in Habs1.
    eapply wp_do_scheduler; [exact Habs1|exact HA1|exact Hi|exact Hc1|done|].
    intros s'. unfold sched_spec. rewrite decide_False by done.
    assert (E : preempted (with_ts STOP c) = true).
    { unfold preempted. simpl. by rewrite orb_true_r. }
    rewrite E. intros Habs'.
    set (a2 := a_upd i (with_ts READY) (a_count a1)) in *.
    assert (HA2 : AProc a2) by (by apply AProc_upd; [apply _|apply AProc_count]).
    exists (a_block HReady i a2). split.
    - apply lands_block; [done|done|done|done|by left|]. by apply ASem_park, ASem_upd, ASem_count, ASem_upd.
    - unfold turn at 2 3. rewrite Hi. unfold a_block, a_dispatch. cbn [drop take].
      assert (Hq : a_q (a_count (a_park HReady i a2)) HReady = a_q a HReady ++ [i])
        by (cbn; by rewrite fn_lookup_insert).
      rewrite Hq. destruct (a_q a HReady) as [|p l] eqn:Hl; unfold turn; cbn -[a_count];
        by rewrite fn_lookup_insert. }
  unfold wp in H. destruct ((sys_handout;; do_scheduler) s) as [? ?|s'|?] eqn:E; [done| |done].
  destruct H as (a' & Hl & Ht). exists s', a'. done.
Qed.

Lemma rotate_step {A} n (l : list A) :
  (S n <= length l)%nat ->
  drop 1 (drop n l ++ take n l) ++ take 1 (drop n l ++ take n l) = drop (S n) l ++ take (S n) l.
Proof.
  intros Hn. destruct (lookup_lt_is_Some_2 l n) as [x Hx]; [lia|].
  rewrite (drop_S l x n Hx), (take_S_r l n x Hx). simpl. rewrite drop_0, take_0. by rewrite <- app_assoc.
Qed.

(** C10: scheduling is round robin: after [n] yields the running process
    followed by the ready queue is the original sequence rotated by [n]; so
    the process at position [k] of the ready queue runs after [k+1] yields. *)
Theorem round_robin n s a :
  abs s a -> AProc a -> ASem a -> a_cur a <> None -> (n < length (turn a))%nat ->
  exists s' a', nsteps yield_step n s s' /\ lands s' a' /\
    turn a' = drop n (turn a) ++ take n (turn a) /\ a_cur a' = turn a !! n.
Proof.
  intros Habs HA HS Hcur Hn.
  assert (H : forall m, (m <= n)%nat -> exists s' a', nsteps yield_step m s s' /\ lands s' a' /\
    turn a' = drop m (turn a) ++ take m (turn a)).
  { induction m as [|m IH]; intros Hm.
    - exists s, a. split_and!; [constructor|by split_and!|]. by rewrite drop_0, take_0, app_nil_r.
    - destruct IH as (s1 & a1 & Hs1 & (H1 & H2 & H3 & H4) & Ht1); [lia|].
      destruct (yield_once s1 a1 H1 H2 H3 H4) as (s2 & a2 & Hy & Hl & Ht2).
      exists s2, a2. split_and!; [by eapply nsteps_r|done|]. rewrite Ht2, Ht1. apply rotate_step. lia. }
  destruct (H n) as (s' & a' & Hs & Hl & Ht); [done|]. exists s', a'. split_and!; [done..|].
  destruct (lookup_lt_is_Some_2 (turn a) n Hn) as [x Hx]. rewrite Hx.
  rewrite (drop_S _ _ _ Hx) in Ht. destruct Hl as (_ & _ & _ & Hc). unfold turn at 1 in Ht.
  destruct (a_cur a') as [i|]; [|done]. injection Ht as -> _. done.
Qed.

Lemma round_robin_witness :
  exists s' a', nsteps yield_step 1 demo s' /\ lands s' a' /\
    turn a' = drop 1 (turn demo_a) ++ take 1 (turn demo_a) /\ a_cur a' = turn demo_a !! 1%nat.
Proof.
  apply round_robin; [apply demo_abs|apply demo_AProc|apply demo_ASem|discriminate|simpl; lia].
Defined.
