(* ===== verification/Bytes.v ===== *)
(** * Byte arrays

    Memory regions as lists of bytes: reading and overwriting a range, 32-bit
    little-endian fields, and the C string functions of
    [kernel/include/common.h]. *)

From coqutil Require Export Byte Word.LittleEndianList.
From S2P Require Export Prelude.
From stdpp Require Export list options.

#[global] Open Scope Z_scope.

Abbreviation byte := Init.Byte.byte.

Definition NUL : byte := Byte.x00.

(** [n] bytes from offset [off], [None] if they are not all in the array. *)
Definition slice (off n : nat) (l : list byte) : list byte := take n (drop off l).
Definition splice (off : nat) (bs l : list byte) : list byte :=
  take off l ++ bs ++ drop (off + length bs) l.

Definition cslice (off n : Z) (l : list byte) : option (list byte) :=
  if (0 <=? off) && (0 <=? n) && (off + n <=? Z.of_nat (length l))
  then Some (slice (Z.to_nat off) (Z.to_nat n) l) else None.

Definition csplice (off : Z) (bs l : list byte) : option (list byte) :=
  if (0 <=? off) && (off + Z.of_nat (length bs) <=? Z.of_nat (length l))
  then Some (splice (Z.to_nat off) bs l) else None.

(** A [uint32_t] field. *)
Definition rd32 (l : list byte) (off : nat) : Z := le_combine (slice off 4 l).
Definition wr32 (off : nat) (v : Z) (l : list byte) : list byte := splice off (le_split 4 v) l.

(** ** [strcmp], [strcpy], [strlen], [memset2]

    A [char *] is the list of bytes from where it points to the end of the
    object it points into; running off that end is a fault. *)

Fixpoint strcmp (s1 s2 : list byte) : option Z :=
  match s1, s2 with
  | c1 :: s1', c2 :: s2' =>
      if negb (Byte.eqb c1 NUL) && Byte.eqb c1 c2 then strcmp s1' s2'
      else Some (byte.unsigned c1 - byte.unsigned c2)
  | _, _ => None
  end.

(** What [strcpy] copies: the bytes up to and including the first NUL. *)
Fixpoint cstring (s : list byte) : option (list byte) :=
  match s with
  | [] => None
  | c :: s' => if Byte.eqb c NUL then Some [c] else cons c <$> cstring s'
  end.

Definition strlen (s : list byte) : option Z := (fun l => Z.of_nat (length l) - 1) <$> cstring s.

Definition memset2 (n : nat) (v : Z) : list byte := replicate n (byte.of_Z v).

#[global] Instance byte_eq_dec : EqDecision byte := Byte.byte_eq_dec.

(** ** Lemmas *)

Create Rewrite HintDb bytes.

Lemma byte_eqb_refl c : Byte.eqb c c = true.
Proof. by apply Byte.byte_dec_lb. Qed.

Lemma byte_eqb_eq a b : Byte.eqb a b = true <-> a = b.
Proof. split; [apply Byte.byte_dec_bl|apply Byte.byte_dec_lb]. Qed.

Lemma byte_eqb_neq a b : Byte.eqb a b = false <-> a <> b.
Proof. rewrite <- (byte_eqb_eq a b). by destruct (Byte.eqb a b). Qed.

Lemma length_slice off n l : (off + n <= length l)%nat -> length (slice off n l) = n.
Proof. intros. unfold slice. rewrite length_take, length_drop. lia. Qed.

Lemma length_splice off bs l :
  (off + length bs <= length l)%nat -> length (splice off bs l) = length l.
Proof. intros. unfold splice. rewrite !length_app, length_take, length_drop. lia. Qed.

Lemma slice_splice_eq off bs l :
  (off + length bs <= length l)%nat -> slice off (length bs) (splice off bs l) = bs.
Proof.
  intros. unfold slice, splice. rewrite drop_app_length' by (rewrite length_take; lia).
  by rewrite take_app_length.
Qed.

(** A range that does not meet the overwritten one is unchanged. *)
Lemma slice_splice_ne off bs l off' n :
  (off + length bs <= length l)%nat ->
  (off' + n <= off \/ off + length bs <= off')%nat ->
  slice off' n (splice off bs l) = slice off' n l.
Proof.
  intros Hlen Hd. apply list_eq. intros i. unfold slice, splice.
  destruct (decide (i < n)%nat) as [Hi|Hi].
  2:{ rewrite !lookup_take_ge by lia. done. }
  rewrite !lookup_take_lt, !lookup_drop by lia. destruct Hd.
  - rewrite lookup_app_l by (rewrite length_take; lia). by rewrite lookup_take_lt by lia.
  - rewrite lookup_app_r by (rewrite length_take; lia).
    rewrite lookup_app_r by (rewrite length_take; lia). rewrite lookup_drop. f_equal.
    rewrite length_take. lia.
Qed.

Lemma slice_all l : slice 0 (length l) l = l.
Proof. unfold slice. by rewrite drop_0, firstn_all. Qed.

Lemma slice_slice off n off' n' l :
  (off' + n' <= n)%nat -> slice off' n' (slice off n l) = slice (off + off') n' l.
Proof.
  intros. unfold slice. rewrite skipn_firstn_comm, take_take, drop_drop.
  f_equal. lia.
Qed.

Lemma slice_app_split off n m l :
  slice off n l ++ slice (off + n) m l = slice off (n + m) l.
Proof. unfold slice. rewrite <- drop_drop. by rewrite take_take_drop. Qed.

Lemma cslice_Some off n l :
  0 <= off -> 0 <= n -> off + n <= Z.of_nat (length l) ->
  cslice off n l = Some (slice (Z.to_nat off) (Z.to_nat n) l).
Proof.
  intros. unfold cslice.
  by rewrite !(proj2 (Z.leb_le _ _)) by lia.
Qed.

Lemma csplice_Some off bs l :
  0 <= off -> off + Z.of_nat (length bs) <= Z.of_nat (length l) ->
  csplice off bs l = Some (splice (Z.to_nat off) bs l).
Proof. intros. unfold csplice. by rewrite !(proj2 (Z.leb_le _ _)) by lia. Qed.

Lemma rd32_range l off : is_u32 (rd32 l off).
Proof.
  unfold rd32, is_u32. pose proof (le_combine_bound (slice off 4 l)) as H.
  assert (length (slice off 4 l) <= 4)%nat by (unfold slice; rewrite length_take; lia).
  pose proof (Z.pow_le_mono_r 2 (8 * Z.of_nat (length (slice off 4 l))) 32). lia.
Qed.

Lemma rd32_wr32_eq l off v :
  (off + 4 <= length l)%nat -> is_u32 v -> rd32 (wr32 off v l) off = v.
Proof.
  intros Hl Hv. unfold rd32, wr32.
  assert (E : length (le_split 4 v) = 4%nat) by apply length_le_split.
  rewrite <- E at 1. rewrite slice_splice_eq by (rewrite E; lia).
  rewrite le_combine_split. by apply u32_id.
Qed.

Lemma rd32_wr32_ne l off v off' :
  (off + 4 <= length l)%nat -> (off' + 4 <= off \/ off + 4 <= off')%nat ->
  rd32 (wr32 off v l) off' = rd32 l off'.
Proof.
  intros Hl Hd. unfold rd32, wr32.
  by rewrite slice_splice_ne by (rewrite length_le_split; lia).
Qed.

Lemma length_wr32 l off v : (off + 4 <= length l)%nat -> length (wr32 off v l) = length l.
Proof. intros. unfold wr32. apply length_splice. rewrite length_le_split. lia. Qed.

Lemma cstring_prefix s t : cstring s = Some t -> exists r, s = t ++ r.
Proof.
  revert t. induction s as [|c s IH]; intros t; simpl; [done|].
  destruct (Byte.eqb c NUL); [intros [= <-]; by exists s|].
  intros (t' & Ht & ->)%fmap_Some. destruct (IH _ Ht) as [r ->]. by exists r.
Qed.

Lemma cstring_app a b t : cstring a = Some t -> cstring (a ++ b) = Some t.
Proof.
  revert t. induction a as [|x a IH]; intros t; simpl; [done|]. destruct (Byte.eqb x NUL); [done|].
  intros (t' & Ht & ->)%fmap_Some. by rewrite (IH _ Ht).
Qed.

Lemma cstring_name nm r : NUL ∉ nm -> cstring (nm ++ NUL :: r) = Some (nm ++ [NUL]).
Proof.
  induction nm as [|x nm IH]; intros Hn; simpl.
  - done.
  - apply not_elem_of_cons in Hn as [Hx Hn]. rewrite (proj2 (byte_eqb_neq x NUL)) by congruence. by rewrite IH.
Qed.

(** [strcmp] tells whether two strings are the same up to the first NUL. *)
Lemma strcmp_eq s1 s2 t1 t2 :
  cstring s1 = Some t1 -> cstring s2 = Some t2 ->
  exists z, strcmp s1 s2 = Some z /\ (z = 0 <-> t1 = t2).
Proof.
  revert s2 t1 t2. induction s1 as [|c1 s1 IH]; intros [|c2 s2] t1 t2; simpl; try done.
  intros H1 H2. destruct (Byte.eqb c1 NUL) eqn:E1; simpl.
  - apply byte_eqb_eq in E1 as ->. injection H1 as <-. eexists. split; [done|].
    destruct (Byte.eqb c2 NUL) eqn:E2.
    + apply byte_eqb_eq in E2 as ->. injection H2 as <-. by rewrite Z.sub_diag.
    + apply fmap_Some in H2 as (t & _ & ->). apply byte_eqb_neq in E2. split.
      * intros Hz. destruct E2. apply byte.unsigned_inj. lia.
      * congruence.
  - apply fmap_Some in H1 as (t1' & H1 & ->). apply byte_eqb_neq in E1.
    destruct (Byte.eqb c1 c2) eqn:E12.
    + apply byte_eqb_eq in E12 as <-. apply byte_eqb_neq in E1. rewrite E1 in H2.
      apply fmap_Some in H2 as (t2' & H2 & ->).
      destruct (IH _ _ _ H1 H2) as (z & Hz & Hiff). exists z. split; [done|].
      rewrite Hiff. split; [by intros ->|by intros [= ->]].
    + apply byte_eqb_neq in E12. eexists. split; [done|]. split.
      * intros Hz. destruct E12. apply byte.unsigned_inj. lia.
      * destruct (Byte.eqb c2 NUL); [by injection H2 as <-; intros [= -> _]|].
        apply fmap_Some in H2 as (t2' & _ & ->). by intros [= -> _].
Qed.
