(* ===== verification/Disk.v ===== *)
(** * The ATA disk

    Models [inc/disk.h]: sector reads and writes through the ATA task file,
    and [readseg], which the boot loader and [loader] use.  The drive is an
    instance of [AtaDevice]; what the code relies on is that a sector reads
    back what was last written to it. *)

From S2P Require Import Prelude Bytes.

Definition SECTSIZE : nat := 512.

Lemma SECTSIZE_Z : Z.of_nat SECTSIZE = 512.
Proof. done. Qed.

(** An ATA drive addressed by the 29 bits the task file carries (28 bits of
    LBA and the drive bit); a sector is 128 words of the data port. *)
Class AtaDevice (D : Type) : Type := {
  ata_sectors : Z;
  ata_read : D -> Z -> list Z;
  ata_write : D -> Z -> list Z -> D;
  ata_sectors_le : ata_sectors <= 2 ^ 28;
  ata_read_length : forall d n, length (ata_read d n) = 128%nat;
  ata_read_word : forall d n, Forall is_u32 (ata_read d n);
  ata_read_same : forall d n ws, 0 <= n < ata_sectors ->
    length ws = 128%nat -> Forall is_u32 ws -> ata_read (ata_write d n ws) n = ws;
  ata_read_other : forall d n m ws, n <> m -> ata_read (ata_write d n ws) m = ata_read d m }.

(** ** The task file *)

Record ata_regs : Type := mkRegs {
  reg_count : Z;      (* 0x1F2 *)
  reg_lba0 : Z;       (* 0x1F3 *)
  reg_lba1 : Z;       (* 0x1F4 *)
  reg_lba2 : Z;       (* 0x1F5 *)
  reg_device : Z;     (* 0x1F6 *)
  reg_command : Z }.  (* 0x1F7 *)

(** The six [outb]s; [outb] sends the low byte of its argument. *)
Definition ata_program (offset cmd : Z) : ata_regs :=
  mkRegs (u8 1) (u8 offset) (u8 (Z.shiftr offset 8)) (u8 (Z.shiftr offset 16))
    (u8 (Z.lor (Z.shiftr offset 24) 0xE0)) (u8 cmd).

(** The sector those registers select. *)
Definition regs_lba (r : ata_regs) : Z :=
  reg_lba0 r + Z.shiftl (reg_lba1 r) 8 + Z.shiftl (reg_lba2 r) 16
  + Z.shiftl (Z.land (reg_device r) 0x1F) 24.

Definition words_of_bytes (bs : list byte) : list Z :=
  (fun i => rd32 bs (4 * i)) <$> seq 0 128.
Definition bytes_of_words (ws : list Z) : list byte := ws ≫= le_split 4.

(** ** Lemmas *)

Lemma testbit_ge x n i : 0 <= x < 2 ^ n -> n <= i -> Z.testbit x i = false.
Proof.
  intros Hx Hi. destruct (decide (0 <= n)) as [Hn|Hn].
  - rewrite <- (Z.mod_small x (2 ^ n)) by done. by apply Z.mod_pow2_bits_high; lia.
  - rewrite Z.pow_neg_r in Hx by lia. lia.
Qed.

Lemma u8_split n : u8 n + Z.shiftl (u8 (Z.shiftr n 8)) 8 + Z.shiftl (u8 (Z.shiftr n 16)) 16 = n mod 2 ^ 24.
Proof.
  unfold u8. rewrite !Z.shiftl_mul_pow2, !Z.shiftr_div_pow2 by lia.
  change (2 ^ 24) with (2 ^ 8 * 2 ^ 16). change (2 ^ 16) with (2 ^ 8 * 2 ^ 8).
  rewrite (Z.rem_mul_r n (2 ^ 8)) by lia. rewrite (Z.rem_mul_r (n / 2 ^ 8) (2 ^ 8)) by lia.
  rewrite Z.div_div by lia. lia.
Qed.

Lemma device_bits x : Z.land (u8 (Z.lor x 0xE0)) 0x1F = x mod 2 ^ 5.
Proof.
  unfold u8. apply Z.bits_inj'. intros i Hi. change 0x1F with (Z.ones 5).
  rewrite Z.land_ones by lia.
  destruct (decide (i < 5)).
  - rewrite !Z.mod_pow2_bits_low, Z.lor_spec by lia.
    assert (i = 0 \/ i = 1 \/ i = 2 \/ i = 3 \/ i = 4) as Hc by lia.
    destruct_or! Hc; subst; by rewrite orb_false_r.
  - by rewrite !Z.mod_pow2_bits_high by lia.
Qed.

(** The registers select the sector the caller asked for. *)
Lemma program_lba offset cmd : regs_lba (ata_program offset cmd) = offset mod 2 ^ 29.
Proof.
  unfold regs_lba. simpl. rewrite u8_split, device_bits.
  rewrite Z.shiftl_mul_pow2, Z.shiftr_div_pow2 by lia.
  change (2 ^ 29) with (2 ^ 24 * 2 ^ 5). rewrite (Z.rem_mul_r offset (2 ^ 24)) by lia. lia.
Qed.

Lemma length_bytes_of_words ws : length (bytes_of_words ws) = (4 * length ws)%nat.
Proof.
  unfold bytes_of_words. induction ws as [|w ws IH]; [done|].
  rewrite bind_cons, length_app, IH, length_le_split. simpl. lia.
Qed.

Lemma slice_app_skip a b n : slice (length a) n (a ++ b) = slice 0 n b.
Proof. unfold slice. by rewrite drop_app_length, drop_0. Qed.

Lemma slice_chunk ws i w :
  ws !! i = Some w -> slice (4 * i) 4 (bytes_of_words ws) = le_split 4 w.
Proof.
  revert i. induction ws as [|v ws IH]; intros i Hi; [done|].
  unfold bytes_of_words. rewrite bind_cons. destruct i as [|i]; simpl in Hi.
  - injection Hi as ->. done.
  - rewrite <- (IH i Hi). replace (4 * S i)%nat with (length (le_split 4 v) + 4 * i)%nat
      by (rewrite length_le_split; lia).
    unfold slice. by rewrite drop_app_add.
Qed.

Lemma words_of_bytes_of_words ws :
  length ws = 128%nat -> Forall is_u32 ws -> words_of_bytes (bytes_of_words ws) = ws.
Proof.
  intros Hl Hw. apply list_eq. intros i. unfold words_of_bytes. rewrite list_lookup_fmap.
  destruct (decide (i < 128)%nat) as [Hi|Hi].
  - rewrite lookup_seq_lt by done. simpl.
    destruct (lookup_lt_is_Some_2 ws i) as [w Hwi]; [lia|]. rewrite Hwi.
    unfold rd32. change (i + _)%nat with (4 * i)%nat. rewrite (slice_chunk _ _ _ Hwi), le_combine_split.
    f_equal. apply u32_id. by eapply Forall_lookup_1.
  - by rewrite lookup_seq_ge, lookup_ge_None_2 by lia.
Qed.

Lemma words_of_bytes_word bs : Forall is_u32 (words_of_bytes bs).
Proof. apply Forall_fmap, Forall_forall. intros i _. apply rd32_range. Qed.

Lemma length_words_of_bytes bs : length (words_of_bytes bs) = 128%nat.
Proof. unfold words_of_bytes. by rewrite length_fmap, length_seq. Qed.

Lemma bytes_of_words_of_bytes bs :
  length bs = SECTSIZE -> bytes_of_words (words_of_bytes bs) = bs.
Proof.
  intros Hl. unfold words_of_bytes.
  assert (H : forall n k, (4 * (k + n) <= length bs)%nat ->
    bytes_of_words ((fun i => rd32 bs (4 * i)) <$> seq k n) = slice (4 * k) (4 * n) bs).
  { induction n as [|n IH]; intros k Hk; [by rewrite Nat.mul_0_r|].
    cbn [seq fmap list_fmap]. unfold bytes_of_words. rewrite bind_cons.
    change (_ ≫= le_split 4) with (bytes_of_words ((fun i => rd32 bs (4 * i)) <$> seq (S k) n)).
    rewrite IH by lia. unfold rd32 at 1. rewrite split_le_combine'.
    2:{ apply length_slice. lia. }
    replace (4 * S k)%nat with (4 * k + 4)%nat by lia. rewrite slice_app_split. f_equal. lia. }
  rewrite H by (rewrite Hl; unfold SECTSIZE; lia). change (4 * 0)%nat with 0%nat.
  change (4 * 128)%nat with SECTSIZE. rewrite <- Hl. apply slice_all.
Qed.

(** ** Sectors *)

Section disk.
Context {D : Type} `{!AtaDevice D}.

(** The 512 bytes [readsect] stores at [dst]. *)
Definition readsect (offset : Z) (d : D) : list byte :=
  bytes_of_words (ata_read d (regs_lba (ata_program offset 0x20))).

(** [writesect] sends the 128 words at [dst]. *)
Definition writesect (dst : list byte) (offset : Z) (d : D) : D :=
  ata_write d (regs_lba (ata_program offset 0x30)) (words_of_bytes dst).

Definition valid_sector (n : Z) : Prop := 0 <= n < ata_sectors.

Lemma valid_lba n cmd : valid_sector n -> regs_lba (ata_program n cmd) = n.
Proof.
  intros [H1 H2]. rewrite program_lba. apply Z.mod_small.
  pose proof ata_sectors_le. lia.
Qed.

Lemma length_readsect n d : length (readsect n d) = SECTSIZE.
Proof. unfold readsect. by rewrite length_bytes_of_words, ata_read_length. Qed.

Lemma readsect_writesect_eq n bs d :
  valid_sector n -> length bs = SECTSIZE -> readsect n (writesect bs n d) = bs.
Proof.
  intros Hn Hl. unfold readsect, writesect. rewrite !valid_lba by done.
  rewrite ata_read_same; [by apply bytes_of_words_of_bytes|done| |].
  - apply length_words_of_bytes.
  - apply words_of_bytes_word.
Qed.

Lemma readsect_writesect_ne n m bs d :
  valid_sector n -> valid_sector m -> n <> m ->
  readsect m (writesect bs n d) = readsect m d.
Proof.
  intros Hn Hm Hne. unfold readsect, writesect. rewrite !valid_lba by done.
  by rewrite ata_read_other.
Qed.

(** Only the low 29 bits of [offset] reach the drive. *)
Lemma readsect_wrap n m d : n mod 2 ^ 29 = m mod 2 ^ 29 -> readsect n d = readsect m d.
Proof. intros H. unfold readsect. by rewrite !program_lba, H. Qed.

(** ** [readseg]

    Memory is a function from addresses; [readsect] at [pa] fills the
    512 bytes from [pa] on.  Addresses are taken not to wrap. *)

Definition mem : Type := Z -> byte.

Definition store (pa : Z) (bs : list byte) (m : mem) : mem := fun a =>
  if (pa <=? a) && (a <? pa + Z.of_nat (length bs))
  then default NUL (bs !! Z.to_nat (a - pa)) else m a.

Fixpoint readseg_loop (fuel : nat) (pa epa offset : Z) (d : D) (m : mem) : option mem :=
  match fuel with
  | O => None
  | S fuel =>
      if pa <? epa
      then readseg_loop fuel (pa + 512) epa (offset + 1) d (store pa (readsect offset d) m)
      else Some m
  end.

(** The rounded-down start, the sector after the boot sector, and one step
    per sector. *)
Definition readseg (pa count offset : Z) (d : D) (m : mem) : option mem :=
  readseg_loop (S (Z.to_nat (count + 512)) ) (pa - Z.rem offset 512) (pa + count)
    (Z.quot offset 512 + 1) d m.

(** Byte [n] of the disk, counted from sector 1. *)
Definition image_byte (d : D) (n : Z) : byte :=
  default NUL (readsect (n / 512 + 1) d !! Z.to_nat (n mod 512)).

Lemma store_in pa bs m a :
  pa <= a < pa + Z.of_nat (length bs) ->
  store pa bs m a = default NUL (bs !! Z.to_nat (a - pa)).
Proof.
  intros H. unfold store. by rewrite (proj2 (Z.leb_le _ _)), (proj2 (Z.ltb_lt _ _)) by lia.
Qed.

Lemma store_out pa bs m a :
  a < pa \/ pa + Z.of_nat (length bs) <= a -> store pa bs m a = m a.
Proof.
  intros H. unfold store. destruct (Z.leb_spec pa a), (Z.ltb_spec a (pa + Z.of_nat (length bs)));
    simpl; try done. lia.
Qed.

Lemma readseg_loop_spec fuel pa epa sec d m :
  Z.max 0 (epa - pa) <= 512 * (Z.of_nat fuel - 1) -> 1 <= sec ->
  exists m', readseg_loop fuel pa epa sec d m = Some m' /\
    (forall a, pa <= a < epa -> m' a = image_byte d ((sec - 1) * 512 + (a - pa))) /\
    (forall a, a < pa \/ (pa <= epa /\ epa + 512 <= a) \/ (epa <= pa) -> m' a = m a).
Proof.
  revert pa sec m. induction fuel as [|fuel IH]; intros pa sec m Hf Hs; [lia|]. simpl.
  destruct (Z.ltb_spec pa epa) as [Hlt|Hge].
  2:{ exists m. split_and!; [done|lia|done]. }
  destruct (IH (pa + 512) (sec + 1) (store pa (readsect sec d) m)) as (m' & E & Hin & Hout);
    [lia|lia|].
  exists m'. split_and!; [done|..].
  - intros a Ha. destruct (decide (a < pa + 512)).
    + rewrite Hout by lia. rewrite store_in by (rewrite length_readsect, SECTSIZE_Z; lia).
      assert (E1 : ((sec - 1) * 512 + (a - pa)) / 512 = sec - 1)
        by (rewrite Z.div_add_l, Z.div_small by lia; lia).
      assert (E2 : ((sec - 1) * 512 + (a - pa)) mod 512 = a - pa).
      { rewrite Z.add_comm, Z_mod_plus_full. apply Z.mod_small. lia. }
      unfold image_byte. rewrite E1, E2. by rewrite Z.sub_add.
    + rewrite Hin by lia. f_equal. lia.
  - intros a Ha. rewrite Hout by lia. apply store_out.
    rewrite length_readsect, SECTSIZE_Z. lia.
Qed.

(** [readseg] puts bytes [offset, offset+count) of the disk at [pa]. *)
Lemma readseg_spec pa count offset d m :
  0 <= count -> 0 <= offset ->
  exists m', readseg pa count offset d m = Some m' /\
    (forall i, 0 <= i < count -> m' (pa + i) = image_byte d (offset + i)) /\
    (forall a, a < pa - offset mod 512 \/ pa + count + 512 <= a -> m' a = m a).
Proof.
  intros Hc Ho. unfold readseg. rewrite Z.rem_mod_nonneg, Z.quot_div_nonneg by lia.
  pose proof (Z.mod_pos_bound offset 512 ltac:(lia)) as Hm.
  destruct (readseg_loop_spec (S (Z.to_nat (count + 512))) (pa - offset mod 512) (pa + count)
    (offset / 512 + 1) d m) as (m' & E & Hin & Hout); [lia| |].
  { pose proof (Z.div_pos offset 512 ltac:(lia) ltac:(lia)). lia. }
  exists m'. split_and!; [done|..].
  - intros i Hi. rewrite Hin by lia. f_equal. pose proof (Z.div_mod offset 512 ltac:(lia)). lia.
  - intros a Ha. apply Hout. lia.
Qed.
End disk.
