(* ===== verification/FileSys.v ===== *)
(** * The file system

    Models [kernel/src/fs/file.c] on the constants and structures of
    [kernel/include/file.h].  The globals [bitmap], [inode], [dir] and
    [buffer] are the arrays of bytes they are in memory; [fs] is the table of
    open streams.  A [char *] or [void *] argument is the list of bytes from
    where it points to the end of its object. *)

From S2P Require Import Prelude Bytes Disk.

(** ** Layout *)

Definition BLOCK_SIZE : Z := 512.
Definition NR_ENTRIES : nat := 16.      (* BLOCK_SIZE / sizeof(struct dirent) *)
Definition NR_BLOCKS : Z := 128.        (* BLOCK_SIZE / sizeof(uint32_t) *)
Definition LEN_FILENAME : nat := 24.
Definition SC_BITMAP : nat := 256.
Definition SC_DIR : nat := 256.
Definition SC_INODE : Z := 256.
Definition SC_DATA : Z := 32768.        (* 512/4*SC_INODE *)
Definition NR_FILE_STREAM : nat := 256.

Definition LOC_BITMAP : Z := 1.
Definition LOC_DIR (x : Z) : Z := 1 + 256 + x.
Definition LOC_INODE (x : Z) : Z := 1 + 256 + 256 + x.
Definition LOC_DATA (x : Z) : Z := 1 + 256 + 256 + 256 + x.

(** [struct dirent] number [e] of a directory sector. *)
Definition DIRENT : nat := 32.
Definition ent_filename (e : nat) : nat := DIRENT * e.
Definition ent_file_size (e : nat) : nat := DIRENT * e + LEN_FILENAME.
Definition ent_inode_offset (e : nat) : nat := DIRENT * e + LEN_FILENAME + 4.

(** [FILE_STREAM], without its member [inode], which nothing accesses.
    [f_name] is the end of the structure: [filename], then [used] and the
    three bytes of padding, which a [strcpy] can overrun into. *)
Record FILE_STREAM : Type := mkStream {
  f_offset : Z;
  f_inode_offset : Z;
  f_file_size : Z;
  f_dir_offset : Z;
  f_entry_offset : Z;
  f_name : list byte }.

Definition f_used (f : FILE_STREAM) : byte := default NUL (f_name f !! LEN_FILENAME).

Definition set_offset v f := mkStream v (f_inode_offset f) (f_file_size f) (f_dir_offset f) (f_entry_offset f) (f_name f).
Definition set_inode_offset v f := mkStream (f_offset f) v (f_file_size f) (f_dir_offset f) (f_entry_offset f) (f_name f).
Definition set_file_size v f := mkStream (f_offset f) (f_inode_offset f) v (f_dir_offset f) (f_entry_offset f) (f_name f).
Definition set_dir_offset v f := mkStream (f_offset f) (f_inode_offset f) (f_file_size f) v (f_entry_offset f) (f_name f).
Definition set_entry_offset v f := mkStream (f_offset f) (f_inode_offset f) (f_file_size f) (f_dir_offset f) v (f_name f).
Definition set_name v f := mkStream (f_offset f) (f_inode_offset f) (f_file_size f) (f_dir_offset f) (f_entry_offset f) v.
Definition set_used (v : byte) f := set_name (<[LEN_FILENAME := v]> (f_name f)) f.

Record fsst (D : Type) : Type := mkFs {
  fs_disk : D;
  fs_bitmap : list byte;
  fs_inode : list byte;
  fs_dir : list byte;
  fs_buffer : list byte;
  fs_fs : list FILE_STREAM }.
Arguments mkFs {D}.
Arguments fs_disk {D}. Arguments fs_bitmap {D}. Arguments fs_inode {D}.
Arguments fs_dir {D}. Arguments fs_buffer {D}. Arguments fs_fs {D}.

Section fs.
Context {D : Type} `{!AtaDevice D}.
Implicit Types (s : fsst D).

Definition with_disk (v : D) s := mkFs v (fs_bitmap s) (fs_inode s) (fs_dir s) (fs_buffer s) (fs_fs s).
Definition with_bitmap v s := mkFs (fs_disk s) v (fs_inode s) (fs_dir s) (fs_buffer s) (fs_fs s).
Definition with_inode v s := mkFs (fs_disk s) (fs_bitmap s) v (fs_dir s) (fs_buffer s) (fs_fs s).
Definition with_dir v s := mkFs (fs_disk s) (fs_bitmap s) (fs_inode s) v (fs_buffer s) (fs_fs s).
Definition with_buffer v s := mkFs (fs_disk s) (fs_bitmap s) (fs_inode s) (fs_dir s) v (fs_fs s).
Definition with_fs v s := mkFs (fs_disk s) (fs_bitmap s) (fs_inode s) (fs_dir s) (fs_buffer s) v.

(** ** Sectors *)

Definition read_at (loc : Z) : M (fsst D) (list byte) := gets (fun s => readsect loc (fs_disk s)).
Definition write_at (loc : Z) (bs : list byte) : M (fsst D) unit :=
  modify (fun s => with_disk (writesect bs loc (fs_disk s)) s).

(** Sector [count] of the bitmap is kept at [LOC_BITMAP()+(count<<9)]. *)
Definition bitmap_sector (count : nat) : Z := LOC_BITMAP + Z.shiftl (Z.of_nat count) 9.

Fixpoint readBitmap_loop (n count : nat) : M (fsst D) unit :=
  match n with
  | O => mret tt
  | S n =>
      bs ← read_at (bitmap_sector count);
      s ← get;
      m ← from_option_or OutOfBounds (csplice (512 * Z.of_nat count) bs (fs_bitmap s));
      modify (with_bitmap m);;
      readBitmap_loop n (S count)
  end.
Definition readBitmap : M (fsst D) unit := readBitmap_loop SC_BITMAP 0.

Fixpoint saveBitmap_loop (n count : nat) : M (fsst D) unit :=
  match n with
  | O => mret tt
  | S n =>
      s ← get;
      bs ← from_option_or OutOfBounds (cslice (512 * Z.of_nat count) 512 (fs_bitmap s));
      write_at (bitmap_sector count) bs;;
      saveBitmap_loop n (S count)
  end.
Definition saveBitmap : M (fsst D) unit := saveBitmap_loop SC_BITMAP 0.

Definition readDir (offset : Z) : M (fsst D) unit :=
  bs ← read_at (LOC_DIR offset); modify (with_dir bs).
Definition saveDir (offset : Z) : M (fsst D) unit :=
  s ← get; write_at (LOC_DIR offset) (fs_dir s).
Definition readINode (offset : Z) : M (fsst D) unit :=
  bs ← read_at (LOC_INODE (i32 offset)); modify (with_inode bs).
Definition saveINode (offset : Z) : M (fsst D) unit :=
  s ← get; write_at (LOC_INODE (i32 offset)) (fs_inode s).
Definition readData (offset : Z) : M (fsst D) unit :=
  bs ← read_at (LOC_DATA (i32 offset)); modify (with_buffer bs).
Definition saveData (offset : Z) : M (fsst D) unit :=
  s ← get; write_at (LOC_DATA (i32 offset)) (fs_buffer s).

(** ** Allocation *)

(** The loop of [INodeAlloc] and [dataAlloc]: [n] candidates from [i] on. *)
Fixpoint alloc_loop (loc : Z -> Z) (n : nat) (i : Z) : M (fsst D) Z :=
  match n with
  | O => mret (-1)
  | S n =>
      let sec := loc i in
      let secN := Z.shiftr sec 3 in
      let secR := Z.shiftl 1 (Z.land sec 7) in
      s ← get;
      b ← from_option_or OutOfBounds (fs_bitmap s !! Z.to_nat secN);
      if Z.land (byte.unsigned b) secR =? 0 then
        modify (with_bitmap
          (<[Z.to_nat secN := byte.of_Z (Z.lor (byte.unsigned b) secR)]> (fs_bitmap s)));;
        saveBitmap;;
        mret i
      else alloc_loop loc n (i + 1)
  end.

Definition INodeAlloc : M (fsst D) Z :=
  readBitmap;; alloc_loop LOC_INODE (Z.to_nat SC_INODE) 0.
Definition dataAlloc : M (fsst D) Z :=
  readBitmap;; alloc_loop LOC_DATA (Z.to_nat SC_DATA) 0.

(** ** Streams *)

(** [fs[fd]] *)
Definition get_stream (fd : Z) : M (fsst D) FILE_STREAM :=
  s ← get;
  if fd <? 0 then fail OutOfBounds
  else from_option_or OutOfBounds (fs_fs s !! Z.to_nat fd).

Definition upd_stream (fd : Z) (g : FILE_STREAM -> FILE_STREAM) : M (fsst D) unit :=
  f ← get_stream fd;
  modify (fun s => with_fs (<[Z.to_nat fd := g f]> (fs_fs s)) s).

(** [inode.data_block_offsets[D]] *)
Definition block_offset (d : Z) : M (fsst D) Z :=
  s ← get;
  if (0 <=? d) && (d <? NR_BLOCKS) then mret (rd32 (fs_inode s) (Z.to_nat (4 * d)))
  else fail OutOfBounds.

Definition set_block_offset (d v : Z) : M (fsst D) unit :=
  if (0 <=? d) && (d <? NR_BLOCKS)
  then modify (fun s => with_inode (wr32 (Z.to_nat (4 * d)) (u32 v) (fs_inode s)) s)
  else fail OutOfBounds.

(** [strcpy(dst + off, src)] into an object of bytes. *)
Definition strcpy (off : nat) (src dst : list byte) : option (list byte) :=
  t ← cstring src; csplice (Z.of_nat off) t dst.

(** Walk the directory sectors for an entry that passes [test]. *)
Section scan.
Context (test : list byte -> nat -> option bool).

Fixpoint scan_entries (n e : nat) : M (fsst D) (option nat) :=
  match n with
  | O => mret None
  | S n =>
      s ← get;
      b ← from_option_or OutOfBounds (test (fs_dir s) e);
      if (b : bool) then mret (Some e) else scan_entries n (S e)
  end.

Fixpoint scan_dirs (n : nat) (d : Z) : M (fsst D) (option (Z * nat)) :=
  match n with
  | O => mret None
  | S n =>
      readDir d;;
      r ← scan_entries NR_ENTRIES 0;
      match r with
      | Some e => mret (Some (d, e))
      | None => scan_dirs n (d + 1)
      end
  end.
End scan.

Definition name_is (filename : list byte) (dir : list byte) (e : nat) : option bool :=
  (fun z => bool_decide (z = 0)) <$> strcmp (drop (ent_filename e) dir) filename.
Definition is_free (dir : list byte) (e : nat) : option bool :=
  Some (bool_decide (rd32 dir (ent_inode_offset e) = u32 (-1))).

(** The loop at the end of [fs_open_kr] and [fs_create_kr]: take the first
    unused stream for the entry in [dir]. *)
Fixpoint open_stream (n : nat) (i d : Z) (e : nat) : M (fsst D) Z :=
  match n with
  | O => mret (-1)
  | S n =>
      f ← get_stream i;
      if Byte.eqb (f_used f) NUL then
        upd_stream i (set_used (byte.of_Z 1));;
        s ← get;
        upd_stream i (set_file_size (rd32 (fs_dir s) (ent_file_size e)));;
        f ← get_stream i;
        nm ← from_option_or OutOfBounds (strcpy 0 (drop (ent_filename e) (fs_dir s)) (f_name f));
        upd_stream i (set_name nm);;
        upd_stream i (set_inode_offset (rd32 (fs_dir s) (ent_inode_offset e)));;
        upd_stream i (set_offset 0);;
        upd_stream i (set_dir_offset (u32 d));;
        upd_stream i (set_entry_offset (Z.of_nat e));;
        mret i
      else open_stream n (i + 1) d e
  end.

Definition fs_open_kr (filename : list byte) : M (fsst D) Z :=
  r ← scan_dirs (name_is filename) SC_DIR 0;
  match r with
  | None => mret (-1)
  | Some (dir_offset, entry_offset) => open_stream NR_FILE_STREAM 0 dir_offset entry_offset
  end.

Definition fs_create_kr (name : list byte) : M (fsst D) Z :=
  r ← scan_dirs is_free SC_DIR 0;
  match r with
  | None => mret (-1)
  | Some (dir_offset, e) =>
      index_inode ← INodeAlloc;
      modify (fun s => with_dir (wr32 (ent_inode_offset e) (u32 index_inode) (fs_dir s)) s);;
      s ← get;
      dir ← from_option_or OutOfBounds (strcpy (ent_filename e) name (fs_dir s));
      modify (with_dir dir);;
      modify (fun s => with_dir (wr32 (ent_file_size e) 0 (fs_dir s)) s);;
      saveDir dir_offset;;
      readINode index_inode;;
      modify (with_inode (memset2 512 0xFF));;
      saveINode index_inode;;
      open_stream NR_FILE_STREAM 0 dir_offset e
  end.

(** ** Reading and writing *)

(** [memcpy2(dst + doff, src + soff, len)], [len] as [rep movsb] takes it. *)
Definition memcpy2 (dst : list byte) (doff : Z) (src : list byte) (soff len : Z)
    : option (list byte) :=
  bs ← cslice soff (u32 len) src; csplice doff bs dst.

(** Some block index passes [NR_BLOCKS] within this many steps. *)
Definition blocks_fuel : nat := 129.

(** The [while] loop of [fs_read_base_kr]; the result is the buffer, the
    position in it and what is left to read. *)
Fixpoint read_loop (fuel : nat) (fd : Z) (buf : list byte) (offset len : Z)
    : M (fsst D) (list byte * Z * Z) :=
  match fuel with
  | O => fail OutOfFuel
  | S fuel =>
      if BLOCK_SIZE <=? len then
        f ← get_stream fd;
        b ← block_offset (Z.shiftr (f_offset f) 9);
        readData b;;
        s ← get;
        buf ← from_option_or OutOfBounds (memcpy2 buf offset (fs_buffer s) 0 BLOCK_SIZE);
        upd_stream fd (fun f => set_offset (u32 (f_offset f + BLOCK_SIZE)) f);;
        read_loop fuel fd buf (u32 (offset + BLOCK_SIZE)) (len - BLOCK_SIZE)
      else mret (buf, offset, len)
  end.

Definition fs_read_base_kr (fd : Z) (buf : list byte) (len : Z) : M (fsst D) (list byte) :=
  f ← get_stream fd;
  readINode (f_inode_offset f);;
  let d := Z.shiftr (f_offset f) 9 in
  let r := f_offset f mod BLOCK_SIZE in
  if BLOCK_SIZE <? u32 (r + len) then
    b ← block_offset d;
    readData b;;
    s ← get;
    buf ← from_option_or OutOfBounds (memcpy2 buf 0 (fs_buffer s) r (BLOCK_SIZE - r));
    upd_stream fd (fun f => set_offset (u32 (f_offset f + (BLOCK_SIZE - r))) f);;
    '(buf, offset, len) ← read_loop blocks_fuel fd buf (BLOCK_SIZE - r) (i32 (len - (BLOCK_SIZE - r)));
    f ← get_stream fd;
    b ← block_offset (Z.shiftr (f_offset f) 9);
    readData b;;
    s ← get;
    buf ← from_option_or OutOfBounds (memcpy2 buf offset (fs_buffer s) 0 len);
    upd_stream fd (fun f => set_offset (u32 (f_offset f + len)) f);;
    mret buf
  else
    b ← block_offset d;
    readData b;;
    s ← get;
    buf ← from_option_or OutOfBounds (memcpy2 buf 0 (fs_buffer s) r len);
    upd_stream fd (fun f => set_offset (u32 (f_offset f + len)) f);;
    mret buf.

(** The value returned and the buffer after it. *)
Definition fs_read_kr (fd : Z) (buf : list byte) (len : Z) : M (fsst D) (Z * list byte) :=
  f ← get_stream fd;
  let len := if f_file_size f <=? u32 (f_offset f + len)
             then i32 (f_file_size f - f_offset f) else len in
  if decide (len = 0) then mret (-1, buf)
  else buf ← fs_read_base_kr fd buf len; mret (len, buf).

Fixpoint write_loop (fuel : nat) (fd : Z) (buf : list byte) (offset len : Z)
    : M (fsst D) (Z * Z) :=
  match fuel with
  | O => fail OutOfFuel
  | S fuel =>
      if BLOCK_SIZE <=? len then
        f ← get_stream fd;
        s ← get;
        b' ← from_option_or OutOfBounds (memcpy2 (fs_buffer s) 0 buf offset BLOCK_SIZE);
        modify (with_buffer b');;
        b ← block_offset (Z.shiftr (f_offset f) 9);
        saveData b;;
        upd_stream fd (fun f => set_offset (u32 (f_offset f + BLOCK_SIZE)) f);;
        write_loop fuel fd buf (u32 (offset + BLOCK_SIZE)) (len - BLOCK_SIZE)
      else mret (offset, len)
  end.

(** Read block [b], overwrite [len] bytes at [r] with those at [buf+offset]
    and write it back. *)
Definition patch_block (b r : Z) (buf : list byte) (offset len : Z) : M (fsst D) unit :=
  readData b;;
  s ← get;
  b' ← from_option_or OutOfBounds (memcpy2 (fs_buffer s) r buf offset len);
  modify (with_buffer b');;
  saveData b.

Definition fs_write_base_kr (fd : Z) (buf : list byte) (len : Z) : M (fsst D) unit :=
  f ← get_stream fd;
  readINode (f_inode_offset f);;
  let d := Z.shiftr (f_offset f) 9 in
  let r := f_offset f mod BLOCK_SIZE in
  if BLOCK_SIZE <? u32 (r + len) then
    b ← block_offset d;
    patch_block b r buf 0 (BLOCK_SIZE - r);;
    upd_stream fd (fun f => set_offset (u32 (f_offset f + (BLOCK_SIZE - r))) f);;
    '(offset, len) ← write_loop blocks_fuel fd buf (BLOCK_SIZE - r) (i32 (len - (BLOCK_SIZE - r)));
    f ← get_stream fd;
    b ← block_offset (Z.shiftr (f_offset f) 9);
    patch_block b 0 buf offset len;;
    upd_stream fd (fun f => set_offset (u32 (f_offset f + len)) f)
  else
    b ← block_offset d;
    patch_block b r buf 0 len;;
    upd_stream fd (fun f => set_offset (u32 (f_offset f + len)) f).

(** [while(D1<=D2){ ... D1++; }] of [fs_write_kr]. *)
Fixpoint grow_loop (fuel : nat) (d1 d2 : Z) : M (fsst D) unit :=
  match fuel with
  | O => fail OutOfFuel
  | S fuel =>
      if d1 <=? d2 then
        b ← dataAlloc;
        set_block_offset d1 b;;
        grow_loop fuel (d1 + 1) d2
      else mret tt
  end.

(** The three steps of [fs_write_kr] before the write itself: block 0 for
    a file of size 0, the blocks a longer file needs, the new size in the
    directory. *)
Definition write_first (fd len : Z) : M (fsst D) unit :=
  f ← get_stream fd;
  if decide (f_file_size f = 0) then
    readINode (f_inode_offset f);;
    b ← dataAlloc;
    set_block_offset 0 b;;
    saveINode (f_inode_offset f);;
    upd_stream fd (set_file_size (if 512 <? len then 512 else u32 len))
  else mret tt.

Definition write_extend (fd len : Z) : M (fsst D) unit :=
  f ← get_stream fd;
  if f_file_size f <? u32 (f_offset f + len) then
    readINode (f_inode_offset f);;
    grow_loop blocks_fuel (Z.shiftr (f_offset f) 9 + 1) (Z.shiftr (u32 (f_offset f + len)) 9);;
    saveINode (f_inode_offset f);;
    upd_stream fd (set_file_size (u32 (f_offset f + len)))
  else mret tt.

Definition write_dirent (fd : Z) : M (fsst D) unit :=
  f ← get_stream fd;
  readDir (i32 (f_dir_offset f));;
  (if Z.to_nat (f_entry_offset f) <? NR_ENTRIES
   then modify (fun s =>
     with_dir (wr32 (ent_file_size (Z.to_nat (f_entry_offset f))) (f_file_size f) (fs_dir s)) s)
   else fail OutOfBounds)%nat;;
  saveDir (i32 (f_dir_offset f)).

Definition fs_write_kr (fd : Z) (buf : list byte) (len : Z) : M (fsst D) Z :=
  write_first fd len;;
  write_extend fd len;;
  write_dirent fd;;
  fs_write_base_kr fd buf len;;
  mret len.

(** ** Positioning and closing *)

Definition fs_lseek_kr (fd index : Z) : M (fsst D) unit := upd_stream fd (set_offset (u32 index)).

Definition fs_size_kr (fd : Z) : M (fsst D) Z := f ← get_stream fd; mret (f_file_size f).

Definition fs_close_kr (fd : Z) : M (fsst D) Z :=
  f ← get_stream fd;
  if Byte.eqb (f_used f) NUL then mret 1
  else upd_stream fd (set_used NUL);; mret 0.

Definition fs_open_md (pathname : list byte) (flags : Z) : M (fsst D) Z :=
  fd ← fs_open_kr pathname;
  fd ← (if bool_decide (fd = -1) && (1 <=? flags) then fs_create_kr pathname else mret fd);
  (if decide (flags = 2) then upd_stream fd (set_file_size 0) else mret tt);;
  mret fd.

Definition fs_read_md := fs_read_kr.
Definition fs_write_md := fs_write_kr.
Definition fs_close_md := fs_close_kr.

Definition fs_lseek_md (fd offset whence : Z) : M (fsst D) Z :=
  f ← get_stream fd;
  let index :=
    if decide (whence = 0) then offset
    else if decide (whence = 1) then i32 (f_offset f + offset)
    else if decide (whence = 2) then i32 (f_file_size f + offset)
    else 0 in
  fs_lseek_kr fd index;;
  mret index.
End fs.
