(* ===== verification/FsRead.v ===== *)
(** * Reading files

    The contents of a file as a function of the disk, and what [fs_read_kr]
    returns in terms of it. *)

From S2P Require Import Prelude Bytes Disk FileSys.

(** ** Splicing *)

Lemma splice_nil off l : splice off [] l = l.
Proof. unfold splice. simpl. rewrite Nat.add_0_r. apply take_drop. Qed.

Lemma splice_app off a b l :
  (off + length a + length b <= length l)%nat ->
  splice off (a ++ b) l = splice (off + length a) b (splice off a l).
Proof.
  intros H. unfold splice.
  rewrite take_app_ge by (rewrite length_take; lia). rewrite length_take, Nat.min_l by lia.
  replace (off + length a - off)%nat with (length a) by lia. rewrite take_app_length.
  rewrite drop_app_ge by (rewrite length_take; lia). rewrite length_take, Nat.min_l by lia.
  replace (off + length a + length b - off)%nat with (length a + length b)%nat by lia.
  rewrite drop_app_add, drop_drop, length_app, <- !app_assoc. do 3 f_equal.
  f_equal. lia.
Qed.

(** ** The contents of a file

    [ino] is the sector of the inode; block [k] of the file is the disk
    sector its word [k] names. *)

Definition block_of (ino : list byte) (k : Z) : Z := rd32 ino (Z.to_nat (4 * k)).
Definition block_sector (ino : list byte) (k : Z) : Z := LOC_DATA (i32 (block_of ino k)).

Section content.
Context {D : Type} `{!AtaDevice D}.
Implicit Types (d : D) (s : fsst D).

Definition file_byte d (ino : list byte) (p : Z) : byte :=
  default NUL (readsect (block_sector ino (p / 512)) d !! Z.to_nat (p mod 512)).

(** The [n] bytes of the file from [off] on. *)
Definition file_bytes d (ino : list byte) (off : Z) (n : nat) : list byte :=
  (fun i => file_byte d ino (off + Z.of_nat i)) <$> seq 0 n.

Lemma length_file_bytes d ino off n : length (file_bytes d ino off n) = n.
Proof. unfold file_bytes. by rewrite length_fmap, length_seq. Qed.

Lemma file_bytes_lookup d ino off n i :
  (i < n)%nat -> file_bytes d ino off n !! i = Some (file_byte d ino (off + Z.of_nat i)).
Proof. intros H. unfold file_bytes. by rewrite list_lookup_fmap, lookup_seq_lt. Qed.

Lemma file_bytes_app d ino off n m :
  file_bytes d ino off (n + m) = file_bytes d ino off n ++ file_bytes d ino (off + Z.of_nat n) m.
Proof.
  unfold file_bytes. rewrite seq_app, fmap_app. f_equal. simpl.
  replace (seq n m) with (Nat.add n <$> seq 0 m) by (rewrite fmap_add_seq; f_equal; lia).
  rewrite <- list_fmap_compose.
  apply list_fmap_ext. intros i x _. simpl. f_equal. lia.
Qed.

(** Inside one block the contents are a slice of its sector. *)
Lemma file_bytes_block d ino off n :
  0 <= off -> off mod 512 + Z.of_nat n <= 512 ->
  file_bytes d ino off n = slice (Z.to_nat (off mod 512)) n (readsect (block_sector ino (off / 512)) d).
Proof.
  intros Ho Hn. pose proof (Z.mod_pos_bound off 512 ltac:(lia)) as Hm. apply list_eq. intros i.
  unfold slice. destruct (decide (i < n)%nat) as [Hi|Hi].
  - rewrite file_bytes_lookup, lookup_take_lt, lookup_drop by done. unfold file_byte.
    assert (E : off + Z.of_nat i = off / 512 * 512 + (off mod 512 + Z.of_nat i)).
    { pose proof (Z.div_mod off 512 ltac:(lia)). lia. }
    rewrite E, Z.div_add_l, (Z.div_small (_ + _) 512), Z.add_0_r by lia.
    rewrite (Z.add_comm (off / 512 * 512)), Z_mod_plus_full, Z.mod_small by lia.
    replace (Z.to_nat (off mod 512) + i)%nat with (Z.to_nat (off mod 512 + Z.of_nat i)) by lia.
    destruct (lookup_lt_is_Some_2 (readsect (block_sector ino (off / 512)) d)
      (Z.to_nat (off mod 512 + Z.of_nat i))) as [b ->]; [|done].
    rewrite length_readsect. pose proof SECTSIZE_Z. lia.
  - rewrite lookup_take_ge by lia. apply lookup_ge_None_2. rewrite length_file_bytes. lia.
Qed.

(** ** Rules for the accesses *)

Lemma wp_get_stream fd f s (Q : FILE_STREAM -> fsst D -> Prop) J :
  0 <= fd -> fs_fs s !! Z.to_nat fd = Some f -> Q f s -> wp (get_stream fd) Q J s.
Proof.
  intros H0 Hf HQ. unfold get_stream. apply wp_bind, wp_get. cbn beta.
  rewrite (proj2 (Z.ltb_ge fd 0)) by done. by rewrite Hf.
Qed.

Lemma wp_upd_stream fd f g s (Q : unit -> fsst D -> Prop) J :
  0 <= fd -> fs_fs s !! Z.to_nat fd = Some f ->
  Q tt (with_fs (<[Z.to_nat fd := g f]> (fs_fs s)) s) -> wp (upd_stream fd g) Q J s.
Proof. intros H0 Hf HQ. unfold upd_stream. apply wp_bind. by eapply wp_get_stream. Qed.

Lemma wp_block_offset k s (Q : Z -> fsst D -> Prop) J :
  0 <= k < 128 -> Q (block_of (fs_inode s) k) s -> wp (block_offset k) Q J s.
Proof.
  intros Hk HQ. unfold block_offset. apply wp_bind, wp_get. cbn beta.
  by rewrite (proj2 (Z.leb_le _ _)), (proj2 (Z.ltb_lt _ _)) by (unfold NR_BLOCKS; lia).
Qed.

Lemma wp_readData b s (Q : unit -> fsst D -> Prop) J :
  Q tt (with_buffer (readsect (LOC_DATA (i32 b)) (fs_disk s)) s) -> wp (readData b) Q J s.
Proof. done. Qed.

Lemma wp_readINode n s (Q : unit -> fsst D -> Prop) J :
  Q tt (with_inode (readsect (LOC_INODE (i32 n)) (fs_disk s)) s) -> wp (readINode n) Q J s.
Proof. done. Qed.

Lemma memcpy2_ok dst doff src soff len :
  0 <= len < 2 ^ 32 -> 0 <= soff -> 0 <= doff ->
  soff + len <= Z.of_nat (length src) -> doff + len <= Z.of_nat (length dst) ->
  memcpy2 dst doff src soff len =
    Some (splice (Z.to_nat doff) (slice (Z.to_nat soff) (Z.to_nat len) src) dst).
Proof.
  intros. unfold memcpy2. rewrite u32_id by done. rewrite cslice_Some by lia. simpl.
  apply csplice_Some; [done|]. rewrite length_slice; lia.
Qed.
End content.

(** Step over a monadic bind whose head is one of the accesses. *)
Ltac fs_step :=
  lazymatch goal with
  | |- wp (mbind _ (get_stream _)) _ _ _ => eapply wp_bind, wp_get_stream; [lia|eassumption|]
  | |- wp (mbind _ (block_offset _)) _ _ _ => eapply wp_bind, wp_block_offset; [lia|]
  | |- wp (mbind _ (readData _)) _ _ _ => apply wp_bind, wp_readData
  | |- wp (mbind _ (readINode _)) _ _ _ => apply wp_bind, wp_readINode
  | |- wp (mbind _ get) _ _ _ => apply wp_bind, wp_get
  | |- wp (mbind _ (modify _)) _ _ _ => apply wp_bind, wp_modify
  | |- wp (mret _) _ _ _ => apply wp_ret
  end; cbn beta.

(** ** What a read does *)

Section read.
Context {D : Type} `{!AtaDevice D}.
Implicit Types (d : D) (s : fsst D).

(** The stream moves and the block buffer changes; nothing else does. *)
Definition moved (fd : Z) (f : FILE_STREAM) (n : Z) s s' : Prop :=
  exists b, s' = with_fs (<[Z.to_nat fd := set_offset (f_offset f + n) f]> (fs_fs s)) (with_buffer b s).

Lemma read_chunk d ino buf off pos n :
  0 <= pos -> off mod 512 + Z.of_nat n <= 512 -> 0 <= off ->
  pos + Z.of_nat n <= Z.of_nat (length buf) ->
  memcpy2 buf pos (readsect (block_sector ino (off / 512)) d) (off mod 512) (Z.of_nat n) =
    Some (splice (Z.to_nat pos) (file_bytes d ino off n) buf).
Proof.
  intros Hp Hn Ho Hb. pose proof (Z.mod_pos_bound off 512 ltac:(lia)).
  rewrite memcpy2_ok; [| lia | lia | lia | | lia].
  2:{ rewrite length_readsect, SECTSIZE_Z. lia. }
  by rewrite Nat2Z.id, file_bytes_block.
Qed.

Lemma wp_read_loop fuel fd f s buf off len (Q : _ -> fsst D -> Prop) J :
  0 <= fd -> fs_fs s !! Z.to_nat fd = Some f -> f_offset f mod 512 = 0 ->
  0 <= len -> len < 512 * Z.of_nat fuel -> 0 <= f_offset f -> f_offset f + len < 65536 ->
  0 <= off -> off + len <= Z.of_nat (length buf) -> Z.of_nat (length buf) < 2 ^ 31 ->
  (forall s' n, moved fd f n s s' -> n = len / 512 * 512 ->
    Q (splice (Z.to_nat off) (file_bytes (fs_disk s) (fs_inode s) (f_offset f) (Z.to_nat n)) buf,
       off + n, len - n) s') ->
  wp (read_loop fuel fd buf off len) Q J s.
Proof.
  revert f s buf off len. induction fuel as [|fuel IH];
    intros f s buf off len Hfd Hf Hmod Hlen Hfuel Hoff Hmax Hpos Hbuf Hb HQ; [lia|].
  simpl. unfold BLOCK_SIZE. destruct (Z.leb_spec 512 len) as [Hle|Hlt].
  - fs_step. rewrite Z.shiftr_div_pow2 by lia. change (2 ^ 9) with 512.
    assert (0 <= f_offset f / 512 < 128).
    { split; [apply Z.div_pos; lia|apply Z.div_lt_upper_bound; lia]. }
    do 3 fs_step. apply wp_bind. eapply wp_from_option.
    { rewrite <- Hmod. change 512 with (Z.of_nat 512).
      apply (read_chunk (fs_disk s) (fs_inode s)); lia. }
    apply wp_bind. eapply wp_upd_stream; [done|exact Hf|].
    rewrite !u32_id by (unfold is_u32; lia).
    eapply IH; [done| | | | | | | | | |].
    + simpl. rewrite list_lookup_insert_eq by (by eapply lookup_lt_Some). done.
    + simpl. rewrite <- (Z.mul_1_l 512), Z_mod_plus_full at 1. done.
    + lia.
    + lia.
    + simpl. lia.
    + simpl. lia.
    + lia.
    + rewrite length_splice by (rewrite length_file_bytes; lia). lia.
    + rewrite length_splice by (rewrite length_file_bytes; lia). lia.
    + intros s' n [b' ->] Hn. simpl fs_disk. simpl fs_inode. simpl f_offset.
      assert (Hd : len / 512 = (len - 512) / 512 + 1).
      { rewrite <- (Z.div_add (len - 512) 1 512) by lia. f_equal. lia. }
      pose proof (Z.div_pos (len - 512) 512 ltac:(lia) ltac:(lia)).
      pose proof (Z.mul_div_le (len - 512) 512 ltac:(lia)).
      specialize (HQ (with_fs (<[Z.to_nat fd := set_offset (f_offset f + (512 + n)) f]> (fs_fs s))
        (with_buffer b' s)) (512 + n)).
      replace (Z.to_nat (512 + n)) with (512 + Z.to_nat n)%nat in HQ by lia.
      rewrite file_bytes_app, splice_app in HQ by (rewrite !length_file_bytes; lia).
      rewrite length_file_bytes in HQ. simpl with_fs. rewrite list_insert_insert_eq.
      replace (Z.to_nat (off + 512)) with (Z.to_nat off + 512)%nat by lia.
      replace (off + 512 + n) with (off + (512 + n)) by lia.
      replace (len - 512 - n) with (len - (512 + n)) by lia.
      change (Z.of_nat 512) with 512 in HQ.
      replace (f_offset f + 512 + n) with (f_offset f + (512 + n)) by lia.
      apply HQ; [by eexists|lia].
  - apply wp_ret. specialize (HQ s 0). rewrite Z.add_0_r, Z.sub_0_r in HQ.
    simpl file_bytes in HQ. rewrite splice_nil in HQ. apply HQ.
    + exists (fs_buffer s). rewrite Z.add_0_r. unfold with_fs. simpl.
      rewrite list_insert_id; [by destruct s|]. rewrite Hf. by destruct f.
    + by rewrite Z.div_small by lia.
Qed.

(** The inode of an open file, as it is on the disk. *)
Definition inode_of d (f : FILE_STREAM) : list byte := readsect (LOC_INODE (i32 (f_inode_offset f))) d.

Lemma wp_fs_read_base fd f s buf len (Q : _ -> fsst D -> Prop) J :
  0 <= fd -> fs_fs s !! Z.to_nat fd = Some f ->
  0 <= f_offset f -> 0 <= len -> f_offset f + len < 65536 ->
  len <= Z.of_nat (length buf) -> Z.of_nat (length buf) < 2 ^ 31 ->
  (forall s', moved fd f len (with_inode (inode_of (fs_disk s) f) s) s' ->
    Q (splice 0 (file_bytes (fs_disk s) (inode_of (fs_disk s) f) (f_offset f) (Z.to_nat len)) buf) s') ->
  wp (fs_read_base_kr fd buf len) Q J s.
Proof.
  intros Hfd Hf Hoff Hlen Hmax Hbuf Hb HQ. unfold fs_read_base_kr, BLOCK_SIZE.
  do 2 fs_step. cbn zeta. fold (inode_of (fs_disk s) f). set (ino := inode_of (fs_disk s) f) in *.
  set (s1 := with_inode ino s). set (r := f_offset f mod 512).
  pose proof (Z.mod_pos_bound (f_offset f) 512 ltac:(lia)) as Hr. fold r in Hr.
  assert (Hk : 0 <= f_offset f / 512 < 128).
  { split; [apply Z.div_pos; lia|apply Z.div_lt_upper_bound; lia]. }
  assert (Hf1 : fs_fs s1 !! Z.to_nat fd = Some f) by done.
  rewrite u32_id, Z.shiftr_div_pow2 by (unfold is_u32; lia). change (2 ^ 9) with 512.
  destruct (Z.ltb_spec 512 (r + len)) as [Hlt|Hge].
  - do 3 fs_step. apply wp_bind. eapply wp_from_option.
    { replace (512 - r) with (Z.of_nat (Z.to_nat (512 - r))) by lia.
      apply (read_chunk (fs_disk s) ino); fold r; lia. }
    apply wp_bind. eapply wp_upd_stream; [done|exact Hf1|]. cbn beta.
    assert (Hi : is_i32 (len - (512 - r))) by (unfold is_i32; lia).
    rewrite u32_id, i32_id by (try done; unfold is_u32; lia).
    set (n0 := 512 - r) in *. set (buf1 := splice _ _ buf).
    assert (Hb1 : length buf1 = length buf).
    { apply length_splice. rewrite length_file_bytes. lia. }
    apply wp_bind. eapply wp_read_loop.
    + done.
    + simpl. apply list_lookup_insert_eq. by eapply lookup_lt_Some.
    + simpl. replace (f_offset f + n0) with ((f_offset f / 512 + 1) * 512).
      { by apply Z.mod_mul. }
      unfold n0, r. pose proof (Z.div_mod (f_offset f) 512 ltac:(lia)). lia.
    + lia.
    + unfold blocks_fuel. lia.
    + simpl. lia.
    + simpl. lia.
    + lia.
    + rewrite Hb1. lia.
    + by rewrite Hb1.
    + simpl. intros s2 n [b2 ->] Hn. simpl. rewrite list_insert_insert_eq.
      set (len1 := len - n0) in *.
      pose proof (Z.mul_div_le len1 512 ltac:(lia)). pose proof (Z.div_pos len1 512 ltac:(lia) ltac:(lia)).
      pose proof (Z.mod_pos_bound len1 512 ltac:(lia)). pose proof (Z.div_mod len1 512 ltac:(lia)).
      eapply wp_bind, wp_get_stream; [done| |].
      { simpl. apply list_lookup_insert_eq. by eapply lookup_lt_Some. }
      simpl f_offset. rewrite Z.shiftr_div_pow2 by lia. change (2 ^ 9) with 512.
      set (o := f_offset f + n0 + n).
      assert (Ho : o = (f_offset f / 512 + 1 + len1 / 512) * 512).
      { unfold o, n0, r. pose proof (Z.div_mod (f_offset f) 512 ltac:(lia)). lia. }
      assert (Hod : 0 <= o / 512 < 128).
      { split; [apply Z.div_pos; lia|apply Z.div_lt_upper_bound; lia]. }
      eapply wp_bind, wp_block_offset; [done|].
      do 2 fs_step. apply wp_bind. eapply wp_from_option.
      { replace (len1 - n) with (Z.of_nat (Z.to_nat (len1 - n))) by lia.
        replace 0 with (o mod 512) by (rewrite Ho; by apply Z.mod_mul).
        apply (read_chunk (fs_disk s) ino); [lia| |lia|].
        - replace (o mod 512) with 0 by (rewrite Ho; symmetry; by apply Z.mod_mul). lia.
        - rewrite length_splice by (rewrite length_file_bytes, Hb1; lia). rewrite Hb1. lia. }
      apply wp_bind. eapply wp_upd_stream; [done| |].
      { simpl. apply list_lookup_insert_eq. by eapply lookup_lt_Some. }
      apply wp_ret. simpl. rewrite list_insert_insert_eq.
      rewrite u32_id by (unfold is_u32; lia).
      replace (o + (len1 - n)) with (f_offset f + len) by (unfold o, len1; lia).
      assert (Hn' : 0 <= n <= len1) by lia.
      assert (Hl1 : len1 = len - n0) by done. assert (Hn0 : 0 <= n0) by lia.
      assert (Eb : splice 0 (file_bytes (fs_disk s) ino (f_offset f) (Z.to_nat len)) buf =
        splice (Z.to_nat (n0 + n)) (file_bytes (fs_disk s) ino o (Z.to_nat (len1 - n)))
          (splice (Z.to_nat n0) (file_bytes (fs_disk s) ino (f_offset f + n0) (Z.to_nat n)) buf1)).
      { replace (Z.to_nat len) with (Z.to_nat n0 + Z.to_nat n + Z.to_nat (len1 - n))%nat
          by lia.
        rewrite !file_bytes_app.
        assert (Hall : (Z.to_nat n0 + Z.to_nat n + Z.to_nat (len1 - n) <= length buf)%nat)
          by (clear HQ; lia).
        rewrite splice_app by (rewrite ?length_app, !length_file_bytes; exact Hall).
        rewrite splice_app by (rewrite !length_file_bytes; lia).
        rewrite !length_app, !length_file_bytes, Nat2Z.inj_add, !Z2Nat.id, Z2Nat.inj_add by lia.
        rewrite Z.add_assoc. done. }
      rewrite <- Eb. apply HQ. by eexists.
  - do 3 fs_step. pose proof (read_chunk (fs_disk s) ino buf (f_offset f) 0 (Z.to_nat len)) as Hc.
    rewrite Z2Nat.id in Hc by lia. apply wp_bind. eapply wp_from_option; [apply Hc; fold r; lia|].
    apply wp_bind. eapply wp_upd_stream; [done|exact Hf1|]. apply wp_ret.
    rewrite u32_id by (unfold is_u32; lia). apply HQ. by eexists.
Qed.
End read.

(** How much [fs_read_kr] reads: what is asked for, up to the end of file. *)
Definition read_len (f : FILE_STREAM) (len : Z) : Z := Z.min len (f_file_size f - f_offset f).

Section read_kr.
Context {D : Type} `{!AtaDevice D}.
Implicit Types (s : fsst D).

Lemma wp_fs_read fd f s buf len (Q : _ -> fsst D -> Prop) J :
  0 <= fd -> fs_fs s !! Z.to_nat fd = Some f ->
  0 <= f_offset f <= f_file_size f -> f_file_size f < 65536 -> 0 <= len < 2 ^ 31 ->
  read_len f len <= Z.of_nat (length buf) -> Z.of_nat (length buf) < 2 ^ 31 ->
  (read_len f len = 0 -> Q (-1, buf) s) ->
  (forall s', 0 < read_len f len ->
    moved fd f (read_len f len) (with_inode (inode_of (fs_disk s) f) s) s' ->
    Q (read_len f len, splice 0 (file_bytes (fs_disk s) (inode_of (fs_disk s) f) (f_offset f)
         (Z.to_nat (read_len f len))) buf) s') ->
  wp (fs_read_kr fd buf len) Q J s.
Proof.
  intros Hfd Hf Hoff Hsz Hlen Hbuf Hb HQ0 HQ. unfold fs_read_kr. fs_step. cbn zeta.
  assert (E : (if f_file_size f <=? u32 (f_offset f + len) then i32 (f_file_size f - f_offset f) else len)
    = read_len f len).
  { unfold read_len. rewrite u32_id by (unfold is_u32; lia).
    rewrite i32_id by (unfold is_i32; lia).
    destruct (Z.leb_spec (f_file_size f) (f_offset f + len)); lia. }
  rewrite E. case_decide as H0; [apply wp_ret; by apply HQ0|].
  assert (0 < read_len f len) by (unfold read_len in *; lia).
  apply wp_bind. apply (wp_fs_read_base fd f); [done|done|lia|lia|unfold read_len; lia|done|done|].
  intros s' Hs'. apply wp_ret. by apply HQ.
Qed.
End read_kr.
