(* ===== verification/FsWrite.v ===== *)
(** * Writing files in place

    What [fs_write_base_kr] does to the disk: the bytes of the file change
    where the code says and no other sector of the disk does. *)

From S2P Require Import Prelude Bytes Disk FileSys FsRead.

Lemma slice_lookup off n l i : (i < n)%nat -> slice off n l !! i = l !! (off + i)%nat.
Proof. intros. unfold slice. by rewrite lookup_take_lt, lookup_drop. Qed.

Lemma splice_lookup off bs l i :
  (off + length bs <= length l)%nat ->
  splice off bs l !! i =
    if decide (off <= i < off + length bs)%nat then bs !! (i - off)%nat else l !! i.
Proof.
  intros Hl. unfold splice. case_decide as H.
  - rewrite lookup_app_r by (rewrite length_take; lia). rewrite length_take, Nat.min_l by lia.
    by rewrite lookup_app_l by lia.
  - destruct (decide (i < off)%nat).
    + rewrite lookup_app_l by (rewrite length_take; lia). by rewrite lookup_take_lt.
    + rewrite lookup_app_r by (rewrite length_take; lia). rewrite length_take, Nat.min_l by lia.
      rewrite lookup_app_r by lia. rewrite lookup_drop. f_equal. lia.
Qed.

Section write.
Context {D : Type} `{!AtaDevice D}.
Implicit Types (d : D) (s : fsst D) (ino bs : list byte).

(** The blocks [0..kmax] of the file are distinct sectors of the drive. *)
Record blocks_ok (ino : list byte) (kmax : Z) : Prop := {
  blk_valid : forall k, 0 <= k <= kmax -> valid_sector (block_sector ino k);
  blk_inj : forall j k, 0 <= j <= kmax -> 0 <= k <= kmax ->
    block_sector ino j = block_sector ino k -> j = k }.

(** [d'] is [d] with the bytes of the file from [off] on replaced by [bs]. *)
Record Patched ino kmax d d' (off : Z) bs : Prop := {
  pat_in : forall p, 0 <= p < 512 * (kmax + 1) -> file_byte d' ino p =
    if decide (off <= p < off + Z.of_nat (length bs))
    then default NUL (bs !! Z.to_nat (p - off)) else file_byte d ino p;
  pat_out : forall n, valid_sector n -> (forall k, 0 <= k <= kmax -> n <> block_sector ino k) ->
    readsect n d' = readsect n d }.

Lemma Patched_nil ino kmax d off : Patched ino kmax d d off [].
Proof. split; [|done]. intros p Hp. rewrite decide_False by (simpl; lia). done. Qed.

Lemma Patched_app ino kmax d d1 d2 off a b :
  Patched ino kmax d d1 off a -> Patched ino kmax d1 d2 (off + Z.of_nat (length a)) b ->
  Patched ino kmax d d2 off (a ++ b).
Proof.
  intros [H1 H1'] [H2 H2']. split.
  - intros p Hp. rewrite H2, H1, length_app by done. clear H1 H2 H1' H2'.
    repeat case_decide; try lia; try done.
    + rewrite lookup_app_r by lia. do 2 f_equal. lia.
    + by rewrite lookup_app_l by lia.
  - intros n Hn Hk. by rewrite H2', H1'.
Qed.

(** Overwriting bytes of one block. *)
Lemma Patched_block ino kmax d k r bs :
  blocks_ok ino kmax -> 0 <= k <= kmax -> 0 <= r -> r + Z.of_nat (length bs) <= 512 ->
  Patched ino kmax d
    (writesect (splice (Z.to_nat r) bs (readsect (block_sector ino k) d)) (block_sector ino k) d)
    (k * 512 + r) bs.
Proof.
  intros [Hv Hi] Hk Hr Hl. pose proof SECTSIZE_Z as HS.
  assert (Hlen : (Z.to_nat r + length bs <= length (readsect (block_sector ino k) d))%nat)
    by (rewrite length_readsect; lia).
  split.
  - intros p Hp. unfold file_byte.
    pose proof (Z.mod_pos_bound p 512 ltac:(lia)). pose proof (Z.div_mod p 512 ltac:(lia)).
    assert (Hpk : 0 <= p / 512 <= kmax).
    { split; [apply Z.div_pos; lia|]. enough (p / 512 < kmax + 1) by lia.
      apply Z.div_lt_upper_bound; lia. }
    destruct (decide (p / 512 = k)) as [E|E].
    + rewrite E, readsect_writesect_eq; [|by apply Hv|rewrite length_splice, length_readsect by done; done].
      rewrite splice_lookup by done. repeat case_decide; try lia; [|done].
      do 2 f_equal. lia.
    + rewrite readsect_writesect_ne; [|by apply Hv|by apply Hv|].
      2:{ intros Heq. apply E. symmetry. by apply Hi. }
      rewrite decide_False; [done|]. intros Hin. apply E.
      symmetry. apply (Z.div_unique p 512 k (p - k * 512)); lia.
  - intros n Hn Hne. apply readsect_writesect_ne; [by apply Hv|done|].
    intros Heq. by apply (Hne k).
Qed.

Lemma wp_patch_block k r buf pos n ino kmax s (Q : unit -> fsst D -> Prop) J :
  fs_inode s = ino -> blocks_ok ino kmax -> 0 <= k <= kmax ->
  0 <= r -> r + Z.of_nat n <= 512 -> 0 <= pos -> pos + Z.of_nat n <= Z.of_nat (length buf) ->
  (forall d' b, Patched ino kmax (fs_disk s) d' (k * 512 + r) (slice (Z.to_nat pos) n buf) ->
    length b = SECTSIZE -> Q tt (with_disk d' (with_buffer b s))) ->
  wp (patch_block (block_of ino k) r buf pos (Z.of_nat n)) Q J s.
Proof.
  intros Hino Hok Hk Hr Hn Hp Hb HQ. unfold patch_block. do 2 fs_step.
  apply wp_bind. eapply wp_from_option.
  { apply memcpy2_ok; [lia|lia|lia|lia|]. simpl. rewrite length_readsect, SECTSIZE_Z. lia. }
  fs_step. simpl. rewrite Nat2Z.id.
  apply (HQ (writesect (splice (Z.to_nat r) (slice (Z.to_nat pos) n buf)
    (readsect (block_sector ino k) (fs_disk s))) (block_sector ino k) (fs_disk s))).
  { apply Patched_block; [done|done|done|]. rewrite length_slice; lia. }
  pose proof SECTSIZE_Z. rewrite length_splice, length_readsect; [done|].
  rewrite length_readsect, length_slice; lia.
Qed.

(** The state after the stream [fd] has written: disk and block buffer. *)
Definition wrote (fd : Z) (f : FILE_STREAM) (n : Z) (ino : list byte) (kmax : Z) (bs : list byte)
    s s' : Prop :=
  exists d' b, Patched ino kmax (fs_disk s) d' (f_offset f) bs /\
    s' = with_disk d' (with_buffer b
      (with_fs (<[Z.to_nat fd := set_offset (f_offset f + n) f]> (fs_fs s)) s)).

Lemma wp_write_loop fuel fd f ino kmax s buf pos len (Q : _ -> fsst D -> Prop) J :
  0 <= fd -> fs_fs s !! Z.to_nat fd = Some f -> f_offset f mod 512 = 0 ->
  fs_inode s = ino -> blocks_ok ino kmax -> kmax < 128 ->
  0 <= len -> len < 512 * Z.of_nat fuel -> 0 <= f_offset f -> f_offset f + len <= 512 * (kmax + 1) ->
  0 <= pos -> pos + len <= Z.of_nat (length buf) -> Z.of_nat (length buf) < 2 ^ 31 ->
  length (fs_buffer s) = SECTSIZE ->
  (forall s' n, wrote fd f n ino kmax (slice (Z.to_nat pos) (Z.to_nat n) buf) s s' ->
    n = len / 512 * 512 -> length (fs_buffer s') = SECTSIZE -> Q (pos + n, len - n) s') ->
  wp (write_loop fuel fd buf pos len) Q J s.
Proof.
  revert f s pos len. induction fuel as [|fuel IH];
    intros f s pos len Hfd Hf Hmod Hino Hok Hkm Hlen Hfuel Hoff Hmax Hpos Hbuf Hb Hbl HQ; [lia|].
  pose proof SECTSIZE_Z as HSZ.
  simpl. unfold BLOCK_SIZE. destruct (Z.leb_spec 512 len) as [Hle|Hlt].
  - do 2 fs_step. rewrite Z.shiftr_div_pow2 by lia. change (2 ^ 9) with 512.
    assert (Hk : 0 <= f_offset f / 512 <= kmax).
    { split; [apply Z.div_pos; lia|]. enough (f_offset f / 512 < kmax + 1) by lia.
      apply Z.div_lt_upper_bound; lia. }
    apply wp_bind. eapply wp_from_option; [apply memcpy2_ok; lia|]. change (Z.to_nat 512) with SECTSIZE.
    set (bs := slice (Z.to_nat pos) SECTSIZE buf).
    assert (Hbs : length bs = SECTSIZE) by (apply length_slice; lia).
    assert (E0 : splice (Z.to_nat 0) bs (fs_buffer s) = bs).
    { unfold splice. change (Z.to_nat 0) with 0%nat. rewrite take_0, drop_ge by lia.
      by rewrite app_nil_r. }
    rewrite E0. fs_step. eapply wp_bind, wp_block_offset; [lia|]. simpl.
    apply wp_bind. unfold saveData. fs_step. apply wp_modify. simpl. rewrite Hino.
    set (d1 := writesect bs _ (fs_disk s)).
    assert (HP : Patched ino kmax (fs_disk s) d1 (f_offset f) bs).
    { pose proof (Patched_block ino kmax (fs_disk s) (f_offset f / 512) 0 bs Hok Hk) as HP.
      assert (E1 : splice (Z.to_nat 0) bs (readsect (block_sector ino (f_offset f / 512)) (fs_disk s)) = bs).
      { unfold splice. change (Z.to_nat 0) with 0%nat.
        rewrite take_0, drop_ge by (rewrite length_readsect; lia). by rewrite app_nil_r. }
      rewrite E1 in HP. replace (f_offset f) with (f_offset f / 512 * 512 + 0) at 1.
      - apply HP; lia.
      - pose proof (Z.div_mod (f_offset f) 512 ltac:(lia)). lia. }
    apply wp_bind. eapply wp_upd_stream; [done|exact Hf|].
    rewrite !u32_id by (unfold is_u32; lia).
    eapply IH; [done| |..].
    + simpl. rewrite list_lookup_insert_eq by (by eapply lookup_lt_Some). done.
    + simpl. rewrite <- (Z.mul_1_l 512), Z_mod_plus_full at 1. done.
    + done.
    + done.
    + done.
    + lia.
    + lia.
    + simpl. lia.
    + simpl. lia.
    + lia.
    + lia.
    + done.
    + done.
    + intros s' n (d' & b' & HP' & ->) Hn Hb'. simpl in HP', Hb'.
      assert (Hd : len / 512 = (len - 512) / 512 + 1).
      { rewrite <- (Z.div_add (len - 512) 1 512) by lia. f_equal. lia. }
      pose proof (Z.div_pos (len - 512) 512 ltac:(lia) ltac:(lia)).
      pose proof (Z.mul_div_le (len - 512) 512 ltac:(lia)).
      replace (pos + 512 + n) with (pos + (512 + n)) by lia.
      replace (len - 512 - n) with (len - (512 + n)) by lia.
      apply HQ; [|lia|done]. exists d', b'. split.
      * replace (slice (Z.to_nat pos) (Z.to_nat (512 + n)) buf)
          with (bs ++ slice (Z.to_nat (pos + 512)) (Z.to_nat n) buf).
        2:{ replace (Z.to_nat (pos + 512)) with (Z.to_nat pos + SECTSIZE)%nat by lia.
            unfold bs. rewrite slice_app_split. f_equal. lia. }
        eapply Patched_app; [exact HP|]. by rewrite Hbs, SECTSIZE_Z.
      * simpl. rewrite list_insert_insert_eq. unfold with_disk, with_buffer, with_fs. simpl.
        do 2 f_equal. unfold set_offset. simpl. f_equal. lia.
  - apply wp_ret. specialize (HQ s 0). rewrite Z.add_0_r, Z.sub_0_r in HQ. apply HQ.
    + exists (fs_disk s), (fs_buffer s). split; [apply Patched_nil|].
      rewrite Z.add_0_r. rewrite list_insert_id; [by destruct s|]. rewrite Hf. by destruct f.
    + by rewrite Z.div_small by lia.
    + done.
Qed.

Lemma div_le_kmax p kmax : 0 <= p < 512 * (kmax + 1) -> 0 <= p / 512 <= kmax.
Proof.
  intros H. split; [apply Z.div_pos; lia|]. enough (p / 512 < kmax + 1) by lia.
  apply Z.div_lt_upper_bound; lia.
Qed.

(** [fs_write_base_kr]: the bytes land in the file, the stream advances. *)
Lemma wp_fs_write_base fd f kmax s buf len (Q : unit -> fsst D -> Prop) J :
  let ino := inode_of (fs_disk s) f in
  0 <= fd -> fs_fs s !! Z.to_nat fd = Some f -> blocks_ok ino kmax -> kmax < 128 ->
  0 <= f_offset f -> 0 < len -> f_offset f + len <= 512 * (kmax + 1) ->
  f_offset f mod 512 + len <= 512 \/ f_offset f + len < 512 * (kmax + 1) ->
  len <= Z.of_nat (length buf) -> Z.of_nat (length buf) < 2 ^ 31 ->
  (forall s', wrote fd f len ino kmax (slice 0 (Z.to_nat len) buf) (with_inode ino s) s' -> Q tt s') ->
  wp (fs_write_base_kr fd buf len) Q J s.
Proof.
  intros ino Hfd Hf Hok Hkm Hoff Hlen Hmax Hmax' Hbuf Hb HQ. unfold fs_write_base_kr, BLOCK_SIZE.
  do 2 fs_step. cbn zeta. fold (inode_of (fs_disk s) f). fold ino.
  set (s1 := with_inode ino s) in *. set (r := f_offset f mod 512).
  pose proof (Z.mod_pos_bound (f_offset f) 512 ltac:(lia)) as Hr. fold r in Hr, Hmax'.
  pose proof (Z.div_mod (f_offset f) 512 ltac:(lia)) as Hdm. fold r in Hdm.
  assert (Hk : 0 <= f_offset f / 512 <= kmax) by (apply div_le_kmax; lia).
  assert (Hf1 : fs_fs s1 !! Z.to_nat fd = Some f) by done.
  assert (Hfl : (Z.to_nat fd < length (fs_fs s))%nat) by (by eapply lookup_lt_Some).
  rewrite u32_id, Z.shiftr_div_pow2 by (unfold is_u32; lia). change (2 ^ 9) with 512.
  destruct (Z.ltb_spec 512 (r + len)) as [Hlt|Hge].
  - set (n0 := 512 - r) in *. assert (Hn0 : 0 < n0 <= 512) by lia.
    eapply wp_bind, wp_block_offset; [lia|].
    apply wp_bind. rewrite <- (Z2Nat.id n0) at 1 by lia.
    eapply (wp_patch_block _ _ _ _ _ ino kmax); [done|done|done|lia|lia|lia|lia|].
    intros d1 b1 HP1 Hb1. apply wp_bind. eapply wp_upd_stream; [done|exact Hf1|].
    rewrite u32_id, i32_id by (unfold is_u32, is_i32; lia).
    set (len1 := len - n0) in *. assert (Hl1 : len1 = len - n0) by done.
    apply wp_bind. eapply (wp_write_loop _ _ (set_offset (f_offset f + n0) f) ino kmax).
    + done.
    + simpl. by apply list_lookup_insert_eq.
    + simpl. replace (f_offset f + n0) with ((f_offset f / 512 + 1) * 512) by lia.
      by apply Z.mod_mul.
    + done.
    + done.
    + done.
    + lia.
    + unfold blocks_fuel. lia.
    + simpl. lia.
    + simpl. lia.
    + lia.
    + lia.
    + done.
    + done.
    + simpl. intros s2 n (d2 & b2 & HP2 & ->) Hn _. simpl in HP2.
      pose proof (Z.mul_div_le len1 512 ltac:(lia)). pose proof (Z.div_pos len1 512 ltac:(lia) ltac:(lia)).
      pose proof (Z.mod_pos_bound len1 512 ltac:(lia)). pose proof (Z.div_mod len1 512 ltac:(lia)).
      assert (Hn' : 0 <= n <= len1) by lia.
      eapply wp_bind, wp_get_stream; [done|simpl; apply list_lookup_insert_eq; by rewrite length_insert|].
      simpl f_offset. rewrite Z.shiftr_div_pow2 by lia. change (2 ^ 9) with 512.
      set (o := f_offset f + n0 + n).
      assert (Ho : o = (f_offset f / 512 + 1 + len1 / 512) * 512) by (unfold o; lia).
      assert (Hod : 0 <= o / 512 <= kmax) by (apply div_le_kmax; unfold o; lia).
      assert (Hoe : o / 512 * 512 + 0 = o).
      { rewrite Ho, Z.div_mul by lia. lia. }
      eapply wp_bind, wp_block_offset; [lia|].
      apply wp_bind. rewrite <- (Z2Nat.id (len1 - n)) at 1 by lia.
      eapply (wp_patch_block _ _ _ _ _ ino kmax); [done|done|done|lia|lia|lia|lia|].
      intros d3 b3 HP3 _. simpl in HP3. rewrite Hoe in HP3.
      eapply wp_upd_stream; [done|simpl; apply list_lookup_insert_eq; by rewrite length_insert|].
      rewrite u32_id by (simpl; unfold is_u32, o in *; lia).
      apply HQ. exists d3, b3. split.
      * replace (slice 0 (Z.to_nat len) buf)
          with (slice (Z.to_nat 0) (Z.to_nat n0) buf ++ slice (Z.to_nat n0) (Z.to_nat n) buf
                ++ slice (Z.to_nat (n0 + n)) (Z.to_nat (len1 - n)) buf).
        2:{ rewrite Z2Nat.inj_add, slice_app_split, slice_app_split by lia. f_equal. lia. }
        eapply Patched_app.
        { replace (f_offset f) with (f_offset f / 512 * 512 + r) by lia. exact HP1. }
        rewrite length_slice, Z2Nat.id by lia. eapply Patched_app; [exact HP2|].
        rewrite length_slice, Z2Nat.id by lia. exact HP3.
      * simpl. rewrite !list_insert_insert_eq. unfold with_disk, with_buffer, with_fs. simpl.
        do 2 f_equal. unfold set_offset. simpl. f_equal. unfold o. lia.
  - eapply wp_bind, wp_block_offset; [lia|]. apply wp_bind.
    rewrite <- (Z2Nat.id len) at 1 by lia.
    eapply (wp_patch_block _ _ _ _ _ ino kmax); [done|done|done|lia|lia|lia|lia|].
    intros d1 b1 HP1 _. eapply wp_upd_stream; [done|exact Hf1|].
    rewrite u32_id by (unfold is_u32; lia).
    apply HQ. exists d1, b1. split; [|done].
    replace (f_offset f) with (f_offset f / 512 * 512 + r) by lia. done.
Qed.
End write.
