(* ===== verification/FsAlloc.v ===== *)
(** * Allocating inodes and data blocks

    The bitmap as the kernel keeps it on the disk, and what [INodeAlloc] and
    [dataAlloc] do to it. *)

From S2P Require Import Prelude Bytes Disk FileSys FsRead FsWrite.

Definition BITMAP_BYTES : nat := Z.to_nat 131072.

(** Bit [sec] of a bitmap. *)
Definition mask_bit (m : list byte) (sec : Z) : bool :=
  Z.testbit (byte.unsigned (default NUL (m !! Z.to_nat (Z.shiftr sec 3)))) (Z.land sec 7).

(** The first of [n] candidates from [i] on that is not in use. *)
Fixpoint first_free (used : Z -> bool) (n : nat) (i : Z) : option Z :=
  match n with
  | O => None
  | S n => if used i then first_free used n (i + 1) else Some i
  end.

Lemma first_free_Some used n i j :
  first_free used n i = Some j ->
  i <= j < i + Z.of_nat n /\ used j = false /\ forall k, i <= k < j -> used k = true.
Proof.
  revert i. induction n as [|n IH]; intros i; simpl; [done|].
  destruct (used i) eqn:E.
  - intros (H1 & H2 & H3)%IH. split_and!; [lia..|done|]. intros k Hk.
    destruct (decide (k = i)) as [->|]; [done|]. apply H3. lia.
  - intros [= ->]. split_and!; [lia|lia|done|lia].
Qed.

Lemma first_free_None used n i :
  first_free used n i = None -> forall k, i <= k < i + Z.of_nat n -> used k = true.
Proof.
  revert i. induction n as [|n IH]; intros i; simpl; [lia|].
  destruct (used i) eqn:E; [|done]. intros H k Hk.
  destruct (decide (k = i)) as [->|]; [done|]. apply (IH _ H). lia.
Qed.

(** ** Bits *)

Lemma land_bit_zero x k : 0 <= k -> (Z.land x (Z.shiftl 1 k) =? 0) = negb (Z.testbit x k).
Proof.
  intros Hk. rewrite Z.shiftl_1_l. destruct (Z.testbit x k) eqn:E; simpl.
  - apply Z.eqb_neq. intros H. apply (f_equal (fun z => Z.testbit z k)) in H.
    by rewrite Z.land_spec, E, Z.pow2_bits_true, Z.bits_0 in H.
  - apply Z.eqb_eq, Z.bits_inj'. intros i Hi. rewrite Z.land_spec, Z.bits_0.
    destruct (decide (i = k)) as [->|]; [by rewrite E|].
    by rewrite Z.pow2_bits_false, andb_false_r.
Qed.

Lemma byte_range b : 0 <= byte.unsigned b < 256.
Proof. apply byte.unsigned_range. Qed.

(** Setting a bit of a byte. *)
Lemma set_bit_spec b k j :
  0 <= k < 8 -> 0 <= j ->
  Z.testbit (byte.unsigned (byte.of_Z (Z.lor (byte.unsigned b) (Z.shiftl 1 k)))) j =
    Z.testbit (byte.unsigned b) j || (j =? k).
Proof.
  intros Hk Hj. rewrite byte.unsigned_of_Z. unfold byte.wrap. rewrite Z.shiftl_1_l.
  destruct (decide (j < 8)).
  - rewrite Z.mod_pow2_bits_low, Z.lor_spec, Z.pow2_bits_eqb by lia. by rewrite Z.eqb_sym.
  - rewrite Z.mod_pow2_bits_high by lia.
    rewrite (testbit_ge (byte.unsigned b) 8 j) by (try apply byte_range; lia).
    rewrite (proj2 (Z.eqb_neq j k)) by lia. done.
Qed.

Lemma sec_split sec : 0 <= sec -> Z.shiftr sec 3 = sec / 8 /\ Z.land sec 7 = sec mod 8.
Proof.
  intros. split; [by rewrite Z.shiftr_div_pow2|]. change 7 with (Z.ones 3). by rewrite Z.land_ones.
Qed.

(** Marking [sec] in a bitmap. *)
Definition mask_set (m : list byte) (sec : Z) : list byte :=
  <[Z.to_nat (Z.shiftr sec 3) :=
      byte.of_Z (Z.lor (byte.unsigned (default NUL (m !! Z.to_nat (Z.shiftr sec 3))))
        (Z.shiftl 1 (Z.land sec 7)))]> m.

Lemma mask_bit_set m sec n :
  0 <= sec < 8 * Z.of_nat (length m) -> 0 <= n ->
  mask_bit (mask_set m sec) n = mask_bit m n || (n =? sec).
Proof.
  intros Hs Hn. unfold mask_bit, mask_set.
  destruct (sec_split sec) as [-> ->]; [lia|]. destruct (sec_split n) as [-> ->]; [lia|].
  pose proof (Z.mod_pos_bound sec 8 ltac:(lia)). pose proof (Z.mod_pos_bound n 8 ltac:(lia)).
  pose proof (Z.div_mod sec 8 ltac:(lia)). pose proof (Z.div_mod n 8 ltac:(lia)).
  pose proof (Z.div_pos sec 8 ltac:(lia) ltac:(lia)). pose proof (Z.div_pos n 8 ltac:(lia) ltac:(lia)).
  assert (Hlt : (Z.to_nat (sec / 8) < length m)%nat) by lia.
  destruct (decide (sec / 8 = n / 8)) as [E|E].
  - rewrite <- E, list_lookup_insert_eq by done. simpl.
    rewrite set_bit_spec by lia. f_equal.
    destruct (Z.eqb_spec n sec) as [->|Hne]; [by rewrite Z.eqb_refl|].
    apply Z.eqb_neq. lia.
  - rewrite list_lookup_insert_ne by lia.
    rewrite (proj2 (Z.eqb_neq n sec)) by congruence. by rewrite orb_false_r.
Qed.

Lemma BITMAP_BYTES_Z : Z.of_nat BITMAP_BYTES = 131072.
Proof. unfold BITMAP_BYTES. by rewrite Z2Nat.id. Qed.

Lemma bitmap_sector_eq k : bitmap_sector k = 1 + 512 * Z.of_nat k.
Proof. unfold bitmap_sector, LOC_BITMAP. rewrite Z.shiftl_mul_pow2 by lia. lia. Qed.

Lemma bitmap_sector_inj j k : bitmap_sector j = bitmap_sector k -> j = k.
Proof. rewrite !bitmap_sector_eq. lia. Qed.

#[global] Opaque BITMAP_BYTES.

Section alloc.
Context {D : Type} `{!AtaDevice D}.
Implicit Types (d : D) (s : fsst D) (m : list byte).

(** Chunk [k] of a bitmap is sector [bitmap_sector k] of [d]. *)
Definition chunk_of m (k : nat) : list byte := slice (512 * k) 512 m.

Definition mask_of d m : Prop :=
  length m = BITMAP_BYTES /\ forall k, (k < SC_BITMAP)%nat -> chunk_of m k = readsect (bitmap_sector k) d.

Lemma wp_readBitmap_loop n count s (Q : unit -> fsst D -> Prop) J :
  (n + count = SC_BITMAP)%nat -> length (fs_bitmap s) = BITMAP_BYTES ->
  (forall k, (k < count)%nat -> chunk_of (fs_bitmap s) k = readsect (bitmap_sector k) (fs_disk s)) ->
  (forall m, mask_of (fs_disk s) m -> Q tt (with_bitmap m s)) ->
  wp (readBitmap_loop n count) Q J s.
Proof.
  pose proof BITMAP_BYTES_Z as HB. pose proof SECTSIZE_Z as HS.
  assert (HSC : Z.of_nat SC_BITMAP = 256) by done.
  revert count s. induction n as [|n IH]; intros count s Hn Hl Hk HQ; simpl.
  - apply wp_ret. specialize (HQ (fs_bitmap s)). destruct s. apply HQ. split; [done|].
    intros k Hlt. apply Hk. lia.
  - apply wp_bind. apply wp_gets. apply wp_bind, wp_get. apply wp_bind.
    eapply wp_from_option.
    { apply csplice_Some; rewrite ?length_readsect; lia. }
    apply wp_bind, wp_modify.
    replace (Z.to_nat (512 * Z.of_nat count)) with (512 * count)%nat by lia.
    set (m' := splice _ _ _).
    assert (Hm' : length m' = BITMAP_BYTES).
    { unfold m'. rewrite length_splice; [done|]. rewrite length_readsect. lia. }
    apply IH; [lia|done| |exact HQ].
    intros k Hlt. simpl. unfold m', chunk_of.
    destruct (decide (k = count)) as [->|Hne].
    + replace 512%nat with (length (readsect (bitmap_sector count) (fs_disk s))) at 2
        by apply length_readsect.
      apply slice_splice_eq. rewrite length_readsect. lia.
    + rewrite slice_splice_ne; [apply Hk; lia| |]; rewrite length_readsect; lia.
Qed.

Lemma wp_readBitmap s (Q : unit -> fsst D -> Prop) J :
  length (fs_bitmap s) = BITMAP_BYTES ->
  (forall m, mask_of (fs_disk s) m -> Q tt (with_bitmap m s)) -> wp readBitmap Q J s.
Proof. intros. apply wp_readBitmap_loop; [done|done|lia|done]. Qed.

(** [d'] agrees with [d] on every sector of the drive that passes [P]. *)
Definition agree_on (P : Z -> Prop) d d' : Prop :=
  forall n, valid_sector n -> P n -> readsect n d' = readsect n d.

Lemma wp_saveBitmap_loop n count s (Q : unit -> fsst D -> Prop) J :
  (n + count = SC_BITMAP)%nat -> length (fs_bitmap s) = BITMAP_BYTES ->
  (forall d', (forall k, (count <= k < SC_BITMAP)%nat -> valid_sector (bitmap_sector k) ->
                 readsect (bitmap_sector k) d' = chunk_of (fs_bitmap s) k) ->
     agree_on (fun x => forall k, (count <= k < SC_BITMAP)%nat -> x <> bitmap_sector k) (fs_disk s) d' ->
     Q tt (with_disk d' s)) ->
  wp (saveBitmap_loop n count) Q J s.
Proof.
  pose proof BITMAP_BYTES_Z as HB. pose proof SECTSIZE_Z as HS.
  assert (HSC : Z.of_nat SC_BITMAP = 256) by done.
  revert count s. induction n as [|n IH]; intros count s Hn Hl HQ; simpl.
  - apply wp_ret. specialize (HQ (fs_disk s)). destruct s. apply HQ; [intros; lia|].
    by intros x _ _.
  - apply wp_bind, wp_get. apply wp_bind. eapply wp_from_option; [apply cslice_Some; lia|].
    apply wp_bind. apply wp_modify. change (Z.to_nat 512) with 512%nat.
    replace (Z.to_nat (512 * Z.of_nat count)) with (512 * count)%nat by lia.
    fold (chunk_of (fs_bitmap s) count).
    assert (Hc : length (chunk_of (fs_bitmap s) count) = SECTSIZE).
    { apply length_slice. lia. }
    assert (Hout : forall x, valid_sector x -> x <> bitmap_sector count ->
      readsect x (writesect (chunk_of (fs_bitmap s) count) (bitmap_sector count) (fs_disk s))
        = readsect x (fs_disk s)).
    { intros x Hx Hne. destruct (decide (valid_sector (bitmap_sector count))) as [Hv|Hv];
        [by apply readsect_writesect_ne|].
      unfold readsect, writesect. rewrite ata_read_other; [done|].
      rewrite (valid_lba x) by done. rewrite program_lba, bitmap_sector_eq in *.
      unfold valid_sector in *. pose proof ata_sectors_le. rewrite Z.mod_small by lia. lia. }
    apply IH; [lia|done|]. intros d' Hin Hag. apply HQ.
    + intros k Hk Hv. destruct (decide (k = count)) as [->|Hne]; [|apply Hin; [lia|done]].
      rewrite Hag; [|done|intros k' Hk' Heq; apply bitmap_sector_inj in Heq; lia].
      by apply readsect_writesect_eq.
    + intros x Hx Hne. rewrite Hag; [|done|intros k Hk; apply Hne; lia].
      apply Hout; [done|]. apply Hne. lia.
Qed.

(** The chunk of the bitmap that holds bit [sec]. *)
Definition chunk_index (sec : Z) : nat := Z.to_nat (sec / 4096).

(** Bit [sec] of the bitmap on the disk. *)
Definition disk_bit d (sec : Z) : bool :=
  Z.testbit (byte.unsigned (default NUL
    (readsect (bitmap_sector (chunk_index sec)) d !! Z.to_nat (sec / 8 mod 512)))) (sec mod 8).

Lemma mask_disk_bit d m sec :
  mask_of d m -> 0 <= sec < 1048576 -> mask_bit m sec = disk_bit d sec.
Proof.
  intros [Hl Hm] Hs. unfold mask_bit, disk_bit. destruct (sec_split sec) as [-> ->]; [lia|].
  pose proof BITMAP_BYTES_Z as HB. assert (HSC : Z.of_nat SC_BITMAP = 256) by done.
  pose proof (Z.div_mod (sec / 8) 512 ltac:(lia)) as Hd.
  pose proof (Z.mod_pos_bound (sec / 8) 512 ltac:(lia)) as Hr.
  assert (E : sec / 4096 = sec / 8 / 512) by (rewrite Z.div_div by lia; done).
  assert (Hk : 0 <= sec / 4096 < 256).
  { split; [apply Z.div_pos; lia|apply Z.div_lt_upper_bound; lia]. }
  rewrite <- Hm by (unfold chunk_index; lia). unfold chunk_of.
  rewrite slice_lookup by lia. do 4 f_equal. unfold chunk_index. lia.
Qed.

Lemma chunk_of_mask_set m sec k :
  0 <= sec -> k <> chunk_index sec -> chunk_of (mask_set m sec) k = chunk_of m k.
Proof.
  intros Hs Hk. unfold chunk_of, mask_set. destruct (sec_split sec Hs) as [-> _].
  apply list_eq. intros i. destruct (decide (i < 512)%nat) as [Hi|Hi].
  - rewrite !slice_lookup by done. rewrite list_lookup_insert_ne; [done|].
    intros E. apply Hk. unfold chunk_index.
    replace (sec / 4096) with (sec / 8 / 512) by (rewrite Z.div_div by lia; done).
    pose proof (Z.div_pos sec 8 ltac:(lia) ltac:(lia)).
    assert (Hx : sec / 8 = 512 * Z.of_nat k + Z.of_nat i) by lia.
    rewrite Hx. rewrite (Z.mul_comm 512), Z.div_add_l, Z.div_small by lia. lia.
  - unfold slice. by rewrite !lookup_take_ge by lia.
Qed.

Lemma length_mask_set m sec : length (mask_set m sec) = length m.
Proof. apply length_insert. Qed.

(** The disk after bit [sec] has been set and the bitmap saved: one sector
    is rewritten. *)
Record marked d d' (sec : Z) : Prop := {
  mk_other : agree_on (fun x => x <> bitmap_sector (chunk_index sec)) d d';
  mk_bits : valid_sector (bitmap_sector (chunk_index sec)) ->
    forall n, 0 <= n < 1048576 -> valid_sector (bitmap_sector (chunk_index n)) ->
    disk_bit d' n = disk_bit d n || (n =? sec) }.

Lemma chunk_index_lt sec : 0 <= sec < 1048576 -> (chunk_index sec < SC_BITMAP)%nat.
Proof.
  intros. assert (HSC : Z.of_nat SC_BITMAP = 256) by done. unfold chunk_index.
  pose proof (Z.div_pos sec 4096 ltac:(lia) ltac:(lia)).
  pose proof (Z.div_lt_upper_bound sec 4096 256 ltac:(lia) ltac:(lia)). lia.
Qed.

Lemma marked_intro d d' m sec :
  mask_of d m -> 0 <= sec < 1048576 ->
  (forall k, (k < SC_BITMAP)%nat -> valid_sector (bitmap_sector k) ->
     readsect (bitmap_sector k) d' = chunk_of (mask_set m sec) k) ->
  agree_on (fun x => forall k, (k < SC_BITMAP)%nat -> x <> bitmap_sector k) d d' ->
  marked d d' sec.
Proof.
  intros Hm Hs Hin Hag. pose proof BITMAP_BYTES_Z as HB.
  assert (HSC : Z.of_nat SC_BITMAP = 256) by done. split.
  - intros x Hx Hne.
    destruct (decide ((x - 1) mod 512 = 0 /\ 0 <= (x - 1) / 512 < 256)) as [[Hmod Hrange]|Hno].
    + assert (E : x = bitmap_sector (Z.to_nat ((x - 1) / 512))).
      { rewrite bitmap_sector_eq. pose proof (Z.div_mod (x - 1) 512 ltac:(lia)). lia. }
      assert (Hk : (Z.to_nat ((x - 1) / 512) < SC_BITMAP)%nat) by lia.
      revert E Hk. generalize (Z.to_nat ((x - 1) / 512)). intros k -> Hk.
      rewrite Hin; [|exact Hk|exact Hx].
      rewrite chunk_of_mask_set; [by apply Hm|lia|]. intros Heq. apply Hne. f_equal. exact Heq.
    + apply Hag; [done|]. intros k Hk ->. apply Hno. rewrite bitmap_sector_eq.
      replace (1 + 512 * Z.of_nat k - 1) with (Z.of_nat k * 512) by lia.
      rewrite Z.mod_mul, Z.div_mul by lia. lia.
  - intros Hv n Hn Hvn. unfold disk_bit at 1.
    pose proof (chunk_index_lt n Hn) as Hk.
    rewrite Hin; [|exact Hk|exact Hvn].
    assert (Hm' : forall j, (j < 512)%nat -> chunk_of (mask_set m sec) (chunk_index n) !! j
       = mask_set m sec !! (512 * chunk_index n + j)%nat).
    { intros j Hj. unfold chunk_of. by rewrite slice_lookup. }
    pose proof (Z.mod_pos_bound (n / 8) 512 ltac:(lia)).
    rewrite Hm' by lia.
    pose proof (mask_bit_set m sec n) as Hb. unfold mask_bit at 1 in Hb.
    destruct (sec_split n) as [E1 E2]; [lia|]. rewrite E1, E2 in Hb.
    rewrite <- (mask_disk_bit d m n Hm Hn). destruct Hm as [Hl _].
    rewrite <- Hb by lia. do 4 f_equal.
    unfold chunk_index. assert (E : n / 4096 = n / 8 / 512) by (rewrite Z.div_div by lia; done).
    pose proof (Z.div_mod (n / 8) 512 ltac:(lia)).
    pose proof (Z.div_pos (n / 8) 512). pose proof (Z.div_pos n 8). lia.
Qed.

Lemma wp_alloc_loop loc n i s (Q : Z -> fsst D -> Prop) J :
  mask_of (fs_disk s) (fs_bitmap s) ->
  (forall j, i <= j < i + Z.of_nat n -> 0 <= loc j < 1048576) ->
  match first_free (fun j => disk_bit (fs_disk s) (loc j)) n i with
  | None => Q (-1) s
  | Some j => forall d', marked (fs_disk s) d' (loc j) ->
      Q j (with_disk d' (with_bitmap (mask_set (fs_bitmap s) (loc j)) s))
  end ->
  wp (alloc_loop loc n i) Q J s.
Proof.
  intros Hm. pose proof BITMAP_BYTES_Z as HB.
  revert i. induction n as [|n IH]; intros i Hloc HQ; simpl in *; [by apply wp_ret|].
  apply wp_bind, wp_get. pose proof (Hloc i ltac:(lia)) as Hi.
  destruct (sec_split (loc i)) as [E1 E2]; [lia|].
  destruct (lookup_lt_is_Some_2 (fs_bitmap s) (Z.to_nat (Z.shiftr (loc i) 3))) as [b Hb].
  { destruct Hm as [Hl _]. rewrite E1, Hl. pose proof (Z.div_lt_upper_bound (loc i) 8 131072).
    pose proof (Z.div_pos (loc i) 8). lia. }
  apply wp_bind. eapply wp_from_option; [exact Hb|].
  rewrite land_bit_zero by (rewrite E2; apply Z.mod_pos_bound; lia).
  rewrite <- (mask_disk_bit _ _ _ Hm Hi) in HQ. unfold mask_bit in HQ. rewrite Hb in HQ. simpl in HQ.
  destruct (Z.testbit _ _); simpl.
  - apply IH; [|done]. intros j Hj. apply Hloc. lia.
  - apply wp_bind, wp_modify. apply wp_bind. unfold saveBitmap.
    apply wp_saveBitmap_loop; [done|simpl; rewrite length_insert; apply Hm|].
    simpl. intros d' Hin Hag. apply wp_ret. cbn beta.
    assert (E : <[Z.to_nat (Z.shiftr (loc i) 3) := byte.of_Z
      (Z.lor (byte.unsigned b) (Z.shiftl 1 (Z.land (loc i) 7)))]> (fs_bitmap s)
      = mask_set (fs_bitmap s) (loc i)) by (unfold mask_set; by rewrite Hb).
    rewrite E in *. apply (HQ d'). eapply marked_intro; [done|done|..].
    + intros k Hk Hv. apply Hin; [lia|done].
    + intros x Hx Hne. apply Hag; [done|]. intros k Hk. apply Hne. lia.
Qed.

Lemma with_disk_bitmap_bitmap d' m m' s :
  with_disk d' (with_bitmap m (with_bitmap m' s)) = with_disk d' (with_bitmap m s).
Proof. done. Qed.

(** [dataAlloc] marks and returns the first free data block. *)
Lemma wp_dataAlloc s (Q : Z -> fsst D -> Prop) J :
  length (fs_bitmap s) = BITMAP_BYTES ->
  (forall m, length m = BITMAP_BYTES ->
    match first_free (fun j => disk_bit (fs_disk s) (LOC_DATA j)) (Z.to_nat SC_DATA) 0 with
    | None => Q (-1) (with_bitmap m s)
    | Some j => forall d', marked (fs_disk s) d' (LOC_DATA j) -> Q j (with_disk d' (with_bitmap m s))
    end) ->
  wp dataAlloc Q J s.
Proof.
  intros Hl HQ. unfold dataAlloc. apply wp_bind. apply wp_readBitmap; [done|].
  intros m Hm. apply wp_alloc_loop; [done| |].
  { intros j. unfold SC_DATA, LOC_DATA. rewrite Z2Nat.id by lia. lia. }
  cbn [fs_disk with_bitmap]. destruct (first_free _ _ _) as [j|] eqn:Ef; [|by apply HQ, Hm].
  intros d' Hd'. rewrite with_disk_bitmap_bitmap. apply HQ; [|done].
  rewrite length_mask_set. apply Hm.
Qed.

Lemma wp_INodeAlloc s (Q : Z -> fsst D -> Prop) J :
  length (fs_bitmap s) = BITMAP_BYTES ->
  (forall m, length m = BITMAP_BYTES ->
    match first_free (fun j => disk_bit (fs_disk s) (LOC_INODE j)) (Z.to_nat SC_INODE) 0 with
    | None => Q (-1) (with_bitmap m s)
    | Some j => forall d', marked (fs_disk s) d' (LOC_INODE j) -> Q j (with_disk d' (with_bitmap m s))
    end) ->
  wp INodeAlloc Q J s.
Proof.
  intros Hl HQ. unfold INodeAlloc. apply wp_bind. apply wp_readBitmap; [done|].
  intros m Hm. apply wp_alloc_loop; [done| |].
  { intros j. unfold SC_INODE, LOC_INODE. rewrite Z2Nat.id by lia. lia. }
  cbn [fs_disk with_bitmap]. destruct (first_free _ _ _) as [j|] eqn:Ef; [|by apply HQ, Hm].
  intros d' Hd'. rewrite with_disk_bitmap_bitmap. apply HQ; [|done].
  rewrite length_mask_set. apply Hm.
Qed.
End alloc.
