(* ===== verification/FsGrow.v ===== *)
(** * Growing a file

    [fs_write_kr] as a whole: allocation of the blocks a longer file needs,
    the directory entry, and the bytes written, with the frame that the rest
    of the disk keeps its contents. *)

From S2P Require Import Prelude Bytes Disk FileSys FsRead FsWrite FsAlloc.

(** Data blocks below this number are stored below sector 1025, the second
    sector the bitmap strays to (the first is that of inode 0). *)
Definition SAFE_BLOCKS : Z := 256.

Section grow.
Context {D : Type} `{!AtaDevice D}.
Implicit Types (d : D) (s : fsst D) (ino : list byte).

Definition safe_sector (n : Z) : Prop := 769 <= n < 1025.

(** [n] of the safe data blocks are free. *)
Definition has_free d (n : nat) : Prop :=
  exists l, NoDup l /\ length l = n /\
    forall j, j ∈ l -> 0 <= j < SAFE_BLOCKS /\ disk_bit d (LOC_DATA j) = false.

Definition keeps_bits d d' : Prop :=
  forall n, 0 <= n < 4096 -> disk_bit d n = true -> disk_bit d' n = true.

Lemma chunk_index_small n : 0 <= n < 4096 -> bitmap_sector (chunk_index n) = 1.
Proof. intros. unfold chunk_index. rewrite Z.div_small by lia. by rewrite bitmap_sector_eq. Qed.

(** Bits below 4096 are in sector 1. *)
Lemma disk_bit_agree d d' n :
  0 <= n < 4096 -> readsect 1 d' = readsect 1 d -> disk_bit d' n = disk_bit d n.
Proof. intros Hn E. unfold disk_bit. by rewrite chunk_index_small, E by done. Qed.

Section marked.
Context (d d' : D) (j : Z) (Hj : 0 <= j < SAFE_BLOCKS) (Hm : marked d d' (LOC_DATA j))
  (Hv : valid_sector 1).

Lemma marked_agree : agree_on (fun x => x <> 1) d d'.
Proof using Hj Hm.
  destruct Hm as [H _]. rewrite chunk_index_small in H; [done|].
  unfold LOC_DATA, SAFE_BLOCKS in *. lia.
Qed.

Lemma marked_bit n : 0 <= n < 4096 -> disk_bit d' n = disk_bit d n || (n =? LOC_DATA j).
Proof using Hj Hm Hv.
  intros Hn. destruct Hm as [_ H]. unfold LOC_DATA, SAFE_BLOCKS in *.
  apply H; [|lia|]; rewrite chunk_index_small by lia; exact Hv.
Qed.

Lemma marked_keeps : keeps_bits d d'.
Proof using Hj Hm Hv. intros n Hn H. by rewrite marked_bit, H by done. Qed.

Lemma marked_has_free n : has_free d (S n) -> has_free d' n.
Proof using Hj Hm Hv.
  intros (l & Hnd & Hl & Hf). destruct (decide (j ∈ l)) as [Hin|Hin].
  - apply list_elem_of_split in Hin as (l1 & l2 & ->).
    exists (l1 ++ l2). rewrite length_app in *. simpl in Hl.
    apply NoDup_app in Hnd as (Hn1 & Hd & Hn2). apply NoDup_cons in Hn2 as [Hj2 Hn2].
    split_and!; [apply NoDup_app; split_and!; [done| |done]|lia|].
    + intros x Hx Hx'. apply (Hd x Hx). by right.
    + intros x Hx. destruct (Hf x) as [Hr Hb].
      { rewrite elem_of_app in Hx |- *. rewrite elem_of_cons. tauto. }
      split; [done|]. unfold LOC_DATA, SAFE_BLOCKS in *. rewrite marked_bit, Hb by lia. simpl.
      apply Z.eqb_neq. intros E. assert (x = j) as -> by (unfold LOC_DATA in E; lia).
      apply elem_of_app in Hx as [Hx|Hx]; [|done]. apply (Hd j Hx). by left.
  - destruct l as [|x l]; [done|]. exists l. apply NoDup_cons in Hnd as [_ Hnd].
    split_and!; [done|simpl in Hl; lia|]. intros y Hy. destruct (Hf y) as [Hr Hb]; [by right|].
    split; [done|]. unfold SAFE_BLOCKS, LOC_DATA in *. rewrite marked_bit, Hb by lia. simpl.
    apply Z.eqb_neq. intros E. apply Hin. right.
    assert (j = y) as -> by (unfold LOC_DATA in E; lia). done.
Qed.
End marked.

(** The block [dataAlloc] takes when some safe block is free. *)
Lemma wp_dataAlloc_safe s n (Q : Z -> fsst D -> Prop) J :
  length (fs_bitmap s) = BITMAP_BYTES -> valid_sector 1 -> has_free (fs_disk s) (S n) ->
  (forall j m d', length m = BITMAP_BYTES -> 0 <= j < SAFE_BLOCKS ->
     disk_bit (fs_disk s) (LOC_DATA j) = false -> marked (fs_disk s) d' (LOC_DATA j) ->
     Q j (with_disk d' (with_bitmap m s))) ->
  wp dataAlloc Q J s.
Proof.
  intros Hl Hv (l & _ & Hlen & Hf) HQ. apply wp_dataAlloc; [done|]. intros m Hm.
  destruct l as [|x l]; [done|]. destruct (Hf x) as [Hx Hb]; [by left|].
  destruct (first_free _ _ _) as [j|] eqn:E.
  - apply first_free_Some in E as (Hr & Hfree & Hmin). intros d' Hd'.
    apply HQ; [done| |done|done].
    destruct (decide (j <= x)); [lia|]. specialize (Hmin x ltac:(lia)). by rewrite Hb in Hmin.
  - assert (Hx' : disk_bit (fs_disk s) (LOC_DATA x) = true).
    { apply (first_free_None _ _ _ E x). unfold SC_DATA, SAFE_BLOCKS in *. rewrite Z2Nat.id by lia. lia. }
    by rewrite Hb in Hx'.
Qed.

(** What the loop has done: block [k] of [ino'], for [k] in [d1..d2], is
    newly allocated, the other blocks are those of [ino].  [isec] is a
    sector about which nothing is said, that of the inode. *)
Record grown (isec d1 d2 : Z) d ino d' ino' : Prop := {
  gr_agree : agree_on (fun x => x <> 1 /\ x <> isec) d d';
  gr_bits : keeps_bits d d';
  gr_new : forall k, d1 <= k <= d2 -> safe_sector (block_sector ino' k) /\
    disk_bit d (block_sector ino' k) = false /\ disk_bit d' (block_sector ino' k) = true;
  gr_old : forall k, 0 <= k < 128 -> k < d1 \/ d2 < k -> block_sector ino' k = block_sector ino k;
  gr_inj : forall j k, d1 <= j <= d2 -> d1 <= k <= d2 ->
    block_sector ino' j = block_sector ino' k -> j = k;
  gr_len : length ino' = SECTSIZE;
  gr_free : forall n, has_free d (Z.to_nat (d2 - d1 + 1) + n) -> has_free d' n }.

Lemma block_of_wr32 ino k v j :
  length ino = SECTSIZE -> 0 <= k < 128 -> 0 <= j < 128 ->
  block_of (wr32 (Z.to_nat (4 * k)) (u32 v) ino) j = if decide (j = k) then u32 v else block_of ino j.
Proof.
  intros Hl Hk Hj. pose proof SECTSIZE_Z. unfold block_of. case_decide as E.
  - subst. apply rd32_wr32_eq; [lia|apply u32_range].
  - apply rd32_wr32_ne; lia.
Qed.

Lemma i32_u32_small v : 0 <= v < 2 ^ 31 -> i32 (u32 v) = v.
Proof. intros. rewrite u32_id, i32_id; [done|unfold is_i32; lia|unfold is_u32; lia]. Qed.

Lemma grown_nil isec (d1 d2 : Z) d ino : d2 < d1 -> length ino = SECTSIZE -> grown isec d1 d2 d ino d ino.
Proof.
  intros Hgt Hi. split; [by intros x _ _|by intros n _|intros; lia|done|intros; lia|exact Hi|].
  intros n. by rewrite Z2Nat.nonpos by lia.
Qed.

(** One block. *)
Lemma grown_one isec k j d ino d' :
  valid_sector 1 -> 0 <= k < 128 -> length ino = SECTSIZE -> 0 <= j < SAFE_BLOCKS ->
  disk_bit d (LOC_DATA j) = false -> marked d d' (LOC_DATA j) ->
  grown isec k k d ino d' (wr32 (Z.to_nat (4 * k)) (u32 j) ino).
Proof.
  intros Hv Hk Hi Hj Hb Hm. pose proof SECTSIZE_Z as HS.
  pose proof (marked_agree _ _ _ Hj Hm) as Hag.
  pose proof (marked_bit _ _ _ Hj Hm Hv) as Hbit.
  assert (Hblk : forall k', 0 <= k' < 128 -> block_sector (wr32 (Z.to_nat (4 * k)) (u32 j) ino) k'
    = if decide (k' = k) then LOC_DATA j else block_sector ino k').
  { intros k' Hk'. unfold block_sector. rewrite block_of_wr32 by (try exact Hi; lia).
    case_decide; [|done]. unfold SAFE_BLOCKS in Hj. by rewrite i32_u32_small by lia. }
  assert (HjS : safe_sector (LOC_DATA j)) by (unfold safe_sector, LOC_DATA, SAFE_BLOCKS in *; lia).
  split.
  - intros x Hx [Hx1 _]. by apply Hag.
  - by apply (marked_keeps _ _ _ Hj Hm).
  - intros k' Hk'. assert (k' = k) as -> by lia. rewrite Hblk, decide_True by lia.
    split_and!; [done|done|]. rewrite Hbit by (unfold safe_sector in HjS; lia).
    by rewrite Z.eqb_refl, orb_true_r.
  - intros k' Hk' Hne. rewrite Hblk by lia. by rewrite decide_False by lia.
  - intros. lia.
  - rewrite length_wr32; [exact Hi|lia].
  - intros n. replace (Z.to_nat (k - k + 1) + n)%nat with (S n) by lia.
    by apply (marked_has_free _ _ _ Hj Hm).
Qed.

Lemma grown_app isec (d1 k d2 : Z) d ino d' ino' d'' ino'' :
  0 <= d1 -> d1 - 1 <= k <= d2 -> d2 < 128 ->
  grown isec d1 k d ino d' ino' -> grown isec (k + 1) d2 d' ino' d'' ino'' ->
  grown isec d1 d2 d ino d'' ino''.
Proof.
  intros H1 Hk H2 [A1 A2 A3 A4 A5 A6 A7] [B1 B2 B3 B4 B5 B6 B7].
  assert (Hne : forall a b, d1 <= a <= k -> k + 1 <= b <= d2 ->
    block_sector ino'' a <> block_sector ino'' b).
  { intros a b Ha Hb E. rewrite (B4 a) in E by lia. destruct (A3 a Ha) as (_ & _ & T).
    destruct (B3 b Hb) as (_ & F & _). by rewrite <- E, T in F. }
  split.
  - intros x Hx Hx'. rewrite B1 by done. by apply A1.
  - intros n Hn Hb. apply B2; [done|]. by apply A2.
  - intros a Ha. destruct (decide (a <= k)) as [Hle|Hgt].
    + rewrite B4 by lia. destruct (A3 a) as (S1 & S2 & S3); [lia|]. split_and!; [done|done|].
      unfold safe_sector in S1. apply B2; [lia|done].
    + destruct (B3 a) as (S1 & S2 & S3); [lia|]. split_and!; [done| |done].
      unfold safe_sector in S1. destruct (disk_bit d (block_sector ino'' a)) eqn:E; [|done].
      rewrite A2 in S2; [done|lia|done].
  - intros a Ha Ha'. rewrite B4, A4 by lia. done.
  - intros a b Ha Hb E. destruct (decide (a <= k)), (decide (b <= k)).
    + rewrite !B4 in E by lia. apply A5; [lia|lia|done].
    + exfalso. by apply (Hne a b); [lia|lia|].
    + exfalso. by apply (Hne b a); [lia|lia|].
    + apply B5; [lia|lia|done].
  - exact B6.
  - intros n Hf. apply B7, A7.
    by replace (Z.to_nat (k - d1 + 1) + (Z.to_nat (d2 - (k + 1) + 1) + n))%nat
      with (Z.to_nat (d2 - d1 + 1) + n)%nat by lia.
Qed.

Lemma wp_grow_loop isec fuel (d1 d2 : Z) s (Q : unit -> fsst D -> Prop) J :
  0 <= d1 -> d2 < 128 -> d2 - d1 + 1 < Z.of_nat fuel -> (0 < fuel)%nat ->
  length (fs_bitmap s) = BITMAP_BYTES -> length (fs_inode s) = SECTSIZE ->
  valid_sector 1 -> has_free (fs_disk s) (Z.to_nat (d2 - d1 + 1)) ->
  (forall d' ino' m, length m = BITMAP_BYTES -> grown isec d1 d2 (fs_disk s) (fs_inode s) d' ino' ->
     Q tt (with_disk d' (with_inode ino' (with_bitmap m s)))) ->
  wp (grow_loop fuel d1 d2) Q J s.
Proof.
  revert d1 s. induction fuel as [|fuel IH]; intros d1 s H1 H2 Hfu Hfu0 Hm Hi Hv Hf HQ; [lia|]. simpl.
  destruct (Z.leb_spec d1 d2) as [Hle|Hgt].
  - replace (Z.to_nat (d2 - d1 + 1)) with (S (Z.to_nat (d2 - (d1 + 1) + 1))) in Hf by lia.
    apply wp_bind. eapply wp_dataAlloc_safe; [exact Hm|exact Hv|exact Hf|].
    intros j m d' Hm' Hj Hb Hd'. apply wp_bind. unfold set_block_offset, NR_BLOCKS.
    rewrite (proj2 (Z.leb_le _ _)), (proj2 (Z.ltb_lt _ _)) by lia. simpl. apply wp_modify.
    assert (Hg : grown isec d1 d1 (fs_disk s) (fs_inode s) d'
      (wr32 (Z.to_nat (4 * d1)) (u32 j) (fs_inode s))) by (apply grown_one; try done; lia).
    eapply IH; [lia|lia|lia|lia|exact Hm'|exact (gr_len _ _ _ _ _ _ _ Hg)|exact Hv| |].
    + apply (gr_free _ _ _ _ _ _ _ Hg).
      by replace (Z.to_nat (d1 - d1 + 1) + Z.to_nat (d2 - (d1 + 1) + 1))%nat
        with (S (Z.to_nat (d2 - (d1 + 1) + 1))) by lia.
    + cbn [fs_disk fs_inode with_inode with_disk with_bitmap].
      intros d2' ino' m' Hm2 Hg2. apply (HQ d2' ino' m'); [exact Hm2|].
      by eapply (grown_app _ d1 d1 d2); [lia..|exact Hg|].
  - apply wp_ret. specialize (HQ (fs_disk s) (fs_inode s) (fs_bitmap s)). destruct s. apply HQ; [exact Hm|].
    by apply grown_nil.
Qed.

Lemma has_free_le d n m : (m <= n)%nat -> has_free d n -> has_free d m.
Proof.
  intros Hle (l & Hnd & Hl & Hf). exists (take m l).
  rewrite <- (take_drop m l) in Hnd. apply NoDup_app in Hnd as [Hnd _].
  split_and!; [done|rewrite length_take; lia|]. intros j Hj. apply Hf.
  rewrite <- (take_drop m l). apply elem_of_app. by left.
Qed.

(** ** Files *)

Definition inode_sector (f : FILE_STREAM) : Z := LOC_INODE (i32 (f_inode_offset f)).
Definition dir_sector (f : FILE_STREAM) : Z := LOC_DIR (i32 (f_dir_offset f)).

(** Sector [n] holds block [k <= kmax] of an inode. *)
Definition is_block ino (kmax n : Z) : Prop := exists k, 0 <= k <= kmax /\ n = block_sector ino k.

(** The last block a file has been given: block 0 comes with the first
    write, block [k] when the size first reaches [512*k]. *)
Definition last_block (f : FILE_STREAM) : Z :=
  if decide (f_file_size f = 0) then -1 else f_file_size f / 512.

(** A file whose blocks are its own: distinct, marked in the bitmap, and
    none of them a sector the bitmap is also kept in. *)
Record FileOk d (f : FILE_STREAM) : Prop := {
  fo_inode : 0 <= f_inode_offset f < SC_INODE;
  fo_dir : 0 <= f_dir_offset f < 256;
  fo_entry : 0 <= f_entry_offset f < 16;
  fo_size : 0 <= f_file_size f < 65536;
  fo_safe : forall k, 0 <= k <= last_block f ->
    safe_sector (block_sector (inode_of d f) k) /\ disk_bit d (block_sector (inode_of d f) k) = true;
  fo_inj : forall j k, 0 <= j <= last_block f -> 0 <= k <= last_block f ->
    block_sector (inode_of d f) j = block_sector (inode_of d f) k -> j = k }.

Definition drive_ok : Prop := 1025 <= ata_sectors.

(** After the allocations of a write of [len] bytes by [f]: blocks [0..K]
    of the inode now on the disk are usable, and those that hold bytes the
    write will not replace are the old ones. *)
Record prepared d (f : FILE_STREAM) (len K : Z) d' : Prop := {
  pr_agree : agree_on (fun x => x <> 1 /\ x <> inode_sector f) d d';
  pr_bits : keeps_bits d d';
  pr_safe : forall k, 0 <= k <= K -> safe_sector (block_sector (inode_of d' f) k) /\
    disk_bit d' (block_sector (inode_of d' f) k) = true;
  pr_inj : forall j k, 0 <= j <= K -> 0 <= k <= K ->
    block_sector (inode_of d' f) j = block_sector (inode_of d' f) k -> j = k;
  pr_own : forall k, 0 <= k <= K ->
    is_block (inode_of d f) (last_block f) (block_sector (inode_of d' f) k) \/
    disk_bit d (block_sector (inode_of d' f) k) = false;
  pr_keep : forall p, 0 <= p < f_file_size f -> p < f_offset f \/ f_offset f + len <= p ->
    p / 512 <= K /\ block_sector (inode_of d' f) (p / 512) = block_sector (inode_of d f) (p / 512) }.

Lemma prepared_same d f len : FileOk d f -> prepared d f len (last_block f) d.
Proof.
  intros [Hi Hd He Hs Hsafe Hinj]. split; [by intros x _ _|by intros n _|done|done|..].
  - intros k Hk. left. by exists k.
  - intros p Hp _. split; [|done]. unfold last_block. rewrite decide_False by lia.
    apply Z.div_le_mono; lia.
Qed.

Lemma inode_sector_eq f : 0 <= f_inode_offset f < SC_INODE -> 513 <= inode_sector f < 769.
Proof.
  unfold SC_INODE, inode_sector, LOC_INODE. intros. rewrite i32_id by (unfold is_i32; lia). lia.
Qed.

Lemma dir_sector_eq f : 0 <= f_dir_offset f < 256 -> 257 <= dir_sector f < 513.
Proof.
  unfold dir_sector, LOC_DIR. intros. rewrite i32_id by (unfold is_i32; lia). lia.
Qed.

(** Saving an inode: [readINode; ...; saveINode]. *)
Lemma inode_of_save d d1 f ino :
  drive_ok -> 0 <= f_inode_offset f < SC_INODE -> length ino = SECTSIZE ->
  d1 = writesect ino (inode_sector f) d ->
  inode_of d1 f = ino /\ agree_on (fun x => x <> inode_sector f) d d1 /\
  forall n, 0 <= n < 4096 -> disk_bit d1 n = disk_bit d n.
Proof.
  intros Hdr Hf Hl ->. pose proof (inode_sector_eq _ Hf) as Hs. unfold drive_ok in Hdr.
  assert (Hv : valid_sector (inode_sector f)) by (unfold valid_sector; lia).
  assert (Hag : agree_on (fun x => x <> inode_sector f) d (writesect ino (inode_sector f) d)).
  { intros x Hx Hne. by apply readsect_writesect_ne. }
  split_and!; [by apply readsect_writesect_eq|exact Hag|].
  intros n Hn. apply disk_bit_agree; [done|]. apply Hag; [unfold valid_sector|]; lia.
Qed.

Lemma prepared_grown d f len (d1 d2 : Z) d' ino' (K := d2) :
  drive_ok -> FileOk d f -> 0 <= d1 -> d2 < 128 -> d1 <= last_block f + 1 -> last_block f <= d2 ->
  (forall p, 0 <= p < f_file_size f -> p < f_offset f \/ f_offset f + len <= p -> p / 512 < d1) ->
  grown (inode_sector f) d1 d2 d (inode_of d f) d' ino' ->
  prepared d f len K (writesect ino' (inode_sector f) d').
Proof.
  intros Hdr [Hi Hdi He Hs Hsafe Hinj] H1 H2 Hlb Hlb2 Hkeep [G1 G2 G3 G4 G5 G6 _].
  destruct (inode_of_save d' _ f ino' Hdr Hi G6 eq_refl) as (Ei & Hag & Hbit).
  set (dP := writesect ino' (inode_sector f) d') in *. rewrite <- Ei in *.
  assert (Hlow : forall k, 0 <= k < d1 -> block_sector (inode_of dP f) k = block_sector (inode_of d f) k
    /\ safe_sector (block_sector (inode_of d f) k) /\ disk_bit d (block_sector (inode_of d f) k) = true).
  { intros k Hk. split; [apply G4; lia|]. apply Hsafe. lia. }
  split.
  - intros x Hx Hx12. rewrite Hag by (try apply Hx12; done). by apply G1.
  - intros n Hn Hb. rewrite Hbit by done. by apply G2.
  - intros k Hk. destruct (decide (k < d1)) as [Hlt|Hge].
    + destruct (Hlow k) as (E & S1 & S2); [lia|]. rewrite E. split; [done|].
      unfold safe_sector in S1. rewrite Hbit by lia. apply G2; [lia|done].
    + destruct (G3 k) as (S1 & _ & S3); [unfold K in *; lia|]. split; [done|].
      unfold safe_sector in S1. by rewrite Hbit by lia.
  - intros a b Ha Hb E.
    destruct (decide (a < d1)) as [Ha1|Ha1], (decide (b < d1)) as [Hb1|Hb1].
    + apply Hinj; [lia|lia|]. destruct (Hlow a) as [<- _]; [lia|]. by destruct (Hlow b) as [<- _]; [lia|].
    + destruct (Hlow a) as (Ea & _ & Ta); [lia|]. destruct (G3 b) as (_ & Fb & _); [unfold K in *; lia|].
      by rewrite <- E, Ea, Ta in Fb.
    + destruct (Hlow b) as (Eb & _ & Tb); [lia|]. destruct (G3 a) as (_ & Fa & _); [unfold K in *; lia|].
      by rewrite E, Eb, Tb in Fa.
    + apply G5; [unfold K in *; lia..|done].
  - intros k Hk. destruct (decide (k < d1)) as [Hlt|Hge].
    + left. exists k. split; [lia|]. apply Hlow. lia.
    + right. apply G3. unfold K in *. lia.
  - intros p Hp Hpo. specialize (Hkeep p Hp Hpo). pose proof (Z.div_pos p 512 ltac:(lia) ltac:(lia)).
    split; [|apply Hlow; lia].
    assert (p / 512 <= last_block f); [|lia].
    unfold last_block. rewrite decide_False by lia. apply Z.div_le_mono; lia.
Qed.
End grow.
