(* ===== verification/FsWriteKr.v ===== *)
(** * [fs_write_kr]

    The whole write: blocks are allocated, the directory entry is updated,
    the bytes land in the file, and nothing else that is in use on the disk
    changes. *)

From S2P Require Import Prelude Bytes Disk FileSys FsRead FsWrite FsAlloc FsGrow.

Section write_kr.
Context {D : Type} `{!AtaDevice D}.
Implicit Types (d : D) (s : fsst D) (ino : list byte).

(** The stream once its size accounts for the write. *)
Definition resized (f : FILE_STREAM) (len : Z) : FILE_STREAM :=
  set_file_size (Z.max (f_file_size f) (f_offset f + len)) f.

(** The blocks [0..K] are enough for the write, and they are what the new
    size calls for unless this is a first write of exactly one block. *)
Record enough (f : FILE_STREAM) (len K : Z) : Prop := {
  en_max : K < 128;
  en_fit : f_offset f + len <= 512 * (K + 1);
  en_last : f_offset f mod 512 + len <= 512 \/ f_offset f + len < 512 * (K + 1);
  en_exact : ~ (f_file_size f = 0 /\ len = 512) -> K = last_block (resized f len) }.

Record write_pre d (f : FILE_STREAM) (len : Z) : Prop := {
  wp_drive : drive_ok (D := D);
  wp_file : FileOk d f;
  wp_off : 0 <= f_offset f <= f_file_size f;
  wp_len : 0 < len;
  wp_end : f_offset f + len < 65536;
  wp_free : has_free d (Z.to_nat ((f_offset f + len) / 512 - f_offset f / 512 + 1)) }.

Lemma drive_sector1 : drive_ok (D := D) -> valid_sector 1.
Proof. unfold drive_ok, valid_sector. lia. Qed.

Lemma last_block_resized f len :
  0 <= f_offset f -> 0 < len -> 0 <= f_file_size f ->
  last_block (resized f len) = Z.max (f_file_size f) (f_offset f + len) / 512.
Proof. intros. unfold last_block, resized. simpl. by rewrite decide_False by lia. Qed.

(** No allocation. *)
Lemma enough_same f len :
  0 <= f_offset f -> 0 < len -> f_file_size f < 65536 -> f_offset f + len <= f_file_size f ->
  enough f len (last_block f).
Proof.
  intros Ho Hl Hs Hle. pose proof (Z.div_mod (f_file_size f) 512 ltac:(lia)).
  pose proof (Z.mod_pos_bound (f_file_size f) 512 ltac:(lia)).
  assert (E : last_block f = f_file_size f / 512) by (unfold last_block; by rewrite decide_False by lia).
  rewrite E. split; [lia|lia|right; lia|]. intros _. rewrite last_block_resized by lia.
  by rewrite Z.max_l by lia.
Qed.

Lemma enough_grow f len :
  0 <= f_offset f -> 0 < len -> f_offset f + len < 65536 -> 0 <= f_file_size f < f_offset f + len ->
  enough f len ((f_offset f + len) / 512).
Proof.
  intros Ho Hl Hs Hle. pose proof (Z.div_mod (f_offset f + len) 512 ltac:(lia)).
  pose proof (Z.mod_pos_bound (f_offset f + len) 512 ltac:(lia)).
  split; [lia|lia|right; lia|]. intros _. rewrite last_block_resized by lia.
  by rewrite Z.max_r by lia.
Qed.

Lemma fs_insert_self fd f s :
  fs_fs s !! Z.to_nat fd = Some f -> <[Z.to_nat fd := f]> (fs_fs s) = fs_fs s.
Proof. apply list_insert_id. Qed.

(** The outcome of [write_first] and [write_extend] together. *)
Definition alloc_post (fd : Z) (f : FILE_STREAM) (len : Z) s s' : Prop :=
  exists K, prepared (fs_disk s) f len K (fs_disk s') /\ enough f len K /\
    fs_fs s' = <[Z.to_nat fd := resized f len]> (fs_fs s) /\
    length (fs_bitmap s') = BITMAP_BYTES.

Lemma wp_write_first_skip fd f s len (Q : unit -> fsst D -> Prop) J :
  0 <= fd -> fs_fs s !! Z.to_nat fd = Some f -> f_file_size f <> 0 -> Q tt s ->
  wp (write_first fd len) Q J s.
Proof. intros Hfd Hf Hne HQ. unfold write_first. fs_step. rewrite decide_False by done. by apply wp_ret. Qed.

Lemma wp_write_extend_skip fd f s len (Q : unit -> fsst D -> Prop) J :
  0 <= fd -> fs_fs s !! Z.to_nat fd = Some f -> u32 (f_offset f + len) <= f_file_size f -> Q tt s ->
  wp (write_extend fd len) Q J s.
Proof.
  intros Hfd Hf Hne HQ. unfold write_extend. fs_step. rewrite (proj2 (Z.ltb_ge _ _)) by done.
  by apply wp_ret.
Qed.

Lemma wp_saveINode n s (Q : unit -> fsst D -> Prop) J :
  Q tt (with_disk (writesect (fs_inode s) (LOC_INODE (i32 n)) (fs_disk s)) s) -> wp (saveINode n) Q J s.
Proof. done. Qed.

(** The loop of [write_extend] on the disk [s] has, saved. *)
Lemma wp_write_extend fd f s len (Q : unit -> fsst D -> Prop) J :
  drive_ok (D := D) -> 0 <= fd -> fs_fs s !! Z.to_nat fd = Some f -> 0 <= f_offset f -> 0 < len ->
  f_file_size f < f_offset f + len < 65536 -> length (fs_bitmap s) = BITMAP_BYTES ->
  has_free (fs_disk s) (Z.to_nat ((f_offset f + len) / 512 - f_offset f / 512)) ->
  (forall d' ino' m b, length m = BITMAP_BYTES ->
     grown (inode_sector f) (f_offset f / 512 + 1) ((f_offset f + len) / 512)
       (fs_disk s) (inode_of (fs_disk s) f) d' ino' ->
     Q tt (with_disk (writesect ino' (inode_sector f) d') (with_inode ino' (with_bitmap m (with_buffer b
       (with_fs (<[Z.to_nat fd := set_file_size (f_offset f + len) f]> (fs_fs s)) s)))))) ->
  wp (write_extend fd len) Q J s.
Proof.
  intros Hdr Hfd Hf Ho Hl Hsz Hm Hfree HQ. unfold write_extend. fs_step.
  rewrite u32_id by (unfold is_u32; lia). rewrite (proj2 (Z.ltb_lt _ _)) by lia.
  fs_step. rewrite !Z.shiftr_div_pow2 by lia. change (2 ^ 9) with 512.
  pose proof (Z.div_pos (f_offset f) 512 ltac:(lia) ltac:(lia)).
  assert ((f_offset f + len) / 512 < 128) by (apply Z.div_lt_upper_bound; lia).
  apply wp_bind. eapply (wp_grow_loop (inode_sector f)).
  - lia.
  - done.
  - unfold blocks_fuel. lia.
  - unfold blocks_fuel. lia.
  - exact Hm.
  - apply length_readsect.
  - by apply drive_sector1.
  - simpl. eapply has_free_le; [|exact Hfree]. lia.
  - intros d' ino' m Hm' Hg. apply wp_bind, wp_saveINode.
    eapply wp_upd_stream; [done|exact Hf|].
    apply (HQ d' ino' m (fs_buffer s) Hm' Hg).
Qed.

Lemma wp_write_first fd f s len (Q : unit -> fsst D -> Prop) J :
  drive_ok (D := D) -> 0 <= fd -> fs_fs s !! Z.to_nat fd = Some f -> f_file_size f = 0 ->
  0 < len < 65536 -> length (fs_bitmap s) = BITMAP_BYTES -> has_free (fs_disk s) 1 ->
  (forall d' ino' m, length m = BITMAP_BYTES ->
     grown (inode_sector f) 0 0 (fs_disk s) (inode_of (fs_disk s) f) d' ino' ->
     Q tt (with_disk (writesect ino' (inode_sector f) d') (with_inode ino' (with_bitmap m
       (with_fs (<[Z.to_nat fd := set_file_size (Z.min len 512) f]> (fs_fs s)) s))))) ->
  wp (write_first fd len) Q J s.
Proof.
  intros Hdr Hfd Hf H0 Hl Hm Hfree HQ. unfold write_first. fs_step. rewrite decide_True by done.
  fs_step. apply wp_bind. eapply wp_dataAlloc_safe; [exact Hm|by apply drive_sector1|exact Hfree|].
  intros j m d' Hm' Hj Hb Hd'. apply wp_bind, wp_modify. apply wp_bind, wp_saveINode.
  eapply wp_upd_stream; [done|exact Hf|].
  assert (E : (if 512 <? len then 512 else u32 len) = Z.min len 512).
  { rewrite u32_id by (unfold is_u32; lia). destruct (Z.ltb_spec 512 len); lia. }
  rewrite E. simpl. apply (HQ d' _ m Hm'). apply (grown_one _ 0);
    [by apply drive_sector1|lia|apply length_readsect|exact Hj|exact Hb|exact Hd'].
Qed.

Lemma grown_save f a b d ino d' ino' :
  drive_ok (D := D) -> 0 <= f_inode_offset f < SC_INODE ->
  grown (inode_sector f) a b d ino d' ino' ->
  grown (inode_sector f) a b d ino (writesect ino' (inode_sector f) d') ino' /\
  inode_of (writesect ino' (inode_sector f) d') f = ino'.
Proof.
  intros Hdr Hi [G1 G2 G3 G4 G5 G6 G7].
  destruct (inode_of_save d' _ f ino' Hdr Hi G6 eq_refl) as (Ei & Hag & Hbit).
  split; [|exact Ei]. split; try done.
  - intros x Hx Hx'. rewrite Hag by (done || apply Hx'). by apply G1.
  - intros n Hn Hb. rewrite Hbit by done. by apply G2.
  - intros k Hk. destruct (G3 k Hk) as (S1 & S2 & S3). split_and!; [done|done|].
    unfold safe_sector in S1. by rewrite Hbit by lia.
  - intros n Hf. destruct (G7 n Hf) as (l & Hnd & Hl & Hb). exists l. split_and!; [done|done|].
    intros j Hj. destruct (Hb j Hj) as [Hr Hbj]. split; [done|].
    unfold SAFE_BLOCKS, LOC_DATA in *. by rewrite Hbit by lia.
Qed.

Lemma resized_same f len : f_offset f + len <= f_file_size f -> resized f len = f.
Proof. intros H. unfold resized. rewrite Z.max_l by lia. by destruct f. Qed.

Lemma wp_write_alloc fd f s len (Q : unit -> fsst D -> Prop) J :
  0 <= fd -> fs_fs s !! Z.to_nat fd = Some f -> write_pre (fs_disk s) f len ->
  length (fs_bitmap s) = BITMAP_BYTES ->
  (forall s', alloc_post fd f len s s' -> Q tt s') ->
  wp (write_first fd len;; write_extend fd len) Q J s.
Proof.
  intros Hfd Hf [Hdr Hok Ho Hl He Hfree] Hm HQ. apply wp_bind.
  pose proof (fo_inode _ _ Hok) as Hi. pose proof (fo_size _ _ Hok) as Hsz.
  pose proof (Z.div_pos (f_offset f) 512 ltac:(lia) ltac:(lia)).
  destruct (decide (f_file_size f = 0)) as [Hz|Hz].
  - assert (Hoz : f_offset f = 0) by lia. rewrite Hoz, Z.add_0_l in Hfree. change (0 / 512) with 0 in Hfree.
    pose proof (Z.div_pos len 512 ltac:(lia) ltac:(lia)).
    assert (Hlb : last_block f = -1) by (unfold last_block; by rewrite decide_True).
    eapply wp_write_first; [exact Hdr|done|exact Hf|done|lia|exact Hm| |].
    { eapply has_free_le; [|exact Hfree]. lia. }
    intros d1 ino1 m1 Hm1 Hg1. destruct (grown_save f _ _ _ _ _ _ Hdr Hi Hg1) as [Hg1' Ei1].
    set (d1s := writesect ino1 (inode_sector f) d1) in *.
    set (f1 := set_file_size (Z.min len 512) f).
    assert (Hf1 : <[Z.to_nat fd := f1]> (fs_fs s) !! Z.to_nat fd = Some f1)
      by (apply list_lookup_insert_eq; by eapply lookup_lt_Some).
    destruct (decide (len <= 512)) as [Hle|Hgt].
    + eapply wp_write_extend_skip; [done|exact Hf1| |].
      { simpl. rewrite u32_id by (unfold is_u32; lia). lia. }
      apply HQ. exists 0. split_and!; [|split| |exact Hm1].
      * apply (prepared_grown _ f len 0 0); try done; intros; lia.
      * lia.
      * lia.
      * rewrite Hoz. left. change (0 mod 512) with 0. lia.
      * intros Hne. rewrite last_block_resized by lia. rewrite Z.max_r by lia.
        symmetry. apply Z.div_small. lia.
      * simpl. unfold f1, resized. do 2 f_equal. lia.
    + assert (Ho1 : f_offset f1 = 0) by exact Hoz.
      eapply wp_write_extend; [exact Hdr|done|exact Hf1|lia|lia|rewrite Ho1; unfold f1; cbn; lia|exact Hm1| |].
      { rewrite Ho1, Z.add_0_l. apply (gr_free _ _ _ _ _ _ _ Hg1').
        change (0 / 512) with 0. change (Z.to_nat (0 - 0 + 1)) with 1%nat.
        by replace (1 + Z.to_nat (len / 512 - 0))%nat with (Z.to_nat (len / 512 - 0 + 1)) by lia. }
      intros d2 ino2 m2 b2 Hm2 Hg2. change (inode_sector f1) with (inode_sector f) in *.
      rewrite Ho1, Z.add_0_l in Hg2. cbn [fs_disk with_disk] in Hg2. fold d1s in Hg2.
      assert (Ei1' : inode_of d1s f1 = ino1) by exact Ei1. rewrite Ei1' in Hg2.
      change (0 / 512 + 1) with (0 + 1) in Hg2.
      assert (len / 512 < 128) by (apply Z.div_lt_upper_bound; lia).
      pose proof (grown_app _ 0 0 (len / 512) _ _ _ _ _ _ ltac:(lia) ltac:(lia) ltac:(lia) Hg1' Hg2) as Hg.
      apply HQ. exists (len / 512). split_and!; [| | |exact Hm2].
      * apply (prepared_grown _ f len 0 (len / 512)); try done; intros; lia.
      * pose proof (enough_grow f len) as He'. rewrite Hoz, Z.add_0_l in He'. apply He'; lia.
      * simpl. rewrite list_insert_insert_eq. unfold f1, resized, set_file_size. simpl.
        do 2 f_equal. lia.
  - eapply wp_write_first_skip; [done|exact Hf|done|].
    assert (Hlb : last_block f = f_file_size f / 512) by (unfold last_block; by rewrite decide_False).
    destruct (decide (f_offset f + len <= f_file_size f)) as [Hle|Hgt].
    + eapply wp_write_extend_skip; [done|exact Hf|rewrite u32_id by (unfold is_u32; lia); lia|].
      apply HQ. exists (last_block f). split_and!; [by apply prepared_same|apply enough_same; lia| |done].
      rewrite resized_same by done. by rewrite list_insert_id.
    + eapply wp_write_extend; [exact Hdr|done|exact Hf|lia|lia|lia|exact Hm| |].
      { eapply has_free_le; [|exact Hfree]. lia. }
      intros d2 ino2 m2 b2 Hm2 Hg2. apply HQ. exists ((f_offset f + len) / 512).
      assert (f_file_size f / 512 <= (f_offset f + len) / 512) by (apply Z.div_le_mono; lia).
      assert (f_offset f / 512 <= f_file_size f / 512) by (apply Z.div_le_mono; lia).
      assert ((f_offset f + len) / 512 < 128) by (apply Z.div_lt_upper_bound; lia).
      split_and!; [|apply enough_grow; lia| |exact Hm2].
      * apply (prepared_grown _ f len (f_offset f / 512 + 1) ((f_offset f + len) / 512));
          try done; try lia.
        intros p Hp [Hpo|Hpo]; [|lia]. pose proof (Z.div_le_mono p (f_offset f) 512). lia.
      * simpl. unfold resized. by rewrite Z.max_r by lia.
Qed.

(** The stream after the write. *)
Definition advanced (f : FILE_STREAM) (len : Z) : FILE_STREAM :=
  set_offset (f_offset f + len) (resized f len).

(** [d'] is [d] after a write of the bytes [bs] through [f]. *)
Record written d (f : FILE_STREAM) (bs : list byte) d' (len := Z.of_nat (length bs)) : Prop := {
  (* the contents: the bytes from the offset on are replaced *)
  wr_content : forall p, 0 <= p < f_file_size (advanced f len) ->
    file_byte d' (inode_of d' f) p =
      if decide (f_offset f <= p < f_offset f + len)
      then default NUL (bs !! Z.to_nat (p - f_offset f)) else file_byte d (inode_of d f) p;
  (* the directory entry has the new size, the rest of its sector is as before *)
  wr_dirent : readsect (dir_sector f) d' =
    wr32 (ent_file_size (Z.to_nat (f_entry_offset f))) (f_file_size (advanced f len))
      (readsect (dir_sector f) d);
  (* what was in use and is not this file's is unchanged and still in use *)
  wr_frame : forall n, valid_sector n -> n <> 1 -> n <> inode_sector f -> n <> dir_sector f ->
    ~ is_block (inode_of d f) (last_block f) n -> (safe_sector n -> disk_bit d n = true) ->
    readsect n d' = readsect n d /\ (safe_sector n -> disk_bit d' n = true);
  (* the file is well formed again, unless one whole block was written to
     an empty file *)
  wr_ok : ~ (f_file_size f = 0 /\ len = 512) -> FileOk d' (advanced f len) }.

Lemma wp_write_dirent fd f s (Q : unit -> fsst D -> Prop) J :
  0 <= fd -> fs_fs s !! Z.to_nat fd = Some f -> 0 <= f_entry_offset f < 16 ->
  (forall dir, Q tt (with_disk (writesect (wr32 (ent_file_size (Z.to_nat (f_entry_offset f))) (f_file_size f)
       (readsect (dir_sector f) (fs_disk s))) (dir_sector f) (fs_disk s)) (with_dir dir s))) ->
  wp (write_dirent fd) Q J s.
Proof.
  intros Hfd Hf He HQ. unfold write_dirent. fs_step. apply wp_bind. unfold readDir, read_at.
  apply wp_bind, wp_gets, wp_modify. apply wp_bind.
  assert (E : (Z.to_nat (f_entry_offset f) <? NR_ENTRIES)%nat = true).
  { apply Nat.ltb_lt. unfold NR_ENTRIES. lia. }
  rewrite E. apply wp_modify. unfold saveDir, write_at. fs_step. apply wp_modify. apply HQ.
Qed.

Lemma agree_bits d d' (P : Z -> Prop) n :
  drive_ok (D := D) -> agree_on P d d' -> P 1 -> 0 <= n < 4096 -> disk_bit d' n = disk_bit d n.
Proof. intros Hdr Hag HP Hn. apply disk_bit_agree; [done|]. apply Hag; [by apply drive_sector1|done]. Qed.

(** The three disks of a write: [dP] after the allocations, [dD] with the
    directory entry saved, [dF] with the bytes written. *)
Lemma written_intro d f bs K dP dD dF (len := Z.of_nat (length bs)) (ino := inode_of dP f) :
  write_pre d f len -> prepared d f len K dP -> enough f len K ->
  dD = writesect (wr32 (ent_file_size (Z.to_nat (f_entry_offset f))) (f_file_size (resized f len))
         (readsect (dir_sector f) dP)) (dir_sector f) dP ->
  Patched ino K dD dF (f_offset f) bs ->
  written d f bs dF.
Proof.
  intros [Hdr Hok Ho Hl Hend _] [P1 P2 P3 P4 P5 P6] [N1 N2 N3 N4] HdD [T1 T2].
  pose proof SECTSIZE_Z as HSZ.
  pose proof (inode_sector_eq f (fo_inode _ _ Hok)) as Hi.
  pose proof (dir_sector_eq f (fo_dir _ _ Hok)) as Hd.
  pose proof (fo_entry _ _ Hok) as He. pose proof (fo_size _ _ Hok) as Hsz.
  assert (Hdl : valid_sector (dir_sector f)) by (unfold valid_sector, drive_ok in *; lia).
  assert (Hil : valid_sector (inode_sector f)) by (unfold valid_sector, drive_ok in *; lia).
  assert (Hwl : forall v, length (wr32 (ent_file_size (Z.to_nat (f_entry_offset f))) v
    (readsect (dir_sector f) dP)) = SECTSIZE).
  { intros v. rewrite length_wr32, length_readsect; [done|].
    rewrite length_readsect. unfold ent_file_size, DIRENT, LEN_FILENAME. lia. }
  assert (HD : agree_on (fun x => x <> dir_sector f) dP dD).
  { intros x Hx Hne. rewrite HdD. by apply readsect_writesect_ne. }
  assert (HF : forall x, valid_sector x -> (forall k, 0 <= k <= K -> x <> block_sector ino k) ->
    readsect x dF = readsect x dD) by exact T2.
  assert (Hlow : forall x, valid_sector x -> x < 769 -> readsect x dF = readsect x dD).
  { intros x Hx Hlt. apply HF; [done|]. intros k Hk ->. destruct (P3 k Hk) as [[? _] _].
    unfold ino in *. lia. }
  assert (Eino : inode_of dF f = ino).
  { unfold ino, inode_of. change (LOC_INODE (i32 (f_inode_offset f))) with (inode_sector f).
    rewrite Hlow by (done || lia). apply HD; [done|lia]. }
  assert (HbitP : forall n, 0 <= n < 4096 -> disk_bit dF n = disk_bit dP n).
  { intros n Hn. apply disk_bit_agree; [done|]. pose proof (drive_sector1 Hdr).
    rewrite Hlow by (done || lia). apply HD; [done|lia]. }
  assert (Hsafe : forall n, safe_sector n -> valid_sector n /\ 0 <= n < 4096 /\ 769 <= n).
  { unfold safe_sector, valid_sector, drive_ok in *. lia. }
  split.
  - intros p Hp. rewrite Eino. simpl in Hp. destruct (decide (f_offset f <= p < f_offset f + len)) as [Hin|Hout].
    + rewrite T1 by lia. by rewrite !decide_True by exact Hin.
    + destruct (P6 p) as [Hk E]; [lia|lia|]. pose proof (Z.div_pos p 512 ltac:(lia) ltac:(lia)).
      pose proof (Z.div_mod p 512 ltac:(lia)). pose proof (Z.mod_pos_bound p 512 ltac:(lia)).
      rewrite T1 by lia. rewrite !decide_False by exact Hout. unfold file_byte.
      fold ino in E. destruct (P3 (p / 512)) as [Hs _]; [lia|]. fold ino in Hs.
      destruct (Hsafe _ Hs) as (Hv & _ & Hge).
      rewrite HD by (done || lia). rewrite P1 by (done || lia). by rewrite E.
  - rewrite Hlow by (done || lia). rewrite HdD, readsect_writesect_eq by (done || apply Hwl).
    rewrite P1; [done|done|]. lia.
  - intros n Hn Hn1 Hni Hnd Hnb Hns.
    assert (Hnk : forall k, 0 <= k <= K -> n <> block_sector ino k).
    { intros k Hk ->. destruct (P3 k Hk) as [Hs _]. fold ino in Hs. specialize (Hns Hs).
      destruct (P5 k Hk) as [Hown|Hfree]; [by apply Hnb|]. fold ino in Hfree. by rewrite Hns in Hfree. }
    split; [rewrite HF, HD, P1 by done; done|]. intros Hs. destruct (Hsafe _ Hs) as (_ & Hr & _).
    rewrite HbitP by done. apply P2; [done|]. by apply Hns.
  - intros Hne. change (FileOk dF (advanced f len)). assert (EK : last_block (advanced f len) = K) by (symmetry; by apply N4).
    assert (Eino' : inode_of dF (advanced f len) = ino) by exact Eino.
    destruct Hok as [O1 O2 O3 O4 O5 O6]. split; [exact O1|exact O2|exact O3|simpl; lia|..].
    + rewrite EK, Eino'. intros k Hk. destruct (P3 k Hk) as [Hs Hb]. split; [done|].
      destruct (Hsafe _ Hs) as (_ & Hr & _). by rewrite HbitP.
    + rewrite EK, Eino'. exact P4.
Qed.

Lemma wp_fs_write fd f s buf len (Q : Z -> fsst D -> Prop) J :
  0 <= fd -> fs_fs s !! Z.to_nat fd = Some f -> write_pre (fs_disk s) f len ->
  length (fs_bitmap s) = BITMAP_BYTES -> len <= Z.of_nat (length buf) < 2 ^ 31 ->
  (forall s', written (fs_disk s) f (slice 0 (Z.to_nat len) buf) (fs_disk s') ->
     fs_fs s' = <[Z.to_nat fd := advanced f len]> (fs_fs s) ->
     length (fs_bitmap s') = BITMAP_BYTES -> Q len s') ->
  wp (fs_write_kr fd buf len) Q J s.
Proof.
  intros Hfd Hf Hpre Hm Hb HQ.
  pose proof (wp_write_alloc fd f s len) as Halloc.
  assert (Hk : wp (write_first fd len;; write_extend fd len)
    (fun _ s1 => wp (write_dirent fd;; fs_write_base_kr fd buf len;; mret len) Q J s1) J s).
  { apply Halloc; [done|done|done|done|]. clear Halloc. intros s1 (K & Hp & Hen & Hfs & Hm1).
    pose proof (wp_len _ _ _ Hpre) as Hl. pose proof (wp_off _ _ _ Hpre) as Ho.
    pose proof (wp_end _ _ _ Hpre) as He. pose proof (wp_file _ _ _ Hpre) as Hok.
    pose proof (wp_drive _ _ _ Hpre) as Hdr.
    assert (Hf1 : fs_fs s1 !! Z.to_nat fd = Some (resized f len)).
    { rewrite Hfs. apply list_lookup_insert_eq. by eapply lookup_lt_Some. }
    apply wp_bind. eapply wp_write_dirent; [done|exact Hf1|apply (fo_entry _ _ Hok)|].
    intros dir. set (dD := writesect _ _ (fs_disk s1)).
    pose proof (inode_sector_eq f (fo_inode _ _ Hok)) as Hi.
    pose proof (dir_sector_eq f (fo_dir _ _ Hok)) as Hd.
    assert (Eino : inode_of dD f = inode_of (fs_disk s1) f).
    { unfold dD, inode_of. apply readsect_writesect_ne; unfold valid_sector, drive_ok in *;
        change (LOC_INODE (i32 (f_inode_offset f))) with (inode_sector f);
        change (dir_sector (resized f len)) with (dir_sector f); lia. }
    destruct Hp as [P1 P2 P3 P4 P5 P6] eqn:HpE. destruct Hen as [N1 N2 N3 N4] eqn:HenE.
    apply wp_bind. eapply (wp_fs_write_base _ _ K); [done|exact Hf1| |exact N1|simpl; lia|done|exact N2|exact N3|lia|lia|].
    { change (inode_of dD (resized f len)) with (inode_of dD f). cbn [fs_disk with_disk].
      change (inode_of dD (resized f len)) with (inode_of dD f). rewrite Eino.
      split; [|exact P4]. intros k Hk. destruct (P3 k Hk) as [Hs _].
      unfold safe_sector, valid_sector, drive_ok in *. lia. }
    cbn [fs_disk with_disk]. change (inode_of dD (resized f len)) with (inode_of dD f). rewrite Eino.
    intros s2 (dF & b & HP & ->). apply wp_ret. cbn [fs_disk with_inode with_disk] in HP.
    assert (Hlen : Z.of_nat (length (slice 0 (Z.to_nat len) buf)) = len)
      by (rewrite length_slice; lia).
    apply HQ.
    - cbn [fs_disk with_disk]. eapply (written_intro _ _ _ K _ dD); rewrite ?Hlen; [exact Hpre|exact Hp|exact Hen|done|exact HP].
    - cbn [fs_fs with_disk with_buffer with_fs with_inode with_dir]. rewrite Hfs, list_insert_insert_eq. done.
    - exact Hm1. }
  revert Hk. unfold fs_write_kr, wp, mbind, M_bind. destruct (write_first fd len s); [|done..].
  by destruct (write_extend fd len s0).
Qed.
End write_kr.
