(* ===== verification/FsOpen.v ===== *)
(** * Finding and creating directory entries *)

From S2P Require Import Prelude Bytes Disk FileSys FsRead FsWrite FsAlloc.

(** Entry order of a directory scan. *)
Definition entry_lt (k : Z) (e : nat) (k' : Z) (e' : nat) : Prop := k < k' \/ (k = k' /\ (e < e')%nat).

(** Unused streams are those whose [used] byte is 0. *)
Definition stream_free (f : FILE_STREAM) : bool := Byte.eqb (f_used f) NUL.

Section scan.
Context {D : Type} `{!AtaDevice D}.
Implicit Types (d : D) (s : fsst D).
Context (test : list byte -> nat -> option bool).

(** The test on entry [e] of directory sector [k]. *)
Definition entry_test d (k : Z) (e : nat) : option bool := test (readsect (LOC_DIR k) d) e.

Lemma wp_scan_entries n e s (Q : option nat -> fsst D -> Prop) J :
  (forall e', (e <= e' < e + n)%nat -> is_Some (test (fs_dir s) e')) ->
  (forall e', (e <= e' < e + n)%nat -> test (fs_dir s) e' = Some true ->
     (forall j, (e <= j < e')%nat -> test (fs_dir s) j = Some false) -> Q (Some e') s) ->
  ((forall j, (e <= j < e + n)%nat -> test (fs_dir s) j = Some false) -> Q None s) ->
  wp (scan_entries test n e) Q J s.
Proof.
  revert e. induction n as [|n IH]; intros e Htot HS HN; simpl.
  - apply wp_ret, HN. lia.
  - apply wp_bind, wp_get. destruct (Htot e) as [b Hb]; [lia|].
    apply wp_bind. eapply wp_from_option; [exact Hb|]. destruct b.
    + apply wp_ret. apply HS; [lia|done|lia].
    + apply IH.
      * intros e' He'. apply Htot. lia.
      * intros e' He' Ht Hlt. apply HS; [lia|done|]. intros j Hj.
        destruct (decide (j = e)) as [->|]; [done|]. apply Hlt. lia.
      * intros Hall. apply HN. intros j Hj. destruct (decide (j = e)) as [->|]; [done|]. apply Hall. lia.
Qed.

Lemma wp_scan_dirs n k s (Q : option (Z * nat) -> fsst D -> Prop) J :
  (forall k' e, k <= k' < k + Z.of_nat n -> (e < NR_ENTRIES)%nat -> is_Some (entry_test (fs_disk s) k' e)) ->
  (forall k' e, k <= k' < k + Z.of_nat n -> (e < NR_ENTRIES)%nat -> entry_test (fs_disk s) k' e = Some true ->
     (forall k2 e2, k <= k2 -> (e2 < NR_ENTRIES)%nat -> entry_lt k2 e2 k' e ->
        entry_test (fs_disk s) k2 e2 = Some false) ->
     Q (Some (k', e)) (with_dir (readsect (LOC_DIR k') (fs_disk s)) s)) ->
  ((forall k' e, k <= k' < k + Z.of_nat n -> (e < NR_ENTRIES)%nat -> entry_test (fs_disk s) k' e = Some false) ->
     forall dir, Q None (with_dir dir s)) ->
  wp (scan_dirs test n k) Q J s.
Proof.
  revert k s. induction n as [|n IH]; intros k s Htot HS HN; cbn [scan_dirs].
  - apply wp_ret. specialize (HN ltac:(lia) (fs_dir s)). by destruct s.
  - apply wp_bind. unfold readDir, read_at. apply wp_bind, wp_gets, wp_modify. apply wp_bind.
    apply wp_scan_entries; cbn [fs_dir with_dir].
    + intros e' He'. apply (Htot k); lia.
    + intros e' He' Ht Hlt. apply wp_ret. apply HS; [lia|lia|done|].
      intros k2 e2 Hk2 He2 [Hlt'|[-> Hlt']]; [lia|]. apply Hlt. lia.
    + intros Hall. apply IH; cbn [fs_disk with_dir].
      * intros k' e Hk He. apply Htot; [lia|done].
      * intros k' e Hk He Ht Hlt. apply HS; [lia|done|done|].
        intros k2 e2 Hk2 He2 Hl. destruct (decide (k2 = k)) as [->|]; [apply Hall; lia|].
        apply Hlt; [lia|done|done].
      * intros Hall' dir. apply (HN). intros k' e Hk He.
        destruct (decide (k' = k)) as [->|]; [apply Hall; lia|]. apply Hall'; [lia|done].
Qed.
End scan.

Section open.
Context {D : Type} `{!AtaDevice D}.
Implicit Types (d : D) (s : fsst D).

(** The stream [open_stream] fills in for entry [e] of the sector [dir]. *)
Definition opened (dir : list byte) (k : Z) (e : nat) (nm : list byte) : FILE_STREAM :=
  mkStream 0 (rd32 dir (ent_inode_offset e)) (rd32 dir (ent_file_size e)) k (Z.of_nat e) nm.

Lemma wp_open_stream n i k e t s (Q : Z -> fsst D -> Prop) J :
  Forall (fun f => length (f_name f) = 28%nat) (fs_fs s) ->
  0 <= i -> i + Z.of_nat n <= Z.of_nat (length (fs_fs s)) -> is_u32 k ->
  cstring (drop (ent_filename e) (fs_dir s)) = Some t -> (length t <= 28)%nat ->
  (forall j f, i <= j < i + Z.of_nat n -> fs_fs s !! Z.to_nat j = Some f -> stream_free f = true ->
     (forall j' f', i <= j' < j -> fs_fs s !! Z.to_nat j' = Some f' -> stream_free f' = false) ->
     Q j (with_fs (<[Z.to_nat j := opened (fs_dir s) k e (splice 0 t (<[LEN_FILENAME := byte.of_Z 1]> (f_name f)))]> (fs_fs s)) s)) ->
  ((forall j f, i <= j < i + Z.of_nat n -> fs_fs s !! Z.to_nat j = Some f -> stream_free f = false) -> Q (-1) s) ->
  wp (open_stream n i k e) Q J s.
Proof.
  intros Hnm. revert i. induction n as [|n IH]; intros i Hi Hn Hk Ht Htl HS HN; simpl.
  - apply wp_ret, HN. lia.
  - destruct (lookup_lt_is_Some_2 (fs_fs s) (Z.to_nat i)) as [f Hf]; [lia|].
    assert (Hlt : (Z.to_nat i < length (fs_fs s))%nat) by lia.
    assert (Hfl : length (f_name f) = 28%nat) by (by apply (Forall_lookup_1 _ _ _ _ Hnm Hf)).
    eapply wp_bind, wp_get_stream; [done|exact Hf|]. fold (stream_free f).
    destruct (stream_free f) eqn:E.
    + eapply wp_bind, wp_upd_stream; [done|exact Hf|]. apply wp_bind, wp_get. cbn [fs_dir with_fs].
      eapply wp_bind, wp_upd_stream; [done|by apply list_lookup_insert_eq|].
      eapply wp_bind, wp_get_stream;
        [done|cbn [fs_fs with_fs]; apply list_lookup_insert_eq; by rewrite length_insert|].
      apply wp_bind. eapply wp_from_option.
      { unfold strcpy. rewrite Ht. simpl. apply csplice_Some; [done|]. rewrite length_insert. lia. }
      do 4 (eapply wp_bind, wp_upd_stream;
        [done|cbn [fs_fs with_fs]; apply list_lookup_insert_eq; by rewrite !length_insert|]).
      eapply wp_bind, wp_upd_stream;
        [done|cbn [fs_fs with_fs]; apply list_lookup_insert_eq; by rewrite !length_insert|].
      apply wp_ret. specialize (HS i f ltac:(lia) Hf E ltac:(lia)).
      cbn [fs_fs with_fs]. rewrite !list_insert_insert_eq, (u32_id k) by done. exact HS.
    + apply IH; [lia|lia|done|done|done|..].
      * intros j g Hj Hg Hfree Hlt'. apply (HS j g); [lia|done|done|].
        intros j' g' Hj' Hg'. destruct (decide (j' = i)) as [->|].
        { rewrite Hf in Hg'. by injection Hg' as <-. }
        apply (Hlt' j' g'); [lia|done].
      * intros Hall. apply HN. intros j g Hj Hg. destruct (decide (j = i)) as [->|].
        { rewrite Hf in Hg. by injection Hg as <-. }
        apply (Hall j g); [lia|done].
Qed.

(** The table of streams between calls. *)
Definition table_ok s : Prop :=
  length (fs_fs s) = NR_FILE_STREAM /\ Forall (fun f => length (f_name f) = 28%nat) (fs_fs s).

(** Entry [e] of directory sector [k] carries the name [filename]. *)
Definition names d (filename : list byte) (k : Z) (e : nat) : Prop :=
  entry_test (name_is filename) d k e = Some true.

Lemma names_cstring d filename k e :
  names d filename k e ->
  exists t, cstring filename = Some t /\
    cstring (drop (ent_filename e) (readsect (LOC_DIR k) d)) = Some t.
Proof.
  unfold names, entry_test, name_is. intros H. apply fmap_Some in H as (z & Hz & Hb).
  symmetry in Hb. apply bool_decide_eq_true in Hb as ->.
  revert filename Hz. generalize (drop (ent_filename e) (readsect (LOC_DIR k) d)).
  intros l. induction l as [|c1 l IH]; intros [|c2 fl]; simpl; try done.
  destruct (Byte.eqb c1 NUL) eqn:E1; simpl.
  - apply byte_eqb_eq in E1 as ->. intros [= Hz].
    assert (c2 = NUL) as ->. { apply byte.unsigned_inj. lia. }
    rewrite byte_eqb_refl. by eexists.
  - destruct (Byte.eqb c1 c2) eqn:E12.
    + apply byte_eqb_eq in E12 as ->. intros Hz. destruct (IH _ Hz) as (t & -> & ->).
      rewrite E1. simpl. by eexists.
    + intros [= Hz]. apply byte_eqb_neq in E12. destruct E12. apply byte.unsigned_inj. lia.
Qed.

(** What follows a name does not matter. *)
Lemma strcmp_rest l nm rest : strcmp l (nm ++ NUL :: rest) = strcmp l (nm ++ [NUL]).
Proof.
  revert l. induction nm as [|x nm IH]; intros [|y l]; cbn [strcmp app]; [done| |done|].
  - destruct (Byte.eqb y NUL); done.
  - by rewrite IH.
Qed.

Lemma scan_dirs_ext (t t' : list byte -> nat -> option bool) n k s : (forall l e, t' l e = t l e) ->
  scan_dirs t' n k s = scan_dirs t n k s.
Proof.
  intros E. assert (He : forall n e s, scan_entries t' n e s = scan_entries t n e s).
  { clear n k s. induction n as [|n IH]; intros e s; [done|]. cbn [scan_entries]. unfold mbind, M_bind, get. rewrite E.
    destruct (t (fs_dir s) e) as [[]|]; [done| |done]. apply IH. }
  revert k s. induction n as [|n IH]; intros k s; [done|]. cbn [scan_dirs]. unfold mbind, M_bind.
  destruct (readDir k s) as [[] s'|s'|e]; [|done..]. rewrite He. destruct (scan_entries t _ _ s') as [[e|] s''|s''|e]; [done|apply IH|done..].
Qed.

Lemma wp_open_rest nm rest s (Q : Z -> fsst D -> Prop) J : wp (fs_open_kr (nm ++ [NUL])) Q J s -> wp (fs_open_kr (nm ++ NUL :: rest)) Q J s.
Proof.
  unfold wp, fs_open_kr, mbind, M_bind. rewrite (scan_dirs_ext (name_is (nm ++ [NUL])) (name_is (nm ++ NUL :: rest))); [done|].
  intros l e. unfold name_is. by rewrite strcmp_rest.
Qed.
End open.
