(* ===== verification/DemoFs.v ===== *)
(** * A drive and a small file system to instantiate the theorems at *)

From S2P Require Import Prelude Bytes Disk FileSys FsRead FsWrite FsAlloc FsGrow FsWriteKr.

(** A drive of 33537 sectors, the size [formatter] makes; sectors never
    written read as zeros. *)
Definition sector_words (ws : list Z) : list Z := take 128 ((u32 <$> ws) ++ replicate 128 0).

Lemma sector_words_length ws : length (sector_words ws) = 128%nat.
Proof. unfold sector_words. rewrite length_take, length_app, length_replicate. lia. Qed.

Lemma sector_words_u32 ws : Forall is_u32 (sector_words ws).
Proof.
  apply Forall_take, Forall_app. split.
  - apply Forall_fmap, Forall_forall. intros x _. apply u32_range.
  - apply Forall_replicate. unfold is_u32. lia.
Qed.

Lemma sector_words_id ws : length ws = 128%nat -> Forall is_u32 ws -> sector_words ws = ws.
Proof.
  intros Hl Hw. unfold sector_words. rewrite take_app_le by (rewrite length_fmap; lia).
  rewrite firstn_all2 by (rewrite length_fmap; lia).
  rewrite <- (list_fmap_id ws) at 2. apply list_fmap_ext. intros i x Hx. simpl.
  apply u32_id. by apply (Forall_lookup_1 _ _ _ _ Hw Hx).
Qed.

#[global, program] Instance map_drive : AtaDevice (gmap Z (list Z)) := {|
  ata_sectors := 33537;
  ata_read d n := sector_words (default [] (d !! n));
  ata_write d n ws := <[n := ws]> d |}.
Next Obligation. simpl. lia. Qed.
Next Obligation. intros. apply sector_words_length. Qed.
Next Obligation. intros. apply sector_words_u32. Qed.
Next Obligation. intros d n ws _ Hl Hw. cbn. rewrite lookup_insert_eq. by apply sector_words_id. Qed.
Next Obligation. intros d n m ws Hne. cbn. by rewrite lookup_insert_ne. Qed.

(** One file "a" of ten bytes: inode 1, data block 0. *)
Definition free_entry : list Z := [0;0;0;0;0;0;0;0xFFFFFFFF].
Definition demo_disk : gmap Z (list Z) :=
  {[ 1 := <[24%nat := 2]> (<[16%nat := 4]> (replicate 128 0));
     257 := [0x61;0;0;0;0;0;10;1] ++ mjoin (replicate 15 free_entry);
     514 := 0 :: replicate 127 0xFFFFFFFF;
     769 := [0x64636261; 0x68676665; 0x6a69] ]}.

Definition demo_name : list byte := byte.of_Z 0x61 :: replicate 23 NUL ++ [byte.of_Z 1; NUL; NUL; NUL].
Definition demo_file : FILE_STREAM := mkStream 0 1 10 0 0 demo_name.
Definition demo_unused : FILE_STREAM := mkStream 0 0 0 0 0 (replicate 28 NUL).

Definition demo_fs : fsst (gmap Z (list Z)) :=
  mkFs demo_disk (replicate BITMAP_BYTES NUL) (replicate 512 NUL) (replicate 512 NUL) (replicate 512 NUL)
    (demo_file :: replicate 255 demo_unused).

Lemma demo_drive_ok : drive_ok (D := gmap Z (list Z)).
Proof. unfold drive_ok. simpl. lia. Qed.

Lemma demo_FileOk : FileOk demo_disk demo_file.
Proof.
  assert (Hlb : last_block demo_file = 0) by reflexivity.
  split; try (unfold SC_INODE; simpl; lia); rewrite Hlb.
  intros k Hk. assert (k = 0) as -> by lia.
  assert (E : block_sector (inode_of demo_disk demo_file) 0 = 769) by (vm_compute; reflexivity).
  rewrite E. split; [unfold safe_sector; lia|]. vm_compute. reflexivity.
Qed.

Lemma demo_bit_free : disk_bit demo_disk (LOC_DATA 1) = false.
Proof. vm_compute. reflexivity. Qed.

Lemma demo_write_pre : write_pre demo_disk demo_file 4.
Proof.
  split; [apply demo_drive_ok|apply demo_FileOk|simpl; lia|lia|simpl; lia|].
  exists [1]. split_and!; [apply NoDup_singleton|reflexivity|].
  intros j Hj. apply list_elem_of_singleton in Hj as ->. split; [unfold SAFE_BLOCKS; lia|apply demo_bit_free].
Qed.
