(* ===== verification/FsProps.v ===== *)
(** * Properties of the file system *)

From S2P Require Import Prelude Bytes Disk FileSys FsRead FsWrite FsAlloc FsGrow FsWriteKr FsOpen DemoFs.

Section props.
Context {D : Type} `{!AtaDevice D}.
Implicit Types (d : D) (s : fsst D).

(** C18: [fs_write_kr] of [len] bytes through a well-formed stream, with
    enough free blocks below the region the bitmap strays into: it returns
    [len]; the file holds the bytes at the offset and is otherwise
    unchanged, grown if needed; its directory entry has the new size; every
    sector that was in use by something else keeps its contents. *)
Theorem fs_write_correct fd f s buf len :
  0 <= fd -> fs_fs s !! Z.to_nat fd = Some f -> write_pre (fs_disk s) f len ->
  length (fs_bitmap s) = BITMAP_BYTES -> len <= Z.of_nat (length buf) < 2 ^ 31 ->
  wp (fs_write_kr fd buf len) (fun r s' => r = len /\
    written (fs_disk s) f (slice 0 (Z.to_nat len) buf) (fs_disk s') /\
    fs_fs s' = <[Z.to_nat fd := advanced f len]> (fs_fs s)) (fun _ => False) s.
Proof.
  intros Hfd Hf Hpre Hm Hb. eapply wp_fs_write; [done..|].
  intros s' Hw Hfs _. by split_and!.
Qed.

(** C19: [fs_read_kr] returns the number of bytes read, the bytes of the
    file from the offset on, up to the end of the file, and advances the
    stream; at the end of the file it returns -1 and changes nothing.  The
    disk is not written. *)
Theorem fs_read_correct fd f s buf len :
  0 <= fd -> fs_fs s !! Z.to_nat fd = Some f ->
  0 <= f_offset f <= f_file_size f -> f_file_size f < 65536 -> 0 <= len < 2 ^ 31 ->
  read_len f len <= Z.of_nat (length buf) < 2 ^ 31 ->
  wp (fs_read_kr fd buf len) (fun r s' => fs_disk s' = fs_disk s /\
    let n := read_len f len in
    if decide (n = 0) then r = (-1, buf) /\ s' = s
    else r = (n, splice 0 (file_bytes (fs_disk s) (inode_of (fs_disk s) f) (f_offset f) (Z.to_nat n)) buf) /\
         fs_fs s' = <[Z.to_nat fd := set_offset (f_offset f + n) f]> (fs_fs s)) (fun _ => False) s.
Proof.
  intros Hfd Hf Ho Hsz Hl [Hb1 Hb2]. eapply wp_fs_read; [done..| |]; cbn zeta.
  - intros H0. by rewrite decide_True.
  - intros s' Hpos [b ->]. split; [done|]. rewrite decide_False by lia. by split.
Qed.

Lemma read_back f bs d d' len :
  write_pre d f len -> written d f bs d' -> Z.of_nat (length bs) = len ->
  file_bytes d' (inode_of d' f) (f_offset f) (Z.to_nat len) = bs.
Proof.
  intros Hpre Hw <-. pose proof (wp_off _ _ _ Hpre) as Ho. pose proof (wp_len _ _ _ Hpre) as Hl.
  rewrite Nat2Z.id. apply list_eq. intros i.
  destruct (decide (i < length bs)%nat) as [Hi|Hi].
  - rewrite file_bytes_lookup by done. rewrite (wr_content _ _ _ _ Hw).
    2:{ simpl. lia. }
    rewrite decide_True by lia. destruct (lookup_lt_is_Some_2 bs i Hi) as [x Hx].
    replace (Z.to_nat (f_offset f + Z.of_nat i - f_offset f)) with i by lia. by rewrite Hx.
  - rewrite !lookup_ge_None_2; [done|lia|]. rewrite length_file_bytes. lia.
Qed.

(** C20: round trip: writing [len] bytes, seeking back to where they were
    written and reading [len] bytes yields those bytes. *)
Theorem write_read_roundtrip fd f s buf len buf2 :
  0 <= fd -> fs_fs s !! Z.to_nat fd = Some f -> write_pre (fs_disk s) f len ->
  length (fs_bitmap s) = BITMAP_BYTES -> len <= Z.of_nat (length buf) < 2 ^ 31 ->
  len <= Z.of_nat (length buf2) < 2 ^ 31 ->
  wp (_ ← fs_write_kr fd buf len;
      fs_lseek_kr fd (f_offset f);;
      fs_read_kr fd buf2 len)
    (fun r _ => r = (len, splice 0 (slice 0 (Z.to_nat len) buf) buf2)) (fun _ => False) s.
Proof.
  intros Hfd Hf Hpre Hm Hb [Hb2 Hb3]. apply wp_bind. eapply wp_fs_write; [done..|].
  intros s' Hw Hfs Hm'.
  pose proof (wp_off _ _ _ Hpre) as Ho. pose proof (wp_len _ _ _ Hpre) as Hl.
  pose proof (wp_end _ _ _ Hpre) as He. pose proof (fo_size _ _ (wp_file _ _ _ Hpre)) as Hsz.
  assert (Hlen : Z.of_nat (length (slice 0 (Z.to_nat len) buf)) = len) by (rewrite length_slice; lia).
  apply wp_bind. unfold fs_lseek_kr. eapply wp_upd_stream; [done| |].
  { rewrite Hfs. apply list_lookup_insert_eq. by eapply lookup_lt_Some. }
  rewrite u32_id by (unfold is_u32; lia).
  set (f' := set_offset (f_offset f) (advanced f len)).
  assert (Hr : read_len f' len = len) by (unfold read_len; simpl; lia).
  eapply (wp_fs_read fd f'); rewrite ?Hr; try done.
  - cbn [fs_fs with_fs]. apply list_lookup_insert_eq. rewrite Hfs, length_insert. by eapply lookup_lt_Some.
  - simpl. lia.
  - simpl. lia.
  - lia.
  - intros. lia.
  - intros s2 _ _. cbn [fs_disk with_fs]. simpl f_offset.
    change (inode_of (fs_disk s') f') with (inode_of (fs_disk s') f).
    by rewrite (read_back f _ _ _ _ Hpre Hw Hlen).
Qed.

(** C21: a write leaves every other file as it was: the same inode, the
    same bytes, still well formed. *)
Theorem other_file_kept fd f g s buf len :
  0 <= fd -> fs_fs s !! Z.to_nat fd = Some f -> write_pre (fs_disk s) f len ->
  length (fs_bitmap s) = BITMAP_BYTES -> len <= Z.of_nat (length buf) < 2 ^ 31 ->
  FileOk (fs_disk s) g -> inode_sector g <> inode_sector f ->
  (forall k, 0 <= k <= last_block g ->
     ~ is_block (inode_of (fs_disk s) f) (last_block f) (block_sector (inode_of (fs_disk s) g) k)) ->
  wp (fs_write_kr fd buf len) (fun _ s' => FileOk (fs_disk s') g /\
    inode_of (fs_disk s') g = inode_of (fs_disk s) g /\
    forall p, 0 <= p < f_file_size g ->
      file_byte (fs_disk s') (inode_of (fs_disk s') g) p = file_byte (fs_disk s) (inode_of (fs_disk s) g) p)
    (fun _ => False) s.
Proof.
  intros Hfd Hf Hpre Hm Hb [G1 G2 G3 G4 G5 G6] Hne Hdis. eapply wp_fs_write; [done..|].
  intros s' Hw _ _. pose proof (wp_drive _ _ _ Hpre) as Hdr. unfold drive_ok in Hdr.
  pose proof (fo_inode _ _ (wp_file _ _ _ Hpre)) as Hif. pose proof (fo_dir _ _ (wp_file _ _ _ Hpre)) as Hdf.
  pose proof (fo_safe _ _ (wp_file _ _ _ Hpre)) as Hsf.
  apply inode_sector_eq in Hif. apply dir_sector_eq in Hdf. pose proof (inode_sector_eq _ G1) as Hig.
  assert (Ei : inode_of (fs_disk s') g = inode_of (fs_disk s) g).
  { apply (wr_frame _ _ _ _ Hw (inode_sector g)); [unfold valid_sector; lia|lia|done|lia| |].
    - intros (k & Hk & E). destruct (Hsf k Hk) as [Hs _]. unfold safe_sector in Hs. lia.
    - unfold safe_sector. lia. }
  assert (Hblk : forall k, 0 <= k <= last_block g ->
    readsect (block_sector (inode_of (fs_disk s) g) k) (fs_disk s') =
      readsect (block_sector (inode_of (fs_disk s) g) k) (fs_disk s) /\
    disk_bit (fs_disk s') (block_sector (inode_of (fs_disk s) g) k) = true).
  { intros k Hk. destruct (G5 k Hk) as [Hs Hbit]. pose proof Hs as Hs'. unfold safe_sector in Hs.
    destruct (wr_frame _ _ _ _ Hw (block_sector (inode_of (fs_disk s) g) k)) as [E1 E2];
      [unfold valid_sector; lia|lia|lia|lia|by apply Hdis|done|]. split; [done|]. by apply E2. }
  split_and!; [|done|].
  - split; try done; rewrite Ei; [|done]. intros k Hk. split; [by apply G5|]. by apply Hblk.
  - intros p Hp. rewrite Ei. unfold file_byte.
    assert (Hk : 0 <= p / 512 <= last_block g).
    { unfold last_block. rewrite decide_False by lia. split; [apply Z.div_pos; lia|].
      apply Z.div_le_mono; lia. }
    by destruct (Hblk _ Hk) as [-> _].
Qed.
End props.

(** The theorems at the demo file system. *)
Definition demo_buf : list byte := memset2 8 0x5A.

Lemma fs_write_correct_witness :
  wp (fs_write_kr 0 demo_buf 4) (fun r s' => r = 4 /\
      written demo_disk demo_file (slice 0 (Z.to_nat 4) demo_buf) (fs_disk s') /\
      fs_fs s' = <[Z.to_nat 0 := advanced demo_file 4]> (fs_fs demo_fs)) (fun _ => False) demo_fs.
Proof.
  apply (fs_write_correct 0 demo_file demo_fs);
    [lia|reflexivity|apply demo_write_pre|apply length_replicate|simpl; lia].
Defined.

Lemma fs_read_correct_witness :
  wp (fs_read_kr 0 demo_buf 5) (fun r s' => fs_disk s' = demo_disk /\
      let n := read_len demo_file 5 in
      if decide (n = 0) then r = (-1, demo_buf) /\ s' = demo_fs
      else r = (n, splice 0 (file_bytes demo_disk (inode_of demo_disk demo_file) 0 (Z.to_nat n)) demo_buf) /\
           fs_fs s' = <[Z.to_nat 0 := set_offset (0 + n) demo_file]> (fs_fs demo_fs)) (fun _ => False) demo_fs.
Proof.
  apply (fs_read_correct 0 demo_file demo_fs);
    [lia|reflexivity|simpl; lia|simpl; lia|lia|unfold read_len; simpl; lia].
Defined.

Lemma write_read_roundtrip_witness :
  wp (_ ← fs_write_kr 0 demo_buf 4; fs_lseek_kr 0 0;; fs_read_kr 0 demo_buf 4)
    (fun r _ => r = (4, splice 0 (slice 0 (Z.to_nat 4) demo_buf) demo_buf)) (fun _ => False) demo_fs.
Proof.
  apply (write_read_roundtrip 0 demo_file demo_fs);
    [lia|reflexivity|apply demo_write_pre|apply length_replicate|simpl; lia|simpl; lia].
Defined.

(** An empty second file, with inode 2. *)
Definition demo_file2 : FILE_STREAM := mkStream 0 2 0 0 1 demo_name.

Lemma other_file_kept_witness :
  wp (fs_write_kr 0 demo_buf 4) (fun _ s' => FileOk (fs_disk s') demo_file2 /\
      inode_of (fs_disk s') demo_file2 = inode_of demo_disk demo_file2 /\
      forall p, 0 <= p < f_file_size demo_file2 ->
        file_byte (fs_disk s') (inode_of (fs_disk s') demo_file2) p =
          file_byte demo_disk (inode_of demo_disk demo_file2) p) (fun _ => False) demo_fs.
Proof.
  apply (other_file_kept 0 demo_file demo_file2 demo_fs);
    [lia|reflexivity|apply demo_write_pre|apply length_replicate|simpl; lia| |discriminate|].
  - split; try (unfold SC_INODE; simpl; lia); unfold last_block; simpl; intros; lia.
  - unfold last_block; simpl; intros; lia.
Defined.
