(* ===== verification/Pmap.v ===== *)
(** * Physical pages and page tables

    Models [kernel/src/paging/pmap.c] with the macros of [inc/mmu.h],
    [inc/types.h] and [kernel/include/pmap.h].  A [struct PageInfo *] is an
    index into [pages]; a [pde_t *] or [pte_t *] is the kernel virtual
    address it holds.  Kernel virtual addresses from [KERNBASE] on are the
    physical memory, so an access outside [KERNBASE, KERNBASE+PHY_MEM) is a
    fault.  [mm_tlb] is the processor's TLB: for a page number, the frame
    address it holds, if any. *)

From S2P Require Import Prelude.

(** ** [inc/mmu.h], [inc/types.h] *)

Definition PGSIZE : Z := 4096.
Definition NPDENTRIES : nat := 1024.
Definition NPTENTRIES : nat := 1024.
Definition PTE_P : Z := 0x001.
Definition PTE_W : Z := 0x002.
Definition PTE_U : Z := 0x004.

Definition PGNUM (la : Z) : Z := Z.shiftr la 12.
Definition PDX (la : Z) : Z := Z.land (Z.shiftr la 22) 0x3FF.
Definition PTX (la : Z) : Z := Z.land (Z.shiftr la 12) 0x3FF.
Definition PGOFF (la : Z) : Z := Z.land la 0xFFF.
Definition PGADDR (d t o : Z) : Z := Z.lor (Z.lor (Z.shiftl d 22) (Z.shiftl t 12)) o.
Definition PTE_ADDR (pte : Z) : Z := Z.land pte 0xFFFFF000.
Definition PTE_ATTR (pte : Z) : Z := Z.land pte 0xFFF.

Definition ROUNDDOWN (a n : Z) : Z := a - a mod n.
Definition ROUNDUP (a n : Z) : Z := ROUNDDOWN (u32 (a + n - 1)) n.

Definition KERNBASE : Z := 0xc0000000.
Definition npages : Z := 32768.
Definition PHY_MEM : Z := 0x8000000.

(** ** [kernel/include/pmap.h] *)

(** Both print a complaint for an address out of range and go on. *)
Definition PADDR (kva : Z) : Z := u32 (kva - KERNBASE).
Definition KADDR (pa : Z) : Z := u32 (pa + KERNBASE).
Definition page2pa (pp : Z) : Z := Z.shiftl pp 12.
Definition pa2page (pa : Z) : Z := PGNUM pa.
Definition page2kva (pp : Z) : Z := KADDR (page2pa pp).
Definition ALLOC_ZERO : Z := 1.

(** The globals of [pmap.c] and the physical memory, as words at kernel
    virtual addresses. *)
Record mmst : Type := mkMm {
  mm_link : Z -> option Z;        (* pages[i].pp_link *)
  mm_ref : Z -> Z;                (* pages[i].pp_ref *)
  mm_free : option Z;             (* page_free_list *)
  mm_kern_pgdir : Z;
  mm_tlb : Z -> option Z;         (* page number to frame address *)
  mm_mem : Z -> Z }.

Definition with_link v s := mkMm v (mm_ref s) (mm_free s) (mm_kern_pgdir s) (mm_tlb s) (mm_mem s).
Definition with_ref v s := mkMm (mm_link s) v (mm_free s) (mm_kern_pgdir s) (mm_tlb s) (mm_mem s).
Definition with_free v s := mkMm (mm_link s) (mm_ref s) v (mm_kern_pgdir s) (mm_tlb s) (mm_mem s).
Definition with_kern_pgdir v s := mkMm (mm_link s) (mm_ref s) (mm_free s) v (mm_tlb s) (mm_mem s).
Definition with_tlb v s := mkMm (mm_link s) (mm_ref s) (mm_free s) (mm_kern_pgdir s) v (mm_mem s).
Definition with_mem v s := mkMm (mm_link s) (mm_ref s) (mm_free s) (mm_kern_pgdir s) (mm_tlb s) v.

(** ** Accesses *)

Definition mapped (kva n : Z) : bool := (KERNBASE <=? kva) && (kva + n <=? KERNBASE + PHY_MEM).

Definition load (kva : Z) : M mmst Z :=
  s ← get;
  if mapped kva 4 then mret (mm_mem s kva) else fail OutOfBounds.

Definition store (kva v : Z) : M mmst unit :=
  if mapped kva 4 then modify (fun s => with_mem (<[kva := v]> (mm_mem s)) s) else fail OutOfBounds.

(** [memset(dst, src, len)] is [rep stosl]: [len] double words. *)
Definition fill (dst v n : Z) (m : Z -> Z) : Z -> Z :=
  fun a => if (dst <=? a) && (a <? dst + 4 * n) then v else m a.
Definition memset (dst v len : Z) : M mmst unit :=
  if mapped dst (4 * len) then modify (fun s => with_mem (fill dst v len (mm_mem s)) s)
  else fail OutOfBounds.

(** [memcpy(dst, src, len)] is [rep movsl]: [len] double words, upwards. *)
Fixpoint memcpy (n : nat) (dst src : Z) : M mmst unit :=
  match n with
  | O => mret tt
  | S n => v ← load src; store dst v;; memcpy n (dst + 4) (src + 4)
  end.

(** [pages[i]] *)
Definition page_ok (pp : Z) : bool := (0 <=? pp) && (pp <? npages).
Definition get_ref (pp : Z) : M mmst Z :=
  if page_ok pp then gets (fun s => mm_ref s pp) else fail OutOfBounds.
Definition set_ref (pp v : Z) : M mmst unit :=
  if page_ok pp then modify (fun s => with_ref (<[pp := v]> (mm_ref s)) s) else fail OutOfBounds.
Definition set_link (pp : Z) (v : option Z) : M mmst unit :=
  if page_ok pp then modify (fun s => with_link (<[pp := v]> (mm_link s)) s) else fail OutOfBounds.
Definition incr_ref (pp : Z) : M mmst unit := r ← get_ref pp; set_ref pp (u16 (r + 1)).

(** ** The page allocator *)

Definition page_alloc (alloc_flags : Z) : M mmst (option Z) :=
  s ← get;
  match mm_free s with
  | None => mret None
  | Some p =>
      (if Z.land alloc_flags ALLOC_ZERO =? 0 then mret tt else memset (page2kva p) 0 PGSIZE);;
      modify (fun s => with_free (mm_link s p) s);;
      set_link p None;;
      mret (Some p)
  end.

Definition page_free (pp : Z) : M mmst unit :=
  s ← get;
  set_link pp (mm_free s);;
  modify (with_free (Some pp)).

Definition page_decref (pp : Z) : M mmst unit :=
  r ← get_ref pp;
  set_ref pp (u16 (r - 1));;
  if u16 (r - 1) =? 0 then page_free pp else mret tt.

(** ** Page tables *)

(** [&pgdir[pdx]] *)
Definition entry (table i : Z) : Z := table + 4 * i.

Definition present (e : Z) : bool := negb (Z.land e PTE_P =? 0).

Definition pgdir_walk (pgdir va : Z) (create : bool) : M mmst (option Z) :=
  pde ← load (entry pgdir (PDX va));
  if present pde then mret (Some (entry (KADDR (PTE_ADDR pde)) (PTX va)))
  else if negb create then mret None
  else
    p ← page_alloc ALLOC_ZERO;
    match p with
    | None => mret None
    | Some p =>
        let pgtable := page2kva p in
        incr_ref p;;
        store (entry pgdir (PDX va)) (Z.lor (PADDR pgtable) 7);;   (* PTE_P | PTE_W | PTE_U *)
        mret (Some (entry pgtable (PTX va)))
    end.

Fixpoint boot_map_loop (n : nat) (pgdir va pa perm : Z) : M mmst unit :=
  match n with
  | O => mret tt
  | S n =>
      pte ← pgdir_walk pgdir va true;
      match pte with
      | None => mret tt
      | Some pte =>
          store pte (Z.lor (Z.lor pa perm) PTE_P);;
          boot_map_loop n pgdir (u32 (va + PGSIZE)) (u32 (pa + PGSIZE)) perm
      end
  end.

Definition boot_map_region (pgdir va size pa perm : Z) : M mmst unit :=
  boot_map_loop (Z.to_nat (size / PGSIZE)) pgdir va pa perm.

(** [page_lookup] with a [pte_store]: the page and the entry. *)
Definition page_lookup (pgdir va : Z) : M mmst (option (Z * Z)) :=
  pte ← pgdir_walk pgdir va false;
  match pte with
  | None => mret None
  | Some pte => e ← load pte; mret (Some (pa2page (PTE_ADDR e), pte))
  end.

(** [invlpg] of [inc/x86.h], and an empty TLB. *)
Definition invlpg (addr : Z) : M mmst unit := modify (fun s => with_tlb (<[PGNUM addr := None]> (mm_tlb s)) s).
Definition no_tlb : Z -> option Z := fun _ => None.

Definition tlb_invalidate (pgdir va : Z) : M mmst unit := invlpg va.

Definition page_remove (pgdir va : Z) : M mmst unit :=
  r ← page_lookup pgdir va;
  match r with
  | None => mret tt
  | Some (p, pte) => store pte 0;; page_decref p;; tlb_invalidate pgdir va
  end.

Definition page_insert (pgdir : Z) (pp : option Z) (va perm : Z) : M mmst Z :=
  pte ← pgdir_walk pgdir va true;
  match pte with
  | None => mret (-1)
  | Some pte =>
      pp ← from_option_or NullPointer pp;
      let pa := page2pa pp in
      e ← load pte;
      (if present e then
         if PTE_ADDR e =? pa then store pte (Z.lor (Z.lor pa perm) PTE_P)
         else page_remove pgdir va
       else mret tt);;
      store pte (Z.lor (Z.lor pa perm) PTE_P);;
      incr_ref pp;;
      mret 0
  end.

Fixpoint mm_alloc_loop (n : nat) (pgdir i va_end : Z) : M mmst unit :=
  match n with
  | O => fail OutOfFuel
  | S n =>
      if i <? va_end then
        p ← page_alloc 0;
        _ ← page_insert pgdir p i 7;                   (* PTE_W | PTE_P | PTE_U *)
        mm_alloc_loop n pgdir (u32 (i + PGSIZE)) va_end
      else mret tt
  end.

(** One iteration per page; [i] reaches [va_end] exactly. *)
Definition mm_alloc_fuel (va va_end : Z) : nat := S (Z.to_nat ((va_end - va) / PGSIZE)).

Definition mm_alloc (pgdir va len : Z) : M mmst unit :=
  let va_start := ROUNDDOWN va PGSIZE in
  let va_end := ROUNDUP (u32 (va + len)) PGSIZE in
  mm_alloc_loop (mm_alloc_fuel va_start va_end) pgdir va_start va_end.

(** [copy_pgdir]: the entries from [ptx] on of one table, then the
    directory entries from [pdx] on. *)
Fixpoint copy_table (n : nat) (ptx dst_table src_table : Z) : M mmst unit :=
  match n with
  | O => mret tt
  | S n =>
      e ← load (entry src_table ptx);
      (if present e then
         p ← page_alloc 0;
         pp ← from_option_or NullPointer p;
         incr_ref pp;;
         e ← load (entry src_table ptx);
         store (entry dst_table ptx) (Z.lor (page2pa pp) (PTE_ATTR e));;
         e ← load (entry src_table ptx);
         memcpy (Z.to_nat PGSIZE) (page2kva pp) (KADDR (PTE_ADDR e))
       else mret tt);;
      copy_table n (ptx + 1) dst_table src_table
  end.

Fixpoint copy_pgdir_loop (n : nat) (pdx dst_dir src_dir : Z) : M mmst unit :=
  match n with
  | O => mret tt
  | S n =>
      e ← load (entry src_dir pdx);
      (if present e then
         d ← load (entry dst_dir pdx);
         if present d then mret tt
         else
           p ← page_alloc ALLOC_ZERO;
           pp ← from_option_or NullPointer p;
           incr_ref pp;;
           e' ← load (entry src_dir pdx);
           store (entry dst_dir pdx) (Z.lor (page2pa pp) (PTE_ATTR e'));;
           d ← load (entry dst_dir pdx);
           copy_table NPTENTRIES 0 (KADDR (PTE_ADDR d)) (KADDR (PTE_ADDR e))
       else mret tt);;
      copy_pgdir_loop n (pdx + 1) dst_dir src_dir
  end.

Definition copy_pgdir (dst_dir src_dir : Z) : M mmst unit :=
  copy_pgdir_loop NPDENTRIES 0 dst_dir src_dir.

Fixpoint free_table (n : nat) (ptx pgtable : Z) : M mmst unit :=
  match n with
  | O => mret tt
  | S n =>
      e ← load (entry pgtable ptx);
      (if present e then page_decref (pa2page (PTE_ADDR e)) else mret tt);;
      free_table n (ptx + 1) pgtable
  end.

Fixpoint free_pgdir_loop (n : nat) (pdx pgdir : Z) : M mmst unit :=
  match n with
  | O => mret tt
  | S n =>
      e ← load (entry pgdir pdx);
      s ← get;
      (if present e then
         k ← load (entry (mm_kern_pgdir s) pdx);
         if present k then mret tt
         else
           free_table NPTENTRIES 0 (KADDR (PTE_ADDR e));;
           e ← load (entry pgdir pdx);
           page_decref (pa2page (PTE_ADDR e));;
           store (entry pgdir pdx) 0
       else mret tt);;
      free_pgdir_loop n (pdx + 1) pgdir
  end.

Definition free_pgdir (pgdir : Z) : M mmst unit := free_pgdir_loop NPDENTRIES 0 pgdir.

(** ** Boot

    [kpgdir] and [kpgtable] are the addresses of the two static arrays. *)

Section boot.
Context (kpgdir kpgtable : Z).

Fixpoint init_kern_dir (n : nat) (pdx pgtable : Z) : M mmst unit :=
  match n with
  | O => mret tt
  | S n =>
      store (entry kpgdir (pdx + Z.shiftr KERNBASE 22)) (Z.lor (PADDR pgtable) 3);;  (* PTE_P | PTE_W *)
      init_kern_dir n (pdx + 1) (pgtable + 4 * 1024)
  end.

Fixpoint init_kern_table (n : nat) (pframe_addr pgtable : Z) : M mmst unit :=
  match n with
  | O => mret tt
  | S n =>
      store pgtable (Z.lor pframe_addr 7);;             (* PTE_P | PTE_U | PTE_W *)
      init_kern_table n (pframe_addr - PGSIZE) (pgtable - 4)
  end.

(** The second loop runs down from the last frame, [npages] times. *)
Definition init_kern_pgdir : M mmst unit :=
  init_kern_dir 32 0 kpgtable;;
  init_kern_table (Z.to_nat npages) (PHY_MEM - PGSIZE) (kpgtable + 4 * npages - 4);;
  modify (with_kern_pgdir kpgdir).

Fixpoint page_init_used (n : nat) (i : Z) : M mmst unit :=
  match n with
  | O => mret tt
  | S n => set_ref i 1;; page_init_used n (i + 1)
  end.

Fixpoint page_init_free (n : nat) (i : Z) : M mmst unit :=
  match n with
  | O => mret tt
  | S n =>
      set_ref i 0;;
      s ← get;
      set_link i (mm_free s);;
      modify (with_free (Some i));;
      page_init_free n (i - 1)
  end.

Definition VMEM_ADDR : Z := 0xA0000.
Definition SCR_SIZE : Z := 320 * 200.

Definition page_init : M mmst unit :=
  init_kern_pgdir;;
  page_init_used (Z.to_nat 0x400) 0;;
  page_init_free (Z.to_nat (npages - 0x400)) (npages - 1);;
  s ← get;
  boot_map_region (mm_kern_pgdir s) VMEM_ADDR (ROUNDUP SCR_SIZE PGSIZE) VMEM_ADDR 3.
End boot.

(** ** The processor's address translation

    What the MMU does with the directory at physical address [cr3]. *)

Definition translate (m : Z -> Z) (cr3 la : Z) : option Z :=
  let pde := m (entry (cr3 + KERNBASE) (PDX la)) in
  if present pde then
    let pte := m (entry (PTE_ADDR pde + KERNBASE) (PTX la)) in
    if present pte then Some (PTE_ADDR pte + PGOFF la) else None
  else None.

(** What the processor does with its TLB: it uses an entry that is there,
    and it may remember any translation of the directory in [cr3], or forget
    one, at any time. *)
Definition tlb_lookup (s : mmst) (cr3 la : Z) : option Z :=
  match mm_tlb s (PGNUM la) with
  | Some frame => Some (frame + PGOFF la)
  | None => translate (mm_mem s) cr3 la
  end.

Inductive tlb_step (cr3 : Z) (s : mmst) : mmst -> Prop :=
  | tlb_fill la frame : is_u32 la -> translate (mm_mem s) cr3 la = Some (frame + PGOFF la) ->
      tlb_step cr3 s (with_tlb (<[PGNUM la := Some frame]> (mm_tlb s)) s)
  | tlb_evict n : tlb_step cr3 s (with_tlb (<[n := None]> (mm_tlb s)) s).
