(* ===== verification/PmapSpec.v ===== *)
(** * Page tables: address arithmetic and the allocator's free list *)

From S2P Require Import Prelude Disk Pmap.

(** ** Address arithmetic *)

Lemma land_low x n : 0 <= n -> Z.land x (2 ^ n - 1) = x mod 2 ^ n.
Proof. intros. rewrite <- Z.land_ones by done. by rewrite Z.ones_equiv, Z.sub_1_r. Qed.

Lemma PDX_eq la : is_u32 la -> PDX la = la / 2 ^ 22.
Proof.
  unfold is_u32, PDX. intros H. change 0x3FF with (2 ^ 10 - 1). rewrite land_low by lia.
  rewrite Z.shiftr_div_pow2 by lia. apply Z.mod_small.
  split; [apply Z.div_pos; lia|apply Z.div_lt_upper_bound; lia].
Qed.

Lemma PTX_eq la : PTX la = la / 2 ^ 12 mod 2 ^ 10.
Proof.
  unfold PTX. change 0x3FF with (2 ^ 10 - 1). rewrite land_low by lia. by rewrite Z.shiftr_div_pow2.
Qed.

Lemma PGOFF_eq la : PGOFF la = la mod 2 ^ 12.
Proof. unfold PGOFF. change 0xFFF with (2 ^ 12 - 1). by rewrite land_low by lia. Qed.

Lemma PTE_ATTR_eq e : PTE_ATTR e = e mod 2 ^ 12.
Proof. apply PGOFF_eq. Qed.

Lemma PTE_ADDR_eq e : is_u32 e -> PTE_ADDR e = e - e mod 2 ^ 12.
Proof.
  unfold is_u32, PTE_ADDR. intros H.
  assert (E : Z.land e 0xFFFFF000 = Z.shiftl (Z.shiftr e 12) 12).
  { apply Z.bits_inj'. intros i Hi. rewrite Z.land_spec, Z.shiftl_spec by lia.
    change 0xFFFFF000 with (Z.shiftl (Z.ones 20) 12). rewrite Z.shiftl_spec by lia.
    destruct (decide (i < 12)).
    - rewrite (Z.testbit_neg_r (Z.ones 20)), (Z.testbit_neg_r (Z.shiftr e 12)) by lia.
      apply andb_false_r.
    - rewrite Z.shiftr_spec by lia. replace (i - 12 + 12) with i by lia.
      destruct (decide (i < 32)).
      + rewrite Z.ones_spec_low by lia. apply andb_true_r.
      + rewrite Z.ones_spec_high by lia. rewrite (testbit_ge e 32 i) by lia. done. }
  rewrite E, Z.shiftl_mul_pow2, Z.shiftr_div_pow2 by lia.
  pose proof (Z.div_mod e (2 ^ 12) ltac:(lia)). lia.
Qed.

Lemma lor_disjoint a b n : 0 <= n -> 0 <= b < 2 ^ n -> a mod 2 ^ n = 0 -> Z.lor a b = a + b.
Proof.
  intros Hn Hb Ha. rewrite <- Z.lxor_lor, <- Z.add_nocarry_lxor; [done|..];
    apply Z.bits_inj'; intros i Hi; rewrite Z.land_spec, Z.bits_0.
  all: destruct (decide (i < n)) as [Hlt|Hge].
  all: try (rewrite (testbit_ge b n i) by lia; apply andb_false_r).
  all: rewrite <- (Z.mod_pow2_bits_low a n i) by lia; by rewrite Ha, Z.bits_0.
Qed.

(** An entry made of a page address and flags. *)
Lemma PTE_lor p perm :
  0 <= p < 2 ^ 20 -> 0 <= perm < 2 ^ 12 ->
  is_u32 (Z.lor (Z.shiftl p 12) perm) /\ PTE_ADDR (Z.lor (Z.shiftl p 12) perm) = Z.shiftl p 12 /\
  PTE_ATTR (Z.lor (Z.shiftl p 12) perm) = perm.
Proof.
  intros Hp Hperm. rewrite (lor_disjoint _ _ 12); [|lia|lia|].
  2:{ rewrite Z.shiftl_mul_pow2 by lia. by apply Z.mod_mul. }
  rewrite Z.shiftl_mul_pow2 by lia. assert (Hu : is_u32 (p * 2 ^ 12 + perm)) by (unfold is_u32; lia).
  split; [done|]. rewrite PTE_ADDR_eq, PTE_ATTR_eq by done.
  rewrite Z.add_comm, Z_mod_plus_full, Z.mod_small by lia. lia.
Qed.

Lemma present_lor a b : present (Z.lor a b) = present a || present b.
Proof.
  unfold present, PTE_P. change 1 with (Z.ones 1). rewrite !Z.land_ones by lia. change (2 ^ 1) with 2.
  rewrite !Zmod_odd, <- !Z.bit0_odd, Z.lor_spec.
  by destruct (Z.testbit a 0), (Z.testbit b 0).
Qed.

(** A linear address is its three parts. *)
Lemma PGADDR_split la :
  is_u32 la ->
  PGADDR (PDX la) (PTX la) (PGOFF la) = la /\
  0 <= PDX la < 1024 /\ 0 <= PTX la < 1024 /\ 0 <= PGOFF la < 4096.
Proof.
  intros H. rewrite PDX_eq, PTX_eq, PGOFF_eq by done. unfold is_u32 in H.
  pose proof (Z.mod_pos_bound (la / 2 ^ 12) (2 ^ 10) ltac:(lia)).
  pose proof (Z.mod_pos_bound la (2 ^ 12) ltac:(lia)).
  assert (0 <= la / 2 ^ 22 < 1024) by (split; [apply Z.div_pos; lia|apply Z.div_lt_upper_bound; lia]).
  split_and!; try lia. unfold PGADDR.
  rewrite (lor_disjoint (Z.shiftl (la / 2 ^ 22) 22) _ 22); [|lia| |].
  2:{ rewrite Z.shiftl_mul_pow2 by lia. change (2 ^ 22) with (2 ^ 10 * 2 ^ 12). nia. }
  2:{ rewrite Z.shiftl_mul_pow2 by lia. by apply Z.mod_mul. }
  rewrite (lor_disjoint _ (la mod 2 ^ 12) 12); [|lia|lia|].
  2:{ rewrite !Z.shiftl_mul_pow2 by lia. change (2 ^ 22) with (2 ^ 10 * 2 ^ 12).
      rewrite Z.mul_assoc, <- Z.mul_add_distr_r. by apply Z.mod_mul. }
  rewrite !Z.shiftl_mul_pow2 by lia. change (2 ^ 22) with (2 ^ 12 * 2 ^ 10).
  rewrite <- Z.div_div by lia.
  pose proof (Z.div_mod la (2 ^ 12) ltac:(lia)). pose proof (Z.div_mod (la / 2 ^ 12) (2 ^ 10) ltac:(lia)). lia.
Qed.

Lemma PGADDR_parts d t o :
  0 <= d < 1024 -> 0 <= t < 1024 -> 0 <= o < 4096 ->
  PGADDR d t o = d * 2 ^ 22 + t * 2 ^ 12 + o.
Proof.
  intros Hd Ht Ho. unfold PGADDR.
  rewrite (lor_disjoint (Z.shiftl d 22) _ 22), (lor_disjoint _ o 12); rewrite ?Z.shiftl_mul_pow2 by lia; try lia.
  - change (2 ^ 22) with (2 ^ 10 * 2 ^ 12).
    rewrite Z.mul_assoc, <- Z.mul_add_distr_r. by apply Z.mod_mul.
  - by apply Z.mod_mul.
Qed.

(** ** Rounding *)

Lemma ROUNDDOWN_spec a n : 0 < n -> ROUNDDOWN a n mod n = 0 /\ ROUNDDOWN a n <= a < ROUNDDOWN a n + n.
Proof.
  intros Hn. unfold ROUNDDOWN. pose proof (Z.mod_pos_bound a n Hn).
  split; [|lia]. rewrite Zminus_mod_idemp_r. by rewrite Z.sub_diag, Z.mod_0_l by lia.
Qed.

Lemma ROUNDUP_spec a n :
  0 < n -> 0 <= a -> a + n <= 2 ^ 32 -> ROUNDUP a n mod n = 0 /\ a <= ROUNDUP a n < a + n.
Proof.
  intros Hn Ha Hw. unfold ROUNDUP. rewrite u32_id by (unfold is_u32; lia).
  destruct (ROUNDDOWN_spec (a + n - 1) n Hn). split; [done|lia].
Qed.

(** ** Kernel virtual addresses *)

Lemma page2kva_eq pp : 0 <= pp < npages -> page2kva pp = KERNBASE + 4096 * pp.
Proof.
  unfold page2kva, KADDR, page2pa, npages, KERNBASE. intros. rewrite Z.shiftl_mul_pow2 by lia.
  rewrite u32_id by (unfold is_u32; lia). lia.
Qed.

Lemma PADDR_page2kva pp : 0 <= pp < npages -> PADDR (page2kva pp) = Z.shiftl pp 12.
Proof.
  intros H. rewrite page2kva_eq by done. unfold PADDR, KERNBASE, npages in *.
  rewrite Z.shiftl_mul_pow2 by lia. rewrite u32_id by (unfold is_u32; lia). lia.
Qed.

Lemma mapped_true kva n :
  KERNBASE <= kva -> kva + n <= KERNBASE + PHY_MEM -> mapped kva n = true.
Proof. intros. unfold mapped. by rewrite !(proj2 (Z.leb_le _ _)) by lia. Qed.

Lemma page_ok_true pp : 0 <= pp < npages -> page_ok pp = true.
Proof. intros. unfold page_ok. by rewrite (proj2 (Z.leb_le _ _)), (proj2 (Z.ltb_lt _ _)) by lia. Qed.

(** ** The free list *)

(** [page_free_list] is the list [l], without repetition. *)
Fixpoint linked (link : Z -> option Z) (hd : option Z) (l : list Z) : Prop :=
  match l with
  | [] => hd = None
  | p :: l => hd = Some p /\ 0 <= p < npages /\ linked link (link p) l
  end.

Definition free_list (s : mmst) (l : list Z) : Prop := linked (mm_link s) (mm_free s) l /\ NoDup l.

Lemma linked_ext link link' hd l :
  (forall p, p ∈ l -> link' p = link p) -> linked link hd l -> linked link' hd l.
Proof.
  revert hd. induction l as [|p l IH]; intros hd Hext; simpl; [done|].
  intros (-> & Hp & Hl). split_and!; [done|lia|lia|]. rewrite Hext by set_solver+.
  apply IH; [|done]. intros q Hq. apply Hext. by right.
Qed.

Lemma free_list_range s l p : free_list s l -> p ∈ l -> 0 <= p < npages.
Proof.
  intros [H _]. revert H. generalize (mm_free s). induction l as [|q l IH]; intros hd H Hp; [inversion Hp|].
  destruct H as (_ & Hq & Hl). apply elem_of_cons in Hp as [->|Hp]; [done|]. by eapply IH.
Qed.
