(* ===== verification/PmapProofs.v ===== *)
(** * Page tables: what the routines do to the address space *)

From S2P Require Import Prelude Disk Pmap PmapSpec.

(** ** Single accesses *)

Section access.
Implicit Types (s : mmst).

Lemma wp_load kva s (Q : Z -> mmst -> Prop) J :
  mapped kva 4 = true -> Q (mm_mem s kva) s -> wp (load kva) Q J s.
Proof. intros H HQ. unfold load. apply wp_bind, wp_get. rewrite H. by apply wp_ret. Qed.

Lemma wp_store kva v s (Q : unit -> mmst -> Prop) J :
  mapped kva 4 = true -> Q tt (with_mem (<[kva := v]> (mm_mem s)) s) -> wp (store kva v) Q J s.
Proof. intros H HQ. unfold store. rewrite H. by apply wp_modify. Qed.

Lemma wp_incr_ref pp s (Q : unit -> mmst -> Prop) J :
  0 <= pp < npages -> Q tt (with_ref (<[pp := u16 (mm_ref s pp + 1)]> (mm_ref s)) s) -> wp (incr_ref pp) Q J s.
Proof.
  intros H HQ. unfold incr_ref, get_ref, set_ref. rewrite page_ok_true by done.
  apply wp_bind, wp_gets. by apply wp_modify.
Qed.

Lemma entry_mapped p i : 0 <= p < npages -> 0 <= i < 1024 -> mapped (entry (page2kva p) i) 4 = true.
Proof.
  intros Hp Hi. rewrite page2kva_eq by done. unfold entry.
  apply mapped_true; unfold npages, KERNBASE, PHY_MEM in *; lia.
Qed.

Lemma entry_inj p q i j :
  0 <= p < npages -> 0 <= q < npages -> 0 <= i < 1024 -> 0 <= j < 1024 ->
  entry (page2kva p) i = entry (page2kva q) j -> p = q /\ i = j.
Proof. intros Hp Hq Hi Hj. rewrite !page2kva_eq by done. unfold entry. lia. Qed.

(** ** The allocator *)

Lemma wp_page_alloc_nil flags s (Q : option Z -> mmst -> Prop) J :
  free_list s [] -> Q None s -> wp (page_alloc flags) Q J s.
Proof.
  intros [Hl _] HQ. unfold page_alloc. apply wp_bind, wp_get. simpl in Hl. rewrite Hl. by apply wp_ret.
Qed.

(** The state after [p] has been taken off a free list with rest [l]. *)
Definition taken (p : Z) s : mmst := with_link (<[p := None]> (mm_link s)) (with_free (mm_link s p) s).

Lemma free_list_taken p l s : free_list s (p :: l) -> free_list (taken p s) l.
Proof.
  intros [(Hf & Hp & Hl) Hnd]. apply NoDup_cons in Hnd as [Hpl Hnd]. split; [|done].
  unfold taken. simpl. eapply linked_ext; [|exact Hl]. intros q Hq.
  rewrite fn_lookup_insert_ne; [done|]. by intros ->.
Qed.

Lemma wp_page_alloc p l s (Q : option Z -> mmst -> Prop) J :
  free_list s (p :: l) -> Q (Some p) (taken p s) -> wp (page_alloc 0) Q J s.
Proof.
  intros [(Hf & Hp & Hl) Hnd] HQ. unfold page_alloc. apply wp_bind, wp_get. rewrite Hf.
  apply wp_bind. change (Z.land 0 ALLOC_ZERO =? 0) with true. apply wp_ret.
  apply wp_bind, wp_modify. apply wp_bind. unfold set_link. rewrite page_ok_true by done.
  apply wp_modify. by apply wp_ret.
Qed.

(** With [ALLOC_ZERO] four pages are cleared, for [memset] counts words. *)
Lemma wp_page_alloc_zero p l s (Q : option Z -> mmst -> Prop) J :
  free_list s (p :: l) -> p + 4 <= npages ->
  Q (Some p) (with_mem (fill (page2kva p) 0 PGSIZE (mm_mem s)) (taken p s)) ->
  wp (page_alloc ALLOC_ZERO) Q J s.
Proof.
  intros [(Hf & Hp & Hl) Hnd] H4 HQ. unfold page_alloc. apply wp_bind, wp_get. rewrite Hf.
  apply wp_bind. change (Z.land ALLOC_ZERO ALLOC_ZERO =? 0) with false. unfold memset.
  rewrite mapped_true; [|rewrite page2kva_eq by done; unfold KERNBASE, PHY_MEM, PGSIZE, npages in *; lia..].
  apply wp_modify. apply wp_bind, wp_modify. apply wp_bind. unfold set_link. rewrite page_ok_true by done.
  apply wp_modify. by apply wp_ret.
Qed.

Lemma wp_page_decref pp s l (Q : unit -> mmst -> Prop) J :
  0 <= pp < npages -> free_list s l -> pp ∉ l ->
  (forall s', mm_mem s' = mm_mem s -> mm_kern_pgdir s' = mm_kern_pgdir s -> mm_tlb s' = mm_tlb s ->
     mm_ref s' = <[pp := u16 (mm_ref s pp - 1)]> (mm_ref s) ->
     free_list s' (if u16 (mm_ref s pp - 1) =? 0 then pp :: l else l) -> Q tt s') ->
  wp (page_decref pp) Q J s.
Proof.
  intros Hp [Hl Hnd] Hpl HQ. unfold page_decref, get_ref, set_ref. rewrite page_ok_true by done.
  apply wp_bind, wp_gets. apply wp_bind, wp_modify. destruct (u16 _ =? 0).
  - unfold page_free, set_link. apply wp_bind, wp_get. rewrite page_ok_true by done.
    apply wp_bind, wp_modify, wp_modify. apply HQ; [done..|]. split; [|by apply NoDup_cons].
    cbn. rewrite fn_lookup_insert. split_and!; [done|lia|lia|]. eapply linked_ext; [|exact Hl].
    intros q Hq. rewrite fn_lookup_insert_ne; [done|]. by intros ->.
  - apply wp_ret. apply HQ; [done..|]. by split.
Qed.
End access.

(** ** Address spaces *)

(** The page directory in page [dp] of memory [m]: each present entry names a
    page table of its own. *)
Record dir_ok (m : Z -> Z) (dp : Z) (tbl : Z -> Z) : Prop := {
  do_dp : 0 <= dp < npages;
  do_table : forall i, 0 <= i < 1024 -> present (m (entry (page2kva dp) i)) = true ->
    PTE_ADDR (m (entry (page2kva dp) i)) = page2pa (tbl i) /\ 0 <= tbl i < npages /\ tbl i <> dp;
  do_inj : forall i j, 0 <= i < 1024 -> 0 <= j < 1024 ->
    present (m (entry (page2kva dp) i)) = true -> present (m (entry (page2kva dp) j)) = true ->
    tbl i = tbl j -> i = j }.

Lemma page2pa_KERNBASE p : 0 <= p < npages -> page2pa p + KERNBASE = page2kva p.
Proof.
  intros H. rewrite page2kva_eq by done. unfold page2pa. rewrite Z.shiftl_mul_pow2 by lia. lia.
Qed.

Lemma KADDR_page2pa p : KADDR (page2pa p) = page2kva p.
Proof. done. Qed.

(** Translation through a directory that is [dir_ok]. *)
Lemma translate_eq m dp tbl la :
  dir_ok m dp tbl -> is_u32 la ->
  translate m (page2pa dp) la =
    if present (m (entry (page2kva dp) (PDX la))) then
      let pte := m (entry (page2kva (tbl (PDX la))) (PTX la)) in
      if present pte then Some (PTE_ADDR pte + PGOFF la) else None
    else None.
Proof.
  intros [Hdp Ht _] Hla. destruct (PGADDR_split la Hla) as (_ & Hd & _ & _).
  unfold translate. rewrite page2pa_KERNBASE by done.
  destruct (present _) eqn:E; [|done]. destruct (Ht _ Hd E) as (-> & Htb & _).
  by rewrite page2pa_KERNBASE.
Qed.

(** Two linear addresses of the same page. *)
Lemma same_page la va :
  is_u32 la -> is_u32 va -> (PDX la = PDX va /\ PTX la = PTX va) <-> PGNUM la = PGNUM va.
Proof.
  intros Hla Hva. rewrite !PDX_eq, !PTX_eq by done. unfold PGNUM. rewrite !Z.shiftr_div_pow2 by lia.
  change (2 ^ 22) with (2 ^ 12 * 2 ^ 10). rewrite <- !Z.div_div by lia.
  pose proof (Z.div_mod (la / 2 ^ 12) (2 ^ 10) ltac:(lia)).
  pose proof (Z.div_mod (va / 2 ^ 12) (2 ^ 10) ltac:(lia)). split; [lia|]. intros ->. done.
Qed.

(** Writing the entry of [va] changes the translation of its page only. *)
Lemma translate_set m dp tbl va v la :
  dir_ok m dp tbl -> is_u32 la -> is_u32 va -> present (m (entry (page2kva dp) (PDX va))) = true ->
  let m' := <[entry (page2kva (tbl (PDX va))) (PTX va) := v]> m in
  dir_ok m' dp tbl /\
  translate m' (page2pa dp) la =
    if decide (PGNUM la = PGNUM va)
    then if present v then Some (PTE_ADDR v + PGOFF la) else None
    else translate m (page2pa dp) la.
Proof.
  intros Hok Hla Hva Hp m'. pose proof Hok as [Hdp Ht Hinj].
  destruct (PGADDR_split la Hla) as (_ & Hd & Hx & _).
  destruct (PGADDR_split va Hva) as (_ & Hdv & Hxv & _).
  destruct (Ht _ Hdv Hp) as (_ & Htv & Hne).
  assert (Hdir : forall i, 0 <= i < 1024 -> m' (entry (page2kva dp) i) = m (entry (page2kva dp) i)).
  { intros i Hi. unfold m'. rewrite fn_lookup_insert_ne; [done|].
    intros E. apply entry_inj in E as [E _]; [done|done|done|done|done]. }
  assert (Hok' : dir_ok m' dp tbl).
  { split; [done|..].
    - intros i Hi. rewrite Hdir by done. by apply Ht.
    - intros i j Hi Hj. rewrite !Hdir by done. by apply Hinj. }
  split; [done|]. rewrite (translate_eq _ _ _ _ Hok' Hla), (translate_eq _ _ _ _ Hok Hla), Hdir by done.
  cbn zeta. case_decide as E.
  - apply same_page in E as [E1 E2]; [|done..]. rewrite E1, E2, Hp. unfold m'. by rewrite fn_lookup_insert.
  - destruct (present (m (entry (page2kva dp) (PDX la)))) eqn:Hpl; [|done].
    destruct (Ht _ Hd Hpl) as (_ & Htl & _). unfold m'. rewrite fn_lookup_insert_ne; [done|].
    intros Heq. apply entry_inj in Heq as [Heq1 Heq2]; [|done..]. apply E, same_page; [done..|].
    split; [|done]. symmetry. by apply Hinj.
Qed.

(** ** [pgdir_walk] *)

(** The pages [p .. p+3], which [page_alloc(ALLOC_ZERO)] clears, hold neither
    the directory nor one of its tables. *)
Definition clear_of (m : Z -> Z) (dp : Z) (tbl : Z -> Z) (p : Z) : Prop :=
  (dp < p \/ p + 4 <= dp) /\
  forall i, 0 <= i < 1024 -> present (m (entry (page2kva dp) i)) = true -> tbl i < p \/ p + 4 <= tbl i.

Record walked (s s' : mmst) (dp : Z) (tbl tbl' : Z -> Z) (va p : Z) (l : list Z) : Prop := {
  wk_ok : dir_ok (mm_mem s') dp tbl';
  wk_present : present (mm_mem s' (entry (page2kva dp) (PDX va))) = true;
  wk_trans : forall la, is_u32 la ->
    translate (mm_mem s') (page2pa dp) la = translate (mm_mem s) (page2pa dp) la;
  wk_dir : forall i, 0 <= i < 1024 -> i <> PDX va ->
    mm_mem s' (entry (page2kva dp) i) = mm_mem s (entry (page2kva dp) i);
  wk_kern : mm_kern_pgdir s' = mm_kern_pgdir s;
  wk_state : (s' = s /\ tbl' = tbl) \/
    (present (mm_mem s (entry (page2kva dp) (PDX va))) = false /\ tbl' = <[PDX va := p]> tbl /\
     free_list s' l /\ mm_ref s' = <[p := u16 (mm_ref s p + 1)]> (mm_ref s));
  wk_frame : forall q i, 0 <= q < npages -> 0 <= i < 1024 -> q <> dp -> q < p \/ p + 4 <= q ->
    mm_mem s' (entry (page2kva q) i) = mm_mem s (entry (page2kva q) i);
  wk_tlb : mm_tlb s' = mm_tlb s }.

Lemma fill_out dst v n m a : a < dst \/ dst + 4 * n <= a -> fill dst v n m a = m a.
Proof.
  intros H. unfold fill. destruct (Z.leb_spec dst a), (Z.ltb_spec a (dst + 4 * n)); simpl; try done. lia.
Qed.

Lemma fill_in dst v n m a : dst <= a < dst + 4 * n -> fill dst v n m a = v.
Proof. intros H. unfold fill. by rewrite (proj2 (Z.leb_le _ _)), (proj2 (Z.ltb_lt _ _)) by lia. Qed.

(** A new, empty page table does not change any translation. *)
Lemma new_table m dp tbl va p :
  dir_ok m dp tbl -> is_u32 va -> 0 <= p -> p + 4 <= npages -> clear_of m dp tbl p ->
  present (m (entry (page2kva dp) (PDX va))) = false ->
  let m' := <[entry (page2kva dp) (PDX va) := Z.lor (PADDR (page2kva p)) 7]>
              (fill (page2kva p) 0 PGSIZE m) in
  dir_ok m' dp (<[PDX va := p]> tbl) /\ present (m' (entry (page2kva dp) (PDX va))) = true /\
  (forall la, is_u32 la -> translate m' (page2pa dp) la = translate m (page2pa dp) la) /\
  (forall i, 0 <= i < 1024 -> i <> PDX va -> m' (entry (page2kva dp) i) = m (entry (page2kva dp) i)) /\
  forall q i, 0 <= q < npages -> 0 <= i < 1024 -> q <> dp -> q < p \/ p + 4 <= q -> m' (entry (page2kva q) i) = m (entry (page2kva q) i).
Proof.
  intros Hok Hva Hp0 Hp4 [Hcd Hct] Hnp m'. pose proof Hok as [Hdp Ht Hinj].
  assert (Hp : 0 <= p < npages) by lia.
  destruct (PGADDR_split va Hva) as (_ & Hdv & Hxv & _).
  set (pde := Z.lor (PADDR (page2kva p)) 7) in m'.
  assert (Epde : PTE_ADDR pde = page2pa p).
  { unfold pde. rewrite PADDR_page2kva by done. apply PTE_lor; unfold npages in *; lia. }
  assert (Hpres : present pde = true) by (unfold pde; rewrite present_lor; apply orb_true_r).
  assert (Hkp : page2kva p = KERNBASE + 4096 * p) by (by apply page2kva_eq).
  assert (Hfar : forall q i, 0 <= q < npages -> 0 <= i < 1024 -> q < p \/ p + 4 <= q ->
    fill (page2kva p) 0 PGSIZE m (entry (page2kva q) i) = m (entry (page2kva q) i)).
  { intros q i Hq Hi Hd. apply fill_out. rewrite Hkp, page2kva_eq by done. unfold entry, PGSIZE. lia. }
  assert (Hdir : forall i, 0 <= i < 1024 -> i <> PDX va ->
    m' (entry (page2kva dp) i) = m (entry (page2kva dp) i)).
  { intros i Hi Hne. unfold m'. rewrite fn_lookup_insert_ne; [by apply Hfar|].
    intros E. apply entry_inj in E as [_ E]; [|done..]. by apply Hne. }
  assert (Hdirv : m' (entry (page2kva dp) (PDX va)) = pde) by (unfold m'; by rewrite fn_lookup_insert).
  assert (Hok' : dir_ok m' dp (<[PDX va := p]> tbl)).
  { split; [done|..].
    - intros i Hi. destruct (decide (i = PDX va)) as [->|Hne].
      + rewrite Hdirv, fn_lookup_insert. intros _. split_and!; [done|lia|lia|lia].
      + rewrite Hdir, fn_lookup_insert_ne by congruence. by apply Ht.
    - intros i j Hi Hj. destruct (decide (i = PDX va)) as [->|Hne], (decide (j = PDX va)) as [->|Hnej]; [done|..].
      + rewrite (Hdir j), fn_lookup_insert, fn_lookup_insert_ne by congruence.
        intros _ Hpj E. destruct (Hct j Hj Hpj); lia.
      + rewrite (Hdir i), fn_lookup_insert, fn_lookup_insert_ne by congruence.
        intros Hpi _ E. destruct (Hct i Hi Hpi); lia.
      + rewrite !Hdir, !fn_lookup_insert_ne by congruence. by apply Hinj. }
  split_and!; [done|by rewrite Hdirv| |exact Hdir|].
  2:{ intros q i Hq Hi Hne Hd. unfold m'. rewrite fn_lookup_insert_ne; [by apply Hfar|].
    intros E. apply entry_inj in E as [E _]; [|done..]. by apply Hne. }
  intros la Hla.
  destruct (PGADDR_split la Hla) as (_ & Hd & Hx & _).
  rewrite (translate_eq _ _ _ _ Hok' Hla), (translate_eq _ _ _ _ Hok Hla).
  destruct (decide (PDX la = PDX va)) as [E|E].
  - rewrite E, Hdirv, Hpres, Hnp, fn_lookup_insert. cbn zeta.
    assert (Hz : m' (entry (page2kva p) (PTX la)) = 0).
    { unfold m'. rewrite fn_lookup_insert_ne.
      - apply fill_in. unfold entry, PGSIZE. lia.
      - intros Heq. apply entry_inj in Heq as [Heq _]; [lia|done..]. }
    by rewrite Hz.
  - rewrite Hdir, fn_lookup_insert_ne by congruence.
    destruct (present (m (entry (page2kva dp) (PDX la)))) eqn:Hpl; [|done]. cbn zeta.
    destruct (Ht _ Hd Hpl) as (_ & Htl & Htne).
    unfold m'. rewrite fn_lookup_insert_ne.
    + rewrite Hfar; [done|done|done|by apply Hct].
    + intros Heq. apply entry_inj in Heq as [Heq _]; [by symmetry in Heq|done..].
Qed.

Lemma wp_pgdir_walk dp tbl va p l s (Q : option Z -> mmst -> Prop) J :
  dir_ok (mm_mem s) dp tbl -> is_u32 va -> free_list s (p :: l) -> p + 4 <= npages ->
  clear_of (mm_mem s) dp tbl p ->
  (forall s' tbl', walked s s' dp tbl tbl' va p l ->
     Q (Some (entry (page2kva (tbl' (PDX va))) (PTX va))) s') ->
  wp (pgdir_walk (page2kva dp) va true) Q J s.
Proof.
  intros Hok Hva Hfl Hp4 Hcl HQ. destruct (PGADDR_split va Hva) as (_ & Hdv & _ & _).
  pose proof (do_dp _ _ _ Hok) as Hdp. unfold pgdir_walk.
  apply wp_bind, wp_load; [by apply entry_mapped|].
  destruct (present (mm_mem s (entry (page2kva dp) (PDX va)))) eqn:Hpr.
  - apply wp_ret. destruct (do_table _ _ _ Hok _ Hdv Hpr) as (-> & _). rewrite KADDR_page2pa.
    apply HQ. split; try done. by left.
  - simpl negb. cbn iota. apply wp_bind. eapply wp_page_alloc_zero; [exact Hfl|done|].
    assert (Hp : 0 <= p < npages) by (apply (free_list_range _ _ _ Hfl); left).
    apply wp_bind, wp_incr_ref; [done|]. apply wp_bind, wp_store; [by apply entry_mapped|]. apply wp_ret.
    set (s' := with_mem _ _).
    destruct (new_table _ _ _ _ p Hok Hva) as (H1 & H2 & H3 & H4 & H5); [lia|done|done|done|].
    specialize (HQ s' (<[PDX va := p]> tbl)). rewrite fn_lookup_insert in HQ. apply HQ.
    split; [exact H1|exact H2|exact H3|exact H4|done| |exact H5|done]. right. split_and!; [done|done| |done].
    apply (free_list_taken _ _ _ Hfl).
Qed.

(** ** [page_insert] *)

(** The state after the entry of [va] has been set to [pp]. *)
Record mapped_at (s s' : mmst) (dp : Z) (tbl' : Z -> Z) (va pp perm : Z) : Prop := {
  ma_ok : dir_ok (mm_mem s') dp tbl';
  ma_here : forall la, is_u32 la -> PGNUM la = PGNUM va ->
    translate (mm_mem s') (page2pa dp) la = Some (page2pa pp + PGOFF la);
  ma_else : forall la, is_u32 la -> PGNUM la <> PGNUM va ->
    translate (mm_mem s') (page2pa dp) la = translate (mm_mem s) (page2pa dp) la }.

Lemma pte_value pp perm :
  0 <= pp < npages -> 0 <= perm < 4096 ->
  present (Z.lor (Z.lor (page2pa pp) perm) PTE_P) = true /\
  PTE_ADDR (Z.lor (Z.lor (page2pa pp) perm) PTE_P) = page2pa pp.
Proof.
  intros Hp Hperm. split; [rewrite present_lor; apply orb_true_r|].
  rewrite <- Z.lor_assoc. apply PTE_lor; [unfold npages in *; lia|].
  split; [apply Z.lor_nonneg; unfold PTE_P; lia|].
  destruct (decide (Z.lor perm PTE_P = 0)) as [->|Hne]; [lia|].
  apply Z.log2_lt_pow2; [pose proof (Z.lor_nonneg perm PTE_P); unfold PTE_P in *; lia|].
  rewrite Z.log2_lor by (unfold PTE_P; lia). apply Z.max_lub_lt; [|done].
  destruct (decide (perm = 0)) as [->|]; [done|]. apply Z.log2_lt_pow2; lia.
Qed.

(** Mapping a page at an address with nothing mapped. *)
Lemma wp_page_insert dp tbl va pp perm p l s (Q : Z -> mmst -> Prop) J :
  dir_ok (mm_mem s) dp tbl -> is_u32 va -> free_list s (p :: l) -> p + 4 <= npages ->
  clear_of (mm_mem s) dp tbl p -> 0 <= pp < npages -> 0 <= perm < 4096 ->
  translate (mm_mem s) (page2pa dp) va = None ->
  (forall s' tbl', mapped_at s s' dp tbl' va pp perm ->
     (tbl' = tbl /\ free_list s' (p :: l) /\ present (mm_mem s (entry (page2kva dp) (PDX va))) = true \/ tbl' = <[PDX va := p]> tbl /\ free_list s' l /\
        present (mm_mem s (entry (page2kva dp) (PDX va))) = false) ->
     (pp <> p -> mm_ref s' pp = u16 (mm_ref s pp + 1)) ->
     (forall i, 0 <= i < 1024 -> present (mm_mem s' (entry (page2kva dp) i)) = true ->
        i = PDX va \/ present (mm_mem s (entry (page2kva dp) i)) = true) ->
     mm_kern_pgdir s' = mm_kern_pgdir s /\ mm_tlb s' = mm_tlb s /\
     (forall q i, 0 <= q < npages -> 0 <= i < 1024 -> q <> dp -> q <> tbl' (PDX va) -> q < p \/ p + 4 <= q ->
        mm_mem s' (entry (page2kva q) i) = mm_mem s (entry (page2kva q) i)) ->
     Q 0 s') ->
  wp (page_insert (page2kva dp) (Some pp) va perm) Q J s.
Proof.
  intros Hok Hva Hfl Hp4 Hcl Hpp Hperm Hun HQ. unfold page_insert. apply wp_bind.
  eapply wp_pgdir_walk; [done..|]. intros s1 tbl1 [W1 W2 W3 Wd Wk W4 Wf Wt]. apply wp_bind, wp_ret.
  destruct (PGADDR_split va Hva) as (_ & Hdv & Hxv & _).
  destruct (do_table _ _ _ W1 _ Hdv W2) as (_ & Ht1 & Htn).
  apply wp_bind, wp_load; [by apply entry_mapped|].
  pose proof (W3 va Hva) as Hun1. rewrite Hun, (translate_eq _ _ _ _ W1 Hva), W2 in Hun1.
  cbn zeta in Hun1. destruct (present (mm_mem s1 (entry (page2kva (tbl1 (PDX va))) (PTX va)))) eqn:E;
    [done|]. clear Hun1.
  apply wp_bind, wp_ret. apply wp_bind, wp_store; [by apply entry_mapped|].
  apply wp_bind, wp_incr_ref; [done|]. apply wp_ret.
  destruct (pte_value pp perm Hpp Hperm) as [Hv1 Hv2].
  set (v := Z.lor (Z.lor (page2pa pp) perm) PTE_P) in *. set (s2 := with_ref _ _).
  assert (Hset : forall la, is_u32 la -> dir_ok (mm_mem s2) dp tbl1 /\
    translate (mm_mem s2) (page2pa dp) la =
      if decide (PGNUM la = PGNUM va) then Some (page2pa pp + PGOFF la)
      else translate (mm_mem s1) (page2pa dp) la).
  { intros la Hla. destruct (translate_set _ _ _ va v la W1 Hla Hva W2) as [Ha Hb].
    split; [exact Ha|]. rewrite Hv1, Hv2 in Hb. exact Hb. }
  apply (HQ s2 tbl1).
  - split; [by apply (Hset va)|..].
    + intros la Hla Hpg. destruct (Hset la Hla) as [_ ->]. by rewrite decide_True.
    + intros la Hla Hpg. destruct (Hset la Hla) as [_ ->]. rewrite decide_False by done. by apply W3.
  - destruct W4 as [[-> ->]|(Hnp & -> & Hf & _)]; [by left|by right].
  - intros Hne. unfold s2. cbn. rewrite fn_lookup_insert.
    destruct W4 as [[-> _]|(_ & _ & _ & ->)]; [done|]. by rewrite fn_lookup_insert_ne by congruence.
  - intros i Hi Hpi. destruct (decide (i = PDX va)) as [|Hne]; [by left|right].
    assert (Hsame : mm_mem s2 (entry (page2kva dp) i) = mm_mem s1 (entry (page2kva dp) i)).
    { unfold s2. cbn. rewrite fn_lookup_insert_ne; [done|]. pose proof (do_dp _ _ _ Hok).
      intros Heq. apply entry_inj in Heq as [Heq _]; [congruence|done..]. }
    by rewrite Hsame, Wd in Hpi.
  - split; [exact Wk|]. split; [exact Wt|]. intros q i Hq Hi Hqd Hqt Hqp. rewrite <- Wf by done. unfold s2. cbn. rewrite fn_lookup_insert_ne; [done|].
    intros Heq. apply entry_inj in Heq as [Heq _]; [congruence|done..].
Qed.
