(* ===== verification/PmapAlloc.v ===== *)
(** * Mapping a range of fresh pages

    [mm_alloc] on a machine whose pages have been handed out in order and
    never given back, which is how the kernel uses them while it loads a
    program. *)

From S2P Require Import Prelude Disk Pmap PmapSpec PmapProofs.

(** The free pages are those from [n] on, in order. *)
Definition fresh (s : mmst) (n : Z) : Prop := 0 <= n <= npages /\ free_list s (seqZ n (npages - n)).

Lemma fresh_cons s n : fresh s n -> n < npages -> free_list s (n :: seqZ (n + 1) (npages - (n + 1))).
Proof.
  intros [Hn Hf] Hlt. rewrite seqZ_cons in Hf by lia.
  replace (Z.succ n) with (n + 1) in Hf by lia.
  by replace (Z.pred (npages - n)) with (npages - (n + 1)) in Hf by lia.
Qed.

(** The directory and its tables are pages below [n]. *)
Definition below (m : Z -> Z) (dp : Z) (tbl : Z -> Z) (n : Z) : Prop :=
  dp < n /\ forall i, 0 <= i < 1024 -> present (m (entry (page2kva dp) i)) = true -> tbl i < n.

Lemma below_clear m dp tbl n p : below m dp tbl n -> n <= p -> clear_of m dp tbl p.
Proof.
  intros [H1 H2] Hle. split; [lia|]. intros i Hi Hp. left. specialize (H2 i Hi Hp). lia.
Qed.

(** The outcome: page [g] of the range is mapped to frame [f g]. *)
Record range_mapped (s s' : mmst) (dp lo hi n n' : Z) (f : Z -> Z) : Prop := {
  rm_in : forall la, lo <= la < hi ->
    translate (mm_mem s') (page2pa dp) la = Some (page2pa (f (PGNUM la)) + PGOFF la);
  rm_out : forall la, is_u32 la -> la < lo \/ hi <= la ->
    translate (mm_mem s') (page2pa dp) la = translate (mm_mem s) (page2pa dp) la;
  rm_frame : forall g, PGNUM lo <= g < PGNUM hi -> n <= f g < n';
  rm_inj : forall g h, PGNUM lo <= g < PGNUM hi -> PGNUM lo <= h < PGNUM hi -> f g = f h -> g = h }.

(** A page that is neither the directory nor one of its tables. *)
Definition spare (m : Z -> Z) (dp q : Z) : Prop :=
  q <> dp /\ forall i, 0 <= i < 1024 -> present (m (entry (page2kva dp) i)) = true -> PTE_ADDR (m (entry (page2kva dp) i)) <> page2pa q.

Lemma page2pa_inj p q : page2pa p = page2pa q -> p = q.
Proof. unfold page2pa. rewrite !Z.shiftl_mul_pow2 by lia. lia. Qed.

Lemma spare_dir m dp tbl q : dir_ok m dp tbl ->
  spare m dp q <-> q <> dp /\ forall i, 0 <= i < 1024 -> present (m (entry (page2kva dp) i)) = true -> tbl i <> q.
Proof.
  intros [_ Ht _]. split; intros [H1 H2]; (split; [done|]); intros i Hi Hp; specialize (H2 i Hi Hp); destruct (Ht i Hi Hp) as (E & _).
  - intros <-. by apply H2.
  - rewrite E. intros E2. by apply H2, page2pa_inj.
Qed.

(** The pages that were in use keep their contents, and the new frames are
    pages for data. *)
Record range_spare (s s' : mmst) (dp lo hi n : Z) (f : Z -> Z) : Prop := {
  rs_old : forall q, 0 <= q < n -> spare (mm_mem s) dp q -> spare (mm_mem s') dp q /\
    forall o, 0 <= o < 1024 -> mm_mem s' (entry (page2kva q) o) = mm_mem s (entry (page2kva q) o);
  rs_new : forall g, PGNUM lo <= g < PGNUM hi -> spare (mm_mem s') dp (f g);
  rs_kern : mm_kern_pgdir s' = mm_kern_pgdir s;
  rs_tlb : mm_tlb s' = mm_tlb s }.

Lemma PGNUM_eq la : PGNUM la = la / 4096.
Proof. unfold PGNUM. by rewrite Z.shiftr_div_pow2. Qed.

(** The first page of a range, then the others. *)
Lemma range_spare_step s s2 s3 dp tbl tbl2 i hi n n2 f :
  dir_ok (mm_mem s) dp tbl -> below (mm_mem s) dp tbl n -> dir_ok (mm_mem s2) dp tbl2 -> is_u32 i -> 0 <= n -> n2 <= npages -> n < n2 ->
  (tbl2 = tbl /\ present (mm_mem s (entry (page2kva dp) (PDX i))) = true \/ tbl2 = <[PDX i := n + 1]> tbl) ->
  (forall j, 0 <= j < 1024 -> present (mm_mem s2 (entry (page2kva dp) j)) = true ->
     j = PDX i \/ present (mm_mem s (entry (page2kva dp) j)) = true) ->
  mm_kern_pgdir s2 = mm_kern_pgdir s -> mm_tlb s2 = mm_tlb s ->
  (forall q j, 0 <= q < npages -> 0 <= j < 1024 -> q <> dp -> q <> tbl2 (PDX i) -> q < n + 1 \/ n + 1 + 4 <= q ->
     mm_mem s2 (entry (page2kva q) j) = mm_mem s (entry (page2kva q) j)) ->
  range_spare s2 s3 dp (i + 4096) hi n2 f -> range_spare s s3 dp i hi n (<[PGNUM i := n]> f).
Proof.
  intros Hok [Hb1 Hb2] Hok2 Hi32 Hn0 Hn2 Hlt Hcase Hdir Hk Htlb Hfr [S1 S2 S3 S4]. destruct (PGADDR_split i Hi32) as (_ & Hd & _).
  assert (Hsp : forall q, 0 <= q <= n -> q = n \/ spare (mm_mem s) dp q -> spare (mm_mem s2) dp q).
  { intros q Hq Hs. rewrite (spare_dir _ _ _ _ Hok2).
    assert (Hq' : q <> dp /\ forall j, 0 <= j < 1024 -> present (mm_mem s (entry (page2kva dp) j)) = true -> tbl j <> q).
    { destruct Hs as [->|Hs]; [|by apply (spare_dir _ _ _ _ Hok)]. split; [lia|]. intros j Hj Hp. specialize (Hb2 j Hj Hp). lia. }
    destruct Hq' as [Hne Ht]. split; [done|]. intros j Hj Hp. destruct Hcase as [[-> Hpi]| ->].
    - destruct (Hdir j Hj Hp) as [->|Hp']; by apply Ht.
    - destruct (decide (j = PDX i)) as [->|Hji]; [rewrite fn_lookup_insert; lia|]. rewrite fn_lookup_insert_ne by congruence.
      destruct (Hdir j Hj Hp) as [?|Hp']; [done|by apply Ht]. }
  split.
  - intros q Hq Hs. pose proof (Hsp q ltac:(lia) (or_intror Hs)) as Hs2. destruct (S1 q ltac:(lia) Hs2) as [Hs3 E].
    split; [done|]. intros o Ho. rewrite E by done. apply (spare_dir _ _ _ _ Hok) in Hs as [Hne Ht]. apply Hfr; [lia|done|done| |lia].
    destruct Hcase as [[-> Hpi]| ->]; [|rewrite fn_lookup_insert; lia]. specialize (Ht _ Hd Hpi). congruence.
  - assert (Hpg : PGNUM (i + 4096) = PGNUM i + 1).
    { rewrite !PGNUM_eq. replace (i + 4096) with (i + 1 * 4096) by lia. by rewrite Z.div_add. }
    intros g Hg. destruct (decide (g = PGNUM i)) as [->|Hne].
    + rewrite fn_lookup_insert. apply S1; [lia|]. apply Hsp; [lia|by left].
    + rewrite fn_lookup_insert_ne by congruence. apply S2. lia.
  - congruence.
  - congruence.
Qed.

Lemma wp_mm_alloc_loop k fuel dp tbl s n i (hi := i + 4096 * Z.of_nat k) (Q : unit -> mmst -> Prop) J :
  (k < fuel)%nat -> dir_ok (mm_mem s) dp tbl -> below (mm_mem s) dp tbl n -> fresh s n ->
  n + 2 * Z.of_nat k + 4 <= npages -> 0 <= i -> i mod 4096 = 0 -> hi < 2 ^ 32 ->
  (forall la, i <= la < hi -> translate (mm_mem s) (page2pa dp) la = None) ->
  (forall s' tbl' n' f, dir_ok (mm_mem s') dp tbl' -> below (mm_mem s') dp tbl' n' -> fresh s' n' ->
     n <= n' <= n + 2 * Z.of_nat k -> range_mapped s s' dp i hi n n' f -> range_spare s s' dp i hi n f -> Q tt s') ->
  wp (mm_alloc_loop fuel (page2kva dp) i hi) Q J s.
Proof.
  revert fuel tbl s n i hi Q. induction k as [|k IH];
    intros [|fuel] tbl s n i hi Q Hfu Hok Hbl Hfr Hn Hi Hmod Hhi Hun HQ; try lia; cbn [mm_alloc_loop].
  - rewrite (proj2 (Z.ltb_ge i hi)) by (unfold hi; lia). apply wp_ret.
    apply (HQ s tbl n (fun g => g)); [done|done|done|lia|..].
    + assert (hi = i) as -> by (unfold hi; lia). split; intros; lia || done.
    + assert (hi = i) as -> by (unfold hi; lia). split; intros; lia || done.
  - rewrite (proj2 (Z.ltb_lt i hi)) by (unfold hi; lia).
    pose proof (fresh_cons s n Hfr ltac:(lia)) as Hf1.
    apply wp_bind. eapply wp_page_alloc; [exact Hf1|].
    pose proof (free_list_taken _ _ _ Hf1) as Hf2. set (s1 := taken n s) in *.
    rewrite seqZ_cons in Hf2 by lia. set (l := seqZ _ _) in Hf2.
    assert (Hi32 : is_u32 i) by (unfold is_u32; lia).
    assert (Hn1 : 0 <= n < npages) by (destruct Hfr; lia).
    apply wp_bind. eapply (wp_page_insert dp tbl i n 7 (n + 1) l s1);
      [exact Hok|done|exact Hf2|lia| |done|lia|apply Hun; lia|].
    { apply (below_clear _ _ _ n); [exact Hbl|lia]. }
    intros s2 tbl2 [M1 M2 M3] Hcase _ Hdir (Hkern & Hmtlb & Hfr').
    assert (Hu : u32 (i + PGSIZE) = i + 4096) by (unfold PGSIZE; apply u32_id; unfold is_u32; lia).
    rewrite Hu.
    assert (Hn2 : exists n2, n + 1 <= n2 <= n + 2 /\ fresh s2 n2 /\ below (mm_mem s2) dp tbl2 n2).
    { destruct Hbl as [Hb1 Hb2]. destruct Hcase as [(-> & Hf & Hp)|(-> & Hf & Hnp)].
      - exists (n + 1). split; [lia|]. split; [|split; [lia|]].
        + split; [lia|]. rewrite seqZ_cons by lia. exact Hf.
        + intros j Hj Hpj. destruct (Hdir j Hj Hpj) as [->|Hpj']; [|specialize (Hb2 j Hj Hpj'); lia].
          destruct (PGADDR_split i Hi32) as (_ & Hd & _). specialize (Hb2 _ Hd Hp). lia.
      - exists (n + 2). split; [lia|]. split; [|split; [lia|]].
        + split; [lia|]. unfold l in Hf. replace (Z.succ (n + 1)) with (n + 2) in Hf by lia.
          by replace (npages - (n + 2)) with (Z.pred (npages - (n + 1))) by lia.
        + intros j Hj Hpj. destruct (decide (j = PDX i)) as [->|Hne]; [rewrite fn_lookup_insert; lia|].
          rewrite fn_lookup_insert_ne by congruence.
          destruct (Hdir j Hj Hpj) as [->|Hpj']; [done|]. specialize (Hb2 j Hj Hpj'). lia. }
    destruct Hn2 as (n2 & Hn2 & Hfr2 & Hbl2).
    replace hi with (i + 4096 + 4096 * Z.of_nat k) by (unfold hi; lia).
    assert (Hpg : PGNUM (i + 4096) = PGNUM i + 1).
    { rewrite !PGNUM_eq. replace (i + 4096) with (i + 1 * 4096) by lia. by rewrite Z.div_add. }
    assert (Hdiv : forall la, i <= la < i + 4096 -> PGNUM la = PGNUM i).
    { intros la Hla. rewrite !PGNUM_eq. pose proof (Z.div_mod i 4096 ltac:(lia)).
      symmetry. apply (Z.div_unique la 4096 (i / 4096) (la - i)); lia. }
    assert (Hge : forall la, i + 4096 <= la -> PGNUM la <> PGNUM i).
    { intros la Hla. rewrite !PGNUM_eq. pose proof (Z.div_le_mono (i + 4096) la 4096 ltac:(lia) Hla).
      rewrite <- !PGNUM_eq in *. lia. }
    assert (Hlt : forall la, 0 <= la < i -> PGNUM la <> PGNUM i).
    { intros la Hla E. rewrite !PGNUM_eq in E. pose proof (Z.mul_div_le i 4096 ltac:(lia)).
      pose proof (Z.div_mod i 4096 ltac:(lia)). pose proof (Z.mod_pos_bound la 4096 ltac:(lia)).
      pose proof (Z.div_mod la 4096 ltac:(lia)). lia. }
    eapply (IH fuel tbl2 s2 n2 (i + 4096)); [lia|exact M1|exact Hbl2|exact Hfr2|lia|lia| |unfold hi in Hhi; lia| |].
    + replace (i + 4096) with (i + 1 * 4096) by lia. rewrite Z.mod_add by lia. exact Hmod.
    + intros la Hla. rewrite M3; [|unfold is_u32, hi in *; lia|apply Hge; lia].
      apply (Hun la). unfold hi. lia.
    + intros s3 tbl3 n3 f H1 H2 H3 H4 [R1 R2 R3 R4] HS.
      apply (HQ s3 tbl3 n3 (<[PGNUM i := n]> f)); [done|done|done|lia| |].
      2:{ replace hi with (i + 4096 + 4096 * Z.of_nat k) by (unfold hi; lia).
        apply (range_spare_step s s2 s3 dp tbl tbl2 i (i + 4096 + 4096 * Z.of_nat k) n n2 f);
          [done|done|done|done|lia|lia|lia| |done|done|done|exact Hfr'|done].
        destruct Hcase as [(? & _ & ?)|(? & _)]; [by left|by right]. }
      split.
      * intros la Hla. destruct (decide (la < i + 4096)).
        -- rewrite R2 by (unfold is_u32, hi in *; lia). rewrite M2; [|unfold is_u32, hi in *; lia|apply Hdiv; lia].
           rewrite (Hdiv la) by lia. by rewrite fn_lookup_insert.
        -- rewrite fn_lookup_insert_ne by (apply not_eq_sym, Hge; lia).
           apply R1. unfold hi in Hla. lia.
      * intros la Hla Hout. rewrite R2 by (try done; unfold hi in *; lia).
        apply M3; [done|]. destruct Hout; [apply Hlt; unfold is_u32 in *; lia|apply Hge; unfold hi in *; lia].
      * intros g Hg. destruct (decide (g = PGNUM i)) as [->|Hne]; [rewrite fn_lookup_insert; lia|].
        rewrite fn_lookup_insert_ne by congruence. specialize (R3 g). unfold hi in Hg.
        replace (i + 4096 * Z.of_nat (S k)) with (i + 4096 + 4096 * Z.of_nat k) in Hg by lia. lia.
      * assert (Hhi' : hi = i + 4096 + 4096 * Z.of_nat k) by (unfold hi; lia). rewrite Hhi'.
        intros g h Hg Hh.
        destruct (decide (g = PGNUM i)) as [->|Hne], (decide (h = PGNUM i)) as [->|Hne']; [done|..].
        -- rewrite fn_lookup_insert, fn_lookup_insert_ne by congruence. specialize (R3 h). lia.
        -- rewrite fn_lookup_insert, fn_lookup_insert_ne by congruence. specialize (R3 g). lia.
        -- rewrite !fn_lookup_insert_ne by congruence. apply R4; lia.
Qed.

(** [mm_alloc] in an address space with the range unmapped. *)
Lemma wp_mm_alloc dp tbl s n va len (lo := ROUNDDOWN va PGSIZE) (hi := ROUNDUP (va + len) PGSIZE) (Q : unit -> mmst -> Prop) J :
  is_u32 va -> 0 <= len -> va + len + 2 * PGSIZE <= 2 ^ 32 ->
  dir_ok (mm_mem s) dp tbl -> below (mm_mem s) dp tbl n -> fresh s n -> n + 2 * ((hi - lo) / PGSIZE) + 4 <= npages ->
  (forall la, lo <= la < hi -> translate (mm_mem s) (page2pa dp) la = None) ->
  (forall s' tbl' n' f, lo <= va -> va + len <= hi -> dir_ok (mm_mem s') dp tbl' -> below (mm_mem s') dp tbl' n' -> fresh s' n' ->
     n <= n' <= n + 2 * ((hi - lo) / PGSIZE) -> range_mapped s s' dp lo hi n n' f -> range_spare s s' dp lo hi n f -> Q tt s') ->
  wp (mm_alloc (page2kva dp) va len) Q J s.
Proof.
  intros Hva Hlen Hend Hok Hbl Hfr Hn Hun HQ. unfold is_u32, PGSIZE in *.
  destruct (ROUNDDOWN_spec va 4096 ltac:(lia)) as [Hlo1 Hlo2]. destruct (ROUNDUP_spec (va + len) 4096) as [Hhi1 Hhi2]; [lia..|].
  fold lo in Hlo1, Hlo2. fold hi in Hhi1, Hhi2. unfold mm_alloc. rewrite (u32_id (va + len)) by (unfold is_u32; lia).
  change PGSIZE with 4096. fold lo hi. assert (Hlo0 : 0 <= lo).
  { pose proof (Z.div_mod lo 4096 ltac:(lia)). lia. }
  assert (Hle : lo <= hi) by lia.
  set (k := Z.to_nat ((hi - lo) / 4096)).
  assert (Ehi : hi = lo + 4096 * Z.of_nat k).
  { assert (Hm : (hi - lo) mod 4096 = 0) by (by rewrite Zminus_mod, Hlo1, Hhi1).
    pose proof (Z.div_mod (hi - lo) 4096 ltac:(lia)). pose proof (Z.div_pos (hi - lo) 4096 ltac:(lia) ltac:(lia)).
    unfold k. lia. }
  rewrite Ehi at 2. eapply (wp_mm_alloc_loop k _ dp tbl s n lo); try done.
  - unfold mm_alloc_fuel. change PGSIZE with 4096. fold k. lia.
  - unfold k. pose proof (Z.div_pos (hi - lo) 4096 ltac:(lia) ltac:(lia)). lia.
  - lia.
  - intros la Hla. apply Hun. lia.
  - intros s' tbl' n' f H1 H2 H3 H4 H5 H6. rewrite <- Ehi in H5, H6. assert (E : (hi - lo) / 4096 = Z.of_nat k) by (rewrite Ehi; replace (lo + 4096 * Z.of_nat k - lo) with (Z.of_nat k * 4096) by lia; by apply Z.div_mul).
    eapply HQ; [lia|lia|exact H1|exact H2|exact H3|by rewrite E|exact H5|exact H6].
Qed.
