(* ===== verification/PmapCopy.v ===== *)
(** * Copying an address space

    [copy_pgdir], which [fork] uses, from a state whose free pages are those
    from [n] on.  [memcpy] copies four pages where one is meant; the three
    above the new page are not in use yet, so each page ends up right. *)

From S2P Require Import Prelude Disk Pmap PmapSpec PmapProofs PmapAlloc.

(** ** [memcpy] to higher addresses *)

(** Words of the source below the destination arrive unchanged. *)
Lemma wp_memcpy_up k dst src s (Q : unit -> mmst -> Prop) J :
  src < dst -> KERNBASE <= src -> dst + 4 * Z.of_nat k <= KERNBASE + PHY_MEM ->
  (forall m', (forall a, a < dst -> m' a = mm_mem s a) ->
     (forall o, 0 <= o < Z.of_nat k -> src + 4 * o < dst -> m' (dst + 4 * o) = mm_mem s (src + 4 * o)) ->
     Q tt (with_mem m' s)) ->
  wp (Pmap.memcpy k dst src) Q J s.
Proof.
  revert dst src s. induction k as [|k IH]; intros dst src s Hlt Hs Hd HQ; cbn [memcpy].
  - apply wp_ret. specialize (HQ (mm_mem s)). destruct s. apply HQ; [done|lia].
  - apply wp_bind, wp_load; [apply mapped_true; lia|]. apply wp_bind, wp_store; [apply mapped_true; lia|].
    apply IH; [lia..|]. intros m' H1 H2. cbn [mm_mem with_mem] in H1, H2.
    specialize (HQ m'). apply HQ.
    + intros a Ha. rewrite H1 by lia. rewrite fn_lookup_insert_ne; [done|lia].
    + intros o Ho Hb. destruct (decide (o = 0)) as [->|Hne].
      * rewrite !Z.mul_0_r, !Z.add_0_r. rewrite H1 by lia. by rewrite fn_lookup_insert.
      * replace (dst + 4 * o) with (dst + 4 + 4 * (o - 1)) by lia. rewrite H2 by lia.
        rewrite fn_lookup_insert_ne by lia. f_equal. lia.
Qed.

(** Page [q] copied to page [p]. *)
Definition page_copied (m m' : Z -> Z) (q p : Z) : Prop :=
  forall o, 0 <= o < 1024 -> m' (page2kva p + 4 * o) = m (page2kva q + 4 * o).

Lemma wp_copy_page p q s (Q : unit -> mmst -> Prop) J :
  0 <= q < p -> p + 4 <= npages ->
  (forall m', (forall a, a < page2kva p -> m' a = mm_mem s a) -> page_copied (mm_mem s) m' q p -> Q tt (with_mem m' s)) ->
  wp (Pmap.memcpy (Z.to_nat PGSIZE) (page2kva p) (page2kva q)) Q J s.
Proof.
  intros Hq Hp HQ. rewrite !page2kva_eq by lia. unfold KERNBASE, PHY_MEM, PGSIZE, npages in *.
  apply wp_memcpy_up; [lia|unfold KERNBASE; lia|unfold KERNBASE, PHY_MEM; lia|]. intros m' H1 H2. apply HQ.
  - intros a Ha. apply H1. rewrite page2kva_eq in Ha by (unfold npages; lia). exact Ha.
  - intros o Ho. rewrite !page2kva_eq by (unfold npages; lia). unfold KERNBASE. apply H2; lia.
Qed.

(** ** One page table *)

(** The present entries of the table [t] from [x] on. *)
Fixpoint count_present (m : Z -> Z) (t : Z) (k : nat) (x : Z) : Z :=
  match k with
  | O => 0
  | S k => (if present (m (entry (page2kva t) x)) then 1 else 0) + count_present m t k (x + 1)
  end.

Lemma count_present_nonneg m t k x : 0 <= count_present m t k x.
Proof. revert x. induction k as [|k IH]; intros x; simpl; [lia|]. specialize (IH (x + 1)). destruct (present _); lia. Qed.

Lemma count_present_ext m m' t k x :
  (forall y, x <= y < x + Z.of_nat k -> m' (entry (page2kva t) y) = m (entry (page2kva t) y)) ->
  count_present m' t k x = count_present m t k x.
Proof.
  revert x. induction k as [|k IH]; intros x H; simpl; [done|]. rewrite H by lia. f_equal. apply IH. intros y Hy. apply H. lia.
Qed.

(** The entries [x, x+k) of table [t], copied to table [t']; [f] gives the
    new frames, which are the pages [n, n'). *)
Record table_copied (m m' : Z -> Z) (t t' x k n n' : Z) (f : Z -> Z) : Prop := {
  tc_present : forall i, x <= i < x + k -> present (m (entry (page2kva t) i)) = true ->
    m' (entry (page2kva t') i) = Z.lor (page2pa (f i)) (PTE_ATTR (m (entry (page2kva t) i))) /\ n <= f i < n' /\
    page_copied m m' (PTE_ADDR (m (entry (page2kva t) i)) / 4096) (f i);
  tc_absent : forall i, x <= i < x + k -> present (m (entry (page2kva t) i)) = false ->
    m' (entry (page2kva t') i) = m (entry (page2kva t') i);
  tc_inj : forall i j, x <= i < x + k -> x <= j < x + k -> present (m (entry (page2kva t) i)) = true ->
    present (m (entry (page2kva t) j)) = true -> f i = f j -> i = j;
  tc_frame : forall a, a < page2kva n -> (forall i, x <= i < x + k -> a <> entry (page2kva t') i) -> m' a = m a }.

(** The present entries of a table name pages below [n]. *)
Definition frames_below (m : Z -> Z) (t n : Z) : Prop :=
  forall i, 0 <= i < 1024 -> present (m (entry (page2kva t) i)) = true ->
    exists q, PTE_ADDR (m (entry (page2kva t) i)) = page2pa q /\ 0 <= q < n.

Lemma page2pa_div q : page2pa q / 4096 = q.
Proof. unfold page2pa. rewrite Z.shiftl_mul_pow2 by lia. change (2 ^ 12) with 4096. apply Z.div_mul. lia. Qed.

Lemma entry_below p i n : 0 <= p < n -> n <= npages -> 0 <= i < 1024 -> entry (page2kva p) i < page2kva n \/ n = npages.
Proof.
  intros Hp Hn Hi. destruct (decide (n = npages)); [by right|left]. rewrite !page2kva_eq by lia. unfold entry. lia.
Qed.

Lemma page2kva_mono p q : 0 <= p <= q -> q < npages -> page2kva p <= page2kva q.
Proof. intros H Hq. rewrite !page2kva_eq by lia. lia. Qed.

Lemma in_page_lt p q o : 0 <= p < q -> q < npages -> 0 <= o < 1024 -> entry (page2kva p) o < page2kva q.
Proof. intros Hp Hq Ho. rewrite !page2kva_eq by lia. unfold entry. lia. Qed.

Lemma fresh_taken s n :
  fresh s n -> n < npages -> fresh (taken n s) (n + 1).
Proof.
  intros Hf Hn. pose proof (free_list_taken _ _ _ (fresh_cons _ _ Hf Hn)) as Ht.
  destruct Hf. split; [lia|exact Ht].
Qed.

Lemma fresh_ext s s' n : fresh s n -> mm_link s' = mm_link s -> mm_free s' = mm_free s -> fresh s' n.
Proof. unfold fresh, free_list. intros H -> ->. exact H. Qed.

(** One entry copied: the new frame is page [n]. *)
Lemma wp_copy_entry s n t t' x q (Q : unit -> mmst -> Prop) J (e := mm_mem s (entry (page2kva t) x)) :
  fresh s n -> 0 <= t < t' -> t' < n -> n + 4 <= npages -> 0 <= x < 1024 ->
  PTE_ADDR e = page2pa q -> 0 <= q < t' ->
  (forall s', fresh s' (n + 1) ->
     (forall a, a < page2kva n -> mm_mem s' a =
        <[entry (page2kva t') x := Z.lor (page2pa n) (PTE_ATTR e)]> (mm_mem s) a) ->
     page_copied (mm_mem s) (mm_mem s') q n -> Q tt s') ->
  wp (p ← page_alloc 0; pp ← from_option_or NullPointer p; incr_ref pp;;
      e ← load (entry (page2kva t) x);
      store (entry (page2kva t') x) (Z.lor (page2pa pp) (PTE_ATTR e));;
      e ← load (entry (page2kva t) x);
      Pmap.memcpy (Z.to_nat PGSIZE) (page2kva pp) (KADDR (PTE_ADDR e))) Q J s.
Proof.
  intros Hf Ht Ht' Hn Hx He Hq HQ.
  apply wp_bind. eapply wp_page_alloc; [apply fresh_cons; [exact Hf|lia]|].
  apply wp_bind, wp_ret. apply wp_bind, wp_incr_ref; [lia|].
  apply wp_bind, wp_load; [apply entry_mapped; lia|]. apply wp_bind, wp_store; [apply entry_mapped; lia|].
  apply wp_bind, wp_load; [apply entry_mapped; lia|]. cbn [mm_mem with_mem with_ref taken with_link with_free].
  assert (Hne : entry (page2kva t) x <> entry (page2kva t') x) by (intros E; apply entry_inj in E; lia).
  rewrite fn_lookup_insert_ne by congruence. fold e. rewrite He, KADDR_page2pa.
  apply wp_copy_page; [lia|lia|]. intros m' H1 H2. apply HQ; cbn [mm_mem with_mem].
  - eapply fresh_ext; [apply fresh_taken; [exact Hf|lia]|done|done].
  - exact H1.
  - intros o Ho. rewrite (H2 o Ho). cbn [mm_mem with_mem with_ref taken with_link with_free].
    apply fn_lookup_insert_ne. intros E. change (page2kva q + 4 * o) with (entry (page2kva q) o) in E.
    apply entry_inj in E; lia.
Qed.

(** The table of the entries from [x] on, from entry [x] and the rest. *)
Lemma table_copied_step m m1 m2 t t' x k n n' b f q :
  0 <= t < b -> b <= t' -> t' < n -> n + 1 < npages -> 0 <= x -> 0 <= k -> x + 1 + k <= 1024 -> n < n' ->
  frames_below m t b -> present (m (entry (page2kva t) x)) = true ->
  PTE_ADDR (m (entry (page2kva t) x)) = page2pa q -> 0 <= q < b ->
  (forall a, a < page2kva n -> m1 a =
     <[entry (page2kva t') x := Z.lor (page2pa n) (PTE_ATTR (m (entry (page2kva t) x)))]> m a) ->
  page_copied m m1 q n -> table_copied m1 m2 t t' (x + 1) k (n + 1) n' f ->
  table_copied m m2 t t' x (k + 1) n n' (<[x := n]> f).
Proof.
  intros Ht Hb Ht' Hn Hx Hk Hxk Hnn Hfr Hp Hq Hqb Hm1 Hc1 [P1 P2 P3 P4].
  assert (Hag : forall p o, 0 <= p < b -> 0 <= o < 1024 -> m1 (entry (page2kva p) o) = m (entry (page2kva p) o)).
  { intros p o Hp0 Ho. rewrite Hm1 by (apply in_page_lt; lia).
    apply fn_lookup_insert_ne. intros E. apply entry_inj in E; lia. }
  split.
  - intros i Hi Hpi. destruct (decide (i = x)) as [->|Hne].
    + rewrite fn_lookup_insert. split_and!; [|lia|lia|].
      * rewrite P4; [|apply (in_page_lt t' (n + 1) x); lia|intros j Hj E; apply entry_inj in E; lia].
        rewrite Hm1 by (apply in_page_lt; lia). apply fn_lookup_insert.
      * rewrite Hq, page2pa_div. intros o Ho. rewrite P4; [by apply Hc1|apply (in_page_lt n (n + 1) o); lia|].
        intros j Hj E. change (page2kva n + 4 * o) with (entry (page2kva n) o) in E. apply entry_inj in E; lia.
    + rewrite fn_lookup_insert_ne by congruence. specialize (P1 i ltac:(lia)). rewrite Hag in P1 by lia.
      destruct (P1 Hpi) as (E & Hfi & Hcp). destruct (Hfr i ltac:(lia) Hpi) as (r & Hr & Hrb).
      split_and!; [done|lia|lia|]. rewrite Hr, page2pa_div in Hcp |- *. intros o Ho. rewrite (Hcp o Ho).
      apply (Hag r o); lia.
  - intros i Hi Hpi. destruct (decide (i = x)) as [->|Hne]; [congruence|].
    specialize (P2 i ltac:(lia)). rewrite Hag in P2 by lia. rewrite (P2 Hpi).
    rewrite Hm1 by (apply in_page_lt; lia). apply fn_lookup_insert_ne. intros E. apply entry_inj in E; lia.
  - intros i j Hi Hj Hpi Hpj.
    assert (Hr : forall i, x + 1 <= i < x + 1 + k -> present (m (entry (page2kva t) i)) = true -> n + 1 <= f i).
    { intros i' Hi' Hpi'. specialize (P1 i' Hi'). rewrite Hag in P1 by lia. specialize (P1 Hpi'). lia. }
    destruct (decide (i = x)) as [->|Hne], (decide (j = x)) as [->|Hne']; [done|..];
      rewrite ?fn_lookup_insert, ?fn_lookup_insert_ne by congruence.
    + specialize (Hr j ltac:(lia) Hpj). lia.
    + specialize (Hr i ltac:(lia) Hpi). lia.
    + apply P3; rewrite ?Hag by lia; done || lia.
  - intros a Ha Hne. rewrite P4; [|pose proof (page2kva_mono n (n + 1) ltac:(lia) ltac:(lia)); lia|intros i Hi; apply Hne; lia].
    rewrite Hm1 by done. apply fn_lookup_insert_ne. intros E. by apply (Hne x); [lia|].
Qed.

Lemma table_copied_skip m m2 t t' x k n n' f :
  0 <= t' < n -> n < npages -> 0 <= x -> x + 1 + k <= 1024 ->
  present (m (entry (page2kva t) x)) = false ->
  table_copied m m2 t t' (x + 1) k n n' f -> table_copied m m2 t t' x (k + 1) n n' f.
Proof.
  intros Ht' Hn Hx Hxk Hp [P1 P2 P3 P4].
  assert (Hin : forall i, x <= i < x + (k + 1) -> present (m (entry (page2kva t) i)) = true -> x + 1 <= i < x + 1 + k).
  { intros i Hi Hpi. destruct (decide (i = x)) as [->|]; [congruence|lia]. }
  split.
  - intros i Hi Hpi. by apply P1; [apply Hin|].
  - intros i Hi Hpi. destruct (decide (i = x)) as [->|Hne]; [|apply P2; [lia|done]].
    apply P4; [apply in_page_lt; lia|]. intros j Hj E. apply entry_inj in E; lia.
  - intros i j Hi Hj Hpi Hpj. apply P3; [by apply Hin|by apply Hin|done|done].
  - intros a Ha Hne. apply P4; [done|]. intros i Hi. apply Hne. lia.
Qed.

(** [copy_table] on a table whose frames are old, into a newer table. *)
Lemma wp_copy_table k s n b t t' x (Q : unit -> mmst -> Prop) J (c := count_present (mm_mem s) t k x) :
  fresh s n -> 0 <= t < b -> b <= t' -> t' < n -> 0 <= x -> x + Z.of_nat k <= 1024 ->
  frames_below (mm_mem s) t b -> n + c + 3 <= npages ->
  (forall s' f, fresh s' (n + c) -> table_copied (mm_mem s) (mm_mem s') t t' x (Z.of_nat k) n (n + c) f -> Q tt s') ->
  wp (copy_table k x (page2kva t') (page2kva t)) Q J s.
Proof.
  revert s n x Q c. induction k as [|k IH]; intros s n x Q c Hf Ht Hb Ht' Hx Hk Hfr Hn HQ.
  - apply wp_ret. unfold c in *. cbn [count_present] in *. apply (HQ s (fun i => i)).
    + by rewrite Z.add_0_r.
    + split; intros; lia || done.
  - assert (Hnp : n + 3 <= npages) by (pose proof (count_present_nonneg (mm_mem s) t (S k) x); unfold c in *; lia).
    cbn [copy_table]. apply wp_bind, wp_load; [apply entry_mapped; lia|].
    set (m := mm_mem s) in *. apply wp_bind. unfold c in *. cbn [count_present] in Hn, HQ.
    fold m in Hn, HQ. pose proof (count_present_nonneg m t k (x + 1)) as Hnn.
    rewrite Nat2Z.inj_succ in HQ. unfold Z.succ in HQ.
    destruct (present (m (entry (page2kva t) x))) eqn:Hp; cbv iota in Hn, HQ.
    + destruct (Hfr x ltac:(lia) Hp) as (q & Hq & Hqb).
      apply (wp_copy_entry s n t t' x q); [done|lia|lia|lia|lia|exact Hq|lia|]. intros s1 Hf1 Hm1 Hc1. fold m in Hm1, Hc1.
      assert (Hag : forall o, 0 <= o < 1024 -> mm_mem s1 (entry (page2kva t) o) = m (entry (page2kva t) o)).
      { intros o Ho. rewrite Hm1 by (apply in_page_lt; lia).
        apply fn_lookup_insert_ne. intros E. apply entry_inj in E; lia. }
      assert (Hce : count_present (mm_mem s1) t k (x + 1) = count_present m t k (x + 1)).
      { apply count_present_ext. intros y Hy. apply Hag; lia. }
      apply IH with (n := n + 1); [exact Hf1|lia|lia|lia|lia|lia| |rewrite Hce; lia|].
      { intros i Hi Hpi. rewrite Hag in Hpi |- * by lia. by apply Hfr. }
      rewrite Hce. replace (n + 1 + count_present m t k (x + 1)) with (n + (1 + count_present m t k (x + 1))) by lia.
      intros s2 f Hf2 HT. apply (HQ s2 (<[x := n]> f) Hf2).
      by apply (table_copied_step m (mm_mem s1) _ _ _ _ _ _ _ b f q); try lia.
    + apply wp_ret. rewrite Z.add_0_l in Hn, HQ.
      apply IH with (n := n); [done|lia|lia|lia|lia|lia|done|done|]. fold m. intros s2 f Hf2 HT.
      apply (HQ s2 f Hf2). apply table_copied_skip; [lia|lia|lia|lia|done|done].
Qed.

(** ** The directory *)

(** Directory entry [i] is one that [copy_pgdir] copies. *)
Definition to_copy (m : Z -> Z) (sd dd i : Z) : bool :=
  present (m (entry (page2kva sd) i)) && negb (present (m (entry (page2kva dd) i))).

(** The pages [copy_pgdir] takes for the entries from [x] on. *)
Fixpoint count_dir (m : Z -> Z) (sd dd : Z) (k : nat) (x : Z) : Z :=
  match k with
  | O => 0
  | S k =>
      (if to_copy m sd dd x then 1 + count_present m (pa2page (PTE_ADDR (m (entry (page2kva sd) x)))) NPTENTRIES 0 else 0) +
      count_dir m sd dd k (x + 1)
  end.

Lemma count_dir_nonneg m sd dd k x : 0 <= count_dir m sd dd k x.
Proof.
  revert x. induction k as [|k IH]; intros x; cbn [count_dir]; [lia|]. specialize (IH (x + 1)).
  pose proof (count_present_nonneg m (pa2page (PTE_ADDR (m (entry (page2kva sd) x)))) NPTENTRIES 0).
  destruct (to_copy _ _ _ _); lia.
Qed.

(** What [copy_pgdir] reads from entry [x] on: the source directory's tables
    and frames are pages below [b], none of them the destination directory. *)
Record source_ok (m : Z -> Z) (sd dd : Z) (stbl : Z -> Z) (b x : Z) : Prop := {
  so_dirs : 0 <= sd < b /\ 0 <= dd < b /\ sd <> dd;
  so_table : forall i, x <= i < 1024 -> to_copy m sd dd i = true ->
    PTE_ADDR (m (entry (page2kva sd) i)) = page2pa (stbl i) /\ 0 <= stbl i < b /\ stbl i <> dd /\ frames_below m (stbl i) b;
  so_frame : forall i j, x <= i < 1024 -> 0 <= j < 1024 -> to_copy m sd dd i = true ->
    present (m (entry (page2kva (stbl i)) j)) = true -> PTE_ADDR (m (entry (page2kva (stbl i)) j)) <> page2pa dd }.

(** Memory below page [b] agrees but for directory [dd], where entries from
    [x] on agree. *)
Definition same_source (m m' : Z -> Z) (b dd x : Z) : Prop :=
  (forall p o, 0 <= p < b -> p <> dd -> 0 <= o < 1024 -> m' (entry (page2kva p) o) = m (entry (page2kva p) o)) /\
  (forall i, x <= i < 1024 -> m' (entry (page2kva dd) i) = m (entry (page2kva dd) i)).

Lemma same_to_copy m m' sd dd stbl b x i :
  source_ok m sd dd stbl b x -> same_source m m' b dd x -> 0 <= x <= i -> i < 1024 -> to_copy m' sd dd i = to_copy m sd dd i.
Proof. intros [(H1 & H2 & H3) _ _] [S1 S2] Hx Hi. unfold to_copy. by rewrite S1, S2 by lia. Qed.

Lemma same_source_le m m' b dd x y : same_source m m' b dd x -> x <= y -> same_source m m' b dd y.
Proof. intros [S1 S2] Hxy. split; [done|]. intros i Hi. apply S2. lia. Qed.

Lemma count_dir_ext m m' sd dd dd' stbl k x :
  (forall i, x <= i < x + Z.of_nat k -> to_copy m' sd dd' i = to_copy m sd dd i) ->
  (forall i, x <= i < x + Z.of_nat k -> to_copy m sd dd i = true ->
     PTE_ADDR (m (entry (page2kva sd) i)) = page2pa (stbl i) /\ m' (entry (page2kva sd) i) = m (entry (page2kva sd) i) /\
     forall j, 0 <= j < 1024 -> m' (entry (page2kva (stbl i)) j) = m (entry (page2kva (stbl i)) j)) ->
  count_dir m' sd dd' k x = count_dir m sd dd k x.
Proof.
  revert x. induction k as [|k IH]; intros x H1 H2; cbn [count_dir]; [done|]. rewrite H1 by lia. f_equal.
  - destruct (to_copy m sd dd x) eqn:E; [|done]. destruct (H2 x ltac:(lia) E) as (Ha & -> & Ht). rewrite Ha.
    unfold pa2page. rewrite PGNUM_eq, page2pa_div.
    f_equal. apply count_present_ext. intros y Hy. apply Ht. change (Z.of_nat NPTENTRIES) with 1024 in Hy. lia.
  - apply IH; intros i Hi; [apply H1|apply H2]; lia.
Qed.

Lemma same_count m m' sd dd stbl b k x :
  source_ok m sd dd stbl b x -> same_source m m' b dd x -> 0 <= x -> x + Z.of_nat k <= 1024 ->
  count_dir m' sd dd k x = count_dir m sd dd k x.
Proof.
  intros Hs Hm Hx Hk. apply count_dir_ext with (stbl := stbl).
  - intros i Hi. eapply same_to_copy; [exact Hs|exact Hm|lia..].
  - intros i Hi Hc. pose proof Hs as [(D1 & D2 & D3) Ht _]. destruct Hm as [S1 S2].
    destruct (Ht i ltac:(lia) Hc) as (Ha & Hb & Hd & _). split_and!; [done|apply S1; lia|].
    intros j Hj. by apply S1.
Qed.

(** The directory entries [x, x+k) of [sd], copied to [dd]: [T i] is the new
    table of entry [i] and [F i j] its new frames. *)
Record dir_copied (m m' : Z -> Z) (sd dd : Z) (stbl : Z -> Z) (x k n n' : Z) (T : Z -> Z) (F : Z -> Z -> Z) : Prop := {
  dc_entry : forall i, x <= i < x + k -> to_copy m sd dd i = true ->
    m' (entry (page2kva dd) i) = Z.lor (page2pa (T i)) (PTE_ATTR (m (entry (page2kva sd) i))) /\ n <= T i < n';
  dc_present : forall i j, x <= i < x + k -> 0 <= j < 1024 -> to_copy m sd dd i = true ->
    present (m (entry (page2kva (stbl i)) j)) = true ->
    m' (entry (page2kva (T i)) j) = Z.lor (page2pa (F i j)) (PTE_ATTR (m (entry (page2kva (stbl i)) j))) /\
    n <= F i j < n' /\ page_copied m m' (PTE_ADDR (m (entry (page2kva (stbl i)) j)) / 4096) (F i j);
  dc_absent : forall i j, x <= i < x + k -> 0 <= j < 1024 -> to_copy m sd dd i = true ->
    present (m (entry (page2kva (stbl i)) j)) = false -> m' (entry (page2kva (T i)) j) = 0;
  dc_inj : forall i j i' j', x <= i < x + k -> x <= i' < x + k -> 0 <= j < 1024 -> 0 <= j' < 1024 ->
    to_copy m sd dd i = true -> to_copy m sd dd i' = true ->
    present (m (entry (page2kva (stbl i)) j)) = true -> present (m (entry (page2kva (stbl i')) j')) = true ->
    F i j = F i' j' -> i = i' /\ j = j';
  dc_tables : forall i i' j', x <= i < x + k -> x <= i' < x + k -> 0 <= j' < 1024 ->
    to_copy m sd dd i = true -> to_copy m sd dd i' = true ->
    (i <> i' -> T i <> T i') /\ (present (m (entry (page2kva (stbl i')) j')) = true -> T i <> F i' j');
  dc_frame : forall a, a < page2kva n -> (forall i, x <= i < x + k -> to_copy m sd dd i = true -> a <> entry (page2kva dd) i) -> m' a = m a }.

Lemma PTE_ATTR_range e : 0 <= PTE_ATTR e < 2 ^ 12.
Proof. rewrite PTE_ATTR_eq. apply Z.mod_pos_bound. lia. Qed.

Lemma PTE_new n e : 0 <= n < npages -> PTE_ADDR (Z.lor (page2pa n) (PTE_ATTR e)) = page2pa n.
Proof. intros Hn. apply PTE_lor; [unfold npages in Hn; lia|apply PTE_ATTR_range]. Qed.

(** The memory after a new table [n] was cleared and entered. *)
Definition tabled (m : Z -> Z) (dd x n v : Z) : Z -> Z := <[entry (page2kva dd) x := v]> (fill (page2kva n) 0 PGSIZE m).

Lemma tabled_old m dd x n v a :
  a < page2kva n -> a <> entry (page2kva dd) x -> tabled m dd x n v a = m a.
Proof. intros Ha Hne. unfold tabled. rewrite fn_lookup_insert_ne by done. apply fill_out. lia. Qed.

Lemma tabled_old_entry m dd x n v p o :
  0 <= p < n -> n < npages -> p <> dd -> 0 <= dd < n -> 0 <= x < 1024 -> 0 <= o < 1024 ->
  tabled m dd x n v (entry (page2kva p) o) = m (entry (page2kva p) o).
Proof.
  intros Hp Hn Hne Hd Hx Ho. apply tabled_old; [by apply in_page_lt|]. intros E. apply entry_inj in E; lia.
Qed.

Lemma tabled_new m dd x n v j : 0 <= dd < n -> n < npages -> 0 <= x < 1024 -> 0 <= j < 1024 -> tabled m dd x n v (entry (page2kva n) j) = 0.
Proof.
  intros Hd Hn Hx Hj. unfold tabled. rewrite fn_lookup_insert_ne by (intros E; apply entry_inj in E; lia).
  apply fill_in. unfold entry, PGSIZE. lia.
Qed.

(** One table copied into the cleared page [n]. *)
Lemma table_to_dir m m1 sd dd stbl b x n n1 f :
  source_ok m sd dd stbl b x -> b <= n -> n + 1 < npages -> 0 <= x < 1024 -> to_copy m sd dd x = true -> n < n1 ->
  table_copied (tabled m dd x n (Z.lor (page2pa n) (PTE_ATTR (m (entry (page2kva sd) x))))) m1 (stbl x) n 0 1024 (n + 1) n1 f ->
  dir_copied m m1 sd dd stbl x 1 n n1 (fun _ => n) (fun _ => f).
Proof.
  intros [(D1 & D2 & D3) Ht Hfrm] Hb Hn Hx Hc Hn1 [P1 P2 P3 P4].
  destruct (Ht x ltac:(lia) Hc) as (Ha & Hbx & Hd & Hfr). specialize (Hfrm x).
  assert (Hold : forall p o, 0 <= p < b -> p <> dd -> 0 <= o < 1024 ->
     tabled m dd x n (Z.lor (page2pa n) (PTE_ATTR (m (entry (page2kva sd) x)))) (entry (page2kva p) o) = m (entry (page2kva p) o))
    by (intros; apply tabled_old_entry; lia).
  set (m0 := tabled _ _ _ _ _) in *. split.
  - intros i Hi _. assert (i = x) as -> by lia. split; [|lia].
    rewrite P4; [apply fn_lookup_insert|apply (in_page_lt dd (n + 1)); lia|].
    intros j Hj E. apply entry_inj in E; lia.
  - intros i j Hi Hj _ Hp. assert (i = x) as -> by lia. specialize (P1 j ltac:(lia)). rewrite Hold in P1 by (done || lia).
    destruct (P1 Hp) as (E & Hr & Hcp). split_and!; [done|lia|lia|].
    destruct (Hfr j Hj Hp) as (q & Hq & Hqb). rewrite Hq, page2pa_div in Hcp |- *. intros o Ho. rewrite (Hcp o Ho).
    apply (Hold q o); [lia| |done]. intros ->. by apply (Hfrm j ltac:(lia) Hj Hc Hp).
  - intros i j Hi Hj _ Hp. assert (i = x) as -> by lia. rewrite P2; [|lia|by rewrite Hold by (done || lia)].
    apply tabled_new; lia.
  - intros i j i' j' Hi Hi' Hj Hj' _ _ Hp Hp' E. split; [lia|].
    assert (i = x) as -> by lia. assert (i' = x) as -> by lia. apply P3; rewrite ?Hold by (done || lia); done || lia.
  - intros i i' j' Hi Hi' Hj' _ _. split; [lia|]. intros Hp E. assert (i' = x) as -> by lia. specialize (P1 j' ltac:(lia)).
    rewrite Hold in P1 by (done || lia). specialize (P1 Hp). lia.
  - intros a Hlt Hne. rewrite P4.
    + apply tabled_old; [done|]. by apply Hne; [lia|].
    + pose proof (page2kva_mono n (n + 1) ltac:(lia) ltac:(lia)). lia.
    + intros i Hi ->. rewrite page2kva_eq in Hlt by lia. unfold entry in Hlt. lia.
Qed.

Lemma same_source_read m m' sd dd stbl b x i :
  source_ok m sd dd stbl b x -> same_source m m' b dd x -> x <= i < 1024 -> 0 <= x -> to_copy m sd dd i = true ->
  m' (entry (page2kva sd) i) = m (entry (page2kva sd) i) /\
  (forall j, 0 <= j < 1024 -> m' (entry (page2kva (stbl i)) j) = m (entry (page2kva (stbl i)) j)).
Proof.
  intros [(D1 & D2 & D3) Ht _] [S1 S2] Hi Hx Hc. destruct (Ht i ltac:(lia) Hc) as (_ & Hb & Hd & _).
  split; [apply S1; lia|]. intros j Hj. by apply S1.
Qed.

Lemma source_ok_later m m' sd dd stbl b x y :
  source_ok m sd dd stbl b x -> same_source m m' b dd y -> 0 <= x <= y -> source_ok m' sd dd stbl b y.
Proof.
  intros Hs Hm Hx.
  assert (Hs' : source_ok m sd dd stbl b y).
  { destruct Hs as [D Ht Hf]. split; [done|..]; intros; [apply Ht|apply Hf]; done || lia. }
  pose proof Hs' as [D Ht Hf]. split; [done|..].
  - intros i Hi Hc. rewrite (same_to_copy _ _ _ _ _ _ _ _ Hs' Hm) in Hc by lia.
    destruct (same_source_read _ _ _ _ _ _ _ _ Hs' Hm Hi ltac:(lia) Hc) as [E1 E2].
    destruct (Ht i Hi Hc) as (A & B & C & G). rewrite E1. split_and!; [done|lia|lia|done|].
    intros j Hj. rewrite E2 by done. by apply G.
  - intros i j Hi Hj Hc. rewrite (same_to_copy _ _ _ _ _ _ _ _ Hs' Hm) in Hc by lia.
    destruct (same_source_read _ _ _ _ _ _ _ _ Hs' Hm Hi ltac:(lia) Hc) as [E1 E2]. rewrite E2 by done. by apply Hf.
Qed.

(** A copied range leaves the source alone. *)
Lemma dir_copied_source m m1 sd dd stbl b x k n n1 T F :
  source_ok m sd dd stbl b x -> 0 <= b <= n -> n < npages -> 0 <= x -> 0 <= k -> x + k <= 1024 ->
  dir_copied m m1 sd dd stbl x k n n1 T F -> same_source m m1 b dd (x + k).
Proof.
  intros [(D1 & D2 & D3) _ _] Hb Hn Hx Hk Hxk [_ _ _ _ _ Hf]. split.
  - intros p o Hp Hne Ho. apply Hf; [apply in_page_lt; lia|]. intros i Hi _ E.
    apply entry_inj in E; lia.
  - intros i Hi. apply Hf; [apply in_page_lt; lia|]. intros j Hj _ E. unfold entry in E. lia.
Qed.

Lemma dir_copied_app m m1 m2 sd dd stbl b x k n n1 n' T1 F1 T2 F2 :
  source_ok m sd dd stbl b x -> b <= n < n1 -> n1 <= n' -> n1 < npages -> 0 <= x -> 0 <= k -> x + 1 + k <= 1024 ->
  dir_copied m m1 sd dd stbl x 1 n n1 T1 F1 -> dir_copied m1 m2 sd dd stbl (x + 1) k n1 n' T2 F2 ->
  dir_copied m m2 sd dd stbl x (k + 1) n n' (<[x := T1 x]> T2) (<[x := F1 x]> F2).
Proof.
  intros Hs Hn Hn' Hnp Hx Hk Hxk HA HB. pose proof Hs as [(D1 & D2 & D3) Ht Hfr].
  pose proof (dir_copied_source m m1 sd dd stbl b x 1 n n1 _ _ Hs ltac:(lia) ltac:(lia) Hx ltac:(lia) ltac:(lia) HA) as Hm.
  destruct HA as [A1 A2 A3 A4 A5 A6], HB as [B1 B2 B3 B4 B5 B6].
  assert (Hsy : source_ok m sd dd stbl b (x + 1)) by (split; [done|..]; intros; [apply Ht|apply Hfr]; done || lia).
  assert (Hc : forall i, x + 1 <= i < x + 1 + k -> to_copy m1 sd dd i = to_copy m sd dd i)
    by (intros; eapply same_to_copy; [exact Hsy|exact Hm|lia..]).
  assert (Hr : forall i, x + 1 <= i < x + 1 + k -> to_copy m sd dd i = true ->
     m1 (entry (page2kva sd) i) = m (entry (page2kva sd) i) /\
     forall j, 0 <= j < 1024 -> m1 (entry (page2kva (stbl i)) j) = m (entry (page2kva (stbl i)) j))
    by (intros; eapply same_source_read; [exact Hsy|exact Hm|lia|lia|done]).
  assert (Hkeep : forall p o, 0 <= p < n1 -> p <> dd -> 0 <= o < 1024 -> m2 (entry (page2kva p) o) = m1 (entry (page2kva p) o)).
  { intros p o Hp Hne Ho. apply B6; [apply in_page_lt; lia|]. intros i Hi _ E. apply entry_inj in E; lia. }
  split.
  - intros i Hi Hci. destruct (decide (i = x)) as [->|Hne].
    + rewrite fn_lookup_insert. destruct (A1 x ltac:(lia) Hci) as [E R]. split; [|lia]. rewrite <- E.
      apply B6; [apply in_page_lt; lia|]. intros j Hj _ E'. unfold entry in E'. lia.
    + rewrite fn_lookup_insert_ne by congruence. specialize (B1 i ltac:(lia)). rewrite Hc in B1 by lia.
      destruct (B1 Hci) as [E R]. split; [|lia]. destruct (Hr i ltac:(lia) Hci) as [<- _]. done.
  - intros i j Hi Hj Hci Hp. destruct (decide (i = x)) as [->|Hne].
    + rewrite !fn_lookup_insert. destruct (A2 x j ltac:(lia) Hj Hci Hp) as (E & R & C). destruct (A1 x ltac:(lia) Hci) as [_ R'].
      split_and!; [|lia|lia|]; [by rewrite Hkeep by lia|]. intros o Ho. rewrite <- (C o Ho). apply (Hkeep (F1 x j) o); lia.
    + rewrite !fn_lookup_insert_ne by congruence. destruct (Hr i ltac:(lia) Hci) as [_ Hr2].
      specialize (B2 i j ltac:(lia) Hj). rewrite Hc, !Hr2 in B2 by lia. destruct (B2 Hci Hp) as (E & R & C).
      split_and!; [done|lia|lia|]. intros o Ho. rewrite (C o Ho). destruct (Ht i ltac:(lia) Hci) as (_ & _ & _ & G).
      destruct (G j Hj Hp) as (q & Hq & Hqb). specialize (Hfr i j ltac:(lia) Hj Hci Hp). rewrite Hq, page2pa_div in *.
      destruct Hm as [S1 _]. apply (S1 q o); [lia|by intros ->|done].
  - intros i j Hi Hj Hci Hp. destruct (decide (i = x)) as [->|Hne].
    + rewrite fn_lookup_insert. destruct (A1 x ltac:(lia) Hci) as [_ R']. rewrite Hkeep by lia. apply A3; [lia|done..].
    + rewrite fn_lookup_insert_ne by congruence. destruct (Hr i ltac:(lia) Hci) as [_ Hr2].
      apply B3; [lia|done|by rewrite Hc by lia|by rewrite Hr2].
  - intros i j i' j' Hi Hi' Hj Hj' Hci Hci' Hp Hp' E.
    assert (R2 : forall i j, x + 1 <= i < x + 1 + k -> 0 <= j < 1024 -> to_copy m sd dd i = true ->
      present (m (entry (page2kva (stbl i)) j)) = true -> n1 <= F2 i j).
    { intros i0 j0 H1 H2 H3 H4. destruct (Hr i0 H1 H3) as [_ Hr2]. apply (B2 i0 j0); [lia|done|by rewrite Hc|by rewrite Hr2]. }
    destruct (decide (i = x)) as [->|Hne], (decide (i' = x)) as [->|Hne'];
      rewrite ?fn_lookup_insert, ?fn_lookup_insert_ne in E by congruence.
    + apply A4; done || lia.
    + destruct (A2 x j ltac:(lia) Hj Hci Hp) as (_ & R & _). specialize (R2 i' j' ltac:(lia) Hj' Hci' Hp'). lia.
    + destruct (A2 x j' ltac:(lia) Hj' Hci' Hp') as (_ & R & _). specialize (R2 i j ltac:(lia) Hj Hci Hp). lia.
    + destruct (Hr i ltac:(lia) Hci) as [_ Hr1], (Hr i' ltac:(lia) Hci') as [_ Hr2].
      apply B4; rewrite ?Hc, ?Hr1, ?Hr2 by lia; done || lia.
  - intros i i' j' Hi Hi' Hj' Hci Hci'.
    assert (RT : forall i, x + 1 <= i < x + 1 + k -> to_copy m sd dd i = true -> n1 <= T2 i).
    { intros i0 H1 H2. apply (B1 i0); [lia|by rewrite Hc]. }
    destruct (decide (i = x)) as [->|Hne], (decide (i' = x)) as [->|Hne'];
      rewrite ?fn_lookup_insert, ?fn_lookup_insert_ne by congruence.
    + apply A5; done || lia.
    + destruct (A1 x ltac:(lia) Hci) as [_ R']. specialize (RT i' ltac:(lia) Hci'). split; [lia|]. intros Hp E.
      destruct (Hr i' ltac:(lia) Hci') as [_ Hr2]. destruct (B2 i' j') as (_ & R & _); [lia|done|by rewrite Hc by lia|by rewrite Hr2|lia].
    + destruct (A1 x ltac:(lia) Hci') as [_ R']. specialize (RT i ltac:(lia) Hci). split; [lia|]. intros Hp E.
      destruct (A2 x j' ltac:(lia) Hj' Hci' Hp) as (_ & R & _). lia.
    + destruct (Hr i' ltac:(lia) Hci') as [_ Hr2]. destruct (B5 i i' j') as [E1 E2]; [lia|lia|done|by rewrite Hc by lia|by rewrite Hc by lia|].
      split; [done|]. intros Hp. apply E2. by rewrite Hr2.
  - intros a Ha Hne. rewrite B6.
    + apply A6; [done|]. intros i Hi Hci. apply Hne; [lia|done].
    + pose proof (page2kva_mono n n1 ltac:(lia) ltac:(lia)). lia.
    + intros i Hi Hci. apply Hne; [lia|]. by rewrite <- Hc by lia.
Qed.

Lemma dir_copied_skip m m2 sd dd stbl x k n n' T F :
  to_copy m sd dd x = false ->
  dir_copied m m2 sd dd stbl (x + 1) k n n' T F -> dir_copied m m2 sd dd stbl x (k + 1) n n' T F.
Proof.
  intros Hp [P1 P2 P3 P4 P5 P6].
  assert (Hin : forall i, x <= i < x + (k + 1) -> to_copy m sd dd i = true -> x + 1 <= i < x + 1 + k).
  { intros i Hi Hpi. destruct (decide (i = x)) as [->|]; [congruence|lia]. }
  split; intros; eauto.
  apply P6; [done|]. intros i Hi. apply H0. lia.
Qed.

(** One present entry whose table is copied. *)
Lemma wp_copy_dir_entry s n b sd dd stbl x (Q : unit -> mmst -> Prop) J (m := mm_mem s)
    (c := count_present m (stbl x) NPTENTRIES 0) :
  fresh s n -> source_ok m sd dd stbl b x -> b <= n -> 0 <= x < 1024 -> n + 1 + c + 3 <= npages -> to_copy m sd dd x = true ->
  (forall s' f, fresh s' (n + 1 + c) -> dir_copied m (mm_mem s') sd dd stbl x 1 n (n + 1 + c) (fun _ => n) (fun _ => f) -> Q tt s') ->
  wp (p ← page_alloc ALLOC_ZERO; pp ← from_option_or NullPointer p; incr_ref pp;;
      e' ← load (entry (page2kva sd) x);
      store (entry (page2kva dd) x) (Z.lor (page2pa pp) (PTE_ATTR e'));;
      d ← load (entry (page2kva dd) x);
      copy_table NPTENTRIES 0 (KADDR (PTE_ADDR d)) (KADDR (PTE_ADDR (m (entry (page2kva sd) x))))) Q J s.
Proof.
  intros Hf Hs Hb Hx Hn Hc HQ. pose proof Hs as [(D1 & D2 & D3) Ht Hfrm].
  destruct (Ht x ltac:(lia) Hc) as (Ha & Hbx & Hd & Hfr).
  pose proof (count_present_nonneg m (stbl x) NPTENTRIES 0) as Hnn. fold c in Hnn.
  assert (Hold : forall v p o, 0 <= p < b -> p <> dd -> 0 <= o < 1024 ->
     tabled m dd x n v (entry (page2kva p) o) = m (entry (page2kva p) o)) by (intros; apply tabled_old_entry; lia).
  apply wp_bind. eapply wp_page_alloc_zero; [apply fresh_cons; [exact Hf|lia]|lia|].
  apply wp_bind, wp_ret. apply wp_bind, wp_incr_ref; [lia|].
  apply wp_bind, wp_load; [apply entry_mapped; lia|]. cbn [mm_mem with_mem with_ref taken with_link with_free].
  rewrite fill_out by (left; apply in_page_lt; lia). fold m.
  apply wp_bind, wp_store; [apply entry_mapped; lia|]. apply wp_bind, wp_load; [apply entry_mapped; lia|].
  cbn [mm_mem with_mem with_ref taken with_link with_free]. fold m.
  rewrite fn_lookup_insert, PTE_new, Ha, !KADDR_page2pa by lia.
  set (v := Z.lor (page2pa n) (PTE_ATTR (m (entry (page2kva sd) x)))). fold (tabled m dd x n v).
  assert (Hce : count_present (tabled m dd x n v) (stbl x) NPTENTRIES 0 = c).
  { apply count_present_ext. intros y Hy. apply Hold; [lia|done|change (Z.of_nat NPTENTRIES) with 1024 in Hy; lia]. }
  apply (wp_copy_table NPTENTRIES _ (n + 1) b); [|lia|lia|lia|lia|done| |cbn [mm_mem with_mem]; rewrite Hce; lia|].
  - eapply fresh_ext; [apply fresh_taken; [exact Hf|lia]|done|done].
  - cbn [mm_mem with_mem]. intros i Hi Hpi. rewrite Hold in Hpi |- * by (done || lia). by apply Hfr.
  - cbn [mm_mem with_mem]. rewrite Hce. intros s' f Hf' HT. apply (HQ s' f Hf').
    by apply (table_to_dir _ _ _ _ _ b); try lia.
Qed.

Lemma wp_copy_pgdir_loop k s n b sd dd stbl x (Q : unit -> mmst -> Prop) J (c := count_dir (mm_mem s) sd dd k x) :
  fresh s n -> source_ok (mm_mem s) sd dd stbl b x -> b <= n -> 0 <= x -> x + Z.of_nat k <= 1024 -> n + c + 3 <= npages ->
  (forall s' T F, fresh s' (n + c) -> dir_copied (mm_mem s) (mm_mem s') sd dd stbl x (Z.of_nat k) n (n + c) T F -> Q tt s') ->
  wp (copy_pgdir_loop k x (page2kva dd) (page2kva sd)) Q J s.
Proof.
  revert s n x Q c. induction k as [|k IH]; intros s n x Q c Hf Hs Hb Hx Hk Hn HQ.
  - apply wp_ret. unfold c in *. cbn [count_dir] in *. apply (HQ s (fun i => i) (fun i j => j)).
    + by rewrite Z.add_0_r.
    + split; intros; lia || done.
  - pose proof Hs as [(D1 & D2 & D3) Ht _]. pose proof (count_dir_nonneg (mm_mem s) sd dd (S k) x) as Hnn. fold c in Hnn.
    cbn [copy_pgdir_loop]. apply wp_bind, wp_load; [apply entry_mapped; lia|]. apply wp_bind.
    unfold c in *. cbn [count_dir] in Hn, HQ, Hnn. pose proof (count_dir_nonneg (mm_mem s) sd dd k (x + 1)) as Hnk.
    rewrite Nat2Z.inj_succ in HQ. unfold Z.succ in HQ.
    assert (Hskip : to_copy (mm_mem s) sd dd x = false -> wp (copy_pgdir_loop k (x + 1) (page2kva dd) (page2kva sd)) Q J s).
    { intros Hc. rewrite Hc in Hn, HQ. cbv iota in Hn, HQ. rewrite Z.add_0_l in Hn, HQ.
      apply IH with (n := n); [done|split; [done|..]|lia|lia|lia|lia|].
      - intros i Hi. apply Ht. lia.
      - intros i j Hi. apply Hs. lia.
      - intros s' T F Hf' HD. apply (HQ s' T F Hf'). by apply dir_copied_skip. }
    unfold to_copy in Hskip. set (m := mm_mem s) in *.
    destruct (present (m (entry (page2kva sd) x))) eqn:Hp; [|apply wp_ret; by apply Hskip].
    apply wp_bind, wp_load; [apply entry_mapped; lia|]. fold m.
    destruct (present (m (entry (page2kva dd) x))) eqn:Hq; [apply wp_ret; by apply Hskip|].
    assert (Hc : to_copy m sd dd x = true) by (unfold to_copy; by rewrite Hp, Hq). rewrite Hc in Hn, HQ. cbv iota in Hn, HQ.
    destruct (Ht x ltac:(lia) Hc) as (Ha & _). rewrite Ha in Hn, HQ.
    unfold pa2page in Hn, HQ. rewrite PGNUM_eq, page2pa_div in Hn, HQ. set (c1 := count_present m (stbl x) NPTENTRIES 0) in *.
    pose proof (count_present_nonneg m (stbl x) NPTENTRIES 0) as Hnc. fold c1 in Hnc.
    apply (wp_copy_dir_entry s n b sd dd stbl x); [done|done|done|lia|fold m c1; lia|done|]. fold m c1. intros s1 f Hf1 HA.
    assert (Hm : same_source m (mm_mem s1) b dd (x + 1))
      by (eapply (dir_copied_source m (mm_mem s1)); [exact Hs|..|exact HA]; lia).
    pose proof (source_ok_later _ _ _ _ _ _ _ _ Hs Hm ltac:(lia)) as Hs1.
    assert (Hce : count_dir (mm_mem s1) sd dd k (x + 1) = count_dir m sd dd k (x + 1)).
    { eapply same_count; [|exact Hm|lia|lia]. destruct Hs as [D Ht' Hf']. split; [done|..]; intros; [apply Ht'|apply Hf']; done || lia. }
    apply IH with (n := n + 1 + c1); [done|exact Hs1|lia|lia|lia|rewrite Hce; lia|]. rewrite Hce.
    replace (n + 1 + c1 + count_dir m sd dd k (x + 1)) with (n + (1 + c1 + count_dir m sd dd k (x + 1))) by lia.
    intros s' T F Hf' HB. eapply HQ; [exact Hf'|]. eapply dir_copied_app; [exact Hs|..|exact HA|exact HB]; lia || done.
Qed.

(** ** Reference counts *)

(** Pages from [n0] on have one reference each up to [n]; from there on they
    are free and have none. *)
Definition counted (n0 n : Z) (s : mmst) : Prop :=
  n0 <= n /\ fresh s n /\ (forall p, n0 <= p < n -> mm_ref s p = 1) /\ forall p, n <= p < npages -> mm_ref s p = 0.

Lemma fresh_unique s n n' : fresh s n -> fresh s n' -> n = n'.
Proof.
  intros [Hn [Hl _]] [Hn' [Hl' _]]. destruct (decide (n < npages)), (decide (n' < npages)); [..|lia].
  - rewrite seqZ_cons in Hl by lia. rewrite seqZ_cons in Hl' by lia. destruct Hl as [Hl _], Hl' as [Hl' _]. congruence.
  - replace (npages - n') with 0 in Hl' by lia. rewrite seqZ_cons in Hl by lia. destruct Hl as [Hl _]. cbn in Hl'. congruence.
  - replace (npages - n) with 0 in Hl by lia. rewrite seqZ_cons in Hl' by lia. destruct Hl' as [Hl' _]. cbn in Hl. congruence.
Qed.

(** Computations that leave the page structures, and those that take pages
    from the free list for use. *)
Definition same_pages {A} (c : M mmst A) : Prop := forall s, match c s with
  | Ret _ s' => mm_link s' = mm_link s /\ mm_free s' = mm_free s /\ mm_ref s' = mm_ref s | _ => True end.
Definition counts {A} (c : M mmst A) : Prop := forall n0 n s, counted n0 n s -> match c s with
  | Ret _ s' => exists n', counted n0 n' s' | _ => True end.

Lemma same_pages_bind {A B} (c : M mmst A) (f : A -> M mmst B) : same_pages c -> (forall x, same_pages (f x)) -> same_pages (c ≫= f).
Proof.
  intros Hc Hf s. specialize (Hc s). unfold mbind, M_bind. destruct (c s) as [x s1|s1|e]; [|done..].
  specialize (Hf x s1). destruct (f x s1); [|done..]. destruct Hc as (<- & <- & <-). exact Hf.
Qed.
Lemma same_pages_load a : same_pages (load a).
Proof. intros s. unfold load, mbind, M_bind, get. by destruct (mapped a 4). Qed.
Lemma same_pages_store a v : same_pages (store a v).
Proof. intros s. unfold store. by destruct (mapped a 4). Qed.
Lemma same_pages_memset a v n : same_pages (memset a v n).
Proof. intros s. unfold memset. by destruct (mapped a (4 * n)). Qed.
Lemma same_pages_memcpy k a b : same_pages (Pmap.memcpy k a b).
Proof.
  revert a b. induction k as [|k IH]; intros a b; [done|]. cbn [Pmap.memcpy].
  apply same_pages_bind; [apply same_pages_load|intros v]. apply same_pages_bind; [apply same_pages_store|intros _]. apply IH.
Qed.

Lemma counts_same {A} (c : M mmst A) : same_pages c -> counts c.
Proof.
  intros Hc n0 n s (H0 & H1 & H2 & H3). specialize (Hc s). destruct (c s) as [x s'|s'|e]; [|done..]. destruct Hc as (E1 & E2 & E3).
  exists n. split; [done|]. rewrite E3. split; [exact (fresh_ext s s' n H1 E1 E2)|done].
Qed.
Lemma counts_bind {A B} (c : M mmst A) (f : A -> M mmst B) : counts c -> (forall x, counts (f x)) -> counts (c ≫= f).
Proof.
  intros Hc Hf n0 n s Hs. specialize (Hc n0 n s Hs). unfold mbind, M_bind. destruct (c s) as [x s1|s1|e]; [|done..].
  destruct Hc as [n' Hc]. by apply (Hf x n0 n' s1).
Qed.

Lemma counts_alloc {B} flags (f : Z -> M mmst B) : (forall p, counts (f p)) ->
  counts (p ← page_alloc flags; pp ← from_option_or NullPointer p; incr_ref pp;; f pp).
Proof.
  intros Hf n0 n s (H0 & H1 & H2 & H3). unfold page_alloc. unfold mbind, M_bind, get. destruct (mm_free s) as [p|] eqn:Ep; [|done].
  assert (Hn : n < npages /\ p = n).
  { destruct H1 as [Hn [Hl _]]. destruct (decide (n < npages)); [|replace (npages - n) with 0 in Hl by lia; cbn in Hl; congruence].
    rewrite seqZ_cons in Hl by lia. destruct Hl as [Hl _]. split; [done|]. congruence. }
  destruct Hn as [Hn ->]. pose proof (proj1 (proj1 H1)) as Hn0.
  assert (Hz : same_pages (if Z.land flags ALLOC_ZERO =? 0 then mret tt else memset (page2kva n) 0 PGSIZE)) by (case_match; [done|apply same_pages_memset]).
  specialize (Hz s). destruct ((if Z.land flags ALLOC_ZERO =? 0 then mret tt else memset (page2kva n) 0 PGSIZE) s) as [[] s1|s1|e]; [|done..].
  destruct Hz as (E1 & E2 & E3). unfold set_link, from_option_or, incr_ref, get_ref, set_ref, mret, M_ret, gets, modify, mbind, M_bind. rewrite !page_ok_true by lia. cbv beta iota.
  eapply (Hf n n0 (n + 1)). pose proof (fresh_taken s n H1 Hn) as Ht. split; [lia|]. split.
  - eapply fresh_ext; [exact Ht|..]; cbn [mm_link mm_free with_ref with_link with_free taken]; by rewrite ?E1.
  - cbn [mm_ref with_ref with_link with_free]. rewrite E3. rewrite (H3 n) by lia. change (u16 (0 + 1)) with 1. split.
    + intros q Hq. destruct (decide (q = n)) as [->|Hne]; [by rewrite fn_lookup_insert|]. rewrite fn_lookup_insert_ne by done. apply H2. lia.
    + intros q Hq. rewrite fn_lookup_insert_ne by lia. apply H3. lia.
Qed.

Lemma counts_copy_table k x t t' : counts (copy_table k x t t').
Proof.
  revert x. induction k as [|k IH]; intros x; cbn [copy_table]; [by apply counts_same|].
  apply counts_bind; [apply counts_same, same_pages_load|intros e]. apply counts_bind; [|intros _; apply IH].
  destruct (present e); [|by apply counts_same]. apply counts_alloc. intros p. apply counts_same.
  apply same_pages_bind; [apply same_pages_load|intros]. apply same_pages_bind; [apply same_pages_store|intros].
  apply same_pages_bind; [apply same_pages_load|intros]. apply same_pages_memcpy.
Qed.

Lemma counts_copy_pgdir dd sd : counts (copy_pgdir dd sd).
Proof.
  unfold copy_pgdir. generalize NPDENTRIES, 0. intros k. induction k as [|k IH]; intros x; cbn [copy_pgdir_loop]; [by apply counts_same|].
  apply counts_bind; [apply counts_same, same_pages_load|intros e]. apply counts_bind; [|intros _; apply IH].
  destruct (present e); [|by apply counts_same]. apply counts_bind; [apply counts_same, same_pages_load|intros d].
  destruct (present d); [by apply counts_same|]. apply counts_alloc. intros p. apply counts_bind; [apply counts_same, same_pages_load|intros].
  apply counts_bind; [apply counts_same, same_pages_store|intros]. apply counts_bind; [apply counts_same, same_pages_load|intros].
  apply counts_copy_table.
Qed.
