(* ===== verification/PmapBoot.v ===== *)
(** * The kernel's address space at boot

    [init_kern_pgdir], [page_init] and [boot_map_region] with the static
    arrays [kpgdir] and [kpgtable] in pages [dp] and [tp .. tp+31] of the
    kernel image. *)

From S2P Require Import Prelude Disk Pmap PmapSpec PmapProofs.

Section loops.
Implicit Types (s : mmst) (Q : unit -> mmst -> Prop).

(** Both loops of [init_kern_pgdir] as functions on memory. *)
Lemma wp_init_kern_dir n dp pdx t s Q J :
  0 <= dp < npages -> 0 <= pdx -> pdx + Z.of_nat n <= 32 -> 0 <= t -> t + Z.of_nat n <= npages ->
  (forall m', (forall k, 0 <= k < Z.of_nat n ->
       m' (entry (page2kva dp) (pdx + 768 + k)) = Z.lor (page2pa (t + k)) 3) ->
     (forall a, (forall k, 0 <= k < Z.of_nat n -> a <> entry (page2kva dp) (pdx + 768 + k)) ->
       m' a = mm_mem s a) -> Q tt (with_mem m' s)) ->
  wp (init_kern_dir (page2kva dp) n pdx (KERNBASE + 4096 * t)) Q J s.
Proof.
  revert pdx t s Q. induction n as [|n IH]; intros pdx t s Q Hdp Hpdx Hn Ht Htn HQ; cbn [init_kern_dir].
  - apply wp_ret. destruct s as [a b c d tlb m]. apply (HQ m); [lia|done].
  - change (Z.shiftr KERNBASE 22) with 768. assert (Htp : 0 <= t < npages) by lia.
    apply wp_bind, wp_store; [apply entry_mapped; lia|].
    replace (KERNBASE + 4096 * t + 4 * 1024) with (KERNBASE + 4096 * (t + 1)) by lia.
    apply IH; [done|lia|lia|lia|lia|]. intros m' H1 H2. cbn [mm_mem with_mem] in H2.
    apply (HQ m').
    + intros k Hk. destruct (decide (k = 0)) as [->|Hne].
      * rewrite H2.
        -- replace (pdx + 768 + 0) with (pdx + 768) by lia. rewrite fn_lookup_insert.
           rewrite <- page2kva_eq, PADDR_page2kva by done. by replace (t + 0) with t by lia.
        -- intros k' Hk' E. apply entry_inj in E as [_ E]; lia.
      * specialize (H1 (k - 1) ltac:(lia)). replace (pdx + 1 + 768 + (k - 1)) with (pdx + 768 + k) in H1 by lia.
        by replace (t + 1 + (k - 1)) with (t + k) in H1 by lia.
    + intros a Ha. rewrite H2.
      * rewrite fn_lookup_insert_ne; [done|]. specialize (Ha 0 ltac:(lia)).
        replace (pdx + 768 + 0) with (pdx + 768) in Ha by lia. by apply not_eq_sym.
      * intros k Hk. specialize (Ha (k + 1) ltac:(lia)).
        by replace (pdx + 768 + (k + 1)) with (pdx + 1 + 768 + k) in Ha by lia.
Qed.

Lemma wp_init_kern_table n base s Q J :
  KERNBASE <= base -> base + 4 * Z.of_nat n <= KERNBASE + PHY_MEM ->
  (forall m', (forall k, 0 <= k < Z.of_nat n -> m' (base + 4 * k) = Z.lor (4096 * k) 7) ->
     (forall a, a < base \/ base + 4 * Z.of_nat n <= a -> m' a = mm_mem s a) -> Q tt (with_mem m' s)) ->
  wp (init_kern_table n (4096 * (Z.of_nat n - 1)) (base + 4 * (Z.of_nat n - 1))) Q J s.
Proof.
  revert s Q. induction n as [|n IH]; intros s Q Hb1 Hb2 HQ; cbn [init_kern_table].
  - apply wp_ret. destruct s as [a b c d tlb m]. apply (HQ m); [lia|done].
  - apply wp_bind, wp_store; [apply mapped_true; lia|].
    replace (4096 * (Z.of_nat (S n) - 1) - PGSIZE) with (4096 * (Z.of_nat n - 1)) by (unfold PGSIZE; lia).
    replace (base + 4 * (Z.of_nat (S n) - 1) - 4) with (base + 4 * (Z.of_nat n - 1)) by lia.
    apply IH; [done|lia|]. intros m' H1 H2. cbn [mm_mem with_mem] in H2. apply (HQ m').
    + intros k Hk. destruct (decide (k = Z.of_nat n)) as [->|Hne]; [|apply H1; lia].
      rewrite H2 by lia. replace (Z.of_nat (S n) - 1) with (Z.of_nat n) by lia. apply fn_lookup_insert.
    + intros a Ha. rewrite H2 by lia. apply fn_lookup_insert_ne. lia.
Qed.

(** The loops of [page_init]. *)
Lemma wp_page_init_used n i s Q J :
  0 <= i -> i + Z.of_nat n <= npages ->
  (forall r', (forall k, i <= k < i + Z.of_nat n -> r' k = 1) ->
     (forall k, k < i \/ i + Z.of_nat n <= k -> r' k = mm_ref s k) -> Q tt (with_ref r' s)) ->
  wp (page_init_used n i) Q J s.
Proof.
  revert i s Q. induction n as [|n IH]; intros i s Q Hi Hn HQ; cbn [page_init_used].
  - apply wp_ret. destruct s as [a b c d tlb m]. apply (HQ b); [lia|done].
  - unfold set_ref. rewrite page_ok_true by lia. apply wp_bind, wp_modify.
    apply IH; [lia|lia|]. intros r' H1 H2. cbn [mm_ref with_ref] in H2. apply (HQ r').
    + intros k Hk. destruct (decide (k = i)) as [->|]; [|apply H1; lia].
      rewrite H2 by lia. apply fn_lookup_insert.
    + intros k Hk. rewrite H2 by lia. apply fn_lookup_insert_ne. lia.
Qed.

Lemma wp_page_init_free n i s Q J :
  0 <= i + 1 - Z.of_nat n -> i < npages -> free_list s (seqZ (i + 1) (npages - (i + 1))) ->
  (forall s' (lo := i + 1 - Z.of_nat n), free_list s' (seqZ lo (npages - lo)) ->
     (forall k, lo <= k <= i -> mm_ref s' k = 0) ->
     (forall k, k < lo \/ i < k -> mm_ref s' k = mm_ref s k) ->
     mm_mem s' = mm_mem s -> mm_kern_pgdir s' = mm_kern_pgdir s -> Q tt s') ->
  wp (page_init_free n i) Q J s.
Proof.
  revert i s Q. induction n as [|n IH]; intros i s Q Hi Hlt Hf HQ; cbn [page_init_free].
  - apply wp_ret. apply HQ; [|lia|done|done|done].
    by replace (i + 1 - Z.of_nat 0) with (i + 1) by lia.
  - unfold set_ref, set_link. rewrite page_ok_true by lia.
    apply wp_bind, wp_modify. apply wp_bind, wp_get. apply wp_bind, wp_modify. apply wp_bind, wp_modify.
    apply IH; [lia|lia| |].
    + replace (i - 1 + 1) with i by lia. rewrite (seqZ_cons i) by lia.
      replace (Z.succ i) with (i + 1) by lia. replace (Z.pred (npages - i)) with (npages - (i + 1)) by lia.
      destruct Hf as [Hl Hnd]. assert (Hin : i ∉ seqZ (i + 1) (npages - (i + 1))).
      { intros H. apply elem_of_seqZ in H. lia. }
      split; [|by apply NoDup_cons]. cbn. rewrite fn_lookup_insert.
      split; [done|]. split; [lia|]. eapply linked_ext; [|exact Hl].
      intros q Hq. apply fn_lookup_insert_ne. by intros ->.
    + cbn. intros s' H1 H2 H3 H4 H5.
      replace (i - 1 + 1 - Z.of_nat n) with (i + 1 - Z.of_nat (S n)) in * by lia.
      apply HQ; [done| |intros k Hk; rewrite H3 by lia; apply fn_lookup_insert_ne; lia|done|done].
      intros k Hk. destruct (decide (k = i)) as [->|]; [|apply H2; lia].
      rewrite H3 by lia. apply fn_lookup_insert.
Qed.
End loops.

(** ** The kernel mapping *)

(** Memory [m] holds the tables [init_kern_pgdir] builds. *)
Record kern_tables (m : Z -> Z) (dp tp : Z) : Prop := {
  kt_dir : forall i, 0 <= i < 32 -> m (entry (page2kva dp) (768 + i)) = Z.lor (page2pa (tp + i)) 3;
  kt_none : forall i, 0 <= i < 1024 -> i < 768 \/ 800 <= i -> present (m (entry (page2kva dp) i)) = false;
  kt_table : forall i, 0 <= i < npages -> m (KERNBASE + 4096 * tp + 4 * i) = Z.lor (page2pa i) 7 }.

Definition kern_tbl (tp i : Z) : Z := tp + (i - 768).

Section kern.
#[local] Set Default Proof Using "All".
Context (dp tp : Z) (Hdp : 0 <= dp < npages) (Htp : 0 <= tp) (Htp2 : tp + 32 <= npages).
Context (Hsep : dp < tp \/ tp + 32 <= dp).
Implicit Types (m : Z -> Z).

Lemma kern_present m i : kern_tables m dp tp -> 0 <= i < 1024 ->
  present (m (entry (page2kva dp) i)) = true -> 768 <= i < 800.
Proof.
  intros Hk Hi Hp. destruct (decide (768 <= i < 800)); [done|].
  rewrite (kt_none _ _ _ Hk) in Hp by lia. done.
Qed.

Lemma kern_dir_entry m i : kern_tables m dp tp -> 768 <= i < 800 ->
  present (m (entry (page2kva dp) i)) = true /\
  PTE_ADDR (m (entry (page2kva dp) i)) = page2pa (kern_tbl tp i).
Proof.
  intros Hk Hi. pose proof (kt_dir _ _ _ Hk (i - 768) ltac:(lia)) as E.
  replace (768 + (i - 768)) with i in E by lia. rewrite E. unfold kern_tbl, page2pa.
  split; [rewrite present_lor; apply orb_true_r|]. apply PTE_lor; unfold npages in *; lia.
Qed.

Lemma kern_dir_ok m : kern_tables m dp tp -> dir_ok m dp (kern_tbl tp).
Proof.
  intros Hk. split; [done|..].
  - intros i Hi Hp. apply (kern_present m i Hk Hi) in Hp.
    destruct (kern_dir_entry m i Hk Hp) as [_ ->]. unfold kern_tbl. split; [done|lia].
  - intros i j Hi Hj Hpi Hpj. unfold kern_tbl. lia.
Qed.

Lemma kern_PDX pa : 0 <= pa < PHY_MEM ->
  PDX (KERNBASE + pa) = 768 + pa / 2 ^ 22 /\ 0 <= pa / 2 ^ 22 < 32 /\
  PTX (KERNBASE + pa) = pa / 2 ^ 12 - 1024 * (pa / 2 ^ 22) /\ PGOFF (KERNBASE + pa) = pa mod 2 ^ 12.
Proof.
  unfold PHY_MEM, KERNBASE. intros Hpa. rewrite PDX_eq, PTX_eq, PGOFF_eq by (unfold is_u32; lia).
  change 0xc0000000 with (768 * 2 ^ 22) at 1. rewrite Z.div_add_l by lia.
  assert (0 <= pa / 2 ^ 22 < 32) by (split; [apply Z.div_pos; lia|apply Z.div_lt_upper_bound; lia]).
  split; [done|]. split; [done|].
  change 0xc0000000 with (768 * 2 ^ 10 * 2 ^ 12).
  rewrite Z.div_add_l, Z.add_comm, Z.mod_add by lia.
  rewrite (Z.add_comm _ pa), Z.mod_add by lia. split; [|done].
  change (2 ^ 22) with (2 ^ 12 * 2 ^ 10). rewrite <- Z.div_div by lia.
  pose proof (Z.div_mod (pa / 2 ^ 12) (2 ^ 10) ltac:(lia)). lia.
Qed.

(** Every kernel virtual address translates to its physical address, and
    nothing else is mapped. *)
Lemma kern_translate m la : kern_tables m dp tp -> is_u32 la ->
  translate m (page2pa dp) la =
    if decide (KERNBASE <= la < KERNBASE + PHY_MEM) then Some (la - KERNBASE) else None.
Proof.
  intros Hk Hla. rewrite (translate_eq _ _ _ _ (kern_dir_ok m Hk) Hla).
  destruct (PGADDR_split la Hla) as (_ & Hd & Hx & _).
  case_decide as Hin.
  - destruct (kern_PDX (la - KERNBASE) ltac:(lia)) as (E1 & Hr & E2 & E3).
    replace (KERNBASE + (la - KERNBASE)) with la in * by lia. set (pa := la - KERNBASE) in *.
    destruct (kern_dir_entry m (PDX la) Hk ltac:(lia)) as [-> _]. cbn zeta.
    assert (Hpg : 0 <= pa / 2 ^ 12 < npages).
    { unfold PHY_MEM, npages in *. split; [apply Z.div_pos; lia|apply Z.div_lt_upper_bound; lia]. }
    assert (E : entry (page2kva (kern_tbl tp (PDX la))) (PTX la) = KERNBASE + 4096 * tp + 4 * (pa / 2 ^ 12)).
    { unfold kern_tbl, entry. rewrite page2kva_eq by lia. rewrite E1, E2. lia. }
    rewrite E, (kt_table _ _ _ Hk), present_lor by done.
    replace (present 7) with true by done. rewrite orb_true_r. f_equal.
    unfold page2pa. destruct (PTE_lor (pa / 2 ^ 12) 7) as (_ & -> & _); [unfold npages in *; lia|lia|].
    rewrite E3, Z.shiftl_mul_pow2 by lia. pose proof (Z.div_mod pa (2 ^ 12) ltac:(lia)). lia.
  - rewrite (kt_none _ _ _ Hk); [done|done|]. rewrite PDX_eq by done. unfold is_u32, KERNBASE, PHY_MEM in *.
    destruct (decide (la < 0xc0000000)).
    + left. apply Z.div_lt_upper_bound; lia.
    + right. apply Z.div_le_lower_bound; lia.
Qed.

Lemma wp_init_kern_pgdir s (Q : unit -> mmst -> Prop) J :
  (forall i, 0 <= i < 1024 -> i < 768 \/ 800 <= i -> present (mm_mem s (entry (page2kva dp) i)) = false) ->
  (forall m', kern_tables m' dp tp -> Q tt (with_kern_pgdir (page2kva dp) (with_mem m' s))) ->
  wp (init_kern_pgdir (page2kva dp) (page2kva tp)) Q J s.
Proof.
  intros Hz HQ. unfold init_kern_pgdir. rewrite (page2kva_eq tp) by lia.
  apply wp_bind, (wp_init_kern_dir 32); [done|lia|lia|lia|lia|]. intros m1 H1 H2.
  apply wp_bind.
  replace (PHY_MEM - PGSIZE) with (4096 * (Z.of_nat (Z.to_nat npages) - 1)) by (unfold npages, PHY_MEM, PGSIZE; lia).
  replace (KERNBASE + 4096 * tp + 4 * npages - 4)
    with (KERNBASE + 4096 * tp + 4 * (Z.of_nat (Z.to_nat npages) - 1)) by (unfold npages; lia).
  apply wp_init_kern_table; [lia|unfold npages, PHY_MEM in *; lia|].
  rewrite Z2Nat.id by (unfold npages; lia). intros m2 H3 H4. cbn [mm_mem with_mem] in H4.
  apply wp_modify. apply (HQ m2).
  assert (Hd : forall i, 0 <= i < 1024 -> m2 (entry (page2kva dp) i) = m1 (entry (page2kva dp) i)).
  { intros i Hi. apply H4. unfold entry. rewrite page2kva_eq by done. unfold npages in *. lia. }
  split.
  - intros i Hi. rewrite Hd by lia. specialize (H1 i ltac:(lia)).
    by replace (0 + 768 + i) with (768 + i) in H1 by lia.
  - intros i Hi Hout. rewrite Hd, H2 by (try lia; intros k Hk E; apply entry_inj in E as [_ E]; lia).
    by apply Hz.
  - intros i Hi. rewrite H3 by done. unfold page2pa. rewrite Z.shiftl_mul_pow2 by lia. f_equal. lia.
Qed.
End kern.

(** ** [boot_map_region] within one page table *)

(** [pgdir_walk] when the table is there. *)
Lemma wp_pgdir_walk_present dp tbl va create s (Q : option Z -> mmst -> Prop) J :
  dir_ok (mm_mem s) dp tbl -> is_u32 va -> present (mm_mem s (entry (page2kva dp) (PDX va))) = true ->
  Q (Some (entry (page2kva (tbl (PDX va))) (PTX va))) s -> wp (pgdir_walk (page2kva dp) va create) Q J s.
Proof.
  intros Hok Hva Hp HQ. destruct (PGADDR_split va Hva) as (_ & Hd & _). unfold pgdir_walk.
  apply wp_bind, wp_load; [apply entry_mapped; [exact (do_dp _ _ _ Hok)|done]|]. rewrite Hp.
  apply wp_ret. destruct (do_table _ _ _ Hok _ Hd Hp) as (-> & _). by rewrite KADDR_page2pa.
Qed.

(** Memory after [pages] pages from page [g] on have been mapped to the
    frames from [q] on. *)
Record mapped_run (m m' : Z -> Z) (dp : Z) (tbl : Z -> Z) (g q pages : Z) : Prop := {
  mr_ok : dir_ok m' dp tbl;
  mr_dir : forall i, 0 <= i < 1024 -> m' (entry (page2kva dp) i) = m (entry (page2kva dp) i);
  mr_trans : forall la, is_u32 la -> translate m' (page2pa dp) la =
    if decide (g <= PGNUM la < g + pages) then Some (page2pa (q + (PGNUM la - g)) + PGOFF la)
    else translate m (page2pa dp) la }.

Lemma mapped_run_nil m dp tbl g q : dir_ok m dp tbl -> mapped_run m m dp tbl g q 0.
Proof. intros H. split; [done|done|]. intros la _. by rewrite decide_False by lia. Qed.

Lemma mapped_run_step m m' m'' dp tbl g q k :
  0 <= k -> mapped_run m m' dp tbl g q 1 -> mapped_run m' m'' dp tbl (g + 1) (q + 1) k ->
  mapped_run m m'' dp tbl g q (k + 1).
Proof.
  intros Hk0 [_ D1 T1] [O2 D2 T2]. split; [done|intros i Hi; rewrite D2 by done; by apply D1|].
  intros la Hla. rewrite T2, T1 by done. repeat case_decide; try lia; try done.
  do 3 f_equal. lia.
Qed.

(** Setting the entry of page [g] to frame [q]. *)
Lemma mapped_one m dp tbl g q perm :
  dir_ok m dp tbl -> 0 <= g < 2 ^ 20 -> 0 <= q < npages -> 0 <= perm < 4096 ->
  present (m (entry (page2kva dp) (PDX (4096 * g)))) = true ->
  mapped_run m (<[entry (page2kva (tbl (PDX (4096 * g)))) (PTX (4096 * g)) :=
                  Z.lor (Z.lor (page2pa q) perm) PTE_P]> m) dp tbl g q 1.
Proof.
  intros Hok Hg Hq Hperm Hp. assert (Hva : is_u32 (4096 * g)) by (unfold is_u32; lia).
  destruct (PGADDR_split _ Hva) as (_ & Hd & Hx & _). destruct (do_table _ _ _ Hok _ Hd Hp) as (_ & Ht & Hne).
  destruct (pte_value q perm Hq Hperm) as [Hv1 Hv2].
  set (v := Z.lor (Z.lor (page2pa q) perm) PTE_P) in *.
  assert (HG : PGNUM (4096 * g) = g).
  { unfold PGNUM. rewrite Z.shiftr_div_pow2 by lia. rewrite Z.mul_comm. by apply Z.div_mul. }
  split.
  - exact (proj1 (translate_set _ _ _ _ v _ Hok Hva Hva Hp)).
  - intros i Hi. apply fn_lookup_insert_ne. intros E.
    apply entry_inj in E as [E _]; [done|done|exact (do_dp _ _ _ Hok)|done|done].
  - intros la Hla. rewrite (proj2 (translate_set _ _ _ _ v la Hok Hla Hva Hp)), HG.
    destruct (decide (PGNUM la = g)) as [E|E]; [|by rewrite decide_False by lia].
    rewrite decide_True, Hv1, Hv2 by lia. by replace (q + (PGNUM la - g)) with q by lia.
Qed.

Lemma wp_boot_map_loop n dp tbl g q perm s (Q : unit -> mmst -> Prop) J :
  dir_ok (mm_mem s) dp tbl -> 0 <= g -> g + Z.of_nat n < 2 ^ 20 -> 0 <= q -> q + Z.of_nat n < npages ->
  0 <= perm < 4096 ->
  (forall k, 0 <= k < Z.of_nat n -> present (mm_mem s (entry (page2kva dp) (PDX (4096 * (g + k))))) = true) ->
  (forall m', mapped_run (mm_mem s) m' dp tbl g q (Z.of_nat n) -> Q tt (with_mem m' s)) ->
  wp (boot_map_loop n (page2kva dp) (4096 * g) (page2pa q) perm) Q J s.
Proof.
  revert g q s Q. induction n as [|n IH]; intros g q s Q Hok Hg Hgn Hq Hqn Hperm Hp HQ; cbn [boot_map_loop].
  - apply wp_ret. destruct s as [a b c d tlb m]. apply (HQ m). by apply mapped_run_nil.
  - assert (Hva : is_u32 (4096 * g)) by (unfold is_u32; lia).
    assert (Hp0 : present (mm_mem s (entry (page2kva dp) (PDX (4096 * g)))) = true).
    { specialize (Hp 0 ltac:(lia)). by replace (g + 0) with g in Hp by lia. }
    apply wp_bind, (wp_pgdir_walk_present dp tbl); [done..|].
    destruct (PGADDR_split _ Hva) as (_ & Hd & Hx & _). destruct (do_table _ _ _ Hok _ Hd Hp0) as (_ & Ht & _).
    apply wp_bind, wp_store; [by apply entry_mapped|].
    pose proof (mapped_one (mm_mem s) dp tbl g q perm Hok ltac:(lia) ltac:(lia) Hperm Hp0) as H1.
    set (s1 := with_mem _ s).
    replace (u32 (4096 * g + PGSIZE)) with (4096 * (g + 1))
      by (rewrite u32_id; unfold PGSIZE, is_u32; lia).
    replace (u32 (page2pa q + PGSIZE)) with (page2pa (q + 1)).
    2:{ unfold page2pa. rewrite !Z.shiftl_mul_pow2 by lia.
        rewrite u32_id; unfold PGSIZE, is_u32, npages in *; lia. }
    apply IH; [exact (mr_ok _ _ _ _ _ _ _ H1)|lia|lia|lia|lia|done| |].
    + intros k Hk. unfold s1. cbn [mm_mem with_mem]. rewrite (mr_dir _ _ _ _ _ _ _ H1).
      * specialize (Hp (k + 1) ltac:(lia)). by replace (g + 1 + k) with (g + (k + 1)) by lia.
      * destruct (PGADDR_split (4096 * (g + 1 + k))) as (_ & ? & _); [unfold is_u32; lia|done].
    + intros m' H2. apply (HQ m'). replace (Z.of_nat (S n)) with (Z.of_nat n + 1) by lia.
      eapply mapped_run_step; [lia|exact H1|exact H2].
Qed.

(** ** [page_init] *)

(** The outcome of [page_init]: page [0x400] is the table of the window of
    the video memory. *)
Record booted (s : mmst) (dp : Z) : Prop := {
  bo_free : free_list s (seqZ 0x401 (npages - 0x401));
  bo_kern : mm_kern_pgdir s = page2kva dp;
  bo_ref : forall k, 0 <= k < npages -> mm_ref s k = if decide (k <= 0x400) then 1 else 0;
  bo_trans : forall la, is_u32 la -> translate (mm_mem s) (page2pa dp) la =
    if decide (KERNBASE <= la < KERNBASE + PHY_MEM) then Some (la - KERNBASE)
    else if decide (VMEM_ADDR <= la < VMEM_ADDR + 65536) then Some la else None }.

Lemma vmem_split la : is_u32 la -> PGNUM la = la / 4096 /\ PGOFF la = la mod 4096.
Proof. intros H. unfold PGNUM. rewrite Z.shiftr_div_pow2 by lia. split; [done|]. by rewrite PGOFF_eq. Qed.

Lemma vmem_pages la : is_u32 la ->
  (160 <= PGNUM la < 160 + 16) <-> VMEM_ADDR <= la < VMEM_ADDR + 65536.
Proof.
  intros H. destruct (vmem_split la H) as [-> _]. unfold VMEM_ADDR.
  pose proof (Z.div_mod la 4096 ltac:(lia)). pose proof (Z.mod_pos_bound la 4096 ltac:(lia)). lia.
Qed.

Lemma vmem_PDX k : 0 <= k <= 16 -> PDX (4096 * (160 + k)) = 0.
Proof. intros H. rewrite PDX_eq by (unfold is_u32; lia). apply Z.div_small. lia. Qed.

Lemma wp_vmem_map dp tp s (Q : unit -> mmst -> Prop) J :
  0 <= dp < 0x400 -> 0 <= tp -> tp + 32 <= 0x400 -> dp < tp \/ tp + 32 <= dp ->
  kern_tables (mm_mem s) dp tp -> free_list s (seqZ 0x400 (npages - 0x400)) ->
  (forall s', free_list s' (seqZ 0x401 (npages - 0x401)) -> mm_kern_pgdir s' = mm_kern_pgdir s ->
     mm_ref s' = <[0x400 := u16 (mm_ref s 0x400 + 1)]> (mm_ref s) ->
     (forall la, is_u32 la -> translate (mm_mem s') (page2pa dp) la =
        if decide (VMEM_ADDR <= la < VMEM_ADDR + 65536) then Some la
        else translate (mm_mem s) (page2pa dp) la) -> Q tt s') ->
  wp (boot_map_region (page2kva dp) VMEM_ADDR (ROUNDUP SCR_SIZE PGSIZE) VMEM_ADDR 3) Q J s.
Proof.
  intros Hdp Htp Htp2 Hsep Hk Hf HQ. assert (Hd : 0 <= dp < npages) by (unfold npages; lia).
  assert (Hok : dir_ok (mm_mem s) dp (kern_tbl tp)) by (apply kern_dir_ok; unfold npages; lia || done).
  assert (Hpr : forall i, 0 <= i < 1024 -> present (mm_mem s (entry (page2kva dp) i)) = true -> 768 <= i < 800).
  { intros i Hi Hp. apply (kern_present dp tp Hd Htp ltac:(unfold npages; lia) Hsep _ _ Hk Hi Hp). }
  unfold boot_map_region. change (Z.to_nat (ROUNDUP SCR_SIZE PGSIZE / PGSIZE)) with (S 15).
  cbn [boot_map_loop]. change VMEM_ADDR with (4096 * 160).
  rewrite seqZ_cons in Hf by (unfold npages; lia).
  change (Z.succ 0x400) with 0x401 in Hf. change (Z.pred (npages - 0x400)) with (npages - 0x401) in Hf.
  apply wp_bind. eapply wp_pgdir_walk; [exact Hok|unfold is_u32; lia|exact Hf|unfold npages; lia| |].
  { split; [lia|]. intros i Hi Hp. left. specialize (Hpr _ Hi Hp). unfold kern_tbl. lia. }
  intros s1 tbl1 [W1 W2 W3 Wd Wk W4 _ _]. pose proof (vmem_PDX 0 ltac:(lia)) as E0.
  change (4096 * (160 + 0)) with (4096 * 160) in E0.
  destruct W4 as [[-> _]|(Hnp & -> & Hf1 & Hr1)].
  { rewrite E0 in W2. specialize (Hpr 0 ltac:(lia) W2). lia. }
  destruct (PGADDR_split (4096 * 160)) as (_ & Hd0 & Hx & _); [unfold is_u32; lia|].
  destruct (do_table _ _ _ W1 _ Hd0 W2) as (_ & Ht & _).
  apply wp_bind, wp_store; [by apply entry_mapped|].
  pose proof (mapped_one (mm_mem s1) dp _ 160 160 3 W1 ltac:(lia) ltac:(unfold npages; lia) ltac:(lia) W2) as H1.
  change (page2pa 160) with (4096 * 160) in H1.
  set (s2 := with_mem _ s1). change (u32 (4096 * 160 + PGSIZE)) with (4096 * 161).
  change (4096 * 161) with (page2pa 161) at 2.
  apply (wp_boot_map_loop 15 dp (<[PDX (4096 * 160) := 0x400]> (kern_tbl tp)) 161 161);
    [exact (mr_ok _ _ _ _ _ _ _ H1)|lia|lia|lia|unfold npages; lia|lia| |].
  - intros k Hk'. unfold s2. cbn [mm_mem with_mem]. rewrite (mr_dir _ _ _ _ _ _ _ H1).
    + replace (161 + k) with (160 + (k + 1)) by lia. rewrite vmem_PDX by lia. by rewrite E0 in W2.
    + replace (161 + k) with (160 + (k + 1)) by lia. rewrite vmem_PDX; lia.
  - intros m' H2. pose proof (mapped_run_step _ _ _ _ _ _ _ 15 ltac:(lia) H1 H2) as H3.
    apply HQ; [exact Hf1|exact Wk|exact Hr1|].
    intros la Hla. cbn [mm_mem with_mem]. rewrite (mr_trans _ _ _ _ _ _ _ H3 la Hla), W3 by done.
    pose proof (vmem_pages la Hla) as Hv. unfold VMEM_ADDR in *.
    destruct (decide (160 <= PGNUM la < 160 + 16)).
    + rewrite !decide_True by lia. destruct (vmem_split la Hla) as [-> ->]. f_equal. unfold page2pa.
      rewrite Z.shiftl_mul_pow2 by lia. pose proof (Z.div_mod la 4096 ltac:(lia)). lia.
    + by rewrite !decide_False by lia.
Qed.

Lemma wp_page_init dp tp s (Q : unit -> mmst -> Prop) J :
  0 <= dp < 0x400 -> 0 <= tp -> tp + 32 <= 0x400 -> dp < tp \/ tp + 32 <= dp ->
  (forall i, 0 <= i < 1024 -> i < 768 \/ 800 <= i -> present (mm_mem s (entry (page2kva dp) i)) = false) ->
  mm_free s = None -> (forall s', booted s' dp -> Q tt s') ->
  wp (page_init (page2kva dp) (page2kva tp)) Q J s.
Proof.
  intros Hdp Htp Htp2 Hsep Hz Hf HQ. unfold page_init. assert (Hd : 0 <= dp < npages) by (unfold npages; lia).
  assert (Ht2 : tp + 32 <= npages) by (unfold npages; lia).
  apply wp_bind, (wp_init_kern_pgdir dp tp Hd Htp Ht2 Hsep); [exact Hz|]. intros m1 Hk.
  apply wp_bind, wp_page_init_used; [lia|unfold npages; lia|]. intros r1 R1 R2.
  apply wp_bind, wp_page_init_free; [unfold npages; lia|lia| |].
  { replace (npages - 1 + 1) with npages by lia. rewrite Z.sub_diag. split; [exact Hf|apply NoDup_nil_2]. }
  intros s2 lo. assert (Elo : lo = 0x400) by (unfold lo, npages; lia). clearbody lo. subst lo.
  intros Hfree R3 R4 Hm Hkp. cbn [mm_mem mm_ref mm_kern_pgdir with_ref with_kern_pgdir with_mem] in *.
  apply wp_bind, wp_get. rewrite Hkp. apply (wp_vmem_map dp tp); try done; [by rewrite Hm|].
  intros s3 H1 H2 H3 H4. apply HQ. split; [done|by rewrite H2| |].
  - intros k Hk'. rewrite H3. destruct (decide (k = 0x400)) as [->|Hne].
    + rewrite fn_lookup_insert, R3 by (unfold npages; lia). done.
    + rewrite fn_lookup_insert_ne by done. destruct (decide (k <= 0x400)).
      * rewrite R4 by lia. apply R1. lia.
      * apply R3. lia.
  - intros la Hla. rewrite H4, Hm, (kern_translate dp tp Hd Htp Ht2 Hsep _ _ Hk Hla) by done.
    unfold VMEM_ADDR, KERNBASE, PHY_MEM. repeat case_decide; try done; lia.
Qed.
