(* ===== verification/PmapProps.v ===== *)
(** * Properties of the page tables *)

From S2P Require Import Prelude Disk Pmap PmapSpec PmapProofs PmapAlloc PmapBoot.

(** A machine whose free pages are those from [n] on, with empty memory. *)
Definition demo_mm (n : Z) : mmst :=
  mkMm (fun p => if p + 1 <? npages then Some (p + 1) else None) (fun _ => 0)
    (if n <? npages then Some n else None) 0 no_tlb (fun _ => 0).

Lemma demo_linked k n : 0 <= n -> n + Z.of_nat k = npages ->
  linked (mm_link (demo_mm 0)) (if n <? npages then Some n else None) (seqZ n (Z.of_nat k)).
Proof.
  revert n. induction k as [|k IH]; intros n Hn Hk.
  - rewrite (proj2 (Z.ltb_ge n npages)) by lia. done.
  - rewrite seqZ_cons by lia. rewrite (proj2 (Z.ltb_lt n npages)) by lia.
    split; [done|]. split; [lia|]. replace (Z.pred (Z.of_nat (S k))) with (Z.of_nat k) by lia.
    replace (Z.succ n) with (n + 1) by lia. apply IH; lia.
Qed.

Lemma demo_fresh n : 0 <= n <= npages -> fresh (demo_mm n) n.
Proof.
  intros Hn. split; [done|]. split; [|apply NoDup_seqZ].
  pose proof (demo_linked (Z.to_nat (npages - n)) n ltac:(lia) ltac:(lia)) as H.
  by rewrite Z2Nat.id in H by lia.
Qed.

Lemma demo_dir_ok n dp : 0 <= dp < npages -> dir_ok (mm_mem (demo_mm n)) dp (fun _ => 0).
Proof. intros H. split; [done|..]; cbn; intros; discriminate. Qed.

(** C29: [page_init] run once at boot, with [kpgdir] and [kpgtable] zeroed
    pages of the kernel image: the free list is every page from [0x401] on,
    in order; every physical address is mapped at [KERNBASE] above it, the
    video memory also at its own address, and no other address is mapped. *)
Theorem page_init_correct dp tp s :
  0 <= dp < 0x400 -> 0 <= tp -> tp + 32 <= 0x400 -> dp < tp \/ tp + 32 <= dp ->
  (forall i, 0 <= i < 1024 -> i < 768 \/ 800 <= i -> present (mm_mem s (entry (page2kva dp) i)) = false) ->
  mm_free s = None ->
  wp (page_init (page2kva dp) (page2kva tp)) (fun _ s' =>
    free_list s' (seqZ 0x401 (npages - 0x401)) /\ mm_kern_pgdir s' = page2kva dp /\
    (forall k, 0 <= k < npages -> mm_ref s' k = if decide (k <= 0x400) then 1 else 0) /\
    (forall la, is_u32 la -> translate (mm_mem s') (page2pa dp) la =
      if decide (KERNBASE <= la < KERNBASE + PHY_MEM) then Some (la - KERNBASE)
      else if decide (VMEM_ADDR <= la < VMEM_ADDR + 65536) then Some la else None)) (fun _ => False) s.
Proof.
  intros. eapply wp_page_init; [done..|]. intros ? [? ? ? ?]. by split_and!.
Qed.

Lemma page_init_correct_witness :
  wp (page_init (page2kva 0x200) (page2kva 0x210)) (fun _ s' =>
    free_list s' (seqZ 0x401 (npages - 0x401)) /\ mm_kern_pgdir s' = page2kva 0x200 /\
    (forall k, 0 <= k < npages -> mm_ref s' k = if decide (k <= 0x400) then 1 else 0) /\
    (forall la, is_u32 la -> translate (mm_mem s') (page2pa 0x200) la =
      if decide (KERNBASE <= la < KERNBASE + PHY_MEM) then Some (la - KERNBASE)
      else if decide (VMEM_ADDR <= la < VMEM_ADDR + 65536) then Some la else None)) (fun _ => False)
    (demo_mm npages).
Proof. apply (page_init_correct 0x200 0x210); first [lia|reflexivity|intros; reflexivity]. Defined.

(** C30: [mm_alloc] in an address space with the range unmapped: every page
    that meets [va, va+len) is mapped, each to a frame of its own that was
    free, and every other address translates as before. *)
Theorem mm_alloc_correct dp tbl s n va len (lo := ROUNDDOWN va PGSIZE) (hi := ROUNDUP (va + len) PGSIZE) :
  is_u32 va -> 0 <= len -> va + len + 2 * PGSIZE <= 2 ^ 32 ->
  dir_ok (mm_mem s) dp tbl -> below (mm_mem s) dp tbl n -> fresh s n -> n + 2 * ((hi - lo) / PGSIZE) + 4 <= npages ->
  (forall la, lo <= la < hi -> translate (mm_mem s) (page2pa dp) la = None) ->
  wp (mm_alloc (page2kva dp) va len) (fun _ s' =>
    lo <= va /\ va + len <= hi /\ exists n' f, fresh s' n' /\ range_mapped s s' dp lo hi n n' f) (fun _ => False) s.
Proof.
  intros. eapply wp_mm_alloc; [done..|]. intros s' tbl' n' f Hlo Hhi _ _ Hf _ Hm _. split; [done|]. split; [done|]. by exists n', f.
Qed.

Lemma mm_alloc_correct_witness :
  wp (mm_alloc (page2kva 0x500) 0x100123 0x2000) (fun _ s' =>
    0x100000 <= 0x100123 /\ 0x100123 + 0x2000 <= 0x103000 /\
    exists n' f, fresh s' n' /\ range_mapped (demo_mm 0x501) s' 0x500 0x100000 0x103000 0x501 n' f) (fun _ => False)
    (demo_mm 0x501).
Proof.
  apply (mm_alloc_correct 0x500 (fun _ => 0) (demo_mm 0x501) 0x501 0x100123 0x2000).
  - unfold is_u32. lia.
  - lia.
  - unfold PGSIZE. lia.
  - apply demo_dir_ok. unfold npages. lia.
  - split; [lia|]. cbn. intros. discriminate.
  - apply demo_fresh. unfold npages. lia.
  - vm_compute. discriminate.
  - intros. reflexivity.
Defined.

(** The entry of [va] and the frame it names. *)
Lemma wp_page_lookup dp tbl va s (Q : option (Z * Z) -> mmst -> Prop) J :
  dir_ok (mm_mem s) dp tbl -> is_u32 va -> present (mm_mem s (entry (page2kva dp) (PDX va))) = true ->
  (let pte := entry (page2kva (tbl (PDX va))) (PTX va) in
   Q (Some (pa2page (PTE_ADDR (mm_mem s pte)), pte)) s) -> wp (page_lookup (page2kva dp) va) Q J s.
Proof.
  intros Hok Hva Hp HQ. unfold page_lookup. apply wp_bind. eapply wp_pgdir_walk_present; [done..|].
  destruct (PGADDR_split va Hva) as (_ & Hd & Hx & _). destruct (do_table _ _ _ Hok _ Hd Hp) as (_ & Ht & _).
  apply wp_bind, wp_load; [by apply entry_mapped|]. apply wp_ret. apply HQ.
Qed.

Lemma PGNUM_page2pa q o : 0 <= o < 4096 -> PGNUM (page2pa q + o) = q.
Proof.
  intros Ho. unfold PGNUM, page2pa. rewrite Z.shiftl_mul_pow2, Z.shiftr_div_pow2 by lia.
  rewrite Z.div_add_l, Z.div_small by lia. lia.
Qed.

Lemma page2pa_split q r o o' : 0 <= o < 4096 -> 0 <= o' < 4096 -> page2pa q + o = page2pa r + o' -> q = r.
Proof. intros Ho Ho' E. by rewrite <- (PGNUM_page2pa q o), E, PGNUM_page2pa. Qed.

(** Unmapping: the entry becomes 0 and the page it named loses a reference. *)
Lemma wp_page_remove_raw dp tbl va s l (Q : unit -> mmst -> Prop) J (pte := entry (page2kva (tbl (PDX va))) (PTX va)) (q := pa2page (PTE_ADDR (mm_mem s pte))) :
  dir_ok (mm_mem s) dp tbl -> is_u32 va -> present (mm_mem s (entry (page2kva dp) (PDX va))) = true ->
  0 <= q < npages -> free_list s l -> q ∉ l ->
  (forall s', mm_mem s' = <[pte := 0]> (mm_mem s) -> mm_tlb s' = <[PGNUM va := None]> (mm_tlb s) ->
     mm_ref s' = <[q := u16 (mm_ref s q - 1)]> (mm_ref s) -> mm_kern_pgdir s' = mm_kern_pgdir s ->
     free_list s' (if u16 (mm_ref s q - 1) =? 0 then q :: l else l) -> Q tt s') ->
  wp (page_remove (page2kva dp) va) Q J s.
Proof.
  intros Hok Hva Hp Hq Hf Hl HQ. unfold page_remove. apply wp_bind. eapply wp_page_lookup; [done..|].
  cbn zeta iota. destruct (PGADDR_split va Hva) as (_ & Hd & Hx & _). destruct (do_table _ _ _ Hok _ Hd Hp) as (_ & Ht & _).
  apply wp_bind, wp_store; [by apply entry_mapped|]. apply wp_bind.
  apply (wp_page_decref _ _ l); [exact Hq|exact Hf|exact Hl|]. intros s' Hm Hk Ht' Hr Hf'.
  apply wp_modify. apply HQ; cbn [mm_mem mm_tlb mm_ref mm_kern_pgdir with_mem with_tlb] in *; [done|by rewrite Ht'|done..].
Qed.

Lemma wp_page_remove dp tbl va s l (Q : unit -> mmst -> Prop) J :
  dir_ok (mm_mem s) dp tbl -> is_u32 va -> present (mm_mem s (entry (page2kva dp) (PDX va))) = true ->
  (let q := pa2page (PTE_ADDR (mm_mem s (entry (page2kva (tbl (PDX va))) (PTX va)))) in
   0 <= q < npages /\ free_list s l /\ (q ∉ l) /\
   forall s', dir_ok (mm_mem s') dp tbl ->
     (forall la, is_u32 la -> translate (mm_mem s') (page2pa dp) la =
        if decide (PGNUM la = PGNUM va) then None else translate (mm_mem s) (page2pa dp) la) ->
     mm_ref s' = <[q := u16 (mm_ref s q - 1)]> (mm_ref s) ->
     free_list s' (if u16 (mm_ref s q - 1) =? 0 then q :: l else l) -> Q tt s') ->
  wp (page_remove (page2kva dp) va) Q J s.
Proof.
  intros Hok Hva Hp (Hq & Hf & Hl & HQ). apply (wp_page_remove_raw dp tbl va s l); [done..|].
  intros s' Hm _ Hr _ Hf'. apply HQ; [| |exact Hr|exact Hf']; rewrite Hm.
  - exact (proj1 (translate_set _ _ _ _ 0 _ Hok Hva Hva Hp)).
  - intros la Hla. exact (proj2 (translate_set _ _ _ _ 0 la Hok Hla Hva Hp)).
Qed.

(** [page_remove] of a mapped page: its addresses are no longer mapped,
    the others are as before, the frame loses one reference and goes to the
    front of the free list when that was the last. *)
Theorem page_remove_mapped dp tbl va q o s l :
  dir_ok (mm_mem s) dp tbl -> is_u32 va -> 0 <= q < npages -> 0 <= o < 4096 ->
  is_u32 (mm_mem s (entry (page2kva (tbl (PDX va))) (PTX va))) ->
  translate (mm_mem s) (page2pa dp) va = Some (page2pa q + o) -> free_list s l -> q ∉ l ->
  wp (page_remove (page2kva dp) va) (fun _ s' =>
    (forall la, is_u32 la -> translate (mm_mem s') (page2pa dp) la =
       if decide (PGNUM la = PGNUM va) then None else translate (mm_mem s) (page2pa dp) la) /\
    mm_ref s' = <[q := u16 (mm_ref s q - 1)]> (mm_ref s) /\
    free_list s' (if decide (u16 (mm_ref s q) = 1) then q :: l else l)) (fun _ => False) s.
Proof.
  intros Hok Hva Hq Ho Hu Htr Hf Hl. rewrite (translate_eq _ _ _ _ Hok Hva) in Htr.
  destruct (present (mm_mem s (entry (page2kva dp) (PDX va)))) eqn:Hp; [|done]. cbn zeta in Htr.
  destruct (present (mm_mem s (entry (page2kva (tbl (PDX va))) (PTX va)))) eqn:Hpe; [|done].
  destruct (PGADDR_split va Hva) as (_ & _ & _ & Hoff). simplify_eq.
  set (e := mm_mem s _) in *. assert (E : PTE_ADDR e = page2pa (pa2page (PTE_ADDR e)) + 0).
  { rewrite PTE_ADDR_eq by done. unfold pa2page, page2pa, PGNUM. rewrite Z.shiftl_mul_pow2, Z.shiftr_div_pow2 by lia.
    pose proof (Z.div_mod e (2 ^ 12) ltac:(lia)). assert (E : e - e mod 2 ^ 12 = e / 2 ^ 12 * 2 ^ 12) by lia.
    rewrite E, Z.div_mul by lia. lia. }
  assert (Eq : pa2page (PTE_ADDR e) = q) by (apply (page2pa_split _ _ (0 + PGOFF va) o); lia).
  eapply wp_page_remove; [done..|]. fold e. rewrite Eq. split; [done|]. split; [exact Hf|]. split; [done|].
  intros s' _ Ht Hr Hfl. split; [done|]. split; [done|].
  assert (Ez : (u16 (mm_ref s q - 1) =? 0) = bool_decide (u16 (mm_ref s q) = 1)).
  { unfold u16. apply eq_true_iff_eq. rewrite Z.eqb_eq, bool_decide_eq_true.
    rewrite <- (Zminus_mod_idemp_l _ 1). pose proof (Z.mod_pos_bound (mm_ref s q) (2 ^ 16) ltac:(lia)).
    set (x := mm_ref s q mod 2 ^ 16) in *. destruct (decide (x = 0)) as [->|].
    - change ((0 - 1) mod 2 ^ 16) with 65535. lia.
    - rewrite Z.mod_small by lia. lia. }
  rewrite Ez in Hfl. case_bool_decide; by case_decide.
Qed.

(** Directory 0x500 with one table, 0x501, which maps 0x8048000 to frame
    [q], or has an empty entry there. *)
Definition demo_mapped (pte : Z) : mmst :=
  with_mem (<[entry (page2kva 0x501) 0x48 := pte]> (<[entry (page2kva 0x500) 32 := 0x501007]> (fun _ => 0)))
    (demo_mm 0x503).

Lemma demo_mapped_ok pte : dir_ok (mm_mem (demo_mapped pte)) 0x500 (fun _ => 0x501).
Proof.
  assert (Hd : forall i, 0 <= i < 1024 -> present (mm_mem (demo_mapped pte) (entry (page2kva 0x500) i)) = true -> i = 32).
  { intros i Hi. unfold demo_mapped. cbn [mm_mem with_mem]. intros Hp.
    destruct (decide (i = 32)) as [|Hne]; [done|]. exfalso.
    rewrite !fn_lookup_insert_ne in Hp; [discriminate|..].
    - intros E. apply entry_inj in E as [_ E]; unfold npages; lia.
    - intros E. apply entry_inj in E as [E _]; [discriminate|unfold npages; lia..]. }
  split; [unfold npages; lia|..].
  - intros i Hi Hp. apply Hd in Hp as ->; [|done]. split; [reflexivity|]. unfold npages. lia.
  - intros i j Hi Hj Hpi Hpj _. by rewrite (Hd i Hi Hpi), (Hd j Hj Hpj).
Qed.

Lemma demo_mapped_free pte : free_list (demo_mapped pte) (seqZ 0x503 (npages - 0x503)).
Proof. apply (demo_fresh 0x503). unfold npages. lia. Qed.

Lemma demo_not_free q : q < 0x503 -> q ∉ seqZ 0x503 (npages - 0x503).
Proof. intros H E. apply elem_of_seqZ in E. lia. Qed.

Lemma page_remove_mapped_witness (q := 0x502) (s := demo_mapped 0x502007) :
  wp (page_remove (page2kva 0x500) 0x8048000) (fun _ s' =>
    (forall la, is_u32 la -> translate (mm_mem s') (page2pa 0x500) la =
       if decide (PGNUM la = PGNUM 0x8048000) then None else translate (mm_mem s) (page2pa 0x500) la) /\
    mm_ref s' = <[q := u16 (mm_ref s q - 1)]> (mm_ref s) /\
    free_list s' (if decide (u16 (mm_ref s q) = 1) then q :: seqZ 0x503 (npages - 0x503)
      else seqZ 0x503 (npages - 0x503))) (fun _ => False) s.
Proof.
  apply (page_remove_mapped 0x500 (fun _ => 0x501) 0x8048000 q 0).
  - apply demo_mapped_ok.
  - unfold is_u32. lia.
  - unfold q, npages. lia.
  - lia.
  - vm_compute. split; [discriminate|reflexivity].
  - reflexivity.
  - apply demo_mapped_free.
  - apply demo_not_free. unfold q. lia.
Defined.

(** [page_remove] where a table exists but the address is not mapped:
    it drops a reference of page 0, and so puts page 0 on the free list if
    it has one reference, as after [page_init]. *)
Theorem page_remove_unmapped dp tbl va s l :
  dir_ok (mm_mem s) dp tbl -> is_u32 va -> present (mm_mem s (entry (page2kva dp) (PDX va))) = true ->
  mm_mem s (entry (page2kva (tbl (PDX va))) (PTX va)) = 0 -> free_list s l -> 0 ∉ l -> mm_ref s 0 = 1 ->
  wp (page_remove (page2kva dp) va) (fun _ s' => mm_ref s' 0 = 0 /\ free_list s' (0 :: l)) (fun _ => False) s.
Proof.
  intros Hok Hva Hp He Hf Hl Hr. eapply wp_page_remove; [done..|]. rewrite He.
  change (pa2page (PTE_ADDR 0)) with 0. split; [unfold npages; lia|]. split; [exact Hf|]. split; [done|].
  rewrite Hr. intros s' _ _ Hr' Hf'. split; [|exact Hf']. rewrite Hr'. apply fn_lookup_insert.
Qed.

Lemma page_remove_unmapped_witness :
  wp (page_remove (page2kva 0x500) 0x8048000)
    (fun _ s' => mm_ref s' 0 = 0 /\ free_list s' (0 :: seqZ 0x503 (npages - 0x503))) (fun _ => False)
    (with_ref (fun _ => 1) (demo_mapped 0)).
Proof.
  apply (page_remove_unmapped 0x500 (fun _ => 0x501)).
  - apply demo_mapped_ok.
  - unfold is_u32. lia.
  - reflexivity.
  - reflexivity.
  - apply demo_mapped_free.
  - apply demo_not_free. lia.
  - reflexivity.
Defined.

(** [page_alloc] takes the first free page; with [ALLOC_ZERO] it clears
    that page and the three after it, for [memset] counts double words. *)
Theorem page_alloc_correct p l s flags :
  free_list s (p :: l) -> p + 4 <= npages -> flags = 0 \/ flags = ALLOC_ZERO ->
  wp (page_alloc flags) (fun r s' => r = Some p /\ free_list s' l /\ mm_ref s' = mm_ref s /\
    forall a, mm_mem s' a =
      if decide (flags = ALLOC_ZERO /\ page2kva p <= a < page2kva p + 4 * PGSIZE) then 0 else mm_mem s a)
    (fun _ => False) s.
Proof.
  intros Hf Hp [->| ->].
  - eapply wp_page_alloc; [exact Hf|]. split; [done|]. split; [by apply (free_list_taken p)|]. split; [done|].
    intros a. case_decide as E; [destruct E as [E _]; discriminate|done].
  - eapply wp_page_alloc_zero; [exact Hf|done|]. split; [done|]. split; [by apply (free_list_taken p)|].
    split; [done|]. intros a. cbn [mm_mem with_mem]. case_decide as E.
    + apply fill_in. lia.
    + apply fill_out. unfold ALLOC_ZERO in *. lia.
Qed.

Lemma page_alloc_correct_witness :
  wp (page_alloc ALLOC_ZERO) (fun r s' => r = Some 0x401 /\ free_list s' (seqZ 0x402 (npages - 0x402)) /\
    mm_ref s' = mm_ref (demo_mm 0x401) /\
    forall a, mm_mem s' a =
      if decide (ALLOC_ZERO = ALLOC_ZERO /\ page2kva 0x401 <= a < page2kva 0x401 + 4 * PGSIZE) then 0
      else mm_mem (demo_mm 0x401) a) (fun _ => False) (demo_mm 0x401).
Proof.
  assert (H : fresh (demo_mm 0x401) 0x401) by (apply demo_fresh; unfold npages; lia).
  apply (page_alloc_correct 0x401); [|unfold npages; lia|by right].
  apply (fresh_cons _ _ H). unfold npages. lia.
Defined.

(** [page_insert] of the page that is already mapped at the address:
    no translation changes, yet the page gains another reference. *)
Theorem page_insert_again dp tbl va pp perm s :
  dir_ok (mm_mem s) dp tbl -> is_u32 va -> present (mm_mem s (entry (page2kva dp) (PDX va))) = true ->
  0 <= pp < npages -> 0 <= perm < 4096 ->
  mm_mem s (entry (page2kva (tbl (PDX va))) (PTX va)) = Z.lor (Z.lor (page2pa pp) perm) PTE_P ->
  wp (page_insert (page2kva dp) (Some pp) va perm) (fun r s' => r = 0 /\
    mm_ref s' = <[pp := u16 (mm_ref s pp + 1)]> (mm_ref s) /\
    forall la, is_u32 la -> translate (mm_mem s') (page2pa dp) la = translate (mm_mem s) (page2pa dp) la)
    (fun _ => False) s.
Proof.
  intros Hok Hva Hp Hpp Hperm He. destruct (PGADDR_split va Hva) as (_ & Hd & Hx & _).
  destruct (do_table _ _ _ Hok _ Hd Hp) as (_ & Ht & _). destruct (pte_value pp perm Hpp Hperm) as [Hv1 Hv2].
  unfold page_insert. apply wp_bind. eapply wp_pgdir_walk_present; [done..|]. apply wp_bind, wp_ret.
  set (a := entry (page2kva (tbl (PDX va))) (PTX va)) in *. assert (Hm : mapped a 4 = true) by (by apply entry_mapped).
  apply wp_bind, wp_load; [done|]. rewrite He. set (v := Z.lor (Z.lor _ _) _) in *. rewrite Hv1, Hv2, Z.eqb_refl.
  apply wp_bind, wp_store; [done|]. apply wp_bind, wp_store; [done|].
  apply wp_bind, wp_incr_ref; [done|]. apply wp_ret. split; [done|]. split; [done|].
  intros la Hla. cbn [mm_mem with_mem with_ref].
  assert (E : forall b, (<[a := v]> (<[a := v]> (mm_mem s)) : Z -> Z) b = mm_mem s b).
  { intros b. destruct (decide (b = a)) as [->|]; [by rewrite fn_lookup_insert, He|by rewrite !fn_lookup_insert_ne]. }
  unfold translate. cbn zeta. by rewrite !E.
Qed.

Lemma page_insert_again_witness (s := demo_mapped 0x502007) :
  wp (page_insert (page2kva 0x500) (Some 0x502) 0x8048000 7) (fun r s' => r = 0 /\
    mm_ref s' = <[0x502 := u16 (mm_ref s 0x502 + 1)]> (mm_ref s) /\
    forall la, is_u32 la -> translate (mm_mem s') (page2pa 0x500) la = translate (mm_mem s) (page2pa 0x500) la)
    (fun _ => False) s.
Proof.
  apply (page_insert_again 0x500 (fun _ => 0x501)).
  - apply demo_mapped_ok.
  - unfold is_u32. lia.
  - reflexivity.
  - unfold npages. lia.
  - lia.
  - reflexivity.
Defined.

(** ** The TLB

    What the processor remembers of the directory in page [dp] is what the
    tables say. *)
Definition coherent (s : mmst) (dp : Z) : Prop :=
  forall la frame, is_u32 la -> mm_tlb s (PGNUM la) = Some frame ->
    translate (mm_mem s) (page2pa dp) la = Some (frame + PGOFF la).

Lemma coherent_lookup s dp la : coherent s dp -> is_u32 la -> tlb_lookup s (page2pa dp) la = translate (mm_mem s) (page2pa dp) la.
Proof. intros Hc Hla. unfold tlb_lookup. destruct (mm_tlb s (PGNUM la)) as [fr|] eqn:E; [|done]. by rewrite (Hc la fr). Qed.

Lemma coherent_flush s dp : coherent (with_tlb no_tlb s) dp.
Proof. by intros la fr _ [=]. Qed.

Lemma translate_same_page m dp tbl la va frame : dir_ok m dp tbl -> is_u32 la -> is_u32 va -> PGNUM la = PGNUM va ->
  translate m (page2pa dp) la = Some (frame + PGOFF la) -> translate m (page2pa dp) va = Some (frame + PGOFF va).
Proof.
  intros Hok Hla Hva E. apply same_page in E as [E1 E2]; [|done..]. rewrite !(translate_eq _ _ _ _ Hok) by done. rewrite E1, E2.
  destruct (present _); [|done]. cbn zeta. destruct (present _); [|done]. intros [= H]. f_equal. lia.
Qed.

(** The processor's own steps. *)
Lemma coherent_step s dp tbl s' : dir_ok (mm_mem s) dp tbl -> coherent s dp -> tlb_step (page2pa dp) s s' -> coherent s' dp.
Proof.
  intros Hok Hc Hst la fr Hla. destruct Hst as [va frame Hva Ht|n]; cbn [mm_tlb mm_mem with_tlb].
  - destruct (decide (PGNUM la = PGNUM va)) as [E|E].
    + rewrite E, fn_lookup_insert. intros [= ->]. by apply (translate_same_page _ _ tbl va).
    + rewrite fn_lookup_insert_ne by congruence. by apply Hc.
  - destruct (decide (PGNUM la = n)) as [->|E]; [by rewrite fn_lookup_insert|]. rewrite fn_lookup_insert_ne by congruence. by apply Hc.
Qed.

(** The tables change at the page of [va] only. *)
Lemma coherent_changed s s' dp va : coherent s dp -> is_u32 va ->
  (forall la, is_u32 la -> PGNUM la <> PGNUM va -> translate (mm_mem s') (page2pa dp) la = translate (mm_mem s) (page2pa dp) la) ->
  mm_tlb s' = <[PGNUM va := None]> (mm_tlb s) \/
  (mm_tlb s' = mm_tlb s /\ forall la frame, is_u32 la -> PGNUM la = PGNUM va -> translate (mm_mem s) (page2pa dp) va = Some (frame + PGOFF va) ->
     translate (mm_mem s') (page2pa dp) la = Some (frame + PGOFF la)) -> coherent s' dp.
Proof.
  intros Hc Hva Hsame Ht la fr Hla. destruct (decide (PGNUM la = PGNUM va)) as [E|E].
  - destruct Ht as [->|[-> Hn]]; [by rewrite E, fn_lookup_insert|]. intros Hf. apply Hn; [done|done|]. apply Hc; [done|]. by rewrite <- E.
  - intros Hf. rewrite Hsame by done. apply Hc; [done|]. destruct Ht as [Ht|[Ht _]]; rewrite Ht in Hf; [|done].
    by rewrite fn_lookup_insert_ne in Hf by congruence.
Qed.

Lemma PTE_ADDR_page e : page2pa (pa2page (PTE_ADDR e)) = PTE_ADDR e.
Proof.
  unfold pa2page, page2pa, PGNUM, PTE_ADDR. apply Z.bits_inj'. intros n Hn. rewrite Z.shiftl_spec by done.
  destruct (decide (n < 12)) as [Hlt|Hge].
  - change 0xFFFFF000 with (Z.shiftl (Z.ones 20) 12). by rewrite Z.land_spec, Z.shiftl_spec, !(Z.testbit_neg_r _ (n - 12)), andb_false_r by lia.
  - rewrite Z.shiftr_spec by lia. f_equal. lia.
Qed.

(** Writing the entry of [va], and then whatever follows. *)
Lemma set_entry s0 m dp tbl va pp perm (a := entry (page2kva (tbl (PDX va))) (PTX va)) (v := Z.lor (Z.lor (page2pa pp) perm) PTE_P) :
  dir_ok m dp tbl -> is_u32 va -> present (m (entry (page2kva dp) (PDX va))) = true -> 0 <= pp < npages -> 0 <= perm < 4096 ->
  (forall la, is_u32 la -> PGNUM la <> PGNUM va -> translate m (page2pa dp) la = translate (mm_mem s0) (page2pa dp) la) ->
  let m' := <[a := v]> m in dir_ok m' dp tbl /\ present (m' (entry (page2kva dp) (PDX va))) = true /\
  forall la, is_u32 la -> translate m' (page2pa dp) la =
    if decide (PGNUM la = PGNUM va) then Some (page2pa pp + PGOFF la) else translate (mm_mem s0) (page2pa dp) la.
Proof.
  intros Hok Hva Hp Hpp Hperm Hsame m'. destruct (pte_value pp perm Hpp Hperm) as [Hv1 Hv2]. fold v in Hv1, Hv2.
  destruct (PGADDR_split va Hva) as (_ & Hd & Hx & _). destruct (do_table _ _ _ Hok _ Hd Hp) as (_ & Ht & Hne). pose proof (do_dp _ _ _ Hok) as Hdp.
  split_and!.
  - exact (proj1 (translate_set _ _ _ va v va Hok Hva Hva Hp)).
  - unfold m', a. rewrite fn_lookup_insert_ne; [done|]. intros E. apply entry_inj in E as [E _]; congruence || done.
  - intros la Hla. unfold m', a. rewrite (proj2 (translate_set _ _ _ va v la Hok Hla Hva Hp)), Hv1, Hv2. case_decide; [done|by apply Hsame].
Qed.

(** [page_insert] where a page is mapped. *)
Lemma wp_page_insert_over dp tbl va pp perm l s q (Q : Z -> mmst -> Prop) J :
  dir_ok (mm_mem s) dp tbl -> is_u32 va -> free_list s l -> 0 <= pp < npages -> 0 <= perm < 4096 ->
  translate (mm_mem s) (page2pa dp) va = Some (page2pa q + PGOFF va) -> 0 <= q < npages -> q ∉ l ->
  (forall s' l', dir_ok (mm_mem s') dp tbl ->
     (forall la, is_u32 la -> translate (mm_mem s') (page2pa dp) la =
        if decide (PGNUM la = PGNUM va) then Some (page2pa pp + PGOFF la) else translate (mm_mem s) (page2pa dp) la) ->
     (if decide (pp = q) then l' = l /\ mm_ref s' = <[pp := u16 (mm_ref s pp + 1)]> (mm_ref s) /\ mm_tlb s' = mm_tlb s
      else l' = (if u16 (mm_ref s q - 1) =? 0 then q :: l else l) /\
        mm_ref s' = <[pp := u16 (mm_ref s pp + 1)]> (<[q := u16 (mm_ref s q - 1)]> (mm_ref s)) /\
        mm_tlb s' = <[PGNUM va := None]> (mm_tlb s)) ->
     free_list s' l' -> Q 0 s') ->
  wp (page_insert (page2kva dp) (Some pp) va perm) Q J s.
Proof.
  intros Hok Hva Hf Hpp Hperm Htr Hq Hql HQ. destruct (PGADDR_split va Hva) as (_ & Hd & Hx & _).
  rewrite (translate_eq _ _ _ _ Hok Hva) in Htr. destruct (present (mm_mem s (entry (page2kva dp) (PDX va)))) eqn:Hp; [|done]. cbn zeta in Htr.
  set (a := entry (page2kva (tbl (PDX va))) (PTX va)) in *. destruct (present (mm_mem s a)) eqn:Hpe; [|done].
  destruct (do_table _ _ _ Hok _ Hd Hp) as (_ & Ht & Hne). pose proof (do_dp _ _ _ Hok) as Hdp.
  assert (Eq : pa2page (PTE_ADDR (mm_mem s a)) = q).
  { injection Htr as Htr. apply page2pa_inj. rewrite PTE_ADDR_page. lia. }
  assert (Hm : mapped a 4 = true) by (by apply entry_mapped). set (v := Z.lor (Z.lor (page2pa pp) perm) PTE_P).
  unfold page_insert. apply wp_bind. eapply wp_pgdir_walk_present; [done..|]. apply wp_bind, wp_ret. fold a.
  apply wp_bind, wp_load; [done|]. rewrite Hpe, <- PTE_ADDR_page, Eq.
  destruct (Z.eqb_spec (page2pa q) (page2pa pp)) as [E|E].
  - apply page2pa_inj in E. assert (Epq : pp = q) by done. clear E.
    apply wp_bind, wp_store; [done|]. apply wp_bind, wp_store; [done|]. apply wp_bind, wp_incr_ref; [done|]. apply wp_ret.
    cbn [mm_mem with_mem mm_ref with_ref]. fold v.
    destruct (set_entry s (mm_mem s) dp tbl va pp perm) as (H1 & H2 & H3); [done..|]. fold a v in H1, H2, H3.
    destruct (set_entry s (<[a := v]> (mm_mem s)) dp tbl va pp perm) as (G1 & G2 & G3); [done..| |].
    { intros la Hla Hne'. rewrite H3 by done. by rewrite decide_False. }
    apply (HQ _ l); [exact G1|exact G3| |exact Hf]. by rewrite decide_True.
  - apply wp_bind. apply (wp_page_remove_raw dp tbl va s l); fold a; rewrite ?Eq; [done..|]. intros s1 Hm1 Ht1 Hr1 _ Hf1.
    apply wp_bind, wp_store; [done|]. apply wp_bind, wp_incr_ref; [done|]. apply wp_ret.
    cbn [mm_mem with_mem mm_ref with_ref]. fold v.
    destruct (translate_set _ _ _ va 0 va Hok Hva Hva Hp) as [K1 _]. fold a in K1.
    destruct (set_entry s (<[a := 0]> (mm_mem s)) dp tbl va pp perm) as (G1 & G2 & G3); [done|done| |done|done| |].
    { unfold a. rewrite fn_lookup_insert_ne; [done|]. intros E'. apply entry_inj in E' as [E' _]; congruence || done. }
    { intros la Hla Hne'. unfold a. rewrite (proj2 (translate_set _ _ _ va 0 la Hok Hla Hva Hp)). by rewrite decide_False. }
    fold a v in G1, G2, G3. assert (Hne' : pp <> q) by congruence.
    eapply (HQ _ _); cbn [mm_mem with_mem mm_ref with_ref mm_tlb]; rewrite ?Hm1; [exact G1|exact G3| |exact Hf1].
    rewrite decide_False by done. split; [done|]. split; [|done]. by rewrite Hr1, fn_lookup_insert_ne by congruence.
Qed.

(** What [page_insert] says about the page [old] that was mapped at [va]: its
    references, and which pages may be free afterwards. *)
Record inserted (s s' : mmst) (dp va pp : Z) (old : option Z) (l : list Z) : Prop := {
  in_here : forall la, is_u32 la -> translate (mm_mem s') (page2pa dp) la =
    if decide (PGNUM la = PGNUM va) then Some (page2pa pp + PGOFF la) else translate (mm_mem s) (page2pa dp) la;
  in_ref : mm_ref s' pp = u16 (mm_ref s pp + 1);
  in_old : forall q, old = Some q -> q <> pp -> mm_ref s' q = u16 (mm_ref s q - 1);
  in_free : exists l', free_list s' l' /\ forall x, x ∈ l' -> x ∈ l \/ (old = Some x /\ x <> pp /\ u16 (mm_ref s x - 1) = 0);
  in_freed : forall q l', old = Some q -> q <> pp -> u16 (mm_ref s q - 1) = 0 -> free_list s' l' -> q ∈ l';
  in_tlb : coherent s' dp }.

Lemma free_list_unique s l l' : free_list s l -> free_list s l' -> l = l'.
Proof.
  intros [H _] [H' _]. revert H H'. generalize (mm_free s). revert l'. induction l as [|x l IH]; intros [|y l'] hd; cbn; try done.
  - intros -> [? _]. done.
  - intros [-> _]. done.
  - intros (-> & _ & H) ([= ->] & _ & H'). f_equal. by apply (IH _ _ H H').
Qed.



(** [mm_alloc] maps pages that nothing was mapped at, so nothing stale is left. *)
Theorem mm_alloc_coherent dp tbl s n va len (lo := ROUNDDOWN va PGSIZE) (hi := ROUNDUP (va + len) PGSIZE) :
  is_u32 va -> 0 <= len -> va + len + 2 * PGSIZE <= 2 ^ 32 ->
  dir_ok (mm_mem s) dp tbl -> below (mm_mem s) dp tbl n -> fresh s n -> n + 2 * ((hi - lo) / PGSIZE) + 4 <= npages ->
  (forall la, lo <= la < hi -> translate (mm_mem s) (page2pa dp) la = None) -> coherent s dp ->
  wp (mm_alloc (page2kva dp) va len) (fun _ s' => coherent s' dp) (fun _ => False) s.
Proof.
  intros Hva Hlen Hend Hok Hbl Hfr Hn Hun Hc. eapply wp_mm_alloc; [done..|].
  intros s' tbl' n' f _ _ _ _ _ _ [_ R2 _ _] HS la fr Hla. rewrite (rs_tlb _ _ _ _ _ _ _ HS). intros Hf. specialize (Hc la fr Hla Hf).
  destruct (decide (lo <= la < hi)) as [Hin|Hout]; [by rewrite Hun in Hc|]. rewrite R2; [done|done|]. fold lo hi. lia.
Qed.
