(* ===== verification/CopyProps.v ===== *)
(** * The address space of a child

    [copy_pgdir], by which [fork] gives the child an address space of its
    own, stated on addresses. *)

From S2P Require Import Prelude Disk Pmap PmapSpec PmapProofs PmapAlloc PmapCopy PmapProps.

Lemma present_new n e : present e = true -> present (Z.lor (page2pa n) (PTE_ATTR e)) = true.
Proof.
  intros He. rewrite present_lor. apply orb_true_iff. right. unfold present, PTE_ATTR in *.
  by rewrite <- Z.land_assoc.
Qed.

Lemma PGNUM_parts la : is_u32 la -> PGNUM la / 1024 = PDX la /\ PGNUM la mod 1024 = PTX la.
Proof.
  intros Hla. rewrite PDX_eq, PTX_eq, PGNUM_eq by done. change (2 ^ 22) with (2 ^ 12 * 2 ^ 10).
  by rewrite <- Z.div_div.
Qed.

Lemma translate_source m sd dd stbl b x la :
  source_ok m sd dd stbl b x -> b <= npages -> is_u32 la -> 0 <= x <= PDX la -> to_copy m sd dd (PDX la) = true ->
  translate m (page2pa sd) la =
    let pte := m (entry (page2kva (stbl (PDX la))) (PTX la)) in
    if present pte then Some (PTE_ADDR pte + PGOFF la) else None.
Proof.
  intros [(D1 & D2 & D3) Ht _] Hb Hla Hx Hc. destruct (PGADDR_split la Hla) as (_ & Hd & _ & _).
  destruct (Ht (PDX la) ltac:(lia) Hc) as (Ha & Hbx & _). unfold translate. rewrite page2pa_KERNBASE by lia.
  unfold to_copy in Hc. apply andb_true_iff in Hc as [-> _]. by rewrite Ha, page2pa_KERNBASE by lia.
Qed.

(** What the copied directory does to an address it was copied for. *)
Lemma dir_copied_translate m m' sd dd stbl b n n' T F la :
  source_ok m sd dd stbl b 0 -> b <= n -> n' <= npages -> dir_copied m m' sd dd stbl 0 1024 n n' T F -> is_u32 la ->
  to_copy m sd dd (PDX la) = true ->
  match translate m (page2pa sd) la with
  | Some pa => translate m' (page2pa dd) la = Some (page2pa (F (PDX la) (PTX la)) + PGOFF la) /\
      n <= F (PDX la) (PTX la) < n' /\ page_copied m m' (pa / 4096) (F (PDX la) (PTX la))
  | None => translate m' (page2pa dd) la = None
  end.
Proof.
  intros Hs Hb Hn [E P A _ _ _] Hla Hc. destruct (PGADDR_split la Hla) as (_ & Hd & Ht & Ho).
  destruct (E _ Hd Hc) as [He Hr]. pose proof Hs as [(D1 & D2 & D3) Hst _].
  rewrite (translate_source _ _ _ _ _ _ _ Hs ltac:(lia) Hla ltac:(lia) Hc).
  assert (Hp : present (m (entry (page2kva sd) (PDX la))) = true)
    by (unfold to_copy in Hc; by apply andb_true_iff in Hc as [? _]).
  assert (Htr : translate m' (page2pa dd) la = let pte := m' (entry (page2kva (T (PDX la))) (PTX la)) in
    if present pte then Some (PTE_ADDR pte + PGOFF la) else None).
  { unfold translate. rewrite page2pa_KERNBASE by lia. rewrite He, present_new, PTE_new by (done || lia).
    by rewrite page2pa_KERNBASE by lia. }
  rewrite Htr. destruct (Hst _ Hd Hc) as (_ & _ & _ & Hfr). cbv zeta.
  destruct (present (m (entry (page2kva (stbl (PDX la))) (PTX la)))) eqn:Hq.
  - destruct (P _ _ Hd Ht Hc Hq) as (Ep & Rp & Cp). rewrite Ep, present_new, PTE_new by (done || lia).
    split; [done|]. split; [done|]. destruct (Hfr _ Ht Hq) as (q & Hqa & Hqb). rewrite Hqa in Cp |- *. rewrite page2pa_div in Cp.
    replace ((page2pa q + PGOFF la) / 4096) with q; [done|]. rewrite <- PGNUM_eq. symmetry. by apply PGNUM_page2pa.
  - by rewrite (A _ _ Hd Ht Hc Hq).
Qed.

(** Addresses the directory already mapped. *)
Lemma dir_copied_other m m' sd dd stbl b n n' T F dtbl la :
  source_ok m sd dd stbl b 0 -> b <= n -> n < npages -> dir_copied m m' sd dd stbl 0 1024 n n' T F -> is_u32 la ->
  dir_ok m dd dtbl -> below m dd dtbl n -> to_copy m sd dd (PDX la) = false ->
  translate m' (page2pa dd) la = translate m (page2pa dd) la.
Proof.
  intros [(D1 & D2 & D3) _ _] Hb Hn [_ _ _ _ _ Hf] Hla Hok [_ Hbl] Hc. destruct (PGADDR_split la Hla) as (_ & Hd & Ht & Ho).
  assert (He : m' (entry (page2kva dd) (PDX la)) = m (entry (page2kva dd) (PDX la))).
  { apply Hf; [apply in_page_lt; lia|]. intros i Hi Hci E. apply entry_inj in E as [_ E]; [|lia..]. by rewrite <- E, Hc in Hci. }
  unfold translate. rewrite page2pa_KERNBASE by lia. rewrite He. destruct (present _) eqn:Hp; [|done].
  destruct Hok as [_ Htab _]. destruct (Htab _ Hd Hp) as (Ea & R & Hne). rewrite Ea, page2pa_KERNBASE by lia.
  specialize (Hbl _ Hd Hp). rewrite Hf; [done|apply in_page_lt; lia|]. intros i Hi _ E. apply entry_inj in E; lia.
Qed.

(** The tables of the copy. *)
Section tables.
Context (m m' : Z -> Z) (sd dd : Z) (stbl : Z -> Z) (b n n' : Z) (T : Z -> Z) (F : Z -> Z -> Z) (dtbl : Z -> Z).
Context (Hs : source_ok m sd dd stbl b 0) (Hb : b <= n) (Hn : n <= n') (Hn' : n' <= npages) (Hnl : n < npages) (HD : dir_copied m m' sd dd stbl 0 1024 n n' T F).
Context (Hok : dir_ok m dd dtbl) (Hbl : below m dd dtbl n).

Definition copy_tbl (i : Z) : Z := if to_copy m sd dd i then T i else dtbl i.

Lemma copied_entry i : 0 <= i < 1024 -> m' (entry (page2kva dd) i) =
  if to_copy m sd dd i then Z.lor (page2pa (T i)) (PTE_ATTR (m (entry (page2kva sd) i))) else m (entry (page2kva dd) i).
Proof using Hs Hb Hnl HD.
  pose proof Hs as [(D1 & D2 & D3) _ _]. destruct HD as [E _ _ _ _ Hf]. intros Hi. destruct (to_copy m sd dd i) eqn:Hc; [by apply E|].
  apply Hf; [apply in_page_lt; lia|]. intros j Hj Hcj Ee. apply entry_inj in Ee as [_ Ee]; [|lia..]. congruence.
Qed.

Lemma copied_present i : 0 <= i < 1024 -> present (m' (entry (page2kva dd) i)) = to_copy m sd dd i || present (m (entry (page2kva dd) i)).
Proof using Hs Hb Hnl HD.
  intros Hi. rewrite copied_entry by done. destruct (to_copy m sd dd i) eqn:Hc; [|done]. apply present_new. unfold to_copy in Hc. by apply andb_true_iff in Hc as [? _].
Qed.

Lemma copied_table i : 0 <= i < 1024 -> present (m' (entry (page2kva dd) i)) = true ->
  PTE_ADDR (m' (entry (page2kva dd) i)) = page2pa (copy_tbl i) /\ 0 <= copy_tbl i < n' /\ copy_tbl i <> dd /\ (n <= copy_tbl i <-> to_copy m sd dd i = true).
Proof using Hs Hb Hn Hn' Hnl HD Hok Hbl.
  pose proof Hs as [(D1 & D2 & D3) _ _]. intros Hi. rewrite copied_present, copied_entry by done. unfold copy_tbl. destruct (to_copy m sd dd i) eqn:Hc.
  - intros _. destruct (dc_entry _ _ _ _ _ _ _ _ _ _ _ HD i Hi Hc) as [_ HT]. rewrite PTE_new by lia. split_and!; [done|lia|lia|lia|]. split; [done|lia].
  - intros Hp. destruct (do_table _ _ _ Hok i Hi Hp) as (H1 & H2 & H3). destruct Hbl as [_ Hbl']. specialize (Hbl' i Hi Hp).
    split_and!; [done|lia|lia|done|]. split; [lia|done].
Qed.

Lemma copied_dir_ok : dir_ok m' dd copy_tbl.
Proof using Hs Hb Hn Hn' Hnl HD Hok Hbl.
  pose proof Hs as [(D1 & D2 & D3) _ _]. split; [lia|..].
  - intros i Hi Hp. destruct (copied_table i Hi Hp) as (H1 & H2 & H3 & _). split_and!; [done|lia|lia|done].
  - intros i j Hi Hj Hp Hq E. destruct (copied_table i Hi Hp) as (_ & _ & _ & H1), (copied_table j Hj Hq) as (_ & _ & _ & H2).
    rewrite copied_present in Hp, Hq by done. unfold copy_tbl in *. destruct (to_copy m sd dd i) eqn:Hc, (to_copy m sd dd j) eqn:Hc'.
    + destruct (decide (i = j)); [done|]. destruct (dc_tables _ _ _ _ _ _ _ _ _ _ _ HD i j 0 Hi Hj ltac:(lia) Hc Hc') as [H _]. by destruct (H ltac:(done)).
    + rewrite E in H1. exfalso. assert (n <= dtbl j) by (by apply H1). apply H2 in H. done.
    + rewrite <- E in H2. exfalso. assert (n <= dtbl i) by (by apply H2). apply H1 in H. done.
    + by apply (do_inj _ _ _ Hok).
Qed.

Lemma copied_below : below m' dd copy_tbl n'.
Proof using Hs Hb Hn Hn' Hnl HD Hok Hbl. pose proof Hs as [(D1 & D2 & D3) _ _]. split; [lia|]. intros i Hi Hp. destruct (copied_table i Hi Hp) as (_ & H & _). lia. Qed.

Lemma copied_spare i j : 0 <= i < 1024 -> 0 <= j < 1024 -> to_copy m sd dd i = true -> present (m (entry (page2kva (stbl i)) j)) = true -> spare m' dd (F i j).
Proof using Hs Hb Hn Hn' Hnl HD Hok Hbl.
  pose proof Hs as [(D1 & D2 & D3) _ _]. intros Hi Hj Hc Hp. destruct (dc_present _ _ _ _ _ _ _ _ _ _ _ HD i j Hi Hj Hc Hp) as (_ & HF & _).
  apply (spare_dir _ _ _ _ copied_dir_ok). split; [lia|]. intros i' Hi' Hp' E. destruct (copied_table i' Hi' Hp') as (_ & _ & _ & H). rewrite E in H.
  assert (Hc' : to_copy m sd dd i' = true) by (apply H; lia). unfold copy_tbl in E. rewrite Hc' in E.
  by apply (dc_tables _ _ _ _ _ _ _ _ _ _ _ HD i' i j Hi' Hi Hj Hc' Hc).
Qed.
End tables.

(** Directory [dd] of [m'] is a copy of [sd] of [m], but for what [dd]
    mapped before; the copies are in the pages [n, n'). *)
Record space_copied (m m' : Z -> Z) (sd dd n n' : Z) : Prop := {
  sc_copied : exists f,
    (forall la, is_u32 la -> to_copy m sd dd (PDX la) = true ->
      match translate m (page2pa sd) la with
      | Some pa => translate m' (page2pa dd) la = Some (page2pa (f (PGNUM la)) + PGOFF la) /\
          n <= f (PGNUM la) < n' /\ page_copied m m' (pa / 4096) (f (PGNUM la)) /\ spare m' dd (f (PGNUM la))
      | None => translate m' (page2pa dd) la = None
      end) /\
    forall la lb, is_u32 la -> is_u32 lb -> to_copy m sd dd (PDX la) = true -> to_copy m sd dd (PDX lb) = true ->
      translate m (page2pa sd) la <> None -> translate m (page2pa sd) lb <> None ->
      f (PGNUM la) = f (PGNUM lb) -> PGNUM la = PGNUM lb;
  sc_other : forall la, is_u32 la -> to_copy m sd dd (PDX la) = false ->
    translate m' (page2pa dd) la = translate m (page2pa dd) la;
  sc_tables : exists tbl', dir_ok m' dd tbl' /\ below m' dd tbl' n' /\ forall i, 0 <= i < 1024 ->
    present (m' (entry (page2kva dd) i)) = to_copy m sd dd i || present (m (entry (page2kva dd) i));
  sc_frame : forall p o, 0 <= p < n -> p <> dd -> 0 <= o < 1024 -> m' (entry (page2kva p) o) = m (entry (page2kva p) o) }.

Lemma wp_copy_pgdir s n b sd dd stbl dtbl (Q : unit -> mmst -> Prop) J (m := mm_mem s) (c := count_dir m sd dd NPDENTRIES 0) :
  fresh s n -> source_ok m sd dd stbl b 0 -> b <= n -> dir_ok m dd dtbl -> below m dd dtbl n -> n + c + 3 <= npages ->
  (forall s', fresh s' (n + c) -> space_copied m (mm_mem s') sd dd n (n + c) ->
     (forall n0, counted n0 n s -> counted n0 (n + c) s') -> Q tt s') ->
  wp (copy_pgdir (page2kva dd) (page2kva sd)) Q J s.
Proof.
  intros Hf Hs Hb Hd Hbl Hn HQ. pose proof (count_dir_nonneg m sd dd NPDENTRIES 0) as Hnn. fold c in Hnn.
  pose proof Hs as [(D1 & D2 & D3) _ _].
  apply wp_runs. apply (wp_copy_pgdir_loop NPDENTRIES s n b sd dd stbl); [done|done|done|lia|done|done|]. fold m c.
  change (Z.of_nat NPDENTRIES) with 1024. intros s' T F Hf' HD Hrun. apply HQ; [done| |].
  2:{ intros n0 Hc0. pose proof (counts_copy_pgdir (page2kva dd) (page2kva sd) n0 n s Hc0) as HC. unfold copy_pgdir in HC, Hrun. rewrite Hrun in HC.
    destruct HC as [n' HC]. by rewrite (fresh_unique s' (n + c) n') by (done || apply HC). }
  assert (Hsp := copied_spare m (mm_mem s') sd dd stbl b n (n + c) T F dtbl Hs ltac:(lia) ltac:(lia) ltac:(lia) ltac:(lia) HD Hd Hbl).
  split.
  - exists (fun g => F (g / 1024) (g mod 1024)). split.
    + intros la Hla Hc. destruct (PGNUM_parts la Hla) as [-> ->].
      pose proof (dir_copied_translate _ _ _ _ stbl b n (n + c) T F la Hs ltac:(lia) ltac:(lia) HD Hla Hc) as H.
      destruct (translate m (page2pa sd) la) eqn:Etr; [|done]. destruct H as (H1 & H2 & H3). split_and!; [done|lia|lia|done|].
      destruct (PGADDR_split la Hla) as (_ & A1 & A2 & _). apply Hsp; [done..|].
      rewrite (translate_source _ _ _ _ _ _ _ Hs ltac:(lia) Hla ltac:(lia) Hc) in Etr. cbv zeta in Etr. by destruct (present (m (entry (page2kva (stbl (PDX la))) (PTX la)))).
    + intros la lb Hla Hlb Hca Hcb Ha Hb'. destruct (PGNUM_parts la Hla) as [-> ->], (PGNUM_parts lb Hlb) as [-> ->].
      destruct (PGADDR_split la Hla) as (_ & A1 & A2 & _), (PGADDR_split lb Hlb) as (_ & B1 & B2 & _). intros E.
      apply same_page; [done|done|].
      rewrite (translate_source _ _ _ _ _ _ _ Hs ltac:(lia) Hla ltac:(lia) Hca) in Ha.
      rewrite (translate_source _ _ _ _ _ _ _ Hs ltac:(lia) Hlb ltac:(lia) Hcb) in Hb'. cbv zeta in Ha, Hb'.
      destruct HD as [_ _ _ Hinj _ _]. apply Hinj; try done;
        [by destruct (present (m (entry (page2kva (stbl (PDX la))) (PTX la))))|by destruct (present (m (entry (page2kva (stbl (PDX lb))) (PTX lb))))].
  - intros la Hla Hc. apply (dir_copied_other m _ sd dd stbl b n (n + c) T F dtbl); done || lia.
  - exists (copy_tbl m sd dd T dtbl). split_and!.
    + by apply (copied_dir_ok m (mm_mem s') sd dd stbl b n (n + c) T F); try lia.
    + by apply (copied_below m (mm_mem s') sd dd stbl b n (n + c) T F); try lia.
    + intros i Hi. by apply (copied_present m (mm_mem s') sd dd stbl b n (n + c) T F); try lia.
  - intros p o Hp Hne Ho. destruct HD as [_ _ _ _ _ Hfr]. apply Hfr; [apply in_page_lt; lia|].
    intros i Hi _ E. apply entry_inj in E; lia.
Qed.

(** C33: [copy_pgdir] on a machine whose free pages have not been used yet:
    an address whose directory entry only the parent had is mapped in the
    child exactly if it is in the parent, to a new frame of its own with the
    same contents; the child's other addresses, and every old page but the
    child's directory, are as before. *)
Theorem copy_pgdir_correct s n b sd dd stbl dtbl (m := mm_mem s) (c := count_dir m sd dd NPDENTRIES 0) :
  fresh s n -> source_ok m sd dd stbl b 0 -> b <= n -> dir_ok m dd dtbl -> below m dd dtbl n -> n + c + 3 <= npages ->
  wp (copy_pgdir (page2kva dd) (page2kva sd))
    (fun _ s' => fresh s' (n + c) /\ space_copied m (mm_mem s') sd dd n (n + c)) (fun _ => False) s.
Proof. intros. eapply wp_copy_pgdir; eauto. Qed.

(** The child 0x501 of a process with directory 0x500, whose only table
    0x502 maps 0x8048000 to frame 0x503. *)
Definition demo_fork : mmst :=
  with_mem (<[entry (page2kva 0x503) 7 := 42]> (<[entry (page2kva 0x502) 0x48 := 0x503007]>
    (<[entry (page2kva 0x500) 32 := 0x502007]> (fun _ => 0)))) (demo_mm 0x504).

Lemma demo_fork_read p o :
  0 <= p < npages -> 0 <= o < 1024 ->
  mm_mem demo_fork (entry (page2kva p) o) =
    if decide (p = 0x503 /\ o = 7) then 42 else if decide (p = 0x502 /\ o = 0x48) then 0x503007
    else if decide (p = 0x500 /\ o = 32) then 0x502007 else 0.
Proof.
  intros Hp Ho. unfold demo_fork. cbn [mm_mem with_mem].
  repeat case_decide; destruct_and?; subst; try (by rewrite ?fn_lookup_insert);
  rewrite ?fn_lookup_insert_ne; try (by rewrite ?fn_lookup_insert); try done;
  intros E; apply entry_inj in E; unfold npages; lia || naive_solver.
Qed.

Lemma demo_fork_copy i : 0 <= i < 1024 -> to_copy (mm_mem demo_fork) 0x500 0x501 i = bool_decide (i = 32).
Proof.
  intros Hi. unfold to_copy. rewrite !demo_fork_read by (unfold npages; lia).
  repeat case_decide; destruct_and?; try lia; case_bool_decide; try done; naive_solver.
Qed.

Lemma copy_pgdir_correct_witness (m := mm_mem demo_fork) :
  wp (copy_pgdir (page2kva 0x501) (page2kva 0x500))
    (fun _ s' => fresh s' (0x504 + 2) /\ space_copied m (mm_mem s') 0x500 0x501 0x504 (0x504 + 2)) (fun _ => False) demo_fork.
Proof.
  assert (count_dir m 0x500 0x501 NPDENTRIES 0 = 2) as <- by (vm_compute; reflexivity).
  apply (copy_pgdir_correct demo_fork 0x504 0x504 0x500 0x501 (fun _ => 0x502) (fun _ => 0)).
  - eapply fresh_ext; [apply (demo_fresh 0x504); unfold npages; lia|reflexivity|reflexivity].
  - split; [lia|..].
    + intros i Hi. rewrite demo_fork_copy by lia. intros Hc. apply bool_decide_eq_true in Hc as ->.
      split; [reflexivity|]. split; [lia|]. split; [lia|]. intros j Hj. rewrite !demo_fork_read by (unfold npages; lia).
      repeat case_decide; destruct_and?; try lia; [|discriminate]. intros _. exists 0x503. split; [reflexivity|lia].
    + intros i j Hi Hj _. rewrite demo_fork_read by (unfold npages; lia).
      repeat case_decide; destruct_and?; discriminate || lia.
  - lia.
  - split; [unfold npages; lia|..]; intros i; intros; exfalso; revert select (present _ = true);
      rewrite !demo_fork_read by (unfold npages; lia); repeat case_decide; destruct_and?; discriminate || lia.
  - split; [lia|]. intros i Hi. rewrite demo_fork_read by (unfold npages; lia).
    repeat case_decide; destruct_and?; discriminate || lia.
  - vm_compute. discriminate.
Defined.
