(* ===== verification/Remap.v ===== *)
(** * Mapping over an address space that is in use

    [exec] loads a program into the address space of the process that calls
    it, which [fork] has filled: [mm_alloc] then meets pages that are mapped.
    Each of them is replaced, its frame goes back to the free list and may be
    the next one handed out.  What holds is that no frame is lost, none is
    used twice, and the TLB follows. *)

From S2P Require Import Prelude Pmap PmapSpec PmapProofs PmapAlloc PmapBoot PmapProps.

(** ** One page *)

Section insert.
Context (dp : Z) (tbl : Z -> Z) (va pp perm : Z).
Let a := entry (page2kva (tbl (PDX va))) (PTX va).
Let v := Z.lor (Z.lor (page2pa pp) perm) PTE_P.

(** [page_insert] where the page table is there, exactly. *)
Lemma wp_insert_tabled l s old (Q : Z -> mmst -> Prop) J :
  dir_ok (mm_mem s) dp tbl -> is_u32 va -> present (mm_mem s (entry (page2kva dp) (PDX va))) = true -> free_list s l ->
  0 <= pp < npages -> translate (mm_mem s) (page2pa dp) va = ((fun q => page2pa q + PGOFF va) <$> old) ->
  (forall q, old = Some q -> 0 <= q < npages /\ (q ∉ l) /\ q <> pp) ->
  (forall s', (forall b, mm_mem s' b = if decide (b = a) then v else mm_mem s b) ->
     mm_tlb s' = match old with Some _ => <[PGNUM va := None]> (mm_tlb s) | None => mm_tlb s end ->
     mm_ref s' = <[pp := u16 (mm_ref s pp + 1)]> match old with Some q => <[q := u16 (mm_ref s q - 1)]> (mm_ref s) | None => mm_ref s end ->
     mm_kern_pgdir s' = mm_kern_pgdir s -> free_list s' match old with Some q => if u16 (mm_ref s q - 1) =? 0 then q :: l else l | None => l end -> Q 0 s') ->
  wp (page_insert (page2kva dp) (Some pp) va perm) Q J s.
Proof.
  intros Hok Hva Hp Hf Hpp Htr Hold HQ. destruct (PGADDR_split va Hva) as (_ & Hd & Hx & _). pose proof (do_dp _ _ _ Hok) as Hdp.
  destruct (do_table _ _ _ Hok _ Hd Hp) as (_ & Ht & _). assert (Hm : mapped a 4 = true) by (by apply entry_mapped).
  unfold page_insert. apply wp_bind. eapply wp_pgdir_walk_present; [done..|]. apply wp_bind, wp_ret. fold a. apply wp_bind, wp_load; [done|].
  rewrite (translate_eq _ _ _ _ Hok Hva), Hp in Htr. cbn zeta in Htr. fold a in Htr. destruct (present (mm_mem s a)) eqn:Hpe.
  - destruct old as [q|]; [|done]. destruct (Hold q eq_refl) as (Hq & Hql & Hqp).
    assert (Eq : pa2page (PTE_ADDR (mm_mem s a)) = q).
    { injection Htr as Htr. apply page2pa_inj. rewrite PTE_ADDR_page. lia. }
    rewrite <- PTE_ADDR_page, Eq. destruct (Z.eqb_spec (page2pa q) (page2pa pp)) as [E|_]; [by apply page2pa_inj in E|].
    apply wp_bind. apply (wp_page_remove_raw dp tbl va s l); fold a; rewrite ?Eq; [done..|]. intros s1 Hm1 Ht1 Hr1 Hk1 Hf1.
    apply wp_bind, wp_store; [done|]. apply wp_bind, wp_incr_ref; [done|]. apply wp_ret. apply HQ; cbn [mm_mem mm_tlb mm_ref with_mem with_ref].
    + intros b. case_decide as E; [rewrite E; by rewrite fn_lookup_insert|]. by rewrite fn_lookup_insert_ne, Hm1, fn_lookup_insert_ne.
    + done.
    + by rewrite Hr1, fn_lookup_insert_ne by done.
    + done.
    + done.
  - destruct old as [q|]; [done|]. apply wp_bind, wp_ret. apply wp_bind, wp_store; [done|]. apply wp_bind, wp_incr_ref; [done|]. apply wp_ret.
    apply HQ; cbn [mm_mem mm_tlb mm_ref with_mem with_ref]; [|done..].
    intros b. case_decide as E; [rewrite E; by rewrite fn_lookup_insert|by rewrite fn_lookup_insert_ne].
Qed.
End insert.

(** ** The frames of an address space *)

(** The frame page [g] of directory [dp] is mapped to. *)
Definition frame_at (m : Z -> Z) (dp g : Z) : option Z := pa2page <$> translate m (page2pa dp) (g * 4096).

(** The pages [R] of the directory [dp], with free list [l]: each is unmapped
    or has a frame of its own, referenced once and not free. *)
Record space_ok (s : mmst) (dp : Z) (tbl : Z -> Z) (R : Z -> Prop) (l : list Z) : Prop := {
  sp_dir : dir_ok (mm_mem s) dp tbl;
  sp_range : forall g, R g -> 0 <= g < 2 ^ 20;
  sp_tabled : forall g, R g -> present (mm_mem s (entry (page2kva dp) (PDX (g * 4096)))) = true;
  sp_free : free_list s l;
  sp_ref : forall p, p ∈ l -> mm_ref s p = 0;
  sp_own : forall g q, R g -> frame_at (mm_mem s) dp g = Some q -> 0 <= q < npages /\ (q ∉ l) /\ mm_ref s q = 1;
  sp_inj : forall g h q, R g -> R h -> frame_at (mm_mem s) dp g = Some q -> frame_at (mm_mem s) dp h = Some q -> g = h;
  sp_tlb : coherent s dp }.

Lemma page_u32 g : 0 <= g < 2 ^ 20 -> is_u32 (g * 4096) /\ PGNUM (g * 4096) = g /\ PGOFF (g * 4096) = 0.
Proof.
  intros Hg. assert (H : is_u32 (g * 4096)) by (unfold is_u32; lia). split; [done|]. rewrite PGNUM_eq, PGOFF_eq by done.
  change (2 ^ 12) with 4096. split; [apply Z.div_mul; lia|apply Z.mod_mul; lia].
Qed.

Lemma frame_translate m dp tbl g la : dir_ok m dp tbl -> 0 <= g < 2 ^ 20 -> is_u32 la -> PGNUM la = g ->
  translate m (page2pa dp) la = ((fun q => page2pa q + PGOFF la) <$> frame_at m dp g).
Proof.
  intros Hok Hg Hla E. destruct (page_u32 g Hg) as (Hu & Hn & Ho). unfold frame_at.
  assert (Hs : PDX la = PDX (g * 4096) /\ PTX la = PTX (g * 4096)) by (apply same_page; [done|done|by rewrite Hn]).
  destruct Hs as [E1 E2]. rewrite !(translate_eq _ _ _ _ Hok) by done. rewrite E1, E2, Ho. destruct (present _); [|done]. cbn zeta.
  destruct (present _); [|done]. cbn. rewrite Z.add_0_r, PTE_ADDR_page. done.
Qed.

Lemma frame_at_eq m m' dp g : translate m' (page2pa dp) (g * 4096) = translate m (page2pa dp) (g * 4096) -> frame_at m' dp g = frame_at m dp g.
Proof. unfold frame_at. by intros ->. Qed.

Lemma translate_ext m m' cr3 la : (forall b, m' b = m b) -> translate m' cr3 la = translate m cr3 la.
Proof. intros E. unfold translate. cbn zeta. by rewrite !E. Qed.
Lemma dir_ok_ext m m' dp tbl : (forall b, m' b = m b) -> dir_ok m dp tbl -> dir_ok m' dp tbl.
Proof. intros E [H1 H2 H3]. split; [done|..]; setoid_rewrite E; done. Qed.

Section page.
Context (s : mmst) (dp : Z) (tbl : Z -> Z) (R : Z -> Prop) (p : Z) (l : list Z) (g : Z).
Context (HS : space_ok s dp tbl R (p :: l)) (Hg : R g).
Let old := frame_at (mm_mem s) dp g.
Let l' := match old with Some q => q :: l | None => l end.

(** The state after page [g] was given the frame [p]. *)
Record remapped (s' : mmst) : Prop := {
  rp_space : space_ok s' dp tbl R l';
  rp_frame : forall h, 0 <= h < 2 ^ 20 -> frame_at (mm_mem s') dp h = if decide (h = g) then Some p else frame_at (mm_mem s) dp h;
  rp_other : forall la, is_u32 la -> PGNUM la <> g -> translate (mm_mem s') (page2pa dp) la = translate (mm_mem s) (page2pa dp) la;
  rp_mem : forall q o, 0 <= q < npages -> 0 <= o < 1024 -> q <> tbl (PDX (g * 4096)) -> mm_mem s' (entry (page2kva q) o) = mm_mem s (entry (page2kva q) o);
  rp_ref : forall x, x <> p -> old <> Some x -> mm_ref s' x = mm_ref s x }.

Lemma remapped_intro s' (va := g * 4096) (e := entry (page2kva (tbl (PDX va))) (PTX va)) :
  (forall b, mm_mem s' b = if decide (b = e) then Z.lor (Z.lor (page2pa p) 7) PTE_P else mm_mem s b) ->
  mm_tlb s' = match old with Some _ => <[PGNUM va := None]> (mm_tlb s) | None => mm_tlb s end ->
  mm_ref s' = <[p := 1]> match old with Some q => <[q := 0]> (mm_ref s) | None => mm_ref s end ->
  free_list s' l' -> remapped s'.
Proof using HS Hg.
  intros Hm Ht Hr Hf. destruct HS as [S1 Sr S2 S3 S4 S5 S6 S7]. pose proof (Sr g Hg) as Hgr. destruct (page_u32 g Hgr) as (Hu & Hn & Ho). fold va in Hu, Hn, Ho.
  pose proof (free_list_range _ _ p S3 ltac:(left)) as Hp. destruct S3 as [_ Hnd]. apply NoDup_cons in Hnd as [Hpl Hnd].
  assert (Hold : forall q, old = Some q -> 0 <= q < npages /\ q <> p /\ (q ∉ l) /\ mm_ref s q = 1).
  { intros q Hq. destruct (S5 g q Hg Hq) as (H1 & H2 & H3). apply not_elem_of_cons in H2 as [H2 H4]. done. }
  pose proof (S2 g Hg) as Hpres. fold va in Hpres. destruct (set_entry s (mm_mem s) dp tbl va p 7) as (G1 & G2 & G3); [done|done|done|done|lia|done|].
  fold e in G1, G2, G3. set (m' := <[e := _]> (mm_mem s)) in *.
  assert (E : forall x, mm_mem s' x = m' x).
  { intros x. rewrite Hm. unfold m'. case_decide as Ex; [by rewrite Ex, fn_lookup_insert|by rewrite fn_lookup_insert_ne]. }
  assert (Hother : forall la, is_u32 la -> PGNUM la <> g -> translate (mm_mem s') (page2pa dp) la = translate (mm_mem s) (page2pa dp) la).
  { intros la Hla Hne. rewrite (translate_ext _ _ _ _ E), G3 by done. rewrite decide_False; [done|]. by rewrite Hn. }
  assert (Hhere : forall la, is_u32 la -> PGNUM la = g -> translate (mm_mem s') (page2pa dp) la = Some (page2pa p + PGOFF la)).
  { intros la Hla He. rewrite (translate_ext _ _ _ _ E), G3 by done. rewrite decide_True; [done|]. by rewrite Hn. }
  assert (Hfr : forall h, 0 <= h < 2 ^ 20 -> frame_at (mm_mem s') dp h = if decide (h = g) then Some p else frame_at (mm_mem s) dp h).
  { intros h Hh. destruct (page_u32 h Hh) as (Hu' & Hn' & Ho'). case_decide as Eh.
    - unfold frame_at. rewrite Hhere by congruence. rewrite Ho', Z.add_0_r. cbn. f_equal. apply page2pa_inj. unfold pa2page.
      f_equal. rewrite <- (Z.add_0_r (page2pa p)). apply PGNUM_page2pa. lia.
    - apply frame_at_eq, Hother; congruence. }
  assert (Hrefp : mm_ref s' p = 1) by (by rewrite Hr, fn_lookup_insert).
  assert (Hrefo : forall x, x <> p -> old <> Some x -> mm_ref s' x = mm_ref s x).
  { intros x Hx Hox. rewrite Hr, fn_lookup_insert_ne by congruence. destruct old as [q|]; [|done]. rewrite fn_lookup_insert_ne; congruence. }
  assert (Hrefq : forall q, old = Some q -> mm_ref s' q = 0).
  { intros q Hq. destruct (Hold q Hq) as (_ & Hqp & _). rewrite Hr, fn_lookup_insert_ne, Hq, fn_lookup_insert by congruence. done. }
  assert (Hl' : forall x, x ∈ l' -> x <> p /\ (x ∈ l \/ old = Some x)).
  { intros x Hx. unfold l' in Hx. destruct old as [q|] eqn:Eo.
    - apply elem_of_cons in Hx as [->|Hx]; [split; [by apply (Hold q)|by right]|]. split; [intros ->; done|by left].
    - split; [intros ->; done|by left]. }
  split; [|done|done| |done].
  2:{ intros q o Hq Hoo Hne. rewrite E. unfold m'. rewrite fn_lookup_insert_ne; [done|]. intros He. apply Hne.
      destruct (PGADDR_split va Hu) as (_ & Hd & Hx & _). destruct (do_table _ _ _ S1 _ Hd Hpres) as (_ & Htb & _).
      unfold e in He. apply entry_inj in He as [He _]; [by symmetry|done..]. }
  split.
  - by apply (dir_ok_ext m').
  - done.
  - intros h Hh. rewrite E. unfold m'. destruct (page_u32 h (Sr h Hh)) as (Hu' & _). destruct (PGADDR_split _ Hu') as (_ & Hd' & _).
    destruct (PGADDR_split va Hu) as (_ & Hd & Hx & _). destruct (do_table _ _ _ S1 _ Hd Hpres) as (_ & Htb & Hne).
    rewrite fn_lookup_insert_ne; [by apply S2|]. unfold e. intros He. apply entry_inj in He as [He _]; [by apply Hne|done|apply S1|done|done].
  - done.
  - intros x Hx. destruct (Hl' x Hx) as [Hxp [Hxl|Hxo]]; [|by apply Hrefq]. destruct (decide (old = Some x)) as [Eo|Eo]; [by apply Hrefq|].
    rewrite Hrefo by done. apply S4. by right.
  - intros h q Hh. rewrite Hfr by (by apply Sr). case_decide as Eh.
    + intros [= <-]. split_and!; [lia|lia| |done]. intros Hin. by destruct (Hl' p Hin).
    + intros Hq. destruct (S5 h q Hh Hq) as (H1 & H2 & H3). apply not_elem_of_cons in H2 as [H2 H4].
      assert (Ho' : old <> Some q) by (intros Ho'; apply Eh; by apply (S6 h g q)).
      split_and!; [lia|lia| |by rewrite Hrefo]. intros Hin. by destruct (Hl' q Hin) as [_ [?|?]].
  - intros h1 h2 q Hh1 Hh2. rewrite !Hfr by (by apply Sr).
    assert (Hnp : forall h, R h -> frame_at (mm_mem s) dp h <> Some p) by (intros h Hh Hf'; destruct (S5 h p Hh Hf') as (_ & Hn' & _); apply Hn'; left).
    destruct (decide (h1 = g)), (decide (h2 = g)); intros H1 H2;
      [congruence|exfalso; apply (Hnp h2); congruence|exfalso; apply (Hnp h1); congruence|by apply (S6 h1 h2 q)].
  - apply (coherent_changed s s' dp va S7 Hu); [intros la Hla Hne; apply Hother; [done|congruence]|].
    destruct old as [q|] eqn:Eo; [by left|right]. split; [done|]. intros la fr Hla Hpg Htr. exfalso.
    rewrite (frame_translate _ _ tbl g) in Htr by (done || lia). fold old in Htr. by rewrite Eo in Htr.
Qed.
End page.

(** ** The loop *)

Section loop.
Context (dp : Z) (tbl : Z -> Z) (R : Z -> Prop).

(** The frames that are free or mapped in the pages [R]. *)
Definition pool (s : mmst) (l : list Z) (x : Z) : Prop := x ∈ l \/ exists h, R h /\ frame_at (mm_mem s) dp h = Some x.

(** From [s] with free list [l] to [s'] with [l'], where the [n] pages from
    [g] on have been mapped. *)
Record run (s s' : mmst) (l l' : list Z) (g n : Z) : Prop := {
  ru_space : space_ok s' dp tbl R l';
  ru_mapped : forall h, g <= h < g + n -> is_Some (frame_at (mm_mem s') dp h);
  ru_other : forall la, is_u32 la -> ~ g <= PGNUM la < g + n -> translate (mm_mem s') (page2pa dp) la = translate (mm_mem s) (page2pa dp) la;
  ru_mem : forall q o, 0 <= q < npages -> 0 <= o < 1024 -> (forall h, g <= h < g + n -> q <> tbl (PDX (h * 4096))) ->
    mm_mem s' (entry (page2kva q) o) = mm_mem s (entry (page2kva q) o);
  ru_pool : forall x, pool s' l' x <-> pool s l x;
  ru_ref : forall x, ~ pool s l x -> mm_ref s' x = mm_ref s x;
  ru_len : Z.of_nat (length l) <= Z.of_nat (length l') + n;
  ru_kern : mm_kern_pgdir s' = mm_kern_pgdir s }.

Lemma run_nil s l g : space_ok s dp tbl R l -> run s s l l g 0.
Proof. intros HS. split; try done; [intros h Hh; lia|lia]. Qed.

Lemma remapped_pool s p l g s' (l' := match frame_at (mm_mem s) dp g with Some q => q :: l | None => l end) x :
  (forall h, R h -> 0 <= h < 2 ^ 20) -> R g -> remapped s dp tbl R p l g s' -> pool s' l' x <-> pool s (p :: l) x.
Proof.
  intros HR Hg [R1 R2 _ _ _]. unfold pool. split.
  - intros [Hx|(h & Hh & Hx)].
    + unfold l' in Hx. destruct (frame_at (mm_mem s) dp g) as [q|] eqn:E; [|by left; right]. apply elem_of_cons in Hx as [->|Hx]; [right; by exists g|by left; right].
    + rewrite R2 in Hx by auto. case_decide; [injection Hx as <-; left; left|right; by exists h].
  - intros [Hx|(h & Hh & Hx)].
    + apply elem_of_cons in Hx as [->|Hx]; [right; exists g; split; [done|]; rewrite R2 by auto; by rewrite decide_True|]. left. unfold l'.
      destruct (frame_at (mm_mem s) dp g); [by right|done].
    + destruct (decide (h = g)) as [->|Hne]; [left; unfold l'; rewrite Hx; left|]. right. exists h. split; [done|]. rewrite R2 by auto. by rewrite decide_False.
Qed.

Lemma run_step s s1 s' p l l1 l' g n : 0 <= n -> R g -> space_ok s dp tbl R (p :: l) -> remapped s dp tbl R p l g s1 ->
  l1 = match frame_at (mm_mem s) dp g with Some q => q :: l | None => l end ->
  mm_kern_pgdir s1 = mm_kern_pgdir s -> run s1 s' l1 l' (g + 1) n -> run s s' (p :: l) l' g (n + 1).
Proof.
  intros Hn Hg HS HR -> Hk HU. pose proof (sp_range _ _ _ _ _ HS) as Hr. pose proof (Hr g Hg) as Hgr.
  pose proof (fun x => remapped_pool s p l g s1 x Hr Hg HR) as HP. destruct HR as [R1 R2 R3 R4 R5], HU as [U1 U2 U3 U4 U5 U6 U7 U8].
  split; [done| | | | | | |congruence].
  - intros h Hh. destruct (decide (h = g)) as [->|Hne]; [|apply U2; lia]. destruct (page_u32 g ltac:(lia)) as (Hu & Hpn & _).
    rewrite (frame_at_eq (mm_mem s1)) by (apply U3; [done|lia]). rewrite R2 by lia. by rewrite decide_True.
  - intros la Hla Hout. rewrite U3 by (done || lia). apply R3; [done|lia].
  - intros q o Hq Ho Hne. rewrite U4 by (try done; intros h Hh; apply Hne; lia). apply R4; [done|done|apply Hne; lia].
  - intros x. by rewrite U5, HP.
  - intros x Hx. rewrite U6 by (by rewrite HP). apply R5.
    + intros ->. apply Hx. left. left.
    + intros Ho. apply Hx. right. by exists g.
  - destruct (frame_at (mm_mem s) dp g); cbn [length] in *; lia.
Qed.

(** The pages of a range that are not mapped. *)
Fixpoint missing (m : Z -> Z) (n : nat) (g : Z) : nat :=
  match n with
  | O => 0
  | S n => (match frame_at m dp g with Some _ => 0 | None => 1 end) + missing m n (g + 1)
  end.

Lemma missing_ext m m' n g : (forall h, g <= h < g + Z.of_nat n -> frame_at m' dp h = frame_at m dp h) -> missing m' n g = missing m n g.
Proof.
  revert g. induction n as [|n IH]; intros g E; [done|]. cbn [missing]. rewrite E by lia. f_equal. apply IH. intros h Hh. apply E. lia.
Qed.

Lemma wp_remap_loop k : forall fuel s l g (Q : unit -> mmst -> Prop) J, (k < fuel)%nat -> 0 <= g -> g + Z.of_nat k < 2 ^ 20 -> (forall h, g <= h < g + Z.of_nat k -> R h) -> space_ok s dp tbl R l ->
  k = 0%nat \/ (missing (mm_mem s) k g < length l)%nat -> (forall s' l', run s s' l l' g (Z.of_nat k) -> Q tt s') ->
  wp (mm_alloc_loop fuel (page2kva dp) (g * 4096) ((g + Z.of_nat k) * 4096)) Q J s.
Proof.
  induction k as [|k IH]; intros [|fuel] s l g Q J Hfu Hg Hk HR HS Hl HQ; try lia; cbn [mm_alloc_loop].
  - rewrite (proj2 (Z.ltb_ge _ _)) by lia. apply wp_ret. apply (HQ s l). by apply run_nil.
  - rewrite (proj2 (Z.ltb_lt _ _)) by lia. destruct Hl as [Hl|Hl]; [done|]. destruct l as [|p l]; [simpl in Hl; lia|]. cbn [missing length] in Hl.
    destruct (page_u32 g ltac:(lia)) as (Hu & Hpn & Hpo). assert (Hgr : R g) by (apply HR; lia). pose proof (sp_free _ _ _ _ _ HS) as Hf. pose proof (free_list_range _ _ p Hf ltac:(left)) as Hp.
    pose proof (proj2 Hf) as Hnd. apply NoDup_cons in Hnd as [Hpl _].
    assert (Hown : forall q, frame_at (mm_mem s) dp g = Some q -> 0 <= q < npages /\ (q ∉ l) /\ q <> p /\ mm_ref s q = 1).
    { intros q Hq. destruct (sp_own _ _ _ _ _ HS g q Hgr Hq) as (H1 & H2 & H3). apply not_elem_of_cons in H2 as [? ?]. done. }
    apply wp_bind. eapply wp_page_alloc; [exact Hf|]. pose proof (free_list_taken _ _ _ Hf) as Hf1. set (s1 := taken p s) in *.
    apply wp_bind. apply (wp_insert_tabled dp tbl (g * 4096) p 7 l s1 (frame_at (mm_mem s) dp g)); [apply HS|done|by apply HS|done|done| | |].
    { change (mm_mem s1) with (mm_mem s). by rewrite (frame_translate _ _ tbl g) by (done || lia || apply HS). }
    { intros q Hq. destruct (Hown q Hq) as (? & ? & ? & _). done. }
    change (mm_mem s1) with (mm_mem s). change (mm_ref s1) with (mm_ref s). change (mm_tlb s1) with (mm_tlb s).
    assert (Hrp : u16 (mm_ref s p + 1) = 1) by (rewrite (sp_ref _ _ _ _ _ HS p) by left; done). rewrite Hrp.
    intros s2 Hm Ht Hr Hk2 Hf2. assert (HP : remapped s dp tbl R p l g s2).
    { apply remapped_intro; [done|done|exact Hm|exact Ht| |].
      - destruct (frame_at (mm_mem s) dp g) as [q|] eqn:E; [|done]. rewrite Hr. by rewrite (proj2 (proj2 (proj2 (Hown q eq_refl)))).
      - destruct (frame_at (mm_mem s) dp g) as [q|] eqn:E; [|done]. by rewrite (proj2 (proj2 (proj2 (Hown q eq_refl)))) in Hf2. }
    assert (Hnx : u32 (g * 4096 + PGSIZE) = (g + 1) * 4096) by (unfold PGSIZE; rewrite u32_id by (unfold is_u32; lia); lia).
    rewrite Hnx. replace (g + Z.of_nat (S k)) with (g + 1 + Z.of_nat k) by lia.
    eapply (IH fuel s2 _ (g + 1)); [lia|lia|lia|intros h Hh; apply HR; lia|exact (rp_space _ _ _ _ _ _ _ _ HP)| |].
    + right. rewrite (missing_ext (mm_mem s)).
      * destruct (frame_at (mm_mem s) dp g); cbn [length]; lia.
      * intros h Hh. rewrite (rp_frame _ _ _ _ _ _ _ _ HP) by lia. rewrite decide_False by lia. done.
    + intros s' l' HU. apply (HQ s' l'). replace (Z.of_nat (S k)) with (Z.of_nat k + 1) by lia. eapply run_step; [lia|exact Hgr|exact HS|exact HP|done|exact Hk2|exact HU].
Qed.
End loop.

(** ** [mm_alloc] *)

Lemma wp_mm_alloc_used dp tbl R va len s l (g := va / 4096) (n := (ROUNDUP (va + len) PGSIZE - ROUNDDOWN va PGSIZE) / PGSIZE) (Q : unit -> mmst -> Prop) J :
  is_u32 va -> 0 < len -> va + len + 2 * PGSIZE <= 2 ^ 32 -> (forall h, g <= h < g + n -> R h) -> space_ok s dp tbl R l ->
  (missing dp (mm_mem s) (Z.to_nat n) g < length l)%nat ->
  (forall s' l', run dp tbl R s s' l l' g n -> Q tt s') -> wp (mm_alloc (page2kva dp) va len) Q J s.
Proof.
  intros Hva Hlen Hend HR HS Hm HQ. unfold is_u32, PGSIZE in *.
  destruct (ROUNDDOWN_spec va 4096 ltac:(lia)) as [Hlo1 Hlo2]. destruct (ROUNDUP_spec (va + len) 4096) as [Hhi1 Hhi2]; [lia..|].
  assert (Elo : ROUNDDOWN va 4096 = g * 4096).
  { unfold ROUNDDOWN, g. pose proof (Z.div_mod va 4096 ltac:(lia)). lia. }
  assert (Hd : (ROUNDUP (va + len) 4096 - ROUNDDOWN va 4096) mod 4096 = 0) by (by rewrite Zminus_mod, Hhi1, Hlo1).
  assert (Ehi : ROUNDUP (va + len) 4096 = (g + n) * 4096).
  { unfold n. pose proof (Z.div_mod (ROUNDUP (va + len) 4096 - ROUNDDOWN va 4096) 4096 ltac:(lia)). lia. }
  assert (Hn : 0 <= n) by lia. unfold mm_alloc, PGSIZE. rewrite (u32_id (va + len)) by (unfold is_u32; lia).
  assert (En : n = Z.of_nat (Z.to_nat n)) by lia.
  assert (Hfuel : (Z.to_nat n < mm_alloc_fuel (ROUNDDOWN va 4096) (ROUNDUP (va + len) 4096))%nat).
  { unfold mm_alloc_fuel. change PGSIZE with 4096. fold n. lia. }
  revert Hfuel. generalize (mm_alloc_fuel (ROUNDDOWN va 4096) (ROUNDUP (va + len) 4096)). intros fuel Hfuel. rewrite Elo, Ehi, En.
  assert (Hg0 : 0 <= g) by (unfold g; apply Z.div_pos; lia).
  eapply (wp_remap_loop dp tbl R); [exact Hfuel|lia|lia|intros h Hh; apply HR; lia|exact HS|by right|].
  intros s' l' HU. apply (HQ s' l'). by rewrite En.
Qed.

(** C32: [mm_alloc] in an address space that is in use, with the page tables of
    the range there: every page that meets [va, va+len) is mapped, whether it
    was before or not, and no other address is affected.  Frames that were
    replaced are free again or have been handed out again: the frames that
    are free or mapped are the same before and after, none is both, none is
    mapped twice, each mapped one has one reference and each free one none.
    No memory changes but the page tables, and the TLB agrees with them. *)
Theorem mm_alloc_remap dp tbl R va len s l (g := va / 4096) (n := (ROUNDUP (va + len) PGSIZE - ROUNDDOWN va PGSIZE) / PGSIZE) :
  is_u32 va -> 0 < len -> va + len + 2 * PGSIZE <= 2 ^ 32 -> (forall h, g <= h < g + n -> R h) -> space_ok s dp tbl R l ->
  (missing dp (mm_mem s) (Z.to_nat n) g < length l)%nat ->
  wp (mm_alloc (page2kva dp) va len) (fun _ s' => exists l', run dp tbl R s s' l l' g n) (fun _ => False) s.
Proof. intros. eapply wp_mm_alloc_used; eauto. Qed.

(** The page at 0x8048000 is mapped, the next one is not; [mm_alloc] of a
    range that meets both. *)
Definition demo_used : mmst := with_ref (<[0x502 := 1]> (fun _ => 0)) (demo_mapped 0x502007).

Lemma demo_used_ok : space_ok demo_used 0x500 (fun _ => 0x501) (fun g => 0x8048 <= g < 0x804a) (seqZ 0x503 (npages - 0x503)).
Proof.
  assert (E8 : frame_at (mm_mem demo_used) 0x500 0x8048 = Some 0x502) by (vm_compute; reflexivity).
  assert (E9 : frame_at (mm_mem demo_used) 0x500 0x8049 = None) by (vm_compute; reflexivity).
  assert (Hg : forall g, 0x8048 <= g < 0x804a -> g = 0x8048 \/ g = 0x8049) by lia.
  split.
  - apply demo_mapped_ok.
  - lia.
  - intros g [->| ->]%Hg; vm_compute; reflexivity.
  - apply demo_mapped_free.
  - intros p Hp. apply elem_of_seqZ in Hp. cbn [demo_used mm_ref with_ref]. by rewrite fn_lookup_insert_ne by lia.
  - intros g q [->| ->]%Hg; [rewrite E8; intros [= <-]|by rewrite E9]. split; [unfold npages; lia|]. split; [apply demo_not_free; lia|reflexivity].
  - intros g h q [->| ->]%Hg [->| ->]%Hg; rewrite ?E8, ?E9; done.
  - by intros la fr _ [=].
Qed.

Lemma mm_alloc_remap_witness :
  wp (mm_alloc (page2kva 0x500) 0x8048010 0x1000) (fun _ s' => exists l',
    run 0x500 (fun _ => 0x501) (fun g => 0x8048 <= g < 0x804a) demo_used s' (seqZ 0x503 (npages - 0x503)) l' 0x8048 2) (fun _ => False) demo_used.
Proof.
  apply (mm_alloc_remap 0x500 (fun _ => 0x501) (fun g => 0x8048 <= g < 0x804a) 0x8048010 0x1000 demo_used).
  - unfold is_u32. lia.
  - lia.
  - unfold PGSIZE. lia.
  - change ((ROUNDUP (0x8048010 + 0x1000) PGSIZE - ROUNDDOWN 0x8048010 PGSIZE) / PGSIZE) with 2. change (0x8048010 / 4096) with 0x8048. lia.
  - apply demo_used_ok.
  - rewrite length_seqZ. assert (E : missing 0x500 (mm_mem demo_used) 2 0x8048 = 1%nat) by (vm_compute; reflexivity).
    change (missing 0x500 (mm_mem demo_used) 2 0x8048 < Z.to_nat (npages - 0x503))%nat. rewrite E. unfold npages. lia.
Defined.
