(* ===== verification/Printk.v ===== *)
(** * Formatted output

    Models [vfprintf] and [printp] of [lib/printk.c], which [printf] and
    [printk] call with [sys_printch] and [serial_printc].  The calls of
    [printer] are the list of characters printed, in order; a character is
    its code.  [args] are the 32-bit words from the first variable argument
    on; [str_at] is the memory: the characters of the NUL-terminated string
    at an address, if there is one.  [None] is an access outside an array or
    past the arguments. *)

From Stdlib Require Import Ascii String.
From S2P Require Import Prelude.

Definition chars (s : string) : list Z := (fun a => Z.of_N (N_of_ascii a)) <$> list_ascii_of_string s.

Definition ch_zero : Z := 48.      (* '0' *)
Definition ch_minus : Z := 45.     (* '-' *)
Definition ch_percent : Z := 37.   (* '%' *)

(** [type] *)
Inductive mode : Type := NONE | READ.

(** The digit loops [while(x>=1){ digits[di] = digit(x); x = next(x); di++ }]:
    the digits in the order they are stored, least significant first; [room]
    is what is left of [char digits[15]]. *)
Fixpoint digit_loop (digit next : Z -> Z) (room : nat) (x : Z) : option (list Z) :=
  if 1 <=? x then
    match room with
    | O => None
    | S room => cons (digit x) <$> digit_loop digit next room (next x)
    end
  else Some [].

Definition hex_digit (x : Z) : Z :=
  let d := x mod 16 in
  u8 (ch_zero + (if 10 <=? d then d + (97 - ch_zero - 10) else d)).
Definition dec_digit (x : Z) : Z := u8 (ch_zero + Z.rem x 10).

Definition hex_digits : nat -> Z -> option (list Z) := digit_loop hex_digit (fun x => Z.shiftr x 4).
Definition dec_digits : nat -> Z -> option (list Z) := digit_loop dec_digit (fun x => Z.quot x 10).

(** The cases of a conversion: the characters printed for the word [w]. *)
Definition conv_x (w : Z) : option (list Z) :=
  let x := u32 w in
  if x =? 0 then Some [ch_zero] else (fun ds => rev ds) <$> hex_digits 15 x.

Definition conv_d (w : Z) : option (list Z) :=
  let x := i32 w in
  if x =? -2147483648 then Some (chars "-2147483648")
  else if x =? 0 then Some [ch_zero]
  else
    let sign := if x <? 0 then [ch_minus] else [] in
    let x := if x <? 0 then i32 (- x) else x in
    (fun ds => sign ++ rev ds) <$> dec_digits 15 x.

Section vfprintf.
Context (str_at : Z -> option (list Z)).

Definition conv (cur w : Z) : option (list Z) :=
  if cur =? 115 then str_at (u32 w)              (* 's' *)
  else if cur =? 120 then conv_x w               (* 'x' *)
  else if cur =? 100 then conv_d w               (* 'd' *)
  else Some [u8 w].                              (* 'c' *)

Definition is_conv (cur : Z) : bool := (cur =? 115) || (cur =? 120) || (cur =? 100) || (cur =? 99).

(** The main loop: what has been printed, and [type] and [pointer] at the
    end. *)
Fixpoint vf_loop (str : list Z) (type : mode) (args : list Z) : option (list Z * mode * list Z) :=
  match str with
  | [] => Some ([], type, args)
  | cur :: str =>
      if cur =? ch_percent then vf_loop str READ args
      else
        match type with
        | READ =>
            if is_conv cur then
              match args with
              | [] => None
              | w :: args =>
                  out ← conv cur w;
                  '(out', t, rest) ← vf_loop str NONE args;
                  Some (out ++ out', t, rest)
              end
            else vf_loop str NONE args
        | NONE =>
            '(out', t, rest) ← vf_loop str NONE args;
            Some (cur :: out', t, rest)
        end
  end.

Definition vfprintf (ctl args : list Z) : option (list Z) :=
  '(out, _, _) ← vf_loop ctl NONE args; Some out.

(** A format is processed left to right. *)
Lemma vf_loop_app a b t args :
  vf_loop (a ++ b) t args =
    '(out, t', args') ← vf_loop a t args; '(out', t'', rest) ← vf_loop b t' args';
    Some (out ++ out', t'', rest).
Proof.
  revert t args. induction a as [|c a IH]; intros t args; simpl.
  - destruct (vf_loop b t args) as [[[o m] r]|]; done.
  - destruct (c =? ch_percent); [apply IH|]. destruct t.
    + rewrite IH. destruct (vf_loop a NONE args) as [[[o m] r]|]; simpl; [|done].
      destruct (vf_loop b m r) as [[[o' m'] r']|]; done.
    + destruct (is_conv c); [|apply IH]. destruct args as [|w args]; [done|].
      destruct (conv c w) as [out|]; simpl; [|done]. rewrite IH.
      destruct (vf_loop a NONE args) as [[[o m] r]|]; simpl; [|done].
      destruct (vf_loop b m r) as [[[o' m'] r']|]; simpl; [|done]. by rewrite app_assoc.
Qed.

Lemma vf_loop_plain a args : ch_percent ∉ a -> vf_loop a NONE args = Some (a, NONE, args).
Proof.
  induction a as [|c a IH]; intros Hn; simpl; [done|]. apply not_elem_of_cons in Hn as [Hc Hn].
  rewrite (proj2 (Z.eqb_neq _ _)) by congruence. by rewrite IH.
Qed.

Lemma vf_loop_conv c w args out : is_conv c = true -> conv c w = Some out ->
  vf_loop [ch_percent; c] NONE (w :: args) = Some (out, NONE, args).
Proof.
  intros Hc Hw. assert (Hne : (c =? ch_percent) = false).
  { unfold is_conv in Hc. apply Z.eqb_neq. intros ->. discriminate. }
  simpl. rewrite Hne, Hc, Hw. simpl. by rewrite app_nil_r.
Qed.
End vfprintf.

(** ** Numerals *)

Definition digit_val (c : Z) : Z := if 97 <=? c then c - 87 else c - ch_zero.
Definition numeral (base : Z) (ds : list Z) : Z := fold_left (fun n c => n * base + digit_val c) ds 0.

(** Digits from the least significant one. *)
Fixpoint numeral_rev (base : Z) (ds : list Z) : Z :=
  match ds with [] => 0 | d :: ds => digit_val d + base * numeral_rev base ds end.

Lemma numeral_rev_spec base ds : numeral base (rev ds) = numeral_rev base ds.
Proof.
  unfold numeral. induction ds as [|d ds IH]; simpl; [done|]. rewrite fold_left_app. simpl. rewrite IH. lia.
Qed.

Definition is_digit (base c : Z) : Prop := 0 <= digit_val c < base /\ (48 <= c < 58 \/ 97 <= c < 103).

Lemma dec_digit_spec x : 0 <= x -> digit_val (dec_digit x) = x mod 10 /\ 48 <= dec_digit x < 58.
Proof.
  intros Hx. unfold dec_digit. rewrite Z.rem_mod_nonneg by lia. pose proof (Z.mod_pos_bound x 10 ltac:(lia)).
  unfold u8, ch_zero. rewrite Z.mod_small by lia. unfold digit_val, ch_zero.
  rewrite (proj2 (Z.leb_gt 97 _)) by lia. lia.
Qed.

Lemma hex_digit_spec x : 0 <= x ->
  digit_val (hex_digit x) = x mod 16 /\ (48 <= hex_digit x < 58 \/ 97 <= hex_digit x < 103).
Proof.
  intros Hx. pose proof (Z.mod_pos_bound x 16 ltac:(lia)). unfold hex_digit, u8, ch_zero. cbn zeta.
  unfold digit_val, ch_zero. destruct (Z.leb_spec 10 (x mod 16)); rewrite Z.mod_small by lia.
  - rewrite (proj2 (Z.leb_le 97 _)) by lia. lia.
  - rewrite (proj2 (Z.leb_gt 97 _)) by lia. lia.
Qed.

(** A digit loop whose steps divide by [base]. *)
Section digit_loop.
Context (base : Z) (digit next : Z -> Z) (Hbase : 1 < base).
Context (Hdigit : forall x, 0 <= x -> digit_val (digit x) = x mod base /\ (48 <= digit x < 58 \/ 97 <= digit x < 103)).
Context (Hnext : forall x, 0 <= x -> next x = x / base).
#[local] Set Default Proof Using "All".

Lemma digit_loop_0 room : digit_loop digit next room 0 = Some [].
Proof. by destruct room. Qed.

(** A number below [base ^ n] has at most [n] digits. *)
Lemma digit_loop_spec n room x : 0 <= x < base ^ Z.of_nat n -> (n <= room)%nat ->
  exists ds, digit_loop digit next room x = Some ds /\ (length ds <= n)%nat /\ numeral_rev base ds = x /\
    Forall (is_digit base) ds /\ (0 < x -> exists d, last ds = Some d /\ d <> ch_zero).
Proof.
  revert room x. induction n as [|n IH]; intros room x Hx Hroom.
  - assert (x = 0) as -> by (rewrite Z.pow_0_r in Hx; lia).
    exists []. rewrite digit_loop_0. split_and!; try done; lia.
  - destruct (decide (x = 0)) as [->|Hx0].
    { exists []. rewrite digit_loop_0. split_and!; try done; simpl; lia. }
    destruct room as [|room]; [lia|]. cbn [digit_loop]. rewrite (proj2 (Z.leb_le 1 x)), Hnext by lia.
    rewrite Nat2Z.inj_succ, Z.pow_succ_r in Hx by lia.
    pose proof (Z.div_mod x base ltac:(lia)). pose proof (Z.mod_pos_bound x base ltac:(lia)).
    pose proof (Z.div_pos x base ltac:(lia) ltac:(lia)).
    destruct (IH room (x / base)) as (ds & E & Hl & Hn & Hd & Hlast); [|lia|].
    { split; [done|]. apply Z.div_lt_upper_bound; lia. }
    destruct (Hdigit x ltac:(lia)) as [Hv Hr]. rewrite E. exists (digit x :: ds).
    split; [done|]. split; [simpl; lia|]. split; [simpl; lia|].
    split; [constructor; [split; lia|done]|]. intros _. destruct (decide (x / base = 0)) as [E0|E0].
    + rewrite E0, digit_loop_0 in E. injection E as <-. exists (digit x). split; [done|].
      intros Ed. rewrite Ed in Hv. change (digit_val ch_zero) with 0 in Hv. rewrite E0 in *. lia.
    + destruct Hlast as (e & He & Hne); [lia|]. exists e. split; [|done]. by destruct ds.
Qed.
End digit_loop.

Lemma dec_digits_spec x : 0 <= x < 2 ^ 32 ->
  exists ds, dec_digits 15 x = Some ds /\ (length ds <= 10)%nat /\ numeral_rev 10 ds = x /\
    Forall (is_digit 10) ds /\ (0 < x -> exists d, last ds = Some d /\ d <> ch_zero).
Proof.
  intros Hx. apply (digit_loop_spec 10 dec_digit _ ltac:(lia)); [| |split; [lia|]|lia].
  - intros y Hy. destruct (dec_digit_spec y Hy). split; [done|by left].
  - intros y Hy. by apply Z.quot_div_nonneg.
  - apply Z.lt_trans with (2 ^ 32); [lia|reflexivity].
Qed.

Lemma hex_digits_spec x : 0 <= x < 2 ^ 32 ->
  exists ds, hex_digits 15 x = Some ds /\ (length ds <= 8)%nat /\ numeral_rev 16 ds = x /\
    Forall (is_digit 16) ds /\ (0 < x -> exists d, last ds = Some d /\ d <> ch_zero).
Proof.
  intros Hx. apply (digit_loop_spec 16 hex_digit _ ltac:(lia)); [exact hex_digit_spec| |split; lia|lia].
  intros y Hy. by apply Z.shiftr_div_pow2.
Qed.

(** ** Properties *)

(** A numeral without leading zeros. *)
Definition canonical (base n : Z) (ds : list Z) : Prop :=
  numeral base ds = n /\ Forall (is_digit base) ds /\ (ds = [ch_zero] \/ exists d, head ds = Some d /\ d <> ch_zero).

Lemma canonical_rev base n ds : numeral_rev base ds = n -> Forall (is_digit base) ds ->
  (exists d, last ds = Some d /\ d <> ch_zero) -> canonical base n (rev ds).
Proof.
  intros Hn Hd (d & Hl & Hne). split; [by rewrite numeral_rev_spec|]. split.
  - by apply Forall_rev.
  - right. exists d. split; [|done]. apply last_Some in Hl as [l ->]. by rewrite rev_app_distr.
Qed.

Section props.
Context (str_at : Z -> option (list Z)).

(** [%d] prints the decimal numeral of its argument as an [int], for
    every word: a minus sign for a negative number, no leading zeros, at
    most eleven characters; the most negative number included. *)
Theorem printk_d w : exists ds, vfprintf str_at (chars "%d") [w] = Some ((if i32 w <? 0 then [ch_minus] else []) ++ ds) /\
  canonical 10 (Z.abs (i32 w)) ds /\ (length ds <= 10)%nat.
Proof.
  unfold vfprintf. change (chars "%d") with [ch_percent; 100].
  assert (H : exists ds, conv_d w = Some ((if i32 w <? 0 then [ch_minus] else []) ++ ds) /\
    canonical 10 (Z.abs (i32 w)) ds /\ (length ds <= 10)%nat).
  { unfold conv_d. set (x := i32 w). pose proof (i32_range w) as Hr. fold x in Hr. unfold is_i32 in Hr. cbn zeta.
    destruct (Z.eqb_spec x (-2147483648)) as [->|Hmin].
    { exists (chars "2147483648"). split; [reflexivity|]. split; [|vm_compute; lia].
      split; [reflexivity|]. split; [|right; by exists 50].
      unfold is_digit. repeat constructor; vm_compute; first [done|by left|congruence]. }
    destruct (Z.eqb_spec x 0) as [->|H0].
    { exists [ch_zero]. split; [reflexivity|]. split; [|simpl; lia]. split; [reflexivity|]. split; [|by left].
      unfold is_digit. repeat constructor; vm_compute; first [done|by left|congruence]. }
    assert (Ha : (if x <? 0 then i32 (- x) else x) = Z.abs x).
    { destruct (Z.ltb_spec x 0); [rewrite i32_id; unfold is_i32; lia|lia]. }
    rewrite Ha. destruct (dec_digits_spec (Z.abs x)) as (ds & -> & Hl & Hn & Hd & Hlast); [lia|].
    exists (rev ds). split; [done|]. split; [|by rewrite length_rev].
    apply canonical_rev; [done..|]. apply Hlast. lia. }
  destruct H as (ds & Hc & H1 & H2). exists ds. split; [|by split].
  rewrite (vf_loop_conv _ 100 w [] _ eq_refl Hc). done.
Qed.

(** [%x] prints the hexadecimal numeral of its argument, in lower case
    and without leading zeros. *)
Theorem printk_x w : exists ds, vfprintf str_at (chars "%x") [w] = Some ds /\
  canonical 16 (u32 w) ds /\ (length ds <= 8)%nat.
Proof.
  unfold vfprintf. change (chars "%x") with [ch_percent; 120].
  assert (H : exists ds, conv_x w = Some ds /\ canonical 16 (u32 w) ds /\ (length ds <= 8)%nat).
  { unfold conv_x. pose proof (u32_range w) as Hr. set (x := u32 w) in *. unfold is_u32 in Hr. cbn zeta.
    destruct (Z.eqb_spec x 0) as [->|H0].
    { exists [ch_zero]. split; [reflexivity|]. split; [|simpl; lia]. split; [reflexivity|]. split; [|by left].
      unfold is_digit. repeat constructor; vm_compute; first [done|by left|congruence]. }
    destruct (hex_digits_spec x) as (ds & -> & Hl & Hn & Hd & Hlast); [lia|].
    exists (rev ds). split; [done|]. split; [|by rewrite length_rev].
    apply canonical_rev; [done..|]. apply Hlast. lia. }
  destruct H as (ds & Hc & H1 & H2). exists ds. split; [|by split].
  rewrite (vf_loop_conv _ 120 w [] _ eq_refl Hc). done.
Qed.

(** A format is printed piece by piece: text without [%] as it is, then
    the conversion of the first argument, then the rest of the format with
    the rest of the arguments; a missing argument is a fault. *)
Theorem printk_pieces text c rest w args :
  ch_percent ∉ text -> is_conv c = true ->
  vfprintf str_at (text ++ ch_percent :: c :: rest) (w :: args) =
    (out ← conv str_at c w; tail ← vfprintf str_at rest args; Some (text ++ out ++ tail)) /\
  vfprintf str_at (text ++ ch_percent :: c :: rest) [] = None.
Proof.
  intros Ht Hc. assert (Hne : (c =? ch_percent) = false).
  { unfold is_conv in Hc. apply Z.eqb_neq. intros ->. discriminate. }
  unfold vfprintf. rewrite !vf_loop_app, (vf_loop_plain _ _ (w :: args)), (vf_loop_plain _ _ []) by done. cbn [mbind option_bind].
  cbn [vf_loop]. rewrite Hne, Hc. replace (ch_percent =? ch_percent) with true by reflexivity. split; [|done].
  destruct (conv str_at c w) as [out|]; [|done]. cbn [mbind option_bind].
  by destruct (vf_loop str_at rest NONE args) as [[[o m] r]|].
Qed.
End props.

Lemma printk_pieces_witness :
  vfprintf (fun _ => Some (chars "shell")) (chars "run " ++ ch_percent :: 115 :: chars ": %d") [0x1000; -7] =
    (out ← conv (fun _ => Some (chars "shell")) 115 0x1000;
     tail ← vfprintf (fun _ => Some (chars "shell")) (chars ": %d") [-7]; Some (chars "run " ++ out ++ tail)) /\
  vfprintf (fun _ => Some (chars "shell")) (chars "run " ++ ch_percent :: 115 :: chars ": %d") [] = None.
Proof.
  apply (printk_pieces (fun _ => Some (chars "shell")) (chars "run ") 115 (chars ": %d") 0x1000 [-7]).
  - vm_compute. intros H. repeat (apply elem_of_cons in H as [H|H]; [discriminate|]). inversion H.
  - reflexivity.
Defined.

Example printk_ex : vfprintf (fun _ => Some (chars "shell")) (chars "%s=%d, 0x%x%c") [1; -42; 0xbeef; 33] =
  Some (chars "shell=-42, 0xbeef!").
Proof. reflexivity. Qed.
