(* ===== verification/Keyboard.v ===== *)
(** * The keyboard

    Models [kernel/src/keyboard.c]: the table of held letters that
    [press_key] keeps for [get_key] and [ctrl_c], the scan code decoder
    [poll_key], and the line editor [readline].  The successive reads of
    the data port [0x60] give the elements of [kb_in]; [wait_key], which
    waits until there is one, is a step that needs a non-empty [kb_in].
    [cputchar] appends to [kb_out].  [history] is the one array of
    200*512 characters it is in memory, so a string too long for its row
    runs into the next. *)

From Stdlib Require Import String.
From S2P Require Import Prelude Printk.

Record kbst : Type := mkKb {
  kb_keydown : list Z;
  kb_lastkey : Z;
  kb_ctrl : Z;
  kb_shift : Z;
  kb_buf : list Z;
  kb_history : list Z;
  kb_history_id : Z;
  kb_in : list Z;
  kb_out : list Z }.

Definition with_keydown v s := mkKb v (kb_lastkey s) (kb_ctrl s) (kb_shift s) (kb_buf s) (kb_history s) (kb_history_id s) (kb_in s) (kb_out s).
Definition with_lastkey v s := mkKb (kb_keydown s) v (kb_ctrl s) (kb_shift s) (kb_buf s) (kb_history s) (kb_history_id s) (kb_in s) (kb_out s).
Definition with_ctrl v s := mkKb (kb_keydown s) (kb_lastkey s) v (kb_shift s) (kb_buf s) (kb_history s) (kb_history_id s) (kb_in s) (kb_out s).
Definition with_shift v s := mkKb (kb_keydown s) (kb_lastkey s) (kb_ctrl s) v (kb_buf s) (kb_history s) (kb_history_id s) (kb_in s) (kb_out s).
Definition with_buf v s := mkKb (kb_keydown s) (kb_lastkey s) (kb_ctrl s) (kb_shift s) v (kb_history s) (kb_history_id s) (kb_in s) (kb_out s).
Definition with_history v s := mkKb (kb_keydown s) (kb_lastkey s) (kb_ctrl s) (kb_shift s) (kb_buf s) v (kb_history_id s) (kb_in s) (kb_out s).
Definition with_history_id v s := mkKb (kb_keydown s) (kb_lastkey s) (kb_ctrl s) (kb_shift s) (kb_buf s) (kb_history s) v (kb_in s) (kb_out s).
Definition with_in v s := mkKb (kb_keydown s) (kb_lastkey s) (kb_ctrl s) (kb_shift s) (kb_buf s) (kb_history s) (kb_history_id s) v (kb_out s).
Definition with_out v s := mkKb (kb_keydown s) (kb_lastkey s) (kb_ctrl s) (kb_shift s) (kb_buf s) (kb_history s) (kb_history_id s) (kb_in s) v.

(** ** Held letters *)

Definition letter : list Z :=
  [30; 48; 46; 32; 18; 33; 34; 35; 23; 36;
   37; 38; 50; 49; 24; 25; 16; 19; 31; 20;
   22; 47; 17; 45; 21; 44].

Definition get_key (c : Z) : M kbst Z :=
  s ← get;
  if (97 <=? c) && (c <? 97 + 26) then from_option_or OutOfBounds (kb_keydown s !! Z.to_nat (c - 97))
  else fail OutOfBounds.

Definition get_lastkey : M kbst Z := gets (fun s => kb_lastkey s + 97).

(** [for(;i<26;i++) if(letter[i]==code)]: the first match, if any. *)
Fixpoint find_letter (l : list Z) (i : nat) (code : Z) : option nat :=
  match l with
  | [] => None
  | x :: l => if x =? code then Some i else find_letter l (S i) code
  end.

Definition press_key (code : Z) : M kbst unit :=
  if Z.land code 0x80 =? 0 then
    (if code =? 0x1d then modify (with_ctrl 1) else mret tt);;
    match find_letter letter 0 code with
    | Some i =>
        modify (fun s => with_keydown (<[i := 1]> (kb_keydown s)) s);;
        modify (with_lastkey (Z.of_nat i))
    | None => mret tt
    end
  else
    let code := Z.land code 0x7F in
    (if code =? 0x1d then modify (with_ctrl 0) else mret tt);;
    match find_letter letter 0 code with
    | Some i => modify (fun s => with_keydown (<[i := 0]> (kb_keydown s)) s)
    | None => mret tt
    end.

Definition ctrl_c : M kbst bool :=
  s ← get;
  k ← from_option_or OutOfBounds (kb_keydown s !! 2%nat);
  let ctrlc := negb (kb_ctrl s =? 0) && negb (k =? 0) in
  (if ctrlc then
     modify (with_ctrl 0);;
     modify (fun s => with_keydown (<[2%nat := 0]> (kb_keydown s)) s)
   else mret tt);;
  mret ctrlc.

(** ** Scan codes *)

Definition SHIFT : Z := 1.
Definition CTL : Z := 2.
Definition ALT : Z := 4.
Definition CAPSLOCK : Z := 8.
Definition NUMLOCK : Z := 16.
Definition SCROLLLOCK : Z := 32.
Definition E0ESC : Z := 64.

Definition KEY_HOME : Z := 0xE0.
Definition KEY_END : Z := 0xE1.
Definition KEY_UP : Z := 0xE2.
Definition KEY_DN : Z := 0xE3.
Definition KEY_LF : Z := 0xE4.
Definition KEY_RT : Z := 0xE5.
Definition KEY_PGUP : Z := 0xE6.
Definition KEY_PGDN : Z := 0xE7.
Definition KEY_INS : Z := 0xE8.
Definition KEY_DEL : Z := 0xE9.

(** An array with initializers for its first elements and for some others;
    the rest is zero. *)
Fixpoint designated (l : list (Z * Z)) (i : Z) : Z :=
  match l with [] => 0 | (k, v) :: l => if k =? i then v else designated l i end.
Definition table (l : list Z) (d : list (Z * Z)) (i : Z) : Z :=
  match l !! Z.to_nat i with Some v => v | None => designated d i end.

Definition shiftcode : Z -> Z :=
  table [] [(0x1D, CTL); (0x2A, SHIFT); (0x36, SHIFT); (0x38, ALT); (0x9D, CTL); (0xB8, ALT)].
Definition togglecode : Z -> Z := table [] [(0x3A, CAPSLOCK); (0x45, NUMLOCK); (0x46, SCROLLLOCK)].

Definition keypad : list Z := replicate 13 0 ++ chars "789-456+1230." ++ [0; 0; 0; 0].
Definition extended : list (Z * Z) :=
  [(0xC7, KEY_HOME); (0x9C, 10); (0xB5, 47); (0xC8, KEY_UP); (0xC9, KEY_PGUP); (0xCB, KEY_LF); (0xCD, KEY_RT);
   (0xCF, KEY_END); (0xD0, KEY_DN); (0xD1, KEY_PGDN); (0xD2, KEY_INS); (0xD3, KEY_DEL)].

Definition normalmap : Z -> Z :=
  table ([0; 0x1B] ++ chars "1234567890-=" ++ [8; 9] ++ chars "qwertyuiop[]" ++ [10; 0] ++
    chars "asdfghjkl;'`" ++ [0] ++ chars "\zxcvbnm,./" ++ [0; 42; 0; 32] ++ keypad) extended.

Definition shiftmap : Z -> Z :=
  table ([0; 27] ++ chars "!@#$%^&*()_+" ++ [8; 9] ++ chars "QWERTYUIOP{}" ++ [10; 0] ++
    chars "ASDFGHJKL:" ++ [34] ++ chars "~" ++ [0] ++ chars "|ZXCVBNM<>?" ++ [0; 42; 0; 32] ++ keypad) extended.

(** [C(x)] *)
Definition C (x : Z) : Z := u8 (x - 64).

Definition ctlmap : Z -> Z :=
  table (replicate 16 0 ++ (C <$> chars "QWERTYUIOP") ++ [0; 0; 13; 0] ++ (C <$> chars "ASDFGHJKL") ++
    [0; 0; 0; 0] ++ (C <$> chars "\ZXCVBNM") ++ [0; 0; C 47; 0; 0])
  [(0x97, KEY_HOME); (0xB5, C 47); (0xC8, KEY_UP); (0xC9, KEY_PGUP); (0xCB, KEY_LF); (0xCD, KEY_RT);
   (0xCF, KEY_END); (0xD0, KEY_DN); (0xD1, KEY_PGDN); (0xD2, KEY_INS); (0xD3, KEY_DEL)].

(** [charcode[i]] *)
Definition charcode (i : Z) : Z -> Z :=
  if i =? 0 then normalmap else if i =? 1 then shiftmap else ctlmap.

(** The body of [poll_key] after the byte has been read: the new [shift] and
    the result. *)
Definition decode_key (shift data : Z) : Z * Z :=
  if data =? 0xE0 then (Z.lor shift E0ESC, 0)
  else if negb (Z.land data 0x80 =? 0) then
    let data := if negb (Z.land shift E0ESC =? 0) then data else Z.land data 0x7F in
    (Z.land shift (Z.lnot (Z.lor (shiftcode data) E0ESC)), 0)
  else
    let '(shift, data) :=
      if negb (Z.land shift E0ESC =? 0) then (Z.land shift (Z.lnot E0ESC), Z.lor data 0x80)
      else (shift, data) in
    let shift := Z.lxor (Z.lor shift (shiftcode data)) (togglecode data) in
    let c := charcode (Z.land shift (Z.lor CTL SHIFT)) data in
    let c :=
      if negb (Z.land shift CAPSLOCK =? 0) then
        if (97 <=? c) && (c <=? 122) then c - 32
        else if (65 <=? c) && (c <=? 90) then c + 32 else c
      else c in
    (shift, c).

(** [data = inb(0x60); while(data == 0x08) data = inb(0x60);] *)
Fixpoint read_data (l : list Z) : option (Z * list Z) :=
  match l with
  | [] => None
  | data :: l => if data =? 0x08 then read_data l else Some (data, l)
  end.

(** Still polling when [kb_in] is used up. *)
Definition poll_key : M kbst Z :=
  s ← get;
  '(data, rest) ← from_option_or OutOfFuel (read_data (kb_in s));
  let '(shift, c) := decode_key (kb_shift s) data in
  modify (with_in rest);;
  modify (with_shift shift);;
  mret c.

Definition getchar : M kbst Z := poll_key.

(** ** Line editing *)

Definition BUFLEN : nat := 1024.
Definition HISTORY_ROW : Z := 512.

Definition cputchar (c : Z) : M kbst unit := modify (fun s => with_out (kb_out s ++ [c]) s).
Fixpoint cputs (l : list Z) : M kbst unit :=
  match l with [] => mret tt | c :: l => cputchar c;; cputs l end.
Definition erase_one : list Z := [8; 32; 8].

(** The string from [off] on in an array: up to its NUL. *)
Fixpoint upto_nul (l : list Z) : option (list Z) :=
  match l with
  | [] => None
  | c :: l => if c =? 0 then Some [] else cons c <$> upto_nul l
  end.
Definition string_at (l : list Z) (off : Z) : option (list Z) :=
  if off <? 0 then None else upto_nul (drop (Z.to_nat off) l).

(** [strcpy] of [str] to [dst + off]. *)
Definition put_string (off : Z) (str dst : list Z) : option (list Z) :=
  let bs := str ++ [0] in
  if (0 <=? off) && (off + Z.of_nat (length bs) <=? Z.of_nat (length dst))
  then Some (take (Z.to_nat off) dst ++ bs ++ drop (Z.to_nat off + length bs) dst) else None.

(** The two arrow keys: fetch line [id] of the history. *)
Definition recall (id : Z) (i : nat) : M kbst nat :=
  modify (with_history_id id);;
  s ← get;
  str ← from_option_or OutOfBounds (string_at (kb_history s) (HISTORY_ROW * id));
  b ← from_option_or OutOfBounds (put_string 0 str (kb_buf s));
  modify (with_buf b);;
  cputs (mjoin (replicate i erase_one));;
  cputs str;;
  mret (length str).

(** One turn of the loop: the new [i], or nothing when the line is done. *)
Definition readline_step (c : Z) (i : nat) : M kbst (option nat) :=
  s ← get;
  if c =? KEY_UP then
    if 0 <? kb_history_id s then i ← recall (kb_history_id s - 1) i; mret (Some i) else mret (Some i)
  else if c =? KEY_DN then
    if kb_history_id s <? 199 then i ← recall (kb_history_id s + 1) i; mret (Some i) else mret (Some i)
  else if ((c =? 8) || (c =? 127)) && (0 <? Z.of_nat i) then
    cputs erase_one;; mret (Some (i - 1)%nat)
  else if (32 <=? c) && (Z.of_nat i <? Z.of_nat BUFLEN - 1) then
    cputchar c;;
    modify (fun s => with_buf (<[i := u8 c]> (kb_buf s)) s);;
    mret (Some (S i))
  else if (c =? 10) || (c =? 13) then
    cputchar 10;;
    modify (fun s => with_buf (<[i := 0]> (kb_buf s)) s);;
    s ← get;
    str ← from_option_or OutOfBounds (string_at (kb_buf s) 0);
    h ← from_option_or OutOfBounds (put_string (HISTORY_ROW * kb_history_id s) str (kb_history s));
    modify (with_history h);;
    modify (fun s => with_history_id (kb_history_id s + 1) s);;
    mret None
  else mret (Some i).

Fixpoint readline_loop (fuel : nat) (i : nat) : M kbst unit :=
  match fuel with
  | O => fail OutOfFuel
  | S fuel =>
      c ← getchar;
      r ← readline_step c i;
      match r with Some i => readline_loop fuel i | None => mret tt end
  end.

(** Every turn reads a byte.  The result is the string in [buf]. *)
Definition readline (prompt : list Z) : M kbst (list Z) :=
  cputs prompt;;
  s ← get;
  readline_loop (S (length (kb_in s))) 0;;
  s ← get;
  from_option_or OutOfBounds (string_at (kb_buf s) 0).

Example readline_ex :
  match readline (chars "$> ") (mkKb (replicate 26 0) 0 0 0 (replicate 1024 0) (replicate 102400 0) 0
     [38; 166; 31; 18; 14; 57; 42; 16; 170; 28; 1] []) with
  | Ret r s => r = chars "ls Q" /\ kb_in s = [1] /\ kb_out s = chars "$> lse" ++ [8; 32; 8] ++ chars " Q" ++ [10] /\ kb_history_id s = 1
  | _ => False
  end.
Proof. vm_compute. by split_and!. Qed.

(** ** Properties of the keyboard *)

(** ** Held letters *)

(** Whether letter [i] is held after the bytes [codes]: what the last byte
    about it said. *)
Definition about (i : nat) (code : Z) : bool := bool_decide (letter !! i = Some (Z.land code 0x7F)).
Definition is_press (code : Z) : bool := Z.land code 0x80 =? 0.
Definition held (codes : list Z) (i : nat) : Z :=
  fold_left (fun h code => if about i code then (if is_press code then 1 else 0) else h) codes 0.

Fixpoint press_keys (codes : list Z) : M kbst unit :=
  match codes with [] => mret tt | c :: codes => press_key c;; press_keys codes end.

Lemma find_letter_spec l k code :
  match find_letter l k code with
  | Some i => exists j, i = (k + j)%nat /\ l !! j = Some code
  | None => forall j, l !! j <> Some code
  end.
Proof.
  revert k. induction l as [|x l IH]; intros k; cbn [find_letter]; [intros j; by rewrite lookup_nil|].
  destruct (Z.eqb_spec x code) as [->|Hne]; [exists 0%nat; split; [lia|done]|].
  specialize (IH (S k)). destruct (find_letter l (S k) code) as [i|].
  - destruct IH as (j & -> & Hj). exists (S j). split; [lia|done].
  - intros [|j]; [intros [= E]; congruence|apply IH].
Qed.

Lemma letter_inj i j x : letter !! i = Some x -> letter !! j = Some x -> i = j.
Proof. apply NoDup_lookup. apply NoDup_ListNoDup. repeat (constructor; [simpl; lia|]). constructor. Qed.

Lemma press_code c : 0 <= c < 256 -> is_press c = true -> Z.land c 0x7F = c.
Proof.
  intros Hc Hp. unfold is_press in Hp. apply Z.eqb_eq in Hp. apply Z.bits_inj'. intros n Hn.
  rewrite Z.land_spec. change 0x7F with (Z.ones 7). destruct (decide (n < 7)).
  - rewrite Z.ones_spec_low by lia. apply andb_true_r.
  - rewrite Z.ones_spec_high, andb_false_r by lia. symmetry. destruct (decide (n = 7)) as [->|].
    + apply (f_equal (fun z => Z.testbit z 7)) in Hp. rewrite Z.land_spec, Z.bits_0 in Hp.
      change (Z.testbit 0x80 7) with true in Hp. by rewrite andb_true_r in Hp.
    + rewrite <- (Z.mod_small c (2 ^ 8)) by lia. apply Z.mod_pow2_bits_high. lia.
Qed.

(** Writing [v] at the letter of a byte. *)
Definition note_key (v : Z) (o : option nat) (kd : list Z) : list Z :=
  match o with Some i => <[i := v]> kd | None => kd end.

Lemma note_key_lookup v c kd j h : length kd = 26%nat -> kd !! j = Some h ->
  note_key v (find_letter letter 0 (Z.land c 0x7F)) kd !! j = Some (if about j c then v else h).
Proof.
  intros Hl Hj. unfold about, note_key. set (k := Z.land c 0x7F). pose proof (find_letter_spec letter 0 k) as Hf.
  destruct (find_letter letter 0 k) as [i|].
  - destruct Hf as (j' & -> & Hj'). rewrite Nat.add_0_l. destruct (decide (j = j')) as [->|Hne].
    + rewrite bool_decide_true by done. apply list_lookup_insert_eq. apply lookup_lt_Some in Hj. lia.
    + rewrite bool_decide_false by (intros E; apply Hne; by eapply letter_inj).
      by rewrite list_lookup_insert_ne by congruence.
  - by rewrite bool_decide_false.
Qed.

Lemma length_note_key v o kd : length (note_key v o kd) = length kd.
Proof. destruct o; [apply length_insert|done]. Qed.

(** One byte. *)
Lemma wp_press_key c s (Q : unit -> kbst -> Prop) J :
  0 <= c < 256 -> length (kb_keydown s) = 26%nat ->
  (forall s', length (kb_keydown s') = 26%nat ->
     (forall i h, kb_keydown s !! i = Some h ->
        kb_keydown s' !! i = Some (if about i c then (if is_press c then 1 else 0) else h)) -> Q tt s') ->
  wp (press_key c) Q J s.
Proof.
  intros Hc Hl HQ. unfold press_key. fold (is_press c). pose proof (press_code c Hc) as Hcode.
  destruct (is_press c) eqn:Hp.
  - apply wp_bind. assert (H : forall t, kb_keydown t = kb_keydown s -> wp
      match find_letter letter 0 c with
      | Some i => modify (fun s0 => with_keydown (<[i := 1]> (kb_keydown s0)) s0);; modify (with_lastkey (Z.of_nat i))
      | None => mret tt end Q J t).
    { intros t Ht. pose proof (note_key_lookup 1 c) as Hn. rewrite Hcode in Hn by done.
      destruct (find_letter letter 0 c) as [i|]; [apply wp_bind, wp_modify, wp_modify|apply wp_ret];
        (apply HQ; [by cbn; rewrite ?length_insert, Ht|]); cbn; rewrite Ht; intros j h Hj; by apply Hn. }
    destruct (c =? 0x1d); [apply wp_modify|apply wp_ret]; by apply H.
  - cbn zeta. apply wp_bind. pose proof (note_key_lookup 0 c) as Hn.
    assert (H : forall t, kb_keydown t = kb_keydown s -> wp
      match find_letter letter 0 (Z.land c 0x7F) with
      | Some i => modify (fun s0 => with_keydown (<[i := 0]> (kb_keydown s0)) s0)
      | None => mret tt end Q J t).
    { intros t Ht. destruct (find_letter letter 0 (Z.land c 0x7F)) as [i|]; [apply wp_modify|apply wp_ret];
        (apply HQ; [by cbn; rewrite ?length_insert, Ht|]); cbn; rewrite Ht; intros j h Hj; by apply Hn. }
    destruct (Z.land c 0x7F =? 0x1d); [apply wp_modify|apply wp_ret]; by apply H.
Qed.

Lemma wp_press_keys codes s (h0 : nat -> Z) (Q : unit -> kbst -> Prop) J :
  Forall (fun c => 0 <= c < 256) codes -> length (kb_keydown s) = 26%nat ->
  (forall i, (i < 26)%nat -> kb_keydown s !! i = Some (h0 i)) ->
  (forall s', length (kb_keydown s') = 26%nat ->
     (forall i, (i < 26)%nat -> kb_keydown s' !! i =
        Some (fold_left (fun h code => if about i code then (if is_press code then 1 else 0) else h) codes (h0 i))) ->
     Q tt s') ->
  wp (press_keys codes) Q J s.
Proof.
  revert s h0. induction codes as [|c codes IH]; intros s h0 Hc Hl Hh HQ; cbn [press_keys fold_left].
  - apply wp_ret. by apply HQ.
  - apply Forall_cons in Hc as [Hc Hcs]. apply wp_bind, wp_press_key; [done..|]. intros s1 Hl1 Hh1.
    eapply (IH s1 (fun i => if about i c then (if is_press c then 1 else 0) else h0 i)); [done..| |exact HQ].
    intros i Hi. apply Hh1. by apply Hh.
Qed.

(** After any sequence of keyboard bytes, [get_key] says of each letter
    whether the last byte about its key was a press. *)
Theorem get_key_tracks codes s c :
  Forall (fun c => 0 <= c < 256) codes -> kb_keydown s = replicate 26 0 -> 97 <= c < 97 + 26 ->
  wp (press_keys codes;; get_key c) (fun r _ => r = held codes (Z.to_nat (c - 97))) (fun _ => False) s.
Proof.
  intros Hcs Hs Hc. apply wp_bind. eapply (wp_press_keys _ _ (fun _ => 0)); [done|by rewrite Hs| |].
  { intros i Hi. rewrite Hs. by apply lookup_replicate_2. }
  intros s' Hl Hh. unfold get_key. apply wp_bind, wp_get.
  rewrite (proj2 (Z.leb_le _ _)), (proj2 (Z.ltb_lt _ _)) by lia. cbn [andb].
  eapply wp_from_option; [apply Hh; lia|done].
Qed.

Lemma get_key_tracks_witness :
  wp (press_keys [30; 48; 158; 0xE0];; get_key 98) (fun r _ => r = held [30; 48; 158; 0xE0] (Z.to_nat (98 - 97)))
    (fun _ => False) (mkKb (replicate 26 0) 0 0 0 [] [] 0 [] []).
Proof. apply get_key_tracks; [repeat constructor; lia|reflexivity|lia]. Defined.

(** [ctrl_c] answers whether Ctrl and the letter C are both held, and
    if so forgets both, so the next call answers no. *)
Theorem ctrl_c_once s :
  length (kb_keydown s) = 26%nat ->
  wp (ctrl_c) (fun r s' =>
    r = bool_decide (kb_ctrl s <> 0 /\ kb_keydown s !! 2%nat <> Some 0) /\
    (r = false -> s' = s) /\
    wp ctrl_c (fun r' _ => r = true -> r' = false) (fun _ => False) s') (fun _ => False) s.
Proof.
  intros Hl. destruct (lookup_lt_is_Some_2 (kb_keydown s) 2) as [k Hk]; [lia|].
  assert (Hw : forall t x, kb_keydown t !! 2%nat = Some x -> forall (Q : bool -> kbst -> Prop) J,
    (let b := negb (kb_ctrl t =? 0) && negb (x =? 0) in
     Q b (if b then with_keydown (<[2%nat := 0]> (kb_keydown t)) (with_ctrl 0 t) else t)) -> wp ctrl_c Q J t).
  { intros t x Hx Q J HQ. unfold ctrl_c. apply wp_bind, wp_get. apply wp_bind. eapply wp_from_option; [exact Hx|].
    cbn zeta in *. apply wp_bind. destruct (negb _ && negb _); [apply wp_bind, wp_modify, wp_modify|apply wp_ret];
      apply wp_ret; exact HQ. }
  eapply Hw; [exact Hk|]. cbn zeta. assert (Hb : negb (kb_ctrl s =? 0) && negb (k =? 0) =
    bool_decide (kb_ctrl s <> 0 /\ kb_keydown s !! 2%nat <> Some 0)).
  { rewrite Hk. destruct (Z.eqb_spec (kb_ctrl s) 0), (Z.eqb_spec k 0); simpl; symmetry;
      apply bool_decide_eq_true || apply bool_decide_eq_false; naive_solver. }
  rewrite <- Hb. destruct (negb (kb_ctrl s =? 0) && negb (k =? 0)) eqn:E.
  - split; [done|]. split; [done|]. eapply (Hw _ 0); [cbn; apply list_lookup_insert_eq; lia|done].
  - split; [done|]. split; [done|]. eapply Hw; [exact Hk|done].
Qed.

Lemma ctrl_c_once_witness :
  let s := mkKb (<[2%nat := 1]> (replicate 26 0)) 2 1 0 [] [] 0 [] [] in
  wp (ctrl_c) (fun r s' =>
    r = bool_decide (kb_ctrl s <> 0 /\ kb_keydown s !! 2%nat <> Some 0) /\
    (r = false -> s' = s) /\
    wp ctrl_c (fun r' _ => r = true -> r' = false) (fun _ => False) s') (fun _ => False) s.
Proof. apply ctrl_c_once. reflexivity. Defined.
