(* ===== verification/Readline.v ===== *)
(** * The line editor *)

From Stdlib Require Import String.
From S2P Require Import Prelude Printk Keyboard.

(** ** What is typed *)

(** The results of [poll_key] on a sequence of bytes, and the modifiers
    afterwards. *)
Fixpoint decode (shift : Z) (codes : list Z) : Z * list Z :=
  match codes with
  | [] => (shift, [])
  | d :: codes => let '(sh, c) := decode_key shift d in let '(sh', cs) := decode sh codes in (sh', c :: cs)
  end.

(** The line and the echo, one key at a time. *)
Definition deletes (line : list Z) (c : Z) : bool := ((c =? 8) || (c =? 127)) && (0 <? Z.of_nat (length line)).
Definition inserts (line : list Z) (c : Z) : bool := (32 <=? c) && (Z.of_nat (length line) <? 1023).
Definition edit1 (line : list Z) (c : Z) : list Z :=
  if deletes line c then removelast line else if inserts line c then line ++ [c] else line.
Definition echo1 (line : list Z) (c : Z) : list Z :=
  if deletes line c then erase_one else if inserts line c then [c] else [].
Fixpoint edit (line cs : list Z) : list Z :=
  match cs with [] => line | c :: cs => edit (edit1 line c) cs end.
Fixpoint echo (line cs : list Z) : list Z :=
  match cs with [] => [] | c :: cs => echo1 line c ++ echo (edit1 line c) cs end.

Definition is_arrow (c : Z) : bool := (c =? KEY_UP) || (c =? KEY_DN).
Definition is_enter (c : Z) : bool := (c =? 10) || (c =? 13).
Definition plain (c : Z) : Prop := is_arrow c = false /\ is_enter c = false.

(** ** The decoder's range *)

Lemma table_range l d i :
  Forall (fun v => 0 <= v < 256) l -> Forall (fun p => 0 <= snd p < 256) d -> 0 <= table l d i < 256.
Proof.
  intros Hl Hd. unfold table. destruct (l !! Z.to_nat i) eqn:E; [exact (Forall_lookup_1 _ _ _ _ Hl E)|].
  induction Hd as [|[k v] d Hv _ IH]; simpl; [lia|]. by destruct (k =? i).
Qed.

Lemma charcode_range i d : 0 <= charcode i d < 256.
Proof.
  unfold charcode, normalmap, shiftmap, ctlmap.
  destruct (i =? 0), (i =? 1); apply table_range; apply (bool_decide_unpack _); vm_compute; exact I.
Qed.

Lemma decode_key_range sh d : 0 <= snd (decode_key sh d) < 256.
Proof.
  unfold decode_key. destruct (d =? 0xE0); [simpl; lia|].
  destruct (negb (Z.land d 128 =? 0)); [simpl; lia|].
  destruct (negb (Z.land sh E0ESC =? 0)); cbv beta iota zeta; cbn [snd].
  all: match goal with |- context [charcode ?i ?x] => pose proof (charcode_range i x); set (charcode i x) in * end.
  all: repeat match goal with |- context [if ?b then _ else _] => destruct b eqn:? end; lia.
Qed.

Lemma decode_range sh l : Forall (fun c => 0 <= c < 256) (snd (decode sh l)).
Proof.
  revert sh. induction l as [|d l IH]; intros sh; simpl; [constructor|].
  pose proof (decode_key_range sh d) as H. destruct (decode_key sh d) as [sh1 c].
  specialize (IH sh1). destruct (decode sh1 l) as [sh' cs]. by constructor.
Qed.

(** ** Strings in arrays *)

Lemma upto_nul_app l rest : 0 ∉ l -> upto_nul (l ++ 0 :: rest) = Some l.
Proof.
  induction l as [|c l IH]; intros H; simpl; [done|]. apply not_elem_of_cons in H as [Hc H].
  rewrite (proj2 (Z.eqb_neq c 0)) by congruence. by rewrite IH.
Qed.

(** The buffer holds the line so far. *)
Definition holds (b line : list Z) : Prop :=
  length b = BUFLEN /\ (length line <= 1023)%nat /\ take (length line) b = line /\ 0 ∉ line.

Lemma holds_nil b : length b = BUFLEN -> holds b [].
Proof. intros H. split; [done|]. split; [simpl; lia|]. split; [done|]. by intros ?%elem_of_nil. Qed.

Lemma take_insert_at {A} (b : list A) i x : (i < length b)%nat -> take (S i) (<[i := x]> b) = take i b ++ [x].
Proof.
  intros H. rewrite (take_S_r _ _ x) by (by apply list_lookup_insert_eq). by rewrite take_insert_ge by lia.
Qed.

Lemma holds_snoc b line c : holds b line -> inserts line c = true -> 0 <= c < 256 ->
  holds (<[length line := u8 c]> b) (line ++ [c]).
Proof.
  intros (Hb & Hl & Ht & Hz) Hi Hc. unfold inserts in Hi. apply andb_true_iff in Hi as [Hi1 Hi2].
  apply Z.leb_le in Hi1. apply Z.ltb_lt in Hi2. unfold u8. rewrite Z.mod_small by lia.
  unfold holds. rewrite length_insert, length_app. simpl. split; [done|]. split; [lia|]. split.
  - rewrite Nat.add_1_r. rewrite take_insert_at by (rewrite Hb; unfold BUFLEN; lia). by rewrite Ht.
  - rewrite not_elem_of_app. split; [done|]. intros H%list_elem_of_singleton. lia.
Qed.

Lemma holds_removelast b line : holds b line -> line <> [] ->
  holds b (removelast line) /\ length (removelast line) = (length line - 1)%nat.
Proof.
  intros (Hb & Hl & Ht & Hz) Hne. destruct (exists_last Hne) as (l & x & ->).
  rewrite removelast_last, length_app in *. simpl in *. split; [|lia]. split; [done|]. split; [lia|]. split.
  - apply (f_equal (take (length l))) in Ht. rewrite take_take, take_app_length in Ht.
    by rewrite Nat.min_l in Ht by lia.
  - intros H. apply Hz, elem_of_app. by left.
Qed.

Lemma holds_string b line : holds b line -> string_at (<[length line := 0]> b) 0 = Some line.
Proof.
  intros (Hb & Hl & Ht & Hz). unfold string_at. cbn [Z.ltb Z.compare]. rewrite drop_0.
  assert (E : <[length line := 0]> b = line ++ 0 :: drop (S (length line)) b).
  { rewrite <- Ht at 2. apply insert_take_drop. rewrite Hb. unfold BUFLEN. lia. }
  rewrite E. by apply upto_nul_app.
Qed.

(** ** The loop *)

Lemma wp_cputs l s (Q : unit -> kbst -> Prop) J :
  Q tt (with_out (kb_out s ++ l) s) -> wp (cputs l) Q J s.
Proof.
  revert s. induction l as [|c l IH]; intros s HQ; cbn [cputs].
  - apply wp_ret. rewrite app_nil_r in HQ. by destruct s.
  - apply wp_bind, wp_modify, IH. cbn. by rewrite <- app_assoc.
Qed.

Lemma wp_poll_key d rest s (Q : Z -> kbst -> Prop) J :
  kb_in s = d :: rest -> d <> 8 ->
  Q (snd (decode_key (kb_shift s) d)) (with_shift (fst (decode_key (kb_shift s) d)) (with_in rest s)) ->
  wp poll_key Q J s.
Proof.
  intros Hin Hd HQ. unfold poll_key. apply wp_bind, wp_get. apply wp_bind. eapply wp_from_option.
  { rewrite Hin. cbn [read_data]. by rewrite (proj2 (Z.eqb_neq d 8)). }
  cbv beta iota. destruct (decode_key (kb_shift s) d) as [sh c]. cbv beta iota. apply wp_bind, wp_modify, wp_bind, wp_modify, wp_ret. exact HQ.
Qed.

(** What the turns of the loop keep. *)
Record turned (s s' : kbst) (cs_echo : list Z) (line' : list Z) : Prop := {
  tu_buf : holds (kb_buf s') line';
  tu_out : kb_out s' = kb_out s ++ cs_echo;
  tu_history : kb_history s' = kb_history s;
  tu_id : kb_history_id s' = kb_history_id s }.

Lemma wp_plain_step c line s (Q : option nat -> kbst -> Prop) J :
  holds (kb_buf s) line -> plain c -> 0 <= c < 256 ->
  (forall s', turned s s' (echo1 line c) (edit1 line c) -> kb_in s' = kb_in s -> kb_shift s' = kb_shift s ->
     Q (Some (length (edit1 line c))) s') ->
  wp (readline_step c (length line)) Q J s.
Proof.
  intros Hh [Ha He] Hc HQ. unfold is_arrow in Ha. apply orb_false_iff in Ha as [Hu Hd].
  unfold is_enter in He. unfold readline_step. apply wp_bind, wp_get. rewrite Hu, Hd.
  fold (deletes line c). replace (Z.of_nat BUFLEN - 1) with 1023 by (vm_compute; reflexivity).
  fold (inserts line c). unfold edit1, echo1 in HQ. destruct (deletes line c) eqn:Ed.
  - unfold deletes in Ed. apply andb_true_iff in Ed as [_ Ed]. apply Z.ltb_lt in Ed.
    destruct (holds_removelast _ _ Hh) as [Hh' Hl]; [destruct line; [simpl in Ed; lia|done]|].
    apply wp_bind, wp_cputs, wp_ret. rewrite <- Hl. apply HQ; [|done|done]. by split.
  - destruct (inserts line c) eqn:Ei.
    + apply wp_bind, wp_modify, wp_bind, wp_modify, wp_ret.
      replace (S (length line)) with (length (line ++ [c])) by (rewrite length_app; simpl; lia).
      apply HQ; [|done|done]. split; [|done|done|done]. by apply holds_snoc.
    + rewrite He. apply wp_ret. apply HQ; [|done|done]. split; [done| |done|done].
      by rewrite app_nil_r.
Qed.

Lemma turned_trans s1 s2 s3 e1 e2 l2 l3 :
  turned s1 s2 e1 l2 -> turned s2 s3 e2 l3 -> turned s1 s3 (e1 ++ e2) l3.
Proof. intros [A1 A2 A3 A4] [B1 B2 B3 B4]. split; [done|rewrite B2, A2; by rewrite app_assoc|congruence|congruence]. Qed.

(** A run of plain keys. *)
Lemma wp_readline_plain codes rest fuel line s (Q : unit -> kbst -> Prop) J :
  kb_in s = codes ++ rest -> Forall (fun d => d <> 8) codes -> Forall plain (snd (decode (kb_shift s) codes)) ->
  holds (kb_buf s) line ->
  (forall s', let cs := snd (decode (kb_shift s) codes) in turned s s' (echo line cs) (edit line cs) ->
     kb_in s' = rest -> kb_shift s' = fst (decode (kb_shift s) codes) ->
     wp (readline_loop fuel (length (edit line cs))) Q J s') ->
  wp (readline_loop (length codes + fuel) (length line)) Q J s.
Proof.
  revert line s. induction codes as [|d codes IH]; intros line s Hin Hne Hpl Hh HQ; cbn [length Nat.add].
  - apply (HQ s); [split; [done|by rewrite app_nil_r|done|done]|done|done].
  - cbn [readline_loop]. apply Forall_cons in Hne as [Hd Hne]. cbn [decode] in *.
    apply wp_bind. eapply wp_poll_key; [exact Hin|done|].
    pose proof (decode_key_range (kb_shift s) d) as Hr. destruct (decode_key (kb_shift s) d) as [sh c] eqn:E.
    cbn [fst snd] in *. destruct (decode sh codes) as [sh' cs] eqn:E2. cbn [fst snd] in *.
    apply Forall_cons in Hpl as [Hp Hpl]. apply wp_bind. apply wp_plain_step; [exact Hh|exact Hp|exact Hr|].
    intros s1 T1 Hin1 Hsh1. cbn in Hin1, Hsh1. apply IH; [done|done|by rewrite Hsh1, E2|exact (tu_buf _ _ _ _ T1)|].
    rewrite Hsh1, E2. cbn [fst snd]. intros s2 T2 Hin2 Hsh2. apply HQ; [|done|done].
    cbn [echo edit]. eapply turned_trans; [|exact T2]. destruct T1. by split.
Qed.

(** The line is done. *)
Lemma wp_enter_step c line s (Q : option nat -> kbst -> Prop) J :
  is_enter c = true -> holds (kb_buf s) line -> Z.of_nat (length (kb_history s)) = 102400 ->
  0 <= kb_history_id s < 200 -> (length line < 512)%nat ->
  (let off := Z.to_nat (HISTORY_ROW * kb_history_id s) in
   Q None (mkKb (kb_keydown s) (kb_lastkey s) (kb_ctrl s) (kb_shift s) (<[length line := 0]> (kb_buf s))
     (take off (kb_history s) ++ (line ++ [0]) ++ drop (off + S (length line)) (kb_history s))
     (kb_history_id s + 1) (kb_in s) (kb_out s ++ [10]))) ->
  wp (readline_step c (length line)) Q J s.
Proof.
  intros He Hh Hhl Hid Hl HQ. pose proof (holds_string _ _ Hh) as Hs.
  assert (Hc : c = 10 \/ c = 13) by (unfold is_enter in He; lia).
  unfold readline_step. apply wp_bind, wp_get.
  replace (c =? KEY_UP) with false by (destruct Hc as [->| ->]; done).
  replace (c =? KEY_DN) with false by (destruct Hc as [->| ->]; done).
  replace ((c =? 8) || (c =? 127)) with false by (destruct Hc as [->| ->]; done).
  replace (32 <=? c) with false by (destruct Hc as [->| ->]; done). cbn [andb].
  fold (is_enter c). rewrite He. apply wp_bind, wp_modify, wp_bind, wp_modify, wp_bind, wp_get.
  apply wp_bind. eapply wp_from_option; [exact Hs|]. apply wp_bind. cbn [kb_history_id kb_history with_buf with_out].
  eapply wp_from_option.
  - unfold put_string, HISTORY_ROW in *. rewrite length_app, Hhl. cbn [length].
    rewrite (proj2 (Z.leb_le _ _)), (proj2 (Z.leb_le _ _)) by lia. reflexivity.
  - apply wp_bind, wp_modify, wp_bind, wp_modify, wp_ret. cbn zeta in HQ.
    cbn -[take drop Z.to_nat Z.mul]. replace (length line + 1)%nat with (S (length line)) by lia. exact HQ.
Qed.

(** ** Properties *)

(** C35: [readline] on the bytes [codes] (keys other than the arrows up and
    down) followed by Enter: it returns the line they edit, echoes it, files
    it in its row of the history, and leaves the later bytes unread. *)
Theorem readline_correct prompt codes enter rest s :
  length (kb_buf s) = BUFLEN -> Z.of_nat (length (kb_history s)) = 102400 -> 0 <= kb_history_id s < 200 ->
  kb_in s = codes ++ enter :: rest -> Forall (fun d => d <> 8) (codes ++ [enter]) ->
  Forall plain (snd (decode (kb_shift s) codes)) ->
  is_enter (snd (decode_key (fst (decode (kb_shift s) codes)) enter)) = true ->
  (length (edit [] (snd (decode (kb_shift s) codes))) < 512)%nat ->
  wp (readline prompt) (fun r s' =>
    let cs := snd (decode (kb_shift s) codes) in
    let off := Z.to_nat (HISTORY_ROW * kb_history_id s) in
    r = edit [] cs /\ kb_in s' = rest /\ kb_out s' = kb_out s ++ prompt ++ echo [] cs ++ [10] /\
    kb_history s' = take off (kb_history s) ++ (r ++ [0]) ++ drop (off + S (length r)) (kb_history s) /\
    kb_history_id s' = kb_history_id s + 1) (fun _ => False) s.
Proof.
  intros Hb Hhl Hid Hin Hne Hpl Hen Hlen. apply Forall_app in Hne as [Hne Hne2]. apply Forall_cons in Hne2 as [He8 _].
  unfold readline. apply wp_bind, wp_cputs. set (s1 := with_out _ s). apply wp_bind, wp_get.
  apply wp_bind. change (kb_in s1) with (kb_in s). rewrite Hin, length_app. cbn [length].
  replace (S (length codes + S (length rest)))%nat with (length codes + S (S (length rest)))%nat by lia.
  change 0%nat with (length (@nil Z)). eapply wp_readline_plain; [exact Hin|done|exact Hpl|by apply holds_nil|].
  change (kb_shift s1) with (kb_shift s). cbv zeta. set (cs := snd (decode (kb_shift s) codes)) in *.
  intros s2 [T1 T2 T3 T4] Hin2 Hsh2. cbn [readline_loop].
  apply wp_bind. eapply wp_poll_key; [exact Hin2|done|]. rewrite Hsh2. apply wp_bind.
  apply wp_enter_step; [exact Hen|exact T1|cbn; rewrite T3; exact Hhl|cbn; rewrite T4; exact Hid|exact Hlen|].
  cbv zeta. apply wp_ret, wp_bind, wp_get. cbn [kb_buf]. eapply wp_from_option; [by apply holds_string|].
  split; [done|]. split; [done|]. cbn [kb_out kb_history kb_history_id with_shift with_in].
  rewrite T2, T3, T4. unfold s1. cbn [kb_out kb_history kb_history_id with_out]. by rewrite <- !app_assoc.
Qed.

(** "ls", a deleted "e", then Shift and "Q". *)
Definition demo_kb : kbst :=
  mkKb (replicate 26 0) 0 0 0 (replicate 1024 0) (replicate (200 * 512) 0) 0
    ([38; 166; 31; 18; 14; 42; 16; 170] ++ 28 :: [156]) [].

Lemma readline_correct_witness :
  wp (readline (chars "$> ")) (fun r s' =>
    let cs := snd (decode (kb_shift demo_kb) [38; 166; 31; 18; 14; 42; 16; 170]) in
    let off := Z.to_nat (HISTORY_ROW * kb_history_id demo_kb) in
    r = edit [] cs /\ kb_in s' = [156] /\ kb_out s' = kb_out demo_kb ++ chars "$> " ++ echo [] cs ++ [10] /\
    kb_history s' = take off (kb_history demo_kb) ++ (r ++ [0]) ++ drop (off + S (length r)) (kb_history demo_kb) /\
    kb_history_id s' = kb_history_id demo_kb + 1) (fun _ => False) demo_kb.
Proof.
  apply (readline_correct (chars "$> ") [38; 166; 31; 18; 14; 42; 16; 170] 28 [156]).
  - reflexivity.
  - unfold demo_kb. cbn [kb_history]. rewrite length_replicate. reflexivity.
  - cbn. lia.
  - reflexivity.
  - repeat constructor; discriminate.
  - vm_compute. repeat constructor.
  - reflexivity.
  - vm_compute. lia.
Defined.

(** ** The keys that cannot be typed *)

(** [poll_key] skips the byte [0x08], which is the key of the digit 7. *)
Lemma read_data_not_8 l d r : read_data l = Some (d, r) -> d <> 8.
Proof.
  induction l as [|x l IH]; cbn [read_data]; [done|]. destruct (Z.eqb_spec x 8) as [->|]; [done|]. intros [= -> ->]. done.
Qed.

(** The key 7 of the top row is lost: its press, the byte [0x08], is
    skipped whatever the modifiers, although [normalmap] and [shiftmap] give
    it the characters 7 and [&]. *)
Theorem key_7_lost l s :
  normalmap 8 = 55 /\ shiftmap 8 = 38 /\ poll_key (with_in (8 :: l) s) = poll_key (with_in l s).
Proof.
  split; [reflexivity|]. split; [reflexivity|]. unfold poll_key, mbind, M_bind, get. cbn [kb_in with_in read_data Z.eqb Pos.eqb].
  destruct (read_data l) as [[d r]|]; [|done]. cbn. by destruct (decode_key (kb_shift s) d).
Qed.
