(* ===== verification/Video.v ===== *)
(** * The screen

    Models [kernel/src/video.c]: a picture is drawn into [VCACHE] and shown
    by copying its dirty rows to the video memory.  Rows are [x], columns
    [y], as in the code.  An array is a function on its indexes; every index
    the code uses is in range.  [memcpy] counts double words, which is why
    its lengths are divided by four. *)

From S2P Require Import Prelude.

Definition VWIDTH : Z := 320.
Definition VHEIGHT : nat := 200.

Record vidst : Type := mkVid {
  VRAM : Z -> Z;
  VCACHE : Z -> Z;
  VDIRTY : Z -> Z;
  VCDIRTY : Z -> Z;
  stamp : Z }.

Definition with_VRAM v s := mkVid v (VCACHE s) (VDIRTY s) (VCDIRTY s) (stamp s).
Definition with_VCACHE v s := mkVid (VRAM s) v (VDIRTY s) (VCDIRTY s) (stamp s).
Definition with_VDIRTY v s := mkVid (VRAM s) (VCACHE s) v (VCDIRTY s) (stamp s).
Definition with_VCDIRTY v s := mkVid (VRAM s) (VCACHE s) (VDIRTY s) v (stamp s).
Definition with_stamp v s := mkVid (VRAM s) (VCACHE s) (VDIRTY s) (VCDIRTY s) v.

(** [memcpy(dst + off, src, words)]: [4 * words] bytes. *)
Definition copy_words (off words : Z) (src dst : Z -> Z) : Z -> Z :=
  fun i => if (off <=? i) && (i <? off + 4 * words) then src (i - off) else dst i.

Definition VEMPTY : Z -> Z := fun _ => 0.

(** [for(x=0; x<VHEIGHT; x++) VDIRTY[x] = 0;] *)
Definition zero_rows (a : Z -> Z) : Z -> Z :=
  fun i => if (0 <=? i) && (i <? Z.of_nat VHEIGHT) then 0 else a i.

Definition initVCache (s : vidst) : vidst :=
  with_VDIRTY (zero_rows (VDIRTY s)) (with_VCACHE (copy_words 0 (VWIDTH * Z.of_nat VHEIGHT / 4) VEMPTY (VCACHE s)) s).

Definition refreshVCache (s : vidst) : vidst := with_VDIRTY (zero_rows (VDIRTY s)) s.

Fixpoint flush_rows (n : nat) (x : Z) (s : vidst) : vidst :=
  match n with
  | O => s
  | S n =>
      let s := if VDIRTY s x =? 0 then s
        else with_VRAM (copy_words (VWIDTH * x) (VWIDTH / 4) (fun i => VCACHE s (VWIDTH * x + i)) (VRAM s)) s in
      flush_rows n (x + 1) s
  end.
Definition flushVCache : vidst -> vidst := flush_rows VHEIGHT 0.

Definition setPixelAt (x y color : Z) (s : vidst) : vidst :=
  if (x <? 0) || (Z.of_nat VHEIGHT <=? x) || (y <? 0) || (VWIDTH <=? y) then s
  else
    let s := with_VDIRTY (<[x := 1]> (VDIRTY s)) s in
    let s := with_VCDIRTY (<[x := 1]> (VCDIRTY s)) s in
    with_VCACHE (<[VWIDTH * x + y := u8 color]> (VCACHE s)) s.

Fixpoint clear_rows (n : nat) (x : Z) (s : vidst) : vidst :=
  match n with
  | O => s
  | S n =>
      let s := if Z.land (VCDIRTY s x) (Z.lnot (VDIRTY s x)) =? 0 then s
        else with_VRAM (copy_words (VWIDTH * x) (VWIDTH / 4) VEMPTY (VRAM s)) s in
      clear_rows n (x + 1) s
  end.

Definition clearVRAM (s : vidst) : vidst :=
  let s := clear_rows VHEIGHT 0 s in
  let s := with_stamp (u8 (stamp s + 1)) s in
  let s := if stamp s =? 30 then with_stamp 0 s else s in
  if stamp s =? 0 then with_VCDIRTY (copy_words 0 (Z.of_nat VHEIGHT / 4) VEMPTY (VCDIRTY s)) s else s.

(** [SYS_FLUSH_VCACHE] *)
Definition flush_vcache (s : vidst) : vidst := flushVCache (clearVRAM s).

(** ** Frames *)

(** A program draws a frame: [SYS_INIT_CACHE], [SYS_SET_PIXEL] for each
    pixel, [SYS_FLUSH_VCACHE]. *)
Definition pixel : Type := (Z * Z * Z)%type.
Fixpoint draw (px : list pixel) (s : vidst) : vidst :=
  match px with [] => s | (x, y, c) :: px => draw px (setPixelAt x y c s) end.
Definition frame (px : list pixel) (s : vidst) : vidst := flush_vcache (draw px (initVCache s)).

Definition on_screen (x y : Z) : Prop := 0 <= x < 200 /\ 0 <= y < 320.

(** The picture: the last colour drawn at a point, black elsewhere. *)
Fixpoint picture (px : list pixel) (x y : Z) (bg : Z) : Z :=
  match px with
  | [] => bg
  | (x', y', c) :: px => picture px x y (if decide (x' = x /\ y' = y) then u8 c else bg)
  end.

Definition row_drawn (px : list pixel) (x : Z) : Prop := exists y c, (x, y, c) ∈ px /\ on_screen x y.

(** Rows of [VRAM] that are not black are marked in [VCDIRTY]; the marks are
    0 or 1. *)
Record Vok (s : vidst) : Prop := {
  vo_mark : forall x, VDIRTY s x = 0 \/ VDIRTY s x = 1;
  vo_cmark : forall x, VCDIRTY s x = 0 \/ VCDIRTY s x = 1;
  vo_stamp : 0 <= stamp s < 30;
  vo_black : forall x y, on_screen x y -> VCDIRTY s x = 0 -> VRAM s (VWIDTH * x + y) = 0 }.

Lemma index_inj x y x' y' : on_screen x y -> on_screen x' y' -> VWIDTH * x + y = VWIDTH * x' + y' -> x = x' /\ y = y'.
Proof. unfold on_screen, VWIDTH. lia. Qed.

Lemma copy_row_in off src dst x y : off = VWIDTH * x -> on_screen x y ->
  copy_words off (VWIDTH / 4) src dst (VWIDTH * x + y) = src y.
Proof.
  intros -> [Hx Hy]. unfold copy_words. change (4 * (VWIDTH / 4)) with 320.
  rewrite (proj2 (Z.leb_le _ _)), (proj2 (Z.ltb_lt _ _)) by lia. cbn [andb]. f_equal. lia.
Qed.

Lemma copy_row_out src dst x x' y : x' <> x -> on_screen x' y ->
  copy_words (VWIDTH * x) (VWIDTH / 4) src dst (VWIDTH * x' + y) = dst (VWIDTH * x' + y).
Proof.
  intros Hne [Hx Hy]. unfold copy_words. change (4 * (VWIDTH / 4)) with 320. unfold VWIDTH.
  destruct (Z.leb_spec (320 * x) (320 * x' + y)), (Z.ltb_spec (320 * x' + y) (320 * x + 320)); try done. lia.
Qed.

Lemma flush_rows_spec n x0 s x y : on_screen x y -> 0 <= x0 ->
  let s' := flush_rows n x0 s in
  VRAM s' (VWIDTH * x + y) =
    (if decide (x0 <= x < x0 + Z.of_nat n /\ VDIRTY s x <> 0) then VCACHE s (VWIDTH * x + y) else VRAM s (VWIDTH * x + y)) /\
  VCDIRTY s' = VCDIRTY s /\ VDIRTY s' = VDIRTY s /\ VCACHE s' = VCACHE s /\ stamp s' = stamp s.
Proof.
  revert x0 s. induction n as [|n IH]; intros x0 s Hs Hx0; cbn [flush_rows].
  - rewrite decide_False by lia. done.
  - cbv zeta. set (s1 := if VDIRTY s x0 =? 0 then s else _).
    destruct (IH (x0 + 1) s1 Hs ltac:(lia)) as (E & -> & -> & -> & ->).
    assert (Hs1 : VCDIRTY s1 = VCDIRTY s /\ VDIRTY s1 = VDIRTY s /\ VCACHE s1 = VCACHE s /\ stamp s1 = stamp s).
    { unfold s1. by destruct (VDIRTY s x0 =? 0). }
    destruct Hs1 as (-> & Hd & Hc & ->). split; [|done]. cbv zeta in E. rewrite E, Hd, Hc.
    destruct (decide (x = x0)) as [->|Hne].
    + rewrite decide_False by lia. unfold s1. destruct (Z.eqb_spec (VDIRTY s x0) 0) as [E0|E0].
      * by rewrite decide_False by tauto.
      * rewrite decide_True by lia. cbn [VRAM with_VRAM]. by rewrite copy_row_in.
    + assert (HV : VRAM s1 (VWIDTH * x + y) = VRAM s (VWIDTH * x + y)).
      { unfold s1. destruct (VDIRTY s x0 =? 0); [done|]. cbn [VRAM with_VRAM]. by apply copy_row_out. }
      rewrite HV. repeat case_decide; try done; lia.
Qed.

Lemma clear_rows_spec n x0 s x y : on_screen x y -> 0 <= x0 ->
  let s' := clear_rows n x0 s in
  VRAM s' (VWIDTH * x + y) =
    (if decide (x0 <= x < x0 + Z.of_nat n /\ Z.land (VCDIRTY s x) (Z.lnot (VDIRTY s x)) <> 0) then 0
     else VRAM s (VWIDTH * x + y)) /\
  VCDIRTY s' = VCDIRTY s /\ VDIRTY s' = VDIRTY s /\ VCACHE s' = VCACHE s /\ stamp s' = stamp s.
Proof.
  revert x0 s. induction n as [|n IH]; intros x0 s Hs Hx0; cbn [clear_rows].
  - rewrite decide_False by lia. done.
  - cbv zeta. set (s1 := if Z.land _ _ =? 0 then s else _).
    destruct (IH (x0 + 1) s1 Hs ltac:(lia)) as (E & -> & -> & -> & ->).
    assert (Hs1 : VCDIRTY s1 = VCDIRTY s /\ VDIRTY s1 = VDIRTY s /\ VCACHE s1 = VCACHE s /\ stamp s1 = stamp s).
    { unfold s1. by destruct (Z.land (VCDIRTY s x0) (Z.lnot (VDIRTY s x0)) =? 0). }
    destruct Hs1 as (Hcd & Hd & -> & ->). rewrite Hcd, Hd. split; [|done]. cbv zeta in E. rewrite E, Hcd, Hd.
    destruct (decide (x = x0)) as [->|Hne].
    + rewrite decide_False by lia. unfold s1.
      destruct (Z.eqb_spec (Z.land (VCDIRTY s x0) (Z.lnot (VDIRTY s x0))) 0) as [E0|E0].
      * by rewrite decide_False by tauto.
      * rewrite decide_True by lia. cbn [VRAM with_VRAM]. by rewrite copy_row_in.
    + assert (HV : VRAM s1 (VWIDTH * x + y) = VRAM s (VWIDTH * x + y)).
      { unfold s1. destruct (Z.land (VCDIRTY s x0) (Z.lnot (VDIRTY s x0)) =? 0); [done|].
        cbn [VRAM with_VRAM]. by apply copy_row_out. }
      rewrite HV. repeat case_decide; try done; lia.
Qed.

(** ** Properties of the screen *)

Lemma zero_rows_in a x : 0 <= x < 200 -> zero_rows a x = 0.
Proof.
  intros H. unfold zero_rows. change (Z.of_nat VHEIGHT) with 200.
  by rewrite (proj2 (Z.leb_le _ _)), (proj2 (Z.ltb_lt _ _)) by lia.
Qed.

Lemma init_black s x y : on_screen x y -> VCACHE (initVCache s) (VWIDTH * x + y) = 0.
Proof.
  intros [Hx Hy]. unfold initVCache. cbn [VCACHE with_VDIRTY with_VCACHE]. unfold copy_words, VWIDTH.
  change (4 * (320 * Z.of_nat VHEIGHT / 4)) with 64000.
  by rewrite (proj2 (Z.leb_le _ _)), (proj2 (Z.ltb_lt _ _)) by lia.
Qed.

Lemma setPixelAt_in x y c s : on_screen x y ->
  setPixelAt x y c s = mkVid (VRAM s) (<[VWIDTH * x + y := u8 c]> (VCACHE s)) (<[x := 1]> (VDIRTY s))
    (<[x := 1]> (VCDIRTY s)) (stamp s).
Proof.
  intros [Hx Hy]. unfold setPixelAt, VWIDTH. change (Z.of_nat VHEIGHT) with 200.
  by rewrite (proj2 (Z.ltb_ge x 0)), (proj2 (Z.leb_gt 200 x)), (proj2 (Z.ltb_ge y 0)), (proj2 (Z.leb_gt 320 y)) by lia.
Qed.

Lemma setPixelAt_out x y c s : ~ on_screen x y -> setPixelAt x y c s = s.
Proof.
  intros H. unfold setPixelAt, VWIDTH. change (Z.of_nat VHEIGHT) with 200.
  destruct (Z.ltb_spec x 0), (Z.leb_spec 200 x), (Z.ltb_spec y 0), (Z.leb_spec 320 y); try done.
  destruct H. unfold on_screen. lia.
Qed.

#[global] Instance on_screen_dec x y : Decision (on_screen x y).
Proof. unfold on_screen. apply _. Defined.

Lemma row_drawn_cons x' y' c px x :
  row_drawn ((x', y', c) :: px) x <-> (x' = x /\ on_screen x' y') \/ row_drawn px x.
Proof.
  unfold row_drawn. split.
  - intros (y & c' & [[= -> -> ->]|Hin]%elem_of_cons & Hs); [by left|]. right. by exists y, c'.
  - intros [[-> Hs]|(y & c' & Hin & Hs)]; [exists y', c; split; [left|done]|exists y, c'; split; [by right|done]].
Qed.

(** Drawing on a cache. *)
Lemma draw_spec px s x y : on_screen x y -> let s' := draw px s in
  VCACHE s' (VWIDTH * x + y) = picture px x y (VCACHE s (VWIDTH * x + y)) /\
  (row_drawn px x -> VDIRTY s' x = 1 /\ VCDIRTY s' x = 1) /\
  (~ row_drawn px x -> VDIRTY s' x = VDIRTY s x /\ VCDIRTY s' x = VCDIRTY s x) /\
  (VDIRTY s x = 1 -> VDIRTY s' x = 1) /\ (VCDIRTY s x = 1 -> VCDIRTY s' x = 1) /\
  VRAM s' = VRAM s /\ stamp s' = stamp s.
Proof.
  intros Hs. revert s. induction px as [|[[x' y'] c] px IH]; intros s; cbn [draw picture]; cbv zeta.
  - split; [done|]. split; [by intros (? & ? & ?%elem_of_nil & _)|]. done.
  - destruct (IH (setPixelAt x' y' c s)) as (E1 & E2 & E3 & E4 & E5 & -> & ->). cbv zeta in *. rewrite row_drawn_cons.
    destruct (decide (on_screen x' y')) as [Hs'|Hs'].
    + rewrite setPixelAt_in in * by done. cbn [VCACHE VDIRTY VCDIRTY VRAM stamp] in *.
      split; [|split; [|split; [|split; [|split; [|done]]]]].
      * rewrite E1. f_equal. case_decide as Hxy.
        -- destruct Hxy as [-> ->]. apply fn_lookup_insert.
        -- rewrite fn_lookup_insert_ne; [done|]. intros E. apply Hxy. by apply (index_inj x' y' x y) in E.
      * intros [[-> _]|Hr]; [|by apply E2]. rewrite !fn_lookup_insert in E4, E5. split; [by apply E4|by apply E5].
      * intros Hn. destruct E3 as [-> ->]; [tauto|]. rewrite !fn_lookup_insert_ne by (intros ->; tauto). done.
      * intros H. apply E4. destruct (decide (x' = x)) as [->|]; [by rewrite fn_lookup_insert|by rewrite fn_lookup_insert_ne].
      * intros H. apply E5. destruct (decide (x' = x)) as [->|]; [by rewrite fn_lookup_insert|by rewrite fn_lookup_insert_ne].
    + rewrite setPixelAt_out in * by done. split; [|split; [|split; [|split; [|split; [|done]]]]].
      * rewrite E1. f_equal. rewrite decide_False; [done|]. intros [-> ->]. done.
      * intros [[-> ?]|Hr]; [done|by apply E2].
      * intros Hn. apply E3. tauto.
      * done.
      * done.
Qed.

Lemma marks_setPixelAt x y c s : (forall i, VDIRTY s i = 0 \/ VDIRTY s i = 1) -> (forall i, VCDIRTY s i = 0 \/ VCDIRTY s i = 1) ->
  (forall i, VDIRTY (setPixelAt x y c s) i = 0 \/ VDIRTY (setPixelAt x y c s) i = 1) /\
  (forall i, VCDIRTY (setPixelAt x y c s) i = 0 \/ VCDIRTY (setPixelAt x y c s) i = 1).
Proof.
  intros H1 H2. destruct (decide (on_screen x y)) as [Hs|Hs]; [|by rewrite setPixelAt_out].
  rewrite setPixelAt_in by done. cbn [VDIRTY VCDIRTY]. split; intros i.
  all: destruct (decide (i = x)) as [->|]; [rewrite fn_lookup_insert; by right|rewrite fn_lookup_insert_ne by congruence]; auto.
Qed.

Lemma marks_draw px s : (forall i, VDIRTY s i = 0 \/ VDIRTY s i = 1) -> (forall i, VCDIRTY s i = 0 \/ VCDIRTY s i = 1) ->
  (forall i, VDIRTY (draw px s) i = 0 \/ VDIRTY (draw px s) i = 1) /\
  (forall i, VCDIRTY (draw px s) i = 0 \/ VCDIRTY (draw px s) i = 1).
Proof.
  revert s. induction px as [|[[x y] c] px IH]; intros s H1 H2; [done|]. cbn [draw].
  destruct (marks_setPixelAt x y c s H1 H2). by apply IH.
Qed.

(** The parts of [flush_vcache]. *)
Definition next_stamp (n : Z) : Z := if u8 (n + 1) =? 30 then 0 else u8 (n + 1).

Lemma clearVRAM_spec s x y : on_screen x y -> let s' := clearVRAM s in
  VRAM s' (VWIDTH * x + y) =
    (if decide (Z.land (VCDIRTY s x) (Z.lnot (VDIRTY s x)) <> 0) then 0 else VRAM s (VWIDTH * x + y)) /\
  VDIRTY s' = VDIRTY s /\ VCACHE s' = VCACHE s /\ stamp s' = next_stamp (stamp s) /\
  VCDIRTY s' = (if next_stamp (stamp s) =? 0 then copy_words 0 (Z.of_nat VHEIGHT / 4) VEMPTY (VCDIRTY s) else VCDIRTY s).
Proof.
  intros Hs. unfold clearVRAM, next_stamp. cbv zeta.
  destruct (clear_rows_spec VHEIGHT 0 s x y Hs ltac:(lia)) as (E1 & E2 & E3 & E4 & E5). cbv zeta in E1.
  assert (E1' : VRAM (clear_rows VHEIGHT 0 s) (VWIDTH * x + y) =
    (if decide (Z.land (VCDIRTY s x) (Z.lnot (VDIRTY s x)) <> 0) then 0 else VRAM s (VWIDTH * x + y))).
  { rewrite E1. destruct Hs as [Hx _]. change (0 + Z.of_nat VHEIGHT) with 200.
    apply decide_ext. split; [by intros [_ H]|by split; [lia|]]. }
  clear E1. set (r := clear_rows VHEIGHT 0 s) in *. clearbody r.
  cbn [stamp with_stamp]. rewrite E5.
  destruct (u8 (stamp s + 1) =? 30) eqn:E30; cbn [stamp with_stamp].
  - cbn [VRAM VDIRTY VCACHE VCDIRTY stamp with_VCDIRTY with_stamp Z.eqb]. by rewrite E2.
  - destruct (u8 (stamp s + 1) =? 0);
      cbn [VRAM VDIRTY VCACHE VCDIRTY stamp with_VCDIRTY with_stamp]; by rewrite ?E2.
Qed.

Lemma flush_vcache_spec s x y : on_screen x y -> let s' := flush_vcache s in
  VRAM s' (VWIDTH * x + y) =
    (if decide (VDIRTY s x <> 0) then VCACHE s (VWIDTH * x + y)
     else if decide (Z.land (VCDIRTY s x) (Z.lnot (VDIRTY s x)) <> 0) then 0 else VRAM s (VWIDTH * x + y)) /\
  VDIRTY s' = VDIRTY s /\ stamp s' = next_stamp (stamp s) /\
  VCDIRTY s' = (if next_stamp (stamp s) =? 0 then copy_words 0 (Z.of_nat VHEIGHT / 4) VEMPTY (VCDIRTY s) else VCDIRTY s).
Proof.
  intros Hs. unfold flush_vcache, flushVCache. cbv zeta.
  destruct (clearVRAM_spec s x y Hs) as (C1 & C2 & C3 & C4 & C5).
  destruct (flush_rows_spec VHEIGHT 0 (clearVRAM s) x y Hs ltac:(lia)) as (F1 & F2 & F3 & F4 & F5).
  cbv zeta in *. set (r := clearVRAM s) in *. clearbody r. set (r' := flush_rows VHEIGHT 0 r) in *. clearbody r'.
  rewrite F1, F2, F3, F5, C1, C2, C3, C4, C5. split; [|done].
  destruct Hs as [Hx _]. change (0 + Z.of_nat VHEIGHT) with 200.
  apply decide_ext. split; [by intros [_ H]|by split; [lia|]].
Qed.

#[local] Opaque flush_vcache.

Lemma row_drawn_picture px x y bg : on_screen x y -> ~ row_drawn px x -> picture px x y bg = bg.
Proof.
  intros Hs. revert bg. induction px as [|[[x' y'] c] px IH]; intros bg Hn; cbn [picture]; [done|].
  rewrite row_drawn_cons in Hn. rewrite IH by tauto. rewrite decide_False; [done|]. intros [-> ->]. tauto.
Qed.

#[global] Instance row_drawn_dec px x : Decision (row_drawn px x).
Proof.
  induction px as [|[[x' y'] c] px IH].
  - right. by intros (? & ? & ?%elem_of_nil & _).
  - destruct (decide (x' = x /\ on_screen x' y')) as [H|H]; [left; apply row_drawn_cons; by left|].
    destruct IH as [H'|H']; [left; apply row_drawn_cons; by right|right]. rewrite row_drawn_cons. tauto.
Defined.

Section frame.
Context (px : list pixel) (s : vidst) (Hok : Vok s).
#[local] Set Default Proof Using "All".

Lemma frame_parts x y : on_screen x y ->
  VRAM (frame px s) (VWIDTH * x + y) = picture px x y 0 /\
  stamp (frame px s) = next_stamp (stamp s) /\
  (next_stamp (stamp s) <> 0 -> VCDIRTY (frame px s) x = 0 -> ~ row_drawn px x).
Proof.
  intros Hs. unfold frame. destruct (flush_vcache_spec (draw px (initVCache s)) x y Hs) as (F1 & F2 & F3 & F4).
  destruct (draw_spec px (initVCache s) x y Hs) as (D1 & D2 & D3 & _ & _ & D6 & D7). cbv zeta in *.
  rewrite F1, F3, F4, D7, D1, D6, init_black by done. change (stamp (initVCache s)) with (stamp s).
  assert (Hd0 : VDIRTY (initVCache s) x = 0) by (apply zero_rows_in; by destruct Hs).
  destruct (decide (row_drawn px x)) as [Hr|Hr].
  - destruct (D2 Hr) as [-> HC]. split; [by rewrite decide_True|]. split; [done|].
    intros Hns. rewrite (proj2 (Z.eqb_neq _ 0) Hns), HC. done.
  - destruct (D3 Hr) as [-> HC]. rewrite HC, Hd0. split; [|split; [reflexivity|intros _ _; exact Hr]]. rewrite decide_False by tauto.
    rewrite row_drawn_picture by done. change (VRAM (initVCache s)) with (VRAM s).
    change (VCDIRTY (initVCache s)) with (VCDIRTY s). clear F1 F2 F3 F4 D1 D2 D3 D6 D7. case_decide as E; [reflexivity|].
    apply (vo_black _ Hok); [done|]. destruct (vo_cmark _ Hok x) as [H|H]; [done|]. rewrite H in E. by destruct E.
Qed.

(** A frame shows the picture drawn, whatever was on the screen before;
    and except for every thirtieth frame the marks still cover the screen,
    so the next frame is right too. *)
Theorem frame_correct :
  (forall x y, on_screen x y -> VRAM (frame px s) (VWIDTH * x + y) = picture px x y 0) /\
  (stamp s <> 29 -> Vok (frame px s)).
Proof.
  split; [intros x y Hs; by apply frame_parts|]. intros Hst. pose proof (vo_stamp _ Hok) as Hr.
  assert (E : next_stamp (stamp s) = stamp s + 1).
  { unfold next_stamp, u8. rewrite Z.mod_small by lia. by rewrite (proj2 (Z.eqb_neq _ _)) by lia. }
  assert (H0 : on_screen 0 0) by (unfold on_screen; lia).
  destruct (flush_vcache_spec (draw px (initVCache s)) 0 0 H0) as (_ & F2 & F3 & F4). cbv zeta in *.
  destruct (draw_spec px (initVCache s) 0 0 H0) as (_ & _ & _ & _ & _ & _ & D7). cbv zeta in D7.
  destruct (marks_draw px (initVCache s)) as [M1 M2].
  { intros i. unfold initVCache. cbn [VDIRTY with_VDIRTY]. unfold zero_rows.
    destruct ((0 <=? i) && (i <? Z.of_nat VHEIGHT)); [by left|]. apply (vo_mark _ Hok). }
  { apply (vo_cmark _ Hok). }
  split.
  - unfold frame. by rewrite F2.
  - unfold frame. rewrite F4, D7. change (stamp (initVCache s)) with (stamp s). rewrite E.
    by rewrite (proj2 (Z.eqb_neq _ 0)) by lia.
  - unfold frame. rewrite F3, D7. change (stamp (initVCache s)) with (stamp s). rewrite E. lia.
  - intros x y Hs Hc. destruct (frame_parts x y Hs) as (-> & _ & Hn). apply row_drawn_picture; [done|].
    apply Hn; [lia|done].
Qed.
End frame.

Definition demo_screen : vidst := mkVid (fun _ => 0) (fun _ => 0) (fun _ => 0) (fun _ => 0) 29.

Lemma demo_screen_ok : Vok demo_screen.
Proof. split; cbn; intros; try (by left); lia || done. Qed.

Lemma frame_correct_witness :
  let s := with_stamp 7 demo_screen in let px := [(10, 20, 15); (10, 20, 7); (300, 0, 1)] in
  (forall x y, on_screen x y -> VRAM (frame px s) (VWIDTH * x + y) = picture px x y 0) /\
  (stamp s <> 29 -> Vok (frame px s)).
Proof. apply frame_correct. split; cbn; intros; try (by left); lia || done. Defined.

(** On every thirtieth frame the marks are dropped: what that frame drew
    stays on the screen through a following frame that draws nothing. *)
Theorem frame_ghost s x y c : Vok s -> stamp s = 29 -> on_screen x y ->
  VRAM (frame [] (frame [(x, y, c)] s)) (VWIDTH * x + y) = u8 c.
Proof.
  intros Hok H29 Hs. set (s1 := frame [(x, y, c)] s).
  destruct (frame_parts [(x, y, c)] s Hok x y Hs) as (V1 & S1 & _). fold s1 in V1, S1.
  cbn [picture] in V1. rewrite decide_True in V1 by (split; reflexivity).
  destruct (flush_vcache_spec (draw [(x, y, c)] (initVCache s)) x y Hs) as (_ & _ & _ & F4). cbv zeta in F4.
  destruct (draw_spec [(x, y, c)] (initVCache s) x y Hs) as (_ & _ & _ & _ & _ & _ & D7). cbv zeta in D7.
  assert (HC : VCDIRTY s1 x = 0).
  { unfold s1, frame. rewrite F4, D7. change (stamp (initVCache s)) with (stamp s). rewrite H29.
    change (next_stamp 29 =? 0) with true. unfold copy_words. destruct Hs as [Hx _].
    change (0 + 4 * (Z.of_nat VHEIGHT / 4)) with 200.
    rewrite (proj2 (Z.leb_le _ _)), (proj2 (Z.ltb_lt _ _)) by lia. reflexivity. }
  clear F4 D7 S1. unfold frame at 1. destruct (flush_vcache_spec (draw [] (initVCache s1)) x y Hs) as (F & _). cbv zeta in F. rewrite F.
  cbn [draw]. rewrite decide_False, decide_False.
  - exact V1.
  - change (VCDIRTY (initVCache s1)) with (VCDIRTY s1). rewrite HC. intros H. apply H. reflexivity.
  - intros H. apply H. apply zero_rows_in. by destruct Hs.
Qed.

Lemma frame_ghost_witness :
  VRAM (frame [] (frame [(10, 20, 15)] demo_screen)) (VWIDTH * 10 + 20) = u8 15.
Proof. apply frame_ghost; [apply demo_screen_ok|reflexivity|unfold on_screen; lia]. Defined.
