(* ===== verification/Descr.v ===== *)
(** * Segment and gate descriptors

    Models the descriptor tables of [kernel/src/memory/kvm.c] and
    [kernel/src/irq/idt.c] with the entries of [kernel/src/memory/util.c].
    A structure of bit fields is a record of the values stored; [seg_word],
    [gate_word] and [pde_word] are the bits the compiler lays the fields out
    in, from the least significant on.  The addresses of the assembly entry
    points and of the tables are parameters. *)

From S2P Require Import Prelude.

(** An assignment to an [n]-bit field. *)
Definition field (n v : Z) : Z := v mod 2 ^ n.

(** ** [inc/memory.h] *)

Definition SEG_WRITABLE : Z := 0x2.
Definition SEG_READABLE : Z := 0x2.
Definition SEG_EXECUTABLE : Z := 0x8.
Definition SEG_TSS_32BIT : Z := 0x9.
Definition DPL_KERNEL : Z := 0.
Definition DPL_USER : Z := 3.
Definition NR_SEGMENTS : nat := 6.
Definition SEG_KERNEL_CODE : Z := 1.
Definition SEG_KERNEL_DATA : Z := 2.
Definition SEG_USER_CODE : Z := 3.
Definition SEG_USER_DATA : Z := 4.
Definition SEG_TSS : Z := 5.
Definition SELECTOR_KERNEL (s : Z) : Z := Z.lor (Z.shiftl s 3) DPL_KERNEL.
Definition SELECTOR_USER (s : Z) : Z := Z.lor (Z.shiftl s 3) DPL_USER.

Record SegDesc : Type := mkSeg {
  limit_15_0 : Z; base_15_0 : Z; base_23_16 : Z; sd_type : Z; segment_type : Z; privilege_level : Z;
  sd_present : Z; limit_19_16 : Z; soft_use : Z; operation_size : Z; pad0 : Z; granularity : Z; base_31_24 : Z }.

Definition seg_zero : SegDesc := mkSeg 0 0 0 0 0 0 0 0 0 0 0 0 0.

(** Fields with their widths, concatenated. *)
Fixpoint pack (l : list (Z * Z)) : Z :=
  match l with [] => 0 | (n, v) :: l => v + 2 ^ n * pack l end.

Definition seg_fields (d : SegDesc) : list (Z * Z) :=
  [(16, limit_15_0 d); (16, base_15_0 d); (8, base_23_16 d); (4, sd_type d); (1, segment_type d);
   (2, privilege_level d); (1, sd_present d); (4, limit_19_16 d); (1, soft_use d); (1, operation_size d);
   (1, pad0 d); (1, granularity d); (8, base_31_24 d)].
Definition seg_word (d : SegDesc) : Z := pack (seg_fields d).

Record TSS : Type := mkTss { tss_prev : Z; tss_esp0 : Z; tss_ss0 : Z }.
(** [sizeof(TSS)]: three words and 88 bytes. *)
Definition sizeof_TSS : Z := 100.

(** The tables of [kvm.c]; [after_gdt] is what the linker put behind [gdt],
    as words. *)
Record descst : Type := mkDesc {
  gdt : list SegDesc;
  after_gdt : Z -> Z;
  tss : TSS;
  gdtr : Z * Z;               (* base and limit *)
  idtr : Z * Z;
  tr : Z }.

Definition with_gdt v s := mkDesc v (after_gdt s) (tss s) (gdtr s) (idtr s) (tr s).
Definition with_after v s := mkDesc (gdt s) v (tss s) (gdtr s) (idtr s) (tr s).
Definition with_tss v s := mkDesc (gdt s) (after_gdt s) v (gdtr s) (idtr s) (tr s).
Definition with_gdtr v s := mkDesc (gdt s) (after_gdt s) (tss s) v (idtr s) (tr s).
Definition with_idtr v s := mkDesc (gdt s) (after_gdt s) (tss s) (gdtr s) v (tr s).
Definition with_tr v s := mkDesc (gdt s) (after_gdt s) (tss s) (gdtr s) (idtr s) v.

(** ** [kvm.c] *)

Definition set_tss_desc (tss_addr : Z) : SegDesc :=
  let base := tss_addr in
  let limit := sizeof_TSS - 1 in
  mkSeg (field 16 (Z.land limit 0xffff)) (field 16 (Z.land base 0xffff))
    (field 8 (Z.land (Z.shiftr base 16) 0xff)) SEG_TSS_32BIT 0 DPL_USER 1 (field 4 (Z.shiftr limit 16))
    0 0 1 0 (field 8 (Z.shiftr base 24)).

Definition set_tss (tss_addr : Z) (i : nat) (s : descst) : descst :=
  let s := with_tss (mkTss (tss_prev (tss s)) (tss_esp0 (tss s)) (SELECTOR_KERNEL SEG_KERNEL_DATA)) s in
  with_gdt (<[i := set_tss_desc tss_addr]> (gdt s)) s.

Definition set_tss_esp0 (esp : Z) (s : descst) : descst :=
  with_tss (mkTss (tss_prev (tss s)) esp (tss_ss0 (tss s))) s.

Definition segment (pl type : Z) : SegDesc :=
  mkSeg 0xFFFF 0 0 (field 4 type) 1 (field 2 pl) 1 0xF 0 0 1 1 0.

Definition set_segment (i : nat) (pl type : Z) (s : descst) : descst :=
  with_gdt (<[i := segment pl type]> (gdt s)) s.

(** [memset(gdt, 0, sizeof(gdt))] clears 48 double words: the 12 of [gdt]
    and 36 more. *)
Definition memset_gdt (s : descst) : descst :=
  with_after (fun i => if (0 <=? i) && (i <? 48 - 12) then 0 else after_gdt s i)
    (with_gdt (replicate NR_SEGMENTS seg_zero) s).

(** The three half words [write_gdtr] and [save_idt] give to [lgdt] and
    [lidt], and the base and limit these instructions read from them. *)
Definition table_data (addr size : Z) : list Z := [u16 (size - 1); u16 addr; u16 (Z.shiftr (u32 addr) 16)].
Definition load_table (data : list Z) : Z * Z :=
  match data with
  | [limit; low; high] => (low + 2 ^ 16 * high, limit)
  | _ => (0, 0)
  end.

Definition write_gdtr (addr size : Z) : descst -> descst := with_gdtr (load_table (table_data addr size)).
Definition write_idtr (addr size : Z) : descst -> descst := with_idtr (load_table (table_data addr size)).
Definition save_idt : Z -> Z -> descst -> descst := write_idtr.
Definition write_tr (selector : Z) : descst -> descst := with_tr (u16 selector).

Definition init_segment (gdt_addr tss_addr : Z) (s : descst) : descst :=
  let s := memset_gdt s in
  let s := set_segment 1 DPL_KERNEL (Z.lor SEG_EXECUTABLE SEG_READABLE) s in
  let s := set_segment 2 DPL_KERNEL SEG_WRITABLE s in
  let s := set_segment 3 DPL_USER (Z.lor SEG_EXECUTABLE SEG_READABLE) s in
  let s := set_segment 4 DPL_USER SEG_WRITABLE s in
  let s := write_gdtr gdt_addr 48 s in
  let s := set_tss tss_addr 5 s in
  write_tr (SELECTOR_USER SEG_TSS) s.

(** ** [idt.c] *)

Definition NR_IRQ : nat := 256.
Definition INTERRUPT_GATE_32 : Z := 0xE.
Definition TRAP_GATE_32 : Z := 0xF.

Record GateDescriptor : Type := mkGate {
  offset_15_0 : Z; gd_segment : Z; gd_pad0 : Z; gd_type : Z; gd_system : Z; gd_privilege_level : Z;
  gd_present : Z; offset_31_16 : Z }.

Definition gate_fields (g : GateDescriptor) : list (Z * Z) :=
  [(16, offset_15_0 g); (16, gd_segment g); (8, gd_pad0 g); (4, gd_type g); (1, gd_system g);
   (2, gd_privilege_level g); (1, gd_present g); (16, offset_31_16 g)].
Definition gate_word (g : GateDescriptor) : Z := pack (gate_fields g).

Definition set_intr (selector offset dpl : Z) : GateDescriptor :=
  mkGate (field 16 (Z.land offset 0xFFFF)) (field 16 (Z.shiftl selector 3)) 0 INTERRUPT_GATE_32 0 (field 2 dpl) 1
    (field 16 (Z.land (Z.shiftr offset 16) 0xFFFF)).
Definition set_trap (selector offset dpl : Z) : GateDescriptor :=
  mkGate (field 16 (Z.land offset 0xFFFF)) (field 16 (Z.shiftl selector 3)) 0 TRAP_GATE_32 0 (field 2 dpl) 1
    (field 16 (Z.land (Z.shiftr offset 16) 0xFFFF)).

(** The entry points of [do_irq.S]. *)
Section idt.
Context (vec : Z -> Z) (vecsys irq0 irq1 irq_empty : Z).

(** [vec0] to [vec13] in turn. *)
Fixpoint set_vecs (n : nat) (i : Z) (idt : list GateDescriptor) : list GateDescriptor :=
  match n with
  | O => idt
  | S n => set_vecs n (i + 1) (<[Z.to_nat i := set_trap SEG_KERNEL_CODE (vec i) DPL_KERNEL]> idt)
  end.

Definition init_idt : list GateDescriptor :=
  let idt := replicate NR_IRQ (set_trap SEG_KERNEL_CODE irq_empty DPL_KERNEL) in
  let idt := set_vecs 14 0 idt in
  let idt := <[128%nat := set_trap SEG_KERNEL_CODE vecsys DPL_USER]> idt in
  let idt := <[32%nat := set_intr SEG_KERNEL_CODE irq0 DPL_KERNEL]> idt in
  <[33%nat := set_intr SEG_KERNEL_CODE irq1 DPL_KERNEL]> idt.
End idt.

(** ** [util.c] *)

(** [PDE] and [PTE]: present, read_write, user_supervisor and page_frame. *)
Definition make_invalid_pde : Z := 0.
Definition make_invalid_pte : Z := 0.
Definition pde_word (addr : Z) : Z :=
  pack [(1, 1); (1, 1); (1, 1); (1, 0); (1, 0); (1, 0); (6, 0); (20, field 20 (Z.shiftr addr 12))].
Definition make_pde : Z -> Z := pde_word.
Definition pte_word (addr : Z) : Z :=
  pack [(1, 1); (1, 1); (1, 1); (1, 0); (1, 0); (1, 0); (1, 0); (1, 0); (1, 0); (3, 0);
        (20, field 20 (Z.shiftr addr 12))].
Definition make_pte : Z -> Z := pte_word.

(** ** What the processor reads

    The fields of a descriptor at their places in the 8 bytes, from the
    processor's manual. *)

Definition bits (w lo n : Z) : Z := Z.shiftr w lo mod 2 ^ n.
Definition hw_base (w : Z) : Z := bits w 16 24 + 2 ^ 24 * bits w 56 8.
Definition hw_limit (w : Z) : Z :=
  let l := bits w 0 16 + 2 ^ 16 * bits w 48 4 in
  if bits w 55 1 =? 1 then l * 2 ^ 12 + (2 ^ 12 - 1) else l.
Definition hw_dpl (w : Z) : Z := bits w 45 2.
Definition hw_present (w : Z) : Z := bits w 47 1.
Definition hw_code (w : Z) : bool := (bits w 44 1 =? 1) && (bits w 43 1 =? 1).
Definition hw_data (w : Z) : bool := (bits w 44 1 =? 1) && (bits w 43 1 =? 0).
Definition hw_writable (w : Z) : bool := hw_data w && (bits w 41 1 =? 1).
Definition hw_offset (w : Z) : Z := bits w 0 16 + 2 ^ 16 * bits w 48 16.
Definition hw_selector (w : Z) : Z := bits w 16 16.
Definition hw_gate_type (w : Z) : Z := bits w 40 4.

(** Reading a field back out of a packed word. *)
Definition fits (p : Z * Z) : Prop := 0 <= fst p /\ 0 <= snd p < 2 ^ fst p.

Lemma pack_nonneg l : Forall fits l -> 0 <= pack l.
Proof.
  induction 1 as [|[n v] l [Hn Hv] _ IH]; cbn [pack]; [lia|]. cbn [fst snd] in *.
  pose proof (Z.pow_pos_nonneg 2 n). nia.
Qed.

Definition width (l : list (Z * Z)) : Z := foldr (fun p w => fst p + w) 0 l.

Lemma width_nonneg l : Forall fits l -> 0 <= width l.
Proof.
  induction 1 as [|[n v] l [Hn _] _ IH]; [done|]. cbn [fst] in Hn.
  change (width ((n, v) :: l)) with (n + width l). lia.
Qed.

Lemma pack_drop pre l : Forall fits pre -> pack (pre ++ l) / 2 ^ width pre = pack l.
Proof.
  induction 1 as [|[n v] pre [Hn Hv] Hpre IH]; cbn [app pack]; [apply Z.div_1_r|].
  cbn [fst snd] in *. change (width ((n, v) :: pre)) with (n + width pre). pose proof (width_nonneg _ Hpre).
  pose proof (Z.pow_pos_nonneg 2 n ltac:(lia) Hn).
  pose proof (Z.pow_pos_nonneg 2 (width pre) ltac:(lia) ltac:(done)).
  rewrite Z.pow_add_r, <- Z.div_div by lia.
  rewrite (Z.mul_comm (2 ^ n)), Z.div_add, (Z.div_small v) by lia. by rewrite Z.add_0_l.
Qed.

Lemma bits_pack pre n v post : Forall fits pre -> fits (n, v) -> bits (pack (pre ++ (n, v) :: post)) (width pre) n = v.
Proof.
  intros Hpre [Hn Hv]. cbn [fst snd] in *. unfold bits. pose proof (Z.pow_pos_nonneg 2 n ltac:(lia) Hn).
  rewrite Z.shiftr_div_pow2 by (by apply width_nonneg). rewrite pack_drop by done. cbn [pack].
  rewrite (Z.mul_comm (2 ^ n)), Z.mod_add by lia. by apply Z.mod_small.
Qed.

(** ** Properties of the descriptor tables *)

Lemma seg_word_fields d :
  Forall fits (seg_fields d) ->
  let w := seg_word d in
  bits w 0 16 = limit_15_0 d /\ bits w 16 16 = base_15_0 d /\ bits w 32 8 = base_23_16 d /\
  bits w 40 4 = sd_type d /\ bits w 44 1 = segment_type d /\ bits w 45 2 = privilege_level d /\
  bits w 47 1 = sd_present d /\ bits w 48 4 = limit_19_16 d /\ bits w 55 1 = granularity d /\ bits w 56 8 = base_31_24 d.
Proof.
  intros H. cbn zeta. unfold seg_word.
  assert (F : forall k pre n v post, seg_fields d = pre ++ (n, v) :: post -> width pre = k ->
    bits (pack (seg_fields d)) k n = v).
  { intros k pre n v post E <-. rewrite E in *. apply Forall_app in H as [H1 H2]. apply Forall_cons in H2 as [H2 _].
    by apply bits_pack. }
  split_and!.
  - by eapply (F 0 []).
  - by eapply (F 16 (take 1 (seg_fields d))).
  - by eapply (F 32 (take 2 (seg_fields d))).
  - by eapply (F 40 (take 3 (seg_fields d))).
  - by eapply (F 44 (take 4 (seg_fields d))).
  - by eapply (F 45 (take 5 (seg_fields d))).
  - by eapply (F 47 (take 6 (seg_fields d))).
  - by eapply (F 48 (take 7 (seg_fields d))).
  - by eapply (F 55 (take 11 (seg_fields d))).
  - by eapply (F 56 (take 12 (seg_fields d))).
Qed.

Lemma gate_word_fields g :
  Forall fits (gate_fields g) ->
  let w := gate_word g in
  bits w 0 16 = offset_15_0 g /\ bits w 16 16 = gd_segment g /\ bits w 40 4 = gd_type g /\
  bits w 45 2 = gd_privilege_level g /\ bits w 47 1 = gd_present g /\ bits w 48 16 = offset_31_16 g.
Proof.
  intros H. cbn zeta. unfold gate_word.
  assert (F : forall k pre n v post, gate_fields g = pre ++ (n, v) :: post -> width pre = k ->
    bits (pack (gate_fields g)) k n = v).
  { intros k pre n v post E <-. rewrite E in *. apply Forall_app in H as [H1 H2]. apply Forall_cons in H2 as [H2 _].
    by apply bits_pack. }
  split_and!.
  - by eapply (F 0 []).
  - by eapply (F 16 (take 1 (gate_fields g))).
  - by eapply (F 40 (take 3 (gate_fields g))).
  - by eapply (F 45 (take 5 (gate_fields g))).
  - by eapply (F 47 (take 6 (gate_fields g))).
  - by eapply (F 48 (take 7 (gate_fields g))).
Qed.

Lemma field_fits n v : 0 <= n -> fits (n, field n v).
Proof.
  intros Hn. split; [done|]. cbn [fst snd]. unfold field. apply Z.mod_pos_bound. by apply Z.pow_pos_nonneg; lia.
Qed.

Lemma halves_join off : is_u32 off ->
  field 16 (Z.land off 0xFFFF) + 2 ^ 16 * field 16 (Z.land (Z.shiftr off 16) 0xFFFF) = off.
Proof.
  unfold is_u32, field. intros H. change 0xFFFF with (Z.ones 16). rewrite !Z.land_ones, !Z.mod_mod, Z.shiftr_div_pow2 by lia.
  pose proof (Z.div_mod off (2 ^ 16) ltac:(lia)). rewrite (Z.mod_small (off / 2 ^ 16)); [lia|].
  split; [apply Z.div_pos; lia|apply Z.div_lt_upper_bound; lia].
Qed.

Lemma base_join base : is_u32 base ->
  field 16 (Z.land base 0xffff) + 2 ^ 16 * field 8 (Z.land (Z.shiftr base 16) 0xff) + 2 ^ 24 * field 8 (Z.shiftr base 24) = base.
Proof.
  unfold is_u32, field. intros H. change 0xffff with (Z.ones 16). change 0xff with (Z.ones 8).
  rewrite !Z.land_ones, !Z.mod_mod, !Z.shiftr_div_pow2 by lia.
  pose proof (Z.div_mod base (2 ^ 16) ltac:(lia)). pose proof (Z.div_mod (base / 2 ^ 16) (2 ^ 8) ltac:(lia)).
  rewrite Z.div_div in * by lia. change (2 ^ 16 * 2 ^ 8) with (2 ^ 24) in *.
  rewrite (Z.mod_small (base / 2 ^ 24)); [lia|].
  split; [apply Z.div_pos; lia|apply Z.div_lt_upper_bound; lia].
Qed.

Lemma bits_24 w : bits w 16 24 = bits w 16 16 + 2 ^ 16 * bits w 32 8.
Proof.
  unfold bits. rewrite !Z.shiftr_div_pow2 by lia. change (2 ^ 32) with (2 ^ 16 * 2 ^ 16). rewrite <- Z.div_div by lia.
  change (2 ^ 24) with (2 ^ 16 * 2 ^ 8). by apply Z.rem_mul_r.
Qed.

(** [lgdt] and [lidt] find the table that was given. *)
Lemma load_table_data addr size : is_u32 addr -> load_table (table_data addr size) = (addr, u16 (size - 1)).
Proof.
  intros Ha. unfold load_table, table_data. rewrite u32_id by done. unfold is_u32 in Ha. rewrite Z.shiftr_div_pow2 by lia. unfold u16.
  rewrite (Z.mod_small (addr / 2 ^ 16)) by (split; [apply Z.div_pos; lia|apply Z.div_lt_upper_bound; lia]).
  f_equal. pose proof (Z.div_mod addr (2 ^ 16) ltac:(lia)). lia.
Qed.

(** [init_segment]: the processor finds in [gdt] flat 4 GB code and data
    segments for the kernel (privilege 0) and for user programs (privilege
    3), and in the last entry the task state segment, with its address and
    size; the selectors the kernel loads name these entries. *)
Theorem init_segment_correct gdt_addr tss_addr s (s' := init_segment gdt_addr tss_addr s) :
  is_u32 gdt_addr -> is_u32 tss_addr ->
  (forall i, (1 <= i <= 4)%nat -> exists d, gdt s' !! i = Some d /\ let w := seg_word d in
     hw_base w = 0 /\ hw_limit w = 2 ^ 32 - 1 /\ hw_present w = 1 /\
     hw_dpl w = (if decide (i <= 2)%nat then 0 else 3) /\
     hw_code w = bool_decide (i = 1 \/ i = 3)%nat /\ hw_writable w = bool_decide (i = 2 \/ i = 4)%nat) /\
  (exists d, gdt s' !! 5%nat = Some d /\ let w := seg_word d in
     hw_base w = tss_addr /\ hw_limit w = sizeof_TSS - 1 /\ hw_present w = 1 /\ bits w 40 4 = SEG_TSS_32BIT) /\
  gdtr s' = (gdt_addr, 47) /\ tr s' / 8 = SEG_TSS /\ tss_ss0 (tss s') / 8 = SEG_KERNEL_DATA.
Proof.
  intros Hg Ht. split; [|split; [|split; [by apply load_table_data|by split_and!]]].
  - intros i Hi. assert (Hc : i = 1%nat \/ i = 2%nat \/ i = 3%nat \/ i = 4%nat) by lia.
    destruct Hc as [->|[->|[->| ->]]]; (eexists; split; [reflexivity|vm_compute; by split_and!]).
  - exists (set_tss_desc tss_addr). split; [reflexivity|]. cbn zeta.
    destruct (seg_word_fields (set_tss_desc tss_addr)) as (F1 & F2 & F3 & F4 & _ & _ & F7 & F8 & F9 & F10).
    { unfold set_tss_desc, seg_fields. cbn [limit_15_0 base_15_0 base_23_16 sd_type segment_type privilege_level
        sd_present limit_19_16 soft_use operation_size pad0 granularity base_31_24].
      repeat (constructor; [first [by apply field_fits|by split]|]). constructor. }
    unfold hw_base, hw_limit, hw_present. rewrite bits_24, F1, F2, F3, F4, F7, F8, F9, F10.
    split; [|by split_and!]. apply (base_join tss_addr Ht).
Qed.

Definition demo_desc : descst := mkDesc [] (fun _ => 1) (mkTss 0 0 0) (0, 0) (0, 0) 0.

Lemma init_segment_correct_witness :
  let s' := init_segment 0xc0110000 0xc0112340 demo_desc in
  (forall i, (1 <= i <= 4)%nat -> exists d, gdt s' !! i = Some d /\ let w := seg_word d in
     hw_base w = 0 /\ hw_limit w = 2 ^ 32 - 1 /\ hw_present w = 1 /\
     hw_dpl w = (if decide (i <= 2)%nat then 0 else 3) /\
     hw_code w = bool_decide (i = 1 \/ i = 3)%nat /\ hw_writable w = bool_decide (i = 2 \/ i = 4)%nat) /\
  (exists d, gdt s' !! 5%nat = Some d /\ let w := seg_word d in
     hw_base w = 0xc0112340 /\ hw_limit w = sizeof_TSS - 1 /\ hw_present w = 1 /\ bits w 40 4 = SEG_TSS_32BIT) /\
  gdtr s' = (0xc0110000, 47) /\ tr s' / 8 = SEG_TSS /\ tss_ss0 (tss s') / 8 = SEG_KERNEL_DATA.
Proof. apply (init_segment_correct 0xc0110000 0xc0112340 demo_desc); unfold is_u32; lia. Defined.

(** [init_segment] also clears the 36 words behind [gdt]. *)
Theorem init_segment_overrun gdt_addr tss_addr s i :
  after_gdt (init_segment gdt_addr tss_addr s) i = if decide (0 <= i < 36) then 0 else after_gdt s i.
Proof.
  change (after_gdt (init_segment gdt_addr tss_addr s) i) with (if (0 <=? i) && (i <? 36) then 0 else after_gdt s i).
  destruct (Z.leb_spec 0 i), (Z.ltb_spec i 36); cbn [andb]; case_decide; try done; lia.
Qed.

(** ** The interrupt table *)

Section idt.
Context (vec : Z -> Z) (vecsys irq0 irq1 irq_empty : Z).

(** The handler of each vector. *)
Definition handler (i : nat) : Z :=
  if decide (i = 128)%nat then vecsys else if decide (i = 32)%nat then irq0 else if decide (i = 33)%nat then irq1
  else if decide (i < 14)%nat then vec (Z.of_nat i) else irq_empty.

Lemma length_set_vecs n i idt : length (set_vecs vec n i idt) = length idt.
Proof. revert i idt. induction n as [|n IH]; intros i idt; cbn [set_vecs]; [done|]. by rewrite IH, length_insert. Qed.

Lemma set_vecs_lookup n k idt i : (k + n <= length idt)%nat ->
  set_vecs vec n (Z.of_nat k) idt !! i =
    if decide (k <= i < k + n)%nat then Some (set_trap SEG_KERNEL_CODE (vec (Z.of_nat i)) DPL_KERNEL) else idt !! i.
Proof.
  revert k idt. induction n as [|n IH]; intros k idt Hl; cbn [set_vecs].
  - by rewrite decide_False by lia.
  - replace (Z.of_nat k + 1) with (Z.of_nat (S k)) by lia. rewrite IH by (rewrite length_insert; lia).
    rewrite Nat2Z.id. destruct (decide (i = k)) as [->|Hne].
    + rewrite decide_False, decide_True by lia. apply list_lookup_insert_eq. lia.
    + rewrite list_lookup_insert_ne by done. repeat case_decide; try done; lia.
Qed.

Lemma init_idt_lookup i : (i < NR_IRQ)%nat ->
  init_idt vec vecsys irq0 irq1 irq_empty !! i = Some
    ((if decide (i = 32 \/ i = 33)%nat then set_intr else set_trap) SEG_KERNEL_CODE (handler i)
       (if decide (i = 128)%nat then DPL_USER else DPL_KERNEL)).
Proof.
  intros Hi. unfold init_idt, handler. set (l0 := replicate NR_IRQ _).
  assert (Hl0 : length l0 = NR_IRQ) by (unfold l0; apply length_replicate).
  set (l1 := set_vecs vec 14 0 l0).
  assert (Hl1 : l1 !! i = if decide (i < 14)%nat then Some (set_trap SEG_KERNEL_CODE (vec (Z.of_nat i)) DPL_KERNEL)
    else Some (set_trap SEG_KERNEL_CODE irq_empty DPL_KERNEL)).
  { unfold l1. change 0 with (Z.of_nat 0). rewrite set_vecs_lookup by (rewrite Hl0; unfold NR_IRQ; lia).
    replace (l0 !! i) with (Some (set_trap SEG_KERNEL_CODE irq_empty DPL_KERNEL)).
    - repeat case_decide; try done; lia.
    - symmetry. unfold l0. by apply lookup_replicate_2. }
  assert (Hlen : length l1 = NR_IRQ) by (unfold l1; by rewrite length_set_vecs).
  clearbody l1. clear Hl0 l0. unfold NR_IRQ in *.
  assert (H : forall (l : list GateDescriptor) k v, length l = 256%nat -> (k < 256)%nat ->
    <[k := v]> l !! i = if decide (i = k) then Some v else l !! i).
  { intros l k v Hl Hk. destruct (decide (i = k)) as [->|E]; [apply list_lookup_insert_eq; lia|by rewrite list_lookup_insert_ne]. }
  rewrite !H by (rewrite ?length_insert; lia). rewrite Hl1. clear H Hl1.
  repeat case_decide; subst; try done; lia.
Qed.

(** [init_idt]: a gate for every vector: present, in the kernel's code
    segment, at the handler the code names for it; the system call gate
    alone may be called by user programs, and the two device interrupts go
    through interrupt gates, which keep further interrupts out. *)
Theorem init_idt_correct i :
  (i < NR_IRQ)%nat -> (forall k, is_u32 (vec k)) -> is_u32 vecsys -> is_u32 irq0 -> is_u32 irq1 -> is_u32 irq_empty ->
  exists g, init_idt vec vecsys irq0 irq1 irq_empty !! i = Some g /\ let w := gate_word g in
    hw_offset w = handler i /\ hw_selector w = SELECTOR_KERNEL SEG_KERNEL_CODE /\ hw_present w = 1 /\
    hw_dpl w = (if decide (i = 128)%nat then 3 else 0) /\
    hw_gate_type w = (if decide (i = 32 \/ i = 33)%nat then INTERRUPT_GATE_32 else TRAP_GATE_32).
Proof.
  intros Hi Hv Hs H0 H1 He. eexists. split; [by apply init_idt_lookup|]. cbn zeta.
  assert (Hh : is_u32 (handler i)) by (unfold handler; repeat case_decide; done). clear -Hh.
  set (g := (if decide (i = 32 \/ i = 33)%nat then set_intr else set_trap) _ _ _).
  assert (Hg : g = mkGate (field 16 (Z.land (handler i) 0xFFFF)) 8 0
    (if decide (i = 32 \/ i = 33)%nat then INTERRUPT_GATE_32 else TRAP_GATE_32) 0
    (if decide (i = 128)%nat then 3 else 0) 1 (field 16 (Z.land (Z.shiftr (handler i) 16) 0xFFFF))).
  { unfold g. destruct (decide (i = 32 \/ i = 33)%nat), (decide (i = 128)%nat); reflexivity. }
  rewrite Hg. clear Hg g. destruct (gate_word_fields (mkGate (field 16 (Z.land (handler i) 0xFFFF)) 8 0
    (if decide (i = 32 \/ i = 33)%nat then INTERRUPT_GATE_32 else TRAP_GATE_32) 0
    (if decide (i = 128)%nat then 3 else 0) 1 (field 16 (Z.land (Z.shiftr (handler i) 16) 0xFFFF))))
    as (F1 & F2 & F3 & F4 & F5 & F6).
  { unfold gate_fields. cbn [offset_15_0 gd_segment gd_pad0 gd_type gd_system gd_privilege_level gd_present offset_31_16].
    repeat (constructor; [first [by apply field_fits|repeat case_decide; by split]|]). constructor. }
  unfold hw_offset, hw_selector, hw_present, hw_dpl, hw_gate_type. rewrite F1, F2, F3, F4, F5, F6.
  split; [apply (halves_join _ Hh)|]. by split_and!.
Qed.
End idt.

Lemma init_idt_correct_witness (vec := fun i => 0xc0100000 + 16 * (i mod 14)) (h := handler vec 0xc0100200 0xc0100210 0xc0100220 0xc0100230) :
  exists g, init_idt vec 0xc0100200 0xc0100210 0xc0100220 0xc0100230 !! 33%nat = Some g /\ let w := gate_word g in
    hw_offset w = h 33%nat /\ hw_selector w = SELECTOR_KERNEL SEG_KERNEL_CODE /\ hw_present w = 1 /\
    hw_dpl w = (if decide (33 = 128)%nat then 3 else 0) /\
    hw_gate_type w = (if decide (33 = 32 \/ 33 = 33)%nat then INTERRUPT_GATE_32 else TRAP_GATE_32).
Proof.
  apply (init_idt_correct vec 0xc0100200 0xc0100210 0xc0100220 0xc0100230 33).
  - unfold NR_IRQ. lia.
  - intros k. unfold is_u32, vec. pose proof (Z.mod_pos_bound k 14 ltac:(lia)). lia.
  - unfold is_u32. lia.
  - unfold is_u32. lia.
  - unfold is_u32. lia.
  - unfold is_u32. lia.
Defined.

(** [make_pde] and [make_pte] make entries that are present, writable
    and open to user programs, and name the page of the address. *)
Theorem make_pte_correct addr : is_u32 addr ->
  make_pte addr = Z.shiftl (Z.shiftr addr 12) 12 + 7 /\ make_pde addr = make_pte addr.
Proof.
  unfold is_u32, make_pde, make_pte, pde_word, pte_word, field. intros H. cbn [pack].
  rewrite Z.shiftr_div_pow2, Z.shiftl_mul_pow2 by lia. rewrite Z.mod_small; [lia|].
  split; [apply Z.div_pos; lia|apply Z.div_lt_upper_bound; lia].
Qed.

Lemma make_pte_correct_witness :
  make_pte 0x123456 = Z.shiftl (Z.shiftr 0x123456 12) 12 + 7 /\ make_pde 0x123456 = make_pte 0x123456.
Proof. apply make_pte_correct. unfold is_u32. lia. Defined.
