(* ===== verification/System.v ===== *)
(** * The whole kernel: its state and the memory of the running program

    The components side by side, the operations of one component run on its
    part, and the accesses the kernel makes through pointers of the running
    program, which go through the page tables.  Also the file descriptors
    of a process, which [kernel/src/fs/file.c] ([fs_*_port]) maps to the
    streams of the file system. *)

From S2P Require Import Prelude Bytes Proc Sched Pmap Disk FileSys Keyboard Video Descr.

Record sys (D : Type) : Type := mkSys {
  y_k : kst;
  y_mm : mmst;
  y_fs : fsst D;
  y_kb : kbst;                (* also the serial line, [kb_out] *)
  y_vid : vidst;
  y_cr3 : Z;
  y_desc : descst;
  y_idt : list GateDescriptor;
  y_ports : list (Z * Z) }.   (* what [outb] has written, port and byte *)
Arguments mkSys {D}.
Arguments y_k {D}. Arguments y_mm {D}. Arguments y_fs {D}.
Arguments y_kb {D}. Arguments y_vid {D}. Arguments y_cr3 {D}.
Arguments y_desc {D}. Arguments y_idt {D}. Arguments y_ports {D}.

Section system.
Context {D : Type} `{!AtaDevice D}.
Abbreviation S := (sys D).

Definition with_k v (s : S) : S := mkSys v (y_mm s) (y_fs s) (y_kb s) (y_vid s) (y_cr3 s) (y_desc s) (y_idt s) (y_ports s).
Definition with_mm v (s : S) : S := mkSys (y_k s) v (y_fs s) (y_kb s) (y_vid s) (y_cr3 s) (y_desc s) (y_idt s) (y_ports s).
Definition with_fsst v (s : S) : S := mkSys (y_k s) (y_mm s) v (y_kb s) (y_vid s) (y_cr3 s) (y_desc s) (y_idt s) (y_ports s).
Definition with_kb v (s : S) : S := mkSys (y_k s) (y_mm s) (y_fs s) v (y_vid s) (y_cr3 s) (y_desc s) (y_idt s) (y_ports s).
Definition with_vid v (s : S) : S := mkSys (y_k s) (y_mm s) (y_fs s) (y_kb s) v (y_cr3 s) (y_desc s) (y_idt s) (y_ports s).
Definition with_cr3 v (s : S) : S := mkSys (y_k s) (y_mm s) (y_fs s) (y_kb s) (y_vid s) v (y_desc s) (y_idt s) (y_ports s).
Definition with_desc v (s : S) : S := mkSys (y_k s) (y_mm s) (y_fs s) (y_kb s) (y_vid s) (y_cr3 s) v (y_idt s) (y_ports s).
Definition with_idt v (s : S) : S := mkSys (y_k s) (y_mm s) (y_fs s) (y_kb s) (y_vid s) (y_cr3 s) (y_desc s) v (y_ports s).
Definition with_ports v (s : S) : S := mkSys (y_k s) (y_mm s) (y_fs s) (y_kb s) (y_vid s) (y_cr3 s) (y_desc s) (y_idt s) v.

(** An operation of a component.  Only those of the processes contain
    [scheduler_switch]; the others never end in [Jump]. *)
Definition part {T A} (rd : S -> T) (wr : T -> S -> S) (c : M T A) : M S A := fun s =>
  match c (rd s) with
  | Ret a t => Ret a (wr t s)
  | Jump _ => Fault OutOfBounds
  | Fault e => Fault e
  end.
Definition on_k {A} (c : M kst A) : M S A := zoom y_k with_k c.
Definition on_mm {A} (c : M mmst A) : M S A := part y_mm with_mm c.
Definition on_fs {A} (c : M (fsst D) A) : M S A := part y_fs with_fsst c.
Definition on_kb {A} (c : M kbst A) : M S A := part y_kb with_kb c.
Definition on_vid (f : vidst -> vidst) : M S unit := modify (fun s => with_vid (f (y_vid s)) s).

(** Loading [cr3] empties the TLB. *)
Definition load_cr3 (v : Z) (s : S) : S := with_cr3 v (with_mm (with_tlb no_tlb (y_mm s)) s).
Definition lcr3 (v : Z) : M S unit := modify (load_cr3 v).

Definition outb (port v : Z) : M S unit := modify (fun s => with_ports (y_ports s ++ [(port, u8 v)]) s).

(** ** Memory through the page tables

    A linear address is translated by the directory in [cr3]; the physical
    memory is [mm_mem], by words. *)

Definition word_byte (w k : Z) : Z := u8 (Z.shiftr w (8 * k)).
Definition put_word_byte (w k v : Z) : Z :=
  Z.lor (Z.land w (Z.lnot (Z.shiftl 0xFF (8 * k)))) (Z.shiftl (u8 v) (8 * k)).

(** The word that holds the byte at [la], and the byte's place in it. *)
Definition locate (s : S) (la : Z) : option (Z * Z) :=
  pa ← translate (mm_mem (y_mm s)) (y_cr3 s) la;
  let a := KERNBASE + (pa - pa mod 4) in
  if mapped a 4 then Some (a, pa mod 4) else None.

Definition byte_at (s : S) (la : Z) : option Z :=
  '(a, k) ← locate s la; Some (word_byte (mm_mem (y_mm s) a) k).

Definition uload (la : Z) : M S Z := s ← get; from_option_or OutOfBounds (byte_at s la).
Definition ustore (la v : Z) : M S unit :=
  s ← get;
  '(a, k) ← from_option_or OutOfBounds (locate s la);
  on_mm (modify (fun m => Pmap.with_mem (<[a := put_word_byte (mm_mem m a) k v]> (mm_mem m)) m)).

Fixpoint uload_le (n : nat) (la : Z) : M S Z :=
  match n with
  | O => mret 0
  | Datatypes.S n => b ← uload la; r ← uload_le n (u32 (la + 1)); mret (b + 2 ^ 8 * r)
  end.
Definition uload32 : Z -> M S Z := uload_le 4.
Definition uload16 : Z -> M S Z := uload_le 2.

Fixpoint ustores (la : Z) (bs : list byte) : M S unit :=
  match bs with
  | [] => mret tt
  | b :: bs => ustore la (byte.unsigned b);; ustores (u32 (la + 1)) bs
  end.
Definition ustore32 (la v : Z) : M S unit := ustores la (le_split 4 v).

(** The bytes from [la] on that can be read, at most [n]. *)
Fixpoint readable (n : nat) (s : S) (la : Z) : list byte :=
  match n with
  | O => []
  | Datatypes.S n =>
      match byte_at s la with
      | Some b => byte.of_Z b :: readable n s (u32 (la + 1))
      | None => []
      end
  end.

(** A [char *] of the program: no callee looks at more than a page of it
    (file names are compared with and copied into 512-byte sectors). *)
Definition user_string (la : Z) : M S (list byte) := gets (fun s => readable (Z.to_nat PGSIZE) s la).

(** ** File descriptors *)

Definition current_pcb : M kst PCB := c ← gets k_current; get_pcb c.

(** [current->fcb[fd].fd_kr]: the index is not checked by the code. *)
Definition fcb_get (fd : Z) : M kst Z :=
  c ← current_pcb;
  if fd <? 0 then fail OutOfBounds else from_option_or OutOfBounds (p_fcb c !! Z.to_nat fd).
Definition fcb_set (fd v : Z) : M kst unit :=
  c ← current_pcb;
  if (0 <=? fd) && (fd <? Z.of_nat (length (p_fcb c))) then
    cur ← gets k_current; upd_pcb cur (fun c => with_fcb (<[Z.to_nat fd := v]> (p_fcb c)) c)
  else fail OutOfBounds.

(** The first free descriptor, [FCBMAX] if there is none. *)
Fixpoint first_fcb (l : list Z) (i : Z) : Z :=
  match l with [] => i | v :: l => if v =? -1 then i else first_fcb l (i + 1) end.

Definition fs_open_port (pathname : list byte) (flags : Z) : M S Z :=
  fd ← on_fs (fs_open_md pathname flags);
  if fd =? -1 then mret (-1)
  else
    c ← on_k current_pcb;
    let i := first_fcb (p_fcb c) 0 in
    on_k (fcb_set i fd);;
    mret i.

Definition fs_read_port (fd buf len : Z) : M S Z :=
  if fd =? -1 then mret (-1)
  else
    fd_kr ← on_k (fcb_get fd);
    s ← get;
    '(r, bs) ← on_fs (fs_read_md fd_kr (readable (Z.to_nat len) s buf) len);
    ustores buf bs;;
    mret r.

Definition fs_write_port (fd buf len : Z) : M S Z :=
  if fd =? -1 then mret (-1)
  else
    fd_kr ← on_k (fcb_get fd);
    s ← get;
    on_fs (fs_write_md fd_kr (readable (Z.to_nat len) s buf) len).

Definition fs_lseek_port (fd offset whence : Z) : M S Z :=
  if fd =? -1 then mret (-1)
  else fd_kr ← on_k (fcb_get fd); on_fs (fs_lseek_md fd_kr offset whence).

Definition fs_close_port (fd : Z) : M S Z :=
  if fd =? -1 then mret (-1)
  else
    fd_kr ← on_k (fcb_get fd);
    r ← on_fs (fs_close_md fd_kr);
    on_k (fcb_set fd (-1));;
    mret r.
End system.

(** Rules for the operations of a component. *)
Section rules.
Context {D : Type} {A : Type}.
Implicit Types (s : sys D) (Q : A -> sys D -> Prop) (J : sys D -> Prop).

Lemma wp_on_k (c : M kst A) Q J s : wp c (fun x k => Q x (with_k k s)) (fun k => J (with_k k s)) (y_k s) -> wp (on_k c) Q J s.
Proof. unfold wp, on_k, zoom. by destruct (c (y_k s)). Qed.
Lemma wp_on_mm (c : M mmst A) Q J s : wp c (fun x m => Q x (with_mm m s)) (fun _ => False) (y_mm s) -> wp (on_mm c) Q J s.
Proof. unfold wp, on_mm, part. by destruct (c (y_mm s)). Qed.
Lemma wp_on_fs (c : M (fsst D) A) Q J s : wp c (fun x t => Q x (with_fsst t s)) (fun _ => False) (y_fs s) -> wp (on_fs c) Q J s.
Proof. unfold wp, on_fs, part. by destruct (c (y_fs s)). Qed.
End rules.
