(* ===== verification/Spawn.v ===== *)
(** * Creating processes

    Models the rest of [kernel/src/process.c]: [init_pcb_pool], [init_pcb],
    [pcb_create], [copy_pcb], [fork_current] and [thread_current].  The pool
    is at [PCBPool_addr]; the kernel stacks in it are words of the physical
    memory, except the trap frame, which is [p_frame]. *)

From S2P Require Import Prelude Proc Sched Pmap Disk FileSys Keyboard Video System.

(** ** [inc/memlayout.h], [inc/mmu.h], [kernel/include/process.h] *)

Definition GD_KT : Z := 0x08.
Definition GD_KD : Z := 0x10.
Definition GD_UT : Z := 0x18.
Definition GD_UD : Z := 0x20.
Definition FL_IF : Z := 0x200.

Definition PTSIZE : Z := PGSIZE * 1024.
Definition KSTACKTOP : Z := KERNBASE.
Definition MMIOLIM : Z := KSTACKTOP - PTSIZE.
Definition MMIOBASE : Z := MMIOLIM - PTSIZE.
Definition ULIM : Z := MMIOBASE.
Definition UVPT : Z := ULIM - PTSIZE.
Definition UPAGES : Z := UVPT - PTSIZE.
Definition UENVS : Z := UPAGES - PTSIZE.
Definition UTOP : Z := UENVS.
Definition USTACKTOP : Z := UTOP - 2 * PGSIZE.
Definition USTACKSIZE : Z := 8 * PGSIZE.

Definition NPKSTACKSIZE : Z := 0x1000.
Definition FORKKSTACKSIZE : Z := Z.shiftr NPKSTACKSIZE 1 + 0x10.

(** [sizeof(PCB)] and the offsets of the stack's parts. *)
Definition sizeof_PCB : Z := 0x10 + 0x1000 + 0x10 + 0x1000 + 0x10 + 0x10 + 4 * 8 + 4 * 256 + 4 * 3.
Definition off_kstack : Z := 0x10 + 0x1000 + 0x10.
Definition off_kstacktop : Z := off_kstack + 0x1000.

Section spawn.
Context {D : Type} `{!AtaDevice D}.
Context (PCBPool_addr : Z).

Definition pcb_addr (i : nat) : Z := PCBPool_addr + sizeof_PCB * Z.of_nat i.
Definition kstack_addr (i : nat) : Z := pcb_addr i + off_kstack.
Definition kstacktop_addr (i : nat) : Z := pcb_addr i + off_kstacktop.

#[global] Instance tf_ptr_eq_dec : EqDecision tf_ptr.
Proof. solve_decision. Defined.

(** ** Trap frames *)

(** [*p->tf] *)
Definition get_tf (p : pcb_ptr) : M kst TrapFrame :=
  c ← get_pcb p;
  match p_tf c with
  | TFPool i => s ← get; from_option_or OutOfBounds (k_tfPool s !! i)
  | TFStack i => c ← get_pcb (Some i); mret (p_frame c)
  end.

Definition upd_tf (p : pcb_ptr) (f : TrapFrame -> TrapFrame) : M kst unit :=
  tf ← get_tf p;
  c ← get_pcb p;
  match p_tf c with
  | TFPool i => modify (fun s => with_tfPool (<[i := f tf]> (k_tfPool s)) s)
  | TFStack i => upd_pcb (Some i) (with_frame (f tf))
  end.

Definition tf_segments (data code fl : Z) (tf : TrapFrame) : TrapFrame :=
  mkTrapFrame (edi tf) (esi tf) (ebp tf) (old_esp tf) (ebx tf) (edx tf) (ecx tf) (eax tf)
    data data data data (irq tf) (error_code tf) (eip tf) code fl (esp tf) data.
Definition tf_eax v tf := mkTrapFrame (edi tf) (esi tf) (ebp tf) (old_esp tf) (ebx tf) (edx tf) (ecx tf) v
    (gs tf) (fs_sel tf) (es tf) (ds tf) (irq tf) (error_code tf) (eip tf) (cs tf) (eflags tf) (esp tf) (ss tf).
Definition tf_ebp v tf := mkTrapFrame (edi tf) (esi tf) v (old_esp tf) (ebx tf) (edx tf) (ecx tf) (eax tf)
    (gs tf) (fs_sel tf) (es tf) (ds tf) (irq tf) (error_code tf) (eip tf) (cs tf) (eflags tf) (esp tf) (ss tf).
Definition tf_eip v tf := mkTrapFrame (edi tf) (esi tf) (ebp tf) (old_esp tf) (ebx tf) (edx tf) (ecx tf) (eax tf)
    (gs tf) (fs_sel tf) (es tf) (ds tf) (irq tf) (error_code tf) v (cs tf) (eflags tf) (esp tf) (ss tf).
Definition tf_esp v tf := mkTrapFrame (edi tf) (esi tf) (ebp tf) (old_esp tf) (ebx tf) (edx tf) (ecx tf) (eax tf)
    (gs tf) (fs_sel tf) (es tf) (ds tf) (irq tf) (error_code tf) (eip tf) (cs tf) (eflags tf) v (ss tf).

(** ** The pool *)

Definition init_pcb_pool : M kst unit :=
  modify (fun s => with_PCBPool (with_used 0 <$> k_PCBPool s) s).

(** For privilege 0 the frame is copied to [ustack], which is the kernel
    stack of the process in the one call there is. *)
Definition init_pcb (p : nat) (ustack entry pri : Z) : M kst unit :=
  (if pri =? 0 then upd_tf (Some p) (tf_segments GD_KD GD_KT (Z.lor 0x2 FL_IF))
   else if pri =? 3 then upd_tf (Some p) (tf_segments (Z.lor GD_UD 3) (Z.lor GD_UT 3) (Z.lor 0x2 FL_IF))
   else mret tt);;
  upd_tf (Some p) (tf_esp ustack);;
  upd_tf (Some p) (tf_eip entry);;
  (if pri =? 0 then
     if ustack =? kstacktop_addr p - 0x80 then
       tf ← get_tf (Some p);
       upd_pcb (Some p) (with_frame tf);;
       upd_pcb (Some p) (with_tf (TFStack p))
     else fail OutOfBounds
   else mret tt);;
  upd_pcb (Some p) (with_tt (if pri =? 0 then KERNEL else USER)).

(** The first slot that is not in use. *)
Fixpoint find_unused (pool : list PCB) (i : nat) : nat :=
  match pool with
  | [] => i
  | c :: pool => if decide (p_used c = 0) then i else find_unused pool (Datatypes.S i)
  end.

(** With the pool full the slot is one past its end. *)
Definition pcb_create : M (sys D) (option nat) :=
  s ← get;
  let i := find_unused (k_PCBPool (y_k s)) 0 in
  on_k (upd_pcb (Some i) (with_tf (TFPool i)));;
  on_k (upd_pcb (Some i) (with_fcb (replicate FCBMAX (-1))));;
  on_k (upd_pcb (Some i) (with_used 1));;
  pp ← on_mm (page_alloc ALLOC_ZERO);
  match pp with
  | None => mret None
  | Some pp =>
      on_k (upd_pcb (Some i) (with_pgdir (page2kva pp)));;
      s ← get;
      on_k (upd_pcb (Some i) (with_pid (k_pid (y_k s))));;
      on_k (upd_pcb (Some i) (with_timeslice 0));;
      on_k (modify (fun s => with_pid_counter (u32 (k_pid s + 1)) s));;
      on_mm (incr_ref pp);;
      s ← get;
      on_mm (Pmap.memcpy (Z.to_nat PGSIZE) (page2kva pp) (mm_kern_pgdir (y_mm s)));;
      mret (Some i)
  end.

(** ** Fork and threads *)

(** The loop of [copy_pcb] that adds [offset] to each saved frame pointer of
    a copied kernel stack, and follows the result. *)
Fixpoint relocate_frames (fuel : nat) (ptr offset : Z) : M mmst unit :=
  match fuel with
  | O => fail OutOfFuel
  | Datatypes.S fuel =>
      v ← Pmap.load ptr;
      if v =? 0 then mret tt
      else Pmap.store ptr (u32 (v + offset));; relocate_frames fuel (u32 (v + offset)) offset
  end.

(** A chain of frames of one stack has fewer links than the stack words. *)
Definition frames_fuel : nat := Z.to_nat FORKKSTACKSIZE.

Definition copy_pcb (dst src : nat) : M (sys D) unit :=
  on_mm (Pmap.memcpy (Z.to_nat FORKKSTACKSIZE) (pcb_addr dst) (pcb_addr src));;
  s ← on_k (get_pcb (Some src));
  on_k (upd_pcb (Some dst) (with_frame (p_frame s)));;
  on_k (upd_pcb (Some dst) (with_timeslice (p_timeslice s)));;
  let offset := u32 (kstack_addr dst - kstack_addr src) in
  (* a frame outside the stack of [src] would end up outside that of [dst] *)
  (if decide (p_tf s = TFStack src) then on_k (upd_pcb (Some dst) (with_tf (TFStack dst)))
   else fail OutOfBounds);;
  on_k (upd_pcb (Some dst) (with_tt (p_tt s)));;
  (if decide (p_tt s = KERNEL) then
     on_k (upd_tf (Some dst) (fun tf => tf_ebp (u32 (ebp tf + offset)) tf));;
     tf ← on_k (get_tf (Some dst));
     on_mm (relocate_frames frames_fuel (ebp tf) offset);;
     on_k (upd_pcb (Some dst) (with_ts (p_ts s)))
   else if decide (p_tt s <> THREAD) then
     d ← on_k (get_pcb (Some dst));
     on_mm (copy_pgdir (p_pgdir d) (p_pgdir s))
   else mret tt);;
  on_k (upd_pcb (Some dst) (with_fcb (p_fcb s))).

Definition fork_current : M (sys D) unit :=
  son ← pcb_create;
  son ← from_option_or NullPointer son;
  cur ← on_k (gets k_current);
  i ← from_option_or NullPointer cur;
  c ← on_k (get_pcb cur);
  on_k (upd_pcb (Some son) (with_ppid (p_pid c)));;
  copy_pcb son i;;
  sc ← on_k (get_pcb (Some son));
  on_k (upd_tf cur (tf_eax (p_pid sc)));;
  on_k (upd_tf (Some son) (tf_eax 0));;
  _ ← on_k (ll_push HReady (Some son));
  mret tt.

Definition thread_esp : Z := 0xeebfd000.

Definition thread_current (entry exit arg : Z) : M (sys D) unit :=
  son ← pcb_create;
  son ← from_option_or NullPointer son;
  on_k (upd_pcb (Some son) (with_tt THREAD));;
  cur ← on_k (gets k_current);
  i ← from_option_or NullPointer cur;
  c ← on_k (get_pcb cur);
  on_k (upd_pcb (Some son) (with_ppid (p_pid c)));;
  copy_pcb son i;;
  c ← on_k (get_pcb cur);
  sc ← on_k (get_pcb (Some son));
  on_mm (Pmap.memcpy (Z.to_nat PGSIZE) (p_pgdir sc) (p_pgdir c));;
  on_mm (mm_alloc (p_pgdir sc) (thread_esp - 2 * NPKSTACKSIZE) (2 * NPKSTACKSIZE));;
  on_k (upd_tf (Some son) (tf_ebp (thread_esp - 0x40)));;
  on_k (upd_tf (Some son) (tf_esp (thread_esp - 0x40)));;
  on_k (upd_tf (Some son) (tf_eip entry));;
  on_k (upd_tf cur (tf_eax (p_pid sc)));;
  on_k (upd_tf (Some son) (tf_eax 0));;
  lcr3 (PADDR (p_pgdir sc));;
  ustore32 (thread_esp - 0x40) exit;;
  ustore32 (thread_esp - 0x40 + 4) arg;;
  lcr3 (PADDR (p_pgdir c));;
  _ ← on_k (ll_push HReady (Some son));
  mret tt.
End spawn.
