(* ===== verification/Loader.v ===== *)
(** * Loading programs

    Models [kernel/src/loader.c] and the structures of [inc/elf.h], with
    [exec_current] of [kernel/src/process.c].  The header of the program is
    read into the page at linear address 0 of the new address space. *)

From Stdlib Require Import String.
From S2P Require Import Prelude Bytes Proc Sched Pmap Disk FileSys Printk Keyboard Video System Spawn.

Definition ELFADDR : Z := 0.
Definition ELF_MAGIC : Z := 0x464C457F.

(** Offsets of the members of [struct ELFHeader] and [struct ProgramHeader]. *)
Definition elf_magic : Z := 0.
Definition elf_entry : Z := 24.
Definition elf_phoff : Z := 28.
Definition elf_phnum : Z := 44.
Definition ph_off : Z := 4.
Definition ph_vaddr : Z := 8.
Definition ph_paddr : Z := 12.
Definition ph_filesz : Z := 16.
Definition ph_memsz : Z := 20.
Definition sizeof_ph : Z := 32.

Section loader.
Context {D : Type} `{!AtaDevice D}.
Context (PCBPool_addr : Z).
Abbreviation S := (sys D).

(** [for (i = pa + from; i < pa + to; *i ++ = 0);] *)
Fixpoint zero_loop (n : nat) (i : Z) : M S unit :=
  match n with
  | O => mret tt
  | Datatypes.S n => ustore i 0;; zero_loop n (u32 (i + 1))
  end.
Definition zero_fill (pa from to : Z) : M S unit :=
  zero_loop (Z.to_nat (u32 (pa + to) - u32 (pa + from))) (u32 (pa + from)).

(** The stack and the trap frame of a loaded program. *)
Definition finish_load (p : nat) (pgdir entry : Z) : M S unit :=
  on_mm (mm_alloc pgdir (USTACKTOP - USTACKSIZE) USTACKSIZE);;
  on_k (init_pcb PCBPool_addr p (USTACKTOP - 0x80) entry 3);;
  s ← get;
  lcr3 (PADDR (mm_kern_pgdir (y_mm s))).

(** ** [loader_file] *)

Fixpoint load_segments (n : nat) (pgdir fd ph : Z) : M S unit :=
  match n with
  | O => mret tt
  | Datatypes.S n =>
      vaddr ← uload32 (u32 (ph + ph_vaddr));
      memsz ← uload32 (u32 (ph + ph_memsz));
      if (vaddr =? 0) || (memsz =? 0) then mret tt
      else
        on_mm (mm_alloc pgdir vaddr memsz);;
        off ← uload32 (u32 (ph + ph_off));
        on_fs (fs_lseek_kr fd off);;
        filesz ← uload32 (u32 (ph + ph_filesz));
        s ← get;
        '(_, bs) ← on_fs (fs_read_kr fd (readable (Z.to_nat filesz) s vaddr) (i32 filesz));
        ustores vaddr bs;;
        filesz ← uload32 (u32 (ph + ph_filesz));
        memsz ← uload32 (u32 (ph + ph_memsz));
        zero_fill vaddr filesz memsz;;
        load_segments n pgdir fd (u32 (ph + sizeof_ph))
  end.

(** [filename] reads the string where it is used, after page 0 is mapped. *)
Definition loader_file (p : nat) (filename : M S (list byte)) : M S Z :=
  c ← on_k (get_pcb (Some p));
  let pgdir := p_pgdir c in
  lcr3 (PADDR pgdir);;
  on_mm (mm_alloc pgdir ELFADDR 0x1000);;
  name ← filename;
  fd ← on_fs (fs_open_kr name);
  s ← get;
  '(_, bs) ← on_fs (fs_read_kr fd (readable (8 * SECTSIZE) s ELFADDR) (8 * 512));
  ustores ELFADDR bs;;
  magic ← uload32 (ELFADDR + elf_magic);
  if negb (magic =? ELF_MAGIC) then mret (-1)
  else
    phoff ← uload32 (ELFADDR + elf_phoff);
    phnum ← uload16 (ELFADDR + elf_phnum);
    load_segments (Z.to_nat phnum) pgdir fd (u32 (ELFADDR + phoff));;
    entry ← uload32 (ELFADDR + elf_entry);
    finish_load p pgdir entry;;
    mret 0.

(** ** [loader]: from a place on the disk, past the file system *)

(** [readseg] of [inc/disk.h] to linear addresses. *)
Fixpoint ureadseg_loop (fuel : nat) (pa epa offset : Z) : M S unit :=
  match fuel with
  | O => fail OutOfFuel
  | Datatypes.S fuel =>
      if pa <? epa then
        s ← get;
        ustores pa (readsect offset (fs_disk (y_fs s)));;
        ureadseg_loop fuel (u32 (pa + 512)) epa (offset + 1)
      else mret tt
  end.
Definition ureadseg (pa count offset : Z) : M S unit :=
  ureadseg_loop (Datatypes.S (Z.to_nat (count + 512))) (u32 (pa - Z.rem offset 512)) (u32 (pa + count))
    (Z.quot offset 512 + 1).

Fixpoint load_ph (n : nat) (pgdir offset ph : Z) : M S unit :=
  match n with
  | O => mret tt
  | Datatypes.S n =>
      pa ← uload32 (u32 (ph + ph_paddr));
      vaddr ← uload32 (u32 (ph + ph_vaddr));
      memsz ← uload32 (u32 (ph + ph_memsz));
      on_mm (mm_alloc pgdir vaddr memsz);;
      filesz ← uload32 (u32 (ph + ph_filesz));
      off ← uload32 (u32 (ph + ph_off));
      ureadseg pa (i32 filesz) (i32 (offset + off));;
      filesz ← uload32 (u32 (ph + ph_filesz));
      memsz ← uload32 (u32 (ph + ph_memsz));
      zero_fill pa filesz memsz;;
      load_ph n pgdir offset (u32 (ph + sizeof_ph))
  end.

(** The magic number is printed, not checked. *)
Definition loader (p : nat) (offset : Z) : M S unit :=
  c ← on_k (get_pcb (Some p));
  let pgdir := p_pgdir c in
  lcr3 (PADDR pgdir);;
  on_mm (mm_alloc pgdir ELFADDR 0x1000);;
  ureadseg ELFADDR (8 * 512) (i32 offset);;
  magic ← uload32 (ELFADDR + elf_magic);
  on_kb (cputs (chars "Magic Assertion: "));;
  on_kb (cputs (if magic =? ELF_MAGIC then [49; 10] else [48; 10]));;
  phoff ← uload32 (ELFADDR + elf_phoff);
  phnum ← uload16 (ELFADDR + elf_phnum);
  load_ph (Z.to_nat phnum) pgdir offset (u32 (ELFADDR + phoff));;
  entry ← uload32 (ELFADDR + elf_entry);
  finish_load p pgdir entry.

(** ** [empty_loader]: a kernel process that runs a function *)

Definition empty_loader (p : nat) (ptr : Z) : M S unit :=
  c ← on_k (get_pcb (Some p));
  lcr3 (PADDR (p_pgdir c));;
  on_k (init_pcb PCBPool_addr p (kstacktop_addr PCBPool_addr p - 0x80) ptr 0);;
  s ← get;
  lcr3 (PADDR (mm_kern_pgdir (y_mm s))).

(** ** [exec_current] *)

Definition printk (ctl : string) : M S unit := on_kb (cputs (chars ctl)).

Definition exec_current (filename : M S (list byte)) : M S unit :=
  cur ← on_k (gets k_current);
  i ← from_option_or NullPointer cur;
  status ← loader_file i filename;
  if status =? -1 then printk "Not executable"%string;; on_kb (cputchar 10)
  else
    _ ← on_k (ll_entail HReady cur);
    on_k (modify (with_current None));;
    on_k do_scheduler.
End loader.
