(* ===== verification/Boot.v ===== *)
(** * The boot loader

    Models [boot/bootloader.c]: [bootmain] reads the kernel's ELF header
    from the data area of the disk, loads its segments to their physical
    addresses and jumps to its entry point.  Paging is off; memory is a
    function from addresses to bytes. *)

From S2P Require Import Prelude Bytes Disk DemoFs Loader.

Definition boot_elf : Z := 0x8000.
(** [(256+256+256)*SECTSIZE]: the sectors of bitmap, directory and inodes. *)
Definition boot_offset : Z := (256 + 256 + 256) * 512.

Section boot.
Context {D : Type} `{!AtaDevice D}.
Implicit Types (m : mem) (d : D).

Fixpoint mem_le (n : nat) (m : mem) (a : Z) : Z :=
  match n with O => 0 | S n => byte.unsigned (m a) + 2 ^ 8 * mem_le n m (a + 1) end.
Definition mem32 : mem -> Z -> Z := mem_le 4.
Definition mem16 : mem -> Z -> Z := mem_le 2.

(** [for (i = pa + filesz; i < pa + memsz; *i ++ = 0);] *)
Definition mem_zero (lo hi : Z) (m : mem) : mem := fun a => if (lo <=? a) && (a <? hi) then NUL else m a.

(** One program header. *)
Definition load_segment (d : D) (ph : Z) (m : mem) : option mem :=
  let pa := mem32 m (ph + ph_paddr) in
  m' ← readseg pa (i32 (mem32 m (ph + ph_filesz))) (i32 (boot_offset + mem32 m (ph + ph_off))) d m;
  let filesz := mem32 m' (ph + ph_filesz) in
  let memsz := mem32 m' (ph + ph_memsz) in
  Some (mem_zero (u32 (pa + filesz)) (u32 (pa + memsz)) m').

Fixpoint boot_segments (n : nat) (d : D) (ph : Z) (m : mem) : option mem :=
  match n with
  | O => Some m
  | S n => m ← load_segment d ph m; boot_segments n d (ph + sizeof_ph) m
  end.

(** The entry point and the memory when the kernel starts; [inl] is the
    endless loop at [bad]. *)
Definition bootmain (d : D) (m : mem) : option (unit + Z * mem) :=
  m ← readseg boot_elf (8 * 512) boot_offset d m;
  if negb (mem32 m (boot_elf + elf_magic) =? ELF_MAGIC) then Some (inl tt)
  else
    let ph := boot_elf + mem32 m (boot_elf + elf_phoff) in
    m ← boot_segments (Z.to_nat (mem16 m (boot_elf + elf_phnum))) d ph m;
    Some (inr (mem32 m (boot_elf + elf_entry), m)).
End boot.

(** ** The boot loader loads the kernel *)

Section boot.
Context {D : Type} `{!AtaDevice D}.
Implicit Types (m : mem) (d : D).

(** The header as it lies on the disk. *)
Definition header (d : D) : mem := fun a => image_byte d (boot_offset + (a - boot_elf)).
Definition header_end : Z := boot_elf + 4096.

(** The program headers, from the disk. *)
Definition ph_addr (d : D) (i : nat) : Z :=
  boot_elf + mem32 (header d) (boot_elf + elf_phoff) + sizeof_ph * Z.of_nat i.
Definition ph_count (d : D) : nat := Z.to_nat (mem16 (header d) (boot_elf + elf_phnum)).
Definition seg_pa (d : D) i : Z := mem32 (header d) (ph_addr d i + ph_paddr).
Definition seg_filesz (d : D) i : Z := mem32 (header d) (ph_addr d i + ph_filesz).
Definition seg_memsz (d : D) i : Z := mem32 (header d) (ph_addr d i + ph_memsz).
Definition seg_off (d : D) i : Z := mem32 (header d) (ph_addr d i + ph_off).

(** Reading a segment writes whole sectors, up to 512 bytes around it. *)
Definition seg_touches (d : D) i (a : Z) : Prop := seg_pa d i - 512 <= a < seg_pa d i + seg_memsz d i + 512.

(** An executable the boot loader can load: its program headers are in the
    first eight sectors, its segments lie above them in memory, and the
    sectors read for a segment spare the earlier ones. *)
Record bootable (d : D) : Prop := {
  bt_magic : mem32 (header d) (boot_elf + elf_magic) = ELF_MAGIC;
  bt_headers : ph_addr d (ph_count d) <= header_end;
  bt_size : forall i, (i < ph_count d)%nat -> seg_filesz d i <= seg_memsz d i;
  bt_low : forall i, (i < ph_count d)%nat -> header_end + 512 <= seg_pa d i;
  bt_high : forall i, (i < ph_count d)%nat -> seg_pa d i + seg_memsz d i + 512 < 2 ^ 31;
  bt_off : forall i, (i < ph_count d)%nat -> boot_offset + seg_off d i < 2 ^ 31;
  bt_apart : forall i j, (i < j < ph_count d)%nat -> forall a,
    seg_pa d i <= a < seg_pa d i + seg_memsz d i -> ~ seg_touches d j a }.

(** Segment [i] is in memory. *)
Definition seg_loaded (d : D) (i : nat) (m : mem) : Prop :=
  (forall k, 0 <= k < seg_filesz d i -> m (seg_pa d i + k) = image_byte d (boot_offset + seg_off d i + k)) /\
  (forall k, seg_filesz d i <= k < seg_memsz d i -> m (seg_pa d i + k) = NUL).

Lemma mem_le_ext n m m' a : (forall k, 0 <= k < Z.of_nat n -> m (a + k) = m' (a + k)) -> mem_le n m a = mem_le n m' a.
Proof.
  revert a. induction n as [|n IH]; intros a H; cbn [mem_le]; [done|].
  rewrite <- (Z.add_0_r a) at 1 3. rewrite (H 0) by lia. rewrite (IH (a + 1)); [done|].
  intros k Hk. rewrite <- Z.add_assoc. apply H. lia.
Qed.

Lemma mem_le_range n m a : 0 <= mem_le n m a < 2 ^ (8 * Z.of_nat n).
Proof.
  revert a. induction n as [|n IH]; intros a; cbn [mem_le]; [done|].
  pose proof (byte.unsigned_range (m a)). specialize (IH (a + 1)).
  replace (8 * Z.of_nat (S n)) with (8 + 8 * Z.of_nat n) by lia. rewrite Z.pow_add_r by lia. lia.
Qed.

(** Memory holds the header. *)
Definition has_header (d : D) (m : mem) : Prop := forall a, boot_elf <= a < header_end -> m a = header d a.

Lemma mem32_header d m a : has_header d m -> boot_elf <= a -> a + 4 <= header_end -> mem32 m a = mem32 (header d) a.
Proof. intros H H1 H2. apply mem_le_ext. intros k Hk. apply H. lia. Qed.

Lemma mem_zero_out lo hi m a : a < lo \/ hi <= a -> mem_zero lo hi m a = m a.
Proof. intros H. unfold mem_zero. destruct (Z.leb_spec lo a), (Z.ltb_spec a hi); try done. lia. Qed.
Lemma mem_zero_in lo hi m a : lo <= a < hi -> mem_zero lo hi m a = NUL.
Proof. intros H. unfold mem_zero. by rewrite (proj2 (Z.leb_le _ _)), (proj2 (Z.ltb_lt _ _)) by lia. Qed.

(** Loading one segment. *)
Lemma load_segment_spec d i m :
  bootable d -> (i < ph_count d)%nat -> has_header d m ->
  exists m', load_segment d (ph_addr d i) m = Some m' /\ has_header d m' /\ seg_loaded d i m' /\
    forall a, ~ seg_touches d i a -> m' a = m a.
Proof.
  intros [B1 B2 B3 B4 B5 B6 B7] Hi Hh. specialize (B3 i Hi). specialize (B4 i Hi). specialize (B5 i Hi). specialize (B6 i Hi).
  assert (Hpl : boot_elf <= ph_addr d i).
  { unfold ph_addr, sizeof_ph. pose proof (mem_le_range 4 (header d) (boot_elf + elf_phoff)). unfold mem32. lia. }
  assert (Hph : ph_addr d i + 32 <= header_end) by (unfold ph_addr, sizeof_ph in *; lia).
  assert (Hf : forall x, 0 <= x <= 28 -> mem32 m (ph_addr d i + x) = mem32 (header d) (ph_addr d i + x)).
  { intros x Hx. apply mem32_header; [done|lia|lia]. }
  assert (R1 : 0 <= seg_filesz d i) by apply mem_le_range. assert (R2 : 0 <= seg_off d i) by apply mem_le_range.
  unfold load_segment. rewrite !Hf by (unfold ph_paddr, ph_filesz, ph_off; lia).
  change (mem32 (header d) (ph_addr d i + ph_paddr)) with (seg_pa d i).
  change (mem32 (header d) (ph_addr d i + ph_filesz)) with (seg_filesz d i).
  change (mem32 (header d) (ph_addr d i + ph_off)) with (seg_off d i).
  unfold header_end, boot_elf, boot_offset in *.
  rewrite !i32_id by (unfold is_i32; lia).
  destruct (readseg_spec (seg_pa d i) (seg_filesz d i) (boot_offset + seg_off d i) d m) as (m1 & E & Hin & Hout);
    [lia|unfold boot_offset; lia|]. unfold boot_offset in E. rewrite E. cbn [mbind option_bind].
  pose proof (Z.mod_pos_bound (boot_offset + seg_off d i) 512 ltac:(lia)) as Hmod.
  assert (Hh1 : has_header d m1).
  { intros a Ha. rewrite Hout; [by apply Hh|]. unfold header_end, boot_elf in Ha. left. lia. }
  assert (Hf1 : forall x, 0 <= x <= 28 -> mem32 m1 (ph_addr d i + x) = mem32 (header d) (ph_addr d i + x)).
  { intros x Hx. apply mem32_header; [done|unfold boot_elf; lia|unfold header_end, boot_elf; lia]. }
  rewrite !Hf1 by (unfold ph_memsz, ph_filesz; lia).
  change (mem32 (header d) (ph_addr d i + ph_memsz)) with (seg_memsz d i).
  change (mem32 (header d) (ph_addr d i + ph_filesz)) with (seg_filesz d i).
  rewrite !u32_id by (unfold is_u32; lia). eexists. split; [reflexivity|]. split; [|split].
  - intros a Ha. rewrite mem_zero_out; [by apply Hh1|]. unfold header_end, boot_elf in Ha. lia.
  - split; intros k Hk; [rewrite mem_zero_out by lia; rewrite Hin by lia; done|apply mem_zero_in; lia].
  - intros a Ha. unfold seg_touches in Ha. rewrite mem_zero_out by lia. apply Hout. lia.
Qed.

Lemma boot_segments_spec d n i m :
  bootable d -> (i + n = ph_count d)%nat -> has_header d m -> (forall j, (j < i)%nat -> seg_loaded d j m) ->
  exists m', boot_segments n d (ph_addr d i) m = Some m' /\ has_header d m' /\
    forall j, (j < ph_count d)%nat -> seg_loaded d j m'.
Proof.
  revert i m. induction n as [|n IH]; intros i m Hb Hn Hh Hl; cbn [boot_segments].
  - exists m. split; [done|]. split; [done|]. intros j Hj. apply Hl. lia.
  - destruct (load_segment_spec d i m Hb ltac:(lia) Hh) as (m1 & -> & Hh1 & Hs1 & Hk1). cbn [mbind option_bind].
    replace (ph_addr d i + sizeof_ph) with (ph_addr d (S i)) by (unfold ph_addr; lia).
    apply IH; [done|lia|done|]. intros j Hj. destruct (decide (j = i)) as [->|Hne]; [done|].
    destruct (Hl j ltac:(lia)) as [L1 L2]. pose proof (bt_apart _ Hb j i ltac:(lia)) as Hap.
    pose proof (bt_size _ Hb j ltac:(lia)) as Hsz. assert (R : 0 <= seg_filesz d j) by apply mem_le_range.
    split; intros k Hk; (rewrite Hk1; [by apply L1 || by apply L2|apply Hap; lia]).
Qed.

(** C36: [bootmain] on a disk with a bootable kernel: it loads every segment,
    file contents followed by zeros, and jumps to the entry point in the
    header; without the ELF magic number it stops. *)
Theorem bootmain_correct d m :
  (bootable d -> exists m', bootmain d m = Some (inr (mem32 (header d) (boot_elf + elf_entry), m')) /\
     forall i, (i < ph_count d)%nat -> seg_loaded d i m') /\
  (mem32 (header d) (boot_elf + elf_magic) <> ELF_MAGIC -> bootmain d m = Some (inl tt)).
Proof.
  unfold bootmain. destruct (readseg_spec boot_elf (8 * 512) boot_offset d m) as (m1 & E & Hin & _);
    [lia|unfold boot_offset; lia|]. rewrite E. cbn [mbind option_bind].
  assert (Hh : has_header d m1).
  { intros a Ha. unfold header_end in Ha. replace a with (boot_elf + (a - boot_elf)) by lia.
    rewrite Hin by lia. unfold header. f_equal. lia. }
  rewrite (mem32_header d m1 (boot_elf + elf_magic) Hh) by (unfold header_end, boot_elf, elf_magic; lia).
  split.
  - intros Hb. rewrite (bt_magic _ Hb), Z.eqb_refl. cbn [negb].
    rewrite (mem32_header d m1 (boot_elf + elf_phoff) Hh) by (unfold header_end, boot_elf, elf_phoff; lia).
    replace (mem16 m1 (boot_elf + elf_phnum)) with (mem16 (header d) (boot_elf + elf_phnum)).
    2:{ symmetry. apply mem_le_ext. intros k Hk. apply Hh. unfold header_end, boot_elf, elf_phnum in *. lia. }
    fold (ph_count d). replace (boot_elf + mem32 (header d) (boot_elf + elf_phoff)) with (ph_addr d 0) by (unfold ph_addr; lia).
    destruct (boot_segments_spec d (ph_count d) 0 m1 Hb ltac:(lia) Hh) as (m2 & -> & Hh2 & Hl); [intros; lia|].
    cbn [mbind option_bind]. exists m2. split; [|done]. f_equal. f_equal. f_equal.
    apply mem32_header; [done|unfold boot_elf, elf_entry; lia|unfold header_end, boot_elf, elf_entry; lia].
  - intros Hne. by rewrite (proj2 (Z.eqb_neq _ _) Hne).
Qed.
End boot.

(** A disk with an executable of one segment, eight bytes and eight zeros at
    0x100000. *)
Definition boot_disk : gmap Z (list Z) :=
  {[ 769 := [ELF_MAGIC; 0; 0; 0; 0; 0; 0x100000; 52; 0; 0; 0; 1; 0; 1; 4096; 0x100000; 0x100000; 8; 16] ++ replicate 109 0;
     777 := [0x11223344; 0x55667788] ]}.

Lemma boot_disk_bootable : bootable boot_disk.
Proof.
  assert (Hc : ph_count boot_disk = 1%nat) by (vm_compute; reflexivity).
  split; rewrite ?Hc.
  - vm_compute. reflexivity.
  - vm_compute. discriminate.
  - intros i Hi. replace i with 0%nat by lia. vm_compute. discriminate.
  - intros i Hi. replace i with 0%nat by lia. vm_compute. discriminate.
  - intros i Hi. replace i with 0%nat by lia. vm_compute. reflexivity.
  - intros i Hi. replace i with 0%nat by lia. vm_compute. reflexivity.
  - intros i j Hij. lia.
Qed.

Lemma bootmain_correct_witness (m := fun _ => NUL) :
  exists m', bootmain boot_disk m = Some (inr (mem32 (header boot_disk) (boot_elf + elf_entry), m')) /\
    forall i, (i < ph_count boot_disk)%nat -> seg_loaded boot_disk i m'.
Proof. exact (proj1 (bootmain_correct boot_disk m) boot_disk_bootable). Defined.
