(* ===== verification/Devices.v ===== *)
(** * Programming the devices

    Models [init_serial] ([kernel/include/serial.h]), [init_timer]
    ([kernel/include/timer.h]) and [init_intr] ([kernel/include/i8259.h]):
    sequences of port writes.  What they program is stated with the
    initialisation protocol of the two devices: the interrupt controllers
    take four words in order, the timer a mode byte and a two-byte divisor. *)

From S2P Require Import Prelude Proc Sched Pmap Disk FileSys Keyboard Video Descr System.

(** ** The code *)

Definition SERIAL_PORT : Z := 0x3F8.
Definition PORT_CH_0 : Z := 0x40.
Definition PORT_CMD : Z := 0x43.
Definition PIT_FREQUENCE : Z := 1193182.
Definition HZ : Z := 200.
Definition IO_PIC1 : Z := 0x20.
Definition IO_PIC2 : Z := 0xA0.
Definition IRQ_OFFSET : Z := 0x20.
Definition IRQ_SLAVE : Z := 2.

(** [union CmdByte], the bit fields from the low end. *)
Record CmdByte : Type := mkCmd { present_mode : Z; operate_mode : Z; access_mode : Z; channel : Z }.
Definition cmd_val (c : CmdByte) : Z :=
  pack [(1, present_mode c); (3, operate_mode c); (2, access_mode c); (2, channel c)].
Definition pit_mode : CmdByte := mkCmd 0 2 3 0.

Section devices.
Context {D : Type} `{!AtaDevice D}.
Abbreviation S := (sys D).

Definition init_serial : M S unit :=
  outb (SERIAL_PORT + 1) 0x00;;
  outb (SERIAL_PORT + 3) 0x80;;
  outb (SERIAL_PORT + 0) 0x01;;
  outb (SERIAL_PORT + 1) 0x00;;
  outb (SERIAL_PORT + 3) 0x03;;
  outb (SERIAL_PORT + 2) 0xC7;;
  outb (SERIAL_PORT + 4) 0x0B.

Definition init_timer : M S unit :=
  let counter := PIT_FREQUENCE / HZ in
  outb PORT_CMD (cmd_val pit_mode);;
  outb PORT_CH_0 (Z.land counter 0xFF);;
  outb PORT_CH_0 (Z.land (Z.shiftr counter 8) 0xFF).

Definition init_intr : M S unit :=
  outb (IO_PIC1 + 1) 0xFF;;
  outb (IO_PIC2 + 1) 0xFF;;
  outb IO_PIC1 0x11;;
  outb (IO_PIC1 + 1) IRQ_OFFSET;;
  outb (IO_PIC1 + 1) (Z.shiftl 1 IRQ_SLAVE);;
  outb (IO_PIC1 + 1) 0x3;;
  outb IO_PIC2 0x11;;
  outb (IO_PIC2 + 1) (IRQ_OFFSET + 8);;
  outb (IO_PIC2 + 1) IRQ_SLAVE;;
  outb (IO_PIC2 + 1) 0x01;;
  outb IO_PIC1 0x68;;
  outb IO_PIC1 0x0a;;
  outb IO_PIC2 0x68;;
  outb IO_PIC2 0x0a.
End devices.

(** ** The devices *)

(** An 8259A: the state of its initialisation sequence, the vector base, the
    cascade word, automatic end of interrupt and the mask. *)
Inductive pic_mode : Type := PicReady | PicIcw2 (icw1 : Z) | PicIcw3 (icw1 : Z) | PicIcw4.
Record pic : Type := mkPic { pic_state : pic_mode; pic_base : Z; pic_cascade : Z; pic_aeoi : bool; pic_mask : Z }.

Definition needs_icw4 (icw1 : Z) : pic_mode := if Z.testbit icw1 0 then PicIcw4 else PicReady.

(** A write to the command port ([a0 = false]) or the data port. *)
Definition pic_write (a0 : bool) (v : Z) (p : pic) : pic :=
  match a0, pic_state p with
  | false, _ => if Z.testbit v 4 then mkPic (PicIcw2 v) 0 (pic_cascade p) false 0 else p
  | true, PicReady => mkPic PicReady (pic_base p) (pic_cascade p) (pic_aeoi p) v
  | true, PicIcw2 w =>
      mkPic (if Z.testbit w 1 then needs_icw4 w else PicIcw3 w) (Z.land v 0xF8) (pic_cascade p) (pic_aeoi p) (pic_mask p)
  | true, PicIcw3 w => mkPic (needs_icw4 w) (pic_base p) v (pic_aeoi p) (pic_mask p)
  | true, PicIcw4 => mkPic PicReady (pic_base p) (pic_cascade p) (Z.testbit v 1) (pic_mask p)
  end.

(** Channel 0 of an 8254: its mode and divisor, and whether the next byte
    written to it is the high one. *)
Record pit : Type := mkPit { pit_op : Z; pit_divisor : Z; pit_high : bool }.
Definition pit_write (port v : Z) (p : pit) : pit :=
  if port =? 0x43 then
    if Z.shiftr v 6 =? 0 then mkPit (Z.land (Z.shiftr v 1) 7) 0 false else p
  else if pit_high p then mkPit (pit_op p) (pit_divisor p + 2 ^ 8 * v) false
  else mkPit (pit_op p) v true.

Record devs : Type := mkDevs { d_pic1 : pic; d_pic2 : pic; d_pit : pit }.
Definition dev_write (d : devs) (w : Z * Z) : devs :=
  let '(port, v) := w in
  if port =? 0x20 then mkDevs (pic_write false v (d_pic1 d)) (d_pic2 d) (d_pit d)
  else if port =? 0x21 then mkDevs (pic_write true v (d_pic1 d)) (d_pic2 d) (d_pit d)
  else if port =? 0xA0 then mkDevs (d_pic1 d) (pic_write false v (d_pic2 d)) (d_pit d)
  else if port =? 0xA1 then mkDevs (d_pic1 d) (pic_write true v (d_pic2 d)) (d_pit d)
  else if (port =? 0x40) || (port =? 0x43) then mkDevs (d_pic1 d) (d_pic2 d) (pit_write port v (d_pit d))
  else d.
Definition devices (d : devs) (ws : list (Z * Z)) : devs := fold_left dev_write ws d.

(** The vector at which an interrupt line of the pair arrives. *)
Definition irq_vector (d : devs) (line : Z) : Z :=
  if line <? 8 then pic_base (d_pic1 d) + line else pic_base (d_pic2 d) + (line - 8).

Section proofs.
Context {D : Type} `{!AtaDevice D}.

(** After [init_timer] and [init_intr], whatever state the devices were
    in: interrupt line [n] arrives at vector [32 + n] of the [idt], no line
    is masked, the master acknowledges its interrupts by itself, and the
    timer's divisor makes it tick [HZ] times a second, rounded up by less
    than one part in five thousand. *)
Theorem devices_programmed (s : sys D) (d : devs) :
  exists s' ws, (init_timer;; init_intr) s = Ret tt s' /\ s' = with_ports (y_ports s ++ ws) s /\
    let d' := devices d ws in
    (forall n, irq_vector d' n = 32 + n) /\
    pic_mask (d_pic1 d') = 0 /\ pic_mask (d_pic2 d') = 0 /\
    pic_state (d_pic1 d') = PicReady /\ pic_state (d_pic2 d') = PicReady /\
    pic_cascade (d_pic1 d') = 2 ^ pic_cascade (d_pic2 d') /\
    pic_aeoi (d_pic1 d') = true /\
    pit_op (d_pit d') = 2 /\ pit_high (d_pit d') = false /\
    HZ * pit_divisor (d_pit d') <= PIT_FREQUENCE < HZ * (pit_divisor (d_pit d') + 1).
Proof.
  set (ws := [(67, 52); (64, 77); (64, 23); (33, 255); (161, 255); (32, 17); (33, 32); (33, 4); (33, 3);
              (160, 17); (161, 40); (161, 2); (161, 1); (32, 104); (32, 10); (160, 104); (160, 10)]).
  exists (with_ports (y_ports s ++ ws) s), ws. split.
  { cbv -[app]. destruct s. unfold ws. by rewrite <- !app_assoc. }
  split; [done|]. destruct d as [[st1 b1 c1 a1 m1] [st2 b2 c2 a2 m2] [o dv h]].
  destruct st1, st2; cbv beta zeta delta [ws]; repeat split;
    first [intros n; unfold irq_vector; case_match; reflexivity || (cbv -[Z.add Z.sub]; lia) | vm_compute; done | idtac].
Qed.
End proofs.
