(* ===== verification/Ls.v ===== *)
(** * Listing files, and starting the file system

    Models [fs_ls_kr] and [init_fs] of [kernel/src/fs/file.c]. *)

From Stdlib Require Import String.
From S2P Require Import Prelude Bytes Proc Sched Pmap Disk FileSys Printk Keyboard Video Descr System.

Section ls.
Context {D : Type} `{!AtaDevice D}.
Abbreviation S := (sys D).

(** [printk] with its arguments; [str_at] is the memory of the [%s] ones. *)
Definition printk_args (str_at : Z -> option (list Z)) (ctl args : list Z) : M S unit :=
  out ← from_option_or OutOfBounds (vfprintf str_at ctl args);
  on_kb (cputs out).

(** The string at an offset in the directory sector. *)
Definition dir_string (dir : list byte) (off : Z) : option (list Z) := string_at (byte.unsigned <$> dir) off.

Definition nl : list Z := [10].
Definition tab : list Z := [9].
Definition line_format (unit : string) : list Z := chars "%d" ++ chars unit ++ tab ++ chars "%s" ++ nl.

(** One entry.  [continue] skips nothing: it ends the body. *)
Definition ls_entry (mask : Z) (e : nat) : M S unit :=
  dir ← on_fs (gets fs_dir);
  if decide (rd32 dir (ent_inode_offset e) = u32 (-1)) then mret tt
  else
    let name := Z.of_nat (ent_filename e) in
    c ← from_option_or OutOfBounds (dir !! ent_filename e);
    if (Z.land mask 0x02 =? 0) && (byte.unsigned c =? 46) then mret tt
    else if Z.land mask 0x01 =? 0 then printk_args (dir_string dir) (chars "%s" ++ nl) [name]
    else if negb (Z.land mask 0x04 =? 0) then
      let size := i32 (rd32 dir (ent_file_size e)) in
      if size <? 1024 then printk_args (dir_string dir) (line_format "") [size; name]
      else
        let size := Z.quot size 1024 in
        if size <? 1024 then printk_args (dir_string dir) (line_format "K") [size; name]
        else
          let size := Z.quot size 1024 in
          if size <? 1024 then printk_args (dir_string dir) (line_format "M") [size; name]
          else mret tt
    else printk_args (dir_string dir) (line_format "") [rd32 dir (ent_file_size e); name].

Fixpoint ls_entries (mask : Z) (n e : nat) : M S unit :=
  match n with
  | O => mret tt
  | Datatypes.S n => ls_entry mask e;; ls_entries mask n (Datatypes.S e)
  end.

Fixpoint ls_dirs (mask : Z) (n : nat) (d : Z) : M S unit :=
  match n with
  | O => mret tt
  | Datatypes.S n => on_fs (readDir d);; ls_entries mask NR_ENTRIES 0;; ls_dirs mask n (d + 1)
  end.

Definition fs_ls_kr (mask : Z) : M S unit := ls_dirs mask SC_DIR 0.

(** ** [init_fs]: [magic] is what the array on the stack held. *)

Definition init_fs (magic : list byte) : M S unit :=
  on_fs (modify (fun s => with_fs (set_used NUL <$> fs_fs s) s));;
  fd ← on_fs (fs_open_kr ((fun c => byte.of_Z c) <$> chars "test.txt" ++ [0]));
  '(_, magic) ← on_fs (fs_read_kr fd magic 80);
  _ ← on_fs (fs_close_kr fd);
  printk_args (dir_string magic) (chars "%s" ++ nl) [0].
End ls.
