(* ===== verification/Kernel.v ===== *)
(** * System calls, interrupts and the start of the kernel

    Models [kernel/src/do_syscall.c], [kernel/src/irq/irq_handle.c] and
    [main] of [kernel/src/kernel.c].  Every gate clears the interrupt flag
    or enters through [cli], so a handler runs to its end: it returns to the
    process that was interrupted, or [scheduler_switch] leaves for another
    one, which is the [Jump] outcome. *)

From Stdlib Require Import String.
From S2P Require Import Prelude Bytes Proc Sched Pmap Disk FileSys Printk Keyboard Video Descr System.
From S2P Require Import Spawn Loader Ls Devices.

(** ** [lib/syscall.h]: numbers *)

Definition SYS_PRINT_CHAR : Z := 1000.
Definition SYS_INIT_CACHE : Z := 1100.
Definition SYS_CLEAR_VRAM : Z := 1101.
Definition SYS_FLUSH_VCACHE : Z := 1102.
Definition SYS_SET_PIXEL : Z := 1103.
Definition SYS_GET_KEY : Z := 1200.
Definition SYS_ADD_TIMER : Z := 1300.
Definition SYS_GET_TICK : Z := 1301.
Definition SYS_HANDOUT : Z := 1500.
Definition SYS_PID : Z := 1501.
Definition SYS_SLEEP : Z := 1502.
Definition SYS_EXIT : Z := 1503.
Definition SYS_FORK : Z := 1504.
Definition SYS_PPID : Z := 1505.
Definition SYS_JOIN : Z := 1506.
Definition SYS_THREAD : Z := 1510.
Definition SYS_SEM_INIT : Z := 1600.
Definition SYS_SEM_OPEN : Z := 1601.
Definition SYS_SEM_POST : Z := 1602.
Definition SYS_SEM_WAIT : Z := 1603.
Definition SYS_SEM_CLOSE : Z := 1604.
Definition SYS_SEM_GET : Z := 1605.
Definition SYS_SEM_TRYWAIT : Z := 1606.
Definition SYS_FS_OPEN : Z := 1700.
Definition SYS_FS_READ : Z := 1701.
Definition SYS_FS_WRITE : Z := 1702.
Definition SYS_FS_LSEEK : Z := 1703.
Definition SYS_FS_CLOSE : Z := 1704.
Definition SYS_FS_LS : Z := 1705.
Definition SYS_READLINE : Z := 1800.
Definition SYS_EXEC : Z := 1900.

(** The argument of a [char] parameter. *)
Definition i8 (x : Z) : Z := (x + 2 ^ 7) mod 2 ^ 8 - 2 ^ 7.

Section kernel.
Context {D : Type} `{!AtaDevice D}.
Context (PCBPool_addr sems_addr : Z).
Abbreviation S := (sys D).

(** ** Leaving the kernel

    [scheduler_switch] loads the page directory and the kernel stack of the
    process it is given, which is then [current]. *)
Definition enter_current (s : S) : S :=
  match k_current (y_k s) with
  | Some i =>
      match k_PCBPool (y_k s) !! i with
      | Some c =>
          with_desc (set_tss_esp0 (kstacktop_addr PCBPool_addr i) (y_desc s)) (load_cr3 (PADDR (p_pgdir c)) s)
      | None => s
      end
  | None => s
  end.

(** A computation that can end in [scheduler_switch]. *)
Definition switching {A} (c : M S A) : M S A := fun s =>
  match c s with
  | Jump s' => Jump (enter_current s')
  | r => r
  end.

(** [enter_pcb]: the page directory, the kernel stack, the data segments and
    the five words [iret] takes are loaded; the general registers keep what
    the kernel has in them. *)
Record entered : Type := mkEntered {
  en_ds : Z; en_es : Z; en_fs : Z; en_gs : Z; en_ss : Z; en_esp : Z; en_eflags : Z; en_cs : Z; en_eip : Z }.

Definition enter_pcb (pcb : nat) : M S entered :=
  c ← on_k (get_pcb (Some pcb));
  lcr3 (PADDR (p_pgdir c));;
  modify (fun s => with_desc (set_tss_esp0 (kstacktop_addr PCBPool_addr pcb) (y_desc s)) s);;
  tf ← on_k (get_tf (Some pcb));
  mret (mkEntered (u16 (ds tf)) (u16 (es tf)) (u16 (fs_sel tf)) (u16 (gs tf)) (u16 (ss tf)) (esp tf) (eflags tf) (u16 (cs tf)) (eip tf)).

Definition switch_pcb (pcb : nat) : M S entered :=
  on_k (modify (with_current (Some pcb)));;
  c ← on_k (get_pcb (Some pcb));
  lcr3 (PADDR (p_pgdir c));;
  enter_pcb pcb.

(** ** System calls *)

(** The frame [tf] points to: on the stack of the process [i]. *)
Definition frame_of (i : nat) : M S TrapFrame := c ← on_k (get_pcb (Some i)); mret (p_frame c).
Definition set_eax (i : nat) (v : Z) : M S unit :=
  on_k (upd_pcb (Some i) (fun c => with_frame (tf_eax (u32 v) (p_frame c)) c)).

(** A [Semaphore *] of the program: one of [sems], or memory of its own,
    which is known by the kernel's address of the frame it is in. *)
Definition sem_key (s : S) (la : Z) : option Z :=
  if KERNBASE <=? la then Some la
  else pa ← translate (mm_mem (y_mm s)) (y_cr3 s) la; Some (KADDR pa).
Definition sem_ptr (la : Z) : M S Z := s ← get; from_option_or OutOfBounds (sem_key s la).

Definition do_syscall (i : nat) : M S unit :=
  tf ← frame_of i;
  let n := eax tf in
  if n =? SYS_EXEC then exec_current PCBPool_addr (user_string (ebx tf))
  else if n =? SYS_READLINE then
    str ← on_kb (readline (chars "$> "%string));
    ustores (ebx tf) (byte.of_Z <$> str ++ [0])
  else if n =? SYS_FS_LS then fs_ls_kr (ebx tf)
  else if n =? SYS_FS_OPEN then
    name ← user_string (ebx tf); r ← fs_open_port name (i32 (ecx tf)); set_eax i r
  else if n =? SYS_FS_READ then
    r ← fs_read_port (i32 (ebx tf)) (ecx tf) (i32 (edx tf)); set_eax i r
  else if n =? SYS_FS_WRITE then
    r ← fs_write_port (i32 (ebx tf)) (ecx tf) (i32 (edx tf)); set_eax i r
  else if n =? SYS_FS_LSEEK then
    r ← fs_lseek_port (i32 (ebx tf)) (i32 (ecx tf)) (i32 (edx tf)); set_eax i r
  else if n =? SYS_FS_CLOSE then r ← fs_close_port (i32 (ebx tf)); set_eax i r
  else if n =? SYS_SEM_INIT then m ← sem_ptr (ebx tf); on_k (sem_init_kr m (i32 (ecx tf)))
  else if n =? SYS_SEM_OPEN then
    r ← on_k (sem_open_kr sems_addr (i32 (ebx tf)) (i32 (ecx tf))); set_eax i r
  else if n =? SYS_SEM_POST then m ← sem_ptr (ebx tf); on_k (sem_post_kr m)
  else if n =? SYS_SEM_WAIT then m ← sem_ptr (ebx tf); on_k (sem_wait_kr m)
  else if n =? SYS_SEM_TRYWAIT then
    m ← sem_ptr (ebx tf); r ← on_k (sem_trywait_kr m); set_eax i r
  else if n =? SYS_SEM_CLOSE then m ← sem_ptr (ebx tf); on_k (sem_close_kr m)
  else if n =? SYS_SEM_GET then m ← sem_ptr (ebx tf); r ← on_k (sem_get_kr m); set_eax i r
  else if n =? SYS_THREAD then thread_current PCBPool_addr (ebx tf) (ecx tf) (edx tf)
  else if n =? SYS_JOIN then on_k (join_current (i32 (ebx tf)))
  else if n =? SYS_PID then r ← on_k sys_pid; set_eax i r
  else if n =? SYS_PPID then r ← on_k sys_ppid; set_eax i r
  else if n =? SYS_SLEEP then on_k (sys_sleep (ebx tf))
  else if n =? SYS_HANDOUT then on_k sys_handout
  else if n =? SYS_EXIT then on_k exit_current
  else if n =? SYS_FORK then fork_current PCBPool_addr
  else if n =? SYS_PRINT_CHAR then on_kb (cputchar (u8 (ebx tf)))
  else if n =? SYS_INIT_CACHE then on_vid initVCache
  else if n =? SYS_CLEAR_VRAM then on_vid clearVRAM
  else if n =? SYS_FLUSH_VCACHE then on_vid clearVRAM;; on_vid flushVCache
  else if n =? SYS_SET_PIXEL then on_vid (setPixelAt (i32 (ebx tf)) (i32 (ecx tf)) (u8 (edx tf)))
  else if n =? SYS_GET_KEY then r ← on_kb (get_key (i8 (ebx tf))); set_eax i r
  else if n =? SYS_GET_TICK then r ← on_k tick; set_eax i r
  else mret tt.

(** ** Interrupts *)

(** [inb(0x60)] reads [code]; the keyboard is acknowledged at port 0x61. *)
Definition read_scancode (code val : Z) : M S Z :=
  outb 0x61 (Z.lor val 0x80);;
  outb 0x61 val;;
  mret (u8 code).

(** The trap leaves the registers [tf] on the kernel stack of the running
    process; [code] and [val] are what ports 0x60 and 0x61 give. *)
Definition irq_handle (tf : TrapFrame) (code val : Z) : M S unit := switching (
  current ← on_k (gets k_current);
  i ← from_option_or NullPointer current;
  on_k (upd_pcb current (with_frame tf));;
  on_k (upd_pcb current (with_tf (TFStack i)));;
  (if irq tf =? 0x80 then do_syscall i else mret tt);;
  tf ← frame_of i;
  (if irq tf =? 1000 then on_k do_timer;; on_k do_scheduler
   else if irq tf =? 1001 then
     code ← read_scancode code val;
     on_kb (press_key code);;
     c ← on_kb ctrl_c;
     cur ← on_k current_pcb;
     if (c : bool) && bool_decide (p_tt cur <> KERNEL) then set_eax i SYS_EXIT;; do_syscall i else mret tt
   else mret tt);;
  tf ← frame_of i;
  if (irq tf =? 0x80) && negb (eax tf =? SYS_PRINT_CHAR) then on_k do_scheduler else mret tt).

(** ** [main]

    [idle_ptr] is the address of [idle]; [magic] the stack of [init_fs]. *)

Context (kpgdir kpgtable gdt_addr tss_addr idt_addr idle_ptr : Z).
Context (vec : Z -> Z) (vecsys irq0 irq1 irq_empty : Z).

(** [init_kern_pgdir], the first step of [page_init], also loads [cr3]. *)
Definition init_page : M S unit :=
  on_mm (page_init kpgdir kpgtable);;
  s ← get;
  lcr3 (PADDR (mm_kern_pgdir (y_mm s))).

Definition main (magic : list byte) : M S unit := switching (
  init_page;;
  modify (fun s => with_desc (init_segment gdt_addr tss_addr (y_desc s)) s);;
  init_serial;;
  init_timer;;
  modify (with_idt (init_idt vec vecsys irq0 irq1 irq_empty));;
  modify (fun s => with_desc (save_idt idt_addr (8 * Z.of_nat NR_IRQ) (y_desc s)) s);;   (* the end of init_idt *)
  init_intr;;
  init_fs magic;;
  on_k init_pcb_pool;;
  printk "This is kernel!"%string;; on_kb (cputchar 10);;
  pidle ← pcb_create;
  pidle ← from_option_or NullPointer pidle;
  empty_loader PCBPool_addr pidle idle_ptr;;
  on_k (enready_pcb (Some pidle));;
  pshell ← pcb_create;
  pshell ← from_option_or NullPointer pshell;
  _ ← loader_file PCBPool_addr pshell (mret ((fun c => byte.of_Z c) <$> chars "cshell"%string ++ [0]));
  on_k (enready_pcb (Some pshell));;
  on_k do_scheduler).
End kernel.
