(* ===== verification/Safe.v ===== *)
(** * What a computation of the whole kernel does to the process state

    [kp c Q J s]: if [c] does not fault from [s] then [Q] holds of its result
    and the process state when it returns, and [J] of the process state when
    it leaves for another process.  [quiet] computations are those that do
    neither touch processes nor leave. *)

From S2P Require Import Prelude Bytes Proc Sched Pmap Disk FileSys Keyboard Video Descr System.

Section safe.
Context {D : Type} `{!AtaDevice D}.
Abbreviation S := (sys D).
Implicit Types (s : S) (J : kst -> Prop).

Definition kp {A} (c : M S A) (Q : A -> S -> Prop) J s : Prop :=
  match c s with
  | Ret a s' => Q a s'
  | Jump s' => J (y_k s')
  | Fault _ => True
  end.

Lemma kp_bind {A B} (c : M S A) (f : A -> M S B) Q J s :
  kp c (fun a s' => kp (f a) Q J s') J s -> kp (c ≫= f) Q J s.
Proof. unfold kp, mbind, M_bind. by destruct (c s). Qed.

Lemma kp_ret {A} (a : A) (Q : A -> S -> Prop) J s : Q a s -> kp (mret a) Q J s.
Proof. done. Qed.

Lemma kp_mono {A} (c : M S A) (Q Q' : A -> S -> Prop) J J' s :
  kp c Q J s -> (forall a s', Q a s' -> Q' a s') -> (forall k, J k -> J' k) -> kp c Q' J' s.
Proof. unfold kp. destruct (c s); naive_solver. Qed.

Lemma kp_wp {A} (c : M kst A) (Q : A -> S -> Prop) J s :
  wp c (fun a k => Q a (with_k k s)) J (y_k s) -> kp (on_k c) Q J s.
Proof. unfold kp, wp, on_k, zoom. by destruct (c (y_k s)). Qed.

Lemma kp_from_option {A} e (o : option A) (Q : A -> S -> Prop) J s :
  (forall a, o = Some a -> Q a s) -> kp (from_option_or e o) Q J s.
Proof. destruct o; [by intros H; apply H|done]. Qed.

Lemma kp_k {A} (c : M kst A) (Q : A -> S -> Prop) J s :
  match c (y_k s) with Ret a k => Q a (with_k k s) | Jump k => J k | Fault _ => True end ->
  kp (on_k c) Q J s.
Proof. unfold kp, on_k, zoom. by destruct (c (y_k s)). Qed.

(** ** Quiet computations *)

Definition quiet {A} (c : M S A) : Prop := forall s,
  match c s with Ret _ s' => y_k s' = y_k s | Jump _ => False | Fault _ => True end.

Lemma quiet_eq {A} (c : M S A) s x s' : quiet c -> c s = Ret x s' -> y_k s' = y_k s.
Proof. intros Hc E. specialize (Hc s). by rewrite E in Hc. Qed.
Lemma quiet_ret {A} (a : A) : quiet (mret a).
Proof. done. Qed.
Lemma quiet_fail {A} e : quiet (fail e : M S A).
Proof. done. Qed.
Lemma quiet_get : quiet get.
Proof. done. Qed.
Lemma quiet_gets {A} (f : S -> A) : quiet (gets f).
Proof. done. Qed.
Lemma quiet_bind {A B} (c : M S A) (f : A -> M S B) : quiet c -> (forall a, quiet (f a)) -> quiet (c ≫= f).
Proof.
  intros Hc Hf s. specialize (Hc s). unfold mbind, M_bind. destruct (c s) as [a s'|s'|e]; [|done..].
  specialize (Hf a s'). destruct (f a s'); [congruence|done..].
Qed.
Lemma quiet_option {A} e (o : option A) : quiet (from_option_or e o).
Proof. by destruct o. Qed.
Lemma quiet_mm {A} (c : M mmst A) : quiet (on_mm c).
Proof. intros s. unfold on_mm, part. by destruct (c _). Qed.
Lemma quiet_fs {A} (c : M (fsst D) A) : quiet (on_fs c).
Proof. intros s. unfold on_fs, part. by destruct (c _). Qed.
Lemma quiet_kb {A} (c : M kbst A) : quiet (on_kb c).
Proof. intros s. unfold on_kb, part. by destruct (c _). Qed.
Lemma quiet_vid f : quiet (on_vid f : M S unit).
Proof. done. Qed.
Lemma quiet_lcr3 v : quiet (lcr3 v : M S unit).
Proof. done. Qed.
Lemma quiet_outb p v : quiet (outb p v : M S unit).
Proof. done. Qed.
(** Reading the process state. *)
Lemma quiet_read {A} (c : M kst A) : (forall k, match c k with Ret _ k' => k' = k | Jump _ => False | Fault _ => True end) ->
  quiet (on_k c).
Proof. intros H s. unfold on_k, zoom. specialize (H (y_k s)). destruct (c (y_k s)); naive_solver. Qed.
Lemma quiet_get_pcb p : quiet (on_k (get_pcb p)).
Proof.
  apply quiet_read. intros k. destruct p as [i|]; [|done]. unfold get_pcb, mbind, M_bind. simpl.
  unfold from_option_or. by destruct (k_PCBPool k !! i).
Qed.
Lemma quiet_gets_k {A} (f : kst -> A) : quiet (on_k (gets f)).
Proof. by apply quiet_read. Qed.

Lemma kp_quiet {A} (c : M S A) (Q : A -> S -> Prop) J s :
  quiet c -> (forall a s', y_k s' = y_k s -> Q a s') -> kp c Q J s.
Proof. intros Hc HQ. specialize (Hc s). unfold kp. destruct (c s); [by apply HQ|done..]. Qed.
End safe.

Create HintDb quiet discriminated.
#[export] Hint Resolve quiet_ret quiet_fail quiet_get quiet_gets quiet_option quiet_mm quiet_fs quiet_kb
  quiet_vid quiet_lcr3 quiet_outb quiet_get_pcb quiet_gets_k : quiet.

Ltac solve_quiet := repeat first
  [ solve [auto with quiet nocore]
  | apply quiet_bind; [|intros ?]
  | case_match ].

Section memory.
Context {D : Type} `{!AtaDevice D}.
Abbreviation S := (sys D).

Lemma quiet_uload la : quiet (uload la : M S Z).
Proof. unfold uload. solve_quiet. Qed.
Lemma quiet_uload_le n la : quiet (uload_le n la : M S Z).
Proof. revert la. induction n as [|n IH]; intros la; cbn [uload_le]; solve_quiet; by apply quiet_uload. Qed.
Lemma quiet_ustore la v : quiet (ustore la v : M S unit).
Proof. unfold ustore. solve_quiet. Qed.
Lemma quiet_ustores la bs : quiet (ustores la bs : M S unit).
Proof. revert la. induction bs as [|b bs IH]; intros la; cbn [ustores]; solve_quiet; by apply quiet_ustore. Qed.
Lemma quiet_user_string la : quiet (user_string la : M S (list byte)).
Proof. unfold user_string. solve_quiet. Qed.
End memory.

#[export] Hint Resolve quiet_uload quiet_uload_le quiet_ustore quiet_ustores quiet_user_string : quiet.
#[export] Hint Unfold uload32 uload16 ustore32 : quiet.
