(* ===== verification/SpawnProofs.v ===== *)
(** * Creating processes keeps the process invariant

    Between [pcb_create] and [ll_push] the new PCB is used but in no queue.
    [Near i a] holds of the states in which everything but the PCB [i] is as
    in [a]; the steps of [copy_pcb], [init_pcb] and the loaders stay within
    it, and queueing [i] at the end restores the invariant. *)

From S2P Require Import Prelude Bytes Proc Queues AbsProc Sched SchedSpec SchedProofs Pmap Disk FileSys Printk.
From S2P Require Import Keyboard Video Descr System Spawn Loader Safe.

Definition life (c : PCB) : Z * TASK_TYPE := (p_used c, p_tt c).

Record same_but (i : nat) (a a' : astate) : Prop := {
  sb_q : a_q a' = a_q a;
  sb_cur : a_cur a' = a_cur a;
  sb_sem : forall m, a_sem a' m = a_sem a m;
  sb_life : forall q, q <> i -> life <$> a_pcb a' q = life <$> a_pcb a q }.

Lemma same_but_refl i a : same_but i a a.
Proof. by split. Qed.

Lemma same_but_trans i a b c : same_but i a b -> same_but i b c -> same_but i a c.
Proof.
  intros [Q1 C1 S1 L1] [Q2 C2 S2 L2]. split; [congruence..| |].
  - intros m. by rewrite S2, S1.
  - intros q Hq. by rewrite L2, L1.
Qed.

Lemma same_but_here i a f : same_but i a (a_upd i f a).
Proof. split; [done..|]. intros q Hq. by rewrite a_pcb_upd, decide_False. Qed.

Lemma same_but_upd i j a f `{!KeepsLife f} : same_but i a (a_upd j f a).
Proof.
  split; [done..|]. intros q Hq. rewrite a_pcb_upd. case_decide; [|done].
  destruct (a_pcb a q) as [c|]; [|done]. simpl. unfold life. by rewrite keeps_used, keeps_tt.
Qed.

Lemma same_but_glob i a f `{!GlobOnly f} : (forall k, k_current (f k) = k_current k) -> same_but i a (a_glob f a).
Proof.
  intros Hc. split; [done|apply Hc|..].
  - intros m. unfold a_sem. simpl. by rewrite go_sems.
  - intros q _. unfold a_pcb. simpl. by rewrite go_pool.
Qed.

Lemma same_but_alive i a a' q : same_but i a a' -> q <> i -> alive a' q <-> alive a q.
Proof.
  intros H Hq. pose proof (sb_life _ _ _ H q Hq) as E. unfold alive, life in *.
  destruct (a_pcb a q) as [c|], (a_pcb a' q) as [c'|]; simpl in E; [|done|done|naive_solver].
  injection E as E1 E2. split; intros (? & [= <-] & ?); eexists; (split; [done|congruence]).
Qed.

Lemma same_but_tt i a a' q c : same_but i a a' -> q <> i -> a_pcb a q = Some c ->
  exists c', a_pcb a' q = Some c' /\ p_tt c' = p_tt c.
Proof.
  intros H Hq Hc. pose proof (sb_life _ _ _ H q Hq) as E. rewrite Hc in E.
  destruct (a_pcb a' q) as [c'|]; [|done]. injection E as E1 E2. by exists c'.
Qed.

(** ** Queueing a new process *)

Lemma QOk_cons L h p : QOk L -> unlinked L p -> QOk (<[h := p :: L h]> L).
Proof.
  intros [H1 H2] Hun.
  assert (Hin : forall h' q, q ∈ <[h := p :: L h]> L h' -> q ∈ L h' \/ (q = p /\ h' = h)).
  { intros h' q. destruct (decide (h' = h)) as [->|Hne].
    - rewrite fn_lookup_insert. set_solver+.
    - rewrite fn_lookup_insert_ne by done. tauto. }
  split.
  - intros h'. destruct (decide (h' = h)) as [->|Hne].
    + rewrite fn_lookup_insert. constructor; [apply Hun|apply H1].
    + rewrite fn_lookup_insert_ne by done. apply H1.
  - intros h1 h2 q [Hq1|[-> ->]]%Hin [Hq2|[Hq2 ->]]%Hin; [by eapply H2| | |done].
    + subst. by destruct (Hun h1).
    + by destruct (Hun h2).
Qed.

Definition a_spawn (i : nat) (a : astate) : astate := a_setq HReady (i :: a_q a HReady) a.

(** All of [AProc] that does not ask for a runnable kernel process. *)
Record AProc0 (a : astate) : Prop := {
  ap0_q : QOk (a_q a);
  ap0_cur : forall p, a_cur a = Some p -> unlinked (a_q a) p /\ alive a p;
  ap0_used : forall h p, p ∈ a_q a h -> alive a p;
  ap0_all : forall p, alive a p -> a_cur a = Some p \/ exists h, p ∈ a_q a h;
  ap0_join : forall p, ~ alive a p -> a_q a (HJoin p) = [] }.

Definition has_kernel (a : astate) : Prop := exists p c, a_pcb a p = Some c /\ p_tt c = KERNEL /\
  (a_cur a = Some p \/ p ∈ a_q a HReady).

Lemma AProc_split a : AProc a <-> AProc0 a /\ has_kernel a.
Proof.
  split; [intros [H0 H1 H2 H3 H4 H5]; split; [by split|exact H5]|intros [[H0 H1 H2 H3 H4] H5]; by split].
Qed.

Lemma unlinked_dead a i : AProc0 a -> ~ alive a i -> unlinked (a_q a) i.
Proof. intros HA Hd h Hi. apply Hd. by apply (ap0_used _ HA h). Qed.

Lemma AProc0_spawn i a a' : AProc0 a -> ~ alive a i -> same_but i a a' -> alive a' i -> AProc0 (a_spawn i a').
Proof.
  intros HA Hd Hs Hi. pose proof (unlinked_dead _ _ HA Hd) as Hun. destruct HA as [H0 H1 H2 H3 H4].
  pose proof (sb_q _ _ _ Hs) as Hq. pose proof (sb_cur _ _ _ Hs) as Hc.
  assert (Hal : forall q, alive (a_spawn i a') q <-> q = i \/ alive a q).
  { intros q. change (alive (a_spawn i a') q) with (alive a' q). destruct (decide (q = i)) as [->|Hne].
    - tauto.
    - rewrite (same_but_alive _ _ _ _ Hs Hne). naive_solver. }
  assert (Hin : forall h q, q ∈ a_q (a_spawn i a') h <-> q ∈ a_q a h \/ (q = i /\ h = HReady)).
  { intros h q. unfold a_spawn. rewrite q_setq. case_decide; subst; rewrite Hq; [|naive_solver].
    rewrite elem_of_cons. naive_solver. }
  split.
  - unfold a_spawn. simpl. rewrite Hq. by apply QOk_cons.
  - intros p Hp. change (a_cur a' = Some p) in Hp. rewrite Hc in Hp. destruct (H1 _ Hp) as [Hu Ha]. split.
    + intros h. rewrite Hin. intros [?|[-> ->]]; [by apply (Hu h)|by apply Hd].
    + apply Hal. by right.
  - intros h p. rewrite Hin, Hal. intros [?|[-> _]]; [right; by eapply H2|by left].
  - intros p. rewrite Hal. change (a_cur (a_spawn i a')) with (a_cur a'). rewrite Hc.
    intros [->|Hp]; [right; exists HReady; apply Hin; naive_solver|].
    destruct (H3 _ Hp) as [?|[h ?]]; [by left|]. right. exists h. apply Hin. by left.
  - intros p Hp. rewrite Hal in Hp. unfold a_spawn. rewrite q_setq, decide_False, Hq by done.
    apply H4. tauto.
Qed.

Lemma has_kernel_spawn i a a' : AProc0 a -> has_kernel a -> ~ alive a i -> same_but i a a' -> has_kernel (a_spawn i a').
Proof.
  intros HA (q & c & Hq & Htt & Hrun) Hd Hs.
  assert (Hne : q <> i).
  { intros ->. apply Hd. destruct Hrun as [Hrun|Hrun]; [by apply (ap0_cur _ HA)|by apply (ap0_used _ HA HReady)]. }
  destruct (same_but_tt _ _ _ _ _ Hs Hne Hq) as (c' & Hc' & Htt'). exists q, c'. split_and!; [done|congruence|].
  change (a_cur (a_spawn i a')) with (a_cur a'). rewrite (sb_cur _ _ _ Hs). unfold a_spawn.
  rewrite q_setq, decide_True, (sb_q _ _ _ Hs) by done. destruct Hrun; [by left|right; by right].
Qed.

Lemma ASem_same i a a' h l : (forall m, h <> HBlock m) -> same_but i a a' -> ASem a -> ASem (a_setq h l a').
Proof.
  intros Hh Hs HS m c Hm. rewrite q_setq, decide_False by apply Hh. rewrite (sb_q _ _ _ Hs).
  apply HS. rewrite <- (sb_sem _ _ _ Hs). exact Hm.
Qed.

Lemma ASem_same_but i a a' : same_but i a a' -> ASem a -> ASem a'.
Proof. intros Hs HS m c Hm. rewrite (sb_q _ _ _ Hs). apply HS. by rewrite <- (sb_sem _ _ _ Hs). Qed.

(** The running user process changed only itself and stays alive. *)
Lemma AProc_here i a a' : AProc a -> a_cur a = Some i -> kernel_ready a -> same_but i a a' -> alive a' i -> AProc a'.
Proof.
  intros HA Hi (q & c & Hqr & Hc & Htt) Hs Ha. destruct HA as [H0 H1 H2 H3 H4 H5]. destruct (H1 _ Hi) as [Hun Hal].
  assert (E : forall q, alive a' q <-> alive a q).
  { intros p. destruct (decide (p = i)) as [->|Hne]; [tauto|by apply (same_but_alive _ _ _ _ Hs)]. }
  split; rewrite ?(sb_q _ _ _ Hs), ?(sb_cur _ _ _ Hs).
  - done.
  - intros p. rewrite E. apply H1.
  - intros h p. rewrite E. apply H2.
  - intros p. rewrite E. apply H3.
  - intros p. rewrite E. apply H4.
  - destruct (same_but_tt i a a' q c Hs) as (c' & Hc' & Ht'); [|done|].
    + intros ->. by apply (Hun HReady).
    + exists q, c'. split_and!; [done|congruence|by right].
Qed.

(** ** Steps that stay near a state *)

Definition Near (i : nat) (a : astate) (k : kst) : Prop := exists a', abs k a' /\ same_but i a a' /\ alive a' i.

Class KeepsUsed (f : PCB -> PCB) : Prop := keeps_used' : forall c, p_used (f c) = p_used c.
#[export] Hint Extern 1 (KeepsUsed _) => (intro; done) : typeclass_instances.

Section near.
Context (i : nat) (a : astate).

Definition keeps_k {A} (c : M kst A) : Prop := forall k, Near i a k ->
  match c k with Ret _ k' => Near i a k' | Jump _ => False | Fault _ => True end.

Lemma keeps_k_bind {A B} (c : M kst A) (f : A -> M kst B) : keeps_k c -> (forall x, keeps_k (f x)) -> keeps_k (c ≫= f).
Proof.
  intros Hc Hf k Hk. specialize (Hc k Hk). unfold mbind, M_bind. destruct (c k) as [x k'|k'|e]; [by apply Hf|done..].
Qed.
Lemma keeps_k_ret {A} (x : A) : keeps_k (mret x).
Proof. by intros k Hk. Qed.
Lemma keeps_k_fail {A} e : keeps_k (fail e : M kst A).
Proof. by intros k Hk. Qed.
Lemma keeps_k_get : keeps_k get.
Proof. by intros k Hk. Qed.
Lemma keeps_k_option {A} e (o : option A) : keeps_k (from_option_or e o).
Proof. destruct o; [apply keeps_k_ret|apply keeps_k_fail]. Qed.
Lemma keeps_k_get_pcb p : keeps_k (get_pcb p).
Proof. apply keeps_k_bind; [apply keeps_k_option|intros q]. apply keeps_k_bind; [apply keeps_k_get|intros s]. apply keeps_k_option. Qed.

Lemma keeps_k_glob f `{!GlobOnly f} : (forall k, k_current (f k) = k_current k) -> keeps_k (modify f).
Proof.
  intros Hc k (a' & Habs & Hs & Ha). exists (a_glob f a'). split_and!; [by apply abs_glob| |].
  - eapply same_but_trans; [exact Hs|]. by apply same_but_glob.
  - destruct Ha as (c & Hc' & Hu). exists c. split; [|done]. unfold a_pcb in *. simpl. by rewrite go_pool.
Qed.

Lemma upd_pcb_cases p f k :
  match upd_pcb p f k with
  | Ret _ k' => exists j c, p = Some j /\ k_PCBPool k !! j = Some c /\ k' = kset_pcb j f k
  | Jump _ => False
  | Fault _ => True
  end.
Proof.
  destruct p as [j|]; [|done]. destruct (k_PCBPool k !! j) as [c|] eqn:E.
  - rewrite (upd_pcb_run _ _ _ _ E). by exists j, c.
  - unfold upd_pcb, get_pcb, mbind, M_bind. simpl. by rewrite E.
Qed.

Lemma keeps_k_upd p f `{!LinkFree f} `{!KeepsLife f} : keeps_k (upd_pcb p f).
Proof.
  intros k (a' & Habs & Hs & Ha). pose proof (upd_pcb_cases p f k) as H.
  destruct (upd_pcb p f k) as [u k'|k'|e]; [|done..]. destruct H as (j & c & -> & Hc & ->).
  exists (a_upd j f a'). split_and!; [by apply abs_upd| |by rewrite alive_upd].
  eapply same_but_trans; [exact Hs|]. by apply same_but_upd.
Qed.

(** The PCB [i] itself can change in any way that keeps it in use. *)
Lemma keeps_k_here f `{!LinkFree f} `{!KeepsUsed f} : keeps_k (upd_pcb (Some i) f).
Proof.
  intros k (a' & Habs & Hs & Ha). pose proof (upd_pcb_cases (Some i) f k) as H.
  destruct (upd_pcb (Some i) f k) as [u k'|k'|e]; [|done..]. destruct H as (j & c & [= <-] & Hc & ->).
  exists (a_upd i f a'). split_and!; [by apply abs_upd| |].
  - eapply same_but_trans; [exact Hs|]. apply same_but_here.
  - destruct Ha as (d & Hd & Hu). exists (f d). rewrite a_pcb_upd, decide_True, Hd by done. split; [done|].
    by rewrite keeps_used'.
Qed.

Lemma keeps_k_get_tf p : keeps_k (get_tf p).
Proof.
  apply keeps_k_bind; [apply keeps_k_get_pcb|intros c]. destruct (p_tf c).
  - apply keeps_k_bind; [apply keeps_k_get|intros s; apply keeps_k_option].
  - apply keeps_k_bind; [apply keeps_k_get_pcb|intros d; apply keeps_k_ret].
Qed.

Lemma keeps_k_upd_tf p g : keeps_k (upd_tf p g).
Proof.
  apply keeps_k_bind; [apply keeps_k_get_tf|intros tf]. apply keeps_k_bind; [apply keeps_k_get_pcb|intros c].
  destruct (p_tf c); [by apply keeps_k_glob; [apply _|]|apply keeps_k_upd; apply _].
Qed.

(** ** The same for the whole kernel *)
Section keeps.
Context {D : Type} `{!AtaDevice D}.
Abbreviation S := (sys D).

Definition keeps {A} (c : M S A) : Prop := forall s, Near i a (y_k s) ->
  match c s with Ret _ s' => Near i a (y_k s') | Jump _ => False | Fault _ => True end.

Lemma keeps_bind {A B} (c : M S A) (f : A -> M S B) : keeps c -> (forall x, keeps (f x)) -> keeps (c ≫= f).
Proof.
  intros Hc Hf k Hk. specialize (Hc k Hk). unfold mbind, M_bind. destruct (c k) as [x k'|k'|e]; [by apply Hf|done..].
Qed.
Lemma keeps_quiet {A} (c : M S A) : quiet c -> keeps c.
Proof. intros Hc s Hs. specialize (Hc s). destruct (c s); [congruence|done..]. Qed.
Lemma keeps_on_k {A} (c : M kst A) : keeps_k c -> keeps (on_k c).
Proof. intros Hc s Hs. specialize (Hc _ Hs). unfold on_k, zoom. by destruct (c (y_k s)). Qed.
Lemma kp_keeps {A} (c : M S A) (Q : A -> S -> Prop) J s :
  keeps c -> Near i a (y_k s) -> (forall x s', Near i a (y_k s') -> Q x s') -> kp c Q J s.
Proof. intros Hc Hs HQ. specialize (Hc s Hs). unfold kp. destruct (c s); [by apply HQ|done..]. Qed.
End keeps.
End near.

Create HintDb keeps discriminated.
#[export] Hint Resolve keeps_k_ret keeps_k_fail keeps_k_get keeps_k_option keeps_k_get_pcb keeps_k_get_tf
  keeps_k_upd_tf : keeps.

Ltac solve_keeps := repeat first
  [ solve [auto with keeps nocore]
  | solve [apply keeps_quiet; solve_quiet]
  | lazymatch goal with
    | |- keeps _ _ (mbind _ _) => apply keeps_bind; [|intros ?]
    | |- keeps_k _ _ (mbind _ _) => apply keeps_k_bind; [|intros ?]
    | |- keeps _ _ (on_k _) => apply keeps_on_k
    end
  | apply keeps_k_here; [solve [apply _]..]
  | apply keeps_k_upd; [solve [apply _]..]
  | apply keeps_k_glob; [apply _|done]
  | case_match ].

(** ** The operations *)

Section operations.
Context (i : nat) (a : astate).
Context {D : Type} `{!AtaDevice D}.
Context (PCBPool_addr : Z).
Abbreviation S := (sys D).

Lemma keeps_init_pcb p ustack entry pri : p = i -> keeps_k i a (init_pcb PCBPool_addr p ustack entry pri).
Proof. intros ->. unfold init_pcb. solve_keeps. Qed.

Lemma keeps_copy_pcb src : keeps i a (copy_pcb PCBPool_addr i src : M S unit).
Proof. unfold copy_pcb. solve_keeps. Qed.

Lemma quiet_zero_fill pa from to : quiet (zero_fill pa from to : M S unit).
Proof.
  unfold zero_fill. generalize (Z.to_nat (u32 (pa + to) - u32 (pa + from))). intros n. generalize (u32 (pa + from)).
  induction n as [|n IH]; intros z; cbn [zero_loop]; solve_quiet; apply IH.
Qed.

Lemma quiet_load_segments n pgdir fd ph : quiet (load_segments n pgdir fd ph : M S unit).
Proof.
  revert ph. induction n as [|n IH]; intros ph; cbn [load_segments]; unfold uload32; [solve_quiet|].
  solve_quiet; try apply quiet_zero_fill; apply IH.
Qed.

Lemma keeps_finish_load pgdir entry : keeps i a (finish_load PCBPool_addr i pgdir entry : M S unit).
Proof. unfold finish_load. solve_keeps. by apply keeps_init_pcb. Qed.

Lemma keeps_loader_file fn : quiet fn -> keeps i a (loader_file PCBPool_addr i fn : M S Z).
Proof.
  intros Hf. unfold loader_file, uload32, uload16. solve_keeps.
  - apply keeps_quiet, quiet_load_segments.
  - apply keeps_finish_load.
Qed.

Lemma keeps_empty_loader ptr : keeps i a (empty_loader PCBPool_addr i ptr : M S unit).
Proof. unfold empty_loader. solve_keeps. by apply keeps_init_pcb. Qed.
End operations.

Lemma find_unused_free pool n j c : find_unused pool n = (n + j)%nat -> pool !! j = Some c -> p_used c = 0.
Proof.
  revert n j. induction pool as [|d pool IH]; intros n j; simpl; [done|]. case_decide as E; intros Hj Hc.
  - assert (j = 0)%nat as -> by lia. by injection Hc as <-.
  - destruct j as [|j]; [|apply (IH (S n) j); [lia|done]].
    exfalso. assert (forall p m, (m <= find_unused p m)%nat) as Hge.
    { clear. induction p as [|x p IH]; intros m; simpl; [lia|]. case_decide; [lia|]. specialize (IH (S m)). lia. }
    specialize (Hge pool (S n)). lia.
Qed.

Section create.
Context {D : Type} `{!AtaDevice D}.
Context (PCBPool_addr : Z).
Abbreviation S := (sys D).

Lemma kp_upd_pcb p f `{!LinkFree f} a (Q : unit -> S -> Prop) J s :
  abs (y_k s) a ->
  (forall j c s', p = Some j -> a_pcb a j = Some (strip_pcb c) -> k_PCBPool (y_k s) !! j = Some c ->
     abs (y_k s') (a_upd j f a) -> Q tt s') -> kp (on_k (upd_pcb p f)) Q J s.
Proof.
  intros Habs HQ. apply kp_k. pose proof (upd_pcb_cases p f (y_k s)) as H.
  destruct (upd_pcb p f (y_k s)) as [[] k'|k'|e]; [|done..]. destruct H as (j & c & -> & Hc & ->).
  apply (HQ j c); [done|by apply (abs_pcb_rev _ _ Habs)|done|by apply abs_upd].
Qed.

(** [pcb_create] takes a PCB that was not in use. *)
Lemma kp_pcb_create a (Q : option nat -> S -> Prop) J s :
  abs (y_k s) a -> (forall s', Q None s') ->
  (forall i s', ~ alive a i -> Near i a (y_k s') -> Q (Some i) s') ->
  kp (pcb_create : M S (option nat)) Q J s.
Proof.
  intros Habs HN HQ. unfold pcb_create. apply kp_bind, kp_ret. set (i := find_unused _ 0).
  apply kp_bind, (kp_upd_pcb _ _ _ _ _ _ Habs). intros j c s1 [= <-] Ha Hc H1.
  assert (Hd : ~ alive a i).
  { intros (c' & Hc' & Hu). rewrite Ha in Hc'. injection Hc' as <-. apply Hu.
    apply (find_unused_free (k_PCBPool (y_k s)) 0 i c); done. }
  assert (Hi : forall f, a_pcb (a_upd i f a) i = Some (f (strip_pcb c))) by (intros f; by rewrite a_pcb_upd, decide_True, Ha).
  apply kp_bind, (kp_upd_pcb _ _ _ _ _ _ H1). intros j2 c2 s2 [= <-] _ _ H2.
  apply kp_bind, (kp_upd_pcb _ _ _ _ _ _ H2). intros j3 c3 s3 [= <-] _ _ H3.
  assert (HNear : Near i a (y_k s3)).
  { eexists. split_and!; [exact H3|repeat (eapply same_but_trans; [|apply same_but_here]); apply same_but_refl|].
    eexists. rewrite !a_pcb_upd, !decide_True, Ha by done. split; [done|done]. }
  clearbody i. clear H1 H2 H3 Habs.
  apply kp_bind, (kp_keeps i a); [solve_keeps|done|]. clear s1 s2 s3 HNear. intros [pp|] s' Hs'; [|apply HN].
  apply kp_bind, (kp_keeps i a); [solve_keeps|done|]. clear s' Hs'. intros _ s' Hs'.
  repeat (apply kp_bind, (kp_keeps i a); [solve_keeps|eassumption|]; clear dependent s'; intros ? s' Hs').
  apply kp_ret. by apply HQ.
Qed.

Lemma wp_ll_push k a h p (Q : Z -> kst -> Prop) J :
  abs k a -> a_head_ok a h -> is_Some (a_pcb a p) -> unlinked (a_q a) p ->
  (forall r k', abs k' (a_setq h (p :: a_q a h) a) -> Q r k') ->
  wp (ll_push h (Some p)) Q J k.
Proof.
  intros Habs Hh Hp Hun HQ.
  destruct (ll_push_run k (a_q a) (proj1 Habs) h p) as (r & s' & Hr & HR & Hs);
    [by eapply abs_head_is_Some|by eapply abs_next_is_Some|done|].
  eapply wp_eq; [exact Hr|]. apply HQ. by eapply abs_setq.
Qed.

(** Queueing a new process near an invariant state. *)
Lemma wp_spawn i a k (Q : Z -> kst -> Prop) J :
  AProc0 a -> ~ alive a i -> Near i a k ->
  (forall r k' a', abs k' (a_spawn i a') -> same_but i a a' -> alive a' i -> Q r k') ->
  wp (ll_push HReady (Some i)) Q J k.
Proof.
  intros HA Hd (a' & Habs & Hs & Ha) HQ. eapply (wp_ll_push _ _ HReady _ _ _ Habs); [done|by apply alive_is_Some| |].
  - rewrite (sb_q _ _ _ Hs). by apply unlinked_dead.
  - intros r k' Habs'. by eapply HQ.
Qed.

Lemma KInv_spawned i a a' k : AProc a -> ASem a -> a_cur a <> None -> ~ alive a i -> same_but i a a' -> alive a' i ->
  abs k (a_spawn i a') -> KInv k.
Proof.
  intros HA HS Hc Hd Hs Ha Habs. apply AProc_split in HA as [HA Hk]. exists (a_spawn i a'). split_and!; [done|..].
  - apply AProc_split. split; [by eapply AProc0_spawn|by eapply has_kernel_spawn].
  - eapply ASem_same; [done|exact Hs|done].
  - change (a_cur a' <> None). by rewrite (sb_cur _ _ _ Hs).
Qed.

Lemma kp_spawn i a (Q : unit -> S -> Prop) J s :
  AProc a -> ASem a -> a_cur a <> None -> ~ alive a i -> Near i a (y_k s) ->
  (forall s', KInv (y_k s') -> Q tt s') ->
  kp (_ ← on_k (ll_push HReady (Some i)); mret tt) Q J s.
Proof.
  intros HA HS Hc Hd HN HQ. apply kp_bind, kp_wp. eapply wp_spawn; [by apply AProc_split|done|exact HN|].
  intros r k' a' Habs Hs Ha. apply kp_ret. apply HQ. by eapply KInv_spawned.
Qed.

(** The running process requeues itself and another one runs. *)
Lemma wp_requeue a i s (Q : unit -> S -> Prop) (J : S -> Prop) :
  abs (y_k s) a -> AProc a -> a_cur a = Some i -> (forall k, abs k (a_block HReady i a) -> J (with_k k s)) ->
  wp (_ ← on_k (ll_entail HReady (Some i)); on_k (modify (with_current None));; on_k do_scheduler) Q J s.
Proof.
  intros Habs HA Hi HJ. destruct (ap_cur _ HA _ Hi) as [Hun Hal].
  apply wp_bind, wp_on_k. eapply (wp_ll_entail _ _ Habs); [done|by apply (alive_is_Some a)|done|].
  clear Habs. intros r k Habs. apply wp_bind, wp_on_k. apply (wp_glob _ _ Habs); [apply _|]. clear Habs. intros k2 H2.
  apply wp_on_k. eapply wp_mono; [apply (wp_dispatch 1 _ (a_park HReady i a) (fun _ _ => False)); [exact H2|apply AProc_park; [done..|by left]|done]| |].
  - done.
  - intros k' Hk'. by apply HJ.
Qed.

Lemma kp_of_wp {A} (m : M S A) (Q : A -> S -> Prop) (J : kst -> Prop) s :
  wp m (fun _ _ => False) (fun s' => J (y_k s')) s -> kp m Q J s.
Proof. unfold wp, kp. by destruct (m s). Qed.

Lemma kp_requeue a i s (Q : unit -> S -> Prop) :
  abs (y_k s) a -> AProc a -> ASem a -> a_cur a = Some i ->
  kp (_ ← on_k (ll_entail HReady (Some i)); on_k (modify (with_current None));; on_k do_scheduler) Q KInv s.
Proof.
  intros Habs HA HS Hi. apply kp_of_wp. apply (wp_requeue a i); [done..|]. intros k Hk.
  eapply (KInv_block _ a HReady); [exact Hk|done..|by left|by apply ASem_park].
Qed.

Lemma kp_exec_current fn s : quiet fn -> KInv (y_k s) -> user_running (y_k s) ->
  kp (exec_current PCBPool_addr fn : M S unit) (fun _ s' => KInv (y_k s')) KInv s.
Proof.
  intros Hfn (a & Habs & HA & HS & Hcur) Hu. pose proof (user_kernel_ready _ _ Habs HA Hu) as Hk.
  destruct (a_cur a) as [i|] eqn:Hi; [|done]. destruct (ap_cur _ HA _ Hi) as [_ Hal].
  assert (HN : Near i a (y_k s)) by (exists a; split_and!; [done|apply same_but_refl|done]).
  unfold exec_current. apply kp_bind, kp_k. simpl. rewrite (abs_cur _ _ Habs), Hi.
  apply kp_bind, kp_from_option. intros ? [= <-]. apply kp_bind; eapply kp_keeps; [by apply keeps_loader_file|done|].
  clear s Habs Hu HN. intros st s (a' & Habs & Hs & Ha).
  pose proof (AProc_here _ _ _ HA Hi Hk Hs Ha) as HA'. pose proof (ASem_same_but _ _ _ Hs HS) as HS'.
  assert (Hi' : a_cur a' = Some i) by (rewrite (sb_cur _ _ _ Hs); done).
  case_match.
  - apply kp_quiet; [unfold printk; solve_quiet|]. intros _ s' ->. exists a'. split_and!; [done..|congruence].
  - by apply (kp_requeue a' i).
Qed.
End create.
