(* ===== verification/Awake.v ===== *)
(** * Kernel processes never sleep

    The second part of the invariant: [SYS_SLEEP] is the only place that puts
    a process to sleep, and no kernel process calls it. *)

From S2P Require Import Prelude Bytes Proc Queues AbsProc Sched SchedSpec SchedProofs Pmap Disk FileSys Printk.
From S2P Require Import Keyboard Video Descr System Spawn Loader Safe SpawnProofs.

(** At boot nobody sleeps ([b = true]); later no kernel process does. *)
Definition awakeB (b : bool) (c : PCB) : Prop := b = true \/ p_tt c = KERNEL -> p_ts c <> SLEEPING.
Definition AwakeB (b : bool) (k : kst) : Prop := forall q c, k_PCBPool k !! q = Some c -> awakeB b c.
Abbreviation Awake := (AwakeB false).

Class KeepsAwake (f : PCB -> PCB) : Prop := keeps_awake : forall b c, awakeB b c -> awakeB b (f c).
#[export] Hint Extern 1 (KeepsAwake _) =>
  (let b := fresh in let c := fresh in let Hc := fresh in intros b c Hc; unfold awakeB in *; simpl;
   (exact Hc || discriminate || (intros [?|?]; [apply Hc; by left|congruence]))) : typeclass_instances.

Definition awakes {A} (c : M kst A) : Prop := forall b k, AwakeB b k ->
  match c k with Ret _ k' => AwakeB b k' | Jump k' => AwakeB b k' | Fault _ => True end.

Section awake.
Lemma awakes_bind {A B} (c : M kst A) (f : A -> M kst B) : awakes c -> (forall x, awakes (f x)) -> awakes (c ≫= f).
Proof.
  intros Hc Hf b k Hk. specialize (Hc b k Hk). unfold mbind, M_bind. destruct (c k) as [x k'|k'|e]; [by apply Hf|done..].
Qed.
Lemma awakes_ret {A} (x : A) : awakes (mret x).
Proof. by intros b k Hk. Qed.
Lemma awakes_fail {A} e : awakes (fail e : M kst A).
Proof. by intros b k Hk. Qed.
Lemma awakes_jump {A} : awakes (jump : M kst A).
Proof. by intros b k Hk. Qed.
Lemma awakes_get : awakes get.
Proof. by intros b k Hk. Qed.
Lemma awakes_gets {A} (f : kst -> A) : awakes (gets f).
Proof. by intros b k Hk. Qed.
Lemma awakes_option {A} e (o : option A) : awakes (from_option_or e o).
Proof. destruct o; [apply awakes_ret|apply awakes_fail]. Qed.
Lemma awakes_modify f : (forall k, k_PCBPool (f k) = k_PCBPool k) -> awakes (modify f).
Proof. intros Hf b k Hk q c. simpl. rewrite Hf. apply Hk. Qed.
Lemma awakes_get_pcb p : awakes (get_pcb p).
Proof.
  apply awakes_bind; [apply awakes_option|intros q]. apply awakes_bind; [apply awakes_get|intros s]. apply awakes_option.
Qed.
Lemma awakes_get_sem m : awakes (get_sem m).
Proof. apply awakes_bind; [apply awakes_get|intros s]. apply awakes_option. Qed.
Lemma awakes_upd_sem m f : awakes (upd_sem m f).
Proof. apply awakes_bind; [apply awakes_get_sem|intros c]. by apply awakes_modify. Qed.

Lemma get_pcb_cases p k :
  match get_pcb p k with
  | Ret c k' => k' = k /\ exists j, p = Some j /\ k_PCBPool k !! j = Some c
  | Jump _ => False
  | Fault _ => True
  end.
Proof.
  destruct p as [j|]; [|done]. unfold get_pcb, mbind, M_bind. simpl. destruct (k_PCBPool k !! j) eqn:E; [|done].
  simpl. eauto.
Qed.

Lemma awakes_upd p f `{!KeepsAwake f} : awakes (upd_pcb p f).
Proof.
  intros b k Hk. pose proof (upd_pcb_cases p f k) as H.
  destruct (upd_pcb p f k) as [u k'|k'|e]; [|done..]. destruct H as (j & c & -> & Hc & ->).
  intros q d. simpl. rewrite lookup_alter_list. case_decide; [|apply Hk].
  destruct (k_PCBPool k !! q) as [d'|] eqn:E; simpl; [|done]. intros [= <-]. apply keeps_awake. by apply (Hk q).
Qed.
End awake.

Create HintDb awake discriminated.
#[export] Hint Resolve awakes_ret awakes_fail awakes_jump awakes_get awakes_gets awakes_option awakes_get_pcb
  awakes_get_sem awakes_upd_sem : awake.

Ltac solve_awake := repeat first
  [ solve [auto with awake nocore]
  | lazymatch goal with |- awakes (mbind _ _) => apply awakes_bind; [|intros ?] end
  | apply awakes_upd; solve [apply _]
  | apply awakes_modify; done
  | case_match ].

(** ** The queue operations and the scheduler *)

Lemma awakes_get_head h : awakes (get_head h).
Proof. destruct h; simpl; solve_awake. Qed.
Lemma awakes_set_head h v : awakes (set_head h v).
Proof. destruct h; simpl; solve_awake. Qed.
#[export] Hint Resolve awakes_get_head awakes_set_head : awake.

Lemma awakes_ll_delete_loop n p q r : awakes (ll_delete_loop n p q r).
Proof. revert p q. induction n as [|n IH]; intros p q; cbn [ll_delete_loop]; solve_awake; apply IH. Qed.
Lemma awakes_ll_last_loop n p : awakes (ll_last_loop n p).
Proof. revert p. induction n as [|n IH]; intros p; cbn [ll_last_loop]; solve_awake; apply IH. Qed.
#[export] Hint Resolve awakes_ll_delete_loop awakes_ll_last_loop : awake.

Lemma awakes_ll_delete h p : awakes (ll_delete h p).
Proof. unfold ll_delete. solve_awake. Qed.
Lemma awakes_ll_entail h p : awakes (ll_entail h p).
Proof. unfold ll_entail. solve_awake. Qed.
Lemma awakes_ll_push h p : awakes (ll_push h p).
Proof. unfold ll_push. solve_awake. Qed.
#[export] Hint Resolve awakes_ll_delete awakes_ll_entail awakes_ll_push : awake.
Lemma awakes_ll_pop h : awakes (ll_pop h).
Proof. unfold ll_pop. solve_awake. Qed.
#[export] Hint Resolve awakes_ll_pop : awake.

Lemma awakes_scheduler_switch p : awakes (scheduler_switch p).
Proof. unfold scheduler_switch. solve_awake. Qed.
#[export] Hint Resolve awakes_scheduler_switch : awake.

Lemma awakes_do_scheduler : awakes do_scheduler.
Proof.
  unfold do_scheduler. generalize 2%nat. intros n. induction n as [|n IH]; cbn [do_scheduler_rec]; solve_awake; apply IH.
Qed.
#[export] Hint Resolve awakes_do_scheduler : awake.

Lemma awakes_do_timer_loop n p : awakes (do_timer_loop n p).
Proof. revert p. induction n as [|n IH]; intros p; cbn [do_timer_loop]; solve_awake; apply IH. Qed.
#[export] Hint Resolve awakes_do_timer_loop : awake.
Lemma awakes_do_timer : awakes do_timer.
Proof. unfold do_timer. solve_awake. Qed.

Lemma awakes_sem_init m v : awakes (sem_init_kr m v).
Proof. unfold sem_init_kr. solve_awake. Qed.
Lemma awakes_sem_post m : awakes (sem_post_kr m).
Proof. unfold sem_post_kr. solve_awake. Qed.
Lemma awakes_sem_wait m : awakes (sem_wait_kr m).
Proof. unfold sem_wait_kr. solve_awake. Qed.
Lemma awakes_sem_trywait m : awakes (sem_trywait_kr m).
Proof. unfold sem_trywait_kr. solve_awake. Qed.
Lemma awakes_sem_get m : awakes (sem_get_kr m).
Proof. unfold sem_get_kr. solve_awake. Qed.
Lemma awakes_sem_close_loop n m : awakes (sem_close_loop n m).
Proof. induction n as [|n IH]; cbn [sem_close_loop]; solve_awake; apply IH. Qed.
#[export] Hint Resolve awakes_sem_close_loop awakes_sem_init : awake.
Lemma awakes_sem_close m : awakes (sem_close_kr m).
Proof. unfold sem_close_kr. solve_awake. Qed.
Lemma awakes_sem_open b m v : awakes (sem_open_kr b m v).
Proof. unfold sem_open_kr. solve_awake. Qed.

Lemma awakes_exit_loop n : awakes (exit_loop n).
Proof. induction n as [|n IH]; cbn [exit_loop]; solve_awake; apply IH. Qed.
#[export] Hint Resolve awakes_exit_loop : awake.
Lemma awakes_exit : awakes exit_current.
Proof. unfold exit_current, free_pcb. solve_awake. Qed.
Lemma awakes_join pid : awakes (join_current pid).
Proof. unfold join_current. solve_awake. Qed.
Lemma awakes_handout : awakes sys_handout.
Proof. unfold sys_handout. solve_awake. Qed.
Lemma awakes_pid : awakes sys_pid.
Proof. unfold sys_pid. solve_awake. Qed.
Lemma awakes_ppid : awakes sys_ppid.
Proof. unfold sys_ppid. solve_awake. Qed.
Lemma awakes_get_tf p : awakes (get_tf p).
Proof. unfold get_tf. solve_awake. Qed.
#[export] Hint Resolve awakes_get_tf : awake.
Lemma awakes_upd_tf p g : awakes (upd_tf p g).
Proof. unfold upd_tf. solve_awake. Qed.
#[export] Hint Resolve awakes_upd_tf awakes_do_timer awakes_sem_post awakes_sem_wait awakes_sem_trywait awakes_sem_get
  awakes_sem_close awakes_sem_open awakes_exit awakes_join awakes_handout awakes_pid awakes_ppid : awake.

(** [SYS_SLEEP] by a user process. *)
Lemma awake_sleep k n : user_running k -> Awake k ->
  match sys_sleep n k with Ret _ k' => Awake k' | Jump k' => Awake k' | Fault _ => True end.
Proof.
  intros (i & c & Hi & Hc & Htt) Hk. unfold sys_sleep. unfold mbind, M_bind. simpl. rewrite Hi.
  pose proof (upd_pcb_cases (Some i) (with_ts SLEEPING) k) as H.
  destruct (upd_pcb (Some i) (with_ts SLEEPING) k) as [u k'|k'|e]; [|done..].
  destruct H as (j & d & [= <-] & Hd & ->). rewrite Hc in Hd. injection Hd as <-.
  assert (HA : Awake (kset_pcb i (with_ts SLEEPING) k)).
  { intros q d. simpl. rewrite lookup_alter_list. case_decide; [|apply Hk]. subst. rewrite Hc. intros [= <-] [?|Ht]; [done|by destruct Htt]. }
  exact (awakes_upd (Some i) (with_timeslice (u32 (n * 200))) _ _ HA).
Qed.

(** ** The same for the whole kernel *)

Section system.
Context {D : Type} `{!AtaDevice D}.
Context (PCBPool_addr : Z).
Abbreviation S := (sys D).

Definition keeps_awake_s {A} (c : M S A) : Prop := forall b s, AwakeB b (y_k s) ->
  match c s with Ret _ s' => AwakeB b (y_k s') | Jump s' => AwakeB b (y_k s') | Fault _ => True end.

Lemma sawake_bind {A B} (c : M S A) (f : A -> M S B) :
  keeps_awake_s c -> (forall x, keeps_awake_s (f x)) -> keeps_awake_s (c ≫= f).
Proof.
  intros Hc Hf b k Hk. specialize (Hc b k Hk). unfold mbind, M_bind. destruct (c k) as [x k'|k'|e]; [by apply Hf|done..].
Qed.
Lemma sawake_quiet {A} (c : M S A) : quiet c -> keeps_awake_s c.
Proof. intros Hc b s Hs. specialize (Hc s). destruct (c s); [by rewrite Hc|done..]. Qed.
Lemma sawake_on_k {A} (c : M kst A) : awakes c -> keeps_awake_s (on_k c).
Proof. intros Hc b s Hs. specialize (Hc b _ Hs). unfold on_k, zoom. by destruct (c (y_k s)). Qed.
Lemma kp_sawake {A} b (c : M S A) s : keeps_awake_s c -> AwakeB b (y_k s) ->
  kp c (fun _ s' => AwakeB b (y_k s')) (AwakeB b) s.
Proof. intros Hc Hs. exact (Hc b s Hs). Qed.
End system.

Ltac solve_sawake := repeat first
  [ solve [auto with awake nocore]
  | solve [apply sawake_quiet; solve_quiet]
  | lazymatch goal with
    | |- keeps_awake_s (mbind _ _) => apply sawake_bind; [|intros ?]
    | |- keeps_awake_s (on_k _) => apply sawake_on_k; solve_awake
    end
  | case_match ].

Section spawn.
Context {D : Type} `{!AtaDevice D}.
Context (PCBPool_addr : Z).
Abbreviation S := (sys D).

Lemma sawake_pcb_create : keeps_awake_s (pcb_create : M S _).
Proof. unfold pcb_create. solve_sawake. Qed.
Lemma sawake_init_pcb p ustack entry pri : pri <> 0 -> awakes (init_pcb PCBPool_addr p ustack entry pri).
Proof.
  intros Hp. unfold init_pcb. rewrite (proj2 (Z.eqb_neq _ _) Hp). solve_awake.
Qed.
Lemma sawake_finish_load p pgdir entry : keeps_awake_s (finish_load PCBPool_addr p pgdir entry : M S _).
Proof. unfold finish_load. solve_sawake. by apply sawake_init_pcb. Qed.
Lemma sawake_loader_file p fn : quiet fn -> keeps_awake_s (loader_file PCBPool_addr p fn : M S _).
Proof.
  intros Hf. unfold loader_file, uload32, uload16. solve_sawake.
  - apply sawake_quiet, quiet_load_segments.
  - apply sawake_finish_load.
Qed.
Lemma sawake_exec fn : quiet fn -> keeps_awake_s (exec_current PCBPool_addr fn : M S _).
Proof. intros Hf. unfold exec_current, printk. solve_sawake. by apply sawake_loader_file. Qed.

(** Copying a process that is not a kernel one. *)
Lemma awake_copy_pcb dst src s : Awake (y_k s) ->
  (forall c, k_PCBPool (y_k s) !! src = Some c -> p_tt c <> KERNEL) ->
  match (copy_pcb PCBPool_addr dst src : M S unit) s with
  | Ret _ s' => Awake (y_k s') | Jump s' => Awake (y_k s') | Fault _ => True end.
Proof.
  intros Hs Hsrc. change (kp (copy_pcb PCBPool_addr dst src : M S unit) (fun _ s' => Awake (y_k s')) Awake s).
  unfold copy_pcb. apply kp_bind, kp_quiet; [solve_quiet|]. intros _ s1 E. rewrite <- E in Hs, Hsrc. clear s E.
  apply kp_bind, kp_k. pose proof (get_pcb_cases (Some src) (y_k s1)) as H.
  destruct (get_pcb (Some src) (y_k s1)) as [c k|k|e]; [|done..]. destruct H as (-> & j & [= <-] & Hc).
  specialize (Hsrc c Hc). apply kp_sawake; [|exact Hs]. solve_sawake. by destruct Hsrc.
Qed.

Lemma user_running_near a j k k' : abs k a -> AProc0 a -> user_running k -> ~ alive a j -> Near j a k' -> user_running k'.
Proof.
  intros Habs HA (i & c & Hi & Hc & Htt) Hd (a' & Habs' & Hs & _).
  pose proof (abs_cur _ _ Habs) as Hcur. rewrite Hi in Hcur. symmetry in Hcur.
  assert (Hne : i <> j) by (intros ->; apply Hd; by apply (ap0_cur _ HA)).
  destruct (same_but_tt _ _ _ _ _ Hs Hne (abs_pcb_rev _ _ Habs _ _ Hc)) as (c' & Hc' & Ht').
  destruct (abs_pcb _ _ Habs' _ _ Hc') as (d & Hd' & <-).
  exists i, d. split_and!; [|done|].
  - by rewrite (abs_cur _ _ Habs'), (sb_cur _ _ _ Hs).
  - change (p_tt (strip_pcb c)) with (p_tt c) in Ht'. change (p_tt d = p_tt c) in Ht'. by rewrite Ht'.
Qed.

Definition Inv (k : kst) : Prop := KInv k /\ Awake k.

Lemma kp_conj {A} (c : M S A) (Q1 Q2 : A -> S -> Prop) J1 J2 s :
  kp c Q1 J1 s -> kp c Q2 J2 s -> kp c (fun x s' => Q1 x s' /\ Q2 x s') (fun k => J1 k /\ J2 k) s.
Proof. unfold kp. by destruct (c s). Qed.

(** A step that stays near [a] and keeps kernel processes awake. *)
Lemma kp_both {A} b j a (c : M S A) (Q : A -> S -> Prop) J s :
  keeps j a c -> keeps_awake_s c -> Near j a (y_k s) /\ AwakeB b (y_k s) ->
  (forall x s', Near j a (y_k s') /\ AwakeB b (y_k s') -> Q x s') -> kp c Q J s.
Proof.
  intros H1 H2 [HN HA] HQ. specialize (H1 s HN). specialize (H2 b s HA). unfold kp. destruct (c s); [by apply HQ|done..].
Qed.

Ltac both t1 t2 := apply kp_bind; eapply kp_both; [t1|t2|eassumption|]; intros ? ? ?.
Ltac keep2 := both ltac:(solve_keeps) ltac:(solve_sawake).

(** The copy, from the running process. *)
Lemma kp_copy_both j a i (Q : unit -> S -> Prop) J s k0 :
  abs k0 a -> AProc0 a -> user_running k0 -> a_cur a = Some i -> ~ alive a j ->
  Near j a (y_k s) /\ Awake (y_k s) ->
  (forall s', Near j a (y_k s') /\ Awake (y_k s') -> Q tt s') ->
  kp (copy_pcb PCBPool_addr j i : M S unit) Q J s.
Proof.
  intros Habs HA Hu Hi Hd [HN Hw] HQ.
  destruct (user_running_near _ _ _ _ Habs HA Hu Hd HN) as (i' & c & Hi' & Hc & Htt).
  assert (i' = i) as ->.
  { destruct HN as (a' & Habs' & Hs & _). rewrite (abs_cur _ _ Habs'), (sb_cur _ _ _ Hs) in Hi'. congruence. }
  pose proof (keeps_copy_pcb j a PCBPool_addr i s HN) as H1.
  pose proof (awake_copy_pcb j i s Hw) as H2. unfold kp. destruct (copy_pcb PCBPool_addr j i s) as [[] s'|s'|e]; [|done..].
  apply HQ. split; [done|]. apply H2. intros d Hd'. by rewrite Hc in Hd'; injection Hd' as <-.
Qed.

(** Reading [current] near [a]. *)
Lemma kp_current j a (Q : pcb_ptr -> S -> Prop) J s :
  Near j a (y_k s) /\ Awake (y_k s) ->
  (forall s', Near j a (y_k s') /\ Awake (y_k s') -> Q (a_cur a) s') -> kp (on_k (gets k_current)) Q J s.
Proof.
  intros [(a' & Habs & Hs & Ha) Hw] HQ. apply kp_k. simpl. rewrite (abs_cur _ _ Habs), (sb_cur _ _ _ Hs).
  apply HQ. split; [|done]. by exists a'.
Qed.

Lemma kp_spawn_both j a (Q : unit -> S -> Prop) J s :
  AProc a -> ASem a -> a_cur a <> None -> ~ alive a j -> Near j a (y_k s) /\ Awake (y_k s) ->
  (forall s', Inv (y_k s') -> Q tt s') ->
  kp (_ ← on_k (ll_push HReady (Some j)); mret tt) Q J s.
Proof.
  intros HA HS Hc Hd [HN Hw] HQ.
  eapply kp_mono.
  - apply kp_conj; [by apply (kp_spawn j a (fun _ s' => KInv (y_k s')) (fun _ => False))|].
    apply kp_sawake; [solve_sawake|done].
  - intros [] s' [H1 H2]. by apply HQ.
  - by intros k [? _].
Qed.

Lemma kp_create_both b a (Q : option nat -> S -> Prop) J s :
  abs (y_k s) a -> AwakeB b (y_k s) -> (forall s', Q None s') ->
  (forall j s', ~ alive a j -> Near j a (y_k s') /\ AwakeB b (y_k s') -> Q (Some j) s') ->
  kp (pcb_create : M S (option nat)) Q J s.
Proof.
  intros Habs Hw HN HQ. eapply kp_mono.
  - apply kp_conj; [|apply kp_sawake; [apply sawake_pcb_create|exact Hw]].
    apply (kp_pcb_create a (fun r s' => match r with Some j => ~ alive a j /\ Near j a (y_k s') | None => True end)
             (fun _ => False)); [done..|by split].
  - intros [j|] s' [H1 H2]; [|by apply HN]. destruct H1. by apply HQ.
  - by intros k [? _].
Qed.

Lemma Inv_fork s : Inv (y_k s) -> user_running (y_k s) ->
  kp (fork_current PCBPool_addr : M S unit) (fun _ s' => Inv (y_k s')) Inv s.
Proof.
  intros [(a & Habs & HA & HS & Hcur) Hw] Hu. pose proof (proj1 (AProc_split a) HA) as [HA0 _].
  unfold fork_current. apply kp_bind, (kp_create_both false a); [done..|]. intros j s' Hd HN.
  apply kp_bind, kp_from_option. intros ? [= <-].
  apply kp_bind, (kp_current j a); [done|]. intros s2 HN2.
  apply kp_bind, kp_from_option. intros i Hi. do 2 keep2.
  apply kp_bind. eapply kp_copy_both; [done..|eassumption|]. intros s1 Hs1.
  do 3 keep2. by eapply kp_spawn_both.
Qed.

Lemma Inv_thread entry exit arg s : Inv (y_k s) -> user_running (y_k s) ->
  kp (thread_current PCBPool_addr entry exit arg : M S unit) (fun _ s' => Inv (y_k s')) Inv s.
Proof.
  intros [(a & Habs & HA & HS & Hcur) Hw] Hu. pose proof (proj1 (AProc_split a) HA) as [HA0 _].
  unfold thread_current. apply kp_bind, (kp_create_both false a); [done..|]. intros j s' Hd HN.
  apply kp_bind, kp_from_option. intros ? [= <-]. keep2.
  apply kp_bind. eapply (kp_current j a); [eassumption|]. intros s2 HN2.
  apply kp_bind, kp_from_option. intros i Hi. do 2 keep2.
  apply kp_bind. eapply kp_copy_both; [done..|eassumption|]. intros s1 Hs1.
  unfold ustore32. do 13 keep2. by eapply kp_spawn_both.
Qed.
End spawn.
