(* ===== verification/KernelProofs.v ===== *)
(** * The invariant across system calls, interrupts and boot *)

From Stdlib Require Import String.
From S2P Require Import Prelude Bytes Proc Queues AbsProc Sched SchedSpec SchedProofs TimerProofs Lifecycle Pmap Disk.
From S2P Require Import FileSys Printk Keyboard Video Descr System Spawn Loader Ls Devices Kernel Safe.
From S2P Require Import SpawnProofs Awake.

(** ** Steps that keep the invariant *)

Section inv.
Context {D : Type} `{!AtaDevice D}.
Context (PCBPool_addr sems_addr : Z).
Abbreviation S := (sys D).

Definition keeps_inv {A} (c : M S A) : Prop := forall s, Inv (y_k s) -> kp c (fun _ s' => Inv (y_k s')) Inv s.

Lemma inv_bind {A B} (c : M S A) (f : A -> M S B) : keeps_inv c -> (forall x, keeps_inv (f x)) -> keeps_inv (c ≫= f).
Proof.
  intros Hc Hf s Hs. apply kp_bind. eapply kp_mono; [by apply Hc| |done]. intros x s' Hs'. by apply Hf.
Qed.
Lemma inv_quiet {A} (c : M S A) : quiet c -> keeps_inv c.
Proof. intros Hc s Hs. apply kp_quiet; [done|]. by intros x s' ->. Qed.

(** From the lemmas on the two parts. *)
Lemma inv_on_k {A} (c : M kst A) (s : S) : Inv (y_k s) ->
  wp c (fun _ => KInv) KInv (y_k s) -> awakes c -> kp (on_k c) (fun _ s' => Inv (y_k s')) Inv s.
Proof.
  intros [HK Hw] H1 H2. specialize (H2 _ _ Hw). apply kp_k. unfold wp in H1. by destruct (c (y_k s)).
Qed.

Lemma KInv_upd k j f `{!LinkFree f} `{!KeepsLife f} : KInv k -> KInv (kset_pcb j f k).
Proof.
  intros (a & Habs & HA & HS & Hc). exists (a_upd j f a). split_and!; [by apply abs_upd| | |done].
  - by apply AProc_upd.
  - by apply ASem_upd.
Qed.

Lemma inv_upd p f `{!LinkFree f} `{!KeepsLife f} `{!KeepsAwake f} : keeps_inv (on_k (upd_pcb p f) : M S unit).
Proof.
  intros s [HK Hw]. apply kp_k. pose proof (upd_pcb_cases p f (y_k s)) as H. pose proof (awakes_upd p f _ _ Hw) as Hw'.
  destruct (upd_pcb p f (y_k s)) as [u k'|k'|e]; [|done..]. destruct H as (j & c & -> & Hc & ->).
  split; [by apply KInv_upd|done].
Qed.

Lemma inv_current_pcb : keeps_inv (on_k current_pcb : M S PCB).
Proof.
  apply inv_quiet, quiet_read. intros k. unfold current_pcb, mbind, M_bind. simpl.
  pose proof (get_pcb_cases (k_current k) k) as H. destruct (get_pcb (k_current k) k); naive_solver.
Qed.
End inv.

Create HintDb inv discriminated.
#[export] Hint Resolve inv_current_pcb : inv.

Ltac solve_inv := repeat first
  [ solve [auto with inv nocore]
  | solve [apply inv_quiet; solve_quiet]
  | lazymatch goal with
    | |- keeps_inv (mbind _ _) => apply inv_bind; [|intros ?]
    | |- keeps_inv (on_k (upd_pcb _ _)) => apply inv_upd; solve [apply _]
    end
  | case_match ].

Section calls.
Context {D : Type} `{!AtaDevice D}.
Context (PCBPool_addr sems_addr : Z).
Abbreviation S := (sys D).

Lemma inv_set_eax i v : keeps_inv (set_eax i v : M S unit).
Proof. unfold set_eax. apply inv_upd; apply _. Qed.

Lemma quiet_fcb_get fd : quiet (on_k (fcb_get fd) : M S Z).
Proof.
  apply quiet_read. intros k. unfold fcb_get, current_pcb, mbind, M_bind. simpl.
  pose proof (get_pcb_cases (k_current k) k) as H. destruct (get_pcb (k_current k) k) as [c k'|k'|e]; [|done..].
  destruct H as [-> _]. destruct (fd <? 0); [done|]. unfold from_option_or. by destruct (p_fcb c !! Z.to_nat fd).
Qed.

Lemma inv_fcb_set fd v : keeps_inv (on_k (fcb_set fd v) : M S unit).
Proof.
  intros s Hs. apply kp_k. unfold fcb_set, current_pcb, mbind, M_bind. simpl.
  pose proof (get_pcb_cases (k_current (y_k s)) (y_k s)) as H.
  destruct (get_pcb (k_current (y_k s)) (y_k s)) as [c k'|k'|e]; [|done..]. destruct H as [-> _].
  destruct (_ && _); [|done]. set (f := fun c => with_fcb _ c).
  assert (Hf : keeps_inv (on_k (upd_pcb (k_current (y_k s)) f) : M S unit)) by (apply inv_upd; apply _).
  specialize (Hf s Hs). unfold kp, on_k, zoom in Hf. by destruct (upd_pcb (k_current (y_k s)) f (y_k s)).
Qed.
End calls.
#[export] Hint Resolve inv_set_eax inv_fcb_set : inv.
#[export] Hint Resolve quiet_fcb_get : quiet.

Section ports.
Context {D : Type} `{!AtaDevice D}.
Abbreviation S := (sys D).

Lemma inv_fs_open_port n fl : keeps_inv (fs_open_port n fl : M S Z).
Proof. unfold fs_open_port. solve_inv. Qed.
Lemma inv_fs_read_port fd b l : keeps_inv (fs_read_port fd b l : M S Z).
Proof. unfold fs_read_port. solve_inv. Qed.
Lemma inv_fs_write_port fd b l : keeps_inv (fs_write_port fd b l : M S Z).
Proof. unfold fs_write_port. solve_inv. Qed.
Lemma inv_fs_lseek_port fd o w : keeps_inv (fs_lseek_port fd o w : M S Z).
Proof. unfold fs_lseek_port. solve_inv. Qed.
Lemma inv_fs_close_port fd : keeps_inv (fs_close_port fd : M S Z).
Proof. unfold fs_close_port. solve_inv. Qed.

Lemma quiet_printk_args str ctl args : quiet (printk_args str ctl args : M S unit).
Proof. unfold printk_args. solve_quiet. Qed.
#[local] Hint Resolve quiet_printk_args : quiet.
Lemma quiet_ls_entry mask e : quiet (ls_entry mask e : M S unit).
Proof. unfold ls_entry. solve_quiet. Qed.
#[local] Hint Resolve quiet_ls_entry : quiet.
Lemma quiet_ls_entries mask n e : quiet (ls_entries mask n e : M S unit).
Proof. revert e. induction n as [|n IH]; intros e; cbn [ls_entries]; solve_quiet; apply IH. Qed.
#[local] Hint Resolve quiet_ls_entries : quiet.
Lemma quiet_ls mask : quiet (fs_ls_kr mask : M S unit).
Proof.
  unfold fs_ls_kr. generalize SC_DIR 0. intros n. induction n as [|n IH]; intros d; cbn [ls_dirs]; solve_quiet; apply IH.
Qed.
Lemma quiet_init_fs magic : quiet (init_fs magic : M S unit).
Proof. unfold init_fs. solve_quiet. Qed.
Lemma quiet_sem_ptr la : quiet (sem_ptr la : M S Z).
Proof. unfold sem_ptr. solve_quiet. Qed.
Lemma quiet_frame_of i : quiet (frame_of i : M S TrapFrame).
Proof. unfold frame_of. solve_quiet. Qed.
End ports.
#[export] Hint Resolve inv_fs_open_port inv_fs_read_port inv_fs_write_port inv_fs_lseek_port inv_fs_close_port : inv.
#[export] Hint Resolve quiet_printk_args quiet_ls quiet_init_fs quiet_sem_ptr quiet_frame_of : quiet.

(** ** The remaining operations on processes and semaphores *)

Lemma get_sem_cases m k :
  match get_sem m k with Ret c k' => k' = k /\ k_sems k !! m = Some c | Jump _ => False | Fault _ => True end.
Proof. unfold get_sem, mbind, M_bind. simpl. by destruct (k_sems k !! m). Qed.

(** An update of a semaphore that keeps the count of those blocked on it. *)
Lemma KInv_upd_sem k m c f `{!SemLinkFree f} : KInv k -> k_sems k !! m = Some c ->
  (forall n, sem_ok c n -> sem_ok (f c) n) -> KInv (kset_sem m f k).
Proof.
  intros (a & Habs & HA & HS & Hc) Hm Hf. exists (a_upd_sem m f a). split_and!; [by apply abs_upd_sem| | |done].
  - by apply AProc_upd_sem.
  - intros n d Hd. rewrite a_sem_upd in Hd. change (a_q (a_upd_sem m f a)) with (a_q a). case_decide as E; [|by apply HS].
    subst n. pose proof (abs_sem_of _ _ _ _ Habs Hm) as Hm'. rewrite Hm' in Hd. injection Hd as <-.
    specialize (HS _ _ Hm'). change (sem_ok (with_block_list None (f c)) (length (a_q a (HBlock m)))) with
      (sem_ok (f c) (length (a_q a (HBlock m)))) || idtac.
    rewrite <- slf_strip. apply Hf. exact HS.
Qed.

Lemma upd_sem_eq m f k c : k_sems k !! m = Some c -> upd_sem m f k = Ret tt (kset_sem m f k).
Proof. intros H. by eapply upd_sem_run. Qed.

Section ops.
Context {D : Type} `{!AtaDevice D}.
Abbreviation S := (sys D).

Lemma kp_sem_init m v (s : S) : Inv (y_k s) -> 0 <= v < 2 ^ 31 ->
  kp (on_k (sem_init_kr m v)) (fun _ s' => Inv (y_k s')) Inv s.
Proof.
  intros [HK Hw] Hv. pose proof (awakes_sem_init m v _ _ Hw) as Hw'. apply kp_k. revert Hw'.
  unfold sem_init_kr, mbind, M_bind. pose proof (get_sem_cases m (y_k s)) as H.
  destruct (get_sem m (y_k s)) as [c k|k|e]; [|done..]. destruct H as [-> Hc].
  case_decide as Hu; [|by split]. rewrite (upd_sem_eq _ _ _ _ Hc).
  assert (Hc' : k_sems (kset_sem m (with_sem_count v) (y_k s)) !! m = Some (with_sem_count v c)).
  { simpl. by rewrite lookup_alter_eq, Hc. }
  rewrite (upd_sem_eq _ _ _ _ Hc'). intros Hw'. split; [|done].
  assert (HK' : KInv (kset_sem m (fun c => with_sem_used 1 (with_sem_count v c)) (y_k s))).
  { apply (KInv_upd_sem _ _ c _ HK Hc). intros n [H1 H2]. rewrite decide_True in H2 by done. subst n.
    split; [unfold is_i32; simpl; lia|]. simpl. lia. }
  replace (kset_sem m (with_sem_used 1) (kset_sem m (with_sem_count v) (y_k s)))
    with (kset_sem m (fun c => with_sem_used 1 (with_sem_count v c)) (y_k s)); [done|].
  unfold kset_sem. unfold with_sems. simpl. f_equal. by rewrite alter_alter_eq.
Qed.

Lemma kp_sem_trywait m (s : S) : Inv (y_k s) -> kp (on_k (sem_trywait_kr m)) (fun _ s' => Inv (y_k s')) Inv s.
Proof.
  intros [HK Hw]. pose proof (awakes_sem_trywait m _ _ Hw) as Hw'. apply kp_k. revert Hw'.
  unfold sem_trywait_kr, mbind, M_bind. pose proof (get_sem_cases m (y_k s)) as H.
  destruct (get_sem m (y_k s)) as [c k|k|e]; [|done..]. destruct H as [-> Hc].
  case_decide as Hu; [by split|]. destruct (Z.leb_spec (sem_count c) 0); [by split|].
  rewrite (upd_sem_eq _ _ _ _ Hc). intros Hw'. split; [|done].
  apply (KInv_upd_sem _ _ c _ HK Hc). intros n [H1 H2]. rewrite decide_False in H2 by done.
  unfold is_i32 in H1. assert (E : i32 (sem_count c - 1) = sem_count c - 1) by (apply i32_id; unfold is_i32; lia).
  split; simpl; rewrite E; [unfold is_i32; lia|]. rewrite decide_False by done. lia.
Qed.

Lemma quiet_sem_get m : quiet (on_k (sem_get_kr m) : M S Z).
Proof.
  apply quiet_read. intros k. unfold sem_get_kr, mbind, M_bind. pose proof (get_sem_cases m k) as H.
  destruct (get_sem m k) as [c k'|k'|e]; [|done..]. destruct H as [-> _]. by case_decide.
Qed.

Lemma quiet_sys_pid : quiet (on_k sys_pid : M S Z).
Proof.
  apply quiet_read. intros k. unfold sys_pid, mbind, M_bind. simpl. pose proof (get_pcb_cases (k_current k) k) as H.
  destruct (get_pcb (k_current k) k) as [c k'|k'|e]; [|done..]. by destruct H as [-> _].
Qed.
Lemma quiet_sys_ppid : quiet (on_k sys_ppid : M S Z).
Proof.
  apply quiet_read. intros k. unfold sys_ppid, mbind, M_bind. simpl. pose proof (get_pcb_cases (k_current k) k) as H.
  destruct (get_pcb (k_current k) k) as [c k'|k'|e]; [|done..]. by destruct H as [-> _].
Qed.
Lemma quiet_tick : quiet (on_k tick : M S Z).
Proof. by apply quiet_read. Qed.

Lemma inv_handout : keeps_inv (on_k sys_handout : M S unit).
Proof.
  intros s Hs. apply kp_k. unfold sys_handout, mbind, M_bind. simpl.
  pose proof (inv_upd (k_current (y_k s)) (with_ts STOP) s Hs) as H. unfold kp, on_k, zoom in H.
  by destruct (upd_pcb (k_current (y_k s)) (with_ts STOP) (y_k s)).
Qed.

Lemma kp_sleep n (s : S) : Inv (y_k s) -> user_running (y_k s) ->
  kp (on_k (sys_sleep n)) (fun _ s' => Inv (y_k s')) Inv s.
Proof.
  intros [HK Hw] Hu. pose proof (awake_sleep _ n Hu Hw) as Hw'. apply kp_k. revert Hw'.
  unfold sys_sleep, mbind, M_bind. simpl.
  pose proof (upd_pcb_cases (k_current (y_k s)) (with_ts SLEEPING) (y_k s)) as H.
  destruct (upd_pcb (k_current (y_k s)) (with_ts SLEEPING) (y_k s)) as [u k|k|e]; [|done..].
  destruct H as (j & c & Hj & Hc & ->).
  match goal with |- context [upd_pcb ?p ?f ?k] => pose proof (upd_pcb_cases p f k) as H2; destruct (upd_pcb p f k) as [u2 k2|k2|e2]; [|done..] end.
  destruct H2 as (j2 & c2 & Hj2 & Hc2 & ->). intros Hw'. split; [|done]. apply KInv_upd; [apply _..|]. apply KInv_upd; [apply _..|done].
Qed.

Lemma KInv_sched k : Inv k -> wp do_scheduler (fun _ => KInv) KInv k.
Proof.
  intros [(a & Habs & HA & HS & Hc) Hw]. destruct (a_cur a) as [i|] eqn:Hi; [|done].
  destruct (ap_cur _ HA _ Hi) as [_ (c & Hc' & _)]. destruct (abs_pcb _ _ Habs _ _ Hc') as (d & Hd & <-).
  eapply KInv_do_scheduler; [done..|]. intros Hts. apply (user_kernel_ready _ _ Habs HA). exists i, d.
  split_and!; [|done|].
  - by rewrite (abs_cur _ _ Habs).
  - intros Ht. apply (Hw _ _ Hd); [by right|done].
Qed.

Lemma inv_do_scheduler : keeps_inv (on_k do_scheduler : M S unit).
Proof. intros s Hs. apply inv_on_k; [done|by apply KInv_sched|apply awakes_do_scheduler]. Qed.
Lemma inv_do_timer : keeps_inv (on_k do_timer : M S unit).
Proof. intros s Hs. apply inv_on_k; [done|apply KInv_do_timer, Hs|apply awakes_do_timer]. Qed.
End ops.
#[export] Hint Resolve inv_handout inv_do_scheduler inv_do_timer kp_sem_trywait : inv.
#[export] Hint Resolve quiet_sem_get quiet_sys_pid quiet_sys_ppid quiet_tick : quiet.

Section syscall.
Context {D : Type} `{!AtaDevice D}.
Context (PCBPool_addr sems_addr : Z).
Abbreviation S := (sys D).

Lemma Inv_exec fn (s : S) : quiet fn -> Inv (y_k s) -> user_running (y_k s) ->
  kp (exec_current PCBPool_addr fn) (fun _ s' => Inv (y_k s')) Inv s.
Proof.
  intros Hf [HK Hw] Hu. eapply kp_mono.
  - apply kp_conj; [by apply kp_exec_current|apply kp_sawake; [by apply sawake_exec|done]].
  - by intros x s' [H1 H2].
  - by intros k [H1 H2].
Qed.

(** An operation on a semaphore: only one that exists matters. *)
Lemma kp_sem {A} m (c : M kst A) (s : S) : Inv (y_k s) ->
  (k_sems (y_k s) !! m = None -> exists e, c (y_k s) = Fault e) ->
  (forall x, k_sems (y_k s) !! m = Some x -> wp c (fun _ => KInv) KInv (y_k s)) -> awakes c ->
  kp (on_k c) (fun _ s' => Inv (y_k s')) Inv s.
Proof.
  intros Hs HN HS Hc. destruct (k_sems (y_k s) !! m) as [x|] eqn:E.
  - apply inv_on_k; [done|by eapply HS|done].
  - destruct (HN eq_refl) as [e He]. apply kp_k. by rewrite He.
Qed.

Lemma get_sem_none m k : k_sems k !! m = None -> get_sem m k = Fault OutOfBounds.
Proof. intros H. unfold get_sem, mbind, M_bind. simpl. by rewrite H. Qed.

Lemma inv_bind_k {A} (c : M kst unit) (x : A) (s : S) :
  kp (on_k c) (fun _ s' => Inv (y_k s')) Inv s -> kp (on_k (c;; mret x)) (fun _ s' => Inv (y_k s')) Inv s.
Proof. unfold kp, on_k, zoom, mbind, M_bind. by destruct (c (y_k s)). Qed.

(** What the invariant asks of a system call. *)
Record sys_ok (s : S) (tf : TrapFrame) : Prop := {
  (* a kernel process only yields *)
  so_user : user_running (y_k s) \/ eax tf = SYS_HANDOUT;
  (* a semaphore starts with a count that is not negative ... *)
  so_init : eax tf = SYS_SEM_INIT \/ eax tf = SYS_SEM_OPEN -> 0 <= i32 (ecx tf);
  (* ... and is not posted when its count is the greatest there is *)
  so_post : forall m c, eax tf = SYS_SEM_POST -> sem_key s (ebx tf) = Some m -> k_sems (y_k s) !! m = Some c ->
    sem_used c <> 0 -> sem_count c < 2 ^ 31 - 1 }.

Lemma kp_frame_of i (Q : TrapFrame -> S -> Prop) J s :
  (forall c, k_PCBPool (y_k s) !! i = Some c -> Q (p_frame c) s) -> kp (frame_of i) Q J s.
Proof.
  intros HQ. unfold frame_of. apply kp_bind, kp_k. pose proof (get_pcb_cases (Some i) (y_k s)) as H.
  destruct (get_pcb (Some i) (y_k s)) as [c k|k|e]; [|done..]. destruct H as (-> & j & [= <-] & Hc).
  apply kp_ret. specialize (HQ _ Hc). destruct s. exact HQ.
Qed.

Lemma kp_sem_ptr la (Q : Z -> S -> Prop) J s : (forall m, sem_key s la = Some m -> Q m s) -> kp (sem_ptr la) Q J s.
Proof. intros HQ. unfold sem_ptr. apply kp_bind, kp_ret. by apply kp_from_option. Qed.

Ltac this_call := match goal with |- kp (if ?b then _ else _) _ _ _ => destruct b eqn:E; [apply Z.eqb_eq in E|clear E] end.
Ltac user H := destruct (so_user _ _ H) as [Hu|Hu]; [|exfalso; revert Hu; match goal with E : eax _ = _ |- _ => rewrite E end; discriminate].

Lemma kp_do_syscall i (s : S) :
  Inv (y_k s) -> (forall c, k_PCBPool (y_k s) !! i = Some c -> sys_ok s (p_frame c)) ->
  kp (do_syscall PCBPool_addr sems_addr i) (fun _ s' => Inv (y_k s')) Inv s.
Proof.
  intros Hs Hok. unfold do_syscall. apply kp_bind, kp_frame_of. intros c Hc. specialize (Hok c Hc). clear Hc.
  generalize dependent (p_frame c). clear c. intros tf Hok. cbn zeta.
  assert (Hi : forall A (f : M S A), keeps_inv f -> kp f (fun _ s' => Inv (y_k s')) Inv s) by (intros; auto).
  this_call; [user Hok; apply Inv_exec; [auto with quiet|done..]|].
  do 7 (this_call; [apply Hi; solve_inv|]).
  this_call.
  { apply kp_bind, kp_sem_ptr. intros m _. apply kp_sem_init; [done|].
    pose proof (so_init _ _ Hok (or_introl E)). pose proof (i32_range (ecx tf)) as Hr. unfold is_i32 in Hr. lia. }
  this_call.
  { apply kp_bind. unfold sem_open_kr. cbn zeta. eapply kp_mono.
    - apply (inv_bind_k (sem_init_kr (sem_addr sems_addr (i32 (ebx tf))) (i32 (ecx tf)))). apply kp_sem_init; [done|].
      pose proof (so_init _ _ Hok (or_intror E)). pose proof (i32_range (ecx tf)) as Hr. unfold is_i32 in Hr. lia.
    - intros r s' Hs'. by apply inv_set_eax.
    - done. }
  this_call.
  { apply kp_bind, kp_sem_ptr. intros m Hm. apply (kp_sem m); [done| | |apply awakes_sem_post].
    - intros HN. eexists. unfold sem_post_kr, mbind, M_bind. by rewrite (get_sem_none _ _ HN).
    - intros x Hx. apply KInv_sem_post; [apply Hs|]. exists x. split; [done|]. by apply (so_post _ _ Hok m x E). }
  this_call.
  { user Hok. apply kp_bind, kp_sem_ptr. intros m Hm. apply (kp_sem m); [done| | |apply awakes_sem_wait].
    - intros HN. eexists. unfold sem_wait_kr, mbind, M_bind. by rewrite (get_sem_none _ _ HN).
    - intros x Hx. apply KInv_sem_wait; [apply Hs|by eexists|done]. }
  this_call; [apply kp_bind, kp_sem_ptr; intros m _; apply kp_bind; eapply kp_mono; [by apply kp_sem_trywait| |done];
    intros r s' Hs'; by apply inv_set_eax|].
  this_call.
  { apply kp_bind, kp_sem_ptr. intros m Hm. apply (kp_sem m); [done| | |apply awakes_sem_close].
    - intros HN. eexists. unfold sem_close_kr, mbind, M_bind. by rewrite (get_sem_none _ _ HN).
    - intros x Hx. apply KInv_sem_close; [apply Hs|by eexists]. }
  this_call; [apply Hi; solve_inv|].
  this_call; [user Hok; by apply Inv_thread|].
  this_call; [user Hok; apply inv_on_k; [done|apply KInv_join; [apply Hs|done]|apply awakes_join]|].
  do 2 (this_call; [apply Hi; solve_inv|]).
  this_call; [user Hok; by apply kp_sleep|].
  this_call; [apply Hi; solve_inv|].
  this_call; [user Hok; apply inv_on_k; [done|apply KInv_exit; [apply Hs|done]|apply awakes_exit]|].
  this_call; [user Hok; by apply Inv_fork|].
  apply Hi. solve_inv.
Qed.
End syscall.

Section irq.
Context {D : Type} `{!AtaDevice D}.
Context (PCBPool_addr sems_addr : Z).
Abbreviation S := (sys D).

Lemma y_k_enter_current (s : S) : y_k (enter_current PCBPool_addr s) = y_k s.
Proof. unfold enter_current. by repeat case_match. Qed.

Lemma kp_switching {A} (c : M S A) (Q : A -> S -> Prop) J s : kp c Q J s -> kp (switching PCBPool_addr c) Q J s.
Proof. unfold kp, switching. destruct (c s); [done| |done]. by rewrite y_k_enter_current. Qed.

Lemma user_running_upd k j f : (forall c, p_tt (f c) = p_tt c) -> user_running k -> user_running (kset_pcb j f k).
Proof.
  intros Hf (i & c & Hi & Hc & Htt). destruct (decide (j = i)) as [->|Hne].
  - exists i, (f c). simpl. rewrite lookup_alter_list, decide_True, Hc by done. by rewrite Hf.
  - exists i, c. simpl. by rewrite lookup_alter_list, decide_False.
Qed.

(** A running user process that is made to exit. *)
Lemma kp_forced_exit i (s : S) : Inv (y_k s) -> user_running (y_k s) ->
  kp (set_eax i SYS_EXIT;; do_syscall PCBPool_addr sems_addr i) (fun _ s' => Inv (y_k s')) Inv s.
Proof.
  intros Hs Hu. apply kp_bind. unfold set_eax. apply kp_k.
  set (f := fun c : PCB => with_frame (tf_eax (u32 SYS_EXIT) (p_frame c)) c).
  pose proof (upd_pcb_cases (Some i) f (y_k s)) as H. destruct (upd_pcb (Some i) f (y_k s)) as [u k|k|e]; [|done..].
  destruct H as (j & c & [= <-] & Hc & ->).
  apply kp_do_syscall; [split; [apply KInv_upd; [apply _..|apply Hs]|]|].
  - pose proof (awakes_upd (Some i) f _ (y_k s) (proj2 Hs)) as Hw. by rewrite (upd_pcb_run _ _ _ _ Hc) in Hw.
  - intros d. simpl. rewrite lookup_alter_list, decide_True, Hc by done. intros [= <-]. split.
    + left. by apply user_running_upd.
    + simpl. intros [?|?]; discriminate.
    + simpl. intros; discriminate.
Qed.

(** The registers [tf] are saved in the PCB of the running process [i]. *)
Definition saved (i : nat) (tf : TrapFrame) (s : S) : S :=
  with_k (kset_pcb i (fun c => with_tf (TFStack i) (with_frame tf c)) (y_k s)) s.

Lemma kp_save i tf (Q : unit -> S -> Prop) J (s : S) : Q tt (saved i tf s) ->
  kp (on_k (upd_pcb (Some i) (with_frame tf));; on_k (upd_pcb (Some i) (with_tf (TFStack i)))) Q J s.
Proof.
  intros HQ. apply kp_bind, kp_k. pose proof (upd_pcb_cases (Some i) (with_frame tf) (y_k s)) as H.
  destruct (upd_pcb (Some i) (with_frame tf) (y_k s)) as [u k|k|e]; [|done..]. destruct H as (j & c & [= <-] & Hc & ->).
  apply kp_k. pose proof (upd_pcb_cases (Some i) (with_tf (TFStack i)) (kset_pcb i (with_frame tf) (y_k s))) as H.
  cbn [y_k with_k]. destruct (upd_pcb _ _ _) as [u' k|k|e]; [|done..]. destruct H as (j & d & [= <-] & Hd & ->).
  destruct u'. replace (with_k _ _) with (saved i tf s); [done|]. unfold saved, with_k. cbn. f_equal.
  unfold kset_pcb, with_PCBPool. cbn. f_equal. by rewrite list_alter_alter_eq.
Qed.

Lemma kp_assoc {A B C} (c : M S A) (f : A -> M S B) (g : B -> M S C) (Q : C -> S -> Prop) J s :
  kp ((c ≫= f) ≫= g) Q J s -> kp (x ← c; f x ≫= g) Q J s.
Proof. unfold kp, mbind, M_bind. by destruct (c s). Qed.

Lemma kp_current_pcb (Q : PCB -> S -> Prop) J s :
  (forall c j, k_current (y_k s) = Some j -> k_PCBPool (y_k s) !! j = Some c -> Q c s) -> kp (on_k current_pcb) Q J s.
Proof.
  intros HQ. apply kp_k. unfold current_pcb, mbind, M_bind. simpl.
  pose proof (get_pcb_cases (k_current (y_k s)) (y_k s)) as H.
  destruct (get_pcb (k_current (y_k s)) (y_k s)) as [d k|k|e]; [|done..]. destruct H as (-> & j & Hj & Hd).
  specialize (HQ _ _ Hj Hd). destruct s. exact HQ.
Qed.

(** What the invariant asks of an interrupt: nothing, unless it is a system
    call. *)
Definition irq_ok (s : S) (tf : TrapFrame) : Prop := irq tf = 0x80 -> sys_ok s tf.

Lemma Inv_saved i tf s : Inv (y_k s) -> Inv (y_k (saved i tf s)).
Proof.
  intros [HK Hw]. split; [by apply KInv_upd; [apply _..|]|]. intros q d. simpl. rewrite lookup_alter_list.
  case_decide; [subst q|apply Hw]. destruct (k_PCBPool (y_k s) !! i) eqn:E; [|done]. simpl. intros [= <-].
  by apply (Hw _ _ E).
Qed.

Lemma saved_frame i tf s c : k_PCBPool (y_k (saved i tf s)) !! i = Some c -> p_frame c = tf.
Proof.
  simpl. rewrite lookup_alter_list, decide_True by done. destruct (k_PCBPool (y_k s) !! i); [|done]. by intros [= <-].
Qed.

Lemma sys_ok_saved i tf s : sys_ok s tf -> sys_ok (saved i tf s) tf.
Proof.
  intros [H1 H2 H3]. split; [|exact H2|exact H3]. destruct H1 as [H1|H1]; [left; by apply user_running_upd|by right].
Qed.

(** The middle of [irq_handle]. *)
Lemma kp_after_frame tf code val i s : Inv (y_k s) ->
  kp (if irq tf =? 1000 then on_k do_timer;; on_k do_scheduler
      else if irq tf =? 1001 then
        code ← read_scancode code val;
        on_kb (press_key code);;
        c ← on_kb ctrl_c;
        cur ← on_k current_pcb;
        if (c : bool) && bool_decide (p_tt cur <> KERNEL) then set_eax i SYS_EXIT;; do_syscall PCBPool_addr sems_addr i else mret tt
      else mret tt) (fun _ s' => Inv (y_k s')) Inv s.
Proof.
  intros Hs. destruct (irq tf =? 1000); [revert s Hs; apply inv_bind; intros; auto with inv|].
    destruct (irq tf =? 1001); [|by apply kp_ret].
    apply kp_bind, kp_quiet; [unfold read_scancode; solve_quiet|]. intros cd s2 E2. rewrite <- E2 in Hs. clear E2.
    apply kp_bind, kp_quiet; [solve_quiet|]. intros _ s3 E3. rewrite <- E3 in Hs. clear E3.
    apply kp_bind, kp_quiet; [solve_quiet|]. intros b s4 E4. rewrite <- E4 in Hs. clear E4.
    apply kp_bind, kp_current_pcb. intros d j Hj Hd.
    destruct (b && bool_decide (p_tt d <> KERNEL)) eqn:Eb; [|by apply kp_ret].
    apply andb_prop in Eb as [_ Eb]. apply bool_decide_eq_true_1 in Eb.
    apply kp_forced_exit; [exact Hs|]. exists j, d. exact (conj Hj (conj Hd Eb)).
Qed.

Lemma kp_irq_handle tf code val (s : S) : Inv (y_k s) -> irq_ok s tf ->
  kp (irq_handle PCBPool_addr sems_addr tf code val) (fun _ s' => Inv (y_k s')) Inv s.
Proof.
  intros Hs Hok. unfold irq_handle. apply kp_switching, kp_bind, kp_k. simpl.
  apply kp_bind, kp_from_option. intros i Hi. rewrite Hi.
  replace (with_k (y_k s) s) with s by (by destruct s).
  apply kp_assoc, kp_bind, kp_save. set (s1 := saved i tf s).
  assert (Hs1 : Inv (y_k s1)) by (by apply Inv_saved).
  apply kp_bind. eapply (kp_mono _ (fun _ s' => Inv (y_k s')) _ Inv); [|clear; intros _ s Hs|done].
  { case_match; [|by apply kp_ret]. apply kp_do_syscall; [done|]. intros c Hc.
    rewrite (saved_frame _ _ _ _ Hc). apply sys_ok_saved, Hok. by apply Z.eqb_eq. }
  apply kp_bind, kp_frame_of. intros c _.
  apply kp_bind. eapply (kp_mono _ (fun _ s' => Inv (y_k s')) _ Inv); [by apply kp_after_frame|clear; intros _ s Hs|done].
  apply kp_bind, kp_frame_of. intros d _. case_match; [|by apply kp_ret]. by apply inv_do_scheduler.
Qed.
End irq.
