(* ===== verification/BootInv.v ===== *)
(** * From boot to the invariant

    [main] creates the idle process and the shell and enters one of them:
    the state then satisfies the invariant.  With the theorem on interrupts
    this gives an invariant of every state the running kernel reaches. *)

From Stdlib Require Import String.
From S2P Require Import Prelude Bytes Proc Queues AbsProc Sched SchedSpec SchedProofs TimerProofs Lifecycle Pmap Disk.
From S2P Require Import FileSys Printk Keyboard Video Descr System Spawn Loader Ls Devices Kernel Safe.
From S2P Require Import SpawnProofs Awake KernelProofs.

(** The processes and semaphores as the program image has them: the arrays
    are in the part that is filled with zeros. *)
Record boot_state (k : kst) : Prop := {
  bs_pool : length (k_PCBPool k) = PCBPOOLMAX;
  bs_pcb : forall q c, k_PCBPool k !! q = Some c -> p_next c = None /\ p_join_list c = None /\ p_ts c = READY;
  bs_cur : k_current k = None;
  bs_ready : k_ready_list k = None;
  bs_sleep : k_sleep_list k = None;
  bs_sems : forall m c, k_sems k !! m = Some c -> c = mkSemaphore 0 0 None }.

Definition a_boot (k : kst) : astate := mkAState (strip k) (fun _ => []).
Definition pool_freed (k : kst) : kst := with_PCBPool (with_used 0 <$> k_PCBPool k) k.

Section boot.
Context (k : kst) (Hk : boot_state k).

Lemma freed_pcb q c : k_PCBPool (pool_freed k) !! q = Some c ->
  p_used c = 0 /\ p_next c = None /\ p_join_list c = None /\ p_ts c = READY.
Proof using Hk.
  simpl. rewrite list_lookup_fmap. intros (d & Hd & ->)%fmap_Some. destruct (bs_pcb _ Hk _ _ Hd) as (H1 & H2 & H3).
  by repeat split.
Qed.

Lemma boot_abs : abs (pool_freed k) (a_boot (pool_freed k)).
Proof using Hk.
  split; [|done]. split.
  - intros [| |m|p]; simpl.
    + by rewrite (bs_ready _ Hk).
    + by rewrite (bs_sleep _ Hk).
    + destruct (k_sems k !! m) as [c|] eqn:E; simpl; [|done]. by rewrite (bs_sems _ Hk _ _ E).
    + change (with_used 0 <$> k_PCBPool k) with (k_PCBPool (pool_freed k)).
      destruct (k_PCBPool (pool_freed k) !! p) as [c|] eqn:E; simpl; [|done]. by apply freed_pcb in E as (_ & _ & -> & _).
  - intros h1 h2 p Hp. by apply elem_of_nil in Hp.
  - intros p n. unfold next_of. destruct (k_PCBPool (pool_freed k) !! p) as [c|] eqn:E; [|done].
    simpl. intros [= <-] _. by apply freed_pcb in E as (_ & -> & _).
  - simpl. rewrite length_fmap. apply (bs_pool _ Hk).
Qed.

Lemma boot_dead p : ~ alive (a_boot (pool_freed k)) p.
Proof using Hk.
  intros (c & Hc & Hu). destruct (abs_pcb _ _ boot_abs _ _ Hc) as (d & Hd & <-). apply freed_pcb in Hd as (Hu' & _).
  by apply Hu.
Qed.

Lemma boot_AProc0 : AProc0 (a_boot (pool_freed k)).
Proof using Hk.
  split.
  - split; [by constructor|]. intros h1 h2 p Hp. by apply elem_of_nil in Hp.
  - unfold a_cur. simpl. rewrite (bs_cur _ Hk). done.
  - intros h p Hp. by apply elem_of_nil in Hp.
  - intros p Hp. by apply boot_dead in Hp.
  - done.
Qed.

Lemma boot_ASem : ASem (a_boot (pool_freed k)).
Proof using Hk.
  intros m c Hm. destruct (abs_sem _ _ boot_abs _ _ Hm) as (d & Hd & <-). simpl in Hd.
  rewrite (bs_sems _ Hk _ _ Hd). split; [unfold is_i32; simpl; lia|done].
Qed.

Lemma boot_awake : AwakeB true (pool_freed k).
Proof using Hk. intros q c Hc _. apply freed_pcb in Hc as (_ & _ & _ & ->). done. Qed.
End boot.

(** ** [enready_pcb] is [ll_push] but for the field [tail], which nothing reads *)

Lemma enready_push p k k' r : ll_push HReady (Some p) k = Ret r k' ->
  match enready_pcb (Some p) k with
  | Ret _ k2 => exists t, k2 = kset_pcb p (with_tail t) k'
  | Jump _ => False
  | Fault _ => True
  end.
Proof.
  unfold ll_push, enready_pcb, mbind, M_bind. simpl. destruct (k_ready_list k) as [h|].
  - pose proof (upd_pcb_cases (Some p) (with_next (Some h)) (with_ready (Some p) k)) as H.
    destruct (upd_pcb (Some p) (with_next (Some h)) (with_ready (Some p) k)) as [u k1|k1|e]; [|done..].
    intros [= _ ->]. destruct H as (j & c & [= <-] & Hc & ->).
    match goal with |- context [get_pcb ?q ?s] => pose proof (get_pcb_cases q s) as H; destruct (get_pcb q s) as [d k2|k2|e]; [|done..] end.
    destruct H as [-> _].
    match goal with |- context [upd_pcb ?q ?f ?s] => pose proof (upd_pcb_cases q f s) as H; destruct (upd_pcb q f s) as [v k2|k2|e]; [|done..] end.
    destruct H as (j & e & [= <-] & _ & ->). eauto.
  - intros [= _ <-].
    match goal with |- context [upd_pcb ?q ?f ?s] => pose proof (upd_pcb_cases q f s) as H; destruct (upd_pcb q f s) as [v k2|k2|e]; [|done..] end.
    destruct H as (j & e & [= <-] & _ & ->). eauto.
Qed.

Lemma awakes_enready p : awakes (enready_pcb p).
Proof. unfold enready_pcb. solve_awake. Qed.

Section main.
Context {D : Type} `{!AtaDevice D}.
Context (PCBPool_addr sems_addr : Z).
Abbreviation S := (sys D).

Lemma kp_enready i a b (Q : unit -> S -> Prop) J s :
  AProc0 a -> ~ alive a i -> Near i a (y_k s) /\ AwakeB b (y_k s) ->
  (forall s' a', abs (y_k s') (a_spawn i a') -> same_but i a a' -> alive a' i -> AwakeB b (y_k s') ->
     (forall a0 c, abs (y_k s) a0 -> a_pcb a0 i = Some c -> exists c', a_pcb a' i = Some c' /\ p_tt c' = p_tt c) -> Q tt s') ->
  kp (on_k (enready_pcb (Some i))) Q J s.
Proof.
  intros HA Hd [(a' & Habs & Hs & Hal) Hw] HQ. apply kp_k. pose proof (awakes_enready (Some i) _ _ Hw) as Hw'.
  assert (Hun : unlinked (a_q a') i) by (rewrite (sb_q _ _ _ Hs); by apply unlinked_dead).
  destruct (ll_push_run (y_k s) (a_q a') (proj1 Habs) HReady i) as (r & k' & Hr & HR & Hst);
    [by eexists|by eapply abs_next_is_Some, alive_is_Some|done|].
  pose proof (enready_push _ _ _ _ Hr) as H. destruct (enready_pcb (Some i) (y_k s)) as [u k2|k2|e]; [|done..].
  destruct H as (t & ->). destruct u.
  assert (Habs' : abs k' (a_spawn i a')) by (by apply (abs_setq _ _ Habs)).
  assert (Hal' : alive (a_upd i (with_tail t) a') i) by (by rewrite alive_upd).
  apply (HQ _ (a_upd i (with_tail t) a')); [|eapply same_but_trans; [done|apply same_but_here]|done|done|].
  - apply (abs_upd _ _ Habs' i (with_tail t)).
  - intros a0 c Habs0 Hc. rewrite a_pcb_upd, decide_True by done.
    assert (a_pcb a' i = Some c) as ->. { unfold a_pcb in *. rewrite <- (proj2 Habs), (proj2 Habs0). done. }
    by eexists.
Qed.

(** The idle process: [init_pcb] with privilege 0 makes a kernel process. *)
Definition pk {A} (c : M kst A) (Q : kst -> Prop) (k : kst) : Prop :=
  match c k with Ret _ k' => Q k' | Jump _ => True | Fault _ => True end.

Lemma pk_bind {A B} (c : M kst A) (f : A -> M kst B) (P Q : kst -> Prop) k :
  pk c P k -> (forall x k', P k' -> pk (f x) Q k') -> pk (c ≫= f) Q k.
Proof. unfold pk, mbind, M_bind. destruct (c k); naive_solver. Qed.

Lemma pk_awake {A} (c : M kst A) k : awakes c -> AwakeB true k -> pk c (AwakeB true) k.
Proof. intros Hc Hk. specialize (Hc true k Hk). unfold pk. by destruct (c k). Qed.

Definition is_kernel (i : nat) (k : kst) : Prop := exists c, k_PCBPool k !! i = Some c /\ p_tt c = KERNEL.

Lemma pk_init_pcb i u e k : AwakeB true k ->
  pk (init_pcb PCBPool_addr i u e 0) (fun k' => AwakeB true k' /\ is_kernel i k') k.
Proof.
  intros Hk. unfold init_pcb. cbn [Z.eqb].
  do 4 (eapply pk_bind; [apply pk_awake; [solve_awake|exact Hk]|]; clear k Hk; intros _ k Hk).
  unfold pk. pose proof (upd_pcb_cases (Some i) (with_tt KERNEL) k) as H.
  destruct (upd_pcb (Some i) (with_tt KERNEL) k) as [x k'|k'|er]; [|done..]. destruct H as (j & c & [= <-] & Hc & ->).
  split; [|exists (with_tt KERNEL c); simpl; by rewrite lookup_alter_list, decide_True, Hc].
  intros q d. simpl. rewrite lookup_alter_list. case_decide; [|apply Hk]. subst. rewrite Hc. intros [= <-] _.
  apply (Hk _ _ Hc). by left.
Qed.

Lemma kp_empty_loader i a ptr (Q : unit -> S -> Prop) J s :
  Near i a (y_k s) /\ AwakeB true (y_k s) ->
  (forall s', Near i a (y_k s') /\ AwakeB true (y_k s') -> is_kernel i (y_k s') -> Q tt s') ->
  kp (empty_loader PCBPool_addr i ptr) Q J s.
Proof.
  intros [HN Hw] HQ. eapply kp_mono; [apply kp_conj|..].
  - apply (kp_keeps i a _ (fun _ s' => Near i a (y_k s')) (fun _ => False)); [apply keeps_empty_loader|done|done].
  - instantiate (1 := fun _ => True). instantiate (1 := fun _ s' => AwakeB true (y_k s') /\ is_kernel i (y_k s')).
    unfold empty_loader. apply kp_bind, kp_quiet; [solve_quiet|]. intros c s1 E1. rewrite <- E1 in Hw.
    apply kp_bind, kp_quiet; [solve_quiet|]. intros _ s2 E2. rewrite <- E2 in Hw.
    apply kp_bind, kp_k. pose proof (pk_init_pcb i (kstacktop_addr PCBPool_addr i - 0x80) ptr _ Hw) as H.
    unfold pk in H. destruct (init_pcb _ _ _ _ _ _) as [x k'|k'|e]; [|done..].
    apply kp_quiet; [solve_quiet|]. by intros _ s' ->.
  - intros [] s' (H1 & H2 & H3). by apply HQ.
  - by intros k [? _].
Qed.

Lemma kp_dispatch_boot a (Q : unit -> S -> Prop) s :
  abs (y_k s) a -> AProc a -> ASem a -> a_cur a = None -> AwakeB true (y_k s) -> kp (on_k do_scheduler) Q Inv s.
Proof.
  intros Habs HA HS Hc Hw. pose proof (awakes_do_scheduler _ _ Hw) as Hw'. apply kp_k.
  pose proof (wp_dispatch 1 (y_k s) a (fun _ _ => False) Habs HA Hc) as H. unfold wp in H.
  change (do_scheduler_rec 2 (y_k s)) with (do_scheduler (y_k s)) in H.
  destruct (do_scheduler (y_k s)) as [x k|k|e]; [done| |done].
  split; [|intros q c Hq [?|?]; [done|apply (Hw' q c Hq); by left]].
  exists (a_dispatch (a_count a)). split_and!; [done|..].
  - by apply AProc_dispatch; [apply AProc_count|].
  - by apply ASem_dispatch, ASem_count.
  - apply a_cur_dispatch; [by apply AProc_count|done].
Qed.

Context (kpgdir kpgtable gdt_addr tss_addr idt_addr idle_ptr : Z).
Context (vec : Z -> Z) (vecsys irq0 irq1 irq_empty : Z).
Abbreviation main := (main PCBPool_addr kpgdir kpgtable gdt_addr tss_addr idt_addr idle_ptr vec vecsys irq0 irq1 irq_empty).

(** The second half of [main]: the shell is created, and a process entered. *)
Lemma kp_main_shell a (s : S) : abs (y_k s) a -> AProc a -> ASem a -> a_cur a = None -> AwakeB true (y_k s) ->
  kp (pshell ← pcb_create;
      pshell ← from_option_or NullPointer pshell;
      _ ← loader_file PCBPool_addr pshell (mret ((fun c => byte.of_Z c) <$> chars "cshell"%string ++ [0]));
      on_k (enready_pcb (Some pshell));;
      on_k do_scheduler) (fun (_ : unit) _ => False) Inv s.
Proof.
  intros Habs HA HS Hc Hw. pose proof (proj1 (AProc_split a) HA) as [HA0 HK].
  apply kp_bind, (kp_create_both true a); [done..|]. intros i s1 Hi HN. apply kp_bind, kp_from_option. intros ? [= <-].
  apply kp_bind. eapply (kp_both true i a); [apply keeps_loader_file; auto with quiet|apply sawake_loader_file; auto with quiet|exact HN|].
  intros st s2 HN2. apply kp_bind. eapply (kp_enready i a true); [done..|]. intros s3 a1 Habs1 Hs1 Hal Hw1 _.
  apply (kp_dispatch_boot (a_spawn i a1)); [done|..|done].
  - apply AProc_split. split; [by eapply AProc0_spawn|by eapply has_kernel_spawn].
  - eapply ASem_same; [done|exact Hs1|done].
  - change (a_cur a1 = None). by rewrite (sb_cur _ _ _ Hs1).
Qed.

(** The first half, from the empty pool: the idle process. *)
Lemma kp_main (magic : list byte) (s : S) : boot_state (y_k s) -> kp (main magic) (fun _ _ => False) Inv s.
Proof.
  intros Hk. unfold Kernel.main. apply kp_switching.
  do 8 (apply kp_bind, kp_quiet; [unfold init_page, init_serial, init_timer, init_intr; solve_quiet; done|];
    intros _ ? E; rewrite <- E in Hk; clear E; match goal with |- kp _ _ _ ?x => clear s; rename x into s end).
  apply kp_bind, kp_k. cbn [init_pcb_pool modify]. fold (pool_freed (y_k s)).
  pose proof (boot_abs _ Hk) as Habs. pose proof (boot_AProc0 _ Hk) as HA. pose proof (boot_ASem _ Hk) as HS.
  pose proof (boot_dead _ Hk) as Hdead. pose proof (boot_awake _ Hk) as Hw.
  assert (Hca : a_cur (a_boot (pool_freed (y_k s))) = None) by apply (bs_cur _ Hk).
  remember (with_k (pool_freed (y_k s)) s) as s1 eqn:E1. assert (E : pool_freed (y_k s) = y_k s1) by (by rewrite E1).
  rewrite E in *. clear E E1 Hk s. rename s1 into s. generalize dependent (a_boot (y_k s)). intros a Habs HA HS Hdead Hca.
  do 2 (apply kp_bind, kp_quiet; [unfold printk; solve_quiet|];
    intros _ ? E; rewrite <- E in Habs, Hw; clear E; match goal with |- kp _ _ _ ?x => clear s; rename x into s end).
  apply kp_bind, (kp_create_both true a); [done..|]. intros i s1 Hi HN. apply kp_bind, kp_from_option. intros ? [= <-].
  apply kp_bind. eapply kp_empty_loader; [exact HN|]. clear s Habs Hw s1 HN. intros s HN (c & Hc & Htt).
  apply kp_bind. eapply (kp_enready i a true); [done..|]. intros s' a1 Habs Hs1 Hal Hw Hkeep.
  destruct HN as [(a0 & Habs0 & _ & _) _].
  destruct (Hkeep a0 (strip_pcb c) Habs0 (abs_pcb_rev _ _ Habs0 _ _ Hc)) as (c1 & Hc1 & Htt1).
  assert (HAP : AProc (a_spawn i a1)).
  { apply AProc_split. split; [by eapply AProc0_spawn|]. exists i, c1. split_and!; [done|by rewrite Htt1|].
    right. unfold a_spawn. rewrite q_setq, decide_True by done. left. }
  assert (HS1 : ASem (a_spawn i a1)) by (eapply ASem_same; [done|exact Hs1|done]).
  assert (Hca1 : a_cur (a_spawn i a1) = None) by (change (a_cur a1 = None); by rewrite (sb_cur _ _ _ Hs1)).
  by apply (kp_main_shell (a_spawn i a1)).
Qed.
End main.
