(* ===== verification/KernelTotal.v ===== *)
(** * Interrupts that cannot go wrong

    The timer, the keyboard and the system calls that only concern processes
    and the screen never do anything C gives no meaning to. *)

From S2P Require Import Prelude Bytes Proc Queues AbsProc Sched SchedSpec SchedProofs TimerProofs Lifecycle Pmap Disk.
From S2P Require Import FileSys Printk Keyboard Video Descr System Spawn Loader Ls Devices Kernel Safe.
From S2P Require Import SpawnProofs Awake KernelProofs.

Definition nf {S A} (c : M S A) (s : S) : Prop := match c s with Fault _ => False | _ => True end.

Lemma nf_bind {S A B} (c : M S A) (f : A -> M S B) s :
  nf c s -> (forall x s', c s = Ret x s' -> nf (f x) s') -> nf (c ≫= f) s.
Proof. unfold nf, mbind, M_bind. destruct (c s) eqn:E; [|done..]. intros _ H. by apply H. Qed.
Lemma nf_ret {S A} (x : A) (s : S) : nf (mret x) s.
Proof. done. Qed.
Lemma nf_wp {S A} (c : M S A) Q J s : wp c Q J s -> nf c s.
Proof. unfold wp, nf. by destruct (c s). Qed.
Lemma nf_if {S A} (b : bool) (c d : M S A) s : (b = true -> nf c s) -> (b = false -> nf d s) -> nf (if b then c else d) s.
Proof. destruct b; auto. Qed.

Section total.
Context {D : Type} `{!AtaDevice D}.
Context (PCBPool_addr sems_addr : Z).
Abbreviation S := (sys D).
Implicit Types s : S.

Lemma nf_on_k {A} (c : M kst A) s : nf c (y_k s) -> nf (on_k c) s.
Proof. unfold nf, on_k, zoom. by destruct (c (y_k s)). Qed.

Lemma nf_upd_pcb p f k : is_Some (p ≫= fun i => k_PCBPool k !! i) -> nf (upd_pcb p f) k.
Proof.
  intros [c Hc]. destruct p as [i|]; [|done]. simpl in Hc. unfold nf. by rewrite (upd_pcb_run _ _ _ _ Hc).
Qed.

Lemma nf_frame_of i s : is_Some (k_PCBPool (y_k s) !! i) -> nf (frame_of i) s.
Proof.
  intros [c Hc]. unfold frame_of. apply nf_bind; [|done]. apply nf_on_k. unfold nf. by rewrite (get_pcb_run _ _ _ Hc).
Qed.

Lemma nf_set_eax i v s : is_Some (k_PCBPool (y_k s) !! i) -> nf (set_eax i v) s.
Proof. intros H. by apply nf_on_k, nf_upd_pcb. Qed.

(** Under the invariant the running process and every PCB index are there. *)
Lemma KInv_pool k i : KInv k -> (i < PCBPOOLMAX)%nat -> is_Some (k_PCBPool k !! i).
Proof. intros (a & Habs & _) Hi. apply lookup_lt_is_Some. by rewrite (rep_pool _ _ (proj1 Habs)). Qed.

Lemma KInv_current k : KInv k -> exists i c, k_current k = Some i /\ (i < PCBPOOLMAX)%nat /\ k_PCBPool k !! i = Some c.
Proof.
  intros (a & Habs & HA & _ & Hc). destruct (a_cur a) as [i|] eqn:Hi; [|done].
  destruct (ap_cur _ HA _ Hi) as [_ (c & Hc' & _)]. destruct (abs_pcb _ _ Habs _ _ Hc') as (d & Hd & _).
  exists i, d. split_and!; [by rewrite (abs_cur _ _ Habs)| |done]. rewrite <- (rep_pool _ _ (proj1 Habs)).
  by eapply lookup_lt_Some.
Qed.

(** The system calls that take no pointer and no file. *)
Definition plain_calls : list Z :=
  [SYS_HANDOUT; SYS_SLEEP; SYS_EXIT; SYS_JOIN; SYS_PID; SYS_PPID; SYS_GET_TICK; SYS_PRINT_CHAR;
   SYS_INIT_CACHE; SYS_CLEAR_VRAM; SYS_FLUSH_VCACHE; SYS_SET_PIXEL].

Lemma nf_cur_upd f k : KInv k -> nf (upd_pcb (k_current k) f) k.
Proof. intros HK. destruct (KInv_current _ HK) as (i & c & -> & _ & Hc). apply nf_upd_pcb. by exists c. Qed.

Lemma nf_current_pcb k : KInv k -> nf current_pcb k.
Proof.
  intros HK. destruct (KInv_current _ HK) as (i & c & Hi & _ & Hc). unfold current_pcb, nf, mbind, M_bind. simpl.
  rewrite Hi. by rewrite (get_pcb_run _ _ _ Hc).
Qed.

Lemma nf_sys_ids k : KInv k -> nf sys_pid k /\ nf sys_ppid k.
Proof.
  intros HK. destruct (KInv_current _ HK) as (i & c & Hi & _ & Hc).
  unfold sys_pid, sys_ppid, nf, mbind, M_bind. simpl. rewrite Hi. by rewrite (get_pcb_run _ _ _ Hc).
Qed.

Lemma nf_sleep n k : KInv k -> nf (sys_sleep n) k.
Proof.
  intros HK. destruct (KInv_current _ HK) as (i & c & Hi & _ & Hc).
  unfold sys_sleep. apply nf_bind; [done|]. intros p k' [= <- <-]. rewrite Hi. apply nf_bind; [apply nf_upd_pcb; by exists c|].
  intros u k' Hu. rewrite (upd_pcb_run _ _ _ _ Hc) in Hu. injection Hu as _ <-. apply nf_upd_pcb.
  simpl. rewrite lookup_alter_list, decide_True, Hc by done. by eexists.
Qed.

Lemma ret_y_k {A} (c : M kst A) s x s' : on_k c s = Ret x s' -> c (y_k s) = Ret x (y_k s').
Proof. unfold on_k, zoom. destruct (c (y_k s)); [|done..]. intros H. injection H as -> <-. done. Qed.

(** ... and the record of held keys is left alone. *)
Definition nfk {A} (c : M S A) s : Prop :=
  match c s with
  | Ret _ s' => kb_keydown (y_kb s') = kb_keydown (y_kb s)
  | Jump _ => True
  | Fault _ => False
  end.
Lemma nfk_nf {A} (c : M S A) s : nfk c s -> nf c s.
Proof. unfold nfk, nf. by destruct (c s). Qed.
Lemma nfk_bind {A B} (c : M S A) (f : A -> M S B) s :
  nfk c s -> (forall x s', c s = Ret x s' -> nfk (f x) s') -> nfk (c ≫= f) s.
Proof.
  unfold nfk, mbind, M_bind. destruct (c s) as [x s'| |] eqn:E; [|done..]. intros H Hf. specialize (Hf x s' eq_refl).
  destruct (f x s'); [congruence|done..].
Qed.
Lemma nfk_on_k {A} (c : M kst A) s : nf c (y_k s) -> nfk (on_k c) s.
Proof. unfold nfk, nf, on_k, zoom. by destruct (c (y_k s)). Qed.
Lemma nfk_vid f s : nfk (on_vid f) s.
Proof. exact eq_refl. Qed.
Lemma nfk_putc c s : nfk (on_kb (cputchar c)) s.
Proof. exact eq_refl. Qed.
Lemma nfk_frame_of i s : is_Some (k_PCBPool (y_k s) !! i) -> nfk (frame_of i) s.
Proof.
  intros [c Hc]. unfold frame_of. apply nfk_bind; [|done]. apply nfk_on_k. unfold nf. by rewrite (get_pcb_run _ _ _ Hc).
Qed.

Lemma nfk_do_syscall i s : Inv (y_k s) -> (i < PCBPOOLMAX)%nat ->
  (forall c, k_PCBPool (y_k s) !! i = Some c -> eax (p_frame c) ∈ plain_calls /\
     (user_running (y_k s) \/ eax (p_frame c) = SYS_HANDOUT)) ->
  nfk (do_syscall PCBPool_addr sems_addr i) s.
Proof.
  intros [HK Hw] Hi Hok. pose proof (KInv_pool _ _ HK Hi) as Hp. unfold do_syscall.
  apply nfk_bind; [by apply nfk_frame_of|]. intros tf s' Htf.
  assert (s' = s /\ exists c, k_PCBPool (y_k s) !! i = Some c /\ tf = p_frame c) as (-> & c & Hc & ->).
  { destruct Hp as [c Hc]. unfold frame_of, mbind, M_bind, on_k, zoom in Htf. rewrite (get_pcb_run _ _ _ Hc) in Htf.
    injection Htf as <- <-. split; [by destruct s|by exists c]. }
  destruct (Hok c Hc) as [Hn Hu]. clear Hok Htf. cbn zeta.
  assert (Hse : forall v s', y_k s' = y_k s -> nfk (set_eax i v) s')
    by (intros v s' E; apply nfk_on_k, nf_upd_pcb; simpl; by rewrite E).
  unfold plain_calls in Hn. rewrite !elem_of_cons, elem_of_nil in Hn.
  assert (Hus : eax (p_frame c) <> SYS_HANDOUT -> user_running (y_k s)) by (destruct Hu; tauto). clear Hu.
  decompose [or] Hn; clear Hn; try done; match goal with E : eax _ = _ |- _ => rewrite E in *; clear E end; cbn [Z.eqb Pos.eqb SYS_HANDOUT SYS_SLEEP SYS_EXIT SYS_JOIN SYS_PID SYS_PPID SYS_GET_TICK SYS_PRINT_CHAR
   SYS_INIT_CACHE SYS_CLEAR_VRAM SYS_FLUSH_VCACHE SYS_SET_PIXEL SYS_EXEC SYS_READLINE SYS_FS_LS SYS_FS_OPEN SYS_FS_READ SYS_FS_WRITE
   SYS_FS_LSEEK SYS_FS_CLOSE SYS_SEM_INIT SYS_SEM_OPEN SYS_SEM_POST SYS_SEM_WAIT SYS_SEM_TRYWAIT SYS_SEM_CLOSE SYS_SEM_GET SYS_THREAD SYS_FORK SYS_GET_KEY].
  - apply nfk_on_k. unfold sys_handout. apply nf_bind; [done|]. intros p k' [= <- <-]. by apply nf_cur_upd.
  - by apply nfk_on_k, nf_sleep.
  - apply nfk_on_k. eapply nf_wp, KInv_exit; [done|by apply Hus].
  - apply nfk_on_k. eapply nf_wp, KInv_join; [done|by apply Hus].
  - apply nfk_bind; [by apply nfk_on_k, nf_sys_ids|]. intros r s' Hr. apply Hse. by eapply quiet_eq; [apply quiet_sys_pid|].
  - apply nfk_bind; [by apply nfk_on_k, nf_sys_ids|]. intros r s' Hr. apply Hse. by eapply quiet_eq; [apply quiet_sys_ppid|].
  - apply nfk_bind; [done|]. intros r s' Hr. apply Hse. by eapply quiet_eq; [apply quiet_tick|].
  - apply nfk_putc.
  - apply nfk_vid.
  - apply nfk_vid.
  - apply nfk_bind; [apply nfk_vid|]. intros x s' _. apply nfk_vid.
  - apply nfk_vid.
Qed.

Lemma nf_switching {A} (c : M S A) s : nf c s -> nf (switching PCBPool_addr c) s.
Proof. unfold nf, switching. by destruct (c s). Qed.

Lemma saved_run i tf s : is_Some (k_PCBPool (y_k s) !! i) ->
  (on_k (upd_pcb (Some i) (with_frame tf));; on_k (upd_pcb (Some i) (with_tf (TFStack i)))) s = Ret tt (saved i tf s).
Proof.
  intros [c Hc]. unfold mbind, M_bind, on_k, zoom. rewrite (upd_pcb_run _ _ _ _ Hc). cbn [y_k with_k].
  assert (Hc' : k_PCBPool (kset_pcb i (with_frame tf) (y_k s)) !! i = Some (with_frame tf c))
    by (simpl; by rewrite lookup_alter_list, decide_True, Hc).
  rewrite (upd_pcb_run _ _ _ _ Hc'). f_equal. unfold saved, with_k. cbn. f_equal.
  unfold kset_pcb, with_PCBPool. cbn. f_equal. by rewrite list_alter_alter_eq.
Qed.

Lemma nf_assoc {A B C} (c : M S A) (f : A -> M S B) (g : B -> M S C) s :
  nf ((c ≫= f) ≫= g) s -> nf (x ← c; f x ≫= g) s.
Proof. unfold nf, mbind, M_bind. by destruct (c s). Qed.

Lemma nf_kb {A} (c : M kbst A) s : nf c (y_kb s) -> (forall k, c (y_kb s) <> Jump k) -> nf (on_kb c) s.
Proof. unfold nf, on_kb, part. destruct (c (y_kb s)) as [| k |]; [done|by intros _ H; destruct (H k)|done]. Qed.

Lemma press_key_run code k : exists k', press_key code k = Ret tt k' /\ length (kb_keydown k') = length (kb_keydown k).
Proof.
  unfold press_key, mbind, M_bind. destruct (Z.land code 0x80 =? 0).
  - destruct (code =? 0x1d), (find_letter letter 0 code); eexists; (split; [done|]); simpl; by rewrite ?length_insert.
  - cbn zeta. destruct (_ =? 0x1d), (find_letter letter 0 _); eexists; (split; [done|]); simpl; by rewrite ?length_insert.
Qed.

Lemma ctrl_c_run k : length (kb_keydown k) = 26%nat -> exists b k', ctrl_c k = Ret b k'.
Proof.
  intros Hl. destruct (lookup_lt_is_Some_2 (kb_keydown k) 2 ltac:(lia)) as [x Hx].
  unfold ctrl_c, mbind, M_bind. simpl. rewrite Hx. simpl. destruct (_ && _); by do 2 eexists.
Qed.

Lemma nf_keyboard code val i s : Inv (y_k s) -> (i < PCBPOOLMAX)%nat -> length (kb_keydown (y_kb s)) = 26%nat ->
  nf (code ← read_scancode code val;
      on_kb (press_key code);;
      c ← on_kb ctrl_c;
      cur ← on_k current_pcb;
      if (c : bool) && bool_decide (p_tt cur <> KERNEL) then set_eax i SYS_EXIT;; do_syscall PCBPool_addr sems_addr i
      else mret tt) s.
Proof.
  intros Hs Hi Hl. apply nf_bind; [done|]. intros cd s1 E1.
  assert (y_k s1 = y_k s /\ y_kb s1 = y_kb s) as [Ek Ekb] by (injection E1 as _ <-; done).
  clear E1. rewrite <- Ek in Hs. rewrite <- Ekb in Hl. clear s Ek Ekb.
  destruct (press_key_run cd (y_kb s1)) as (k1 & E1 & Hl1).
  apply nf_bind; [unfold nf, on_kb, part; by rewrite E1|]. intros u s2 E2.
  assert (y_k s2 = y_k s1 /\ y_kb s2 = k1) as [Ek Ekb].
  { unfold on_kb, part in E2. rewrite E1 in E2. by injection E2 as _ <-. }
  clear E2. rewrite <- Ek in Hs. rewrite <- Hl1, <- Ekb in Hl. clear s1 Ek k1 E1 Hl1 Ekb.
  destruct (ctrl_c_run _ Hl) as (b & k1 & E1).
  apply nf_bind; [unfold nf, on_kb, part; by rewrite E1|]. intros b' s3 E2.
  assert (Ek : y_k s3 = y_k s2) by (by eapply quiet_eq; [|exact E2]; apply quiet_kb).
  rewrite <- Ek in Hs. clear Ek E2 E1 Hl k1 b s2 u. rename s3 into s.
  apply nf_bind; [apply nf_on_k, nf_current_pcb, Hs|]. intros d s1 E1.
  destruct (KInv_current _ (proj1 Hs)) as (j & c & Hj & Hjl & Hc).
  assert (d = c /\ s1 = s) as [-> ->].
  { unfold on_k, zoom, current_pcb, mbind, M_bind in E1. simpl in E1. rewrite Hj, (get_pcb_run _ _ _ Hc) in E1.
    injection E1 as -> <-. by destruct s. }
  destruct (b' && bool_decide (p_tt c <> KERNEL)) eqn:Eb; [|done]. apply andb_prop in Eb as [_ Eb].
  apply bool_decide_eq_true_1 in Eb. pose proof (KInv_pool _ _ (proj1 Hs) Hi) as [ci Hci].
  set (f := fun c : PCB => with_frame (tf_eax (u32 SYS_EXIT) (p_frame c)) c).
  apply nf_bind; [apply nf_set_eax; by eexists|]. intros x s2 E2.
  assert (s2 = with_k (kset_pcb i f (y_k s)) s) as ->.
  { unfold set_eax, on_k, zoom in E2. rewrite (upd_pcb_run _ _ _ _ Hci) in E2. by injection E2 as _ <-. }
  apply nfk_nf, nfk_do_syscall; [split; [apply KInv_upd; [apply _..|apply Hs]|]|done|].
  - pose proof (awakes_upd (Some i) f _ (y_k s) (proj2 Hs)) as Hw. by rewrite (upd_pcb_run _ _ _ _ Hci) in Hw.
  - intros e. simpl. rewrite lookup_alter_list, decide_True, Hci by done. intros [= <-]. split.
    + simpl. unfold plain_calls. set_solver.
    + left. apply user_running_upd; [done|]. exists j, c. split_and!; done.
Qed.

Definition plain_irq (s : S) (tf : TrapFrame) : Prop :=
  (irq tf = 0x80 -> eax tf ∈ plain_calls) /\ length (kb_keydown (y_kb s)) = 26%nat.

Lemma nf_irq_handle tf code val s : Inv (y_k s) -> irq_ok s tf -> plain_irq s tf ->
  nf (irq_handle PCBPool_addr sems_addr tf code val) s.
Proof.
  intros Hs Hok [Hp1 Hp2]. destruct (KInv_current _ (proj1 Hs)) as (i & c & Hi & Hil & Hc).
  assert (Hframe : forall s' : S, Inv (y_k s') -> is_Some (k_PCBPool (y_k s') !! i)) by (intros s' [H _]; by apply KInv_pool).
  unfold irq_handle. apply nf_switching, nf_bind; [done|]. intros p s' [= <- <-].
  replace (with_k (y_k s) s) with s by (by destruct s). rewrite Hi.
  apply nf_bind; [done|]. intros ? ? [= <- <-]. apply nf_assoc, nf_bind; [unfold nf; by rewrite saved_run by eauto|].
  intros u s1 E1. rewrite saved_run in E1 by eauto. injection E1 as _ <-.
  pose proof (Inv_saved i tf s Hs) as Hs1. pose proof (saved_frame i tf s) as Hf1.
  assert (Hkb : y_kb (saved i tf s) = y_kb s) by done.
  assert (Hok1 : irq tf = 0x80 -> sys_ok (saved i tf s) tf) by (intros H; by apply sys_ok_saved, Hok).
  set (s1 := saved i tf s) in *. clearbody s1.
  apply nf_bind.
  { apply nf_if; [intros E%Z.eqb_eq|done]. apply nfk_nf, nfk_do_syscall; [done..|]. intros d Hd. rewrite (Hf1 _ Hd).
    split; [by apply Hp1|]. by apply (so_user _ _ (Hok1 E)). }
  intros v s2 E2.
  assert (Inv (y_k s2) /\ kb_keydown (y_kb s2) = kb_keydown (y_kb s1)) as [Hs2 Ekd].
  { destruct (irq tf =? 0x80) eqn:E; [apply Z.eqb_eq in E|injection E2 as _ <-; done].
    assert (H : kp (do_syscall PCBPool_addr sems_addr i) (fun _ s' => Inv (y_k s')) Inv s1).
    { apply kp_do_syscall; [done|]. intros d Hd. rewrite (Hf1 _ Hd). by apply Hok1. }
    unfold kp in H. rewrite E2 in H. split; [done|].
    assert (H2 : nfk (do_syscall PCBPool_addr sems_addr i) s1).
    { apply nfk_do_syscall; [done..|]. intros d Hd. rewrite (Hf1 _ Hd).
      split; [by apply Hp1|]. by apply (so_user _ _ (Hok1 E)). }
    unfold nfk in H2. by rewrite E2 in H2. }
  apply nf_bind; [by apply nf_frame_of, Hframe|]. intros tf2 s3 E3.
  assert (y_k s3 = y_k s2 /\ s3 = s2 /\ exists d, k_PCBPool (y_k s2) !! i = Some d /\ tf2 = p_frame d) as (_ & -> & d & Hd & Htf2).
  { destruct (Hframe s2 Hs2) as [d Hd]. unfold frame_of, mbind, M_bind, on_k, zoom in E3. rewrite (get_pcb_run _ _ _ Hd) in E3.
    injection E3 as <- <-. destruct s2. eauto 6. }
  assert (Hl : irq tf2 = 1001 -> length (kb_keydown (y_kb s2)) = 26%nat) by (intros _; by rewrite Ekd, Hkb).
  apply nf_bind.
  { apply nf_if; intros _.
    - apply nf_bind; [apply nf_on_k; eapply nf_wp, KInv_do_timer, Hs2|]. intros x s4 E4.
      pose proof (inv_do_timer s2 Hs2) as H. unfold kp in H. rewrite E4 in H. apply nf_on_k. by eapply nf_wp, KInv_sched.
    - apply nf_if; [intros E%Z.eqb_eq|done]. by apply nf_keyboard; [..|apply Hl]. }
  intros x s4 E4.
  assert (Hs4 : Inv (y_k s4)).
  { pose proof (kp_after_frame PCBPool_addr sems_addr tf2 code val i s2 Hs2) as H. unfold kp in H. by rewrite E4 in H. }
  apply nf_bind; [by apply nf_frame_of, Hframe|]. intros tf3 s5 E5.
  assert (Ek : y_k s5 = y_k s4) by (by eapply quiet_eq; [apply quiet_frame_of|]).
  apply nf_if; [intros _|done]. apply nf_on_k. eapply nf_wp, KInv_sched. by rewrite Ek.
Qed.
End total.
