(* ===== verification/KernelProps.v ===== *)
(** * What holds of the kernel at every interrupt *)

From Stdlib Require Import String.
From S2P Require Import Prelude Bytes Proc Queues AbsProc Sched SchedSpec SchedProofs TimerProofs Lifecycle DemoProc Pmap.
From S2P Require Import PmapProps Disk FileSys DemoFs Printk Keyboard Readline Video Descr System.
From S2P Require Import Spawn Loader Ls Devices Kernel Safe SpawnProofs Awake KernelProofs BootInv KernelTotal Syscalls.

Section props.
Context {D : Type} `{!AtaDevice D}.
Context (PCBPool_addr sems_addr : Z).
Abbreviation S := (sys D).

(** One interrupt: the handler returns to the process it interrupted or
    leaves for another. *)
Definition kstep (s s' : S) : Prop :=
  exists tf code val, irq_ok s tf /\
    (irq_handle PCBPool_addr sems_addr tf code val s = Ret tt s' \/
     irq_handle PCBPool_addr sems_addr tf code val s = Jump s').





(** [switch_pcb], the switch that takes the frame from [pcb->tf] instead of
    the stack, leaves the processor and the kernel as [scheduler_switch]
    does. *)
Theorem switch_pcb_same p c (s : S) : k_PCBPool (y_k s) !! p = Some c -> p_tf c = TFStack p ->
  exists e, switch_pcb PCBPool_addr p s = Ret e (enter_current PCBPool_addr (with_k (with_current (Some p) (y_k s)) s)) /\
    en_eip e = eip (p_frame c) /\ en_esp e = esp (p_frame c).
Proof.
  intros Hc Ht. set (k := with_current (Some p) (y_k s)).
  assert (G : get_pcb (Some p) k = Ret c k) by (unfold get_pcb, mbind, M_bind, get; cbn; by rewrite Hc).
  assert (Gt : get_tf (Some p) k = Ret (p_frame c) k) by (unfold get_tf; rewrite (bind_Ret _ _ _ _ _ G), Ht; by rewrite (bind_Ret _ _ _ _ _ G)).
  assert (K : forall A (m : M kst A) a (s1 : S), y_k s1 = k -> m k = Ret a k -> on_k m s1 = Ret a s1).
  { intros A m a s1 E H. unfold on_k, zoom. rewrite E, H. rewrite <- E. by destruct s1. }
  unfold switch_pcb, enter_pcb. assert (E0 : on_k (modify (with_current (Some p))) s = Ret tt (with_k k s)) by done.
  rewrite (bind_Ret _ _ _ _ _ E0). rewrite (bind_Ret _ _ _ _ _ (K _ _ _ (with_k k s) eq_refl G)).
  set (s1 := load_cr3 (PADDR (p_pgdir c)) (with_k k s)). assert (E1 : lcr3 (PADDR (p_pgdir c)) (with_k k s) = Ret tt s1) by done.
  rewrite (bind_Ret _ _ _ _ _ E1), (bind_Ret _ _ _ _ _ (K _ _ _ s1 eq_refl G)).
  set (s2 := load_cr3 (PADDR (p_pgdir c)) s1). assert (E2 : lcr3 (PADDR (p_pgdir c)) s1 = Ret tt s2) by done. rewrite (bind_Ret _ _ _ _ _ E2).
  set (s3 := with_desc (set_tss_esp0 (kstacktop_addr PCBPool_addr p) (y_desc s2)) s2).
  erewrite (bind_Ret (modify _) _ s2 tt s3) by done. rewrite (bind_Ret _ _ _ _ _ (K _ _ _ s3 eq_refl Gt)). assert (E3 : s3 = enter_current PCBPool_addr (with_k k s)).
  { unfold enter_current, k. cbn [y_k with_k k_current with_current k_PCBPool]. by rewrite Hc. }
  eexists. split; [rewrite <- E3; reflexivity|by split].
Qed.
End props.

(** ** Witnesses *)

Definition demo_sys : sys (gmap Z (list Z)) :=
  mkSys demo (demo_mm 0x501) demo_fs demo_kb demo_screen 0 demo_desc [] [].
Definition pool_base : Z := 0xc0200000.
Definition sems_base : Z := 0xc0300000.

(** A timer interrupt and a call of [yield]. *)
Definition timer_frame : TrapFrame := mkTrapFrame 0 0 0 0 0 0 0 0 0 0 0 0 1000 0 0 0 0 0 0.
Definition yield_frame : TrapFrame := mkTrapFrame 0 0 0 0 0 0 0 SYS_HANDOUT 0 0 0 0 0x80 0 0 0 0 0 0.

Definition after_timer : sys (gmap Z (list Z)) :=
  match irq_handle pool_base sems_base timer_frame 0 0 demo_sys with Jump s' => s' | _ => demo_sys end.

Lemma after_timer_run : irq_handle pool_base sems_base timer_frame 0 0 demo_sys = Jump after_timer.
Proof.
  assert (H : match irq_handle pool_base sems_base timer_frame 0 0 demo_sys with Jump _ => true | _ => false end = true)
    by (vm_compute; reflexivity).
  unfold after_timer. by destruct (irq_handle pool_base sems_base timer_frame 0 0 demo_sys).
Qed.

Lemma demo_Inv : Inv (y_k demo_sys).
Proof.
  split; [apply demo_KInv|]. intros q c Hc [?|Hk]; [done|]. change (demo_pool !! q = Some c) in Hc. unfold demo_pool in Hc.
  destruct (decide (q < 4)%nat) as [Hq|Hq].
  - do 4 (destruct q as [|q]; [injection Hc as <-; discriminate Hk || discriminate|]). lia.
  - rewrite lookup_app_r in Hc by (simpl; lia). by apply lookup_replicate in Hc as [-> _].
Qed.

Lemma demo_timer_ok : irq_ok demo_sys timer_frame.
Proof. discriminate. Qed.




(** The program image. *)
Definition boot_pool : list PCB := replicate PCBPOOLMAX (demo_pcb 0 0 READY KERNEL 0).
Definition boot_k : kst :=
  mkKst boot_pool (replicate PCBPOOLMAX frame0) 1 None None None 0 0 {[sems_base := mkSemaphore 0 0 None]}.
Definition boot_sys : sys (gmap Z (list Z)) :=
  mkSys boot_k (demo_mm 0x501) demo_fs demo_kb demo_screen 0 demo_desc [] [].

Lemma boot_k_ok : boot_state boot_k.
Proof.
  split; try reflexivity.
  - intros q c Hc. change (boot_pool !! q = Some c) in Hc. apply lookup_replicate in Hc as [-> _]. by repeat split.
  - intros m c Hm. cbn in Hm. by apply lookup_singleton_Some in Hm as [_ <-].
Qed.


(** [sleep(3)] *)
Definition sleep_frame : TrapFrame := mkTrapFrame 0 0 0 0 3 0 0 SYS_SLEEP 0 0 0 0 0x80 0 0 0 0 0 0.

