(* ===== verification/Isolation.v ===== *)
(** * What belongs to a process alone

    A process's registers, address space, descriptors and identity are
    changed by nobody else: an operation on queues changes no process's
    ([mild]), a system call those of the caller and of a slot that was free
    ([keeps]). *)

From S2P Require Import Prelude Proc Sched Bytes Disk FileSys Pmap Printk Keyboard Video Descr System Spawn Loader Devices Ls Kernel Safe SpawnProofs.
From S2P Require Import Awake KernelProofs.

Definition private (c : PCB) := (p_used c, p_pid c, p_ppid c, p_tt c, p_tf c, p_frame c, p_pgdir c, p_fcb c).
Definition privs (k : kst) := private <$> k_PCBPool k.

Class PrivateFree (f : PCB -> PCB) : Prop := private_free : forall c, private (f c) = private c.
#[export] Hint Extern 0 (PrivateFree _) => (intros []; reflexivity) : typeclass_instances.

(** ** Operations on queues *)

(** [current] is let go at most, unless the kernel is left. *)
Definition mild {A} (c : M kst A) : Prop := forall k,
  match c k with
  | Ret _ k' => privs k' = privs k /\ (k_current k' = k_current k \/ k_current k' = None)
  | Jump k' => privs k' = privs k
  | Fault _ => True
  end.

Lemma mild_bind {A B} (c : M kst A) (f : A -> M kst B) : mild c -> (forall a, mild (f a)) -> mild (c ≫= f).
Proof.
  intros Hc Hf k. specialize (Hc k). unfold mbind, M_bind. destruct (c k) as [a k'|k'|e]; [|done..].
  specialize (Hf a k'). destruct Hc as [Hc1 Hc2]. destruct (f a k'); [|congruence|done]. destruct Hf as [Hf1 Hf2].
  split; [congruence|]. destruct Hc2 as [<-|Hc2]; [done|]. right. destruct Hf2; congruence.
Qed.
Lemma mild_ret {A} (a : A) : mild (mret a).
Proof. intros k. split; [done|by left]. Qed.
Lemma mild_fail {A} e : mild (fail e : M kst A).
Proof. done. Qed.
Lemma mild_get : mild get.
Proof. intros k. split; [done|by left]. Qed.
Lemma mild_gets {A} (f : kst -> A) : mild (gets f).
Proof. intros k. split; [done|by left]. Qed.
Lemma mild_jump {A} : mild (jump : M kst A).
Proof. done. Qed.
Lemma mild_option {A} e (o : option A) : mild (from_option_or e o).
Proof. intros k. destruct o; [|done]. split; [done|by left]. Qed.
Lemma mild_modify f : (forall k, k_PCBPool (f k) = k_PCBPool k /\ (k_current (f k) = k_current k \/ k_current (f k) = None)) -> mild (modify f).
Proof. intros H k. unfold privs. simpl. destruct (H k) as [-> Hc]. done. Qed.
Lemma mild_get_pcb p : mild (get_pcb p).
Proof. unfold get_pcb. repeat (apply mild_bind; [|intros ?]); auto using mild_option, mild_get. Qed.
Lemma mild_upd p f `{!PrivateFree f} : mild (upd_pcb p f).
Proof.
  intros k. pose proof (upd_pcb_cases p f k) as H. destruct (upd_pcb p f k) as [u k'|k'|e]; [|done..].
  destruct H as (j & c & _ & Hc & ->). split; [|by left]. unfold privs, kset_pcb. cbn [k_PCBPool with_PCBPool].
  apply list_eq. intros q. rewrite !list_lookup_fmap. destruct (decide (q = j)) as [->|Hne].
  - rewrite list_lookup_alter_eq. destruct (k_PCBPool k !! j); cbn; [f_equal; apply private_free|done].
  - by rewrite list_lookup_alter_ne.
Qed.
Lemma mild_get_sem m : mild (get_sem m).
Proof. unfold get_sem. repeat (apply mild_bind; [|intros ?]); auto using mild_option, mild_get. Qed.
Lemma mild_upd_sem m f : mild (upd_sem m f).
Proof. unfold upd_sem. apply mild_bind; [apply mild_get_sem|intros ?]. apply mild_modify. intros k. split; [done|by left]. Qed.

Create HintDb mild discriminated.
#[export] Hint Resolve mild_ret mild_fail mild_get mild_gets mild_jump mild_option mild_get_pcb mild_get_sem mild_upd_sem : mild.

Ltac solve_mild := repeat first
  [ solve [auto with mild nocore]
  | lazymatch goal with
    | |- mild (mbind _ _) => apply mild_bind; [|intros ?]
    | |- mild (upd_pcb _ _) => apply mild_upd; apply _
    | |- mild (modify _) => apply mild_modify; solve [intros []; split; [reflexivity|first [left; reflexivity|right; reflexivity]]]
    end
  | case_match ].

Lemma mild_get_head h : mild (get_head h).
Proof. destruct h; cbn [get_head]; solve_mild. Qed.
Lemma mild_set_head h v : mild (set_head h v).
Proof. destruct h; cbn [set_head]; solve_mild. Qed.
#[export] Hint Resolve mild_get_head mild_set_head : mild.
Lemma mild_delete_loop fuel s p q : mild (ll_delete_loop fuel s p q).
Proof. revert s p. induction fuel as [|fuel IH]; intros s p; cbn [ll_delete_loop]; solve_mild; apply IH. Qed.
#[export] Hint Resolve mild_delete_loop : mild.
Lemma mild_delete h p : mild (ll_delete h p).
Proof. unfold ll_delete. solve_mild. Qed.
Lemma mild_push h p : mild (ll_push h p).
Proof. unfold ll_push. solve_mild. Qed.
Lemma mild_last_loop fuel h : mild (ll_last_loop fuel h).
Proof. revert h. induction fuel as [|fuel IH]; intros h; cbn [ll_last_loop]; solve_mild; apply IH. Qed.
#[export] Hint Resolve mild_delete mild_push mild_last_loop : mild.
Lemma mild_pop h : mild (ll_pop h).
Proof. unfold ll_pop. solve_mild. Qed.
Lemma mild_entail h p : mild (ll_entail h p).
Proof. unfold ll_entail. solve_mild. Qed.
#[export] Hint Resolve mild_pop mild_entail : mild.
(** The end of a dispatch. *)
Lemma mild_dispatch p : mild (modify (with_current p);; upd_pcb p (with_ts RUNNING);; upd_pcb p (with_timeslice 0);; scheduler_switch p).
Proof.
  intros k. unfold mbind, M_bind, modify.
  pose proof (mild_upd p (with_ts RUNNING) (with_current p k)) as H1. change (privs (with_current p k)) with (privs k) in H1. destruct (upd_pcb p (with_ts RUNNING) (with_current p k)) as [? k1|k1|]; [|done..].
  destruct H1 as [H1 _]. pose proof (mild_upd p (with_timeslice 0) k1) as H2. destruct (upd_pcb p (with_timeslice 0) k1) as [? k2|k2|]; [|congruence|done].
  destruct H2 as [H2 _]. unfold scheduler_switch, mbind, M_bind, modify.
  pose proof (mild_get_pcb p (with_current p k2)) as H3. change (privs (with_current p k2)) with (privs k2) in H3. destruct (get_pcb p (with_current p k2)) as [? k3|k3|]; [|congruence|done].
  destruct H3 as [H3 _]. unfold jump. congruence.
Qed.
#[export] Hint Resolve mild_dispatch : mild.
Lemma mild_scheduler_rec fuel : mild (do_scheduler_rec fuel).
Proof. induction fuel as [|fuel IH]; cbn [do_scheduler_rec]; solve_mild; apply IH. Qed.
Lemma mild_scheduler : mild do_scheduler.
Proof. apply mild_scheduler_rec. Qed.
#[export] Hint Resolve mild_scheduler : mild.
Lemma mild_timer_loop fuel p : mild (do_timer_loop fuel p).
Proof. revert p. induction fuel as [|fuel IH]; intros p; cbn [do_timer_loop]; solve_mild; apply IH. Qed.
#[export] Hint Resolve mild_timer_loop : mild.
Lemma mild_timer : mild do_timer.
Proof. unfold do_timer. solve_mild. Qed.
Lemma mild_sem_init m n : mild (sem_init_kr m n).
Proof. unfold sem_init_kr. solve_mild. Qed.
Lemma mild_close_loop fuel m : mild (sem_close_loop fuel m).
Proof. induction fuel as [|fuel IH]; cbn [sem_close_loop]; solve_mild; apply IH. Qed.
#[export] Hint Resolve mild_timer mild_sem_init mild_close_loop : mild.
Lemma mild_sem_close m : mild (sem_close_kr m).
Proof. unfold sem_close_kr. solve_mild. Qed.
Lemma mild_sem_post m : mild (sem_post_kr m).
Proof. unfold sem_post_kr. solve_mild. Qed.
Lemma mild_sem_wait m : mild (sem_wait_kr m).
Proof. unfold sem_wait_kr. solve_mild. Qed.
Lemma mild_sem_trywait m : mild (sem_trywait_kr m).
Proof. unfold sem_trywait_kr. solve_mild. Qed.
Lemma mild_sem_get m : mild (sem_get_kr m).
Proof. unfold sem_get_kr. solve_mild. Qed.
Lemma mild_sem_open a i n : mild (sem_open_kr a i n).
Proof. unfold sem_open_kr. solve_mild. Qed.
Lemma mild_exit_loop fuel : mild (exit_loop fuel).
Proof. induction fuel as [|fuel IH]; cbn [exit_loop]; solve_mild; apply IH. Qed.
Lemma mild_join pid : mild (join_current pid).
Proof. unfold join_current. solve_mild. Qed.
Lemma mild_handout : mild sys_handout.
Proof. unfold sys_handout. solve_mild. Qed.
Lemma mild_sleep n : mild (sys_sleep n).
Proof. unfold sys_sleep. solve_mild. Qed.
Lemma mild_pid : mild sys_pid.
Proof. unfold sys_pid. solve_mild. Qed.
Lemma mild_ppid : mild sys_ppid.
Proof. unfold sys_ppid. solve_mild. Qed.
Lemma mild_tick : mild tick.
Proof. unfold tick. solve_mild. Qed.
#[export] Hint Resolve mild_sem_close mild_sem_post mild_sem_wait mild_sem_trywait mild_sem_get mild_sem_open mild_exit_loop
  mild_join mild_handout mild_sleep mild_pid mild_ppid mild_tick : mild.

(** ** The running process changes nobody else

    [spares X R c]: when the running process is one of [X], [c] leaves the
    private part of every used process outside [X] as it was. *)

(** A trap frame on a kernel stack is on the process's own. *)
Definition own (k : kst) : Prop := forall j c i, k_PCBPool k !! j = Some c -> p_tf c = TFStack i -> i = j.

Definition kept (X : nat -> Prop) (k k' : kst) : Prop := forall j c, ~ X j -> k_PCBPool k !! j = Some c -> p_used c <> 0 ->
  exists c', k_PCBPool k' !! j = Some c' /\ private c' = private c.

Definition let_go (k k' : kst) : Prop := k_current k' = k_current k \/ k_current k' = None.

Definition runs (X : nat -> Prop) (k : kst) : Prop := forall i, k_current k = Some i -> X i.

Lemma kept_refl X k : kept X k k.
Proof. intros j c _ Hc _. eauto. Qed.
Lemma kept_trans X k1 k2 k3 : kept X k1 k2 -> kept X k2 k3 -> kept X k1 k3.
Proof.
  intros H1 H2 j c Hj Hc Hu. destruct (H1 j c Hj Hc Hu) as (c2 & Hc2 & E2).
  assert (p_used c2 <> 0) by (unfold private in E2; congruence). destruct (H2 j c2 Hj Hc2) as (c3 & Hc3 & E3); [done|].
  exists c3. split; [done|congruence].
Qed.
Lemma kept_mono (X Y : nat -> Prop) k k' : (forall j, X j -> Y j) -> kept X k k' -> kept Y k k'.
Proof. intros HXY H j c Hj. apply H. auto. Qed.
Lemma let_go_trans k1 k2 k3 : let_go k1 k2 -> let_go k2 k3 -> let_go k1 k3.
Proof. unfold let_go. intros [H1|H1] [H2|H2]; rewrite H2, ?H1; auto. Qed.
Lemma runs_let_go X k k' : runs X k -> let_go k k' -> runs X k'.
Proof. intros H [E|E] i Hi; [apply H|]; congruence. Qed.

(** What a change of no private part means. *)
Lemma privs_lookup k k' j c : privs k' = privs k -> k_PCBPool k !! j = Some c -> exists c', k_PCBPool k' !! j = Some c' /\ private c' = private c.
Proof.
  intros E Hc. assert (H : privs k !! j = Some (private c)) by (unfold privs; by rewrite list_lookup_fmap, Hc). rewrite <- E in H.
  unfold privs in H. rewrite list_lookup_fmap in H. apply fmap_Some in H as (c' & Hc' & E'). by exists c'.
Qed.
Lemma privs_kept X k k' : privs k' = privs k -> kept X k k'.
Proof. intros E j c _ Hc _. by eapply privs_lookup. Qed.
Lemma privs_own k k' : privs k' = privs k -> own k -> own k'.
Proof.
  intros E H j c i Hc Hi. destruct (privs_lookup k' k j c (eq_sym E) Hc) as (c' & Hc' & E').
  apply (H j c' i Hc'). unfold private in E'. congruence.
Qed.

(** For any state with the processes in it. *)
Section generic.
Context {T : Type} (rd : T -> kst).
Implicit Types (X Y : nat -> Prop) (s : T).

Definition spares X {A} (R : A -> Prop) (c : M T A) : Prop := forall s, own (rd s) -> runs X (rd s) ->
  match c s with
  | Ret a s' => R a /\ own (rd s') /\ let_go (rd s) (rd s') /\ kept X (rd s) (rd s')
  | Jump s' => own (rd s') /\ kept X (rd s) (rd s')
  | Fault _ => True
  end.

Lemma spares_bind X {A B} (R : A -> Prop) (R' : B -> Prop) (c : M T A) (f : A -> M T B) :
  spares X R c -> (forall a, R a -> spares X R' (f a)) -> spares X R' (c ≫= f).
Proof.
  intros Hc Hf s Ho Hr. specialize (Hc s Ho Hr). unfold mbind, M_bind. destruct (c s) as [a s1|s1|e]; [|done..].
  destruct Hc as (Ra & O1 & L1 & K1). specialize (Hf a Ra s1 O1 (runs_let_go _ _ _ Hr L1)).
  destruct (f a s1) as [b s2|s2|e]; [|destruct Hf; eauto using kept_trans|done].
  destruct Hf as (Rb & O2 & L2 & K2). split_and!; eauto using let_go_trans, kept_trans.
Qed.
Lemma spares_mono X {A} (R R' : A -> Prop) (c : M T A) : spares X R c -> (forall a, R a -> R' a) -> spares X R' c.
Proof. intros H HR s Ho Hr. specialize (H s Ho Hr). destruct (c s); naive_solver. Qed.
Lemma spares_ret X {A} (R : A -> Prop) (a : A) : R a -> spares X R (mret a).
Proof. intros HR s Ho Hr. split_and!; [done|done|by left|apply kept_refl]. Qed.
Lemma spares_fail X {A} (R : A -> Prop) e : spares X R (fail e).
Proof. done. Qed.
Lemma spares_option X {A} e (o : option A) : spares X (fun a => o = Some a) (from_option_or e o).
Proof. destruct o; [by apply spares_ret|done]. Qed.
End generic.

(** ** On the processes *)

Lemma spares_mild X {A} (c : M kst A) : mild c -> spares id X (fun _ => True) c.
Proof.
  intros H k Ho Hr. specialize (H k). destruct (c k) as [a k'|k'|e]; [|split; eauto using privs_own, privs_kept|done].
  destruct H as [H1 H2]. split_and!; [done|by eapply privs_own|done|by apply privs_kept].
Qed.
Lemma spares_current X : spares id X (fun cur => forall i, cur = Some i -> X i) (gets k_current).
Proof. intros s Ho Hr. split_and!; [exact Hr|done|by left|apply kept_refl]. Qed.
Lemma spares_get_pcb X p : spares id X (fun c => forall i j, p = Some i -> p_tf c = TFStack j -> j = i) (get_pcb p).
Proof.
  intros k Ho Hr. pose proof (get_pcb_cases p k) as H. destruct (get_pcb p k) as [c k'|k'|e]; [|done..]. destruct H as (-> & i & -> & Hc).
  split_and!; [|done|by left|apply kept_refl]. intros ? j [= <-] Hj. by eapply Ho.
Qed.

(** Writes to the PCB of a process in [X]. *)
Lemma kept_upd X i f k : X i -> kept X k (kset_pcb i f k).
Proof.
  intros Hi j c Hj Hc _. exists c. split; [|done]. unfold kset_pcb. cbn [k_PCBPool with_PCBPool].
  rewrite list_lookup_alter_ne; [done|]. by intros ->.
Qed.
Lemma own_upd i f k : (forall c j, p_tf (f c) = TFStack j -> p_tf c = TFStack j \/ j = i) -> own k -> own (kset_pcb i f k).
Proof.
  intros Hf Ho j c q Hc Hq. unfold kset_pcb in Hc. cbn [k_PCBPool with_PCBPool] in Hc. destruct (decide (j = i)) as [->|Hne].
  - rewrite list_lookup_alter_eq in Hc. apply fmap_Some in Hc as (c0 & Hc0 & ->). destruct (Hf c0 q Hq) as [H|H]; [|done]. by eapply Ho.
  - rewrite list_lookup_alter_ne in Hc by done. by eapply Ho.
Qed.
Lemma spares_upd X p f : (forall i, p = Some i -> X i) -> (forall i c j, p = Some i -> p_tf (f c) = TFStack j -> p_tf c = TFStack j \/ j = i) ->
  spares id X (fun _ => True) (upd_pcb p f).
Proof.
  intros Hp Hf k Ho Hr. pose proof (upd_pcb_cases p f k) as H.
  destruct (upd_pcb p f k) as [u k'|k'|e]; [|done..]. destruct H as (i & c & -> & Hc & ->).
  split_and!; [done|apply own_upd; eauto|by left|apply kept_upd; eauto].
Qed.
Lemma spares_upd_some X i f : X i -> (forall c j, p_tf (f c) = TFStack j -> p_tf c = TFStack j \/ j = i) ->
  spares id X (fun _ => True) (upd_pcb (Some i) f).
Proof. intros Hi Hf. apply spares_upd; [by intros ? [= <-]|]. intros ? c j [= <-]. apply Hf. Qed.

Lemma mild_get_tf p : mild (get_tf p).
Proof. unfold get_tf. solve_mild. Qed.
Lemma mild_current_pcb : mild current_pcb.
Proof. unfold current_pcb. solve_mild. Qed.
#[export] Hint Resolve mild_get_tf mild_current_pcb : mild.

(** The frame [p->tf] points to is in [tfPool] or the process's own. *)
Lemma spares_upd_tf X p f : (forall i, p = Some i -> X i) -> spares id X (fun _ => True) (upd_tf p f).
Proof.
  intros Hp. destruct p as [i|]; [|done]. unfold upd_tf. eapply spares_bind; [apply spares_mild, mild_get_tf|intros tf _].
  eapply spares_bind; [apply spares_get_pcb|intros c Hc]. destruct (p_tf c) as [j|j] eqn:E.
  - apply spares_mild, mild_modify. intros []. split; [done|by left].
  - assert (j = i) as -> by naive_solver. apply spares_upd_some; [naive_solver|]. intros d q. by left.
Qed.
Lemma spares_upd_priv X i f : X i -> (forall c, p_tf (f c) = p_tf c) -> spares id X (fun _ => True) (upd_pcb (Some i) f).
Proof. intros Hi Hf. apply spares_upd_some; [done|]. intros c j. rewrite Hf. by left. Qed.

(** ** On the kernel *)

Section system.
Context {D : Type} `{!AtaDevice D}.
Context (PCBPool_addr sems_addr : Z).
Abbreviation S := (sys D).
Abbreviation spares_y := (spares (T := S) y_k).
Implicit Types (X : nat -> Prop).

Lemma spares_on_k X {A} (R : A -> Prop) (c : M kst A) : spares id X R c -> spares_y X R (on_k c).
Proof.
  intros H s Ho Hr. specialize (H (y_k s) Ho Hr). unfold on_k, zoom. by destruct (c (y_k s)).
Qed.
Lemma spares_quiet X {A} (c : M S A) : quiet c -> spares_y X (fun _ => True) c.
Proof.
  intros H s Ho Hr. specialize (H s). destruct (c s) as [a s'|s'|e]; [|done..]. rewrite H.
  split_and!; [done|done|by left|apply kept_refl].
Qed.
Lemma spares_on_mild X {A} (c : M kst A) : mild c -> spares_y X (fun _ => True) (on_k c).
Proof. intros H. by apply spares_on_k, spares_mild. Qed.
Lemma spares_on_upd X i f : X i -> (forall c, p_tf (f c) = p_tf c) -> spares_y X (fun _ => True) (on_k (upd_pcb (Some i) f)).
Proof. intros. by apply spares_on_k, spares_upd_priv. Qed.
Lemma spares_on_upd_tf X i f : X i -> spares_y X (fun _ => True) (on_k (upd_tf (Some i) f)).
Proof. intros. apply spares_on_k, spares_upd_tf. by intros ? [= <-]. Qed.
Lemma spares_on_tf X i v : X i -> v = TFStack i \/ (exists j, v = TFPool j) -> spares_y X (fun _ => True) (on_k (upd_pcb (Some i) (with_tf v))).
Proof. intros Hi Hv. apply spares_on_k, spares_upd_some; [done|]. intros c j E. right. cbn in E. destruct Hv as [->|[? ->]]; congruence. Qed.
End system.

Create HintDb spares discriminated.
#[export] Hint Resolve spares_fail spares_on_upd_tf spares_upd_tf : spares.
#[export] Hint Extern 0 (spares _ _ _ (mret _)) => (apply spares_ret; exact I) : spares.
#[export] Hint Extern 1 (spares _ _ _ (on_k (upd_pcb (Some _) (with_tf _)))) => (apply spares_on_tf; [assumption|first [by left|by right; eexists]]) : spares.
#[export] Hint Extern 2 (spares _ _ _ (on_k (upd_pcb (Some _) _))) => (apply spares_on_upd; [assumption|intros []; reflexivity]) : spares.
#[export] Hint Extern 3 (spares _ _ _ (upd_pcb (Some _) (with_tf _))) => (apply spares_upd_some; [assumption|intros ? ? E; right; cbn in E; congruence]) : spares.
#[export] Hint Extern 4 (spares _ _ _ (upd_pcb (Some _) _)) => (apply spares_upd_priv; [assumption|intros []; reflexivity]) : spares.

Ltac solve_spares := repeat first
  [ solve [auto with spares nocore]
  | solve [apply spares_quiet; solve_quiet]
  | solve [apply spares_on_mild; solve_mild]
  | solve [apply spares_mild; solve_mild]
  | lazymatch goal with
    | |- spares _ _ _ (from_option_or _ _ ≫= _) => eapply spares_bind; [apply spares_option|let E := fresh in intros ? E; cbv beta in E; simplify_eq]
    | |- spares _ _ _ (_ ≫= _) => eapply spares_bind; [|intros ? _]
    end
  | case_match ].

Section operations.
Context {D : Type} `{!AtaDevice D}.
Context (PCBPool_addr sems_addr : Z).
Abbreviation S := (sys D).
Abbreviation spares_y := (spares (T := S) y_k).
Implicit Types (X : nat -> Prop).

Lemma spares_init_pcb X p ustack entry pri : X p -> spares id X (fun _ => True) (init_pcb PCBPool_addr p ustack entry pri).
Proof. intros Hp. assert (forall i, Some p = Some i -> X i) by congruence. unfold init_pcb. solve_spares. Qed.
Lemma spares_copy_pcb X dst src : X dst -> spares_y X (fun _ => True) (copy_pcb PCBPool_addr dst src).
Proof. intros Hp. unfold copy_pcb. solve_spares. Qed.
Lemma spares_finish_load X p pgdir entry : X p -> spares_y X (fun _ => True) (finish_load PCBPool_addr p pgdir entry).
Proof. intros Hp. unfold finish_load. solve_spares. by apply spares_on_k, spares_init_pcb. Qed.
Lemma spares_loader_file X p fn : quiet fn -> X p -> spares_y X (fun _ => True) (loader_file PCBPool_addr p fn).
Proof.
  intros Hf Hp. unfold loader_file, uload32, uload16. solve_spares.
  - apply spares_quiet, quiet_load_segments.
  - by apply spares_finish_load.
Qed.
End operations.

(** ** Creating processes *)

Section create.
Context {D : Type} `{!AtaDevice D}.
Context (PCBPool_addr sems_addr : Z).
Abbreviation S := (sys D).
Abbreviation spares_y := (spares (T := S) y_k).
Implicit Types (X Y : nat -> Prop).

Lemma find_unused_not_used (k : kst) i c : i = find_unused (k_PCBPool k) 0 -> k_PCBPool k !! i = Some c -> p_used c = 0.
Proof. intros Hi Hc. by eapply (find_unused_free (k_PCBPool k) 0 i c). Qed.

(** A free slot may change with [X]. *)
Lemma kept_free X i k k' : (forall c, k_PCBPool k !! i = Some c -> p_used c = 0) -> kept (fun j => X j \/ j = i) k k' -> kept X k k'.
Proof. intros Hi H j c Hj Hc Hu. apply H; [|done..]. intros [?| ->]; [done|]. by apply Hu, Hi. Qed.

Lemma spares_pcb_create X {B} (R : B -> Prop) (f : option nat -> M S B) :
  (forall Y, (forall j, X j -> Y j) -> spares_y Y R (f None)) -> (forall Y i, (forall j, X j -> Y j) -> Y i -> spares_y Y R (f (Some i))) ->
  spares_y X R (pcb_create ≫= f).
Proof.
  intros HN HS s Ho Hr. pose proof (kept_free X (find_unused (k_PCBPool (y_k s)) 0) (y_k s)) as Hk. unfold pcb_create.
  match goal with |- context [(?c ≫= f) s] => lazymatch c with mbind ?g _ => change ((c ≫= f) s) with ((g s ≫= f) s); set (body := g s) end end.
  cbv beta zeta in body. set (i := find_unused _ 0) in body, Hk. set (Y := fun j => X j \/ j = i) in Hk.
  assert (Hi : Y i) by (by right). assert (HXY : forall j, X j -> Y j) by (intros j; by left).
  assert (Hb : spares_y Y (fun r => r = None \/ r = Some i) body).
  { subst body. clearbody i. solve_spares; apply spares_ret; auto. }
  assert (H : spares_y Y R (body ≫= f)).
  { eapply spares_bind; [exact Hb|]. intros ? [->| ->]; auto. }
  specialize (H s Ho (fun j Hj => HXY j (Hr j Hj))).
  assert (Hf : forall c, k_PCBPool (y_k s) !! i = Some c -> p_used c = 0) by (intros c; by apply find_unused_not_used).
  destruct ((body ≫= f) s); [destruct H as (? & ? & ? & ?); auto|destruct H; auto|done].
Qed.

(** What a call that starts a process does after [pcb_create]. *)
Lemma spares_create X (f : nat -> M S unit) :
  (forall Y i, (forall j, X j -> Y j) -> Y i -> spares_y Y (fun _ => True) (f i)) ->
  spares_y X (fun _ => True) (son ← pcb_create; son ← from_option_or NullPointer son; f son).
Proof.
  intros Hf. apply spares_pcb_create; [done|]. intros Y i HXY Hi.
  eapply spares_bind; [apply spares_option|]. intros ? [= <-]. by apply Hf.
Qed.

Lemma spares_cur X {B} R (f : pcb_ptr -> M S B) :
  (forall i, X i -> spares_y X R (f (Some i))) -> spares_y X R (f None) -> spares_y X R (cur ← on_k (gets k_current); f cur).
Proof.
  intros Hf HN. eapply spares_bind; [apply spares_on_k, spares_current|]. intros [i|] Hi; [by apply Hf, Hi|done].
Qed.

Lemma spares_fork X : spares_y X (fun _ => True) (fork_current PCBPool_addr).
Proof.
  unfold fork_current. apply spares_create. intros Y son _ Hson. apply spares_cur; [|done]. intros i Hi. solve_spares. by apply spares_copy_pcb.
Qed.
Lemma spares_thread X entry exit arg : spares_y X (fun _ => True) (thread_current PCBPool_addr entry exit arg).
Proof.
  unfold thread_current, ustore32. apply spares_create. intros Y son _ Hson.
  eapply spares_bind; [auto with spares nocore|intros _ _]. apply spares_cur; [|done]. intros i Hi. solve_spares. by apply spares_copy_pcb.
Qed.
Lemma spares_exec X fn : quiet fn -> spares_y X (fun _ => True) (exec_current PCBPool_addr fn).
Proof.
  intros Hf. unfold exec_current. apply spares_cur; [|done]. intros i Hi. unfold printk. solve_spares. by apply spares_loader_file.
Qed.
End create.

(** ** System calls *)

Lemma spares_fcb_set X fd v : spares id X (fun _ => True) (fcb_set fd v).
Proof.
  unfold fcb_set. eapply spares_bind; [apply spares_mild, mild_current_pcb|intros c _]. case_match; [|done].
  eapply spares_bind; [apply spares_current|]. intros [i|] Hi; [|done]. specialize (Hi i eq_refl). solve_spares.
Qed.
Lemma spares_exit X : spares id X (fun _ => True) exit_current.
Proof.
  unfold exit_current, free_pcb. eapply spares_bind; [apply spares_mild, mild_exit_loop|intros _ _].
  eapply spares_bind; [apply spares_current|]. intros [i|] Hi; [|done]. specialize (Hi i eq_refl).
  solve_spares.
Qed.

Section syscalls.
Context {D : Type} `{!AtaDevice D}.
Context (PCBPool_addr sems_addr : Z).
Abbreviation S := (sys D).
Abbreviation spares_y := (spares (T := S) y_k).
Implicit Types (X Y : nat -> Prop).

Lemma spares_on_fcb_set X fd v : spares_y X (fun _ => True) (on_k (fcb_set fd v)).
Proof. apply spares_on_k, spares_fcb_set. Qed.
#[local] Hint Resolve spares_on_fcb_set : spares.
Lemma spares_set_eax X i v : X i -> spares_y X (fun _ => True) (set_eax i v).
Proof. intros Hi. unfold set_eax. auto with spares. Qed.
#[local] Hint Resolve spares_set_eax : spares.

Lemma spares_fs_open_port X n fl : spares_y X (fun _ => True) (fs_open_port n fl).
Proof. unfold fs_open_port. solve_spares. Qed.
Lemma spares_fs_read_port X fd b l : spares_y X (fun _ => True) (fs_read_port fd b l).
Proof. unfold fs_read_port. solve_spares. Qed.
Lemma spares_fs_write_port X fd b l : spares_y X (fun _ => True) (fs_write_port fd b l).
Proof. unfold fs_write_port. solve_spares. Qed.
Lemma spares_fs_lseek_port X fd o w : spares_y X (fun _ => True) (fs_lseek_port fd o w).
Proof. unfold fs_lseek_port. solve_spares. Qed.
Lemma spares_fs_close_port X fd : spares_y X (fun _ => True) (fs_close_port fd).
Proof. unfold fs_close_port. solve_spares. Qed.
#[local] Hint Resolve spares_fs_open_port spares_fs_read_port spares_fs_write_port spares_fs_lseek_port spares_fs_close_port : spares.

Lemma spares_do_syscall X i : X i -> spares_y X (fun _ => True) (do_syscall PCBPool_addr sems_addr i).
Proof.
  intros Hi. unfold do_syscall.
  pose proof (spares_exec (D := D) PCBPool_addr X). pose proof (spares_fork (D := D) PCBPool_addr X).
  pose proof (spares_thread (D := D) PCBPool_addr X). pose proof (spares_on_k (D := D) X _ _ (spares_exit X)).
  solve_spares. auto with quiet.
Qed.

(** The handler: only the interrupted process, what it starts and slots
    nobody uses may change. *)
Lemma spares_irq_handle X tf code val : spares_y X (fun _ => True) (irq_handle PCBPool_addr sems_addr tf code val).
Proof.
  unfold irq_handle. intros s Ho Hr. unfold switching.
  match goal with |- context [match ?c s with _ => _ end] => assert (H : spares_y X (fun _ => True) c) end.
  { apply spares_cur; [|done]. intros i Hi. eapply spares_bind; [apply spares_option|]. intros ? [= <-].
    pose proof (spares_do_syscall X i Hi). unfold read_scancode. solve_spares. done. }
  specialize (H s Ho Hr). match goal with |- context [match ?c s with _ => _ end] => destruct (c s) as [a s'|s'|e] end; [done| |done].
  by rewrite y_k_enter_current.
Qed.
End syscalls.

(** ** Boot *)

Lemma spares_pool X : (forall j, X j) -> spares id X (fun _ => True) init_pcb_pool.
Proof.
  intros HX k Ho Hr. unfold init_pcb_pool, modify, id. split_and!; [done| |by left|by intros j ? []].
  intros j c i Hc Hi. cbn in Hc. rewrite list_lookup_fmap in Hc. apply fmap_Some in Hc as (d & Hd & ->). by eapply Ho.
Qed.
Lemma mild_enready p : mild (enready_pcb p).
Proof. unfold enready_pcb. solve_mild. Qed.
#[export] Hint Resolve mild_enready : mild.

Section boot.
Context {D : Type} `{!AtaDevice D}.
Context (PCBPool_addr kpgdir kpgtable gdt_addr tss_addr idt_addr idle_ptr : Z).
Context (vec : Z -> Z) (vecsys irq0 irq1 irq_empty : Z).
Abbreviation S := (sys D).
Abbreviation main := (main (D := D) PCBPool_addr kpgdir kpgtable gdt_addr tss_addr idt_addr idle_ptr vec vecsys irq0 irq1 irq_empty).

Lemma spares_empty_loader X p ptr : X p -> spares (T := S) y_k X (fun _ => True) (empty_loader PCBPool_addr p ptr).
Proof. intros Hp. unfold empty_loader. solve_spares. by apply spares_on_k, spares_init_pcb. Qed.

Lemma main_own magic (s : S) : own (y_k s) ->
  match main magic s with Ret _ s' | Jump s' => own (y_k s') | Fault _ => True end.
Proof.
  intros Ho. set (X := fun _ : nat => True). unfold Kernel.main, switching.
  match goal with |- context [match (match ?c s with _ => _ end) with _ => _ end] => assert (H : spares y_k X (fun _ => True) c) end.
  { eapply spares_bind; [apply spares_quiet; unfold init_page; solve_quiet|intros _ _].
    do 7 (eapply spares_bind; [apply spares_quiet; unfold init_serial, init_timer, init_intr; solve_quiet; done|intros _ _]).
    eapply spares_bind; [by apply spares_on_k, spares_pool|intros _ _]. unfold printk. do 2 (eapply spares_bind; [solve_spares|intros _ _]).
    apply spares_create. intros Y i _ Hi. eapply spares_bind; [by apply spares_empty_loader|intros _ _].
    eapply spares_bind; [solve_spares|intros _ _]. apply spares_create. intros Z j _ Hj.
    eapply spares_bind; [apply spares_loader_file; [solve_quiet|done]|intros _ _]. solve_spares. }
  specialize (H s Ho (fun _ _ => I)). match goal with |- context [match ?c s with _ => _ end] => destruct (c s) as [u s'|s'|e] end; [apply H| |done].
  rewrite y_k_enter_current. apply H.
Qed.
End boot.
