(* ===== verification/IsolationProps.v ===== *)
(** * A process changes only by its own doing

    The registers of a process that was interrupted, its page directory, its
    file descriptors and its identity survive every interrupt taken while
    another process runs. *)

From S2P Require Import Prelude Proc Queues Sched DemoProc Disk FileSys System Spawn Kernel Safe SpawnProofs KernelProofs KernelProps.
From S2P Require Import Isolation.

Section props.
Context {D : Type} `{!AtaDevice D}.
Context (PCBPool_addr sems_addr : Z).
Abbreviation S := (sys D).
Abbreviation kstep := (kstep (D := D) PCBPool_addr sems_addr).
Abbreviation irq_handle := (irq_handle (D := D) PCBPool_addr sems_addr).

(** An interrupt taken while another process than [j] runs. *)
Definition others (j : nat) (s s' : S) : Prop := kstep s s' /\ k_current (y_k s) <> Some j.

Lemma others_kept j (s s' : S) : own (y_k s) -> others j s s' -> own (y_k s') /\ kept (fun i => i <> j) (y_k s) (y_k s').
Proof.
  intros Ho [(tf & code & val & _ & Hst) Hcur]. assert (Hr : runs (fun i => i <> j) (y_k s)) by congruence.
  pose proof (spares_irq_handle PCBPool_addr sems_addr _ tf code val s Ho Hr) as H.
  destruct Hst as [E|E]; rewrite E in H; [destruct H as (_ & H1 & _ & H2)|destruct H as [H1 H2]]; done.
Qed.

Lemma others_star j (s s' : S) : own (y_k s) -> rtc (others j) s s' -> own (y_k s') /\ kept (fun i => i <> j) (y_k s) (y_k s').
Proof.
  intros Ho Hr. revert Ho. induction Hr as [s|s s1 s2 Hst _ IH]; intros Ho; [split; [done|apply kept_refl]|].
  destruct (others_kept j s s1 Ho Hst) as [O1 K1]. destruct (IH O1) as [O2 K2]. eauto using kept_trans.
Qed.

Lemma kstep_own (s s' : S) : own (y_k s) -> rtc kstep s s' -> own (y_k s').
Proof.
  intros Ho Hr. revert Ho. induction Hr as [s|s s1 s2 (tf & code & val & _ & Hst) _ IH]; intros Ho; [done|]. apply IH.
  pose proof (spares_irq_handle PCBPool_addr sems_addr (fun _ => True) tf code val s Ho (fun _ _ => I)) as H.
  destruct Hst as [E|E]; rewrite E in H; apply H.
Qed.

Lemma others_private j (s s' : S) c :
  own (y_k s) -> k_PCBPool (y_k s) !! j = Some c -> p_used c <> 0 -> rtc (others j) s s' ->
  exists c', k_PCBPool (y_k s') !! j = Some c' /\ private c' = private c.
Proof. intros Ho Hc Hu Hr. destruct (others_star j s s' Ho Hr) as [_ K]. apply K; [|done..]. intros H. by apply H. Qed.

(** The timer interrupt saves the registers; of all that processes own it
    changes nothing else. *)
Lemma kp_mild {A} (c : M kst A) V (s : S) : mild c -> privs (y_k s) = V ->
  kp (on_k c) (fun _ s' => privs (y_k s') = V) (fun k => privs k = V) s.
Proof.
  intros H <-. apply kp_k. specialize (H (y_k s)). destruct (c (y_k s)) as [a k|k|e]; [|done..]. by destruct H.
Qed.

Lemma kp_timer_irq tf code val (s : S) i : irq tf = 1000 -> k_current (y_k s) = Some i ->
  let V := privs (y_k (saved i tf s)) in
  kp (irq_handle tf code val) (fun _ s' => privs (y_k s') = V) (fun k => privs k = V) s.
Proof.
  intros Ht Hi V. unfold Kernel.irq_handle. apply kp_switching, kp_bind, kp_k. simpl.
  apply kp_bind, kp_from_option. intros i' Hi'. assert (i' = i) as -> by congruence. rewrite Hi.
  replace (with_k (y_k s) s) with s by (by destruct s). apply kp_assoc, kp_bind, kp_save.
  assert (HF : forall (s' : S) c, privs (y_k s') = V -> k_PCBPool (y_k s') !! i = Some c -> p_frame c = tf).
  { intros s' c E Hc. destruct (privs_lookup (y_k s') (y_k (saved i tf s)) i c) as (c' & Hc' & E'); [done..|].
    apply saved_frame in Hc'. unfold private in E'. congruence. }
  assert (HV : privs (y_k (saved i tf s)) = V) by done. revert HV. generalize (saved i tf s). clearbody V. clear s Hi Hi'. intros s HV.
  rewrite Ht. apply kp_bind, kp_ret. apply kp_bind, kp_frame_of. intros c Hc. rewrite (HF s c HV Hc), Ht. cbn [Z.eqb].
  apply kp_bind. eapply (kp_mono _ (fun _ s' => privs (y_k s') = V) _ (fun k => privs k = V)); [|clear s c HV Hc; intros _ s HV|done].
  - apply kp_bind. eapply kp_mono; [apply (kp_mild _ V); [apply mild_timer|done]| |done]. intros ? s' HV'. by apply kp_mild; [apply mild_scheduler|].
  - apply kp_bind, kp_frame_of. intros c Hc. rewrite (HF s c HV Hc), Ht. by apply kp_ret.
Qed.


End props.

(** ** Witnesses

    Process 1 is preempted by the timer with a loop counter in [ecx]; the
    idle process and process 2 yield; then it runs again. *)

Definition busy_frame : TrapFrame := mkTrapFrame 1 2 0x8000 0 3 4 0x1234 6 0 0 0 0 1000 0 0x8048010 0 0 0x7ff0 0.

Definition entered (tf : TrapFrame) (s : sys (gmap Z (list Z))) : option (sys (gmap Z (list Z))) :=
  match Kernel.irq_handle pool_base sems_base tf 0 0 s with Jump s' => Some s' | _ => None end.
Definition run1 := default demo_sys (entered busy_frame demo_sys).
Definition run2 := default demo_sys (entered yield_frame run1).
Definition run3 := default demo_sys (entered yield_frame run2).

Lemma entered_run tf s : bool_decide (is_Some (entered tf s)) = true ->
  Kernel.irq_handle pool_base sems_base tf 0 0 s = Jump (default demo_sys (entered tf s)).
Proof. intros [x H]%bool_decide_eq_true_1. revert H. unfold entered. by destruct (Kernel.irq_handle _ _ _ _ _ s). Qed.

Lemma yield_ok (s : sys (gmap Z (list Z))) : irq_ok s yield_frame.
Proof. intros _. split; [by right|by intros [?|?]|done]. Qed.

Lemma demo_own : own (y_k demo_sys).
Proof.
  intros j c i Hc Hi. change (demo_pool !! j = Some c) in Hc. assert (H : Forall (fun c => p_tf c = TFPool 0) demo_pool).
  { unfold demo_pool. apply Forall_app. split; [by repeat constructor|by apply Forall_replicate]. }
  rewrite (Forall_lookup_1 _ _ _ _ H Hc) in Hi. done.
Qed.

Lemma run_others j k (s : sys (gmap Z (list Z))) : k_current (y_k s) = Some k -> k <> j -> bool_decide (is_Some (entered yield_frame s)) = true ->
  others pool_base sems_base j s (default demo_sys (entered yield_frame s)).
Proof.
  intros Hk Hj Hs. split; [|congruence]. exists yield_frame, 0, 0. split; [apply yield_ok|]. right. by apply entered_run.
Qed.

Lemma run23 : rtc (others pool_base sems_base 1) run1 run3.
Proof.
  apply (rtc_l _ _ run2); [|apply rtc_once].
  - apply (run_others 1 0 run1); [vm_compute; reflexivity|done|vm_compute; reflexivity].
  - apply (run_others 1 2 run2); [vm_compute; reflexivity|done|vm_compute; reflexivity].
Qed.


