(* ===== verification/Fork.v ===== *)
(** * Fork

    What [fork_current] makes of a user process: the child's PCB, trap frame
    and address space, and the parent's.  The kernel stack that [copy_pcb]
    copies lies in the child's PCB, [slot_lo] to [slot_hi]. *)

From S2P Require Import Prelude Bytes Proc Queues AbsProc Sched SchedSpec SchedProofs Pmap PmapSpec PmapProofs PmapAlloc PmapCopy PmapProps CopyProps Remap.
From S2P Require Import Disk FileSys DemoFs Keyboard Readline Video Descr System Spawn Safe SpawnProofs DemoProc.

(** ** Memory *)

(** Page [p] does not meet the bytes [lo, hi). *)
Definition outside (lo hi p : Z) : Prop := page2kva p + 4096 <= lo \/ hi <= page2kva p.

Lemma outside_entry lo hi p o : outside lo hi p -> 0 <= o < 1024 -> entry (page2kva p) o < lo \/ hi <= entry (page2kva p) o.
Proof. unfold outside, entry. lia. Qed.

Lemma wp_memcpy_frame k dst src s (Q : unit -> mmst -> Prop) J :
  KERNBASE <= src -> src + 4 * Z.of_nat k <= KERNBASE + PHY_MEM -> KERNBASE <= dst -> dst + 4 * Z.of_nat k <= KERNBASE + PHY_MEM ->
  (forall m', (forall a, a < dst \/ dst + 4 * Z.of_nat k <= a -> m' a = mm_mem s a) -> Q tt (with_mem m' s)) ->
  wp (Pmap.memcpy k dst src) Q J s.
Proof.
  revert dst src s. induction k as [|k IH]; intros dst src s Hs1 Hs2 Hd1 Hd2 HQ; cbn [memcpy].
  - apply wp_ret. specialize (HQ (mm_mem s)). destruct s. by apply HQ.
  - apply wp_bind, wp_load; [apply mapped_true; lia|]. apply wp_bind, wp_store; [apply mapped_true; lia|].
    apply IH; [lia..|]. intros m' Hm. apply (HQ m'). intros a Ha. rewrite Hm by lia.
    cbn [mm_mem with_mem]. apply fn_lookup_insert_ne. lia.
Qed.

(** The memory a fork starts from: the parent's directory is page [sd], the
    kernel's [kd], every table and frame in use is below page [n] and
    outside the child's slot. *)
Record fork_memory (m : Z -> Z) (sd kd : Z) (stbl ktbl : Z -> Z) (n lo hi : Z) : Prop := {
  fm_sd : 0 <= sd < n;
  fm_kernel : dir_ok m kd ktbl;
  fm_kbelow : below m kd ktbl n;
  fm_table : forall i, 0 <= i < 1024 -> to_copy m sd kd i = true ->
    PTE_ADDR (m (entry (page2kva sd) i)) = page2pa (stbl i) /\ 0 <= stbl i < n /\ frames_below m (stbl i) n;
  fm_slot_dirs : outside lo hi sd /\ outside lo hi kd;
  fm_slot_kernel : forall i, 0 <= i < 1024 -> present (m (entry (page2kva kd) i)) = true -> outside lo hi (ktbl i);
  fm_slot_table : forall i, 0 <= i < 1024 -> to_copy m sd kd i = true -> outside lo hi (stbl i);
  fm_slot_frame : forall i j, 0 <= i < 1024 -> 0 <= j < 1024 -> to_copy m sd kd i = true ->
    present (m (entry (page2kva (stbl i)) j)) = true -> outside lo hi (PTE_ADDR (m (entry (page2kva (stbl i)) j)) / 4096);
  fm_slot_old : hi <= page2kva n }.

(** The child's directory, page [n] of memory [m']. *)
Record forked_space (m m' : Z -> Z) (sd kd n n' lo hi : Z) : Prop := {
  fk_user : exists f,
    (forall la, is_u32 la -> present (m (entry (page2kva kd) (PDX la))) = false ->
      match translate m (page2pa sd) la with
      | Some pa => translate m' (page2pa n) la = Some (page2pa (f (PGNUM la)) + PGOFF la) /\
          n < f (PGNUM la) < n' /\ page_copied m m' (pa / 4096) (f (PGNUM la)) /\ spare m' n (f (PGNUM la))
      | None => translate m' (page2pa n) la = None
      end) /\
    forall la lb, is_u32 la -> is_u32 lb ->
      present (m (entry (page2kva kd) (PDX la))) = false -> present (m (entry (page2kva kd) (PDX lb))) = false ->
      translate m (page2pa sd) la <> None -> translate m (page2pa sd) lb <> None ->
      f (PGNUM la) = f (PGNUM lb) -> PGNUM la = PGNUM lb;
  fk_tables : exists tbl', dir_ok m' n tbl' /\ below m' n tbl' n' /\ forall i, 0 <= i < 1024 ->
    present (m' (entry (page2kva n) i)) = to_copy m sd kd i || present (m (entry (page2kva kd) i));
  fk_kernel : forall la, is_u32 la -> present (m (entry (page2kva kd) (PDX la))) = true ->
    translate m' (page2pa n) la = translate m (page2pa kd) la;
  fk_frame : forall p o, 0 <= p < n -> outside lo hi p -> 0 <= o < 1024 -> m' (entry (page2kva p) o) = m (entry (page2kva p) o) }.

(** Memory [m2] in which page [n] was made a copy of the kernel's directory
    and the child's slot was filled. *)
Section before_copy.
Context (m m2 : Z -> Z) (sd kd : Z) (stbl ktbl : Z -> Z) (n lo hi : Z).
Context (HM : fork_memory m sd kd stbl ktbl n lo hi) (Hn : n + 4 <= npages).
Context (Hold : forall a, a < page2kva n -> a < lo \/ hi <= a -> m2 a = m a).
Context (Hdir : page_copied m m2 kd n).

Lemma fork_old p o : 0 <= p < n -> outside lo hi p -> 0 <= o < 1024 -> m2 (entry (page2kva p) o) = m (entry (page2kva p) o).
Proof using Hold Hn. intros Hp Ho Hr. apply Hold; [apply in_page_lt; lia|by apply outside_entry]. Qed.

Lemma fork_dir o : 0 <= o < 1024 -> m2 (entry (page2kva n) o) = m (entry (page2kva kd) o).
Proof using Hdir. apply Hdir. Qed.

Lemma fork_to_copy i : 0 <= i < 1024 -> to_copy m2 sd n i = to_copy m sd kd i.
Proof using HM Hn Hold Hdir.
  intros Hi. unfold to_copy. rewrite fork_dir by done. rewrite fork_old; [done|apply HM|apply HM|done].
Qed.

Lemma fork_table i j : 0 <= i < 1024 -> 0 <= j < 1024 -> to_copy m sd kd i = true ->
  m2 (entry (page2kva (stbl i)) j) = m (entry (page2kva (stbl i)) j).
Proof using HM Hn Hold.
  intros Hi Hj Hc. destruct (fm_table _ _ _ _ _ _ _ _ HM i Hi Hc) as (_ & Hb & _).
  apply fork_old; [done|by eapply fm_slot_table|done].
Qed.

Lemma fork_source : source_ok m2 sd n stbl (n + 1) 0.
Proof using HM Hn Hold Hdir.
  pose proof (fm_sd _ _ _ _ _ _ _ _ HM) as Hsd. split; [lia|..].
  - intros i Hi Hc. rewrite fork_to_copy in Hc by done. destruct (fm_table _ _ _ _ _ _ _ _ HM i Hi Hc) as (Ha & Hb & Hf).
    rewrite fork_old; [|done|apply HM|done]. split_and!; [done|lia|lia|lia|]. intros j Hj. rewrite fork_table by done.
    intros Hp. destruct (Hf j Hj Hp) as (q & Hq & Hqb). exists q. split; [done|lia].
  - intros i j Hi Hj Hc. rewrite fork_to_copy in Hc by done. rewrite fork_table by done.
    destruct (fm_table _ _ _ _ _ _ _ _ HM i Hi Hc) as (_ & _ & Hf).
    intros Hp. destruct (Hf j Hj Hp) as (q & -> & Hqb). intros E. apply (f_equal (fun x => x / 4096)) in E.
    rewrite !page2pa_div in E. lia.
Qed.

Lemma fork_dir_ok : dir_ok m2 n ktbl.
Proof using HM Hn Hdir.
  destruct (fm_kernel _ _ _ _ _ _ _ _ HM) as [Hd Ht Hi], (fm_kbelow _ _ _ _ _ _ _ _ HM) as [Hb1 Hb2].
  split; [lia|..].
  - intros i Hr. rewrite fork_dir by done. intros Hp. destruct (Ht i Hr Hp) as (? & ? & ?). specialize (Hb2 i Hr Hp).
    split_and!; [done|lia|lia|lia].
  - intros i j Hr Hr'. rewrite !fork_dir by done. by apply Hi.
Qed.

Lemma fork_below : below m2 n ktbl (n + 1).
Proof using HM Hdir.
  destruct (fm_kbelow _ _ _ _ _ _ _ _ HM) as [_ Hb]. split; [lia|]. intros i Hr. rewrite fork_dir by done.
  intros Hp. specialize (Hb i Hr Hp). lia.
Qed.

Lemma fork_count : count_dir m2 sd n NPDENTRIES 0 = count_dir m sd kd NPDENTRIES 0.
Proof using HM Hn Hold Hdir.
  apply (count_dir_ext m m2 sd kd n stbl); change (0 + Z.of_nat NPDENTRIES) with 1024.
  - intros i Hi. by apply fork_to_copy.
  - intros i Hi Hc. destruct (fm_table _ _ _ _ _ _ _ _ HM i Hi Hc) as (Ha & _ & _). split; [done|]. split.
    + apply fork_old; [apply HM|apply HM|done].
    + intros j Hj. by apply fork_table.
Qed.

Lemma fork_translate la : is_u32 la -> present (m (entry (page2kva kd) (PDX la))) = false ->
  translate m2 (page2pa sd) la = translate m (page2pa sd) la.
Proof using HM Hn Hold Hdir.
  intros Hla Hk. destruct (PGADDR_split la Hla) as (_ & Hd & Ht & _). pose proof (fm_sd _ _ _ _ _ _ _ _ HM) as Hsd.
  unfold translate. rewrite page2pa_KERNBASE by lia. rewrite fork_old; [|lia|apply HM|done].
  destruct (present (m (entry (page2kva sd) (PDX la)))) eqn:Hp; [|done].
  assert (Hc : to_copy m sd kd (PDX la) = true) by (unfold to_copy; by rewrite Hp, Hk).
  destruct (fm_table _ _ _ _ _ _ _ _ HM _ Hd Hc) as (-> & Hb & _). rewrite page2pa_KERNBASE by lia. by rewrite fork_table.
Qed.

(** A frame the parent has at [la] kept its contents. *)
Lemma fork_frame la pa m3 p : is_u32 la -> present (m (entry (page2kva kd) (PDX la))) = false ->
  translate m (page2pa sd) la = Some pa -> page_copied m2 m3 (pa / 4096) p -> page_copied m m3 (pa / 4096) p.
Proof using HM Hn Hold Hdir.
  intros Hla Hk Hpa Hc o Ho. rewrite (Hc o Ho). destruct (PGADDR_split la Hla) as (_ & Hd & Ht & Hg).
  unfold translate in Hpa. pose proof (fm_sd _ _ _ _ _ _ _ _ HM) as Hsd. rewrite page2pa_KERNBASE in Hpa by lia.
  destruct (present (m (entry (page2kva sd) (PDX la)))) eqn:Hp; [|done].
  assert (Hcp : to_copy m sd kd (PDX la) = true) by (unfold to_copy; by rewrite Hp, Hk).
  destruct (fm_table _ _ _ _ _ _ _ _ HM _ Hd Hcp) as (Ha & Hb & Hf). rewrite Ha, page2pa_KERNBASE in Hpa by lia.
  destruct (present (m (entry (page2kva (stbl (PDX la))) (PTX la)))) eqn:Hq; [|done]. injection Hpa as <-.
  pose proof (fm_slot_frame _ _ _ _ _ _ _ _ HM _ _ Hd Ht Hcp Hq) as Hout.
  destruct (Hf _ Ht Hq) as (q & E & Hqb). rewrite E in Hout |- *. rewrite page2pa_div in Hout.
  rewrite <- PGNUM_eq, PGNUM_page2pa by done. by apply (fork_old q o).
Qed.

Lemma forked_space_intro m3 n' : space_copied m2 m3 sd n (n + 1) n' -> forked_space m m3 sd kd n n' lo hi.
Proof using HM Hn Hold Hdir.
  intros [(f & Hc & Hi) Ho (tbl' & T1 & T2 & T3) Hf]. pose proof (fm_sd _ _ _ _ _ _ _ _ HM) as Hsd.
  assert (Hcase : forall la, is_u32 la -> present (m (entry (page2kva kd) (PDX la))) = false -> translate m (page2pa sd) la <> None ->
    to_copy m2 sd n (PDX la) = true).
  { intros la Hla Hk Htr. destruct (PGADDR_split la Hla) as (_ & Hd & _). rewrite fork_to_copy by done. unfold to_copy.
    rewrite Hk. unfold translate in Htr. rewrite page2pa_KERNBASE in Htr by lia.
    by destruct (present (m (entry (page2kva sd) (PDX la)))). }
  split.
  - exists f. split.
    + intros la Hla Hk. rewrite <- fork_translate by done. specialize (Hc la Hla).
      destruct (to_copy m2 sd n (PDX la)) eqn:E.
      * specialize (Hc eq_refl). destruct (translate m2 (page2pa sd) la) as [pa|] eqn:Etr; [|done].
        destruct Hc as (H1 & H2 & H3 & H4). split; [done|]. split; [lia|]. split; [|done]. apply (fork_frame la); [done|done| |done].
        by rewrite <- fork_translate.
      * rewrite (Ho la Hla E). destruct (translate m2 (page2pa sd) la) eqn:Etr.
        { rewrite fork_translate in Etr by done. rewrite Hcase in E; [done|done|done|congruence]. }
        destruct (PGADDR_split la Hla) as (_ & Hd & _). unfold translate. rewrite page2pa_KERNBASE by lia.
        by rewrite fork_dir, Hk.
    + intros la lb Hla Hlb Hka Hkb Ha Hb. apply Hi; try done; [by apply Hcase|by apply Hcase|by rewrite fork_translate..].
  - exists tbl'. split_and!; [done|done|]. intros i Hi'. by rewrite T3, fork_to_copy, fork_dir by done.
  - intros la Hla Hk. destruct (PGADDR_split la Hla) as (_ & Hd & Ht & _). rewrite Ho; [|done|].
    + unfold translate. rewrite !page2pa_KERNBASE by (destruct (fm_kernel _ _ _ _ _ _ _ _ HM); lia).
      rewrite fork_dir, Hk by done. destruct (do_table _ _ _ (fm_kernel _ _ _ _ _ _ _ _ HM) _ Hd Hk) as (-> & Hb & _).
      rewrite page2pa_KERNBASE by done. destruct (fm_kbelow _ _ _ _ _ _ _ _ HM) as [_ Hb2]. specialize (Hb2 _ Hd Hk).
      rewrite fork_old; [done|lia|by apply (fm_slot_kernel _ _ _ _ _ _ _ _ HM)|done].
    + rewrite fork_to_copy by done. unfold to_copy. rewrite Hk. by rewrite andb_comm.
  - intros p o Hp Hout Hr. rewrite Hf by lia. by apply fork_old.
Qed.
End before_copy.

(** ** Processes *)

Section fork.
Context {D : Type} `{!AtaDevice D}.
Context (PCBPool_addr : Z).
Abbreviation S := (sys D).
Implicit Types (s : S).

(** An update of the process state: what follows sees the new abstract
    state only. *)
Lemma wp_k_upd p f `{!LinkFree f} a c (Q : unit -> S -> Prop) J s :
  abs (y_k s) a -> a_pcb a p = Some c ->
  (forall k, abs k (a_upd p f a) -> Q tt (with_k k s)) -> wp (on_k (upd_pcb (Some p) f)) Q J s.
Proof. intros Habs Hc HQ. apply wp_on_k. by eapply (wp_upd_pcb _ _ Habs). Qed.

Lemma wp_k_upd_tf p f a c (Q : unit -> S -> Prop) J s :
  abs (y_k s) a -> a_pcb a p = Some c -> p_tf c = TFStack p ->
  (forall k, abs k (a_upd p (with_frame (f (p_frame c))) a) -> Q tt (with_k k s)) -> wp (on_k (upd_tf (Some p) f)) Q J s.
Proof.
  intros Habs Hc Htf HQ. apply wp_on_k. unfold upd_tf, get_tf.
  apply wp_bind, wp_bind. eapply (wp_get_pcb _ _ Habs); [exact Hc|]. intros c1 _ E1.
  assert (p_tf c1 = TFStack p) as -> by (rewrite <- Htf, <- E1; done).
  apply wp_bind. eapply (wp_get_pcb _ _ Habs); [exact Hc|]. intros c2 _ E2. apply wp_ret.
  apply wp_bind. eapply (wp_get_pcb _ _ Habs); [exact Hc|]. intros c3 _ E3.
  assert (p_tf c3 = TFStack p) as -> by (rewrite <- Htf, <- E3; done).
  eapply (wp_upd_pcb _ _ Habs); [apply _|exact Hc|]. intros k Hk. apply HQ.
  by replace (p_frame c) with (p_frame c2) by (rewrite <- E2; done).
Qed.

Lemma abs_pid k a : abs k a -> k_pid k = k_pid (a_k a).
Proof. intros [_ <-]. done. Qed.

(** What [pcb_create] puts in the new PCB. *)
Definition created (i : nat) (n pid : Z) (d : PCB) : PCB :=
  mkPCB 1 pid (p_ppid d) (p_ts d) (p_tt d) 0 (TFPool i) (p_frame d) (page2kva n) (replicate FCBMAX (-1))
    (p_next d) (p_tail d) (p_join_list d).

(** [a'] has the PCB [e] at [i], the pid counter [pid'], and is [a] otherwise. *)
Record pcb_set (a a' : astate) (i : nat) (e : PCB) (pid' : Z) : Prop := {
  ps_pcb : forall q, a_pcb a' q = if decide (i = q) then Some e else a_pcb a q;
  ps_q : a_q a' = a_q a;
  ps_cur : a_cur a' = a_cur a;
  ps_pid : k_pid (a_k a') = pid' }.

(** The pages after a directory was made. *)
Record dir_made (s s' : mmst) (kd n : Z) : Prop := {
  dm_fresh : fresh s' (n + 1);
  dm_kern : mm_kern_pgdir s' = mm_kern_pgdir s;
  dm_old : forall a, a < page2kva n -> mm_mem s' a = mm_mem s a;
  dm_dir : page_copied (mm_mem s) (mm_mem s') kd n;
  dm_ref : mm_ref s' = <[n := u16 (mm_ref s n + 1)]> (mm_ref s) }.

Lemma wp_pcb_create a d n kd (Q : option nat -> S -> Prop) J s (i := find_unused (k_PCBPool (y_k s)) 0) :
  abs (y_k s) a -> a_pcb a i = Some d -> fresh (y_mm s) n -> n + 4 <= npages ->
  mm_kern_pgdir (y_mm s) = page2kva kd -> 0 <= kd < n ->
  (forall k mm a', abs k a' -> pcb_set a a' i (created i n (k_pid (a_k a)) d) (u32 (k_pid (a_k a) + 1)) ->
     dir_made (y_mm s) mm kd n -> Q (Some i) (with_mm mm (with_k k s))) ->
  wp (pcb_create : M S (option nat)) Q J s.
Proof.
  intros Habs Hd Hf Hn Hkd Hk HQ. unfold pcb_create. apply wp_bind, wp_get. fold i. clearbody i.
  assert (Hi : forall f e, a_pcb (a_upd i f e) i = f <$> a_pcb e i) by (intros; by rewrite a_pcb_upd, decide_True).
  apply wp_bind. eapply wp_k_upd; [apply _|exact Habs|exact Hd|]. intros k1 H1.
  apply wp_bind. eapply wp_k_upd; [apply _|exact H1|by rewrite Hi, Hd|]. intros k2 H2.
  apply wp_bind. eapply wp_k_upd; [apply _|exact H2|by rewrite !Hi, Hd|]. intros k3 H3.
  apply wp_bind, wp_on_mm. eapply wp_page_alloc_zero; [apply fresh_cons; [exact Hf|lia]|lia|].
  apply wp_bind. eapply wp_k_upd; [apply _|exact H3|by rewrite !Hi, Hd|]. intros k4 H4.
  apply wp_bind, wp_get. cbn [y_k with_k with_mm]. rewrite (abs_pid _ _ H4).
  apply wp_bind. eapply wp_k_upd; [apply _|exact H4|by rewrite !Hi, Hd|]. intros k5 H5.
  apply wp_bind. eapply wp_k_upd; [apply _|exact H5|by rewrite !Hi, Hd|]. intros k6 H6.
  apply wp_bind, wp_on_k. eapply (wp_glob _ _ H6); [apply _|]. intros k7 H7.
  apply wp_bind, wp_on_mm, wp_incr_ref; [lia|]. apply wp_bind, wp_get.
  cbn [y_mm y_k with_k with_mm mm_kern_pgdir with_ref with_mem taken with_link with_free]. rewrite Hkd.
  apply wp_bind, wp_on_mm, wp_copy_page; [lia|lia|]. intros m' M1 M2. apply wp_ret.
  cbn [y_mm y_k with_k with_mm mm_mem with_ref with_mem taken with_link with_free] in M1, M2.
  match goal with |- Q _ (with_mm ?mm _) => apply (HQ k7 mm _ H7) end.
  - split; [|done..]. intros q. destruct (decide (i = q)) as [<-|Hne]; unfold a_pcb in *; cbn; rewrite !lookup_alter_list.
    + rewrite !decide_True, Hd by done. done.
    + by rewrite !decide_False.
  - split; [|done|..|done].
    + eapply fresh_ext; [apply fresh_taken; [exact Hf|lia]|done|done].
    + intros x Hx. cbn [mm_mem with_mem]. rewrite M1 by done. apply fill_out. lia.
    + intros o Ho. cbn [mm_mem with_mem]. rewrite (M2 o Ho). apply fill_out. left. by apply (in_page_lt kd n o); [lia|lia|].
Qed.

(** The part of a PCB that [copy_pcb] copies as memory. *)
Definition slot_lo (i : nat) : Z := pcb_addr PCBPool_addr i.
Definition slot_hi (i : nat) : Z := slot_lo i + 4 * FORKKSTACKSIZE.

Definition copied (son : nat) (c e : PCB) : PCB :=
  with_fcb (p_fcb c) (with_tt (p_tt c) (with_tf (TFStack son) (with_timeslice (p_timeslice c) (with_frame (p_frame c) e)))).

Lemma wp_copy_pcb a i son c e sd kd stbl ktbl n m0 (Q : unit -> S -> Prop) J s
    (cnt := count_dir (mm_mem m0) sd kd NPDENTRIES 0) (lo := slot_lo son) (hi := slot_hi son) :
  abs (y_k s) a -> a_pcb a i = Some c -> a_pcb a son = Some e -> i <> son ->
  p_tt c = USER -> p_tf c = TFStack i -> p_pgdir c = page2kva sd -> p_pgdir e = page2kva n ->
  fork_memory (mm_mem m0) sd kd stbl ktbl n lo hi -> dir_made m0 (y_mm s) kd n -> n + 1 + cnt + 3 <= npages ->
  KERNBASE <= slot_lo i -> slot_hi i <= KERNBASE + PHY_MEM -> KERNBASE <= lo ->
  (forall k mm a', abs k a' -> pcb_set a a' son (copied son c e) (k_pid (a_k a)) -> fresh mm (n + 1 + cnt) ->
     forked_space (mm_mem m0) (mm_mem mm) sd kd n (n + 1 + cnt) lo hi ->
     (forall n0, counted n0 (n + 1) (y_mm s) -> counted n0 (n + 1 + cnt) mm) -> Q tt (with_mm mm (with_k k s))) ->
  wp (copy_pcb PCBPool_addr son i) Q J s.
Proof.
  intros Habs Hc He Hne Htt Htf Hsd Hdd HM [D1 _ D3 D4 _] Hn Hi1 Hi2 Hlo HQ.
  pose proof (fm_slot_old _ _ _ _ _ _ _ _ HM) as Hhi. fold hi in Hhi.
  pose proof (count_dir_nonneg (mm_mem m0) sd kd NPDENTRIES 0) as Hnn. fold cnt in Hnn.
  assert (Hn0 : 0 <= n) by (pose proof (fm_sd _ _ _ _ _ _ _ _ HM); lia).
  assert (Hhi' : hi <= KERNBASE + PHY_MEM).
  { rewrite page2kva_eq in Hhi by lia. unfold npages, PHY_MEM in *. lia. }
  assert (HF : Z.of_nat (Z.to_nat FORKKSTACKSIZE) = FORKKSTACKSIZE) by reflexivity.
  unfold copy_pcb. apply wp_bind, wp_on_mm, wp_memcpy_frame; rewrite ?HF;
    [exact Hi1|exact Hi2|exact Hlo|exact Hhi'|]. intros m2 Hm2.
  assert (Hup : forall f x, a_pcb (a_upd son f x) son = f <$> a_pcb x son) by (intros; by rewrite a_pcb_upd, decide_True).
  apply wp_bind, wp_on_k. eapply (wp_get_pcb _ _ Habs); [exact Hc|]. intros c' _ Ec.
  change (p_frame c') with (p_frame (strip_pcb c')). change (p_timeslice c') with (p_timeslice (strip_pcb c')).
  change (p_tf c') with (p_tf (strip_pcb c')). change (p_tt c') with (p_tt (strip_pcb c')).
  change (p_fcb c') with (p_fcb (strip_pcb c')). change (p_pgdir c') with (p_pgdir (strip_pcb c')). rewrite Ec, Htt, Htf, Hsd.
  apply wp_bind. eapply wp_k_upd; [apply _|exact Habs|exact He|]. intros k1 H1.
  apply wp_bind. eapply wp_k_upd; [apply _|exact H1|by rewrite Hup, He|]. intros k2 H2.
  apply wp_bind. rewrite decide_True by done. eapply wp_k_upd; [apply _|exact H2|by rewrite !Hup, He|]. intros k3 H3.
  apply wp_bind. eapply wp_k_upd; [apply _|exact H3|by rewrite !Hup, He|]. intros k4 H4.
  apply wp_bind. rewrite (decide_False (P := USER = KERNEL)), (decide_True (P := USER <> THREAD)) by done.
  apply wp_bind, wp_on_k. eapply (wp_get_pcb _ _ H4); [by rewrite !Hup, He|]. intros e' _ Ee.
  assert (p_pgdir e' = page2kva n) as -> by (rewrite <- Hdd; apply (f_equal p_pgdir) in Ee; exact Ee).
  apply wp_on_mm. cbn [y_mm with_k with_mm].
  assert (Hold : forall x, x < page2kva n -> x < lo \/ hi <= x -> m2 x = mm_mem m0 x).
  { intros x Hx Hout. rewrite Hm2 by exact Hout. by apply D3. }
  assert (Hdir : page_copied (mm_mem m0) m2 kd n).
  { intros o Ho. rewrite <- (D4 o Ho). apply Hm2. right. change (hi <= page2kva n + 4 * o). lia. }
  assert (Hcnt : count_dir m2 sd n NPDENTRIES 0 = cnt) by (by apply (fork_count _ _ _ _ stbl ktbl n lo hi); try lia).
  apply (wp_copy_pgdir _ (n + 1) (n + 1) sd n stbl ktbl); cbn [mm_mem with_mem].
  - eapply fresh_ext; [exact D1|done|done].
  - by apply (fork_source (mm_mem m0) _ _ kd _ ktbl n lo hi); try lia.
  - lia.
  - by apply (fork_dir_ok (mm_mem m0) _ sd kd stbl _ n lo hi); try lia.
  - by apply (fork_below (mm_mem m0) _ sd kd stbl _ n lo hi).
  - rewrite Hcnt. lia.
  - rewrite Hcnt. intros mm Hf Hsp Hct. eapply wp_k_upd; [apply _|exact H4|by rewrite !Hup, He|]. intros k5 H5.
    apply (HQ k5 mm _ H5).
    + split; [|done..]. intros q. destruct (decide (son = q)) as [<-|Hq]; unfold a_pcb in *; cbn; rewrite !lookup_alter_list.
      * rewrite !decide_True, He by done. unfold copied. by rewrite Htt.
      * by rewrite !decide_False.
    + done.
    + eapply forked_space_intro; [exact HM|lia|exact Hold|exact Hdir|exact Hsp].
    + exact Hct.
Qed.

(** ** The child's pages *)

(** The pages that are the child's own: those of the user's tables. *)
Definition user_pages (m : Z -> Z) (sd kd g : Z) : Prop := 0 <= g < 2 ^ 20 /\ to_copy m sd kd (g / 1024) = true.

Lemma counted_dir (s s' : mmst) kd n : dir_made s s' kd n -> (forall p, n <= p < npages -> mm_ref s p = 0) -> n < npages -> counted n (n + 1) s'.
Proof.
  intros [D1 _ _ _ D5] Hr Hn. split; [lia|]. split; [done|]. rewrite D5, Hr by lia. change (u16 (0 + 1)) with 1. split.
  - intros p Hp. assert (p = n) as -> by lia. by rewrite fn_lookup_insert.
  - intros p Hp. rewrite fn_lookup_insert_ne by lia. apply Hr. lia.
Qed.

Section child.
Context (m : Z -> Z) (mm : mmst) (sd kd n n' lo hi : Z) (HS : forked_space m (mm_mem mm) sd kd n n' lo hi) (HC : counted n n' mm) (Hn : 0 <= n).
Abbreviation R := (user_pages m sd kd).

Lemma user_page g : R g -> is_u32 (g * 4096) /\ PGNUM (g * 4096) = g /\ PDX (g * 4096) = g / 1024 /\ 0 <= PDX (g * 4096) < 1024 /\
  present (m (entry (page2kva kd) (PDX (g * 4096)))) = false.
Proof.
  intros [Hg Hc]. destruct (page_u32 g Hg) as (Hu & Hp & _). destruct (PGNUM_parts _ Hu) as [E _]. rewrite Hp in E.
  destruct (PGADDR_split _ Hu) as (_ & Hd & _). split; [done|]. split; [done|]. split; [done|]. split; [done|]. rewrite <- E.
  unfold to_copy in Hc. apply andb_true_iff in Hc as [_ Hc]. by apply negb_true_iff in Hc.
Qed.

(** Each has the frame that its parent's was copied to. *)
Lemma child_frames : exists f, (forall g q, R g -> frame_at (mm_mem mm) n g = Some q -> q = f g /\ n < q < n' /\ spare (mm_mem mm) n q) /\
  forall g h, R g -> R h -> frame_at (mm_mem mm) n g <> None -> frame_at (mm_mem mm) n h <> None -> f g = f h -> g = h.
Proof using HS.
  destruct (fk_user _ _ _ _ _ _ _ _ HS) as (f & H1 & H2). exists f.
  assert (Hf : forall g q, R g -> frame_at (mm_mem mm) n g = Some q -> (q = f g /\ n < q < n' /\ spare (mm_mem mm) n q) /\ translate m (page2pa sd) (g * 4096) <> None).
  { intros g q Hg Hq. destruct (user_page g Hg) as (Hu & Hp & _ & _ & Hk). specialize (H1 _ Hu Hk). rewrite Hp in H1. unfold frame_at in Hq.
    destruct (translate m (page2pa sd) (g * 4096)) as [pa|]; [|by rewrite H1 in Hq]. destruct H1 as (Ht & H3 & _ & H4). rewrite Ht in Hq. injection Hq as <-.
    assert (E : pa2page (page2pa (f g) + PGOFF (g * 4096)) = f g).
    { apply PGNUM_page2pa. rewrite PGOFF_eq. apply Z.mod_pos_bound. lia. }
    rewrite E. split; [|done]. split_and!; [done|lia|lia|done]. }
  split; [intros g q Hg Hq; by apply Hf|]. intros g h Hg Hh Hqg Hqh E.
  destruct (frame_at (mm_mem mm) n g) as [q|] eqn:E1; [|done]. destruct (frame_at (mm_mem mm) n h) as [q'|] eqn:E2; [|done].
  destruct (Hf g q Hg E1) as [_ T1], (Hf h q' Hh E2) as [_ T2]. destruct (user_page g Hg) as (Hu & Hp & _ & _ & Hk), (user_page h Hh) as (Hu' & Hp' & _ & _ & Hk').
  rewrite <- Hp, <- Hp'. apply H2; try done. by rewrite Hp, Hp'.
Qed.

(** The child can be given another program: once its directory is loaded its
    pages are as [mm_alloc] over a space in use wants them. *)
Lemma child_space : exists tbl', space_ok (with_tlb no_tlb mm) n tbl' R (seqZ n' (npages - n')) /\
  forall x, pool n R mm (seqZ n' (npages - n')) x -> spare (mm_mem mm) n x.
Proof using HS HC Hn.
  destruct (fk_tables _ _ _ _ _ _ _ _ HS) as (tbl' & T1 & T2 & T3). exists tbl'. destruct child_frames as (f & F1 & F2). destruct HC as (C1 & C2 & C3 & C4).
  pose proof (proj1 (proj1 C2)) as Hn'. pose proof (proj2 (proj1 C2)) as Hnp. split; [split|].
  - exact T1.
  - by intros g [Hg _].
  - intros g Hg. destruct (user_page g Hg) as (_ & _ & E & Hd & _). cbn [mm_mem with_tlb]. rewrite T3 by done. rewrite E. by rewrite (proj2 Hg).
  - apply C2.
  - intros p Hp. apply elem_of_seqZ in Hp. apply C4. lia.
  - intros g q Hg Hq. destruct (F1 g q Hg Hq) as (_ & Hr & _). split; [lia|]. split; [|apply C3; lia]. intros E. apply elem_of_seqZ in E. lia.
  - intros g h q Hg Hh Hq Hq'. destruct (F1 g q Hg Hq) as [E1 _], (F1 h q Hh Hq') as [E2 _]. apply F2; [done|done| | |congruence].
    + cbn [mm_mem with_tlb] in Hq. congruence.
    + cbn [mm_mem with_tlb] in Hq'. congruence.
  - by intros la fr _ [=].
  - intros x [Hx|(g & Hg & Hx)]; [|by apply (F1 g)]. apply elem_of_seqZ in Hx. destruct T2 as [T2 T2']. apply (spare_dir _ _ _ _ T1). split; [lia|].
    intros i Hi Hp. specialize (T2' i Hi Hp). lia.
Qed.
End child.

(** The processes after a fork: the child's PCB, and what [fork] returns to
    each. *)
Record forked (a a' : astate) (i son : nat) (c d : PCB) (dir : Z) : Prop := {
  fd_child : a_pcb a' son = Some (mkPCB 1 (k_pid (a_k a)) (p_pid c) (p_ts d) USER (p_timeslice c) (TFStack son)
    (tf_eax 0 (p_frame c)) dir (p_fcb c) (p_next d) (p_tail d) (p_join_list d));
  fd_parent : a_pcb a' i = Some (with_frame (tf_eax (k_pid (a_k a)) (p_frame c)) c);
  fd_others : forall q, q <> i -> q <> son -> a_pcb a' q = a_pcb a q;
  fd_ready : a_q a' HReady = son :: a_q a HReady;
  fd_queues : forall h, h <> HReady -> a_q a' h = a_q a h;
  fd_cur : a_cur a' = Some i;
  fd_pid : k_pid (a_k a') = u32 (k_pid (a_k a) + 1) }.

(** The two frames and the ready queue set, after the child's PCB. *)
Lemma forked_intro a a1 a3 i son c d n (e := with_ppid (p_pid c) (created son n (k_pid (a_k a)) d))
    (a5 := a_upd son (with_frame (tf_eax 0 (p_frame (copied son c e)))) (a_upd i (with_frame (tf_eax (k_pid (a_k a)) (p_frame c))) a3)) :
  i <> son -> p_tt c = USER -> a_cur a = Some i -> a_pcb a3 son = Some (copied son c e) -> a_pcb a3 i = Some c ->
  pcb_set a a1 son (created son n (k_pid (a_k a)) d) (u32 (k_pid (a_k a) + 1)) ->
  pcb_set (a_upd son (with_ppid (p_pid c)) a1) a3 son (copied son c e) (k_pid (a_k (a_upd son (with_ppid (p_pid c)) a1))) ->
  forked a (a_setq HReady (son :: a_q a5 HReady) a5) i son c d (page2kva n).
Proof.
  intros Hne Htt Hi He3 Hc3 P1 P3. unfold a5.
  assert (Hq : a_q a3 = a_q a) by (rewrite (ps_q _ _ _ _ _ P3); apply (ps_q _ _ _ _ _ P1)).
  assert (Hu : forall f g q, a_pcb (a_upd son g (a_upd i f a3)) q =
     if decide (son = q) then g <$> a_pcb a3 q else if decide (i = q) then f <$> a_pcb a3 q else a_pcb a3 q).
  { intros f g q. rewrite !a_pcb_upd. repeat case_decide; subst; done. }
  split; unfold a_pcb in *; cbn [a_k a_setq] in *.
  - rewrite Hu, decide_True, He3 by congruence. unfold copied. cbn [fmap option_fmap option_map]. by rewrite Htt.
  - rewrite Hu, decide_False, decide_True, Hc3 by congruence. done.
  - intros q Hq1 Hq2. rewrite Hu, !decide_False by congruence. fold (a_pcb a3 q) (a_pcb a q).
    rewrite (ps_pcb _ _ _ _ _ P3), decide_False, a_pcb_upd, decide_False, (ps_pcb _ _ _ _ _ P1), decide_False by congruence. done.
  - rewrite q_setq, decide_True by congruence. cbn [a_q a_upd]. by rewrite Hq.
  - intros h Hh. rewrite q_setq, decide_False by congruence. cbn [a_q a_upd]. by rewrite Hq.
  - change (a_cur a3 = Some i). rewrite (ps_cur _ _ _ _ _ P3). change (a_cur a1 = Some i). by rewrite (ps_cur _ _ _ _ _ P1).
  - change (k_pid (a_k a3) = u32 (k_pid (a_k a) + 1)). rewrite (ps_pid _ _ _ _ _ P3). change (k_pid (a_k a1) = u32 (k_pid (a_k a) + 1)).
    apply (ps_pid _ _ _ _ _ P1).
Qed.

(** C3: [fork]: the child is a new process, queued to run next, with the next
    pid, its parent's registers, files and time used, and 0 as result; the
    parent's result is the child's pid.  The child's address space is a copy:
    kernel addresses are shared, and each page of the parent's is in a new
    frame with the same contents; the parent's memory is as before.  The child
    can call [exec]: its pages are its own, counted once, and apart from its
    tables and from the free list. *)
Theorem fork_correct a i c d sd kd stbl ktbl n s
    (son := find_unused (k_PCBPool (y_k s)) 0) (m := mm_mem (y_mm s)) (n' := n + 1 + count_dir m sd kd NPDENTRIES 0) :
  abs (y_k s) a -> AProc a -> a_cur a = Some i -> a_pcb a i = Some c -> a_pcb a son = Some d ->
  p_tt c = USER -> p_tf c = TFStack i -> p_pgdir c = page2kva sd ->
  fresh (y_mm s) n -> mm_kern_pgdir (y_mm s) = page2kva kd ->
  fork_memory m sd kd stbl ktbl n (slot_lo son) (slot_hi son) -> n' + 3 <= npages -> (forall p, n <= p < npages -> mm_ref (y_mm s) p = 0) ->
  KERNBASE <= slot_lo i -> slot_hi i <= KERNBASE + PHY_MEM -> KERNBASE <= slot_lo son ->
  wp (fork_current PCBPool_addr) (fun _ s' => exists a', abs (y_k s') a' /\ forked a a' i son c d (page2kva n) /\
      fresh (y_mm s') n' /\ forked_space m (mm_mem (y_mm s')) sd kd n n' (slot_lo son) (slot_hi son) /\
      exists tbl', space_ok (with_tlb no_tlb (y_mm s')) n tbl' (user_pages m sd kd) (seqZ n' (npages - n')) /\
        forall x, pool n (user_pages m sd kd) (y_mm s') (seqZ n' (npages - n')) x -> spare (mm_mem (y_mm s')) n x) (fun _ => False) s.
Proof.
  intros Habs HA Hi Hc Hd Htt Htf Hsd Hf Hkd HM Hn Href Hi1 Hi2 Hlo.
  pose proof (count_dir_nonneg m sd kd NPDENTRIES 0) as Hnn.
  assert (Hdead : ~ alive a son).
  { intros (d' & Hd' & Hu). rewrite Hd in Hd'. injection Hd' as <-. destruct (abs_pcb _ _ Habs _ _ Hd) as (d0 & Hd0 & <-).
    apply Hu. by apply (find_unused_free (k_PCBPool (y_k s)) 0 son d0). }
  pose proof (unlinked_dead _ _ (proj1 (proj1 (AProc_split a) HA)) Hdead) as Hun.
  assert (Hne : i <> son) by (intros ->; apply Hdead; by apply (ap_cur _ HA)).
  unfold fork_current. apply wp_bind. eapply (wp_pcb_create a d n kd); [done|done|done|lia|done| |].
  { pose proof (fm_kbelow _ _ _ _ _ _ _ _ HM) as [? _]. pose proof (do_dp _ _ _ (fm_kernel _ _ _ _ _ _ _ _ HM)). lia. }
  fold son. clearbody son. intros k1 mm a1 H1 P1 HD. apply wp_bind, wp_ret. apply wp_bind, wp_on_k, wp_gets.
  cbn [y_k with_k with_mm]. rewrite (abs_cur _ _ H1), (ps_cur _ _ _ _ _ P1), Hi. apply wp_bind, wp_ret.
  assert (Hc1 : a_pcb a1 i = Some c) by (by rewrite (ps_pcb _ _ _ _ _ P1), decide_False).
  assert (He1 : a_pcb a1 son = Some (created son n (k_pid (a_k a)) d)) by (by rewrite (ps_pcb _ _ _ _ _ P1), decide_True).
  apply wp_bind, wp_on_k. eapply (wp_get_pcb _ _ H1); [exact Hc1|]. intros c' _ Ec.
  assert (p_pid c' = p_pid c) as -> by (by rewrite <- Ec).
  apply wp_bind. eapply wp_k_upd; [apply _|exact H1|exact He1|]. intros k2 H2.
  apply wp_bind. eapply (wp_copy_pcb _ i son c _ sd kd stbl ktbl n (y_mm s)); [exact H2| | |done|done|done|done| |exact HM|exact HD|exact Hn|done|done|done|].
  { by rewrite a_pcb_upd, decide_False. }
  { by rewrite a_pcb_upd, decide_True, He1. }
  { done. }
  fold m n'. intros k3 mm3 a3 H3 P3 Hf3 HS Hct. pose proof (Hct n (counted_dir _ _ _ _ HD Href ltac:(lia))) as Hcnt.
  assert (He3 : a_pcb a3 son = Some (copied son c (with_ppid (p_pid c) (created son n (k_pid (a_k a)) d))))
    by (by rewrite (ps_pcb _ _ _ _ _ P3), decide_True).
  assert (Hc3 : a_pcb a3 i = Some c) by (by rewrite (ps_pcb _ _ _ _ _ P3), decide_False, a_pcb_upd, decide_False).
  apply wp_bind, wp_on_k. eapply (wp_get_pcb _ _ H3); [exact He3|]. intros e' _ Ee.
  assert (p_pid e' = k_pid (a_k a)) as -> by (apply (f_equal p_pid) in Ee; exact Ee).
  apply wp_bind. eapply wp_k_upd_tf; [exact H3|exact Hc3|exact Htf|]. intros k4 H4.
  apply wp_bind. eapply wp_k_upd_tf; [exact H4|by rewrite a_pcb_upd, decide_False|done|]. intros k5 H5.
  apply wp_bind, wp_on_k. eapply (wp_ll_push _ _ HReady son _ _ H5); [done| | |].
  { rewrite !a_pcb_upd, decide_True, decide_False, He3 by congruence. by eexists. }
  { intros h. cbn [a_q a_upd]. rewrite (ps_q _ _ _ _ _ P3). cbn [a_q a_upd]. rewrite (ps_q _ _ _ _ _ P1). apply Hun. }
  intros r k6 H6. apply wp_ret. eexists. split; [exact H6|]. split; [|split; [done|split; [done|]]].
  2:{ apply (child_space m mm3 sd kd n n' _ _ HS Hcnt). pose proof (fm_sd _ _ _ _ _ _ _ _ HM). lia. }
  by apply (forked_intro a a1 a3 i son c d n).
Qed.
End fork.

(** The demo kernel with a running user process 1 whose directory is page
    0x500; page 0x501 is the kernel's. *)
Definition forker (c : PCB) : PCB := with_pgdir (page2kva 0x500) (with_tf (TFStack 1) c).
#[global] Instance forker_LinkFree : LinkFree forker.
Proof. by split. Qed.
#[global] Instance forker_KeepsLife : KeepsLife forker.
Proof. by split. Qed.

Definition forker_k : kst := kset_pcb 1 forker demo.
Definition forker_a : astate := a_upd 1 forker demo_a.
Definition forker_sys : sys (gmap Z (list Z)) :=
  mkSys forker_k (with_kern_pgdir (page2kva 0x501) demo_fork) demo_fs demo_kb demo_screen 0 demo_desc [] [].

Lemma forker_memory lo hi : hi <= page2kva 0x500 ->
  fork_memory (mm_mem demo_fork) 0x500 0x501 (fun _ => 0x502) (fun _ => 0) 0x504 lo hi.
Proof.
  intros Hhi. assert (Hout : forall p, 0x500 <= p < 0x504 -> outside lo hi p).
  { intros p Hp. right. rewrite !page2kva_eq in * by (unfold npages; lia). lia. }
  assert (Hno : forall i, 0 <= i < 1024 -> present (mm_mem demo_fork (entry (page2kva 0x501) i)) = false).
  { intros i Hi. rewrite demo_fork_read by (unfold npages; lia). repeat case_decide; destruct_and?; done || lia. }
  assert (Hone : forall i, 0 <= i < 1024 -> to_copy (mm_mem demo_fork) 0x500 0x501 i = true -> i = 32).
  { intros i Hi. rewrite demo_fork_copy by done. apply bool_decide_eq_true. }
  split.
  - lia.
  - split; [unfold npages; lia|..]; intros i; intros; exfalso; rewrite ?Hno in *; done || lia.
  - split; [lia|]. intros i Hi. by rewrite Hno.
  - intros i Hi Hc. apply Hone in Hc as ->; [|done]. split; [reflexivity|]. split; [lia|]. intros j Hj.
    rewrite !demo_fork_read by (unfold npages; lia). repeat case_decide; destruct_and?; try lia; [|discriminate].
    intros _. exists 0x503. split; [reflexivity|lia].
  - split; apply Hout; lia.
  - intros i Hi. by rewrite Hno.
  - intros. apply Hout. lia.
  - intros i j Hi Hj _. rewrite demo_fork_read by (unfold npages; lia).
    repeat case_decide; destruct_and?; try lia; [|discriminate]. intros _. apply Hout. vm_compute. split; [discriminate|reflexivity].
  - etrans; [exact Hhi|]. apply page2kva_mono; unfold npages; lia.
Qed.

Lemma fork_correct_witness (P := 0xc0200000) (lo := slot_lo P 4) (hi := slot_hi P 4) (m := mm_mem demo_fork) :
  wp (fork_current P) (fun _ s' => exists a', abs (y_k s') a' /\
      forked forker_a a' 1 4 (forker (demo_pcb 1 2 RUNNING USER 3)) (demo_pcb 0 0 READY USER 0) (page2kva 0x504) /\
      fresh (y_mm s') 0x507 /\ forked_space m (mm_mem (y_mm s')) 0x500 0x501 0x504 0x507 lo hi /\
      exists tbl', space_ok (with_tlb no_tlb (y_mm s')) 0x504 tbl' (user_pages m 0x500 0x501) (seqZ 0x507 (npages - 0x507)) /\
        forall x, pool 0x504 (user_pages m 0x500 0x501) (y_mm s') (seqZ 0x507 (npages - 0x507)) x -> spare (mm_mem (y_mm s')) 0x504 x) (fun _ => False) forker_sys.
Proof.
  assert (0x504 + 1 + count_dir m 0x500 0x501 NPDENTRIES 0 = 0x507) as <- by (vm_compute; reflexivity).
  apply (fork_correct P forker_a 1 (forker (demo_pcb 1 2 RUNNING USER 3)) (demo_pcb 0 0 READY USER 0)
    0x500 0x501 (fun _ => 0x502) (fun _ => 0) 0x504 forker_sys); try reflexivity.
  - apply abs_upd; [apply demo_abs|apply _].
  - apply AProc_upd; [apply _|apply demo_AProc].
  - eapply fresh_ext; [apply (demo_fresh 0x504); unfold npages; lia|reflexivity|reflexivity].
  - apply forker_memory. vm_compute. discriminate.
  - vm_compute. discriminate.
  - vm_compute. discriminate.
  - vm_compute. discriminate.
  - vm_compute. discriminate.
Defined.

(** The kernel is linked at 1 MB and reserves 4 MB, [page_init] hands out the
    rest; the pool of 1000 PCBs alone is longer than that: from slot 338 at the latest
    the PCBs lie in pages of the free list. *)
Lemma pool_overlaps_free P : KERNBASE + 0x100000 <= P -> page2kva 0x400 <= pcb_addr P 338.
Proof. intros H. rewrite page2kva_eq by (unfold npages; lia). unfold pcb_addr. change (sizeof_PCB) with 9324. unfold KERNBASE in *. lia. Qed.
