(* ===== verification/Fmt.v ===== *)
(** * The disk image tools

    Models [fmt/formatter.c], [fmt/copy2myfs.c] and [fmt/read_myfs.c], the
    programs of the build host that make [disk.bin] and copy files into it,
    with the structures of [fmt/file.h], which are those of the kernel's
    [file.h] but for [LOC_*], here byte positions.  A [FILE *] is its
    contents and position. *)

From S2P Require Import Prelude Bytes Disk FileSys.

(** ** Streams of the C library *)

Record hfile : Type := mkH { h_pos : nat; h_bytes : list byte }.

Definition fopen_w : hfile := mkH 0 [].
Definition fopen_r (contents : list byte) : hfile := mkH 0 contents.
(** [fseek(f, offset, SEEK_SET)]: a negative offset is refused. *)
Definition fseek (offset : Z) (f : hfile) : hfile := if offset <? 0 then f else mkH (Z.to_nat offset) (h_bytes f).
Definition fread (n : nat) (f : hfile) : list byte * hfile :=
  let bs := slice (h_pos f) n (h_bytes f) in (bs, mkH (h_pos f + length bs) (h_bytes f)).
(** Bytes between the old end and the position read as zeros. *)
Definition fwrite (bs : list byte) (f : hfile) : hfile :=
  let l := h_bytes f ++ replicate (h_pos f - length (h_bytes f)) NUL in
  mkH (h_pos f + length bs) (splice (h_pos f) bs l).

(** ** The globals of a tool, [disk.bin] and the file to copy *)

Record fmtst : Type := mkFmt {
  t_disk : hfile;
  t_fp : hfile;
  t_bitmap : list byte;
  t_inode : list byte;
  t_dir : list byte;
  t_buffer : list byte }.

Definition with_tdisk v s := mkFmt v (t_fp s) (t_bitmap s) (t_inode s) (t_dir s) (t_buffer s).
Definition with_tfp v s := mkFmt (t_disk s) v (t_bitmap s) (t_inode s) (t_dir s) (t_buffer s).
Definition with_tbitmap v s := mkFmt (t_disk s) (t_fp s) v (t_inode s) (t_dir s) (t_buffer s).
Definition with_tinode v s := mkFmt (t_disk s) (t_fp s) (t_bitmap s) v (t_dir s) (t_buffer s).
Definition with_tdir v s := mkFmt (t_disk s) (t_fp s) (t_bitmap s) (t_inode s) v (t_buffer s).
Definition with_tbuffer v s := mkFmt (t_disk s) (t_fp s) (t_bitmap s) (t_inode s) (t_dir s) v.

Definition sizeof_mask : nat := Z.to_nat (512 * 256).

(** The globals of a program that starts. *)
Definition fmt_start (disk fp : hfile) : fmtst :=
  mkFmt disk fp (replicate sizeof_mask NUL) (replicate 512 NUL) (replicate 512 NUL) (replicate 512 NUL).

Definition SECT_SIZE : nat := 512.

Definition FLOC_BITMAP : Z := Z.shiftl 1 9.
Definition FLOC_DIR (x : Z) : Z := (1 + 256 + x) * BLOCK_SIZE.
Definition FLOC_INODE (x : Z) : Z := (1 + 256 + 256 + x) * BLOCK_SIZE.
Definition FLOC_DATA (x : Z) : Z := (1 + 256 + 256 + 256 + x) * BLOCK_SIZE.

(** [fseek] and [fwrite] on [disk]. *)
Definition seek_disk (off : Z) : M fmtst unit := modify (fun s => with_tdisk (fseek off (t_disk s)) s).
Definition write_disk (bs : list byte) : M fmtst unit := modify (fun s => with_tdisk (fwrite bs (t_disk s)) s).

(** [fread(dst + off, 1, SECT_SIZE, disk)] into the array [rd] gives. *)
Definition read_disk (rd : fmtst -> list byte) (wr : list byte -> fmtst -> fmtst) (off : nat) : M fmtst unit :=
  s ← get;
  let '(bs, f) := fread SECT_SIZE (t_disk s) in
  a ← from_option_or OutOfBounds (csplice (Z.of_nat off) bs (rd s));
  modify (fun s => wr a (with_tdisk f s)).

(** ** [fmt/formatter.c] *)

Fixpoint format_bitmap (n count : nat) : M fmtst unit :=
  match n with
  | O => mret tt
  | S n =>
      s ← get;
      bs ← from_option_or OutOfBounds (cslice (512 * Z.of_nat count) 512 (t_bitmap s));
      write_disk bs;;
      format_bitmap n (S count)
  end.

Fixpoint clear_entries (n j : nat) (dir : list byte) : list byte :=
  match n with O => dir | S n => clear_entries n (S j) (wr32 (ent_inode_offset j) (u32 (-1)) dir) end.

Fixpoint format_dirs (n : nat) : M fmtst unit :=
  match n with
  | O => mret tt
  | S n =>
      modify (fun s => with_tdir (clear_entries NR_ENTRIES 0 (t_dir s)) s);;
      s ← get;
      write_disk (t_dir s);;
      format_dirs n
  end.

Fixpoint format_sectors (rd : fmtst -> list byte) (n : nat) : M fmtst unit :=
  match n with
  | O => mret tt
  | S n => s ← get; write_disk (rd s);; format_sectors rd n
  end.

(** [boot]: what [boot.bin] holds. *)
Definition formatter (boot : list byte) : M fmtst unit :=
  let '(bs, _) := fread SECT_SIZE (fopen_r boot) in
  s ← get;
  b ← from_option_or OutOfBounds (csplice 0 bs (t_buffer s));
  modify (with_tbuffer b);;
  modify (with_tdisk fopen_w);;
  write_disk b;;
  modify (with_tbitmap (memset2 sizeof_mask 0));;
  format_bitmap SC_BITMAP 0;;
  format_dirs SC_DIR;;
  format_sectors t_inode (Z.to_nat SC_INODE);;
  modify (with_tbuffer (memset2 512 0));;
  format_sectors t_buffer (Z.to_nat SC_DATA).

(** ** [fmt/copy2myfs.c] *)

Fixpoint t_readBitmap_loop (n count : nat) : M fmtst unit :=
  match n with
  | O => mret tt
  | S n => read_disk t_bitmap with_tbitmap (512 * count);; t_readBitmap_loop n (S count)
  end.
Definition t_readBitmap : M fmtst unit := seek_disk FLOC_BITMAP;; t_readBitmap_loop SC_BITMAP 0.

Definition t_saveBitmap : M fmtst unit := seek_disk FLOC_BITMAP;; format_bitmap SC_BITMAP 0.

Definition t_readDir (offset : Z) : M fmtst unit := seek_disk (FLOC_DIR offset);; read_disk t_dir with_tdir 0.
Definition t_saveDir (offset : Z) : M fmtst unit := seek_disk (FLOC_DIR offset);; s ← get; write_disk (t_dir s).
Definition t_readINode (offset : Z) : M fmtst unit := seek_disk (FLOC_INODE offset);; read_disk t_inode with_tinode 0.
Definition t_saveINode (offset : Z) : M fmtst unit := seek_disk (FLOC_INODE offset);; s ← get; write_disk (t_inode s).
Definition t_readData (offset : Z) : M fmtst unit := seek_disk (FLOC_DATA offset);; read_disk t_buffer with_tbuffer 0.
Definition t_writeData (offset : Z) : M fmtst unit := seek_disk (FLOC_DATA offset);; s ← get; write_disk (t_buffer s).

(** The loops of [INodeAlloc] and [dataAlloc]. *)
Fixpoint t_alloc_loop (loc : Z -> Z) (n : nat) (i : Z) : M fmtst Z :=
  match n with
  | O => mret (-1)
  | S n =>
      let sec := Z.shiftr (loc i) 9 in
      let secN := Z.shiftr sec 3 in
      let secR := Z.shiftl 1 (Z.land sec 7) in
      s ← get;
      b ← from_option_or OutOfBounds (t_bitmap s !! Z.to_nat secN);
      if Z.land (byte.unsigned b) secR =? 0 then
        modify (with_tbitmap (<[Z.to_nat secN := byte.of_Z (Z.lor (byte.unsigned b) secR)]> (t_bitmap s)));;
        mret i
      else t_alloc_loop loc n (i + 1)
  end.
Definition t_INodeAlloc : M fmtst Z := t_alloc_loop FLOC_INODE (Z.to_nat SC_INODE) 0.
Definition t_dataAlloc : M fmtst Z := t_alloc_loop FLOC_DATA (Z.to_nat SC_DATA) 0.

(** The entry of a directory that has the name or, with [free], is free. *)
Fixpoint t_scan_entries (free : bool) (name : list byte) (n e : nat) : M fmtst (option nat) :=
  match n with
  | O => mret None
  | S n =>
      s ← get;
      z ← from_option_or OutOfBounds (strcmp (drop (ent_filename e) (t_dir s)) name);
      if decide (z = 0) then mret (Some e)
      else if free && bool_decide (rd32 (t_dir s) (ent_inode_offset e) = u32 (-1)) then mret (Some e)
      else t_scan_entries free name n (S e)
  end.

Fixpoint t_scan_dirs (free : bool) (name : list byte) (n : nat) (d : Z) : M fmtst (option (Z * nat)) :=
  match n with
  | O => mret None
  | S n =>
      t_readDir d;;
      r ← t_scan_entries free name NR_ENTRIES 0;
      match r with
      | Some e => mret (Some (d, e))
      | None => t_scan_dirs free name n (d + 1)
      end
  end.

(** The [while] loop: one sector of the file per step. *)
Fixpoint copy_blocks (fuel : nat) (offset filesize : Z) : M fmtst unit :=
  match fuel with
  | O => fail OutOfFuel
  | S fuel =>
      if u32 offset <? filesize then
        s ← get;
        let '(bs, fp) := fread SECT_SIZE (t_fp s) in
        b ← from_option_or OutOfBounds (csplice 0 bs (t_buffer s));
        b ← (if decide (length bs = SECT_SIZE) then mret b
             else from_option_or OutOfBounds (csplice (Z.of_nat (length bs)) (memset2 (SECT_SIZE - length bs) 0) b));
        modify (fun s => with_tfp fp (with_tbuffer b s));;
        index_data ← t_dataAlloc;
        t_writeData index_data;;
        (if u32 (Z.quot offset 512) <? NR_BLOCKS then
           modify (fun s => with_tinode (wr32 (Z.to_nat (4 * Z.quot offset 512)) (u32 index_data) (t_inode s)) s)
         else mret tt);;
        copy_blocks fuel (i32 (offset + 512)) filesize
      else mret tt
  end.

(** [name] is [argv[2]], up to its NUL and beyond; the file is in [t_fp]. *)
Definition copy2myfs (name : list byte) : M fmtst unit :=
  n ← from_option_or OutOfBounds (cstring name);
  (if decide (30 < length n)%nat then fail OutOfBounds else mret tt);;     (* char name[30] *)
  s ← get;
  let filesize := u32 (Z.of_nat (length (h_bytes (t_fp s)))) in
  r ← t_scan_dirs true n SC_DIR 0;
  '(dir_offset, e) ← from_option_or OutOfBounds r;                          (* dir.entries[NR_ENTRIES] *)
  t_readBitmap;;
  index_inode ← t_INodeAlloc;
  modify (fun s => with_tdir (wr32 (ent_inode_offset e) (u32 index_inode) (t_dir s)) s);;
  s ← get;
  dir ← from_option_or OutOfBounds (strcpy (ent_filename e) n (t_dir s));
  modify (with_tdir (wr32 (ent_file_size e) filesize dir));;
  t_readINode index_inode;;
  modify (with_tinode (memset2 512 0xFF));;
  copy_blocks (S (Z.to_nat (filesize / 512 + 1))) 0 filesize;;
  t_saveINode index_inode;;
  t_saveBitmap;;
  t_saveDir dir_offset.

(** ** [fmt/read_myfs.c] *)

(** Reads the blocks of the inode up to the first empty one. *)
Fixpoint read_blocks (n : nat) (i : Z) : M fmtst unit :=
  match n with
  | O => mret tt
  | S n =>
      s ← get;
      let b := rd32 (t_inode s) (Z.to_nat (4 * i)) in
      if b =? 0xFFFFFFFF then mret tt
      else t_readData (i32 b);; read_blocks n (i + 1)
  end.

(** What it prints: where the entry is and the file's size, or that there is
    none. *)
Definition read_myfs (name : list byte) : M fmtst (option (Z * nat * Z)) :=
  n ← from_option_or OutOfBounds (cstring name);
  (if decide (30 < length n)%nat then fail OutOfBounds else mret tt);;
  r ← t_scan_dirs false n SC_DIR 0;
  match r with
  | None => mret None
  | Some (dir_offset, e) =>
      s ← get;
      t_readINode (i32 (rd32 (t_dir s) (ent_inode_offset e)));;
      read_blocks (Z.to_nat NR_BLOCKS) 0;;
      mret (Some (dir_offset, e, rd32 (t_dir s) (ent_file_size e)))
  end.
