(* ===== verification/FmtProofs.v ===== *)
(** * The disk image tools: sectors, the bitmap and the directory *)

From S2P Require Import Prelude Bytes Disk FileSys FsRead FsAlloc Fmt.

(** ** Sectors of an image *)

Definition IMG_SECTORS : Z := 33537.
Definition sector (img : list byte) (n : Z) : list byte := slice (Z.to_nat (512 * n)) 512 img.
Definition set_sector (n : Z) (bs img : list byte) : list byte := splice (Z.to_nat (512 * n)) bs img.
Definition image_ok (img : list byte) : Prop := Z.of_nat (length img) = 512 * IMG_SECTORS.

Lemma SECT_SIZE_Z : Z.of_nat SECT_SIZE = 512.
Proof. done. Qed.

Lemma length_sector img n : image_ok img -> 0 <= n < IMG_SECTORS -> length (sector img n) = 512%nat.
Proof. unfold image_ok, IMG_SECTORS. intros H Hn. apply length_slice. lia. Qed.

Lemma set_sector_ok n bs img : image_ok img -> 0 <= n < IMG_SECTORS -> length bs = 512%nat -> image_ok (set_sector n bs img).
Proof. unfold image_ok, IMG_SECTORS, set_sector. intros H Hn Hl. rewrite length_splice; [done|lia]. Qed.

Lemma sector_set_eq n bs img : image_ok img -> 0 <= n < IMG_SECTORS -> length bs = 512%nat -> sector (set_sector n bs img) n = bs.
Proof.
  unfold image_ok, IMG_SECTORS, sector, set_sector. intros H Hn Hl. rewrite <- Hl at 1. apply slice_splice_eq. lia.
Qed.

Lemma sector_set_ne n m bs img : image_ok img -> 0 <= n < IMG_SECTORS -> 0 <= m -> length bs = 512%nat -> m <> n ->
  sector (set_sector n bs img) m = sector img m.
Proof.
  unfold image_ok, IMG_SECTORS, sector, set_sector. intros H Hn Hm Hl Hne. apply slice_splice_ne; lia.
Qed.

(** ** Reading and writing one sector *)

Section rules.
Implicit Types (s : fmtst) (J : fmtst -> Prop).

(** The state with [disk.bin] holding [img], the position being [p]. *)
Definition on_img (p : nat) (img : list byte) s : fmtst := with_tdisk (mkH p img) s.

Lemma fseek_eq n f : 0 <= n -> fseek (512 * n) f = mkH (Z.to_nat (512 * n)) (h_bytes f).
Proof. intros H. unfold fseek. by rewrite (proj2 (Z.ltb_ge _ _)) by lia. Qed.

Lemma fread_sector n img : image_ok img -> 0 <= n < IMG_SECTORS ->
  fread SECT_SIZE (mkH (Z.to_nat (512 * n)) img) = (sector img n, mkH (Z.to_nat (512 * (n + 1))) img).
Proof.
  intros H Hn. unfold fread. cbn [h_pos h_bytes]. change (slice (Z.to_nat (512 * n)) SECT_SIZE img) with (sector img n).
  rewrite length_sector by done. do 2 f_equal. lia.
Qed.

Lemma wp_read_sector loc n rd wr s img (Q : unit -> fmtst -> Prop) J :
  loc = 512 * n -> h_bytes (t_disk s) = img -> image_ok img -> 0 <= n < IMG_SECTORS ->
  (forall f, rd (with_tdisk f s) = rd s) -> length (rd s) = 512%nat ->
  (forall p, Q tt (wr (sector img n) (on_img p img s))) ->
  wp (seek_disk loc;; read_disk rd wr 0) Q J s.
Proof.
  intros -> Hi Hok Hn Hrd Hl HQ. apply wp_bind. unfold seek_disk. apply wp_modify. unfold read_disk. apply wp_bind, wp_get.
  cbn [t_disk with_tdisk]. rewrite fseek_eq, Hi, fread_sector by (done || lia).
  apply wp_bind. eapply wp_from_option.
  { rewrite Hrd. apply csplice_Some; [lia|]. rewrite length_sector by done. lia. }
  assert (E : splice (Z.to_nat (Z.of_nat 0)) (sector img n) (rd s) = sector img n).
  { unfold splice. simpl. rewrite length_sector, drop_ge by (done || lia). by rewrite app_nil_r. }
  rewrite E. apply wp_modify. apply HQ.
Qed.

Lemma wp_write_sector loc n rd s img (Q : unit -> fmtst -> Prop) J :
  loc = 512 * n -> h_bytes (t_disk s) = img -> image_ok img -> 0 <= n < IMG_SECTORS ->
  (forall f, rd (with_tdisk f s) = rd s) -> length (rd s) = 512%nat ->
  (forall p, Q tt (on_img p (set_sector n (rd s) img) s)) ->
  wp (seek_disk loc;; s ← get; write_disk (rd s)) Q J s.
Proof.
  intros -> Hi Hok Hn Hrd Hl HQ. apply wp_bind. unfold seek_disk. apply wp_modify. apply wp_bind, wp_get. rewrite Hrd.
  unfold write_disk. apply wp_modify. cbn [t_disk with_tdisk]. rewrite fseek_eq, Hi by lia.
  unfold fwrite. cbn [h_pos h_bytes]. unfold image_ok, IMG_SECTORS in *.
  replace (Z.to_nat (512 * n) - length img)%nat with 0%nat by lia. rewrite app_nil_r. apply HQ.
Qed.

Lemma FLOC_eq x : FLOC_DIR x = 512 * (257 + x) /\ FLOC_INODE x = 512 * (513 + x) /\ FLOC_DATA x = 512 * (769 + x).
Proof. unfold FLOC_DIR, FLOC_INODE, FLOC_DATA, BLOCK_SIZE. lia. Qed.

(** ** The bitmap *)

Lemma wp_t_readBitmap_loop n count s img old (Q : unit -> fmtst -> Prop) J :
  image_ok img -> length old = BITMAP_BYTES -> (n + count = SC_BITMAP)%nat ->
  t_disk s = mkH (512 * (count + 1)) img ->
  t_bitmap s = slice 512 (512 * count) img ++ drop (512 * count) old ->
  (forall p, Q tt (with_tbitmap (slice 512 BITMAP_BYTES img) (on_img p img s))) ->
  wp (t_readBitmap_loop n count) Q J s.
Proof.
  intros Hok Ho. pose proof BITMAP_BYTES_Z as HB. assert (HSC : Z.of_nat SC_BITMAP = 256) by done.
  unfold image_ok, IMG_SECTORS in Hok.
  revert count s. induction n as [|n IH]; intros count s Hn Hd Hm HQ; cbn [t_readBitmap_loop].
  - apply wp_ret. specialize (HQ (512 * (count + 1))%nat).
    assert (BITMAP_BYTES = (512 * count)%nat) as E by lia. rewrite E in HQ.
    rewrite (drop_ge old) in Hm by lia. rewrite app_nil_r in Hm.
    destruct s as [d fp m i dr b]. cbn in Hd, Hm. subst. apply HQ.
  - assert (Hlen : length (slice 512 (512 * count) img) = (512 * count)%nat) by (apply length_slice; lia).
    apply wp_bind. unfold read_disk. apply wp_bind, wp_get. rewrite Hd. unfold fread. cbn [h_pos h_bytes].
    change SECT_SIZE with 512%nat. assert (Hl1 : length (slice (512 * (count + 1)) 512 img) = 512%nat) by (apply length_slice; lia).
    apply wp_bind. eapply wp_from_option.
    { apply csplice_Some; [lia|]. rewrite Hm, length_app, length_drop, Hl1, Hlen. lia. }
    apply wp_modify. apply IH; [lia| | |].
    + cbn [t_disk with_tdisk with_tbitmap]. rewrite Hl1. f_equal. lia.
    + cbn [t_bitmap with_tdisk with_tbitmap]. rewrite Hm, Nat2Z.id. unfold splice. rewrite take_app_le by lia. rewrite firstn_all2 by lia.
      rewrite drop_app_ge by lia. rewrite Hlen, Hl1, drop_drop, app_assoc.
      replace (512 * (count + 1))%nat with (512 + 512 * count)%nat by lia.
      rewrite slice_app_split. f_equal; f_equal; lia.
    + apply HQ.
Qed.

Lemma wp_t_readBitmap s img (Q : unit -> fmtst -> Prop) J :
  image_ok img -> h_bytes (t_disk s) = img -> length (t_bitmap s) = BITMAP_BYTES ->
  (forall p, Q tt (with_tbitmap (slice 512 BITMAP_BYTES img) (on_img p img s))) ->
  wp t_readBitmap Q J s.
Proof.
  intros Hok Hi Hl HQ. unfold t_readBitmap, seek_disk. apply wp_bind, wp_modify.
  apply (wp_t_readBitmap_loop _ _ _ img (t_bitmap s)); [done|done|done| |done|apply HQ].
  cbn. change FLOC_BITMAP with (512 * 1). rewrite fseek_eq, Hi by lia. done.
Qed.

Lemma wp_format_bitmap n count s img (Q : unit -> fmtst -> Prop) J :
  image_ok img -> length (t_bitmap s) = BITMAP_BYTES -> (n + count = SC_BITMAP)%nat ->
  t_disk s = mkH (512 * (count + 1)) (splice 512 (take (512 * count) (t_bitmap s)) img) ->
  (forall p, Q tt (on_img p (splice 512 (t_bitmap s) img) s)) ->
  wp (format_bitmap n count) Q J s.
Proof.
  intros Hok Hl. pose proof BITMAP_BYTES_Z as HB. assert (HSC : Z.of_nat SC_BITMAP = 256) by done.
  unfold image_ok, IMG_SECTORS in Hok. set (m := t_bitmap s) in *.
  revert count s m Hl. induction n as [|n IH]; intros count s m Hl Hn Hd HQ; cbn [format_bitmap].
  - apply wp_ret. specialize (HQ (512 * (count + 1))%nat). rewrite firstn_all2 in Hd by lia.
    destruct s as [d fp m' i dr b]. cbn in Hd, HQ. subst. apply HQ.
  - apply wp_bind, wp_get. fold m. apply wp_bind. eapply wp_from_option; [apply cslice_Some; lia|].
    replace (Z.to_nat (512 * Z.of_nat count)) with (512 * count)%nat by lia.
    change (Z.to_nat 512) with 512%nat. assert (Hl1 : length (slice (512 * count) 512 m) = 512%nat) by (apply length_slice; lia).
    assert (Hl2 : length (take (512 * count) m) = (512 * count)%nat) by (rewrite length_take; lia).
    apply wp_bind. unfold write_disk. apply wp_modify. rewrite Hd. unfold fwrite. cbn [h_pos h_bytes].
    rewrite length_splice by lia. replace (512 * (count + 1) - length img)%nat with 0%nat by lia. rewrite app_nil_r.
    apply IH; [done|lia| |apply HQ]. cbn [t_disk with_tdisk t_bitmap]. fold m. f_equal; [rewrite Hl1; lia|].
    replace (512 * (count + 1))%nat with (512 + length (take (512 * count) m))%nat by lia.
    rewrite <- splice_app by lia. f_equal. unfold slice. rewrite take_take_drop. f_equal. lia.
Qed.

Lemma wp_t_saveBitmap s img (Q : unit -> fmtst -> Prop) J :
  image_ok img -> h_bytes (t_disk s) = img -> length (t_bitmap s) = BITMAP_BYTES ->
  (forall p, Q tt (on_img p (splice 512 (t_bitmap s) img) s)) ->
  wp t_saveBitmap Q J s.
Proof.
  intros Hok Hi Hl HQ. unfold t_saveBitmap, seek_disk. apply wp_bind, wp_modify.
  apply (wp_format_bitmap _ _ _ img); [done|done|done| |apply HQ].
  cbn [t_disk with_tdisk t_bitmap]. change FLOC_BITMAP with (512 * 1). rewrite fseek_eq, Hi by lia.
  change (512 * 0)%nat with 0%nat. by rewrite take_0, splice_nil.
Qed.

(** Allocation: candidate [i] is sector [base + i]. *)
Lemma wp_t_alloc loc base n i j s (Q : Z -> fmtst -> Prop) J :
  (forall i, Z.shiftr (loc i) 9 = base + i) -> i <= j < i + Z.of_nat n -> 0 <= base + i -> base + j < 8 * Z.of_nat (length (t_bitmap s)) ->
  (forall k, i <= k < j -> mask_bit (t_bitmap s) (base + k) = true) -> mask_bit (t_bitmap s) (base + j) = false ->
  Q j (with_tbitmap (mask_set (t_bitmap s) (base + j)) s) ->
  wp (t_alloc_loop loc n i) Q J s.
Proof.
  intros Hloc. revert i. induction n as [|n IH]; intros i Hj H0 Hlen Hused Hfree HQ; [lia|]. cbn [t_alloc_loop].
  rewrite Hloc. apply wp_bind, wp_get. destruct (sec_split (base + i)) as [E1 E2]; [lia|].
  pose proof (Z.mod_pos_bound (base + i) 8 ltac:(lia)). pose proof (Z.div_mod (base + i) 8 ltac:(lia)).
  destruct (lookup_lt_is_Some_2 (t_bitmap s) (Z.to_nat (Z.shiftr (base + i) 3))) as [b Hb]; [rewrite E1; lia|].
  apply wp_bind. eapply wp_from_option; [exact Hb|]. rewrite land_bit_zero by (rewrite E2; lia).
  assert (Hbit : Z.testbit (byte.unsigned b) (Z.land (base + i) 7) = mask_bit (t_bitmap s) (base + i))
    by (unfold mask_bit; by rewrite Hb). rewrite Hbit.
  destruct (decide (i = j)) as [->|Hne].
  - rewrite Hfree. simpl negb. cbv iota. apply wp_bind, wp_modify. apply wp_ret. unfold mask_set in HQ. rewrite Hb in HQ. exact HQ.
  - rewrite Hused by lia. simpl negb. cbv iota. apply IH; [lia|lia|done| |done|done]. intros k Hk. apply Hused. lia.
Qed.
End rules.
