(* ===== verification/FmtCopy.v ===== *)
(** * The disk image tools: finding an entry and copying the blocks *)

From S2P Require Import Prelude Bytes Disk FileSys FsRead FsAlloc Fmt FmtProofs.

(** ** The directory scan *)

Definition t_test (free : bool) (name dir : list byte) (e : nat) : option bool :=
  z ← strcmp (drop (ent_filename e) dir) name;
  Some (bool_decide (z = 0) || (free && bool_decide (rd32 dir (ent_inode_offset e) = u32 (-1)))).

Section scan.
Context (free : bool) (name : list byte).
Implicit Types (s : fmtst) (J : fmtst -> Prop).

Lemma wp_t_scan_step n e b s (Q : option nat -> fmtst -> Prop) J :
  t_test free name (t_dir s) e = Some b ->
  (if b then Q (Some e) s else wp (t_scan_entries free name n (S e)) Q J s) ->
  wp (t_scan_entries free name (S n) e) Q J s.
Proof.
  unfold t_test. intros Ht HQ. cbn [t_scan_entries]. apply wp_bind, wp_get.
  destruct (strcmp (drop (ent_filename e) (t_dir s)) name) as [z|]; [|done]. simpl in Ht. injection Ht as <-.
  apply wp_bind, wp_ret. destruct (decide (z = 0)) as [->|Hz].
  - rewrite bool_decide_true in HQ by done. by apply wp_ret.
  - rewrite bool_decide_false in HQ by done. simpl orb in HQ. destruct (free && _); [by apply wp_ret|done].
Qed.

Lemma wp_t_scan_found n e e' s (Q : option nat -> fmtst -> Prop) J :
  (e <= e' < e + n)%nat -> (forall j, (e <= j < e')%nat -> t_test free name (t_dir s) j = Some false) ->
  t_test free name (t_dir s) e' = Some true -> Q (Some e') s -> wp (t_scan_entries free name n e) Q J s.
Proof.
  revert e. induction n as [|n IH]; intros e He Hlt Ht HQ; [lia|]. destruct (decide (e = e')) as [->|Hne].
  - by apply (wp_t_scan_step _ _ true).
  - apply (wp_t_scan_step _ _ false); [apply Hlt; lia|]. apply IH; [lia| |done|done]. intros j Hj. apply Hlt. lia.
Qed.

Lemma wp_t_scan_none n e s (Q : option nat -> fmtst -> Prop) J :
  (forall j, (e <= j < e + n)%nat -> t_test free name (t_dir s) j = Some false) -> Q None s ->
  wp (t_scan_entries free name n e) Q J s.
Proof.
  revert e. induction n as [|n IH]; intros e Hall HQ; [by apply wp_ret|].
  apply (wp_t_scan_step _ _ false); [apply Hall; lia|]. apply IH; [|done]. intros j Hj. apply Hall. lia.
Qed.

(** Entry number [i] of the directory, counted through the sectors. *)
Definition dir_test (img : list byte) (i : Z) : option bool :=
  t_test free name (sector img (257 + i / 16)) (Z.to_nat (i mod 16)).

Lemma dir_test_at img k e : (e < 16)%nat -> dir_test img (16 * k + Z.of_nat e) = t_test free name (sector img (257 + k)) e.
Proof.
  intros He. unfold dir_test. replace (16 * k + Z.of_nat e) with (Z.of_nat e + k * 16) by lia.
  rewrite Z.div_add, Z.mod_add, Z.div_small, Z.mod_small by lia. by rewrite Nat2Z.id.
Qed.

Lemma wp_t_readDir k s img (Q : unit -> fmtst -> Prop) J :
  h_bytes (t_disk s) = img -> image_ok img -> 0 <= k < 256 -> length (t_dir s) = 512%nat ->
  (forall p, Q tt (with_tdir (sector img (257 + k)) (on_img p img s))) -> wp (t_readDir k) Q J s.
Proof.
  intros. apply (wp_read_sector _ (257 + k) _ _ _ img); [apply FLOC_eq|done|done|unfold IMG_SECTORS; lia|done|done|done].
Qed.

Lemma wp_t_scan_dirs n k i s img (Q : option (Z * nat) -> fmtst -> Prop) J :
  h_bytes (t_disk s) = img -> image_ok img -> length (t_dir s) = 512%nat ->
  0 <= k -> k + Z.of_nat n <= 256 -> 16 * k <= i < 16 * (k + Z.of_nat n) ->
  (forall j, 16 * k <= j < i -> dir_test img j = Some false) -> dir_test img i = Some true ->
  (forall p, Q (Some (i / 16, Z.to_nat (i mod 16))) (with_tdir (sector img (257 + i / 16)) (on_img p img s))) ->
  wp (t_scan_dirs free name n k) Q J s.
Proof.
  intros Hi Hok. revert k s Hi. induction n as [|n IH]; intros k s Hi Hl Hk Hn Hr Hlt Ht HQ; [lia|]. cbn [t_scan_dirs].
  apply wp_bind, (wp_t_readDir _ _ img); [done|done|lia|done|]. intros p. apply wp_bind.
  pose proof (Z.mod_pos_bound i 16 ltac:(lia)). pose proof (Z.div_mod i 16 ltac:(lia)).
  assert (HNR : NR_ENTRIES = 16%nat) by done. rewrite HNR.
  destruct (decide (k = i / 16)) as [->|Hne].
  - apply (wp_t_scan_found _ _ (Z.to_nat (i mod 16))); [lia| |exact Ht|apply wp_ret, HQ].
    intros j Hj. cbn [t_dir with_tdir]. rewrite <- dir_test_at by lia. apply Hlt. lia.
  - apply wp_t_scan_none.
    + intros j Hj. cbn [t_dir with_tdir]. rewrite <- dir_test_at by lia. apply Hlt. lia.
    + apply IH; [done| |lia|lia|lia| |done|].
      * cbn [t_dir with_tdir]. apply length_sector; [done|unfold IMG_SECTORS; lia].
      * intros j Hj. apply Hlt. lia.
      * intros p'. apply HQ.
Qed.

(** No entry has the name. *)
Lemma wp_t_scan_dirs_none n k s img (Q : option (Z * nat) -> fmtst -> Prop) J :
  h_bytes (t_disk s) = img -> image_ok img -> length (t_dir s) = 512%nat -> 0 <= k -> k + Z.of_nat n <= 256 ->
  (forall j, 16 * k <= j < 16 * (k + Z.of_nat n) -> dir_test img j = Some false) ->
  (forall s', Q None s') -> wp (t_scan_dirs free name n k) Q J s.
Proof.
  intros Hi Hok. revert k s Hi. induction n as [|n IH]; intros k s Hi Hl Hk Hn Hall HQ; [by apply wp_ret|]. cbn [t_scan_dirs].
  apply wp_bind, (wp_t_readDir _ _ img); [done|done|lia|done|]. intros p. apply wp_bind.
  assert (HNR : NR_ENTRIES = 16%nat) by done. rewrite HNR. apply wp_t_scan_none.
  - intros j Hj. cbn [t_dir with_tdir]. rewrite <- dir_test_at by lia. apply Hall. lia.
  - apply IH; [done| |lia|lia| |done].
    + cbn [t_dir with_tdir]. apply length_sector; [done|unfold IMG_SECTORS; lia].
    + intros j Hj. apply Hall. lia.
Qed.
End scan.

(** ** The blocks of a file *)

Definition nblocks (c : list byte) : Z := (Z.of_nat (length c) + 511) / 512.
(** Block [k], filled up with zeros. *)
Definition chunk (c : list byte) (k : Z) : list byte :=
  let bs := slice (Z.to_nat (512 * k)) 512 c in bs ++ replicate (512 - length bs) NUL.

Lemma length_chunk c k : length (chunk c k) = 512%nat.
Proof.
  unfold chunk. rewrite length_app, length_replicate.
  assert (length (slice (Z.to_nat (512 * k)) 512 c) <= 512)%nat by (unfold slice; rewrite length_take; lia). lia.
Qed.

Lemma chunk_lookup c k o : 0 <= k -> (o < 512)%nat -> 512 * k + Z.of_nat o < Z.of_nat (length c) ->
  chunk c k !! o = c !! Z.to_nat (512 * k + Z.of_nat o).
Proof.
  intros Hk Ho Hl. unfold chunk. rewrite lookup_app_l.
  - unfold slice. rewrite lookup_take_lt, lookup_drop by lia. f_equal. lia.
  - unfold slice. rewrite length_take, length_drop. lia.
Qed.

(** What the buffer holds after a read. *)
Lemma fill_chunk c k b : 0 <= k -> length b = 512%nat ->
  (let bs := slice (Z.to_nat (512 * k)) 512 c in
   b1 ← csplice 0 bs b;
   if decide (length bs = SECT_SIZE) then Some b1
   else csplice (Z.of_nat (length bs)) (memset2 (SECT_SIZE - length bs) 0) b1) = Some (chunk c k).
Proof.
  intros Hk Hb. cbv zeta. set (bs := slice _ _ c).
  assert (Hl : (length bs <= 512)%nat) by (unfold bs, slice; rewrite length_take; lia).
  rewrite csplice_Some by lia. simpl mbind. change SECT_SIZE with 512%nat. unfold chunk. fold bs.
  assert (E : splice (Z.to_nat 0) bs b = bs ++ drop (length bs) b) by done. rewrite E.
  case_decide as Hd.
  - rewrite Hd, drop_ge, Nat.sub_diag by lia. done.
  - unfold memset2. change (byte.of_Z 0) with NUL.
    rewrite csplice_Some; [|lia|rewrite length_replicate, length_app, length_drop; lia]. rewrite Nat2Z.id. unfold splice.
    rewrite take_app_length, length_replicate. rewrite drop_ge; [by rewrite app_nil_r|]. rewrite length_app, length_drop. lia.
Qed.

Section blocks.
Implicit Types (s : fmtst) (J : fmtst -> Prop).

(** The blocks [j, nb) of [c] copied to the data sectors from [base] on. *)
Record blocks_copied s s' (c : list byte) (base j nb : Z) : Prop := {
  bc_ok : image_ok (h_bytes (t_disk s'));
  bc_data : forall k, j <= k < nb -> sector (h_bytes (t_disk s')) (769 + base + k) = chunk c k;
  bc_frame : forall n, 0 <= n -> ~ (769 + base + j <= n < 769 + base + nb) ->
    sector (h_bytes (t_disk s')) n = sector (h_bytes (t_disk s)) n;
  bc_bitmap : length (t_bitmap s') = length (t_bitmap s);
  bc_bit : forall n, 0 <= n -> mask_bit (t_bitmap s') n = mask_bit (t_bitmap s) n || bool_decide (769 + base + j <= n < 769 + base + nb);
  bc_inode : length (t_inode s') = 512%nat;
  bc_block : forall k, 0 <= k < 128 ->
    block_of (t_inode s') k = if decide (j <= k < nb) then base + k else block_of (t_inode s) k;
  bc_dir : t_dir s' = t_dir s }.

Lemma wp_copy_blocks fuel j s c base (nb := nblocks c) (Q : unit -> fmtst -> Prop) J :
  nb - j < Z.of_nat fuel -> 0 <= j <= nb -> Z.of_nat (length c) + 1024 < 2 ^ 31 ->
  t_fp s = mkH (Nat.min (Z.to_nat (512 * j)) (length c)) c ->
  length (t_buffer s) = 512%nat -> length (t_inode s) = 512%nat -> length (t_bitmap s) = BITMAP_BYTES ->
  image_ok (h_bytes (t_disk s)) -> 0 <= base -> base + nb <= SC_DATA ->
  (forall n, 769 <= n < 769 + SC_DATA -> mask_bit (t_bitmap s) n = bool_decide (n < 769 + base + j)) ->
  (forall s', blocks_copied s s' c base j nb -> Q tt s') ->
  wp (copy_blocks fuel (512 * j) (Z.of_nat (length c))) Q J s.
Proof.
  revert j s Q. induction fuel as [|fuel IH]; intros j s Q Hfu Hj Hlen Hfp Hb Hi Hm Hok Hbase Hcap Hbits HQ; [lia|].
  pose proof BITMAP_BYTES_Z as HB. unfold SC_DATA in *.
  assert (Hnb : 512 * nb - 511 <= Z.of_nat (length c) <= 512 * nb).
  { unfold nb, nblocks. pose proof (Z.div_mod (Z.of_nat (length c) + 511) 512 ltac:(lia)).
    pose proof (Z.mod_pos_bound (Z.of_nat (length c) + 511) 512 ltac:(lia)). lia. }
  cbn [copy_blocks]. rewrite u32_id by (unfold is_u32; lia).
  destruct (decide (j = nb)) as [->|Hne].
  - rewrite (proj2 (Z.ltb_ge _ _)) by lia. apply wp_ret, HQ. split; [exact Hok|lia|reflexivity|reflexivity| |exact Hi| |reflexivity].
    + intros n Hn. rewrite bool_decide_false by lia. by rewrite orb_false_r.
    + intros k Hk. by rewrite decide_False by lia.
  - rewrite (proj2 (Z.ltb_lt _ _)) by lia. apply wp_bind, wp_get. rewrite Hfp. unfold fread. cbn [h_pos h_bytes].
    assert (Hmin : Nat.min (Z.to_nat (512 * j)) (length c) = Z.to_nat (512 * j)) by lia. rewrite Hmin.
    change SECT_SIZE with 512%nat. set (bs := slice (Z.to_nat (512 * j)) 512 c).
    pose proof (fill_chunk c j (t_buffer s) ltac:(lia) Hb) as Hfill. cbv zeta in Hfill. fold bs in Hfill. change SECT_SIZE with 512%nat in Hfill.
    destruct (csplice 0 bs (t_buffer s)) as [b1|]; [|done]. simpl in Hfill.
    apply wp_bind, wp_ret. apply wp_bind.
    assert (HW : wp (if decide (length bs = 512%nat) then mret b1
                     else from_option_or OutOfBounds (csplice (Z.of_nat (length bs)) (memset2 (512 - length bs) 0) b1))
                   (fun b s' => b = chunk c j /\ s' = s) J s).
    { destruct (decide (length bs = 512%nat)); [injection Hfill as ->; apply wp_ret; split; reflexivity|].
      eapply wp_from_option; [exact Hfill|split; reflexivity]. }
    eapply wp_mono; [exact HW| |intros ? H; exact H]. intros b s0 [-> ->]. clear Hfill HW b1.
    apply wp_bind, wp_modify. apply wp_bind.
    apply (wp_t_alloc _ 769 _ 0 (base + j)); cbn [t_bitmap with_tfp with_tbuffer].
    { intros i. destruct (FLOC_eq i) as (_ & _ & ->). rewrite Z.shiftr_div_pow2 by lia. change (2 ^ 9) with 512.
      rewrite Z.mul_comm, Z.div_mul; lia. }
    { unfold SC_DATA. lia. }
    { lia. }
    { rewrite Hm. lia. }
    { intros k Hk. rewrite Hbits by lia. apply bool_decide_true. lia. }
    { rewrite Hbits by lia. apply bool_decide_false. lia. }
    apply wp_bind. set (img := h_bytes (t_disk s)) in *.
    apply (wp_write_sector _ (769 + base + j) t_buffer _ img);
      [destruct (FLOC_eq (base + j)) as (_ & _ & ->); lia|done|done|unfold IMG_SECTORS; lia|done|apply length_chunk|].
    intros p. cbn [t_buffer with_tbitmap with_tfp with_tbuffer].
    set (img2 := set_sector (769 + base + j) (chunk c j) img). set (m2 := mask_set (t_bitmap s) (769 + (base + j))).
    assert (Hquot : Z.quot (512 * j) 512 = j) by (rewrite Z.mul_comm; apply Z.quot_mul; lia). rewrite Hquot.
    assert (Hok2 : image_ok img2) by (apply set_sector_ok; [done|unfold IMG_SECTORS; lia|apply length_chunk]).
    assert (Hm2 : length m2 = length (t_bitmap s)) by apply length_mask_set.
    assert (Hbit2 : forall n, 0 <= n -> mask_bit m2 n = mask_bit (t_bitmap s) n || (n =? 769 + (base + j)))
      by (intros n Hn; apply mask_bit_set; [rewrite Hm|]; lia).
    set (ino2 := if j <? 128 then wr32 (Z.to_nat (4 * j)) (base + j) (t_inode s) else t_inode s).
    assert (Hl2 : length ino2 = 512%nat).
    { unfold ino2. destruct (Z.ltb_spec j 128); [|done]. rewrite length_wr32; lia. }
    assert (Hblk2 : forall k, 0 <= k < 128 -> block_of ino2 k = if decide (k = j) then base + k else block_of (t_inode s) k).
    { intros k Hk. unfold ino2, block_of. destruct (Z.ltb_spec j 128); [|by rewrite decide_False by lia].
      case_decide as E; [subst k; apply rd32_wr32_eq; [lia|unfold is_u32; lia]|apply rd32_wr32_ne; lia]. }
    assert (Hstep : i32 (512 * j + 512) = 512 * (j + 1)) by (rewrite i32_id; [lia|unfold is_i32; lia]).
    rewrite Hstep.
    assert (Hrest : wp (copy_blocks fuel (512 * (j + 1)) (Z.of_nat (length c))) Q J
       (with_tinode ino2 (on_img p img2 (with_tbitmap m2 (with_tfp {| h_pos := Z.to_nat (512 * j) + length bs; h_bytes := c |} (with_tbuffer (chunk c j) s)))))).
    { apply IH; cbn [t_fp t_buffer t_inode t_bitmap t_disk with_tinode on_img with_tdisk with_tbitmap with_tfp with_tbuffer h_bytes];
        [lia|lia|exact Hlen| | |exact Hl2|by rewrite Hm2|exact Hok2|exact Hbase|unfold SC_DATA; lia| |].
      - f_equal. unfold bs, slice. rewrite length_take, length_drop. lia.
      - apply length_chunk.
      - intros n Hn. rewrite Hbit2, Hbits by lia. destruct (Z.eqb_spec n (769 + (base + j))); repeat case_bool_decide; first [reflexivity|exfalso; lia].
      - intros s' [C1 C2 C3 C4 C5 C6 C7 C8].
        cbn [t_fp t_buffer t_inode t_bitmap t_disk t_dir with_tinode on_img with_tdisk with_tbitmap with_tfp with_tbuffer h_bytes] in *.
        apply HQ. split; [exact C1| | | | |exact C6| |exact C8].
        + intros k Hk. destruct (decide (k = j)) as [->|]; [|apply C2; lia]. rewrite C3 by lia.
          apply sector_set_eq; [exact Hok|unfold IMG_SECTORS; lia|apply length_chunk].
        + intros n Hn Hout. rewrite C3 by lia. apply sector_set_ne; [exact Hok|unfold IMG_SECTORS; lia|exact Hn|apply length_chunk|lia].
        + by rewrite C4.
        + intros n Hn. rewrite C5, Hbit2 by done. rewrite <- orb_assoc. f_equal.
          destruct (Z.eqb_spec n (769 + (base + j))); repeat case_bool_decide; first [reflexivity|exfalso; lia].
        + intros k Hk. rewrite C7, Hblk2 by done. repeat case_decide; first [reflexivity|exfalso; lia]. }
    unfold ino2 in Hrest. rewrite (u32_id j), (u32_id (base + j)) by (unfold is_u32; lia). unfold NR_BLOCKS.
    destruct (Z.ltb_spec j 128); apply wp_bind; [apply wp_modify; exact Hrest|apply wp_ret; exact Hrest].
Qed.
End blocks.
