(* ===== verification/FmtImage.v ===== *)
(** * What an image holds

    [image_of img files]: [disk.bin] after formatting and copying [files]
    into it, in order.  [copy2myfs] adds one. *)

From S2P Require Import Prelude Bytes Disk FileSys FsRead FsAlloc Fmt FmtProofs FmtCopy.

Definition files_t : Type := list (list byte * list byte).

(** The data blocks of [files]. *)
Definition total (files : files_t) : Z := foldr (fun f z => nblocks (snd f) + z) 0 files.

Lemma nblocks_nonneg c : 0 <= nblocks c.
Proof. unfold nblocks. apply Z.div_pos; lia. Qed.

Lemma total_app f g : total (f ++ g) = total f + total g.
Proof. unfold total. induction f as [|x f IH]; simpl; [done|]. rewrite IH. lia. Qed.

Lemma total_nonneg f : 0 <= total f.
Proof. unfold total. induction f as [|x f IH]; simpl; [done|]. pose proof (nblocks_nonneg (snd x)). lia. Qed.

Lemma total_take_le f i nm c : f !! i = Some (nm, c) -> total (take i f) + nblocks c <= total f.
Proof.
  intros H. rewrite <- (take_drop_middle f i _ H) at 2. rewrite total_app. unfold total at 3. simpl.
  pose proof (total_nonneg (drop (S i) f)). unfold total in *. lia.
Qed.

(** A directory entry. *)
Definition entry_name (dir : list byte) (e : nat) : option (list byte) := cstring (slice (ent_filename e) LEN_FILENAME dir).

Record entry_is (dir : list byte) (e : nat) (nm : list byte) (size ino : Z) : Prop := {
  ei_name : entry_name dir e = Some (nm ++ [NUL]);
  ei_size : rd32 dir (ent_file_size e) = size;
  ei_ino : rd32 dir (ent_inode_offset e) = ino }.

Record image_of (img : list byte) (files : files_t) : Prop := {
  io_ok : image_ok img;
  io_inodes : Z.of_nat (length files) <= SC_INODE;
  io_total : total files <= SC_DATA;
  io_entry : forall i nm c, files !! i = Some (nm, c) ->
    entry_is (sector img (257 + Z.of_nat i / 16)) (Z.to_nat (Z.of_nat i mod 16)) nm (Z.of_nat (length c)) (Z.of_nat i);
  io_free : forall i, Z.of_nat (length files) <= i < 4096 ->
    exists size, entry_is (sector img (257 + i / 16)) (Z.to_nat (i mod 16)) [] size (u32 (-1));
  io_inode : forall i nm c k, files !! i = Some (nm, c) -> 0 <= k < 128 ->
    block_of (sector img (513 + Z.of_nat i)) k = if decide (k < nblocks c) then total (take i files) + k else 0xFFFFFFFF;
  io_data : forall i nm c k, files !! i = Some (nm, c) -> 0 <= k < nblocks c ->
    sector img (769 + total (take i files) + k) = chunk c k;
  io_bits : forall n, 0 <= n < 1048576 -> mask_bit (slice 512 BITMAP_BYTES img) n =
    bool_decide (513 <= n < 513 + Z.of_nat (length files) \/ 769 <= n < 769 + total files) }.

(** ** Names *)

Record name_ok (nm : list byte) : Prop := {
  no_nonempty : nm <> [];
  no_short : (length nm <= 23)%nat;
  no_nul : NUL ∉ nm }.

Lemma entry_name_drop dir e t : (ent_filename e + LEN_FILENAME <= length dir)%nat -> entry_name dir e = Some t ->
  cstring (drop (ent_filename e) dir) = Some t.
Proof.
  intros Hl H. rewrite <- (take_drop LEN_FILENAME (drop (ent_filename e) dir)). by apply cstring_app.
Qed.

Lemma ent_bounds e : (e < 16)%nat -> (ent_filename e + 32 <= 512)%nat /\ ent_file_size e = (ent_filename e + 24)%nat /\
  ent_inode_offset e = (ent_filename e + 28)%nat /\ LEN_FILENAME = 24%nat.
Proof. unfold ent_filename, ent_file_size, ent_inode_offset, DIRENT, LEN_FILENAME. lia. Qed.

(** The scan's test on an entry. *)
Lemma t_test_entry free nm dir e nm' size ino : length dir = 512%nat -> (e < 16)%nat -> NUL ∉ nm ->
  entry_is dir e nm' size ino ->
  t_test free (nm ++ [NUL]) dir e = Some (bool_decide (nm' = nm) || (free && bool_decide (ino = u32 (-1)))).
Proof.
  intros Hl He Hn [Hm _ Hi]. destruct (ent_bounds e He) as (B1 & B2 & B3 & B4).
  unfold t_test. destruct (strcmp_eq (drop (ent_filename e) dir) (nm ++ [NUL]) (nm' ++ [NUL]) (nm ++ [NUL])) as (z & -> & Hz).
  - apply entry_name_drop; [lia|done].
  - by apply cstring_name.
  - simpl. rewrite Hi. f_equal. f_equal. apply bool_decide_ext. rewrite Hz. split; [intros E; by apply app_inj_tail in E as [? _]|by intros ->].
Qed.

(** ** Writing an entry *)

(** The directory sector as [copy2myfs] leaves it. *)
Definition set_entry (dir : list byte) (e : nat) (nm : list byte) (size ino : Z) : list byte :=
  wr32 (ent_file_size e) size (splice (ent_filename e) (nm ++ [NUL]) (wr32 (ent_inode_offset e) ino dir)).

Lemma set_entry_eq dir e nm size ino : length dir = 512%nat -> (e < 16)%nat -> name_ok nm -> is_u32 size -> is_u32 ino ->
  length (set_entry dir e nm size ino) = 512%nat /\ entry_is (set_entry dir e nm size ino) e nm size ino.
Proof.
  intros Hl He [_ Hs Hn] Hu1 Hu2. destruct (ent_bounds e He) as (B1 & B2 & B3 & B4). unfold set_entry.
  assert (L1 : length (wr32 (ent_inode_offset e) ino dir) = 512%nat) by (rewrite length_wr32; lia).
  assert (Ln : length (nm ++ [NUL]) = S (length nm)) by (rewrite length_app; simpl; lia).
  set (d1 := wr32 _ ino dir) in *.
  assert (L2 : length (splice (ent_filename e) (nm ++ [NUL]) d1) = 512%nat) by (rewrite length_splice; lia).
  set (d2 := splice _ _ d1) in *. split; [rewrite length_wr32; lia|]. split.
  - unfold entry_name, wr32. rewrite slice_splice_ne by (rewrite length_le_split; lia).
    rewrite B4. replace 24%nat with (S (length nm) + (23 - length nm))%nat by lia. rewrite <- slice_app_split.
    unfold d2 at 1. rewrite <- Ln. rewrite slice_splice_eq by lia. rewrite <- app_assoc. by apply cstring_name.
  - apply rd32_wr32_eq; [lia|done].
  - rewrite rd32_wr32_ne by lia. unfold rd32, d2. rewrite slice_splice_ne by lia. by apply rd32_wr32_eq; [lia|].
Qed.

Lemma set_entry_ne dir e nm size ino e' nm' size' ino' : length dir = 512%nat -> (e < 16)%nat -> name_ok nm -> (e' < 16)%nat -> e' <> e ->
  entry_is dir e' nm' size' ino' -> entry_is (set_entry dir e nm size ino) e' nm' size' ino'.
Proof.
  intros Hl He [_ Hs Hn] He' Hne [H1 H2 H3]. destruct (ent_bounds e He) as (B1 & B2 & B3 & B4).
  destruct (ent_bounds e' He') as (C1 & C2 & C3 & _).
  assert (Hdis : (ent_filename e' + 32 <= ent_filename e \/ ent_filename e + 32 <= ent_filename e')%nat)
    by (unfold ent_filename, DIRENT in *; lia).
  assert (Ln : length (nm ++ [NUL]) = S (length nm)) by (rewrite length_app; simpl; lia).
  assert (L1 : length (wr32 (ent_inode_offset e) ino dir) = 512%nat) by (rewrite length_wr32; lia).
  assert (L2 : length (splice (ent_filename e) (nm ++ [NUL]) (wr32 (ent_inode_offset e) ino dir)) = 512%nat) by (rewrite length_splice; lia).
  assert (HS : forall off n, (ent_filename e' <= off)%nat -> (off + n <= ent_filename e' + 32)%nat ->
    slice off n (set_entry dir e nm size ino) = slice off n dir).
  { intros off n Ho1 Ho2. unfold set_entry, wr32 at 1. rewrite slice_splice_ne by (rewrite length_le_split; lia).
    rewrite slice_splice_ne by lia. unfold wr32. by rewrite slice_splice_ne by (rewrite length_le_split; lia). }
  split; unfold entry_name, rd32 in *; rewrite HS by lia; done.
Qed.

(** ** Adding a file *)

(** [img'] is [img] with the file [(nm, c)] added as number [N]. *)
Record added (img img' : list byte) (files : files_t) (nm c : list byte) (N : Z) : Prop := {
  ad_ok : image_ok img';
  ad_dir : exists dir, sector img' (257 + N / 16) = dir /\
    dir = set_entry (sector img (257 + N / 16)) (Z.to_nat (N mod 16)) nm (Z.of_nat (length c)) N;
  ad_inode : forall k, 0 <= k < 128 ->
    block_of (sector img' (513 + N)) k = if decide (k < nblocks c) then total files + k else 0xFFFFFFFF;
  ad_data : forall k, 0 <= k < nblocks c -> sector img' (769 + total files + k) = chunk c k;
  ad_boot : sector img' 0 = sector img 0;
  ad_frame : forall n, 257 <= n -> n <> 257 + N / 16 -> n <> 513 + N ->
    ~ (769 + total files <= n < 769 + total files + nblocks c) -> sector img' n = sector img n;
  ad_bits : forall n, 0 <= n < 1048576 -> mask_bit (slice 512 BITMAP_BYTES img') n =
    mask_bit (slice 512 BITMAP_BYTES img) n || bool_decide (n = 513 + N \/ 769 + total files <= n < 769 + total files + nblocks c) }.

Section add.
Context (img img' : list byte) (files : files_t) (nm c : list byte).
Context (HI : image_of img files) (Hnm : name_ok nm) (Hfree : Z.of_nat (length files) < SC_INODE).
Context (Hcap : total files + nblocks c <= SC_DATA) (Hlen : Z.of_nat (length c) < 2 ^ 31).
Context (HA : added img img' files nm c (Z.of_nat (length files))).

(** Another entry than the new one. *)
Lemma added_entry i nm' size ino : 0 <= i < 4096 -> i <> Z.of_nat (length files) ->
  entry_is (sector img (257 + i / 16)) (Z.to_nat (i mod 16)) nm' size ino ->
  entry_is (sector img' (257 + i / 16)) (Z.to_nat (i mod 16)) nm' size ino.
Proof using HA HI Hnm Hfree.
  intros Hi Hne He. destruct HA as [_ (d & Ed & Hd) _ _ _ Hf _]. unfold SC_INODE in *. set (N := Z.of_nat (length files)) in *.
  pose proof (Z.mod_pos_bound i 16 ltac:(lia)). pose proof (Z.mod_pos_bound N 16 ltac:(lia)).
  pose proof (Z.div_mod i 16 ltac:(lia)). pose proof (Z.div_mod N 16 ltac:(lia)). pose proof (total_nonneg files).
  destruct (decide (i / 16 = N / 16)) as [E|E].
  - rewrite E, Ed, Hd. rewrite E in He. apply set_entry_ne; [|lia|done|lia|lia|done].
    apply length_sector; [apply HI|unfold IMG_SECTORS; lia].
  - rewrite Hf; [done|lia..].
Qed.

Lemma lookup_snoc_cases i x : (files ++ [(nm, c)]) !! i = Some x ->
  files !! i = Some x /\ (i < length files)%nat \/ i = length files /\ x = (nm, c).
Proof using Type.
  intros H. apply lookup_app_Some in H as [H|[Hi H]].
  - left. split; [done|]. by eapply lookup_lt_Some.
  - right. apply list_lookup_singleton_Some in H as [? <-]. split; [lia|done].
Qed.

Lemma image_of_add : image_of img' (files ++ [(nm, c)]).
Proof using HI Hnm Hfree Hcap Hlen HA.
  pose proof HA as [A1 (d & Ed & Hd) A3 A4 _ A5 A6]. pose proof HI as [I1 I2 I3 I4 I5 I6 I7 I8].
  set (N := Z.of_nat (length files)) in *. pose proof (total_nonneg files) as Ht. pose proof (nblocks_nonneg c) as Hb.
  assert (Htot : total (files ++ [(nm, c)]) = total files + nblocks c) by (rewrite total_app; unfold total at 2; simpl; lia).
  assert (HNl : Z.of_nat (length (files ++ [(nm, c)])) = N + 1) by (rewrite length_app; simpl; lia).
  pose proof (Z.mod_pos_bound N 16 ltac:(lia)) as Hm. pose proof (Z.div_mod N 16 ltac:(lia)) as Hdm.
  unfold SC_INODE, SC_DATA in *.
  assert (Hdir : entry_is (sector img' (257 + N / 16)) (Z.to_nat (N mod 16)) nm (Z.of_nat (length c)) N).
  { rewrite Ed, Hd. apply set_entry_eq; [|lia|done|unfold is_u32; lia|unfold is_u32; lia].
    apply length_sector; [done|unfold IMG_SECTORS; lia]. }
  split.
  - done.
  - unfold SC_INODE. lia.
  - unfold SC_DATA. lia.
  - intros i nm' c' [[Hi Hlt]|[-> [= -> ->]]]%lookup_snoc_cases; [|done]. apply added_entry; [lia|lia|by apply I4].
  - intros i Hi. rewrite HNl in Hi. destruct (I5 i) as [size Hs]; [lia|]. exists size. apply added_entry; [lia|lia|done].
  - intros i nm' c' k [[Hi Hlt]|[-> [= -> ->]]]%lookup_snoc_cases Hk.
    + rewrite take_app_le by lia. rewrite <- (I6 i nm' c' k Hi Hk). f_equal. apply A5; lia.
    + rewrite take_app_length. by apply A3.
  - intros i nm' c' k [[Hi Hlt]|[-> [= -> ->]]]%lookup_snoc_cases Hk.
    + rewrite take_app_le by lia. rewrite <- (I7 i nm' c' k Hi Hk). pose proof (total_take_le _ _ _ _ Hi).
      pose proof (total_nonneg (take i files)). apply A5; lia.
    + rewrite take_app_length. by apply A4.
  - intros n Hn. rewrite A6, I8 by lia. rewrite HNl, Htot. repeat case_bool_decide; first [reflexivity|exfalso; lia].
Qed.
End add.

(** ** [copy2myfs] *)

Lemma sizeof_mask_eq : sizeof_mask = BITMAP_BYTES.
Proof. apply Nat2Z.inj. rewrite BITMAP_BYTES_Z. unfold sizeof_mask. by rewrite Z2Nat.id. Qed.

Lemma length_start_bitmap d fp : length (t_bitmap (fmt_start d fp)) = BITMAP_BYTES.
Proof. cbn [t_bitmap fmt_start]. rewrite length_replicate. apply sizeof_mask_eq. Qed.

Section bitmap_area.
Context (img : list byte) (Hok : image_ok img).

Lemma bitmap_set_sector n bs : 257 <= n < IMG_SECTORS -> length bs = 512%nat ->
  slice 512 BITMAP_BYTES (set_sector n bs img) = slice 512 BITMAP_BYTES img.
Proof using Hok.
  unfold image_ok, IMG_SECTORS, set_sector in *. intros Hn Hl. pose proof BITMAP_BYTES_Z. apply slice_splice_ne; lia.
Qed.

Lemma bitmap_splice m : length m = BITMAP_BYTES -> slice 512 BITMAP_BYTES (splice 512 m img) = m.
Proof using Hok. unfold image_ok, IMG_SECTORS in *. intros Hm. pose proof BITMAP_BYTES_Z. rewrite <- Hm. apply slice_splice_eq. lia. Qed.

Lemma sector_bitmap_splice m n : length m = BITMAP_BYTES -> 257 <= n -> sector (splice 512 m img) n = sector img n.
Proof using Hok.
  unfold image_ok, IMG_SECTORS, sector in *. intros Hm Hn. pose proof BITMAP_BYTES_Z. apply slice_splice_ne; lia.
Qed.

Lemma sector_bitmap_boot m : length m = BITMAP_BYTES -> sector (splice 512 m img) 0 = sector img 0.
Proof using Hok.
  unfold image_ok, IMG_SECTORS, sector in *. intros Hm. pose proof BITMAP_BYTES_Z. apply slice_splice_ne; lia.
Qed.

Lemma bitmap_splice_ok m : length m = BITMAP_BYTES -> image_ok (splice 512 m img).
Proof using Hok.
  unfold image_ok, IMG_SECTORS in *. intros Hm. pose proof BITMAP_BYTES_Z. rewrite length_splice; [done|lia].
Qed.

Lemma length_bitmap_area : length (slice 512 BITMAP_BYTES img) = BITMAP_BYTES.
Proof using Hok. unfold image_ok, IMG_SECTORS in *. pose proof BITMAP_BYTES_Z. apply length_slice. lia. Qed.
End bitmap_area.

(** The images between the last steps: the inode, the bitmap and the
    directory sector are saved. *)
Lemma added_saved img img1 files nm c N ino m (d := set_entry (sector img (257 + N / 16)) (Z.to_nat (N mod 16)) nm (Z.of_nat (length c)) N) :
  image_ok img -> image_ok img1 -> 0 <= N < 256 -> name_ok nm -> Z.of_nat (length c) < 2 ^ 31 -> total files + nblocks c <= SC_DATA ->
  length ino = 512%nat -> length m = BITMAP_BYTES ->
  (forall k, 0 <= k < 128 -> block_of ino k = if decide (k < nblocks c) then total files + k else 0xFFFFFFFF) ->
  (forall n, 0 <= n < 1048576 -> mask_bit m n = mask_bit (slice 512 BITMAP_BYTES img) n ||
     bool_decide (n = 513 + N \/ 769 + total files <= n < 769 + total files + nblocks c)) ->
  (forall k, 0 <= k < nblocks c -> sector img1 (769 + total files + k) = chunk c k) ->
  (forall n, 0 <= n -> ~ (769 + total files <= n < 769 + total files + nblocks c) -> sector img1 n = sector img n) ->
  added img (set_sector (257 + N / 16) d (splice 512 m (set_sector (513 + N) ino img1))) files nm c N.
Proof.
  intros H0 H1 HN Hnm Hlen Hcap Hli Hlm Hino Hbits Hdata Hold. pose proof (total_nonneg files) as Ht. unfold SC_DATA in Hcap.
  pose proof (Z.mod_pos_bound N 16 ltac:(lia)) as Hmod. pose proof (Z.div_mod N 16 ltac:(lia)) as Hdm.
  assert (Hld : length d = 512%nat).
  { apply set_entry_eq; [|lia|done|unfold is_u32; lia|unfold is_u32; lia]. apply length_sector; [done|unfold IMG_SECTORS; lia]. }
  assert (H2 : image_ok (set_sector (513 + N) ino img1)) by (apply set_sector_ok; [done|unfold IMG_SECTORS; lia|done]).
  assert (H3 : image_ok (splice 512 m (set_sector (513 + N) ino img1))) by (by apply bitmap_splice_ok).
  assert (Hrd : forall n, 257 <= n -> n <> 257 + N / 16 ->
    sector (set_sector (257 + N / 16) d (splice 512 m (set_sector (513 + N) ino img1))) n = sector (set_sector (513 + N) ino img1) n).
  { intros n Hn Hne. rewrite sector_set_ne by (done || unfold IMG_SECTORS; lia). by rewrite sector_bitmap_splice. }
  split.
  - apply set_sector_ok; [done|unfold IMG_SECTORS; lia|done].
  - exists d. split; [|done]. apply sector_set_eq; [done|unfold IMG_SECTORS; lia|done].
  - intros k Hk. rewrite Hrd by lia. rewrite sector_set_eq by (done || unfold IMG_SECTORS; lia). by apply Hino.
  - intros k Hk. rewrite Hrd by lia. rewrite sector_set_ne by (done || unfold IMG_SECTORS; lia). by apply Hdata.
  - rewrite sector_set_ne by (done || unfold IMG_SECTORS; lia). rewrite sector_bitmap_boot by done.
    rewrite sector_set_ne by (done || unfold IMG_SECTORS; lia). apply Hold; lia.
  - intros n Hn Hn1 Hn2 Hn3. rewrite Hrd by lia. rewrite sector_set_ne by (done || unfold IMG_SECTORS; lia). apply Hold; [lia|done].
  - intros n Hn. rewrite bitmap_set_sector by (done || unfold IMG_SECTORS; lia). rewrite bitmap_splice by done. by apply Hbits.
Qed.

Lemma t_inode_tdisk f s : t_inode (with_tdisk f s) = t_inode s.
Proof. done. Qed.
Lemma t_dir_tdisk f s : t_dir (with_tdisk f s) = t_dir s.
Proof. done. Qed.

(** An inode just made names no blocks. *)
Lemma blank_block k : 0 <= k < 128 -> block_of (memset2 512 0xFF) k = 0xFFFFFFFF.
Proof.
  intros Hk. unfold block_of, rd32, slice, memset2. rewrite drop_replicate, take_replicate.
  replace (4 `min` (512 - Z.to_nat (4 * k)))%nat with 4%nat by lia. reflexivity.
Qed.

Section copy.
Context (img : list byte) (files : files_t) (nm c : list byte) (N := Z.of_nat (length files)).
Context (HI : image_of img files) (Hnm : name_ok nm) (Hnew : forall nm' c', (nm', c') ∈ files -> nm' <> nm).
Context (Hfree : N < SC_INODE) (Hcap : total files + nblocks c <= SC_DATA) (Hlen : Z.of_nat (length c) + 1024 < 2 ^ 31).

(** The scan stops at the first free entry. *)
Lemma scan_new free j : 0 <= j <= N ->
  dir_test free (nm ++ [NUL]) img j = Some (free && bool_decide (j = N)).
Proof using HI Hnm Hnew Hfree c.
  intros Hj. unfold SC_INODE in Hfree. pose proof (Z.mod_pos_bound j 16 ltac:(lia)). pose proof (Z.div_mod j 16 ltac:(lia)).
  unfold dir_test. assert (Hls : length (sector img (257 + j / 16)) = 512%nat) by (apply length_sector; [apply HI|unfold IMG_SECTORS; lia]).
  destruct (decide (j = N)) as [->|Hne].
  - destruct (io_free _ _ HI N) as [size He]; [lia|].
    rewrite (t_test_entry free nm _ (Z.to_nat (N mod 16)) _ _ _ Hls ltac:(lia) (no_nul _ Hnm) He). destruct Hnm as [Hn0 _ _].
    rewrite (bool_decide_false ([] = nm)) by congruence. rewrite !bool_decide_true by done. done.
  - destruct (lookup_lt_is_Some_2 files (Z.to_nat j)) as [[nm' c'] Hf]; [lia|].
    pose proof (io_entry _ _ HI _ _ _ Hf) as He. rewrite Z2Nat.id in He by lia.
    rewrite (t_test_entry _ _ _ (Z.to_nat (j mod 16)) _ _ _ Hls ltac:(lia) (no_nul _ Hnm) He).
    rewrite (bool_decide_false (nm' = nm)) by (apply (Hnew nm' c'); by apply list_elem_of_lookup_2 with (Z.to_nat j)).
    rewrite (bool_decide_false (j = u32 (-1))) by (change (u32 (-1)) with 4294967295; lia).
    rewrite (bool_decide_false (j = N)) by done. done.
Qed.

Lemma wp_copy2myfs rest (Q : unit -> fmtst -> Prop) J :
  (forall s', image_of (h_bytes (t_disk s')) (files ++ [(nm, c)]) -> sector (h_bytes (t_disk s')) 0 = sector img 0 -> Q tt s') ->
  wp (copy2myfs (nm ++ NUL :: rest)) Q J (fmt_start (fopen_r img) (fopen_r c)).
Proof using HI Hnm Hnew Hfree Hcap Hlen.
  intros HQ. pose proof (io_ok _ _ HI) as Hok. pose proof BITMAP_BYTES_Z as HB. pose proof (total_nonneg files) as Ht.
  unfold SC_INODE, SC_DATA in *. pose proof (Z.mod_pos_bound N 16 ltac:(lia)) as Hmod. pose proof (Z.div_mod N 16 ltac:(lia)) as Hdm.
  unfold copy2myfs. apply wp_bind. eapply wp_from_option; [apply cstring_name, Hnm|].
  apply wp_bind. rewrite decide_False by (rewrite length_app; destruct Hnm; simpl; lia). apply wp_ret.
  apply wp_bind, wp_get. cbn [h_bytes t_fp fmt_start fopen_r]. rewrite u32_id by (unfold is_u32; lia).
  apply wp_bind. apply (wp_t_scan_dirs _ _ _ _ N _ img); [done|done|apply length_replicate|lia|done| | | |].
  { change (Z.of_nat SC_DIR) with 256. lia. }
  { intros j Hj. rewrite scan_new by lia. by rewrite (bool_decide_false (j = N)) by lia. }
  { rewrite scan_new by lia. by rewrite bool_decide_true. }
  intros p1. apply wp_bind, wp_ret. set (dir := sector img (257 + N / 16)). set (e := Z.to_nat (N mod 16)).
  assert (Hld : length dir = 512%nat) by (apply length_sector; [done|unfold IMG_SECTORS; lia]).
  apply wp_bind, (wp_t_readBitmap _ img); [exact Hok|reflexivity|apply length_start_bitmap|]. intros p2.
  set (m := slice 512 BITMAP_BYTES img). assert (Hlm : length m = BITMAP_BYTES) by (by apply length_bitmap_area).
  apply wp_bind. apply (wp_t_alloc _ 513 _ 0 N); cbn [t_bitmap with_tbitmap].
  { intros i. destruct (FLOC_eq i) as (_ & -> & _). rewrite Z.shiftr_div_pow2 by lia. change (2 ^ 9) with 512.
    rewrite Z.mul_comm, Z.div_mul; lia. }
  { unfold SC_INODE. lia. }
  { lia. }
  { fold m. lia. }
  { intros k Hk. fold m. unfold m. rewrite (io_bits _ _ HI) by lia. apply bool_decide_true. lia. }
  { fold m. unfold m. rewrite (io_bits _ _ HI) by lia. apply bool_decide_false. lia. }
  fold m. set (m1 := mask_set m (513 + N)). assert (Hlm1 : length m1 = BITMAP_BYTES) by (unfold m1; by rewrite length_mask_set).
  apply wp_bind, wp_modify, wp_bind, wp_get. cbn [t_dir with_tdir with_tbitmap on_img with_tdisk].
  destruct (ent_bounds e ltac:(lia)) as (B1 & B2 & B3 & B4). pose proof Hnm as [Hn1 Hn2 Hn3].
  apply wp_bind. eapply wp_from_option.
  { unfold strcpy. rewrite (cstring_name nm []) by done. simpl mbind. fold dir.
    apply csplice_Some; [lia|]. rewrite length_app, length_wr32 by lia. simpl. lia. }
  rewrite Nat2Z.id, (u32_id N) by (unfold is_u32; lia). fold dir.
  change (wr32 (ent_file_size e) (Z.of_nat (length c)) (splice (ent_filename e) (nm ++ [NUL]) (wr32 (ent_inode_offset e) N dir)))
    with (set_entry dir e nm (Z.of_nat (length c)) N). set (d := set_entry dir e nm (Z.of_nat (length c)) N).
  apply wp_bind, wp_modify. apply wp_bind.
  apply (wp_read_sector _ (513 + N) _ _ _ img); [apply FLOC_eq|reflexivity|exact Hok|unfold IMG_SECTORS; lia|intros f; apply t_inode_tdisk| |].
  { cbn [t_inode with_tdir with_tbitmap on_img with_tdisk fmt_start]. apply length_replicate. }
  intros p3. apply wp_bind, wp_modify. apply wp_bind.
  assert (Hbit1 : forall n, 0 <= n < 1048576 -> mask_bit m1 n = mask_bit m n || (n =? 513 + N))
    by (intros n Hn; apply mask_bit_set; lia).
  apply (wp_copy_blocks _ 0 _ c (total files)).
  { pose proof (Z.div_mod (Z.of_nat (length c)) 512 ltac:(lia)). pose proof (Z.mod_pos_bound (Z.of_nat (length c)) 512 ltac:(lia)).
    unfold nblocks. pose proof (Z.div_le_mono (Z.of_nat (length c) + 511) (Z.of_nat (length c) + 1 * 512) 512 ltac:(lia) ltac:(lia)) as Hd.
    rewrite Z.div_add in Hd by lia. lia. }
  { pose proof (nblocks_nonneg c). lia. }
  { exact Hlen. }
  { reflexivity. }
  { cbn [t_buffer with_tinode with_tdir with_tbitmap on_img with_tdisk fmt_start]. apply length_replicate. }
  { cbn [t_inode with_tinode]. apply length_replicate. }
  { exact Hlm1. }
  { exact Hok. }
  { exact Ht. }
  { unfold SC_DATA. exact Hcap. }
  { unfold SC_DATA. intros n Hn. cbn [t_bitmap with_tinode with_tdir with_tbitmap on_img with_tdisk]. rewrite Hbit1 by lia. unfold m.
    rewrite (io_bits _ _ HI) by lia. fold N. destruct (Z.eqb_spec n (513 + N)); repeat case_bool_decide; first [reflexivity|exfalso; lia]. }
  intros s' [C1 C2 C3 C4 C5 C6 C7 C8]. cbn [t_bitmap t_inode t_dir t_disk h_bytes with_tinode with_tdir with_tbitmap on_img with_tdisk] in *.
  set (img1 := h_bytes (t_disk s')) in *.
  apply wp_bind. apply (wp_write_sector _ (513 + N) t_inode _ img1); [apply FLOC_eq|reflexivity|exact C1|unfold IMG_SECTORS; lia|intros f; apply t_inode_tdisk|exact C6|].
  intros p4. apply wp_bind. eapply wp_t_saveBitmap; [|reflexivity| |].
  { cbn [t_disk h_bytes on_img with_tdisk]. apply set_sector_ok; [exact C1|unfold IMG_SECTORS; lia|exact C6]. }
  { cbn [t_bitmap on_img with_tdisk]. lia. }
  intros p5. cbn [t_bitmap t_disk h_bytes on_img with_tdisk].
  eapply (wp_write_sector _ (257 + N / 16) t_dir); [apply FLOC_eq|reflexivity| |unfold IMG_SECTORS; lia|intros f; apply t_dir_tdisk| |].
  { cbn [t_disk h_bytes on_img with_tdisk]. apply bitmap_splice_ok; [|lia]. apply set_sector_ok; [exact C1|unfold IMG_SECTORS; lia|exact C6]. }
  { cbn [t_dir on_img with_tdisk]. rewrite C8. apply set_entry_eq; [exact Hld|lia|exact Hnm|unfold is_u32; lia|unfold is_u32; lia]. }
  intros p6. cbn [t_dir t_disk h_bytes on_img with_tdisk]. rewrite C8.
  assert (HA : added img (set_sector (257 + N / 16) d (splice 512 (t_bitmap s') (set_sector (513 + N) (t_inode s') img1))) files nm c N);
    [|apply HQ; [by apply (image_of_add img _ _ _ _ HI Hnm Hfree Hcap ltac:(lia))|apply HA]].
  apply added_saved; [exact Hok|exact C1|lia|exact Hnm|lia|unfold SC_DATA; lia|exact C6|lia| | | |].
  - intros k Hk. rewrite C7 by exact Hk. repeat case_decide; first [reflexivity|exfalso; lia|by apply blank_block].
  - intros n Hn. rewrite C5, Hbit1 by lia. fold m. destruct (Z.eqb_spec n (513 + N)), (mask_bit m n); simpl;
      repeat case_bool_decide; first [reflexivity|exfalso; lia].
  - intros k Hk. apply C2. exact Hk.
  - intros n Hn Hout. apply C3; lia.
Qed.
End copy.
