(* ===== verification/FmtFormat.v ===== *)
(** * What [formatter] writes *)

From S2P Require Import Prelude Bytes Disk FileSys FsRead FsAlloc Fmt FmtProofs FmtCopy FmtImage.

Lemma slice_app_l off n a b : (off + n <= length a)%nat -> slice off n (a ++ b) = slice off n a.
Proof. intros H. unfold slice. rewrite drop_app_le by lia. apply take_app_le. rewrite length_drop. lia. Qed.

Lemma slice_app_r off n a b : (length a <= off)%nat -> slice off n (a ++ b) = slice (off - length a) n b.
Proof. intros H. unfold slice. by rewrite drop_app_ge. Qed.

(** [n] equal sectors. *)
Definition blocks (n : nat) (b : list byte) : list byte := mjoin (replicate n b).

Lemma length_blocks n b : length (blocks n b) = (n * length b)%nat.
Proof. induction n as [|n IH]; [done|]. change (blocks (S n) b) with (b ++ blocks n b). rewrite length_app, IH. lia. Qed.

Lemma slice_blocks n b i : length b = 512%nat -> (i < n)%nat -> slice (512 * i) 512 (blocks n b) = b.
Proof.
  intros Hl. revert i. induction n as [|n IH]; intros i Hi; [lia|]. change (blocks (S n) b) with (b ++ blocks n b).
  destruct i as [|i].
  - rewrite slice_app_l by lia. rewrite <- Hl at 2. rewrite Nat.mul_0_r. apply slice_all.
  - rewrite slice_app_r by lia. replace (512 * S i - length b)%nat with (512 * i)%nat by lia. apply IH. lia.
Qed.

Lemma blocks_S n b : blocks (S n) b = b ++ blocks n b.
Proof. done. Qed.

Section format.
Implicit Types (s : fmtst) (J : fmtst -> Prop).

(** [disk.bin] has been written up to its end. *)
Definition at_end (l : list byte) s : fmtst := with_tdisk (mkH (length l) l) s.

Lemma wp_write_end bs l s (Q : unit -> fmtst -> Prop) J :
  t_disk s = mkH (length l) l -> Q tt (at_end (l ++ bs) s) -> wp (write_disk bs) Q J s.
Proof.
  intros Hd HQ. unfold write_disk. apply wp_modify. rewrite Hd. unfold fwrite. cbn [h_pos h_bytes].
  rewrite Nat.sub_diag. cbn [replicate]. rewrite app_nil_r. unfold splice. rewrite firstn_all, drop_ge, app_nil_r by lia.
  unfold at_end in HQ. by rewrite length_app in HQ.
Qed.

Lemma wp_format_sectors rd n l s (Q : unit -> fmtst -> Prop) J :
  (forall f s, rd (with_tdisk f s) = rd s) -> t_disk s = mkH (length l) l ->
  Q tt (at_end (l ++ blocks n (rd s)) s) -> wp (format_sectors rd n) Q J s.
Proof.
  intros Hrd. revert l s. induction n as [|n IH]; intros l s Hd HQ; cbn [format_sectors].
  - apply wp_ret. change (blocks 0 _) with (@nil byte) in HQ. rewrite app_nil_r in HQ. unfold at_end in HQ. rewrite <- Hd in HQ. by destruct s.
  - apply wp_bind, wp_get. apply wp_bind, (wp_write_end _ l); [done|]. apply (IH (l ++ rd s)); [done|].
    unfold at_end in *. rewrite Hrd. rewrite blocks_S, app_assoc in HQ. exact HQ.
Qed.

Lemma wp_format_dirs n d l s (Q : unit -> fmtst -> Prop) J :
  clear_entries NR_ENTRIES 0 d = d -> clear_entries NR_ENTRIES 0 (t_dir s) = d -> t_disk s = mkH (length l) l ->
  (forall dir, Q tt (at_end (l ++ blocks n d) (with_tdir dir s))) -> wp (format_dirs n) Q J s.
Proof.
  intros Hid. revert l s. induction n as [|n IH]; intros l s Hc Hd HQ; cbn [format_dirs].
  - apply wp_ret. change (blocks 0 _) with (@nil byte) in HQ. rewrite app_nil_r in HQ. unfold at_end in HQ. rewrite <- Hd in HQ.
    specialize (HQ (t_dir s)). by destruct s.
  - apply wp_bind, wp_modify, wp_bind, wp_get. cbn [t_dir with_tdir]. rewrite Hc.
    apply wp_bind, (wp_write_end _ l); [done|]. apply (IH (l ++ d)); [done|done|].
    intros dir. specialize (HQ dir). rewrite blocks_S, app_assoc in HQ. exact HQ.
Qed.

Lemma wp_format_bitmap_end n count l s (Q : unit -> fmtst -> Prop) J :
  (count + n <= SC_BITMAP)%nat -> length (t_bitmap s) = BITMAP_BYTES -> t_disk s = mkH (length l) l ->
  Q tt (at_end (l ++ slice (512 * count) (512 * n) (t_bitmap s)) s) -> wp (format_bitmap n count) Q J s.
Proof.
  pose proof BITMAP_BYTES_Z as HB. assert (HSC : Z.of_nat SC_BITMAP = 256) by done.
  revert count l s. induction n as [|n IH]; intros count l s Hn Hl Hd HQ; cbn [format_bitmap].
  - apply wp_ret. rewrite Nat.mul_0_r in HQ. unfold slice in HQ. rewrite take_0, app_nil_r in HQ.
    unfold at_end in HQ. rewrite <- Hd in HQ. by destruct s.
  - apply wp_bind, wp_get. apply wp_bind. eapply wp_from_option; [apply cslice_Some; lia|].
    replace (Z.to_nat (512 * Z.of_nat count)) with (512 * count)%nat by lia. change (Z.to_nat 512) with 512%nat.
    apply wp_bind, (wp_write_end _ l); [done|]. apply IH with (l := l ++ slice (512 * count) 512 (t_bitmap s)); [lia|done|done|].
    unfold at_end in *. cbn [t_bitmap with_tdisk]. rewrite <- app_assoc. replace (512 * S count)%nat with (512 * count + 512)%nat by lia.
    rewrite slice_app_split. replace (512 + 512 * n)%nat with (512 * S n)%nat by lia. exact HQ.
Qed.
End format.

(** A cleared directory sector. *)
Definition free_dir : list byte := clear_entries NR_ENTRIES 0 (replicate 512 NUL).

Lemma free_dir_length : length free_dir = 512%nat.
Proof. vm_compute. reflexivity. Qed.

Lemma free_dir_again : clear_entries NR_ENTRIES 0 free_dir = free_dir.
Proof. vm_compute. reflexivity. Qed.

Lemma free_dir_entry e : (e < 16)%nat -> entry_is free_dir e [] 0 (u32 (-1)).
Proof. intros He. do 16 (destruct e as [|e]; [split; vm_compute; reflexivity|]). lia. Qed.

(** The formatted image. *)
Definition formatted (b : list byte) : list byte :=
  b ++ replicate BITMAP_BYTES NUL ++ blocks 256 free_dir ++ blocks 256 (replicate 512 NUL) ++ blocks (Z.to_nat SC_DATA) (replicate 512 NUL).

Section formatted.
Context (b : list byte) (Hb : length b = 512%nat).

Lemma formatted_ok : image_ok (formatted b).
Proof using Hb.
  unfold image_ok, IMG_SECTORS, formatted. rewrite !length_app, !length_blocks, !length_replicate, free_dir_length, Hb.
  pose proof BITMAP_BYTES_Z. unfold SC_DATA. lia.
Qed.

Lemma formatted_bitmap : slice 512 BITMAP_BYTES (formatted b) = replicate BITMAP_BYTES NUL.
Proof using Hb.
  unfold formatted. rewrite slice_app_r by lia. rewrite Hb, Nat.sub_diag. rewrite slice_app_l by (rewrite length_replicate; lia).
  unfold slice. rewrite drop_0. apply firstn_all2. rewrite length_replicate. lia.
Qed.

Lemma formatted_dir k : 0 <= k < 256 -> sector (formatted b) (257 + k) = free_dir.
Proof using Hb.
  intros Hk. pose proof BITMAP_BYTES_Z. unfold sector, formatted. rewrite slice_app_r by lia.
  rewrite slice_app_r by (rewrite length_replicate; lia). rewrite length_replicate, Hb.
  rewrite slice_app_l by (rewrite length_blocks, free_dir_length; lia).
  replace (Z.to_nat (512 * (257 + k)) - 512 - BITMAP_BYTES)%nat with (512 * Z.to_nat k)%nat by lia.
  apply slice_blocks; [apply free_dir_length|lia].
Qed.

Lemma formatted_image : image_of (formatted b) [].
Proof using Hb.
  split.
  - apply formatted_ok.
  - unfold SC_INODE. simpl. lia.
  - unfold SC_DATA. simpl. lia.
  - done.
  - intros i Hi. cbn in Hi. exists 0. rewrite formatted_dir by (split; [apply Z.div_pos; lia|apply Z.div_lt_upper_bound; lia]).
    apply free_dir_entry. pose proof (Z.mod_pos_bound i 16 ltac:(lia)). lia.
  - done.
  - done.
  - intros n Hn. rewrite formatted_bitmap. rewrite bool_decide_false by (cbn; lia). unfold mask_bit.
    destruct (replicate BITMAP_BYTES NUL !! Z.to_nat (Z.shiftr n 3)) as [x|] eqn:E; [apply lookup_replicate in E as [-> _]|];
      apply Z.bits_0.
Qed.

Lemma formatted_boot : sector (formatted b) 0 = b.
Proof using Hb.
  unfold sector, formatted. change (Z.to_nat (512 * 0)) with 0%nat. rewrite slice_app_l by lia. rewrite <- Hb. apply slice_all.
Qed.
End formatted.

(** [formatter] makes an image with an empty file system whose first
    sector is the boot loader. *)
Lemma wp_formatter boot d fp :
  wp (formatter boot) (fun _ s' => image_of (h_bytes (t_disk s')) [] /\ sector (h_bytes (t_disk s')) 0 = chunk boot 0)
    (fun _ => False) (fmt_start d fp).
Proof.
  unfold formatter, fread, fopen_r. cbn [h_pos h_bytes]. change SECT_SIZE with 512%nat.
  apply wp_bind, wp_get. apply wp_bind. cbn [t_buffer fmt_start].
  assert (Hl : (length (slice 0 512 boot) <= 512)%nat) by (unfold slice; rewrite length_take; lia).
  eapply wp_from_option; [apply csplice_Some; [lia|rewrite length_replicate; lia]|].
  assert (E : splice (Z.to_nat 0) (slice 0 512 boot) (replicate 512 NUL) = chunk boot 0).
  { unfold splice, chunk. change (Z.to_nat (512 * 0)) with 0%nat. change (Z.to_nat 0) with 0%nat. by rewrite take_0, drop_replicate. }
  rewrite E. assert (Hb : length (chunk boot 0) = 512%nat) by apply length_chunk. set (b := chunk boot 0) in *. clearbody b.
  apply wp_bind, wp_modify, wp_bind, wp_modify. apply wp_bind, (wp_write_end _ []); [done|]. rewrite app_nil_l.
  apply wp_bind, wp_modify. change (memset2 sizeof_mask 0) with (replicate sizeof_mask NUL). rewrite sizeof_mask_eq.
  apply wp_bind, (wp_format_bitmap_end _ _ b); [done|cbn [t_bitmap with_tbitmap]; apply length_replicate|done|].
  cbn [t_bitmap with_tbitmap]. pose proof BITMAP_BYTES_Z as HB.
  assert (Es : slice (512 * 0) (512 * SC_BITMAP) (replicate BITMAP_BYTES NUL) = replicate BITMAP_BYTES NUL).
  { unfold slice. rewrite Nat.mul_0_r, drop_0. apply firstn_all2. rewrite length_replicate. change SC_BITMAP with 256%nat. lia. }
  rewrite Es. apply wp_bind.
  apply (wp_format_dirs _ free_dir (b ++ replicate BITMAP_BYTES NUL)); [apply free_dir_again|reflexivity|reflexivity|]. intros dir.
  apply wp_bind. apply (wp_format_sectors t_inode _ ((b ++ replicate BITMAP_BYTES NUL) ++ blocks SC_DIR free_dir)); [done|reflexivity|].
  apply wp_bind, wp_modify.
  apply (wp_format_sectors t_buffer _ (((b ++ replicate BITMAP_BYTES NUL) ++ blocks SC_DIR free_dir) ++ blocks (Z.to_nat SC_INODE) (replicate 512 NUL)));
    [done|reflexivity|].
  unfold at_end. cbn [t_disk with_tdisk h_bytes t_buffer with_tbuffer t_inode].
  change (memset2 512 0) with (replicate 512 NUL). rewrite <- !app_assoc.
  change (Z.to_nat SC_INODE) with 256%nat. change SC_DIR with 256%nat. fold (formatted b). split.
  - by apply formatted_image.
  - by apply formatted_boot.
Qed.

(** ** [read_myfs] on an image

    The host tool that looks a file up in an image and reads its blocks. *)

Section read.
Context (img : list byte) (files : files_t).
Context (HI : image_of img files).

(** Reading the blocks touches the buffer and the position only. *)
Lemma wp_read_blocks n k i nm c s (Q : unit -> fmtst -> Prop) J :
  files !! i = Some (nm, c) -> 0 <= k -> k + Z.of_nat n = 128 ->
  h_bytes (t_disk s) = img -> length (t_buffer s) = 512%nat -> t_inode s = sector img (513 + Z.of_nat i) ->
  (forall s', t_dir s' = t_dir s -> Q tt s') ->
  wp (read_blocks n k) Q J s.
Proof using HI.
  intros Hi. revert k s. induction n as [|n IH]; intros k s Hk Hn Hd Hb Hino HQ; cbn [read_blocks]; [by apply wp_ret, HQ|].
  pose proof (total_take_le _ _ _ _ Hi) as Hle. pose proof (io_total _ _ HI) as Hmax. unfold SC_DATA in Hmax.
  pose proof (total_nonneg (take i files)) as Hnn.
  apply wp_bind, wp_get. rewrite Hino. fold (block_of (sector img (513 + Z.of_nat i)) k).
  rewrite (io_inode _ _ HI i nm c k Hi) by lia. case_decide as Hkb.
  - destruct (Z.eqb_spec (total (take i files) + k) 0xFFFFFFFF) as [Heq|_]; [exfalso; lia|].
    rewrite i32_id by (unfold is_i32; lia). apply wp_bind.
    apply (wp_read_sector _ (769 + (total (take i files) + k)) _ _ _ img);
      [destruct (FLOC_eq (total (take i files) + k)) as (_ & _ & ->); lia|done|apply HI|unfold IMG_SECTORS; lia|done|done|].
    intros p. apply IH; cbn [t_disk t_buffer t_inode t_dir with_tbuffer on_img with_tdisk h_bytes]; [lia|lia|done| |exact Hino|].
    + apply length_sector; [apply HI|unfold IMG_SECTORS; lia].
    + intros s' Hs'. apply HQ. exact Hs'.
  - by apply wp_ret, HQ.
Qed.

(** The names of the image's files, and no others, match. *)
Lemma read_test nm j : name_ok nm -> 0 <= j < 4096 ->
  dir_test false (nm ++ [NUL]) img j = Some (bool_decide (fst <$> files !! Z.to_nat j = Some nm)).
Proof using HI.
  intros Hnm Hj. unfold dir_test. pose proof (Z.mod_pos_bound j 16 ltac:(lia)). pose proof (Z.div_mod j 16 ltac:(lia)).
  assert (Hls : length (sector img (257 + j / 16)) = 512%nat) by (apply length_sector; [apply HI|unfold IMG_SECTORS; lia]).
  destruct (files !! Z.to_nat j) as [[nm' c']|] eqn:Hf.
  - pose proof (io_entry _ _ HI _ _ _ Hf) as He. rewrite Z2Nat.id in He by lia.
    rewrite (t_test_entry _ _ _ (Z.to_nat (j mod 16)) _ _ _ Hls ltac:(lia) (no_nul _ Hnm) He). f_equal.
    rewrite orb_false_r. apply bool_decide_ext. simpl. split; [by intros ->|by intros [= ->]].
  - apply lookup_ge_None_1 in Hf. destruct (io_free _ _ HI j) as [size He]; [lia|].
    rewrite (t_test_entry _ _ _ (Z.to_nat (j mod 16)) _ _ _ Hls ltac:(lia) (no_nul _ Hnm) He). destruct Hnm as [Hn0 _ _].
    rewrite orb_false_r. rewrite !bool_decide_false; [done|done|congruence].
Qed.

Lemma wp_read_myfs nm rest fp (Q : option (Z * nat * Z) -> fmtst -> Prop) J :
  name_ok nm ->
  (forall i c s', files !! i = Some (nm, c) -> (forall j x, (j < i)%nat -> files !! j = Some x -> x.1 <> nm) ->
     Q (Some (Z.of_nat i / 16, Z.to_nat (Z.of_nat i mod 16), Z.of_nat (length c))) s') ->
  (forall s', (forall c, (nm, c) ∉ files) -> Q None s') ->
  wp (read_myfs (nm ++ NUL :: rest)) Q J (fmt_start (fopen_r img) fp).
Proof using HI.
  intros Hnm HQ HN. unfold read_myfs. apply wp_bind. eapply wp_from_option; [apply cstring_name, Hnm|].
  apply wp_bind. rewrite decide_False by (rewrite length_app; destruct Hnm; simpl; lia). apply wp_ret. apply wp_bind.
  pose proof (io_ok _ _ HI) as Hok. pose proof (io_inodes _ _ HI) as Hin. unfold SC_INODE in Hin.
  destruct (list_find (fun x => x.1 = nm) files) as [[i [nm' c]]|] eqn:Hfind.
  - apply list_find_Some in Hfind as (Hi & Hnm' & Hfirst). simpl in Hnm'. subst nm'.
    pose proof (lookup_lt_Some _ _ _ Hi) as Hlt. set (N := Z.of_nat i).
    pose proof (Z.mod_pos_bound N 16 ltac:(lia)). pose proof (Z.div_mod N 16 ltac:(lia)).
    apply (wp_t_scan_dirs _ _ _ _ N _ img); [done|done|apply length_replicate|lia|done| | | |].
    { change (Z.of_nat SC_DIR) with 256. lia. }
    { intros j Hj. rewrite read_test by (done || lia). f_equal. apply bool_decide_false. intros E.
      destruct (files !! Z.to_nat j) as [x|] eqn:Hx; [|done]. injection E as E. apply (Hfirst (Z.to_nat j) x); [done|lia|done]. }
    { rewrite read_test by (done || lia). f_equal. apply bool_decide_true. unfold N. rewrite Nat2Z.id. exact (f_equal (fmap fst) Hi). }
    intros p1. apply wp_bind, wp_get. cbn [t_dir with_tdir].
    pose proof (io_entry _ _ HI _ _ _ Hi) as [_ E3 E2]. fold N in E2, E3. rewrite E2.
    rewrite i32_id by (unfold is_i32; lia). apply wp_bind.
    apply (wp_read_sector _ (513 + N) _ _ _ img);
      [apply FLOC_eq|reflexivity|exact Hok|unfold IMG_SECTORS; lia|intros f; apply t_inode_tdisk| |].
    { cbn [t_inode with_tdir on_img with_tdisk fmt_start]. apply length_replicate. }
    intros p2. apply wp_bind. apply (wp_read_blocks _ 0 i nm c); [done|lia|done|reflexivity| |reflexivity|].
    { cbn [t_buffer with_tinode with_tdir on_img with_tdisk fmt_start]. apply length_replicate. }
    intros s' _. apply wp_ret. rewrite E3. apply (HQ i c); [done|]. intros j x Hj Hx. by eapply Hfirst.
  - apply list_find_None in Hfind. rewrite Forall_forall in Hfind.
    apply (wp_t_scan_dirs_none _ _ _ _ _ img); [done|done|apply length_replicate|lia|done| |].
    + intros j Hj. change (Z.of_nat SC_DIR) with 256 in Hj. rewrite read_test by (done || lia). f_equal. apply bool_decide_false. intros E.
      destruct (files !! Z.to_nat j) as [x|] eqn:Hx; [|done]. injection E as E.
      apply (Hfind x); [by apply list_elem_of_lookup_2 with (Z.to_nat j)|done].
    + intros s'. apply wp_ret, HN. intros c Hc. by apply (Hfind (nm, c)).
Qed.
End read.
