(* ===== verification/FmtProps.v ===== *)
(** * The image the build makes, and what the kernel finds in it

    [make_image] is the recipe of [Makefile]: [formatter], then [copy2myfs]
    for each file. *)

From S2P Require Import Prelude Bytes Disk FileSys FsRead FsAlloc FsOpen Loader Boot DemoFs Fmt FmtProofs FmtCopy FmtImage FmtFormat.

(** One run of [copy2myfs] per file, each on the image the last one left. *)
Fixpoint copy_files (img : list byte) (files : files_t) : option (list byte) :=
  match files with
  | [] => Some img
  | (nm, c) :: files =>
      match copy2myfs (nm ++ [NUL]) (fmt_start (fopen_r img) (fopen_r c)) with
      | Ret _ s => copy_files (h_bytes (t_disk s)) files
      | _ => None
      end
  end.

Definition make_image (boot : list byte) (files : files_t) : option (list byte) :=
  match formatter boot (fmt_start fopen_w fopen_w) with
  | Ret _ s => copy_files (h_bytes (t_disk s)) files
  | _ => None
  end.

(** A list of files that fits. *)
Record files_ok (files : files_t) : Prop := {
  fk_names : forall nm c, (nm, c) ∈ files -> name_ok nm /\ Z.of_nat (length c) + 1024 < 2 ^ 31;
  fk_nodup : NoDup (fst <$> files);
  fk_inodes : Z.of_nat (length files) <= SC_INODE;
  fk_blocks : total files <= SC_DATA }.

Lemma copy_files_image img old files : image_of img old -> files_ok (old ++ files) ->
  exists img', copy_files img files = Some img' /\ image_of img' (old ++ files) /\ sector img' 0 = sector img 0.
Proof.
  revert img old. induction files as [|[nm c] files IH]; intros img old HI HF.
  - exists img. rewrite app_nil_r. by split_and!.
  - cbn [copy_files]. pose proof HF as [F1 F2 F3 F4]. rewrite length_app in F3. rewrite total_app in F4.
    assert (Hin : (nm, c) ∈ old ++ (nm, c) :: files) by (apply elem_of_app; right; by left).
    assert (H : wp (copy2myfs (nm ++ NUL :: []))
                  (fun _ s' => image_of (h_bytes (t_disk s')) (old ++ [(nm, c)]) /\ sector (h_bytes (t_disk s')) 0 = sector img 0) (fun _ => False)
                  (fmt_start (fopen_r img) (fopen_r c))).
    { pose proof (total_nonneg files). change (total ((nm, c) :: files)) with (nblocks c + total files) in F4. simpl length in F3.
      apply (wp_copy2myfs img old nm c HI); [by eapply F1| |unfold SC_INODE in *; lia|lia|by eapply F1|by split].
      intros nm' c' Hin' ->. rewrite fmap_app in F2. apply NoDup_app in F2 as (_ & Hd & _).
      apply (Hd nm); [by apply list_elem_of_fmap; exists (nm, c')|]. by left. }
    unfold wp in H. destruct (copy2myfs (nm ++ NUL :: []) (fmt_start (fopen_r img) (fopen_r c))) as [u s1|s1|e]; [|done..].
    destruct H as [H Hb]. destruct (IH _ (old ++ [(nm, c)]) H) as (img' & E & HI' & Hb'); [by rewrite <- app_assoc|].
    exists img'. split; [exact E|]. rewrite Hb', Hb. by rewrite <- app_assoc in HI'.
Qed.

Lemma make_image_spec boot files : files_ok files ->
  exists img, make_image boot files = Some img /\ image_of img files /\ sector img 0 = chunk boot 0.
Proof.
  intros HF. unfold make_image. pose proof (wp_formatter boot fopen_w fopen_w) as H. unfold wp in H.
  destruct (formatter boot (fmt_start fopen_w fopen_w)) as [u s1|s1|e]; [|done..]. destruct H as [HI Hb].
  destruct (copy_files_image _ [] files HI HF) as (img & E & HI' & Hb'). exists img. by rewrite Hb'.
Qed.

(** C23: the build succeeds and the image holds the files: each has its
    entry, name and size in order, an inode that lists its blocks, and blocks
    with its contents; the bitmap marks what is in use and nothing else; the
    first sector is still the boot loader. *)
Theorem make_image_correct boot files : files_ok files ->
  exists img, make_image boot files = Some img /\ image_of img files /\ sector img 0 = chunk boot 0.
Proof. apply make_image_spec. Qed.

(** ** The kernel's view *)

Section kernel.
Context {D : Type} `{!AtaDevice D}.
Implicit Types (d : D) (s : fsst D).

(** The drive was written with the image. *)
Definition drive_holds d (img : list byte) : Prop := forall n, 0 <= n < IMG_SECTORS -> readsect n d = sector img n.

Context (d : D) (img : list byte) (files : files_t).
Context (HI : image_of img files) (HF : files_ok files) (HD : drive_holds d img).

(** The entry scan of the kernel sees the file's name in its place only. *)
Lemma kernel_names i nm c k e : files !! i = Some (nm, c) -> 0 <= k < 256 -> (e < 16)%nat ->
  entry_test (name_is (nm ++ [NUL])) d k e = Some (bool_decide (16 * k + Z.of_nat e = Z.of_nat i)).
Proof using HI HF HD.
  intros Hi Hk He. assert (Hin : (nm, c) ∈ files) by (by apply list_elem_of_lookup_2 with i).
  destruct (fk_names _ HF _ _ Hin) as [Hnm _]. unfold entry_test. change (LOC_DIR k) with (257 + k).
  rewrite HD by (unfold IMG_SECTORS; lia).
  assert (Hls : length (sector img (257 + k)) = 512%nat) by (apply length_sector; [apply HI|unfold IMG_SECTORS; lia]).
  set (j := 16 * k + Z.of_nat e). assert (Hj : j / 16 = k /\ Z.to_nat (j mod 16) = e).
  { unfold j. replace (16 * k + Z.of_nat e) with (Z.of_nat e + k * 16) by lia.
    rewrite Z.div_add, Z.mod_add, Z.div_small, Z.mod_small by lia. rewrite Nat2Z.id. split; [lia|done]. }
  destruct Hj as [Hj1 Hj2].
  assert (Ht : forall nm' size ino, entry_is (sector img (257 + k)) e nm' size ino ->
    name_is (nm ++ [NUL]) (sector img (257 + k)) e = Some (bool_decide (nm' = nm))).
  { intros nm' size ino He'. pose proof (t_test_entry false nm _ e _ _ _ Hls He (no_nul _ Hnm) He') as H.
    unfold t_test in H. unfold name_is. destruct (strcmp (drop (ent_filename e) (sector img (257 + k))) (nm ++ [NUL])) as [z|]; [|done].
    simpl in *. by rewrite !orb_false_r in H. }
  destruct (decide (j < Z.of_nat (length files))) as [Hlt|Hge].
  - destruct (lookup_lt_is_Some_2 files (Z.to_nat j)) as [[nm' c'] Hf]; [lia|].
    pose proof (io_entry _ _ HI _ _ _ Hf) as Hen. rewrite Z2Nat.id, Hj1, Hj2 in Hen by lia.
    rewrite (Ht _ _ _ Hen). f_equal. apply bool_decide_ext. split.
    + intros ->. pose proof (fk_nodup _ HF) as Hnd. rewrite NoDup_alt in Hnd.
      assert (Z.to_nat j = i); [|lia].
      apply (Hnd (Z.to_nat j) i nm); rewrite list_lookup_fmap;
        [exact (f_equal (fmap fst) Hf)|exact (f_equal (fmap fst) Hi)].
    + intros Ej. assert (Z.to_nat j = i) as Ei by lia. rewrite Ei in Hf. pose proof (eq_trans (eq_sym Hf) Hi) as E. by injection E.
  - destruct (io_free _ _ HI j) as [size Hen]; [lia|]. rewrite Hj1, Hj2 in Hen. rewrite (Ht _ _ _ Hen). f_equal.
    apply lookup_lt_Some in Hi. rewrite !bool_decide_false; [done|lia|]. destruct Hnm as [Hn0 _ _]. congruence.
Qed.

(** The stream the kernel opens for file [i]. *)
Lemma wp_kernel_open i nm c s (Q : Z -> fsst D -> Prop) J :
  files !! i = Some (nm, c) -> fs_disk s = d -> table_ok s ->
  (exists j f, fs_fs s !! j = Some f /\ stream_free f = true) ->
  (forall fd f s', 0 <= fd -> fs_fs s' !! Z.to_nat fd = Some f -> fs_disk s' = d -> f_offset f = 0 ->
     f_inode_offset f = Z.of_nat i -> f_file_size f = Z.of_nat (length c) -> Q fd s') ->
  wp (fs_open_kr (nm ++ [NUL])) Q J s.
Proof using HI HF HD.
  intros Hi Hs [Ht1 Ht2] Hfree HQ. assert (Hin : (nm, c) ∈ files) by (by apply list_elem_of_lookup_2 with i).
  destruct (fk_names _ HF _ _ Hin) as [Hnm _]. pose proof (fk_inodes _ HF) as Hmax. unfold SC_INODE in Hmax.
  pose proof (lookup_lt_Some _ _ _ Hi) as Hlt. unfold fs_open_kr. apply wp_bind.
  apply wp_scan_dirs; rewrite ?Hs.
  - intros k e Hk He. rewrite (kernel_names i nm c) by (done || (change (Z.of_nat SC_DIR) with 256 in Hk; lia)). by eexists.
  - intros k e Hk He Hte _. change (Z.of_nat SC_DIR) with 256 in Hk. change NR_ENTRIES with 16%nat in He.
    rewrite (kernel_names i nm c) in Hte by (done || lia). injection Hte as Hte. apply bool_decide_eq_true in Hte.
    change (LOC_DIR k) with (257 + k). rewrite HD by (unfold IMG_SECTORS; lia).
    pose proof (io_entry _ _ HI _ _ _ Hi) as Hen. rewrite <- Hte in Hen.
    replace (16 * k + Z.of_nat e) with (Z.of_nat e + k * 16) in Hen by lia.
    rewrite Z.div_add, Z.mod_add, Z.div_small, Z.mod_small, Nat2Z.id in Hen by lia. rewrite Z.add_0_l in Hen.
    assert (Hls : length (sector img (257 + k)) = 512%nat) by (apply length_sector; [apply HI|unfold IMG_SECTORS; lia]).
    destruct (ent_bounds e He) as (B1 & B2 & B3 & B4). destruct Hen as [E1 E2 E3].
    apply (wp_open_stream _ _ _ _ (nm ++ [NUL])); cbn [fs_fs fs_dir with_dir].
    + done.
    + lia.
    + rewrite Ht1. lia.
    + unfold is_u32. lia.
    + apply entry_name_drop; [lia|done].
    + rewrite length_app. destruct Hnm. simpl. lia.
    + intros j f Hj Hf _ _. eapply (HQ j (opened (sector img (257 + k)) k e _)); cbn [fs_fs with_fs fs_disk with_dir opened f_offset f_inode_offset f_file_size].
      * lia.
      * apply list_lookup_insert_eq. by eapply lookup_lt_Some.
      * exact Hs.
      * done.
      * rewrite E3. lia.
      * exact E2.
    + intros Hnone. destruct Hfree as (j & f & Hf & Hft). pose proof (lookup_lt_Some _ _ _ Hf) as Hjl. rewrite Ht1 in Hjl.
      rewrite (Hnone (Z.of_nat j) f) in Hft; [done|lia|by rewrite Nat2Z.id].
  - intros Hall. exfalso. pose proof (Z.div_mod (Z.of_nat i) 16 ltac:(lia)) as Hdm. pose proof (Z.mod_pos_bound (Z.of_nat i) 16 ltac:(lia)) as Hm.
    specialize (Hall (Z.of_nat i / 16) (Z.to_nat (Z.of_nat i mod 16))). rewrite (kernel_names i nm c) in Hall by (done || lia).
    rewrite bool_decide_true in Hall by lia. discriminate Hall; [change (Z.of_nat SC_DIR) with 256|change NR_ENTRIES with 16%nat]; lia.
Qed.

(** Block [k] of file [i] as the kernel reads it. *)
Lemma kernel_block i nm c k : files !! i = Some (nm, c) -> 0 <= k < 128 -> k < nblocks c ->
  readsect (block_sector (sector img (513 + Z.of_nat i)) k) d = chunk c k.
Proof using HI HF HD.
  intros Hi Hk Hb. pose proof (total_take_le _ _ _ _ Hi) as Hle. pose proof (io_total _ _ HI) as Hmax. unfold SC_DATA in Hmax.
  pose proof (total_nonneg (take i files)) as Hnn. pose proof (lookup_lt_Some _ _ _ Hi).
  pose proof (fk_inodes _ HF) as Hn. unfold SC_INODE in Hn.
  unfold block_sector. rewrite (io_inode _ _ HI i nm c k Hi Hk), decide_True by done.
  rewrite i32_id by (unfold is_i32; lia). change (LOC_DATA (total (take i files) + k)) with (769 + (total (take i files) + k)).
  rewrite HD by (unfold IMG_SECTORS; lia). rewrite Z.add_assoc. apply (io_data _ _ HI i nm c k Hi). lia.
Qed.

Lemma kernel_bytes i nm c f : files !! i = Some (nm, c) -> Z.of_nat (length c) < 65536 -> f_inode_offset f = Z.of_nat i ->
  file_bytes d (inode_of d f) 0 (length c) = c.
Proof using HI HF HD.
  intros Hi Hl Hf. pose proof (lookup_lt_Some _ _ _ Hi). pose proof (fk_inodes _ HF) as Hn. unfold SC_INODE in Hn.
  unfold inode_of. rewrite Hf, i32_id by (unfold is_i32; lia). change (LOC_INODE (Z.of_nat i)) with (513 + Z.of_nat i).
  rewrite HD by (unfold IMG_SECTORS; lia). apply list_eq. intros p.
  destruct (decide (p < length c)%nat) as [Hp|Hp].
  - rewrite file_bytes_lookup by done. unfold file_byte. rewrite Z.add_0_l.
    pose proof (Z.div_mod (Z.of_nat p) 512 ltac:(lia)). pose proof (Z.mod_pos_bound (Z.of_nat p) 512 ltac:(lia)).
    rewrite (kernel_block i nm c) by (try done; unfold nblocks; pose proof (Z.div_mod (Z.of_nat (length c) + 511) 512 ltac:(lia));
      pose proof (Z.mod_pos_bound (Z.of_nat (length c) + 511) 512 ltac:(lia)); lia).
    rewrite chunk_lookup by lia. replace (Z.to_nat (512 * (Z.of_nat p / 512) + Z.of_nat (Z.to_nat (Z.of_nat p mod 512)))) with p by lia.
    destruct (lookup_lt_is_Some_2 c p Hp) as [x ->]. done.
  - rewrite !lookup_ge_None_2; [done|lia|rewrite length_file_bytes; lia].
Qed.

Lemma kernel_slice i nm c f off n : files !! i = Some (nm, c) -> Z.of_nat (length c) < 65536 -> f_inode_offset f = Z.of_nat i ->
  (off + n <= length c)%nat -> file_bytes d (inode_of d f) (Z.of_nat off) n = take n (drop off c).
Proof using HI HF HD.
  intros Hi Hl Hf Hn. apply list_eq. intros p. destruct (decide (p < n)%nat) as [Hp|Hp].
  - rewrite file_bytes_lookup by done. rewrite lookup_take_lt, lookup_drop by done.
    pose proof (kernel_bytes i nm c f Hi Hl Hf) as Hc. apply (f_equal (fun l => l !! (off + p)%nat)) in Hc.
    rewrite file_bytes_lookup in Hc by lia. rewrite <- Hc. do 2 f_equal. lia.
  - rewrite !lookup_ge_None_2; [done|rewrite length_take; lia|rewrite length_file_bytes; lia].
Qed.

Lemma wp_kernel_read i nm c s buf (Q : Z * list byte -> fsst D -> Prop) J :
  files !! i = Some (nm, c) -> c <> [] -> Z.of_nat (length c) < 65536 -> fs_disk s = d -> table_ok s ->
  (exists j f, fs_fs s !! j = Some f /\ stream_free f = true) ->
  Z.of_nat (length c) <= Z.of_nat (length buf) < 2 ^ 31 ->
  (forall s', Q (Z.of_nat (length c), splice 0 c buf) s') ->
  wp (fd ← fs_open_kr (nm ++ [NUL]); fs_read_kr fd buf (Z.of_nat (length c))) Q J s.
Proof using HI HF HD.
  intros Hi Hc Hl Hs Ht Hfree Hb HQ. apply wp_bind. apply (wp_kernel_open i nm c); [done..|].
  intros fd f s' Hfd Hf Hd Ho Hino Hsz. assert (Hr : read_len f (Z.of_nat (length c)) = Z.of_nat (length c)) by (unfold read_len; lia).
  assert (Hpos : 0 < Z.of_nat (length c)) by (destruct c; [done|simpl; lia]).
  apply (wp_fs_read fd f); rewrite ?Hr; [done|done|lia|lia|lia|lia|lia|lia|].
  intros s2 _ _. rewrite Hd, Ho, Nat2Z.id, (kernel_bytes i nm c) by done. apply HQ.
Qed.

(** The boot loader's image starts with the first file. *)
Lemma boot_image_byte nm c p : files !! 0%nat = Some (nm, c) -> 0 <= p < Z.of_nat (length c) ->
  Some (image_byte d (boot_offset + p)) = c !! Z.to_nat p.
Proof using HI HF HD.
  intros Hi Hp. pose proof (total_take_le _ _ _ _ Hi) as Hle. pose proof (io_total _ _ HI) as Hmax. unfold SC_DATA in Hmax.
  change (total (take 0 files)) with 0 in Hle. pose proof (Z.div_mod p 512 ltac:(lia)). pose proof (Z.mod_pos_bound p 512 ltac:(lia)).
  assert (Hb : 0 <= p / 512 < nblocks c).
  { unfold nblocks. pose proof (Z.div_mod (Z.of_nat (length c) + 511) 512 ltac:(lia)).
    pose proof (Z.mod_pos_bound (Z.of_nat (length c) + 511) 512 ltac:(lia)). lia. }
  unfold image_byte, boot_offset. replace ((256 + 256 + 256) * 512 + p) with (p + 768 * 512) by lia.
  rewrite Z.div_add, Z.mod_add by lia. replace (p / 512 + 768 + 1) with (769 + 0 + p / 512) by lia.
  rewrite HD by (unfold IMG_SECTORS; lia). change 0 with (total (take 0 files)) at 1.
  rewrite (io_data _ _ HI 0 nm c (p / 512) Hi Hb), chunk_lookup by lia.
  replace (Z.to_nat (512 * (p / 512) + Z.of_nat (Z.to_nat (p mod 512)))) with (Z.to_nat p) by lia.
  destruct (lookup_lt_is_Some_2 c (Z.to_nat p)) as [x ->]; [lia|done].
Qed.
End kernel.

(** C24: from the build to the kernel and back: a file copied into the image
    is found by the running kernel under its name and read whole, byte for
    byte. *)
Theorem image_file_read {D : Type} `{!AtaDevice D} boot files i nm c : files_ok files -> files !! i = Some (nm, c) -> c <> [] -> Z.of_nat (length c) < 65536 ->
  exists img, make_image boot files = Some img /\
    forall (s : fsst D) buf, drive_holds (fs_disk s) img -> table_ok s -> (exists j f, fs_fs s !! j = Some f /\ stream_free f = true) ->
      Z.of_nat (length c) <= Z.of_nat (length buf) < 2 ^ 31 ->
      wp (fd ← fs_open_kr (nm ++ [NUL]); fs_read_kr fd buf (Z.of_nat (length c)))
        (fun r _ => r = (Z.of_nat (length c), splice 0 c buf)) (fun _ => False) s.
Proof.
  intros HF Hi Hc Hl. destruct (make_image_spec boot files HF) as (img & E & HI & _). exists img. split; [exact E|].
  intros s buf HD Ht Hfree Hb. by apply (wp_kernel_read (fs_disk s) img files HI HF HD i nm c).
Qed.

(** The file copied first is what the boot loader reads as the kernel:
    its byte [p] is byte [boot_offset + p] of the disk, which is how
    [bootmain] counts. *)
Theorem first_file_bootable {D : Type} `{!AtaDevice D} boot files nm c (d : D) : files_ok files -> files !! 0%nat = Some (nm, c) ->
  exists img, make_image boot files = Some img /\
    (drive_holds d img -> forall p, 0 <= p < Z.of_nat (length c) -> Some (image_byte d (boot_offset + p)) = c !! Z.to_nat p).
Proof.
  intros HF Hi. destruct (make_image_spec boot files HF) as (img & E & HI & _). exists img. split; [exact E|].
  intros HD p Hp. by apply (boot_image_byte d img files HI HF HD nm c).
Qed.

(** [read_myfs] finds the first file of the name, with its size, and
    reads its blocks; it fails only when no file has the name. *)
Theorem read_myfs_correct img files nm rest fp : image_of img files -> name_ok nm ->
  wp (read_myfs (nm ++ NUL :: rest))
    (fun r _ => match r with
                | Some (d, e, size) => exists i c, files !! i = Some (nm, c) /\ (forall j x, (j < i)%nat -> files !! j = Some x -> x.1 <> nm) /\
                    d = Z.of_nat i / 16 /\ e = Z.to_nat (Z.of_nat i mod 16) /\ size = Z.of_nat (length c)
                | None => forall c, (nm, c) ∉ files
                end) (fun _ => False) (fmt_start (fopen_r img) fp).
Proof.
  intros HI Hnm. apply (wp_read_myfs img files HI); [done| |done].
  intros i c _ Hi Hfirst. exists i, c. by split_and!.
Qed.

(** ** Instances *)

(** The drive an image was written to. *)
Definition drive_of (img : list byte) : gmap Z (list Z) :=
  list_to_map ((fun n => (n, words_of_bytes (sector img n))) <$> seqZ 0 IMG_SECTORS).

Lemma drive_of_holds img : image_ok img -> drive_holds (drive_of img) img.
Proof.
  intros Hok n Hn. unfold readsect. rewrite valid_lba by exact Hn. cbn [ata_read map_drive].
  assert (E : drive_of img !! n = Some (words_of_bytes (sector img n))).
  { unfold drive_of. apply elem_of_list_to_map_1.
    - rewrite <- list_fmap_compose. change (fst ∘ _) with (id (A := Z)). rewrite list_fmap_id. apply NoDup_seqZ.
    - apply list_elem_of_fmap. exists n. split; [done|]. by apply elem_of_seqZ. }
  rewrite E. cbn [default]. rewrite sector_words_id; [|apply length_words_of_bytes|apply words_of_bytes_word].
  apply bytes_of_words_of_bytes. by apply length_sector.
Qed.

(** A kernel "k" of 3 bytes and a file "a" of one. *)
Definition demo_files : files_t := [([byte.of_Z 0x6b], byte.of_Z <$> [1; 2; 3]); ([byte.of_Z 0x61], [byte.of_Z 9])].
Definition demo_kernel_fs (img : list byte) : fsst (gmap Z (list Z)) :=
  mkFs (drive_of img) (replicate BITMAP_BYTES NUL) (replicate 512 NUL) (replicate 512 NUL) (replicate 512 NUL)
    (replicate 256 demo_unused).

Lemma demo_files_ok : files_ok demo_files.
Proof.
  split.
  - intros nm c H. unfold demo_files in H. apply list_elem_of_In in H. simpl in H.
    destruct H as [[= <- <-]|[[= <- <-]|[]]]; (split; [split; [done|simpl; lia|set_solver]|simpl; lia]).
  - simpl. apply NoDup_cons. split; [|apply NoDup_singleton]. intros H%list_elem_of_singleton. discriminate H.
  - unfold SC_INODE. simpl. lia.
  - vm_compute. discriminate.
Qed.

Lemma demo_name_ok : name_ok [byte.of_Z 0x61].
Proof. apply (fk_names _ demo_files_ok _ [byte.of_Z 9]). right. left. Qed.

Lemma demo_table img : table_ok (demo_kernel_fs img) /\ exists j f, fs_fs (demo_kernel_fs img) !! j = Some f /\ stream_free f = true.
Proof.
  split; [split; [apply length_replicate|by apply Forall_replicate]|]. exists 0%nat, demo_unused. by split.
Qed.

Lemma make_image_correct_witness :
  exists img, make_image [] demo_files = Some img /\ image_of img demo_files /\ sector img 0 = chunk [] 0.
Proof. apply (make_image_correct [] demo_files). exact demo_files_ok. Defined.

Lemma read_myfs_correct_witness : exists img, make_image [] demo_files = Some img /\
  wp (read_myfs ([byte.of_Z 0x61] ++ NUL :: [])) (fun r _ => match r with Some (d, e, size) => e = 1%nat /\ size = 1 | None => False end) (fun _ => False)
    (fmt_start (fopen_r img) fopen_w).
Proof.
  destruct (make_image_spec [] demo_files demo_files_ok) as (img & E & HI & _). exists img. split; [exact E|].
  pose proof (read_myfs_correct img demo_files [byte.of_Z 0x61] [] fopen_w HI demo_name_ok) as HR.
  eapply wp_mono; [exact HR| |intros ? []]. clear HR E HI.
  intros [[[d e] size]|] s' H.
  - destruct H as (i & c & Hi & _ & _ & -> & ->). destruct i as [|[|i]]; [discriminate Hi| |discriminate Hi].
    injection Hi as <-. by split.
  - apply (H [byte.of_Z 9]). apply list_elem_of_lookup. by exists 1%nat.
Defined.

Lemma image_file_read_witness (c := byte.of_Z <$> [1; 2; 3]) : exists img, make_image [] demo_files = Some img /\
  wp (fd ← fs_open_kr ([byte.of_Z 0x6b] ++ [NUL]); fs_read_kr fd (replicate 4 NUL) (Z.of_nat (length c)))
    (fun r _ => r = (Z.of_nat (length c), splice 0 c (replicate 4 NUL))) (fun _ => False) (demo_kernel_fs img).
Proof.
  destruct (image_file_read (D := gmap Z (list Z)) [] demo_files 0 [byte.of_Z 0x6b] c demo_files_ok)
    as (img & E & H); [reflexivity|discriminate|reflexivity|].
  exists img. split; [exact E|]. destruct (make_image_spec [] demo_files demo_files_ok) as (img' & E' & [Hok _ _ _ _ _ _ _] & _).
  pose proof (eq_trans (eq_sym E) E') as [= <-]. destruct (demo_table img) as [Ht Hf].
  assert (Hb : Z.of_nat (length c) <= Z.of_nat (length (replicate 4 NUL)) < 2 ^ 31) by (split; [discriminate|reflexivity]).
  exact (H (demo_kernel_fs img) (replicate 4 NUL) (drive_of_holds _ Hok) Ht Hf Hb).
Defined.

Lemma first_file_bootable_witness : exists img, make_image [] demo_files = Some img /\
  Some (image_byte (drive_of img) (boot_offset + 2)) = Some (byte.of_Z 3).
Proof.
  destruct (make_image_spec [] demo_files demo_files_ok) as (img & E & [Hok _ _ _ _ _ _ _] & _). exists img. split; [exact E|].
  destruct (first_file_bootable [] demo_files [byte.of_Z 0x6b] (byte.of_Z <$> [1; 2; 3]) (drive_of img) demo_files_ok) as (img' & E' & H); [reflexivity|].
  pose proof (eq_trans (eq_sym E) E') as [= <-]. apply (H (drive_of_holds _ Hok) 2). split; [discriminate|reflexivity].
Defined.
