(* ===== verification/UserMem.v ===== *)
(** * The memory of a program, through its page tables

    [holds m dp T P V]: the address space of directory [dp] consists of the
    pages [P], each with a frame of its own, with the bytes [V]; other
    addresses translate by [T].  The accesses of System are described on
    [V].  [Allocator] is what a program that grows such a space asks of
    [mm_alloc]; it is met by an allocator whose free pages are in order, and
    in Remap by one that replaces pages. *)

From S2P Require Import Prelude Bytes Disk FileSys Pmap PmapSpec PmapProofs PmapAlloc PmapProps Remap Keyboard Video Descr Proc System Loader Boot.

(** ** Bytes of a word *)

Lemma u8_testbit x i : 0 <= i < 8 -> Z.testbit (u8 x) i = Z.testbit x i.
Proof. intros Hi. unfold u8. apply Z.mod_pow2_bits_low. lia. Qed.

Lemma u8_ext x y : (forall i, 0 <= i < 8 -> Z.testbit x i = Z.testbit y i) -> u8 x = u8 y.
Proof.
  intros H. apply Z.bits_inj'. intros i Hi. destruct (decide (i < 8)).
  - rewrite !u8_testbit by lia. apply H. lia.
  - unfold u8. by rewrite !Z.mod_pow2_bits_high by lia.
Qed.

Lemma word_byte_put w j k v : 0 <= j < 4 -> 0 <= k < 4 ->
  word_byte (put_word_byte w k v) j = if decide (j = k) then u8 v else word_byte w j.
Proof.
  intros Hj Hk. unfold word_byte, put_word_byte.
  assert (H : forall i, 0 <= i < 8 -> Z.testbit (Z.shiftr (Z.lor (Z.land w (Z.lnot (Z.shiftl 255 (8 * k)))) (Z.shiftl (u8 v) (8 * k))) (8 * j)) i =
    if decide (j = k) then Z.testbit v i else Z.testbit (Z.shiftr w (8 * j)) i).
  { intros i Hi. change 255 with (Z.ones 8). rewrite !Z.shiftr_spec, Z.lor_spec, Z.land_spec, Z.lnot_spec, !Z.shiftl_spec by lia. case_decide as E.
    - subst k. replace (i + 8 * j - 8 * j) with i by lia. rewrite Z.ones_spec_low, u8_testbit by lia. by rewrite andb_false_r.
    - destruct (decide (j < k)).
      + rewrite !(Z.testbit_neg_r _ (i + 8 * j - 8 * k)) by lia. by rewrite andb_true_r, orb_false_r.
      + rewrite Z.ones_spec_high by lia. unfold u8. rewrite Z.mod_pow2_bits_high by lia. by rewrite andb_true_r, orb_false_r. }
  case_decide; by apply u8_ext.
Qed.

Lemma word_byte_range w k : 0 <= word_byte w k < 256.
Proof. unfold word_byte, u8. apply Z.mod_pos_bound. lia. Qed.

(** ** Writes that spare the tables *)

Lemma same_tables m m' dp tbl :
  dir_ok m dp tbl -> (forall i, 0 <= i < 1024 -> m' (entry (page2kva dp) i) = m (entry (page2kva dp) i)) ->
  (forall i j, 0 <= i < 1024 -> 0 <= j < 1024 -> present (m (entry (page2kva dp) i)) = true -> m' (entry (page2kva (tbl i)) j) = m (entry (page2kva (tbl i)) j)) ->
  dir_ok m' dp tbl /\ (forall n, below m dp tbl n -> below m' dp tbl n) /\ (forall q, spare m dp q -> spare m' dp q) /\
  forall la, is_u32 la -> translate m' (page2pa dp) la = translate m (page2pa dp) la.
Proof.
  intros Hok Hd Ht. pose proof Hok as [O1 O2 O3].
  assert (Hok' : dir_ok m' dp tbl) by (split; [done|intros i Hi; rewrite Hd by done; auto|intros i j Hi Hj; rewrite !Hd by done; auto]).
  split; [done|]. split; [|split].
  - intros n [B1 B2]. split; [done|]. intros i Hi. rewrite Hd by done. auto.
  - intros q [S1 S2]. split; [done|]. intros i Hi. rewrite Hd by done. auto.
  - intros la Hla. rewrite (translate_eq _ _ _ _ Hok Hla), (translate_eq _ _ _ _ Hok' Hla).
    destruct (PGADDR_split la Hla) as (_ & H1 & H2 & _). rewrite Hd by done. destruct (present _) eqn:E; [|done]. cbv zeta. by rewrite Ht.
Qed.

Lemma write_spare m dp tbl q x v :
  dir_ok m dp tbl -> spare m dp q -> 0 <= q < npages -> 0 <= x < 1024 -> let m' := <[entry (page2kva q) x := v]> m in
  dir_ok m' dp tbl /\ (forall n, below m dp tbl n -> below m' dp tbl n) /\ (forall q, spare m dp q -> spare m' dp q) /\
  forall la, is_u32 la -> translate m' (page2pa dp) la = translate m (page2pa dp) la.
Proof.
  intros Hok Hs Hq Hx m'. apply same_tables; [done|..]; apply (spare_dir _ _ _ _ Hok) in Hs as [Hne Ht]; pose proof (do_dp _ _ _ Hok).
  - intros i Hi. unfold m'. rewrite fn_lookup_insert_ne; [done|]. intros E. apply entry_inj in E as [E _]; [congruence|done..].
  - intros i j Hi Hj Hp. unfold m'. rewrite fn_lookup_insert_ne; [done|]. destruct (do_table _ _ _ Hok i Hi Hp) as (_ & Hr & _).
    intros E. apply entry_inj in E as [E _]; [|done..]. by apply (Ht i Hi Hp).
Qed.

(** ** Address spaces *)

Definition byte_in (m : Z -> Z) (q o : Z) : Z := word_byte (m (entry (page2kva q) (o / 4))) (o mod 4).

Record holds (m : Z -> Z) (dp : Z) (T P : Z -> option Z) (V : mem) : Prop := {
  uh_dir : exists tbl, dir_ok m dp tbl;
  uh_page : forall g q, P g = Some q -> 0 <= q < npages /\ spare m dp q;
  uh_inj : forall g h q, P g = Some q -> P h = Some q -> g = h;
  uh_tr : forall la, is_u32 la ->
    translate m (page2pa dp) la = match P (PGNUM la) with Some q => Some (page2pa q + PGOFF la) | None => T la end;
  uh_byte : forall la q, is_u32 la -> P (PGNUM la) = Some q -> byte_in m q (PGOFF la) = byte.unsigned (V la) }.

(** All of [lo, hi) is in the pages. *)
Definition in_pages (P : Z -> option Z) (lo hi : Z) : Prop := forall la, lo <= la < hi -> is_Some (P (PGNUM la)).

Lemma off_word o : 0 <= o < 4096 -> 0 <= o / 4 < 1024 /\ 0 <= o mod 4 < 4 /\ o = 4 * (o / 4) + o mod 4.
Proof.
  intros Ho. pose proof (Z.div_mod o 4 ltac:(lia)). pose proof (Z.mod_pos_bound o 4 ltac:(lia)).
  split; [|split]; [split; [apply Z.div_pos; lia|apply Z.div_lt_upper_bound; lia]|done|done].
Qed.

Lemma same_offset la lb : is_u32 la -> is_u32 lb -> PGNUM la = PGNUM lb -> PGOFF la = PGOFF lb -> la = lb.
Proof.
  intros Ha Hb Hp Ho. destruct (PGADDR_split la Ha) as (E1 & _), (PGADDR_split lb Hb) as (E2 & _).
  apply same_page in Hp as [Hd Ht]; [|done..]. congruence.
Qed.

Lemma store_cons la b bs V a : Disk.store la (b :: bs) V a = Disk.store (la + 1) bs (Disk.store la [b] V) a.
Proof.
  destruct (decide (a = la)) as [->|Hne].
  - rewrite (store_out (la + 1)) by lia. rewrite !store_in by (simpl; lia). by rewrite Z.sub_diag.
  - destruct (decide (la + 1 <= a < la + 1 + Z.of_nat (length bs))).
    + rewrite !store_in by (simpl; lia). replace (Z.to_nat (a - la)) with (S (Z.to_nat (a - (la + 1)))) by lia. done.
    + rewrite !store_out by (simpl; lia). done.
Qed.

Section access.
Context {D : Type} `{!AtaDevice D}.
Context (dp : Z) (T P : Z -> option Z).
Abbreviation S := (sys D).
Implicit Types (s : S) (V : mem).

Definition with_memory (m : Z -> Z) s : S := with_mm (with_mem m (y_mm s)) s.

Lemma locate_frame s la q : translate (mm_mem (y_mm s)) (y_cr3 s) la = Some (page2pa q + PGOFF la) -> 0 <= q < npages -> is_u32 la ->
  locate s la = Some (entry (page2kva q) (PGOFF la / 4), PGOFF la mod 4).
Proof.
  intros Htr Hqn Hla. destruct (PGADDR_split la Hla) as (_ & _ & _ & Ho). destruct (off_word _ Ho) as (Ho1 & Ho2 & Eo).
  unfold locate. rewrite Htr. cbn [mbind option_bind].
  assert (Hmod : (page2pa q + PGOFF la) mod 4 = PGOFF la mod 4).
  { unfold page2pa. rewrite Z.shiftl_mul_pow2 by lia. replace (q * 2 ^ 12 + PGOFF la) with (PGOFF la + q * 1024 * 4) by lia. apply Z.mod_add. lia. }
  rewrite Hmod. assert (E : KERNBASE + (page2pa q + PGOFF la - PGOFF la mod 4) = entry (page2kva q) (PGOFF la / 4)).
  { unfold entry. rewrite page2kva_eq by lia. unfold page2pa. rewrite Z.shiftl_mul_pow2 by lia. lia. }
  by rewrite E, entry_mapped by lia.
Qed.

Lemma locate_page s V la q : holds (mm_mem (y_mm s)) dp T P V -> y_cr3 s = page2pa dp -> is_u32 la -> P (PGNUM la) = Some q ->
  locate s la = Some (entry (page2kva q) (PGOFF la / 4), PGOFF la mod 4).
Proof.
  intros H Hc Hla Hq. destruct (uh_page _ _ _ _ _ H _ _ Hq) as [Hqn _]. apply locate_frame; [|done|done].
  by rewrite Hc, (uh_tr _ _ _ _ _ H la Hla), Hq.
Qed.

Lemma byte_at_page s V la : holds (mm_mem (y_mm s)) dp T P V -> y_cr3 s = page2pa dp -> is_u32 la -> is_Some (P (PGNUM la)) ->
  byte_at s la = Some (byte.unsigned (V la)).
Proof.
  intros H Hc Hla [q Hq]. unfold byte_at. rewrite (locate_page s V la q) by done. cbn [mbind option_bind].
  by rewrite <- (uh_byte _ _ _ _ _ H la q Hla Hq).
Qed.

(** ** Loads and stores *)

Lemma uload_le_page s V k la : holds (mm_mem (y_mm s)) dp T P V -> y_cr3 s = page2pa dp -> 0 <= la -> la + Z.of_nat k <= 2 ^ 32 ->
  in_pages P la (la + Z.of_nat k) -> uload_le k la s = Ret (mem_le k V la) s.
Proof.
  intros H Hc. revert la. induction k as [|k IH]; intros la H0 H1 Hp; [done|]. cbn [uload_le mem_le].
  unfold uload, mbind, M_bind, get. rewrite (byte_at_page s V la H Hc) by (unfold is_u32; lia || (apply Hp; lia)).
  cbn [from_option_or]. unfold mret, M_ret. destruct k as [|k].
  - cbn [uload_le mem_le]. done.
  - rewrite u32_id by (unfold is_u32; lia). rewrite IH; [done|lia|lia|]. intros a Ha. apply Hp. lia.
Qed.

Lemma holds_ext m V V' : holds m dp T P V -> (forall la, is_u32 la -> is_Some (P (PGNUM la)) -> V' la = V la) -> holds m dp T P V'.
Proof. intros [H2 H3 H4 H5 H6] E. split; try done. intros la q Hla Hq. rewrite E by done. by apply H6. Qed.

(** Frames of no page of the program. *)
Definition frames_kept (m m' : Z -> Z) : Prop := forall q o, 0 <= q < npages -> 0 <= o < 1024 -> (forall g, P g <> Some q) ->
  m' (entry (page2kva q) o) = m (entry (page2kva q) o).

Lemma holds_put m V la b q (o := PGOFF la) (m' := <[entry (page2kva q) (o / 4) := put_word_byte (m (entry (page2kva q) (o / 4))) (o mod 4) (byte.unsigned b)]> m) :
  holds m dp T P V -> is_u32 la -> P (PGNUM la) = Some q -> holds m' dp T P (Disk.store la [b] V) /\ frames_kept m m'.
Proof.
  intros [[tbl H2] H3 H4 H5 H6] Hla Hq. destruct (PGADDR_split la Hla) as (_ & _ & _ & Ho). fold o in Ho.
  destruct (off_word o Ho) as (Ho1 & Ho2 & Eo). destruct (H3 _ _ Hq) as [Hqn Hs].
  destruct (write_spare m dp tbl q (o / 4) (put_word_byte (m (entry (page2kva q) (o / 4))) (o mod 4) (byte.unsigned b)) H2 Hs ltac:(lia) Ho1) as (W1 & W2 & W3 & W4).
  fold m' in W1, W2, W3, W4. split; [|intros q' x Hq' Hx Hn; unfold m'; rewrite fn_lookup_insert_ne; [done|]; intros E; apply entry_inj in E as [E _]; [|lia..]; subst q'; by apply (Hn (PGNUM la))].
  split; [by exists tbl|intros g r Hg; destruct (H3 g r Hg); auto|done|intros lb Hlb; rewrite W4 by done; auto|].
  intros lb r Hlb Hr. destruct (PGADDR_split lb Hlb) as (_ & _ & _ & Hob). destruct (off_word _ Hob) as (Hb1 & Hb2 & Eb).
  destruct (H3 _ _ Hr) as [Hrn _]. unfold byte_in, m'. destruct (decide (lb = la)) as [->|Hne].
  - assert (r = q) as -> by congruence. fold o. rewrite !fn_lookup_insert, word_byte_put, decide_True by done.
    pose proof (byte.unsigned_range b). rewrite store_in, Z.sub_diag by (simpl; lia). unfold u8. by apply Z.mod_small.
  - rewrite store_out by (unfold is_u32 in *; simpl; lia). rewrite <- (H6 lb r Hlb Hr). unfold byte_in.
    destruct (decide (entry (page2kva r) (PGOFF lb / 4) = entry (page2kva q) (o / 4))) as [E|E]; [|by rewrite fn_lookup_insert_ne by congruence].
    rewrite E, fn_lookup_insert. apply entry_inj in E as [-> E]; [|lia..]. rewrite word_byte_put, decide_False; [done| |done|done].
    intros Em. apply Hne, same_offset; [done|done|by eapply H4|]. fold o. lia.
Qed.

Lemma wp_ustores bs la V s (Q : unit -> S -> Prop) J : holds (mm_mem (y_mm s)) dp T P V -> y_cr3 s = page2pa dp ->
  0 <= la -> la + Z.of_nat (length bs) <= 2 ^ 32 -> in_pages P la (la + Z.of_nat (length bs)) ->
  (forall m', holds m' dp T P (Disk.store la bs V) -> frames_kept (mm_mem (y_mm s)) m' -> Q tt (with_memory m' s)) ->
  wp (ustores la bs) Q J s.
Proof.
  revert la V s. induction bs as [|b bs IH]; intros la V s H Hc H0 H1 Hp HQ; cbn [ustores length] in *.
  - apply wp_ret. replace s with (with_memory (mm_mem (y_mm s)) s) by (by destruct s as [? []]). apply HQ; [|done].
    eapply holds_ext; [exact H|]. intros a _ _. rewrite store_out by (simpl; lia). done.
  - destruct (Hp la ltac:(lia)) as [q Hq]. assert (Hla : is_u32 la) by (unfold is_u32; lia).
    apply wp_bind. unfold ustore. apply wp_bind, wp_get. rewrite (locate_page s V la q) by done.
    apply wp_bind, wp_ret. eapply wp_eq; [reflexivity|]. cbv beta.
    destruct (holds_put (mm_mem (y_mm s)) V la b q H Hla Hq) as [Hh Hk]. set (m1 := <[_ := put_word_byte _ _ _]> (mm_mem (y_mm s))) in *.
    assert (Hnext : bs = [] \/ u32 (la + 1) = la + 1).
    { destruct bs; [by left|right]. apply u32_id. unfold is_u32. simpl in H1. lia. }
    destruct Hnext as [->|Eu].
    + cbn [ustores]. apply wp_ret. by apply HQ.
    + rewrite Eu. eapply (IH (la + 1) (Disk.store la [b] V)); [exact Hh|done|lia|lia| |].
      * intros a Ha. apply Hp. lia.
      * intros m' Hm' Hk'. change (with_memory m' (with_memory m1 s)) with (with_memory m' s). apply HQ.
        -- eapply holds_ext; [exact Hm'|]. intros a _ _. apply store_cons.
        -- intros q' x Hq' Hx Hn. rewrite <- (Hk q' x Hq' Hx Hn). by apply Hk'.
Qed.

Lemma zero_loop_stores n i : (zero_loop n i : M S unit) = ustores i (replicate n NUL).
Proof. revert i. induction n as [|n IH]; intros i; cbn [zero_loop replicate ustores]; [done|]. by rewrite IH. Qed.

Lemma length_readable k s V la : holds (mm_mem (y_mm s)) dp T P V -> y_cr3 s = page2pa dp -> 0 <= la -> la + Z.of_nat k <= 2 ^ 32 ->
  in_pages P la (la + Z.of_nat k) -> length (readable k s la) = k.
Proof.
  intros H Hc. revert la. induction k as [|k IH]; intros la H0 H1 Hp; [done|]. cbn [readable].
  rewrite (byte_at_page s V la H Hc) by (unfold is_u32; lia || (apply Hp; lia)). cbn [length]. f_equal. destruct k as [|k]; [done|].
  rewrite u32_id by (unfold is_u32; lia). apply IH; [lia|lia|]. intros a Ha. apply Hp. lia.
Qed.
End access.

(** ** [mm_alloc] *)

(** The pages that meet [va, va+len). *)
Definition page_lo (va : Z) : Z := va / 4096.
Definition page_hi (va len : Z) : Z := (va + len + 4095) / 4096.

Lemma PGNUM_lo va : PGNUM (ROUNDDOWN va PGSIZE) = page_lo va.
Proof.
  destruct (ROUNDDOWN_spec va PGSIZE) as [H1 H2]; [unfold PGSIZE; lia|]. unfold PGSIZE in *. rewrite PGNUM_eq. unfold page_lo.
  pose proof (Z.div_mod (ROUNDDOWN va 4096) 4096 ltac:(lia)). apply (Z.div_unique _ _ _ (va - ROUNDDOWN va 4096)); lia.
Qed.
Lemma PGNUM_hi va len : 0 <= va + len -> va + len + 2 * PGSIZE <= 2 ^ 32 -> PGNUM (ROUNDUP (va + len) PGSIZE) = page_hi va len.
Proof.
  intros H0 H. destruct (ROUNDUP_spec (va + len) PGSIZE) as [H1 H2]; [unfold PGSIZE in *; lia..|]. unfold PGSIZE in *.
  rewrite PGNUM_eq. unfold page_hi. pose proof (Z.div_mod (ROUNDUP (va + len) 4096) 4096 ltac:(lia)).
  apply (Z.div_unique _ _ _ (va + len + 4095 - ROUNDUP (va + len) 4096)); lia.
Qed.

(** Writes that leave the directory and its tables. *)
Definition tables_kept (m m' : Z -> Z) (dp : Z) : Prop := forall tbl, dir_ok m dp tbl ->
  (forall i, 0 <= i < 1024 -> m' (entry (page2kva dp) i) = m (entry (page2kva dp) i)) /\
  (forall i j, 0 <= i < 1024 -> 0 <= j < 1024 -> present (m (entry (page2kva dp) i)) = true -> m' (entry (page2kva (tbl i)) j) = m (entry (page2kva (tbl i)) j)).

Lemma frames_tables m m' dp T P V : holds m dp T P V -> frames_kept P m m' -> tables_kept m m' dp.
Proof.
  intros [_ H3 _ _ _] Hk tbl Hok. split.
  - intros i Hi. apply Hk; [apply Hok|done|]. intros g Hg. by destruct (H3 g dp Hg) as [_ [? _]].
  - intros i j Hi Hj Hp. destruct (do_table _ _ _ Hok i Hi Hp) as (_ & Hr & _). apply Hk; [done|done|]. intros g Hg.
    destruct (H3 g _ Hg) as [_ Hs]. apply (spare_dir _ _ _ _ Hok) in Hs as [_ Hs]. by apply (Hs i Hi Hp).
Qed.

(** The address space after [mm_alloc]: pages [lo, hi) are new, on frames
    that are [mine]. *)
Record grown (R mine : Z -> Prop) (s s' : mmst) (dp lo hi : Z) (T P P' : Z -> option Z) (V V' : mem) : Prop := {
  gr_holds : holds (mm_mem s') dp T P' V';
  gr_new : forall g, lo <= g < hi -> exists q, P' g = Some q /\ mine q;
  gr_old : forall g, ~ lo <= g < hi -> P' g = P g;
  gr_bytes : forall la, is_Some (P (PGNUM la)) -> V' la = V la;
  gr_mapped : forall g q o, R g -> ~ lo <= g < hi -> frame_at (mm_mem s) dp g = Some q -> 0 <= o < 1024 ->
    mm_mem s' (entry (page2kva q) o) = mm_mem s (entry (page2kva q) o);
  gr_kept : forall q, 0 <= q < npages -> ~ mine q -> spare (mm_mem s) dp q -> spare (mm_mem s') dp q /\
    forall o, 0 <= o < 1024 -> mm_mem s' (entry (page2kva q) o) = mm_mem s (entry (page2kva q) o);
  gr_kern : mm_kern_pgdir s' = mm_kern_pgdir s }.

(** [AL r P s]: with the pages [P] mapped, [r] more of the pages [R] can be. *)
Class Allocator (dp : Z) (T : Z -> option Z) (R mine : Z -> Prop) (AL : Z -> (Z -> option Z) -> mmst -> Prop) : Prop := {
  al_write : forall r P s m', AL r P s -> tables_kept (mm_mem s) m' dp -> AL r P (with_mem m' s);
  al_flush : forall r P s, AL r P s -> AL r P (with_tlb no_tlb s);
  al_alloc : forall r P V s va len (Q : unit -> mmst -> Prop) J (lo := page_lo va) (hi := page_hi va len),
    holds (mm_mem s) dp T P V -> 0 <= r -> AL (r + (hi - lo)) P s -> is_u32 va -> 0 < len -> va + len + 2 * PGSIZE <= 2 ^ 32 ->
    (forall g, lo <= g < hi -> P g = None /\ R g) ->
    (forall s' P' V', grown R mine s s' dp lo hi T P P' V V' -> AL r P' s' -> Q tt s') -> wp (mm_alloc (page2kva dp) va len) Q J s }.

(** The pages that meet a range, and its addresses. *)
Lemma range_pages va len (lo := page_lo va) (hi := page_hi va len) (LO := ROUNDDOWN va PGSIZE) (HI := ROUNDUP (va + len) PGSIZE) :
  is_u32 va -> 0 <= len -> va + len + 2 * PGSIZE <= 2 ^ 32 -> LO = 4096 * lo /\ HI = 4096 * hi /\ (HI - LO) / PGSIZE = hi - lo /\
  (forall la, lo <= PGNUM la < hi <-> LO <= la < HI) /\ (forall la, LO <= la < HI -> is_u32 la).
Proof.
  intros Hva Hlen Hend. destruct (ROUNDDOWN_spec va PGSIZE) as [Hlo1 Hlo2]; [unfold PGSIZE; lia|].
  destruct (ROUNDUP_spec (va + len) PGSIZE) as [Hhi1 Hhi2]; [unfold PGSIZE, is_u32 in *; lia..|].
  pose proof (PGNUM_lo va) as Elo. pose proof (PGNUM_hi va len ltac:(unfold is_u32 in *; lia) Hend) as Ehi. fold lo in Elo. fold hi in Ehi.
  fold LO in Elo, Hlo1, Hlo2. fold HI in Ehi, Hhi1, Hhi2. rewrite PGNUM_eq in Elo, Ehi.
  assert (E1 : LO = 4096 * lo) by (unfold PGSIZE in *; pose proof (Z.div_mod LO 4096 ltac:(lia)); lia).
  assert (E2 : HI = 4096 * hi) by (unfold PGSIZE in *; pose proof (Z.div_mod HI 4096 ltac:(lia)); lia).
  split_and!; [done|done| | |].
  - rewrite E1, E2. unfold PGSIZE. replace (4096 * hi - 4096 * lo) with ((hi - lo) * 4096) by lia. by apply Z.div_mul.
  - intros la. rewrite PGNUM_eq, E1, E2. pose proof (Z.div_mod la 4096 ltac:(lia)). pose proof (Z.mod_pos_bound la 4096 ltac:(lia)). lia.
  - intros la Hla. unfold is_u32, PGSIZE in *. pose proof (Z.div_pos va 4096). unfold lo, page_lo in *. lia.
Qed.

(** The bytes of the pages [P'], those of [V] where there were pages before. *)
Definition read_pages (m : Z -> Z) (P P' : Z -> option Z) (V : mem) : mem := fun la =>
  match P (PGNUM la) with Some _ => V la | None =>
    match P' (PGNUM la) with Some q => byte.of_Z (byte_in m q (PGOFF la)) | None => NUL end end.

Lemma read_pages_byte m m' P P' V la q : is_u32 la -> P' (PGNUM la) = Some q ->
  (forall q, P (PGNUM la) = Some q -> P' (PGNUM la) = Some q /\ byte_in m' q (PGOFF la) = byte_in m q (PGOFF la) /\ byte_in m q (PGOFF la) = byte.unsigned (V la)) ->
  byte_in m' q (PGOFF la) = byte.unsigned (read_pages m' P P' V la).
Proof.
  intros Hla Hq Hold. unfold read_pages. rewrite Hq. destruct (P (PGNUM la)) as [q'|] eqn:E.
  - destruct (Hold q' eq_refl) as (E1 & E2 & E3). assert (q = q') as -> by congruence. by rewrite E2.
  - rewrite byte.unsigned_of_Z. unfold byte.wrap. symmetry. apply Z.mod_small. apply word_byte_range.
Qed.

(** ** An allocator with its free pages in order *)

(** The free pages are those from some page on; the first [n0] are not given
    out. *)
Definition in_order (dp n0 : Z) (r : Z) (P : Z -> option Z) (s : mmst) : Prop := exists n, n0 <= n /\ n + 2 * r + 4 <= npages /\ fresh s n /\
  (exists tbl, dir_ok (mm_mem s) dp tbl /\ below (mm_mem s) dp tbl n) /\ forall g q, P g = Some q -> q < n.

Section in_order.
Context (dp n0 : Z) (T : Z -> option Z) (R : Z -> Prop) (HT : forall la, is_u32 la -> R (PGNUM la) -> T la = None).
Context (Hrange : forall g, R g -> 0 <= g < 2 ^ 20).

Lemma in_order_write r P s m' : in_order dp n0 r P s -> tables_kept (mm_mem s) m' dp -> in_order dp n0 r P (with_mem m' s).
Proof.
  intros (n & H1 & H2 & H3 & (tbl & H4 & H5) & H6) Hk. exists n. split_and!; [done|done|done| |done].
  destruct (Hk tbl H4) as [K1 K2]. destruct (same_tables _ m' dp tbl H4 K1 K2) as (S1 & S2 & _). exists tbl. split; [exact S1|by apply S2].
Qed.

Lemma in_order_alloc r P V s va len (Q : unit -> mmst -> Prop) J (lo := page_lo va) (hi := page_hi va len) :
  holds (mm_mem s) dp T P V -> 0 <= r -> in_order dp n0 (r + (hi - lo)) P s -> is_u32 va -> 0 < len -> va + len + 2 * PGSIZE <= 2 ^ 32 ->
  (forall g, lo <= g < hi -> P g = None /\ R g) ->
  (forall s' P' V', grown R (fun q => n0 <= q) s s' dp lo hi T P P' V V' -> in_order dp n0 r P' s' -> Q tt s') ->
  wp (mm_alloc (page2kva dp) va len) Q J s.
Proof using HT Hrange.
  intros [_ H3 H4 H5 H6] Hr (n & N1 & N2 & Hf & (tbl & H2 & H2') & N3) Hva Hlen Hend Hun HQ.
  destruct (range_pages va len Hva ltac:(lia) Hend) as (E1 & E2 & Ek & Hin & Hu). fold lo hi in E1, E2, Ek, Hin.
  set (LO := ROUNDDOWN va PGSIZE) in *. set (HI := ROUNDUP (va + len) PGSIZE) in *.
  eapply (wp_mm_alloc dp tbl s n); fold LO HI; rewrite ?Ek; try done; [lia|lia| |].
  { intros la Hla. rewrite H5 by auto. apply Hin in Hla as Hla'. destruct (Hun _ Hla') as [-> HR]. by apply HT; [apply Hu|]. }
  intros s' tbl' n' f _ _ O1 O2 Hf' Hn' [R1 R2 R3 R4] [S1 S2 S3 _].
  assert (Ep : PGNUM LO = lo /\ PGNUM HI = hi) by (rewrite !PGNUM_eq, E1, E2, !(Z.mul_comm 4096), !Z.div_mul by lia; done). destruct Ep as [Ep1 Ep2]. rewrite Ep1, Ep2 in *.
  set (P' := fun g => if decide (lo <= g < hi) then Some (f g) else P g).
  assert (Hnpg : n' <= npages) by (destruct Hf'; lia).
  assert (Hlt : forall g q, P' g = Some q -> q < n').
  { intros g q. unfold P'. case_decide; [intros [= <-]; by apply R3|]. intros Hq. specialize (N3 g q Hq). lia. }
  apply (HQ s' P' (read_pages (mm_mem s') P P' V)).
  2:{ exists n'. split_and!; [lia|lia|done|by exists tbl'|done]. }
  split; [| | | | | |done].
  - split; [by exists tbl'|..].
    + intros g q. unfold P'. case_decide as Hg.
      * intros [= <-]. specialize (R3 g Hg). destruct Hf. split; [lia|auto].
      * intros Hq. destruct (H3 g q Hq) as [Hq1 Hq2]. specialize (N3 g q Hq). split; [lia|]. apply S1; [lia|done].
    + intros g h q. unfold P'. repeat case_decide; intros Hg Hh; simplify_eq.
      * by apply R4.
      * specialize (N3 h _ Hh). specialize (R3 g). lia.
      * specialize (N3 g _ Hg). specialize (R3 h). lia.
      * by eapply H4.
    + intros la Hla. unfold P'. case_decide as Hg; [by apply R1, Hin|]. rewrite R2; [by apply H5|done|].
      pose proof (proj1 (not_iff_compat (Hin la)) Hg). lia.
    + intros la q Hla Hq. apply (read_pages_byte (mm_mem s)); [done|done|]. intros q' Hq'. assert (Hng : ~ lo <= PGNUM la < hi).
      { intros Hg. destruct (Hun _ Hg) as [E _]. congruence. }
      unfold P'. rewrite decide_False by done. destruct (H3 _ _ Hq') as [Hq1 Hq2]. specialize (N3 _ _ Hq').
      destruct (PGADDR_split la Hla) as (_ & _ & _ & Ho). destruct (off_word _ Ho) as (Ho1 & _). split_and!; [done| |by apply H6].
      unfold byte_in. by rewrite (proj2 (S1 q' ltac:(lia) Hq2)).
  - intros g Hg. exists (f g). unfold P'. rewrite decide_True by done. split; [done|]. specialize (R3 g Hg). lia.
  - intros g Hg. unfold P'. by rewrite decide_False.
  - intros la [q Hq]. unfold read_pages. by rewrite Hq.
  - intros g q o Hg _ Hq Ho. destruct (page_u32 g (Hrange g Hg)) as (Hu' & Hn & Hoff). pose proof (H5 _ Hu') as Htr. rewrite Hn in Htr. unfold frame_at in Hq.
    rewrite Htr, Hoff in Hq. destruct (P g) as [q'|] eqn:E; [|rewrite HT in Hq; [done|done|by rewrite Hn]].
    rewrite Z.add_0_r in Hq. injection Hq as Hq. unfold pa2page in Hq. rewrite <- (Z.add_0_r (page2pa q')), PGNUM_page2pa in Hq by lia. subst q'.
    destruct (H3 g q E) as [Hq1 Hq2]. specialize (N3 g q E). by apply (S1 q ltac:(lia) Hq2).
  - intros q Hq Hm Hs. apply S1; [lia|done].
Qed.

#[export] Instance in_order_allocator : Allocator dp T R (fun q => n0 <= q) (in_order dp n0).
Proof using HT Hrange. split; [exact in_order_write|by intros ? ? ? (n & H); exists n|exact in_order_alloc]. Qed.
End in_order.
