(* ===== verification/LoaderProofs.v ===== *)
(** * What loading a program means

    An executable file of which [loader_file] makes a process, and the
    state of the loader between two of its segments. *)

From S2P Require Import Prelude Proc Bytes Disk FileSys FsRead FsOpen Pmap PmapSpec PmapProofs PmapAlloc PmapProps Remap Keyboard Video Descr System Spawn Loader Boot.
From S2P Require Import Boot UserMem.

(** ** Programs *)

Section program.
Context (c : list byte).

Definition file_mem : mem := fun a => default NUL (c !! Z.to_nat a).

Definition prog_ph (i : nat) : Z := mem32 file_mem elf_phoff + sizeof_ph * Z.of_nat i.
Definition prog_phnum : nat := Z.to_nat (mem16 file_mem elf_phnum).
Definition prog_entry : Z := mem32 file_mem elf_entry.
Definition prog_off i : Z := mem32 file_mem (prog_ph i + ph_off).
Definition prog_vaddr i : Z := mem32 file_mem (prog_ph i + ph_vaddr).
Definition prog_filesz i : Z := mem32 file_mem (prog_ph i + ph_filesz).
Definition prog_memsz i : Z := mem32 file_mem (prog_ph i + ph_memsz).

(** The loader stops at such a header. *)
Definition prog_stops i : Prop := prog_vaddr i = 0 \/ prog_memsz i = 0.

Definition seg_lo i : Z := page_lo (prog_vaddr i).
Definition seg_hi i : Z := page_hi (prog_vaddr i) (prog_memsz i).

Definition stack_lo : Z := page_lo (USTACKTOP - USTACKSIZE).
Definition stack_hi : Z := page_hi (USTACKTOP - USTACKSIZE) USTACKSIZE.

(** An executable with [k] segments to load: they are above the first page
    and below the stack, and no two of them meet in a page. *)
Record program (k : nat) : Prop := {
  pr_size : 52 <= Z.of_nat (length c) < 65536;
  pr_magic : mem32 file_mem elf_magic = ELF_MAGIC;
  pr_count : (k <= prog_phnum)%nat;
  pr_some : forall i, (i < k)%nat -> ~ prog_stops i;
  pr_end : k = prog_phnum \/ prog_stops k;
  pr_headers : forall i, (i <= k < prog_phnum)%nat \/ (i < k)%nat -> prog_ph i + sizeof_ph <= Z.min 4096 (Z.of_nat (length c));
  pr_filesz : forall i, (i < k)%nat -> prog_filesz i <= prog_memsz i;
  pr_file : forall i, (i < k)%nat -> prog_off i + prog_filesz i <= Z.of_nat (length c);
  pr_low : forall i, (i < k)%nat -> 4096 <= prog_vaddr i;
  pr_high : forall i, (i < k)%nat -> seg_hi i <= stack_lo;
  pr_apart : forall i j, (i < j < k)%nat -> seg_hi i <= seg_lo j \/ seg_hi j <= seg_lo i }.

(** The pages of the first page, the stack and the segments from [i] on. *)
Fixpoint seg_pages (n i : nat) : Z :=
  match n with O => 0 | S n => seg_hi i - seg_lo i + seg_pages n (S i) end.

Definition page_used (k : nat) (g : Z) : Prop :=
  g = 0 \/ (exists i, (i < k)%nat /\ seg_lo i <= g < seg_hi i) \/ stack_lo <= g < stack_hi.

(** Segment [i] is in memory. *)
Definition seg_in (i : nat) (V : mem) : Prop :=
  (forall x, 0 <= x < prog_filesz i -> V (prog_vaddr i + x) = file_mem (prog_off i + x)) /\
  (forall x, prog_filesz i <= x < prog_memsz i -> V (prog_vaddr i + x) = NUL).

Lemma prog_ph_nonneg i : 0 <= prog_ph i.
Proof. unfold prog_ph, sizeof_ph. pose proof (mem_le_range 4 file_mem elf_phoff). unfold mem32. lia. Qed.
Lemma prog_ph_S i : prog_ph (S i) = prog_ph i + sizeof_ph.
Proof. unfold prog_ph, sizeof_ph. lia. Qed.
Lemma prog_field_range i x : is_u32 (mem32 file_mem (prog_ph i + x)).
Proof. apply mem_le_range. Qed.

Lemma seg_pages_nonneg n i : 0 <= seg_pages n i.
Proof.
  revert i. induction n as [|n IH]; intros i; cbn [seg_pages]; [lia|]. specialize (IH (S i)).
  enough (seg_lo i <= seg_hi i) by lia. unfold seg_lo, seg_hi, page_lo, page_hi. apply Z.div_le_mono; [lia|].
  pose proof (prog_field_range i ph_memsz) as H. unfold is_u32 in H. unfold prog_memsz. lia.
Qed.
End program.

(** ** The file being read *)

Section file.
Context {D : Type} `{!AtaDevice D}.
Context (d : D) (c : list byte) (f : FILE_STREAM) (fd : Z).
Context (Hfd : 0 <= fd) (Hsize : f_file_size f = Z.of_nat (length c)) (Hmax : Z.of_nat (length c) < 65536).
Context (Hbytes : forall off n, (off + n <= length c)%nat -> file_bytes d (inode_of d f) (Z.of_nat off) n = take n (drop off c)).
Implicit Types (s : fsst D).

Definition file_open (o : Z) s : Prop := fs_disk s = d /\ fs_fs s !! Z.to_nat fd = Some (set_offset o f).

Lemma wp_file_seek o o' s (Q : unit -> fsst D -> Prop) J : file_open o s -> is_u32 o' ->
  (forall s', file_open o' s' -> Q tt s') -> wp (fs_lseek_kr fd o') Q J s.
Proof using Hfd.
  intros [H1 H2] Ho HQ. unfold fs_lseek_kr. eapply wp_upd_stream; [done|exact H2|]. apply HQ. split; [done|].
  cbn [fs_fs with_fs]. rewrite list_lookup_insert_eq by (by eapply lookup_lt_Some). by rewrite u32_id by done.
Qed.

Lemma wp_file_read o L buf s (Q : Z * list byte -> fsst D -> Prop) J : file_open o s -> 0 <= o <= Z.of_nat (length c) -> 0 <= L < 2 ^ 31 ->
  Z.of_nat (length buf) = L ->
  (forall r s' o', file_open o' s' -> Q (r, splice 0 (take (Z.to_nat L) (drop (Z.to_nat o) c)) buf) s') ->
  wp (fs_read_kr fd buf L) Q J s.
Proof using Hfd Hsize Hmax Hbytes.
  intros [H1 H2] Ho HL Hb HQ. set (f1 := set_offset o f). assert (E : read_len f1 L = Z.min L (Z.of_nat (length c) - o)) by (unfold read_len; cbn; by rewrite Hsize).
  assert (Et : take (Z.to_nat (Z.min L (Z.of_nat (length c) - o))) (drop (Z.to_nat o) c) = take (Z.to_nat L) (drop (Z.to_nat o) c)).
  { destruct (decide (L <= Z.of_nat (length c) - o)); [by rewrite Z.min_l|]. rewrite !take_ge; [done| |]; rewrite length_drop; lia. }
  apply (wp_fs_read fd f1); rewrite ?E; [done|exact H2|cbn; lia|cbn; lia|done|lia|lia| |].
  - intros H0. rewrite H0 in Et. specialize (HQ (-1) s o (conj H1 H2)). rewrite <- Et in HQ. rewrite splice_nil in HQ. exact HQ.
  - intros s' Hpos [b ->]. rewrite H1. change (inode_of d f1) with (inode_of d f). cbn [f_offset f1 set_offset].
    change (f_offset f1) with o. rewrite <- (Z2Nat.id o) at 2 by lia. rewrite Hbytes, Et by lia.
    apply (HQ _ _ (o + Z.min L (Z.of_nat (length c) - o))). split; [done|]. cbn [fs_fs with_fs].
    rewrite list_lookup_insert_eq by (by eapply lookup_lt_Some). done.
Qed.
End file.

(** ** The loader fills the address space it is given *)

Section loading.
Context {D : Type} `{!AtaDevice D}.
Context (m0 : Z -> Z) (dp : Z) (T : Z -> option Z) (R mine : Z -> Prop) (AL : Z -> (Z -> option Z) -> mmst -> Prop).
Context (kern : Z) (k0 : kst) `{!Allocator dp T R mine AL}.
Abbreviation S := (sys D).
Implicit Types (s : S) (V : mem) (P : Z -> option Z) (r : Z).

(** While the loader works in the space of [dp]: the program has the pages
    [P] with the bytes [V], [r] more can be had, and the frames that are not
    [mine] to give are as they were. *)
Record loading r P V s : Prop := {
  ld_holds : holds (mm_mem (y_mm s)) dp T P V;
  ld_alloc : AL r P (y_mm s);
  ld_new : forall g q, P g = Some q -> mine q;
  ld_cr3 : y_cr3 s = page2pa dp;
  ld_kept : forall q, 0 <= q < npages -> ~ mine q -> spare m0 dp q -> spare (mm_mem (y_mm s)) dp q /\
    forall o, 0 <= o < 1024 -> mm_mem (y_mm s) (entry (page2kva q) o) = m0 (entry (page2kva q) o);
  ld_kern : mm_kern_pgdir (y_mm s) = kern;
  ld_k : y_k s = k0 }.

Lemma loading_fs r P V s fs : loading r P V s -> loading r P V (with_fsst fs s).
Proof. by intros [? ? ? ? ? ? ?]. Qed.

Lemma wp_uload_le r P V k la s (Q : Z -> S -> Prop) J : loading r P V s -> 0 <= la -> la + Z.of_nat k <= 2 ^ 32 ->
  in_pages P la (la + Z.of_nat k) -> Q (mem_le k V la) s -> wp (uload_le k la) Q J s.
Proof.
  intros H H0 H1 Hp HQ. eapply wp_eq; [|exact HQ]. eapply (uload_le_page dp T P s V); [apply H|apply H|done..].
Qed.

Lemma length_readable_loading r P V k s la : loading r P V s -> 0 <= la -> la + Z.of_nat k <= 2 ^ 32 ->
  in_pages P la (la + Z.of_nat k) -> length (readable k s la) = k.
Proof. intros H H0 H1 Hp. eapply (length_readable dp T P k s V); [apply H|apply H|done..]. Qed.

Lemma wp_stores r P V bs la s (Q : unit -> S -> Prop) J : loading r P V s -> 0 <= la -> la + Z.of_nat (length bs) <= 2 ^ 32 ->
  in_pages P la (la + Z.of_nat (length bs)) ->
  (forall s', loading r P (Disk.store la bs V) s' -> y_fs s' = y_fs s -> Q tt s') -> wp (ustores la bs) Q J s.
Proof using Allocator0.
  intros [L1 L2 L3 L4 L5 L6 L7] H0 H1 Hp HQ. eapply (wp_ustores dp T P bs la V s); [done..|]. intros m' Hm' Hk.
  pose proof (frames_tables _ _ _ _ _ _ L1 Hk) as Ht. apply HQ; [|done].
  split; cbn [y_mm with_memory with_mm mm_mem with_mem mm_kern_pgdir y_cr3 y_k]; try done; [by apply al_write|].
  intros q Hq Hn Hs. destruct (L5 q Hq Hn Hs) as [S1 S2]. split.
  - destruct (uh_dir _ _ _ _ _ L1) as [tbl Hok]. destruct (Ht tbl Hok) as [K1 K2]. by apply (same_tables _ m' dp tbl Hok K1 K2).
  - intros o Ho. rewrite (Hk q o); [by apply S2|done|done|]. intros g Hg. by apply Hn, (L3 g).
Qed.

Lemma wp_zero_fill r P V pa from to s (Q : unit -> S -> Prop) J : loading r P V s -> 0 <= pa -> 0 <= from <= to -> pa + to < 2 ^ 32 ->
  in_pages P (pa + from) (pa + to) ->
  (forall V' s', loading r P V' s' -> y_fs s' = y_fs s -> (forall a, pa + from <= a < pa + to -> V' a = NUL) ->
     (forall a, a < pa + from \/ pa + to <= a -> V' a = V a) -> Q tt s') -> wp (zero_fill pa from to) Q J s.
Proof using Allocator0.
  intros HL H0 H1 H2 Hp HQ. unfold zero_fill. rewrite !u32_id by (unfold is_u32; lia). rewrite zero_loop_stores.
  set (k := Z.to_nat (pa + to - (pa + from))). assert (Ek : Z.of_nat k = to - from) by (unfold k; lia).
  eapply wp_stores; [exact HL|lia|rewrite length_replicate; lia|rewrite length_replicate; intros a Ha; apply Hp; lia|].
  intros s' HL' Hf. eapply HQ; [exact HL'|done|..].
  - intros a Ha. rewrite store_in by (rewrite length_replicate; lia). rewrite lookup_replicate_2 by lia. done.
  - intros a Ha. apply store_out. rewrite length_replicate. lia.
Qed.

Lemma wp_grow r P V va len s (Q : unit -> S -> Prop) J (lo := page_lo va) (hi := page_hi va len) :
  loading (r + (hi - lo)) P V s -> 0 <= r -> is_u32 va -> 0 < len -> va + len + 2 * PGSIZE <= 2 ^ 32 ->
  (forall g, lo <= g < hi -> P g = None /\ R g) ->
  (forall s' P' V', loading r P' V' s' -> y_fs s' = y_fs s ->
     (forall g, lo <= g < hi -> is_Some (P' g)) -> (forall g, ~ lo <= g < hi -> P' g = P g) ->
     (forall la, is_Some (P (PGNUM la)) -> V' la = V la) ->
     (forall g q o, R g -> ~ lo <= g < hi -> frame_at (mm_mem (y_mm s)) dp g = Some q -> 0 <= o < 1024 ->
        mm_mem (y_mm s') (entry (page2kva q) o) = mm_mem (y_mm s) (entry (page2kva q) o)) -> Q tt s') ->
  wp (on_mm (mm_alloc (page2kva dp) va len)) Q J s.
Proof using Allocator0.
  intros [L1 L2 L3 L4 L5 L6 L7] Hr Hva Hlen Hend Hun HQ. apply wp_on_mm.
  eapply (al_alloc r P V (y_mm s) va len); [done..|]. intros mm P' V' [G1 G2 G3 G4 GM G5 G6] HA.
  apply (HQ _ P' V'); [|done| |done|done|done].
  - split; cbn [y_mm with_mm y_cr3 y_k]; try done; [| |congruence].
    + intros g q Hg. destruct (decide (lo <= g < hi)) as [Hin|Hin].
      * destruct (G2 g Hin) as (q' & Hq' & Hn'). congruence.
      * rewrite (G3 g Hin) in Hg. by eapply L3.
    + intros q Hq Hn Hs. destruct (L5 q Hq Hn Hs) as [S1 S2]. destruct (G5 q Hq Hn S1) as [S3 S4]. split; [done|].
      intros o Ho. rewrite S4 by done. by apply S2.
  - intros g Hg. destruct (G2 g Hg) as (q & Hq & _). by exists q.
Qed.
End loading.

(** ** Addresses and pages *)

Lemma page_range va len la : va <= la < va + len -> page_lo va <= PGNUM la < page_hi va len.
Proof.
  intros H. rewrite PGNUM_eq. unfold page_lo, page_hi. split; [apply Z.div_le_mono; lia|].
  apply Z.le_succ_l. change (Z.succ (la / 4096)) with (la / 4096 + 1). rewrite <- (Z.div_add la 1 4096) by lia. apply Z.div_le_mono; lia.
Qed.
Lemma page_lo_le va len la : page_lo va <= PGNUM la < page_hi va len -> 4096 * page_lo va <= la < 4096 * page_hi va len.
Proof. rewrite PGNUM_eq. intros H. pose proof (Z.div_mod la 4096 ltac:(lia)). pose proof (Z.mod_pos_bound la 4096 ltac:(lia)). lia. Qed.
Lemma page_hi_end va len : va + len <= 4096 * page_hi va len.
Proof. unfold page_hi. pose proof (Z.div_mod (va + len + 4095) 4096 ltac:(lia)). pose proof (Z.mod_pos_bound (va + len + 4095) 4096 ltac:(lia)). lia. Qed.
Lemma stack_lo_eq : stack_lo = 781302.
Proof. vm_compute. reflexivity. Qed.

Section segments.
Context {D : Type} `{!AtaDevice D}.
Context (m0 : Z -> Z) (dp : Z) (T : Z -> option Z) (R mine : Z -> Prop) (AL : Z -> (Z -> option Z) -> mmst -> Prop) (kern : Z) (k0 : kst).
Context (d : D) (c : list byte) (f : FILE_STREAM) (fd : Z).
Context (Hfd : 0 <= fd) (Hsize : f_file_size f = Z.of_nat (length c)).
Context (Hbytes : forall off n, (off + n <= length c)%nat -> file_bytes d (inode_of d f) (Z.of_nat off) n = take n (drop off c)).
Context (k : nat) (HC : program c k) (HR : forall g, page_used c k g -> R g) `{!Allocator dp T R mine AL}.
Abbreviation S := (sys D).
Abbreviation loading := (loading (D := D) m0 dp T mine AL kern k0).
Implicit Types (s : S) (V : mem) (P : Z -> option Z) (r : Z).

(** Before segment [i] is loaded. *)
Record at_segment (i : nat) P V s : Prop := {
  at_loading : loading (seg_pages c (k - i) i + (stack_hi - stack_lo)) P V s;
  at_pages : forall g, is_Some (P g) -> g = 0 \/ exists j, (j < i)%nat /\ seg_lo c j <= g < seg_hi c j;
  at_first : in_pages P 0 4096;
  at_header : forall a, 0 <= a < Z.min 4096 (Z.of_nat (length c)) -> V a = file_mem c a;
  at_segs : forall j, (j < i)%nat -> in_pages P (prog_vaddr c j) (prog_vaddr c j + prog_memsz c j) /\ seg_in c j V;
  at_file : exists o, file_open d f fd o (y_fs s) }.

(** A word of the header. *)
Lemma wp_header r P V j a s (Q : Z -> S -> Prop) J : loading r P V s -> in_pages P 0 4096 ->
  (forall a, 0 <= a < Z.min 4096 (Z.of_nat (length c)) -> V a = file_mem c a) ->
  0 <= a -> a + Z.of_nat j <= Z.min 4096 (Z.of_nat (length c)) -> Q (mem_le j (file_mem c) a) s -> wp (uload_le j a) Q J s.
Proof.
  intros HL Hp HV H0 H1 HQ. eapply wp_uload_le; [exact HL|done|lia|intros x Hx; apply Hp; lia|].
  rewrite (mem_le_ext j V (file_mem c)); [done|]. intros x Hx. apply HV. lia.
Qed.

Lemma wp_ph r P V i x s (Q : Z -> S -> Prop) J : loading r P V s -> in_pages P 0 4096 ->
  (forall a, 0 <= a < Z.min 4096 (Z.of_nat (length c)) -> V a = file_mem c a) ->
  prog_ph c i + sizeof_ph <= Z.min 4096 (Z.of_nat (length c)) -> 0 <= x <= 28 ->
  Q (mem32 (file_mem c) (prog_ph c i + x)) s -> wp (uload32 (u32 (prog_ph c i + x))) Q J s.
Proof.
  intros HL Hp HV Hh Hx HQ. pose proof (prog_ph_nonneg c i). unfold sizeof_ph in Hh. rewrite u32_id by (unfold is_u32; lia).
  eapply wp_header; [done..|lia|lia|exact HQ].
Qed.

(** Segment [i] is apart from what is loaded before it. *)
Lemma segment_new i g : (i < k)%nat -> seg_lo c i <= g < seg_hi c i -> g <> 0 /\ forall j, (j < i)%nat -> ~ seg_lo c j <= g < seg_hi c j.
Proof using HC.
  intros Hi Hg. split.
  - intros ->. pose proof (pr_low _ _ HC i Hi) as Hl. assert (4096 / 4096 <= seg_lo c i) by (apply Z.div_le_mono; lia). change (4096 / 4096) with 1 in *. lia.
  - intros j Hj Hg'. destruct (pr_apart _ _ HC j i ltac:(lia)); lia.
Qed.

(** A segment read from the file into its fresh pages. *)
Lemma load_segment_room i : (i < k)%nat -> seg_pages c (k - i) i = seg_hi c i - seg_lo c i + seg_pages c (k - Datatypes.S i) (Datatypes.S i).
Proof. intros Hi. by replace (k - i)%nat with (Datatypes.S (k - Datatypes.S i)) by lia. Qed.

Lemma segment_bounds i : (i < k)%nat -> 0 < prog_vaddr c i /\ prog_vaddr c i + prog_memsz c i <= 4096 * stack_lo /\
  0 <= prog_filesz c i <= prog_memsz c i /\ 0 <= prog_off c i.
Proof using HC.
  intros Hi. pose proof (pr_low _ _ HC i Hi). pose proof (pr_high _ _ HC i Hi). pose proof (pr_filesz _ _ HC i Hi).
  pose proof (page_hi_end (prog_vaddr c i) (prog_memsz c i)) as He. fold (seg_hi c i) in He.
  pose proof (prog_field_range c i ph_filesz) as R1. pose proof (prog_field_range c i ph_off) as R2. unfold is_u32 in *.
  fold (prog_filesz c i) in R1. fold (prog_off c i) in R2. lia.
Qed.

Lemma wp_segment i P V s (rest : M S unit) (Q : unit -> S -> Prop) J : (i < k)%nat -> at_segment i P V s ->
  (forall P' V' s', at_segment (Datatypes.S i) P' V' s' -> wp rest Q J s') ->
  wp (on_mm (mm_alloc (page2kva dp) (prog_vaddr c i) (prog_memsz c i));;
      off ← uload32 (u32 (prog_ph c i + ph_off));
      on_fs (fs_lseek_kr fd off);;
      filesz ← uload32 (u32 (prog_ph c i + ph_filesz));
      s ← get;
      '(_, bs) ← on_fs (fs_read_kr fd (readable (Z.to_nat filesz) s (prog_vaddr c i)) (i32 filesz));
      ustores (prog_vaddr c i) bs;;
      filesz ← uload32 (u32 (prog_ph c i + ph_filesz));
      memsz ← uload32 (u32 (prog_ph c i + ph_memsz));
      zero_fill (prog_vaddr c i) filesz memsz;;
      rest) Q J s.
Proof using HC HR Hfd Hsize Hbytes Allocator0.
  intros Hi [A1 A3 A4 A5 A6 A7] HQ. destruct (segment_bounds i Hi) as (B1 & B2 & B3 & B4).
  pose proof (pr_size _ _ HC) as Hsz. pose proof (pr_file _ _ HC i Hi) as Hfile. pose proof (pr_low _ _ HC i Hi) as Hlow.
  pose proof (pr_headers _ _ HC i (or_intror Hi)) as Hh. rewrite stack_lo_eq in B2. rewrite load_segment_room in A1 by done.
  pose proof (seg_pages_nonneg c (k - Datatypes.S i) (Datatypes.S i)) as Hnn.
  assert (Hst : 0 <= stack_hi - stack_lo) by (vm_compute; discriminate).
  assert (Hms : prog_memsz c i <> 0) by (intros E; apply (pr_some _ _ HC i Hi); by right).
  set (r := seg_pages c (k - Datatypes.S i) (Datatypes.S i) + (stack_hi - stack_lo)).
  replace (_ + (stack_hi - stack_lo)) with (r + (seg_hi c i - seg_lo c i)) in A1 by (unfold r; lia).
  apply wp_bind. eapply (wp_grow m0 dp T R mine AL kern k0 r P V); [exact A1|lia|unfold is_u32; lia|lia|unfold PGSIZE; lia| |].
  { fold (seg_lo c i) (seg_hi c i). intros g Hg. destruct (segment_new i g Hi Hg) as [Hn0 Hnj]. split.
    - destruct (P g) eqn:E; [|done]. destruct (A3 g) as [?|(j & Hj & Hg')]; [by eexists|done|]. by destruct (Hnj j Hj).
    - apply HR. right. left. by exists i. }
  fold (seg_lo c i) (seg_hi c i). intros s1 P1 V1 L1 F1 G1 G2 G3 _.
  assert (Hpg : forall g, is_Some (P g) -> is_Some (P1 g)).
  { intros g Hg. destruct (decide (seg_lo c i <= g < seg_hi c i)) as [Hr|Hr]; [by apply G1|by rewrite G2]. }
  assert (A4' : in_pages P1 0 4096) by (intros a Ha; by apply Hpg, A4).
  assert (A5' : forall a, 0 <= a < Z.min 4096 (Z.of_nat (length c)) -> V1 a = file_mem c a).
  { intros a Ha. rewrite G3; [by apply A5|]. apply A4. lia. }
  assert (Hin : in_pages P1 (prog_vaddr c i) (prog_vaddr c i + prog_memsz c i)) by (intros a Ha; by apply G1, page_range).
  apply wp_bind. eapply wp_ph; [exact L1|done..|unfold ph_off; lia|]. fold (prog_off c i).
  destruct A7 as [o Ho]. apply wp_bind, wp_on_fs. rewrite <- F1 in Ho. eapply (wp_file_seek d f fd Hfd); [exact Ho|apply prog_field_range|].
  intros fs2 Ho2. assert (L2 : loading r P1 V1 (with_fsst fs2 s1)) by (by apply loading_fs).
  apply wp_bind. eapply wp_ph; [exact L2|done..|unfold ph_filesz; lia|]. fold (prog_filesz c i).
  apply wp_bind, wp_get. rewrite i32_id by (unfold is_i32; lia).
  assert (Hin' : in_pages P1 (prog_vaddr c i) (prog_vaddr c i + prog_filesz c i)) by (intros a Ha; apply Hin; lia).
  set (buf := readable _ _ _). assert (Hbuf : length buf = Z.to_nat (prog_filesz c i)) by (eapply length_readable_loading; [exact L2|lia|lia|]; rewrite Z2Nat.id by lia; done).
  apply wp_bind, wp_on_fs. eapply (wp_file_read d c f fd Hfd Hsize ltac:(lia) Hbytes (prog_off c i) (prog_filesz c i) buf); [exact Ho2|lia|lia|lia|].
  intros x0 fs3 o3 Ho3. set (bs := splice _ _ _).
  assert (Ebs : bs = take (Z.to_nat (prog_filesz c i)) (drop (Z.to_nat (prog_off c i)) c)).
  { unfold bs, splice. rewrite take_0, app_nil_l, (drop_ge buf), app_nil_r; [done|]. rewrite length_take, length_drop. lia. }
  assert (Hlb : Z.of_nat (length bs) = prog_filesz c i) by (rewrite Ebs, length_take, length_drop; lia).
  assert (L3 : loading r P1 V1 (with_fsst fs3 (with_fsst fs2 s1))) by (by apply loading_fs).
  apply wp_bind. eapply (wp_stores m0 dp T R mine AL kern k0); [exact L3|lia|lia|rewrite Hlb; done|]. intros s4 L4 F4. set (V4 := Disk.store _ _ _) in L4.
  assert (H4 : forall a, 0 <= a < Z.min 4096 (Z.of_nat (length c)) -> V4 a = file_mem c a) by (intros a Ha; unfold V4; rewrite store_out by lia; by apply A5').
  apply wp_bind. eapply wp_ph; [exact L4|done..|unfold ph_filesz; lia|]. fold (prog_filesz c i).
  apply wp_bind. eapply wp_ph; [exact L4|done..|unfold ph_memsz; lia|]. fold (prog_memsz c i).
  apply wp_bind. eapply (wp_zero_fill m0 dp T R mine AL kern k0); [exact L4|lia|lia|lia|intros a Ha; apply Hin; lia|]. intros V5 s5 L5 F5 Z1 Z2.
  assert (Hout : forall a, a < prog_vaddr c i \/ prog_vaddr c i + prog_memsz c i <= a -> V5 a = V1 a).
  { intros a Ha. rewrite Z2 by lia. unfold V4. apply store_out. lia. }
  apply (HQ P1 V5). split.
  - exact L5.
  - intros g Hg. destruct (decide (seg_lo c i <= g < seg_hi c i)) as [Hr|Hr]; [right; exists i; split; [lia|done]|].
    rewrite G2 in Hg by done. destruct (A3 g Hg) as [?|(j & Hj & Hg')]; [by left|right; exists j; split; [lia|done]].
  - exact A4'.
  - intros a Ha. rewrite Hout by lia. by apply A5'.
  - intros j Hj. destruct (decide (j = i)) as [->|Hne].
    + split; [done|]. split; [|intros x Hx; apply Z1; lia]. intros x Hx. rewrite Z2 by lia. unfold V4. rewrite store_in by lia.
      rewrite Ebs, lookup_take_lt, lookup_drop by lia. unfold file_mem. do 2 f_equal. lia.
    + destruct (A6 j ltac:(lia)) as [Hpj Hsj]. split; [intros a Ha; by apply Hpg, Hpj|]. pose proof (segment_bounds j ltac:(lia)) as (J1 & _ & J3 & _).
      assert (Hsame : forall x, 0 <= x < prog_memsz c j -> V5 (prog_vaddr c j + x) = V (prog_vaddr c j + x)).
      { intros x Hx. rewrite <- G3 by (apply Hpj; lia). apply Hout.
        pose proof (page_range (prog_vaddr c j) (prog_memsz c j) (prog_vaddr c j + x) ltac:(lia)) as Hpj'. fold (seg_lo c j) (seg_hi c j) in Hpj'.
        destruct (decide (prog_vaddr c i <= prog_vaddr c j + x < prog_vaddr c i + prog_memsz c i)) as [Hd|]; [|lia]. exfalso.
        apply page_range in Hd. fold (seg_lo c i) (seg_hi c i) in Hd. destruct (segment_new i _ Hi Hd) as [_ Hnj]. by apply (Hnj j ltac:(lia)). }
      destruct Hsj as [S1 S2]. split; intros x Hx; rewrite Hsame by lia; auto.
  - exists o3. rewrite F5, F4. exact Ho3.
Qed.

Lemma wp_load_segments left i P V s (Q : unit -> S -> Prop) J : (i <= k)%nat -> (i + left = prog_phnum c)%nat -> at_segment i P V s ->
  (forall P' V' s', at_segment k P' V' s' -> Q tt s') -> wp (load_segments left (page2kva dp) fd (prog_ph c i)) Q J s.
Proof using HC HR Hfd Hsize Hbytes Allocator0.
  revert i P V s. induction left as [|left IH]; intros i P V s Hik Hl HA HQ; cbn [load_segments].
  - pose proof (pr_count _ _ HC). assert (i = k) as -> by lia. apply wp_ret. by eapply HQ.
  - pose proof HA as [A1 A3 A4 A5 A6 A7].
    assert (Hh : prog_ph c i + sizeof_ph <= Z.min 4096 (Z.of_nat (length c))).
    { apply (pr_headers _ _ HC). destruct (decide (i < k)%nat); [by right|left; lia]. }
    apply wp_bind. eapply wp_ph; [exact A1|done..|unfold ph_vaddr; lia|]. fold (prog_vaddr c i).
    apply wp_bind. eapply wp_ph; [exact A1|done..|unfold ph_memsz; lia|]. fold (prog_memsz c i).
    destruct (decide (i < k)%nat) as [Hi|Hi].
    + pose proof (pr_some _ _ HC i Hi) as Hs. destruct (_ || _) eqn:E.
      { exfalso. apply Hs. apply orb_true_iff in E as [E|E]; apply Z.eqb_eq in E; [by left|by right]. }
      eapply (wp_segment i P V s); [done|exact HA|]. intros P' V' s' HA'.
      assert (Eph : u32 (prog_ph c i + sizeof_ph) = prog_ph c (Datatypes.S i)).
      { rewrite prog_ph_S. apply u32_id. pose proof (prog_ph_nonneg c i). unfold is_u32, sizeof_ph in *. lia. }
      rewrite Eph. eapply IH; [lia|lia|exact HA'|exact HQ].
    + assert (i = k) as -> by lia. destruct (pr_end _ _ HC) as [?|[E|E]]; [lia|..]; rewrite E, ?orb_true_r; apply wp_ret; by eapply HQ.
Qed.
End segments.
