(* ===== verification/LoaderProps.v ===== *)
(** * Loading a program from a file

    From the disk image to a process ready to run: the segments of an ELF
    file in the pages of the process, zeros behind them, a stack, and a trap
    frame that starts the program at its entry point. *)

From S2P Require Import Prelude Bytes Disk FileSys FsRead FsOpen Fmt FmtProofs FmtCopy FmtImage FmtFormat FmtProps.
From S2P Require Import Pmap PmapSpec PmapProofs PmapAlloc PmapProps Remap Proc DemoProc Keyboard Readline Video Descr System Spawn Loader Boot UserMem LoaderProofs.

(** ** The trap frame *)

(** [*p->tf] is [tf]. *)
Record proc_frame (k : kst) (p : nat) (c : PCB) (tf : TrapFrame) : Prop := {
  pf_pcb : k_PCBPool k !! p = Some c;
  pf_tf : (p_tf c = TFStack p /\ p_frame c = tf) \/ (exists i, p_tf c = TFPool i /\ k_tfPool k !! i = Some tf) }.

(** What a change of the trap frame of [p] leaves. *)
Definition retouched (k k' : kst) (p : nat) (c c' : PCB) : Prop :=
  p_pgdir c' = p_pgdir c /\ p_pid c' = p_pid c /\ p_fcb c' = p_fcb c /\ p_used c' = p_used c /\
  forall q, q <> p -> k_PCBPool k' !! q = k_PCBPool k !! q.

Lemma retouched_refl k p c : retouched k k p c c.
Proof. by split_and!. Qed.
Lemma retouched_trans k1 k2 k3 p c1 c2 c3 : retouched k1 k2 p c1 c2 -> retouched k2 k3 p c2 c3 -> retouched k1 k3 p c1 c3.
Proof. intros (? & ? & ? & ? & H) (? & ? & ? & ? & H'). split_and!; try congruence. intros q Hq. by rewrite H', H. Qed.

Lemma wp_get_pcb_at k p c (Q : PCB -> kst -> Prop) J : k_PCBPool k !! p = Some c -> Q c k -> wp (get_pcb (Some p)) Q J k.
Proof. intros Hc HQ. unfold get_pcb. apply wp_bind, wp_ret, wp_bind, wp_get. by rewrite Hc. Qed.
Lemma wp_upd_pcb_at k p c f (Q : unit -> kst -> Prop) J : k_PCBPool k !! p = Some c -> Q tt (kset_pcb p f k) -> wp (upd_pcb (Some p) f) Q J k.
Proof. intros Hc HQ. eapply wp_eq; [by eapply upd_pcb_run|done]. Qed.

Lemma wp_get_tf k p c tf (Q : TrapFrame -> kst -> Prop) J : proc_frame k p c tf -> Q tf k -> wp (get_tf (Some p)) Q J k.
Proof.
  intros [H1 H2] HQ. unfold get_tf. eapply wp_bind, wp_get_pcb_at; [done|]. destruct H2 as [[-> <-]|(i & -> & Hi)].
  - eapply wp_bind, wp_get_pcb_at; [done|]. by apply wp_ret.
  - apply wp_bind, wp_get. by rewrite Hi.
Qed.

Lemma kset_pcb_eq k p c f : k_PCBPool k !! p = Some c -> k_PCBPool (kset_pcb p f k) !! p = Some (f c).
Proof. intros H. simpl. by rewrite lookup_alter_list, decide_True, H. Qed.
Lemma kset_pcb_ne k p q f : q <> p -> k_PCBPool (kset_pcb p f k) !! q = k_PCBPool k !! q.
Proof. intros H. simpl. by rewrite lookup_alter_list, decide_False. Qed.

Lemma wp_upd_tf k p c tf f (Q : unit -> kst -> Prop) J : proc_frame k p c tf ->
  (forall k' c', proc_frame k' p c' (f tf) -> p_tt c' = p_tt c -> retouched k k' p c c' -> Q tt k') -> wp (upd_tf (Some p) f) Q J k.
Proof.
  intros Hp HQ. unfold upd_tf. eapply wp_bind, wp_get_tf; [exact Hp|]. pose proof Hp as [H1 H2].
  eapply wp_bind, wp_get_pcb_at; [done|]. destruct H2 as [[E1 E2]|(i & E1 & Hi)]; rewrite E1.
  - eapply wp_upd_pcb_at; [done|]. eapply (HQ _ (with_frame (f tf) c)); [|done|].
    + split; [by apply kset_pcb_eq|]. by left.
    + split_and!; [done..|]. intros q Hq. by apply kset_pcb_ne.
  - apply wp_modify. apply (HQ _ c); [|done|by split_and!]. split; [done|]. right. exists i. split; [done|].
    cbn [k_tfPool with_tfPool]. apply list_lookup_insert_eq. by eapply lookup_lt_Some.
Qed.

(** What a program finds in its registers. *)
Definition user_frame (ustack entry : Z) (tf : TrapFrame) : TrapFrame :=
  tf_eip entry (tf_esp ustack (tf_segments (Z.lor GD_UD 3) (Z.lor GD_UT 3) (Z.lor 0x2 FL_IF) tf)).

Lemma wp_init_user PCBPool_addr k p c tf ustack entry (Q : unit -> kst -> Prop) J : proc_frame k p c tf ->
  (forall k' c', proc_frame k' p c' (user_frame ustack entry tf) -> p_tt c' = USER -> retouched k k' p c c' -> Q tt k') ->
  wp (init_pcb PCBPool_addr p ustack entry 3) Q J k.
Proof.
  intros Hp HQ. unfold init_pcb. change (3 =? 0) with false. change (3 =? 3) with true. cbn iota.
  apply wp_bind. eapply wp_upd_tf; [exact Hp|]. intros k1 c1 H1 _ R1. apply wp_bind. eapply wp_upd_tf; [exact H1|]. intros k2 c2 H2 _ R2.
  apply wp_bind. eapply wp_upd_tf; [exact H2|]. intros k3 c3 H3 _ R3. apply wp_bind, wp_ret. destruct H3 as [P1 P2].
  eapply wp_upd_pcb_at; [exact P1|]. apply (HQ _ (with_tt USER c3)); [|done|].
  - split; [by apply kset_pcb_eq|]. exact P2.
  - eapply retouched_trans; [exact R1|]. eapply retouched_trans; [exact R2|]. eapply retouched_trans; [exact R3|].
    split_and!; [done..|]. intros q Hq. by apply kset_pcb_ne.
Qed.

(** ** [loader_file] *)

Section loader.
Context {D : Type} `{!AtaDevice D}.
Context (PCBPool_addr : Z).
Abbreviation S := (sys D).
Implicit Types (s : S).

(** The pages a program of [k] segments needs are free and not mapped. *)
Record room_for (c : list byte) (k : nat) (dp n : Z) s : Prop := {
  rf_dir : exists tbl, dir_ok (mm_mem (y_mm s)) dp tbl /\ below (mm_mem (y_mm s)) dp tbl n;
  rf_fresh : fresh (y_mm s) n;
  rf_room : n + 2 * (1 + seg_pages c k 0 + (stack_hi - stack_lo)) + 4 <= npages;
  rf_unmapped : forall la, is_u32 la -> page_used c k (PGNUM la) -> translate (mm_mem (y_mm s)) (page2pa dp) la = None }.

(** The process [p] as the loader leaves it, [s] being the state before; the
    frames that are [mine] were there to be used. *)
Record started (mine : Z -> Prop) (c : list byte) (k : nat) (p : nat) (dp : Z) (pcb : PCB) (tf : TrapFrame) s s' : Prop := {
  st_segs : forall i x, (i < k)%nat -> 0 <= x < prog_memsz c i ->
    byte_at (with_cr3 (page2pa dp) s') (prog_vaddr c i + x) =
      Some (if x <? prog_filesz c i then byte.unsigned (file_mem c (prog_off c i + x)) else 0);
  st_stack : forall la, USTACKTOP - USTACKSIZE <= la < USTACKTOP -> is_Some (byte_at (with_cr3 (page2pa dp) s') la);
  st_else : forall la, is_u32 la -> ~ page_used c k (PGNUM la) ->
    translate (mm_mem (y_mm s')) (page2pa dp) la = translate (mm_mem (y_mm s)) (page2pa dp) la;
  st_kept : forall q o, 0 <= q < npages -> ~ mine q -> spare (mm_mem (y_mm s)) dp q -> 0 <= o < 1024 ->
    mm_mem (y_mm s') (entry (page2kva q) o) = mm_mem (y_mm s) (entry (page2kva q) o);
  st_cr3 : y_cr3 s' = PADDR (mm_kern_pgdir (y_mm s));
  st_proc : exists pcb', proc_frame (y_k s') p pcb' (user_frame (USTACKTOP - 0x80) (prog_entry c) tf) /\ p_tt pcb' = USER /\
    retouched (y_k s) (y_k s') p pcb pcb' }.

Lemma page_used_range c k g : program c k -> page_used c k g -> 0 <= g < 2 ^ 20.
Proof.
  intros HC [->|[(i & Hi & Hg)|Hg]]; [lia|..].
  - pose proof (pr_high _ _ HC i Hi). rewrite stack_lo_eq in *. pose proof (pr_low _ _ HC i Hi).
    assert (0 <= seg_lo c i) by (apply Z.div_pos; lia). lia.
  - rewrite stack_lo_eq in Hg. change stack_hi with 781310 in Hg. lia.
Qed.

Lemma stack_pages_used c k g : stack_lo <= g < stack_hi -> page_used c k g.
Proof. intros H. by right; right. Qed.

Section steps.
Context (c : list byte) (k : nat) (HC : program c k) (p : nat) (pcb : PCB) (tf : TrapFrame) (dp : Z) (s0 : S) (R mine : Z -> Prop) (HR : forall g, page_used c k g -> R g) (AL : Z -> (Z -> option Z) -> mmst -> Prop).
Let T := translate (mm_mem (y_mm s0)) (page2pa dp).
Context `{!Allocator dp T R mine AL}.
Context (HP : proc_frame (y_k s0) p pcb tf).
Abbreviation loading := (loading (D := D) (mm_mem (y_mm s0)) dp T mine AL (mm_kern_pgdir (y_mm s0)) (y_k s0)).
Abbreviation started := (started mine c k p dp pcb tf s0).
(** What the loader does to the PCBs, as a computation. *)
Abbreviation framed k' := (init_pcb PCBPool_addr p (USTACKTOP - 0x80) (prog_entry c) 3 (y_k s0) = Ret tt k').

Section opened.
Context (d : D) (f : FILE_STREAM) (fd : Z).
Abbreviation at_segment := (at_segment (D := D) (mm_mem (y_mm s0)) dp T mine AL (mm_kern_pgdir (y_mm s0)) (y_k s0) d c f fd k).

Lemma wp_finish_load P V s (Q : unit -> S -> Prop) J : at_segment k P V s ->
  (forall s' P', started s' -> AL 0 P' (y_mm s') -> framed (y_k s') -> Q tt s') -> wp (finish_load PCBPool_addr p (page2kva dp) (prog_entry c)) Q J s.
Proof using HC HR Allocator0 HP.
  intros [A1 A3 A4 A5 A6 _] HQ. rewrite Nat.sub_diag in A1. cbn [seg_pages] in A1. unfold finish_load.
  assert (Hone : forall g, stack_lo <= g < stack_hi -> P g = None).
  { intros g Hg. destruct (P g) eqn:E; [|done]. exfalso. destruct (A3 g) as [->|(j & Hj & Hg')]; [by eexists| |].
    - rewrite stack_lo_eq in Hg. lia.
    - pose proof (pr_high _ _ HC j Hj). lia. }
  apply wp_bind. eapply (wp_grow _ _ _ R _ _ _ _ 0 P V); [exact A1|done|done|done|done| |].
  { fold stack_lo stack_hi. intros g Hg. split; [by apply Hone|]. by apply HR, stack_pages_used. }
  fold stack_lo stack_hi. intros s1 P1 V1 L1 F1 G1 G2 G3 _.
  apply wp_bind, wp_on_k. rewrite (ld_k _ _ _ _ _ _ _ _ _ _ _ L1). apply wp_runs. eapply wp_init_user; [exact HP|]. intros k' c' H1 H2 H3 Hrun.
  apply wp_bind, wp_get, wp_modify.
  set (s' := load_cr3 _ _). pose proof (ld_holds _ _ _ _ _ _ _ _ _ _ _ L1) as Hh.
  assert (Hb : forall la, is_u32 la -> is_Some (P1 (PGNUM la)) -> byte_at (with_cr3 (page2pa dp) s') la = Some (byte.unsigned (V1 la))).
  { intros la Hla Hp. by apply (byte_at_page dp T P1 (with_cr3 (page2pa dp) s') V1 la). }
  assert (Hpg : forall g, is_Some (P g) -> is_Some (P1 g)).
  { intros g Hg. rewrite G2; [done|]. intros Hr. rewrite Hone in Hg by done. by destruct Hg. }
  apply (HQ _ P1); [split| |exact Hrun].
  - intros i x Hi Hx. destruct (A6 i Hi) as [Hin [S1 S2]]. pose proof (segment_bounds _ _ HC i Hi) as (B1 & B2 & B3 & B4). rewrite stack_lo_eq in B2.
    assert (Hp : is_Some (P (PGNUM (prog_vaddr c i + x)))) by (apply Hin; lia).
    rewrite Hb, G3 by (unfold is_u32; lia || auto). destruct (Z.ltb_spec x (prog_filesz c i)); [by rewrite S1 by lia|by rewrite S2 by lia].
  - intros la Hla. rewrite Hb; [by eexists| |].
    + unfold is_u32. change (USTACKTOP - USTACKSIZE) with 3200212992 in *. change USTACKTOP with 3200245760 in *. lia.
    + apply G1. apply (page_range (USTACKTOP - USTACKSIZE) USTACKSIZE). lia.
  - intros la Hla Hu. change (mm_mem (y_mm s')) with (mm_mem (y_mm s1)). rewrite (uh_tr _ _ _ _ _ Hh la Hla).
    destruct (P1 (PGNUM la)) as [q|] eqn:E; [|done]. exfalso. apply Hu. destruct (decide (stack_lo <= PGNUM la < stack_hi)); [by right; right|].
    destruct (A3 (PGNUM la)) as [?|(j & Hj & Hg)]; [rewrite <- G2 by done; by eexists|by left|right; left; by exists j].
  - intros q o Hq Hm Hs Ho. by apply (ld_kept _ _ _ _ _ _ _ _ _ _ _ L1 q Hq Hm Hs).
  - change (y_cr3 s') with (PADDR (mm_kern_pgdir (y_mm s1))). by rewrite (ld_kern _ _ _ _ _ _ _ _ _ _ _ L1).
  - by exists c'.
  - apply al_flush. exact (ld_alloc _ _ _ _ _ _ _ _ _ _ _ L1).
Qed.

(** From the open file on: the header, the segments, the stack. *)
Lemma wp_load_opened P V s (Q : Z -> S -> Prop) J : 0 <= fd -> f_file_size f = Z.of_nat (length c) ->
  (forall off n, (off + n <= length c)%nat -> file_bytes d (inode_of d f) (Z.of_nat off) n = take n (drop off c)) ->
  loading (seg_pages c k 0 + (stack_hi - stack_lo)) P V s -> (forall g, is_Some (P g) <-> g = 0) -> file_open d f fd 0 (y_fs s) ->
  (forall s' P', started s' -> AL 0 P' (y_mm s') -> framed (y_k s') -> Q 0 s') ->
  wp (s ← get;
      '(_, bs) ← on_fs (fs_read_kr fd (readable (8 * SECTSIZE) s ELFADDR) (8 * 512));
      ustores ELFADDR bs;;
      magic ← uload32 (ELFADDR + elf_magic);
      if negb (magic =? ELF_MAGIC) then mret (-1)
      else
        phoff ← uload32 (ELFADDR + elf_phoff);
        phnum ← uload16 (ELFADDR + elf_phnum);
        load_segments (Z.to_nat phnum) (page2kva dp) fd (u32 (ELFADDR + phoff));;
        entry ← uload32 (ELFADDR + elf_entry);
        finish_load PCBPool_addr p (page2kva dp) entry;;
        mret 0) Q J s.
Proof using HC HR Allocator0 HP.
  intros Hfd Hsize Hbytes L1 HP1 Hfile HQ. pose proof (pr_size _ _ HC) as Hsz.
  assert (Hin : in_pages P 0 4096) by (intros a Ha; apply HP1; rewrite PGNUM_eq; by apply Z.div_small).
  apply wp_bind, wp_get. set (buf := readable _ _ _).
  assert (Hbuf : length buf = 4096%nat) by (apply (length_readable_loading _ _ _ _ _ _ _ _ P V _ s ELFADDR L1); done).
  apply wp_bind, wp_on_fs. apply (wp_file_read d c f fd Hfd Hsize ltac:(lia) Hbytes 0 (8 * 512) buf); [done|lia|lia|lia|].
  intros r fs3 o3 Ho3. set (bs := splice _ _ _). assert (Hlb : length bs = 4096%nat).
  { unfold bs. rewrite length_splice; [done|]. rewrite length_take. lia. }
  apply wp_bind. eapply (wp_stores _ _ _ R _ _ _ _ _ P V bs ELFADDR); [by apply loading_fs|done|rewrite Hlb; done|rewrite Hlb; exact Hin|].
  intros s4 L4 F4. set (V4 := Disk.store _ _ _) in L4.
  assert (HV : forall a, 0 <= a < Z.min 4096 (Z.of_nat (length c)) -> V4 a = file_mem c a).
  { intros a Ha. unfold V4. rewrite store_in by (unfold ELFADDR; lia). unfold bs, splice, file_mem, ELFADDR. rewrite Z.sub_0_r, take_0, app_nil_l, drop_0.
    rewrite lookup_app_l by (rewrite length_take; lia). by rewrite lookup_take_lt by lia. }
  apply wp_bind. eapply wp_header; [exact L4|done|done|done|unfold ELFADDR, elf_magic; lia|]. change (mem_le 4 (file_mem c) (ELFADDR + elf_magic)) with (mem32 (file_mem c) elf_magic).
  rewrite (pr_magic _ _ HC). change (negb (ELF_MAGIC =? ELF_MAGIC)) with false. cbn iota.
  apply wp_bind. eapply wp_header; [exact L4|done|done|done|unfold ELFADDR, elf_phoff; lia|]. change (mem_le 4 (file_mem c) (ELFADDR + elf_phoff)) with (mem32 (file_mem c) elf_phoff).
  apply wp_bind. eapply wp_header; [exact L4|done|done|done|unfold ELFADDR, elf_phnum; lia|]. change (mem_le 2 (file_mem c) (ELFADDR + elf_phnum)) with (mem16 (file_mem c) elf_phnum).
  fold (prog_phnum c). assert (Eph : u32 (ELFADDR + mem32 (file_mem c) elf_phoff) = prog_ph c 0).
  { unfold ELFADDR, prog_ph. rewrite Z.mul_0_r, Z.add_0_l, Z.add_0_r. apply u32_id, mem_le_range. }
  rewrite Eph. apply wp_bind. eapply (wp_load_segments _ _ _ _ _ _ _ _ d c f fd Hfd Hsize Hbytes k HC HR _ 0 P V4); [lia|done| |].
  { split; [by rewrite Nat.sub_0_r|intros g Hg; left; by apply HP1|done|done|intros j; lia|exists o3; by rewrite F4]. }
  intros P5 V5 s5 A5. pose proof A5 as [B1 _ B4 B5 _ _]. apply wp_bind.
  eapply wp_header; [exact B1|done|done|done|unfold ELFADDR, elf_entry; lia|]. change (mem_le 4 (file_mem c) (ELFADDR + elf_entry)) with (prog_entry c).
  apply wp_bind. eapply wp_finish_load; [exact A5|]. intros s' P' Hs' HA HF. apply wp_ret. by apply (HQ _ P').
Qed.
End opened.

(** What is mapped stays as it is when page 0 is replaced. *)
Definition mapped_kept s : Prop := forall g q o, R g -> g <> 0 -> frame_at (mm_mem (y_mm s0)) dp g = Some q -> 0 <= o < 1024 ->
  mm_mem (y_mm s) (entry (page2kva q) o) = mm_mem (y_mm s0) (entry (page2kva q) o).

(** The whole, from a file of the build's image; [filename] finds the name
    when page 0 has been mapped. *)
Lemma wp_loader_file (img : list byte) files i nm filename (Q : Z -> S -> Prop) J :
  image_of img files -> files_ok files -> drive_holds (fs_disk (y_fs s0)) img -> files !! i = Some (nm, c) ->
  table_ok (y_fs s0) -> (exists j f, fs_fs (y_fs s0) !! j = Some f /\ stream_free f = true) -> p_pgdir pcb = page2kva dp ->
  (exists tbl, dir_ok (mm_mem (y_mm s0)) dp tbl) ->
  AL (1 + (seg_pages c k 0 + (stack_hi - stack_lo))) (fun _ => None) (with_tlb no_tlb (y_mm s0)) ->
  (forall r P V s (Q : list byte -> S -> Prop), loading r P V s -> (forall g, is_Some (P g) <-> g = 0) -> mapped_kept s ->
     (forall rest, Q (nm ++ NUL :: rest) s) -> wp filename Q J s) ->
  (forall s' P', started s' -> AL 0 P' (y_mm s') -> framed (y_k s') -> Q 0 s') ->
  wp (loader_file PCBPool_addr p filename) Q J s0.
Proof using HC HR Allocator0 HP.
  intros HI HF HD Hi Ht Hfree Hdir [tbl R1] HA Hname HQ. pose proof (pr_size _ _ HC) as Hsz. pose proof (do_dp _ _ _ R1) as Hdp.
  pose proof (seg_pages_nonneg c k 0) as Hnn. assert (Hst : 0 <= stack_hi - stack_lo) by (vm_compute; discriminate).
  unfold loader_file. apply wp_bind, wp_on_k. eapply wp_get_pcb_at; [apply HP|]. replace (with_k (y_k s0) s0) with s0 by (by destruct s0).
  rewrite Hdir, PADDR_page2kva by done. apply wp_bind, wp_modify. rewrite Z.add_comm in HA. set (r := seg_pages c k 0 + (stack_hi - stack_lo)) in *.
  assert (L0 : loading (r + 1) (fun _ => None) (fun _ => NUL) (with_cr3 (page2pa dp) (with_mm (with_tlb no_tlb (y_mm s0)) s0))).
  { split; cbn [y_mm with_cr3 with_mm y_cr3 y_k]; try done. split; try done. by exists tbl. }
  apply wp_bind. eapply (wp_grow _ _ _ R _ _ _ _ r _ _ ELFADDR 0x1000); [exact L0|lia|done|done|done| |].
  { change (page_lo ELFADDR) with 0. change (page_hi ELFADDR 4096) with 1. intros g Hg. split; [done|]. apply HR. left. lia. }
  change (page_lo ELFADDR) with 0. change (page_hi ELFADDR 4096) with 1. intros s1 P1 V1 L1 F1 G1 G2 _ G4.
  assert (HP1 : forall g, is_Some (P1 g) <-> g = 0).
  { intros g. split; [|intros ->; by apply G1]. intros Hg. destruct (decide (g = 0)); [done|]. rewrite G2 in Hg by lia. by destruct Hg. }
  apply wp_bind. eapply Hname; [exact L1|exact HP1|intros g q o Hg Hg0; apply G4; [done|lia]|]. intros rest. apply wp_bind, wp_on_fs. rewrite F1. eapply wp_open_rest.
  apply (wp_kernel_open (fs_disk (y_fs s0)) img files HI HF HD i nm c); [done..|]. intros fd f fs2 Hfd Hf Hd Ho Hino Hsize.
  eapply (wp_load_opened (fs_disk (y_fs s0)) f fd P1 V1 (with_fsst fs2 s1)); [done|done| |by apply loading_fs|done| |exact HQ].
  - intros off m Hm. apply (kernel_slice (fs_disk (y_fs s0)) img files HI HF HD i nm c); [done|lia|done|done].
  - split; [done|]. change (fs_fs fs2 !! Z.to_nat fd = Some (set_offset 0 f)). rewrite Hf, <- Ho. by destruct f.
Qed.
End steps.

(** C16: the build's program becomes a process.  On a machine whose drive holds
    the image made of [files], with room for it in the address space of the
    process [p], loading the ELF file [nm] succeeds: each segment's bytes are at
    the addresses its header asks for, followed by zeros, the stack is mapped,
    the trap frame starts at the entry point with user segments and interrupts
    on; no other address of the space, no page in use and no other process
    changes, and the kernel's directory is loaded again. *)
Theorem loader_file_correct (img : list byte) files i nm c k p dp n pcb tf s :
  image_of img files -> files_ok files -> drive_holds (fs_disk (y_fs s)) img -> files !! i = Some (nm, c) -> program c k ->
  table_ok (y_fs s) -> (exists j f, fs_fs (y_fs s) !! j = Some f /\ stream_free f = true) ->
  proc_frame (y_k s) p pcb tf -> p_pgdir pcb = page2kva dp -> room_for c k dp n s ->
  wp (loader_file PCBPool_addr p (mret (nm ++ [NUL])))
    (fun r s' => r = 0 /\ started (fun q => n <= q) c k p dp pcb tf s s') (fun _ => False) s.
Proof.
  intros HI HF HD Hi HC Ht Hfree HP Hdir [[tbl [R1 R1']] R2 R3 R4]. set (T := translate (mm_mem (y_mm s)) (page2pa dp)) in R4.
  pose proof (in_order_allocator dp n T (page_used c k) R4 (fun g => page_used_range c k g HC)) as HA.
  apply (wp_loader_file c k HC p pcb tf dp s (page_used c k) (fun q => n <= q) (fun g Hg => Hg) (in_order dp n) HP img files i nm); [done..|by exists tbl| | |done].
  - exists n. split_and!; [lia|lia|done|by exists tbl|done].
  - intros r P V s1 Q _ _ _ HQ. apply wp_ret. exact (HQ []).
Qed.
End loader.

(** ** Witness

    A file of 88 bytes with one segment: four bytes and twelve zeros at
    0x8048000. *)

Definition elf_file : list byte :=
  concat (le_split 4 <$> [ELF_MAGIC; 0; 0; 0; 0; 0; 0x8048000; 52; 0; 0; 0; 1; 0; 1; 84; 0x8048000; 0; 4; 16; 5; 4096; 0x12345678]).
Definition elf_files : files_t := [([byte.of_Z 0x70], elf_file)].

Lemma elf_files_ok : files_ok elf_files.
Proof.
  split.
  - intros nm c H. unfold elf_files in H. apply list_elem_of_singleton in H. injection H as -> ->.
    split; [split; [done|simpl; lia|rewrite list_elem_of_singleton; discriminate]|vm_compute; done].
  - apply NoDup_singleton.
  - unfold SC_INODE. simpl. lia.
  - vm_compute. discriminate.
Qed.

Lemma elf_program : program elf_file 1.
Proof.
  assert (H0 : forall i, (i < 1)%nat -> i = 0%nat) by lia.
  split.
  - vm_compute. by split.
  - vm_compute. reflexivity.
  - vm_compute. lia.
  - intros i ->%H0 [H|H]; vm_compute in H; discriminate.
  - left. vm_compute. reflexivity.
  - intros i [Hi| ->%H0]; [|vm_compute; discriminate]. replace (prog_phnum elf_file) with 1%nat in Hi by (vm_compute; reflexivity). lia.
  - intros i ->%H0. vm_compute. discriminate.
  - intros i ->%H0. vm_compute. discriminate.
  - intros i ->%H0. vm_compute. discriminate.
  - intros i ->%H0. vm_compute. discriminate.
  - lia.
Qed.

(** Process 1 with an empty directory at page 0x500. *)
Definition loader_k : kst := kset_pcb 1 (fun c => with_tf (TFStack 1) (with_pgdir (page2kva 0x500) c)) demo.
Definition loader_sys (img : list byte) : sys (gmap Z (list Z)) :=
  mkSys loader_k (demo_mm 0x501) (demo_kernel_fs img) demo_kb demo_screen 0 demo_desc [] [].
Definition loader_pcb : PCB := with_tf (TFStack 1) (with_pgdir (page2kva 0x500) (demo_pcb 1 2 RUNNING USER 3)).

Lemma loader_file_correct_witness : exists img, make_image [] elf_files = Some img /\
  wp (loader_file 0xc0200000 1 (mret ([byte.of_Z 0x70] ++ [NUL])))
    (fun r s' => r = 0 /\ started (fun q => 0x501 <= q) elf_file 1 1 0x500 loader_pcb frame0 (loader_sys img) s') (fun _ => False) (loader_sys img).
Proof.
  destruct (make_image_spec [] elf_files elf_files_ok) as (img & E & HI & _). exists img. split; [exact E|].
  pose proof HI as [Hok _ _ _ _ _ _ _]. destruct (demo_table img) as [Ht Hf].
  apply (loader_file_correct 0xc0200000 img elf_files 0 [byte.of_Z 0x70] elf_file 1 1 0x500 0x501 loader_pcb frame0 (loader_sys img)).
  - exact HI.
  - exact elf_files_ok.
  - exact (drive_of_holds _ Hok).
  - reflexivity.
  - exact elf_program.
  - exact Ht.
  - exact Hf.
  - split; [reflexivity|]. left. by split.
  - reflexivity.
  - split.
    + exists (fun _ => 0). split; [apply demo_dir_ok; unfold npages; lia|]. split; [lia|]. cbn. intros. discriminate.
    + apply demo_fresh. unfold npages. lia.
    + vm_compute. discriminate.
    + intros. reflexivity.
Defined.
