(* ===== verification/Exec.v ===== *)
(** * A program replaces the one that calls [exec]

    The loader in an address space that is in use: the pages of the program
    that called it are taken over one by one, and their frames are used again.
    [in_use] is the allocator of Remap as the loader wants it. *)

From S2P Require Import Prelude Proc Queues AbsProc Sched SchedSpec SchedProofs Bytes Disk FileSys FsRead FsOpen Fmt FmtProofs FmtCopy FmtImage FmtFormat FmtProps.
From S2P Require Import Pmap PmapSpec PmapProofs PmapAlloc PmapBoot PmapProps Remap DemoProc Keyboard Readline Video Descr System Spawn Loader Boot Safe SpawnProofs UserMem LoaderProofs LoaderProps.

(** ** The allocator of a space in use *)

Section in_use.
Context (dp : Z) (tbl : Z -> Z) (R mine : Z -> Prop) (T : Z -> option Z).

(** The pages of [R] and the free list [l] have the frames that are [mine],
    none of them the directory or a table; more than [r] are free. *)
Definition in_use (r : Z) (P : Z -> option Z) (s : mmst) : Prop := exists l, space_ok s dp tbl R l /\ r < Z.of_nat (length l) /\
  (forall g q, P g = Some q -> R g /\ frame_at (mm_mem s) dp g = Some q) /\ (forall x, pool dp R s l x <-> mine x) /\ forall x, mine x -> spare (mm_mem s) dp x.

(** Nothing but the translation is looked at. *)
Lemma space_ok_same s m' l : space_ok s dp tbl R l -> dir_ok m' dp tbl ->
  (forall i, 0 <= i < 1024 -> m' (entry (page2kva dp) i) = mm_mem s (entry (page2kva dp) i)) ->
  (forall la, is_u32 la -> translate m' (page2pa dp) la = translate (mm_mem s) (page2pa dp) la) -> space_ok (with_mem m' s) dp tbl R l.
Proof.
  intros [S1 S2 S3 S4 S5 S6 S7 S8] Hok Hd Htr.
  assert (Hfr : forall g, R g -> frame_at m' dp g = frame_at (mm_mem s) dp g) by (intros g Hg; by apply frame_at_eq, Htr, page_u32, S2).
  split; try done; cbn [mm_mem with_mem].
  - intros g Hg. destruct (page_u32 g (S2 g Hg)) as (Hu & _). destruct (PGADDR_split _ Hu) as (_ & ? & _). rewrite Hd by done. by apply S3.
  - intros g q Hg. rewrite Hfr by done. by apply S6.
  - intros g h q Hg Hh. rewrite !Hfr by done. by apply S7.
  - intros la fr Hla Ht. rewrite Htr by done. by apply S8.
Qed.

Lemma in_use_write r P s m' : in_use r P s -> tables_kept (mm_mem s) m' dp -> in_use r P (with_mem m' s).
Proof.
  intros (l & H1 & H2 & H3 & H4 & H5) Hk. exists l. pose proof (sp_dir _ _ _ _ _ H1) as Hok. destruct (Hk tbl Hok) as [K1 K2].
  destruct (same_tables _ m' dp tbl Hok K1 K2) as (O1 & _ & O3 & O4). pose proof (sp_range _ _ _ _ _ H1) as Hr.
  assert (Hfr : forall g, R g -> frame_at m' dp g = frame_at (mm_mem s) dp g) by (intros g Hg; by apply frame_at_eq, O4, page_u32, Hr).
  split_and!; [by apply space_ok_same|done| | |by auto].
  - intros g q Hg. destruct (H3 g q Hg) as [HR Hf]. split; [done|]. cbn [mm_mem with_mem]. by rewrite Hfr.
  - intros x. rewrite <- H4. unfold pool. cbn [mm_mem with_mem]. split; (intros [?|(h & Hh & Hx)]; [by left|right; exists h; split; [done|]]); [by rewrite <- Hfr|by rewrite Hfr].
Qed.

Lemma in_use_flush r P s : in_use r P s -> in_use r P (with_tlb no_tlb s).
Proof. intros (l & [S1 S2 S3 S4 S5 S6 S7 S8] & H). exists l. split; [by split|exact H]. Qed.

Lemma missing_le m n g : (missing dp m n g <= n)%nat.
Proof. revert g. induction n as [|n IH]; intros g; cbn [missing]; [lia|]. specialize (IH (g + 1)). destruct (frame_at m dp g); lia. Qed.

(** Only page tables are written. *)
Lemma run_spare s s' l l' g n q : run dp tbl R s s' l l' g n -> space_ok s dp tbl R l -> (forall h, g <= h < g + n -> R h) -> 0 <= q < npages ->
  spare (mm_mem s) dp q -> spare (mm_mem s') dp q /\ forall o, 0 <= o < 1024 -> mm_mem s' (entry (page2kva q) o) = mm_mem s (entry (page2kva q) o).
Proof.
  intros [_ _ _ U4 _ _ _ _] HS HR Hq Hs. pose proof (sp_dir _ _ _ _ _ HS) as Hok.
  assert (Ht : forall h, g <= h < g + n -> 0 <= PDX (h * 4096) < 1024 /\ present (mm_mem s (entry (page2kva dp) (PDX (h * 4096)))) = true).
  { intros h Hh. destruct (page_u32 h (sp_range _ _ _ _ _ HS h (HR h Hh))) as (Hu & _). destruct (PGADDR_split _ Hu) as (_ & Hd & _).
    split; [done|]. by apply (sp_tabled _ _ _ _ _ HS), HR. }
  split.
  - destruct Hs as [Hne Hs]. split; [done|]. intros i Hi. rewrite U4; [by apply Hs|apply Hok|done|]. intros h Hh E. destruct (Ht h Hh) as [Hd Hp].
    destruct (do_table _ _ _ Hok _ Hd Hp) as (_ & _ & Hn). congruence.
  - intros o Ho. apply U4; [done|done|]. intros h Hh ->. destruct (Ht h Hh) as [Hd Hp]. apply (spare_dir _ _ _ _ Hok) in Hs as [_ Hs]. by apply (Hs _ Hd Hp).
Qed.

Section alloc.
Context (s s' : mmst) (P : Z -> option Z) (V : mem) (l l' : list Z) (lo hi : Z).
Context (HU : run dp tbl R s s' l l' lo (hi - lo)) (HS : space_ok s dp tbl R l) (Hlo : lo <= hi) (HR : forall h, lo <= h < hi -> P h = None /\ R h).
Context (HP : forall g q, P g = Some q -> R g /\ frame_at (mm_mem s) dp g = Some q).
Context (Hpool : forall x, pool dp R s l x <-> mine x) (Hspare : forall x, mine x -> spare (mm_mem s) dp x).

(** The pages after the run. *)
Definition run_pages (g : Z) : option Z := if decide (lo <= g < hi) then frame_at (mm_mem s') dp g else P g.

Lemma frame_kept g : R g -> ~ lo <= g < hi -> frame_at (mm_mem s') dp g = frame_at (mm_mem s) dp g.
Proof using HU HS.
  intros Hg Hout. destruct (page_u32 g (sp_range _ _ _ _ _ HS g Hg)) as (Hu & Hn & _). apply frame_at_eq, (ru_other _ _ _ _ _ _ _ _ _ HU); [done|lia].
Qed.

Lemma run_frame g q : run_pages g = Some q -> R g /\ frame_at (mm_mem s') dp g = Some q.
Proof using HU HS HR HP.
  unfold run_pages. case_decide as Hg; [intros Hq; split; [by apply HR|done]|]. intros Hq. destruct (HP g q Hq) as [H1 H2]. split; [done|]. by rewrite frame_kept.
Qed.

Lemma mine_spare q : mine q -> 0 <= q < npages -> spare (mm_mem s') dp q.
Proof using HU HS HR Hspare. intros Hm Hq. eapply run_spare; [exact HU|exact HS|intros h Hh; apply HR; lia|done|by apply Hspare]. Qed.

Lemma run_mine g q : R g -> frame_at (mm_mem s') dp g = Some q -> mine q /\ 0 <= q < npages.
Proof using HU Hpool.
  intros Hg Hq. split; [apply Hpool, (ru_pool _ _ _ _ _ _ _ _ _ HU); right; by exists g|].
  by apply (sp_own _ _ _ _ _ (ru_space _ _ _ _ _ _ _ _ _ HU) g).
Qed.

Lemma run_holds : holds (mm_mem s) dp T P V -> holds (mm_mem s') dp T run_pages (read_pages (mm_mem s') P run_pages V).
Proof using All.
  intros [_ H3 _ H5 H6]. pose proof (ru_space _ _ _ _ _ _ _ _ _ HU) as HS'. pose proof (sp_dir _ _ _ _ _ HS') as Hok'. split; [by exists tbl|..].
  - intros g q Hq. apply run_frame in Hq as [Hg Hq]. destruct (run_mine g q Hg Hq) as [Hm Hn]. split; [done|]. by apply mine_spare.
  - intros g h q [Hg Hq]%run_frame [Hh Hq']%run_frame. by apply (sp_inj _ _ _ _ _ HS' g h q).
  - intros la Hla. unfold run_pages. case_decide as Hin.
    + destruct (HR _ Hin) as [_ Hg]. rewrite (frame_translate _ _ tbl (PGNUM la)) by (done || by apply (sp_range _ _ _ _ _ HS)).
      destruct (ru_mapped _ _ _ _ _ _ _ _ _ HU (PGNUM la) ltac:(lia)) as [q ->]. done.
    + rewrite (ru_other _ _ _ _ _ _ _ _ _ HU) by (done || lia). by apply H5.
  - intros la q Hla Hq. apply (read_pages_byte (mm_mem s)); [done|done|]. intros q' Hq'. assert (Hout : ~ lo <= PGNUM la < hi).
    { intros Hin. destruct (HR _ Hin) as [E _]. congruence. }
    unfold run_pages. rewrite decide_False by done. destruct (H3 _ _ Hq') as [Hn Hs]. destruct (PGADDR_split la Hla) as (_ & _ & _ & Ho).
    destruct (off_word _ Ho) as (Ho1 & _). split_and!; [done| |by apply H6]. unfold byte_in.
    destruct (run_spare s s' l l' lo (hi - lo) q' HU HS) as [_ ->]; [intros h Hh; apply HR; lia|done..].
Qed.

Lemma run_grown : holds (mm_mem s) dp T P V -> grown R mine s s' dp lo hi T P run_pages V (read_pages (mm_mem s') P run_pages V).
Proof using All.
  intros HH. assert (HR' : forall h, lo <= h < lo + (hi - lo) -> R h) by (intros h Hh; apply HR; lia). split.
  - by apply run_holds.
  - intros g Hg. destruct (ru_mapped _ _ _ _ _ _ _ _ _ HU g ltac:(lia)) as [q Hq]. exists q. unfold run_pages. rewrite decide_True by done.
    split; [done|]. apply (run_mine g); [by apply HR|done].
  - intros g Hg. unfold run_pages. by rewrite decide_False.
  - intros la [q Hq]. unfold read_pages. by rewrite Hq.
  - intros g q o Hg _ Hq Ho. assert (Hm : mine q) by (apply Hpool; right; by exists g). destruct (sp_own _ _ _ _ _ HS g q Hg Hq) as (Hn & _).
    by apply (run_spare s s' l l' lo (hi - lo) q HU HS HR' Hn (Hspare q Hm)).
  - intros q Hq _ Hs. by apply (run_spare s s' l l' lo (hi - lo) q HU HS HR').
  - by apply (ru_kern _ _ _ _ _ _ _ _ _ HU).
Qed.

Lemma run_in_use r : r + (hi - lo) < Z.of_nat (length l) -> in_use r run_pages s'.
Proof using HU HS HR HP Hpool Hspare.
  intros Hl. exists l'. pose proof (ru_len _ _ _ _ _ _ _ _ _ HU) as Hl'. split_and!; [by apply (ru_space _ _ _ _ _ _ _ _ _ HU)|lia|exact run_frame| |].
  - intros x. by rewrite (ru_pool _ _ _ _ _ _ _ _ _ HU), Hpool.
  - intros x Hx. apply mine_spare; [done|]. apply Hpool in Hx as [Hx|(h & Hh & Hx)].
    + by apply (free_list_range _ _ x (sp_free _ _ _ _ _ HS)).
    + by apply (sp_own _ _ _ _ _ HS h).
Qed.
End alloc.

#[export] Instance in_use_allocator : Allocator dp T R mine in_use.
Proof.
  split; [exact in_use_write|exact in_use_flush|].
  intros r P V s va len Q J lo hi HH Hr (l & HS & Hl & HP & Hpool & Hspare) Hva Hlen Hend Hun HQ.
  destruct (range_pages va len Hva ltac:(lia) Hend) as (E1 & E2 & Ek & _). fold lo hi in E1, E2, Ek.
  assert (Hlh : lo <= hi) by (apply Z.div_le_mono; lia).
  eapply (wp_mm_alloc_used dp tbl R va len s l); rewrite ?Ek; try done; change (va / 4096) with lo.
  - intros h Hh. apply Hun. lia.
  - pose proof (missing_le (mm_mem s) (Z.to_nat (hi - lo)) lo). lia.
  - intros s' l' HU. eapply HQ; [by eapply (run_grown s s' P V l l' lo hi)|]. by eapply (run_in_use s s' P l l' lo hi).
Qed.
End in_use.

(** ** The name of the program *)

Section exec.
Context {D : Type} `{!AtaDevice D}.
Context (PCBPool_addr : Z).
Abbreviation S := (sys D).
Implicit Types (s : S).

(** In the space of [dp] the bytes [bs] are at [la], on pages [R] other than
    the first. *)
Definition bytes_at (dp : Z) (R : Z -> Prop) (la : Z) (bs : list byte) s : Prop := 0 <= la /\ la + Z.of_nat (length bs) <= 2 ^ 32 /\
  forall j b, bs !! j = Some b -> let x := la + Z.of_nat j in PGNUM x <> 0 /\ R (PGNUM x) /\ byte_at (with_cr3 (page2pa dp) s) x = Some (byte.unsigned b).

Lemma readable_bytes bs : forall n s la, (length bs <= n)%nat -> 0 <= la -> la + Z.of_nat (length bs) <= 2 ^ 32 ->
  (forall j b, bs !! j = Some b -> byte_at s (la + Z.of_nat j) = Some (byte.unsigned b)) -> exists rest, readable n s la = bs ++ rest.
Proof.
  induction bs as [|b bs IH]; intros [|n] s la Hn H0 H1 Hb; cbn [length] in *; try lia; [by exists []|by eexists|].
  cbn [readable]. pose proof (Hb 0%nat b eq_refl) as H2. rewrite Z.add_0_r in H2. rewrite H2, byte.of_Z_unsigned.
  destruct bs as [|b' bs]; [by eexists|]. cbn [length] in *. rewrite u32_id by (unfold is_u32; lia).
  destruct (IH n s (la + 1)) as [rest ->]; [lia..| |by eexists]. intros j x Hj. specialize (Hb (Datatypes.S j) x Hj).
  by replace (la + 1 + Z.of_nat j) with (la + Z.of_nat (Datatypes.S j)) by lia.
Qed.

Section name.
Context (dp : Z) (tbl : Z -> Z) (R : Z -> Prop) (l : list Z) (s s1 : S) (HS : space_ok (with_tlb no_tlb (y_mm s)) dp tbl R l) (Hc : y_cr3 s1 = page2pa dp).
Context (Hkept : forall g q o, R g -> g <> 0 -> frame_at (mm_mem (y_mm s)) dp g = Some q -> 0 <= o < 1024 ->
  mm_mem (y_mm s1) (entry (page2kva q) o) = mm_mem (y_mm s) (entry (page2kva q) o)).
Context (Htr : forall la, is_u32 la -> PGNUM la <> 0 -> translate (mm_mem (y_mm s1)) (page2pa dp) la = translate (mm_mem (y_mm s)) (page2pa dp) la).

Lemma byte_kept x b : is_u32 x -> PGNUM x <> 0 -> R (PGNUM x) -> byte_at (with_cr3 (page2pa dp) s) x = Some b -> byte_at s1 x = Some b.
Proof using HS Hc Hkept Htr.
  intros Hx H0 HR Hb. pose proof (sp_range _ _ _ _ _ HS _ HR) as Hr. pose proof (frame_translate _ dp tbl (PGNUM x) x (sp_dir _ _ _ _ _ HS) Hr Hx eq_refl) as Ht. cbn [mm_mem with_tlb] in Ht.
  unfold byte_at in Hb. destruct (frame_at (mm_mem (y_mm s)) dp (PGNUM x)) as [q|] eqn:E.
  - destruct (sp_own _ _ _ _ _ HS _ q HR E) as (Hq & _). destruct (PGADDR_split x Hx) as (_ & _ & _ & Ho). destruct (off_word _ Ho) as (Ho1 & _).
    rewrite (locate_frame (with_cr3 (page2pa dp) s) x q Ht Hq Hx) in Hb. cbn in Hb.
    unfold byte_at. rewrite (locate_frame s1 x q) by (rewrite ?Hc, ?Htr; done). cbn. by rewrite (Hkept (PGNUM x)).
  - exfalso. unfold locate in Hb. change (mm_mem (y_mm (with_cr3 (page2pa dp) s))) with (mm_mem (y_mm s)) in Hb. cbn [y_cr3 with_cr3] in Hb. rewrite Ht in Hb. discriminate.
Qed.

Lemma wp_name nm la (Q : list byte -> S -> Prop) J : bytes_at dp R la (nm ++ [NUL]) s -> (length nm < 4096)%nat ->
  (forall rest, Q (nm ++ NUL :: rest) s1) -> wp (user_string la) Q J s1.
Proof using HS Hc Hkept Htr.
  intros (H0 & H1 & Hb) Hn HQ. unfold user_string. apply wp_gets.
  destruct (readable_bytes (nm ++ [NUL]) (Z.to_nat PGSIZE) s1 la) as [rest ->]; [|done|done| |].
  - rewrite length_app. cbn [length]. change (Z.to_nat PGSIZE) with (Z.to_nat 4096). lia.
  - intros j b Hj. destruct (Hb j b Hj) as (B1 & B2 & B3). apply lookup_lt_Some in Hj. apply byte_kept; [unfold is_u32; lia|done..].
  - rewrite <- app_assoc. apply HQ.
Qed.
End name.

(** ** The PCB that was requeued *)

(** What a switch leaves of the PCBs. *)
Definition context (c : PCB) : tf_ptr * TrapFrame * Z := (p_tf c, p_frame c, p_pgdir c).
Definition contexts_kept (a a' : astate) : Prop := k_tfPool (a_k a') = k_tfPool (a_k a) /\ forall p, context <$> a_pcb a' p = context <$> a_pcb a p.

Lemma contexts_upd p f a : (forall c, context (f c) = context c) -> contexts_kept a (a_upd p f a).
Proof.
  intros Hf. split; [done|]. intros q. rewrite a_pcb_upd. case_decide; [|done]. destruct (a_pcb a q); [|done]. cbn. by rewrite Hf.
Qed.

Lemma contexts_block h i a : contexts_kept a (a_block h i a).
Proof.
  unfold a_block, a_dispatch. destruct (a_q _ HReady) as [|p l]; [by split|].
  destruct (contexts_upd p (with_timeslice 0) (a_upd p (with_ts RUNNING) (a_glob (with_current (Some p)) (a_setq HReady l (a_count (a_park h i a)))))) as [E1 E2]; [done|].
  destruct (contexts_upd p (with_ts RUNNING) (a_glob (with_current (Some p)) (a_setq HReady l (a_count (a_park h i a))))) as [E3 E4]; [done|].
  split; [done|]. intros q. by rewrite E2, E4.
Qed.

Lemma proc_frame_block k k' a h i p pcb tf : abs k a -> abs k' (a_block h i a) -> proc_frame k p pcb tf ->
  exists pcb', proc_frame k' p pcb' tf /\ p_pgdir pcb' = p_pgdir pcb.
Proof.
  intros Ha Ha' [H1 H2]. destruct (contexts_block h i a) as [E1 E2]. specialize (E2 p). rewrite (abs_pcb_rev _ _ Ha p pcb H1) in E2. cbn in E2.
  destruct (a_pcb (a_block h i a) p) as [c|] eqn:Ec; [|done]. injection E2 as E2 E3 E4. destruct (abs_pcb _ _ Ha' p c Ec) as (c' & Hc' & <-).
  exists c'. split; [|exact E4]. split; [done|]. destruct Ha as [_ Hs], Ha' as [_ Hs'].
  assert (Et : k_tfPool k' = k_tfPool k) by (change (k_tfPool (strip k') = k_tfPool (strip k)); congruence). change (p_tf c' = p_tf pcb) in E2. change (p_frame c' = p_frame pcb) in E3.
  rewrite E2, E3, Et. exact H2.
Qed.

(** ** [exec_current] *)

(** The address space [dp] of the program that calls [exec], for a program of
    [k] segments; [fork] leaves the child with such a space ([fork_correct]).
    The TLB is flushed first. *)
Record can_exec (c : list byte) (k : nat) (dp : Z) (tbl : Z -> Z) (R : Z -> Prop) (l : list Z) s : Prop := {
  ce_space : space_ok (with_tlb no_tlb (y_mm s)) dp tbl R l;
  ce_pages : forall g, page_used c k g -> R g;
  ce_room : 1 + (seg_pages c k 0 + (stack_hi - stack_lo)) < Z.of_nat (length l);
  ce_spare : forall x, pool dp R (y_mm s) l x -> spare (mm_mem (y_mm s)) dp x }.

(** From [s], in which process [i] runs, to [s'], which another one is about
    to enter. *)
Record replaced (c : list byte) (k : nat) (i : nat) (dp : Z) (tbl : Z -> Z) (R : Z -> Prop) (l : list Z) (a : astate) (pcb : PCB) (tf : TrapFrame) s s' : Prop := {
  xc_loaded : exists s1 a1, started (pool dp R (y_mm s) l) c k i dp pcb tf s s1 /\ s' = with_k (y_k s') s1 /\
    same_but i a a1 /\ abs (y_k s') (a_block HReady i a1);
  xc_frame : exists pcb', proc_frame (y_k s') i pcb' (user_frame (USTACKTOP - 0x80) (prog_entry c) tf) /\ p_pgdir pcb' = page2kva dp;
  xc_frames : exists l', space_ok (y_mm s') dp tbl R l' /\ forall x, pool dp R (y_mm s') l' x <-> pool dp R (y_mm s) l x;
  xc_inv : KInv (y_k s') }.

Lemma init_pcb_near i a p ustack entry k k' : abs k a -> alive a i -> p = i -> init_pcb PCBPool_addr p ustack entry 3 k = Ret tt k' ->
  exists a', abs k' a' /\ same_but i a a' /\ alive a' i.
Proof.
  intros Ha Hi Hp H. pose proof (keeps_init_pcb i a PCBPool_addr p ustack entry 3 Hp k) as HN. rewrite H in HN.
  apply HN. exists a. split_and!; [done|apply same_but_refl|done].
Qed.

(** C17: [exec]: the process that calls it is made to run the program [nm], a
    file of the build.  Each segment's bytes are at the addresses its header
    asks for, followed by zeros, on pages that may have been in use; the stack
    is mapped, the trap frame starts at the entry point; other addresses, other
    frames and other processes are as they were.  The frames of the old
    program are free or used for the new one and none is lost.  The process goes to the end of the
    ready queue and the head of the queue runs; the call does not return. *)
Theorem exec_correct (img : list byte) files j nm c k i dp tbl R l pcb tf a la s :
  image_of img files -> files_ok files -> drive_holds (fs_disk (y_fs s)) img -> files !! j = Some (nm, c) -> program c k ->
  table_ok (y_fs s) -> (exists x f, fs_fs (y_fs s) !! x = Some f /\ stream_free f = true) ->
  abs (y_k s) a -> AProc a -> ASem a -> a_cur a = Some i -> kernel_ready a ->
  proc_frame (y_k s) i pcb tf -> p_pgdir pcb = page2kva dp -> can_exec c k dp tbl R l s -> bytes_at dp R la (nm ++ [NUL]) s ->
  wp (exec_current PCBPool_addr (user_string la)) (fun _ _ => False) (replaced c k i dp tbl R l a pcb tf s) s.
Proof.
  intros HI HF HD Hj HC Ht Hfree Ha HA HS Hi Hk HP Hdir [X1 X2 X3 X4] Hn. set (mine := pool dp R (y_mm s) l). set (T := translate (mm_mem (y_mm s)) (page2pa dp)).
  assert (Hnm : (length nm < 4096)%nat) by (assert (Hin : (nm, c) ∈ files) by (by apply list_elem_of_lookup_2 with j); destruct (fk_names _ HF _ _ Hin) as [[_ ? _] _]; lia).
  destruct (ap_cur _ HA _ Hi) as [_ Hal].
  unfold exec_current. apply wp_bind, wp_on_k, wp_gets. replace (with_k (y_k s) s) with s by (by destruct s).
  rewrite (abs_cur _ _ Ha), Hi. apply wp_bind, wp_ret, wp_bind.
  apply (wp_loader_file PCBPool_addr c k HC i pcb tf dp s R mine X2 (in_use dp tbl R mine) HP img files j nm); [done..| | | |].
  - exists tbl. apply X1.
  - exists l. split_and!; [done|lia|done|done|done].
  - intros r P V s1 Q L1 HP1 Hkp HQ. apply (wp_name dp tbl R l s s1 X1 (ld_cr3 _ _ _ _ _ _ _ _ _ _ _ L1) Hkp) with (nm := nm); [|done|done|done].
    intros x Hx H0. rewrite (uh_tr _ _ _ _ _ (ld_holds _ _ _ _ _ _ _ _ _ _ _ L1) x Hx). destruct (P (PGNUM x)) eqn:E; [|done].
    exfalso. apply H0, HP1. by eexists.
  - intros s1 P' Hst (l' & U1 & _ & _ & U4 & _) Hfr. change (0 =? -1) with false. cbn iota.
    destruct (init_pcb_near i a i _ _ _ _ Ha Hal eq_refl Hfr) as (a1 & Ha1 & Hsb & Hal1). pose proof (AProc_here _ _ _ HA Hi Hk Hsb Hal1) as HA1.
    assert (Hi1 : a_cur a1 = Some i) by (rewrite (sb_cur _ _ _ Hsb); done).
    apply (wp_requeue a1 i); [done..|]. intros k' Hk'. split.
    + exists s1, a1. done.
    + destruct (st_proc _ _ _ _ _ _ _ _ _ Hst) as (pcb1 & Hp1 & _ & Hr & _). destruct (proc_frame_block _ k' _ _ _ _ _ _ Ha1 Hk' Hp1) as (pcb' & Hp' & E).
      exists pcb'. split; [done|]. by rewrite E, Hr.
    + exists l'. done.
    + eapply (KInv_block _ a1 HReady); [exact Hk'|done|done|done|by left|]. apply ASem_park; [done|]. by apply (ASem_same_but _ _ _ Hsb).
Qed.
End exec.

(** ** Witness

    Process 1 of the demo runs in the space of directory 0x500, which has
    tables for the pages of [elf_file]; page 0x8048 is mapped to frame 0x504
    and holds the name of the file that replaces it. *)

Definition used_tbl (i : Z) : Z := if i =? 0 then 0x501 else if i =? 32 then 0x502 else 0x503.
Definition used_mem : Z -> Z :=
  <[entry (page2kva 0x504) 0 := 0x70]> (<[entry (page2kva 0x502) 0x48 := 0x504007]>
    (<[entry (page2kva 0x500) 762 := 0x503007]> (<[entry (page2kva 0x500) 32 := 0x502007]> (<[entry (page2kva 0x500) 0 := 0x501007]> (fun _ => 0))))).
Definition used_mm : mmst := with_ref (<[0x504 := 1]> (fun _ => 0)) (with_mem used_mem (demo_mm 0x505)).
Definition used_sys (img : list byte) : sys (gmap Z (list Z)) := with_mm used_mm (loader_sys img).
Definition used_free : list Z := seqZ 0x505 (npages - 0x505).

Lemma used_entry i : 0 <= i < 1024 -> present (used_mem (entry (page2kva 0x500) i)) = true -> i = 0 \/ i = 32 \/ i = 762.
Proof.
  intros Hi Hp. destruct (decide (i = 0)); [by left|]. destruct (decide (i = 32)); [by right; left|]. destruct (decide (i = 762)); [by right; right|]. exfalso.
  unfold used_mem in Hp. rewrite !fn_lookup_insert_ne in Hp; [discriminate|..]; intros E; apply entry_inj in E as [? ?]; unfold npages; lia.
Qed.

Lemma used_dir_ok : dir_ok used_mem 0x500 used_tbl.
Proof.
  split; [unfold npages; lia|..].
  - intros i Hi Hp. apply used_entry in Hp as [->|[-> | ->]]; [..|done]; (split; [vm_compute; reflexivity|unfold npages, used_tbl; simpl; lia]).
  - intros i j Hi Hj Hp%used_entry Hq%used_entry; [|done..]. unfold used_tbl. destruct Hp as [->|[-> | ->]], Hq as [->|[-> | ->]]; done.
Qed.

Lemma used_pages g : page_used elf_file 1 g -> g = 0 \/ g = 0x8048 \/ 781302 <= g < 781310.
Proof.
  assert (E : seg_lo elf_file 0 = 0x8048 /\ seg_hi elf_file 0 = 0x8049) by (split; vm_compute; reflexivity).
  intros [->|[(i & Hi & Hg)|Hg]]; [by left| |right; right; exact Hg]. replace i with 0%nat in Hg by lia. lia.
Qed.

Lemma stack_cases (Q : Z -> Prop) : (forall g, g ∈ seqZ 781302 8 -> Q g) -> forall g, 781302 <= g < 781310 -> Q g.
Proof. intros H g Hg. apply H, elem_of_seqZ. lia. Qed.

Lemma used_frame g : page_used elf_file 1 g ->
  present (used_mem (entry (page2kva 0x500) (PDX (g * 4096)))) = true /\ frame_at used_mem 0x500 g = (if g =? 0x8048 then Some 0x504 else None).
Proof.
  intros [->|[-> |Hg]]%used_pages; [by vm_compute..|]. revert g Hg. apply stack_cases. apply Forall_forall.
  repeat (apply Forall_cons; split; [vm_compute; done|]). apply Forall_nil. done.
Qed.

Lemma used_own g q : page_used elf_file 1 g -> frame_at used_mem 0x500 g = Some q -> g = 0x8048 /\ q = 0x504.
Proof. intros Hg. rewrite (proj2 (used_frame g Hg)). destruct (Z.eqb_spec g 0x8048) as [->|]; [by intros [= <-]|done]. Qed.

Lemma used_space : space_ok used_mm 0x500 used_tbl (page_used elf_file 1) used_free.
Proof.
  split.
  - exact used_dir_ok.
  - intros g Hg. by apply (page_used_range _ _ _ elf_program).
  - intros g Hg. apply (used_frame g Hg).
  - apply (demo_fresh 0x505). unfold npages. lia.
  - intros p Hp. apply elem_of_seqZ in Hp. cbn [used_mm mm_ref with_ref]. by rewrite fn_lookup_insert_ne by lia.
  - intros g q Hg Hq. destruct (used_own g q Hg Hq) as [_ ->]. split; [unfold npages; lia|]. split; [|reflexivity].
    intros E. apply elem_of_seqZ in E. lia.
  - intros g h q Hg Hh Hq Hq'. destruct (used_own g q Hg Hq), (used_own h q Hh Hq'). congruence.
  - by intros la fr _ [=].
Qed.

Lemma used_can_exec img : can_exec elf_file 1 0x500 used_tbl (page_used elf_file 1) used_free (used_sys img).
Proof.
  split; [exact used_space|done|vm_compute; reflexivity|]. intros x Hx. apply (spare_dir _ _ _ _ used_dir_ok).
  assert (Hx' : 0x504 <= x).
  { destruct Hx as [Hx|(h & Hh & Hx)]; [apply elem_of_seqZ in Hx; lia|]. destruct (used_own h x Hh Hx). lia. }
  split; [lia|]. intros i _ _. unfold used_tbl. repeat case_match; lia.
Qed.

Lemma used_byte img j b : [byte.of_Z 0x70; NUL] !! j = Some b -> (j < 2)%nat /\ byte_at (with_cr3 (page2pa 0x500) (used_sys img)) (0x8048000 + Z.of_nat j) = Some (byte.unsigned b).
Proof.
  unfold byte_at, locate. change (mm_mem (y_mm (with_cr3 (page2pa 0x500) (used_sys img)))) with used_mem.
  change (y_cr3 (with_cr3 (page2pa 0x500) (used_sys img))) with (page2pa 0x500).
  destruct j as [|[|]]; [..|done]; intros [= <-]; (split; [lia|vm_compute; reflexivity]).
Qed.

Lemma used_name img : bytes_at 0x500 (page_used elf_file 1) 0x8048000 ([byte.of_Z 0x70] ++ [NUL]) (used_sys img).
Proof.
  split; [lia|]. split; [simpl; lia|]. intros j b Hj. destruct (used_byte img j b Hj) as [Hj2 Hb].
  assert (E : PGNUM (0x8048000 + Z.of_nat j) = 0x8048) by (rewrite PGNUM_eq; symmetry; apply (Z.div_unique _ _ _ (Z.of_nat j)); lia).
  cbn zeta. rewrite E. split; [lia|]. split; [|exact Hb]. right; left. exists 0%nat. split; [lia|].
  assert (E' : seg_lo elf_file 0 = 0x8048 /\ seg_hi elf_file 0 = 0x8049) by (split; vm_compute; reflexivity). lia.
Qed.

Definition exec_a : astate := a_upd 1 (fun c => with_tf (TFStack 1) (with_pgdir (page2kva 0x500) c)) demo_a.

Lemma exec_correct_witness : exists img, make_image [] elf_files = Some img /\
  wp (exec_current 0xc0200000 (user_string 0x8048000)) (fun _ _ => False)
    (replaced elf_file 1 1 0x500 used_tbl (page_used elf_file 1) used_free exec_a loader_pcb frame0 (used_sys img)) (used_sys img).
Proof.
  destruct (make_image_spec [] elf_files elf_files_ok) as (img & E & HI & _). exists img. split; [exact E|].
  pose proof HI as [Hok _ _ _ _ _ _ _]. destruct (demo_table img) as [Ht Hf].
  apply (exec_correct 0xc0200000 img elf_files 0 [byte.of_Z 0x70] elf_file 1 1 0x500 used_tbl (page_used elf_file 1) used_free loader_pcb frame0 exec_a 0x8048000 (used_sys img)).
  - exact HI.
  - exact elf_files_ok.
  - exact (drive_of_holds _ Hok).
  - reflexivity.
  - exact elf_program.
  - exact Ht.
  - exact Hf.
  - apply abs_upd; [exact demo_abs|apply _].
  - apply AProc_upd; [apply _|exact demo_AProc].
  - apply ASem_upd, demo_ASem.
  - reflexivity.
  - exists 0%nat. eexists. split; [left|split; reflexivity].
  - split; [reflexivity|]. left. by split.
  - reflexivity.
  - apply used_can_exec.
  - apply used_name.
Defined.
