(* ===== verification/Rnd.v ===== *)
(** * The random numbers of the programs

    Models [rnd.c], of which [game/], [app/] and [cshell/] have the same
    copy: a linear congruential generator, a xorshift and a
    multiply-with-carry generator, added. *)

From S2P Require Import Prelude.

Record rnd : Type := mkRnd { r_x : Z; r_y : Z; r_z : Z; r_c : Z }.

Definition rnd_seed : rnd := mkRnd 123456789 362436000 521288629 7654321.

Definition KISS_A : Z := 698769069.

Definition u64 (x : Z) : Z := x mod 2 ^ 64.

(** The three lines on [y]. *)
Definition xorshift (y : Z) : Z :=
  let y := Z.lxor y (u32 (Z.shiftl y 13)) in
  let y := Z.lxor y (Z.shiftr y 17) in
  Z.lxor y (u32 (Z.shiftl y 5)).

Definition UKISS (r : rnd) : Z * rnd :=
  let x := u32 (69069 * r_x r + 12345) in
  let y := xorshift (r_y r) in
  let t := u64 (KISS_A * r_z r + r_c r) in
  let c := u32 (Z.shiftr t 32) in
  let z := u32 t in
  (u32 (u32 (x + y) + z), mkRnd x y z c).

(** ** The state stays good

    The words are in range, the xorshift word is not 0, where it would stay,
    and the multiply-with-carry pair is at neither of its fixed points. *)
Record rnd_ok (r : rnd) : Prop := {
  ro_x : is_u32 (r_x r);
  ro_y : 0 < r_y r < 2 ^ 32;
  ro_z : is_u32 (r_z r);
  ro_c : 0 <= r_c r < KISS_A;
  ro_zero : r_z r <> 0 \/ r_c r <> 0;
  ro_max : r_z r <> 2 ^ 32 - 1 \/ r_c r <> KISS_A - 1 }.

Lemma lxor_range a b : is_u32 a -> is_u32 b -> is_u32 (Z.lxor a b).
Proof.
  unfold is_u32. intros Ha Hb. assert (H0 : 0 <= Z.lxor a b) by (apply Z.lxor_nonneg; lia). split; [done|].
  destruct (decide (Z.lxor a b = 0)) as [->|Hne]; [lia|]. apply Z.log2_lt_pow2; [lia|].
  pose proof (Z.log2_lxor a b ltac:(lia) ltac:(lia)) as Hl.
  assert (Hlog : forall v, 0 <= v < 2 ^ 32 -> Z.log2 v < 32).
  { intros v Hv. destruct (decide (v = 0)) as [->|]; [by vm_compute|]. by apply Z.log2_lt_pow2; lia. }
  pose proof (Hlog a Ha). pose proof (Hlog b Hb). lia.
Qed.

(** A word is not equal to itself shifted. *)
Lemma shiftl_fix y k : 0 <= y < 2 ^ 32 -> 0 < k -> Z.gcd (2 ^ 32) (2 ^ k - 1) = 1 -> y = u32 (Z.shiftl y k) -> y = 0.
Proof.
  intros Hy Hk Hg E. unfold u32 in E. rewrite Z.shiftl_mul_pow2 in E by lia.
  pose proof (Z.div_mod (y * 2 ^ k) (2 ^ 32) ltac:(lia)) as Hd. rewrite <- E in Hd.
  assert (Hdiv : (2 ^ 32 | (2 ^ k - 1) * y)) by (exists (y * 2 ^ k / 2 ^ 32); lia).
  apply Z.gauss in Hdiv as [q Hq]; [|exact Hg].
  destruct (decide (q = 0)) as [->|]; [lia|]. nia.
Qed.

Lemma shiftr_fix y k : 0 <= y -> 0 < k -> y = Z.shiftr y k -> y = 0.
Proof.
  intros Hy Hk E. rewrite Z.shiftr_div_pow2 in E by lia. destruct (decide (y = 0)); [done|].
  pose proof (Z.div_lt y (2 ^ k) ltac:(lia)) as H. rewrite <- E in H.
  assert (1 < 2 ^ k) by (apply Z.pow_gt_1; lia). lia.
Qed.

Lemma xorshift_ok y : 0 < y < 2 ^ 32 -> 0 < xorshift y < 2 ^ 32.
Proof.
  intros Hy. unfold xorshift.
  assert (Hl : forall v k, 0 < v < 2 ^ 32 -> 0 < k -> Z.gcd (2 ^ 32) (2 ^ k - 1) = 1 -> 0 < Z.lxor v (u32 (Z.shiftl v k)) < 2 ^ 32).
  { intros v k Hv Hk Hg. pose proof (lxor_range v (u32 (Z.shiftl v k)) ltac:(unfold is_u32; lia) (u32_range _)) as [H1 H2].
    destruct (decide (Z.lxor v (u32 (Z.shiftl v k)) = 0)) as [E|]; [|lia]. apply Z.lxor_eq in E.
    apply shiftl_fix in E; [lia|lia|lia|exact Hg]. }
  assert (Hr : forall v k, 0 < v < 2 ^ 32 -> 0 < k -> 0 < Z.lxor v (Z.shiftr v k) < 2 ^ 32).
  { intros v k Hv Hk. assert (Hs : 0 <= Z.shiftr v k <= v).
    { rewrite Z.shiftr_div_pow2 by lia. split; [apply Z.div_pos; lia|]. apply Z.div_le_upper_bound; [lia|]. 
      assert (1 < 2 ^ k) by (apply Z.pow_gt_1; lia). nia. }
    pose proof (lxor_range v (Z.shiftr v k) ltac:(unfold is_u32; lia) ltac:(unfold is_u32; lia)) as [H1 H2].
    destruct (decide (Z.lxor v (Z.shiftr v k) = 0)) as [E|]; [|lia]. apply Z.lxor_eq in E. apply shiftr_fix in E; lia. }
  apply Hl; [|lia|reflexivity]. apply Hr; [|lia]. apply Hl; [lia|lia|reflexivity].
Qed.

Lemma UKISS_ok r : rnd_ok r -> is_u32 (fst (UKISS r)) /\ rnd_ok (snd (UKISS r)).
Proof.
  intros [Hx Hy Hz Hc H0 Hm]. split; [apply u32_range|]. unfold UKISS, is_u32, KISS_A in *. cbn [snd].
  assert (Ht : u64 (698769069 * r_z r + r_c r) = 698769069 * r_z r + r_c r) by (unfold u64; apply Z.mod_small; lia).
  rewrite Ht. set (t := 698769069 * r_z r + r_c r) in *. rewrite Z.shiftr_div_pow2 by lia.
  pose proof (Z.div_mod t (2 ^ 32) ltac:(lia)) as Hd. pose proof (Z.mod_pos_bound t (2 ^ 32) ltac:(lia)) as Hb.
  assert (Hq : 0 <= t / 2 ^ 32 < 698769069) by (split; [apply Z.div_pos; lia|apply Z.div_lt_upper_bound; lia]).
  rewrite (u32_id (t / 2 ^ 32)) by (unfold is_u32; lia).
  split; cbn [r_x r_y r_z r_c]; unfold KISS_A.
  - apply u32_range.
  - by apply xorshift_ok.
  - apply u32_range.
  - exact Hq.
  - unfold u32. lia.
  - unfold u32. lia.
Qed.

Lemma rnd_seed_ok : rnd_ok rnd_seed.
Proof. split; unfold rnd_seed, is_u32, KISS_A; cbn; lia. Qed.

(** The generator after [n] numbers. *)
Definition rnd_after (n : nat) : rnd := Nat.iter n (fun r => snd (UKISS r)) rnd_seed.

Lemma rnd_after_ok n : rnd_ok (rnd_after n).
Proof. induction n as [|n IH]; [apply rnd_seed_ok|]. by apply UKISS_ok. Qed.

(** The congruential word and the multiply-with-carry pair move at every
    step. *)
Lemma lcg_moves r : rnd_ok r -> r_x (snd (UKISS r)) <> r_x r.
Proof.
  intros [[Hx1 Hx2] _ _ _ _ _] E. cbn in E. unfold u32 in E.
  pose proof (Z.div_mod (69069 * r_x r + 12345) (2 ^ 32) ltac:(lia)) as Hd. rewrite E in Hd. lia.
Qed.

Lemma mwc_moves r : rnd_ok r -> (r_z (snd (UKISS r)), r_c (snd (UKISS r))) <> (r_z r, r_c r).
Proof.
  intros [Hx Hy Hz Hc H0 Hm]. unfold UKISS, is_u32, KISS_A in *. cbn [snd r_z r_c].
  assert (Ht : u64 (698769069 * r_z r + r_c r) = 698769069 * r_z r + r_c r) by (unfold u64; apply Z.mod_small; lia).
  rewrite Ht. set (t := 698769069 * r_z r + r_c r) in *. rewrite Z.shiftr_div_pow2 by lia.
  pose proof (Z.div_mod t (2 ^ 32) ltac:(lia)) as Hd.
  assert (Hq : 0 <= t / 2 ^ 32 < 698769069) by (split; [apply Z.div_pos; lia|apply Z.div_lt_upper_bound; lia]).
  rewrite (u32_id (t / 2 ^ 32)) by (unfold is_u32; lia). unfold u32. intros [= E1 E2]. rewrite E1, E2 in Hd.
  assert (Hdiv : ((2 ^ 32 - 1) | 698769068 * r_z r)) by (exists (r_c r); unfold t in Hd; lia).
  apply Z.gauss in Hdiv as [q Hq']; [|reflexivity].
  assert (q = 0 \/ q = 1) as [-> | ->] by nia; unfold t in Hd; lia.
Qed.

(** C28: however many numbers were drawn, every word of the generators' state
    is in range and no carry is lost ([t] needs no 64th bit); the xorshift
    word has not become 0, where it would stay, and the congruential word
    and the multiply-with-carry pair change at every step. *)
Theorem UKISS_type n (r := rnd_after n) (r' := rnd_after (S n)) :
  is_u32 (fst (UKISS r)) /\ rnd_ok r /\ KISS_A * r_z r + r_c r < 2 ^ 62 /\
  0 < r_y r' /\ r_x r' <> r_x r /\ (r_z r', r_c r') <> (r_z r, r_c r).
Proof.
  pose proof (rnd_after_ok n) as Hok. fold r in Hok. split_and!.
  - apply u32_range.
  - exact Hok.
  - destruct Hok as [_ _ [_ Hz] [_ Hc] _ _]. unfold KISS_A in *. lia.
  - apply rnd_after_ok.
  - by apply lcg_moves.
  - by apply mwc_moves.
Qed.
