(* ===== verification/Stage.v ===== *)
(** * The game's drawing

    Models [game/include/stage.h]: shapes drawn pixel by pixel into the
    screen's cache through system calls, which are the functions of Video
    (Syscalls), and the square roots with their table. *)

From Stdlib Require Import String Ascii.
From S2P Require Import Prelude Video Printk.

(** ** Tables *)

Definition squares : list Z := [
   0; 1; 4; 9; 16; 25; 36; 49; 64; 81; 100; 121; 144; 169; 196; 225;
   256; 289; 324; 361; 400; 441; 484; 529; 576; 625; 676; 729; 784; 841; 900; 961;
   1024; 1089; 1156; 1225; 1296; 1369; 1444; 1521; 1600; 1681; 1764; 1849; 1936; 2025; 2116; 2209;
   2304; 2401; 2500; 2601; 2704; 2809; 2916; 3025; 3136; 3249; 3364; 3481; 3600; 3721; 3844; 3969;
   4096; 4225; 4356; 4489; 4624; 4761; 4900; 5041; 5184; 5329; 5476; 5625; 5776; 5929; 6084; 6241;
   6400; 6561; 6724; 6889; 7056; 7225; 7396; 7569; 7744; 7921; 8100; 8281; 8464; 8649; 8836; 9025;
   9216; 9409; 9604; 9801; 10000; 10201; 10404; 10609; 10816; 11025; 11236; 11449; 11664; 11881; 12100; 12321;
   12544; 12769; 12996; 13225; 13456; 13689; 13924; 14161; 14400; 14641; 14884; 15129; 15376; 15625; 15876; 16129;
   16384; 16641; 16900; 17161; 17424; 17689; 17956; 18225; 18496; 18769; 19044; 19321; 19600; 19881; 20164; 20449;
   20736; 21025; 21316; 21609; 21904; 22201; 22500; 22801; 23104; 23409; 23716; 24025; 24336; 24649; 24964; 25281;
   25600; 25921; 26244; 26569; 26896; 27225; 27556; 27889; 28224; 28561; 28900; 29241; 29584; 29929; 30276; 30625;
   30976; 31329; 31684; 32041; 32400; 32761; 33124; 33489; 33856; 34225; 34596; 34969; 35344; 35721; 36100; 36481;
   36864; 37249; 37636; 38025; 38416; 38809; 39204; 39601; 40000; 40401; 40804; 41209; 41616; 42025; 42436; 42849;
   43264; 43681; 44100; 44521; 44944; 45369; 45796; 46225; 46656; 47089; 47524; 47961; 48400; 48841; 49284; 49729;
   50176; 50625; 51076; 51529; 51984; 52441; 52900; 53361; 53824; 54289; 54756; 55225; 55696; 56169; 56644; 57121;
   57600; 58081; 58564; 59049; 59536; 60025; 60516; 61009; 61504; 62001; 62500; 63001; 63504; 64009; 64516; 65025].

(** A picture of [0] and [1], row by row; spaces part the rows. *)
Fixpoint bits (s : string) : list Z :=
  match s with
  | EmptyString => []
  | String "0" s => 0 :: bits s
  | String "1" s => 1 :: bits s
  | String _ s => bits s
  end.

Definition text1 : list Z := bits
  "1111000000000000000000000000000000000000000000000000
   1000100000000000000000000000000000000000000000000000
   1000100101000110000011000001010000000000000000000000
   1000100110001001000100100010101000000000000000000000
   1000100100001010100100100010101000000000000000000000
   1111000100000111000011010010101000000000000000000000
   0000000000000000000000000000000000000000000000000000
   0000000000001100000011000000000000000000000000000000
   0000000000010010000100000000000000000000000000000000
   0000000000010010001110000000000000000000000000000000
   0000000000001100000100000000000000000000000000000000
   0000000000000000000100000000000000000000000000000000
   0000000000000000001100000000000000000000000000000000
   0000000000000000000000000000000000000010001000000000
   0000000000000000001000011110000111100010001000000000
   0000000000000000001000010010000100100010001000000000
   0000000000000000001000010010000100100011111000111110
   0000000000000000001000010010000100100010001000000100
   0000000000000000001000010010000100100010001000001000
   0000000000000000001000011110000111100010001000111110".

Definition num0 : list Z := bits "11111 10001 10001 10001 10001 10001 11111".
Definition num1 : list Z := bits "00110 00010 00010 00010 00010 00010 01111".
Definition num2 : list Z := bits "11111 00001 00001 11111 10000 10000 11111".
Definition num3 : list Z := bits "11111 00001 00001 11111 00001 00001 11111".
Definition num4 : list Z := bits "10001 10001 10001 11111 00001 00001 00001".
Definition num5 : list Z := bits "11111 10000 10000 11111 00001 00001 11111".
Definition num6 : list Z := bits "11111 10000 10000 11111 10001 10001 11111".
Definition num7 : list Z := bits "11111 00001 00001 00001 00001 00001 00001".
Definition num8 : list Z := bits "11111 10001 10001 11111 10001 10001 11111".
Definition num9 : list Z := bits "11111 10001 10001 11111 00001 00001 11111".
Definition nums : list (list Z) := [num0; num1; num2; num3; num4; num5; num6; num7; num8; num9].

(** ** State *)

Record stst : Type := mkSt {
  hash : Z;
  lhash : Z;
  memoriza : list Z;
  st_vid : vidst }.

Definition with_hash v s := mkSt v (lhash s) (memoriza s) (st_vid s).
Definition with_lhash v s := mkSt (hash s) v (memoriza s) (st_vid s).
Definition with_memoriza v s := mkSt (hash s) (lhash s) v (st_vid s).
Definition with_stvid v s := mkSt (hash s) (lhash s) (memoriza s) v.

Definition stage_start (v : vidst) : stst := mkSt 0 0 (replicate 600 0) v.

(** ** Square roots *)

(** [if (p[k] <= x) p += k;] *)
Definition isqrt_step (k : nat) (x : Z) (p : nat) : M stst nat :=
  v ← from_option_or OutOfBounds (squares !! (p + k)%nat);
  mret (if v <=? x then (p + k)%nat else p).

Definition isqrt (x : Z) : M stst Z :=
  s ← get;
  m ← from_option_or OutOfBounds (memoriza s !! Z.to_nat x);
  if 0 <? m then mret (i32 m)
  else
    p ← isqrt_step 32 x 0;
    p ← isqrt_step 16 x p;
    p ← isqrt_step 8 x p;
    p ← isqrt_step 4 x p;
    p ← isqrt_step 2 x p;
    p ← isqrt_step 1 x p;
    modify (with_memoriza (<[Z.to_nat x := Z.of_nat p]> (memoriza s)));;
    mret (Z.of_nat p).

(** ** Drawing *)

Definition clearStage : M stst unit := modify (fun s => with_stvid (initVCache (st_vid s)) (with_hash 0 s)).

Definition drawPoint (x y color : Z) : M stst unit := modify (fun s => with_stvid (setPixelAt y x color (st_vid s)) s).

(** [for (j = j0; ...; j++)] with [n] steps to go. *)
Fixpoint draw_column (n : nat) (x j color : Z) : M stst unit :=
  match n with
  | O => mret tt
  | S n => drawPoint x j color;; draw_column n x (i32 (j + 1)) color
  end.

Fixpoint rect_columns (n : nat) (x y h color : Z) : M stst unit :=
  match n with
  | O => mret tt
  | S n => draw_column (Z.to_nat h) x y color;; rect_columns n (i32 (x + 1)) y h color
  end.

Definition drawRect (x y w h color : Z) : M stst unit :=
  modify (fun s => with_hash (u32 (hash s + (29 * x + 57 * y + 13 * color))) s);;
  rect_columns (Z.to_nat w) x y h color.

Fixpoint circ_columns (n : nat) (i x y r color : Z) : M stst unit :=
  match n with
  | O => mret tt
  | S n =>
      q ← isqrt (u32 (i32 (r * r - i * i)));
      let delta := i32 (q + 1) in
      draw_column (Z.to_nat (2 * delta + 1)) (i32 (x + i)) (i32 (y - delta)) color;;
      circ_columns n (i + 1) x y r color
  end.

Definition drawCirc (x y r color : Z) : M stst unit :=
  modify (fun s => with_hash (u32 (hash s + (329 * x + 157 * y + 713 * r))) s);;
  circ_columns (Z.to_nat (2 * r + 1)) (- r) x y r color.

(** The pixels of a picture [w] wide, each a rectangle where it is set:
    [n] of them from number [k] on, [rect i j] for column [i] and row [j]. *)
Fixpoint draw_bits (n k w : nat) (pic : list Z) (rect : Z -> Z -> M stst unit) : M stst unit :=
  match n with
  | O => mret tt
  | S n =>
      b ← from_option_or OutOfBounds (pic !! k);
      (if b =? 0 then mret tt else rect (Z.of_nat (k mod w)) (Z.of_nat (k / w)));;
      draw_bits n (S k) w pic rect
  end.

Definition drawText1 : M stst unit :=
  draw_bits (52 * 20) 0 52 text1 (fun i j => drawRect (50 + i * 4) (20 + j * 5) 4 5 14).

(** [for(;di>=0;di--)] over the digits, the highest first. *)
Fixpoint draw_digits (ds : list Z) (i x y size color : Z) : M stst unit :=
  match ds with
  | [] => mret tt
  | d :: ds =>
      num ← from_option_or OutOfBounds (nums !! Z.to_nat (d - ch_zero));
      draw_bits (7 * 5) 0 5 num (fun xx yy =>
        drawRect (i32 (i * (size * size + 10) + x + xx * size)) (i32 (y + yy * size)) size size color);;
      draw_digits ds (i + 1) x y size color
  end.

(** [char temp[11]] is filled as [printk]'s digits are. *)
Definition drawNumber (num x y size color : Z) : M stst unit :=
  temp ← (if num =? 0 then mret [ch_zero] else from_option_or OutOfBounds (dec_digits 11 num));
  draw_digits (rev temp) 0 x y size color.

Definition drawStage : M stst unit :=
  s ← get;
  if lhash s =? hash s then mret tt
  else modify (fun s => with_lhash (hash s) (with_stvid (flush_vcache (st_vid s)) s)).
