(* ===== verification/StageProofs.v ===== *)
(** * The game's drawing: lemmas

    What each drawing function does to the screen's cache, as a list of
    pixels for [draw] of Video. *)

From S2P Require Import Prelude Video Printk Stage.

(** ** Square roots *)

Lemma squares_eq : squares = (fun i => i * i) <$> seqZ 0 256.
Proof. vm_compute. reflexivity. Qed.

Lemma squares_lookup p : (p < 256)%nat -> squares !! p = Some (Z.of_nat p * Z.of_nat p).
Proof. intros Hp. rewrite squares_eq, list_lookup_fmap, lookup_seqZ_lt by lia. cbn [fmap option_fmap option_map]. by rewrite Z.add_0_l. Qed.

(** Entry [x] of [memoriza] is 0 or the root of [x]. *)
Definition memo_ok (memo : list Z) : Prop :=
  length memo = 600%nat /\ forall i m, memo !! i = Some m -> m = 0 \/ m = Z.sqrt (Z.of_nat i).

Lemma memo_start : memo_ok (replicate 600 0).
Proof. split; [apply length_replicate|]. intros i m [-> _]%lookup_replicate. by left. Qed.

Lemma memo_insert memo i : memo_ok memo -> memo_ok (<[i := Z.sqrt (Z.of_nat i)]> memo).
Proof.
  intros [Hl Hm]. split; [by rewrite length_insert|]. intros j m Hj. destruct (decide (i = j)) as [->|Hne].
  - destruct (decide (j < length memo)%nat) as [Hlt|Hge].
    + rewrite list_lookup_insert_eq in Hj by done. injection Hj as <-. by right.
    + rewrite list_insert_ge in Hj by lia. by apply Hm.
  - rewrite list_lookup_insert_ne in Hj by done. by apply Hm.
Qed.

Section stage.
Implicit Types (s : stst) (J : stst -> Prop).

(** One halving of the interval [p, p + 2 k). *)
Lemma wp_isqrt_step k x p s (Q : nat -> stst -> Prop) J : (p + k < 256)%nat ->
  Z.of_nat p * Z.of_nat p <= x < (Z.of_nat p + 2 * Z.of_nat k) * (Z.of_nat p + 2 * Z.of_nat k) ->
  (forall p', (p' <= p + k)%nat -> Z.of_nat p' * Z.of_nat p' <= x < (Z.of_nat p' + Z.of_nat k) * (Z.of_nat p' + Z.of_nat k) -> Q p' s) ->
  wp (isqrt_step k x p) Q J s.
Proof.
  intros Hp Hx HQ. unfold isqrt_step. apply wp_bind. eapply wp_from_option; [by apply squares_lookup|]. apply wp_ret.
  rewrite Nat2Z.inj_add. destruct (Z.leb_spec ((Z.of_nat p + Z.of_nat k) * (Z.of_nat p + Z.of_nat k)) x); apply HQ; lia.
Qed.

Lemma wp_isqrt x s (Q : Z -> stst -> Prop) J : memo_ok (memoriza s) -> 0 <= x < 600 ->
  (forall memo, memo_ok memo -> Q (Z.sqrt x) (with_memoriza memo s)) -> wp (isqrt x) Q J s.
Proof.
  intros Hm Hx HQ. pose proof Hm as [Hl Hv]. unfold isqrt. apply wp_bind, wp_get.
  destruct (lookup_lt_is_Some_2 (memoriza s) (Z.to_nat x)) as [m E]; [lia|].
  apply wp_bind. eapply wp_from_option; [exact E|]. pose proof (Z.sqrt_spec x ltac:(lia)) as Hs. cbv zeta in Hs.
  apply Hv in E. rewrite Z2Nat.id in E by lia. destruct (Z.ltb_spec 0 m) as [Hpos|Hpos].
  - destruct E as [->| ->]; [lia|]. apply wp_ret. rewrite i32_id by (unfold is_i32; nia). destruct s. by apply HQ.
  - do 5 (apply wp_bind, wp_isqrt_step; [lia|nia|]; intros ? ? ?). apply wp_bind, wp_isqrt_step; [lia|nia|]. intros p Hp1 Hp2.
    assert (Ep : Z.of_nat p = Z.sqrt x) by (symmetry; apply Z.sqrt_unique; cbn in *; lia).
    apply wp_bind, wp_modify, wp_ret. rewrite Ep. apply HQ.
    replace (Z.sqrt x) with (Z.sqrt (Z.of_nat (Z.to_nat x))) by (f_equal; lia). by apply memo_insert.
Qed.

(** ** Lists of pixels *)

Lemma draw_app px1 px2 v : draw (px1 ++ px2) v = draw px2 (draw px1 v).
Proof. revert v. induction px1 as [|[[a b] c] px1 IH]; intros v; [done|]. simpl. apply IH. Qed.

(** The state after drawing [px]: the table may have grown and the hash
    moved. *)
Definition drawn (px : list pixel) (h : Z) (memo : list Z) s : stst := mkSt h (lhash s) memo (draw px (st_vid s)).

Definition small (z : Z) : Prop := - 2 ^ 20 <= z <= 2 ^ 20.

Definition column_px (n : nat) (x j color : Z) : list pixel := (fun y => (y, x, color)) <$> seqZ j (Z.of_nat n).

Lemma wp_draw_column n x j color s (Q : unit -> stst -> Prop) J : - 2 ^ 31 <= j -> j + Z.of_nat n < 2 ^ 31 ->
  Q tt (drawn (column_px n x j color) (hash s) (memoriza s) s) -> wp (draw_column n x j color) Q J s.
Proof.
  revert j s. induction n as [|n IH]; intros j s Hj1 Hj2 HQ; cbn [draw_column].
  - apply wp_ret. destruct s. exact HQ.
  - apply wp_bind, wp_modify. rewrite i32_id by (unfold is_i32; lia). apply IH; [lia|lia|].
    unfold drawn, column_px in *. rewrite seqZ_cons in HQ by lia. cbn [fmap list_fmap draw] in HQ.
    replace (Z.pred (Z.of_nat (S n))) with (Z.of_nat n) in HQ by lia. exact HQ.
Qed.

Definition rect_px (w : nat) (x y : Z) (h : nat) (color : Z) : list pixel :=
  seqZ x (Z.of_nat w) ≫= (fun x => column_px h x y color).

Lemma wp_rect_columns n x y h color s (Q : unit -> stst -> Prop) J : small x -> small y -> 0 <= h <= 2 ^ 20 -> (Z.of_nat n <= 2 ^ 20) ->
  x + Z.of_nat n <= 2 ^ 21 ->
  Q tt (drawn (rect_px n x y (Z.to_nat h) color) (hash s) (memoriza s) s) -> wp (rect_columns n x y h color) Q J s.
Proof.
  intros Hx Hy Hh Hn Hxn. assert (Hx' : - 2 ^ 20 <= x) by apply Hx. clear Hx Hn. unfold small in Hy. revert x s Hx' Hxn. 
  induction n as [|n IH]; intros x s Hx Hxn HQ; cbn [rect_columns].
  - apply wp_ret. destruct s. exact HQ.
  - apply wp_bind, wp_draw_column; [lia|lia|]. rewrite i32_id by (unfold is_i32; lia). apply IH; [lia|lia|].
    unfold drawn, rect_px in *. rewrite seqZ_cons in HQ by lia. cbn [mbind list_bind] in HQ. rewrite draw_app in HQ.
    replace (Z.pred (Z.of_nat (S n))) with (Z.of_nat n) in HQ by lia. exact HQ.
Qed.

Lemma wp_drawRect x y w h color s (Q : unit -> stst -> Prop) J : small x -> small y -> 0 <= w <= 2 ^ 20 -> 0 <= h <= 2 ^ 20 ->
  Q tt (drawn (rect_px (Z.to_nat w) x y (Z.to_nat h) color) (u32 (hash s + (29 * x + 57 * y + 13 * color))) (memoriza s) s) ->
  wp (drawRect x y w h color) Q J s.
Proof.
  intros Hx Hy Hw Hh HQ. unfold drawRect. apply wp_bind, wp_modify. pose proof Hx as [_ Hx2].
  apply wp_rect_columns; [done|done|done|lia|lia|exact HQ].
Qed.

(** Columns [i] to [r] of the disc. *)
Definition circ_px (x y r color i : Z) : list pixel :=
  seqZ i (r + 1 - i) ≫= (fun i => let d := Z.sqrt (r * r - i * i) + 1 in column_px (Z.to_nat (2 * d + 1)) (x + i) (y - d) color).

Lemma wp_circ_columns n i x y r color s (Q : unit -> stst -> Prop) J : memo_ok (memoriza s) -> 0 <= r <= 24 -> small x -> small y ->
  - r <= i -> Z.of_nat n = r + 1 - i ->
  (forall memo, memo_ok memo -> Q tt (drawn (circ_px x y r color i) (hash s) memo s)) -> wp (circ_columns n i x y r color) Q J s.
Proof.
  intros Hm Hr Hx Hy. unfold small in Hx, Hy. revert i s Hm. induction n as [|n IH]; intros i s Hm Hi Hn HQ; cbn [circ_columns].
  - apply wp_ret. specialize (HQ _ Hm). unfold drawn, circ_px in HQ. replace (r + 1 - i) with 0 in HQ by lia. destruct s. exact HQ.
  - assert (Hsq : 0 <= r * r - i * i < 600) by nia. pose proof (Z.sqrt_spec (r * r - i * i) ltac:(lia)) as Hs. cbv zeta in Hs.
    pose proof (Z.sqrt_nonneg (r * r - i * i)) as Hs0. assert (Hs1 : Z.sqrt (r * r - i * i) < 25) by nia.
    rewrite (i32_id (_ - _)), (u32_id (_ - _)) by (unfold is_i32, is_u32; lia).
    apply wp_bind, wp_isqrt; [done|done|]. intros memo Hmemo. set (q := Z.sqrt (r * r - i * i)) in *.
    rewrite (i32_id (q + 1)), (i32_id (x + i)), (i32_id (y - _)) by (unfold is_i32; lia).
    apply wp_bind, wp_draw_column; [lia|lia|]. apply IH; [done|lia|lia|].
    intros memo' Hm'. specialize (HQ memo' Hm'). unfold drawn, circ_px in *. rewrite seqZ_cons in HQ by lia.
    cbn [mbind list_bind] in HQ. rewrite draw_app in HQ. replace (Z.succ i) with (i + 1) in HQ by lia.
    replace (Z.pred (r + 1 - i)) with (r + 1 - (i + 1)) in HQ by lia. exact HQ.
Qed.

Lemma wp_drawCirc x y r color s (Q : unit -> stst -> Prop) J : memo_ok (memoriza s) -> 0 <= r <= 24 -> small x -> small y ->
  (forall memo, memo_ok memo -> Q tt (drawn (circ_px x y r color (- r)) (u32 (hash s + (329 * x + 157 * y + 713 * r))) memo s)) ->
  wp (drawCirc x y r color) Q J s.
Proof.
  intros Hm Hr Hx Hy HQ. unfold drawCirc. apply wp_bind, wp_modify. apply wp_circ_columns; [done..|lia|lia|exact HQ].
Qed.

(** ** Pictures and numbers *)

Definition bits_px (px : Z -> Z -> list pixel) (n k w : nat) (pic : list Z) : list pixel :=
  seq k n ≫= (fun k => match pic !! k with
                       | Some b => if b =? 0 then [] else px (Z.of_nat (k mod w)) (Z.of_nat (k / w))
                       | None => []
                       end).

Lemma wp_draw_bits n k w pic rect px s (Q : unit -> stst -> Prop) J : (k + n <= length pic)%nat -> (0 < w)%nat ->
  (forall i j s (Q : unit -> stst -> Prop), 0 <= i < Z.of_nat w -> 0 <= j <= Z.of_nat (length pic) ->
     (forall h, Q tt (drawn (px i j) h (memoriza s) s)) -> wp (rect i j) Q J s) ->
  (forall h, Q tt (drawn (bits_px px n k w pic) h (memoriza s) s)) -> wp (draw_bits n k w pic rect) Q J s.
Proof.
  intros Hlen Hw Hrect. revert k s Hlen. induction n as [|n IH]; intros k s Hlen HQ; cbn [draw_bits].
  - apply wp_ret. specialize (HQ (hash s)). destruct s. exact HQ.
  - destruct (lookup_lt_is_Some_2 pic k) as [b Hb]; [lia|]. apply wp_bind. eapply wp_from_option; [exact Hb|]. apply wp_bind.
    unfold bits_px in HQ. cbn [seq mbind list_bind] in HQ. rewrite Hb in HQ. destruct (b =? 0).
    + apply wp_ret, IH; [lia|]. exact HQ.
    + pose proof (Nat.mod_upper_bound k w ltac:(lia)). pose proof (Nat.Div0.div_le_upper_bound k w k ltac:(nia)).
      apply Hrect; [lia|lia|]. intros h. apply IH; [lia|]. intros h'. specialize (HQ h'). unfold drawn in *. rewrite draw_app in HQ. exact HQ.
Qed.

Definition digit_px (d : Z) (x y size color : Z) : list pixel :=
  bits_px (fun xx yy => rect_px (Z.to_nat size) (x + xx * size) (y + yy * size) (Z.to_nat size) color) (7 * 5) 0 5
    (default [] (nums !! Z.to_nat d)).

(** The digits of [ds] from the [i]th place on. *)
Definition digits_px (ds : list Z) (i x y size color : Z) : list pixel :=
  mjoin (imap (fun k d => digit_px (d - ch_zero) ((i + Z.of_nat k) * (size * size + 10) + x) y size color) ds).

Lemma digits_px_cons d ds i x y size color : digits_px (d :: ds) i x y size color =
  digit_px (d - ch_zero) (i * (size * size + 10) + x) y size color ++ digits_px ds (i + 1) x y size color.
Proof.
  unfold digits_px. rewrite imap_cons. cbn [mjoin list_join]. rewrite Z.add_0_r. f_equal. f_equal. apply imap_ext.
  intros k d' _. unfold compose. by replace (i + Z.of_nat (S k)) with (i + 1 + Z.of_nat k) by lia.
Qed.

Lemma length_nums d num : nums !! d = Some num -> length num = 35%nat.
Proof. do 10 (destruct d as [|d]; [by intros [= <-]|]). intros H. destruct d; discriminate H. Qed.

Lemma wp_draw_digits ds i x y size color s (Q : unit -> stst -> Prop) J :
  Forall (fun d => 48 <= d < 58) ds -> 0 <= i -> i + Z.of_nat (length ds) <= 16 -> 0 <= x <= 1000 -> 0 <= y <= 1000 -> 0 <= size <= 16 ->
  (forall h, Q tt (drawn (digits_px ds i x y size color) h (memoriza s) s)) -> wp (draw_digits ds i x y size color) Q J s.
Proof.
  intros Hds Hi Hl Hx Hy Hsz. revert i s Hi Hl. induction Hds as [|d ds Hd Hds IH]; intros i s Hi Hl HQ; cbn [draw_digits].
  - apply wp_ret. specialize (HQ (hash s)). destruct s. exact HQ.
  - simpl length in Hl. unfold ch_zero. destruct (lookup_lt_is_Some_2 nums (Z.to_nat (d - 48))) as [num Hnum]; [change (length nums) with 10%nat; lia|].
    apply wp_bind. eapply wp_from_option; [exact Hnum|]. apply wp_bind.
    apply (wp_draw_bits _ _ _ _ _ (fun xx yy => rect_px (Z.to_nat size) (i * (size * size + 10) + x + xx * size) (y + yy * size) (Z.to_nat size) color)).
    + rewrite (length_nums _ _ Hnum). lia.
    + lia.
    + intros xx yy s' Q' Hxx Hyy HQ'. rewrite (length_nums _ _ Hnum) in Hyy.
      assert (size * size <= 256) by nia. assert (0 <= xx * size <= 80) by nia. assert (0 <= yy * size <= 560) by nia.
      assert (0 <= i * (size * size + 10) <= 4256) by nia.
      rewrite (i32_id (_ + _ + _)), (i32_id (y + _)) by (unfold is_i32; lia).
      apply wp_drawRect; [unfold small; lia|unfold small; lia|lia|lia|apply HQ'].
    + intros h. apply IH; [lia|lia|]. intros h'. specialize (HQ h'). rewrite digits_px_cons in HQ. unfold digit_px at 1 in HQ.
      unfold ch_zero in HQ at 1. rewrite Hnum in HQ. cbn [default] in HQ. unfold drawn in *. rewrite draw_app in HQ. exact HQ.
Qed.

(** The numeral of [num], the highest digit first; none when it is
    negative. *)
Definition numeral (num : Z) : list Z := if num =? 0 then [ch_zero] else rev (default [] (dec_digits 11 num)).

Lemma dec_digits_11 num : num < 2 ^ 31 -> exists ds, dec_digits 11 num = Some ds /\ (length ds <= 10)%nat /\
  Forall (is_digit 10) ds /\ Forall (fun d => 48 <= d < 58) ds /\
  (0 <= num -> numeral_rev 10 ds = num) /\ (0 < num -> exists d, last ds = Some d /\ d <> ch_zero).
Proof.
  intros Hn. destruct (decide (num <= 0)) as [Hneg|Hpos].
  - exists []. unfold dec_digits. cbn [digit_loop]. rewrite (proj2 (Z.leb_gt 1 num)) by lia. split_and!; try done; [simpl; lia| |lia].
    intros H. simpl. lia.
  - destruct (digit_loop_spec 10 dec_digit (fun x => Z.quot x 10) ltac:(lia)) with (n := 10%nat) (room := 11%nat) (x := num)
      as (ds & E & Hl & Hv & Hd & Hlast).
    + intros y Hy. destruct (dec_digit_spec y Hy). split; [done|by left].
    + intros y Hy. by apply Z.quot_div_nonneg.
    + split; [lia|]. apply Z.lt_trans with (2 ^ 31); [lia|reflexivity].
    + lia.
    + exists ds. split_and!; try done. apply Forall_forall. intros d Hin. rewrite Forall_forall in Hd. destruct (Hd d Hin) as [H1 H2].
      destruct H2 as [|H2]; [done|]. unfold digit_val, ch_zero in H1. rewrite (proj2 (Z.leb_le 97 d)) in H1 by lia. lia.
Qed.

Lemma wp_drawNumber num x y size color s (Q : unit -> stst -> Prop) J :
  num < 2 ^ 31 -> 0 <= x <= 1000 -> 0 <= y <= 1000 -> 0 <= size <= 16 ->
  (forall h, Q tt (drawn (digits_px (numeral num) 0 x y size color) h (memoriza s) s)) -> wp (drawNumber num x y size color) Q J s.
Proof.
  intros Hn Hx Hy Hsz HQ. unfold drawNumber, numeral in *. destruct (num =? 0).
  - apply wp_bind, wp_ret. apply wp_draw_digits; [by repeat constructor|lia|simpl; lia|done..].
  - destruct (dec_digits_11 num Hn) as (ds & E & Hl & _ & Hd & _). rewrite E in *. apply wp_bind, wp_ret.
    apply wp_draw_digits; [by apply Forall_rev|lia|rewrite length_rev; lia|done..].
Qed.

Definition text1_px : list pixel := bits_px (fun i j => rect_px 4 (50 + i * 4) (20 + j * 5) 5 14) (52 * 20) 0 52 text1.

Lemma wp_drawText1 s (Q : unit -> stst -> Prop) J :
  (forall h, Q tt (drawn text1_px h (memoriza s) s)) -> wp drawText1 Q J s.
Proof.
  intros HQ. assert (Hl : length text1 = 1040%nat) by (vm_compute; reflexivity). unfold drawText1.
  apply (wp_draw_bits _ _ _ _ _ (fun i j => rect_px 4 (50 + i * 4) (20 + j * 5) 5 14)); [lia|lia| |exact HQ].
  intros i j s' Q' Hi Hj HQ'. rewrite Hl in Hj. apply wp_drawRect; [unfold small; lia|unfold small; lia|lia|lia|apply HQ'].
Qed.

Lemma wp_clearStage s (Q : unit -> stst -> Prop) J :
  Q tt (mkSt 0 (lhash s) (memoriza s) (initVCache (st_vid s))) -> wp clearStage Q J s.
Proof. intros HQ. by apply wp_modify. Qed.

Lemma wp_drawStage s (Q : unit -> stst -> Prop) J :
  Q tt (mkSt (hash s) (hash s) (memoriza s) (if decide (lhash s = hash s) then st_vid s else flush_vcache (st_vid s))) -> wp drawStage Q J s.
Proof.
  intros HQ. unfold drawStage. apply wp_bind, wp_get. destruct (Z.eqb_spec (lhash s) (hash s)) as [E|E].
  - rewrite decide_True in HQ by done. apply wp_ret. destruct s. simpl in *. by subst.
  - rewrite decide_False in HQ by done. apply wp_modify, HQ.
Qed.
End stage.

(** ** What is seen *)

Lemma picture_app px1 px2 x y bg : picture (px1 ++ px2) x y bg = picture px2 x y (picture px1 x y bg).
Proof. revert bg. induction px1 as [|[[x' y'] c] px1 IH]; intros bg; [done|]. simpl. apply IH. Qed.

(** Point [(x, y)] is among the pixels. *)
Definition covers (px : list pixel) (x y : Z) : Prop := exists c, (x, y, c) ∈ px.

Lemma picture_out px x y bg : ~ covers px x y -> picture px x y bg = bg.
Proof.
  revert bg. induction px as [|[[x' y'] c] px IH]; intros bg H; [done|]. simpl. rewrite IH.
  - rewrite decide_False; [done|]. intros [-> ->]. apply H. exists c. left.
  - intros [c' Hc]. apply H. exists c'. by right.
Qed.

Definition coloured (color : Z) (px : list pixel) : Prop := forall x y c, (x, y, c) ∈ px -> c = color.

Lemma picture_in px x y bg color : coloured color px -> covers px x y -> picture px x y bg = u8 color.
Proof.
  revert bg. induction px as [|[[x' y'] c] px IH]; intros bg Hc [c' Hin]; [by apply elem_of_nil in Hin|]. simpl.
  assert (Hpx : coloured color px) by (intros ??? H; eapply Hc; right; exact H).
  destruct (decide ((x, y, color) ∈ px)) as [Hin'|Hnin]; [apply IH; [done|by exists color]|].
  rewrite picture_out by (intros [c1 Hc1]; apply Hnin; by rewrite <- (Hpx _ _ _ Hc1)).
  apply elem_of_cons in Hin as [[= <- <- <-]|Hin]; [|exfalso; apply Hnin; by rewrite <- (Hpx _ _ _ Hin)].
  rewrite decide_True by done. f_equal. eapply Hc. left.
Qed.

Lemma elem_of_column n x j color a b c : (a, b, c) ∈ column_px n x j color <-> b = x /\ c = color /\ j <= a < j + Z.of_nat n.
Proof.
  unfold column_px. rewrite list_elem_of_fmap. split.
  - intros (y & [= -> -> ->] & Hy%elem_of_seqZ). done.
  - intros (-> & -> & H). exists a. split; [done|]. by apply elem_of_seqZ.
Qed.

Lemma elem_of_rect w x y h color a b c :
  (a, b, c) ∈ rect_px w x y h color <-> c = color /\ x <= b < x + Z.of_nat w /\ y <= a < y + Z.of_nat h.
Proof.
  unfold rect_px. rewrite list_elem_of_bind. setoid_rewrite elem_of_column. setoid_rewrite elem_of_seqZ. split.
  - intros (x' & (-> & -> & H) & Hx). done.
  - intros (-> & Hx & Hy). by exists b.
Qed.

Definition in_disc (x y r row col : Z) : Prop :=
  Z.abs (col - x) <= r /\ Z.abs (row - y) <= Z.sqrt (r * r - (col - x) * (col - x)) + 1.
#[global] Instance in_disc_dec x y r row col : Decision (in_disc x y r row col).
Proof. unfold in_disc. apply _. Defined.

Lemma elem_of_circ x y r color a b c : (a, b, c) ∈ circ_px x y r color (- r) <-> c = color /\ in_disc x y r a b.
Proof.
  unfold circ_px, in_disc. rewrite list_elem_of_bind. cbv zeta. setoid_rewrite elem_of_column. setoid_rewrite elem_of_seqZ. split.
  - intros (i & (-> & -> & H) & Hi). split; [done|]. replace (x + i - x) with i by lia.
    pose proof (Z.sqrt_nonneg (r * r - i * i)). lia.
  - intros (-> & H1 & H2). exists (b - x). pose proof (Z.sqrt_nonneg (r * r - (b - x) * (b - x))). lia.
Qed.

(** Row [j] and column [i] of digit [d] are lit. *)
Definition lit (d i j : Z) : Prop :=
  0 <= i < 5 /\ 0 <= j < 7 /\ exists pic b, nums !! Z.to_nat d = Some pic /\ pic !! Z.to_nat (5 * j + i) = Some b /\ b <> 0.

Lemma elem_of_digit d x y size color a b c : 0 <= size -> (a, b, c) ∈ digit_px d x y size color <->
  c = color /\ exists i j, lit d i j /\ x + i * size <= b < x + i * size + size /\ y + j * size <= a < y + j * size + size.
Proof.
  intros Hs. unfold digit_px, bits_px, lit. rewrite list_elem_of_bind. change (7 * 5)%nat with 35%nat. split.
  - intros (k & Hin & Hk%elem_of_seq). destruct (nums !! Z.to_nat d) as [pic|] eqn:Hpic; cbn [from_option id] in Hin; [|rewrite lookup_nil in Hin; by apply elem_of_nil in Hin].
    destruct (pic !! k) as [v|] eqn:Hv; [|by apply elem_of_nil in Hin]. destruct (Z.eqb_spec v 0) as [|Hne]; [by apply elem_of_nil in Hin|].
    apply elem_of_rect in Hin as (-> & H1 & H2). split; [done|]. exists (Z.of_nat (k mod 5)), (Z.of_nat (k / 5)).
    pose proof (Nat.mod_upper_bound k 5 ltac:(lia)). pose proof (Nat.div_mod k 5 ltac:(lia)). rewrite !Z2Nat.id in H1, H2 by lia.
    split; [|by split]. split; [lia|]. split; [lia|]. exists pic, v. split_and!; try done.
    by replace (Z.to_nat (5 * Z.of_nat (k / 5) + Z.of_nat (k mod 5))) with k by lia.
  - intros (-> & i & j & (Hi & Hj & pic & v & Hpic & Hv & Hne) & H1 & H2). exists (Z.to_nat (5 * j + i)).
    rewrite Hpic. cbn [from_option id]. rewrite Hv. destruct (Z.eqb_spec v 0) as [|_]; [done|].
    assert (E1 : (Z.to_nat (5 * j + i) mod 5)%nat = Z.to_nat i).
    { replace (Z.to_nat (5 * j + i)) with (Z.to_nat i + Z.to_nat j * 5)%nat by lia. rewrite Nat.Div0.mod_add. apply Nat.mod_small. lia. }
    assert (E2 : (Z.to_nat (5 * j + i) / 5)%nat = Z.to_nat j).
    { replace (Z.to_nat (5 * j + i)) with (Z.to_nat i + Z.to_nat j * 5)%nat by lia. rewrite Nat.div_add by lia. rewrite Nat.div_small by lia. lia. }
    rewrite E1, E2, !Z2Nat.id by lia. split; [|apply elem_of_seq; lia]. apply elem_of_rect. rewrite Z2Nat.id by lia. done.
Qed.

(** The points of a number: its [k]th digit is [size * size + 10] to the
    right of the one before. *)
Definition in_number (num x y size row col : Z) : Prop :=
  exists k d i j, numeral num !! k = Some d /\ lit (d - ch_zero) i j /\
    let left := Z.of_nat k * (size * size + 10) + x + i * size in
    left <= col < left + size /\ y + j * size <= row < y + j * size + size.

Lemma elem_of_number num x y size color a b c : 0 <= size -> (a, b, c) ∈ digits_px (numeral num) 0 x y size color <->
  c = color /\ in_number num x y size a b.
Proof.
  intros Hs. unfold digits_px, in_number. rewrite list_elem_of_join. setoid_rewrite elem_of_lookup_imap. split.
  - intros (l & Hin & k & d & -> & Hk). apply elem_of_digit in Hin as (-> & i & j & Hl & H); [|done]. split; [done|].
    exists k, d, i, j. by rewrite Z.add_0_l in H.
  - intros (-> & k & d & i & j & Hk & Hl & H). eexists. split; [|by exists k, d]. apply elem_of_digit; [done|]. split; [done|].
    exists i, j. by rewrite Z.add_0_l.
Qed.
