(* ===== verification/Game.v ===== *)
(** * The game

    Models [game/src/game.c].  The player moves a disc among monsters, eats
    the small ones and must keep away from the large.  A frame is one call
    of [dreamOf100HZ]; it asks for each key at most once, so the keys of a
    frame are a function of the letter.  [printf] and [sleep] are recorded
    in the order they are called. *)

From Stdlib Require Import String Ascii.
From S2P Require Import Prelude Video Stage Rnd.

Definition GHEIGHT : Z := 200.

Inductive GAME_STATUS : Type := GAME_START | GAME_READY | GAME_ING | GAME_END.
Inductive MONSTER_STATUS : Type := MONSTER_ALIVE | MONSTER_DEAD | MONSTER_READY | MONSTER_AWAIT | MONSTER_SLEEP.
#[global] Instance game_status_dec : EqDecision GAME_STATUS.
Proof. solve_decision. Defined.
#[global] Instance monster_status_dec : EqDecision MONSTER_STATUS.
Proof. solve_decision. Defined.

Definition MONSTER_SIZE : nat := 20.

Record MONSTER : Type := mkMon {
  m_size : Z;
  m_x : Z;
  m_y : Z;
  m_sx : Z;
  m_sy : Z;
  m_status : MONSTER_STATUS;
  m_count : Z }.

Definition with_mstatus v m := mkMon (m_size m) (m_x m) (m_y m) (m_sx m) (m_sy m) v (m_count m).
Definition with_mcount v m := mkMon (m_size m) (m_x m) (m_y m) (m_sx m) (m_sy m) (m_status m) v.
Definition with_msize v m := mkMon v (m_x m) (m_y m) (m_sx m) (m_sy m) (m_status m) (m_count m).
Definition with_mpos x y m := mkMon (m_size m) x y (m_sx m) (m_sy m) (m_status m) (m_count m).
Definition with_mspeed sx sy m := mkMon (m_size m) (m_x m) (m_y m) sx sy (m_status m) (m_count m).

Inductive gevent : Type :=
  | Said (text : string) (args : list Z)
  | Slept (seconds : Z).

Record gst : Type := mkG {
  g_stage : stst;
  g_rnd : rnd;
  gameStatus : GAME_STATUS;
  g_x : Z;
  g_y : Z;
  g_size : Z;
  score : Z;
  curtime : Z;
  timestamp : Z;
  monsters : list MONSTER;
  g_out : list gevent }.

Definition with_stage v s := mkG v (g_rnd s) (gameStatus s) (g_x s) (g_y s) (g_size s) (score s) (curtime s) (timestamp s) (monsters s) (g_out s).
Definition with_rnd v s := mkG (g_stage s) v (gameStatus s) (g_x s) (g_y s) (g_size s) (score s) (curtime s) (timestamp s) (monsters s) (g_out s).
Definition with_status v s := mkG (g_stage s) (g_rnd s) v (g_x s) (g_y s) (g_size s) (score s) (curtime s) (timestamp s) (monsters s) (g_out s).
Definition with_pos x y s := mkG (g_stage s) (g_rnd s) (gameStatus s) x y (g_size s) (score s) (curtime s) (timestamp s) (monsters s) (g_out s).
Definition with_size v s := mkG (g_stage s) (g_rnd s) (gameStatus s) (g_x s) (g_y s) v (score s) (curtime s) (timestamp s) (monsters s) (g_out s).
Definition with_score v s := mkG (g_stage s) (g_rnd s) (gameStatus s) (g_x s) (g_y s) (g_size s) v (curtime s) (timestamp s) (monsters s) (g_out s).
Definition with_curtime v s := mkG (g_stage s) (g_rnd s) (gameStatus s) (g_x s) (g_y s) (g_size s) (score s) v (timestamp s) (monsters s) (g_out s).
Definition with_timestamp v s := mkG (g_stage s) (g_rnd s) (gameStatus s) (g_x s) (g_y s) (g_size s) (score s) (curtime s) v (monsters s) (g_out s).
Definition with_monsters v s := mkG (g_stage s) (g_rnd s) (gameStatus s) (g_x s) (g_y s) (g_size s) (score s) (curtime s) (timestamp s) v (g_out s).
Definition with_gout v s := mkG (g_stage s) (g_rnd s) (gameStatus s) (g_x s) (g_y s) (g_size s) (score s) (curtime s) (timestamp s) (monsters s) v.

(** The program starts with zeroed statics, in which every monster is
    [MONSTER_ALIVE]. *)
Definition game_start (v : vidst) : gst :=
  mkG (stage_start v) rnd_seed GAME_START 0 0 0 0 0 1 (replicate (MONSTER_SIZE + 20) (mkMon 0 0 0 0 0 MONSTER_ALIVE 0)) [].

Definition on_stage {A} (c : M stst A) : M gst A := zoom g_stage with_stage c.
Definition say (text : string) (args : list Z) : M gst unit := modify (fun s => with_gout (g_out s ++ [Said text args]) s).

(** [KISS()]: the player's position is added. *)
Definition KISS : M gst Z :=
  s ← get;
  let '(k, r) := UKISS (g_rnd s) in
  modify (with_rnd r);;
  mret (u32 (k + g_x s + g_y s)).

(** [a % b] on unsigned words; a division by zero is a fault. *)
Definition umod (a b : Z) : M gst Z := if u32 b =? 0 then fail OutOfBounds else mret (a mod u32 b).

(** [-1 + KISS() % 3], stored in an [int]. *)
Definition random_step : M gst Z := k ← KISS; r ← umod k 3; mret (i32 (u32 (-1 + r))).

Definition get_mon (i : nat) : M gst MONSTER := s ← get; from_option_or OutOfBounds (monsters s !! i).
Definition set_mon (i : nat) (f : MONSTER -> MONSTER) : M gst unit :=
  m ← get_mon i; modify (fun s => with_monsters (<[i := f m]> (monsters s)) s).

(** ** Eating *)

(** The first monster that touches the player, from number [i] on. *)
Fixpoint hit_loop (n i : nat) : M gst Z :=
  match n with
  | O => mret 0
  | S n =>
      s ← get;
      m ← get_mon i;
      let dx := i32 (g_x s - m_x m) in
      let dy := i32 (g_y s - m_y m) in
      if bool_decide (m_status m = MONSTER_ALIVE) && (dx <=? m_size m) && (dy <=? m_size m) &&
         (i32 (- m_size m) <=? dx) && (i32 (- m_size m) <=? dy) then
        if m_size m <=? g_size s then
          set_mon i (with_mstatus MONSTER_DEAD);;
          modify (fun s => if g_size s <? 13 then with_size (g_size s + 1) s else s);;
          modify (fun s => with_score (i32 (score s + m_size m)) s);;
          mret 1
        else
          modify (with_status GAME_END);;
          mret 0
      else hit_loop n (S i)
  end.
Definition hitMonster : M gst Z := hit_loop MONSTER_SIZE 0.

(** [while(hitMonster());] *)
Fixpoint hit_all (fuel : nat) : M gst unit :=
  match fuel with
  | O => fail OutOfFuel
  | S fuel => r ← hitMonster; if r =? 0 then mret tt else hit_all fuel
  end.

(** ** Moving and drawing the monsters *)

Fixpoint draw_loop (n i : nat) : M gst unit :=
  match n with
  | O => mret tt
  | S n =>
      m ← get_mon i;
      (if decide (m_status m = MONSTER_ALIVE) then
         let x := i32 (m_x m + m_sx m) in
         let y := i32 (m_y m + m_sy m) in
         let x := if x <? 10 then x + 1 else x in
         let x := if VWIDTH - 10 <? x then x - 1 else x in
         let y := if y <? 10 then y + 1 else y in
         let y := if GHEIGHT - 10 <? y then y - 1 else y in
         set_mon i (with_mpos x y);;
         s ← get;
         let color := if m_size m <=? g_size s then 15 else 5 in
         on_stage (drawCirc x y (m_size m) color);;
         k ← KISS;
         if k mod 60 =? 0 then
           sx ← random_step;
           set_mon i (fun m => with_mspeed sx (m_sy m) m);;
           sy ← random_step;
           set_mon i (fun m => with_mspeed (m_sx m) sy m)
         else mret tt
       else mret tt);;
      draw_loop n (S i)
  end.
Definition drawMonster : M gst unit := draw_loop MONSTER_SIZE 0.

Fixpoint create_loop (n i : nat) : M gst unit :=
  match n with
  | O => mret tt
  | S n =>
      m ← get_mon i;
      (if decide (m_status m = MONSTER_ALIVE) then mret tt
       else
         k ← KISS;
         if k mod (250 * Z.of_nat MONSTER_SIZE) =? 0 then
           set_mon i (with_mstatus MONSTER_ALIVE);;
           s ← get;
           k ← KISS;
           r ← umod k (g_size s);
           let size := i32 (u32 (2 + 2 * r)) in
           set_mon i (with_msize (if 14 <? size then 14 else size));;
           set_mon i (with_mpos (VWIDTH / 2) (GHEIGHT / 2));;
           sx ← random_step;
           set_mon i (fun m => with_mspeed sx (m_sy m) m);;
           sy ← random_step;
           set_mon i (fun m => with_mspeed (m_sx m) sy m)
         else mret tt);;
      create_loop n (S i)
  end.
Definition createMonster : M gst unit := create_loop MONSTER_SIZE 0.

(** ** A new game *)

(** Size, place and speed at random; the size is [1 + f * (KISS() % size)]. *)
Definition place_monster (i : nat) (f : Z) : M gst unit :=
  s ← get;
  k ← KISS;
  r ← umod k (g_size s);
  set_mon i (with_msize (i32 (u32 (1 + f * r))));;
  k ← KISS;
  x ← umod k VWIDTH;
  set_mon i (fun m => with_mpos (i32 x) (m_y m) m);;
  k ← KISS;
  y ← umod k GHEIGHT;
  set_mon i (fun m => with_mpos (m_x m) (i32 y) m);;
  sx ← random_step;
  set_mon i (fun m => with_mspeed sx (m_sy m) m);;
  sy ← random_step;
  set_mon i (fun m => with_mspeed (m_sx m) sy m).

Fixpoint init_monsters (n i : nat) : M gst unit :=
  match n with
  | O => mret tt
  | S n =>
      set_mon i (with_mstatus MONSTER_SLEEP);;
      set_mon i (with_mcount 0);;
      k ← KISS;
      s ← get;
      (if k mod Z.of_nat MONSTER_SIZE <? u32 (g_size s + 3) then
         set_mon i (with_mstatus MONSTER_ALIVE);;
         place_monster i 2
       else mret tt);;
      init_monsters n (S i)
  end.

Definition new_game : M gst unit :=
  modify (fun s => with_score 0 (with_size 4 (with_pos 30 30 s)));;
  set_mon 0 (with_mstatus MONSTER_ALIVE);;
  place_monster 0 1;;
  init_monsters (MONSTER_SIZE - 1) 1.

(** ** A frame *)

Section frame.
(** The process's number and the keys that are held. *)
Context (pid : Z) (key : Z -> Z).

Definition when (b : bool) (c : M gst unit) : M gst unit := if b then c else mret tt.
Definition key_down (c : Z) : bool := negb (key c =? 0).

(** ['a'], ['d'], ['w'], ['s'], and the edges. *)
Definition move_player (s : gst) : gst :=
  let x := g_x s in
  let y := g_y s in
  let x := if key_down 97 then i32 (x - 1) else x in
  let x := if key_down 100 then i32 (x + 1) else x in
  let y := if key_down 119 then i32 (y - 1) else y in
  let y := if key_down 115 then i32 (y + 1) else y in
  let x := if x <? 0 then x + 1 else x in
  let x := if VWIDTH <? x then x - 1 else x in
  let y := if y <? 0 then y + 1 else y in
  let y := if GHEIGHT <? y then y - 1 else y in
  with_pos x y s.

Definition play : M gst unit :=
  modify move_player;;
  on_stage clearStage;;
  s ← get;
  on_stage (drawCirc (g_x s) (g_y s) (g_size s) 3);;
  drawMonster;;
  s ← get;
  on_stage (drawCirc (g_x s) (g_y s) (g_size s) 3);;
  on_stage (drawNumber (score s) 10 180 1 7);;
  on_stage (drawNumber pid 300 10 1 7);;
  when (key_down 112) (on_stage (drawNumber pid 100 100 5 7));;
  on_stage drawStage;;
  createMonster;;
  hit_all (S MONSTER_SIZE).

(** What is left of the frame when the game is ready or on: its last part
    is skipped when the game starts. *)
Definition frame_tail : M gst unit :=
  s ← get;
  when (bool_decide (gameStatus s = GAME_ING)) play;;
  s ← get;
  when (bool_decide (gameStatus s = GAME_END))
    (say "You're dead" [];;
     say "Score: %d" [score s];;
     on_stage clearStage;;
     on_stage drawStage;;
     modify (with_status GAME_START)).

Definition dreamOf100HZ : M gst unit :=
  when (key_down 108)
    (say "GAME#%d: Sleep 5s!" [pid];;
     modify (fun s => with_gout (g_out s ++ [Slept 5]) s));;
  s ← get;
  when (bool_decide (gameStatus s = GAME_START))
    (on_stage clearStage;;
     on_stage drawText1;;
     on_stage drawStage;;
     new_game;;
     say "Press Q to start" [];;
     modify (with_status GAME_READY));;
  s ← get;
  if bool_decide (gameStatus s = GAME_READY) && key_down 113 then
    say "Press W, A, S, D to move" [];;
    modify (with_status GAME_ING)
  else frame_tail.
End frame.

(** ** The main loop *)

(** [while(curtime<timestamp)]: frame [n] has the keys [keys n]. *)
Fixpoint catch_up (fuel : nat) (pid : Z) (keys : nat -> Z -> Z) (n : nat) : M gst nat :=
  s ← get;
  if curtime s <? timestamp s then
    match fuel with
    | O => fail OutOfFuel
    | S fuel =>
        dreamOf100HZ pid (keys n);;
        modify (fun s => with_curtime (i32 (curtime s + 2)) s);;
        catch_up fuel pid keys (S n)
    end
  else mret n.

(** One round of [game]'s loop, in which [sys_get_tick] answers [tick]; the
    number of the next frame. *)
Definition game_round (tick pid : Z) (keys : nat -> Z -> Z) (n : nat) : M gst nat :=
  modify (with_timestamp tick);;
  s ← get;
  catch_up (Z.to_nat ((tick - curtime s + 1) / 2)) pid keys n.

(** The rounds of [game], one per answer of [sys_get_tick]. *)
Fixpoint game_rounds (ticks : list Z) (pid : Z) (keys : nat -> Z -> Z) (n : nat) : M gst unit :=
  match ticks with
  | [] => mret tt
  | t :: ticks => n ← game_round t pid keys n; game_rounds ticks pid keys n
  end.
Definition game (ticks : list Z) (pid : Z) (keys : nat -> Z -> Z) : M gst unit :=
  say "Hello this is GAME#%d! WATCH ME!" [pid];;
  game_rounds ticks pid keys 0.
