(* ===== verification/GameProofs.v ===== *)
(** * The game: its invariant and what the steps of a frame do *)

From S2P Require Import Prelude Video Printk Stage StageProofs Rnd Game.

Ltac gsimpl := cbn [g_stage g_rnd gameStatus g_x g_y g_size score curtime timestamp monsters g_out with_stage with_rnd with_status
  with_pos with_size with_score with_curtime with_timestamp with_monsters with_gout] in *.

Ltac msimpl := cbn [m_size m_x m_y m_sx m_sy m_status m_count with_mstatus with_mcount with_msize with_mpos with_mspeed] in *.

(** ** The invariant *)

Record mon_ok (m : MONSTER) : Prop := {
  mo_size : 1 <= m_size m <= 14;
  mo_x : 0 <= m_x m <= 320;
  mo_y : 0 <= m_y m <= 200;
  mo_sx : - 1 <= m_sx m <= 1;
  mo_sy : - 1 <= m_sy m <= 1 }.

Definition mons_ok (ms : list MONSTER) : Prop :=
  forall i m, (i < MONSTER_SIZE)%nat -> ms !! i = Some m -> m_status m = MONSTER_ALIVE -> mon_ok m.

Record base_ok (s : gst) : Prop := {
  bo_rnd : rnd_ok (g_rnd s);
  bo_memo : memo_ok (memoriza (g_stage s));
  bo_len : length (monsters s) = 40%nat;
  bo_x : 0 <= g_x s <= 320;
  bo_y : 0 <= g_y s <= 200;
  bo_score : is_i32 (score s) }.

(** A game is on, or was. *)
Record live_ok (s : gst) : Prop := {
  lo_base : base_ok s;
  lo_size : 4 <= g_size s <= 13;
  lo_mons : mons_ok (monsters s) }.

(** Between frames: before the first game the monsters are zeros. *)
Definition ginv (s : gst) : Prop := base_ok s /\ (gameStatus s <> GAME_START -> live_ok s).

(** What drawing and moving the monsters leaves alone. *)
Record same_player (s s' : gst) : Prop := {
  sp_status : gameStatus s' = gameStatus s;
  sp_x : g_x s' = g_x s;
  sp_y : g_y s' = g_y s;
  sp_size : g_size s' = g_size s;
  sp_score : score s' = score s;
  sp_cur : curtime s' = curtime s;
  sp_time : timestamp s' = timestamp s;
  sp_out : g_out s' = g_out s }.

#[global] Instance same_player_refl : Reflexive same_player.
Proof. intros s. by split. Qed.
#[global] Instance same_player_trans : Transitive same_player.
Proof. intros s1 s2 s3 [] []. split; congruence. Qed.

Lemma ginv_start v : ginv (game_start v).
Proof.
  split; [|by intros []]. split; gsimpl; unfold game_start, stage_start; gsimpl; [apply rnd_seed_ok|apply memo_start|apply length_replicate|lia|lia|].
  unfold is_i32. lia.
Qed.

Lemma mons_insert ms i m : mons_ok ms -> (m_status m = MONSTER_ALIVE -> mon_ok m) -> mons_ok (<[i := m]> ms).
Proof.
  intros Hms Hm j m' Hj Hl Ha. destruct (decide (i = j)) as [->|Hne].
  - destruct (decide (j < length ms)%nat) as [Hlt|Hge].
    + rewrite list_lookup_insert_eq in Hl by done. injection Hl as <-. by apply Hm.
    + rewrite list_insert_ge in Hl by lia. by eapply Hms.
  - rewrite list_lookup_insert_ne in Hl by done. by eapply Hms.
Qed.

Lemma base_mon s i : base_ok s -> (i < MONSTER_SIZE)%nat -> exists m, monsters s !! i = Some m.
Proof. intros [] Hi. apply lookup_lt_is_Some_2. unfold MONSTER_SIZE in Hi. lia. Qed.

(** ** Steps *)

Section steps.
Implicit Types (s : gst) (J : gst -> Prop).

Lemma wp_on_stage {A} (c : M stst A) s (Q : A -> gst -> Prop) :
  wp c (fun a st => Q a (with_stage st s)) (fun _ => False) (g_stage s) -> wp (on_stage c) Q (fun _ => False) s.
Proof. unfold wp, on_stage, zoom. by destruct (c (g_stage s)). Qed.

Lemma wp_KISS s (Q : Z -> gst -> Prop) J : rnd_ok (g_rnd s) ->
  (forall k r, is_u32 k -> rnd_ok r -> Q k (with_rnd r s)) -> wp KISS Q J s.
Proof.
  intros Hr HQ. unfold KISS. apply wp_bind, wp_get. pose proof (UKISS_ok _ Hr) as [_ H2]. destruct (UKISS (g_rnd s)) as [k r].
  apply wp_bind, wp_modify, wp_ret, HQ; [apply u32_range|exact H2].
Qed.

Lemma wp_umod a b s (Q : Z -> gst -> Prop) J : is_u32 a -> 0 < b < 2 ^ 32 -> (forall r, 0 <= r < b -> Q r s) -> wp (umod a b) Q J s.
Proof.
  intros Ha Hb HQ. unfold umod. rewrite u32_id by (unfold is_u32; lia). rewrite (proj2 (Z.eqb_neq b 0)) by lia.
  apply wp_ret, HQ, Z.mod_pos_bound. lia.
Qed.

Lemma wp_random_step s (Q : Z -> gst -> Prop) J : rnd_ok (g_rnd s) ->
  (forall v r, - 1 <= v <= 1 -> rnd_ok r -> Q v (with_rnd r s)) -> wp random_step Q J s.
Proof.
  intros Hr HQ. unfold random_step. apply wp_bind, wp_KISS; [done|]. intros k r Hk Hr'. apply wp_bind, wp_umod; [done|lia|].
  intros v Hv. apply wp_ret, HQ; [|done]. assert (v = 0 \/ v = 1 \/ v = 2) as [-> | [-> | ->]] by lia; vm_compute; split; discriminate.
Qed.

Lemma wp_get_mon i m s (Q : MONSTER -> gst -> Prop) J : monsters s !! i = Some m -> Q m s -> wp (get_mon i) Q J s.
Proof. intros Hm HQ. unfold get_mon. apply wp_bind, wp_get. by eapply wp_from_option. Qed.

Lemma wp_set_mon i f m s (Q : unit -> gst -> Prop) J : monsters s !! i = Some m ->
  Q tt (with_monsters (<[i := f m]> (monsters s)) s) -> wp (set_mon i f) Q J s.
Proof. intros Hm HQ. unfold set_mon. apply wp_bind, (wp_get_mon _ m); [done|]. by apply wp_modify. Qed.

(** After one write to a monster, the next. *)
Lemma lookup_set (ms : list MONSTER) (i : nat) (m m' : MONSTER) : ms !! i = Some m -> <[i := m']> ms !! i = Some m'.
Proof. intros H. apply list_lookup_insert_eq. by eapply lookup_lt_Some. Qed.

(** A monster thrown in at random. *)
Lemma wp_place_monster i f m s (Q : unit -> gst -> Prop) J : rnd_ok (g_rnd s) -> g_size s = 4 -> f = 1 \/ f = 2 ->
  monsters s !! i = Some m ->
  (forall m' r, mon_ok m' -> m_status m' = m_status m -> rnd_ok r -> Q tt (with_rnd r (with_monsters (<[i := m']> (monsters s)) s))) ->
  wp (place_monster i f) Q J s.
Proof.
  intros Hr Hsz Hf Hm HQ. unfold place_monster. apply wp_bind, wp_get. rewrite Hsz.
  apply wp_bind, wp_KISS; [done|]. intros k r0 Hk Hr0. apply wp_bind, wp_umod; [done|lia|]. intros v Hv.
  rewrite u32_id, i32_id by (unfold is_u32, is_i32; lia).
  apply wp_bind, (wp_set_mon _ _ m); [done|]. gsimpl.
  apply wp_bind, wp_KISS; [done|]. intros k1 r1 Hk1 Hr1. apply wp_bind, wp_umod; [done|unfold VWIDTH; lia|]. intros x Hx. unfold VWIDTH in Hx.
  rewrite i32_id by (unfold is_i32; lia). apply wp_bind. eapply wp_set_mon; [gsimpl; by eapply lookup_set|]. gsimpl.
  apply wp_bind, wp_KISS; [done|]. intros k2 r2 Hk2 Hr2. apply wp_bind, wp_umod; [done|unfold GHEIGHT; lia|]. intros y Hy. unfold GHEIGHT in Hy.
  rewrite i32_id by (unfold is_i32; lia). apply wp_bind. eapply wp_set_mon; [gsimpl; do 2 eapply lookup_set; exact Hm|]. gsimpl.
  apply wp_bind, wp_random_step; [done|]. intros sx r3 Hsx Hr3.
  apply wp_bind. eapply wp_set_mon; [gsimpl; do 3 eapply lookup_set; exact Hm|]. gsimpl.
  apply wp_bind, wp_random_step; [done|]. intros sy r4 Hsy Hr4.
  eapply wp_set_mon; [gsimpl; do 4 eapply lookup_set; exact Hm|]. gsimpl. rewrite !list_insert_insert_eq.
  eapply (HQ _ r4); [|reflexivity|exact Hr4]. split; cbn; lia.
Qed.

(** ** The loops over the monsters *)

Lemma live_with_rnd r s : live_ok s -> rnd_ok r -> live_ok (with_rnd r s).
Proof. intros [[] ? ?] Hr. by split; [split|..]. Qed.

Lemma live_with_mon i m s : live_ok s -> (m_status m = MONSTER_ALIVE -> mon_ok m) -> live_ok (with_monsters (<[i := m]> (monsters s)) s).
Proof.
  intros [[] ? ?] Hm. split; [split; gsimpl; try done; by rewrite length_insert|done|]. gsimpl. by apply mons_insert.
Qed.

Lemma live_with_stage st s : live_ok s -> memo_ok (memoriza st) -> live_ok (with_stage st s).
Proof. intros [[] ? ?] Hm. by split; [split|..]. Qed.

(** [s'] is [s] with more drawn, monsters moved and random numbers used. *)
Record stepped (s s' : gst) : Prop := {
  se_player : same_player s s';
  se_stage : exists px h memo, g_stage s' = drawn px h memo (g_stage s) }.

#[global] Instance stepped_refl : Reflexive stepped.
Proof. intros s. split; [done|]. exists [], (hash (g_stage s)), (memoriza (g_stage s)). by destruct (g_stage s). Qed.
#[global] Instance stepped_trans : Transitive stepped.
Proof.
  intros s1 s2 s3 [H1 (px1 & h1 & m1 & E1)] [H2 (px2 & h2 & m2 & E2)]. split; [by etrans|].
  exists (px1 ++ px2), h2, m2. rewrite E2, E1. unfold drawn. cbn. by rewrite draw_app.
Qed.

Lemma stepped_same s s' : same_player s s' -> g_stage s' = g_stage s -> stepped s s'.
Proof.
  intros H E. split; [done|]. exists [], (hash (g_stage s)), (memoriza (g_stage s)). rewrite E. by destruct (g_stage s).
Qed.

(** Two coordinates that stay on the board. *)
Lemma move_range v d hi : 0 <= v <= hi -> - 1 <= d <= 1 -> 20 <= hi -> hi <= 320 ->
  let w := i32 (v + d) in let w := if w <? 10 then w + 1 else w in 0 <= (if hi - 10 <? w then w - 1 else w) <= hi.
Proof.
  intros Hv Hd H1 H2. rewrite i32_id by (unfold is_i32; lia). cbv zeta.
  destruct (Z.ltb_spec (v + d) 10), (Z.ltb_spec (hi - 10) (v + d)), (Z.ltb_spec (hi - 10) (v + d + 1)); lia.
Qed.

Lemma wp_draw_loop n i s (Q : unit -> gst -> Prop) : (i + n)%nat = MONSTER_SIZE -> live_ok s ->
  (forall s', live_ok s' -> stepped s s' -> Q tt s') -> wp (draw_loop n i) Q (fun _ => False) s.
Proof.
  revert i s. induction n as [|n IH]; intros i s Hin Hs HQ; cbn [draw_loop]; [by apply wp_ret, HQ|].
  pose proof Hs as [Hb Hsz Hms]. destruct (base_mon s i Hb) as [m Hm]; [lia|]. apply wp_bind, (wp_get_mon _ m); [done|].
  apply wp_bind. destruct (decide (m_status m = MONSTER_ALIVE)) as [Ha|Ha].
  2: { apply wp_ret, IH; [lia|done|]. intros s' Hs' Hst. by apply HQ. }
  pose proof (Hms i m ltac:(lia) Hm Ha) as [M1 M2 M3 M4 M5].
  pose proof (move_range (m_x m) (m_sx m) 320 M2 M4 ltac:(lia) ltac:(lia)) as Hx.
  pose proof (move_range (m_y m) (m_sy m) 200 M3 M5 ltac:(lia) ltac:(lia)) as Hy. cbv zeta in Hx, Hy.
  change VWIDTH with 320. change GHEIGHT with 200.
  set (x := if 320 - 10 <? _ then _ else _) in *. set (y := if 200 - 10 <? _ then _ else _) in *.
  apply wp_bind, (wp_set_mon _ _ m); [done|]. apply wp_bind, wp_get. apply wp_bind, wp_on_stage.
  set (s1 := with_monsters (<[i := with_mpos x y m]> (monsters s)) s).
  assert (H1 : live_ok s1) by (apply live_with_mon; [done|]; intros _; by split).
  apply wp_drawCirc; [apply (bo_memo _ Hb)|lia|unfold small; lia|unfold small; lia|]. intros memo Hmemo.
  match goal with |- wp _ _ _ (with_stage ?st _) => set (s2 := with_stage st s1) end.
  assert (H2 : live_ok s2) by (by apply live_with_stage).
  assert (Hst2 : stepped s s2) by (split; [by split|]; eexists _, _, _; reflexivity).
  apply wp_bind, wp_KISS; [apply H2|]. intros k r Hk Hr. set (s3 := with_rnd r s2).
  assert (H3 : live_ok s3) by (by apply live_with_rnd).
  assert (Hst3 : stepped s s3) by (etrans; [exact Hst2|]; by apply stepped_same).
  assert (Hm3 : monsters s3 !! i = Some (with_mpos x y m)) by (eapply lookup_set, Hm).
  destruct (k mod 60 =? 0).
  - apply wp_bind, wp_random_step; [apply H3|]. intros sx r4 Hsx Hr4. apply wp_bind. eapply wp_set_mon; [exact Hm3|].
    apply wp_bind, wp_random_step; [done|]. intros sy r5 Hsy Hr5. eapply wp_set_mon; [gsimpl; eapply lookup_set, Hm3|]. gsimpl.
    rewrite list_insert_insert_eq. apply IH; [lia| |].
    + apply (live_with_rnd r5) in H3; [|done]. apply (live_with_mon i _ _ H3). intros _. by split.
    + intros s' Hs' Hst'. apply HQ; [done|]. etrans; [exact Hst3|]. etrans; [|exact Hst']. by apply stepped_same.
  - apply wp_ret, IH; [lia|done|]. intros s' Hs' Hst'. apply HQ; [done|]. by etrans.
Qed.

Lemma wp_drawMonster s (Q : unit -> gst -> Prop) : live_ok s ->
  (forall s', live_ok s' -> stepped s s' -> Q tt s') -> wp drawMonster Q (fun _ => False) s.
Proof. intros. by apply wp_draw_loop. Qed.

Lemma wp_create_loop n i s (Q : unit -> gst -> Prop) J : (i + n)%nat = MONSTER_SIZE -> live_ok s ->
  (forall s', live_ok s' -> same_player s s' -> g_stage s' = g_stage s -> Q tt s') -> wp (create_loop n i) Q J s.
Proof.
  revert i s. induction n as [|n IH]; intros i s Hin Hs HQ; cbn [create_loop]; [by apply wp_ret, HQ|].
  pose proof Hs as [Hb Hsz Hms]. destruct (base_mon s i Hb) as [m Hm]; [lia|]. apply wp_bind, (wp_get_mon _ m); [done|].
  apply wp_bind. destruct (decide (m_status m = MONSTER_ALIVE)) as [Ha|Ha].
  { apply wp_ret, IH; [lia|done|]. intros s' Hs' Hst. by apply HQ. }
  apply wp_bind, wp_KISS; [apply Hb|]. intros k r Hk Hr. pose proof (live_with_rnd r s Hs Hr) as H1.
  destruct (k mod _ =? 0).
  - apply wp_bind, (wp_set_mon _ _ m); [done|]. apply wp_bind, wp_get. apply wp_bind, wp_KISS; [done|]. intros k1 r1 Hk1 Hr1.
    apply wp_bind, wp_umod; [done|gsimpl; lia|]. intros v Hv. gsimpl. rewrite u32_id, i32_id by (unfold is_u32, is_i32; lia).
    apply wp_bind. eapply wp_set_mon; [gsimpl; eapply lookup_set, Hm|].
    apply wp_bind. eapply wp_set_mon; [gsimpl; do 2 eapply lookup_set; exact Hm|].
    apply wp_bind, wp_random_step; [done|]. intros sx r2 Hsx Hr2.
    apply wp_bind. eapply wp_set_mon; [gsimpl; do 3 eapply lookup_set; exact Hm|].
    apply wp_bind, wp_random_step; [done|]. intros sy r3 Hsy Hr3.
    eapply wp_set_mon; [gsimpl; do 4 eapply lookup_set; exact Hm|]. gsimpl. rewrite !list_insert_insert_eq. apply IH; [lia| |].
    + apply (live_with_mon i _ _ (live_with_rnd r3 s Hs Hr3)). intros _.
      change (VWIDTH / 2) with 160. change (GHEIGHT / 2) with 100. split; msimpl; try lia.
      destruct (Z.ltb_spec 14 (2 + 2 * v)); lia.
    + intros s' Hs' [] E. by apply HQ; [|split|].
  - apply wp_ret, IH; [lia|done|]. intros s' Hs' [] E. by apply HQ; [|split|].
Qed.

Lemma wp_createMonster s (Q : unit -> gst -> Prop) J : live_ok s ->
  (forall s', live_ok s' -> same_player s s' -> g_stage s' = g_stage s -> Q tt s') -> wp createMonster Q J s.
Proof. intros. by apply wp_create_loop. Qed.

(** ** Eating *)

(** Monster [m] is alive and within its size of the player. *)
Definition touches s (m : MONSTER) : Prop :=
  m_status m = MONSTER_ALIVE /\ Z.abs (g_x s - m_x m) <= m_size m /\ Z.abs (g_y s - m_y m) <= m_size m.
#[global] Instance touches_dec s m : Decision (touches s m).
Proof. unfold touches. apply _. Defined.

(** The first one that touches is number [i], from [i0] on. *)
Definition first_touch s (i0 i : nat) (m : MONSTER) : Prop :=
  (i0 <= i < MONSTER_SIZE)%nat /\ monsters s !! i = Some m /\ touches s m /\
  forall j m', (i0 <= j < i)%nat -> monsters s !! j = Some m' -> ~ touches s m'.
Definition no_touch s (i0 : nat) : Prop :=
  forall j m, (i0 <= j < MONSTER_SIZE)%nat -> monsters s !! j = Some m -> ~ touches s m.

(** The player eats monster [i]. *)
Definition eaten (i : nat) (m : MONSTER) (s : gst) : gst :=
  mkG (g_stage s) (g_rnd s) (gameStatus s) (g_x s) (g_y s) (Z.min 13 (g_size s + 1)) (i32 (score s + m_size m))
    (curtime s) (timestamp s) (<[i := with_mstatus MONSTER_DEAD m]> (monsters s)) (g_out s).

Lemma wp_hit_loop n i s (Q : Z -> gst -> Prop) J : (i + n)%nat = MONSTER_SIZE -> live_ok s ->
  (no_touch s i -> Q 0 s) ->
  (forall k m, first_touch s i k m -> Q (if m_size m <=? g_size s then 1 else 0)
     (if m_size m <=? g_size s then eaten k m s else with_status GAME_END s)) ->
  wp (hit_loop n i) Q J s.
Proof.
  revert i. induction n as [|n IH]; intros i Hin Hs HN HF; cbn [hit_loop].
  - apply wp_ret, HN. intros j m Hj. lia.
  - pose proof Hs as [Hb Hsz Hms]. destruct (base_mon s i Hb) as [m Hm]; [lia|].
    apply wp_bind, wp_get. apply wp_bind, (wp_get_mon _ m); [done|].
    assert (Ht : bool_decide (m_status m = MONSTER_ALIVE) && (i32 (g_x s - m_x m) <=? m_size m) && (i32 (g_y s - m_y m) <=? m_size m) &&
        (i32 (- m_size m) <=? i32 (g_x s - m_x m)) && (i32 (- m_size m) <=? i32 (g_y s - m_y m)) = bool_decide (touches s m)).
    { unfold touches. destruct (decide (m_status m = MONSTER_ALIVE)) as [Ha|Ha].
      - rewrite (bool_decide_true (m_status m = _)) by done. pose proof (Hms i m ltac:(lia) Hm Ha) as []. destruct Hb as [_ _ _ Hbx Hby _].
        rewrite !i32_id by (unfold is_i32; lia). case_bool_decide as Hd.
        + destruct Hd as (_ & H1 & H2). rewrite !(proj2 (Z.leb_le _ _)) by lia. done.
        + repeat match goal with |- context [?a <=? ?b] => destruct (Z.leb_spec a b) end; try done. exfalso. apply Hd. split; [done|lia].
      - rewrite !bool_decide_false by tauto. done. }
    rewrite Ht. clear Ht. case_bool_decide as Hd.
    + specialize (HF i m). destruct (Z.leb_spec (m_size m) (g_size s)) as [Hle|Hgt].
      * apply wp_bind, (wp_set_mon _ _ m); [done|]. apply wp_bind, wp_modify, wp_bind, wp_modify, wp_ret. gsimpl.
        match goal with |- Q 1 ?s' => assert (E : s' = eaten i m s) end.
        { unfold eaten, with_score, with_size, with_monsters. destruct (Z.ltb_spec (g_size s) 13); gsimpl; f_equal; lia. }
        rewrite E. apply HF. split; [lia|]. split; [done|]. split; [done|]. intros j m' Hj. lia.
      * apply wp_bind, wp_modify, wp_ret, HF. split; [lia|]. split; [done|]. split; [done|]. intros j m' Hj. lia.
    + apply IH; [lia|done| |].
      * intros Hno. apply HN. intros j m' Hj Hm'. destruct (decide (j = i)) as [->|]; [|by apply (Hno j); [lia|]].
        pose proof (eq_trans (eq_sym Hm) Hm') as [= <-]. done.
      * intros k m' (Hk & Hm' & Ht' & Hbefore). apply HF. split; [lia|]. split; [done|]. split; [done|].
        intros j m1 Hj Hm1. destruct (decide (j = i)) as [->|]; [|by apply (Hbefore j); [lia|]].
        pose proof (eq_trans (eq_sym Hm) Hm1) as [= <-]. done.
Qed.

(** The meal of one frame. *)
Inductive meal : gst -> gst -> Prop :=
  | meal_over s : no_touch s 0 -> meal s s
  | meal_fatal s i m : first_touch s 0 i m -> g_size s < m_size m -> meal s (with_status GAME_END s)
  | meal_eat s i m s' : first_touch s 0 i m -> m_size m <= g_size s -> meal (eaten i m s) s' -> meal s s'.

Lemma live_eaten s i m : live_ok s -> live_ok (eaten i m s).
Proof.
  intros [[] ? ?]. unfold eaten. split; [split|..]; gsimpl; try done.
  - by rewrite length_insert.
  - apply i32_range.
  - lia.
  - by apply mons_insert.
Qed.

(** The monsters that are alive. *)
Definition alive_count (ms : list MONSTER) : nat := length (filter (fun m => m_status m = MONSTER_ALIVE) (take MONSTER_SIZE ms)).

Lemma alive_count_eaten (ms : list MONSTER) i m : (i < MONSTER_SIZE)%nat -> ms !! i = Some m -> m_status m = MONSTER_ALIVE ->
  alive_count ms = S (alive_count (<[i := with_mstatus MONSTER_DEAD m]> ms)).
Proof.
  intros Hi Hm Ha. unfold alive_count. rewrite take_insert_lt by done.
  assert (Ht : take MONSTER_SIZE ms !! i = Some m) by (by rewrite lookup_take_lt).
  generalize (take MONSTER_SIZE ms) Ht. clear -Ha. intros l Hl. rewrite <- (take_drop_middle l i m Hl) at 1.
  rewrite (insert_take_drop l i) by (by eapply lookup_lt_Some). rewrite !filter_app, !filter_cons, decide_True by done.
  rewrite decide_False by done. rewrite !length_app. simpl. lia.
Qed.

Lemma alive_count_le ms : (alive_count ms <= MONSTER_SIZE)%nat.
Proof. unfold alive_count. etrans; [apply length_filter|]. rewrite length_take. lia. Qed.

Lemma wp_hit_all fuel s (Q : unit -> gst -> Prop) J : (alive_count (monsters s) < fuel)%nat -> live_ok s ->
  (forall s', meal s s' -> live_ok s' -> Q tt s') -> wp (hit_all fuel) Q J s.
Proof.
  revert s. induction fuel as [|fuel IH]; intros s Hf Hs HQ; [lia|]. cbn [hit_all]. unfold hitMonster. apply wp_bind, wp_hit_loop; [done|done| |].
  - intros Hno. apply wp_ret, HQ; [by constructor|done].
  - intros k m Hk. destruct (Z.leb_spec (m_size m) (g_size s)).
    + cbn [Z.eqb]. destruct Hk as (Hk & Hm & Ht & Hb). apply IH.
      * unfold eaten. gsimpl. rewrite (alive_count_eaten _ k m) in Hf by (done || lia || apply Ht). lia.
      * by apply live_eaten.
      * intros s' Hmeal Hs'. apply HQ; [|done]. by eapply meal_eat.
    + cbn [Z.eqb]. apply wp_ret, HQ; [by eapply meal_fatal|]. by destruct Hs as [[] ? ?]; split; [split|..].
Qed.

(** ** A new game *)

Lemma base_with_mon i m s : base_ok s -> base_ok (with_monsters (<[i := m]> (monsters s)) s).
Proof. intros []. split; gsimpl; try done. by rewrite length_insert. Qed.
Lemma base_with_rnd r s : base_ok s -> rnd_ok r -> base_ok (with_rnd r s).
Proof. intros [] Hr. by split. Qed.

Lemma wp_init_monsters n i s (Q : unit -> gst -> Prop) J : (i + n)%nat = MONSTER_SIZE -> base_ok s -> g_size s = 4 ->
  (forall j m, (j < i)%nat -> monsters s !! j = Some m -> m_status m = MONSTER_ALIVE -> mon_ok m) ->
  (forall s', base_ok s' -> mons_ok (monsters s') -> same_player s s' -> g_stage s' = g_stage s -> Q tt s') ->
  wp (init_monsters n i) Q J s.
Proof.
  revert i s. induction n as [|n IH]; intros i s Hin Hb Hsz Hms HQ; cbn [init_monsters].
  - apply wp_ret, HQ; [done| |done|done]. intros j m Hj. apply Hms. lia.
  - destruct (base_mon s i Hb) as [m Hm]; [lia|]. apply wp_bind, (wp_set_mon _ _ m); [done|].
    apply wp_bind. eapply wp_set_mon; [gsimpl; eapply lookup_set, Hm|]. gsimpl. rewrite list_insert_insert_eq.
    apply wp_bind, wp_KISS; [apply Hb|]. intros k r Hk Hr. apply wp_bind, wp_get. apply wp_bind.
    set (m1 := with_mcount 0 (with_mstatus MONSTER_SLEEP m)). set (s1 := with_rnd r _).
    assert (H1 : base_ok s1) by (apply base_with_rnd; [by apply (base_with_mon i m1 s)|done]).
    assert (Hm1 : monsters s1 !! i = Some m1) by (eapply lookup_set, Hm).
    assert (Hms1 : forall m', (m_status m' = MONSTER_ALIVE -> mon_ok m') ->
      forall j m0, (j < S i)%nat -> <[i := m']> (monsters s) !! j = Some m0 -> m_status m0 = MONSTER_ALIVE -> mon_ok m0).
    { intros m' Hm' j m0 Hj Hl Ha. destruct (decide (i = j)) as [->|Hne].
      - pose proof (eq_trans (eq_sym (lookup_set _ _ _ m' Hm)) Hl) as [= <-]. by apply Hm'.
      - rewrite list_lookup_insert_ne in Hl by done. apply (Hms j m0); [lia|done|done]. }
    destruct (_ <? _).
    + apply wp_bind. eapply wp_set_mon; [exact Hm1|]. eapply wp_place_monster; [exact Hr|exact Hsz|by right|gsimpl; by eapply lookup_set|].
      intros m2 r2 Hm2 Hs2 Hr2. subst s1. gsimpl. rewrite !list_insert_insert_eq. apply IH; [lia| |exact Hsz| |].
      * exact (base_with_rnd r2 _ (base_with_mon i m2 s Hb) Hr2).
      * gsimpl. by apply Hms1.
      * intros s' H2 H3 [] E. apply HQ; [done|done|by split|done].
    + apply wp_ret, IH; [lia|done|exact Hsz| |].
      * subst s1. gsimpl. by apply Hms1.
      * intros s' H2 H3 [] E. apply HQ; [done|done|by split|done].
Qed.

Lemma wp_new_game s (Q : unit -> gst -> Prop) J : base_ok s ->
  (forall s', live_ok s' -> same_player (with_score 0 (with_size 4 (with_pos 30 30 s))) s' -> g_stage s' = g_stage s -> Q tt s') ->
  wp new_game Q J s.
Proof.
  intros Hb HQ. unfold new_game. apply wp_bind, wp_modify. set (s0 := with_score 0 _).
  assert (H0 : base_ok s0) by (destruct Hb; split; gsimpl; unfold is_i32; try done; lia).
  destruct (base_mon s0 0 H0) as [m Hm]; [by apply Nat.ltb_lt|].
  apply wp_bind, (wp_set_mon _ _ m); [done|]. apply wp_bind.
  eapply wp_place_monster; [apply H0|reflexivity|by left|gsimpl; eapply lookup_set, Hm|].
  intros m' r Hm' _ Hr. gsimpl. rewrite list_insert_insert_eq. apply wp_init_monsters; [done| |reflexivity| |].
  - exact (base_with_rnd r _ (base_with_mon 0 m' s0 H0) Hr).
  - intros j m0 Hj Hl _. assert (j = 0%nat) as -> by lia. gsimpl. pose proof (eq_trans (eq_sym (lookup_set _ _ _ m' Hm)) Hl) as [= <-]. done.
  - intros s' H1 H2 H3 E. apply HQ; [|by destruct H3|done]. split; [done| |done]. destruct H3 as [_ _ _ E4 _ _ _ _]. rewrite E4. subst s0. gsimpl. cbn. lia.
Qed.
End steps.

(** ** A frame *)

Lemma with_stage_stage st st' s : with_stage st (with_stage st' s) = with_stage st s.
Proof. done. Qed.
Lemma drawn_drawn px1 h1 m1 px2 h2 m2 st : drawn px2 h2 m2 (drawn px1 h1 m1 st) = drawn (px1 ++ px2) h2 m2 st.
Proof. unfold drawn. cbn. by rewrite draw_app. Qed.

(** One coordinate of the player: the two keys, and the edges. *)
Lemma player_range (a b : bool) v hi : 0 <= v <= hi -> 0 < hi <= 320 ->
  let v := if a then i32 (v - 1) else v in let v := if b then i32 (v + 1) else v in
  let v := if v <? 0 then v + 1 else v in 0 <= (if hi <? v then v - 1 else v) <= hi.
Proof.
  intros Hv Hhi. cbv zeta. assert (Ha : (if a then i32 (v - 1) else v) = v - (if a then 1 else 0)).
  { destruct a; [apply i32_id; unfold is_i32; lia|lia]. }
  rewrite Ha. set (w := v - _). assert (Hw : - 1 <= w <= 320) by (unfold w; destruct a; lia).
  assert (Hb : (if b then i32 (w + 1) else w) = w + (if b then 1 else 0)).
  { destruct b; [apply i32_id; unfold is_i32; lia|lia]. }
  rewrite Hb. set (u := w + _). assert (Hu : - 1 <= u <= hi + 1) by (unfold u, w; destruct a, b; lia).
  destruct (Z.ltb_spec u 0), (Z.ltb_spec hi u), (Z.ltb_spec hi (u + 1)); lia.
Qed.

Section frame.
Context (pid : Z) (key : Z -> Z) (Hpid : pid < 2 ^ 31).
Implicit Types (s : gst).

(** The disc of the player, and the numbers on top of everything. *)
Definition player_px s : list pixel := circ_px (g_x s) (g_y s) (g_size s) 3 (- g_size s).
Definition numbers_px s : list pixel :=
  digits_px (numeral (score s)) 0 10 180 1 7 ++ digits_px (numeral pid) 0 300 10 1 7 ++
  (if key_down key 112 then digits_px (numeral pid) 0 100 100 5 7 else []).

(** What a frame of the game leaves of the stage [st]. *)
Definition frame_stage (st : stst) (px : list pixel) (h : Z) (memo : list Z) : stst :=
  let v := draw px (initVCache (st_vid st)) in
  mkSt h h memo (if decide (lhash st = h) then v else flush_vcache v).

Lemma wp_play s (Q : unit -> gst -> Prop) : live_ok s ->
  (forall s1 s', live_ok s1 -> meal s1 s' -> live_ok s' -> same_player (move_player key s) s1 ->
     (exists px h memo, g_stage s1 = frame_stage (g_stage s) (player_px s1 ++ px ++ player_px s1 ++ numbers_px s1) h memo) -> Q tt s') ->
  wp (play pid key) Q (fun _ => False) s.
Proof using Hpid.
  intros Hs HQ. unfold play. apply wp_bind, wp_modify. set (s0 := move_player key s).
  assert (H0 : live_ok s0).
  { destruct Hs as [[B1 B2 B3 B4 B5 B6] Hsz Hms]. split; [split|..]; try done.
    - exact (player_range (key_down key 97) (key_down key 100) (g_x s) 320 B4 ltac:(lia)).
    - exact (player_range (key_down key 119) (key_down key 115) (g_y s) 200 B5 ltac:(lia)). }
  apply wp_bind, wp_on_stage, wp_clearStage. apply wp_bind, wp_get. apply wp_bind, wp_on_stage.
  pose proof H0 as [[_ Hmemo _ Hx Hy _] Hsz _].
  apply wp_drawCirc; [exact Hmemo|gsimpl; lia|unfold small; gsimpl; lia|unfold small; gsimpl; lia|]. intros memo1 Hmemo1. gsimpl.
  apply wp_bind, wp_drawMonster; [apply live_with_stage; [apply live_with_stage; [exact H0|exact Hmemo]|exact Hmemo1]|]. intros s2 H2 [H2p (px & h2 & memo2 & E2)].
  assert (Hp2 : same_player s0 s2) by (by destruct H2p). pose proof H2 as [[_ Hmemo2 _ Hx2 Hy2 Hsc2] Hsz2 _]. unfold is_i32 in Hsc2.
  destruct Hp2 as [P1 P2 P3 P4 P5 P6 P7 P8].
  gsimpl. rewrite <- P2, <- P3, <- P4 in *.
  apply wp_bind, wp_get. apply wp_bind, wp_on_stage, wp_drawCirc; [exact Hmemo2|lia|unfold small; lia|unfold small; lia|]. intros memo3 Hmemo3.
  apply wp_bind, wp_on_stage, wp_drawNumber; [lia|lia|lia|lia|]. intros h4.
  apply wp_bind, wp_on_stage, wp_drawNumber; [exact Hpid|lia|lia|lia|]. intros h5.
  assert (Hlast : forall h6, wp (on_stage drawStage;; createMonster;; hit_all (S MONSTER_SIZE)) Q (fun _ => False)
      (with_stage (drawn (player_px s2 ++ numbers_px s2) h6 memo3 (g_stage s2)) s2)).
  { intros h6. apply wp_bind, wp_on_stage, wp_drawStage. gsimpl.
    match goal with |- wp _ _ _ (with_stage ?st (with_stage _ s2)) => set (st7 := st); change (with_stage st7 _) with (with_stage st7 s2) end.
    apply wp_bind, wp_createMonster; [by apply live_with_stage|]. intros s8 H8 Hp8 E8.
    apply wp_hit_all; [apply Nat.lt_succ_r, alive_count_le|exact H8|]. intros s' Hmeal H'. destruct Hp8 as [R1 R2 R3 R4 R5 R6 R7 R8]. gsimpl.
    apply (HQ s8); [done|done|done|fold s0; split; etrans; eassumption|]. exists px, h6, memo3. rewrite E8. unfold st7, frame_stage. rewrite E2.
    unfold drawn. cbn [lhash hash st_vid memoriza]. rewrite <- !draw_app. unfold player_px, numbers_px. rewrite R2, R3, R4, R5. reflexivity. }
  clear HQ. unfold numbers_px in Hlast. rewrite !with_stage_stage. gsimpl. rewrite !drawn_drawn. destruct (key_down key 112); cbn [when].
  - apply wp_bind, wp_on_stage, wp_drawNumber; [exact Hpid|lia|lia|lia|]. intros h6. rewrite with_stage_stage. gsimpl. rewrite drawn_drawn.
    rewrite <- !app_assoc. exact (Hlast h6).
  - apply wp_bind, wp_ret. specialize (Hlast h5). rewrite app_nil_r in Hlast. exact Hlast.
Qed.
End frame.
