(* ===== verification/GameProps.v ===== *)
(** * Properties of the game

    Roots, discs and numbers on the screen; eating; and that no run of the
    game goes wrong. *)

From Stdlib Require Import String Ascii.
From S2P Require Import Prelude Video Printk Stage StageProofs Rnd Game GameProofs.

(** ** Frames keep the invariant *)

Section safe.
Context (pid : Z) (Hpid : pid < 2 ^ 31).
Implicit Types (s : gst).

Definition same_clock s s' : Prop := curtime s' = curtime s /\ timestamp s' = timestamp s.

Lemma meal_clock s s' : meal s s' -> same_clock s s'.
Proof using Type. induction 1 as [| |? ? ? ? ? ? ? [IH1 IH2]]; [by split|by split|]. by split. Qed.

Lemma base_frame s s' : base_ok s -> g_rnd s' = g_rnd s -> memoriza (g_stage s') = memoriza (g_stage s) -> monsters s' = monsters s ->
  g_x s' = g_x s -> g_y s' = g_y s -> score s' = score s -> base_ok s'.
Proof using Type. intros [] E1 E2 E3 E4 E5 E6. split; by rewrite ?E1, ?E2, ?E3, ?E4, ?E5, ?E6. Qed.

Lemma wp_frame_tail key s (Q : unit -> gst -> Prop) : live_ok s ->
  (forall s', ginv s' -> same_clock s s' -> Q tt s') -> wp (frame_tail pid key) Q (fun _ => False) s.
Proof using Hpid.
  intros Hs HQ. unfold frame_tail. apply wp_bind, wp_get. apply wp_bind.
  assert (Hend : forall s1, live_ok s1 -> same_clock s s1 ->
    wp (s ← get; when (bool_decide (gameStatus s = GAME_END))
      (say "You're dead" [];; say "Score: %d" [score s];; on_stage clearStage;; on_stage drawStage;; modify (with_status GAME_START)))
      Q (fun _ => False) s1).
  { intros s1 H1 Hc. apply wp_bind, wp_get. case_bool_decide as He; cbn [when].
    - do 2 apply wp_bind, wp_modify. apply wp_bind, wp_on_stage, wp_clearStage. apply wp_bind, wp_on_stage, wp_drawStage.
      apply wp_modify. apply HQ; [|exact Hc]. split; [|by intros []]. by apply (base_frame s1); [apply H1|..].
    - apply wp_ret, HQ; [|exact Hc]. split; [apply H1|done]. }
  case_bool_decide; cbn [when]; [|apply wp_ret, Hend; [done|by split]].
  apply (wp_play pid key Hpid); [done|]. intros s1 s' H1 Hm H' Hp _. apply Hend; [done|].
  unfold same_clock. destruct (meal_clock _ _ Hm) as [-> ->], Hp as [_ _ _ _ _ -> -> _]. by split.
Qed.

Lemma wp_dream key s (Q : unit -> gst -> Prop) : ginv s ->
  (forall s', ginv s' -> same_clock s s' -> Q tt s') -> wp (dreamOf100HZ pid key) Q (fun _ => False) s.
Proof using Hpid.
  intros Hs HQ. unfold dreamOf100HZ. apply wp_bind.
  (* from the start of a new game on *)
  assert (Hready : forall s1, live_ok s1 -> same_clock s s1 ->
    wp (s ← get; if bool_decide (gameStatus s = GAME_READY) && key_down key 113 then say "Press W, A, S, D to move" [];; modify (with_status GAME_ING)
        else frame_tail pid key) Q (fun _ => False) s1).
  { intros s1 H1 Hc. apply wp_bind, wp_get. destruct (_ && _).
    - apply wp_bind, wp_modify, wp_modify, HQ; [|exact Hc]. assert (live_ok (with_status GAME_ING (with_gout (g_out s1 ++ [Said "Press W, A, S, D to move" []]) s1))) by
        (by destruct H1 as [[] ? ?]; split; [split|..]). by split; [apply H|].
    - apply wp_frame_tail; [done|]. intros s' Hs' Hc'. apply HQ; [done|]. destruct Hc, Hc'. split; congruence. }
  assert (Hrest : forall s1, ginv s1 -> same_clock s s1 ->
    wp (s ← get; when (bool_decide (gameStatus s = GAME_START))
          (on_stage clearStage;; on_stage drawText1;; on_stage drawStage;; new_game;; say "Press Q to start" [];; modify (with_status GAME_READY));;
        s ← get; if bool_decide (gameStatus s = GAME_READY) && key_down key 113 then say "Press W, A, S, D to move" [];; modify (with_status GAME_ING)
        else frame_tail pid key) Q (fun _ => False) s1).
  { intros s1 [Hb Hl] Hc. apply wp_bind, wp_get. apply wp_bind. case_bool_decide as He; cbn [when].
    - apply wp_bind, wp_on_stage, wp_clearStage. apply wp_bind, wp_on_stage, wp_drawText1. intros h.
      apply wp_bind, wp_on_stage, wp_drawStage. apply wp_bind, wp_new_game; [by apply (base_frame s1)|].
      intros s2 H2 [_ _ _ _ _ P6 P7 _] _. gsimpl. apply wp_bind, wp_modify, wp_modify, Hready.
      + by destruct H2 as [[] ? ?]; split; [split|..].
      + destruct Hc as [C1 C2]. split; gsimpl; cbn in P6, P7; cbn; congruence.
    - apply wp_ret, Hready; [by apply Hl|done]. }
  destruct (key_down key 108); cbn [when].
  - apply wp_bind, wp_modify, wp_modify. apply Hrest; [|by split]. destruct Hs as [Hb Hl]. split; [by apply (base_frame s)|].
    intros Hst. destruct (Hl Hst) as [Hb' ? ?]. split; [by apply (base_frame s)|done|done].
  - apply wp_ret. by apply Hrest.
Qed.

(** The rounds of the main loop: as many frames as ticks ask for. *)
Lemma wp_catch_up fuel keys n s (Q : nat -> gst -> Prop) :
  ginv s -> is_i32 (curtime s) -> timestamp s < 2 ^ 31 - 2 -> timestamp s - curtime s <= 2 * Z.of_nat fuel ->
  (forall s', ginv s' -> timestamp s' = timestamp s -> Z.max (curtime s) (timestamp s) <= curtime s' <= Z.max (curtime s) (timestamp s + 1) ->
     curtime s' = curtime s + 2 * (Z.max 0 (timestamp s - curtime s + 1) / 2) ->
     Q (n + Z.to_nat (Z.max 0 (timestamp s - curtime s + 1) / 2))%nat s') ->
  wp (catch_up fuel pid keys n) Q (fun _ => False) s.
Proof using Hpid.
  revert n s Q. induction fuel as [|fuel IH]; intros n s Q Hs Hc Ht Hf HQ; cbn [catch_up]; apply wp_bind, wp_get.
  - rewrite (proj2 (Z.ltb_ge _ _)) by lia. apply wp_ret.
    assert (E : Z.max 0 (timestamp s - curtime s + 1) / 2 = 0) by (apply Z.div_small; lia).
    specialize (HQ s). rewrite E, Nat.add_0_r in HQ. apply HQ; [done|done|lia|lia].
  - destruct (Z.ltb_spec (curtime s) (timestamp s)) as [Hlt|Hge].
    + apply wp_bind, wp_dream; [done|]. intros s1 H1 [C1 C2]. apply wp_bind, wp_modify. unfold is_i32 in Hc.
      rewrite i32_id by (unfold is_i32; lia). rewrite C1.
      assert (E : Z.max 0 (timestamp s - curtime s + 1) / 2 = Z.max 0 (timestamp s - (curtime s + 2) + 1) / 2 + 1).
      { rewrite <- Z.div_add by lia. f_equal. lia. }
      apply IH; gsimpl.
      * destruct H1 as [Hb Hl]. split; [by apply (base_frame s1)|]. intros Hst. destruct (Hl Hst) as [Hb' ? ?].
        split; [by apply (base_frame s1)|done|done].
      * unfold is_i32; lia.
      * lia.
      * lia.
      * intros s' H' T1 T2 T3. rewrite C2 in *. cbn [curtime with_curtime] in *. specialize (HQ s' H' T1). rewrite E in HQ.
        pose proof (Z.div_pos (Z.max 0 (timestamp s - (curtime s + 2) + 1)) 2 ltac:(lia) ltac:(lia)).
        replace (n + Z.to_nat (Z.max 0 (timestamp s - (curtime s + 2) + 1) / 2 + 1))%nat
          with (S n + Z.to_nat (Z.max 0 (timestamp s - (curtime s + 2) + 1) / 2))%nat in HQ by lia.
        apply HQ; lia.
    + apply wp_ret. assert (E : Z.max 0 (timestamp s - curtime s + 1) / 2 = 0) by (apply Z.div_small; lia).
      specialize (HQ s). rewrite E, Nat.add_0_r in HQ. apply HQ; [done|done|lia|lia].
Qed.
End safe.

(** ** Roots *)

(** [isqrt] is the integer square root on all of its table, whether the
    entry has been filled in or not, and fills it in right; a number past
    the table is an access out of bounds. *)
Theorem isqrt_correct x st : memo_ok (memoriza st) -> 0 <= x ->
  if decide (x < 600) then wp (isqrt x) (fun q st' => q = Z.sqrt x /\ memo_ok (memoriza st') /\ st_vid st' = st_vid st /\ hash st' = hash st) (fun _ => False) st
  else isqrt x st = Fault OutOfBounds.
Proof.
  intros Hm Hx. case_decide as Hlt.
  - apply wp_isqrt; [done|done|]. intros memo Hmemo. by split.
  - unfold isqrt. erewrite bind_Ret by reflexivity. erewrite bind_Fault; [reflexivity|].
    rewrite lookup_ge_None_2; [done|]. destruct Hm as [Hl _]. lia.
Qed.

Lemma isqrt_correct_witness : wp (isqrt 50) (fun q st' => q = 7 /\ memo_ok (memoriza st') /\ st_vid st' = demo_screen /\ hash st' = 0) (fun _ => False)
    (stage_start demo_screen) /\ isqrt 600 (stage_start demo_screen) = Fault OutOfBounds.
Proof.
  split; [apply (isqrt_correct 50 (stage_start demo_screen) memo_start); discriminate|].
  apply (isqrt_correct 600 (stage_start demo_screen) memo_start). discriminate.
Defined.

(** ** Discs and numbers *)

(** [drawCirc] paints the points of the disc, clipped to the screen, and
    no others. *)
Theorem drawCirc_correct x y r color st : memo_ok (memoriza st) -> 0 <= r <= 24 -> small x -> small y ->
  wp (drawCirc x y r color)
    (fun _ st' => memo_ok (memoriza st') /\ forall row col, on_screen row col ->
       VCACHE (st_vid st') (VWIDTH * row + col) =
         if decide (in_disc x y r row col) then u8 color else VCACHE (st_vid st) (VWIDTH * row + col))
    (fun _ => False) st.
Proof.
  intros Hm Hr Hx Hy. apply wp_drawCirc; [done..|]. intros memo Hmemo. split; [done|]. intros row col Hs. cbn [drawn st_vid].
  destruct (draw_spec (circ_px x y r color (- r)) (st_vid st) row col Hs) as [E _]. cbv zeta in E. unfold drawn. cbn [st_vid]. rewrite E.
  case_decide as Hd.
  - apply (picture_in _ _ _ _ color); [intros a b c Hin; by apply elem_of_circ in Hin as [-> _]|]. exists color. by apply elem_of_circ.
  - apply picture_out. intros [c Hc]. by apply elem_of_circ in Hc as [_ Hc].
Qed.

Lemma drawCirc_correct_witness : wp (drawCirc 30 30 4 3)
    (fun _ st' => VCACHE (st_vid st') (VWIDTH * 33 + 31) = 3 /\ VCACHE (st_vid st') (VWIDTH * 33 + 35) = VCACHE demo_screen (VWIDTH * 33 + 35))
    (fun _ => False) (stage_start demo_screen).
Proof.
  eapply wp_mono; [apply (drawCirc_correct 30 30 4 3 (stage_start demo_screen) memo_start); unfold small; lia| |done].
  intros u st' [_ H]. split; rewrite H by (unfold on_screen; lia).
  - rewrite decide_True; [done|]. unfold in_disc. change (Z.sqrt (4 * 4 - (31 - 30) * (31 - 30))) with 3. lia.
  - rewrite decide_False; [done|]. unfold in_disc. lia.
Defined.

(** The numeral of a number in base 10. *)
Definition decimal (num : Z) (ds : list Z) : Prop :=
  Forall (fun d => 48 <= d < 58) ds /\ numeral_rev 10 (rev ds) = num /\
  (num = 0 -> ds = [ch_zero]) /\ (0 < num -> exists d, head ds = Some d /\ d <> ch_zero).

Lemma numeral_decimal num : 0 <= num < 2 ^ 31 -> decimal num (numeral num).
Proof.
  intros Hn. unfold decimal, numeral. destruct (Z.eqb_spec num 0) as [->|Hne].
  - split_and!; [by repeat constructor|reflexivity|done|lia].
  - destruct (dec_digits_11 num) as (ds & -> & Hl & Hd & Hr & Hv & Hlast); [lia|]. cbn [from_option id]. split_and!.
    + by apply Forall_rev.
    + rewrite rev_involutive. apply Hv. lia.
    + lia.
    + intros Hpos. destruct (Hlast Hpos) as (d & Hd1 & Hd2). exists d. split; [|done].
      destruct (last_Some ds d) as [H1 _]. destruct (H1 Hd1) as [l' ->]. by rewrite rev_app_distr.
Qed.

(** [drawNumber] paints the decimal numeral of its argument with the
    digit pictures, the digits [size * size + 10] apart, and nothing else;
    a negative number has no digits. *)
Theorem drawNumber_correct num x y size color st : num < 2 ^ 31 -> 0 <= x <= 1000 -> 0 <= y <= 1000 -> 0 <= size <= 16 ->
  (if decide (0 <= num) then decimal num (numeral num) else numeral num = []) /\
  wp (drawNumber num x y size color)
    (fun _ st' => forall row col, on_screen row col ->
       (in_number num x y size row col -> VCACHE (st_vid st') (VWIDTH * row + col) = u8 color) /\
       (~ in_number num x y size row col -> VCACHE (st_vid st') (VWIDTH * row + col) = VCACHE (st_vid st) (VWIDTH * row + col)))
    (fun _ => False) st.
Proof.
  intros Hn Hx Hy Hsz. split.
  { case_decide; [by apply numeral_decimal|]. unfold numeral. rewrite (proj2 (Z.eqb_neq num 0)) by lia.
    unfold dec_digits. cbn [digit_loop]. by rewrite (proj2 (Z.leb_gt 1 num)) by lia. }
  apply wp_drawNumber; [done..|]. intros h row col Hs. unfold drawn. cbn [st_vid].
  destruct (draw_spec (digits_px (numeral num) 0 x y size color) (st_vid st) row col Hs) as [E _]. cbv zeta in E. rewrite E. split; intros Hin.
  - apply (picture_in _ _ _ _ color); [intros a b c H; apply elem_of_number in H as [-> _]; [done|lia]|]. exists color. apply elem_of_number; [lia|done].
  - apply picture_out. intros [c Hc]. apply elem_of_number in Hc as [_ Hc]; [done|lia].
Qed.

(** The number 7 has its top left corner lit. *)
Lemma drawNumber_correct_witness : wp (drawNumber 7 10 180 1 7)
    (fun _ st' => VCACHE (st_vid st') (VWIDTH * 180 + 10) = 7) (fun _ => False) (stage_start demo_screen).
Proof.
  eapply wp_mono; [apply (drawNumber_correct 7 10 180 1 7 (stage_start demo_screen)); lia| |done].
  intros u st' H. apply H; [unfold on_screen; lia|]. exists 0%nat, 55, 0, 0. split; [reflexivity|].
  split; [|cbn; lia]. split; [lia|]. split; [lia|]. exists num7, 1. split_and!; [reflexivity|reflexivity|lia].
Defined.

(** ** Eating *)

Lemma i32_add_l a b : i32 (i32 a + b) = i32 (a + b).
Proof.
  unfold i32. f_equal. replace ((a + 2 ^ 31) mod 2 ^ 32 - 2 ^ 31 + b + 2 ^ 31) with ((a + 2 ^ 31) mod 2 ^ 32 + b) by lia.
  rewrite Z.add_mod_idemp_l by lia. f_equal. lia.
Qed.

(** What a meal comes to: the monsters [eats], in order. *)
Lemma meal_spec s s' : live_ok s -> meal s s' -> exists eats : list (nat * MONSTER),
  Forall (fun e => (e.1 < MONSTER_SIZE)%nat /\ monsters s !! e.1 = Some e.2 /\ touches s e.2 /\ m_size e.2 <= g_size s') eats /\ NoDup eats.*1 /\
  monsters s' = foldr (fun e ms => <[e.1 := with_mstatus MONSTER_DEAD e.2]> ms) (monsters s) eats /\
  g_size s' = Z.min 13 (g_size s + Z.of_nat (length eats)) /\
  score s' = i32 (score s + foldr (fun e n => m_size e.2 + n) 0 eats) /\
  (gameStatus s' = gameStatus s /\ no_touch s' 0 \/
   gameStatus s' = GAME_END /\ exists i m, first_touch s' 0 i m /\ g_size s' < m_size m).
Proof.
  intros Hs Hm. induction Hm as [s Hno|s i m Hi Hbig|s i m s' Hi Hle Hm IH].
  - exists []. destruct Hs as [[_ _ _ _ _ Hsc] Hsz _]. simpl. rewrite Z.add_0_r, Z.add_0_r, i32_id by done.
    split_and!; [constructor|constructor|reflexivity|lia|reflexivity|by left].
  - exists []. destruct Hs as [[_ _ _ _ _ Hsc] Hsz _]. simpl. rewrite Z.add_0_r, Z.add_0_r, i32_id by done.
    split_and!; [constructor|constructor|reflexivity|cbn; lia|reflexivity|]. right. split; [done|]. by exists i, m.
  - destruct IH as (eats & F & N & E1 & E2 & E3 & E4); [by apply live_eaten|]. pose proof Hi as (Hlt & Hl & Ht & _).
    assert (Hne : forall e, e ∈ eats -> e.1 <> i).
    { intros e He. rewrite Forall_forall in F. destruct (F e He) as (_ & Hl' & Ht' & _). intros E. rewrite E in Hl'.
      pose proof (eq_trans (eq_sym (lookup_set _ _ _ (with_mstatus MONSTER_DEAD m) Hl)) Hl') as [= Em].
      destruct Ht' as [Ha _]. rewrite <- Em in Ha. discriminate Ha. }
    exists (eats ++ [(i, m)]). destruct Hs as [[_ _ _ _ _ Hsc] Hsz _]. split_and!.
    + apply Forall_app. split.
      * apply Forall_forall. intros e He. rewrite Forall_forall in F. destruct (F e He) as (F1 & F2 & F3 & F4).
        split_and!; [done| |done|done]. unfold eaten in F2. gsimpl. rewrite list_lookup_insert_ne in F2; [done|]. intros E. by apply (Hne e).
      * constructor; [|constructor]. split_and!; [exact (proj2 Hlt)|done|done|]. cbn [fst snd]. rewrite E2. unfold eaten. gsimpl. lia.
    + rewrite fmap_app. apply NoDup_app. split; [done|]. split; [|apply NoDup_singleton].
      intros j Hj Hj'. apply list_elem_of_fmap in Hj as (e & -> & He). apply list_elem_of_singleton in Hj'. by apply (Hne e).
    + rewrite foldr_app. exact E1.
    + rewrite E2, length_app. unfold eaten. gsimpl. simpl length. lia.
    + rewrite E3, foldr_app. unfold eaten. gsimpl. cbn [foldr snd]. clear. generalize (score s). intros n.
      assert (Hf : forall (l : list (nat * MONSTER)) a, foldr (fun e n => m_size e.2 + n) a l = foldr (fun e n => m_size e.2 + n) 0 l + a).
      { induction l as [|e l IH]; intros a; simpl; [lia|]. rewrite IH. lia. }
      rewrite (Hf eats (m_size m + 0)), i32_add_l. f_equal. lia.
    + destruct E4 as [[E4 E5]|E4]; [by left|by right].
Qed.


(** A game with one monster, which touches the player. *)
Definition demo_mon : MONSTER := mkMon 2 31 30 0 0 MONSTER_ALIVE 0.
Definition demo_game : gst :=
  mkG (stage_start demo_screen) rnd_seed GAME_ING 30 30 4 0 0 1 (demo_mon :: replicate 39 (mkMon 0 0 0 0 0 MONSTER_SLEEP 0)) [].

Lemma demo_live : live_ok demo_game.
Proof.
  split; [split|..]; unfold demo_game; gsimpl; [apply rnd_seed_ok|apply memo_start|reflexivity|lia|lia|unfold is_i32; lia|lia|].
  intros [|i] m Hi Hl Ha; [injection Hl as <-; split; cbn; lia|]. cbn [lookup list_lookup] in Hl.
  apply lookup_replicate in Hl as [-> _]. discriminate Ha.
Qed.


(** ** The picture of a frame *)

Lemma number_colour num x y size color : 0 <= size -> coloured color (digits_px (numeral num) 0 x y size color).
Proof. intros Hs a b c Hin. by apply elem_of_number in Hin as [-> _]. Qed.

Lemma coloured_app color px1 px2 : coloured color px1 -> coloured color px2 -> coloured color (px1 ++ px2).
Proof. intros H1 H2 a b c [H|H]%elem_of_app; [by eapply H1|by eapply H2]. Qed.

Lemma numbers_colour pid key s : coloured 7 (numbers_px pid key s).
Proof.
  repeat apply coloured_app; try (by apply number_colour). destruct (key_down key 112); [by apply number_colour|].
  intros a b c H. by apply elem_of_nil in H.
Qed.

Lemma player_colour s : coloured 3 (player_px s).
Proof. intros a b c Hin. unfold player_px in Hin. by apply elem_of_circ in Hin as [-> _]. Qed.

Lemma covers_player s row col : in_disc (g_x s) (g_y s) (g_size s) row col -> covers (player_px s) row col.
Proof. intros Hd. exists 3. unfold player_px. apply elem_of_circ. split; [reflexivity|exact Hd]. Qed.

Lemma frame_eq px v : frame px v = flush_vcache (draw px (initVCache v)).
Proof. unfold frame. reflexivity. Qed.

(** The last layer hides the one before, which hides the others. *)
Lemma layers px1 px2 px3 c2 c3 row col (P : Prop) : coloured (u8 c3) px3 -> coloured (u8 c2) px2 -> (P -> covers px2 row col) ->
  (covers px3 row col -> picture (px1 ++ px2 ++ px3) row col 0 = u8 (u8 c3)) /\
  (~ covers px3 row col -> P -> picture (px1 ++ px2 ++ px3) row col 0 = u8 (u8 c2)).
Proof.
  intros H3 H2 HP. rewrite 2!picture_app. split.
  - by apply picture_in.
  - intros Hn Hp. rewrite picture_out by done. by apply picture_in; [|apply HP].
Qed.



(** ** Whole runs *)

Lemma wp_round pid keys n tick s : pid < 2 ^ 31 -> ginv s -> is_i32 (curtime s) -> tick < 2 ^ 31 - 2 ->
  wp (game_round tick pid keys n)
    (fun n' s' => ginv s' /\ tick <= curtime s' <= Z.max (curtime s) (tick + 1) /\
       n' = (n + Z.to_nat (Z.max 0 (tick - curtime s + 1) / 2))%nat /\ curtime s' = curtime s + 2 * Z.of_nat (n' - n))
    (fun _ => False) s.
Proof.
  intros Hpid Hs Hc Ht. unfold game_round. apply wp_bind, wp_modify. apply wp_bind, wp_get. gsimpl.
  assert (H1 : ginv (with_timestamp tick s)).
  { destruct Hs as [Hb Hl]. split; [by apply (base_frame s)|]. intros Hst. destruct (Hl Hst) as [Hb' ? ?]. by split; [apply (base_frame s)|..]. }
  pose proof (Z.div_mod (tick - curtime s + 1) 2 ltac:(lia)). pose proof (Z.mod_pos_bound (tick - curtime s + 1) 2 ltac:(lia)).
  apply wp_catch_up; gsimpl; [done|done|done|done|lia|].
  intros s' H' _ T2 T3. pose proof (Z.div_pos (Z.max 0 (tick - curtime s + 1)) 2 ltac:(lia) ltac:(lia)). split_and!; [done|lia|lia|done|lia].
Qed.

(** A round of the main loop ends after one frame for every two ticks it
    is behind, and has then caught up. *)
Theorem game_round_correct pid keys n tick s : pid < 2 ^ 31 -> ginv s -> is_i32 (curtime s) -> tick < 2 ^ 31 - 2 ->
  wp (game_round tick pid keys n)
    (fun n' s' => ginv s' /\ tick <= curtime s' <= Z.max (curtime s) (tick + 1) /\
       n' = (n + Z.to_nat (Z.max 0 (tick - curtime s + 1) / 2))%nat /\ curtime s' = curtime s + 2 * Z.of_nat (n' - n))
    (fun _ => False) s.
Proof. apply wp_round. Qed.

Lemma game_round_correct_witness (keys := fun (_ : nat) (_ : Z) => 0) :
  wp (game_round 7 3 keys 0) (fun n' s' => n' = 4%nat /\ curtime s' = 8) (fun _ => False) (game_start demo_screen).
Proof.
  eapply wp_mono; [apply (game_round_correct 3 keys 0 7 (game_start demo_screen)); [lia|apply ginv_start|unfold is_i32; cbn; lia|lia]| |done].
  intros n' s' (_ & _ & -> & E). split; [reflexivity|exact E].
Defined.

(** C25: no run of the game goes wrong, whatever keys are held and ticks
    read: every index is in its array (monsters, digits, the table of
    roots), no division is by zero and every loop ends; and the player's
    size stays in 4..13 and a living monster's in 1..14, on the board. *)
Theorem game_safe v ticks pid keys : pid < 2 ^ 31 -> Forall (fun t => 0 <= t < 2 ^ 31 - 2) ticks ->
  wp (game ticks pid keys) (fun _ s' => ginv s') (fun _ => False) (game_start v).
Proof.
  intros Hpid Ht. unfold game. apply wp_bind, wp_modify.
  assert (H : forall n s, ginv s -> 0 <= curtime s < 2 ^ 31 -> wp (game_rounds ticks pid keys n) (fun _ s' => ginv s') (fun _ => False) s).
  { induction Ht as [|t ticks Ht _ IH]; intros n s Hs Hc; cbn [game_rounds]; [by apply wp_ret|]. apply wp_bind.
    eapply wp_mono; [apply wp_round; [done|done|unfold is_i32; lia|lia]| |done].
    intros n' s' (H1 & H2 & _). apply IH; [done|lia]. }
  apply H; [|cbn; lia]. destruct (ginv_start v) as [Hb _]. split; [|by intros []]. by apply (base_frame (game_start v)).
Qed.

Lemma game_safe_witness (keys := fun (n : nat) (c : Z) => if decide (c = 113) then 1 else Z.of_nat (n mod 2)) :
  wp (game [3; 4; 90] 3 keys) (fun _ s' => ginv s') (fun _ => False) (game_start demo_screen).
Proof. apply (game_safe demo_screen [3; 4; 90] 3 keys); [lia|repeat constructor; lia]. Defined.
