(* ===== verification/Shell.v ===== *)
(** * The shell

    Models [cshell/src/main.c] and the string functions of
    [cshell/include/common.h].  The shell's memory is its static arrays; a
    pointer into [c] is an index.  What the kernel answers to a system call
    is given by [env], a function of the calls made so far and their
    answers, so the model covers every behaviour of the kernel; the history
    of calls is part of the state. *)

From Stdlib Require Import String Ascii.
From S2P Require Import Prelude Bytes FileSys.

Definition str (s : string) : list byte := (fun a => byte.of_Z (Z.of_N (N_of_ascii a))) <$> list_ascii_of_string s.

Definition NL : list byte := [byte.of_Z 10].

(** ** Strings of [common.h] *)

(** The offset of the first [ch], or of the NUL; [None] past the array. *)
Fixpoint strfind (s : list byte) (ch : byte) : option nat :=
  match s with
  | [] => None
  | x :: s => if Byte.eqb x NUL || Byte.eqb x ch then Some 0%nat else S <$> strfind s ch
  end.

(** The offset of the first [ch] before the NUL. *)
Fixpoint strchr (s : list byte) (ch : byte) : option (option nat) :=
  match s with
  | [] => None
  | x :: s =>
      if Byte.eqb x NUL then Some None
      else if Byte.eqb x ch then Some (Some 0%nat)
      else fmap (M := option) S <$> strchr s ch
  end.

Definition WHITESPACE : list byte := (byte.of_Z <$> [9; 13; 10; 32]) ++ [NUL].
Definition MAXARGS : nat := 16.

(** ** System calls *)

Inductive ucall : Type :=
  | UReadline
  | ULs (mask : Z)
  | UOpen (pathname : list byte) (flags : Z)
  | URead (fd len : Z)
  | UWrite (fd : Z) (buf : list byte) (len : Z)      (* [buf]: the memory from the pointer on *)
  | ULseek (fd offset whence : Z)
  | UClose (fd : Z)
  | UFork
  | UExec (fn : list byte)
  | UJoin (pid : Z)
  | UExit
  | UPrint (text : list byte).

(** The result and the bytes the kernel stores. *)
Definition answer : Type := (Z * list byte)%type.
Definition history : Type := list (ucall * answer).

Definition FS_RW : Z := 0.
Definition FS_RWC : Z := 1.
Definition FS_RWD : Z := 2.
Definition SEEK_END : Z := 2.

Record shst : Type := mkSh {
  sh_c : list byte;
  sh_b : list byte;
  argc : Z;
  argv : list (option nat);
  sh_hist : history }.

Definition with_c v s := mkSh v (sh_b s) (argc s) (argv s) (sh_hist s).
Definition with_b v s := mkSh (sh_c s) v (argc s) (argv s) (sh_hist s).
Definition with_argc v s := mkSh (sh_c s) (sh_b s) v (argv s) (sh_hist s).
Definition with_argv v s := mkSh (sh_c s) (sh_b s) (argc s) v (sh_hist s).
Definition with_hist v s := mkSh (sh_c s) (sh_b s) (argc s) (argv s) v.

Definition shell_start : shst := mkSh (replicate 1024 NUL) (replicate 1024 NUL) 0 (replicate MAXARGS None) [].

Section shell.
Context (env : history -> ucall -> answer).

Definition ask (u : ucall) : M shst answer :=
  s ← get;
  let a := env (sh_hist s) u in
  modify (with_hist (sh_hist s ++ [(u, a)]));;
  mret a.
Definition call (u : ucall) : M shst Z := a ← ask u; mret (fst a).
Definition print (text : list byte) : M shst unit := _ ← ask (UPrint text); mret tt.

(** ** [parse_arg] *)

Definition get_c (p : nat) : M shst byte := s ← get; from_option_or OutOfBounds (sh_c s !! p).
Definition set_c (p : nat) (x : byte) : M shst unit :=
  _ ← get_c p; modify (fun s => with_c (<[p := x]> (sh_c s)) s).
Definition set_argv (i : Z) (v : option nat) : M shst unit :=
  s ← get;
  if (0 <=? i) && (i <? Z.of_nat (length (argv s))) then modify (with_argv (<[Z.to_nat i := v]> (argv s)))
  else fail OutOfBounds.

(** [*buf && strchr(WHITESPACE, *buf)] *)
Definition at_space (x : byte) : M shst bool :=
  if Byte.eqb x NUL then mret false
  else r ← from_option_or OutOfBounds (strchr WHITESPACE x); mret (bool_decide (is_Some r)).

Fixpoint skip_space (fuel p : nat) : M shst nat :=
  match fuel with
  | O => fail OutOfFuel
  | S fuel =>
      x ← get_c p;
      w ← at_space x;
      if (w : bool) then set_c p NUL;; skip_space fuel (S p) else mret p
  end.

Fixpoint skip_word (fuel p : nat) : M shst nat :=
  match fuel with
  | O => fail OutOfFuel
  | S fuel =>
      x ← get_c p;
      w ← at_space x;
      if negb (Byte.eqb x NUL) && negb w then skip_word fuel (S p) else mret p
  end.

(** [while(1)]: 0 if there are too many arguments. *)
Fixpoint parse_loop (fuel inner p : nat) : M shst Z :=
  match fuel with
  | O => fail OutOfFuel
  | S fuel =>
      p ← skip_space inner p;
      x ← get_c p;
      if Byte.eqb x NUL then
        s ← get;
        set_argv (argc s) None;;
        mret 1
      else
        s ← get;
        if argc s =? Z.of_nat MAXARGS - 1 then
          print (str "Too many arguments (max 16)" ++ NL);;
          mret 0
        else
          set_argv (argc s) (Some p);;
          modify (with_argc (argc s + 1));;
          p ← skip_word inner p;
          parse_loop fuel inner p
  end.

Definition parse_arg : M shst Z :=
  modify (with_argc 0);;
  set_argv 0 None;;
  parse_loop 1025 1025 0.

(** ** Commands *)

(** The string [argv[i]] points to. *)
Definition arg (i : Z) : M shst (list byte) :=
  s ← get;
  a ← from_option_or OutOfBounds (if i <? 0 then None else argv s !! Z.to_nat i);
  p ← from_option_or NullPointer a;
  mret (drop p (sh_c s)).
Definition arg_string (i : Z) : M shst (list byte) :=
  a ← arg i; from_option_or OutOfBounds (cstring a).

Fixpoint exist_loop (n : nat) (i : Z) (a : list byte) : M shst Z :=
  match n with
  | O => mret 0
  | S n =>
      v ← arg i;
      z ← from_option_or OutOfBounds (strcmp v a);
      if z =? 0 then mret i else exist_loop n (i + 1) a
  end.
Definition exist_arg (a : list byte) : M shst Z :=
  s ← get; exist_loop (Z.to_nat (argc s - 1)) 1 (a ++ [NUL]).

Definition ls : M shst unit :=
  l ← exist_arg (str "-l");
  let mask := if l =? 0 then 0 else 0x01 in
  a ← exist_arg (str "-a");
  let mask := if a =? 0 then mask else Z.lor mask 0x02 in
  h ← exist_arg (str "-h");
  let mask := if h =? 0 then mask else Z.lor mask 0x04 in
  _ ← call (ULs mask);
  mret tt.

(** Bytes up to the NUL, as [%s] prints them. *)
Definition text_of (s : list byte) : option (list byte) := (fun t => take (length t - 1) t) <$> cstring s.

Fixpoint echo_words (n : nat) (i : Z) : M shst unit :=
  match n with
  | O => mret tt
  | S n =>
      a ← arg i;
      t ← from_option_or OutOfBounds (text_of a);
      print t;;
      s ← get;
      (if i =? argc s - 1 then mret tt else print (str " "));;
      echo_words n (i + 1)
  end.

(** The text of the line after [echo] up to the first [>] of the line, less
    the character before it: the memory from it on and the length. *)
Definition echo_text : M shst (list byte * Z) :=
  s ← get;
  let buf := drop 5 (sh_b s) in
  q ← from_option_or OutOfBounds (strfind buf (byte.of_Z 62));
  mret (buf, Z.of_nat q - 1).

Definition echo : M shst unit :=
  red ← exist_arg (str ">");
  app ← exist_arg (str ">>");
  if negb (red =? 0) then
    '(buf, len) ← echo_text;
    filename ← arg_string (red + 1);
    fd ← call (UOpen filename FS_RWD);
    _ ← call (UWrite fd buf len);
    _ ← call (UClose fd);
    mret tt
  else if negb (app =? 0) then
    '(buf, len) ← echo_text;
    filename ← arg_string (app + 1);
    fd ← call (UOpen filename FS_RWC);
    _ ← call (ULseek fd 0 SEEK_END);
    _ ← call (UWrite fd buf len);
    _ ← call (UClose fd);
    mret tt
  else
    s ← get;
    echo_words (Z.to_nat (argc s - 1)) 1;;
    print NL.

(** [read(fd, buf, 1024)] into an array of 1024. *)
Definition read_buf (fd : Z) (buf : list byte) : M shst (Z * list byte) :=
  '(l, bs) ← ask (URead fd 1024);
  buf ← from_option_or OutOfBounds (csplice 0 bs buf);
  mret (l, buf).

Fixpoint copy_loop (fuel : nat) (fd out : Z) (buf : list byte) : M shst unit :=
  match fuel with
  | O => fail OutOfFuel
  | S fuel =>
      '(l, buf) ← read_buf fd buf;
      if l =? -1 then mret tt
      else _ ← call (UWrite out buf l); copy_loop fuel fd out buf
  end.

(** [printf("%s\n", buf)] prints up to the first NUL, which must be in the
    array. *)
Fixpoint cat_loop (fuel : nat) (fd : Z) (buf : list byte) : M shst unit :=
  match fuel with
  | O => fail OutOfFuel
  | S fuel =>
      '(l, buf) ← read_buf fd buf;
      if l =? -1 then mret tt
      else
        t ← from_option_or OutOfBounds (text_of buf);
        print (t ++ NL);;
        cat_loop fuel fd buf
  end.

(** [fuel] bounds the reads of one file. *)
Definition cat (fuel : nat) : M shst unit :=
  filename ← arg_string 1;
  fd ← call (UOpen filename FS_RW);
  (if fd =? -1 then print (take (length filename - 1) filename ++ str " doesn't exist" ++ NL) else mret tt);;
  let buf := memset2 1024 0 in
  red ← exist_arg (str ">");
  app ← exist_arg (str ">>");
  if negb (red =? 0) then
    ofilename ← arg_string (red + 1);
    out ← call (UOpen ofilename FS_RWD);
    copy_loop fuel fd out buf;;
    _ ← call (UClose out);
    _ ← call (UClose fd);
    mret tt
  else if negb (app =? 0) then
    ofilename ← arg_string (app + 1);
    out ← call (UOpen ofilename FS_RWC);
    _ ← call (ULseek out 0 SEEK_END);
    copy_loop fuel fd out buf;;
    _ ← call (UClose out);
    _ ← call (UClose fd);
    mret tt
  else
    cat_loop fuel fd buf;;
    _ ← call (UClose fd);
    mret tt.

Definition is_cmd (cmd : list byte) (name : string) : M shst bool :=
  z ← from_option_or OutOfBounds (strcmp cmd (str name ++ [NUL])); mret (z =? 0).

(** [exec] of a file that can be run does not return: the answer is 0; it is
    1 when it does return. *)
Definition do_shell (fuel : nat) : M shst unit :=
  cmd ← arg 0;
  b ← is_cmd cmd "ls";
  if (b : bool) then ls
  else
    b ← is_cmd cmd "echo";
    if (b : bool) then echo
    else
      b ← is_cmd cmd "cat";
      if (b : bool) then cat fuel
      else
        name ← from_option_or OutOfBounds (cstring cmd);
        fd ← call (UOpen name FS_RW);
        if fd =? -1 then print (take (length name - 1) name ++ str " is not an command " ++ NL)
        else
          p ← call UFork;
          (if p =? 0 then e ← call (UExec name); if e =? 0 then jump else mret tt else mret tt);;
          _ ← call (UJoin p);
          mret tt.

(** The first half of a round of [main]'s loop: the line goes to [c], with
    its NUL, and to [b], and is taken apart in [c]. *)
Definition read_command : M shst unit :=
  '(_, line) ← ask UReadline;
  s ← get;
  c ← from_option_or OutOfBounds (csplice 0 line (sh_c s));
  modify (with_c c);;
  b ← from_option_or OutOfBounds (strcpy 0 c (sh_b s));
  modify (with_b b);;
  _ ← parse_arg;
  mret tt.

Definition shell_round (fuel : nat) : M shst unit := read_command;; do_shell fuel.

Fixpoint shell_rounds (n fuel : nat) : M shst unit :=
  match n with O => mret tt | S n => shell_round fuel;; shell_rounds n fuel end.
Definition shell_main (n fuel : nat) : M shst unit :=
  print (str "This is shell!" ++ NL);;
  shell_rounds n fuel.
End shell.

(** A kernel for examples: the line typed, the contents of every file, the
    answer to [fork]. *)
Definition demo_env (line : list byte) (read : history -> answer) (child : Z) (h : history) (u : ucall) : answer :=
  match u with
  | UReadline => (Z.of_nat (length line), line ++ [NUL])
  | UOpen _ _ => (3, [])
  | URead _ _ => read h
  | UFork => (child, [])
  | _ => (0, [])
  end.
