(* ===== verification/ShellProofs.v ===== *)
(** * The shell: how a line is taken apart

    Words and their places, and what the loops of [parse_arg] do. *)

From Stdlib Require Import String Ascii.
From S2P Require Import Prelude Bytes FileSys Shell.

(** ** White space and words *)

Definition is_ws (x : byte) : bool := existsb (fun y => Byte.eqb y x) (byte.of_Z <$> [9; 13; 10; 32]).

(** The words of a line and where they start. *)
Fixpoint tokens (p : nat) (l : list byte) : list (nat * list byte) :=
  match l with
  | [] => []
  | x :: l =>
      if is_ws x then tokens (S p) l
      else match l with
           | [] => [(p, [x])]
           | y :: _ =>
               if is_ws y then (p, [x]) :: tokens (S p) l
               else match tokens (S p) l with (_, w) :: ts => (p, x :: w) :: ts | [] => [] end
           end
  end.
Definition words (l : list byte) : list (list byte) := (tokens 0 l).*2.

Definition zap (x : byte) : byte := if is_ws x then NUL else x.

Definition wordy (w : list byte) : Prop := w <> [] /\ Forall (fun x => is_ws x = false) w.

(** A line starts with white space, then a word. *)
Lemma split_line l : exists sp w r, l = sp ++ w ++ r /\ Forall (fun x => is_ws x = true) sp /\ Forall (fun x => is_ws x = false) w /\
  (w = [] -> r = []) /\ (r = [] \/ exists y r', r = y :: r' /\ is_ws y = true).
Proof.
  induction l as [|x l (sp & w & r & -> & H1 & H2 & H3 & H4)].
  - exists [], [], []. split_and!; [done|constructor|constructor|done|by left].
  - destruct (is_ws x) eqn:Hx.
    + exists (x :: sp), w, r. split_and!; [done|by constructor|done|done|done].
    + destruct sp as [|y sp].
      * exists [], (x :: w), r. split_and!; [done|constructor|by constructor|done|done].
      * apply Forall_cons in H1 as [Hy H1]. exists [], [x], (y :: sp ++ w ++ r).
        split_and!; [done|constructor|by repeat constructor|done|right; by exists y, (sp ++ w ++ r)].
Qed.

Lemma tokens_space sp p l : Forall (fun x => is_ws x = true) sp -> tokens p (sp ++ l) = tokens (p + length sp) l.
Proof.
  intros H. revert p. induction H as [|x sp Hx _ IH]; intros p; simpl; [by rewrite Nat.add_0_r|]. rewrite Hx, IH. f_equal. lia.
Qed.

Lemma tokens_word w p r : wordy w -> (r = [] \/ exists y r', r = y :: r' /\ is_ws y = true) ->
  tokens p (w ++ r) = (p, w) :: tokens (p + length w) r.
Proof.
  intros [Hne Hw] Hr. revert p. induction Hw as [|x w Hx Hw IH]; intros p; [done|]. cbn [tokens app]. rewrite Hx.
  destruct w as [|y w].
  - simpl app. simpl length. rewrite Nat.add_1_r. destruct Hr as [->|(y & r' & -> & Hy)]; [done|]. by rewrite Hy.
  - rewrite <- app_comm_cons. cbn [app] in *. apply Forall_cons in Hw as [Hy Hw]. rewrite Hy.
    rewrite (IH ltac:(done) (S p)). f_equal. f_equal. simpl. lia.
Qed.

Lemma tokens_shift l p q : (tokens p l).*2 = (tokens q l).*2.
Proof.
  revert p q. induction l as [|x l IH]; intros p q; cbn [tokens]; [done|]. destruct (is_ws x); [apply IH|].
  destruct l as [|y l]; [done|]. destruct (is_ws y); cbn [fmap list_fmap snd]; [f_equal; apply IH|].
  specialize (IH (S p) (S q)). destruct (tokens (S p) (y :: l)) as [|[q1 w1] ts], (tokens (S q) (y :: l)) as [|[q2 w2] ts']; try done.
  cbn in IH |- *. injection IH as -> ->. done.
Qed.

(** White space parts the words. *)
Lemma words_sep l1 x l2 : is_ws x = true -> words (l1 ++ x :: l2) = words l1 ++ words l2.
Proof.
  intros Hx. unfold words. generalize 0%nat at 1 2 as p. induction l1 as [|y l1 IH]; intros p.
  - cbn [app tokens]. rewrite Hx. apply tokens_shift.
  - cbn [app tokens]. destruct (is_ws y); [apply IH|]. destruct l1 as [|z l1].
    + cbn [app]. rewrite Hx. cbn [tokens]. rewrite Hx. cbn [fmap list_fmap snd app]. f_equal. apply tokens_shift.
    + cbn [app] in *. destruct (is_ws z) eqn:Hz; [cbn [fmap list_fmap snd app]; f_equal; apply (IH (S p))|].
      specialize (IH (S p)). destruct (tokens (S p) (z :: l1)) as [|[q w] ts] eqn:E1.
      { exfalso. destruct (split_line (z :: l1)) as (sp & w & r & E & S1 & S2 & S3 & S4).
        pose proof (tokens_space sp (S p) (w ++ r) S1) as H. rewrite <- E, E1 in H.
        destruct w as [|v w].
        - rewrite S3 in E by done. rewrite !app_nil_r in E. rewrite <- E in S1. apply Forall_cons in S1 as [S1 _]. congruence.
        - rewrite tokens_word in H; [discriminate H|by split|done]. }
      destruct (tokens (S p) (z :: l1 ++ x :: l2)) as [|[q' w'] ts']; [discriminate IH|].
      cbn in IH |- *. injection IH as -> ->. done.
Qed.

Lemma words_one w : wordy w -> words w = [w].
Proof. intros Hw. unfold words. rewrite <- (app_nil_r w) at 1. rewrite tokens_word by (done || by left). done. Qed.

(** With the white space zeroed, each word is a string at its place. *)
Lemma tokens_text pre l rest q w : (q, w) ∈ tokens (length pre) l ->
  exists r, drop q (pre ++ (zap <$> l) ++ NUL :: rest) = w ++ NUL :: r.
Proof.
  revert pre q w. induction l as [|x l IH]; intros pre q w Hin; cbn [tokens] in Hin; [by apply elem_of_nil in Hin|].
  assert (Hsh : forall y (t : list byte), pre ++ y :: t = (pre ++ [y]) ++ t) by (intros; by rewrite <- app_assoc).
  assert (HIH : forall y q w, (q, w) ∈ tokens (S (length pre)) l -> exists r, drop q (pre ++ y :: (zap <$> l) ++ NUL :: rest) = w ++ NUL :: r).
  { intros y q' w' H. rewrite Hsh. apply IH. rewrite length_app. simpl. by rewrite Nat.add_1_r. }
  cbn [fmap list_fmap app]. unfold zap at 1. destruct (is_ws x) eqn:Hx; [by apply HIH|].
  destruct l as [|y l].
  - apply list_elem_of_singleton in Hin. injection Hin as -> ->. rewrite drop_app_length. by exists rest.
  - destruct (is_ws y) eqn:Hy.
    + apply elem_of_cons in Hin as [[= -> ->]|Hin]; [|by apply HIH].
      rewrite drop_app_length. cbn [fmap list_fmap app]. unfold zap at 1. rewrite Hy. by eexists.
    + destruct (tokens (S (length pre)) (y :: l)) as [|[q1 w1] ts] eqn:Et; [by apply elem_of_nil in Hin|].
      assert (q1 = S (length pre)) as ->.
      { destruct (split_line (y :: l)) as (sp & w' & r & E & S1 & S2 & S3 & S4).
        destruct sp as [|z sp]; [|injection E as <- _; apply Forall_cons in S1 as [S1 _]; congruence].
        destruct w' as [|z w']; [rewrite S3 in E by done; discriminate E|].
        rewrite E in Et. simpl app in Et. rewrite app_comm_cons, tokens_word in Et by (try split; done). by injection Et. }
      apply elem_of_cons in Hin as [[= -> ->]|Hin]; [|apply HIH; by right].
      destruct (HIH x (S (length pre)) w1) as [r Hr]; [by left|]. exists r. rewrite drop_app_length.
      rewrite Hsh in Hr. replace (S (length pre)) with (length (pre ++ [x])) in Hr by (rewrite length_app; simpl; lia).
      rewrite drop_app_length in Hr. simpl. by rewrite <- Hr.
Qed.

(** ** Taking a line apart *)

Section parse.
Context (env : history -> ucall -> answer).
Implicit Types (s : shst) (J : shst -> Prop).

Lemma wp_ask u s (Q : answer -> shst -> Prop) J :
  Q (env (sh_hist s) u) (with_hist (sh_hist s ++ [(u, env (sh_hist s) u)]) s) -> wp (ask env u) Q J s.
Proof. intros HQ. unfold ask. apply wp_bind, wp_get. apply wp_bind, wp_modify, wp_ret, HQ. Qed.

Lemma strchr_ws x : x <> NUL -> exists r, strchr WHITESPACE x = Some r /\ bool_decide (is_Some r) = is_ws x.
Proof. intros Hx. destruct x; try done; eexists; (split; [reflexivity|]); reflexivity. Qed.

Lemma wp_at_space x s (Q : bool -> shst -> Prop) J :
  Q (if decide (x = NUL) then false else is_ws x) s -> wp (at_space x) Q J s.
Proof.
  intros HQ. unfold at_space. destruct (decide (x = NUL)) as [->|Hne]; [by apply wp_ret|].
  destruct (Byte.eqb x NUL) eqn:E; [by apply Byte.byte_dec_bl in E|]. destruct (strchr_ws x Hne) as (r & Hr & Hb).
  apply wp_bind. eapply wp_from_option; [exact Hr|]. apply wp_ret. by rewrite Hb.
Qed.

Lemma wp_get_c p x s (Q : byte -> shst -> Prop) J : sh_c s !! p = Some x -> Q x s -> wp (get_c p) Q J s.
Proof. intros Hx HQ. apply wp_bind, wp_get. by eapply wp_from_option. Qed.

(** Over white space, which becomes NULs. *)
Lemma wp_skip_space fuel sp pre r s (Q : nat -> shst -> Prop) J :
  sh_c s = pre ++ sp ++ r -> Forall (fun x => is_ws x = true) sp -> (exists y r', r = y :: r' /\ (y = NUL \/ is_ws y = false)) ->
  (length sp < fuel)%nat -> Q (length pre + length sp)%nat (with_c (pre ++ replicate (length sp) NUL ++ r) s) ->
  wp (skip_space fuel (length pre)) Q J s.
Proof.
  intros Hc Hsp (y & r' & -> & Hy). revert fuel pre s Hc. induction Hsp as [|x sp Hx _ IH]; intros fuel pre s Hc Hf HQ;
    (destruct fuel as [|fuel]; [simpl in Hf; lia|]); cbn [skip_space]; apply wp_bind.
  - eapply wp_get_c; [rewrite Hc; by apply list_lookup_middle|]. apply wp_bind, wp_at_space.
    assert (E : (if decide (y = NUL) then false else is_ws y) = false) by (destruct Hy as [->|Hy]; case_decide; done). rewrite E.
    apply wp_ret. simpl in HQ, Hc. rewrite Nat.add_0_r, <- Hc in HQ. by destruct s.
  - assert (Hl : sh_c s !! length pre = Some x) by (rewrite Hc; by apply list_lookup_middle).
    eapply wp_get_c; [exact Hl|]. apply wp_bind, wp_at_space. rewrite decide_False by (by intros ->). rewrite Hx.
    apply wp_bind. unfold set_c. apply wp_bind. eapply wp_get_c; [exact Hl|]. apply wp_modify.
    replace (S (length pre)) with (length (pre ++ [NUL])) by (rewrite length_app; simpl; lia).
    apply IH; [|simpl in Hf; lia|].
    + cbn [sh_c with_c]. rewrite Hc. rewrite insert_app_r_alt by lia. rewrite Nat.sub_diag. simpl. by rewrite <- app_assoc.
    + cbn [sh_c with_c] in *. rewrite <- app_assoc. rewrite length_app. simpl in HQ |- *. rewrite <- Nat.add_assoc. exact HQ.
Qed.

(** Over a word. *)
Lemma wp_skip_word fuel w pre r s (Q : nat -> shst -> Prop) J :
  sh_c s = pre ++ w ++ r -> Forall (fun x => is_ws x = false) w -> NUL ∉ w -> (exists y r', r = y :: r' /\ (y = NUL \/ is_ws y = true)) ->
  (length w < fuel)%nat -> Q (length pre + length w)%nat s -> wp (skip_word fuel (length pre)) Q J s.
Proof.
  intros Hc Hw Hn (y & r' & -> & Hy). revert fuel pre Hc Hn. induction Hw as [|x w Hx _ IH]; intros fuel pre Hc Hn Hf HQ;
    (destruct fuel as [|fuel]; [simpl in Hf; lia|]); cbn [skip_word]; apply wp_bind.
  - eapply wp_get_c; [rewrite Hc; by apply list_lookup_middle|]. apply wp_bind, wp_at_space.
    simpl in HQ. rewrite Nat.add_0_r in HQ. destruct Hy as [->|Hy]; [by apply wp_ret|].
    rewrite decide_False by (by intros ->). rewrite Hy, andb_false_r. by apply wp_ret.
  - eapply wp_get_c; [rewrite Hc; by apply list_lookup_middle|]. apply wp_bind, wp_at_space.
    apply not_elem_of_cons in Hn as [Hx0 Hn]. rewrite decide_False by congruence. rewrite Hx.
    destruct (Byte.eqb x NUL) eqn:E; [apply Byte.byte_dec_bl in E; congruence|]. cbn [negb andb].
    replace (S (length pre)) with (length (pre ++ [x])) by (rewrite length_app; simpl; lia).
    apply IH; [by rewrite <- app_assoc|done|simpl in Hf; lia|].
    rewrite length_app. simpl in HQ |- *. by rewrite <- Nat.add_assoc.
Qed.

Lemma wp_set_argv (i : Z) v s (Q : unit -> shst -> Prop) J : 0 <= i < Z.of_nat (length (argv s)) ->
  Q tt (with_argv (<[Z.to_nat i := v]> (argv s)) s) -> wp (set_argv i v) Q J s.
Proof.
  intros Hi HQ. apply wp_bind, wp_get. rewrite (proj2 (Z.leb_le _ _)), (proj2 (Z.ltb_lt _ _)) by lia. by apply wp_modify.
Qed.

Definition parsed (l : list byte) (pre rest : list byte) (ts : list (nat * list byte)) (k : nat) (s s' : shst) : Prop :=
  sh_c s' = pre ++ (zap <$> l) ++ NUL :: rest /\ argc s' = Z.of_nat (k + length ts) /\ sh_b s' = sh_b s /\ sh_hist s' = sh_hist s /\
  argv s' = take k (argv s) ++ (Some <$> ts.*1) ++ None :: drop (k + length ts + 1) (argv s).

Lemma zap_space sp : Forall (fun x => is_ws x = true) sp -> zap <$> sp = replicate (length sp) NUL.
Proof. induction 1 as [|x sp Hx _ IH]; [done|]. rewrite fmap_cons, IH. unfold zap. by rewrite Hx. Qed.
Lemma zap_word w : Forall (fun x => is_ws x = false) w -> zap <$> w = w.
Proof. induction 1 as [|x w Hx _ IH]; [done|]. rewrite fmap_cons, IH. unfold zap. by rewrite Hx. Qed.

(** Fifteen words were taken and there is another. *)
Definition overflowed (l pre rest : list byte) (ts : list (nat * list byte)) (k : nat) (s s' : shst) : Prop :=
  (exists l1 l2, l = l1 ++ l2 /\ sh_c s' = pre ++ (zap <$> l1) ++ l2 ++ NUL :: rest) /\ argc s' = 15 /\ sh_b s' = sh_b s /\
  (exists a, sh_hist s' = sh_hist s ++ [(UPrint (str "Too many arguments (max 16)" ++ NL), a)]) /\
  argv s' = take k (argv s) ++ (Some <$> take (15 - k) ts.*1) ++ drop 15 (argv s).

Lemma wp_parse_loop fuel inner l pre rest s (Q : Z -> shst -> Prop) J (k := Z.to_nat (argc s)) (ts := tokens (length pre) l) :
  sh_c s = pre ++ l ++ NUL :: rest -> NUL ∉ l -> 0 <= argc s <= 15 -> length (argv s) = MAXARGS ->
  (length ts < fuel)%nat -> (length l < inner)%nat ->
  ((k + length ts < MAXARGS)%nat -> forall s', parsed l pre rest ts k s s' -> Q 1 s') ->
  ((MAXARGS <= k + length ts)%nat -> forall s', overflowed l pre rest ts k s s' -> Q 0 s') ->
  wp (parse_loop env fuel inner (length pre)) Q J s.
Proof.
  subst k ts. revert l pre s Q. induction fuel as [|fuel IH]; intros l pre s Q Hc Hn Hk Hl Hf Hi HQ HO; [lia|]. cbn [parse_loop].
  destruct (split_line l) as (sp & w & r & E & Hsp & Hw & Hwr & Hr).
  assert (Hn' : (NUL ∉ sp) /\ (NUL ∉ w) /\ (NUL ∉ r)) by (rewrite E in Hn; apply not_elem_of_app in Hn as [? [? ?]%not_elem_of_app]; done).
  destruct Hn' as (Hn1 & Hn2 & Hn3).
  apply wp_bind. eapply (wp_skip_space _ sp pre (w ++ r ++ NUL :: rest)).
  { rewrite Hc, E. by rewrite <- !app_assoc. }
  { exact Hsp. }
  { destruct w as [|x w]; [rewrite Hwr by done; exists NUL, rest; split; [done|by left]|].
    apply Forall_cons in Hw as [Hx _]. eexists _, _. split; [reflexivity|by right]. }
  { rewrite E in Hi. rewrite !length_app in Hi. lia. }
  set (pre1 := pre ++ replicate (length sp) NUL). set (s1 := with_c _ s).
  assert (Hl1 : length pre1 = (length pre + length sp)%nat) by (unfold pre1; by rewrite length_app, length_replicate).
  assert (Hc1 : sh_c s1 = pre1 ++ w ++ r ++ NUL :: rest) by (unfold pre1; by rewrite <- app_assoc).
  rewrite <- Hl1. apply wp_bind. rewrite E, tokens_space in * by done. rewrite <- Hl1 in *.
  destruct w as [|x w].
  - rewrite Hwr in * by done. cbn [app tokens length] in *. eapply wp_get_c; [rewrite Hc1; by apply list_lookup_middle|]. cbn [Byte.eqb].
    change (Byte.eqb NUL NUL) with true. cbn iota. apply wp_bind, wp_get. apply wp_bind, wp_set_argv; [unfold s1, MAXARGS in *; cbn [argv with_c argc] in *; lia|].
    apply wp_ret, HQ; [unfold MAXARGS in *; lia|]. split; [|split; [|split; [done|split; [done|]]]].
    + cbn [sh_c with_argv]. rewrite Hc1. unfold pre1. rewrite app_nil_r, zap_space by done. by rewrite <- app_assoc.
    + change (argc s = Z.of_nat (Z.to_nat (argc s) + 0)). lia.
    + cbn [argv with_argv fmap list_fmap app]. unfold s1. cbn [argv argc with_c]. rewrite Nat.add_0_r.
      rewrite insert_take_drop by (unfold MAXARGS in *; lia). by rewrite Nat.add_1_r.
  - apply Forall_cons in Hw as [Hx Hw].
    assert (Hx0 : x <> NUL) by (apply not_elem_of_cons in Hn2 as [? _]; congruence).
    eapply wp_get_c; [rewrite Hc1; by apply list_lookup_middle|].
    destruct (Byte.eqb x NUL) eqn:Ex; [apply Byte.byte_dec_bl in Ex; congruence|].
    rewrite tokens_word in * by (try split; try done; by constructor). cbn [length] in *. rewrite length_app in Hi.
    apply wp_bind, wp_get. change (argc s1) with (argc s). change (Z.of_nat MAXARGS - 1) with 15. destruct (Z.eqb_spec (argc s) 15) as [E15|E15].
    { apply wp_bind. unfold print. apply wp_bind, wp_ask, wp_ret, wp_ret. apply HO; [rewrite E15; unfold MAXARGS; simpl; lia|].
      split; [exists sp, ((x :: w) ++ r); split; [done|]|].
      { cbn [sh_c with_hist]. rewrite Hc1. unfold pre1. rewrite zap_space by done. by rewrite <- !app_assoc. }
      split; [exact E15|]. split; [done|]. split; [by eexists|]. rewrite E15. change (Z.to_nat 15) with 15%nat. rewrite Nat.sub_diag, take_0.
      cbn [fmap list_fmap app]. symmetry. apply take_drop. }
    apply wp_bind, wp_set_argv; [unfold s1, MAXARGS in *; cbn [argc argv with_c]; lia|]. apply wp_bind, wp_modify.
    set (s2 := with_argc _ _). assert (Hc2 : sh_c s2 = pre1 ++ (x :: w) ++ r ++ NUL :: rest) by exact Hc1.
    apply wp_bind. eapply (wp_skip_word _ (x :: w) pre1 (r ++ NUL :: rest)); [exact Hc2|by constructor|done| | |].
    { destruct Hr as [->|(y & r' & -> & Hy)]; [exists NUL, rest; split; [done|by left]|eexists y, _; split; [reflexivity|by right]]. }
    { rewrite length_app in Hi. lia. }
    set (pre2 := pre1 ++ x :: w). assert (Hl2 : length pre2 = (length pre1 + S (length w))%nat) by (unfold pre2; by rewrite length_app).
    cbn [length]. rewrite <- Hl2 in *. assert (Ha2 : argc s2 = argc s + 1) by done.
    assert (Hargv : take (Z.to_nat (argc s2)) (argv s2) = take (Z.to_nat (argc s)) (argv s) ++ [Some (length pre1)]).
    { rewrite Ha2 at 1. change (argv s2) with (<[Z.to_nat (argc s) := Some (length pre1)]> (argv s)).
      replace (Z.to_nat (argc s + 1)) with (S (Z.to_nat (argc s))) by lia. rewrite insert_take_drop by (unfold MAXARGS in *; lia).
      rewrite (cons_middle (Some (length pre1))), app_assoc. apply take_app_length'. rewrite length_app, length_take. simpl. unfold MAXARGS in *. lia. }
    assert (Hdrop : forall n, (Z.to_nat (argc s) < n)%nat -> drop n (argv s2) = drop n (argv s)).
    { intros n Hn0. change (argv s2) with (<[Z.to_nat (argc s) := Some (length pre1)]> (argv s)). by rewrite drop_insert_lt by lia. }
    rewrite Ha2 in Hargv. apply (IH r); rewrite ?Ha2.
    + rewrite Hc2. unfold pre2. by rewrite <- app_assoc.
    + done.
    + lia.
    + unfold s2, s1. cbn [argv with_argc with_argv with_c]. by rewrite length_insert.
    + lia.
    + rewrite !length_app in Hi. lia.
    + intros Hlt s' (P1 & P2 & P3 & P4 & P5). apply HQ; [simpl length; lia|]. split; [|split; [|split; [|split]]].
      * rewrite P1. unfold pre2, pre1. rewrite !fmap_app, (zap_space sp), (zap_word (x :: w)) by (done || by constructor). by rewrite <- !app_assoc.
      * rewrite P2. cbn [length]. lia.
      * by rewrite P3.
      * by rewrite P4.
      * rewrite P5, Hargv. rewrite Hdrop by lia. rewrite <- app_assoc. cbn [fmap list_fmap fst length app].
        by replace (Z.to_nat (argc s) + S (length (tokens (length pre2) r)) + 1)%nat
          with (Z.to_nat (argc s + 1) + length (tokens (length pre2) r) + 1)%nat by lia.
    + intros Hge s' ((l1 & l2 & O1 & O2) & O3 & O4 & O5 & O6). apply HO; [simpl length; lia|].
      split; [exists (sp ++ (x :: w) ++ l1), l2; split; [rewrite O1; by rewrite <- !app_assoc|]|].
      { rewrite O2. unfold pre2, pre1. rewrite !fmap_app, (zap_space sp), (zap_word (x :: w)) by (done || by constructor). by rewrite <- !app_assoc. }
      split; [done|]. split; [by rewrite O4|]. split; [exact O5|]. rewrite O6, Hargv. rewrite Hdrop by (unfold MAXARGS in *; lia). rewrite <- app_assoc.
      replace (15 - Z.to_nat (argc s))%nat with (S (15 - Z.to_nat (argc s + 1))) by lia. done.
Qed.
End parse.

(** ** The shell: the arguments of a command

    What [parse_arg] leaves in [argv] and [c], and what the commands read
    there. *)

(** ** Arguments *)

(** [argv] holds the words [ws]. *)
Record argv_is (ws : list (list byte)) (s : shst) : Prop := {
  ai_argc : argc s = Z.of_nat (length ws);
  ai_word : forall j w, ws !! j = Some w -> exists p r, argv s !! j = Some (Some p) /\ drop p (sh_c s) = w ++ NUL :: r;
  ai_end : argv s !! length ws = Some None;
  ai_nul : Forall (fun w => NUL ∉ w) ws }.

(** The word's place among the arguments, 0 if it is not one. *)
Definition place (a : list byte) (ws : list (list byte)) : nat :=
  match list_find (fun w => w = a) (drop 1 ws) with Some (j, _) => S j | None => 0%nat end.

Lemma tokens_nul l p q w : NUL ∉ l -> (q, w) ∈ tokens p l -> NUL ∉ w.
Proof.
  revert p q w. induction l as [|x l IH]; intros p q w Hn Hq; cbn [tokens] in Hq; [by apply elem_of_nil in Hq|].
  apply not_elem_of_cons in Hn as [Hx Hn]. specialize (IH (S p)).
  assert (Hone : NUL ∉ [x]) by (intros H%list_elem_of_singleton; congruence).
  destruct (is_ws x); [by apply (IH q w)|]. destruct l as [|y l].
  - apply list_elem_of_singleton in Hq. by injection Hq as _ ->.
  - destruct (is_ws y).
    + apply elem_of_cons in Hq as [[= _ ->]|Hq]; [done|by apply (IH q w)].
    + destruct (tokens (S p) (y :: l)) as [|[q1 w1] ts]; [by apply elem_of_nil in Hq|].
      apply elem_of_cons in Hq as [[= _ ->]|Hq]; [|apply (IH q w Hn); by right].
      apply not_elem_of_cons. split; [done|]. apply (IH q1 w1 Hn). left.
Qed.

Lemma words_nul l w : NUL ∉ l -> w ∈ words l -> NUL ∉ w.
Proof. intros Hn [[q w'] [-> Hq]]%list_elem_of_fmap. by apply (tokens_nul l 0 q). Qed.

Lemma tokens_le p l : (length (tokens p l) <= length l)%nat.
Proof.
  revert p. induction l as [|x l IH]; intros p; cbn [tokens]; [done|]. pose proof (IH (S p)) as H. simpl length.
  destruct (is_ws x); [lia|]. destruct l as [|y l]; [simpl; lia|]. destruct (is_ws y); [simpl in *; lia|].
  destruct (tokens (S p) (y :: l)) as [|[q w] ts]; simpl in *; lia.
Qed.

(** The words that redirect. *)
Definition SP : byte := byte.of_Z 32.
Definition GT : byte := byte.of_Z 62.
Definition redirect (app : bool) : list byte := if app then [GT; GT] else [GT].

Ltac no_nul := apply (bool_decide_unpack _); vm_compute; exact I.

Section shell.
Context (env : history -> ucall -> answer).
Implicit Types (s : shst) (J : shst -> Prop).

Lemma wp_parse_arg line rest s (Q : Z -> shst -> Prop) J :
  sh_c s = line ++ NUL :: rest -> NUL ∉ line -> (length line <= 1023)%nat -> length (argv s) = MAXARGS ->
  ((length (words line) < MAXARGS)%nat -> forall s', argv_is (words line) s' -> sh_b s' = sh_b s -> sh_hist s' = sh_hist s ->
     length (argv s') = MAXARGS -> length (sh_c s') = length (sh_c s) -> Q 1 s') ->
  ((MAXARGS <= length (words line))%nat -> forall s' a, argc s' = 15 -> sh_b s' = sh_b s ->
     sh_hist s' = sh_hist s ++ [(UPrint (str "Too many arguments (max 16)" ++ NL), a)] -> length (argv s') = MAXARGS ->
     length (sh_c s') = length (sh_c s) -> Q 0 s') ->
  wp (parse_arg env) Q J s.
Proof.
  intros Hc Hn Hlen Hl HQ HO. unfold parse_arg. apply wp_bind, wp_modify. apply wp_bind, wp_set_argv; [cbn [argv with_argc]; unfold MAXARGS in *; lia|].
  assert (Hw : length (words line) = length (tokens 0 line)) by apply length_fmap. pose proof (tokens_le 0 line).
  change 0%nat with (length (@nil byte)) at 2. apply (wp_parse_loop env 1025 1025 line [] rest); cbn [sh_c argv argc with_argv with_argc length].
  - exact Hc.
  - done.
  - lia.
  - by rewrite length_insert.
  - lia.
  - lia.
  - intros Hlt s' (P1 & P2 & P3 & P4 & P5). change (sh_c s' = (zap <$> line) ++ NUL :: rest) in P1.
    change (argv s' = (Some <$> (tokens 0 line).*1) ++ None :: drop (length (tokens 0 line) + 1) (<[0%nat := None]> (argv s))) in P5.
    assert (Hla : length (argv s') = MAXARGS).
    { rewrite P5. rewrite length_app, !length_fmap. cbn [length]. rewrite length_drop, length_insert. unfold MAXARGS in *. lia. }
    apply HQ; [rewrite Hw; exact Hlt| |done|done|done|rewrite P1, Hc, !length_app, length_fmap; done].
    split.
    + rewrite P2, Hw. lia.
    + intros j w Hj. unfold words in Hj. rewrite list_lookup_fmap in Hj. apply fmap_Some in Hj as ([q w'] & Hq & ->).
      destruct (tokens_text [] line rest q w') as [r Hr]; [by apply list_elem_of_lookup_2 with j|]. exists q, r. split.
      * rewrite P5. rewrite lookup_app_l by (rewrite !length_fmap; by eapply lookup_lt_Some). rewrite !list_lookup_fmap, Hq. done.
      * rewrite P1. exact Hr.
    + rewrite P5, Hw. apply list_lookup_middle. by rewrite !length_fmap.
    + apply Forall_forall. intros w Hin. by apply (words_nul line).
  - intros Hge s' ((l1 & l2 & O1 & O2) & O3 & O4 & (a & O5) & O6). apply (HO ltac:(rewrite Hw; exact Hge) s' a); [done|done|done| |].
    + change (argv s' = (Some <$> take 15 (tokens 0 line).*1) ++ drop 15 (<[0%nat := None]> (argv s))) in O6. rewrite O6, length_app, length_fmap, length_take, length_fmap, length_drop, length_insert.
      change (Z.to_nat (argc (with_argv (<[Z.to_nat 0:=None]> (argv (with_argc 0 s))) (with_argc 0 s)))) with 0%nat in Hge. unfold MAXARGS in *. lia.
    + rewrite O2, Hc, O1. rewrite !length_app, length_fmap. simpl. lia.
Qed.

(** ** Looking at the arguments *)

Lemma wp_arg ws i w s (Q : list byte -> shst -> Prop) J : argv_is ws s -> ws !! i = Some w ->
  (forall r, Q (w ++ NUL :: r) s) -> wp (arg (Z.of_nat i)) Q J s.
Proof using Type.
  intros [_ Hw _ _] Hi HQ. destruct (Hw i w Hi) as (p & r & Hp & Hr). unfold arg. apply wp_bind, wp_get.
  rewrite (proj2 (Z.ltb_ge _ _)), Nat2Z.id by lia. apply wp_bind. eapply wp_from_option; [exact Hp|].
  apply wp_bind, wp_ret, wp_ret. rewrite Hr. apply HQ.
Qed.

Lemma wp_arg_string ws i w s (Q : list byte -> shst -> Prop) J : argv_is ws s -> ws !! i = Some w ->
  Q (w ++ [NUL]) s -> wp (arg_string (Z.of_nat i)) Q J s.
Proof using Type.
  intros Ha Hi HQ. unfold arg_string. apply wp_bind, (wp_arg ws i w); [done|done|]. intros r.
  eapply wp_from_option; [|exact HQ]. apply cstring_name. by apply (Forall_lookup_1 _ _ i w (ai_nul _ _ Ha)).
Qed.

Lemma strcmp_words w a r : NUL ∉ w -> NUL ∉ a -> exists z, strcmp (w ++ NUL :: r) (a ++ [NUL]) = Some z /\ (z = 0 <-> w = a).
Proof using Type.
  intros Hw Ha. destruct (strcmp_eq (w ++ NUL :: r) (a ++ [NUL]) (w ++ [NUL]) (a ++ [NUL])) as (z & Hz & E).
  - by apply cstring_name.
  - by apply (cstring_name a []).
  - exists z. split; [done|]. rewrite E. split; [intros H; by apply app_inj_tail in H as [? _]|by intros ->].
Qed.

Lemma wp_exist_loop ws a n i s (Q : Z -> shst -> Prop) J : argv_is ws s -> NUL ∉ a -> (i + n)%nat = length ws ->
  Q (match list_find (fun w => w = a) (drop i ws) with Some (j, _) => Z.of_nat (i + j) | None => 0 end) s ->
  wp (exist_loop n (Z.of_nat i) (a ++ [NUL])) Q J s.
Proof using Type.
  intros Hs Ha. revert i. induction n as [|n IH]; intros i Hin HQ; cbn [exist_loop].
  - rewrite drop_ge in HQ by lia. by apply wp_ret.
  - destruct (lookup_lt_is_Some_2 ws i) as [w Hw]; [lia|]. apply wp_bind, (wp_arg ws i w); [done|done|]. intros r.
    destruct (strcmp_words w a r) as (z & Hz & Hzw); [by apply (Forall_lookup_1 _ _ i w (ai_nul _ _ Hs))|done|].
    apply wp_bind. eapply wp_from_option; [exact Hz|]. rewrite (drop_S ws w i Hw) in HQ. cbn [list_find] in HQ.
    destruct (decide (w = a)) as [->|Hne].
    + rewrite (proj2 (Z.eqb_eq z 0)) by tauto. apply wp_ret. by rewrite Nat.add_0_r in HQ.
    + rewrite (proj2 (Z.eqb_neq z 0)) by tauto. replace (Z.of_nat i + 1) with (Z.of_nat (S i)) by lia. apply IH; [lia|].
      destruct (list_find (fun w => w = a) (drop (S i) ws)) as [[j w']|]; cbn in HQ; [|exact HQ].
      by replace (S i + j)%nat with (i + S j)%nat by lia.
Qed.

Lemma wp_exist_arg ws a s (Q : Z -> shst -> Prop) J : argv_is ws s -> ws <> [] -> NUL ∉ a ->
  Q (Z.of_nat (place a ws)) s -> wp (exist_arg a) Q J s.
Proof using Type.
  intros Hs Hne Ha HQ. unfold exist_arg. apply wp_bind, wp_get. rewrite (ai_argc _ _ Hs).
  assert (Hl : (1 <= length ws)%nat) by (destruct ws; [done|simpl; lia]).
  change 1 with (Z.of_nat 1) at 2. apply (wp_exist_loop ws); [done|done|lia|]. unfold place in HQ.
  by destruct (list_find (fun w => w = a) (drop 1 ws)) as [[j w]|].
Qed.

Lemma wp_is_cmd w r name s (Q : bool -> shst -> Prop) J : NUL ∉ w -> NUL ∉ str name ->
  Q (bool_decide (w = str name)) s -> wp (is_cmd (w ++ NUL :: r) name) Q J s.
Proof using Type.
  intros Hw Hn HQ. unfold is_cmd. destruct (strcmp_words w (str name) r Hw Hn) as (z & Hz & E). apply wp_bind.
  eapply wp_from_option; [exact Hz|]. apply wp_ret. destruct (Z.eqb_spec z 0); case_bool_decide; tauto.
Qed.

Lemma wp_call u s (Q : Z -> shst -> Prop) J :
  Q (fst (env (sh_hist s) u)) (with_hist (sh_hist s ++ [(u, env (sh_hist s) u)]) s) -> wp (call env u) Q J s.
Proof using Type. intros HQ. unfold call. by apply wp_bind, wp_ask, wp_ret. Qed.

Lemma wp_print t s (Q : unit -> shst -> Prop) J :
  Q tt (with_hist (sh_hist s ++ [(UPrint t, env (sh_hist s) (UPrint t))]) s) -> wp (print env t) Q J s.
Proof using Type. intros HQ. unfold print. by apply wp_bind, wp_ask, wp_ret. Qed.

Lemma argv_with_hist ws h s : argv_is ws s -> argv_is ws (with_hist h s).
Proof using Type. by intros []. Qed.

(** ** A round *)

(** The arrays have their sizes. *)
Record arrays_ok (s : shst) : Prop := {
  ao_c : length (sh_c s) = 1024%nat;
  ao_b : length (sh_b s) = 1024%nat;
  ao_argv : length (argv s) = MAXARGS }.

Lemma arrays_with_hist h s : arrays_ok s -> arrays_ok (with_hist h s).
Proof using Type. by intros []. Qed.

(** The line is taken apart in [c], with a copy in [b]. *)
Lemma wp_read_command n line s (Q : unit -> shst -> Prop) J : arrays_ok s ->
  env (sh_hist s) UReadline = (n, line ++ [NUL]) -> NUL ∉ line -> (length line <= 1023)%nat -> (length (words line) < MAXARGS)%nat ->
  (forall s' rest, arrays_ok s' -> argv_is (words line) s' -> sh_b s' = line ++ NUL :: rest ->
     sh_hist s' = sh_hist s ++ [(UReadline, (n, line ++ [NUL]))] -> Q tt s') ->
  wp (read_command env) Q J s.
Proof using Type.
  intros [Hc Hb Ha] He Hn Hl Hw HQ. unfold read_command. apply wp_bind, wp_ask. rewrite He. apply wp_bind, wp_get. cbn [sh_c with_hist].
  assert (Hll : length (line ++ [NUL]) = S (length line)) by (rewrite length_app; simpl; lia).
  apply wp_bind. eapply wp_from_option; [apply csplice_Some; lia|]. apply wp_bind, wp_modify. cbn [sh_b with_hist].
  assert (Ec : splice (Z.to_nat 0) (line ++ [NUL]) (sh_c s) = line ++ NUL :: drop (S (length line)) (sh_c s)).
  { unfold splice. change (Z.to_nat 0) with 0%nat. rewrite take_0, Hll, Nat.add_0_l, app_nil_l. by rewrite <- app_assoc. }
  rewrite Ec. apply wp_bind. eapply wp_from_option.
  { unfold strcpy. rewrite cstring_name by done. cbn [mbind option_bind]. apply csplice_Some; lia. }
  apply wp_bind, wp_modify. cbn [sh_b with_c with_hist].
  assert (Eb : splice (Z.to_nat (Z.of_nat 0)) (line ++ [NUL]) (sh_b s) = line ++ NUL :: drop (S (length line)) (sh_b s)).
  { unfold splice. change (Z.to_nat (Z.of_nat 0)) with 0%nat. rewrite take_0, Hll, Nat.add_0_l, app_nil_l. by rewrite <- app_assoc. }
  rewrite Eb. apply wp_bind. eapply (wp_parse_arg line); cbn [sh_c argv with_b with_c with_hist]; [reflexivity|done|done|done| |].
  - intros _ s' Hs' Eb' Eh Hla Hlc. cbn [sh_c sh_b sh_hist with_b with_c with_hist] in *.
    apply wp_ret, (HQ s' (drop (S (length line)) (sh_b s))); [split| |exact Eb'|exact Eh].
    + rewrite Hlc, length_app. cbn [length]. rewrite length_drop. lia.
    + rewrite Eb', length_app. cbn [length]. rewrite length_drop. lia.
    + done.
    + done.
  - intros Hge. unfold MAXARGS in *. lia.
Qed.
(** ** The command *)

(** What [do_shell] does for a name that is not a command of its own. *)
Definition program (name : list byte) : M shst unit :=
  fd ← call env (UOpen (name ++ [NUL]) FS_RW);
  if fd =? -1 then print env (name ++ str " is not an command " ++ NL)
  else
    p ← call env UFork;
    (if p =? 0 then e ← call env (UExec (name ++ [NUL])); if e =? 0 then jump else mret tt else mret tt);;
    _ ← call env (UJoin p);
    mret tt.

Definition dispatch (fuel : nat) (name : list byte) : M shst unit :=
  if decide (name = str "ls") then ls env
  else if decide (name = str "echo") then echo env
  else if decide (name = str "cat") then cat env fuel
  else program name.

Lemma take_name (name : list byte) : take (length (name ++ [NUL]) - 1) (name ++ [NUL]) = name.
Proof using Type. rewrite length_app. simpl. by rewrite Nat.add_sub, take_app_length. Qed.

Lemma do_shell_eq fuel name args s : argv_is (name :: args) s -> do_shell env fuel s = dispatch fuel name s.
Proof using Type.
  intros Ha. assert (Hn : NUL ∉ name) by (pose proof (ai_nul _ _ Ha) as H; by apply Forall_cons in H as [H _]).
  assert (H : wp (arg 0) (fun v s' => s' = s /\ exists r, v = name ++ NUL :: r) (fun _ => False) s).
  { change 0 with (Z.of_nat 0). apply (wp_arg (name :: args) 0 name); [done|done|]. eauto. }
  unfold wp in H. destruct (arg 0 s) as [v s1|s1|e] eqn:E; [|done|done]. destruct H as [-> [r ->]].
  unfold do_shell. rewrite (bind_Ret _ _ _ _ _ E).
  assert (Hc : forall c, NUL ∉ str c -> is_cmd (name ++ NUL :: r) c s = Ret (bool_decide (name = str c)) s).
  { intros c Hs. assert (H : wp (is_cmd (name ++ NUL :: r) c) (fun b s' => b = bool_decide (name = str c) /\ s' = s) (fun _ => False) s) by by apply wp_is_cmd.
    unfold wp in H. destruct (is_cmd _ c s); [|done|done]. by destruct H as [-> ->]. }
  rewrite (bind_Ret _ _ _ _ _ (Hc "ls"%string ltac:(no_nul))). unfold dispatch. case_decide as H1; [by rewrite bool_decide_true|].
  rewrite bool_decide_false by done. cbn iota. rewrite (bind_Ret _ _ _ _ _ (Hc "echo"%string ltac:(no_nul))). case_decide as H2; [by rewrite bool_decide_true|].
  rewrite bool_decide_false by done. cbn iota. rewrite (bind_Ret _ _ _ _ _ (Hc "cat"%string ltac:(no_nul))). case_decide as H3; [by rewrite bool_decide_true|].
  rewrite bool_decide_false by done. cbn iota. rewrite cstring_name by done.
  rewrite (bind_Ret _ _ s (name ++ [NUL]) s eq_refl), take_name. reflexivity.
Qed.

Lemma wp_do_shell fuel name args s (Q : unit -> shst -> Prop) J : argv_is (name :: args) s -> wp (dispatch fuel name) Q J s -> wp (do_shell env fuel) Q J s.
Proof using Type. intros Ha H. unfold wp. by rewrite (do_shell_eq fuel name args). Qed.

End shell.
