(* ===== verification/ShellProps.v ===== *)
(** * Properties of the shell

    What a command line does: the system calls the shell makes, for every
    answer the kernel may give. *)

From Stdlib Require Import String Ascii.
From S2P Require Import Prelude Bytes FileSys Shell ShellProofs.

Lemma strfind_first t ch r : NUL ∉ t -> ch ∉ t -> strfind (t ++ ch :: r) ch = Some (length t).
Proof.
  induction t as [|x t IH]; intros Hn Hc; cbn [strfind app length].
  - by rewrite (proj2 (byte_eqb_eq ch ch) eq_refl), orb_true_r.
  - apply not_elem_of_cons in Hn as [Hx Hn]. apply not_elem_of_cons in Hc as [Hy Hc].
    rewrite (proj2 (byte_eqb_neq x NUL)), (proj2 (byte_eqb_neq x ch)) by congruence. cbn [orb]. by rewrite IH.
Qed.

(** ** [echo] into a file *)

(** [echo text > fname], or with [>>]. *)
Definition echo_line (app : bool) (text fname : list byte) : list byte :=
  str "echo" ++ SP :: text ++ SP :: redirect app ++ SP :: fname.

Lemma words_echo app text fname : wordy fname -> words (echo_line app text fname) = str "echo" :: words text ++ [redirect app; fname].
Proof.
  intros Hf. unfold echo_line. rewrite words_sep by done. rewrite words_one by (split; [done|by repeat constructor]).
  rewrite words_sep by done. rewrite (words_sep (redirect app)) by done.
  rewrite (words_one (redirect app)) by (destruct app; split; try done; by repeat constructor). by rewrite (words_one fname).
Qed.

Lemma place_echo app text fname a : GT ∉ text -> GT ∉ fname -> a = [GT] \/ a = [GT; GT] ->
  place a (str "echo" :: words text ++ [redirect app; fname]) = if decide (a = redirect app) then S (length (words text)) else 0%nat.
Proof.
  intros Ht Hf Ha. unfold place. cbn [drop].
  assert (Hno : forall w, GT ∉ w -> w <> a) by (intros w Hw ->; apply Hw; destruct Ha as [-> | ->]; left).
  assert (Hnone : list_find (fun w => w = a) (words text) = None).
  { apply list_find_None, Forall_forall. intros w Hw. apply Hno. intros Hin. apply Ht.
    clear -Hw Hin. apply list_elem_of_fmap in Hw as ([q w'] & -> & Hq). cbn [snd] in Hin. revert Hq. generalize 0%nat. revert q w' Hin.
    induction text as [|x text IH]; intros q w' Hin p Hq; cbn [tokens] in Hq; [by apply elem_of_nil in Hq|].
    destruct (is_ws x); [right; by apply (IH q w' Hin (S p))|]. destruct text as [|y text].
    - apply list_elem_of_singleton in Hq. injection Hq as _ ->. apply list_elem_of_singleton in Hin as <-. left.
    - destruct (is_ws y).
      + apply elem_of_cons in Hq as [[= _ ->]|Hq]; [apply list_elem_of_singleton in Hin as <-; left|right; by apply (IH q w' Hin (S p))].
      + destruct (tokens (S p) (y :: text)) as [|[q1 w1] ts] eqn:E; [by apply elem_of_nil in Hq|].
        apply elem_of_cons in Hq as [[= _ ->]|Hq].
        * apply elem_of_cons in Hin as [<-|Hin]; [left|]. right. apply (IH q1 w1 Hin (S p)). rewrite E. left.
        * right. apply (IH q w' Hin (S p)). rewrite E. by right. }
  rewrite drop_0, list_find_app_r by done. cbn [list_find]. destruct (decide (redirect app = a)) as [E|E].
  - rewrite decide_True by done. cbn. lia.
  - by rewrite !decide_False by (congruence || by apply Hno).
Qed.

Section commands.
Context (env : history -> ucall -> answer).
Implicit Types (s : shst) (J : shst -> Prop).

Lemma wp_echo_round app text fname fuel n s : arrays_ok s -> wordy fname ->
  NUL ∉ text -> GT ∉ text -> NUL ∉ fname -> GT ∉ fname -> (length (words text) <= 12)%nat -> (length (echo_line app text fname) <= 1023)%nat ->
  env (sh_hist s) UReadline = (n, echo_line app text fname ++ [NUL]) ->
  let h := sh_hist s ++ [(UReadline, (n, echo_line app text fname ++ [NUL]))] in
  let a := env h (UOpen (fname ++ [NUL]) (if app then FS_RWC else FS_RWD)) in
  wp (shell_round env fuel) (fun _ s' => arrays_ok s' /\ exists b c d tail, (length (text ++ tail) <= 1024)%nat /\ sh_hist s' = h ++
      (if app then [(UOpen (fname ++ [NUL]) FS_RWC, a); (ULseek (fst a) 0 SEEK_END, b)] else [(UOpen (fname ++ [NUL]) FS_RWD, a)]) ++
      [(UWrite (fst a) (text ++ tail) (Z.of_nat (length text)), c); (UClose (fst a), d)]) (fun _ => False) s.
Proof using Type.
  intros Hs Hf Ht1 Ht2 Hf1 Hf2 Hw Hl He h a.
  assert (Hn : NUL ∉ echo_line app text fname).
  { unfold echo_line. repeat (rewrite not_elem_of_app || rewrite not_elem_of_cons). split_and!; try done; try no_nul. destruct app; no_nul. }
  pose proof (words_echo app text fname Hf) as Ew. set (ws := str "echo" :: words text ++ [redirect app; fname]) in *.
  assert (Hlw : length ws = (3 + length (words text))%nat) by (unfold ws; simpl; rewrite length_app; simpl; lia).
  apply wp_bind, (wp_read_command env n (echo_line app text fname)); [done|done|done|done|rewrite Ew, Hlw; unfold MAXARGS; lia|].
  intros s1 rest H1 Ha Hb Hh. rewrite Ew in Ha. unfold do_shell.
  apply wp_bind. change 0 with (Z.of_nat 0). apply (wp_arg ws 0 (str "echo")); [done|done|]. intros r.
  apply wp_bind, wp_is_cmd; [no_nul|no_nul|]. rewrite bool_decide_false by discriminate. cbn iota.
  apply wp_bind, wp_is_cmd; [no_nul|no_nul|]. rewrite bool_decide_true by done. cbn iota. unfold echo.
  assert (Hred : ws !! S (S (length (words text))) = Some fname).
  { change (ws !! S (S (length (words text)))) with ((words text ++ [redirect app; fname]) !! S (length (words text))).
    rewrite lookup_app_r by lia. by replace (S (length (words text)) - length (words text))%nat with 1%nat by lia. }
  assert (Htext : exists tail, (length (text ++ tail) <= 1024)%nat /\ wp echo_text (fun p s' => p = (text ++ tail, Z.of_nat (length text)) /\ s' = s1) (fun _ => False) s1).
  { assert (E : drop 5 (echo_line app text fname ++ NUL :: rest) = (text ++ [SP]) ++ GT :: (if app then [GT] else []) ++ SP :: fname ++ NUL :: rest).
    { unfold echo_line. destruct app; simpl; rewrite <- ?app_assoc; reflexivity. }
    exists (SP :: GT :: (if app then [GT] else []) ++ SP :: fname ++ NUL :: rest). split.
    - pose proof (ao_b _ H1) as Hlb. rewrite Hb in Hlb. apply (f_equal length) in E. rewrite length_drop, Hlb, <- app_assoc in E. etrans; [apply Nat.eq_le_incl; symmetry; exact E|lia].
    - unfold echo_text. apply wp_bind, wp_get. rewrite Hb, E. apply wp_bind. eapply wp_from_option.
      { apply strfind_first; rewrite not_elem_of_app; (split; [done|no_nul]). }
      apply wp_ret. split; [|done]. rewrite length_app. simpl length. f_equal; [by rewrite <- app_assoc|lia]. }
  destruct Htext as (tail & Htl & Htext).
  pose proof (place_echo app text fname [GT] Ht2 Hf2 (or_introl eq_refl)) as P1. fold ws in P1.
  pose proof (place_echo app text fname [GT; GT] Ht2 Hf2 (or_intror eq_refl)) as P2. fold ws in P2.
  apply wp_bind, (wp_exist_arg ws); [done|done|no_nul|]. apply wp_bind, (wp_exist_arg ws); [done|done|no_nul|].
  change (str ">") with [GT]. change (str ">>") with [GT; GT]. rewrite P1, P2. clear P1 P2.
  assert (Hname : Z.of_nat (S (length (words text))) + 1 = Z.of_nat (S (S (length (words text))))) by lia.
  destruct app; cbn [redirect].
  - rewrite decide_False, decide_True by done. cbn [negb]. change (Z.of_nat 0 =? 0) with true. cbn iota. cbn [negb].
    rewrite (proj2 (Z.eqb_neq (Z.of_nat (S (length (words text)))) 0)) by lia. cbn [negb].
    apply wp_bind. eapply wp_mono; [exact Htext| |done]. intros ? ? [-> ->]. rewrite Hname.
    apply wp_bind, (wp_arg_string ws _ fname); [done|done|]. apply wp_bind, wp_call. apply wp_bind, wp_call. apply wp_bind, wp_call.
    apply wp_bind, wp_call, wp_ret. split; [by do 4 apply arrays_with_hist|]. cbn [sh_hist with_hist]. rewrite Hh. eexists _, _, _, tail. split; [exact Htl|].
    unfold a, h. rewrite <- !app_assoc. reflexivity.
  - rewrite decide_True, decide_False by done. rewrite (proj2 (Z.eqb_neq (Z.of_nat (S (length (words text)))) 0)) by lia. cbn [negb].
    apply wp_bind. eapply wp_mono; [exact Htext| |done]. intros ? ? [-> ->]. rewrite Hname.
    apply wp_bind, (wp_arg_string ws _ fname); [done|done|]. apply wp_bind, wp_call. apply wp_bind, wp_call.
    apply wp_bind, wp_call, wp_ret. split; [by do 3 apply arrays_with_hist|]. cbn [sh_hist with_hist]. rewrite Hh. eexists (0, []), _, _, tail. split; [exact Htl|].
    unfold a, h. rewrite <- !app_assoc. reflexivity.
Qed.

(** [echo text > fname] opens the file afresh, writes exactly the text
    between the command and the space before the redirection, and closes it;
    [>>] opens it as it is and writes at its end. *)
Theorem echo_to_file app text fname fuel n s : arrays_ok s -> wordy fname ->
  NUL ∉ text -> GT ∉ text -> NUL ∉ fname -> GT ∉ fname -> (length (words text) <= 12)%nat -> (length (echo_line app text fname) <= 1023)%nat ->
  env (sh_hist s) UReadline = (n, echo_line app text fname ++ [NUL]) ->
  let h := sh_hist s ++ [(UReadline, (n, echo_line app text fname ++ [NUL]))] in
  let a := env h (UOpen (fname ++ [NUL]) (if app then FS_RWC else FS_RWD)) in
  wp (shell_round env fuel) (fun _ s' => arrays_ok s' /\ exists b c d tail, (length (text ++ tail) <= 1024)%nat /\ sh_hist s' = h ++
      (if app then [(UOpen (fname ++ [NUL]) FS_RWC, a); (ULseek (fst a) 0 SEEK_END, b)] else [(UOpen (fname ++ [NUL]) FS_RWD, a)]) ++
      [(UWrite (fst a) (text ++ tail) (Z.of_nat (length text)), c); (UClose (fst a), d)]) (fun _ => False) s.
Proof. apply wp_echo_round. Qed.

(** [parse_arg] of a line takes it apart into its words: with fewer than
    sixteen it returns 1, [argc] is their number, each [argv[i]] points to the
    word with its NUL and [argv[argc]] is null; with more it prints the
    message, returns 0 and leaves fifteen. *)
Theorem parse_arg_correct line rest s : sh_c s = line ++ NUL :: rest -> NUL ∉ line -> (length line <= 1023)%nat -> length (argv s) = MAXARGS ->
  wp (parse_arg env) (fun r s' => sh_b s' = sh_b s /\ length (argv s') = MAXARGS /\ length (sh_c s') = length (sh_c s) /\
    if decide (length (words line) < MAXARGS)%nat then r = 1 /\ argv_is (words line) s' /\ sh_hist s' = sh_hist s
    else r = 0 /\ argc s' = 15 /\ exists a, sh_hist s' = sh_hist s ++ [(UPrint (str "Too many arguments (max 16)" ++ NL), a)]) (fun _ => False) s.
Proof.
  intros Hc Hn Hl Ha. apply (wp_parse_arg env line rest); [done|done|done|done| |].
  - intros Hw s' H1 H2 H3 H4 H5. by rewrite decide_True.
  - intros Hw s' a H1 H2 H3 H4 H5. rewrite decide_False by lia. split_and!; eauto.
Qed.

(** A command that is not the shell's own is opened as a file; if there
    is none the message is printed, otherwise the shell forks, the child
    executes the file and the parent waits for the child.  A child whose
    [exec] comes back goes on as a shell, after waiting for process 0.  The
    file is not closed on any of these ways. *)
Theorem run_program name args line fuel n s : arrays_ok s -> NUL ∉ line -> (length line <= 1023)%nat -> (length (words line) < MAXARGS)%nat ->
  words line = name :: args -> name <> str "ls" -> name <> str "echo" -> name <> str "cat" ->
  env (sh_hist s) UReadline = (n, line ++ [NUL]) ->
  let before fd := sh_hist s ++ [(UReadline, (n, line ++ [NUL])); (UOpen (name ++ [NUL]) FS_RW, fd)] in
  wp (shell_round env fuel)
    (fun _ s' => arrays_ok s' /\ exists fd,
       if decide (fst fd = -1) then exists a, sh_hist s' = before fd ++ [(UPrint (name ++ str " is not an command " ++ NL), a)]
       else exists p, if decide (fst p = 0)
                      then exists e a, fst e <> 0 /\ sh_hist s' = before fd ++ [(UFork, p); (UExec (name ++ [NUL]), e); (UJoin 0, a)]
                      else exists a, sh_hist s' = before fd ++ [(UFork, p); (UJoin (fst p), a)])
    (fun s' => exists fd p e, fst fd <> -1 /\ fst p = 0 /\ fst e = 0 /\ sh_hist s' = before fd ++ [(UFork, p); (UExec (name ++ [NUL]), e)]) s.
Proof.
  intros Hs Hn Hl Hlw Hw H1 H2 H3 He before. apply wp_bind, (wp_read_command env n line); [done|done|done|done|done|].
  intros s1 rest A1 Ha _ Hh. rewrite Hw in Ha. apply (wp_do_shell env fuel name args); [done|]. unfold dispatch.
  rewrite !decide_False by done. unfold program. apply wp_bind, wp_call. set (fd := env _ (UOpen _ _)).
  assert (Hb : sh_hist s1 ++ [(UOpen (name ++ [NUL]) FS_RW, fd)] = before fd) by (rewrite Hh, <- app_assoc; done).
  rewrite Hb. cbn [sh_hist with_hist]. destruct (Z.eqb_spec (fst fd) (-1)) as [E|E].
  - apply wp_print. split; [by do 2 apply arrays_with_hist|]. exists fd. rewrite decide_True by done. by eexists.
  - apply wp_bind, wp_call. cbn [sh_hist with_hist]. set (p := env _ UFork). destruct (Z.eqb_spec (fst p) 0) as [E1|E1].
    + apply wp_bind, wp_bind, wp_call. cbn [sh_hist with_hist]. set (e := env _ (UExec _)). rewrite <- app_assoc. cbn [app].
      destruct (Z.eqb_spec (fst e) 0) as [E2|E2]; [apply wp_jump; by exists fd, p, e|]. apply wp_ret.
      apply wp_bind, wp_call, wp_ret. split; [by do 4 apply arrays_with_hist|]. exists fd. rewrite decide_False by done. exists p.
      rewrite decide_True by done. exists e. eexists. split; [done|]. cbn [sh_hist with_hist]. rewrite <- app_assoc, E1. reflexivity.
    + apply wp_bind, wp_ret. apply wp_bind, wp_call, wp_ret. split; [by do 3 apply arrays_with_hist|]. exists fd. rewrite decide_False by done. exists p.
      rewrite decide_False by done. eexists. cbn [sh_hist with_hist]. rewrite <- app_assoc. reflexivity.
Qed.
End commands.

(** ** Examples *)

Lemma arrays_start : arrays_ok shell_start.
Proof. by split. Qed.

Definition demo_kernel (line : string) : history -> ucall -> answer := demo_env (str line) (fun _ => (-1, [])) 7.

Lemma echo_to_file_witness :
  wp (shell_round (demo_kernel "echo hello world > f") 1) (fun _ s' => arrays_ok s') (fun _ => False) shell_start.
Proof.
  eapply wp_mono; [apply (echo_to_file (demo_kernel "echo hello world > f") false (str "hello world") (str "f") 1 20)|by intros ? ? [? _]|done].
  - apply arrays_start.
  - split; [done|by repeat constructor].
  - no_nul.
  - no_nul.
  - no_nul.
  - no_nul.
  - by vm_compute; lia.
  - by vm_compute; lia.
  - reflexivity.
Defined.

Lemma parse_arg_correct_witness : let s := with_c (str "cat  a b" ++ replicate 1016 NUL) shell_start in
  wp (parse_arg (demo_kernel "")) (fun r s' => r = 1 /\ argv_is [str "cat"; str "a"; str "b"] s') (fun _ => False) s.
Proof.
  intros s. eapply wp_mono; [apply (parse_arg_correct (demo_kernel "") (str "cat  a b") (replicate 1015 NUL))| |done].
  - reflexivity.
  - no_nul.
  - vm_compute; lia.
  - reflexivity.
  - intros r s' (_ & _ & _ & H). rewrite decide_True in H by (vm_compute; lia). by destruct H as (H1 & H2 & _).
Defined.

Lemma run_program_witness :
  wp (shell_round (demo_kernel "game") 1) (fun _ s' => arrays_ok s') (fun _ => True) shell_start.
Proof.
  eapply wp_mono; [apply (run_program (demo_kernel "game") (str "game") [] (str "game") 1 4)|by intros ? ? [? _]|done].
  - apply arrays_start.
  - no_nul.
  - vm_compute; lia.
  - vm_compute; lia.
  - reflexivity.
  - discriminate.
  - discriminate.
  - discriminate.
  - reflexivity.
Defined.
