(* ===== verification/ShellCat.v ===== *)
(** * Properties of the shell: [cat]

    Printing a file and copying one into another, for a kernel that serves
    the file's contents. *)

From Stdlib Require Import String Ascii.
From S2P Require Import Prelude Bytes FileSys Shell ShellProofs.

Section cat.
Context (env : history -> ucall -> answer).
Implicit Types (s : shst) (J : shst -> Prop).

(** ** The kernel's side: a file of contents [contents] behind [fd] *)

(** The bytes read so far. *)
Definition bytes_read (fd : Z) (h : history) : nat :=
  sum_list_with (fun p => match p with (URead f _, (l, _)) => if decide (f = fd) then Z.to_nat l else 0%nat | _ => 0%nat end) h.

(** The next 1024 bytes or what is left; -1 at the end. *)
Definition next_read (contents : list byte) (off : nat) : answer :=
  if decide (off < length contents)%nat then let bs := take 1024 (drop off contents) in (Z.of_nat (length bs), bs) else (-1, []).

(** The answers recorded in [h] are the ones [env] gave after [h0]. *)
Definition made (h0 h : list (ucall * answer)) : Prop := forall k u a, h !! k = Some (u, a) -> a = env (h0 ++ take k h) u.

(** From the history [h0] on, reads of [fd] get the contents in turn, as long
    as only calls that [other] allows come between them. *)
Definition quiet (other : ucall -> Prop) (h0 : history) (fd : Z) (h : history) : Prop :=
  made h0 h /\ Forall (fun p => fst p = URead fd 1024 \/ other (fst p)) h.
Definition serves (other : ucall -> Prop) (h0 : history) (fd : Z) (contents : list byte) : Prop :=
  forall h, quiet other h0 fd h -> env (h0 ++ h) (URead fd 1024) = next_read contents (bytes_read fd h).

(** What the calls of [h] wrote to [out]. *)
Definition written (out : Z) (h : history) : list byte :=
  concat ((fun p => match p with (UWrite o buf l, _) => if decide (o = out) then take (Z.to_nat l) buf else [] | _ => [] end) <$> h).

(** The calls are reads of [fd] and writes to [out]. *)
Definition copies (fd out : Z) (h : history) : Prop :=
  Forall (fun p => match fst p with URead f n => f = fd /\ n = 1024 | UWrite o _ _ => o = out | _ => False end) h.

Lemma bytes_read_app fd h1 h2 : bytes_read fd (h1 ++ h2) = (bytes_read fd h1 + bytes_read fd h2)%nat.
Proof using Type. apply sum_list_with_app. Qed.
Lemma bytes_read_one fd n l bs : bytes_read fd [(URead fd n, (l, bs))] = Z.to_nat l.
Proof using Type. cbn. rewrite decide_True by done. apply Nat.add_0_r. Qed.
Lemma written_app out h1 h2 : written out (h1 ++ h2) = written out h1 ++ written out h2.
Proof using Type. unfold written. by rewrite fmap_app, concat_app. Qed.

Lemma quiet_nil other h0 fd : quiet other h0 fd [].
Proof using Type. split; [by intros k u a H|constructor]. Qed.

Lemma quiet_snoc other h0 fd h u : quiet other h0 fd h -> u = URead fd 1024 \/ other u -> quiet other h0 fd (h ++ [(u, env (h0 ++ h) u)]).
Proof using Type.
  intros [H1 H2] Hu. split; [|apply Forall_app; split; [done|by constructor]].
  intros k v a Hk. destruct (decide (k < length h)%nat) as [Hl|Hl].
  - rewrite lookup_app_l in Hk by done. rewrite take_app_le by lia. by apply H1.
  - pose proof (lookup_lt_Some _ _ _ Hk) as Hl2. rewrite length_app in Hl2. simpl in Hl2. assert (k = length h) as -> by lia.
    rewrite list_lookup_middle in Hk by done. injection Hk as <- <-. by rewrite take_app_length.
Qed.

Lemma quiet_inv other h0 fd h p : quiet other h0 fd (h ++ [p]) ->
  quiet other h0 fd h /\ snd p = env (h0 ++ h) (fst p) /\ (fst p = URead fd 1024 \/ other (fst p)).
Proof using Type.
  intros [H1 H2]. apply Forall_app in H2 as [H2 H3]. apply Forall_cons in H3 as [H3 _]. split_and!; [split; [|done]| |done].
  - intros k u a Hk. pose proof (lookup_lt_Some _ _ _ Hk). specialize (H1 k u a). rewrite take_app_le in H1 by lia. apply H1.
    by apply lookup_app_l_Some.
  - destruct p as [u a]. specialize (H1 (length h) u a). rewrite take_app_length in H1. apply H1. by apply list_lookup_middle.
Qed.

(** ** One read *)

Lemma splice_buf bs buf : length buf = 1024%nat -> (length bs <= 1024)%nat -> csplice 0 bs buf = Some (bs ++ drop (length bs) buf).
Proof using Type.
  intros Hb Hl. by rewrite csplice_Some by lia.
Qed.

Lemma wp_read_buf other h0 h fd contents buf s (Q : Z * list byte -> shst -> Prop) J : serves other h0 fd contents -> quiet other h0 fd h -> sh_hist s = h0 ++ h -> length buf = 1024%nat ->
  (forall bs, bs = take 1024 (drop (bytes_read fd h) contents) -> bs <> [] -> (length bs <= 1024)%nat ->
     quiet other h0 fd (h ++ [(URead fd 1024, (Z.of_nat (length bs), bs))]) -> Q (Z.of_nat (length bs), bs ++ drop (length bs) buf) (with_hist (h0 ++ h ++ [(URead fd 1024, (Z.of_nat (length bs), bs))]) s)) ->
  ((length contents <= bytes_read fd h)%nat -> Q (-1, buf) (with_hist (h0 ++ h ++ [(URead fd 1024, (-1, []))]) s)) ->
  wp (read_buf env fd buf) Q J s.
Proof using Type.
  intros Hs Hq Hh Hb H1 H2. unfold read_buf. pose proof (quiet_snoc _ _ _ _ _ Hq (or_introl eq_refl)) as Hq'.
  apply wp_bind, wp_ask. rewrite Hh. rewrite Hs in * by done. unfold next_read in *. rewrite <- app_assoc. case_decide as H.
  - cbn zeta. set (bs := take 1024 _). assert (Hl : (length bs <= 1024)%nat) by (unfold bs; rewrite length_take; lia).
    apply wp_bind. eapply wp_from_option; [by apply splice_buf|]. apply wp_ret, H1; [done| |done|exact Hq'].
    intros E. apply (f_equal length) in E. unfold bs in E. rewrite length_take, length_drop in E. cbn [length] in E. lia.
  - apply wp_bind. eapply wp_from_option; [apply splice_buf; [done|simpl; lia]|]. apply wp_ret, H2. lia.
Qed.

(** ** Copying *)

Lemma take_drop_length {A} n (l : list A) : take n l ++ drop (length (take n l)) l = l.
Proof using Type.
  rewrite length_take. destruct (Nat.le_ge_cases n (length l)); [rewrite Nat.min_l by lia; apply take_drop|].
  rewrite Nat.min_r, take_ge, drop_ge by lia. apply app_nil_r.
Qed.

Lemma wp_copy_loop other h0 fd out contents fuel h buf s (Q : unit -> shst -> Prop) J : serves other h0 fd contents ->
  (forall buf l, other (UWrite out buf l)) -> quiet other h0 fd h -> sh_hist s = h0 ++ h -> length buf = 1024%nat ->
  (length contents - bytes_read fd h <= 1024 * fuel)%nat ->
  (forall h', copies fd out h' -> written out h' = drop (bytes_read fd h) contents -> Q tt (with_hist (h0 ++ h ++ h') s)) ->
  wp (copy_loop env (S fuel) fd out buf) Q J s.
Proof using Type.
  intros Hs Ho. revert h buf s. induction fuel as [|fuel IH]; intros h buf s Hq Hh Hb Hf HQ.
  1: cbn [copy_loop]. 2: change (copy_loop env (S (S fuel)) fd out buf) with ('(l, buf) ← read_buf env fd buf; if l =? -1 then mret tt else _ ← call env (UWrite out buf l); copy_loop env (S fuel) fd out buf).
  all: apply wp_bind, (wp_read_buf other h0 h fd contents); [done|done|done|done| |intros Hend; apply wp_ret, HQ;
         [by repeat constructor|by rewrite drop_ge by lia]].
  - intros bs -> Hne _ _. exfalso. apply Hne. by rewrite drop_ge by lia.
  - intros bs Hbs Hne Hlen Hq1. rewrite (proj2 (Z.eqb_neq _ _)) by lia. pose proof (fun buf => quiet_snoc _ _ _ _ _ Hq1 (or_intror (Ho buf (Z.of_nat (length bs))))) as Hq2.
    apply wp_bind, wp_call. cbn [sh_hist with_hist]. set (r := (URead fd 1024, _)). set (w := (UWrite _ _ _, _)).
    assert (Hr : bytes_read fd (h ++ [r; w]) = (bytes_read fd h + length bs)%nat).
    { change [r; w] with ([r] ++ [w]). rewrite !bytes_read_app. unfold r. rewrite bytes_read_one, Nat2Z.id. apply f_equal, Nat.add_0_r. }
    apply (IH (h ++ [r; w])); [specialize (Hq2 (bs ++ drop (length bs) buf)); by rewrite <- app_assoc in Hq2|cbn [sh_hist with_hist]; by rewrite <- !app_assoc|rewrite length_app, length_drop; lia| |].
    + rewrite Hr. assert (length bs = Nat.min 1024 (length contents - bytes_read fd h)) by (rewrite Hbs; by rewrite length_take, length_drop). lia.
    + intros h' Hc Hw. rewrite Hr in Hw. rewrite <- app_assoc. apply HQ.
      * by repeat constructor.
      * change ([r; w] ++ h') with ([r; w] ++ h'). rewrite written_app, Hw. unfold written. cbn. rewrite decide_True by done.
        rewrite app_nil_r, Nat2Z.id, take_app_length, <- drop_drop, Hbs. apply take_drop_length.
Qed.

Lemma place_none a ws : a ∉ ws -> place a ws = 0%nat.
Proof using Type.
  intros H. unfold place. rewrite (proj2 (list_find_None _ _)); [done|]. apply Forall_forall. intros w Hw E. apply H. rewrite <- E.
  by apply (subseteq_drop 1 ws w).
Qed.

Lemma place_cat app src dst : src <> redirect false -> src <> redirect true -> dst <> redirect false -> dst <> redirect true ->
  let ws := [str "cat"; src; redirect app; dst] in
  place (redirect app) ws = 2%nat /\ place (redirect (negb app)) ws = 0%nat.
Proof using Type.
  intros H1 H2 H3 H4 ws. split.
  - unfold place, ws. cbn [drop list_find]. rewrite decide_False by (by destruct app). by rewrite decide_True.
  - apply place_none. unfold ws. rewrite !not_elem_of_cons. split_and!; [| | | |apply not_elem_of_nil]; destruct app; cbn [negb]; (discriminate || congruence).
Qed.

(** Calls on the file [name] and its descriptor. *)
Definition on_file (name : list byte) (out : Z) (u : ucall) : Prop :=
  match u with UOpen p _ => p = name ++ [NUL] | ULseek o _ _ | UWrite o _ _ => o = out | _ => False end.

(** A line whose first word is [cat]. *)
Lemma wp_cat_round args line fuel n s (Q : unit -> shst -> Prop) J : arrays_ok s -> NUL ∉ line -> (length line <= 1023)%nat ->
  words line = str "cat" :: args -> (length args < 15)%nat -> env (sh_hist s) UReadline = (n, line ++ [NUL]) ->
  (forall s', arrays_ok s' -> argv_is (str "cat" :: args) s' -> sh_hist s' = sh_hist s ++ [(UReadline, (n, line ++ [NUL]))] -> wp (cat env fuel) Q J s') ->
  wp (shell_round env fuel) Q J s.
Proof using Type.
  intros Hs Hn Hl Hw Hlen He HQ. apply wp_bind, (wp_read_command env n line); [done|done|done|done|rewrite Hw; unfold MAXARGS; simpl; lia|].
  intros s1 rest A1 Ha _ Hh. rewrite Hw in Ha. apply (wp_do_shell env fuel (str "cat") args); [done|].
  unfold dispatch. rewrite decide_False, decide_False, decide_True by done. by apply HQ.
Qed.

(** [cat src > dst] reads [src] to its end in blocks of 1024 and writes
    to [dst], opened afresh, exactly its contents; [>>] writes them at the
    end of [dst].  Both are closed. *)
Theorem cat_copies app src dst line contents fd out fuel n s : arrays_ok s -> NUL ∉ line -> (length line <= 1023)%nat ->
  words line = [str "cat"; src; redirect app; dst] ->
  src <> redirect false -> src <> redirect true -> dst <> redirect false -> dst <> redirect true ->
  env (sh_hist s) UReadline = (n, line ++ [NUL]) ->
  let h := sh_hist s ++ [(UReadline, (n, line ++ [NUL]))] in
  env h (UOpen (src ++ [NUL]) FS_RW) = fd -> fst fd <> -1 ->
  let h := h ++ [(UOpen (src ++ [NUL]) FS_RW, fd)] in
  env h (UOpen (dst ++ [NUL]) (if app then FS_RWC else FS_RWD)) = out ->
  serves (on_file dst (fst out)) h (fst fd) contents -> (length contents <= 1024 * fuel)%nat ->
  wp (shell_round env (S fuel)) (fun _ s' => arrays_ok s' /\ exists a h' b c, copies (fst fd) (fst out) h' /\ written (fst out) h' = contents /\
      sh_hist s' = h ++ (if app then [(UOpen (dst ++ [NUL]) FS_RWC, out); (ULseek (fst out) 0 SEEK_END, a)] else [(UOpen (dst ++ [NUL]) FS_RWD, out)]) ++
        h' ++ [(UClose (fst out), b); (UClose (fst fd), c)]) (fun _ => False) s.
Proof.
  intros Hs Hn Hl Hw N1 N2 N3 N4 He h Hfd Hne h' Hout Hserve Hfuel.
  destruct (place_cat app src dst N1 N2 N3 N4) as [P1 P2].
  apply (wp_cat_round [src; redirect app; dst] line _ n); [done|done|done|done|simpl; lia|done|]. intros s1 A1 Ha Hh. fold h in Hh.
  set (ws := [str "cat"; src; redirect app; dst]) in *. unfold cat. change 1 with (Z.of_nat 1) at 1.
  apply wp_bind, (wp_arg_string ws 1 src); [done|done|]. apply wp_bind, wp_call. rewrite Hh, Hfd. fold h'.
  rewrite (proj2 (Z.eqb_neq _ _)) by done. apply wp_bind, wp_ret. cbn zeta. set (s2 := with_hist h' s1).
  assert (A2 : arrays_ok s2) by by apply arrays_with_hist. assert (Ha2 : argv_is ws s2) by by apply argv_with_hist.
  apply wp_bind, (wp_exist_arg ws); [done|done|no_nul|]. apply wp_bind, (wp_exist_arg ws); [done|done|no_nul|].
  change (str ">") with (redirect false). change (str ">>") with (redirect true). change (0 =? 0) with true.
  pose proof (quiet_snoc _ _ _ _ (UOpen (dst ++ [NUL]) (if app then FS_RWC else FS_RWD)) (quiet_nil (on_file dst (fst out)) h' (fst fd)) (or_intror eq_refl)) as Hq.
  rewrite app_nil_r, Hout, app_nil_l in Hq.
  destruct app; cbn [negb] in P1, P2; rewrite P1, P2; cbn [negb].
  - change (Z.of_nat 0 =? 0) with true. change (Z.of_nat 2 =? 0) with false. change (Z.of_nat 2 + 1) with (Z.of_nat 3). cbn [negb].
    apply wp_bind, (wp_arg_string ws 3 dst); [done|done|]. apply wp_bind, wp_call. cbn [sh_hist with_hist s2]. rewrite Hout.
    apply wp_bind, wp_call. cbn [sh_hist with_hist]. set (k := env (h' ++ _) _). rewrite <- app_assoc. cbn [app].
    apply wp_bind, (wp_copy_loop (on_file dst (fst out)) h' (fst fd) (fst out) contents fuel [(UOpen (dst ++ [NUL]) FS_RWC, out); (ULseek (fst out) 0 SEEK_END, k)]); [done|done| |done|done| |].
    { apply (quiet_snoc _ _ _ _ (ULseek (fst out) 0 SEEK_END) Hq). by right. }
    { change (bytes_read (fst fd) _) with 0%nat. lia. }
    intros h2 Hc Hwr. apply wp_bind, wp_call. apply wp_bind, wp_call, wp_ret. split; [by repeat apply arrays_with_hist|].
    exists k, h2. eexists _, _. split; [done|]. split; [exact Hwr|]. cbn [sh_hist with_hist]. rewrite <- !app_assoc. reflexivity.
  - change (Z.of_nat 2 =? 0) with false. change (Z.of_nat 2 + 1) with (Z.of_nat 3). cbn [negb].
    apply wp_bind, (wp_arg_string ws 3 dst); [done|done|]. apply wp_bind, wp_call. cbn [sh_hist with_hist s2]. rewrite Hout.
    apply wp_bind, (wp_copy_loop (on_file dst (fst out)) h' (fst fd) (fst out) contents fuel [(UOpen (dst ++ [NUL]) FS_RWD, out)]); [done|done|done|done|done| |].
    { change (bytes_read (fst fd) _) with 0%nat. lia. }
    intros h2 Hc Hwr. apply wp_bind, wp_call. apply wp_bind, wp_call, wp_ret. split; [by repeat apply arrays_with_hist|].
    exists (0, []), h2. eexists _, _. split; [done|]. split; [exact Hwr|]. cbn [sh_hist with_hist]. rewrite <- !app_assoc. reflexivity.
Qed.

(** ** Printing *)

Lemma text_of_app t r : NUL ∉ t -> text_of (t ++ NUL :: r) = Some t.
Proof using Type. intros H. unfold text_of. rewrite cstring_name by done. cbn. f_equal. apply take_name. Qed.

Lemma cstring_none t : NUL ∉ t -> cstring t = None.
Proof using Type.
  induction t as [|x t IH]; intros H; [done|]. apply not_elem_of_cons in H as [Hx H]. cbn [cstring].
  destruct (Byte.eqb x NUL) eqn:E; [apply Byte.byte_dec_bl in E; congruence|]. by rewrite IH.
Qed.

Lemma memset_drop k : (k < 1024)%nat -> drop k (memset2 1024 0) = NUL :: replicate (1023 - k) NUL.
Proof using Type. intros H. unfold memset2. rewrite drop_replicate. by replace (1024 - k)%nat with (S (1023 - k)) by lia. Qed.

Lemma wp_same {A} (c c' : M shst A) s s' (Q : A -> shst -> Prop) J : c s = c' s' -> wp c' Q J s' -> wp c Q J s.
Proof using Type. unfold wp. by intros ->. Qed.

(** Up to the loop. *)
Lemma cat_print_eq src fd fuel s : argv_is [str "cat"; src] s -> src <> redirect false -> src <> redirect true ->
  env (sh_hist s) (UOpen (src ++ [NUL]) FS_RW) = fd -> fst fd <> -1 ->
  cat env fuel s = (cat_loop env fuel (fst fd) (memset2 1024 0);; _ ← call env (UClose (fst fd)); mret tt)
    (with_hist (sh_hist s ++ [(UOpen (src ++ [NUL]) FS_RW, fd)]) s).
Proof using Type.
  intros Ha N1 N2 Hfd Hne. set (ws := [str "cat"; src]) in *. unfold cat. change 1 with (Z.of_nat 1) at 1.
  apply wp_then, (wp_arg_string ws 1 src); [done|done|]. apply wp_then, wp_call. rewrite Hfd.
  rewrite (proj2 (Z.eqb_neq _ _)) by done. apply wp_then, wp_ret. cbn zeta.
  assert (P : forall app, place (redirect app) ws = 0%nat).
  { intros app. apply place_none. unfold ws. rewrite !not_elem_of_cons. split_and!; [| |apply not_elem_of_nil]; destruct app; (discriminate || congruence). }
  apply wp_then, (wp_exist_arg ws); [by apply argv_with_hist|done|no_nul|].
  apply wp_then, (wp_exist_arg ws); [by apply argv_with_hist|done|no_nul|].
  change (str ">") with (redirect false). change (str ">>") with (redirect true). by rewrite !P.
Qed.

Definition is_print (u : ucall) : Prop := exists t, u = UPrint t.

Lemma cat_round_prints src line contents fd fuel n s : arrays_ok s -> NUL ∉ line -> (length line <= 1023)%nat ->
  words line = [str "cat"; src] -> src <> redirect false -> src <> redirect true ->
  env (sh_hist s) UReadline = (n, line ++ [NUL]) ->
  let h := sh_hist s ++ [(UReadline, (n, line ++ [NUL]))] in
  env h (UOpen (src ++ [NUL]) FS_RW) = fd -> fst fd <> -1 ->
  let h := h ++ [(UOpen (src ++ [NUL]) FS_RW, fd)] in
  serves is_print h (fst fd) contents -> contents <> [] -> NUL ∉ take 1024 contents ->
  if decide (length contents <= 1023)%nat then
    wp (shell_round env (S (S fuel))) (fun _ s' => arrays_ok s' /\ exists a b, sh_hist s' = h ++
      [(URead (fst fd) 1024, (Z.of_nat (length contents), contents)); (UPrint (contents ++ NL), a);
       (URead (fst fd) 1024, (-1, [])); (UClose (fst fd), b)]) (fun _ => False) s
  else shell_round env (S (S fuel)) s = Fault OutOfBounds.
Proof using Type.
  intros Hs Hn Hl Hw N1 N2 He h Hfd Hne h' Hserve Hc0 Hc.
  assert (H0 : wp (read_command env) (fun _ s1 => arrays_ok s1 /\ argv_is [str "cat"; src] s1 /\ sh_hist s1 = h) (fun _ => False) s).
  { apply (wp_read_command env n line); [done|done|done|done|rewrite Hw; unfold MAXARGS; simpl; lia|]. intros s1 rest A1 Ha _ Hh.
    rewrite Hw in Ha. done. }
  unfold wp in H0. destruct (read_command env s) as [[] s1| |] eqn:E; [|done|done]. destruct H0 as (A1 & Ha & Hh).
  assert (E1 : shell_round env (S (S fuel)) s = (cat_loop env (S (S fuel)) (fst fd) (memset2 1024 0);; _ ← call env (UClose (fst fd)); mret tt) (with_hist h' s1)).
  { unfold shell_round. rewrite (bind_Ret _ _ _ _ _ E), (do_shell_eq env _ (str "cat") [src]) by done. unfold dispatch.
    rewrite decide_False, decide_False, decide_True by done. rewrite (cat_print_eq src fd) by (try done; by rewrite Hh). by rewrite Hh. }
  assert (Hb : length (memset2 1024 0) = 1024%nat) by reflexivity. assert (Hpos : (0 < length contents)%nat) by (destruct contents; [done|simpl; lia]).
  case_decide as Hlen.
  - apply (wp_same _ _ _ _ _ _ E1). change (cat_loop env (S (S fuel)) (fst fd) (memset2 1024 0)) with (cat_loop env (2 + fuel) (fst fd) (memset2 1024 0)).
    cbn [cat_loop plus]. apply wp_bind, wp_bind, (wp_read_buf is_print h' [] (fst fd) contents); [done|apply quiet_nil|by rewrite app_nil_r|done| |].
    2: { change (bytes_read (fst fd) []) with 0%nat. lia. }
    change (bytes_read (fst fd) []) with 0%nat. rewrite drop_0, take_ge by lia. intros bs -> _ _ Hq.
    rewrite (proj2 (Z.eqb_neq _ _)) by lia. apply wp_bind. rewrite memset_drop by lia. rewrite take_ge in Hc by lia.
    eapply wp_from_option; [by apply text_of_app|]. apply wp_bind, wp_print. cbn [sh_hist with_hist app].
    set (r := (URead _ _, _)). set (p := (UPrint _, _)). rewrite <- app_assoc. cbn [app].
    apply wp_bind, (wp_read_buf is_print h' [r; p] (fst fd) contents); [done| |done| | |].
    + apply (quiet_snoc _ _ _ _ (UPrint (contents ++ NL)) Hq). right. by eexists.
    + rewrite length_app. cbn [length]. rewrite length_replicate. lia.
    + intros bs -> Hbs _ _. exfalso. apply Hbs. unfold bytes_read, r, p. cbn. rewrite decide_True by done. by rewrite drop_ge by lia.
    + intros _. apply wp_ret. apply wp_bind, wp_call, wp_ret. split; [by repeat apply arrays_with_hist|]. eexists _, _.
      cbn [sh_hist with_hist]. rewrite <- !app_assoc. reflexivity.
  - rewrite E1. apply bind_Fault. cbn [cat_loop]. apply wp_then, (wp_read_buf is_print h' [] (fst fd) contents); [done|apply quiet_nil|by rewrite app_nil_r|done| |].
    2: { change (bytes_read (fst fd) []) with 0%nat. lia. }
    change (bytes_read (fst fd) []) with 0%nat. rewrite drop_0. intros bs -> _ _ _.
    rewrite (proj2 (Z.eqb_neq _ _)) by lia. apply bind_Fault. rewrite drop_ge, app_nil_r by (rewrite Hb, length_take; lia).
    unfold text_of. by rewrite cstring_none.
Qed.

(** C40: [cat src] of a file of at most 1023 bytes without NULs prints exactly
    the file and a new line, and closes it.  A file with more than that
    before its first NUL leaves no NUL in the array, so the printing runs past
    its end. *)
Theorem cat_prints src line contents fd fuel n s : arrays_ok s -> NUL ∉ line -> (length line <= 1023)%nat ->
  words line = [str "cat"; src] -> src <> redirect false -> src <> redirect true ->
  env (sh_hist s) UReadline = (n, line ++ [NUL]) ->
  let h := sh_hist s ++ [(UReadline, (n, line ++ [NUL]))] in
  env h (UOpen (src ++ [NUL]) FS_RW) = fd -> fst fd <> -1 ->
  let h := h ++ [(UOpen (src ++ [NUL]) FS_RW, fd)] in
  serves is_print h (fst fd) contents -> contents <> [] -> NUL ∉ take 1024 contents ->
  if decide (length contents <= 1023)%nat then
    wp (shell_round env (S (S fuel))) (fun _ s' => arrays_ok s' /\ exists a b, sh_hist s' = h ++
      [(URead (fst fd) 1024, (Z.of_nat (length contents), contents)); (UPrint (contents ++ NL), a);
       (URead (fst fd) 1024, (-1, [])); (UClose (fst fd), b)]) (fun _ => False) s
  else shell_round env (S (S fuel)) s = Fault OutOfBounds.
Proof. apply cat_round_prints. Qed.

(** ** No command *)

(** A line without a word leaves [argv[0]] null, and [do_shell] compares
    the command at address 0. *)
Theorem empty_line line fuel n s : arrays_ok s -> NUL ∉ line -> (length line <= 1023)%nat -> words line = [] ->
  env (sh_hist s) UReadline = (n, line ++ [NUL]) -> shell_round env fuel s = Fault NullPointer.
Proof.
  intros Hs Hn Hl Hw He. apply wp_then, (wp_read_command env n line); [done|done|done|done|rewrite Hw; unfold MAXARGS; simpl; lia|].
  intros s1 rest A1 Ha _ Hh. rewrite Hw in Ha. apply bind_Fault. pose proof (ai_end _ _ Ha) as H0. unfold arg, mbind, M_bind, get.
  cbn iota. change (0 <? 0) with false. cbn iota. change (Z.to_nat 0) with (length (@nil (list byte))). by rewrite H0.
Qed.
End cat.

(** ** Examples *)

Definition demo_file (line contents : string) : history -> ucall -> answer :=
  demo_env (str line) (fun h => next_read (str contents) (bytes_read 3 h)) 7.

Lemma demo_serves other line contents h0 : bytes_read 3 h0 = 0%nat -> serves (demo_file line contents) other h0 3 (str contents).
Proof. intros H h _. cbn. by rewrite bytes_read_app, H. Qed.

Lemma cat_copies_witness :
  wp (shell_round (demo_file "cat a >> b" "some text") 2) (fun _ s' => arrays_ok s') (fun _ => False) shell_start.
Proof.
  eapply wp_mono; [apply (cat_copies (demo_file "cat a >> b" "some text") true (str "a") (str "b") (str "cat a >> b") (str "some text") (3, []) (3, []) 1 10)|by intros ? ? [? _]|done].
  - by split.
  - no_nul.
  - vm_compute; lia.
  - reflexivity.
  - discriminate.
  - discriminate.
  - discriminate.
  - discriminate.
  - reflexivity.
  - reflexivity.
  - discriminate.
  - reflexivity.
  - by apply demo_serves.
  - vm_compute; lia.
Defined.

Lemma cat_prints_witness :
  wp (shell_round (demo_file "cat a" "some text") 2) (fun _ s' => arrays_ok s') (fun _ => False) shell_start.
Proof.
  unshelve epose proof (cat_prints (demo_file "cat a" "some text") (str "a") (str "cat a") (str "some text") (3, []) 0 5 shell_start _ _ _ _ _ _ _ _ _ _ _ _) as H.
  - by split.
  - no_nul.
  - vm_compute; lia.
  - reflexivity.
  - discriminate.
  - discriminate.
  - reflexivity.
  - reflexivity.
  - discriminate.
  - by apply demo_serves.
  - discriminate.
  - no_nul.
  - rewrite decide_True in H by (vm_compute; lia). eapply wp_mono; [apply H|by intros ? ? [? _]|done].
Defined.

(** The same command and a file of 1024 bytes. *)
Example cat_overrun : let file := String.concat "" (replicate 1024 "x"%string) in
  shell_round (demo_file "cat a" file) 2 shell_start = Fault OutOfBounds.
Proof. vm_compute. reflexivity. Qed.

Lemma empty_line_witness : shell_round (demo_file " " "") 1 shell_start = Fault NullPointer.
Proof.
  apply (empty_line (demo_file " " "") (str " ") 1 1).
  - by split.
  - no_nul.
  - vm_compute; lia.
  - reflexivity.
  - reflexivity.
Defined.
