(* ===== verification/ShellFs.v ===== *)
(** * The shell over the file system

    The kernel's answers to the shell's file calls computed by the file
    system of FileSys, through the table of descriptors in the shell's PCB:
    the contracts assumed in ShellCat hold of it, and a file put into the disk
    image by the build is what [cat] prints. *)

From Stdlib Require Import String Ascii.
From S2P Require Import Prelude Bytes Disk FileSys FsRead FsOpen System Fmt FmtProofs FmtImage FmtProps Shell ShellProofs ShellCat.

Section kernel.
Context {D : Type} `{!AtaDevice D}.
(** The answers of the rest of the kernel: keyboard, screen, processes. *)
Context (console : history -> ucall -> answer).

(** The file system and [current->fcb]. *)
Definition kfs : Type := (fsst D * list Z)%type.

Definition on_files {A} (c : M (fsst D) A) : M kfs A := zoom fst (fun f s => (f, snd s)) c.

Definition descriptor (fd : Z) : M kfs Z :=
  s ← get; from_option_or OutOfBounds (if fd <? 0 then None else snd s !! Z.to_nat fd).
Definition set_descriptor (fd v : Z) : M kfs unit :=
  _ ← descriptor fd; modify (fun s => (fst s, <[Z.to_nat fd := v]> (snd s))).

Definition is_file_call (u : ucall) : bool :=
  match u with UOpen _ _ | URead _ _ | UWrite _ _ _ | ULseek _ _ _ | UClose _ => true | _ => false end.

(** The [fs_*_port] functions; the buffer of a read is fresh. *)
Definition serve (u : ucall) : M kfs answer :=
  match u with
  | UOpen pathname flags =>
      fd ← on_files (fs_open_md pathname flags);
      if fd =? -1 then mret (-1, [])
      else
        s ← get;
        let i := first_fcb (snd s) 0 in
        set_descriptor i fd;;
        mret (i, [])
  | URead fd len =>
      if fd =? -1 then mret (-1, [])
      else
        k ← descriptor fd;
        '(r, bs) ← on_files (fs_read_md k (replicate (Z.to_nat len) NUL) len);
        mret (r, take (Z.to_nat r) bs)
  | UWrite fd buf len =>
      if fd =? -1 then mret (-1, []) else k ← descriptor fd; r ← on_files (fs_write_md k buf len); mret (r, [])
  | ULseek fd offset whence =>
      if fd =? -1 then mret (-1, []) else k ← descriptor fd; r ← on_files (fs_lseek_md k offset whence); mret (r, [])
  | UClose fd =>
      if fd =? -1 then mret (-1, [])
      else k ← descriptor fd; r ← on_files (fs_close_md k); set_descriptor fd (-1);; mret (r, [])
  | _ => mret (0, [])
  end.

(** The state after the calls of [h]. *)
Definition served (st : kfs) (p : ucall * answer) : kfs := match serve (fst p) st with Ret _ st' => st' | _ => st end.
Definition after (st : kfs) (h : history) : kfs := foldl served st h.

Definition kernel_env (st : kfs) (h : history) (u : ucall) : answer :=
  if is_file_call u then match serve u (after st h) with Ret a _ => a | _ => (0, []) end else console h u.

Lemma after_app st h1 h2 : after st (h1 ++ h2) = after (after st h1) h2.
Proof. apply foldl_app. Qed.

(** ** Reading a file *)

Lemma first_fcb_spec l i : -1 ∈ l -> exists j, first_fcb l i = i + Z.of_nat j /\ l !! j = Some (-1) /\ (j < length l)%nat.
Proof.
  revert i. induction l as [|v l IH]; intros i H; [by apply elem_of_nil in H|]. cbn [first_fcb]. destruct (Z.eqb_spec v (-1)) as [->|Hv].
  - exists 0%nat. split_and!; [lia|done|simpl; lia].
  - apply elem_of_cons in H as [H|H]; [congruence|]. destruct (IH (i + 1) H) as (j & -> & Hj & Hl).
    exists (S j). split_and!; [lia|done|simpl; lia].
Qed.

(** The file behind descriptor [fd]: its kernel stream stands at [off]. *)
Record stands (d : D) (fd k : Z) (f : FILE_STREAM) (c : list byte) (off : nat) (st : kfs) : Prop := {
  sd_fd : snd st !! Z.to_nat fd = Some k;
  sd_stream : fs_fs (fst st) !! Z.to_nat k = Some (set_offset (Z.of_nat off) f);
  sd_disk : fs_disk (fst st) = d }.

Section reading.
Context (d : D) (fd k : Z) (f : FILE_STREAM) (c : list byte).
Context (Hfd : 0 <= fd) (Hk : 0 <= k) (Hsize : f_file_size f = Z.of_nat (length c)) (Hmax : Z.of_nat (length c) < 65536).
Context (Hbytes : forall off n, (off + n <= length c)%nat -> file_bytes d (inode_of d f) (Z.of_nat off) n = take n (drop off c)).

Lemma serve_read off st : stands d fd k f c off st -> (off <= length c)%nat ->
  exists st', serve (URead fd 1024) st = Ret (next_read c off) st' /\
    stands d fd k f c (off + if decide (off < length c)%nat then Z.to_nat (fst (next_read c off)) else 0) st'.
Proof using Hfd Hk Hsize Hmax Hbytes.
  intros [H1 H2 H3] Hoff. destruct st as [s fcb]. cbn [fst snd] in *.
  set (f1 := set_offset (Z.of_nat off) f). assert (Hlen : read_len f1 1024 = Z.min 1024 (Z.of_nat (length c) - Z.of_nat off)) by (unfold read_len; cbn; by rewrite Hsize).
  cut (wp (serve (URead fd 1024)) (fun a st' => a = next_read c off /\
    stands d fd k f c (off + if decide (off < length c)%nat then Z.to_nat (fst (next_read c off)) else 0) st') (fun _ => False) (s, fcb)).
  { unfold wp. destruct (serve _ _) as [a st'| |]; [|done|done]. intros [-> H]. by exists st'. }
  cbn [serve]. rewrite (proj2 (Z.eqb_neq fd (-1))) by lia. apply wp_bind. unfold descriptor. apply wp_bind, wp_get. cbn [snd].
  rewrite (proj2 (Z.ltb_ge _ _)) by lia. eapply wp_from_option; [exact H1|]. apply wp_bind.
  assert (Hz : forall (Q : Z * list byte -> kfs -> Prop), wp (fs_read_md k (replicate (Z.to_nat 1024) NUL) 1024) (fun a s' => Q a (s', fcb)) (fun _ => False) s ->
     wp (on_files (fs_read_md k (replicate (Z.to_nat 1024) NUL) 1024)) Q (fun _ => False) (s, fcb)).
  { intros Q. unfold wp, on_files, zoom. cbn [fst snd]. by destruct (fs_read_md _ _ _ s). }
  apply Hz. clear Hz. unfold fs_read_md. set (buf := replicate (Z.to_nat 1024) NUL). assert (Hb : length buf = 1024%nat) by apply length_replicate.
  apply (wp_fs_read k f1); rewrite ?Hlen, ?Hb; [done|exact H2|cbn; lia|cbn; lia|lia|lia|lia| |].
  - intros H0. apply wp_ret. unfold next_read. rewrite !decide_False by lia. rewrite Nat.add_0_r. split; [done|by split].
  - intros s' Hpos [b ->]. apply wp_ret. unfold next_read. rewrite !decide_True by lia. cbn zeta. cbn [fst].
    change (inode_of (fs_disk s) f1) with (inode_of (fs_disk s) f). rewrite H3. change (f_offset f1) with (Z.of_nat off).
    set (n := Z.to_nat (Z.min 1024 (Z.of_nat (length c) - Z.of_nat off))).
    rewrite Hbytes by lia. set (bs := take 1024 (drop off c)).
    assert (Ebs : take n (drop off c) = bs).
    { unfold bs. destruct (decide (1024 <= length c - off)%nat); [by replace n with 1024%nat by lia|]. rewrite !take_ge; [done| |]; rewrite length_drop; lia. }
    assert (Hlb : Z.of_nat (length bs) = Z.min 1024 (Z.of_nat (length c) - Z.of_nat off)) by (unfold bs; rewrite length_take, length_drop; lia).
    rewrite Ebs, Hlb. fold n. split.
    + f_equal. unfold splice. rewrite take_0, app_nil_l. replace n with (length bs) by lia. apply take_app_length.
    + split; cbn [fst snd fs_fs with_fs fs_disk]; [done| |done]. rewrite list_lookup_insert_eq by (by eapply lookup_lt_Some). f_equal.
      unfold f1, set_offset. cbn. f_equal. lia.
Qed.

(** The contract of [serves] holds of the file system. *)
Lemma serves_kernel other st h0 : (forall u, other u -> is_file_call u = false) -> stands d fd k f c 0 (after st h0) ->
  serves (kernel_env st) other h0 fd c.
Proof using Hfd Hk Hsize Hmax Hbytes.
  intros Ho H0. assert (Hall : forall h, quiet (kernel_env st) other h0 fd h ->
    (bytes_read fd h <= length c)%nat /\ stands d fd k f c (bytes_read fd h) (after st (h0 ++ h))).
  { intros h. induction h as [|[u a] h IH] using rev_ind; intros Hq; [rewrite app_nil_r; split; [simpl; lia|exact H0]|].
    apply quiet_inv in Hq as (Hq & Ha & Hu). cbn [fst snd] in *. destruct (IH Hq) as [Hle Hst].
    rewrite app_assoc, after_app, bytes_read_app. cbn [after foldl]. unfold served. cbn [fst]. destruct Hu as [->|Hu].
    - destruct (serve_read _ _ Hst Hle) as (st' & E & Hst'). rewrite E.
      assert (a = next_read c (bytes_read fd h)) as -> by (rewrite Ha; unfold kernel_env; cbn [is_file_call]; by rewrite E).
      assert (Hb : bytes_read fd [(URead fd 1024, next_read c (bytes_read fd h))] =
        if decide (bytes_read fd h < length c)%nat then Z.to_nat (fst (next_read c (bytes_read fd h))) else 0%nat).
      { destruct (next_read c (bytes_read fd h)) as [l bs] eqn:En. rewrite bytes_read_one. cbn [fst].
        unfold next_read in En. case_decide; [done|]. by injection En as <- _. }
      rewrite Hb. split; [|exact Hst']. case_decide as Hlt; [|lia]. unfold next_read. rewrite decide_True by done. cbn [fst].
      rewrite Nat2Z.id, length_take, length_drop. lia.
    - apply Ho in Hu. assert (Hb : bytes_read fd [(u, a)] = 0%nat) by (by destruct u).
      rewrite Hb, Nat.add_0_r. split; [done|]. by destruct u. }
  intros h Hq. destruct (Hall h Hq) as [Hle Hst]. unfold kernel_env. cbn [is_file_call].
  destruct (serve_read _ _ Hst Hle) as (st' & E & _). by rewrite E.
Qed.
End reading.

(** ** Opening a file *)

Lemma serve_open_run pathname flags s fcb k s1 : fs_open_md pathname flags s = Ret k s1 -> 0 <= k -> -1 ∈ fcb ->
  exists j, (j < length fcb)%nat /\ serve (UOpen pathname flags) (s, fcb) = Ret (Z.of_nat j, []) (s1, <[j := k]> fcb).
Proof.
  intros E Hk Hfcb. destruct (first_fcb_spec fcb 0 Hfcb) as (j & Ej & Hj & Hjl). rewrite Z.add_0_l in Ej. exists j. split; [done|].
  cbn [serve]. assert (E1 : on_files (fs_open_md pathname flags) (s, fcb) = Ret k (s1, fcb)) by (unfold on_files, zoom; cbn [fst snd]; by rewrite E).
  rewrite (bind_Ret _ _ _ _ _ E1), (proj2 (Z.eqb_neq k (-1))) by lia. cbn iota.
  rewrite (bind_Ret get _ (s1, fcb) (s1, fcb) (s1, fcb) eq_refl). cbn zeta. cbn [snd]. rewrite Ej. unfold set_descriptor, descriptor, mbind, M_bind, get.
  cbn [snd]. rewrite (proj2 (Z.ltb_ge _ _)), Nat2Z.id by lia. by rewrite Hj.
Qed.

Lemma serve_open (img : list byte) files i nm c st : image_of img files -> files_ok files -> drive_holds (fs_disk (fst st)) img ->
  files !! i = Some (nm, c) -> Z.of_nat (length c) < 65536 -> table_ok (fst st) ->
  (exists j f, fs_fs (fst st) !! j = Some f /\ stream_free f = true) -> -1 ∈ snd st ->
  exists fd st' k f, serve (UOpen (nm ++ [NUL]) FS_RW) st = Ret (fd, []) st' /\ 0 <= fd /\ 0 <= k /\ f_file_size f = Z.of_nat (length c) /\
    (forall off n, (off + n <= length c)%nat -> file_bytes (fs_disk (fst st)) (inode_of (fs_disk (fst st)) f) (Z.of_nat off) n = take n (drop off c)) /\
    stands (fs_disk (fst st)) fd k f c 0 st'.
Proof.
  intros HI HF HD Hi Hl Ht Hfree Hfcb. destruct st as [s fcb]. cbn [fst snd] in *.
  assert (H : wp (fs_open_md (nm ++ [NUL]) FS_RW) (fun k s' => 0 <= k /\ exists f, fs_fs s' !! Z.to_nat k = Some f /\ fs_disk s' = fs_disk s /\ f_offset f = 0 /\
     f_inode_offset f = Z.of_nat i /\ f_file_size f = Z.of_nat (length c)) (fun _ => False) s).
  { unfold fs_open_md. apply wp_bind, (wp_kernel_open (fs_disk s) img files HI HF HD i nm c); [done..|].
    intros k f s' H1 H2 H3 H4 H5 H6. apply wp_bind. rewrite bool_decide_false by lia. apply wp_ret, wp_bind. rewrite decide_False by done.
    apply wp_ret, wp_ret. split; [done|]. by exists f. }
  unfold wp in H. destruct (fs_open_md (nm ++ [NUL]) FS_RW s) as [k s1| |] eqn:E; [|done|done].
  destruct H as (Hk & f & F1 & F2 & F3 & F4 & F5). destruct (serve_open_run _ _ _ _ _ _ E Hk Hfcb) as (j & Hjl & E1).
  exists (Z.of_nat j), (s1, <[j := k]> fcb), k, f. split_and!.
  - exact E1.
  - lia.
  - done.
  - done.
  - intros off n Hn. by apply (kernel_slice (fs_disk s) img files HI HF HD i nm c f off n).
  - split; cbn [fst snd]; [|rewrite F1; f_equal; transitivity (set_offset (f_offset f) f); [by destruct f|by rewrite F3]|done]. rewrite Nat2Z.id. by apply list_lookup_insert_eq.
Qed.

(** ** [cat] *)

(** Where opening gives a stream of the contents, [cat] prints them. *)
Lemma wp_cat_kernel nm c st0 sh n fuel fd st' d k f (line := str "cat " ++ nm) : wordy nm -> NUL ∉ nm -> (length nm <= 23)%nat ->
  nm <> redirect false -> nm <> redirect true -> c <> [] -> (length c <= 1023)%nat -> NUL ∉ c ->
  serve (UOpen (nm ++ [NUL]) FS_RW) (after st0 (sh_hist sh)) = Ret (fd, []) st' -> 0 <= fd -> 0 <= k -> f_file_size f = Z.of_nat (length c) ->
  (forall off n, (off + n <= length c)%nat -> file_bytes d (inode_of d f) (Z.of_nat off) n = take n (drop off c)) -> stands d fd k f c 0 st' ->
  arrays_ok sh -> kernel_env st0 (sh_hist sh) UReadline = (n, line ++ [NUL]) ->
  wp (shell_round (kernel_env st0) (S (S fuel))) (fun _ sh' => arrays_ok sh' /\ exists a, (UPrint (c ++ NL), a) ∈ sh_hist sh') (fun _ => False) sh.
Proof.
  intros Hws M3 M2 N1 N2 Hc0 Hl Hc E1 Hfd Hk Hsz Hb Hst Hsh He.
  set (h := sh_hist sh ++ [(UReadline, (n, line ++ [NUL]))]). assert (Eh : after st0 h = after st0 (sh_hist sh)) by (unfold h; by rewrite after_app).
  assert (Eo : kernel_env st0 h (UOpen (nm ++ [NUL]) FS_RW) = (fd, [])) by (unfold kernel_env; cbn [is_file_call]; by rewrite Eh, E1).
  unshelve epose proof (cat_round_prints (kernel_env st0) nm line c (fd, []) fuel n sh Hsh _ _ _ N1 N2 He Eo _ _ Hc0 _) as H.
  - unfold line. rewrite not_elem_of_app. split; [no_nul|done].
  - unfold line. rewrite length_app. change (length (str "cat ")) with 4%nat. lia.
  - unfold line. change (str "cat ") with (str "cat" ++ [SP]). rewrite <- app_assoc. cbn [app].
    rewrite words_sep by done. rewrite words_one by (split; [done|by repeat constructor]). by rewrite words_one.
  - cbn. lia.
  - apply (serves_kernel d fd k f); try done; [lia|intros u [t ->]; done|].
    fold h. rewrite after_app, Eh. cbn [after foldl]. unfold served. cbn [fst]. by rewrite E1.
  - intros Hn. apply Hc. by apply (subseteq_take 1024 c).
  - rewrite decide_True in H by done. eapply wp_mono; [exact H| |done]. intros _ sh' (A & a & b & ->). split; [done|]. exists a.
    apply elem_of_app. right. right. left.
Qed.

(** C37: from the build to the screen: a text file of at most 1023 bytes that
    the build put into the disk image is printed, byte for byte, when its name
    is typed after [cat]. *)
Theorem cat_image_file boot files i nm c : files_ok files -> files !! i = Some (nm, c) -> c <> [] -> (length c <= 1023)%nat -> NUL ∉ c ->
  Forall (fun x => is_ws x = false) nm -> nm <> redirect false -> nm <> redirect true ->
  exists img, make_image boot files = Some img /\
    forall st0 sh n fuel (line := str "cat " ++ nm), let st := after st0 (sh_hist sh) in
      drive_holds (fs_disk (fst st)) img -> table_ok (fst st) -> (exists j f, fs_fs (fst st) !! j = Some f /\ stream_free f = true) -> -1 ∈ snd st ->
      arrays_ok sh -> kernel_env st0 (sh_hist sh) UReadline = (n, line ++ [NUL]) ->
      wp (shell_round (kernel_env st0) (S (S fuel))) (fun _ sh' => arrays_ok sh' /\ exists a, (UPrint (c ++ NL), a) ∈ sh_hist sh') (fun _ => False) sh.
Proof.
  intros HF Hi Hc0 Hl Hc Hws N1 N2. destruct (make_image_spec boot files HF) as (img & E & HI & _). exists img. split; [exact E|].
  intros st0 sh n fuel line st HD Ht Hfree Hfcb Hsh He.
  assert (Hin : (nm, c) ∈ files) by (by apply list_elem_of_lookup_2 with i). destruct (fk_names _ HF _ _ Hin) as [[M1 M2 M3] _].
  destruct (serve_open img files i nm c st) as (fd & st' & k & f & E1 & Hfd & Hk & Hsz & Hb & Hst); [done..|lia|done|done|done|].
  by apply (wp_cat_kernel nm c st0 sh n fuel fd st' (fs_disk (fst st)) k f); try done; lia.
Qed.
End kernel.

(** ** An example: the image of FmtProps, "cat a" *)

Definition demo_console (h : history) (u : ucall) : answer :=
  match u with UReadline => (5, str "cat a" ++ [NUL]) | _ => (0, []) end.

Lemma cat_image_file_witness : exists img, make_image [] demo_files = Some img /\
  wp (shell_round (kernel_env demo_console (demo_kernel_fs img, replicate 256 (-1))) 2)
    (fun _ sh' => exists a, (UPrint (byte.of_Z 9 :: NL), a) ∈ sh_hist sh') (fun _ => False) shell_start.
Proof.
  destruct (cat_image_file demo_console (D := gmap Z (list Z)) [] demo_files 1 [byte.of_Z 0x61] [byte.of_Z 9] demo_files_ok) as (img & E & H).
  - reflexivity.
  - discriminate.
  - simpl. lia.
  - no_nul.
  - by repeat constructor.
  - discriminate.
  - discriminate.
  - exists img. split; [exact E|]. destruct (make_image_spec [] demo_files demo_files_ok) as (img' & E' & [Hok _ _ _ _ _ _ _] & _).
    pose proof (eq_trans (eq_sym E) E') as [= <-]. destruct (demo_table img) as [Ht Hf].
    eapply wp_mono; [apply (H (demo_kernel_fs img, replicate 256 (-1)) shell_start 5 0%nat)| |done].
    + exact (drive_of_holds _ Hok).
    + exact Ht.
    + exact Hf.
    + left.
    + by split.
    + reflexivity.
    + by intros ? ? [_ ?].
Defined.
