(* ===== verification/ShellPorts.v ===== *)
(** * The file calls of the shell are the kernel's

    [serve] of ShellFs, which the shell's theorems use, and the [fs_*_port]
    functions of System, which the dispatcher calls, do the same. *)

From Stdlib Require Import String Ascii.
From S2P Require Import Prelude Bytes Disk Proc DemoProc FileSys FsRead DemoFs Pmap PmapProps EntryPgdir Readline Video Descr System Shell ShellFs.

Section ports.
Context {D : Type} `{!AtaDevice D}.
Implicit Types (s : sys D) (st : kfs (D := D)).

(** The running process has the descriptors and the files of [st]. *)
Record sees s (i : nat) st : Prop := {
  se_current : k_current (y_k s) = Some i;
  se_pcb : exists c, k_PCBPool (y_k s) !! i = Some c /\ p_fcb c = snd st;
  se_fs : y_fs s = fst st }.

Definition port (addr : Z) (u : ucall) : M (sys D) Z :=
  match u with
  | UOpen pathname flags => fs_open_port pathname flags
  | UWrite fd _ len => fs_write_port fd addr len
  | ULseek fd offset whence => fs_lseek_port fd offset whence
  | UClose fd => fs_close_port fd
  | _ => mret 0
  end.

(** The outcome of [c] in [s] is what [c'] gives in what [s] sees. *)
Definition agrees {A B} (R : A -> B -> Prop) (i : nat) (c : M (sys D) A) (c' : M kfs B) : Prop :=
  forall s st b st', sees s i st -> c' st = Ret b st' -> exists a s', c s = Ret a s' /\ R a b /\ sees s' i st' /\ y_mm s' = y_mm s.

Lemma agrees_ret {A B} (R : A -> B -> Prop) i a b : R a b -> agrees R i (mret a) (mret b).
Proof. intros HR s st b' st' Hs [= <- <-]. by exists a, s. Qed.

Lemma agrees_bind {A B A' B'} (R : A -> B -> Prop) (R' : A' -> B' -> Prop) i c c' k k' :
  agrees R i c c' -> (forall a b, R a b -> agrees R' i (k a) (k' b)) -> agrees R' i (c ≫= k) (c' ≫= k').
Proof.
  intros H Hk s st b st' Hs E. unfold mbind, M_bind in E. destruct (c' st) as [b1 st1| |] eqn:E1; [|done|done].
  destruct (H s st b1 st1 Hs E1) as (a1 & s1 & E2 & HR & Hs1 & Hm1). destruct (Hk a1 b1 HR s1 st1 b st' Hs1 E) as (a & s' & E3 & HR' & Hs' & Hm).
  exists a, s'. rewrite (bind_Ret _ _ _ _ _ E2). split_and!; [done..|congruence].
Qed.

Lemma agrees_fs {A} i (c : M (fsst D) A) : agrees eq i (on_fs c) (on_files c).
Proof.
  intros s [f fcb] b st' [H1 H2 H3] E. unfold on_files, zoom in E. cbn [fst snd] in *. unfold on_fs, part. rewrite H3.
  destruct (c f) as [a f'| |]; [|done|done]. injection E as <- <-. exists a, (with_fsst f' s). split_and!; [done|done| |done]. by split.
Qed.

Lemma run_get i fd s st b st' : sees s i st -> descriptor fd st = Ret b st' -> on_k (fcb_get fd) s = Ret b s /\ st' = st.
Proof.
  intros [H1 (c & H2 & H2') H3] E. unfold descriptor, mbind, M_bind, get in E. unfold on_k, zoom, fcb_get, current_pcb, gets, mbind, M_bind.
  rewrite H1, (get_pcb_run _ _ _ H2), H2'. destruct (fd <? 0); [done|]. destruct (snd st !! Z.to_nat fd); [|done]. injection E as <- <-.
  cbn. split; [by destruct s|done].
Qed.

Lemma agrees_get i fd : agrees eq i (on_k (fcb_get fd)) (descriptor fd).
Proof. intros s st b st' Hs E. destruct (run_get _ _ _ _ _ _ Hs E) as [H ->]. by exists b, s. Qed.

Lemma agrees_set i fd v : agrees eq i (on_k (fcb_set fd v)) (set_descriptor fd v).
Proof.
  intros s st b st' [H1 (c & H2 & H2') H3] E. unfold set_descriptor, descriptor, modify, mbind, M_bind, get in E.
  unfold on_k, zoom, fcb_set, current_pcb, gets, mbind, M_bind. rewrite H1, (get_pcb_run _ _ _ H2), H2'. cbn beta iota.
  destruct (Z.ltb_spec fd 0) as [Hlt|Hge]; [done|]. destruct (snd st !! Z.to_nat fd) eqn:El; [|done]. injection E as <- <-.
  pose proof (lookup_lt_Some _ _ _ El). rewrite (proj2 (Z.leb_le _ _)), (proj2 (Z.ltb_lt _ _)) by lia. cbn [andb].
  rewrite H1, (upd_pcb_run _ _ c) by done. eexists tt, _. split; [reflexivity|]. split; [done|]. split; [|done].
  split; cbn [snd fst]; [done| |done]. unfold kset_pcb. cbn [y_k with_k k_PCBPool Proc.with_PCBPool]. rewrite list_lookup_alter_eq.
  exists (with_fcb (<[Z.to_nat fd := v]> (snd st)) c). rewrite H2. split; [|done]. cbn. by rewrite H2'.
Qed.

Lemma agrees_current i : agrees (fun c st => p_fcb c = snd st) i (on_k current_pcb) (get (S := kfs)).
Proof.
  intros s st b st' [H1 (c & H2 & H2') H3] E. injection E as <- <-. exists c, s. unfold on_k, zoom, current_pcb, gets, mbind, M_bind.
  rewrite H1, (get_pcb_run _ _ _ H2). split_and!; [by destruct s|done|split; eauto|done].
Qed.

Definition result (r : Z) (a : answer) : Prop := r = fst a.

Lemma agrees_open i pathname flags : agrees result i (fs_open_port pathname flags) (serve (UOpen pathname flags)).
Proof.
  eapply agrees_bind; [apply agrees_fs|]. intros fd ? <-. destruct (fd =? -1); [by apply agrees_ret|].
  eapply agrees_bind; [apply agrees_current|]. intros c st Hc. cbn zeta beta in *. rewrite Hc.
  eapply agrees_bind; [apply agrees_set|]. intros ? ? _. by apply agrees_ret.
Qed.

Lemma agrees_last i (c : M (fsst D) Z) : agrees result i (on_fs c) (r ← on_files c; mret (r, [])).
Proof.
  intros s st b st' Hs E. unfold mbind, M_bind in E. destruct (on_files c st) as [r st1| |] eqn:E1; [|done|done]. injection E as <- <-.
  destruct (agrees_fs i c s st r st1 Hs E1) as (r' & s' & E2 & -> & H). by exists r, s'.
Qed.

Lemma agrees_lseek i fd offset whence : agrees result i (fs_lseek_port fd offset whence) (serve (ULseek fd offset whence)).
Proof.
  unfold fs_lseek_port. cbn [serve]. destruct (fd =? -1); [by apply agrees_ret|].
  eapply agrees_bind; [apply agrees_get|]. intros k ? <-. apply agrees_last.
Qed.

Lemma agrees_close i fd : agrees result i (fs_close_port fd) (serve (UClose fd)).
Proof.
  unfold fs_close_port. cbn [serve]. destruct (fd =? -1); [by apply agrees_ret|].
  eapply agrees_bind; [apply agrees_get|]. intros k ? <-. eapply agrees_bind; [apply agrees_fs|]. intros r ? <-.
  eapply agrees_bind; [apply agrees_set|]. intros ? ? _. by apply agrees_ret.
Qed.

(** What the port finds at the address the program gives it. *)
Definition buffer_at s (addr : Z) (u : ucall) : Prop :=
  match u with UWrite _ buf len => readable (Z.to_nat len) s addr = buf | URead _ _ => False | _ => is_file_call u = true end.


(** ** Reading: the same bytes whatever the buffer held *)

Definition alike {S A B} (R : A -> B -> Prop) (c : M S A) (c' : M S B) : Prop :=
  forall t, match c t, c' t with
            | Ret a t1, Ret b t2 => R a b /\ t1 = t2
            | Jump t1, Jump t2 => t1 = t2
            | Fault _, Fault _ => True
            | _, _ => False
            end.

Lemma alike_eq {S A} (c : M S A) : alike eq c c.
Proof. intros t. by destruct (c t). Qed.
Lemma alike_ret {S A B} (R : A -> B -> Prop) a b : R a b -> alike (S := S) R (mret a) (mret b).
Proof. intros H t. by split. Qed.
Lemma alike_bind {S A B A' B'} (R : A -> B -> Prop) (R' : A' -> B' -> Prop) (c : M S A) c' k k' :
  alike R c c' -> (forall a b, R a b -> alike R' (k a) (k' b)) -> alike R' (c ≫= k) (c' ≫= k').
Proof.
  intros H Hk t. specialize (H t). unfold mbind, M_bind. destruct (c t), (c' t); try done. destruct H as [H ->]. by apply Hk.
Qed.
Lemma alike_memcpy2 b1 b2 doff src soff len : length b1 = length b2 ->
  alike (S := fsst D) (fun c1 c2 => length c1 = length c2) (from_option_or OutOfBounds (memcpy2 b1 doff src soff len)) (from_option_or OutOfBounds (memcpy2 b2 doff src soff len)).
Proof.
  intros Hl t. unfold memcpy2. destruct (cslice soff (u32 len) src) as [bs|]; [|done]. cbn [mbind option_bind].
  unfold csplice. rewrite Hl. destruct (_ && _) eqn:Hc; [|done]. split; [|done]. apply andb_true_iff in Hc as [?%Z.leb_le ?%Z.leb_le].
  rewrite !length_splice; lia.
Qed.

Lemma alike_read_loop fuel fd b1 b2 offset len : length b1 = length b2 ->
  alike (fun p q => length p.1.1 = length q.1.1 /\ p.1.2 = q.1.2 /\ p.2 = q.2) (read_loop fuel fd b1 offset len : M (fsst D) _) (read_loop fuel fd b2 offset len).
Proof.
  revert b1 b2 offset len. induction fuel as [|fuel IH]; intros b1 b2 offset len Hl; [done|]. cbn [read_loop]. destruct (BLOCK_SIZE <=? len); [|by apply alike_ret].
  eapply alike_bind; [apply alike_eq|]. intros f ? <-. eapply alike_bind; [apply alike_eq|]. intros b ? <-.
  eapply alike_bind; [apply alike_eq|]. intros [] [] _. eapply alike_bind; [apply alike_eq|]. intros f' ? <-.
  eapply alike_bind; [by apply alike_memcpy2|]. intros c1 c2 Hc. eapply alike_bind; [apply alike_eq|]. intros [] [] _. by apply IH.
Qed.

Lemma alike_read fd b1 b2 len : length b1 = length b2 ->
  alike (fun p q => p.1 = q.1) (fs_read_kr fd b1 len : M (fsst D) _) (fs_read_kr fd b2 len).
Proof.
  intros Hl. unfold fs_read_kr. eapply alike_bind; [apply alike_eq|]. intros f ? <-. cbn zeta. set (n := if f_file_size f <=? _ then _ else _).
  case_decide; [by apply alike_ret|]. apply (alike_bind (fun c1 c2 => length c1 = length c2)); [|intros; by apply alike_ret].
  unfold fs_read_base_kr. eapply alike_bind; [apply alike_eq|]. intros f1 ? <-. eapply alike_bind; [apply alike_eq|]. intros [] [] _. cbn zeta.
  set (r := f_offset f1 mod BLOCK_SIZE). destruct (BLOCK_SIZE <? u32 (r + n)).
  - eapply alike_bind; [apply alike_eq|]. intros b ? <-. eapply alike_bind; [apply alike_eq|]. intros [] [] _.
    eapply alike_bind; [apply alike_eq|]. intros f' ? <-. eapply alike_bind; [by apply alike_memcpy2|]. intros c1 c2 Hc.
    eapply alike_bind; [apply alike_eq|]. intros [] [] _. eapply alike_bind; [by apply alike_read_loop|].
    intros [[d1 o1] l1] [[d2 o2] l2] (Hd & Ho & Hn). cbn [fst snd] in *. subst o2 l2. eapply alike_bind; [apply alike_eq|]. intros f2 ? <-.
    eapply alike_bind; [apply alike_eq|]. intros b' ? <-. eapply alike_bind; [apply alike_eq|]. intros [] [] _.
    eapply alike_bind; [apply alike_eq|]. intros f'' ? <-. eapply alike_bind; [by apply alike_memcpy2|]. intros e1 e2 He.
    eapply alike_bind; [apply alike_eq|]. intros [] [] _. by apply alike_ret.
  - eapply alike_bind; [apply alike_eq|]. intros b ? <-. eapply alike_bind; [apply alike_eq|]. intros [] [] _.
    eapply alike_bind; [apply alike_eq|]. intros f' ? <-. eapply alike_bind; [by apply alike_memcpy2|]. intros c1 c2 Hc.
    eapply alike_bind; [apply alike_eq|]. intros [] [] _. by apply alike_ret.
Qed.

(** the dispatcher's [read], run in the kernel on a file that is open and
    a buffer that is mapped, gives the answer of the shell's model of the
    kernel, leaves the same files, and stores the bytes of that answer at the
    start of the buffer. *)
Theorem read_port_serves i fd addr len k f s st r bs st' : sees s i st -> 0 <= fd -> 0 <= k -> 0 <= len < 2 ^ 31 ->
  snd st !! Z.to_nat fd = Some k -> fs_fs (fst st) !! Z.to_nat k = Some f -> 0 <= f_offset f <= f_file_size f -> f_file_size f < 65536 ->
  length (readable (Z.to_nat len) s addr) = Z.to_nat len -> serve (URead fd len) st = Ret (r, bs) st' ->
  exists s', sees s' i st' /\ y_mm s' = y_mm s /\
    fs_read_port fd addr len s = (ustores addr (splice 0 bs (readable (Z.to_nat len) s addr));; mret r) s'.
Proof.
  intros Hs Hfd Hk Hlen Hd Hf Hoff Hsz Hb E. cbn [serve] in E. rewrite (proj2 (Z.eqb_neq fd (-1))) in E by lia.
  assert (Ed : descriptor fd st = Ret k st).
  { unfold descriptor, mbind, M_bind, get. rewrite (proj2 (Z.ltb_ge _ _)) by lia. by rewrite Hd. }
  rewrite (bind_Ret _ _ _ _ _ Ed) in E. destruct (run_get _ _ _ _ _ _ Hs Ed) as [Eg _].
  unfold fs_read_port. rewrite (proj2 (Z.eqb_neq fd (-1))) by lia. rewrite (bind_Ret _ _ _ _ _ Eg), (bind_Ret get _ s s s eq_refl).
  set (buf := readable (Z.to_nat len) s addr) in *. destruct st as [fs fcb]. cbn [fst snd] in *. pose proof (se_fs _ _ _ Hs) as Hfs. cbn [fst] in Hfs.
  assert (Hw : forall b, length b = Z.to_nat len -> exists fs', fs_read_md k b len fs =
     Ret (if decide (read_len f len = 0) then (-1, b) else (read_len f len, splice 0 (file_bytes (fs_disk fs) (inode_of (fs_disk fs) f) (f_offset f) (Z.to_nat (read_len f len))) b)) fs').
  { intros b Hlb. assert (H : wp (fs_read_md k b len) (fun a _ => a = if decide (read_len f len = 0) then (-1, b)
      else (read_len f len, splice 0 (file_bytes (fs_disk fs) (inode_of (fs_disk fs) f) (f_offset f) (Z.to_nat (read_len f len))) b)) (fun _ => False) fs).
    { apply (wp_fs_read k f); [done|done|lia|lia|lia|unfold read_len; lia|lia| |]; [intros H0; by rewrite decide_True|].
      intros s' Hpos _. by rewrite decide_False by lia. }
    unfold wp in H. destruct (fs_read_md k b len fs) as [a fs'| |]; [|done|done]. subst a. by exists fs'. }
  destruct (Hw buf Hb) as [f1 E1]. destruct (Hw (replicate (Z.to_nat len) NUL)) as [f2 E2]; [apply length_replicate|].
  pose proof (alike_read k buf (replicate (Z.to_nat len) NUL) len ltac:(by rewrite length_replicate) fs) as Ha.
  change (fs_read_kr k) with (fs_read_md k) in Ha. rewrite E1, E2 in Ha. destruct Ha as [_ ->].
  assert (E1' : on_fs (fs_read_md k buf len) s = Ret (if decide (read_len f len = 0) then (-1, buf) else (read_len f len,
     splice 0 (file_bytes (fs_disk fs) (inode_of (fs_disk fs) f) (f_offset f) (Z.to_nat (read_len f len))) buf)) (with_fsst f2 s)).
  { unfold on_fs, part. by rewrite Hfs, E1. }
  rewrite (bind_Ret _ _ _ _ _ E1').
  unfold mbind at 1, M_bind at 1 in E. unfold on_files, zoom in E. cbn [fst snd] in E. rewrite E2 in E.
  exists (with_fsst f2 s). split; [|split; [done|]].
  { destruct Hs as [S1 S2 _]. destruct (decide (read_len f len = 0)); injection E as <- <- <-; by split. }
  case_decide as H0; injection E as <- <- <-.
  - cbn [Z.to_nat]. unfold splice at 1. rewrite !take_0. cbn [length app]. done.
  - do 2 f_equal. unfold splice at 3. rewrite take_0, app_nil_l.
    assert (Hn : (Z.to_nat (read_len f len) <= Z.to_nat len)%nat) by (unfold read_len; lia).
    rewrite take_app_length'; [done|by rewrite length_file_bytes].
Qed.
End ports.

(** ** Examples *)

(** A process with the file of DemoFs as its descriptor 0, in memory that the
    entry tables map. *)
Definition demo_ports : sys (gmap Z (list Z)) :=
  mkSys (kset_pcb 1 (with_fcb [0; -1]) demo) (Pmap.with_mem demo_entry_mem (demo_mm 0x501)) (with_bitmap [] demo_fs) demo_kb demo_screen 0x102000 demo_desc [] [].
Definition demo_st : kfs (D := gmap Z (list Z)) := (with_bitmap [] demo_fs, [0; -1]).

Lemma demo_sees : sees demo_ports 1 demo_st.
Proof. split; [done| |done]. by exists (with_fcb [0; -1] (demo_pcb 1 2 RUNNING USER 3)). Qed.

Definition after_call (u : ucall) : kfs := match serve u demo_st with Ret _ st => st | _ => demo_st end.


Lemma read_port_serves_witness : exists s', fs_read_port 0 0x200000 4 demo_ports =
  (ustores 0x200000 (splice 0 (byte.of_Z <$> [0x61; 0x62; 0x63; 0x64]) (readable (Z.to_nat 4) demo_ports 0x200000));; mret 4) s'.
Proof.
  destruct (read_port_serves 1 0 0x200000 4 0 demo_file demo_ports demo_st 4 (byte.of_Z <$> [0x61; 0x62; 0x63; 0x64]) (after_call (URead 0 4)))
    as (s' & _ & _ & E).
  - apply demo_sees.
  - lia.
  - lia.
  - lia.
  - reflexivity.
  - reflexivity.
  - simpl. lia.
  - simpl. lia.
  - vm_compute. reflexivity.
  - vm_compute. reflexivity.
  - exists s'. exact E.
Defined.
