(* ===== verification/FsCreate.v ===== *)
(** * Opening a file by its name, and creating one

    Which entry a name leads to depends on the first bytes of the entries
    only, so a write, which changes an entry's size, does not change it.
    [fs_create_kr], by which opening a name that no entry has makes an empty
    file: the first free directory entry, the first free inode, and nothing
    else. *)

From S2P Require Import Prelude Bytes Disk FileSys FsRead FsWrite FsAlloc FsGrow FsWriteKr FsOpen DemoFs Fmt FmtProofs FmtImage.

(** ** Names and writes *)

Lemma strcmp_prefix l nm : NUL ∉ nm -> (length nm < length l)%nat ->
  exists z, strcmp l (nm ++ [NUL]) = Some z /\ (z = 0 <-> take (S (length nm)) l = nm ++ [NUL]).
Proof.
  revert l. induction nm as [|x nm IH]; intros [|y l] Hn Hl; cbn [length] in Hl; try lia.
  - cbn [strcmp app take length]. destruct (Byte.eqb y NUL) eqn:E; cbn [negb andb].
    + apply byte_eqb_eq in E as ->. exists 0. done.
    + eexists. split; [reflexivity|]. apply byte_eqb_neq in E. rewrite take_0. split; [|congruence].
      intros H. destruct E. apply byte.unsigned_inj. lia.
  - apply not_elem_of_cons in Hn as [Hx Hn]. cbn [strcmp app length]. destruct (Byte.eqb y x) eqn:E.
    + apply byte_eqb_eq in E as ->. rewrite (proj2 (byte_eqb_neq x NUL)) by congruence. cbn [negb andb].
      destruct (IH l Hn ltac:(lia)) as (z & Hz & Hi). exists z. split; [done|]. rewrite Hi. rewrite (firstn_cons (S (length nm)) x l).
      split; [by intros ->|by intros [= ->]].
    + rewrite andb_false_r. eexists. split; [reflexivity|]. apply byte_eqb_neq in E. rewrite firstn_cons. split.
      * intros H. destruct E. apply byte.unsigned_inj. lia.
      * intros [= ? _]. congruence.
Qed.

(** The name at the start of an entry. *)
Definition bears (dir : list byte) (e : nat) (nm : list byte) : Prop := slice (ent_filename e) (S (length nm)) dir = nm ++ [NUL].
#[global] Instance bears_dec dir e nm : Decision (bears dir e nm).
Proof. unfold bears. apply _. Defined.

Lemma name_is_bears nm dir e : name_ok nm -> length dir = 512%nat -> (e < 16)%nat -> name_is (nm ++ [NUL]) dir e = Some (bool_decide (bears dir e nm)).
Proof.
  intros [_ Hs Hn] Hl He. destruct (ent_bounds e He) as (B1 & _). unfold name_is.
  destruct (strcmp_prefix (drop (ent_filename e) dir) nm Hn) as (z & -> & Hz); [rewrite length_drop; lia|].
  cbn. f_equal. by apply bool_decide_ext.
Qed.

(** The size in an entry is not part of any name. *)
Lemma bears_wr32 dir e e' v nm : (length nm <= 23)%nat -> length dir = 512%nat -> (e < 16)%nat -> (e' < 16)%nat ->
  bears (wr32 (ent_file_size e) v dir) e' nm <-> bears dir e' nm.
Proof.
  intros Hs Hl He He'. destruct (ent_bounds e He) as (B1 & B2 & _ & _). destruct (ent_bounds e' He') as (C1 & _).
  unfold bears, wr32. rewrite slice_splice_ne; [done|rewrite length_le_split; lia|]. rewrite length_le_split.
  unfold ent_filename, DIRENT in *. destruct (decide (e' <= e)%nat); lia.
Qed.

Section named.
Context {D : Type} `{!AtaDevice D}.
Implicit Types (d : D) (s : fsst D).

(** The first entry with the name. *)
Record entry_at d (nm : list byte) (k : Z) (e : nat) : Prop := {
  ea_k : 0 <= k < 256;
  ea_e : (e < 16)%nat;
  ea_here : bears (readsect (LOC_DIR k) d) e nm;
  ea_first : forall k' e', 0 <= k' -> (e' < 16)%nat -> entry_lt k' e' k e -> ~ bears (readsect (LOC_DIR k') d) e' nm }.

(** The stream of a file that was opened. *)
Record stream_of (dir : list byte) (k : Z) (e : nat) (size : Z) (f : FILE_STREAM) : Prop := {
  so_offset : f_offset f = 0;
  so_inode : f_inode_offset f = rd32 dir (ent_inode_offset e);
  so_size : f_file_size f = size;
  so_dir : f_dir_offset f = k;
  so_entry : f_entry_offset f = Z.of_nat e;
  so_name : length (f_name f) = 28%nat }.

Lemma wp_open_named nm k e flags s (Q : Z -> fsst D -> Prop) J (dir := readsect (LOC_DIR k) (fs_disk s)) :
  name_ok nm -> entry_at (fs_disk s) nm k e -> table_ok s -> (exists j f, fs_fs s !! j = Some f /\ stream_free f = true) ->
  (forall fd f s', 0 <= fd -> stream_of dir k e (if decide (flags = 2) then 0 else rd32 dir (ent_file_size e)) f ->
     fs_fs s' = <[Z.to_nat fd := f]> (fs_fs s) -> (Z.to_nat fd < length (fs_fs s))%nat -> fs_disk s' = fs_disk s -> fs_bitmap s' = fs_bitmap s -> Q fd s') ->
  wp (fs_open_md (nm ++ [NUL]) flags) Q J s.
Proof.
  intros Hnm [Hk He Hb Hfirst] [Ht1 Ht2] Hfree HQ. pose proof Hnm as [_ Hsh Hnn].
  assert (Hls : forall k', length (readsect (LOC_DIR k') (fs_disk s)) = 512%nat) by (intros; apply length_readsect).
  assert (Htest : forall k' e', (e' < 16)%nat -> entry_test (name_is (nm ++ [NUL])) (fs_disk s) k' e' = Some (bool_decide (bears (readsect (LOC_DIR k') (fs_disk s)) e' nm))).
  { intros k' e' He'. unfold entry_test. by apply name_is_bears. }
  unfold fs_open_md. apply wp_bind. unfold fs_open_kr. apply wp_bind. apply wp_scan_dirs.
  - intros k' e' _ He'. rewrite Htest by done. by eexists.
  - intros k' e' Hk' He' Hte Hall. change NR_ENTRIES with 16%nat in *. change (0 + Z.of_nat SC_DIR) with 256 in Hk'.
    rewrite Htest in Hte by done. injection Hte as Hte. apply bool_decide_eq_true in Hte.
    assert (k' = k /\ e' = e) as [-> ->].
    { destruct (decide (entry_lt k' e' k e)) as [Hlt|Hnlt]; [by destruct (Hfirst k' e' ltac:(lia) He' Hlt)|].
      destruct (decide (entry_lt k e k' e')) as [Hlt|Hnlt'].
      - specialize (Hall k e ltac:(lia) He Hlt). rewrite Htest in Hall by done. injection Hall as Hall. by apply bool_decide_eq_false in Hall.
      - unfold entry_lt in *. assert (k' = k) as -> by lia. split; [done|]. lia. }
    fold dir. fold dir in Hb. destruct (ent_bounds e He) as (B1 & B2 & B3 & B4).
    apply (wp_open_stream _ _ _ _ (nm ++ [NUL])); cbn [fs_fs fs_dir with_dir].
    + done.
    + lia.
    + rewrite Ht1. lia.
    + unfold is_u32. lia.
    + rewrite <- (take_drop (S (length nm)) (drop (ent_filename e) dir)). change (take _ (drop _ dir)) with (slice (ent_filename e) (S (length nm)) dir).
      rewrite Hb, <- app_assoc. by apply cstring_name.
    + rewrite length_app. simpl. lia.
    + intros j f Hj Hf _ _. assert (Hjl : (Z.to_nat j < length (fs_fs s))%nat) by (by eapply lookup_lt_Some).
      assert (Hfl : length (f_name f) = 28%nat) by (by apply (Forall_lookup_1 _ _ _ _ Ht2 Hf)).
      assert (Hnl : length (splice 0 (nm ++ [NUL]) (<[LEN_FILENAME:=byte.of_Z 1]> (f_name f))) = 28%nat).
      { rewrite length_splice; rewrite length_insert; [done|]. rewrite length_app. simpl. lia. }
      rewrite bool_decide_false by lia. apply wp_bind, wp_ret. case_decide as Hfl2.
      * eapply wp_bind, wp_upd_stream; [lia|by apply list_lookup_insert_eq|]. apply wp_ret.
        apply (HQ j (set_file_size 0 (opened dir k e (splice 0 (nm ++ [NUL]) (<[LEN_FILENAME:=byte.of_Z 1]> (f_name f)))))); try done; [lia|].
        cbn [fs_fs with_fs]. by rewrite list_insert_insert_eq.
      * apply wp_bind, wp_ret, wp_ret. by apply (HQ j (opened dir k e (splice 0 (nm ++ [NUL]) (<[LEN_FILENAME:=byte.of_Z 1]> (f_name f))))); try done; lia.
    + intros Hnone. destruct Hfree as (j & f & Hf & Hft). pose proof (lookup_lt_Some _ _ _ Hf) as Hjl. rewrite Ht1 in Hjl.
      rewrite (Hnone (Z.of_nat j) f) in Hft; [done|lia|by rewrite Nat2Z.id].
  - intros Hall. exfalso. specialize (Hall k e ltac:(change (Z.of_nat SC_DIR) with 256; lia) He). rewrite Htest in Hall by done.
    injection Hall as Hall. by apply bool_decide_eq_false in Hall.
Qed.

(** ** After a write to an empty stream *)

Lemma written_entry d f bs d' nm k e (dir := readsect (LOC_DIR k) d) (dir' := readsect (LOC_DIR k) d') : drive_ok (D := D) -> name_ok nm ->
  entry_at d nm k e -> f_dir_offset f = k -> f_entry_offset f = Z.of_nat e -> f_file_size f = 0 -> f_offset f = 0 ->
  0 <= f_inode_offset f < SC_INODE -> 0 < Z.of_nat (length bs) < 65536 -> written d f bs d' ->
  entry_at d' nm k e /\ rd32 dir' (ent_file_size e) = Z.of_nat (length bs) /\ rd32 dir' (ent_inode_offset e) = rd32 dir (ent_inode_offset e).
Proof.
  intros Hd [_ Hsh _] [Hk He Hb Hfirst] Fk Fe Fs Fo Fi Hlen Hw. destruct (ent_bounds e He) as (B1 & B2 & B3 & B4).
  assert (Hls : length dir = 512%nat) by apply length_readsect. unfold SC_INODE in Fi.
  assert (Hds : dir_sector f = LOC_DIR k) by (unfold dir_sector; by rewrite Fk, i32_id by (unfold is_i32; lia)).
  assert (Hsz : f_file_size (advanced f (Z.of_nat (length bs))) = Z.of_nat (length bs)).
  { unfold advanced, resized. cbn. rewrite Fs, Fo. lia. }
  pose proof (wr_dirent _ _ _ _ Hw) as Hdir. rewrite Hds, Fe, Nat2Z.id, Hsz in Hdir. change (dir' = wr32 (ent_file_size e) (Z.of_nat (length bs)) dir) in Hdir.
  assert (Hother : forall k', 0 <= k' < 256 -> k' <> k -> readsect (LOC_DIR k') d' = readsect (LOC_DIR k') d).
  { intros k' Hk' Hne. unfold drive_ok in Hd. apply (wr_frame _ _ _ _ Hw (LOC_DIR k')); change (LOC_DIR k') with (257 + k').
    - unfold valid_sector. lia.
    - lia.
    - unfold inode_sector. rewrite i32_id by (unfold is_i32; lia). change (LOC_INODE (f_inode_offset f)) with (513 + f_inode_offset f). lia.
    - rewrite Hds. change (LOC_DIR k) with (257 + k). lia.
    - intros (j & Hj & _). unfold last_block in Hj. rewrite Fs, decide_True in Hj by done. lia.
    - unfold safe_sector. lia. }
  split; [|split].
  - split; [done|done| |].
    + fold dir'. rewrite Hdir. by apply bears_wr32.
    + intros k' e' Hk' He' Hlt. destruct (decide (k' = k)) as [->|Hne].
      * fold dir'. rewrite Hdir, bears_wr32 by done. by apply Hfirst.
      * rewrite Hother by (unfold entry_lt in Hlt; lia). by apply Hfirst.
  - rewrite Hdir. apply rd32_wr32_eq; [lia|unfold is_u32; lia].
  - rewrite Hdir. apply rd32_wr32_ne; lia.
Qed.

Lemma written_bytes d f bs d' g off n : f_file_size f = 0 -> f_offset f = 0 -> written d f bs d' -> f_inode_offset g = f_inode_offset f ->
  (off + n <= length bs)%nat -> file_bytes d' (inode_of d' g) (Z.of_nat off) n = take n (drop off bs).
Proof.
  intros Fs Fo Hw Hg Hn. assert (Hi : inode_of d' g = inode_of d' f) by (unfold inode_of; by rewrite Hg). rewrite Hi.
  apply list_eq. intros p. destruct (decide (p < n)%nat) as [Hp|Hp].
  - rewrite file_bytes_lookup, lookup_take_lt, lookup_drop by done. rewrite (wr_content _ _ _ _ Hw).
    2:{ unfold advanced, resized. cbn. rewrite Fs, Fo. lia. }
    rewrite Fo, decide_True by lia. destruct (lookup_lt_is_Some_2 bs (off + p)) as [x Hx]; [lia|].
    replace (Z.to_nat (Z.of_nat off + Z.of_nat p - 0)) with (off + p)%nat by lia. by rewrite Hx.
  - rewrite !lookup_ge_None_2; [done|rewrite length_take; lia|rewrite length_file_bytes; lia].
Qed.
End named.

(** ** A new file *)

(** The directory sector with entry [e] made for inode [j]. *)
Definition named_entry (dir : list byte) (e : nat) (nm : list byte) (j : Z) : list byte :=
  wr32 (ent_file_size e) 0 (splice (ent_filename e) (nm ++ [NUL]) (wr32 (ent_inode_offset e) (u32 j) dir)).

Section entry.
Context (dir : list byte) (e : nat) (nm : list byte) (j : Z).
Context (Hl : length dir = 512%nat) (He : (e < 16)%nat) (Hnm : (length nm <= 23)%nat) (Hj : is_u32 j).
Let l1 : length (wr32 (ent_inode_offset e) (u32 j) dir) = 512%nat.
Proof. destruct (ent_bounds e He) as (B1 & B2 & B3 & B4). rewrite length_wr32; lia. Qed.
Let l2 : length (splice (ent_filename e) (nm ++ [NUL]) (wr32 (ent_inode_offset e) (u32 j) dir)) = 512%nat.
Proof. destruct (ent_bounds e He) as (B1 & B2 & B3 & B4). rewrite length_splice; [done|]. rewrite l1, length_app. simpl. lia. Qed.

Lemma length_named_entry : length (named_entry dir e nm j) = 512%nat.
Proof using Hl He Hnm. destruct (ent_bounds e He) as (B1 & B2 & B3 & B4). unfold named_entry. rewrite length_wr32; [exact l2|]. rewrite l2. lia. Qed.

Lemma named_entry_fields : bears (named_entry dir e nm j) e nm /\ rd32 (named_entry dir e nm j) (ent_file_size e) = 0 /\
  rd32 (named_entry dir e nm j) (ent_inode_offset e) = j.
Proof using Hl He Hnm Hj.
  destruct (ent_bounds e He) as (B1 & B2 & B3 & B4). unfold named_entry. split; [|split].
  - unfold bears, wr32 at 1. rewrite slice_splice_ne; [|rewrite length_le_split, l2; lia|rewrite length_le_split; lia].
    replace (S (length nm)) with (length (nm ++ [NUL])) by (rewrite length_app; simpl; lia). apply slice_splice_eq. rewrite l1, length_app. simpl. lia.
  - apply rd32_wr32_eq; [rewrite l2; lia|done].
  - rewrite rd32_wr32_ne by (rewrite ?l2; lia). unfold rd32. rewrite slice_splice_ne by (rewrite ?l1, ?length_app; simpl; lia).
    fold (rd32 (wr32 (ent_inode_offset e) (u32 j) dir) (ent_inode_offset e)). rewrite rd32_wr32_eq by (lia || (apply u32_range)). by apply u32_id.
Qed.

(** The other entries of the sector. *)
Lemma named_entry_other e' : e' <> e -> (e' < 16)%nat -> slice (ent_filename e') DIRENT (named_entry dir e nm j) = slice (ent_filename e') DIRENT dir.
Proof using Hl He Hnm.
  intros Hne He'. destruct (ent_bounds e He) as (B1 & B2 & B3 & B4). destruct (ent_bounds e' He') as (C1 & _).
  assert (Hd : (ent_filename e' + 32 <= ent_filename e \/ ent_filename e + 32 <= ent_filename e')%nat) by (unfold ent_filename, DIRENT; lia).
  unfold named_entry, wr32. change DIRENT with 32%nat.
  rewrite slice_splice_ne by (rewrite length_le_split; unfold wr32 in l2; rewrite ?l2; lia).
  rewrite slice_splice_ne by (unfold wr32 in l1; rewrite ?l1, length_app; simpl; lia).
  by rewrite slice_splice_ne by (rewrite length_le_split; lia).
Qed.
End entry.

(** What an entry holds is in its 32 bytes. *)
Lemma bears_same dir dir' e nm : (length nm <= 23)%nat -> slice (ent_filename e) DIRENT dir' = slice (ent_filename e) DIRENT dir ->
  bears dir' e nm <-> bears dir e nm.
Proof.
  intros Hs E. assert (H : forall l, slice (ent_filename e) (S (length nm)) l = slice 0 (S (length nm)) (slice (ent_filename e) DIRENT l)).
  { intros l. rewrite slice_slice by (unfold DIRENT; lia). by rewrite Nat.add_0_r. }
  unfold bears. by rewrite !H, E.
Qed.

Section create.
Context {D : Type} `{!AtaDevice D}.
Implicit Types (d : D) (s : fsst D).

(** The first free entry. *)
Record empty_slot d (k : Z) (e : nat) : Prop := {
  es_k : 0 <= k < 256;
  es_e : (e < 16)%nat;
  es_here : rd32 (readsect (LOC_DIR k) d) (ent_inode_offset e) = u32 (-1);
  es_first : forall k' e', 0 <= k' -> (e' < 16)%nat -> entry_lt k' e' k e -> rd32 (readsect (LOC_DIR k') d) (ent_inode_offset e') <> u32 (-1) }.

(** No entry has the name. *)
Definition unnamed d (nm : list byte) : Prop := forall k e, 0 <= k < 256 -> (e < 16)%nat -> ~ bears (readsect (LOC_DIR k) d) e nm.

(** The disk after entry [e] of directory sector [k] became an empty file
    [nm] with inode [j]. *)
Record created d (nm : list byte) (k : Z) (e : nat) (j : Z) d' : Prop := {
  cr_dir : readsect (LOC_DIR k) d' = named_entry (readsect (LOC_DIR k) d) e nm j;
  cr_inode : readsect (LOC_INODE j) d' = memset2 512 0xFF;
  cr_bits : forall n, 0 <= n < 4096 -> disk_bit d' n = disk_bit d n || (n =? LOC_INODE j);
  cr_other : agree_on (fun x => x <> 1 /\ x <> LOC_DIR k /\ x <> LOC_INODE j) d d' }.

Lemma marked_small d d' n : marked d d' n -> 0 <= n < 4096 -> valid_sector 1 ->
  agree_on (fun x => x <> 1) d d' /\ forall m, 0 <= m < 4096 -> disk_bit d' m = disk_bit d m || (m =? n).
Proof.
  intros [H1 H2] Hn Hv. rewrite chunk_index_small in H1, H2 by done. split; [done|].
  intros m Hm. apply H2; [done|lia|]. by rewrite chunk_index_small.
Qed.

Lemma created_intro d d1 nm k e j : drive_ok (D := D) -> name_ok nm -> 0 <= k < 256 -> (e < 16)%nat -> 0 <= j < SC_INODE -> marked d d1 (LOC_INODE j) ->
  created d nm k e j (writesect (memset2 512 0xFF) (LOC_INODE j) (writesect (named_entry (readsect (LOC_DIR k) d) e nm j) (LOC_DIR k) d1)).
Proof.
  intros Hdr [_ Hsh _] Hk He Hj Hm. unfold drive_ok, SC_INODE in *. assert (Hv : forall x, 1 <= x < 1025 -> valid_sector x) by (intros; unfold valid_sector; lia).
  destruct (marked_small d d1 (LOC_INODE j) Hm) as [M1 M2]; [unfold LOC_INODE; lia|apply Hv; lia|].
  assert (Hli : length (memset2 512 255) = SECTSIZE) by done.
  assert (Hld : length (named_entry (readsect (LOC_DIR k) d) e nm j) = SECTSIZE) by (apply length_named_entry; [apply length_readsect|done|done]).
  assert (Hag : agree_on (fun x => x <> LOC_DIR k /\ x <> LOC_INODE j) d1
    (writesect (memset2 512 0xFF) (LOC_INODE j) (writesect (named_entry (readsect (LOC_DIR k) d) e nm j) (LOC_DIR k) d1))).
  { intros x Hx [H1 H2]. rewrite !readsect_writesect_ne; try done; apply Hv; unfold LOC_DIR, LOC_INODE; lia. }
  split.
  - rewrite readsect_writesect_ne by (try (apply Hv); unfold LOC_DIR, LOC_INODE; lia). apply readsect_writesect_eq; [apply Hv; unfold LOC_DIR; lia|done].
  - apply readsect_writesect_eq; [apply Hv; unfold LOC_INODE; lia|done].
  - intros n Hn. rewrite <- M2 by done. apply disk_bit_agree; [done|]. apply Hag; [apply Hv; lia|unfold LOC_DIR, LOC_INODE; lia].
  - intros x Hx (H1 & H2 & H3). rewrite Hag by done. by apply M1.
Qed.

Lemma created_entry_at d nm k e j d' : drive_ok (D := D) -> name_ok nm -> 0 <= k < 256 -> (e < 16)%nat -> 0 <= j < SC_INODE -> unnamed d nm -> created d nm k e j d' ->
  entry_at d' nm k e /\ rd32 (readsect (LOC_DIR k) d') (ent_file_size e) = 0 /\ rd32 (readsect (LOC_DIR k) d') (ent_inode_offset e) = j.
Proof.
  intros Hdr [_ Hsh _] Hk He Hj Hun Hc. unfold drive_ok, SC_INODE in *. pose proof (cr_dir _ _ _ _ _ _ Hc) as Hd.
  destruct (named_entry_fields (readsect (LOC_DIR k) d) e nm j) as (F1 & F2 & F3); [apply length_readsect|done|done|unfold is_u32; lia|].
  rewrite Hd. split; [|done]. split; [done|done|by rewrite Hd|].
  intros k' e' Hk' He' Hlt. destruct (decide (k' = k)) as [->|Hne].
  - rewrite Hd. rewrite (bears_same (readsect (LOC_DIR k) d)); [apply Hun; lia|lia|].
    apply named_entry_other; [apply length_readsect|done|done| |done]. intros ->. unfold entry_lt in Hlt. lia.
  - assert (k' < k) by (unfold entry_lt in Hlt; lia). rewrite (cr_other _ _ _ _ _ _ Hc); [apply Hun; lia| | ];
      unfold valid_sector, LOC_DIR, LOC_INODE; lia.
Qed.

(** Creating a file takes no data block. *)
Lemma created_has_free d nm k e j d' n : 0 <= j < SC_INODE -> created d nm k e j d' -> has_free d n -> has_free d' n.
Proof.
  intros Hj Hc (l & Hnd & Hl & Hf). exists l. split_and!; [done|done|]. intros x Hx. destruct (Hf x Hx) as [Hr Hb]. split; [done|].
  unfold SC_INODE, SAFE_BLOCKS, LOC_DATA, LOC_INODE in *. rewrite (cr_bits _ _ _ _ _ _ Hc) by lia. rewrite Hb. apply Z.eqb_neq. unfold LOC_INODE. lia.
Qed.

(** The stream for the new entry. *)
Lemma wp_open_created nm k e flags s (Q : Z -> fsst D -> Prop) J (dir := fs_dir s) :
  name_ok nm -> 0 <= k < 256 -> (e < 16)%nat -> bears dir e nm -> rd32 dir (ent_file_size e) = 0 ->
  table_ok s -> (exists i f, fs_fs s !! i = Some f /\ stream_free f = true) ->
  (forall fd f s', 0 <= fd -> stream_of dir k e 0 f -> fs_fs s' = <[Z.to_nat fd := f]> (fs_fs s) -> (Z.to_nat fd < length (fs_fs s))%nat ->
     fs_disk s' = fs_disk s -> fs_bitmap s' = fs_bitmap s -> Q fd s') ->
  wp (open_stream NR_FILE_STREAM 0 k e) (fun fd s' => wp ((if decide (flags = 2) then upd_stream fd (set_file_size 0) else mret tt);; mret fd) Q J s') J s.
Proof.
  intros [_ Hsh Hnn] Hk He Hb Hz [Ht1 Ht2] Hfree HQ. destruct (ent_bounds e He) as (B1 & B2 & B3 & B4).
  apply (wp_open_stream _ _ _ _ (nm ++ [NUL])).
  - done.
  - lia.
  - rewrite Ht1. lia.
  - unfold is_u32. lia.
  - rewrite <- (take_drop (S (length nm)) (drop (ent_filename e) (fs_dir s))). change (take _ (drop _ (fs_dir s))) with (slice (ent_filename e) (S (length nm)) dir).
    rewrite Hb, <- app_assoc. by apply cstring_name.
  - rewrite length_app. simpl. lia.
  - intros j f Hj Hf _ _. assert (Hjl : (Z.to_nat j < length (fs_fs s))%nat) by (by eapply lookup_lt_Some).
    assert (Hfl : length (f_name f) = 28%nat) by (by apply (Forall_lookup_1 _ _ _ _ Ht2 Hf)).
    assert (Hnl : length (splice 0 (nm ++ [NUL]) (<[LEN_FILENAME:=byte.of_Z 1]> (f_name f))) = 28%nat).
    { rewrite length_splice; rewrite length_insert; [done|]. rewrite length_app. simpl. lia. }
    set (g := opened _ _ _ _). assert (Hg : stream_of dir k e 0 g) by (split; done).
    case_decide as Hfl2.
    + eapply wp_bind, wp_upd_stream; [lia|by apply list_lookup_insert_eq|]. apply wp_ret.
      apply (HQ j (set_file_size 0 g)); try done; [lia|]. cbn [fs_fs with_fs]. by rewrite list_insert_insert_eq.
    + apply wp_bind, wp_ret, wp_ret. apply (HQ j g); try done; lia.
  - intros Hnone. destruct Hfree as (j & f & Hf & Hft). pose proof (lookup_lt_Some _ _ _ Hf) as Hjl. rewrite Ht1 in Hjl.
    rewrite (Hnone (Z.of_nat j) f) in Hft; [done|lia|by rewrite Nat2Z.id].
Qed.

(** Opening for writing a name that no entry has. *)
Lemma wp_open_new nm k e j flags s (Q : Z -> fsst D -> Prop) J :
  drive_ok (D := D) -> name_ok nm -> 1 <= flags -> unnamed (fs_disk s) nm -> empty_slot (fs_disk s) k e ->
  first_free (fun j => disk_bit (fs_disk s) (LOC_INODE j)) (Z.to_nat SC_INODE) 0 = Some j ->
  table_ok s -> (exists i f, fs_fs s !! i = Some f /\ stream_free f = true) -> length (fs_bitmap s) = BITMAP_BYTES ->
  (forall fd f s', 0 <= fd -> created (fs_disk s) nm k e j (fs_disk s') -> stream_of (readsect (LOC_DIR k) (fs_disk s')) k e 0 f ->
     fs_fs s' = <[Z.to_nat fd := f]> (fs_fs s) -> (Z.to_nat fd < length (fs_fs s))%nat -> length (fs_bitmap s') = BITMAP_BYTES -> Q fd s') ->
  wp (fs_open_md (nm ++ [NUL]) flags) Q J s.
Proof.
  intros Hdr Hnm Hfl Hun Hfe Hino [Ht1 Ht2] Hstream Hbm HQ. pose proof Hnm as [_ Hsh Hnn]. destruct Hfe as [Hk He Hhere Hfirst].
  assert (Hj : 0 <= j < SC_INODE) by (apply first_free_Some in Hino; unfold SC_INODE in *; lia).
  assert (Hls : forall k', length (readsect (LOC_DIR k') (fs_disk s)) = 512%nat) by (intros; apply length_readsect).
  assert (Htest : forall k' e', (e' < 16)%nat -> entry_test (name_is (nm ++ [NUL])) (fs_disk s) k' e' = Some (bool_decide (bears (readsect (LOC_DIR k') (fs_disk s)) e' nm))).
  { intros k' e' He'. unfold entry_test. by apply name_is_bears. }
  unfold fs_open_md. apply wp_bind. unfold fs_open_kr. apply wp_bind. apply wp_scan_dirs.
  { intros k' e' _ He'. rewrite Htest by done. by eexists. }
  { intros k' e' Hk' He' Hte _. change NR_ENTRIES with 16%nat in *. change (0 + Z.of_nat SC_DIR) with 256 in Hk'.
    rewrite Htest in Hte by done. injection Hte as Hte. apply bool_decide_eq_true in Hte. by destruct (Hun k' e' ltac:(lia) He'). }
  intros _ dir0. apply wp_ret. rewrite (bool_decide_true (-1 = -1)), (proj2 (Z.leb_le 1 flags)) by lia. cbn [andb]. apply wp_bind.
  unfold fs_create_kr. apply wp_bind, wp_scan_dirs; cbn [fs_disk with_dir].
  { intros k' e' _ He'. unfold entry_test, is_free. by eexists. }
  2:{ intros Hall. exfalso. specialize (Hall k e ltac:(change (Z.of_nat SC_DIR) with 256; lia) He). unfold entry_test, is_free in Hall.
      injection Hall as Hall. by apply bool_decide_eq_false in Hall. }
  intros k' e' Hk' He' Hte Hall. change NR_ENTRIES with 16%nat in *. change (0 + Z.of_nat SC_DIR) with 256 in Hk'.
  unfold entry_test, is_free in Hte. injection Hte as Hte. apply bool_decide_eq_true in Hte.
  assert (k' = k /\ e' = e) as [-> ->].
  { destruct (decide (entry_lt k' e' k e)) as [Hlt|Hnlt]; [by destruct (Hfirst k' e' ltac:(lia) He' Hlt)|].
    destruct (decide (entry_lt k e k' e')) as [Hlt|Hnlt'].
    - specialize (Hall k e ltac:(lia) He Hlt). unfold entry_test, is_free in Hall. injection Hall as Hall. by apply bool_decide_eq_false in Hall.
    - unfold entry_lt in *. assert (k' = k) as -> by lia. split; [done|]. lia. }
  clear Hall. set (dir := readsect (LOC_DIR k) (fs_disk s)). destruct (ent_bounds e He) as (B1 & B2 & B3 & B4).
  apply wp_bind, wp_INodeAlloc; [done|]. intros m Hm. cbn [fs_disk with_dir]. rewrite Hino. intros d1 Hd1.
  apply wp_bind, wp_modify, wp_bind, wp_get, wp_bind. cbn [fs_dir with_dir with_disk with_bitmap].
  eapply wp_from_option.
  { unfold strcpy. rewrite (cstring_name nm []) by done. simpl. apply csplice_Some; [lia|]. fold dir. rewrite length_wr32 by (unfold dir; rewrite Hls; lia). unfold dir. rewrite Hls, length_app. simpl. lia. }
  rewrite Nat2Z.id. apply wp_bind, wp_modify, wp_bind, wp_modify. cbn [fs_dir with_dir with_disk with_bitmap]. fold dir.
  fold (named_entry dir e nm j). unfold saveDir, write_at. apply wp_bind, wp_bind, wp_get, wp_modify, wp_bind, wp_readINode, wp_bind, wp_modify, wp_bind, wp_saveINode.
  cbn [fs_dir with_dir with_disk with_bitmap fs_inode with_inode fs_disk]. rewrite (i32_id j) by (unfold is_i32, SC_INODE in *; lia).
  pose proof (created_intro (fs_disk s) d1 nm k e j Hdr Hnm Hk He Hj Hd1) as Hc. fold dir in Hc.
  set (d' := writesect (memset2 512 255) (LOC_INODE j) _) in *.
  match goal with |- wp _ _ _ ?st => set (s1 := st) end.
  assert (S1 : fs_fs s1 = fs_fs s /\ fs_dir s1 = readsect (LOC_DIR k) d' /\ fs_disk s1 = d' /\ fs_bitmap s1 = m) by (rewrite (cr_dir _ _ _ _ _ _ Hc); done).
  clearbody s1 d'. destruct S1 as (S1 & S2 & S3 & S4).
  destruct (created_entry_at _ _ _ _ _ _ Hdr Hnm Hk He Hj Hun Hc) as (Hat & Hz & _).
  apply (wp_open_created nm k e flags s1 Q J); rewrite ?S1, ?S2, ?S3; try done; [apply Hat|unfold table_ok; by rewrite S1|].
  intros fd f s' H1 H2 H3 H4 H5 H6. apply HQ with f; try done; [by rewrite H5|by rewrite H5|by rewrite H6, S4].
Qed.

Lemma empty_FileOk d dir k e f : stream_of dir k e 0 f -> 0 <= k < 256 -> (e < 16)%nat -> 0 <= rd32 dir (ent_inode_offset e) < SC_INODE -> FileOk d f.
Proof. intros [F1 F2 F3 F4 F5 _] Hk He Hi. split; rewrite ?F2, ?F3, ?F4, ?F5; [done|done|lia|lia|..]; unfold last_block; rewrite F3, decide_True by done; lia. Qed.

(** What the files that were there still hold. *)
Lemma created_keeps d nm k e j d' g : drive_ok (D := D) -> 0 <= k < 256 -> 0 <= j < SC_INODE -> created d nm k e j d' ->
  FileOk d g -> f_inode_offset g <> j ->
  FileOk d' g /\ forall p, 0 <= p < f_file_size g -> file_byte d' (inode_of d' g) p = file_byte d (inode_of d g) p.
Proof.
  intros Hdr Hk Hj Hc [G1 G2 G3 G4 G5 G6] Hne. unfold drive_ok in Hdr.
  assert (Hag : forall x, 513 <= x < 1025 -> x <> LOC_INODE j -> readsect x d' = readsect x d).
  { intros x Hx Hxj. apply (cr_other _ _ _ _ _ _ Hc); unfold valid_sector, LOC_DIR in *; lia. }
  assert (Ei : inode_of d' g = inode_of d g).
  { unfold inode_of. unfold SC_INODE in *. rewrite i32_id by (unfold is_i32; lia). apply Hag; unfold LOC_INODE; lia. }
  assert (Hb : forall p, 0 <= p <= last_block g -> safe_sector (block_sector (inode_of d g) p) /\ disk_bit d' (block_sector (inode_of d g) p) = true).
  { intros p Hp. destruct (G5 p Hp) as [Hs Hbit]. split; [done|]. unfold safe_sector in Hs. rewrite (cr_bits _ _ _ _ _ _ Hc) by lia. by rewrite Hbit. }
  split.
  - split; try done; by rewrite Ei.
  - intros p Hp. rewrite Ei. unfold file_byte. assert (Hpb : 0 <= p / 512 <= last_block g).
    { unfold last_block. rewrite decide_False by lia. split; [apply Z.div_pos; lia|]. apply Z.div_le_mono; lia. }
    destruct (Hb _ Hpb) as [Hs _]. unfold safe_sector, LOC_INODE, SC_INODE in *. by rewrite Hag by (unfold LOC_INODE; lia).
Qed.

(** C22: opening for writing a name that no entry has makes an empty file: the
    first free entry gets the name, size 0 and the first free inode, of which
    every block is marked as absent; the bitmap gains that inode's bit alone
    and no other sector changes.  The result is a stream on the new file,
    which the name now leads to, and every file that was there keeps its
    contents. *)
Theorem fs_open_creates nm flags k e j s :
  drive_ok (D := D) -> name_ok nm -> 1 <= flags -> unnamed (fs_disk s) nm -> empty_slot (fs_disk s) k e ->
  first_free (fun j => disk_bit (fs_disk s) (LOC_INODE j)) (Z.to_nat SC_INODE) 0 = Some j ->
  table_ok s -> (exists i f, fs_fs s !! i = Some f /\ stream_free f = true) -> length (fs_bitmap s) = BITMAP_BYTES ->
  wp (fs_open_md (nm ++ [NUL]) flags) (fun fd s' =>
    created (fs_disk s) nm k e j (fs_disk s') /\ entry_at (fs_disk s') nm k e /\
    (exists f, stream_of (readsect (LOC_DIR k) (fs_disk s')) k e 0 f /\ f_inode_offset f = j /\ FileOk (fs_disk s') f /\
       0 <= fd /\ fs_fs s' = <[Z.to_nat fd := f]> (fs_fs s)) /\
    forall g, FileOk (fs_disk s) g -> f_inode_offset g <> j -> FileOk (fs_disk s') g /\
      forall p, 0 <= p < f_file_size g -> file_byte (fs_disk s') (inode_of (fs_disk s') g) p = file_byte (fs_disk s) (inode_of (fs_disk s) g) p)
    (fun _ => False) s.
Proof.
  intros Hdr Hnm Hfl Hun Hfe Hino Ht Hfree Hbm. assert (Hj : 0 <= j < SC_INODE) by (apply first_free_Some in Hino; unfold SC_INODE in *; lia).
  pose proof (es_k _ _ _ Hfe) as Hk. pose proof (es_e _ _ _ Hfe) as He.
  eapply wp_open_new; [done..|]. intros fd f s' Hfd Hc Hf Hfs Hlt _.
  destruct (created_entry_at _ _ _ _ _ _ Hdr Hnm Hk He Hj Hun Hc) as (Hat & _ & Hi).
  split_and!; [done|done| |].
  - exists f. split_and!; [done|by rewrite (so_inode _ _ _ _ _ Hf)| |done|done]. eapply empty_FileOk; [exact Hf|done|done|by rewrite Hi].
  - intros g Hg Hne. by apply (created_keeps _ nm k e j).
Qed.
End create.

(** The file "b" beside the file "a" of the demo disk. *)
Definition name_b : list byte := [byte.of_Z 0x62].

Lemma demo_unnamed : unnamed demo_disk name_b.
Proof.
  assert (H : forallb (fun k => let dir := readsect (LOC_DIR (Z.of_nat k)) demo_disk in
    forallb (fun e => negb (bool_decide (bears dir e name_b))) (seq 0 16)) (seq 0 256) = true) by (vm_compute; reflexivity).
  intros k e Hk He Hb. rewrite forallb_forall in H. specialize (H (Z.to_nat k) ltac:(apply in_seq; lia)). cbn zeta in H.
  rewrite forallb_forall in H. specialize (H e ltac:(apply in_seq; lia)). rewrite Z2Nat.id in H by lia. by rewrite bool_decide_true in H.
Qed.

Lemma demo_empty_slot : empty_slot demo_disk 0 1.
Proof.
  split; [lia|lia|vm_compute; reflexivity|]. intros k' e' Hk He [Hlt|[-> Hlt]]; [lia|]. assert (e' = 0%nat) as -> by lia. vm_compute. discriminate.
Qed.

Lemma demo_table_ok : table_ok demo_fs.
Proof. split; [reflexivity|]. constructor; [reflexivity|]. by apply Forall_replicate. Qed.

Lemma fs_open_creates_witness : wp (fs_open_md (name_b ++ [NUL]) 2) (fun fd s' =>
  created demo_disk name_b 0 1 0 (fs_disk s') /\ entry_at (fs_disk s') name_b 0 1 /\
  (exists f, stream_of (readsect (LOC_DIR 0) (fs_disk s')) 0 1 0 f /\ f_inode_offset f = 0 /\ FileOk (fs_disk s') f /\
     0 <= fd /\ fs_fs s' = <[Z.to_nat fd := f]> (fs_fs demo_fs)) /\
  forall g, FileOk demo_disk g -> f_inode_offset g <> 0 -> FileOk (fs_disk s') g /\
    forall p, 0 <= p < f_file_size g -> file_byte (fs_disk s') (inode_of (fs_disk s') g) p = file_byte demo_disk (inode_of demo_disk g) p)
  (fun _ => False) demo_fs.
Proof.
  apply (fs_open_creates name_b 2 0 1 0 demo_fs).
  - apply demo_drive_ok.
  - split; [done|simpl; lia|]. intros H. apply list_elem_of_singleton in H. discriminate.
  - lia.
  - apply demo_unnamed.
  - apply demo_empty_slot.
  - vm_compute. reflexivity.
  - apply demo_table_ok.
  - exists 1%nat, demo_unused. by split.
  - apply length_replicate.
Defined.
