(* ===== verification/ShellRoundtrip.v ===== *)
(** * The shell: what [echo] writes, [cat] prints

    Two commands in a row over the file system. *)

From Stdlib Require Import String Ascii.
From S2P Require Import Prelude Bytes Disk FileSys FsRead FsWrite FsAlloc FsGrow FsWriteKr FsOpen DemoFs Fmt FmtProofs FmtImage FsCreate.
From S2P Require Import Shell ShellProofs ShellProps ShellCat ShellFs.

Section roundtrip.
Context {D : Type} `{!AtaDevice D}.
Context (console : history -> ucall -> answer).
Implicit Types (s : fsst D) (st : kfs (D := D)).

(** The system's tables between calls: a stream and a descriptor are free. *)
Record tables_ok st : Prop := {
  to_table : table_ok (fst st);
  to_stream : exists j f, fs_fs (fst st) !! j = Some f /\ stream_free f = true;
  to_fcb : -1 ∈ snd st;
  to_bitmap : length (fs_bitmap (fst st)) = BITMAP_BYTES }.

(** Opening a file that is there. *)
Lemma serve_open_named nm k e flags st (dir := readsect (LOC_DIR k) (fs_disk (fst st))) : name_ok nm -> entry_at (fs_disk (fst st)) nm k e -> tables_ok st ->
  exists j i f s', serve (UOpen (nm ++ [NUL]) flags) st = Ret (Z.of_nat j, []) (s', <[j := Z.of_nat i]> (snd st)) /\ (j < length (snd st))%nat /\
    (i < length (fs_fs (fst st)))%nat /\ stream_of dir k e (if decide (flags = 2) then 0 else rd32 dir (ent_file_size e)) f /\
    fs_fs s' = <[i := f]> (fs_fs (fst st)) /\ fs_disk s' = fs_disk (fst st) /\ fs_bitmap s' = fs_bitmap (fst st).
Proof.
  intros Hnm Hen [Ht Hfree Hfcb Hbm]. destruct st as [s fcb]. cbn [fst snd] in *.
  assert (H : wp (fs_open_md (nm ++ [NUL]) flags) (fun i s' => 0 <= i /\ exists f, stream_of dir k e (if decide (flags = 2) then 0 else rd32 dir (ent_file_size e)) f /\
    fs_fs s' = <[Z.to_nat i := f]> (fs_fs s) /\ (Z.to_nat i < length (fs_fs s))%nat /\ fs_disk s' = fs_disk s /\ fs_bitmap s' = fs_bitmap s) (fun _ => False) s).
  { apply (wp_open_named nm k e); [done..|]. intros i f s' H1 H2 H3 H4 H5 H6. split; [done|]. by exists f. }
  unfold wp in H. destruct (fs_open_md (nm ++ [NUL]) flags s) as [i s'| |] eqn:E; [|done|done]. destruct H as (Hi & f & F1 & F2 & F3 & F4 & F5).
  destruct (serve_open_run _ _ _ _ _ _ E Hi Hfcb) as (j & Hj & Es). exists j, (Z.to_nat i), f, s'. rewrite Z2Nat.id by done. by split_and!.
Qed.

(** Opening for writing a file that is not. *)
Lemma serve_open_new nm k e j0 st : drive_ok (D := D) -> name_ok nm -> unnamed (fs_disk (fst st)) nm -> empty_slot (fs_disk (fst st)) k e ->
  first_free (fun j => disk_bit (fs_disk (fst st)) (LOC_INODE j)) (Z.to_nat SC_INODE) 0 = Some j0 -> tables_ok st ->
  exists j i f s', serve (UOpen (nm ++ [NUL]) FS_RWD) st = Ret (Z.of_nat j, []) (s', <[j := Z.of_nat i]> (snd st)) /\ (j < length (snd st))%nat /\
    (i < length (fs_fs (fst st)))%nat /\ stream_of (readsect (LOC_DIR k) (fs_disk s')) k e 0 f /\
    fs_fs s' = <[i := f]> (fs_fs (fst st)) /\ created (fs_disk (fst st)) nm k e j0 (fs_disk s') /\ length (fs_bitmap s') = BITMAP_BYTES.
Proof.
  intros Hd Hnm Hun Hsl Hj0 [Ht Hfree Hfcb Hbm]. destruct st as [s fcb]. cbn [fst snd] in *.
  assert (H : wp (fs_open_md (nm ++ [NUL]) FS_RWD) (fun i s' => 0 <= i /\ exists f, stream_of (readsect (LOC_DIR k) (fs_disk s')) k e 0 f /\
    fs_fs s' = <[Z.to_nat i := f]> (fs_fs s) /\ (Z.to_nat i < length (fs_fs s))%nat /\ created (fs_disk s) nm k e j0 (fs_disk s') /\
    length (fs_bitmap s') = BITMAP_BYTES) (fun _ => False) s).
  { apply (wp_open_new nm k e j0); [done|done|done|done|done|done|done|done|done|]. intros i f s' H1 H2 H3 H4 H5 H6. split; [done|]. by exists f. }
  unfold wp in H. destruct (fs_open_md (nm ++ [NUL]) FS_RWD s) as [i s'| |] eqn:E; [|done|done]. destruct H as (Hi & f & F1 & F2 & F3 & F4 & F5).
  destruct (serve_open_run _ _ _ _ _ _ E Hi Hfcb) as (j & Hj & Es). exists j, (Z.to_nat i), f, s'. rewrite Z2Nat.id by done. by split_and!.
Qed.

(** Entry [e] of directory sector [k] is where [nm] is, or where it will be. *)
Inductive place d (nm : list byte) (k : Z) (e : nat) : Prop :=
  | place_old : entry_at d nm k e -> 0 <= rd32 (readsect (LOC_DIR k) d) (ent_inode_offset e) < SC_INODE -> place d nm k e
  | place_new j : unnamed d nm -> empty_slot d k e -> first_free (fun j => disk_bit d (LOC_INODE j)) (Z.to_nat SC_INODE) 0 = Some j -> place d nm k e.

(** Either way the file is there, empty, once it is open. *)
Lemma serve_open_place nm k e st n : drive_ok (D := D) -> name_ok nm -> place (fs_disk (fst st)) nm k e -> tables_ok st -> has_free (fs_disk (fst st)) n ->
  exists j i f s', serve (UOpen (nm ++ [NUL]) FS_RWD) st = Ret (Z.of_nat j, []) (s', <[j := Z.of_nat i]> (snd st)) /\ (j < length (snd st))%nat /\
    (i < length (fs_fs (fst st)))%nat /\ stream_of (readsect (LOC_DIR k) (fs_disk s')) k e 0 f /\ fs_fs s' = <[i := f]> (fs_fs (fst st)) /\
    entry_at (fs_disk s') nm k e /\ 0 <= rd32 (readsect (LOC_DIR k) (fs_disk s')) (ent_inode_offset e) < SC_INODE /\
    has_free (fs_disk s') n /\ length (fs_bitmap s') = BITMAP_BYTES.
Proof.
  intros Hd Hnm [Hen Hi|j0 Hun Hsl Hj0] Htab Hfree.
  - destruct (serve_open_named nm k e FS_RWD st Hnm Hen Htab) as (j & i & f & s' & E & Hj & Hil & Hf & F1 & F2 & F3).
    rewrite decide_True in Hf by done. exists j, i, f, s'. rewrite F2, F3. split_and!; try done; try apply Hi. apply Htab.
  - destruct (serve_open_new nm k e j0 st Hd Hnm Hun Hsl Hj0 Htab) as (j & i & f & s' & E & Hj & Hil & Hf & F1 & F2 & F3).
    assert (Hjr : 0 <= j0 < SC_INODE) by (apply first_free_Some in Hj0; unfold SC_INODE in *; lia).
    destruct (created_entry_at _ _ _ _ _ _ Hd Hnm (es_k _ _ _ Hsl) (es_e _ _ _ Hsl) Hjr Hun F2) as (H1 & _ & H3).
    exists j, i, f, s'. rewrite H3. split_and!; try done; try apply Hjr. by apply (created_has_free _ _ _ _ _ _ n Hjr F2).
Qed.

Lemma serve_write j i f st buf len : snd st !! j = Some (Z.of_nat i) -> fs_fs (fst st) !! i = Some f -> write_pre (fs_disk (fst st)) f len ->
  length (fs_bitmap (fst st)) = BITMAP_BYTES -> len <= Z.of_nat (length buf) < 2 ^ 31 ->
  exists s', serve (UWrite (Z.of_nat j) buf len) st = Ret (len, []) (s', snd st) /\ FsWriteKr.written (fs_disk (fst st)) f (slice 0 (Z.to_nat len) buf) (fs_disk s') /\
    fs_fs s' = <[i := advanced f len]> (fs_fs (fst st)) /\ length (fs_bitmap s') = BITMAP_BYTES.
Proof.
  intros Hj Hi Hpre Hbm Hb. destruct st as [s fcb]. cbn [fst snd] in *.
  assert (H : wp (fs_write_md (Z.of_nat i) buf len) (fun r s' => r = len /\ FsWriteKr.written (fs_disk s) f (slice 0 (Z.to_nat len) buf) (fs_disk s') /\
    fs_fs s' = <[i := advanced f len]> (fs_fs s) /\ length (fs_bitmap s') = BITMAP_BYTES) (fun _ => False) s).
  { eapply (wp_fs_write (Z.of_nat i) f); [lia|by rewrite Nat2Z.id|done|done|done|]. intros s' H1 H2 H3. rewrite Nat2Z.id in H2. by split_and!. }
  unfold wp in H. destruct (fs_write_md (Z.of_nat i) buf len s) as [r s'| |] eqn:E; [|done|done]. destruct H as (-> & H1 & H2 & H3).
  exists s'. split; [|by split_and!]. cbn [serve]. rewrite (proj2 (Z.eqb_neq (Z.of_nat j) (-1))) by lia.
  assert (Ed : descriptor (Z.of_nat j) (s, fcb) = Ret (Z.of_nat i) (s, fcb)).
  { unfold descriptor, mbind, M_bind, get. rewrite (proj2 (Z.ltb_ge _ _)), Nat2Z.id by lia. cbn [snd]. by rewrite Hj. }
  rewrite (bind_Ret _ _ _ _ _ Ed).
  assert (E1 : on_files (fs_write_md (Z.of_nat i) buf len) (s, fcb) = Ret len (s', fcb)) by (unfold on_files, zoom; cbn [fst snd]; by rewrite E).
  by rewrite (bind_Ret _ _ _ _ _ E1).
Qed.

(** Closing frees the stream and the descriptor. *)
Lemma serve_close j i f st : snd st !! j = Some (Z.of_nat i) -> fs_fs (fst st) !! i = Some f -> table_ok (fst st) ->
  length (fs_bitmap (fst st)) = BITMAP_BYTES -> 
  exists r st', serve (UClose (Z.of_nat j)) st = Ret (r, []) st' /\ tables_ok st' /\ fs_disk (fst st') = fs_disk (fst st).
Proof.
  intros Hj Hi [Ht1 Ht2] Hbm. destruct st as [s fcb]. cbn [fst snd] in *. assert (Hil : (i < length (fs_fs s))%nat) by (by eapply lookup_lt_Some).
  assert (Hjl : (j < length fcb)%nat) by (by eapply lookup_lt_Some). assert (Hn : length (f_name f) = 28%nat) by (by apply (Forall_lookup_1 _ _ _ _ Ht2 Hi)).
  assert (H : wp (fs_close_md (Z.of_nat i)) (fun _ s' => table_ok s' /\ (exists j f, fs_fs s' !! j = Some f /\ stream_free f = true) /\
    length (fs_bitmap s') = BITMAP_BYTES /\ fs_disk s' = fs_disk s) (fun _ => False) s).
  { unfold fs_close_md, fs_close_kr. eapply wp_bind, wp_get_stream; [lia|rewrite Nat2Z.id; exact Hi|].
    destruct (Byte.eqb (f_used f) NUL) eqn:Eu; [apply wp_ret; split_and!; [done|by exists i, f|done|done]|].
    eapply wp_bind, wp_upd_stream; [lia|rewrite Nat2Z.id; exact Hi|]. apply wp_ret. rewrite Nat2Z.id. cbn [fs_fs with_fs].
    split_and!; [split| |done|done]; cbn [fs_fs with_fs].
    - by rewrite length_insert.
    - apply Forall_insert; [done|]. unfold set_used, set_name. cbn [f_name]. by rewrite length_insert.
    - exists i, (set_used NUL f). split; [by apply list_lookup_insert_eq|]. unfold stream_free, f_used, set_used, set_name. cbn [f_name].
      rewrite list_lookup_insert_eq; [done|]. rewrite Hn. unfold LEN_FILENAME. lia. }
  unfold wp in H. destruct (fs_close_md (Z.of_nat i) s) as [r s'| |] eqn:E; [|done|done]. destruct H as (H1 & H2 & H3 & H4).
  exists r, (s', <[j := -1]> fcb). split.
  - cbn [serve]. rewrite (proj2 (Z.eqb_neq (Z.of_nat j) (-1))) by lia.
    assert (Ed : forall s0, descriptor (Z.of_nat j) (s0, fcb) = Ret (Z.of_nat i) (s0, fcb)).
    { intros s0. unfold descriptor, mbind, M_bind, get. rewrite (proj2 (Z.ltb_ge _ _)), Nat2Z.id by lia. cbn [snd]. by rewrite Hj. }
    rewrite (bind_Ret _ _ _ _ _ (Ed s)).
    assert (E1 : on_files (fs_close_md (Z.of_nat i)) (s, fcb) = Ret r (s', fcb)) by (unfold on_files, zoom; cbn [fst snd]; by rewrite E).
    rewrite (bind_Ret _ _ _ _ _ E1). unfold set_descriptor. unfold mbind at 1, M_bind at 1. rewrite (bind_Ret _ _ _ _ _ (Ed s')).
    unfold modify. cbn [fst snd]. by rewrite Nat2Z.id.
  - split; [|done]. split; cbn [fst snd]; try done. apply list_elem_of_lookup. exists j. by apply list_lookup_insert_eq.
Qed.

Lemma empty_write_pre dir k e f d len : drive_ok (D := D) -> stream_of dir k e 0 f -> 0 <= k < 256 -> (e < 16)%nat ->
  0 <= rd32 dir (ent_inode_offset e) < SC_INODE -> 0 < len < 65536 -> has_free d (Z.to_nat (len / 512 + 1)) -> write_pre d f len.
Proof.
  intros Hd [F1 F2 F3 F4 F5 _] Hk He Hi Hl Hfree. split; rewrite ?F1, ?F3; [done| |lia|lia|lia|].
  - split; rewrite ?F2, ?F3, ?F4, ?F5; [done|done|lia|lia| |]; unfold last_block; rewrite F3, decide_True by done; lia.
  - by rewrite Z.add_0_l, Z.sub_0_r.
Qed.

(** The file [nm], whose entry is [e] of directory sector [k], has the
    contents [c]. *)
Record file_holds d (nm : list byte) (k : Z) (e : nat) (c : list byte) : Prop := {
  fh_entry : entry_at d nm k e;
  fh_size : rd32 (readsect (LOC_DIR k) d) (ent_file_size e) = Z.of_nat (length c);
  fh_bytes : forall f, f_inode_offset f = rd32 (readsect (LOC_DIR k) d) (ent_inode_offset e) ->
    forall off n, (off + n <= length c)%nat -> file_bytes d (inode_of d f) (Z.of_nat off) n = take n (drop off c) }.

Section command.
Context (nm text : list byte) (k : Z) (e : nat) (st0 : kfs (D := D)) (sh : shst).
Context (Hnm : name_ok nm) (Hwd : wordy nm) (Hgt : GT ∉ nm) (Ht0 : text <> []) (Htn : NUL ∉ text) (Hsh : arrays_ok sh).

(** [echo] over the file system. *)
Lemma wp_echo_kernel n fuel (line := echo_line false text nm) (st := after st0 (sh_hist sh)) :
  drive_ok (D := D) -> tables_ok st -> place (fs_disk (fst st)) nm k e ->
  has_free (fs_disk (fst st)) (Z.to_nat (Z.of_nat (length text) / 512 + 1)) ->
  GT ∉ text -> (length (words text) <= 12)%nat -> (length line <= 1023)%nat ->
  kernel_env console st0 (sh_hist sh) UReadline = (n, line ++ [NUL]) ->
  wp (shell_round (kernel_env console st0) fuel) (fun _ sh' => let st' := after st0 (sh_hist sh') in arrays_ok sh' /\ tables_ok st' /\
    file_holds (fs_disk (fst st')) nm k e text /\ exists h, sh_hist sh' = sh_hist sh ++ (UReadline, (n, line ++ [NUL])) :: h) (fun _ => False) sh.
Proof using Hnm Hwd Hgt Ht0 Htn Hsh.
  intros Hdrive Htab Hpl Hfree Htg Htw Hll He1. set (env := kernel_env console st0).
  assert (Hlen : (0 < length text <= 1023)%nat).
  { split; [destruct text; [done|simpl; lia]|]. unfold line, echo_line in Hll. rewrite length_app in Hll. cbn [length] in Hll. rewrite length_app in Hll. lia. }
  pose proof Hnm as [_ Hs23 Hnn].
  eapply wp_mono; [apply (wp_echo_round env false text nm fuel n sh); done| |done].
  intros _ sh1 (Hsh1 & _ & c & d & tail & Htl & Hh). cbn zeta in Hh. set (h := sh_hist sh ++ _) in Hh. cbn iota in Hh.
  assert (Eh : after st0 h = st) by (unfold h; by rewrite after_app).
  destruct (serve_open_place nm k e st _ Hdrive Hnm Hpl Htab Hfree) as (j & i & f & s1 & E1 & Hj & Hi & Hf & F1 & Hen & Hino & Hfree1 & F3).
  assert (Ea : env h (UOpen (nm ++ [NUL]) FS_RWD) = (Z.of_nat j, [])) by (unfold env, kernel_env; cbn [is_file_call]; by rewrite Eh, E1).
  rewrite Ea in Hh. cbn [fst] in Hh. set (st1 := (s1, <[j := Z.of_nat i]> (snd st))) in *.
  assert (Hj1 : snd st1 !! j = Some (Z.of_nat i)) by (by apply list_lookup_insert_eq).
  assert (Hi1 : fs_fs (fst st1) !! i = Some f) by (cbn [fst st1]; rewrite F1; by apply list_lookup_insert_eq).
  destruct (serve_write j i f st1 (text ++ tail) (Z.of_nat (length text)) Hj1 Hi1) as (s2 & E2 & Hw & G1 & G2).
  { cbn [fst st1]. eapply (empty_write_pre _ k e f); try done; [apply Hen|apply Hen|lia]. }
  { done. }
  { rewrite length_app in *. lia. }
  assert (Hbs : slice 0 (Z.to_nat (Z.of_nat (length text))) (text ++ tail) = text) by (unfold slice; rewrite drop_0, Nat2Z.id; apply take_app_length).
  rewrite Hbs in Hw. cbn [fst st1] in Hw.
  assert (Ht1 : table_ok s1) by (destruct Htab as [[T1 T2] _ _ _]; split; rewrite F1; [by rewrite length_insert|apply Forall_insert; [done|apply Hf]]).
  assert (Ht2 : table_ok s2).
  { destruct Ht1 as [T1 T2]. cbn [fst st1] in G1. split; rewrite G1; [by rewrite length_insert|apply Forall_insert; [done|]]. apply Hf. }
  destruct (serve_close j i (advanced f (Z.of_nat (length text))) (s2, snd st1) Hj1) as (r & st3 & E3 & Htab3 & G3); [|done|done|].
  { cbn [fst]. rewrite G1. apply list_lookup_insert_eq. cbn [fst st1]. by rewrite F1, length_insert. }
  assert (Eh1 : after st0 (sh_hist sh1) = st3).
  { rewrite Hh, after_app, Eh. cbn [after foldl app]. unfold served. cbn [fst]. by rewrite E1, E2, E3. }
  destruct (written_entry (fs_disk s1) f text (fs_disk s2) nm k e) as (Hen3 & Hsz3 & Hino3); try done; try apply Hf; [|lia|].
  { rewrite (so_inode _ _ _ _ _ Hf). exact Hino. }
  cbn zeta. rewrite Eh1. split_and!; [done|done| |].
  - rewrite G3. cbn [fst]. split; [done|done|]. intros g Hg off n0 Hn. rewrite Hino3 in Hg.
    apply (written_bytes (fs_disk s1) f); try done; try apply Hf. by rewrite Hg, (so_inode _ _ _ _ _ Hf).
  - eexists. rewrite Hh. unfold h. rewrite <- app_assoc. reflexivity.
Qed.

(** [cat] over the file system. *)
Lemma wp_cat_file n fuel (st := after st0 (sh_hist sh)) : tables_ok st -> file_holds (fs_disk (fst st)) nm k e text -> (length text <= 1023)%nat ->
  kernel_env console st0 (sh_hist sh) UReadline = (n, (str "cat " ++ nm) ++ [NUL]) ->
  wp (shell_round (kernel_env console st0) (S (S fuel))) (fun _ sh' => arrays_ok sh' /\ exists a, (UPrint (text ++ NL), a) ∈ sh_hist sh') (fun _ => False) sh.
Proof using Hnm Hwd Hgt Ht0 Htn Hsh.
  intros Htab [Hen Hsz Hb] Hl He. pose proof Hnm as [_ Hs23 Hnn].
  destruct (serve_open_named nm k e FS_RW st Hnm Hen Htab) as (j & i & f & s1 & E1 & Hj & Hi & Hf & F1 & F2 & F3).
  rewrite decide_False in Hf by done. rewrite Hsz in Hf.
  apply (wp_cat_kernel console nm text st0 sh n fuel (Z.of_nat j) (s1, <[j := Z.of_nat i]> (snd st)) (fs_disk (fst st)) (Z.of_nat i) f); try done; try lia.
  - intros ->. apply Hgt. left.
  - intros ->. apply Hgt. left.
  - apply Hf.
  - apply Hb, Hf.
  - split; cbn [fst snd]; rewrite ?Nat2Z.id; [by apply list_lookup_insert_eq| |done].
    rewrite F1, list_lookup_insert_eq by done. f_equal. transitivity (set_offset (f_offset f) f); [by destruct f|]. by rewrite (so_offset _ _ _ _ _ Hf).
Qed.
End command.

(** C38: [echo text > name] and then [cat name], over the file system: for a
    file that is in the directory or a new one, with room on the disk, the
    shell prints the text that was written. *)
Theorem echo_cat_roundtrip nm text k e st0 sh n1 n2 fuel :
  let env := kernel_env console st0 in
  let line := echo_line false text nm in
  let st := after st0 (sh_hist sh) in
  drive_ok (D := D) -> tables_ok st -> place (fs_disk (fst st)) nm k e ->
  has_free (fs_disk (fst st)) (Z.to_nat (Z.of_nat (length text) / 512 + 1)) ->
  name_ok nm -> wordy nm -> GT ∉ nm -> text <> [] -> NUL ∉ text -> GT ∉ text -> (length (words text) <= 12)%nat -> (length line <= 1023)%nat ->
  arrays_ok sh -> env (sh_hist sh) UReadline = (n1, line ++ [NUL]) ->
  (forall h, env (sh_hist sh ++ (UReadline, (n1, line ++ [NUL])) :: h) UReadline = (n2, (str "cat " ++ nm) ++ [NUL])) ->
  wp (shell_rounds env 2 (S (S fuel))) (fun _ sh' => arrays_ok sh' /\ exists a, (UPrint (text ++ NL), a) ∈ sh_hist sh') (fun _ => False) sh.
Proof.
  intros env line st Hdrive Htab Hpl Hfree Hnm Hwd Hgt Ht0 Htn Htg Htw Hll Hsh He1 He2. cbn [shell_rounds]. apply wp_bind.
  eapply wp_mono; [by apply (wp_echo_kernel nm text k e st0 sh Hnm Hwd Hgt Ht0 Htn Hsh n1)| |done].
  intros _ sh1 (Hsh1 & Htab1 & Hfile & h & Hh). apply wp_bind.
  assert (Hl : (length text <= 1023)%nat) by (unfold line, echo_line in Hll; rewrite length_app in Hll; cbn [length] in Hll; rewrite length_app in Hll; lia).
  eapply wp_mono; [apply (wp_cat_file nm text k e st0 sh1 Hnm Hwd Hgt Ht0 Htn Hsh1 n2 fuel Htab1 Hfile Hl)| |done].
  - rewrite Hh. apply He2.
  - intros [] sh2 H. by apply wp_ret.
Qed.
End roundtrip.

(** ** An example: a new file on the disk of DemoFs *)

Definition two_lines (h : history) (u : ucall) : answer :=
  match u with
  | UReadline =>
      if existsb (fun p => match fst p with UReadline => true | _ => false end) h then (5, str "cat b" ++ [NUL])
      else (16, str "echo hello you > b" ++ [NUL])
  | _ => (0, [])
  end.

Definition demo_tables : kfs (D := gmap Z (list Z)) := (demo_fs, replicate 256 (-1)).

Lemma demo_tables_ok : tables_ok demo_tables.
Proof.
  split.
  - split; [reflexivity|]. constructor; [reflexivity|]. by apply Forall_replicate.
  - exists 1%nat, demo_unused. by split.
  - left.
  - apply length_replicate.
Qed.

Lemma echo_cat_roundtrip_witness :
  wp (shell_rounds (kernel_env two_lines demo_tables) 2 2)
    (fun _ sh' => exists a, (UPrint (str "hello you" ++ NL), a) ∈ sh_hist sh') (fun _ => False) shell_start.
Proof.
  eapply wp_mono; [apply (echo_cat_roundtrip two_lines name_b (str "hello you") 0 1 demo_tables shell_start 16 5 0)|by intros ? ? [_ ?]|done].
  - apply demo_drive_ok.
  - apply demo_tables_ok.
  - apply (place_new _ _ _ _ 0); [apply demo_unnamed|apply demo_empty_slot|vm_compute; reflexivity].
  - exists [1]. split_and!; [apply NoDup_singleton|reflexivity|].
    intros j Hj. apply list_elem_of_singleton in Hj as ->. split; [unfold SAFE_BLOCKS; lia|apply demo_bit_free].
  - split; [done|simpl; lia|no_nul].
  - split; [done|by repeat constructor].
  - no_nul.
  - discriminate.
  - no_nul.
  - no_nul.
  - vm_compute. lia.
  - vm_compute. lia.
  - by split.
  - reflexivity.
  - intros h. reflexivity.
Defined.
