(* ===== verification/App.v ===== *)
(** * The test program

    Models [app/src/main.c]: it reads a file, forks, and parent and child
    both write to it.  The system calls are those of Shell; [env] answers
    them. *)

From Stdlib Require Import String Ascii.
From S2P Require Import Prelude Bytes FileSys Shell ShellProofs.

Definition SEEK_SET : Z := 0.

Section app.
Context (env : history -> ucall -> answer).

Definition app_ask (u : ucall) : M history answer :=
  h ← get;
  modify (fun h => h ++ [(u, env h u)]);;
  mret (env h u).

(** [printf] of a text with the string in [buf] after it. *)
Definition app_print (text : list byte) (buf : list byte) : M history unit :=
  t ← from_option_or OutOfBounds (text_of buf);
  _ ← app_ask (UPrint (text ++ t ++ NL));
  mret tt.

(** [while(i<(1<<29))i++;] *)
Fixpoint spin (fuel : nat) (i : Z) : M history Z :=
  match fuel with
  | O => fail OutOfFuel
  | S fuel => if i <? Z.shiftl 1 29 then spin fuel (i32 (i + 1)) else mret i
  end.

(** [buf] and [buf2]: what the stack holds when [main] starts. *)
Definition app_main (fuel : nat) (buf buf2 : list byte) : M history unit :=
  '(fd, _) ← app_ask (UOpen (str "singer.txt" ++ [NUL]) FS_RWC);
  '(_, bs) ← app_ask (URead fd 300);
  buf ← from_option_or OutOfBounds (csplice 0 bs buf);
  app_print (str "APP#READ singer.txt: ") buf;;
  _ ← app_ask (ULseek fd 0 SEEK_SET);
  _ ← app_ask UFork;
  buf2 ← from_option_or OutOfBounds (strcpy 0 (str "Hello from the other side!" ++ [NUL]) buf2);
  _ ← app_ask (UWrite fd buf2 26);
  app_print (str "APP#WRITE singer.txt: ") buf2;;
  _ ← spin fuel 0;
  _ ← app_ask UExit;
  jump.

Lemma wp_app_ask u h (Q : answer -> history -> Prop) J : Q (env h u) (h ++ [(u, env h u)]) -> wp (app_ask u) Q J h.
Proof. intros HQ. unfold app_ask. by apply wp_bind, wp_get, wp_bind, wp_modify, wp_ret. Qed.

Lemma wp_app_print text t r h (Q : unit -> history -> Prop) J : NUL ∉ t ->
  (forall a, Q tt (h ++ [(UPrint (text ++ t ++ NL), a)])) -> wp (app_print text (t ++ NUL :: r)) Q J h.
Proof.
  intros Ht HQ. unfold app_print. apply wp_bind. eapply wp_from_option.
  { unfold text_of. rewrite cstring_name by done. cbn. by rewrite take_name. }
  apply wp_bind, wp_app_ask, wp_ret, HQ.
Qed.

(** The counter stays below [1<<29], so it does not wrap. *)
Lemma wp_spin fuel i h (Q : Z -> history -> Prop) J : 0 <= i <= 2 ^ 29 -> 2 ^ 29 - i < Z.of_nat fuel -> Q (2 ^ 29) h -> wp (spin fuel i) Q J h.
Proof.
  revert i. induction fuel as [|fuel IH]; intros i Hi Hf HQ; [lia|]. cbn [spin]. change (Z.shiftl 1 29) with (2 ^ 29).
  destruct (Z.ltb_spec i (2 ^ 29)).
  - rewrite i32_id by (unfold is_i32; lia). apply IH; [lia|lia|done].
  - apply wp_ret. by replace i with (2 ^ 29) by lia.
Qed.

(** The program prints the file up to its first NUL, rewinds, and after
    the fork parent and child alike write the 26 bytes, print them, count to
    [1<<29] and exit; nothing else is called whatever the answers, and it
    ends. *)
Theorem app_run fuel buf buf2 fd x bs l t r h : length buf = 300%nat -> length buf2 = 300%nat -> 2 ^ 29 < Z.of_nat fuel ->
  let opened : ucall * answer := (UOpen (str "singer.txt" ++ [NUL]) FS_RWC, (fd, x)) in
  env h (fst opened) = snd opened -> env (h ++ [opened]) (URead fd 300) = (l, bs) -> (length bs <= 300)%nat ->
  bs ++ drop (length bs) buf = t ++ NUL :: r -> NUL ∉ t ->
  wp (app_main fuel buf buf2) (fun _ _ => False)
    (fun h' => exists a1 a2 pid a3 a4 a5 tail, h' = h ++
       [opened; (URead fd 300, (l, bs)); (UPrint (str "APP#READ singer.txt: " ++ t ++ NL), a1); (ULseek fd 0 SEEK_SET, a2); (UFork, pid);
        (UWrite fd (str "Hello from the other side!" ++ NUL :: tail) 26, a3);
        (UPrint (str "APP#WRITE singer.txt: " ++ str "Hello from the other side!" ++ NL), a4); (UExit, a5)]) h.
Proof.
  intros Hb Hb2 Hf opened He Hr Hbs Et Ht. unfold app_main. apply wp_bind, wp_app_ask. change (UOpen _ _) with (fst opened). rewrite He. cbn [snd opened]. fold opened.
  apply wp_bind, wp_app_ask. destruct (env _ (URead _ _)) as [l' bs'] eqn:E.
  injection Hr as -> ->. apply wp_bind. eapply wp_from_option; [apply csplice_Some; lia|].
  unfold splice. change (Z.to_nat 0) with 0%nat. rewrite take_0, Nat.add_0_l, app_nil_l, Et.
  apply wp_bind, wp_app_print; [done|]. intros a1. apply wp_bind, wp_app_ask, wp_bind, wp_app_ask. apply wp_bind.
  set (hello := str "Hello from the other side!"). assert (Hh : NUL ∉ hello) by no_nul.
  eapply wp_from_option.
  { unfold strcpy. rewrite (cstring_name hello []) by done. cbn [mbind option_bind]. apply csplice_Some; [lia|]. change (length (hello ++ [NUL])) with 27%nat. lia. }
  unfold splice. change (Z.to_nat (Z.of_nat 0)) with 0%nat. rewrite take_0, app_nil_l, <- app_assoc. cbn [app].
  apply wp_bind, wp_app_ask, wp_bind, wp_app_print; [done|]. intros a4. apply wp_bind, wp_spin; [lia|lia|].
  apply wp_bind, wp_app_ask, wp_jump. eexists a1, _, _, _, a4, _, _. rewrite <- !app_assoc. reflexivity.
Qed.
End app.

Definition demo_app : history -> ucall -> answer := demo_env [] (fun _ => (5, str "hello")) 7.

Lemma app_run_witness :
  wp (app_main demo_app (Z.to_nat (2 ^ 29 + 1)) (replicate 300 NUL) (replicate 300 NUL)) (fun _ _ => False)
    (fun h => exists t a, (UPrint (str "APP#READ singer.txt: " ++ t ++ NL), a) ∈ h) [].
Proof.
  eapply wp_mono; [apply (app_run demo_app (Z.to_nat (2 ^ 29 + 1)) (replicate 300 NUL) (replicate 300 NUL) 3 [] (str "hello") 5 (str "hello") (replicate 294 NUL) [])|done|].
  - reflexivity.
  - reflexivity.
  - rewrite Z2Nat.id; lia.
  - reflexivity.
  - reflexivity.
  - vm_compute; lia.
  - vm_compute; reflexivity.
  - no_nul.
  - intros h (a1 & a2 & pid & a3 & a4 & a5 & tail & ->). exists (str "hello"), a1. do 2 right. left.
Defined.
